(* ===== verification/_CoqProject ===== *)
-Q . S2P
Prelude.v
BgpOpen.v
BgpNlri.v
BgpAsPath.v
BgpAttr.v
BgpAttrCodec.v
BgpAttrSafety.v
BgpUpdate.v
BgpHelpers.v
BgpNormalize.v
BgpNeighbor.v
BgpPath.v
BgpDecision.v
BgpDecisionSpec.v
BgpDest.v
BgpDestSpec.v
BgpDestSelect.v
BgpDestProps.v
NetIP.v
BgpRib.v
BgpRibSpec.v
BgpRibSteps.v
BgpRibDown.v
BgpRibWalk.v
BgpRibProps.v
BgpFsm.v
BgpFsmSafety.v
BgpFsmSession.v
NetParse.v
VrrpPacket.v
VrrpPacketSpec.v
VrrpFsm.v
VrrpFsmSpec.v
VrrpFsmProps.v
VrrpServer.v
VrrpServerSpec.v
VrrpServerProps.v
Digest.v
BfdPacket.v
BfdPacketSpec.v
Float32.v
BfdSession.v
BfdSessionSpec.v
BfdSessionProps.v
BfdServer.v
BfdServerSpec.v
BfdServerProps.v
OspfUtil.v
OspfLsa.v
OspfLsaSpec.v
OspfServer.v
OspfSpf.v
OspfSpfSpec.v
OspfSpfProps.v
OspfGraphSpec.v
OspfAreaProps.v
OspfRoute.v
OspfRouteSpec.v
OspfRouteProps.v
OspfIntf.v
OspfIntfSpec.v
OspfHello.v
OspfElection.v
OspfLan.v
OspfIntfProps.v
OspfLsdb.v
OspfLsdbSpec.v
OspfLsdbProps.v
