(* ===== verification/Prelude.v ===== *)
(** * The BGP, OSPF, VRRP and BFD daemons of a layer-3 protocol stack

    The repository is a set of Go daemons (BGP, OSPF, BFD, VRRP, RIB, ARP, NDP,
    DHCP, VXLAN). This library models the BGP daemon: the wire format of its
    messages (src/bgp/packet), the operations on path attributes, the
    configuration of a neighbor (src/bgp/baseobjects), the state machines that run
    a session (src/bgp/fsm), and the selection and installation of routes
    (src/bgp/rib); of the OSPF daemon (src/ospf/server) the interfaces with their Hello
    packets and the election of a designated router, the link state advertisements and
    their database, the shortest paths and the routes that are installed; of the VRRP
    daemon, which lets routers share a virtual address, the advertisements
    (src/vrrp/packet), the state machine
    (src/vrrp/fsm) and the server that runs the machines (src/vrrp/server); and of
    the BFD daemon, which tells other daemons within milliseconds that a neighbour is
    gone, the control packets, the sessions and the server (all in src/bfd/server).

    ** How the parts work together

    A reader goroutine takes a message off a socket and decodes it
    ([BgpNormalize.DecodeMessage], with [BGPHeader_Decode] and
    [BGPMessage_Decode]); an UPDATE's routes and attributes are decoded by
    [BGPUpdate_Decode], and its AS path is widened by [NormalizeASPath]. The
    message becomes an input of the session's machine ([BgpFsm.select_case]),
    which also receives connections, timer expiries, commands and BFD changes,
    and which calls its manager ([BgpFsm.mgr_case], receivedBGPOpenMessage,
    fsmEstablished and the like) when a session opens, collides or closes. Both
    read and write the NeighborConf of the neighbor ([BgpNeighbor]), which the
    server replaces parts of at any time. The attributes of an UPDATE become a
    [Path]. The local RIB ([BgpRib.ProcessUpdate]) asks the route manager for its
    next hop, and finds or makes the destinations of the announced and withdrawn
    prefixes. They store the path under the peer and path identifier
    ([BgpDest.AddOrUpdatePath]); a selection ([BgpDest.SelectRouteForLocRib]) runs
    the decision process ([BgpDecision.calculateBestPath]) over the stored paths
    and tells the route manager what changed. The management interface reads the
    routes from the RIB in pages ([BgpRib.BulkGetBGPRoutes]) while updates come.
    To advertise a route the server rewrites attributes ([BgpHelpers],
    [BgpNormalize.Convert4ByteTo2ByteASPath]) and encodes an UPDATE.

    A virtual router of VRRP is a machine ([VrrpFsm.FSM]). Its goroutine takes
    frames, which [VrrpPacket.Decode] reads, and events of the interface; its two
    timers call [adver_callback] and [down_callback]. As Master it sends what
    [VrrpPacket.Encode] makes of its configuration, and it tells the server when
    the virtual address has to be brought up or down. The
    server ([VrrpServer.sv_step]) holds the virtual routers by interface, id and
    address family, starts and ends their machines as configuration and IP
    interfaces change, and passes the virtual addresses on to the switch.

    BFD has one session for every neighbour that a protocol asks to watch
    ([BfdServer.CreateBfdSession]). A datagram is decoded
    ([BfdServer.StartBfdSesionServer]) and given to the session of its discriminator,
    whose goroutine runs the state machine on it ([BfdSession.ProcessBfdPacket]). One
    timer of the session sends its packets ([SendPeriodicControlPackets]), the other
    finds that nothing has come for the detection time ([HandleSessionTimeout]). A
    change of the state is notified to the protocols, among them BGP, whose session it
    ends ([BgpFsm.bfd_down]).

    Every interface of OSPF has a goroutine that sends a Hello at an interval
    ([OspfIntf.BuildHelloPkt]) and takes events ([OspfIntf.broadcast_step],
    [OspfIntf.p2p_step]); the goroutine that receives packets
    ([OspfIntf.receive_hello]) makes such events of the Hellos of the neighbors. When
    the wait timer runs out, or a neighbor says something new, the routers of the
    network are elected ([OspfIntf.ElectBDRAndDR]) and the database is told. The goroutine of
    the database ([OspfLsdb.lsdb_step]) reads the LSAs of others into the database of their
    area ([processRecvdLsa]), makes those of the router itself when an interface, the
    designated router or an adjacency changes ([generateRouterLSA], [generateNetworkLSA]), a
    route of another protocol comes ([processExtRouteUpd]) or half an hour has gone by
    ([lsdbSelfLsaRefresh]), and makes all a second older ([processLSDatabaseTicker]). When the
    database has changed, [OspfRoute.spfCalculation] makes the graph of every area
    ([OspfSpf.CreateAreaGraph]), the tree of shortest paths in it
    ([OspfSpf.ExecuteDijkstra]) and the routing table, which is compared with the last
    one and installed in ribd ([OspfRoute.InstallRoutingTbl]).

    ** Files

    - [Prelude]: outcomes of Go code ([res]: a value, an error, a panic, or a
      loop that has used up its fuel), octet strings with the checks Go makes on
      indices and slices, big-endian integers, item loops of encoders and
      decoders, the classes [Wire], [WireCodec] and [BufferCodec], tactics and
      hint databases.
    - [BgpOpen]: afisafi.go; header, capabilities, optional parameters, OPEN and
      NOTIFICATION of bgp.go; the OPEN helpers of helpers.go.
    - [BgpNlri]: IPPrefix, ExtNLRI and decodeNLRI of bgp.go.
    - [BgpAsPath]: the AS path segments of bgp.go.
    - [BgpAttr]: the attributes of bgp.go, mpbgp.go and community.go; proofs about
      them in [BgpAttrCodec] (round trips) and [BgpAttrSafety] (untrusted input).
    - [BgpUpdate]: BGPUpdate and checkPathAttributes of bgp.go.
    - [BgpHelpers]: attribute lists, helpers.go up to ConvertIPBytesToUint.
    - [BgpNormalize]: two- and four-octet AS paths (rest of helpers.go),
      BGPMessage of bgp.go, DecodeMessage of conn.go.
    - [BgpNeighbor]: NeighborConf of baseobjects/neighbor.go.
    - [BgpPath]: Path of rib/path.go; [BgpDecision]: the decision process of
      destination.go and the orders of pathsort.go, what it selects proved in
      [BgpDecisionSpec].
    - [BgpDest]: Destination of destination.go, Route of route.go and the list of
      ipv4Route.go; its invariant in [BgpDestSpec], what a selection installs in
      [BgpDestSelect], the theorems and examples in [BgpDestProps].
    - [NetIP]: net.IP.String; [BgpRib]: rib.go. The invariant of its table is in
      [BgpRibSpec], that every operation keeps it in [BgpRibSteps], neighbors that
      go down in [BgpRibDown], reading in pages in [BgpRibWalk], the theorems and
      examples in [BgpRibProps].
    - [BgpFsm]: fsm.go and fsm_manager.go; proofs about them in [BgpFsmSafety]
      (no panic, refinement of the transition table) and [BgpFsmSession] (opening,
      negotiation, collision, teardown).
    - [NetParse]: net.ParseIP, ParseCIDR and ParseMAC. [VrrpPacket]: packet.go,
      encode.go and decode.go of vrrp/packet; checksums, round trips and untrusted
      frames in [VrrpPacketSpec]. [VrrpFsm]: fsm.go, backup.go and master.go of
      vrrp/fsm; the machine of RFC 5798 and that this one follows it in
      [VrrpFsmSpec], the theorems and examples in [VrrpFsmProps].
    - [VrrpServer]: vrrp/server; its invariant in [VrrpServerSpec], the theorems and
      examples in [VrrpServerProps].
    - [Digest]: MD5 and SHA-1; [Float32]: the single-precision arithmetic of the
      jitter. [BfdPacket]: bfdControl.go and bfdAuth.go of bfd/server, with round trips
      and untrusted packets in [BfdPacketSpec]. [BfdSession]: bfdSession.go; its
      invariant and the machine of RFC 5880 in [BfdSessionSpec], the theorems in
      [BfdSessionProps]. [BfdServer]: the tables of sessions and parameters, the rest of
      bfd/server; its invariant in [BfdServerSpec], the theorems in [BfdServerProps].
    - [OspfUtil]: serverUtil.go of ospf/server. [OspfLsa]: ospfLsa.go, with the
      checksums and what arrives in [OspfLsaSpec]. [OspfServer]: the state of the server.
      [OspfSpf]: ospfSPF.go; the queue and the tree in [OspfSpfSpec] and
      [OspfSpfProps], the graph of an area in [OspfGraphSpec], its shortest paths in
      [OspfAreaProps]. [OspfRoute]: ospfRoutingTbl.go, ospfMultiArea.go,
      ospfASExternal.go and a turn of spfCalculation; what ribd holds in
      [OspfRouteSpec], the theorems in [OspfRouteProps].
    - [OspfIntf]: ospfHeader.go, ospfHello.go, ospfIntfFSM.go and the start and stop of
      ospfIntfConf.go. The election of RFC 2328 and that this one is it in
      [OspfIntfSpec], packets in [OspfHello], elections of routers that hear
      different things in [OspfElection], a network of routers with its steps in
      [OspfLan], the theorems and examples in [OspfIntfProps].
    - [OspfLsdb]: ospfLsdb.go, ospfLsdbTimer.go and processMaxAgeLSA of ospfLsa.go. What
      every operation leaves alone, the database as one map, receipt, aging and
      origination in [OspfLsdbSpec], the theorems in [OspfLsdbProps].

    ** Representation

    Integers are [Z] with the wrap-around of their Go type written out ([u8],
    [u16], [u32], [u64]); octets and net.IP are lists of [Z]; a Go map is a [gmap]
    or, where it is a constant table, an association list. A method with a
    pointer receiver returns the new value of its object; objects that are shared
    through pointers (the machines) live in a heap, [objs]. An interface is an
    inductive type with one constructor for each struct that implements it, and a
    call through it is a [match]; a type assertion that fails is [Panic].
    A nil slice and an empty one are the same. Logging is left out.

    Loops whose number of rounds the code does not bound take fuel, and [NoFuel]
    is their outcome when it is used up. An attribute is decoded with one round
    more than the packet has octets, and an NLRI field with one more than its
    length: [attr_decode_safe], [nlri_decode_safe] and [update_decode_safe] prove
    this enough for every input they admit, as each round takes an octet. For the
    loop over the parameters of an OPEN, fuel equal to their number is enough
    ([open_roundtrip]). A result [NoFuel] for every fuel is a loop that does not
    end ([as_path_decode_hangs], [open_decode_hangs]).

    In [BgpFsm] a case of a select is one atomic step of a state monad over the
    machine and the [World]. What a case sends or writes is appended to [trace].
    The results of writes and of the random generator come from an environment
    [Env] that every theorem quantifies over; [env_ok] states what Go documents of
    rand.Int63n and Uint32. The manager walks its map of machines in the order
    of the keys, where Go leaves the order open.

    In [BgpDecision] and [BgpDest] a *Path is an address that a function [path]
    gives the object of, and the routes of a destination live in its heap
    [routes], so that two pointers to one object are seen to be one. The orders in
    which maps are visited and the result of sort.Sort come from environments
    [RibEnv] and [DestEnv]; [env_ok] and [dest_env_ok] state that they permute what
    they are given. The calls on the route manager are returned as a list.

    A [LocRib] holds the heaps of destinations, paths and neighbors: destinations
    and paths are looked up through their address, [rib_conf] is the neighbor a
    path points to, and the calls on the route manager and the state database are
    appended to [rib_trace]. The replies of the route manager come from a
    [LocRibEnv]. An operation runs to its end before the next begins, and
    [timer_fires] is an operation of its own; [rib_reachable] is any sequence of
    them.

    In [VrrpPacket] gopacket is a parameter: a received frame is its layers, and
    [gopacket_ok] says what is made of a frame that was serialized, which
    [kept_layers] does. In [VrrpFsm] a timer is nil, or set to some nanoseconds, or
    expired; its callback is a step of its own, which may come late. A loop of the
    checksum takes fuel 2, which is enough for every 32-bit sum ([fold_carry_canon]).
    In [VrrpServer] the machines are part of the server's state. The channels have no
    buffer: what a machine sends to the server waits in a list, with the sender, until a
    step takes it, and the goroutine takes nothing meanwhile. A message to a machine is
    handled at once, as one step; when no goroutine is there to take it, or it waits for
    the server, the send never returns ([blocked]). A goroutine that is started has come
    to its select before the next operation.

    In [BfdSession] a packet, a timer callback or a call of the server is one step. A
    timer is nil, stopped, or set to some milliseconds. MD5, SHA-1 and float32, which
    are Go's standard library and language, are written out and tried on known values.
    In [BfdServer] a pointer to a session is its number, channels are lists
    ([NoFuel] is a send that waits for ever, or a search that does not end), and random
    numbers, the order of maps, the routing daemon and the switch are parameters.

    In the files of OSPF a case of a goroutine's select is one step on the whole server
    ([OspfServer.OSPFServer]); the goroutine of the database waits for the calculation of
    routes, which is part of its step. What is sent to other goroutines, to ribd and to the
    database of the management is kept in lists. The order of a map ([range]), sort.Sort, the
    numbers of interfaces that asicd gives and commonDefs.IfTypeLoopback are parameters. The
    depth of the graph of an area is bounded by the size of its database ([graph_fuel]), and
    the rounds of the tree by that of the graph ([spf_tree_correct]).

    ** What the theorems show

    - Sessions: no modelled case of either select panics, whatever happens in whatever
      order, with configured times below 4294968 seconds ([session_never_panics]); a
      machine moves as the table [next] says, and stays where it is when it is closed
      ([machine_refines_table]); every event that takes a session to Idle is answered
      with the NOTIFICATION of the table [notification], where it has one, and frees what
      the session held ([session_teardown]); a session opens with a willing peer
      ([session_opens]); a collision leaves one machine ([collision_resolved]);
      hold times are negotiated ([hold_time_negotiated]).
    - Wire format: messages, attributes (without communities), routes and segments
      are read back as they were written ([message_roundtrip], [update_roundtrip],
      [path_attr_roundtrip], [nlri_roundtrip], [open_roundtrip],
      [as_segment_roundtrip]), and changing an attribute keeps it so
      ([path_attr_updates], [as_segment_grow], [community_add]).
    - Untrusted input: what the decoders guarantee on any octets
      ([nlri_decode_safe], [attr_decode_safe], [update_decode_safe],
      [check_path_attributes_spec]) and where they loop or panic
      ([as_path_decode_hangs], [open_decode_hangs], [open_decode_truncated],
      [attr_length_overflow_panics], [update_cut_attr_panics]).
    - Attribute lists: prepending, preferences, conversions
      ([prepend_as_spec], [prepend_list_spec], [set_local_pref_spec],
      [set_med_spec], [normalize_widens], [convert_to_two_octets]) and the faults
      of some of them ([add_attr_order], [originator_id_drops_tail],
      [prepend_list_corrupts], [normalize_as4path_panics],
      [send_as4_to_two_octet_panics], [community_received_unknown]).
    - Configuration: the merged configuration follows the order neighbor, group,
      global, and its timers are always valid ([running_conf_precedence],
      [running_timers_valid]); one update loses the local AS
      ([update_neighbor_loses_local_as]).
    - Route selection: the decision process keeps the paths of the smallest rank, as
      the reference [select] does, in whatever order they come, as long as the first of
      the shortest has the lowest ORIGIN of these
      ([decision_best], [decision_order_independent]), groups paths for multipath
      ([multipath_groups]) and picks additional ones ([additional_paths]); where it
      does not, and where it panics ([origin_step_keeps_worse],
      [additional_paths_exceed], [local_paths_panic]).
    - Destinations: no sequence of announcements, withdrawals and selections upsets
      the maps of a destination ([destination_consistent], [announce_withdraw],
      [peer_withdraws_all]); a selection returns, installs what it selected and
      tells the route manager the difference ([selection_installs],
      [netmask_of_length]); a change it does not report and a panic
      ([best_change_unnoticed], [shared_path_panics]).
    - Local RIB: whatever updates, failures and readers do, the table, the list of
      routes and the counters agree ([rib_consistent]); a neighbor that goes down
      takes all its paths and no other with it ([neighbor_down]); a walk over the
      routes lists a route that stays exactly once, whatever comes and goes
      meanwhile ([walk_complete]), and the list is compacted afterwards
      ([list_compacted]); prefixes over the limit are refused ([prefix_limit]).
      Where it fails: routes that come back ([withdrawn_path_returns]),
      withdrawals that are dropped ([other_length_not_withdrawn]), queries that
      panic ([route_lookup_panics], [bulk_without_routes_panics]).
    - VRRP: a machine that does not own the address follows RFC 5798, section 6.4, with
      the times it sets, but for the first advertisement of a new master
      ([machine_refines_rfc], [first_timer]); two masters that hear each other leave one
      ([one_master_left]); an advertisement arrives at a router of the same code as it was
      sent ([advertisement_arrives], [header_roundtrip]); the IPv6 checksum is that of
      RFC 1071 and the IPv4 one differs from it by a carry ([v6_checksum_rfc],
      [v4_checksum_rfc]); which frames stop the daemon ([decode_v4_returns],
      [decode_v6_returns]); and faults of the machine ([vrid_ignored],
      [late_callback], [up_while_master], [owner_without_address]). The server's tables
      stay consistent and its state can always be read ([server_consistent]); disabling
      VRRP ends every machine, or blocks the server when one does not run or waits for it
      ([disable_stops], [waiting_machine_blocks]); routers that miss a state change
      ([second_router_unnoticed], [readded_address_unnoticed]).
    - BFD: two sessions come up within three packets each way
      ([bfd_sessions_come_up]); a session takes packets as RFC 5880, section 6.8.6,
      says, with five differences ([bfd_receive_refines_rfc]); a neighbour that goes
      silent is detected and reported ([bfd_timeout_detected]), except after an interval
      below a millisecond ([bfd_short_interval_freezes]); nothing stops a session without
      authentication ([bfd_session_safe]), and authentication stops the daemon or
      proves nothing ([bfd_auth_panics], [bfd_auth_forged]); packets are sent at the
      interval less the jitter ([bfd_jitter_bounds]), and read back as they were sent
      ([bfd_packet_roundtrip], [bfd_packet_typed]); the packets that stop the decoder
      ([bfd_decode_panics]). The tables of the server agree after any sequence of
      events ([bfd_server_consistent]); sessions are created, found and deleted in all
      of them ([bfd_session_created], [bfd_dispatch_target], [bfd_session_deleted]), the
      retry handler ends and passes over every second session ([bfd_retry_terminates]); and where the server fails
      ([bfd_ids_exhausted], [bfd_param_delete_panics], [bfd_reset_never_recovers]).
    - OSPF interfaces: the routers of a network that have all heard each other agree on the
      designated router and its backup, in whatever order their Hellos and wait timers come
      ([ospf_lan_agrees]), and at no time are there two of either
      ([ospf_one_designated_router]); an election is
      that of RFC 2328, section 9.4 ([ospf_election_rfc]); a Hello says at the other end
      what it said at the first ([ospf_hello_arrives]), and with a wrong length it stops
      the daemon ([ospf_hello_length_panics]).
    - OSPF databases: whatever comes, the maps hold LSAs of their types
      ([ospf_lsdb_typed]); an LSA that arrives is taken when it is newer
      ([ospf_lsa_received]), so that routers that receive the same LSAs in different orders
      have the same database ([ospf_flooding_converges]), which does not hold for router
      LSAs; an LSA that nothing replaces leaves the database at MaxAge
      ([ospf_lsa_lifetime]); the router LSA has the links of the interfaces and reaches the
      database of a neighbor ([ospf_router_lsa_reaches]).
    - OSPF routes: an LSA arrives as it was sent ([ospf_lsa_arrives]); the tree of an
      area holds the reachable vertices with paths of their recorded cost
      ([spf_tree_correct]), and where its routers use one metric these are all the
      shortest paths of the database ([area_spf_shortest], [spf_equal_metrics_optimal]); what ribd
      holds is the routing table, after every calculation ([ospf_install_routes],
      [ospf_rib_follows_table]); and where it fails: [spf_stale_distance],
      [spf_max_metric_wraps], [spf_dangling_link_stops_area],
      [ospf_max_metric_panics].

    ** What is not modelled

    In the session layer: sockets, dialling and the partial reads of conn.go; the
    transmission of UPDATEs (pktTxCh, sendUpdateMessage, SendUpdateMsg and
    ConstructMaxSizedUpdatePackets); AggregateASPaths and the functions that
    construct attributes for local and aggregated routes; interleavings inside a
    case, locks and channel capacities; the formatting of values for logs and
    displays. Of GlobalConfig only the AS and the router id are kept, of the
    counters only those of messages. In the RIB: aggregate
    routes (rib.go) and the aggregation of their paths (path.go), the policies of a route
    (routeandpolicy.go) and the conversion to model objects. Outside both:
    advertisement (src/bgp/server), the Thrift layer of VRRP (src/vrrp/flexswitch); the sessions per
    link of BFD, which write raw frames through libpcap, its subscribers to other daemons
    and its Thrift layer; the neighbor machines of OSPF, its database descriptions,
    requests and flooding, the log of its events and its configuration; the
    other daemons. The policy engine and the Thrift types live in other repositories. *)

From stdpp Require Export base numbers list option strings gmap.
From Stdlib Require Export Lia.

#[global] Open Scope Z_scope.

(** ** Go run-time outcomes *)

(** The errors the packages return: [BGPMessageError] is the struct of
    src/bgp/packet/bgp.go without its free-text [Message]; [ErrText] is a value
    made by errors.New. *)
Inductive goerr : Type :=
| BGPMessageError (TypeCode SubTypeCode : Z) (Data : list Z)
| ErrText (msg : string).

(** A Go call returns a value, returns an error, panics (index or slice out of
    range, nil dereference, failed type assertion), or is still looping when
    the fuel given to its loop is used up. *)
Inductive res (A : Type) : Type :=
| Ok (a : A)
| Err (e : goerr)
| Panic
| NoFuel.
Arguments Ok {A} a.
Arguments Err {A} e.
Arguments Panic {A}.
Arguments NoFuel {A}.

#[export] Instance goerr_eq_dec : EqDecision goerr.
Proof. solve_decision. Defined.

#[export] Instance res_eq_dec {A} `{EqDecision A} : EqDecision (res A).
Proof. solve_decision. Defined.

#[export] Instance res_ret : MRet res := fun A a => Ok a.

#[export] Instance res_bind : MBind res := fun A B f m =>
  match m with
  | Ok a => f a
  | Err e => Err e
  | Panic => Panic
  | NoFuel => NoFuel
  end.

#[export] Instance res_fmap : FMap res := fun A B f m =>
  match m with
  | Ok a => Ok (f a)
  | Err e => Err e
  | Panic => Panic
  | NoFuel => NoFuel
  end.

(** [if cond { return err }] *)
Definition guard_err (cond : bool) (e : goerr) : res unit :=
  if cond then Err e else Ok tt.

(** A panicking precondition of the run time, such as a failed type assertion. *)
Definition must (cond : bool) : res unit :=
  if cond then Ok tt else Panic.

Definition of_option {A} (o : option A) : res A :=
  match o with Some a => Ok a | None => Panic end.

Definition is_ok {A} (r : res A) : bool :=
  match r with Ok _ => true | _ => false end.

(** A call that neither panics nor loops, and whose value satisfies [P]. *)
Definition safe {A} (r : res A) (P : A -> Prop) : Prop :=
  match r with Ok a => P a | Err _ => True | Panic | NoFuel => False end.

Lemma safe_bind {A B} (m : res A) (k : A -> res B) (P : A -> Prop) (Q : B -> Prop) :
  safe m P -> (forall a, m = Ok a -> P a -> safe (k a) Q) -> safe (m ≫= k) Q.
Proof. destruct m; cbn; eauto. Qed.

Lemma safe_mono {A} (m : res A) (P Q : A -> Prop) :
  safe m P -> (forall a, P a -> Q a) -> safe m Q.
Proof. destruct m; cbn; eauto. Qed.

(** ** Fixed-width integers *)

Definition u8 (x : Z) : Z := x mod 256.
Definition u16 (x : Z) : Z := x mod 65536.
Definition u32 (x : Z) : Z := x mod 4294967296.
Definition u64 (x : Z) : Z := x mod 18446744073709551616.

(** Two's complement int32. *)
Definition i32 (x : Z) : Z := (x + 2147483648) mod 4294967296 - 2147483648.

Definition is_u8 (x : Z) : Prop := 0 <= x < 256.
Definition is_u16 (x : Z) : Prop := 0 <= x < 65536.
Definition is_u32 (x : Z) : Prop := 0 <= x < 4294967296.
Definition is_u64 (x : Z) : Prop := 0 <= x < 18446744073709551616.
Definition is_i32 (x : Z) : Prop := -2147483648 <= x < 2147483648.

(** [x & mask != 0] *)
Definition has_bits (x mask : Z) : bool := negb (Z.land x mask =? 0).

(** ** Byte slices *)

Abbreviation bytes := (list Z).

Definition is_bytes (l : bytes) : Prop := Forall is_u8 l.

Definition len {A} (l : list A) : Z := Z.of_nat (length l).

(** [make([]byte, n)] *)
Definition zeros (n : Z) : bytes := replicate (Z.to_nat n) 0.

(** [s[i]] *)
Definition index {A} (s : list A) (i : Z) : res A :=
  if i <? 0 then Panic else of_option (s !! Z.to_nat i).

(** [s[i:]]; slices are modelled with capacity equal to length, which is how
    every packet buffer of the code is made, so a bound past the length panics. *)
Definition slice_from {A} (s : list A) (i : Z) : res (list A) :=
  if (0 <=? i) && (i <=? len s) then Ok (drop (Z.to_nat i) s) else Panic.

(** [s[i:j]] *)
Definition slice {A} (s : list A) (i j : Z) : res (list A) :=
  if (0 <=? i) && (i <=? j) && (j <=? len s)
  then Ok (take (Z.to_nat (j - i)) (drop (Z.to_nat i) s)) else Panic.

(** [s[i] = v] *)
Definition set_index {A} (s : list A) (i : Z) (v : A) : res (list A) :=
  if (0 <=? i) && (i <? len s) then Ok (<[Z.to_nat i := v]> s) else Panic.

(** [copy(dst, src)]: the elements that fit. *)
Definition copy {A} (dst src : list A) : list A :=
  take (length dst) src ++ drop (length src) dst.

(** Run [f] on the sub-slice [s[i:]] that shares its memory with [s]. *)
Definition on_suffix {A} (s : list A) (i : Z) (f : list A -> res (list A)) : res (list A) :=
  sub ← slice_from s i;
  sub' ← f sub;
  Ok (take (Z.to_nat i) s ++ sub').

(** [copy(s[i:], src)] *)
Definition copy_at {A} (s : list A) (i : Z) (src : list A) : res (list A) :=
  on_suffix s i (fun sub => Ok (copy sub src)).

(** encoding/binary, big endian. *)
Definition be16 (v : Z) : bytes := [u8 (v / 256); u8 v].
Definition be32 (v : Z) : bytes :=
  [u8 (v / 16777216); u8 (v / 65536); u8 (v / 256); u8 v].
Definition be64 (v : Z) : bytes := be32 (v / 4294967296) ++ be32 v.

Definition Uint16 (s : bytes) : res Z :=
  match s with
  | a :: b :: _ => Ok (a * 256 + b)
  | _ => Panic
  end.

Definition Uint32 (s : bytes) : res Z :=
  match s with
  | a :: b :: c :: d :: _ => Ok (((a * 256 + b) * 256 + c) * 256 + d)
  | _ => Panic
  end.

Definition Uint64 (s : bytes) : res Z :=
  hi ← Uint32 s;
  s' ← slice_from s 4;
  lo ← Uint32 s';
  Ok (hi * 4294967296 + lo).

(** [binary.BigEndian.PutUintN(s, v)] with [enc] the N-bit encoding of [v]. *)
Definition put (s : bytes) (enc : bytes) : res bytes :=
  if len enc <=? len s then Ok (copy s enc) else Panic.

Definition PutUint16 (s : bytes) (i v : Z) : res bytes :=
  on_suffix s i (fun sub => put sub (be16 v)).
Definition PutUint32 (s : bytes) (i v : Z) : res bytes :=
  on_suffix s i (fun sub => put sub (be32 v)).
Definition PutUint64 (s : bytes) (i v : Z) : res bytes :=
  on_suffix s i (fun sub => put sub (be64 v)).

(** A Go map literal with integer keys. *)
Fixpoint assocZ {A} (m : list (Z * A)) (k : Z) : option A :=
  match m with
  | [] => None
  | (k', v) :: m' => if k' =? k then Some v else assocZ m' k
  end.

(** ** The loops the packet decoders share

    Three decoders walk a packet with an offset of a fixed width and a signed
    count of the octets left, decoding one item at [pkt[offset:]] per turn.
    [wrap] is the conversion to the offset's type. The result is the items, the
    last offset and the last count. *)
Section DecodeItems.
Context {A : Type} (wrap : Z -> Z) (dec : bytes -> res A) (size : A -> Z).

Fixpoint decode_items (fuel : nat) (pkt : bytes) (offset remaining : Z) (acc : list A)
  : res (list A * Z * Z) :=
  if 0 <? remaining then
    match fuel with
    | O => NoFuel
    | S fuel =>
      sub ← slice_from pkt offset;
      item ← dec sub;
      decode_items fuel pkt (wrap (offset + size item)) (remaining - size item) (acc ++ [item])
    end
  else Ok (acc, offset, remaining).
End DecodeItems.

(** [for _, x := range xs { b, err := x.Encode(); pkt = append(pkt, b...) }] *)
Fixpoint encode_items {A} (enc : A -> res bytes) (pkt : bytes) (xs : list A) : res bytes :=
  match xs with
  | [] => Ok pkt
  | x :: xs =>
    b ← enc x;
    encode_items enc (pkt ++ b) xs
  end.

(** [for i, v := range vs { put(pkt[off(i):], v) }], from index [i]. *)
Fixpoint write_all {A} (write : bytes -> Z -> A -> res bytes) (pkt : bytes) (i : Z) (vs : list A)
  : res bytes :=
  match vs with
  | [] => Ok pkt
  | v :: vs =>
    pkt ← write pkt i v;
    write_all write pkt (i + 1) vs
  end.

(** [for ; i < i + n; i++ { vs[i] = read(i) }] *)
Fixpoint read_all {A} (read : Z -> res A) (n : nat) (i : Z) : res (list A) :=
  match n with
  | O => Ok []
  | S n =>
    v ← read i;
    vs ← read_all read n (i + 1);
    Ok (v :: vs)
  end.

(** [s = append(s, fill...); copy(s[len(xs):], s[0:]); for i, v := range xs { s[i] = v }] *)
Definition insert_front {A} (s fill xs : list A) : res (list A) :=
  s ← copy_at (s ++ fill) (len xs) (s ++ fill);
  Ok (copy s xs).

(** ** Reference wire formats

    [Wire A] gives the octets that stand for an item and the items that have
    a representation; [WireCodec enc dec size] says that a Go encoder, decoder
    and length method implement that format. The loops above are proved correct
    against this interface, and each packet component discharges it. *)
Class Wire (A : Type) := {
  wire_bytes : A -> bytes;
  wire_wf : A -> Prop;
}.

Class WireCodec {A} `{Wire A} (enc : A -> res bytes) (dec : bytes -> res A) (size : A -> Z)
  : Prop := {
  codec_enc a : wire_wf a -> enc a = Ok (wire_bytes a);
  codec_dec a rest : wire_wf a -> dec (wire_bytes a ++ rest) = Ok a;
  codec_size a : wire_wf a -> size a = len (wire_bytes a);
  codec_pos a : wire_wf a -> 0 < len (wire_bytes a);
}.

(** The same for an encoder that fills the front of a buffer it is given. *)
Class BufferCodec {A} `{Wire A} (enc : A -> bytes -> res bytes) (dec : bytes -> res A)
  (size : A -> Z) : Prop := {
  buf_enc a n : wire_wf a -> len (wire_bytes a) <= n ->
    enc a (zeros n) = Ok (wire_bytes a ++ zeros (n - len (wire_bytes a)));
  buf_dec a rest : wire_wf a -> dec (wire_bytes a ++ rest) = Ok a;
  buf_size a : wire_wf a -> size a = len (wire_bytes a);
  buf_pos a : wire_wf a -> 0 < len (wire_bytes a);
}.

(** A list of integers of one width. *)
Definition words (enc : Z -> bytes) (vs : list Z) : bytes := concat (map enc vs).

Definition wire_list {A} `{Wire A} (xs : list A) : bytes := concat (map wire_bytes xs).

(** ** Tactics *)

(** Linear arithmetic with the fixed widths unfolded and division by
    constants turned into equations. *)
Ltac unfold_widths :=
  unfold is_u8, is_u16, is_u32, is_u64, is_i32, u8, u16, u32, u64, i32 in *.
Ltac zlia := unfold_widths; Z.div_mod_to_equations; lia.

(** Closed goals built from conjunctions, [Forall] and comparisons. *)
Ltac ground :=
  hnf;
  lazymatch goal with
  | |- _ /\ _ => split; ground
  | |- Forall _ _ => constructor; ground
  | |- _ => first [done | vm_compute; congruence]
  end.

(** Run the binds of a [res] computation whose first step has a known value. *)
Ltac res_simpl := cbn [mbind res_bind fmap res_fmap mret res_ret guard_err must of_option] in *.

(** Split the outcome of a [res] computation in a hypothesis. *)
Ltac res_inv H :=
  repeat match type of H with
  | (?m ≫= _) = Ok _ =>
      let E := fresh "E" in destruct m eqn:E; cbn [mbind res_bind] in H; try discriminate H
  | Ok _ = Ok _ => injection H as H
  | Err _ = Ok _ => discriminate H
  | Panic = Ok _ => discriminate H
  | NoFuel = Ok _ => discriminate H
  end.

(** ** Lemmas on lists and lengths *)

Create HintDb slices.
Create Rewrite HintDb slices.

Lemma len_nil {A} : len (@nil A) = 0.
Proof. reflexivity. Qed.

Lemma len_cons {A} (x : A) l : len (x :: l) = 1 + len l.
Proof. unfold len. cbn [length]. lia. Qed.

Lemma len_app {A} (l k : list A) : len (l ++ k) = len l + len k.
Proof. unfold len. rewrite length_app. lia. Qed.

Lemma len_nonneg {A} (l : list A) : 0 <= len l.
Proof. unfold len. lia. Qed.

Lemma len_map {A B} (f : A -> B) l : len (map f l) = len l.
Proof. unfold len. by rewrite length_map. Qed.

Lemma len_insert {A} (l : list A) (i : nat) x : len (<[i:=x]> l) = len l.
Proof. unfold len. by rewrite length_insert. Qed.

Lemma len_zeros n : 0 <= n -> len (zeros n) = n.
Proof. intros. unfold len, zeros. rewrite length_replicate. lia. Qed.

Lemma len_be16 v : len (be16 v) = 2.
Proof. reflexivity. Qed.
Lemma len_be32 v : len (be32 v) = 4.
Proof. reflexivity. Qed.
Lemma len_be64 v : len (be64 v) = 8.
Proof. reflexivity. Qed.

Lemma to_nat_len {A} (l : list A) : Z.to_nat (len l) = length l.
Proof. unfold len. lia. Qed.

#[export] Hint Rewrite @len_nil @len_cons @len_app @len_map len_be16 len_be32 len_be64
  : slices.

Ltac len_simpl := autorewrite with slices in *.

Lemma drop_zeros k n : drop k (zeros n) = zeros (n - Z.of_nat k).
Proof.
  unfold zeros. destruct (decide (0 <= n)).
  - rewrite drop_replicate. f_equal. lia.
  - rewrite drop_replicate. f_equal. lia.
Qed.

Lemma zeros_0 : zeros 0 = [].
Proof. reflexivity. Qed.

(** Side conditions of the slice lemmas: lengths and bounds. *)
Ltac side := first [done | len_simpl; first [done | zlia]].

(** A key above all keys of a map literal. *)
Lemma assocZ_above {A} (m : list (Z * A)) top k :
  forallb (fun p => p.1 <? top) m = true -> top <= k -> assocZ m k = None.
Proof.
  intros Hm Hk. induction m as [|[k' v] m IH]; [done|]. cbn in *.
  apply andb_true_iff in Hm as [H1 H2]. rewrite (proj2 (Z.eqb_neq _ _)) by lia. auto.
Qed.

(** ** Slices of a list with a known prefix *)

Lemma slice_from_app {A} (pre s : list A) i :
  i = len pre -> slice_from (pre ++ s) i = Ok s.
Proof.
  intros ->. unfold slice_from. rewrite len_app, to_nat_len, drop_app_length.
  pose proof (len_nonneg pre). pose proof (len_nonneg s).
  destruct (0 <=? len pre) eqn:?, (len pre <=? len pre + len s) eqn:?; cbn; lia || done.
Qed.

Lemma slice_from_0 {A} (s : list A) : slice_from s 0 = Ok s.
Proof. by apply (slice_from_app []). Qed.

(** The payload behind a two-octet header. *)
Lemma slice_from_2 {A} (a b : A) s : slice_from (a :: b :: s) 2 = Ok s.
Proof. by apply (slice_from_app [a; b]). Qed.

Lemma slice_from_range {A} (s : list A) i :
  0 <= i <= len s -> slice_from s i = Ok (drop (Z.to_nat i) s).
Proof.
  intros. unfold slice_from.
  destruct (0 <=? i) eqn:?, (i <=? len s) eqn:?; cbn; lia || done.
Qed.

Lemma slice_range {A} (s : list A) i j :
  0 <= i -> i <= j <= len s ->
  slice s i j = Ok (take (Z.to_nat (j - i)) (drop (Z.to_nat i) s)).
Proof.
  intros. unfold slice.
  destruct (0 <=? i) eqn:?, (i <=? j) eqn:?, (j <=? len s) eqn:?; cbn; lia || done.
Qed.

Lemma slice_app {A} (pre mid post : list A) i j :
  i = len pre -> j = len pre + len mid -> slice (pre ++ mid ++ post) i j = Ok mid.
Proof.
  intros -> ->. pose proof (len_nonneg pre). pose proof (len_nonneg mid).
  pose proof (len_nonneg post).
  rewrite slice_range by (len_simpl; lia).
  rewrite to_nat_len, drop_app_length.
  replace (Z.to_nat _) with (length mid) by (unfold len; lia).
  by rewrite take_app_length.
Qed.

Lemma slice_to_app {A} (mid post : list A) j :
  j = len mid -> slice (mid ++ post) 0 j = Ok mid.
Proof. intros ->. by apply (slice_app [] mid post). Qed.

Lemma index_app {A} (pre : list A) x post i :
  i = len pre -> index (pre ++ x :: post) i = Ok x.
Proof.
  intros ->. unfold index. pose proof (len_nonneg pre).
  destruct (len pre <? 0) eqn:?; [lia|].
  by rewrite to_nat_len, list_lookup_middle.
Qed.

Lemma set_index_app {A} (pre : list A) x post i v :
  i = len pre -> set_index (pre ++ x :: post) i v = Ok (pre ++ v :: post).
Proof.
  intros ->. unfold set_index. len_simpl. pose proof (len_nonneg pre).
  pose proof (len_nonneg post).
  destruct (_ && _) eqn:Eb; [|lia].
  by rewrite to_nat_len, insert_app_r_alt, Nat.sub_diag by lia.
Qed.

Lemma copy_fits {A} (dst src : list A) :
  len src <= len dst -> copy dst src = src ++ drop (length src) dst.
Proof.
  unfold len, copy. intros. rewrite take_ge by lia. done.
Qed.

Lemma copy_all {A} (dst src : list A) : len dst = len src -> copy dst src = src.
Proof.
  intros. rewrite copy_fits by lia. unfold len in *. rewrite drop_ge by lia. apply app_nil_r.
Qed.

(** Only the octets that fit are copied. *)
Lemma copy_prefix {A} (dst src rest : list A) :
  len src = len dst -> copy dst (src ++ rest) = src.
Proof.
  intros H. unfold copy, len in *. rewrite take_app_le, take_ge by lia.
  rewrite drop_ge by (rewrite length_app; lia). apply app_nil_r.
Qed.

Lemma on_suffix_app {A} (pre s : list A) i f :
  i = len pre -> on_suffix (pre ++ s) i f = s' ← f s; Ok (pre ++ s').
Proof.
  intros ->. unfold on_suffix. rewrite (slice_from_app pre s) by done. res_simpl.
  by rewrite to_nat_len, take_app_length.
Qed.

(** Writing [src] at the end of what is written so far, into a zeroed rest. *)
Lemma copy_at_zeros pre src n i :
  i = len pre -> len src <= n ->
  copy_at (pre ++ zeros n) i src = Ok ((pre ++ src) ++ zeros (n - len src)).
Proof.
  intros -> ?. unfold copy_at. rewrite on_suffix_app by done. res_simpl.
  pose proof (len_nonneg src).
  rewrite copy_fits by (rewrite len_zeros; lia).
  by rewrite drop_zeros, app_assoc.
Qed.

Lemma put_zeros enc n :
  len enc <= n -> put (zeros n) enc = Ok (enc ++ zeros (n - len enc)).
Proof.
  intros. pose proof (len_nonneg enc). unfold put.
  rewrite len_zeros by lia. destruct (len enc <=? n) eqn:?; [|lia].
  rewrite copy_fits by (rewrite len_zeros; lia). by rewrite drop_zeros.
Qed.

Lemma PutUint16_zeros pre n i v :
  i = len pre -> 2 <= n ->
  PutUint16 (pre ++ zeros n) i v = Ok ((pre ++ be16 v) ++ zeros (n - 2)).
Proof.
  intros. unfold PutUint16. rewrite on_suffix_app, put_zeros by done. res_simpl.
  by rewrite app_assoc.
Qed.

Lemma PutUint32_zeros pre n i v :
  i = len pre -> 4 <= n ->
  PutUint32 (pre ++ zeros n) i v = Ok ((pre ++ be32 v) ++ zeros (n - 4)).
Proof.
  intros. unfold PutUint32. rewrite on_suffix_app, put_zeros by done. res_simpl.
  by rewrite app_assoc.
Qed.

Lemma PutUint64_zeros pre n i v :
  i = len pre -> 8 <= n ->
  PutUint64 (pre ++ zeros n) i v = Ok ((pre ++ be64 v) ++ zeros (n - 8)).
Proof.
  intros. unfold PutUint64. rewrite on_suffix_app, put_zeros by done. res_simpl.
  by rewrite app_assoc.
Qed.

Lemma zeros_S n : 1 <= n -> zeros n = 0 :: zeros (n - 1).
Proof.
  intros. unfold zeros. replace (Z.to_nat n) with (S (Z.to_nat (n - 1))) by lia. done.
Qed.

Lemma set_index_zeros pre n i v :
  i = len pre -> 1 <= n ->
  set_index (pre ++ zeros n) i v = Ok ((pre ++ [v]) ++ zeros (n - 1)).
Proof.
  intros -> ?. unfold set_index. len_simpl. rewrite len_zeros by lia.
  pose proof (len_nonneg pre).
  destruct (0 <=? len pre) eqn:?, (len pre <? len pre + n) eqn:?; try lia. cbn [andb].
  rewrite (zeros_S n) by lia.
  rewrite to_nat_len, insert_app_r_alt, Nat.sub_diag by lia. cbn.
  by rewrite <- app_assoc.
Qed.

(** Moving a list back to make room for [xs] in front of it. *)
Lemma insert_front_eq {A} (s fill xs : list A) :
  len fill = len xs -> insert_front s fill xs = Ok (xs ++ s).
Proof.
  intros Hl. unfold insert_front, copy_at, on_suffix. pose proof (len_nonneg s).
  pose proof (len_nonneg xs). rewrite slice_from_range by (len_simpl; lia). res_simpl.
  unfold len in *. rewrite Nat2Z.id. f_equal. unfold copy.
  rewrite !length_app, !length_take, !length_drop, !length_app.
  rewrite (take_ge xs) by lia. f_equal.
  rewrite drop_app_ge by (rewrite length_take, length_app; lia).
  rewrite length_take, length_app.
  replace (length xs - (length xs `min` _))%nat with 0%nat by lia. rewrite drop_0.
  rewrite (drop_ge (drop _ _)) by (rewrite length_drop, length_app; lia). rewrite app_nil_r.
  rewrite take_app_le by lia. by rewrite take_ge by lia.
Qed.

(** Writing integers of [w] octets one after the other. *)
Lemma write_all_words (write : bytes -> Z -> Z -> res bytes) (enc : Z -> bytes) (w : Z) off pre n i vs :
  (forall v, len (enc v) = w) ->
  (forall pre n i v, i = len pre -> w <= n ->
     write (pre ++ zeros n) i v = Ok ((pre ++ enc v) ++ zeros (n - w))) ->
  (forall k, 0 <= k < len vs -> off (i + k) = len pre + w * k) ->
  w * len vs <= n ->
  write_all (fun pkt i v => write pkt (off i) v) (pre ++ zeros n) i vs
  = Ok ((pre ++ words enc vs) ++ zeros (n - w * len vs)).
Proof.
  intros Hlen Hw. assert (0 <= w) as Hw0 by (rewrite <- (Hlen 0); apply len_nonneg).
  revert pre n i. induction vs as [|v vs IH]; intros pre n i Hoff Hn.
  - cbn [write_all words map concat]. len_simpl. by rewrite Z.mul_0_r, Z.sub_0_r, app_nil_r.
  - cbn [write_all]. pose proof (len_nonneg vs). len_simpl.
    assert (0 <= w * len vs) by nia.
    assert (off i = len pre) as Hi.
    { rewrite <- (Z.add_0_r i), Hoff by side. lia. }
    rewrite Hw by lia. res_simpl. rewrite IH.
    + unfold words. cbn [map concat]. rewrite <- !app_assoc.
      by replace (n - w - w * len vs) with (n - w * (1 + len vs)) by ring.
    + intros k Hk. len_simpl. rewrite Hlen, <- Z.add_assoc, Hoff by side. ring.
    + lia.
Qed.

Lemma len_words enc w vs : (forall v, len (enc v) = w) -> len (words enc vs) = w * len vs.
Proof.
  intros He. induction vs as [|v vs IH]; [len_simpl; cbn; lia|].
  unfold words in *. cbn [map concat]. len_simpl. rewrite IH, He. lia.
Qed.

(** Reading them back. *)
Lemma read_all_words (read : Z -> res Z) (enc : Z -> bytes) (w : Z) off (P : Z -> Prop) top pkt pre vs rest i :
  (forall v, len (enc v) = w) ->
  (forall j v pre' post, P v -> pkt = pre' ++ enc v ++ post -> off j = len pre' ->
     len pre' + w <= top -> read j = Ok v) ->
  (forall k, 0 <= k < len vs -> off (i + k) = len pre + w * k) ->
  Forall P vs -> len pre + w * len vs <= top ->
  pkt = pre ++ words enc vs ++ rest ->
  read_all read (length vs) i = Ok vs.
Proof.
  intros Hlen Hread Hoff Hvs. assert (0 <= w) as Hw by (rewrite <- (Hlen 0); apply len_nonneg).
  revert pre i Hoff. induction Hvs as [|v vs Hv _ IH]; intros pre i Hoff Htop Hpkt; [done|].
  unfold words in Hpkt. cbn [map concat] in Hpkt. rewrite <- app_assoc in Hpkt.
  cbn [length read_all]. pose proof (len_nonneg vs). len_simpl.
  assert (0 <= w * len vs) by nia.
  rewrite (Hread i v pre _ Hv Hpkt); [| |lia].
  2:{ rewrite <- (Z.add_0_r i), Hoff by side. lia. }
  res_simpl. rewrite (IH (pre ++ enc v)); [done| | |].
  - intros k Hk. len_simpl. rewrite Hlen, <- Z.add_assoc, Hoff by side. ring.
  - len_simpl. rewrite Hlen. lia.
  - by rewrite <- app_assoc.
Qed.

(** ** Big-endian integers *)

Lemma is_u8_u8 x : is_u8 (u8 x).
Proof. zlia. Qed.

Lemma land_range n x m : 0 <= n -> 0 <= x < 2 ^ n -> 0 <= Z.land x m < 2 ^ n.
Proof.
  intros Hn Hx. rewrite <- (Z.mod_small x (2 ^ n)) by done.
  rewrite <- Z.land_ones by done. rewrite <- Z.land_assoc, (Z.land_comm (Z.ones n)), Z.land_assoc.
  rewrite Z.land_ones by done. apply Z.mod_pos_bound. by apply Z.pow_pos_nonneg.
Qed.

Lemma is_u8_land x m : is_u8 x -> is_u8 (Z.land x m).
Proof. by apply (land_range 8). Qed.

Lemma is_bytes_lookup l i x : is_bytes l -> l !! i = Some x -> is_u8 x.
Proof. apply Forall_lookup_1. Qed.

Lemma is_bytes_take l n : is_bytes l -> is_bytes (take n l).
Proof. apply Forall_take. Qed.

Lemma is_bytes_drop l n : is_bytes l -> is_bytes (drop n l).
Proof. apply Forall_drop. Qed.

Lemma is_bytes_zeros n : is_bytes (zeros n).
Proof. apply Forall_replicate. zlia. Qed.

Lemma is_bytes_app l k : is_bytes (l ++ k) <-> is_bytes l /\ is_bytes k.
Proof. apply Forall_app. Qed.

Lemma is_bytes_be16 v : is_bytes (be16 v).
Proof. repeat constructor; apply is_u8_u8. Qed.
Lemma is_bytes_be32 v : is_bytes (be32 v).
Proof. repeat constructor; apply is_u8_u8. Qed.
Lemma is_bytes_be64 v : is_bytes (be64 v).
Proof. apply is_bytes_app. split; apply is_bytes_be32. Qed.

#[export] Hint Resolve is_u8_u8 is_u8_land is_bytes_be16 is_bytes_be32 is_bytes_be64
  is_bytes_take is_bytes_drop is_bytes_zeros : slices.

Lemma Uint16_be16 v rest : is_u16 v -> Uint16 (be16 v ++ rest) = Ok v.
Proof. intros. cbn. f_equal. zlia. Qed.

Lemma Uint32_be32 v rest : is_u32 v -> Uint32 (be32 v ++ rest) = Ok v.
Proof. intros. cbn. f_equal. zlia. Qed.

Lemma Uint64_be64 v rest : is_u64 v -> Uint64 (be64 v ++ rest) = Ok v.
Proof.
  intros. unfold Uint64, be64. rewrite <- app_assoc.
  rewrite Uint32_be32 by zlia. res_simpl.
  rewrite slice_from_app by done. res_simpl.
  unfold be32 at 1. cbn. f_equal. zlia.
Qed.

Lemma Uint16_range s v : is_bytes s -> Uint16 s = Ok v -> is_u16 v.
Proof.
  intros Hs. destruct s as [|a [|b s]]; cbn; try done. intros [= <-].
  apply Forall_cons in Hs as [? [? _]%Forall_cons]. zlia.
Qed.

Lemma Uint16_ok s : 2 <= len s -> exists v, Uint16 s = Ok v.
Proof. destruct s as [|a [|b s]]; cbn; len_simpl; try lia; eauto. Qed.

(** ** Calls that stay within bounds *)

Lemma index_safe {A} (s : list A) i : 0 <= i < len s -> exists x, index s i = Ok x /\ s !! Z.to_nat i = Some x.
Proof.
  intros. unfold index. rewrite (proj2 (Z.ltb_ge _ _)) by lia.
  destruct (s !! Z.to_nat i) as [x|] eqn:E; [eauto|].
  apply lookup_ge_None in E. unfold len in *. lia.
Qed.

Lemma index_bytes s i :
  is_bytes s -> 0 <= i < len s -> exists x, index s i = Ok x /\ is_u8 x.
Proof.
  intros Hs Hi. destruct (index_safe s i Hi) as (x & Hx & Hlk). exists x. split; [done|].
  by eapply is_bytes_lookup.
Qed.

Lemma Uint32_safe s : 4 <= len s -> exists v, Uint32 s = Ok v.
Proof. destruct s as [|a [|b [|c [|d s]]]]; cbn; len_simpl; try lia; eauto. Qed.

Lemma len_drop_range {A} (s : list A) i : 0 <= i <= len s -> len (drop (Z.to_nat i) s) = len s - i.
Proof. intros. unfold len in *. rewrite length_drop. lia. Qed.

Lemma len_take_drop {A} (s : list A) i j :
  0 <= i -> i <= j <= len s -> len (take (Z.to_nat (j - i)) (drop (Z.to_nat i) s)) = j - i.
Proof. intros. unfold len in *. rewrite length_take, length_drop. lia. Qed.

Lemma read_all_safe {A} (read : Z -> res A) n i :
  (forall j, i <= j < i + Z.of_nat n -> safe (read j) (fun _ => True)) ->
  safe (read_all read n i) (fun vs => length vs = n).
Proof.
  revert i. induction n as [|n IH]; intros i Hr; [done|]. cbn [read_all].
  eapply safe_bind; [apply (Hr i); lia|]. intros v _ _.
  eapply safe_bind; [apply IH; intros; apply Hr; lia|]. intros vs _ Hvs. cbn. by rewrite Hvs.
Qed.

(** ** The shared loops implement the reference format *)

Section Loops.
Context {A : Type} `{Wire A} {enc : A -> res bytes} {dec : bytes -> res A} {size : A -> Z}.
Context `{!WireCodec enc dec size}.

Lemma wire_list_cons (x : A) xs : wire_list (x :: xs) = wire_bytes x ++ wire_list xs.
Proof. done. Qed.

Lemma encode_items_wire pkt xs :
  Forall wire_wf xs -> encode_items enc pkt xs = Ok (pkt ++ wire_list xs).
Proof using All.
  intros Hxs. revert pkt. induction Hxs as [|x xs Hx _ IH]; intros pkt; cbn [encode_items].
  - by rewrite app_nil_r.
  - rewrite (codec_enc (dec:=dec) (size:=size) x Hx). res_simpl. by rewrite IH, wire_list_cons, app_assoc.
Qed.

(** The items are read back when the offset's type counts up to the end of
    them: [wrap] is the identity below [M]. *)
Lemma decode_items_wire (wrap : Z -> Z) (M : Z) fuel pre xs rest off total acc :
  (forall x, 0 <= x < M -> wrap x = x) ->
  Forall wire_wf xs ->
  (length xs <= fuel)%nat ->
  off = wrap (len pre) ->
  total = len (wire_list xs) ->
  len pre + total <= M ->
  decode_items wrap dec size fuel (pre ++ wire_list xs ++ rest) off total acc
  = Ok (acc ++ xs, wrap (len pre + total), 0).
Proof using All.
  intros Hwrap Hxs. revert fuel pre off total acc.
  induction Hxs as [|x xs Hx _ IH]; intros fuel pre off total acc Hfuel -> -> HM.
  - cbn. rewrite Z.add_0_r, app_nil_r. by destruct fuel.
  - rewrite wire_list_cons in *. len_simpl.
    pose proof (codec_pos (enc:=enc) (dec:=dec) (size:=size) x Hx) as Hpos.
    pose proof (len_nonneg (wire_list xs)) as Hl. pose proof (len_nonneg pre) as Hp.
    destruct fuel as [|fuel]; [cbn in Hfuel; lia|]. cbn [decode_items].
    destruct (0 <? _) eqn:?; [|lia].
    rewrite (Hwrap (len pre)) by lia. rewrite <- app_assoc.
    rewrite slice_from_app by done. res_simpl.
    rewrite (codec_dec (enc:=enc) (size:=size) x (wire_list xs ++ rest) Hx). res_simpl.
    rewrite (codec_size (enc:=enc) (dec:=dec) (size:=size) x Hx).
    rewrite (app_assoc pre). cbn [length] in Hfuel.
    rewrite (IH fuel (pre ++ wire_bytes x)) by (len_simpl; lia || done).
    rewrite <- app_assoc. do 3 f_equal. f_equal. len_simpl. lia.
Qed.
End Loops.

(** Fuel for every octet left is enough when each item takes at least one. *)
Lemma decode_items_fuel {A} (wrap : Z -> Z) (dec : bytes -> res A) (size : A -> Z)
  fuel pkt off left acc :
  (forall s, dec s <> NoFuel) ->
  (forall s a, dec s = Ok a -> 1 <= size a) ->
  left <= Z.of_nat fuel ->
  decode_items wrap dec size fuel pkt off left acc <> NoFuel.
Proof.
  intros Hdec Hsize. revert off left acc.
  induction fuel as [|fuel IH]; intros off left acc Hleft; cbn [decode_items].
  { destruct (0 <? left) eqn:?; [lia|done]. }
  destruct (0 <? left) eqn:?; [|done].
  destruct (slice_from pkt off) eqn:Es; res_simpl; try done.
  2:{ unfold slice_from in Es. destruct (_ && _); discriminate Es. }
  destruct (dec a) eqn:Ed; res_simpl; try done.
  - apply IH. apply Hsize in Ed. lia.
  - by destruct (Hdec a).
Qed.

(** An item of size zero keeps the loop where it is for ever. *)
Lemma decode_items_stuck {A} (wrap : Z -> Z) (dec : bytes -> res A) (size : A -> Z)
  pkt off left sub a :
  0 < left -> slice_from pkt off = Ok sub -> dec sub = Ok a -> size a = 0 -> wrap off = off ->
  forall fuel acc, decode_items wrap dec size fuel pkt off left acc = NoFuel.
Proof.
  intros Hleft Hs Hd Hz Hw fuel. induction fuel as [|fuel IH]; intros acc; cbn [decode_items];
    destruct (0 <? left) eqn:?; try lia; [done|].
  rewrite Hs. res_simpl. rewrite Hd. res_simpl.
  rewrite Hz, Z.add_0_r, Z.sub_0_r, Hw. apply IH.
Qed.

(** ** Slices of a buffer *)

(** The octets of a slice, and those of its buffer that follow it: a bound past the end
    of a slice does not panic before it is past the end of the buffer. *)
Record Slice := mkSlice { sl_bytes : bytes; sl_spare : bytes }.

Definition sl_index (s : Slice) (i : Z) : res Z := index (sl_bytes s) i.
Definition sl_slice (s : Slice) (i j : Z) : res bytes := slice (sl_bytes s ++ sl_spare s) i j.

(** ** net.IP

    An address is its octets; [nil] is the empty slice. *)
Definition v4InV6Prefix : bytes := zeros 10 ++ [255; 255].

Definition IPv4 (a b c d : Z) : bytes := v4InV6Prefix ++ [a; b; c; d].

Definition To4 (ip : bytes) : bytes :=
  if len ip =? 4 then ip
  else if (len ip =? 16) && bool_decide (take 12 ip = v4InV6Prefix) then drop 12 ip
  else [].

Definition To16 (ip : bytes) : bytes :=
  match ip with
  | [a; b; c; d] => IPv4 a b c d
  | _ => if len ip =? 16 then ip else []
  end.

(** [IP.IsLinkLocalUnicast] *)
Definition IsLinkLocalUnicast (ip : bytes) : bool :=
  match To4 ip with
  | a :: b :: _ => (a =? 169) && (b =? 254)
  | _ => match ip with
         | a :: b :: _ => (len ip =? 16) && (a =? 254) && (Z.land b 192 =? 128)
         | _ => false
         end
  end.

Definition IPv4zero : bytes := IPv4 0 0 0 0.
Definition IPv6zero : bytes := zeros 16.

Lemma To4_4 ip : len ip = 4 -> To4 ip = ip.
Proof. intros H. unfold To4. by rewrite H. Qed.

(** ** Field assignment

    [s.proj = v] for a record whose eta-expansion is [eta]. *)
Ltac update eta s proj v :=
  let body := eval cbv beta delta [eta] in (eta s) in
  let abstracted := eval pattern (proj s) in body in
  match abstracted with
  | ?f _ => let updated := eval cbv beta in (f v) in exact updated
  end.
