(* ===== verification/BgpOpen.v ===== *)
(** * BGP capabilities and the OPEN message

    src/bgp/packet/afisafi.go, the header, capability, optional parameter, OPEN,
    KEEPALIVE and NOTIFICATION types of src/bgp/packet/bgp.go, and the helpers of
    src/bgp/packet/helpers.go that build and read an OPEN. *)

From S2P Require Import Prelude.

(** ** Address families (afisafi.go) *)

Definition AfiIP : Z := 1.
Definition AfiIP6 : Z := 2.
Definition SafiUnicast : Z := 1.
Definition SafiMulticast : Z := 2.

Definition AFINextHopLenMap : list (Z * Z) := [(AfiIP, 4); (AfiIP6, 16)].

Definition AFINextHop : list (Z * bytes) := [(AfiIP, IPv4zero); (AfiIP6, IPv6zero)].

(** [uint32(afi<<8) | uint32(safi)]: the shift is done in uint16. *)
Definition GetProtocolFamily (afi safi : Z) : Z := Z.lor (u16 (Z.shiftl afi 8)) safi.

Definition GetAfiSafi (protocolFamily : Z) : Z * Z :=
  (u16 (Z.shiftr protocolFamily 8), u8 (Z.land protocolFamily 255)).

Definition GetAddressLengthForFamily (protoFamily : Z) : Z :=
  let '(afi, _) := GetAfiSafi protoFamily in
  match assocZ AFINextHopLenMap afi with
  | Some addrLen => addrLen
  | None => -1
  end.

Definition GetProtocolFamilyFromAddressLen (n : Z) : Z :=
  match list_find (fun p => p.2 = n) AFINextHopLenMap with
  | Some (_, (afi, _)) => GetProtocolFamily afi SafiUnicast
  | None => 0
  end.

Definition GetZeroNextHopForFamily (protoFamily : Z) : bytes :=
  let '(afi, _) := GetAfiSafi protoFamily in
  match assocZ AFINextHop afi with
  | Some nh => nh
  | None => []
  end.

(** ** Message types and error codes (bgp.go) *)

Definition BGPASTrans : Z := 23456.
Definition BGPHeaderMarkerLen : Z := 16.

Definition BGPMsgTypeOpen : Z := 1.
Definition BGPMsgTypeUpdate : Z := 2.
Definition BGPMsgTypeNotification : Z := 3.
Definition BGPMsgTypeKeepAlive : Z := 4.

Definition BGPMsgHeaderLen : Z := 19.
Definition BGPUpdateMsgMinLen : Z := 23.
Definition BGPMsgMaxLen : Z := 4096.

Definition BGPMsgHeaderError : Z := 1.
Definition BGPOpenMsgError : Z := 2.
Definition BGPUpdateMsgError : Z := 3.
Definition BGPHoldTimerExpired : Z := 4.
Definition BGPFSMError : Z := 5.
Definition BGPCease : Z := 6.

Definition BGPUnspecific : Z := 0.
Definition BGPBadPeerAS : Z := 2.
Definition BGPUnsupportedOptionalParam : Z := 4.

Definition BGPMalformedAttrList : Z := 1.
Definition BGPUnrecognizedWellKnownAttr : Z := 2.
Definition BGPMissingWellKnownAttr : Z := 3.
Definition BGPAttrFlagsError : Z := 4.
Definition BGPAttrLenError : Z := 5.
Definition BGPInvalidNetworkField : Z := 10.

Definition BGPOptParamTypeCapability : Z := 2.

Definition BGPCapTypeMPExt : Z := 1.
Definition BGPCapTypeAS4Path : Z := 65.
Definition BGPCapTypeAddPath : Z := 69.

Definition BGPCapAddPathRx : Z := 1.
Definition BGPCapAddPathTx : Z := 2.

(** ** Message header *)

Record BGPHeader := mkBGPHeader { hdr_Length : Z; hdr_Type : Z }.

Definition BGPHeader_Encode (h : BGPHeader) : res bytes :=
  let pkt := zeros 19 in
  pkt ← copy_at pkt 0 (replicate 16 255);
  pkt ← PutUint16 pkt 16 (hdr_Length h);
  set_index pkt 18 (hdr_Type h).

Definition BGPHeader_Decode (pkt : bytes) : res BGPHeader :=
  s ← slice pkt 16 18;
  l ← Uint16 s;
  t ← index pkt 18;
  Ok (mkBGPHeader l t).

(** ** Capabilities *)

Record BGPCapabilityBase := mkCapBase { cap_Type : Z; cap_Len : Z }.

Definition BGPCapabilityBase_TotalLen (b : BGPCapabilityBase) : Z := u16 (cap_Len b + 2).

Definition BGPCapabilityBase_Encode (b : BGPCapabilityBase) : res bytes :=
  let pkt := zeros (BGPCapabilityBase_TotalLen b) in
  pkt ← set_index pkt 0 (cap_Type b);
  set_index pkt 1 (cap_Len b).

Definition BGPCapabilityBase_Decode (pkt : bytes) : res BGPCapabilityBase :=
  _ ← guard_err (len pkt <? 2) (BGPMessageError BGPOpenMsgError BGPUnspecific []);
  t ← index pkt 0;
  l ← index pkt 1;
  let b := mkCapBase t l in
  _ ← guard_err (len pkt <? BGPCapabilityBase_TotalLen b)
        (BGPMessageError BGPUpdateMsgError BGPUnspecific []);
  Ok b.

Record AddPathAFISAFI := mkAddPath { ap_AFI : Z; ap_SAFI : Z; ap_Flags : Z }.

Definition AddPathAFISAFI_Len : Z := 4.

Definition AddPathAFISAFI_Encode (a : AddPathAFISAFI) (pkt : bytes) : res bytes :=
  pkt ← PutUint16 pkt 0 (ap_AFI a);
  pkt ← set_index pkt 2 (ap_SAFI a);
  set_index pkt 3 (ap_Flags a).

Definition AddPathAFISAFI_Decode (pkt : bytes) : res AddPathAFISAFI :=
  _ ← guard_err (len pkt <? 4) (BGPMessageError BGPOpenMsgError BGPUnspecific []);
  afi ← Uint16 pkt;
  safi ← index pkt 2;
  flags ← index pkt 3;
  Ok (mkAddPath afi safi flags).

Inductive BGPCapability :=
| BGPCapMPExt (base : BGPCapabilityBase) (AFI Reserved SAFI : Z)
| BGPCapAS4Path (base : BGPCapabilityBase) (Value : Z)
| BGPCapAddPath (base : BGPCapabilityBase) (Value : list AddPathAFISAFI)
| BGPCapUnknown (base : BGPCapabilityBase) (Value : bytes).

Definition BGPCapability_base (c : BGPCapability) : BGPCapabilityBase :=
  match c with
  | BGPCapMPExt b _ _ _ | BGPCapAS4Path b _ | BGPCapAddPath b _ | BGPCapUnknown b _ => b
  end.

Definition BGPCapability_TotalLen (c : BGPCapability) : Z :=
  BGPCapabilityBase_TotalLen (BGPCapability_base c).

Definition BGPCapability_GetCode (c : BGPCapability) : Z := cap_Type (BGPCapability_base c).

Definition BGPCapMPExt_Encode (b : BGPCapabilityBase) (afi safi : Z) : res bytes :=
  pkt ← BGPCapabilityBase_Encode b;
  pkt ← PutUint16 pkt 2 afi;
  pkt ← set_index pkt 4 0;
  set_index pkt 5 safi.

Definition BGPCapMPExt_Decode (pkt : bytes) : res BGPCapability :=
  b ← BGPCapabilityBase_Decode pkt;
  s ← slice_from pkt 2;
  afi ← Uint16 s;
  safi ← index pkt 5;
  Ok (BGPCapMPExt b afi 0 safi).

Definition BGPCapAS4Path_Encode (b : BGPCapabilityBase) (v : Z) : res bytes :=
  pkt ← BGPCapabilityBase_Encode b;
  PutUint32 pkt 2 v.

Definition BGPCapAS4Path_Decode (pkt : bytes) : res BGPCapability :=
  b ← BGPCapabilityBase_Decode pkt;
  s ← slice_from pkt 2;
  v ← Uint32 s;
  Ok (BGPCapAS4Path b v).

(** The write offset is a uint8. *)
Fixpoint BGPCapAddPath_Encode_loop (pkt : bytes) (offset : Z) (vals : list AddPathAFISAFI)
  : res bytes :=
  match vals with
  | [] => Ok pkt
  | v :: vals =>
    pkt ← on_suffix pkt offset (AddPathAFISAFI_Encode v);
    BGPCapAddPath_Encode_loop pkt (u8 (offset + AddPathAFISAFI_Len)) vals
  end.

Definition BGPCapAddPath_Encode (b : BGPCapabilityBase) (vals : list AddPathAFISAFI)
  : res bytes :=
  pkt ← BGPCapabilityBase_Encode b;
  BGPCapAddPath_Encode_loop pkt 2 vals.

Fixpoint BGPCapAddPath_Decode_loop (fuel : nat) (pkt : bytes) (msgLen offset : Z)
  (acc : list AddPathAFISAFI) : res (list AddPathAFISAFI * Z) :=
  if offset <? msgLen then
    match fuel with
    | O => NoFuel
    | S fuel =>
      s ← slice_from pkt offset;
      a ← AddPathAFISAFI_Decode s;
      BGPCapAddPath_Decode_loop fuel pkt msgLen (u16 (offset + AddPathAFISAFI_Len)) (acc ++ [a])
    end
  else Ok (acc, offset).

Definition BGPCapAddPath_Decode (pkt : bytes) : res BGPCapability :=
  b ← BGPCapabilityBase_Decode pkt;
  '(vals, offset) ← BGPCapAddPath_Decode_loop (length pkt) pkt (cap_Len b) 2 [];
  _ ← guard_err (u8 (cap_Len b + 2) <? offset) (BGPMessageError BGPOpenMsgError BGPUnspecific []);
  Ok (BGPCapAddPath b vals).

Definition BGPCapUnknown_Encode (b : BGPCapabilityBase) (v : bytes) : res bytes :=
  pkt ← BGPCapabilityBase_Encode b;
  copy_at pkt 2 v.

(** [copy] into the nil [Value] of a new struct copies nothing. *)
Definition BGPCapUnknown_Decode (v : bytes) (pkt : bytes) : res BGPCapability :=
  b ← BGPCapabilityBase_Decode pkt;
  s ← slice pkt 2 (BGPCapabilityBase_TotalLen b);
  Ok (BGPCapUnknown b (copy v s)).

Definition BGPCapability_Encode (c : BGPCapability) : res bytes :=
  match c with
  | BGPCapMPExt b afi _ safi => BGPCapMPExt_Encode b afi safi
  | BGPCapAS4Path b v => BGPCapAS4Path_Encode b v
  | BGPCapAddPath b vals => BGPCapAddPath_Encode b vals
  | BGPCapUnknown b v => BGPCapUnknown_Encode b v
  end.

(** A new struct of the registered type for the code in the first octet. *)
Definition GetCapParam (pkt : bytes) : res BGPCapability :=
  t ← index pkt 0;
  let zero := mkCapBase 0 0 in
  Ok (if t =? BGPCapTypeMPExt then BGPCapMPExt zero 0 0 0
      else if t =? BGPCapTypeAS4Path then BGPCapAS4Path zero 0
      else if t =? BGPCapTypeAddPath then BGPCapAddPath zero []
      else BGPCapUnknown zero []).

Definition BGPCapability_Decode (c : BGPCapability) (pkt : bytes) : res BGPCapability :=
  match c with
  | BGPCapMPExt _ _ _ _ => BGPCapMPExt_Decode pkt
  | BGPCapAS4Path _ _ => BGPCapAS4Path_Decode pkt
  | BGPCapAddPath _ _ => BGPCapAddPath_Decode pkt
  | BGPCapUnknown _ v => BGPCapUnknown_Decode v pkt
  end.

Definition NewBGPCapMPExt (afi safi : Z) : BGPCapability :=
  BGPCapMPExt (mkCapBase BGPCapTypeMPExt 4) afi 0 safi.

Definition NewBGPCap4ByteASPath (as_ : Z) : BGPCapability :=
  BGPCapAS4Path (mkCapBase BGPCapTypeAS4Path 4) as_.

Definition AddAddPathAFISAFI (b : BGPCapabilityBase) (vals : list AddPathAFISAFI)
  (a : AddPathAFISAFI) : BGPCapabilityBase * list AddPathAFISAFI :=
  (mkCapBase (cap_Type b) (u8 (cap_Len b + AddPathAFISAFI_Len)), vals ++ [a]).

(** ** Optional parameters *)

Record BGPOptParamBase := mkOptBase { opt_Type : Z; opt_Len : Z }.

Inductive BGPOptParam :=
| BGPOptParamCapability (base : BGPOptParamBase) (Value : list BGPCapability)
| BGPOptParamUnknown (base : BGPOptParamBase) (Value : bytes).

Definition BGPOptParam_base (p : BGPOptParam) : BGPOptParamBase :=
  match p with BGPOptParamCapability b _ | BGPOptParamUnknown b _ => b end.

(** [msg.Len + 2] in uint8. *)
Definition BGPOptParamBase_TotalLen (b : BGPOptParamBase) : Z := u8 (opt_Len b + 2).

Definition BGPOptParam_TotalLen (p : BGPOptParam) : Z :=
  BGPOptParamBase_TotalLen (BGPOptParam_base p).

Definition BGPOptParam_GetCode (p : BGPOptParam) : Z := opt_Type (BGPOptParam_base p).

Definition BGPOptParamBase_Encode (b : BGPOptParamBase) : res bytes :=
  Ok [opt_Type b; opt_Len b].

Definition BGPOptParamBase_Decode (pkt : bytes) : res BGPOptParamBase :=
  _ ← guard_err (len pkt <? 2) (BGPMessageError BGPOpenMsgError BGPUnspecific []);
  t ← index pkt 0;
  l ← index pkt 1;
  let b := mkOptBase t l in
  _ ← guard_err (len pkt <? BGPOptParamBase_TotalLen b)
        (BGPMessageError BGPUpdateMsgError BGPUnspecific []);
  Ok b.

Definition BGPOptParam_Encode (p : BGPOptParam) : res bytes :=
  match p with
  | BGPOptParamCapability b caps =>
    pkt ← BGPOptParamBase_Encode b;
    encode_items BGPCapability_Encode pkt caps
  | BGPOptParamUnknown b v =>
    pkt ← BGPOptParamBase_Encode b;
    copy_at pkt 2 v
  end.

(** [capParam := GetCapParam(pkt[offset:]); err = capParam.Decode(pkt[offset:])] *)
Definition decodeCapability (pkt : bytes) : res BGPCapability :=
  c ← GetCapParam pkt;
  BGPCapability_Decode c pkt.

Definition BGPOptParamCapability_Decode (pkt : bytes) : res BGPOptParam :=
  b ← BGPOptParamBase_Decode pkt;
  '(caps, _, remaining) ← decode_items u16 decodeCapability BGPCapability_TotalLen
                       (Z.to_nat (opt_Len b)) pkt 2 (opt_Len b) [];
  _ ← guard_err (remaining <? 0) (BGPMessageError BGPOpenMsgError BGPUnspecific []);
  Ok (BGPOptParamCapability b caps).

Definition NewBGPOptParamCapability (caps : list BGPCapability) : BGPOptParam :=
  let paramsLen := foldl (fun n c => u16 (n + BGPCapability_TotalLen c)) 0 caps in
  BGPOptParamCapability (mkOptBase BGPOptParamTypeCapability (u8 paramsLen)) caps.

(** ** OPEN *)

Record BGPOpen := mkBGPOpen {
  Version : Z;
  MyAS : Z;
  HoldTime : Z;
  BGPId : bytes;
  OptParamLen : Z;
  OptParams : list BGPOptParam;
}.

Definition sum_TotalLen8 (ps : list BGPOptParam) : Z :=
  foldl (fun n p => u8 (n + BGPOptParam_TotalLen p)) 0 ps.

Definition BGPOpen_Encode (msg : BGPOpen) : res bytes :=
  let pkt := zeros 10 in
  pkt ← set_index pkt 0 (Version msg);
  pkt ← PutUint16 pkt 1 (u16 (MyAS msg));
  pkt ← PutUint16 pkt 3 (HoldTime msg);
  pkt ← copy_at pkt 5 (take 4 (To4 (BGPId msg)));
  pkt ← encode_items BGPOptParam_Encode pkt (OptParams msg);
  set_index pkt 9 (sum_TotalLen8 (OptParams msg)).

(** [GetOptParam(pkt[offset:])] then [Decode(pkt[offset:])]: only the capability
    parameter is registered, another type is an error. *)
Definition decodeOptParam (pkt : bytes) : res BGPOptParam :=
  t ← index pkt 0;
  if t =? BGPOptParamTypeCapability then BGPOptParamCapability_Decode pkt
  else Err (BGPMessageError BGPOpenMsgError BGPUnsupportedOptionalParam []).

(** [fuel] bounds the turns of the optional parameter loop. *)
Definition BGPOpen_Decode (fuel : nat) (pkt : bytes) : res BGPOpen :=
  v ← index pkt 0;
  s ← slice pkt 1 3;
  a ← Uint16 s;
  s ← slice pkt 3 5;
  h ← Uint16 s;
  id ← slice pkt 5 9;
  n ← index pkt 9;
  '(params, _, remaining) ← decode_items u8 decodeOptParam BGPOptParam_TotalLen fuel pkt 10 n [];
  _ ← guard_err (remaining <? 0) (BGPMessageError BGPOpenMsgError BGPUnspecific []);
  Ok (mkBGPOpen v a h (To4 id) n params).

(** The identifier is given as the address net.ParseIP makes of the string. *)
Definition NewBGPOpen (myAS holdTime : Z) (bgpId : bytes) (optParams : list BGPOptParam)
  : BGPOpen :=
  let myAS := if 65535 <? myAS then BGPASTrans else myAS in
  mkBGPOpen 4 myAS holdTime bgpId (sum_TotalLen8 optParams) optParams.

(** One turn of the loop of [ConstructOptParams]: a multiprotocol capability and
    an ADD-PATH entry for the family. *)
Definition ConstructOptParams_step (addPathFlags : Z)
  (st : list BGPCapability * (BGPCapabilityBase * list AddPathAFISAFI)) (protoFamily : Z)
  : list BGPCapability * (BGPCapabilityBase * list AddPathAFISAFI) :=
  let '(caps, (b, vals)) := st in
  let '(afi, safi) := GetAfiSafi protoFamily in
  (caps ++ [NewBGPCapMPExt afi safi],
   AddAddPathAFISAFI b vals (mkAddPath afi safi addPathFlags)).

(** [for protoFamily, _ := range afiSAfiMap]: [families] is the keys of the map
    in the order the run time visits them. *)
Definition ConstructOptParams (as_ : Z) (families : list Z) (addPathsRx : bool)
  (addPathsMaxTx : Z) : list BGPOptParam :=
  let addPathFlags := if addPathsRx then BGPCapAddPathRx else 0 in
  let addPathFlags :=
    if 0 <? addPathsMaxTx then Z.lor addPathFlags BGPCapAddPathTx else addPathFlags in
  let '(caps, (b, vals)) :=
    foldl (ConstructOptParams_step addPathFlags) ([NewBGPCap4ByteASPath as_], (mkCapBase BGPCapTypeAddPath 0, [])) families in
  let caps := if negb (addPathFlags =? 0) then caps ++ [BGPCapAddPath b vals] else caps in
  [NewBGPOptParamCapability caps].

Definition is_AS4 (c : BGPCapability) : bool :=
  BGPCapability_GetCode c =? BGPCapTypeAS4Path.

(** A parameter of the capability code that is not a [*BGPOptParamCapability]
    fails the type assertion. *)
Fixpoint GetASSize_params (ps : list BGPOptParam) : res Z :=
  match ps with
  | [] => Ok 2
  | p :: ps =>
    if BGPOptParam_GetCode p =? BGPOptParamTypeCapability then
      match p with
      | BGPOptParamCapability _ caps =>
        if existsb is_AS4 caps then Ok 4 else GetASSize_params ps
      | BGPOptParamUnknown _ _ => Panic
      end
    else GetASSize_params ps
  end.

Definition GetASSize (msg : BGPOpen) : res Z := GetASSize_params (OptParams msg).

(** The last AS4 capability wins. *)
Fixpoint GetPeerAS_caps (caps : list BGPCapability) (as_ : Z) : res Z :=
  match caps with
  | [] => Ok as_
  | c :: caps =>
    if is_AS4 c then
      match c with
      | BGPCapAS4Path _ v => GetPeerAS_caps caps v
      | _ => Panic
      end
    else GetPeerAS_caps caps as_
  end.

Fixpoint GetPeerAS_params (ps : list BGPOptParam) (as_ : Z) : res Z :=
  match ps with
  | [] => Ok as_
  | p :: ps =>
    if BGPOptParam_GetCode p =? BGPOptParamTypeCapability then
      match p with
      | BGPOptParamCapability _ caps =>
        as_ ← GetPeerAS_caps caps as_;
        GetPeerAS_params ps as_
      | BGPOptParamUnknown _ _ => Panic
      end
    else GetPeerAS_params ps as_
  end.

Definition GetPeerAS (msg : BGPOpen) : res Z := GetPeerAS_params (OptParams msg) (MyAS msg).

(** The capabilities of the [*BGPOptParamCapability] parameters, in the order
    the readers that switch on the type visit them. *)
Definition open_capabilities (msg : BGPOpen) : list BGPCapability :=
  mjoin (map (fun p => match p with BGPOptParamCapability _ caps => caps | _ => [] end)
             (OptParams msg)).

(** The flags of the first ADD-PATH capability, first entry of a family first. *)
Fixpoint first_AddPath (caps : list BGPCapability) : list AddPathAFISAFI :=
  match caps with
  | [] => []
  | BGPCapAddPath _ vals :: _ => vals
  | _ :: caps => first_AddPath caps
  end.

Definition GetAddPathFamily (msg : BGPOpen) : gmap Z (gmap Z Z) :=
  foldl (fun (m : gmap Z (gmap Z Z)) v =>
    let inner : gmap Z Z := default ∅ (m !! ap_AFI v) in
    match inner !! ap_SAFI v with
    | Some _ => m
    | None => <[ap_AFI v := <[ap_SAFI v := ap_Flags v]> inner]> m
    end) ∅ (first_AddPath (open_capabilities msg)).

Definition IsAddPathsTxEnabledForIPv4 (m : gmap Z (gmap Z Z)) : bool :=
  existsb (fun '(_, inner) =>
    existsb (fun '(_, flags) => has_bits flags BGPCapAddPathTx) (map_to_list inner))
    (map_to_list m).

Definition GetProtocolFromOpenMsg (msg : BGPOpen) : gset Z :=
  list_to_set (omap (fun c => match c with
    | BGPCapMPExt _ afi _ safi => Some (GetProtocolFamily afi safi)
    | _ => None end) (open_capabilities msg)).

(** ** NOTIFICATION *)

Record BGPNotification := mkBGPNotification {
  ErrorCode : Z;
  ErrorSubcode : Z;
  NotifData : bytes;
}.

Definition BGPNotification_Encode (msg : BGPNotification) : res bytes :=
  Ok ([ErrorCode msg; ErrorSubcode msg] ++ NotifData msg).

Definition BGPNotification_Decode (pkt : bytes) : res BGPNotification :=
  c ← index pkt 0;
  sc ← index pkt 1;
  data ← (if 2 <? len pkt then slice_from pkt 2 else Ok []);
  Ok (mkBGPNotification c sc data).

(** ** Reference format of capabilities and optional parameters *)

Definition AddPath_bytes (a : AddPathAFISAFI) : bytes :=
  be16 (ap_AFI a) ++ [ap_SAFI a; ap_Flags a].

Definition cap_body (c : BGPCapability) : bytes :=
  match c with
  | BGPCapMPExt _ afi _ safi => be16 afi ++ [0; safi]
  | BGPCapAS4Path _ v => be32 v
  | BGPCapAddPath _ vals => concat (map AddPath_bytes vals)
  | BGPCapUnknown _ _ => []
  end.

Definition AddPath_wf (a : AddPathAFISAFI) : Prop :=
  is_u16 (ap_AFI a) /\ is_u8 (ap_SAFI a) /\ is_u8 (ap_Flags a).

(** The capabilities that survive the wire. An unregistered code does so only
    without a value, and ADD-PATH up to the 63 entries its length octet counts. *)
Definition cap_wf (c : BGPCapability) : Prop :=
  match c with
  | BGPCapMPExt b afi r safi =>
    b = mkCapBase BGPCapTypeMPExt 4 /\ is_u16 afi /\ r = 0 /\ is_u8 safi
  | BGPCapAS4Path b v => b = mkCapBase BGPCapTypeAS4Path 4 /\ is_u32 v
  | BGPCapAddPath b vals =>
    b = mkCapBase BGPCapTypeAddPath (4 * len vals) /\ len vals <= 63 /\ Forall AddPath_wf vals
  | BGPCapUnknown b v =>
    is_u8 (cap_Type b) /\ cap_Len b = 0 /\ v = [] /\
    cap_Type b <> BGPCapTypeMPExt /\ cap_Type b <> BGPCapTypeAS4Path /\
    cap_Type b <> BGPCapTypeAddPath
  end.

#[export] Instance BGPCapability_Wire : Wire BGPCapability := {
  wire_bytes c := [cap_Type (BGPCapability_base c); cap_Len (BGPCapability_base c)] ++ cap_body c;
  wire_wf := cap_wf;
}.

Definition opt_body (p : BGPOptParam) : bytes :=
  match p with
  | BGPOptParamCapability _ caps => wire_list caps
  | BGPOptParamUnknown _ _ => []
  end.

Definition opt_wf (p : BGPOptParam) : Prop :=
  match p with
  | BGPOptParamCapability b caps =>
    b = mkOptBase BGPOptParamTypeCapability (len (wire_list caps)) /\
    len (wire_list caps) <= 253 /\ Forall wire_wf caps
  | BGPOptParamUnknown _ _ => False
  end.

#[export] Instance BGPOptParam_Wire : Wire BGPOptParam := {
  wire_bytes p := [opt_Type (BGPOptParam_base p); opt_Len (BGPOptParam_base p)] ++ opt_body p;
  wire_wf := opt_wf;
}.

Definition open_bytes (msg : BGPOpen) : bytes :=
  [Version msg] ++ be16 (MyAS msg) ++ be16 (HoldTime msg) ++ BGPId msg ++
  [OptParamLen msg] ++ wire_list (OptParams msg).

(** An OPEN as the code builds it: the parameters fit the uint8 offset of the
    decoder, which starts at 10. *)
Definition open_wf (msg : BGPOpen) : Prop :=
  is_u8 (Version msg) /\ is_u16 (MyAS msg) /\ is_u16 (HoldTime msg) /\
  len (BGPId msg) = 4 /\ is_bytes (BGPId msg) /\
  OptParamLen msg = len (wire_list (OptParams msg)) /\
  10 + len (wire_list (OptParams msg)) <= 256 /\
  Forall wire_wf (OptParams msg).

(** ** Capabilities round-trip *)

Lemma len_AddPath_bytes vals : len (concat (map AddPath_bytes vals)) = 4 * len vals.
Proof. induction vals as [|a vals IH]; cbn; [done|]. len_simpl. rewrite IH. lia. Qed.

Lemma len_cap_body c : cap_wf c -> len (cap_body c) = cap_Len (BGPCapability_base c).
Proof.
  destruct c; cbn [cap_wf cap_body BGPCapability_base].
  - by intros (-> & _).
  - by intros (-> & _).
  - intros (-> & _). by rewrite len_AddPath_bytes.
  - by intros (_ & -> & _).
Qed.

Lemma cap_Len_range c : cap_wf c -> 0 <= cap_Len (BGPCapability_base c) <= 252.
Proof.
  destruct c; cbn [cap_wf BGPCapability_base].
  - intros (-> & _). cbn. lia.
  - intros (-> & _). cbn. lia.
  - intros (-> & ? & _). cbn. pose proof (len_nonneg Value). lia.
  - intros (_ & -> & _). lia.
Qed.

Lemma BGPCapabilityBase_TotalLen_eq b :
  is_u8 (cap_Len b) -> BGPCapabilityBase_TotalLen b = cap_Len b + 2.
Proof. unfold BGPCapabilityBase_TotalLen. intros. zlia. Qed.

Lemma BGPCapabilityBase_Encode_ok b :
  is_u8 (cap_Len b) ->
  BGPCapabilityBase_Encode b = Ok ([cap_Type b; cap_Len b] ++ zeros (cap_Len b)).
Proof.
  intros. unfold BGPCapabilityBase_Encode. rewrite BGPCapabilityBase_TotalLen_eq by done.
  rewrite (set_index_zeros [] (cap_Len b + 2)) by side. res_simpl.
  rewrite (set_index_zeros [cap_Type b]) by side.
  do 2 f_equal. f_equal. lia.
Qed.

Lemma BGPCapabilityBase_Decode_ok t l body rest :
  is_u8 l -> len body = l ->
  BGPCapabilityBase_Decode (t :: l :: body ++ rest) = Ok (mkCapBase t l).
Proof.
  intros Hl Hb. unfold BGPCapabilityBase_Decode. pose proof (len_nonneg rest).
  rewrite (proj2 (Z.ltb_ge _ _)) by side. res_simpl.
  change (index (t :: l :: body ++ rest) 0) with (Ok t).
  change (index (t :: l :: body ++ rest) 1) with (Ok l). res_simpl.
  rewrite (proj2 (Z.ltb_ge _ _)); [done|].
  rewrite BGPCapabilityBase_TotalLen_eq by done. len_simpl. cbn. unfold_widths. lia.
Qed.

Lemma AddPathAFISAFI_Encode_zeros a n :
  4 <= n -> AddPathAFISAFI_Encode a (zeros n) = Ok (AddPath_bytes a ++ zeros (n - 4)).
Proof.
  intros. unfold AddPathAFISAFI_Encode, AddPath_bytes.
  rewrite (PutUint16_zeros [] n) by side. res_simpl.
  rewrite (set_index_zeros ([] ++ be16 (ap_AFI a))) by side. res_simpl.
  rewrite set_index_zeros by side.
  cbn. do 5 f_equal. f_equal. lia.
Qed.

Lemma AddPathAFISAFI_Decode_ok a rest :
  AddPath_wf a -> AddPathAFISAFI_Decode (AddPath_bytes a ++ rest) = Ok a.
Proof.
  destruct a as [afi safi flags]. intros (Hafi & _). unfold AddPathAFISAFI_Decode.
  pose proof (len_nonneg rest).
  rewrite (proj2 (Z.ltb_ge _ _)) by (unfold AddPath_bytes; side). res_simpl.
  unfold AddPath_bytes. rewrite <- app_assoc.
  rewrite Uint16_be16 by done. by res_simpl.
Qed.

Lemma BGPCapAddPath_Encode_loop_ok vals pre n :
  4 * len vals <= n -> len pre + 4 * len vals <= 256 ->
  BGPCapAddPath_Encode_loop (pre ++ zeros n) (u8 (len pre)) vals
  = Ok (pre ++ concat (map AddPath_bytes vals) ++ zeros (n - 4 * len vals)).
Proof.
  revert pre n. induction vals as [|a vals IH]; intros pre n Hn Hp.
  { cbn [BGPCapAddPath_Encode_loop map concat app]. len_simpl. do 3 f_equal. lia. }
  len_simpl. pose proof (len_nonneg vals). pose proof (len_nonneg pre).
  cbn [BGPCapAddPath_Encode_loop map concat].
  rewrite on_suffix_app by zlia. rewrite AddPathAFISAFI_Encode_zeros by lia. res_simpl.
  replace (u8 (u8 (len pre) + AddPathAFISAFI_Len)) with (u8 (len (pre ++ AddPath_bytes a)))
    by (unfold AddPathAFISAFI_Len, AddPath_bytes; side).
  rewrite app_assoc, IH by (unfold AddPath_bytes; side).
  rewrite <- !app_assoc. do 5 f_equal. lia.
Qed.

Lemma BGPCapAddPath_Decode_loop_ok vals fuel pre rest acc :
  Forall AddPath_wf vals -> (length vals <= fuel)%nat ->
  len pre + 4 * len vals < 65536 ->
  forall msgLen, len pre + 4 * len vals - 2 = msgLen ->
  BGPCapAddPath_Decode_loop fuel (pre ++ concat (map AddPath_bytes vals) ++ rest) msgLen
    (len pre) acc = Ok (acc ++ vals, len pre + 4 * len vals).
Proof.
  intros Hvals. revert fuel pre acc.
  induction Hvals as [|a vals Ha _ IH]; intros fuel pre acc Hf Hp msgLen HL.
  { len_simpl. destruct fuel; cbn [BGPCapAddPath_Decode_loop];
      (destruct (_ <? msgLen) eqn:?; [lia|]); do 2 f_equal; try rewrite app_nil_r; f_equal; lia. }
  len_simpl. pose proof (len_nonneg vals). pose proof (len_nonneg pre).
  destruct fuel as [|fuel]; [cbn in Hf; lia|]. cbn [BGPCapAddPath_Decode_loop map concat].
  destruct (_ <? msgLen) eqn:?; [|lia].
  rewrite slice_from_app by done. res_simpl. rewrite <- app_assoc.
  rewrite AddPathAFISAFI_Decode_ok by done. res_simpl.
  rewrite (app_assoc pre).
  replace (u16 (len pre + AddPathAFISAFI_Len)) with (len (pre ++ AddPath_bytes a))
    by (unfold AddPathAFISAFI_Len, AddPath_bytes; side).
  cbn [length] in Hf.
  rewrite IH by (unfold AddPath_bytes; len_simpl; cbn; lia).
  rewrite <- app_assoc. cbn [app]. do 2 f_equal. unfold AddPath_bytes. side.
Qed.

#[export] Instance BGPCapability_Codec :
  WireCodec BGPCapability_Encode decodeCapability BGPCapability_TotalLen.
Proof.
  split.
  - intros [b afi r safi|b v|b vals|b v]; cbn.
    + by intros (-> & _ & _ & _).
    + by intros (-> & _).
    + intros (-> & Hn & _). pose proof (len_nonneg vals). unfold BGPCapAddPath_Encode.
      rewrite BGPCapabilityBase_Encode_ok by (cbn [cap_Len]; zlia). res_simpl.
      cbn [cap_Type cap_Len].
      rewrite (BGPCapAddPath_Encode_loop_ok vals [BGPCapTypeAddPath; 4 * len vals]) by side.
      by rewrite Z.sub_diag, zeros_0, app_nil_r.
    + intros (? & Hl & -> & _). unfold BGPCapUnknown_Encode.
      rewrite BGPCapabilityBase_Encode_ok by (rewrite Hl; zlia). res_simpl.
      rewrite Hl. reflexivity.
  - intros c rest Hc. pose proof (len_cap_body c Hc) as Hb.
    pose proof (cap_Len_range c Hc) as Hr.
    assert (Hd : BGPCapabilityBase_Decode
        (cap_Type (BGPCapability_base c) :: cap_Len (BGPCapability_base c) :: cap_body c ++ rest)
        = Ok (BGPCapability_base c)).
    { destruct (BGPCapability_base c) as [t l] eqn:Ec; cbn in *.
      apply BGPCapabilityBase_Decode_ok; zlia. }
    destruct c as [b afi r safi|b v|b vals|b v]; cbn [wire_bytes
      BGPCapability_Wire BGPCapability_base app cap_body cap_wf] in *.
    + destruct Hc as (-> & Hafi & -> & Hs). cbn [cap_Type cap_Len] in *.
      match goal with |- decodeCapability ?p = _ =>
        change (decodeCapability p) with (BGPCapMPExt_Decode p) end.
      unfold BGPCapMPExt_Decode. rewrite Hd. res_simpl.
      rewrite slice_from_2. res_simpl.
      rewrite <- app_assoc, Uint16_be16 by done. done.
    + destruct Hc as (-> & Hv). cbn [cap_Type cap_Len] in *.
      match goal with |- decodeCapability ?p = _ =>
        change (decodeCapability p) with (BGPCapAS4Path_Decode p) end.
      unfold BGPCapAS4Path_Decode. rewrite Hd. res_simpl.
      rewrite slice_from_2. res_simpl.
      by rewrite Uint32_be32.
    + destruct Hc as (-> & Hn & Hv). cbn [cap_Type cap_Len] in *.
      match goal with |- decodeCapability ?p = _ =>
        change (decodeCapability p) with (BGPCapAddPath_Decode p) end.
      unfold BGPCapAddPath_Decode. rewrite Hd. res_simpl. cbn [cap_Len].
      rewrite (BGPCapAddPath_Decode_loop_ok vals _ [BGPCapTypeAddPath; 4 * len vals] rest []);
        [|done| | |].
      * res_simpl. rewrite (proj2 (Z.ltb_ge _ _)); [done|]. side.
      * cbn. rewrite length_app. pose proof (len_AddPath_bytes vals). unfold len in *. lia.
      * side.
      * side.
    + destruct Hc as (Ht & Hl & -> & H1 & H2 & H3).
      destruct b as [t l]. cbn [cap_Type cap_Len] in *. subst l.
      unfold decodeCapability, GetCapParam. change (index (t :: _) 0) with (Ok t). res_simpl.
      rewrite !(proj2 (Z.eqb_neq _ _)) by done. cbn [BGPCapability_Decode].
      unfold BGPCapUnknown_Decode. rewrite Hd. res_simpl.
      change (BGPCapabilityBase_TotalLen _) with 2.
      by rewrite (slice_app [t; 0] [] rest 2 2 eq_refl eq_refl : slice (t :: 0 :: rest) 2 _ = _).
  - intros c Hc. unfold BGPCapability_TotalLen. pose proof (cap_Len_range c Hc).
    rewrite BGPCapabilityBase_TotalLen_eq by zlia. cbn. len_simpl.
    rewrite (len_cap_body c Hc). lia.
  - intros c Hc. cbn. len_simpl. pose proof (len_nonneg (cap_body c)). lia.
Qed.

Lemma wire_list_length_le (caps : list BGPCapability) :
  2 * len caps <= len (wire_list caps).
Proof.
  induction caps as [|c caps IH]; [done|]. rewrite wire_list_cons. cbn [wire_bytes
    BGPCapability_Wire]. len_simpl. pose proof (len_nonneg (cap_body c)). lia.
Qed.

Lemma BGPOptParamBase_Decode_ok t l body rest :
  0 <= l <= 253 -> len body = l ->
  BGPOptParamBase_Decode (t :: l :: body ++ rest) = Ok (mkOptBase t l).
Proof.
  intros Hl Hb. unfold BGPOptParamBase_Decode. pose proof (len_nonneg rest).
  rewrite (proj2 (Z.ltb_ge _ _)) by side. res_simpl.
  change (index (t :: l :: body ++ rest) 0) with (Ok t).
  change (index (t :: l :: body ++ rest) 1) with (Ok l). res_simpl.
  rewrite (proj2 (Z.ltb_ge _ _)); [done|].
  unfold BGPOptParamBase_TotalLen. cbn [opt_Len]. side.
Qed.

#[export] Instance BGPOptParam_Codec :
  WireCodec BGPOptParam_Encode decodeOptParam BGPOptParam_TotalLen.
Proof.
  split.
  - intros [b caps|b v]; [|done]. cbn. intros (-> & Hl & Hc).
    by rewrite (encode_items_wire (enc:=BGPCapability_Encode)).
  - intros [b caps|b v] rest; [|done]. cbn [wire_bytes wire_wf BGPOptParam_Wire opt_wf
      BGPOptParam_base opt_body app]. intros (-> & Hl & Hc). cbn [opt_Type opt_Len].
    pose proof (len_nonneg (wire_list caps)). pose proof (wire_list_length_le caps).
    match goal with |- decodeOptParam ?p = _ =>
      change (decodeOptParam p) with (BGPOptParamCapability_Decode p) end.
    unfold BGPOptParamCapability_Decode.
    rewrite BGPOptParamBase_Decode_ok by done. res_simpl. cbn [opt_Len].
    change (BGPOptParamTypeCapability :: ?n :: ?x) with ([BGPOptParamTypeCapability; n] ++ x).
    rewrite (decode_items_wire (dec:=decodeCapability) u16 65536);
      [done|intros; zlia|done|unfold len in *; lia|done|done|side].
  - intros [b caps|b v]; [|done]. cbn [wire_bytes wire_wf BGPOptParam_Wire opt_wf
      BGPOptParam_base opt_body app]. intros (-> & Hl & Hc).
    pose proof (len_nonneg (wire_list caps)).
    unfold BGPOptParam_TotalLen, BGPOptParamBase_TotalLen. cbn [BGPOptParam_base opt_Len].
    side.
  - intros p _. cbn. len_simpl. pose proof (len_nonneg (opt_body p)). lia.
Qed.

Lemma sum_TotalLen8_ok ps n :
  Forall wire_wf ps -> 0 <= n -> n + len (wire_list ps) < 256 ->
  foldl (fun n p => u8 (n + BGPOptParam_TotalLen p)) n ps = n + len (wire_list ps).
Proof.
  intros Hps. revert n. induction Hps as [|p ps Hp _ IH]; intros n Hn Hl.
  { cbn [foldl]. change (len (wire_list [])) with 0. lia. }
  rewrite wire_list_cons in *. len_simpl. cbn [foldl].
  rewrite (codec_size (size:=BGPOptParam_TotalLen) p Hp).
  pose proof (len_nonneg (wire_list ps)). pose proof (len_nonneg (wire_bytes p)).
  replace (u8 _) with (n + len (wire_bytes p)) by zlia. rewrite IH; lia.
Qed.

(** ** OPEN round-trips *)

Lemma BGPOpen_Encode_ok msg :
  open_wf msg -> BGPOpen_Encode msg = Ok (open_bytes msg).
Proof.
  destruct msg as [v a h id n ps]. unfold open_wf, open_bytes, BGPOpen_Encode.
  cbn [Version MyAS HoldTime BGPId OptParamLen OptParams].
  intros (Hv & Ha & Hh & Hid & _ & -> & Hn & Hps).
  rewrite (set_index_zeros [] 10) by side. res_simpl.
  rewrite PutUint16_zeros by side. res_simpl. rewrite PutUint16_zeros by side. res_simpl.
  rewrite To4_4 by done. rewrite take_ge by (unfold len in *; lia).
  rewrite copy_at_zeros by side. res_simpl. rewrite Hid.
  change (zeros (10 - 1 - 2 - 2 - 4)) with [0].
  rewrite (encode_items_wire (enc:=BGPOptParam_Encode)) by done. res_simpl.
  unfold sum_TotalLen8. pose proof (len_nonneg (wire_list ps)).
  rewrite sum_TotalLen8_ok by (done || lia). rewrite Z.add_0_l.
  replace (u16 a) with a by zlia.
  rewrite <- (app_assoc _ [0]). change ([0] ++ ?x) with (0 :: x). rewrite set_index_app by side.
  by rewrite <- !app_assoc.
Qed.

Lemma BGPOpen_Decode_ok msg rest fuel :
  open_wf msg -> (length (OptParams msg) <= fuel)%nat ->
  BGPOpen_Decode fuel (open_bytes msg ++ rest) = Ok msg.
Proof.
  destruct msg as [v a h id n ps]. unfold open_wf, open_bytes, BGPOpen_Decode.
  cbn [Version MyAS HoldTime BGPId OptParamLen OptParams].
  intros (Hv & Ha & Hh & Hid & _ & -> & Hn & Hps) Hf.
  destruct id as [|i0 [|i1 [|i2 [|i3 [|]]]]]; try (unfold len in Hid; cbn [length] in Hid; lia).
  pose proof (len_nonneg (wire_list ps)).
  set (n := len (wire_list ps)) in *.
  pose proof (decode_items_wire (dec:=decodeOptParam) (enc:=BGPOptParam_Encode) u8 256 fuel
    ([v] ++ be16 a ++ be16 h ++ [i0; i1; i2; i3] ++ [n]) ps rest 10 n []) as Hd.
  rewrite <- !app_assoc in *.
  change (index _ 0) with (Ok v). change (index _ 9) with (Ok n). res_simpl.
  rewrite (slice_app [v] (be16 a) _ 1 3) by done. res_simpl.
  rewrite <- (app_nil_r (be16 a)) at 1. rewrite Uint16_be16 by done. res_simpl.
  change ([v] ++ be16 a ++ ?x) with (([v] ++ be16 a) ++ x).
  rewrite (slice_app ([v] ++ be16 a) (be16 h) _ 3 5) by done. res_simpl.
  rewrite <- (app_nil_r (be16 h)) at 1. rewrite Uint16_be16 by done. res_simpl.
  change (([v] ++ be16 a) ++ be16 h ++ ?x) with (([v] ++ be16 a ++ be16 h) ++ x).
  rewrite (slice_app _ [i0; i1; i2; i3] _ 5 9) by done. res_simpl.
  change (([v] ++ be16 a ++ be16 h) ++ ?x) with ([v] ++ be16 a ++ be16 h ++ x).
  rewrite Hd; [done|intros; zlia|done|done|done|done|].
  change (len _) with 10. lia.
Qed.

(** ** What the OPEN we send says to the peer that reads it *)

Lemma foldl_ConstructOptParams flags families caps b vals :
  foldl (ConstructOptParams_step flags) (caps, (b, vals)) families
  = (caps ++ map (fun pf => NewBGPCapMPExt (GetAfiSafi pf).1 (GetAfiSafi pf).2) families,
     (mkCapBase (cap_Type b) (foldl (fun n _ => u8 (n + 4)) (cap_Len b) families),
      vals ++ map (fun pf => mkAddPath (GetAfiSafi pf).1 (GetAfiSafi pf).2 flags) families)).
Proof.
  revert caps b vals. induction families as [|pf families IH]; intros caps [t l] vals.
  - cbn. by rewrite !app_nil_r.
  - cbn [foldl ConstructOptParams_step GetAfiSafi]. unfold AddAddPathAFISAFI.
    rewrite IH. cbn. by rewrite <- !app_assoc.
Qed.

Lemma foldl_u8_add4 {A} (xs : list A) n :
  0 <= n -> n + 4 * len xs < 256 -> foldl (fun n _ => u8 (n + 4)) n xs = n + 4 * len xs.
Proof.
  revert n. induction xs as [|x xs IH]; intros n Hn Hl; cbn [foldl]; len_simpl; [lia|].
  pose proof (len_nonneg xs). replace (u8 (n + 4)) with (n + 4) by zlia. rewrite IH; lia.
Qed.

Lemma foldl_u16_TotalLen (caps : list BGPCapability) n :
  Forall wire_wf caps -> 0 <= n -> n + len (wire_list caps) < 65536 ->
  foldl (fun n c => u16 (n + BGPCapability_TotalLen c)) n caps = n + len (wire_list caps).
Proof.
  intros Hps. revert n. induction Hps as [|c caps Hc _ IH]; intros n Hn Hl.
  { cbn [foldl]. change (len (wire_list [])) with 0. lia. }
  rewrite wire_list_cons in *. len_simpl. cbn [foldl].
  rewrite (codec_size (size:=BGPCapability_TotalLen) c Hc).
  pose proof (len_nonneg (wire_list caps)). pose proof (len_nonneg (wire_bytes c)).
  replace (u16 _) with (n + len (wire_bytes c)) by zlia. rewrite IH; lia.
Qed.

Lemma GetAfiSafi_wf pf : is_u16 (GetAfiSafi pf).1 /\ is_u8 (GetAfiSafi pf).2.
Proof. cbn. split; zlia. Qed.

Lemma GetProtocolFamily_GetAfiSafi pf :
  is_u16 pf -> GetProtocolFamily (GetAfiSafi pf).1 (GetAfiSafi pf).2 = pf.
Proof.
  intros Hpf. unfold GetProtocolFamily, GetAfiSafi. cbn.
  rewrite Z.shiftr_div_pow2, Z.shiftl_mul_pow2 by lia.
  change 255 with (Z.ones 8). rewrite Z.land_ones by lia.
  change (2 ^ 8) with 256.
  replace (u16 (u16 (pf / 256) * 256)) with ((pf / 256) * 2 ^ 8) by zlia.
  replace (u8 (pf mod 256)) with (pf mod 256) by zlia.
  assert (Hz : Z.land (pf / 256 * 2 ^ 8) (pf mod 256) = 0).
  { rewrite <- Z.shiftl_mul_pow2 by lia. apply Z.bits_inj'. intros i Hi.
    rewrite Z.land_spec, Z.bits_0. destruct (decide (i < 8)).
    - by rewrite Z.shiftl_spec_low.
    - change 256 with (2 ^ 8). rewrite Z.mod_pow2_bits_high by lia. apply andb_false_r. }
  pose proof (Z.add_lor_land (pf / 256 * 2 ^ 8) (pf mod 256)). zlia.
Qed.

(** The capabilities of the OPEN the code sends for a set of families. *)
Definition sent_caps (as_ flags : Z) (families : list Z) : list BGPCapability :=
  [NewBGPCap4ByteASPath as_] ++
  map (fun pf => NewBGPCapMPExt (GetAfiSafi pf).1 (GetAfiSafi pf).2) families ++
  (if negb (flags =? 0) then
     [BGPCapAddPath (mkCapBase BGPCapTypeAddPath (4 * len families))
        (map (fun pf => mkAddPath (GetAfiSafi pf).1 (GetAfiSafi pf).2 flags) families)]
   else []).

Definition sent_flags (addPathsRx : bool) (addPathsMaxTx : Z) : Z :=
  (if addPathsRx then 1 else 0) + (if 0 <? addPathsMaxTx then 2 else 0).

Lemma sent_caps_wf as_ flags families :
  is_u32 as_ -> is_u8 flags -> len families <= 22 ->
  Forall wire_wf (sent_caps as_ flags families).
Proof.
  intros Has Hfl Hn. unfold sent_caps. apply Forall_app_2; [|apply Forall_app_2].
  - repeat constructor; apply Has.
  - apply Forall_map, Forall_true. intros pf. destruct (GetAfiSafi_wf pf). cbn. by split_and!.
  - destruct (negb _); constructor; [|done]. cbn [wire_wf BGPCapability_Wire cap_wf].
    rewrite len_map. split_and!; [done|lia|].
    apply Forall_map, Forall_true. intros pf. destruct (GetAfiSafi_wf pf). cbn. by split_and!.
Qed.

Lemma len_sent_caps as_ flags families :
  len (wire_list (sent_caps as_ flags families))
  = 6 + 6 * len families + (if negb (flags =? 0) then 2 + 4 * len families else 0).
Proof.
  unfold sent_caps, wire_list. rewrite !map_app, !concat_app. len_simpl.
  assert (Hm : len (concat (map wire_bytes (map (fun pf =>
     NewBGPCapMPExt (GetAfiSafi pf).1 (GetAfiSafi pf).2) families))) = 6 * len families).
  { induction families as [|pf fs IH]; [done|]. cbn [map concat]. len_simpl. rewrite IH.
    change (len (wire_bytes (NewBGPCapMPExt _ _))) with 6. lia. }
  rewrite Hm. change (len (concat (map wire_bytes [NewBGPCap4ByteASPath as_]))) with 6.
  destruct (negb _); [|change (len (concat (map wire_bytes []))) with 0; lia].
  cbn [map concat wire_bytes BGPCapability_Wire cap_body]. len_simpl.
  rewrite len_AddPath_bytes, len_map. lia.
Qed.

Lemma ConstructOptParams_eq as_ families rx maxTx :
  len families <= 22 ->
  ConstructOptParams as_ families rx maxTx
  = [NewBGPOptParamCapability (sent_caps as_ (sent_flags rx maxTx) families)].
Proof.
  intros Hn. unfold ConstructOptParams, sent_flags, sent_caps.
  rewrite foldl_ConstructOptParams. cbn [cap_Type cap_Len app].
  pose proof (len_nonneg families). rewrite foldl_u8_add4 by lia.
  destruct rx, (0 <? maxTx); cbn [negb Z.eqb Z.lor BGPCapAddPathRx BGPCapAddPathTx
    BGPCapAddPathRx Pos.lor Z.add Pos.add]; rewrite ?Z.add_0_l, ?app_nil_r; reflexivity.
Qed.

Lemma GetAddPathFamily_Tx vals f (m : gmap Z (gmap Z Z)) :
  Forall (fun v => ap_Flags v = f) vals ->
  (forall afi inner, m !! afi = Some inner ->
     inner <> ∅ /\ forall s fl, inner !! s = Some fl -> fl = f) ->
  let m' := foldl (fun (m : gmap Z (gmap Z Z)) v =>
    let inner : gmap Z Z := default ∅ (m !! ap_AFI v) in
    match inner !! ap_SAFI v with
    | Some _ => m
    | None => <[ap_AFI v := <[ap_SAFI v := ap_Flags v]> inner]> m
    end) m vals in
  (vals <> [] \/ m <> ∅ -> m' <> ∅) /\
  (forall afi inner, m' !! afi = Some inner ->
     inner <> ∅ /\ forall s fl, inner !! s = Some fl -> fl = f).
Proof.
  intros Hv. revert m. induction Hv as [|v vals Hv _ IH]; intros m Hm; cbn [foldl].
  { split; [tauto|done]. }
  set (m1 := match _ with Some _ => m | None => _ end).
  assert (Hm1 : forall afi inner, m1 !! afi = Some inner ->
     inner <> ∅ /\ forall s fl, inner !! s = Some fl -> fl = f).
  { subst m1. intros afi inner. destruct (default _ _ !! ap_SAFI v) eqn:E; [apply Hm|].
    rewrite lookup_insert. case_decide as Ha; [subst afi|apply Hm]. intros [= <-].
    split; [apply insert_non_empty|]. intros s fl.
    rewrite lookup_insert. case_decide; [intros [= <-]; done|].
    destruct (m !! ap_AFI v) eqn:Em; cbn; [eapply Hm; eauto|by rewrite lookup_empty]. }
  assert (Hne : m1 <> ∅).
  { subst m1. destruct (default _ _ !! ap_SAFI v) eqn:E; [|apply insert_non_empty].
    intros ->. by rewrite lookup_empty in E. }
  destruct (IH m1 Hm1) as [IH1 IH2]. split; [intros _; apply IH1; by right|apply IH2].
Qed.

Lemma IsAddPathsTx_uniform (m : gmap Z (gmap Z Z)) f :
  m <> ∅ ->
  (forall afi inner, m !! afi = Some inner ->
     inner <> ∅ /\ forall s fl, inner !! s = Some fl -> fl = f) ->
  IsAddPathsTxEnabledForIPv4 m = has_bits f BGPCapAddPathTx.
Proof.
  intros Hne Hm. apply eq_true_iff_eq. unfold IsAddPathsTxEnabledForIPv4.
  rewrite existsb_exists. split.
  - intros ([afi inner] & Hin & Hex). apply existsb_exists in Hex as ([s fl] & Hin2 & Hb).
    apply list_elem_of_In, elem_of_map_to_list in Hin, Hin2.
    destruct (Hm _ _ Hin) as [_ Hfl]. by rewrite <- (Hfl _ _ Hin2).
  - intros Hf. destruct (map_choose m Hne) as (afi & inner & Hin).
    destruct (Hm _ _ Hin) as [Hi Hfl]. destruct (map_choose inner Hi) as (s & fl & Hin2).
    exists (afi, inner). split; [by apply list_elem_of_In, elem_of_map_to_list|].
    apply existsb_exists. exists (s, fl).
    split; [by apply list_elem_of_In, elem_of_map_to_list|]. by rewrite (Hfl _ _ Hin2).
Qed.

Lemma GetPeerAS_caps_noAS4 caps a :
  Forall (fun c => is_AS4 c = false) caps -> GetPeerAS_caps caps a = Ok a.
Proof. induction 1 as [|c caps Hc _ IH]; cbn; [done|]. by rewrite Hc. Qed.

Lemma first_AddPath_MPExt (families : list Z) (f : Z -> Z * Z) caps :
  first_AddPath (map (fun pf => NewBGPCapMPExt (f pf).1 (f pf).2) families ++ caps)
  = first_AddPath caps.
Proof. induction families as [|pf fs IH]; [done|]. by cbn. Qed.

Definition sent_open (as_ holdTime : Z) (id : bytes) (families : list Z) (rx : bool)
  (maxTx : Z) : BGPOpen :=
  NewBGPOpen as_ holdTime id (ConstructOptParams as_ families rx maxTx).

Lemma sent_open_wf as_ holdTime id families rx maxTx :
  is_u32 as_ -> is_u16 holdTime -> len id = 4 -> is_bytes id -> len families <= 22 ->
  open_wf (sent_open as_ holdTime id families rx maxTx).
Proof.
  intros Has Hh Hid Hb Hn. unfold sent_open. rewrite ConstructOptParams_eq by done.
  set (flags := sent_flags rx maxTx). set (caps := sent_caps as_ flags families).
  assert (Hfl : is_u8 flags) by (subst flags; unfold sent_flags; destruct rx, (0 <? maxTx); zlia).
  pose proof (sent_caps_wf as_ flags families Has Hfl Hn) as Hwf.
  pose proof (len_sent_caps as_ flags families) as Hlen. fold caps in Hwf, Hlen.
  pose proof (len_nonneg families).
  assert (Hp : opt_wf (NewBGPOptParamCapability caps)).
  { unfold NewBGPOptParamCapability. rewrite foldl_u16_TotalLen by
      (done || (rewrite Hlen; destruct (negb _); lia)).
    rewrite Z.add_0_l. split; [f_equal; destruct (negb _); zlia|].
    split; [|done]. rewrite Hlen. destruct (negb _); lia. }
  assert (Hps : Forall wire_wf [NewBGPOptParamCapability caps]) by by constructor.
  assert (Hl : len (wire_list [NewBGPOptParamCapability caps]) = 2 + len (wire_list caps)).
  { unfold wire_list at 1. cbn [map concat wire_bytes BGPOptParam_Wire]. len_simpl. cbn. lia. }
  assert (Hs : len (wire_list [NewBGPOptParamCapability caps]) <= 230)
    by (rewrite Hl, Hlen; destruct (negb _); lia).
  unfold open_wf, NewBGPOpen. cbn [Version MyAS HoldTime BGPId OptParamLen OptParams].
  split_and!; try done.
  - destruct (65535 <? as_) eqn:?; [done|zlia].
  - unfold sum_TotalLen8. rewrite sum_TotalLen8_ok by (done || lia). lia.
  - lia.
Qed.

Lemma first_AddPath_sent as_ flags families :
  first_AddPath (sent_caps as_ flags families)
  = if negb (flags =? 0)
    then map (fun pf => mkAddPath (GetAfiSafi pf).1 (GetAfiSafi pf).2 flags) families else [].
Proof.
  unfold sent_caps. cbn [app first_AddPath NewBGPCap4ByteASPath].
  rewrite first_AddPath_MPExt. by destruct (negb _).
Qed.

Lemma IsAddPathsTx_sent as_ families rx maxTx p :
  OptParams p = [NewBGPOptParamCapability (sent_caps as_ (sent_flags rx maxTx) families)] ->
  IsAddPathsTxEnabledForIPv4 (GetAddPathFamily p)
  = (0 <? maxTx) && negb (bool_decide (families = [])).
Proof.
  intros Hp. unfold GetAddPathFamily, open_capabilities. rewrite Hp.
  cbn [map mjoin list_join NewBGPOptParamCapability]. rewrite app_nil_r, first_AddPath_sent.
  set (flags := sent_flags rx maxTx).
  set (vals := if negb (flags =? 0) then _ else _).
  assert (Hv : Forall (fun v => ap_Flags v = flags) vals).
  { subst vals. destruct (negb _); [|done]. by apply Forall_map, Forall_true. }
  destruct (GetAddPathFamily_Tx vals flags ∅ Hv) as [Hne Hall]; [done|].
  destruct (decide (vals = [])) as [E|E].
  - rewrite E. cbn. subst vals flags. unfold sent_flags in E. symmetry.
    destruct families as [|f fs]; [apply andb_false_r|].
    by destruct rx, (0 <? maxTx).
  - rewrite (IsAddPathsTx_uniform _ flags) by auto.
    subst vals flags. unfold sent_flags in *.
    destruct families as [|f fs]; [by destruct (negb _)|]. by destruct rx, (0 <? maxTx).
Qed.

Lemma GetProtocolFromOpenMsg_sent as_ flags families p :
  OptParams p = [NewBGPOptParamCapability (sent_caps as_ flags families)] ->
  Forall is_u16 families ->
  GetProtocolFromOpenMsg p = list_to_set families.
Proof.
  intros Hp Hf. unfold GetProtocolFromOpenMsg, open_capabilities. rewrite Hp.
  cbn [map mjoin list_join NewBGPOptParamCapability]. rewrite app_nil_r.
  unfold sent_caps. cbn [app]. f_equal.
  assert (Ho : omap (fun c => match c with
     | BGPCapMPExt _ afi _ safi => Some (GetProtocolFamily afi safi) | _ => None end)
     (if negb (flags =? 0) then
       [BGPCapAddPath (mkCapBase BGPCapTypeAddPath (4 * len families))
          (map (fun pf => mkAddPath (GetAfiSafi pf).1 (GetAfiSafi pf).2 flags) families)]
      else []) = []) by by destruct (negb _).
  cbn [omap list_omap NewBGPCap4ByteASPath]. rewrite omap_app, Ho, app_nil_r.
  clear Ho Hp. induction Hf as [|pf fs Hpf _ IH]; [done|]. cbn [map omap list_omap NewBGPCapMPExt].
  rewrite GetProtocolFamily_GetAfiSafi by done. by rewrite IH.
Qed.

(** ** Properties *)

(** an OPEN within the decoder's 8-bit offset is read back, whatever bytes
    follow it, exactly as it was encoded, capabilities included. *)
Theorem open_roundtrip (msg : BGPOpen) (rest : bytes) (fuel : nat)
  (Hwf : open_wf msg) (Hfuel : (length (OptParams msg) <= fuel)%nat) :
  exists pkt, BGPOpen_Encode msg = Ok pkt /\ BGPOpen_Decode fuel (pkt ++ rest) = Ok msg.
Proof.
  exists (open_bytes msg). split; [by apply BGPOpen_Encode_ok|by apply BGPOpen_Decode_ok].
Qed.

Lemma open_roundtrip_witness :
  exists pkt, BGPOpen_Encode (sent_open 70000 180 [10; 0; 0; 1] [257; 513] true 2) = Ok pkt /\
    BGPOpen_Decode 3 (pkt ++ [7]) = Ok (sent_open 70000 180 [10; 0; 0; 1] [257; 513] true 2).
Proof.
  apply open_roundtrip.
  - apply sent_open_wf; unfold is_u32, is_u16, is_bytes; try (vm_compute; congruence).
    + lia.
    + lia.
    + repeat constructor; unfold is_u8; lia.
  - vm_compute. lia.
Defined.

(** the OPEN built for a configuration tells the peer the configured values:
    the 4-octet AS, the hold time, the router id, every address family, and
    ADD-PATH transmission exactly when it is configured for some family. *)
Theorem open_negotiation (as_ holdTime : Z) (id : bytes) (families : list Z) (rx : bool)
  (maxTx : Z) (Has : is_u32 as_) (Hhold : is_u16 holdTime) (Hid : len id = 4)
  (Hb : is_bytes id) (Hfam : Forall is_u16 families) (Hn : len families <= 22) :
  exists pkt msg,
    BGPOpen_Encode (sent_open as_ holdTime id families rx maxTx) = Ok pkt /\
    BGPOpen_Decode 1 pkt = Ok msg /\
    GetPeerAS msg = Ok as_ /\ GetASSize msg = Ok 4 /\
    HoldTime msg = holdTime /\ BGPId msg = id /\
    GetProtocolFromOpenMsg msg = list_to_set families /\
    IsAddPathsTxEnabledForIPv4 (GetAddPathFamily msg)
      = (0 <? maxTx) && negb (bool_decide (families = [])).
Proof.
  set (msg := sent_open as_ holdTime id families rx maxTx).
  assert (Hwf : open_wf msg) by by apply sent_open_wf.
  assert (Hp : OptParams msg
    = [NewBGPOptParamCapability (sent_caps as_ (sent_flags rx maxTx) families)])
    by (unfold msg, sent_open; by rewrite ConstructOptParams_eq).
  exists (open_bytes msg), msg. split_and!.
  - by apply BGPOpen_Encode_ok.
  - rewrite <- (app_nil_r (open_bytes msg)). apply BGPOpen_Decode_ok; [done|]. by rewrite Hp.
  - unfold GetPeerAS. rewrite Hp. cbn. rewrite GetPeerAS_caps_noAS4; [done|].
    apply Forall_app_2; [by apply Forall_map, Forall_true|]. destruct (negb _); by repeat constructor.
  - unfold GetASSize. by rewrite Hp.
  - done.
  - done.
  - by eapply GetProtocolFromOpenMsg_sent.
  - by eapply IsAddPathsTx_sent.
Qed.

Lemma open_negotiation_witness :
  exists pkt msg,
    BGPOpen_Encode (sent_open 70000 180 [10; 0; 0; 1] [257; 513] true 2) = Ok pkt /\
    BGPOpen_Decode 1 pkt = Ok msg /\
    GetPeerAS msg = Ok 70000 /\ GetASSize msg = Ok 4 /\
    HoldTime msg = 180 /\ BGPId msg = [10; 0; 0; 1] /\
    GetProtocolFromOpenMsg msg = list_to_set [257; 513] /\
    IsAddPathsTxEnabledForIPv4 (GetAddPathFamily msg)
      = (0 <? 2) && negb (bool_decide ([257; 513] = [])).
Proof.
  apply open_negotiation; unfold is_u32, is_u16, is_bytes, is_u8.
  - lia.
  - lia.
  - reflexivity.
  - repeat constructor; unfold is_u8; lia.
  - repeat constructor; lia.
  - vm_compute. congruence.
Defined.

(** a capability parameter whose length octet is 254 has a total length of
    zero in uint8, so the parameter loop of the OPEN decoder never leaves it. *)
Theorem open_decode_hangs (hdr : bytes) (n : Z) (caps : list BGPCapability) (rest : bytes)
  (fuel : nat) (Hhdr : len hdr = 9) (Hn : 0 < n) (Hcaps : Forall wire_wf caps)
  (Hlen : len (wire_list caps) = 254) :
  BGPOpen_Decode fuel
    (hdr ++ [n] ++ [BGPOptParamTypeCapability; 254] ++ wire_list caps ++ rest) = NoFuel.
Proof.
  destruct hdr as [|h0 [|h1 [|h2 [|h3 [|h4 [|h5 [|h6 [|h7 [|h8 [|]]]]]]]]]];
    try (unfold len in Hhdr; cbn [length] in Hhdr; lia).
  set (par := [BGPOptParamTypeCapability; 254] ++ wire_list caps ++ rest).
  assert (Hd : decodeOptParam par
    = Ok (BGPOptParamCapability (mkOptBase BGPOptParamTypeCapability 254) caps)).
  { subst par. pose proof (wire_list_length_le caps).
    match goal with |- decodeOptParam ?p = _ =>
      change (decodeOptParam p) with (BGPOptParamCapability_Decode p) end.
    unfold BGPOptParamCapability_Decode.
    assert (Hbase : BGPOptParamBase_Decode ([BGPOptParamTypeCapability; 254] ++ wire_list caps ++ rest)
      = Ok (mkOptBase BGPOptParamTypeCapability 254)).
    { unfold BGPOptParamBase_Decode. pose proof (len_nonneg (wire_list caps ++ rest)).
      rewrite (proj2 (Z.ltb_ge _ _)) by side. res_simpl.
      change (index _ 0) with (Ok BGPOptParamTypeCapability). change (index _ 1) with (Ok 254).
      res_simpl. rewrite (proj2 (Z.ltb_ge _ _)); [done|].
      change (BGPOptParamBase_TotalLen _) with 0. apply len_nonneg. }
    rewrite Hbase. res_simpl. cbn [opt_Len].
    rewrite (decode_items_wire (dec:=decodeCapability) u16 65536);
      [done|intros; zlia|done|unfold len in *; lia|done|done|side]. }
  unfold BGPOpen_Decode.
  change (index _ 0) with (Ok h0). change (index _ 9) with (Ok n). res_simpl.
  rewrite (slice_range _ 1 3), (slice_range _ 3 5), (slice_range _ 5 9)
    by (pose proof (len_nonneg par); side).
  cbn [Z.to_nat Z.sub Z.opp Z.add Z.pos_sub Pos.to_nat Pos.iter_op Nat.add take drop app
    Uint16]. res_simpl.
  erewrite (decode_items_stuck u8 decodeOptParam BGPOptParam_TotalLen _ 10 n par);
    [done|done| |exact Hd|done|done].
  by apply (slice_from_app [h0; h1; h2; h3; h4; h5; h6; h7; h8; n] par).
Qed.

Lemma open_decode_hangs_witness :
  BGPOpen_Decode 1000
    ([4; 0; 1; 0; 9; 10; 0; 0; 1] ++ [255] ++ [BGPOptParamTypeCapability; 254] ++
     wire_list (replicate 127 (BGPCapUnknown (mkCapBase 0 0) [])) ++ []) = NoFuel.
Proof.
  apply open_decode_hangs.
  - reflexivity.
  - lia.
  - apply Forall_replicate. cbn. unfold is_u8, BGPCapTypeMPExt, BGPCapTypeAS4Path,
      BGPCapTypeAddPath. repeat split; lia.
  - vm_compute. reflexivity.
Defined.

(** an OPEN that ends at its parameter length octet panics the decoder
    unless that octet is zero: the type octet of the first parameter is read
    without a bounds check. *)
Theorem open_decode_truncated (hdr : bytes) (n : Z) (fuel : nat)
  (Hhdr : len hdr = 9) (Hn : is_u8 n) :
  BGPOpen_Decode (S fuel) (hdr ++ [n])
  = if n =? 0 then
      v ← index hdr 0; a ← (s ← slice hdr 1 3; Uint16 s); h ← (s ← slice hdr 3 5; Uint16 s);
      id ← slice_from hdr 5; Ok (mkBGPOpen v a h id 0 [])
    else Panic.
Proof.
  destruct hdr as [|h0 [|h1 [|h2 [|h3 [|h4 [|h5 [|h6 [|h7 [|h8 [|]]]]]]]]]];
    try (unfold len in Hhdr; cbn [length] in Hhdr; lia).
  destruct (n =? 0) eqn:E; [apply Z.eqb_eq in E as ->; reflexivity|].
  unfold BGPOpen_Decode. cbn [app].
  change (index _ 0) with (Ok h0). change (index _ 9) with (Ok n). res_simpl.
  rewrite (slice_range _ 1 3), (slice_range _ 3 5), (slice_range _ 5 9) by side.
  cbn [Z.to_nat Z.sub Z.opp Z.add Z.pos_sub Pos.to_nat Pos.iter_op Nat.add take drop app
    Uint16]. res_simpl. cbn [decode_items].
  rewrite (proj2 (Z.ltb_lt 0 n)) by zlia. reflexivity.
Qed.

Lemma open_decode_truncated_witness :
  BGPOpen_Decode 1 ([4; 0; 1; 0; 9; 10; 0; 0; 1] ++ [1])
  = if 1 =? 0 then
      v ← index [4; 0; 1; 0; 9; 10; 0; 0; 1] 0;
      a ← (s ← slice [4; 0; 1; 0; 9; 10; 0; 0; 1] 1 3; Uint16 s);
      h ← (s ← slice [4; 0; 1; 0; 9; 10; 0; 0; 1] 3 5; Uint16 s);
      id ← slice_from [4; 0; 1; 0; 9; 10; 0; 0; 1] 5; Ok (mkBGPOpen v a h id 0 [])
    else Panic.
Proof. apply open_decode_truncated; [reflexivity|unfold is_u8; lia]. Defined.
