(* ===== verification/BgpNlri.v ===== *)
(** * Network layer reachability information

    IPPrefix, ExtNLRI and decodeNLRI of src/bgp/packet/bgp.go: the prefixes of
    an UPDATE, with and without an ADD-PATH identifier. *)

From S2P Require Import Prelude.
From S2P Require Import BgpOpen.

(** ** Prefixes *)

Record IPPrefix := mkIPPrefix { pfx_Length : Z; Prefix : bytes }.

(** A [*IPPrefix] or an [*ExtNLRI], which embeds one. *)
Inductive NLRI :=
| NIPPrefix (ip : IPPrefix)
| NExtNLRI (ip : IPPrefix) (PathId : Z).

(** [(ip.Length + 7) / 8] in uint8. *)
Definition prefix_octets (l : Z) : Z := u8 (l + 7) / 8.

Definition IPPrefix_Len (ip : IPPrefix) : Z := u8 (prefix_octets (pfx_Length ip) + 1).

(** [cap(ip.Prefix)] is the length of the address (see [slice_from]). *)
Definition IPPrefix_Encode (ip : IPPrefix) (afi : Z) : res bytes :=
  let pkt := zeros (IPPrefix_Len ip) in
  pkt ← set_index pkt 0 (pfx_Length ip);
  let ipLen := if afi =? AfiIP6 then 16 else 4 in
  let ipBytesStart := u8 (len (Prefix ip) - ipLen) in
  s ← slice (Prefix ip) ipBytesStart (u8 (ipBytesStart + prefix_octets (pfx_Length ip)));
  copy_at pkt 1 s.

(** [^byte(0xff >> (l % 8))] *)
Definition host_mask (l : Z) : Z := u8 (Z.lnot (Z.shiftr 255 (l mod 8))).

Definition IPPrefix_Decode (pkt : bytes) (afi : Z) : res IPPrefix :=
  _ ← guard_err (len pkt <? 1) (BGPMessageError BGPUpdateMsgError BGPInvalidNetworkField []);
  l ← index pkt 0;
  _ ← match assocZ AFINextHopLenMap afi with
      | Some n => guard_err (u8 (u8 n * 8) <? l)
                    (BGPMessageError BGPUpdateMsgError BGPInvalidNetworkField [])
      | None => Ok tt
      end;
  let nb := prefix_octets l in
  _ ← guard_err (len pkt <? nb + 1)
        (BGPMessageError BGPUpdateMsgError BGPInvalidNetworkField []);
  let ipLen := if (afi =? AfiIP6) || (4 <? nb) then 16 else 4 in
  s ← slice pkt 1 (u8 (nb + 1));
  let prefix := copy (zeros ipLen) s in
  prefix ← (if (0 <? nb) && (0 <? l mod 8) then
              b ← index prefix (nb - 1);
              set_index prefix (nb - 1) (Z.land b (host_mask l))
            else Ok prefix);
  Ok (mkIPPrefix l prefix).

Definition NLRI_IPPrefix (n : NLRI) : IPPrefix :=
  match n with NIPPrefix ip | NExtNLRI ip _ => ip end.

Definition NLRI_GetPathId (n : NLRI) : Z :=
  match n with NIPPrefix _ => 0 | NExtNLRI _ pathId => pathId end.

Definition NLRI_Len (n : NLRI) : Z :=
  match n with
  | NIPPrefix ip => IPPrefix_Len ip
  | NExtNLRI ip _ => u32 (IPPrefix_Len ip + 4)
  end.

Definition NLRI_Encode (n : NLRI) (afi : Z) : res bytes :=
  match n with
  | NIPPrefix ip => IPPrefix_Encode ip afi
  | NExtNLRI ip pathId =>
    pkt ← PutUint32 (zeros 4) 0 pathId;
    ipBytes ← IPPrefix_Encode ip afi;
    Ok (pkt ++ ipBytes)
  end.

Definition ExtNLRI_Decode (pkt : bytes) (afi : Z) : res NLRI :=
  _ ← guard_err (len pkt <? 5) (BGPMessageError BGPUpdateMsgError BGPInvalidNetworkField []);
  pathId ← Uint32 pkt;
  s ← slice_from pkt 4;
  ip ← IPPrefix_Decode s afi;
  Ok (NExtNLRI ip pathId).

(** The type the loop of [decodeNLRI] allocates depends on the ADD-PATH state
    of the peer. *)
Definition NLRI_Decode (addPathsRxActual : bool) (afi : Z) (pkt : bytes) : res NLRI :=
  if addPathsRxActual then ExtNLRI_Decode pkt afi
  else ip ← IPPrefix_Decode pkt afi; Ok (NIPPrefix ip).

Fixpoint decodeNLRI_loop (fuel : nat) (addPathsRxActual : bool) (pkt : bytes)
  (length_ afi ptr : Z) (acc : list NLRI) : res (list NLRI * Z) :=
  if ptr <? length_ then
    match fuel with
    | O => NoFuel
    | S fuel =>
      s ← slice_from pkt ptr;
      ip ← NLRI_Decode addPathsRxActual afi s;
      decodeNLRI_loop fuel addPathsRxActual pkt length_ afi (u32 (ptr + NLRI_Len ip))
        (acc ++ [ip])
    end
  else Ok (acc, ptr).

(** The decoded prefixes and the octets consumed; every turn takes at least one
    octet, so the loop has fuel for as many turns as there are octets. *)
Definition decodeNLRI (addPathsRxActual : bool) (pkt : bytes) (length_ afi : Z)
  : res (list NLRI * Z) :=
  _ ← guard_err (u32 (len pkt) <? length_)
        (BGPMessageError BGPUpdateMsgError BGPMalformedAttrList []);
  '(ns, ptr) ← decodeNLRI_loop (length pkt) addPathsRxActual pkt length_ afi 0 [];
  _ ← guard_err (negb (ptr =? length_)) (BGPMessageError BGPUpdateMsgError BGPAttrLenError pkt);
  Ok (ns, ptr).

(** ** Canonical prefixes *)

(** Octets of an address of the family; the two families the daemon knows. *)
Definition afi_octets (afi : Z) : Z := if afi =? AfiIP6 then 16 else 4.

Definition afi_known (afi : Z) : Prop := afi = AfiIP \/ afi = AfiIP6.

(** A prefix whose length fits its family, whose address has the family's
    octets, and whose host bits are zero. *)
Definition prefix_wf (afi : Z) (ip : IPPrefix) : Prop :=
  let nb := prefix_octets (pfx_Length ip) in
  0 <= pfx_Length ip <= 8 * afi_octets afi /\
  len (Prefix ip) = afi_octets afi /\
  is_bytes (Prefix ip) /\
  drop (Z.to_nat nb) (Prefix ip) = zeros (afi_octets afi - nb) /\
  (0 < pfx_Length ip mod 8 ->
   exists b, Prefix ip !! Z.to_nat (nb - 1) = Some b /\ Z.land b (host_mask (pfx_Length ip)) = b).

Definition nlri_wf (addPaths : bool) (afi : Z) (n : NLRI) : Prop :=
  match n with
  | NIPPrefix ip => addPaths = false /\ prefix_wf afi ip
  | NExtNLRI ip pathId => addPaths = true /\ prefix_wf afi ip /\ is_u32 pathId
  end.

Definition prefix_bytes (ip : IPPrefix) : bytes :=
  [pfx_Length ip] ++ take (Z.to_nat (prefix_octets (pfx_Length ip))) (Prefix ip).

Definition NLRI_Wire (addPaths : bool) (afi : Z) : Wire NLRI := {|
  wire_bytes n := match n with
    | NIPPrefix ip => prefix_bytes ip
    | NExtNLRI ip pathId => be32 pathId ++ prefix_bytes ip
    end;
  wire_wf := nlri_wf addPaths afi;
|}.

(** ** Lemmas *)

Lemma prefix_octets_small l : 0 <= l <= 128 -> prefix_octets l = (l + 7) / 8.
Proof. intros. unfold prefix_octets. zlia. Qed.

Lemma prefix_octets_range l : 0 <= prefix_octets l <= 31.
Proof. unfold prefix_octets. zlia. Qed.

Lemma afi_octets_cases afi : afi_octets afi = 4 \/ afi_octets afi = 16.
Proof. unfold afi_octets. destruct (_ =? _); auto. Qed.

Lemma prefix_octets_fit afi l :
  0 <= l <= 8 * afi_octets afi -> 0 <= prefix_octets l <= afi_octets afi.
Proof.
  intros. destruct (afi_octets_cases afi) as [E|E]; rewrite E in *;
    rewrite prefix_octets_small by lia; zlia.
Qed.

Lemma IPPrefix_Len_eq ip : IPPrefix_Len ip = prefix_octets (pfx_Length ip) + 1.
Proof. unfold IPPrefix_Len. pose proof (prefix_octets_range (pfx_Length ip)). zlia. Qed.

Lemma len_take {A} (l : list A) n : 0 <= n <= len l -> len (take (Z.to_nat n) l) = n.
Proof. intros. unfold len in *. rewrite length_take. lia. Qed.

Lemma len_drop {A} (l : list A) n : 0 <= n <= len l -> len (drop (Z.to_nat n) l) = len l - n.
Proof. intros. unfold len in *. rewrite length_drop. lia. Qed.

Lemma len_prefix_bytes afi ip : prefix_wf afi ip -> len (prefix_bytes ip) = IPPrefix_Len ip.
Proof.
  intros (Hl & Hp & _). pose proof (prefix_octets_fit afi _ Hl).
  unfold prefix_bytes. len_simpl. rewrite len_take by lia. rewrite IPPrefix_Len_eq. lia.
Qed.

Lemma IPPrefix_Encode_ok afi ip :
  prefix_wf afi ip -> IPPrefix_Encode ip afi = Ok (prefix_bytes ip).
Proof.
  intros (Hl & Hp & Hb & _). pose proof (prefix_octets_fit afi _ Hl) as Hnb.
  pose proof (prefix_octets_range (pfx_Length ip)). unfold IPPrefix_Encode, prefix_bytes.
  rewrite IPPrefix_Len_eq.
  rewrite (set_index_zeros [] (prefix_octets (pfx_Length ip) + 1)) by side. res_simpl.
  change (if afi =? AfiIP6 then 16 else 4) with (afi_octets afi). rewrite Hp.
  replace (u8 (afi_octets afi - afi_octets afi)) with 0 by zlia.
  rewrite Z.add_0_l. replace (u8 (prefix_octets _)) with (prefix_octets (pfx_Length ip)) by zlia.
  rewrite slice_range by lia. res_simpl. rewrite Z.sub_0_r, drop_0.
  rewrite copy_at_zeros by (rewrite ?len_take by lia; side).
  rewrite len_take by lia. replace (_ - _ - _) with 0 by lia. by rewrite zeros_0, app_nil_r.
Qed.

Lemma len_copy {A} (dst src : list A) : len (copy dst src) = len dst.
Proof. unfold len, copy. rewrite length_app, length_take, length_drop. lia. Qed.

Lemma afi_guard afi l e :
  afi_known afi ->
  match assocZ AFINextHopLenMap afi with
  | Some n => guard_err (u8 (u8 n * 8) <? l) e
  | None => Ok tt
  end = guard_err (8 * afi_octets afi <? l) e.
Proof. by intros [-> | ->]. Qed.

Lemma afi_ipLen afi nb :
  afi_known afi -> 0 <= nb <= afi_octets afi ->
  (if (afi =? AfiIP6) || (4 <? nb) then 16 else 4) = afi_octets afi.
Proof.
  intros [-> | ->] Hnb; cbn in *; [|done]. by rewrite (proj2 (Z.ltb_ge _ _)) by lia.
Qed.

(** The address octets of a packet behind a valid length octet. *)
Lemma IPPrefix_Decode_octets afi l body rest :
  afi_known afi -> is_u8 l -> len body = prefix_octets l ->
  l <= 8 * afi_octets afi ->
  let p := body ++ zeros (afi_octets afi - prefix_octets l) in
  IPPrefix_Decode (l :: body ++ rest) afi
  = p' ← (if (0 <? prefix_octets l) && (0 <? l mod 8) then
            b ← index p (prefix_octets l - 1);
            set_index p (prefix_octets l - 1) (Z.land b (host_mask l))
          else Ok p);
    Ok (mkIPPrefix l p').
Proof.
  intros Hafi Hl Hb Hle. pose proof (prefix_octets_fit afi l ltac:(zlia)) as Hnb.
  pose proof (afi_octets_cases afi) as Hoct. pose proof (len_nonneg rest).
  unfold IPPrefix_Decode. rewrite (proj2 (Z.ltb_ge _ 1)) by side. res_simpl.
  change (index (l :: body ++ rest) 0) with (Ok l). res_simpl.
  rewrite afi_guard by done.
  rewrite (proj2 (Z.ltb_ge (8 * afi_octets afi) l)) by lia. res_simpl.
  rewrite (proj2 (Z.ltb_ge _ (prefix_octets l + 1))) by side. res_simpl.
  replace (u8 (prefix_octets l + 1)) with (prefix_octets l + 1) by zlia.
  rewrite (slice_app [l] body rest 1 (prefix_octets l + 1) ltac:(done) ltac:(side)
    : slice (l :: body ++ rest) 1 _ = _). res_simpl.
  rewrite afi_ipLen by done.
  rewrite copy_fits by (rewrite len_zeros by lia; lia).
  rewrite drop_zeros. by replace (Z.of_nat (length body)) with (prefix_octets l).
Qed.

Lemma IPPrefix_Decode_ok afi ip rest :
  afi_known afi -> prefix_wf afi ip ->
  IPPrefix_Decode (prefix_bytes ip ++ rest) afi = Ok ip.
Proof.
  destruct ip as [l p]. intros Hafi (Hl & Hp & Hb & Hd & Hm).
  cbn [pfx_Length Prefix] in *. unfold prefix_bytes. cbn [pfx_Length Prefix app].
  pose proof (prefix_octets_fit afi l Hl) as Hnb. pose proof (afi_octets_cases afi).
  rewrite IPPrefix_Decode_octets; [|done|zlia|by rewrite len_take by lia|lia].
  rewrite <- Hd, take_drop.
  destruct ((0 <? prefix_octets l) && (0 <? l mod 8)) eqn:E; [|done].
  destruct Hm as (b & Hlk & Hland); [lia|].
  unfold index. rewrite (proj2 (Z.ltb_ge _ _)) by lia. rewrite Hlk. res_simpl.
  unfold set_index. rewrite (proj2 (Z.leb_le _ _)), (proj2 (Z.ltb_lt _ _)) by lia.
  cbn [andb]. res_simpl. rewrite Hland. by rewrite list_insert_id.
Qed.

Lemma NLRI_Codec addPaths afi :
  afi_known afi ->
  @WireCodec NLRI (NLRI_Wire addPaths afi) (fun n => NLRI_Encode n afi)
    (NLRI_Decode addPaths afi) NLRI_Len.
Proof.
  intros Hafi. split.
  - intros [ip|ip pathId]; cbn.
    + intros (_ & Hip). by apply IPPrefix_Encode_ok.
    + intros (_ & Hip & _). by rewrite (IPPrefix_Encode_ok afi).
  - intros [ip|ip pathId] rest; cbn [wire_bytes wire_wf NLRI_Wire nlri_wf].
    + intros (-> & Hip). cbn [NLRI_Decode]. by rewrite IPPrefix_Decode_ok.
    + intros (-> & Hip & Hid). cbn [NLRI_Decode]. rewrite <- app_assoc.
      unfold ExtNLRI_Decode. pose proof (len_prefix_bytes afi ip Hip) as Hl.
      rewrite IPPrefix_Len_eq in Hl. pose proof (prefix_octets_range (pfx_Length ip)).
      pose proof (len_nonneg rest).
      rewrite (proj2 (Z.ltb_ge _ _)) by side. res_simpl.
      rewrite Uint32_be32 by done. res_simpl. rewrite slice_from_app by done. res_simpl.
      by rewrite IPPrefix_Decode_ok.
  - intros [ip|ip pathId]; cbn [wire_wf NLRI_Wire nlri_wf NLRI_Len wire_bytes].
    + intros (_ & Hip). by rewrite (len_prefix_bytes afi).
    + intros (_ & Hip & _). len_simpl. rewrite (len_prefix_bytes afi) by done.
      rewrite IPPrefix_Len_eq. pose proof (prefix_octets_range (pfx_Length ip)). zlia.
  - intros [ip|ip pathId] _; cbn [wire_bytes NLRI_Wire]; unfold prefix_bytes; len_simpl;
      pose proof (len_nonneg (take (Z.to_nat (prefix_octets (pfx_Length ip))) (Prefix ip))); lia.
Qed.

(** ** What decoding guarantees *)

Lemma mask_prefix_wf afi l p :
  afi_known afi -> is_u8 l -> l <= 8 * afi_octets afi ->
  is_bytes p -> len p = afi_octets afi ->
  drop (Z.to_nat (prefix_octets l)) p = zeros (afi_octets afi - prefix_octets l) ->
  safe (if (0 <? prefix_octets l) && (0 <? l mod 8) then
          b ← index p (prefix_octets l - 1);
          set_index p (prefix_octets l - 1) (Z.land b (host_mask l))
        else Ok p) (fun p' => prefix_wf afi (mkIPPrefix l p')).
Proof.
  intros Hafi Hl Hle Hb Hp Hd.
  pose proof (prefix_octets_fit afi l ltac:(zlia)) as Hnb.
  pose proof (afi_octets_cases afi) as Hoct.
  assert (prefix_octets l = (l + 7) / 8) as Hpo by (apply prefix_octets_small; zlia).
  destruct ((0 <? prefix_octets l) && (0 <? l mod 8)) eqn:E; cbn [safe].
  2:{ repeat split; cbn [pfx_Length Prefix]; try done; zlia. }
  apply andb_true_iff in E as [E1 E2]. rewrite Z.ltb_lt in E1, E2.
  destruct (p !! Z.to_nat (prefix_octets l - 1)) as [b|] eqn:Hlk.
  2:{ apply lookup_ge_None in Hlk. unfold len in Hp. lia. }
  unfold index. rewrite (proj2 (Z.ltb_ge _ _)) by lia. rewrite Hlk. res_simpl.
  unfold set_index. rewrite (proj2 (Z.leb_le _ _)), (proj2 (Z.ltb_lt _ _)) by lia.
  cbn [andb safe]. repeat split; cbn [pfx_Length Prefix]; try zlia.
  - unfold len. by rewrite length_insert.
  - apply Forall_insert; [done|]. apply is_u8_land. by eapply is_bytes_lookup.
  - rewrite drop_insert_lt by lia. done.
  - intros _. eexists. rewrite list_lookup_insert_eq by (unfold len in Hp; lia).
    split; [done|]. by rewrite <- Z.land_assoc, Z.land_diag.
Qed.

Lemma IPPrefix_Decode_safe afi pkt :
  afi_known afi -> is_bytes pkt ->
  safe (IPPrefix_Decode pkt afi) (fun ip => prefix_wf afi ip /\ IPPrefix_Len ip <= len pkt).
Proof.
  intros Hafi Hpkt. destruct pkt as [|l t]; [done|].
  apply Forall_cons in Hpkt as [Hl Ht].
  pose proof (afi_octets_cases afi) as Hoct. pose proof (len_nonneg t) as Hlt.
  destruct (decide (8 * afi_octets afi < l)) as [Hbig|Hle].
  { unfold IPPrefix_Decode. rewrite (proj2 (Z.ltb_ge _ 1)) by side. res_simpl.
    change (index (l :: t) 0) with (Ok l). res_simpl. rewrite afi_guard by done.
    by rewrite (proj2 (Z.ltb_lt (8 * _) l)) by lia. }
  pose proof (prefix_octets_fit afi l ltac:(zlia)) as Hnb.
  destruct (decide (len t < prefix_octets l)) as [Hshort|Hfit].
  { unfold IPPrefix_Decode. rewrite (proj2 (Z.ltb_ge _ 1)) by side. res_simpl.
    change (index (l :: t) 0) with (Ok l). res_simpl. rewrite afi_guard by done.
    rewrite (proj2 (Z.ltb_ge (8 * _) l)) by lia. res_simpl.
    by rewrite (proj2 (Z.ltb_lt _ (prefix_octets l + 1))) by side. }
  rewrite <- (take_drop (Z.to_nat (prefix_octets l)) t).
  rewrite IPPrefix_Decode_octets by (done || lia || by rewrite len_take by lia).
  set (p := take _ t ++ _).
  assert (len p = afi_octets afi) as Hp.
  { unfold p. rewrite len_app, len_take, len_zeros by lia. lia. }
  assert (drop (Z.to_nat (prefix_octets l)) p = zeros (afi_octets afi - prefix_octets l)) as Hd.
  { unfold p. rewrite drop_app_ge; rewrite length_take; unfold len in *; [|lia].
    by replace (_ - _)%nat with 0%nat by lia. }
  pose proof (mask_prefix_wf afi l p Hafi Hl ltac:(lia)
    ltac:(apply is_bytes_app; auto with slices) Hp Hd) as Hw.
  eapply safe_bind; [exact Hw|]. intros p' _ Hw'. split; [done|]. rewrite IPPrefix_Len_eq. cbn [pfx_Length].
  rewrite take_drop. len_simpl. lia.
Qed.

Lemma NLRI_Len_range n : 1 <= NLRI_Len n <= 36.
Proof.
  destruct n as [ip|ip pathId]; cbn [NLRI_Len]; rewrite ?IPPrefix_Len_eq;
    pose proof (prefix_octets_range (pfx_Length ip)); zlia.
Qed.

Lemma NLRI_Decode_safe addPaths afi pkt :
  afi_known afi -> is_bytes pkt ->
  safe (NLRI_Decode addPaths afi pkt) (fun n => nlri_wf addPaths afi n /\ NLRI_Len n <= len pkt).
Proof.
  intros Hafi Hpkt. destruct addPaths; cbn [NLRI_Decode].
  2:{ eapply safe_bind; [by apply IPPrefix_Decode_safe|]. cbn. tauto. }
  unfold ExtNLRI_Decode. destruct (len pkt <? 5) eqn:Hlen; res_simpl; [done|].
  destruct pkt as [|a [|b [|c [|d t]]]]; try discriminate Hlen.
  change (Uint32 _) with (Ok (((a * 256 + b) * 256 + c) * 256 + d)). res_simpl.
  rewrite (slice_from_app [a; b; c; d] t 4 eq_refl : slice_from (a :: b :: c :: d :: t) 4 = _).
  res_simpl. unfold is_bytes in Hpkt. rewrite !Forall_cons in Hpkt.
  destruct Hpkt as (? & ? & ? & ? & Ht).
  eapply safe_bind; [by apply IPPrefix_Decode_safe|].
  intros ip _ [Hip Hl]. cbn [safe nlri_wf NLRI_Len].
  rewrite IPPrefix_Len_eq in *. pose proof (prefix_octets_range (pfx_Length ip)).
  split; [split_and!; [done|done|zlia]|]. len_simpl. zlia.
Qed.

Lemma wire_list_len_nlri addPaths afi ns :
  afi_known afi -> Forall (nlri_wf addPaths afi) ns ->
  len (@wire_list _ (NLRI_Wire addPaths afi) ns) = foldr (fun n s => NLRI_Len n + s) 0 ns.
Proof.
  intros Hafi Hns. pose proof (NLRI_Codec addPaths afi Hafi) as HC.
  induction Hns as [|n ns Hn _ IH]; [done|]. rewrite wire_list_cons. len_simpl.
  cbn [foldr]. rewrite IH.
  by rewrite <- (codec_size (WireCodec:=HC) n Hn).
Qed.

(** The loop reads a list of prefixes back. *)
Lemma decodeNLRI_loop_wire addPaths afi fuel pre ns rest acc :
  afi_known afi -> Forall (nlri_wf addPaths afi) ns ->
  (length ns <= fuel)%nat ->
  let w := @wire_list _ (NLRI_Wire addPaths afi) ns in
  len pre + len w < 2 ^ 32 ->
  decodeNLRI_loop fuel addPaths (pre ++ w ++ rest) (len pre + len w) afi (len pre) acc
  = Ok (acc ++ ns, len pre + len w).
Proof.
  intros Hafi Hns. pose proof (NLRI_Codec addPaths afi Hafi) as HC.
  revert fuel pre acc. induction Hns as [|n ns Hn _ IH]; intros fuel pre acc Hfuel w Hlen; subst w.
  - change (wire_list []) with (@nil Z). rewrite Z.add_0_r, app_nil_r.
    destruct fuel; cbn [decodeNLRI_loop]; by rewrite Z.ltb_irrefl.
  - rewrite wire_list_cons in *. rewrite len_app in *.
    pose proof (codec_pos (WireCodec:=HC) n Hn) as Hpos.
    pose proof (len_nonneg (@wire_list _ (NLRI_Wire addPaths afi) ns)) as Hl.
    pose proof (len_nonneg pre) as Hp.
    destruct fuel as [|fuel]; [cbn in Hfuel; lia|]. cbn [decodeNLRI_loop].
    rewrite (proj2 (Z.ltb_lt _ _)) by lia.
    rewrite <- app_assoc, slice_from_app by done. res_simpl.
    rewrite (codec_dec (WireCodec:=HC) n _ Hn). res_simpl.
    rewrite (codec_size (WireCodec:=HC) n Hn). cbn [length] in Hfuel.
    replace (u32 _) with (len (pre ++ @wire_bytes _ (NLRI_Wire addPaths afi) n)) by (len_simpl; zlia).
    rewrite (app_assoc pre).
    replace (len pre + _) with (len (pre ++ @wire_bytes _ (NLRI_Wire addPaths afi) n)
      + len (@wire_list _ (NLRI_Wire addPaths afi) ns)) by (len_simpl; lia).
    rewrite IH by (len_simpl; lia). by rewrite <- app_assoc.
Qed.

Lemma decodeNLRI_wire addPaths afi ns rest :
  afi_known afi -> Forall (nlri_wf addPaths afi) ns ->
  let w := @wire_list _ (NLRI_Wire addPaths afi) ns in
  len (w ++ rest) < 2 ^ 32 ->
  decodeNLRI addPaths (w ++ rest) (len w) afi = Ok (ns, len w).
Proof.
  intros Hafi Hns w Hlen. pose proof (NLRI_Codec addPaths afi Hafi) as HC.
  unfold decodeNLRI. pose proof (len_nonneg rest). pose proof (len_nonneg w).
  rewrite len_app in Hlen.
  rewrite (proj2 (Z.ltb_ge _ _)) by (len_simpl; zlia). res_simpl.
  assert (length ns <= length (w ++ rest))%nat as Hfuel.
  { rewrite length_app. enough (length ns <= length w)%nat by lia. subst w.
    clear -Hns HC. induction Hns as [|n ns Hn _ IH]; [done|]. rewrite wire_list_cons, length_app.
    pose proof (codec_pos (WireCodec:=HC) n Hn) as Hp. unfold len in Hp. cbn [length]. lia. }
  pose proof (decodeNLRI_loop_wire addPaths afi _ [] ns rest [] Hafi Hns Hfuel) as HL.
  assert (decodeNLRI_loop (length (w ++ rest)) addPaths (w ++ rest) (len w) afi 0 []
    = Ok (ns, len w)) as -> by (apply HL; change (len w < 2 ^ 32); lia).
  res_simpl. by rewrite Z.eqb_refl.
Qed.

(** the NLRI field of an UPDATE round-trips. For either family and either
    ADD-PATH state, encoding canonical prefixes and decoding the octets with
    [decodeNLRI], whatever follows them in the packet, gives the same prefixes
    and stops exactly behind them. *)
Theorem nlri_roundtrip addPaths afi ns rest :
  afi_known afi -> Forall (nlri_wf addPaths afi) ns ->
  let w := @wire_list _ (NLRI_Wire addPaths afi) ns in
  len (w ++ rest) < 2 ^ 32 ->
  encode_items (fun n => NLRI_Encode n afi) [] ns = Ok w /\
  decodeNLRI addPaths (w ++ rest) (len w) afi = Ok (ns, len w).
Proof.
  intros Hafi Hns w Hlen. pose proof (NLRI_Codec addPaths afi Hafi) as HC. split.
  { by rewrite (encode_items_wire (WireCodec0:=HC)). }
  by apply decodeNLRI_wire.
Qed.

Lemma nlri_roundtrip_witness :
  let ns := [NExtNLRI (mkIPPrefix 20 [10; 1; 240; 0]) 7; NExtNLRI (mkIPPrefix 0 [0; 0; 0; 0]) 9] in
  encode_items (fun n => NLRI_Encode n AfiIP) [] ns
    = Ok [0; 0; 0; 7; 20; 10; 1; 240; 0; 0; 0; 9; 0] /\
  decodeNLRI true ([0; 0; 0; 7; 20; 10; 1; 240; 0; 0; 0; 9; 0] ++ [1; 2]) 13 AfiIP = Ok (ns, 13).
Proof.
  apply (nlri_roundtrip true AfiIP
    [NExtNLRI (mkIPPrefix 20 [10; 1; 240; 0]) 7; NExtNLRI (mkIPPrefix 0 [0; 0; 0; 0]) 9] [1; 2]).
  - by left.
  - repeat constructor; cbn; try lia; try (exists 240; done).
  - reflexivity.
Defined.

Lemma decodeNLRI_loop_safe addPaths afi fuel pkt n ptr acc :
  afi_known afi -> is_bytes pkt -> n <= len pkt < 2 ^ 32 -> 0 <= ptr <= len pkt ->
  n - ptr <= Z.of_nat fuel ->
  safe (decodeNLRI_loop fuel addPaths pkt n afi ptr acc)
    (fun '(ns, ptr') => exists new, ns = acc ++ new /\ Forall (nlri_wf addPaths afi) new /\
       ptr' = ptr + foldr (fun n s => NLRI_Len n + s) 0 new).
Proof.
  intros Hafi Hpkt Hn. revert ptr acc.
  induction fuel as [|fuel IH]; intros ptr acc Hptr Hfuel; cbn [decodeNLRI_loop];
    destruct (ptr <? n) eqn:E; try lia.
  1,3: cbn; exists []; rewrite app_nil_r; split_and!; [done|done|cbn; lia].
  rewrite slice_from_range by lia. res_simpl.
  eapply safe_bind; [apply NLRI_Decode_safe; auto with slices|].
  intros x _ [Hx Hlen]. rewrite len_drop in Hlen by lia.
  pose proof (NLRI_Len_range x) as Hr. replace (u32 _) with (ptr + NLRI_Len x) by zlia.
  eapply safe_mono; [apply IH; lia|].
  intros [ns ptr'] (new & -> & Hnew & ->). exists (x :: new).
  rewrite <- app_assoc. split_and!; [done|by constructor|cbn [foldr]; lia].
Qed.

(** decoding a received NLRI field never panics and always ends, whatever
    the octets and the length announced for them; when it succeeds it has
    consumed exactly that many octets, and every prefix is canonical for its
    family: a length the family allows and no bit set behind it. Encoding them
    again is therefore always possible and takes the same number of octets. *)
Theorem nlri_decode_safe addPaths afi pkt n :
  afi_known afi -> is_bytes pkt -> len pkt < 2 ^ 32 ->
  match decodeNLRI addPaths pkt n afi with
  | Ok (ns, ptr) =>
    ptr = n /\ Forall (nlri_wf addPaths afi) ns /\
    exists w, encode_items (fun x => NLRI_Encode x afi) [] ns = Ok w /\ len w = n
  | Err _ => True
  | Panic | NoFuel => False
  end.
Proof.
  intros Hafi Hpkt Hlen. pose proof (NLRI_Codec addPaths afi Hafi) as HC.
  unfold decodeNLRI. pose proof (len_nonneg pkt).
  destruct (u32 (len pkt) <? n) eqn:E; res_simpl; [done|].
  pose proof (decodeNLRI_loop_safe addPaths afi (length pkt) pkt n 0 [] Hafi Hpkt
    ltac:(zlia) ltac:(lia) ltac:(unfold len in *; zlia)) as HL.
  destruct (decodeNLRI_loop _ _ _ _ _ _ _) as [[ns ptr]|e| |]; cbn [safe] in HL; try done.
  destruct HL as (new & -> & Hnew & ->). cbn [app]. res_simpl.
  destruct (negb _) eqn:En; res_simpl; [done|]. split_and!; [lia|done|].
  eexists. rewrite (encode_items_wire (WireCodec0:=HC)) by done. split; [done|].
  cbn [app]. rewrite wire_list_len_nlri by done. lia.
Qed.

Lemma nlri_decode_safe_witness :
  match decodeNLRI false [9; 255; 255; 33] 3 AfiIP with
  | Ok (ns, ptr) =>
    ptr = 3 /\ Forall (nlri_wf false AfiIP) ns /\
    exists w, encode_items (fun x => NLRI_Encode x AfiIP) [] ns = Ok w /\ len w = 3
  | Err _ => True
  | Panic | NoFuel => False
  end.
Proof.
  apply (nlri_decode_safe false AfiIP [9; 255; 255; 33] 3).
  - by left.
  - repeat constructor; zlia.
  - reflexivity.
Defined.
