(* ===== verification/BgpAsPath.v ===== *)
(** * AS path segments

    BGPASPathSegmentBase, BGPAS2PathSegment and BGPAS4PathSegment of
    src/bgp/packet/bgp.go: the two- and four-octet segments of an AS path, their
    wire format and the operations that grow them. *)

From S2P Require Import Prelude.
From S2P Require Import BgpOpen.

Definition BGPASPathSegmentSet : Z := 1.
Definition BGPASPathSegmentSequence : Z := 2.

Record BGPASPathSegmentBase := mkSegBase {
  seg_Type : Z;
  seg_Length : Z;
  BGPASPathSegmentLen : Z;
}.

Definition BGPASPathSegmentBase_Encode (ps : BGPASPathSegmentBase) (pkt : bytes) : res bytes :=
  pkt ← set_index pkt 0 (seg_Type ps);
  set_index pkt 1 (seg_Length ps).

(** The type and the length octets. *)
Definition BGPASPathSegmentBase_Decode (pkt : bytes) : res (Z * Z) :=
  _ ← guard_err (len pkt <=? 2) (BGPMessageError BGPUpdateMsgError BGPMalformedAttrList []);
  t ← index pkt 0;
  l ← index pkt 1;
  Ok (t, l).

(** [uint16(ps.Length*w + 2)]: the arithmetic is done on the octet. *)
Definition decoded_segment_len (w l : Z) : Z := u16 (u8 (u8 (l * w) + 2)).

(** ** Two-octet segments *)

Record BGPAS2PathSegment := mkAS2 { as2_base : BGPASPathSegmentBase; as2_AS : list Z }.

Definition BGPAS2PathSegment_Encode (ps : BGPAS2PathSegment) (pkt : bytes) : res bytes :=
  pkt ← BGPASPathSegmentBase_Encode (as2_base ps) pkt;
  write_all (fun pkt i v => PutUint16 pkt (i * 2 + 2) v) pkt 0 (as2_AS ps).

Definition BGPAS2PathSegment_Decode (pkt : bytes) : res BGPAS2PathSegment :=
  '(t, l) ← BGPASPathSegmentBase_Decode pkt;
  _ ← guard_err (len pkt - 2 <? l * 2) (BGPMessageError BGPUpdateMsgError BGPMalformedAttrList []);
  AS ← read_all (fun i => s ← slice_from pkt (i * 2 + 2); Uint16 s) (Z.to_nat l) 0;
  Ok (mkAS2 (mkSegBase t l (decoded_segment_len 2 l)) AS).

Definition BGPAS2PathSegment_GetNumASes (ps : BGPAS2PathSegment) : Z :=
  if seg_Type (as2_base ps) =? BGPASPathSegmentSet then 1 else u8 (len (as2_AS ps)).

Definition grow_base (b : BGPASPathSegmentBase) (n w : Z) : BGPASPathSegmentBase :=
  mkSegBase (seg_Type b) (u8 (seg_Length b + u8 n))
    (u16 (BGPASPathSegmentLen b + u16 (w * n))).

(** The operations return Go's boolean and the segment as they leave it. *)
Definition BGPAS2PathSegment_PrependAS (ps : BGPAS2PathSegment) (as_ : Z)
  : res (bool * BGPAS2PathSegment) :=
  if 255 <=? seg_Length (as2_base ps) then Ok (false, ps) else
  AS ← insert_front (as2_AS ps) [u16 as_] [u16 as_];
  Ok (true, mkAS2 (grow_base (as2_base ps) 1 2) AS).

Definition BGPAS2PathSegment_PrependASList (ps : BGPAS2PathSegment) (asList : list Z)
  : res (bool * BGPAS2PathSegment) :=
  let asLen := len asList in
  if 255 <? seg_Length (as2_base ps) + asLen then Ok (false, ps) else
  AS ← insert_front (as2_AS ps) (zeros asLen) (map u16 asList);
  Ok (true, mkAS2 (grow_base (as2_base ps) asLen 2) AS).

Definition BGPAS2PathSegment_AppendAS (ps : BGPAS2PathSegment) (as_ : Z)
  : res (bool * BGPAS2PathSegment) :=
  if 255 <=? seg_Length (as2_base ps) then Ok (false, ps) else
  Ok (true, mkAS2 (grow_base (as2_base ps) 1 2) (as2_AS ps ++ [u16 as_])).

Definition NewBGPAS2PathSegment (segType : Z) : BGPAS2PathSegment :=
  mkAS2 (mkSegBase segType 0 2) [].
Definition NewBGPAS2PathSegmentSeq : BGPAS2PathSegment :=
  NewBGPAS2PathSegment BGPASPathSegmentSequence.

(** ** Four-octet segments *)

Record BGPAS4PathSegment := mkAS4 { as4_base : BGPASPathSegmentBase; as4_AS : list Z }.

Definition BGPAS4PathSegment_Encode (ps : BGPAS4PathSegment) (pkt : bytes) : res bytes :=
  pkt ← BGPASPathSegmentBase_Encode (as4_base ps) pkt;
  write_all (fun pkt i v => PutUint32 pkt (i * 4 + 2) v) pkt 0 (as4_AS ps).

Definition BGPAS4PathSegment_Decode (pkt : bytes) : res BGPAS4PathSegment :=
  '(t, l) ← BGPASPathSegmentBase_Decode pkt;
  _ ← guard_err (len pkt - 2 <? l * 4) (BGPMessageError BGPUpdateMsgError BGPMalformedAttrList []);
  AS ← read_all (fun i => s ← slice_from pkt (i * 4 + 2); Uint32 s) (Z.to_nat l) 0;
  Ok (mkAS4 (mkSegBase t l (decoded_segment_len 4 l)) AS).

Definition BGPAS4PathSegment_GetNumASes (ps : BGPAS4PathSegment) : Z :=
  if seg_Type (as4_base ps) =? BGPASPathSegmentSet then 1 else u8 (len (as4_AS ps)).

Definition BGPAS4PathSegment_PrependAS (ps : BGPAS4PathSegment) (as_ : Z)
  : res (bool * BGPAS4PathSegment) :=
  if 255 <=? seg_Length (as4_base ps) then Ok (false, ps) else
  AS ← insert_front (as4_AS ps) [as_] [as_];
  Ok (true, mkAS4 (grow_base (as4_base ps) 1 4) AS).

Definition BGPAS4PathSegment_PrependASList (ps : BGPAS4PathSegment) (asList : list Z)
  : res (bool * BGPAS4PathSegment) :=
  let asLen := len asList in
  if asLen =? 0 then Ok (true, ps) else
  if 255 <=? seg_Length (as4_base ps) + asLen then Ok (false, ps) else
  AS ← insert_front (as4_AS ps) asList asList;
  Ok (true, mkAS4 (grow_base (as4_base ps) asLen 4) AS).

Definition BGPAS4PathSegment_AppendAS (ps : BGPAS4PathSegment) (as_ : Z)
  : res (bool * BGPAS4PathSegment) :=
  if 255 <=? seg_Length (as4_base ps) then Ok (false, ps) else
  Ok (true, mkAS4 (grow_base (as4_base ps) 1 4) (as4_AS ps ++ [as_])).

Definition NewBGPAS4PathSegment (segType : Z) : BGPAS4PathSegment :=
  mkAS4 (mkSegBase segType 0 2) [].
Definition NewBGPAS4PathSegmentSeq : BGPAS4PathSegment :=
  NewBGPAS4PathSegment BGPASPathSegmentSequence.
Definition NewBGPAS4PathSegmentSet : BGPAS4PathSegment :=
  NewBGPAS4PathSegment BGPASPathSegmentSet.

(** An AS number as a two-octet speaker sees it. *)
Definition as_to_2 (as_ : Z) : Z := if 65535 <? as_ then BGPASTrans else u16 as_.

(** The two-octet copy and whether no AS number had to be replaced; the length
    [uint16(x.Length * 2)] is computed on the octet. *)
Definition CloneAsAS2PathSegment (ps : BGPAS4PathSegment) : BGPAS2PathSegment * bool :=
  (mkAS2 (mkSegBase (seg_Type (as4_base ps)) (seg_Length (as4_base ps))
            (u16 (2 + u16 (u8 (seg_Length (as4_base ps) * 2)))))
     (map as_to_2 (as4_AS ps)),
   forallb (fun as_ => as_ <=? 65535) (as4_AS ps)).

(** ** The BGPASPathSegment interface *)

Inductive BGPASPathSegment :=
| Seg2 (s : BGPAS2PathSegment)
| Seg4 (s : BGPAS4PathSegment).

Definition seg_base (s : BGPASPathSegment) : BGPASPathSegmentBase :=
  match s with Seg2 s => as2_base s | Seg4 s => as4_base s end.

Definition seg_AS (s : BGPASPathSegment) : list Z :=
  match s with Seg2 s => as2_AS s | Seg4 s => as4_AS s end.

Definition BGPASPathSegment_TotalLen (s : BGPASPathSegment) : Z :=
  BGPASPathSegmentLen (seg_base s).
Definition BGPASPathSegment_GetType (s : BGPASPathSegment) : Z := seg_Type (seg_base s).
Definition BGPASPathSegment_GetLen (s : BGPASPathSegment) : Z := seg_Length (seg_base s).

Definition BGPASPathSegment_GetNumASes (s : BGPASPathSegment) : Z :=
  match s with
  | Seg2 s => BGPAS2PathSegment_GetNumASes s
  | Seg4 s => BGPAS4PathSegment_GetNumASes s
  end.

Definition BGPASPathSegment_Encode (s : BGPASPathSegment) (pkt : bytes) : res bytes :=
  match s with
  | Seg2 s => BGPAS2PathSegment_Encode s pkt
  | Seg4 s => BGPAS4PathSegment_Encode s pkt
  end.

(** The constructor [BGPPathAttrASPath.Decode] picks by [as.ASSize]. *)
Definition BGPASPathSegment_Decode (asSize : Z) (pkt : bytes) : res BGPASPathSegment :=
  if asSize =? 4 then s ← BGPAS4PathSegment_Decode pkt; Ok (Seg4 s)
  else s ← BGPAS2PathSegment_Decode pkt; Ok (Seg2 s).

Definition lift2 (r : res (bool * BGPAS2PathSegment)) : res (bool * BGPASPathSegment) :=
  '(b, s) ← r; Ok (b, Seg2 s).
Definition lift4 (r : res (bool * BGPAS4PathSegment)) : res (bool * BGPASPathSegment) :=
  '(b, s) ← r; Ok (b, Seg4 s).

Definition BGPASPathSegment_PrependAS (s : BGPASPathSegment) (as_ : Z) :=
  match s with
  | Seg2 s => lift2 (BGPAS2PathSegment_PrependAS s as_)
  | Seg4 s => lift4 (BGPAS4PathSegment_PrependAS s as_)
  end.

Definition BGPASPathSegment_PrependASList (s : BGPASPathSegment) (asList : list Z) :=
  match s with
  | Seg2 s => lift2 (BGPAS2PathSegment_PrependASList s asList)
  | Seg4 s => lift4 (BGPAS4PathSegment_PrependASList s asList)
  end.

Definition BGPASPathSegment_AppendAS (s : BGPASPathSegment) (as_ : Z) :=
  match s with
  | Seg2 s => lift2 (BGPAS2PathSegment_AppendAS s as_)
  | Seg4 s => lift4 (BGPAS4PathSegment_AppendAS s as_)
  end.

(** ** Well-formed segments and their format *)

(** Octets of an AS number of the segment. *)
Definition seg_width (s : BGPASPathSegment) : Z :=
  match s with Seg2 _ => 2 | Seg4 _ => 4 end.

Definition is_as (w as_ : Z) : Prop := if w =? 4 then is_u32 as_ else is_u16 as_.

(** The counters agree with the list. *)
Definition seg_wf (s : BGPASPathSegment) : Prop :=
  is_u8 (BGPASPathSegment_GetType s) /\
  BGPASPathSegment_GetLen s = len (seg_AS s) /\
  len (seg_AS s) <= 255 /\
  BGPASPathSegment_TotalLen s = 2 + seg_width s * len (seg_AS s) /\
  Forall (is_as (seg_width s)) (seg_AS s).

(** The number of AS numbers up to which the decoder's octet arithmetic does
    not wrap around. *)
Definition seg_limit (w : Z) : Z := if w =? 4 then 63 else 126.

Definition as_enc (w : Z) : Z -> bytes := if w =? 4 then be32 else be16.

Definition BGPASPathSegment_Wire (asSize : Z) : Wire BGPASPathSegment := {|
  wire_bytes s :=
    [BGPASPathSegment_GetType s; BGPASPathSegment_GetLen s]
      ++ words (as_enc (seg_width s)) (seg_AS s);
  wire_wf s := seg_wf s /\ seg_width s = (if asSize =? 4 then 4 else 2) /\
    1 <= len (seg_AS s) <= seg_limit (seg_width s);
|}.

(** ** Lemmas *)

Lemma len_as_enc w v : w = 2 \/ w = 4 -> len (as_enc w v) = w.
Proof. by intros [-> | ->]. Qed.

Lemma len_seg_bytes asSize s :
  len (@wire_bytes _ (BGPASPathSegment_Wire asSize) s) = 2 + seg_width s * len (seg_AS s).
Proof.
  cbn [wire_bytes BGPASPathSegment_Wire]. len_simpl.
  rewrite (len_words _ (seg_width s)) by (intros; apply len_as_enc; destruct s; auto).
  len_simpl. lia.
Qed.

(** The encoders write the type, the length and the AS numbers in place. *)
Lemma seg_base_encode_zeros b n :
  2 <= n ->
  BGPASPathSegmentBase_Encode b (zeros n) = Ok ([seg_Type b; seg_Length b] ++ zeros (n - 2)).
Proof.
  intros Hn. unfold BGPASPathSegmentBase_Encode.
  rewrite (set_index_zeros [] n) by side. res_simpl. rewrite set_index_zeros by side.
  by replace (n - 1 - 1) with (n - 2) by lia.
Qed.

Lemma seg_encode_zeros asSize s n :
  let w := @wire_bytes _ (BGPASPathSegment_Wire asSize) s in
  len w <= n -> BGPASPathSegment_Encode s (zeros n) = Ok (w ++ zeros (n - len w)).
Proof.
  intros w Hn. pose proof (len_seg_bytes asSize s) as Hl. fold w in Hl. rewrite Hl in *.
  subst w. clear Hl. cbn [wire_bytes BGPASPathSegment_Wire].
  pose proof (len_nonneg (seg_AS s)).
  destruct s as [s|s]; cbn [BGPASPathSegment_Encode seg_AS seg_width] in *.
  - unfold BGPAS2PathSegment_Encode. rewrite seg_base_encode_zeros by lia. res_simpl.
    rewrite (write_all_words (fun pkt i v => PutUint16 pkt i v) be16 2);
      [|done|intros; by apply PutUint16_zeros|intros; len_simpl; lia|lia].
    by replace (n - 2 - _) with (n - (2 + 2 * len (as2_AS s))) by lia.
  - unfold BGPAS4PathSegment_Encode. rewrite seg_base_encode_zeros by lia. res_simpl.
    rewrite (write_all_words (fun pkt i v => PutUint32 pkt i v) be32 4);
      [|done|intros; by apply PutUint32_zeros|intros; len_simpl; lia|lia].
    by replace (n - 2 - _) with (n - (2 + 4 * len (as4_AS s))) by lia.
Qed.

(** The decoder on a header followed by as many AS numbers as it announces. *)
Lemma seg_decode_words asSize t vs rest :
  let w := if asSize =? 4 then 4 else 2 in
  Forall (is_as w) vs -> 1 <= len (vs) + len rest ->
  exists s, BGPASPathSegment_Decode asSize ([t; len vs] ++ words (as_enc w) vs ++ rest) = Ok s /\
    BGPASPathSegment_GetType s = t /\ BGPASPathSegment_GetLen s = len vs /\
    BGPASPathSegment_TotalLen s = decoded_segment_len w (len vs) /\
    seg_AS s = vs /\ seg_width s = w.
Proof.
  intros w Hvs Hne. pose proof (len_nonneg vs). pose proof (len_nonneg rest).
  assert (w = 2 \/ w = 4) as Hw by (subst w; destruct (_ =? _); auto).
  assert (BGPASPathSegmentBase_Decode ([t; len vs] ++ words (as_enc w) vs ++ rest)
    = Ok (t, len vs)) as Hbase.
  { unfold BGPASPathSegmentBase_Decode. len_simpl.
    rewrite (len_words _ w) by (intros; by apply len_as_enc).
    rewrite (proj2 (Z.leb_gt _ 2)) by (destruct Hw as [-> | ->]; lia). done. }
  unfold BGPASPathSegment_Decode. destruct (asSize =? 4); subst w; cbn [as_enc Z.eqb Pos.eqb] in *.
  - unfold BGPAS4PathSegment_Decode. rewrite Hbase. res_simpl.
    rewrite (proj2 (Z.ltb_ge _ (len vs * 4)))
      by (len_simpl; rewrite (len_words _ 4) by done; len_simpl; lia). res_simpl.
    rewrite to_nat_len.
    set (pkt := [t; len vs] ++ words be32 vs ++ rest).
    rewrite (read_all_words (fun i => s ← slice_from pkt (i * 4 + 2); Uint32 s) be32 4
      (fun i => i * 4 + 2) is_u32 (2 + 4 * len vs) pkt [t; len vs] vs rest 0);
      [|done| |intros; len_simpl; lia|exact Hvs|len_simpl; lia|done].
    { res_simpl. eexists. split_and!; reflexivity. }
    intros j v pre post Hv -> Hoff _. rewrite slice_from_app by done. res_simpl.
    by rewrite Uint32_be32.
  - unfold BGPAS2PathSegment_Decode. rewrite Hbase. res_simpl.
    rewrite (proj2 (Z.ltb_ge _ (len vs * 2)))
      by (len_simpl; rewrite (len_words _ 2) by done; len_simpl; lia). res_simpl.
    rewrite to_nat_len.
    set (pkt := [t; len vs] ++ words be16 vs ++ rest).
    rewrite (read_all_words (fun i => s ← slice_from pkt (i * 2 + 2); Uint16 s) be16 2
      (fun i => i * 2 + 2) is_u16 (2 + 2 * len vs) pkt [t; len vs] vs rest 0);
      [|done| |intros; len_simpl; lia|exact Hvs|len_simpl; lia|done].
    { res_simpl. eexists. split_and!; reflexivity. }
    intros j v pre post Hv -> Hoff _. rewrite slice_from_app by done. res_simpl.
    by rewrite Uint16_be16.
Qed.

Lemma decoded_segment_len_small w l :
  w = 2 \/ w = 4 -> 0 <= l <= seg_limit w -> decoded_segment_len w l = 2 + w * l.
Proof. unfold decoded_segment_len, seg_limit. intros [-> | ->]; cbn; zlia. Qed.

Lemma seg_ext s s' :
  seg_width s = seg_width s' -> seg_base s = seg_base s' -> seg_AS s = seg_AS s' -> s = s'.
Proof. destruct s as [[]|[]], s' as [[]|[]]; cbn; try done; by intros _ -> ->. Qed.

Lemma seg_base_ext b b' :
  seg_Type b = seg_Type b' -> seg_Length b = seg_Length b' ->
  BGPASPathSegmentLen b = BGPASPathSegmentLen b' -> b = b'.
Proof. destruct b, b'; cbn; congruence. Qed.

Lemma seg_decode_wire asSize s rest :
  @wire_wf _ (BGPASPathSegment_Wire asSize) s ->
  BGPASPathSegment_Decode asSize (@wire_bytes _ (BGPASPathSegment_Wire asSize) s ++ rest) = Ok s.
Proof.
  intros ((Ht & Hl & H255 & Htot & HAS) & Hw & Hlim). cbn [wire_bytes BGPASPathSegment_Wire].
  rewrite <- app_assoc, Hl, Hw in *. pose proof (len_nonneg rest).
  destruct (seg_decode_words asSize (BGPASPathSegment_GetType s) (seg_AS s) rest HAS ltac:(lia))
    as (s' & -> & Ht' & Hl' & Htot' & HAS' & Hw'). f_equal.
  apply seg_ext; [congruence| |done]. apply seg_base_ext; [done|exact (eq_trans Hl' (eq_sym Hl))|].
  change (BGPASPathSegment_TotalLen s' = BGPASPathSegment_TotalLen s). rewrite Htot', Htot.
  apply decoded_segment_len_small; [destruct (_ =? _); auto|lia].
Qed.

(** The four-octet segments of AS4_PATH, which are not behind the interface. *)
Definition BGPAS4PathSegment_Wire : Wire BGPAS4PathSegment := {|
  wire_bytes s := @wire_bytes _ (BGPASPathSegment_Wire 4) (Seg4 s);
  wire_wf s := @wire_wf _ (BGPASPathSegment_Wire 4) (Seg4 s);
|}.

Lemma seg_wire_size asSize s :
  @wire_wf _ (BGPASPathSegment_Wire asSize) s ->
  BGPASPathSegment_TotalLen s = len (@wire_bytes _ (BGPASPathSegment_Wire asSize) s).
Proof. rewrite len_seg_bytes. by intros ((_ & _ & _ & -> & _) & _). Qed.

Lemma seg_wire_pos asSize s : 0 < len (@wire_bytes _ (BGPASPathSegment_Wire asSize) s).
Proof.
  rewrite len_seg_bytes. pose proof (len_nonneg (seg_AS s)). destruct s; cbn [seg_width]; lia.
Qed.

Lemma BGPASPathSegment_Codec asSize :
  @BufferCodec _ (BGPASPathSegment_Wire asSize) BGPASPathSegment_Encode
    (BGPASPathSegment_Decode asSize) BGPASPathSegment_TotalLen.
Proof.
  split; intros.
  - by apply seg_encode_zeros.
  - by apply seg_decode_wire.
  - by apply seg_wire_size.
  - apply seg_wire_pos.
Qed.

Lemma BGPAS4PathSegment_Codec :
  @BufferCodec _ BGPAS4PathSegment_Wire BGPAS4PathSegment_Encode
    BGPAS4PathSegment_Decode (fun s => BGPASPathSegmentLen (as4_base s)).
Proof.
  split; intros a.
  - intros n _ Hn. by apply (seg_encode_zeros 4 (Seg4 a)).
  - intros rest Ha. pose proof (seg_decode_wire 4 (Seg4 a) rest Ha) as H.
    unfold BGPASPathSegment_Decode in H. cbn [Z.eqb Pos.eqb] in H.
    cbn [wire_bytes BGPAS4PathSegment_Wire].
    destruct (BGPAS4PathSegment_Decode _); res_simpl; by inversion H.
  - apply (seg_wire_size 4 (Seg4 a)).
  - intros _. apply (seg_wire_pos 4 (Seg4 a)).
Qed.

(** ** What the operations promise *)

(** an AS path segment round-trips. A segment whose counters agree with its
    list and that holds at least one and at most 126 two-octet (63 four-octet)
    AS numbers is written by [Encode] into the attribute's buffer, behind which
    the buffer is untouched, and [Decode] reads the same segment back from any
    packet that starts with those octets. *)
Theorem as_segment_roundtrip asSize s n rest :
  @wire_wf _ (BGPASPathSegment_Wire asSize) s ->
  let w := @wire_bytes _ (BGPASPathSegment_Wire asSize) s in
  len w <= n ->
  BGPASPathSegment_Encode s (zeros n) = Ok (w ++ zeros (n - len w)) /\
  len w = BGPASPathSegment_TotalLen s /\
  BGPASPathSegment_Decode asSize (w ++ rest) = Ok s.
Proof.
  intros Hwf w Hn. split_and!.
  - by apply seg_encode_zeros.
  - subst w. rewrite len_seg_bytes. by destruct Hwf as ((_ & _ & _ & -> & _) & _).
  - by apply seg_decode_wire.
Qed.

Definition example_segment : BGPASPathSegment :=
  Seg4 (mkAS4 (mkSegBase BGPASPathSegmentSequence 2 10) [65536; 7]).

Lemma as_segment_roundtrip_witness :
  BGPASPathSegment_Encode example_segment (zeros 11)
    = Ok ([2; 2; 0; 1; 0; 0; 0; 0; 0; 7] ++ zeros (11 - 10)) /\
  10 = 10 /\
  BGPASPathSegment_Decode 4 ([2; 2; 0; 1; 0; 0; 0; 0; 0; 7] ++ [9]) = Ok example_segment.
Proof.
  apply (as_segment_roundtrip 4 example_segment 11 [9]).
  - ground.
  - vm_compute. discriminate.
Defined.

(** The value an AS number takes in a segment. *)
Definition as_trunc (w as_ : Z) : Z := if w =? 4 then as_ else u16 as_.

(** [s'] is the well-formed segment with the AS numbers [AS] in place of those
    of [s]. *)
Definition seg_with (s s' : BGPASPathSegment) (AS : list Z) : Prop :=
  seg_wf s' /\ seg_width s' = seg_width s /\
  BGPASPathSegment_GetType s' = BGPASPathSegment_GetType s /\ seg_AS s' = AS.

Lemma grow_base_seg_wf w b (AS xs : list Z) :
  w = 2 \/ w = 4 ->
  is_u8 (seg_Type b) -> seg_Length b = len AS -> BGPASPathSegmentLen b = 2 + w * len AS ->
  len AS + len xs <= 255 ->
  let b' := grow_base b (len xs) w in
  is_u8 (seg_Type b') /\ seg_Length b' = len xs + len AS /\
  BGPASPathSegmentLen b' = 2 + w * (len xs + len AS).
Proof.
  intros Hw Ht Hl Hs Hle. cbn. rewrite Hl, Hs. pose proof (len_nonneg AS). pose proof (len_nonneg xs).
  split_and!; [done|zlia|]. destruct Hw as [-> | ->]; zlia.
Qed.

Lemma is_as_trunc w as_ : is_u32 as_ -> is_as w (as_trunc w as_).
Proof. unfold is_as, as_trunc. destruct (_ =? _); intros; zlia. Qed.

(** Either way of growing a segment by [xs] keeps the counters right. *)
Lemma seg_with_grow s AS' xs :
  seg_wf s -> Forall is_u32 xs -> len (seg_AS s) + len xs <= 255 ->
  let w := seg_width s in
  Permutation AS' (map (as_trunc w) xs ++ seg_AS s) ->
  let b' := grow_base (seg_base s) (len xs) w in
  seg_with s (match s with Seg2 _ => Seg2 (mkAS2 b' AS') | Seg4 _ => Seg4 (mkAS4 b' AS') end) AS'.
Proof.
  intros (Ht & Hl & H255 & Htot & HAS) Hxs Hle w Hperm b'.
  assert (len AS' = len xs + len (seg_AS s)) as Hlen.
  { unfold len. rewrite Hperm, length_app, length_map. lia. }
  assert (Forall (is_as w) AS') as HAS'.
  { rewrite Hperm. apply Forall_app. split; [|done]. apply Forall_map.
    eapply Forall_impl; [exact Hxs|]. intros x Hx. by apply is_as_trunc. }
  destruct (grow_base_seg_wf w (seg_base s) (seg_AS s) xs) as (Ht' & Hl' & Hs'); try done.
  { subst w. destruct s; auto. }
  destruct s; (split; [|done]); split_and!; try done;
    unfold BGPASPathSegment_GetType, BGPASPathSegment_GetLen, BGPASPathSegment_TotalLen;
    cbn [seg_base seg_AS as2_base as4_base as2_AS as4_AS seg_width];
    rewrite ?Hlen; first [done | lia].
Qed.

Lemma seg_prepend_ok s as_ :
  seg_wf s -> is_u32 as_ -> len (seg_AS s) < 255 ->
  exists s1, BGPASPathSegment_PrependAS s as_ = Ok (true, s1) /\
    seg_with s s1 (as_trunc (seg_width s) as_ :: seg_AS s).
Proof.
  intros Hwf Has Hlt. pose proof Hwf as (_ & Hl & _ & _ & _).
  pose proof (seg_with_grow s (as_trunc (seg_width s) as_ :: seg_AS s) [as_] Hwf
    ltac:(by constructor) ltac:(side) ltac:(done)) as G.
  destruct s as [s|s]; unfold BGPASPathSegment_GetLen in Hl; cbn [seg_base seg_AS] in Hl, Hlt;
    cbn [BGPASPathSegment_PrependAS];
    unfold BGPAS2PathSegment_PrependAS, BGPAS4PathSegment_PrependAS;
    rewrite (proj2 (Z.leb_gt 255 _)) by lia; rewrite insert_front_eq by done;
    (eexists; split; [reflexivity|exact G]).
Qed.

Lemma seg_prepend_list_ok s asList :
  seg_wf s -> Forall is_u32 asList -> len (seg_AS s) + len asList <= 255 ->
  ~ (seg_width s = 4 /\ asList <> [] /\ len (seg_AS s) + len asList = 255) ->
  exists s3, BGPASPathSegment_PrependASList s asList = Ok (true, s3) /\
    seg_with s s3 (map (as_trunc (seg_width s)) asList ++ seg_AS s).
Proof.
  intros Hwf Hlist Hle Hnot. pose proof Hwf as (_ & Hl & _ & _ & _).
  pose proof (len_nonneg asList) as Hll.
  pose proof (seg_with_grow s _ asList Hwf Hlist Hle ltac:(reflexivity)) as G.
  destruct s as [s|s]; unfold BGPASPathSegment_GetLen in Hl; cbn [seg_base] in Hl;
    cbn [BGPASPathSegment_PrependASList];
    unfold BGPAS2PathSegment_PrependASList, BGPAS4PathSegment_PrependASList; rewrite Hl.
  - rewrite (proj2 (Z.ltb_ge _ _)) by lia.
    rewrite insert_front_eq by (len_simpl; by rewrite len_zeros).
    eexists. split; [reflexivity|exact G].
  - destruct (len asList =? 0) eqn:E0.
    { destruct asList; [|len_simpl; pose proof (len_nonneg asList); lia].
      eexists. split; [reflexivity|]. by split. }
    rewrite (proj2 (Z.leb_gt _ _)).
    2:{ enough (len (seg_AS (Seg4 s)) + len asList <> 255) by lia. intros ?. apply Hnot.
        split_and!; [done|by intros ->|done]. }
    rewrite insert_front_eq by done. eexists. split; [reflexivity|].
    unfold seg_width, as_trunc in G |- *. cbn [Z.eqb Pos.eqb] in *.
    by rewrite map_id in G |- *.
Qed.

(** growing a segment. On a segment whose counters are right, the three
    operations never panic; [PrependAS] and [AppendAS] add the AS number (cut to
    the segment's width) in front or behind unless 255 are present, and
    [PrependASList] puts the whole list in front in its order unless the result
    would exceed 255 (for four-octet segments already if it would reach 255). A
    refused operation leaves the segment as it was, and a performed one leaves
    the count and the octet length right. *)
Theorem as_segment_grow s as_ asList :
  seg_wf s -> is_u32 as_ -> Forall is_u32 asList ->
  let w := seg_width s in
  let n := len (seg_AS s) in
  let full := n + len asList > 255 \/ (w = 4 /\ asList <> [] /\ n + len asList = 255) in
  (if 255 <=? n then
     BGPASPathSegment_PrependAS s as_ = Ok (false, s) /\
     BGPASPathSegment_AppendAS s as_ = Ok (false, s)
   else
     (exists s1, BGPASPathSegment_PrependAS s as_ = Ok (true, s1) /\
        seg_with s s1 (as_trunc w as_ :: seg_AS s)) /\
     (exists s2, BGPASPathSegment_AppendAS s as_ = Ok (true, s2) /\
        seg_with s s2 (seg_AS s ++ [as_trunc w as_]))) /\
  (full -> BGPASPathSegment_PrependASList s asList = Ok (false, s)) /\
  (~ full -> exists s3, BGPASPathSegment_PrependASList s asList = Ok (true, s3) /\
     seg_with s s3 (map (as_trunc w) asList ++ seg_AS s)).
Proof.
  intros Hwf Has Hlist w n full. pose proof Hwf as (_ & Hl & H255 & _ & _).
  pose proof (len_nonneg asList) as Hll. fold n in Hl, H255.
  assert (Forall is_u32 [as_]) as Has1 by by constructor.
  split_and!.
  - destruct (255 <=? n) eqn:E.
    { destruct s as [s|s]; unfold BGPASPathSegment_GetLen in Hl; cbn [seg_base] in Hl; cbn [BGPASPathSegment_PrependAS BGPASPathSegment_AppendAS];
        unfold BGPAS2PathSegment_PrependAS, BGPAS2PathSegment_AppendAS,
          BGPAS4PathSegment_PrependAS, BGPAS4PathSegment_AppendAS; by rewrite Hl, E. }
    split; [apply seg_prepend_ok; done || (fold n; lia)|].
    assert (len (seg_AS s) + len [as_] <= 255) as Hle by (fold n; side).
    pose proof (seg_with_grow s (seg_AS s ++ [as_trunc w as_]) [as_] Hwf Has1 Hle
      ltac:(apply Permutation_app_comm)) as G2.
    destruct s as [s|s]; unfold BGPASPathSegment_GetLen in Hl; cbn [seg_base] in Hl;
      cbn [BGPASPathSegment_AppendAS];
      unfold BGPAS2PathSegment_AppendAS, BGPAS4PathSegment_AppendAS; rewrite Hl, E;
      (eexists; split; [reflexivity|exact G2]).
  - intros Hfull. destruct s as [s|s]; unfold BGPASPathSegment_GetLen in Hl; cbn [seg_base] in Hl; cbn [BGPASPathSegment_PrependASList];
      unfold BGPAS2PathSegment_PrependASList, BGPAS4PathSegment_PrependASList; rewrite Hl.
    + rewrite (proj2 (Z.ltb_lt _ _)); [done|]. destruct Hfull as [|(Hw & _)]; [lia|discriminate Hw].
    + rewrite (proj2 (Z.eqb_neq _ _)), (proj2 (Z.leb_le _ _)); [done| |];
        destruct Hfull as [|(_ & Hne & ?)]; try lia.
      destruct asList; [done|]. len_simpl. pose proof (len_nonneg asList). lia.
  - intros Hfull. apply seg_prepend_list_ok; [done|done| |].
    + fold n. destruct (decide (n + len asList <= 255)); [done|]. destruct Hfull. left. lia.
    + intros (Hw & Hne & Heq). apply Hfull. by right.
Qed.

Lemma as_segment_grow_witness :
  let s := example_segment in
  (if 255 <=? 2 then
     BGPASPathSegment_PrependAS s 9 = Ok (false, s) /\
     BGPASPathSegment_AppendAS s 9 = Ok (false, s)
   else
     (exists s1, BGPASPathSegment_PrependAS s 9 = Ok (true, s1) /\
        seg_with s s1 [9; 65536; 7]) /\
     (exists s2, BGPASPathSegment_AppendAS s 9 = Ok (true, s2) /\
        seg_with s s2 [65536; 7; 9])) /\
  (2 + 2 > 255 \/ (4 = 4 /\ [5; 6] <> [] /\ 2 + 2 = 255) ->
   BGPASPathSegment_PrependASList s [5; 6] = Ok (false, s)) /\
  (~ (2 + 2 > 255 \/ (4 = 4 /\ [5; 6] <> [] /\ 2 + 2 = 255)) ->
   exists s3, BGPASPathSegment_PrependASList s [5; 6] = Ok (true, s3) /\
     seg_with s s3 [5; 6; 65536; 7]).
Proof. apply (as_segment_grow example_segment 9 [5; 6]); ground. Defined.
