(* ===== verification/BgpAttr.v ===== *)
(** * Path attributes

    The path attributes of an UPDATE: BGPPathAttrBase and every attribute type
    of src/bgp/packet/bgp.go, mpbgp.go and community.go, with their encoders,
    decoders and the operations that change them. *)

From S2P Require Import Prelude.
From S2P Require Import BgpOpen.
From S2P Require Import BgpNlri.
From S2P Require Import BgpAsPath.

(** ** The common header *)

Definition BGPPathAttrFlagExtendedLen : Z := 16.
Definition BGPPathAttrFlagPartial : Z := 32.
Definition BGPPathAttrFlagTransitive : Z := 64.
Definition BGPPathAttrFlagOptional : Z := 128.
Definition BGPPathAttrFlagAllMinusExtendedLen : Z := 224.

Definition BGPPathAttrTypeOrigin : Z := 1.
Definition BGPPathAttrTypeASPath : Z := 2.
Definition BGPPathAttrTypeNextHop : Z := 3.
Definition BGPPathAttrTypeMultiExitDisc : Z := 4.
Definition BGPPathAttrTypeLocalPref : Z := 5.
Definition BGPPathAttrTypeAtomicAggregate : Z := 6.
Definition BGPPathAttrTypeAggregator : Z := 7.
Definition BGPPathAttrTypeCommunity : Z := 8.
Definition BGPPathAttrTypeOriginatorId : Z := 9.
Definition BGPPathAttrTypeClusterList : Z := 10.
Definition BGPPathAttrTypeMPReachNLRI : Z := 14.
Definition BGPPathAttrTypeMPUnreachNLRI : Z := 15.
Definition BGPPathAttrTypeExtCommunity : Z := 16.
Definition BGPPathAttrTypeAS4Path : Z := 17.
Definition BGPPathAttrTypeAS4Aggregator : Z := 18.
Definition BGPPathAttrTypeUnknown : Z := 19.

Definition BGPPathAttrOriginMax : Z := 3.

(** The expected flags and the mask under which they are compared. *)
Definition BGPPathAttrTypeFlagsMap : list (Z * (Z * Z)) :=
  let all := BGPPathAttrFlagAllMinusExtendedLen in
  [ (BGPPathAttrTypeOrigin, (BGPPathAttrFlagTransitive, all));
    (BGPPathAttrTypeASPath, (BGPPathAttrFlagTransitive, all));
    (BGPPathAttrTypeNextHop, (BGPPathAttrFlagTransitive, all));
    (BGPPathAttrTypeMultiExitDisc, (BGPPathAttrFlagOptional, all));
    (BGPPathAttrTypeLocalPref, (BGPPathAttrFlagTransitive, all));
    (BGPPathAttrTypeAtomicAggregate, (BGPPathAttrFlagTransitive, all));
    (BGPPathAttrTypeAggregator, (Z.lor BGPPathAttrFlagOptional BGPPathAttrFlagTransitive, all));
    (BGPPathAttrTypeOriginatorId, (BGPPathAttrFlagOptional, all));
    (BGPPathAttrTypeClusterList, (BGPPathAttrFlagOptional, all));
    (BGPPathAttrTypeMPReachNLRI, (BGPPathAttrFlagOptional, all));
    (BGPPathAttrTypeMPUnreachNLRI, (BGPPathAttrFlagOptional, all));
    (BGPPathAttrTypeAS4Path, (Z.lor BGPPathAttrFlagOptional BGPPathAttrFlagTransitive, all));
    (BGPPathAttrTypeAS4Aggregator, (Z.lor BGPPathAttrFlagOptional BGPPathAttrFlagTransitive, all));
    (BGPPathAttrTypeCommunity, (Z.lor BGPPathAttrFlagOptional BGPPathAttrFlagTransitive, all)) ].

Definition BGPPathAttrTypeLenMap : list (Z * Z) :=
  [ (BGPPathAttrTypeOrigin, 1);
    (BGPPathAttrTypeNextHop, 4);
    (BGPPathAttrTypeMultiExitDisc, 4);
    (BGPPathAttrTypeLocalPref, 4);
    (BGPPathAttrTypeAtomicAggregate, 0);
    (BGPPathAttrTypeAS4Aggregator, 8) ].

Record BGPPathAttrBase := mkBase {
  Flags : Z;
  Code : Z;
  pa_Length : Z;
  BGPPathAttrLen : Z;
}.

Definition BGPPathAttrBase_TotalLen (pa : BGPPathAttrBase) : Z :=
  u32 (pa_Length pa + BGPPathAttrLen pa).

Definition BGPPathAttrBase_Encode (pa : BGPPathAttrBase) : res bytes :=
  let pkt := zeros (BGPPathAttrBase_TotalLen pa) in
  pkt ← set_index pkt 0 (Flags pa);
  pkt ← set_index pkt 1 (Code pa);
  if has_bits (Flags pa) BGPPathAttrFlagExtendedLen then PutUint16 pkt 2 (pa_Length pa)
  else set_index pkt 2 (u8 (pa_Length pa)).

(** [BGPMessageError{BGPUpdateMsgError, sub, pkt[:pa.TotalLen()], _}] *)
Definition attr_error {A} (pa : BGPPathAttrBase) (sub : Z) (pkt : bytes) : res A :=
  s ← slice pkt 0 (BGPPathAttrBase_TotalLen pa);
  Err (BGPMessageError BGPUpdateMsgError sub s).

Definition BGPPathAttrBase_checkFlags (pa : BGPPathAttrBase) (pkt : bytes) : res unit :=
  if negb (has_bits (Flags pa) BGPPathAttrFlagOptional) &&
     negb (has_bits (Flags pa) BGPPathAttrFlagTransitive)
  then attr_error pa BGPAttrFlagsError pkt
  else if has_bits (Flags pa) BGPPathAttrFlagPartial then
    if negb (has_bits (Flags pa) BGPPathAttrFlagOptional)
    then attr_error pa BGPAttrFlagsError pkt
    else if has_bits (Flags pa) BGPPathAttrFlagOptional &&
            negb (has_bits (Flags pa) BGPPathAttrFlagTransitive)
    then attr_error pa BGPAttrFlagsError pkt
    else Ok tt
  else Ok tt.

(** The flags, the code and the length, with the octets the length takes. *)
Definition BGPPathAttrBase_Decode_header (pkt : bytes) : res BGPPathAttrBase :=
  _ ← guard_err (len pkt <? 3) (BGPMessageError BGPUpdateMsgError BGPMalformedAttrList []);
  flags ← index pkt 0;
  code ← index pkt 1;
  if has_bits flags BGPPathAttrFlagExtendedLen then
    _ ← guard_err (len pkt <? 4) (BGPMessageError BGPUpdateMsgError BGPMalformedAttrList []);
    s ← slice pkt 2 4;
    l ← Uint16 s;
    Ok (mkBase flags code l 4)
  else
    l ← index pkt 2;
    Ok (mkBase flags code l 3).

Definition BGPPathAttrBase_Decode (pkt : bytes) : res BGPPathAttrBase :=
  pa ← BGPPathAttrBase_Decode_header pkt;
  _ ← guard_err (len pkt <? u16 (pa_Length pa + BGPPathAttrLen pa))
        (BGPMessageError BGPUpdateMsgError BGPMalformedAttrList pkt);
  _ ← match assocZ BGPPathAttrTypeFlagsMap (Code pa) with
      | Some (val, mask) =>
        if has_bits (Z.lxor val (Flags pa)) mask then attr_error pa BGPAttrFlagsError pkt
        else Ok tt
      | None => Ok tt
      end;
  _ ← BGPPathAttrBase_checkFlags pa pkt;
  _ ← match assocZ BGPPathAttrTypeLenMap (Code pa) with
      | Some length_ =>
        if negb (length_ =? pa_Length pa) then attr_error pa BGPAttrLenError pkt else Ok tt
      | None => Ok tt
      end;
  _ ← (if negb (has_bits (Flags pa) BGPPathAttrFlagOptional) &&
          (BGPPathAttrTypeUnknown <=? Code pa)
       then attr_error pa BGPUnrecognizedWellKnownAttr pkt else Ok tt);
  Ok pa.

(** ** Next hops of MP_REACH_NLRI *)

Inductive MPNextHop :=
| MPNextHopIP (nh_Length : Z) (nh_Value : bytes)
| MPNextHopIP6 (nh_Length : Z) (nh_Value : bytes) (LinkLocal : option bytes)
| MPNextHopUnknown (nh_Length : Z) (nh_Value : bytes).

Definition MPNextHop_Length (nh : MPNextHop) : Z :=
  match nh with MPNextHopIP l _ | MPNextHopIP6 l _ _ | MPNextHopUnknown l _ => l end.

Definition MPNextHop_Len (nh : MPNextHop) : Z := u8 (MPNextHop_Length nh + 1).

Definition MPNextHop_GetNextHop (nh : MPNextHop) : bytes :=
  match nh with MPNextHopIP _ v | MPNextHopIP6 _ v _ | MPNextHopUnknown _ v => v end.

Definition wrong_next_hop_len (l : Z) : bool :=
  negb (l =? 4) && negb (l =? 16) && negb (l =? 32).

Definition next_hop_ipLen (l : Z) : Z := if (l =? 16) || (l =? 32) then 16 else 4.

Definition MPNextHopIP_Encode (l : Z) (value pkt : bytes) : res bytes :=
  pkt ← set_index pkt 0 l;
  _ ← guard_err (wrong_next_hop_len l) (ErrText "Wrong Next hop len");
  s ← slice_from value (len value - next_hop_ipLen l);
  copy_at pkt 1 s.

Definition MPNextHopIP6_Encode (l : Z) (value : bytes) (linkLocal : option bytes) (pkt : bytes)
  : res bytes :=
  pkt ← MPNextHopIP_Encode l value pkt;
  match linkLocal with
  | Some ll =>
    s ← slice_from ll (len ll - 16);
    copy_at pkt 17 s
  | None => Ok pkt
  end.

Definition MPNextHop_Encode (nh : MPNextHop) (pkt : bytes) : res bytes :=
  match nh with
  | MPNextHopIP l v => MPNextHopIP_Encode l v pkt
  | MPNextHopIP6 l v ll => MPNextHopIP6_Encode l v ll pkt
  | MPNextHopUnknown l v =>
    pkt ← set_index pkt 0 l;
    copy_at pkt 1 v
  end.

(** The length and value a next hop of IP type has after [Decode], and the
    error it returns: a wrong length is stored all the same. *)
Definition MPNextHopIP_Decode (value pkt : bytes) : res (Z * bytes * option goerr) :=
  l ← index pkt 0;
  if wrong_next_hop_len l then Ok (l, value, Some (ErrText "Wrong Next hop len"))
  else if next_hop_ipLen l =? 4 then
    a ← index pkt 1; b ← index pkt 2; c ← index pkt 3; d ← index pkt 4;
    Ok (l, IPv4 a b c d, None)
  else
    s ← slice_from pkt 1;
    Ok (l, copy (zeros 16) s, None).

Definition MPNextHop_Decode (nh : MPNextHop) (pkt : bytes) : res (MPNextHop * option goerr) :=
  match nh with
  | MPNextHopIP _ v =>
    '(l, v, e) ← MPNextHopIP_Decode v pkt;
    Ok (MPNextHopIP l v, e)
  | MPNextHopIP6 _ v ll =>
    '(l, v, e) ← MPNextHopIP_Decode v pkt;
    match e with
    | Some _ => Ok (MPNextHopIP6 l v ll, e)
    | None =>
      if l =? 32 then
        s ← slice_from pkt 17;
        Ok (MPNextHopIP6 l v (Some (copy (zeros 16) s)), None)
      else Ok (MPNextHopIP6 l v ll, None)
    end
  | MPNextHopUnknown _ _ =>
    l ← index pkt 0;
    s ← slice_from pkt 1;
    Ok (MPNextHopUnknown l (copy (zeros l) s), None)
  end.

Definition is_nil {A} (l : list A) : bool := match l with [] => true | _ => false end.

Definition MPNextHopIP_SetNextHop (ip : bytes) : res MPNextHop :=
  _ ← guard_err (negb (len ip =? 4) && negb (len ip =? 16))
        (ErrText "Next hop IP address is not 4 bytes or 16 bytes");
  _ ← guard_err (is_nil (To4 ip) && is_nil (To16 ip))
        (ErrText "Next hop IP address is NOT IPv4 or IPv6 address");
  Ok (MPNextHopIP (if is_nil (To4 ip) then 16 else 4) ip).

Definition MPNextHopIP6_SetGlobalNextHop (ll : option bytes) (ip : bytes) : res MPNextHop :=
  _ ← guard_err (negb (len ip =? 16)) (ErrText "IPv6 next hop address is not 16 bytes");
  Ok (MPNextHopIP6 (match ll with Some _ => u8 (len ip) * 2 | None => u8 (len ip) end) ip ll).

Definition MPNextHopIP6_SetLinkLocalNextHop (value ip : bytes) : res MPNextHop :=
  _ ← guard_err (negb (len ip =? 16)) (ErrText "IPv6 next hop address is not 16 bytes");
  Ok (MPNextHopIP6 (u8 (len ip) * 2) value (Some ip)).

Definition MPNextHopUnknown_SetNextHop (nextHop : bytes) : MPNextHop :=
  MPNextHopUnknown (u8 (len nextHop)) (copy (zeros (u8 (len nextHop))) nextHop).

Definition NewMPNextHopIP : MPNextHop := MPNextHopIP 0 [].
Definition NewMPNextHopIP6 : MPNextHop := MPNextHopIP6 0 [] None.
Definition NewMPNextHopUnknown : MPNextHop := MPNextHopUnknown 0 [].

(** [MPNextHopIP6.New] returns a [MPNextHopIP], so both families decode into
    that type. *)
Definition BGPGetMPNextHop (afi : Z) : MPNextHop :=
  if (afi =? AfiIP) || (afi =? AfiIP6) then MPNextHopIP 0 [] else MPNextHopUnknown 0 [].

(** ** The attribute types *)

Inductive BGPAggregatorAS :=
| BGPAggregator2ByteAS (AS : Z)
| BGPAggregator4ByteAS (AS : Z).

Definition BGPAggregatorAS_GetLen (a : BGPAggregatorAS) : Z :=
  match a with BGPAggregator2ByteAS _ => 2 | BGPAggregator4ByteAS _ => 4 end.

Definition BGPAggregatorAS_GetAS (a : BGPAggregatorAS) : Z :=
  match a with BGPAggregator2ByteAS v | BGPAggregator4ByteAS v => v end.

Definition BGPAggregatorAS_Encode (a : BGPAggregatorAS) (pkt : bytes) (i : Z) : res bytes :=
  match a with
  | BGPAggregator2ByteAS v => PutUint16 pkt i v
  | BGPAggregator4ByteAS v => PutUint32 pkt i v
  end.

Definition BGPAggregator2ByteAS_Decode (pkt : bytes) : res BGPAggregatorAS :=
  _ ← guard_err (len pkt <? 2) (BGPMessageError BGPUpdateMsgError BGPAttrLenError []);
  v ← Uint16 pkt;
  Ok (BGPAggregator2ByteAS v).

Definition BGPAggregator4ByteAS_Decode (pkt : bytes) : res Z :=
  s ← slice pkt 0 4;
  Uint32 s.

Inductive BGPPathAttr :=
| PAOrigin (b : BGPPathAttrBase) (v : Z)
| PAASPath (b : BGPPathAttrBase) (v : list BGPASPathSegment) (ASSize : Z)
| PAAS4Path (b : BGPPathAttrBase) (v : list BGPAS4PathSegment)
| PANextHop (b : BGPPathAttrBase) (v : bytes)
| PAMultiExitDisc (b : BGPPathAttrBase) (v : Z)
| PALocalPref (b : BGPPathAttrBase) (v : Z)
| PAAtomicAggregate (b : BGPPathAttrBase)
| PAAggregator (b : BGPPathAttrBase) (AS : option BGPAggregatorAS) (IP : bytes)
| PAAS4Aggregator (b : BGPPathAttrBase) (AS : Z) (IP : bytes)
| PAOriginatorId (b : BGPPathAttrBase) (v : bytes)
| PAClusterList (b : BGPPathAttrBase) (v : list Z)
| PAMPReachNLRI (b : BGPPathAttrBase) (AFI SAFI : Z) (nh : option MPNextHop) (Reserved : Z)
    (v : list NLRI)
| PAMPUnreachNLRI (b : BGPPathAttrBase) (AFI SAFI : Z) (v : list NLRI)
| PACommunity (b : BGPPathAttrBase) (v : list Z)
| PAExtCommunity (b : BGPPathAttrBase) (v : list Z)
| PAUnknown (b : BGPPathAttrBase) (v : bytes).

Definition pa_base (pa : BGPPathAttr) : BGPPathAttrBase :=
  match pa with
  | PAOrigin b _ | PAASPath b _ _ | PAAS4Path b _ | PANextHop b _ | PAMultiExitDisc b _
  | PALocalPref b _ | PAAtomicAggregate b | PAAggregator b _ _ | PAAS4Aggregator b _ _
  | PAOriginatorId b _ | PAClusterList b _ | PAMPReachNLRI b _ _ _ _ _ | PAMPUnreachNLRI b _ _ _
  | PACommunity b _ | PAExtCommunity b _ | PAUnknown b _ => b
  end.

Definition GetCode (pa : BGPPathAttr) : Z := Code (pa_base pa).
Definition TotalLen (pa : BGPPathAttr) : Z := BGPPathAttrBase_TotalLen (pa_base pa).

(** ** Encoders *)

(** [for _, val := range as.Value { val.Encode(pkt[length:]); length += val.TotalLen() }] *)
Fixpoint encode_segments {A} (enc : A -> bytes -> res bytes) (size : A -> Z)
  (pkt : bytes) (length_ : Z) (segs : list A) : res bytes :=
  match segs with
  | [] => Ok pkt
  | s :: segs =>
    pkt ← on_suffix pkt length_ (enc s);
    encode_segments enc size pkt (u16 (length_ + size s)) segs
  end.

(** The loop of the MP attributes that copies each prefix behind the others. *)
Fixpoint copy_nlri (afi : Z) (pkt : bytes) (idx : Z) (ns : list NLRI) : res bytes :=
  match ns with
  | [] => Ok pkt
  | n :: ns =>
    b ← NLRI_Encode n afi;
    pkt ← copy_at pkt idx b;
    copy_nlri afi pkt (idx + len b) ns
  end.

Definition BGPPathAttrOrigin_Encode (b : BGPPathAttrBase) (v : Z) : res bytes :=
  pkt ← BGPPathAttrBase_Encode b;
  set_index pkt (BGPPathAttrLen b) v.

Definition BGPPathAttrASPath_Encode (b : BGPPathAttrBase) (v : list BGPASPathSegment) : res bytes :=
  pkt ← BGPPathAttrBase_Encode b;
  encode_segments BGPASPathSegment_Encode BGPASPathSegment_TotalLen pkt (BGPPathAttrLen b) v.

Definition BGPPathAttrAS4Path_Encode (b : BGPPathAttrBase) (v : list BGPAS4PathSegment)
  : res bytes :=
  pkt ← BGPPathAttrBase_Encode b;
  encode_segments BGPAS4PathSegment_Encode (fun s => BGPASPathSegmentLen (as4_base s))
    pkt (BGPPathAttrLen b) v.

Definition BGPPathAttrNextHop_Encode (b : BGPPathAttrBase) (v : bytes) : res bytes :=
  pkt ← BGPPathAttrBase_Encode b;
  s ← slice_from v (len v - pa_Length b);
  copy_at pkt (BGPPathAttrLen b) s.

(** MULTI_EXIT_DISC and LOCAL_PREF. *)
Definition BGPPathAttrMultiExitDisc_Encode (b : BGPPathAttrBase) (v : Z) : res bytes :=
  pkt ← BGPPathAttrBase_Encode b;
  PutUint32 pkt (BGPPathAttrLen b) v.
Definition BGPPathAttrLocalPref_Encode (b : BGPPathAttrBase) (v : Z) : res bytes :=
  pkt ← BGPPathAttrBase_Encode b;
  PutUint32 pkt (BGPPathAttrLen b) v.

Definition BGPPathAttrAggregator_Encode (b : BGPPathAttrBase) (AS : option BGPAggregatorAS)
  (IP : bytes) : res bytes :=
  pkt ← BGPPathAttrBase_Encode b;
  AS ← of_option AS;
  pkt ← BGPAggregatorAS_Encode AS pkt (BGPPathAttrLen b);
  copy_at pkt (u16 (BGPPathAttrLen b + BGPAggregatorAS_GetLen AS)) IP.

Definition BGPPathAttrAS4Aggregator_Encode (b : BGPPathAttrBase) (AS : Z) (IP : bytes)
  : res bytes :=
  pkt ← BGPPathAttrBase_Encode b;
  pkt ← PutUint32 pkt (BGPPathAttrLen b) AS;
  copy_at pkt (u16 (BGPPathAttrLen b + 4)) IP.

Definition BGPPathAttrOriginatorId_Encode (b : BGPPathAttrBase) (v : bytes) : res bytes :=
  pkt ← BGPPathAttrBase_Encode b;
  copy_at pkt (BGPPathAttrLen b) v.

(** The counter and the offset are uint16. *)
Definition BGPPathAttrClusterList_Encode (b : BGPPathAttrBase) (v : list Z) : res bytes :=
  pkt ← BGPPathAttrBase_Encode b;
  write_all (fun pkt i x => PutUint32 pkt (u16 (BGPPathAttrLen b + u16 (4 * i))) x) pkt 0
    (take (Z.to_nat (u16 (len v))) v).

Definition BGPPathAttrMPReachNLRI_Encode (b : BGPPathAttrBase) (afi safi : Z)
  (nh : option MPNextHop) (v : list NLRI) : res bytes :=
  pkt ← BGPPathAttrBase_Encode b;
  let idx := BGPPathAttrLen b in
  pkt ← PutUint16 pkt idx afi;
  pkt ← set_index pkt (idx + 2) safi;
  nh ← of_option nh;
  pkt ← on_suffix pkt (idx + 3) (MPNextHop_Encode nh);
  pkt ← set_index pkt (idx + 3 + MPNextHop_Len nh) 0;
  copy_nlri afi pkt (idx + 3 + MPNextHop_Len nh + 1) v.

Definition BGPPathAttrMPUnreachNLRI_Encode (b : BGPPathAttrBase) (afi safi : Z) (v : list NLRI)
  : res bytes :=
  pkt ← BGPPathAttrBase_Encode b;
  let idx := BGPPathAttrLen b in
  pkt ← PutUint16 pkt idx afi;
  pkt ← set_index pkt (idx + 2) safi;
  copy_nlri afi pkt (idx + 3) v.

Definition BGPPathAttrCommunity_Encode (b : BGPPathAttrBase) (v : list Z) : res bytes :=
  pkt ← BGPPathAttrBase_Encode b;
  write_all (fun pkt i x => PutUint32 pkt (i * 4 + BGPPathAttrLen b) x) pkt 0 v.

Definition BGPPathAttrExtCommunity_Encode (b : BGPPathAttrBase) (v : list Z) : res bytes :=
  pkt ← BGPPathAttrBase_Encode b;
  write_all (fun pkt i x => PutUint64 pkt (i * 8 + BGPPathAttrLen b) x) pkt 0 v.

Definition BGPPathAttrUnknown_Encode (b : BGPPathAttrBase) (v : bytes) : res bytes :=
  pkt ← BGPPathAttrBase_Encode b;
  copy_at pkt (BGPPathAttrLen b) v.

Definition BGPPathAttr_Encode (pa : BGPPathAttr) : res bytes :=
  match pa with
  | PAOrigin b v => BGPPathAttrOrigin_Encode b v
  | PAASPath b v _ => BGPPathAttrASPath_Encode b v
  | PAAS4Path b v => BGPPathAttrAS4Path_Encode b v
  | PANextHop b v => BGPPathAttrNextHop_Encode b v
  | PAMultiExitDisc b v => BGPPathAttrMultiExitDisc_Encode b v
  | PALocalPref b v => BGPPathAttrLocalPref_Encode b v
  | PAAtomicAggregate b => BGPPathAttrBase_Encode b
  | PAAggregator b AS IP => BGPPathAttrAggregator_Encode b AS IP
  | PAAS4Aggregator b AS IP => BGPPathAttrAS4Aggregator_Encode b AS IP
  | PAOriginatorId b v => BGPPathAttrOriginatorId_Encode b v
  | PAClusterList b v => BGPPathAttrClusterList_Encode b v
  | PAMPReachNLRI b afi safi nh _ v => BGPPathAttrMPReachNLRI_Encode b afi safi nh v
  | PAMPUnreachNLRI b afi safi v => BGPPathAttrMPUnreachNLRI_Encode b afi safi v
  | PACommunity b v => BGPPathAttrCommunity_Encode b v
  | PAExtCommunity b v => BGPPathAttrExtCommunity_Encode b v
  | PAUnknown b v => BGPPathAttrUnknown_Encode b v
  end.

(** ** Decoders *)

(** What the daemon has learnt of the peer when it decodes its messages. *)
Record BGPPeerAttrs := mkPeerAttrs {
  ASSize : Z;
  AddPathFamily : gmap Z (gmap Z Z);
  AddPathsRxActual : bool;
}.

Definition BGPPathAttrOrigin_Decode (pkt : bytes) : res BGPPathAttr :=
  b ← BGPPathAttrBase_Decode pkt;
  v ← index pkt (BGPPathAttrLen b);
  if BGPPathAttrOriginMax <=? v then attr_error b BGPMalformedAttrList pkt
  else Ok (PAOrigin b v).

(** The loop of the two AS path attributes. A segment that does not decode ends
    the loop, and [Decode] then returns nil with the segments read so far. *)
Fixpoint decode_segments {A} (dec : bytes -> res A) (size : A -> Z) (fuel : nat)
  (pkt : bytes) (stop ptr : Z) (acc : list A) : res (list A) :=
  if ptr <? stop then
    match fuel with
    | O => NoFuel
    | S fuel =>
      sub ← slice_from pkt ptr;
      match dec sub with
      | Ok seg =>
        let ptr := u32 (ptr + size seg) in
        _ ← guard_err (stop <? ptr) (BGPMessageError BGPUpdateMsgError BGPAttrLenError pkt);
        decode_segments dec size fuel pkt stop ptr (acc ++ [seg])
      | Err _ => Ok acc
      | Panic => Panic
      | NoFuel => NoFuel
      end
    end
  else
    _ ← guard_err (negb (ptr =? stop)) (BGPMessageError BGPUpdateMsgError BGPAttrLenError pkt);
    Ok acc.

(** [fuel] bounds the segments read; one for each octet of the packet and one
    more is enough unless the loop stays where it is. *)
Definition BGPPathAttrASPath_Decode (fuel : nat) (asSize : Z) (pkt : bytes) : res BGPPathAttr :=
  b ← BGPPathAttrBase_Decode pkt;
  v ← decode_segments (BGPASPathSegment_Decode asSize) BGPASPathSegment_TotalLen fuel pkt
        (BGPPathAttrBase_TotalLen b) (BGPPathAttrLen b) [];
  Ok (PAASPath b v asSize).

Definition BGPPathAttrAS4Path_Decode (fuel : nat) (pkt : bytes) : res BGPPathAttr :=
  b ← BGPPathAttrBase_Decode pkt;
  v ← decode_segments BGPAS4PathSegment_Decode (fun s => BGPASPathSegmentLen (as4_base s))
        fuel pkt (BGPPathAttrBase_TotalLen b) (BGPPathAttrLen b) [];
  Ok (PAAS4Path b v).

(** [pkt[pa.BGPPathAttrLen : pa.BGPPathAttrLen+pa.Length]] *)
Definition attr_value (b : BGPPathAttrBase) (pkt : bytes) : res bytes :=
  slice pkt (BGPPathAttrLen b) (u16 (BGPPathAttrLen b + pa_Length b)).

Definition BGPPathAttrNextHop_Decode (pkt : bytes) : res BGPPathAttr :=
  b ← BGPPathAttrBase_Decode pkt;
  s ← attr_value b pkt;
  Ok (PANextHop b (copy (zeros (pa_Length b)) s)).

Definition BGPPathAttrMultiExitDisc_Decode (pkt : bytes) : res BGPPathAttr :=
  b ← BGPPathAttrBase_Decode pkt;
  s ← attr_value b pkt;
  v ← Uint32 s;
  Ok (PAMultiExitDisc b v).

Definition BGPPathAttrLocalPref_Decode (pkt : bytes) : res BGPPathAttr :=
  b ← BGPPathAttrBase_Decode pkt;
  s ← attr_value b pkt;
  v ← Uint32 s;
  Ok (PALocalPref b v).

Definition BGPPathAttrAggregator_Decode (asSize : Z) (pkt : bytes) : res BGPPathAttr :=
  b ← BGPPathAttrBase_Decode pkt;
  _ ← (if pa_Length b <? u8 (asSize + 4) then attr_error b BGPAttrLenError pkt else Ok tt);
  s ← slice_from pkt (BGPPathAttrLen b);
  AS ← (if asSize =? 2 then BGPAggregator2ByteAS_Decode s
        else v ← BGPAggregator4ByteAS_Decode s; Ok (BGPAggregator4ByteAS v));
  s ← slice_from pkt (u16 (BGPPathAttrLen b + BGPAggregatorAS_GetLen AS));
  Ok (PAAggregator b (Some AS) (copy (zeros 4) s)).

Definition BGPPathAttrAS4Aggregator_Decode (pkt : bytes) : res BGPPathAttr :=
  b ← BGPPathAttrBase_Decode pkt;
  s ← slice_from pkt (BGPPathAttrLen b);
  AS ← BGPAggregator4ByteAS_Decode s;
  s ← slice_from pkt (u16 (BGPPathAttrLen b + 4));
  Ok (PAAS4Aggregator b AS (copy (zeros 4) s)).

Definition BGPPathAttrOriginatorId_Decode (pkt : bytes) : res BGPPathAttr :=
  b ← BGPPathAttrBase_Decode pkt;
  s ← attr_value b pkt;
  Ok (PAOriginatorId b (copy (zeros (pa_Length b)) s)).

Definition BGPPathAttrClusterList_Decode (pkt : bytes) : res BGPPathAttr :=
  b ← BGPPathAttrBase_Decode pkt;
  v ← read_all (fun i =>
        let off := u16 (BGPPathAttrLen b + u16 (4 * i)) in
        s ← slice pkt off (u16 (off + 4));
        Uint32 s) (Z.to_nat (pa_Length b / 4)) 0;
  Ok (PAClusterList b v).

(** The error of the next hop is dropped. *)
Definition BGPPathAttrMPReachNLRI_Decode (addPathsRx : bool) (pkt : bytes) : res BGPPathAttr :=
  b ← BGPPathAttrBase_Decode pkt;
  let idx := BGPPathAttrLen b in
  s ← slice pkt idx (idx + 2);
  afi ← Uint16 s;
  safi ← index pkt (idx + 2);
  s ← slice_from pkt (idx + 3);
  '(nh, _) ← MPNextHop_Decode (BGPGetMPNextHop afi) s;
  let idx := idx + 3 + MPNextHop_Len nh in
  reserved ← index pkt idx;
  s ← slice_from pkt (idx + 1);
  '(ns, _) ← decodeNLRI addPathsRx s (u32 (pa_Length b - 4 - MPNextHop_Len nh)) afi;
  Ok (PAMPReachNLRI b afi safi (Some nh) reserved ns).

Definition BGPPathAttrMPUnreachNLRI_Decode (addPathsRx : bool) (pkt : bytes) : res BGPPathAttr :=
  b ← BGPPathAttrBase_Decode pkt;
  let idx := BGPPathAttrLen b in
  s ← slice pkt idx (idx + 2);
  afi ← Uint16 s;
  safi ← index pkt (idx + 2);
  s ← slice_from pkt (idx + 3);
  '(ns, _) ← decodeNLRI addPathsRx s (u32 (pa_Length b - 3)) afi;
  Ok (PAMPUnreachNLRI b afi safi ns).

Definition BGPPathAttrCommunity_Decode (pkt : bytes) : res BGPPathAttr :=
  b ← BGPPathAttrBase_Decode pkt;
  _ ← (if negb (pa_Length b mod 4 =? 0) then attr_error b BGPAttrLenError pkt else Ok tt);
  v ← read_all (fun i => s ← slice_from pkt (i * 4 + BGPPathAttrLen b); Uint32 s)
        (Z.to_nat (pa_Length b / 4)) 0;
  Ok (PACommunity b v).

Definition BGPPathAttrExtCommunity_Decode (pkt : bytes) : res BGPPathAttr :=
  b ← BGPPathAttrBase_Decode pkt;
  _ ← (if negb (pa_Length b mod 8 =? 0) then attr_error b BGPAttrLenError pkt else Ok tt);
  v ← read_all (fun i => s ← slice_from pkt (i * 8 + BGPPathAttrLen b); Uint64 s)
        (Z.to_nat (pa_Length b / 8)) 0;
  Ok (PAExtCommunity b v).

Definition BGPPathAttrUnknown_Decode (pkt : bytes) : res BGPPathAttr :=
  b ← BGPPathAttrBase_Decode pkt;
  s ← attr_value b pkt;
  Ok (PAUnknown b (copy (zeros (pa_Length b)) s)).

(** The struct [BGPGetPathAttr] makes for a type code: the codes that
    BGPPathAttrTypeToStructMap has, and BGPPathAttrUnknown for all others,
    the two community attributes among them. *)
Definition BGPPathAttr_Decode_code (peer : BGPPeerAttrs) (code : Z) (pkt : bytes)
  : res BGPPathAttr :=
  let fuel := S (length pkt) in
  if code =? BGPPathAttrTypeOrigin then BGPPathAttrOrigin_Decode pkt
  else if code =? BGPPathAttrTypeASPath then BGPPathAttrASPath_Decode fuel (ASSize peer) pkt
  else if code =? BGPPathAttrTypeNextHop then BGPPathAttrNextHop_Decode pkt
  else if code =? BGPPathAttrTypeMultiExitDisc then BGPPathAttrMultiExitDisc_Decode pkt
  else if code =? BGPPathAttrTypeLocalPref then BGPPathAttrLocalPref_Decode pkt
  else if code =? BGPPathAttrTypeAtomicAggregate then
    b ← BGPPathAttrBase_Decode pkt; Ok (PAAtomicAggregate b)
  else if code =? BGPPathAttrTypeAggregator then BGPPathAttrAggregator_Decode (ASSize peer) pkt
  else if code =? BGPPathAttrTypeOriginatorId then BGPPathAttrOriginatorId_Decode pkt
  else if code =? BGPPathAttrTypeClusterList then BGPPathAttrClusterList_Decode pkt
  else if code =? BGPPathAttrTypeMPReachNLRI then
    BGPPathAttrMPReachNLRI_Decode (AddPathsRxActual peer) pkt
  else if code =? BGPPathAttrTypeMPUnreachNLRI then
    BGPPathAttrMPUnreachNLRI_Decode (AddPathsRxActual peer) pkt
  else if code =? BGPPathAttrTypeAS4Path then BGPPathAttrAS4Path_Decode fuel pkt
  else if code =? BGPPathAttrTypeAS4Aggregator then BGPPathAttrAS4Aggregator_Decode pkt
  else BGPPathAttrUnknown_Decode pkt.

(** [pa := BGPGetPathAttr(pkt); pa.Decode(pkt, data)] *)
Definition BGPGetPathAttr_Decode (peer : BGPPeerAttrs) (pkt : bytes) : res BGPPathAttr :=
  code ← index pkt 1;
  BGPPathAttr_Decode_code peer code pkt.

(** ** Constructors *)

Definition NewBGPPathAttrOrigin (originType : Z) : BGPPathAttr :=
  PAOrigin (mkBase 64 BGPPathAttrTypeOrigin 1 3) originType.
Definition NewBGPPathAttrASPath : BGPPathAttr :=
  PAASPath (mkBase 80 BGPPathAttrTypeASPath 0 4) [] 0.

(** The code is that of AS_PATH, and the extended-length flag is not set
    although the header is counted as four octets. *)
Definition NewBGPPathAttrAS4Path_base : BGPPathAttrBase :=
  mkBase (Z.lor BGPPathAttrFlagOptional BGPPathAttrFlagTransitive) BGPPathAttrTypeASPath 0 4.
Definition NewBGPPathAttrAS4Path : BGPPathAttr := PAAS4Path NewBGPPathAttrAS4Path_base [].

Definition NewBGPPathAttrNextHop : BGPPathAttr :=
  PANextHop (mkBase 64 BGPPathAttrTypeNextHop 4 3) [].
Definition NewBGPPathAttrMultiExitDisc : BGPPathAttr :=
  PAMultiExitDisc (mkBase 128 BGPPathAttrTypeMultiExitDisc 4 3) 0.
Definition NewBGPPathAttrLocalPref : BGPPathAttr :=
  PALocalPref (mkBase BGPPathAttrFlagTransitive BGPPathAttrTypeLocalPref 4 3) 0.
Definition NewBGPPathAttrAtomicAggregate : BGPPathAttr :=
  PAAtomicAggregate (mkBase BGPPathAttrFlagTransitive BGPPathAttrTypeAtomicAggregate 0 3).
Definition NewBGPPathAttrAggregator : BGPPathAttr :=
  PAAggregator (mkBase (Z.lor BGPPathAttrFlagTransitive BGPPathAttrFlagOptional)
    BGPPathAttrTypeAggregator 4 3) None [].
Definition NewBGPPathAttrAS4Aggregator : BGPPathAttr :=
  PAAS4Aggregator (mkBase (Z.lor BGPPathAttrFlagTransitive BGPPathAttrFlagOptional)
    BGPPathAttrTypeAS4Aggregator 8 3) 0 [].
Definition NewBGPPathAttrOriginatorId (id : bytes) : BGPPathAttr :=
  PAOriginatorId (mkBase BGPPathAttrFlagOptional BGPPathAttrTypeOriginatorId 4 3) id.
Definition NewBGPPathAttrClusterList : BGPPathAttr :=
  PAClusterList (mkBase BGPPathAttrFlagOptional BGPPathAttrTypeClusterList 0 3) [].
Definition NewBGPPathAttrMPReachNLRI (afi safi : Z) : BGPPathAttr :=
  PAMPReachNLRI (mkBase (Z.lor BGPPathAttrFlagOptional BGPPathAttrFlagExtendedLen)
    BGPPathAttrTypeMPReachNLRI 4 4) afi safi None 0 [].
Definition NewBGPPathAttrMPUnreachNLRI (afi safi : Z) : BGPPathAttr :=
  PAMPUnreachNLRI (mkBase (Z.lor BGPPathAttrFlagOptional BGPPathAttrFlagExtendedLen)
    BGPPathAttrTypeMPUnreachNLRI 3 4) afi safi [].
Definition NewBGPPathAttrCommunity : BGPPathAttr :=
  PACommunity (mkBase (Z.lor BGPPathAttrFlagOptional BGPPathAttrFlagTransitive)
    BGPPathAttrTypeCommunity 0 3) [].
Definition NewBGPPathAttrExtCommunity : BGPPathAttr :=
  PAExtCommunity (mkBase (Z.lor BGPPathAttrFlagOptional BGPPathAttrFlagTransitive)
    BGPPathAttrTypeExtCommunity 0 3) [].

(** ** Operations that change an attribute

    Each is a method of one attribute type; on a value of another type it is a
    failed type assertion in the caller. *)

Definition add_Length (b : BGPPathAttrBase) (n : Z) : BGPPathAttrBase :=
  mkBase (Flags b) (Code b) (u16 (pa_Length b + n)) (BGPPathAttrLen b).

Definition PrependASPathSegment (pa : BGPPathAttr) (seg : BGPASPathSegment) : res BGPPathAttr :=
  match pa with
  | PAASPath b v asSize =>
    v ← insert_front v [seg] [seg];
    Ok (PAASPath (add_Length b (BGPASPathSegment_TotalLen seg)) v asSize)
  | _ => Panic
  end.

Definition AppendASPathSegment (pa : BGPPathAttr) (seg : BGPASPathSegment) : res BGPPathAttr :=
  match pa with
  | PAASPath b v asSize =>
    Ok (PAASPath (add_Length b (BGPASPathSegment_TotalLen seg)) (v ++ [seg]) asSize)
  | _ => Panic
  end.

Definition AddASPathSegment (pa : BGPPathAttr) (seg : BGPAS4PathSegment) : res BGPPathAttr :=
  match pa with
  | PAAS4Path b v =>
    v ← insert_front v [seg] [seg];
    Ok (PAAS4Path (add_Length b (BGPASPathSegmentLen (as4_base seg))) v)
  | _ => Panic
  end.

Definition SetBGPAggregatorAS (pa : BGPPathAttr) (aggAS : BGPAggregatorAS) : res BGPPathAttr :=
  match pa with
  | PAAggregator b _ IP =>
    Ok (PAAggregator (add_Length b (BGPAggregatorAS_GetLen aggAS)) (Some aggAS) IP)
  | _ => Panic
  end.

Definition PrependId (pa : BGPPathAttr) (id : Z) : res BGPPathAttr :=
  match pa with
  | PAClusterList b v =>
    v ← insert_front v [id] [id];
    Ok (PAClusterList (add_Length b 4) v)
  | _ => Panic
  end.

Definition MPReachNLRI_SetNextHop (pa : BGPPathAttr) (nh : MPNextHop) : res BGPPathAttr :=
  match pa with
  | PAMPReachNLRI b afi safi _ r v =>
    Ok (PAMPReachNLRI (add_Length b (MPNextHop_Len nh)) afi safi (Some nh) r v)
  | _ => Panic
  end.

Definition sum_NLRI_Len (b : BGPPathAttrBase) (ns : list NLRI) : BGPPathAttrBase :=
  foldl (fun b n => add_Length b (u16 (NLRI_Len n))) b ns.

Definition MPReachNLRI_AddNLRI (pa : BGPPathAttr) (n : NLRI) : res BGPPathAttr :=
  match pa with
  | PAMPReachNLRI b afi safi nh r v =>
    Ok (PAMPReachNLRI (add_Length b (u16 (NLRI_Len n))) afi safi nh r (v ++ [n]))
  | _ => Panic
  end.

Definition MPReachNLRI_SetNLRIList (pa : BGPPathAttr) (ns : list NLRI) : res BGPPathAttr :=
  match pa with
  | PAMPReachNLRI b afi safi nh r _ =>
    Ok (PAMPReachNLRI (sum_NLRI_Len b ns) afi safi nh r ns)
  | _ => Panic
  end.

Definition MPUnreachNLRI_AddNLRI (pa : BGPPathAttr) (n : NLRI) : res BGPPathAttr :=
  match pa with
  | PAMPUnreachNLRI b afi safi v =>
    Ok (PAMPUnreachNLRI (add_Length b (u16 (NLRI_Len n))) afi safi (v ++ [n]))
  | _ => Panic
  end.

Definition MPUnreachNLRI_AddNLRIList (pa : BGPPathAttr) (ns : list NLRI) : res BGPPathAttr :=
  match pa with
  | PAMPUnreachNLRI b afi safi v => Ok (PAMPUnreachNLRI (sum_NLRI_Len b ns) afi safi (v ++ ns))
  | _ => Panic
  end.

(** The header grows by an octet when the length passes 255. *)
Definition grow_community (b : BGPPathAttrBase) (n : Z) : BGPPathAttrBase :=
  let b := if (pa_Length b <=? 255) && (255 <? u16 (pa_Length b + n)) then
             mkBase (Z.lor (Flags b) BGPPathAttrFlagExtendedLen) (Code b) (pa_Length b) 4
           else b in
  add_Length b n.

Definition AddCommunity (pa : BGPPathAttr) (value : Z) : res BGPPathAttr :=
  match pa with
  | PACommunity b v =>
    v ← insert_front v [0] [value];
    Ok (PACommunity (grow_community b 4) v)
  | _ => Panic
  end.

Definition AddExtCommunity (pa : BGPPathAttr) (value : Z) : res BGPPathAttr :=
  match pa with
  | PAExtCommunity b v =>
    v ← insert_front v [0] [value];
    Ok (PAExtCommunity (grow_community b 8) v)
  | _ => Panic
  end.

(** ** The wire format *)

Definition ext_len (b : BGPPathAttrBase) : bool := has_bits (Flags b) BGPPathAttrFlagExtendedLen.

Definition base_hdr (b : BGPPathAttrBase) : bytes :=
  [Flags b; Code b] ++ if ext_len b then be16 (pa_Length b) else [pa_Length b].

(** The checks of the decoder on a header. *)
Definition header_ok (b : BGPPathAttrBase) : bool :=
  let opt := has_bits (Flags b) BGPPathAttrFlagOptional in
  let trans := has_bits (Flags b) BGPPathAttrFlagTransitive in
  let partial := has_bits (Flags b) BGPPathAttrFlagPartial in
  match assocZ BGPPathAttrTypeFlagsMap (Code b) with
  | Some (val, mask) => negb (has_bits (Z.lxor val (Flags b)) mask)
  | None => true
  end && (opt || trans) && (negb partial || (opt && trans)) &&
  match assocZ BGPPathAttrTypeLenMap (Code b) with
  | Some l => l =? pa_Length b
  | None => true
  end && (opt || (Code b <? BGPPathAttrTypeUnknown)).

(** A header the encoder writes and the decoder accepts: the octets the length
    takes are those its flag says, and header and value fit the 16-bit sum the
    decoder compares with the packet's length. *)
Definition base_wf (b : BGPPathAttrBase) : Prop :=
  is_u8 (Flags b) /\ is_u8 (Code b) /\ 0 <= pa_Length b /\
  (if ext_len b then pa_Length b <= 65531 /\ BGPPathAttrLen b = 4
   else pa_Length b <= 255 /\ BGPPathAttrLen b = 3) /\
  header_ok b = true.

Definition nh_bytes (nh : MPNextHop) : bytes :=
  MPNextHop_Length nh ::
  (if MPNextHop_Length nh =? 4 then To4 (MPNextHop_GetNextHop nh) else MPNextHop_GetNextHop nh).

(** The next hops the decoder produces without an error: four octets of IPv4,
    which it keeps in the sixteen-octet form, or sixteen of IPv6. *)
Definition nh_wf (nh : MPNextHop) : Prop :=
  match nh with
  | MPNextHopIP l v =>
    (l = 4 /\ exists a b c d, v = IPv4 a b c d /\ is_bytes [a; b; c; d]) \/
    (l = 16 /\ len v = 16 /\ is_bytes v)
  | _ => False
  end.

Definition attr_body (peer : BGPPeerAttrs) (pa : BGPPathAttr) : bytes :=
  match pa with
  | PAOrigin _ v => [v]
  | PAASPath _ v _ => @wire_list _ (BGPASPathSegment_Wire (ASSize peer)) v
  | PAAS4Path _ v => @wire_list _ BGPAS4PathSegment_Wire v
  | PANextHop _ v | PAOriginatorId _ v | PAUnknown _ v => v
  | PAMultiExitDisc _ v | PALocalPref _ v => be32 v
  | PAAtomicAggregate _ => []
  | PAAggregator _ (Some (BGPAggregator2ByteAS v)) IP => be16 v ++ IP
  | PAAggregator _ (Some (BGPAggregator4ByteAS v)) IP => be32 v ++ IP
  | PAAggregator _ None IP => IP
  | PAAS4Aggregator _ AS IP => be32 AS ++ IP
  | PAClusterList _ v => words be32 v
  | PAMPReachNLRI _ afi safi (Some nh) _ v =>
    be16 afi ++ [safi] ++ nh_bytes nh ++ [0] ++
      @wire_list _ (NLRI_Wire (AddPathsRxActual peer) afi) v
  | PAMPReachNLRI _ _ _ None _ _ => []
  | PAMPUnreachNLRI _ afi safi v =>
    be16 afi ++ [safi] ++ @wire_list _ (NLRI_Wire (AddPathsRxActual peer) afi) v
  | PACommunity _ v => words be32 v
  | PAExtCommunity _ v => words be64 v
  end.

(** The codes [BGPGetPathAttr] has a struct for. *)
Definition known_codes : list Z :=
  [ BGPPathAttrTypeOrigin; BGPPathAttrTypeASPath; BGPPathAttrTypeNextHop;
    BGPPathAttrTypeMultiExitDisc; BGPPathAttrTypeLocalPref; BGPPathAttrTypeAtomicAggregate;
    BGPPathAttrTypeAggregator; BGPPathAttrTypeOriginatorId; BGPPathAttrTypeClusterList;
    BGPPathAttrTypeMPReachNLRI; BGPPathAttrTypeMPUnreachNLRI; BGPPathAttrTypeAS4Path;
    BGPPathAttrTypeAS4Aggregator ].

Definition attr_value_wf (peer : BGPPeerAttrs) (pa : BGPPathAttr) : Prop :=
  match pa with
  | PAOrigin b v => Code b = BGPPathAttrTypeOrigin /\ 0 <= v < BGPPathAttrOriginMax
  | PAASPath b v asSize => Code b = BGPPathAttrTypeASPath /\ asSize = ASSize peer /\
      Forall (@wire_wf _ (BGPASPathSegment_Wire asSize)) v
  | PAAS4Path b v => Code b = BGPPathAttrTypeAS4Path /\
      Forall (@wire_wf _ BGPAS4PathSegment_Wire) v
  | PANextHop b v => Code b = BGPPathAttrTypeNextHop /\ is_bytes v
  | PAMultiExitDisc b v => Code b = BGPPathAttrTypeMultiExitDisc /\ is_u32 v
  | PALocalPref b v => Code b = BGPPathAttrTypeLocalPref /\ is_u32 v
  | PAAtomicAggregate b => Code b = BGPPathAttrTypeAtomicAggregate
  | PAAggregator b AS IP => Code b = BGPPathAttrTypeAggregator /\ len IP = 4 /\ is_bytes IP /\
      match AS with
      | Some (BGPAggregator2ByteAS v) => ASSize peer = 2 /\ is_u16 v
      | Some (BGPAggregator4ByteAS v) => ASSize peer = 4 /\ is_u32 v
      | None => False
      end
  | PAAS4Aggregator b AS IP =>
      Code b = BGPPathAttrTypeAS4Aggregator /\ is_u32 AS /\ len IP = 4 /\ is_bytes IP
  | PAOriginatorId b v => Code b = BGPPathAttrTypeOriginatorId /\ is_bytes v
  | PAClusterList b v => Code b = BGPPathAttrTypeClusterList /\ Forall is_u32 v
  | PAMPReachNLRI b afi safi nh r v =>
      Code b = BGPPathAttrTypeMPReachNLRI /\ afi_known afi /\ is_u8 safi /\
      match nh with Some nh => nh_wf nh | None => False end /\ r = 0 /\
      Forall (nlri_wf (AddPathsRxActual peer) afi) v
  | PAMPUnreachNLRI b afi safi v =>
      Code b = BGPPathAttrTypeMPUnreachNLRI /\ afi_known afi /\ is_u8 safi /\
      Forall (nlri_wf (AddPathsRxActual peer) afi) v
  | PACommunity _ _ | PAExtCommunity _ _ => False
  | PAUnknown b v => ~ In (Code b) known_codes /\ is_bytes v
  end.

Definition attr_wf (peer : BGPPeerAttrs) (pa : BGPPathAttr) : Prop :=
  base_wf (pa_base pa) /\ pa_Length (pa_base pa) = len (attr_body peer pa) /\
  attr_value_wf peer pa.

#[export] Instance PathAttr_Wire (peer : BGPPeerAttrs) : Wire BGPPathAttr := {|
  wire_bytes pa := base_hdr (pa_base pa) ++ attr_body peer pa;
  wire_wf := attr_wf peer;
|}.
