(* ===== verification/BgpAttrCodec.v ===== *)
(** * Path attributes: encoding and decoding

    The encoders and decoders of BgpAttr implement the reference format, for
    every attribute type, and the operations on attributes keep them
    encodable. *)

From S2P Require Import Prelude.
From S2P Require Import BgpOpen.
From S2P Require Import BgpNlri.
From S2P Require Import BgpAsPath.
From S2P Require Import BgpAttr.

(** ** Lemmas on the header *)

Lemma len_base_hdr b : base_wf b -> len (base_hdr b) = BGPPathAttrLen b.
Proof.
  intros (_ & _ & _ & H & _). unfold base_hdr. len_simpl.
  destruct (ext_len b); len_simpl; lia.
Qed.

Lemma base_wf_bounds b :
  base_wf b -> 0 <= pa_Length b <= 65531 /\ 3 <= BGPPathAttrLen b <= 4 /\
    pa_Length b + BGPPathAttrLen b <= 65535.
Proof. intros (_ & _ & H0 & H & _). destruct (ext_len b); lia. Qed.

Lemma base_TotalLen b : base_wf b -> BGPPathAttrBase_TotalLen b = pa_Length b + BGPPathAttrLen b.
Proof. intros H%base_wf_bounds. unfold BGPPathAttrBase_TotalLen. zlia. Qed.

Lemma base_encode b :
  base_wf b -> BGPPathAttrBase_Encode b = Ok (base_hdr b ++ zeros (pa_Length b)).
Proof.
  intros Hb. pose proof (base_wf_bounds b Hb) as Hbd. pose proof Hb as (_ & _ & H0 & H1 & _).
  unfold BGPPathAttrBase_Encode, base_hdr. rewrite base_TotalLen by done.
  set (n := _ + _). rewrite (set_index_zeros [] n) by side. res_simpl.
  rewrite set_index_zeros by side. res_simpl.
  change (has_bits (Flags b) BGPPathAttrFlagExtendedLen) with (ext_len b).
  destruct (ext_len b).
  - rewrite PutUint16_zeros by side. rewrite <- !app_assoc.
    replace (n - 1 - 1 - 2) with (pa_Length b) by lia. done.
  - rewrite set_index_zeros by side. rewrite <- !app_assoc.
    replace (n - 1 - 1 - 1) with (pa_Length b) by lia.
    replace (u8 (pa_Length b)) with (pa_Length b) by zlia. done.
Qed.

Lemma base_decode_header b body :
  base_wf b -> BGPPathAttrBase_Decode_header (base_hdr b ++ body) = Ok b.
Proof.
  intros Hb. pose proof (base_wf_bounds b Hb) as Hbd. pose proof (len_base_hdr b Hb) as Hl.
  pose proof (len_nonneg body) as Hnb.
  pose proof Hb as (_ & _ & H0 & H1 & _). unfold BGPPathAttrBase_Decode_header.
  rewrite (proj2 (Z.ltb_ge _ 3)) by (rewrite len_app; lia). res_simpl. unfold base_hdr in *.
  rewrite <- app_assoc in *.
  change (index _ 0) with (Ok (Flags b)). change (index _ 1) with (Ok (Code b)). res_simpl.
  change (has_bits (Flags b) _) with (ext_len b). destruct b as [f c l n]. cbn [Flags Code pa_Length BGPPathAttrLen] in *.
  destruct (ext_len _).
  - rewrite (proj2 (Z.ltb_ge _ 4)) by (len_simpl; lia). res_simpl.
    rewrite (slice_app [f; c] (be16 l) body 2 4) by done. res_simpl.
    rewrite <- (app_nil_r (be16 l)), Uint16_be16 by zlia. res_simpl. by destruct H1 as [_ ->].
  - change (index _ 2) with (Ok l). res_simpl. by destruct H1 as [_ ->].
Qed.

Lemma base_decode b body rest :
  base_wf b -> len body = pa_Length b -> BGPPathAttrBase_Decode (base_hdr b ++ body ++ rest) = Ok b.
Proof.
  intros Hb Hbody. pose proof (base_wf_bounds b Hb) as Hbd. pose proof (len_nonneg rest).
  pose proof Hb as (_ & _ & _ & _ & Hok). unfold BGPPathAttrBase_Decode.
  rewrite base_decode_header by done. res_simpl.
  rewrite (proj2 (Z.ltb_ge _ (u16 _))) by (len_simpl; rewrite len_base_hdr by done; zlia).
  res_simpl. unfold header_ok in Hok. rewrite !andb_true_iff in Hok.
  destruct Hok as ((((Hflags & Hot) & Hp) & Hlen) & Hunk).
  assert (BGPPathAttrBase_checkFlags b (base_hdr b ++ body ++ rest) = Ok tt) as Hcf.
  { unfold BGPPathAttrBase_checkFlags.
    destruct (has_bits (Flags b) BGPPathAttrFlagOptional),
      (has_bits (Flags b) BGPPathAttrFlagTransitive),
      (has_bits (Flags b) BGPPathAttrFlagPartial); cbn in Hot, Hp |- *; done. }
  destruct (assocZ BGPPathAttrTypeFlagsMap (Code b)) as [[val mask]|].
  - destruct (has_bits (Z.lxor val (Flags b)) mask); [done|]. res_simpl. rewrite Hcf. res_simpl.
    destruct (assocZ BGPPathAttrTypeLenMap (Code b)) as [l|]; [rewrite Hlen|]; res_simpl; cbn [negb];
      destruct (has_bits (Flags b) BGPPathAttrFlagOptional); cbn in Hunk |- *; try done;
      rewrite (proj2 (Z.leb_gt _ _)) by lia; done.
  - res_simpl. rewrite Hcf. res_simpl.
    destruct (assocZ BGPPathAttrTypeLenMap (Code b)) as [l|]; [rewrite Hlen|]; res_simpl; cbn [negb];
      destruct (has_bits (Flags b) BGPPathAttrFlagOptional); cbn in Hunk |- *; try done;
      rewrite (proj2 (Z.leb_gt _ _)) by lia; done.
Qed.

Lemma attr_value_ok b body rest :
  base_wf b -> len body = pa_Length b -> attr_value b (base_hdr b ++ body ++ rest) = Ok body.
Proof.
  intros Hb Hbody. pose proof (base_wf_bounds b Hb) as Hbd. pose proof (len_base_hdr b Hb).
  unfold attr_value. apply slice_app; zlia.
Qed.

(** ** Lemmas on the loops *)

Section Segments.
Context {A : Type} `{Wire A} {enc : A -> bytes -> res bytes} {dec : bytes -> res A}.
Context {size : A -> Z} `{!BufferCodec enc dec size}.

Lemma encode_segments_wire pre n segs l :
  Forall wire_wf segs -> l = len pre -> len (wire_list segs) <= n ->
  len pre + len (wire_list segs) < 65536 ->
  encode_segments enc size (pre ++ zeros n) l segs
  = Ok ((pre ++ wire_list segs) ++ zeros (n - len (wire_list segs))).
Proof using All.
  intros Hsegs. revert pre n l. induction Hsegs as [|s segs Hs _ IH]; intros pre n l -> Hn Hlen.
  - cbn [encode_segments]. change (wire_list []) with (@nil Z).
    by rewrite len_nil, Z.sub_0_r, app_nil_r.
  - rewrite wire_list_cons, len_app in *. cbn [encode_segments].
    pose proof (len_nonneg (wire_list segs)). pose proof (len_nonneg pre).
    pose proof (len_nonneg (wire_bytes s)).
    rewrite on_suffix_app by done.
    rewrite (buf_enc (dec:=dec) (size:=size)) by (done || lia). res_simpl.
    rewrite (buf_size (enc:=enc) (dec:=dec)) by done. rewrite app_assoc.
    rewrite IH by (len_simpl; zlia). by rewrite (app_assoc pre), Z.sub_add_distr.
Qed.

Lemma decode_segments_wire fuel pre segs rest stop ptr acc :
  Forall wire_wf segs -> ptr = len pre -> stop = len pre + len (wire_list segs) ->
  stop < 4294967296 -> (length segs <= fuel)%nat ->
  decode_segments dec size fuel (pre ++ wire_list segs ++ rest) stop ptr acc = Ok (acc ++ segs).
Proof using All.
  intros Hsegs. revert fuel pre stop ptr acc.
  induction Hsegs as [|s segs Hs _ IH]; intros fuel pre stop ptr acc -> -> Hlen Hfuel.
  - change (len (wire_list [])) with 0. rewrite Z.add_0_r.
    destruct fuel; cbn [decode_segments]; rewrite Z.ltb_irrefl, Z.eqb_refl; res_simpl;
      by rewrite app_nil_r.
  - rewrite wire_list_cons, len_app in *.
    pose proof (buf_pos (enc:=enc) (dec:=dec) (size:=size) s Hs) as Hpos.
    pose proof (len_nonneg (wire_list segs)). pose proof (len_nonneg pre).
    destruct fuel as [|fuel]; [cbn in Hfuel; lia|]. cbn [decode_segments length] in *.
    rewrite (proj2 (Z.ltb_lt (len pre) _)) by lia. rewrite <- app_assoc.
    rewrite slice_from_app by done. res_simpl.
    rewrite (buf_dec (enc:=enc) (size:=size)) by done.
    rewrite (buf_size (enc:=enc) (dec:=dec)) by done.
    replace (u32 _) with (len pre + len (wire_bytes s)) by zlia.
    rewrite (proj2 (Z.ltb_ge _ (_ + len (wire_bytes s)))) by lia. res_simpl.
    rewrite (app_assoc pre), IH by (len_simpl; lia). by rewrite <- app_assoc.
Qed.

Lemma segments_fuel segs :
  Forall wire_wf segs -> (length segs <= length (wire_list segs))%nat.
Proof using All.
  induction 1 as [|s segs Hs _ IH]; [done|]. rewrite wire_list_cons, length_app.
  pose proof (buf_pos (enc:=enc) (dec:=dec) (size:=size) s Hs) as Hp.
  unfold len in Hp. cbn [length]. lia.
Qed.
End Segments.

Lemma copy_nlri_wire addPaths afi pre n ns idx :
  let w := @wire_list _ (NLRI_Wire addPaths afi) ns in
  afi_known afi -> Forall (nlri_wf addPaths afi) ns -> idx = len pre -> len w <= n ->
  copy_nlri afi (pre ++ zeros n) idx ns = Ok ((pre ++ w) ++ zeros (n - len w)).
Proof.
  intros w Hafi Hns. pose proof (NLRI_Codec addPaths afi Hafi) as HC. subst w.
  revert pre n idx. induction Hns as [|x ns Hx _ IH]; intros pre n idx -> Hn.
  - cbn [copy_nlri]. change (wire_list []) with (@nil Z).
    by rewrite len_nil, Z.sub_0_r, app_nil_r.
  - rewrite wire_list_cons, len_app in *. cbn [copy_nlri].
    pose proof (len_nonneg (@wire_list _ (NLRI_Wire addPaths afi) ns)).
    rewrite (codec_enc (WireCodec:=HC) x Hx). res_simpl.
    rewrite copy_at_zeros by (done || lia). res_simpl.
    rewrite IH by (len_simpl; lia). by rewrite (app_assoc pre), Z.sub_add_distr.
Qed.

(** ** Encoding each attribute *)

(** The rest of a buffer that has been filled. *)
Ltac zero_rest :=
  match goal with |- context [zeros ?n] => replace n with 0 by (len_simpl; lia) end;
  rewrite zeros_0, app_nil_r.

Section Encode.
Context (b : BGPPathAttrBase) (Hb : base_wf b).

Lemma copy_value_ok v :
  pa_Length b = len v ->
  copy_at (base_hdr b ++ zeros (pa_Length b)) (BGPPathAttrLen b) v = Ok (base_hdr b ++ v).
Proof using Hb.
  intros Hl. rewrite copy_at_zeros by (rewrite ?len_base_hdr by done; lia). by zero_rest.
Qed.

Lemma put32_value_ok v :
  pa_Length b = 4 ->
  PutUint32 (base_hdr b ++ zeros (pa_Length b)) (BGPPathAttrLen b) v = Ok (base_hdr b ++ be32 v).
Proof using Hb.
  intros Hl. rewrite PutUint32_zeros by (rewrite ?len_base_hdr by done; lia). by zero_rest.
Qed.

Lemma words_value_ok write enc w off vs :
  (forall v, len (enc v) = w) ->
  (forall pre n i v, i = len pre -> w <= n ->
     write (pre ++ zeros n) i v = Ok ((pre ++ enc v) ++ zeros (n - w))) ->
  (forall k, 0 <= k < len vs -> off k = BGPPathAttrLen b + w * k) ->
  pa_Length b = len (words enc vs) ->
  write_all (fun pkt i v => write pkt (off i) v) (base_hdr b ++ zeros (pa_Length b)) 0 vs
  = Ok (base_hdr b ++ words enc vs).
Proof using Hb.
  intros Hw Hwr Hoff Hl. rewrite (len_words enc w) in Hl by done.
  rewrite (write_all_words write enc w); [|done|done| |lia].
  - rewrite Hl, Z.sub_diag. by rewrite zeros_0, app_nil_r.
  - intros k Hk. rewrite len_base_hdr by done. rewrite Z.add_0_l. by apply Hoff.
Qed.

Lemma encode_segments_value {A} `{Wire A} enc dec size `{!BufferCodec (A:=A) enc dec size} segs :
  Forall wire_wf segs -> pa_Length b = len (wire_list segs) ->
  encode_segments enc size (base_hdr b ++ zeros (pa_Length b)) (BGPPathAttrLen b) segs
  = Ok (base_hdr b ++ wire_list segs).
Proof using Hb.
  intros Hs Hl. pose proof (base_wf_bounds b Hb).
  rewrite (encode_segments_wire (dec:=dec)) by (rewrite ?len_base_hdr by done; done || lia).
  by zero_rest.
Qed.

Lemma aggregator_encode_ok AS IP :
  len IP = 4 -> pa_Length b = BGPAggregatorAS_GetLen AS + 4 ->
  BGPPathAttrAggregator_Encode b (Some AS) IP
  = Ok (base_hdr b ++ (match AS with
                       | BGPAggregator2ByteAS v => be16 v
                       | BGPAggregator4ByteAS v => be32 v
                       end) ++ IP).
Proof using Hb.
  intros HIP Hl. pose proof (base_wf_bounds b Hb). unfold BGPPathAttrAggregator_Encode.
  rewrite base_encode by done. res_simpl.
  destruct AS; cbn [BGPAggregatorAS_Encode BGPAggregatorAS_GetLen] in *.
  - rewrite PutUint16_zeros by (rewrite ?len_base_hdr by done; lia). res_simpl.
    rewrite copy_at_zeros by (len_simpl; rewrite ?len_base_hdr by done; zlia).
    rewrite app_assoc. by zero_rest.
  - rewrite PutUint32_zeros by (rewrite ?len_base_hdr by done; lia). res_simpl.
    rewrite copy_at_zeros by (len_simpl; rewrite ?len_base_hdr by done; zlia).
    rewrite app_assoc. by zero_rest.
Qed.

Lemma as4aggregator_encode_ok AS IP :
  len IP = 4 -> pa_Length b = 8 ->
  BGPPathAttrAS4Aggregator_Encode b AS IP = Ok (base_hdr b ++ be32 AS ++ IP).
Proof using Hb.
  intros HIP Hl. pose proof (base_wf_bounds b Hb). unfold BGPPathAttrAS4Aggregator_Encode.
  rewrite base_encode by done. res_simpl.
  rewrite PutUint32_zeros by (rewrite ?len_base_hdr by done; lia). res_simpl.
  rewrite copy_at_zeros by (len_simpl; rewrite ?len_base_hdr by done; zlia).
  rewrite app_assoc. by zero_rest.
Qed.
End Encode.

Lemma nh_len nh : nh_wf nh -> len (nh_bytes nh) = MPNextHop_Len nh.
Proof.
  destruct nh as [l v| |]; cbn [nh_wf]; [|done|done].
  intros [(-> & a & b & c & d & -> & _)|(-> & Hv & _)]; unfold nh_bytes, MPNextHop_Len;
    cbn [MPNextHop_Length MPNextHop_GetNextHop]; [done|].
  cbn [Z.eqb Pos.eqb]. len_simpl. rewrite Hv. done.
Qed.

Lemma nh_encode_ok nh n :
  nh_wf nh -> len (nh_bytes nh) <= n ->
  MPNextHop_Encode nh (zeros n) = Ok (nh_bytes nh ++ zeros (n - len (nh_bytes nh))).
Proof.
  destruct nh as [l v| |]; cbn [nh_wf]; [|done|done]. intros Hnh Hn.
  pose proof (nh_len (MPNextHopIP l v) Hnh) as Hl. rewrite Hl in *.
  cbn [MPNextHop_Encode]. unfold MPNextHopIP_Encode. unfold nh_bytes, MPNextHop_Len in *.
  cbn [MPNextHop_Length MPNextHop_GetNextHop] in *.
  destruct Hnh as [(-> & a & b & c & d & -> & _)|(-> & Hv & _)].
  - rewrite (set_index_zeros [] n) by (done || (change (u8 (4 + 1)) with 5 in Hn; lia)). res_simpl.
    change (guard_err (wrong_next_hop_len 4) _) with (Ok tt). res_simpl.
    change (slice_from (IPv4 a b c d) (len (IPv4 a b c d) - next_hop_ipLen 4)) with (Ok [a; b; c; d]).
    res_simpl. change (u8 (4 + 1)) with 5 in *.
    rewrite copy_at_zeros by (len_simpl; lia). len_simpl.
    change (To4 (IPv4 a b c d)) with [a; b; c; d]. cbn [Z.eqb Pos.eqb].
    by replace (n - 1 - _) with (n - 5) by lia.
  - change (u8 (16 + 1)) with 17 in *.
    rewrite (set_index_zeros [] n) by (done || lia). res_simpl.
    change (guard_err (wrong_next_hop_len 16) _) with (Ok tt). res_simpl.
    rewrite Hv. change (16 - next_hop_ipLen 16) with 0. rewrite slice_from_0. res_simpl.
    rewrite copy_at_zeros by (len_simpl; lia). rewrite Hv. cbn [Z.eqb Pos.eqb].
    by replace (n - 1 - _) with (n - 17) by lia.
Qed.

Lemma mp_reach_encode_ok peer b afi safi nh v :
  attr_wf peer (PAMPReachNLRI b afi safi (Some nh) 0 v) ->
  BGPPathAttrMPReachNLRI_Encode b afi safi (Some nh) v
  = Ok (base_hdr b ++ attr_body peer (PAMPReachNLRI b afi safi (Some nh) 0 v)).
Proof.
  intros (Hb & Hl & _ & Hafi & Hsafi & Hnh & _ & Hv). cbn [pa_base attr_body] in *.
  pose proof (base_wf_bounds b Hb). pose proof (len_base_hdr b Hb) as Hh. len_simpl.
  pose proof (nh_len nh Hnh) as Hn.
  pose proof (len_nonneg (@wire_list _ (NLRI_Wire (AddPathsRxActual peer) afi) v)).
  pose proof (len_nonneg (nh_bytes nh)).
  unfold BGPPathAttrMPReachNLRI_Encode. rewrite base_encode by done. res_simpl.
  rewrite PutUint16_zeros by lia. res_simpl. rewrite set_index_zeros by (len_simpl; lia). res_simpl.
  rewrite on_suffix_app by (len_simpl; lia). rewrite nh_encode_ok by (done || lia). res_simpl.
  rewrite app_assoc. rewrite set_index_zeros by (len_simpl; lia). res_simpl.
  rewrite (copy_nlri_wire (AddPathsRxActual peer)) by (done || (len_simpl; lia)).
  rewrite <- !app_assoc. do 6 f_equal. zero_rest. done.
Qed.

Lemma mp_unreach_encode_ok peer b afi safi v :
  attr_wf peer (PAMPUnreachNLRI b afi safi v) ->
  BGPPathAttrMPUnreachNLRI_Encode b afi safi v
  = Ok (base_hdr b ++ attr_body peer (PAMPUnreachNLRI b afi safi v)).
Proof.
  intros (Hb & Hl & _ & Hafi & Hsafi & Hv). cbn [pa_base attr_body] in *.
  pose proof (base_wf_bounds b Hb). pose proof (len_base_hdr b Hb) as Hh. len_simpl.
  pose proof (len_nonneg (@wire_list _ (NLRI_Wire (AddPathsRxActual peer) afi) v)).
  unfold BGPPathAttrMPUnreachNLRI_Encode. rewrite base_encode by done. res_simpl.
  rewrite PutUint16_zeros by lia. res_simpl. rewrite set_index_zeros by (len_simpl; lia). res_simpl.
  rewrite (copy_nlri_wire (AddPathsRxActual peer)) by (done || (len_simpl; lia)).
  rewrite <- !app_assoc. do 4 f_equal. zero_rest. done.
Qed.

Lemma attr_encode_ok peer pa :
  attr_wf peer pa -> BGPPathAttr_Encode pa = Ok (base_hdr (pa_base pa) ++ attr_body peer pa).
Proof.
  intros Hwf. pose proof Hwf as (Hb & Hl & Hv). pose proof (base_wf_bounds _ Hb) as Hbd.
  destruct pa; cbn [pa_base attr_body attr_value_wf BGPPathAttr_Encode] in *.
  - unfold BGPPathAttrOrigin_Encode. rewrite base_encode by done. res_simpl.
    rewrite set_index_zeros by (rewrite ?len_base_hdr by done; len_simpl; lia). by zero_rest.
  - destruct Hv as (_ & -> & Hv). unfold BGPPathAttrASPath_Encode. rewrite base_encode by done.
    res_simpl.
    by apply (encode_segments_value b Hb (H:=BGPASPathSegment_Wire (ASSize peer))
      _ _ _ (BufferCodec0:=BGPASPathSegment_Codec (ASSize peer))).
  - destruct Hv as (_ & Hv). unfold BGPPathAttrAS4Path_Encode. rewrite base_encode by done.
    res_simpl.
    by apply (encode_segments_value b Hb (H:=BGPAS4PathSegment_Wire)
      _ _ _ (BufferCodec0:=BGPAS4PathSegment_Codec)).
  - unfold BGPPathAttrNextHop_Encode. rewrite base_encode by done. res_simpl.
    rewrite Hl at 1. rewrite Z.sub_diag, slice_from_0. res_simpl. by apply copy_value_ok.
  - unfold BGPPathAttrMultiExitDisc_Encode. rewrite base_encode by done. by apply put32_value_ok.
  - unfold BGPPathAttrLocalPref_Encode. rewrite base_encode by done. by apply put32_value_ok.
  - rewrite base_encode by done. by rewrite Hl.
  - destruct Hv as (_ & HIP & _ & HAS). destruct AS as [[v|v]|]; [| |done];
      len_simpl; rewrite aggregator_encode_ok; cbn; done || lia.
  - destruct Hv as (_ & _ & HIP & _). len_simpl. rewrite as4aggregator_encode_ok; done || lia.
  - unfold BGPPathAttrOriginatorId_Encode. rewrite base_encode by done. by apply copy_value_ok.
  - unfold BGPPathAttrClusterList_Encode. rewrite base_encode by done. res_simpl.
    pose proof Hl as Hl'. rewrite (len_words be32 4) in Hl' by done.
    rewrite take_ge by (unfold len in *; zlia).
    apply (words_value_ok b Hb _ be32 4 (fun i => u16 (BGPPathAttrLen b + u16 (4 * i))));
      [done|intros; by apply PutUint32_zeros|intros; zlia|done].
  - destruct Hv as (? & ? & ? & Hnh & -> & ?). destruct nh; [|done]. by apply mp_reach_encode_ok.
  - by apply mp_unreach_encode_ok.
  - done.
  - done.
  - unfold BGPPathAttrUnknown_Encode. rewrite base_encode by done. by apply copy_value_ok.
Qed.

(** ** Decoding each attribute *)

Section Decode.
Context (b : BGPPathAttrBase) (Hb : base_wf b) (rest : bytes).

Lemma slice_from_value body :
  slice_from (base_hdr b ++ body) (BGPPathAttrLen b) = Ok body.
Proof using Hb. apply slice_from_app. by rewrite len_base_hdr. Qed.

(** The value behind its first octets. *)
Lemma slice_from_value_off pre body off :
  off = BGPPathAttrLen b + len pre ->
  slice_from (base_hdr b ++ pre ++ body) off = Ok body.
Proof using Hb.
  intros ->. rewrite app_assoc. apply slice_from_app. len_simpl. by rewrite len_base_hdr.
Qed.

Lemma index_value_off pre x body off :
  off = BGPPathAttrLen b + len pre ->
  index (base_hdr b ++ pre ++ [x] ++ body) off = Ok x.
Proof using Hb.
  intros ->. rewrite app_assoc. apply index_app. len_simpl. by rewrite len_base_hdr.
Qed.

Lemma decode_segments_value {A} `{Wire A} enc dec size `{!BufferCodec (A:=A) enc dec size} segs :
  Forall wire_wf segs -> pa_Length b = len (wire_list segs) ->
  let pkt := base_hdr b ++ wire_list segs ++ rest in
  decode_segments dec size (S (length pkt)) pkt (BGPPathAttrBase_TotalLen b) (BGPPathAttrLen b) []
  = Ok segs.
Proof using Hb.
  intros Hs Hl pkt. pose proof (base_wf_bounds b Hb) as Hbd. subst pkt.
  rewrite (decode_segments_wire (enc:=enc)); [done|done|by rewrite len_base_hdr| | |].
  - rewrite base_TotalLen, len_base_hdr by done. lia.
  - rewrite base_TotalLen by done. lia.
  - pose proof (segments_fuel (enc:=enc) (dec:=dec) (size:=size) segs Hs).
    rewrite !length_app. lia.
Qed.

Lemma aggregator_decode_ok AS asSize IP :
  len IP = 4 -> pa_Length b = asSize + 4 ->
  match AS with
  | BGPAggregator2ByteAS v => asSize = 2 /\ is_u16 v
  | BGPAggregator4ByteAS v => asSize = 4 /\ is_u32 v
  end ->
  BGPPathAttrAggregator_Decode asSize
    (base_hdr b ++ (match AS with
                    | BGPAggregator2ByteAS v => be16 v
                    | BGPAggregator4ByteAS v => be32 v
                    end ++ IP) ++ rest)
  = Ok (PAAggregator b (Some AS) IP).
Proof using Hb.
  intros HIP Hl HAS. pose proof (base_wf_bounds b Hb). unfold BGPPathAttrAggregator_Decode.
  rewrite base_decode; [|done|destruct AS; destruct HAS as [-> _]; len_simpl; lia]. res_simpl.
  rewrite (proj2 (Z.ltb_ge (pa_Length b) _)) by (destruct AS; destruct HAS as [-> _]; zlia).
  res_simpl. rewrite slice_from_value. res_simpl. pose proof (len_nonneg rest).
  assert (forall s, copy (zeros 4) (IP ++ s) = IP) as Hcopy by (intros; by apply copy_prefix).
  destruct AS as [v|v]; destruct HAS as [-> Hv]; cbn [Z.eqb Pos.eqb]; rewrite <- app_assoc.
  - unfold BGPAggregator2ByteAS_Decode. rewrite (proj2 (Z.ltb_ge _ 2)) by (len_simpl; lia).
    res_simpl. rewrite Uint16_be16 by done. res_simpl. cbn [BGPAggregatorAS_GetLen].
    rewrite slice_from_value_off by (len_simpl; zlia). res_simpl. by rewrite Hcopy.
  - unfold BGPAggregator4ByteAS_Decode. rewrite slice_to_app by done. res_simpl.
    rewrite <- (app_nil_r (be32 v)), Uint32_be32 by done. res_simpl. rewrite app_nil_r.
    cbn [BGPAggregatorAS_GetLen].
    rewrite slice_from_value_off by (len_simpl; zlia). res_simpl. by rewrite Hcopy.
Qed.

Lemma as4aggregator_decode_ok AS IP :
  len IP = 4 -> pa_Length b = 8 -> is_u32 AS ->
  BGPPathAttrAS4Aggregator_Decode (base_hdr b ++ (be32 AS ++ IP) ++ rest)
  = Ok (PAAS4Aggregator b AS IP).
Proof using Hb.
  intros HIP Hl HAS. pose proof (base_wf_bounds b Hb). unfold BGPPathAttrAS4Aggregator_Decode.
  rewrite base_decode by (done || len_simpl; lia). res_simpl.
  rewrite slice_from_value. res_simpl.
  unfold BGPAggregator4ByteAS_Decode. rewrite <- app_assoc, slice_to_app by done. res_simpl.
  rewrite <- (app_nil_r (be32 AS)), Uint32_be32 by done. res_simpl. rewrite app_nil_r.
  rewrite slice_from_value_off by (len_simpl; zlia). res_simpl.
  by rewrite copy_prefix.
Qed.

Lemma cluster_list_decode_ok v :
  pa_Length b = len (words be32 v) -> Forall is_u32 v ->
  BGPPathAttrClusterList_Decode (base_hdr b ++ words be32 v ++ rest) = Ok (PAClusterList b v).
Proof using Hb.
  intros Hl Hv. pose proof (base_wf_bounds b Hb). unfold BGPPathAttrClusterList_Decode.
  rewrite base_decode by done. res_simpl. rewrite (len_words be32 4) in Hl by done.
  set (pkt := base_hdr b ++ words be32 v ++ rest).
  replace (Z.to_nat (pa_Length b / 4)) with (length v) by (unfold len in Hl; zlia).
  rewrite (read_all_words _ be32 4 (fun i => u16 (BGPPathAttrLen b + u16 (4 * i)))
    is_u32 65535 pkt (base_hdr b) v rest 0);
    [done|done| |intros; rewrite len_base_hdr by done; zlia|done
    |rewrite len_base_hdr by done; lia|done].
  intros j x pre post Hx -> Hoff Htop. rewrite Hoff. pose proof (len_nonneg pre).
  rewrite slice_app by (done || (len_simpl; zlia)). res_simpl. rewrite <- (app_nil_r (be32 x)).
  by rewrite Uint32_be32.
Qed.
End Decode.

Lemma nh_decode_ok afi nh rest :
  afi_known afi -> nh_wf nh ->
  MPNextHop_Decode (BGPGetMPNextHop afi) (nh_bytes nh ++ rest) = Ok (nh, None).
Proof.
  intros Hafi. assert (BGPGetMPNextHop afi = MPNextHopIP 0 []) as -> by (by destruct Hafi as [-> | ->]).
  destruct nh as [l v| |]; cbn [nh_wf]; [|done|done].
  intros [(-> & a & b & c & d & -> & _)|(-> & Hv & _)]; [done|].
  unfold nh_bytes. cbn [MPNextHop_Length MPNextHop_GetNextHop Z.eqb Pos.eqb MPNextHop_Decode app].
  unfold MPNextHopIP_Decode. change (index (16 :: v ++ rest) 0) with (Ok 16). res_simpl.
  change (wrong_next_hop_len 16) with false. change (next_hop_ipLen 16 =? 4) with false. cbn iota.
  rewrite (slice_from_app [16] (v ++ rest) 1 eq_refl : slice_from (16 :: v ++ rest) 1 = _).
  res_simpl. do 3 f_equal. by apply copy_prefix.
Qed.

Lemma be16_value v rest i j pre :
  is_u16 v -> i = len pre -> j = len pre + 2 ->
  (s ← slice (pre ++ be16 v ++ rest) i j; Uint16 s) = Ok v.
Proof.
  intros Hv -> ->. rewrite slice_app by done. res_simpl.
  rewrite <- (app_nil_r (be16 v)). by rewrite Uint16_be16.
Qed.

Lemma afi_known_u16 afi : afi_known afi -> is_u16 afi.
Proof. by intros [-> | ->]. Qed.

Lemma mp_reach_decode_ok peer b afi safi nh v rest :
  attr_wf peer (PAMPReachNLRI b afi safi (Some nh) 0 v) -> len rest < 65536 ->
  BGPPathAttrMPReachNLRI_Decode (AddPathsRxActual peer)
    (base_hdr b ++ attr_body peer (PAMPReachNLRI b afi safi (Some nh) 0 v) ++ rest)
  = Ok (PAMPReachNLRI b afi safi (Some nh) 0 v).
Proof.
  intros (Hb & Hl & _ & Hafi & Hsafi & Hnh & _ & Hv) Hrest. cbn [pa_base attr_body] in *.
  pose proof (base_wf_bounds b Hb) as Hbd. pose proof (len_base_hdr b Hb) as Hh.
  pose proof (nh_len nh Hnh) as Hn.
  set (w := @wire_list _ (NLRI_Wire (AddPathsRxActual peer) afi) v) in *.
  pose proof (len_nonneg w). pose proof (len_nonneg (nh_bytes nh)).
  unfold BGPPathAttrMPReachNLRI_Decode. rewrite base_decode by done. res_simpl.
  rewrite <- !app_assoc.
  rewrite slice_app by (len_simpl; lia). res_simpl.
  rewrite <- (app_nil_r (be16 afi)), Uint16_be16, app_nil_r by (by apply afi_known_u16). res_simpl.
  rewrite index_value_off by (done || (len_simpl; lia)). res_simpl.
  rewrite (app_assoc (be16 afi) [safi]).
  rewrite (slice_from_value_off b Hb) by (len_simpl; lia). res_simpl.
  rewrite nh_decode_ok by done. res_simpl.
  rewrite (app_assoc (be16 afi ++ [safi])), index_value_off by (done || (len_simpl; lia)). res_simpl.
  rewrite (app_assoc (_ ++ nh_bytes nh) [0]).
  rewrite (slice_from_value_off b Hb) by (len_simpl; lia). res_simpl.
  len_simpl. replace (u32 _) with (len w) by zlia.
  unfold w. rewrite decodeNLRI_wire; [done|done|done|]. fold w. len_simpl. lia.
Qed.

Lemma mp_unreach_decode_ok peer b afi safi v rest :
  attr_wf peer (PAMPUnreachNLRI b afi safi v) -> len rest < 65536 ->
  BGPPathAttrMPUnreachNLRI_Decode (AddPathsRxActual peer)
    (base_hdr b ++ attr_body peer (PAMPUnreachNLRI b afi safi v) ++ rest)
  = Ok (PAMPUnreachNLRI b afi safi v).
Proof.
  intros (Hb & Hl & _ & Hafi & Hsafi & Hv) Hrest. cbn [pa_base attr_body] in *.
  pose proof (base_wf_bounds b Hb) as Hbd. pose proof (len_base_hdr b Hb) as Hh.
  set (w := @wire_list _ (NLRI_Wire (AddPathsRxActual peer) afi) v) in *.
  pose proof (len_nonneg w).
  unfold BGPPathAttrMPUnreachNLRI_Decode. rewrite base_decode by done. res_simpl.
  rewrite <- !app_assoc.
  rewrite slice_app by (len_simpl; lia). res_simpl.
  rewrite <- (app_nil_r (be16 afi)), Uint16_be16, app_nil_r by (by apply afi_known_u16). res_simpl.
  rewrite index_value_off by (done || (len_simpl; lia)). res_simpl.
  rewrite (app_assoc (be16 afi) [safi]).
  rewrite (slice_from_value_off b Hb) by (len_simpl; lia). res_simpl.
  len_simpl. replace (u32 _) with (len w) by zlia.
  unfold w. rewrite decodeNLRI_wire; [done|done|done|]. fold w. len_simpl. lia.
Qed.

Lemma decode_code_unknown peer code pkt :
  ~ In code known_codes -> BGPPathAttr_Decode_code peer code pkt = BGPPathAttrUnknown_Decode pkt.
Proof.
  intros Hn. unfold BGPPathAttr_Decode_code.
  repeat match goal with |- context [code =? ?c] =>
    destruct (Z.eqb_spec code c) as [->|_]; [destruct Hn; vm_compute; tauto|] end.
  done.
Qed.

Lemma attr_decode_ok peer pa rest :
  attr_wf peer pa -> len rest < 65536 ->
  BGPGetPathAttr_Decode peer (base_hdr (pa_base pa) ++ attr_body peer pa ++ rest) = Ok pa.
Proof.
  intros Hwf Hrest. pose proof Hwf as (Hb & Hl & Hv). pose proof (base_wf_bounds _ Hb) as Hbd.
  unfold BGPGetPathAttr_Decode.
  assert (index (base_hdr (pa_base pa) ++ attr_body peer pa ++ rest) 1 = Ok (Code (pa_base pa)))
    as -> by done. res_simpl.
  assert (forall body, len body = pa_Length (pa_base pa) ->
    copy (zeros (pa_Length (pa_base pa))) body = body) as Hcopy.
  { intros body Hbody. apply copy_all. rewrite len_zeros; lia. }
  destruct pa; cbn [pa_base attr_body attr_value_wf] in *.
  - destruct Hv as [-> Hv]. change (BGPPathAttr_Decode_code _ _ ?p) with (BGPPathAttrOrigin_Decode p).
    unfold BGPPathAttrOrigin_Decode. rewrite base_decode by done. res_simpl.
    change ([v] ++ rest) with (v :: rest).
    rewrite index_app by (by rewrite len_base_hdr). res_simpl.
    by rewrite (proj2 (Z.leb_gt _ _)) by lia.
  - destruct Hv as (-> & -> & Hv).
    change (BGPPathAttr_Decode_code _ _ ?p) with
      (BGPPathAttrASPath_Decode (S (length p)) (ASSize peer) p).
    unfold BGPPathAttrASPath_Decode. rewrite base_decode by done. res_simpl.
    by rewrite (decode_segments_value b Hb rest (H:=BGPASPathSegment_Wire (ASSize peer)) _ _ _
      (BufferCodec0:=BGPASPathSegment_Codec (ASSize peer))).
  - destruct Hv as (-> & Hv).
    change (BGPPathAttr_Decode_code _ _ ?p) with (BGPPathAttrAS4Path_Decode (S (length p)) p).
    unfold BGPPathAttrAS4Path_Decode. rewrite base_decode by done. res_simpl.
    by rewrite (decode_segments_value b Hb rest (H:=BGPAS4PathSegment_Wire) _ _ _
      (BufferCodec0:=BGPAS4PathSegment_Codec)).
  - destruct Hv as (-> & Hv). change (BGPPathAttr_Decode_code _ _ ?p) with (BGPPathAttrNextHop_Decode p).
    unfold BGPPathAttrNextHop_Decode. rewrite base_decode by done. res_simpl.
    rewrite attr_value_ok by done. res_simpl. by rewrite Hcopy.
  - destruct Hv as (-> & Hv).
    change (BGPPathAttr_Decode_code _ _ ?p) with (BGPPathAttrMultiExitDisc_Decode p).
    unfold BGPPathAttrMultiExitDisc_Decode. rewrite base_decode by done. res_simpl.
    rewrite attr_value_ok by done. res_simpl. rewrite <- (app_nil_r (be32 v)).
    by rewrite Uint32_be32.
  - destruct Hv as (-> & Hv).
    change (BGPPathAttr_Decode_code _ _ ?p) with (BGPPathAttrLocalPref_Decode p).
    unfold BGPPathAttrLocalPref_Decode. rewrite base_decode by done. res_simpl.
    rewrite attr_value_ok by done. res_simpl. rewrite <- (app_nil_r (be32 v)).
    by rewrite Uint32_be32.
  - rewrite Hv. change (BGPPathAttr_Decode_code _ _ ?p) with
      (b ← BGPPathAttrBase_Decode p; Ok (PAAtomicAggregate b)).
    by rewrite base_decode.
  - destruct Hv as (-> & HIP & _ & HAS).
    change (BGPPathAttr_Decode_code _ _ ?p) with (BGPPathAttrAggregator_Decode (ASSize peer) p).
    destruct AS as [AS|]; [|done].
    pose proof (aggregator_decode_ok b Hb rest AS (ASSize peer) IP HIP) as HD.
    destruct AS as [v|v]; (rewrite HD; [done| |done]); destruct HAS as [-> _]; len_simpl; lia.
  - destruct Hv as (-> & HAS & HIP & _).
    change (BGPPathAttr_Decode_code _ _ ?p) with (BGPPathAttrAS4Aggregator_Decode p).
    rewrite as4aggregator_decode_ok; [done|done|done|len_simpl; lia|done].
  - destruct Hv as (-> & Hv).
    change (BGPPathAttr_Decode_code _ _ ?p) with (BGPPathAttrOriginatorId_Decode p).
    unfold BGPPathAttrOriginatorId_Decode. rewrite base_decode by done. res_simpl.
    rewrite attr_value_ok by done. res_simpl. by rewrite Hcopy.
  - destruct Hv as (-> & Hv).
    change (BGPPathAttr_Decode_code _ _ ?p) with (BGPPathAttrClusterList_Decode p).
    by apply cluster_list_decode_ok.
  - pose proof Hv as (-> & _ & _ & Hnh & -> & _). destruct nh as [nh|]; [|done].
    change (BGPPathAttr_Decode_code _ _ ?p) with
      (BGPPathAttrMPReachNLRI_Decode (AddPathsRxActual peer) p).
    by apply mp_reach_decode_ok.
  - pose proof Hv as (-> & _).
    change (BGPPathAttr_Decode_code _ _ ?p) with
      (BGPPathAttrMPUnreachNLRI_Decode (AddPathsRxActual peer) p).
    by apply mp_unreach_decode_ok.
  - done.
  - done.
  - destruct Hv as (Hc & Hv). rewrite decode_code_unknown by done.
    unfold BGPPathAttrUnknown_Decode. rewrite base_decode by done. res_simpl.
    rewrite attr_value_ok by done. res_simpl. by rewrite Hcopy.
Qed.

(** ** Round trip *)

Lemma attr_wf_TotalLen peer pa :
  attr_wf peer pa -> len (base_hdr (pa_base pa) ++ attr_body peer pa) = TotalLen pa.
Proof.
  intros (Hb & Hl & _). unfold TotalLen. rewrite base_TotalLen by done. len_simpl.
  rewrite len_base_hdr by done. lia.
Qed.


Definition example_peer : BGPPeerAttrs := mkPeerAttrs 4 ∅ false.

Definition example_mp_reach : BGPPathAttr :=
  PAMPReachNLRI (mkBase 144 14 30 4) AfiIP6 SafiUnicast
    (Some (MPNextHopIP 16 (32 :: zeros 15))) 0
    [NIPPrefix (mkIPPrefix 64 ([32; 1; 13; 184; 0; 0; 0; 1] ++ zeros 8))].


(** ** Changing attributes *)

(** There is room for [n] more octets in the attribute's length field. *)
Definition fits (pa : BGPPathAttr) (n : Z) : Prop :=
  0 <= n /\
  pa_Length (pa_base pa) + n <= (if ext_len (pa_base pa) then 65531 else 255).

(** One call of a method that adds to an attribute, with an argument that has a
    wire form. *)
Inductive attr_update (peer : BGPPeerAttrs) : BGPPathAttr -> BGPPathAttr -> Prop :=
| upd_prepend_segment pa seg pa' :
    fits pa (BGPASPathSegment_TotalLen seg) ->
    @wire_wf _ (BGPASPathSegment_Wire (ASSize peer)) seg ->
    PrependASPathSegment pa seg = Ok pa' -> attr_update peer pa pa'
| upd_append_segment pa seg pa' :
    fits pa (BGPASPathSegment_TotalLen seg) ->
    @wire_wf _ (BGPASPathSegment_Wire (ASSize peer)) seg ->
    AppendASPathSegment pa seg = Ok pa' -> attr_update peer pa pa'
| upd_add_segment pa seg pa' :
    fits pa (BGPASPathSegmentLen (as4_base seg)) -> @wire_wf _ BGPAS4PathSegment_Wire seg ->
    AddASPathSegment pa seg = Ok pa' -> attr_update peer pa pa'
| upd_prepend_id pa id pa' :
    fits pa 4 -> is_u32 id -> PrependId pa id = Ok pa' -> attr_update peer pa pa'
| upd_reach_nlri pa b afi safi nh r v n pa' :
    pa = PAMPReachNLRI b afi safi nh r v ->
    fits pa (NLRI_Len n) -> nlri_wf (AddPathsRxActual peer) afi n ->
    MPReachNLRI_AddNLRI pa n = Ok pa' -> attr_update peer pa pa'
| upd_unreach_nlri pa b afi safi v n pa' :
    pa = PAMPUnreachNLRI b afi safi v ->
    fits pa (NLRI_Len n) -> nlri_wf (AddPathsRxActual peer) afi n ->
    MPUnreachNLRI_AddNLRI pa n = Ok pa' -> attr_update peer pa pa'.

Lemma add_Length_eq b n :
  0 <= n -> 0 <= pa_Length b -> pa_Length b + n <= (if ext_len b then 65531 else 255) ->
  add_Length b n = mkBase (Flags b) (Code b) (pa_Length b + n) (BGPPathAttrLen b).
Proof. intros ? ? H. unfold add_Length. f_equal. destruct (ext_len b); zlia. Qed.

(** The codes whose length the decoder does not prescribe. *)
Lemma add_Length_wf b n :
  base_wf b -> assocZ BGPPathAttrTypeLenMap (Code b) = None -> 0 <= n ->
  pa_Length b + n <= (if ext_len b then 65531 else 255) ->
  base_wf (add_Length b n) /\ pa_Length (add_Length b n) = pa_Length b + n /\
  Code (add_Length b n) = Code b.
Proof.
  intros (Hf & Hc & Hl & He & Hok) Hm Hn Hfit. rewrite add_Length_eq by done.
  unfold base_wf, ext_len, header_ok in *. cbn [Flags Code pa_Length BGPPathAttrLen].
  rewrite Hm in *. split_and!; try done; [lia|].
  destruct (has_bits _ _); lia.
Qed.

Lemma wire_list_app {A} `{Wire A} (xs ys : list A) :
  wire_list (xs ++ ys) = wire_list xs ++ wire_list ys.
Proof. unfold wire_list. by rewrite map_app, concat_app. Qed.

Lemma len_wire_nlri addPaths afi n :
  afi_known afi -> nlri_wf addPaths afi n ->
  len (@wire_bytes _ (NLRI_Wire addPaths afi) n) = NLRI_Len n.
Proof.
  intros Hafi Hn. pose proof (NLRI_Codec addPaths afi Hafi) as HC.
  by rewrite (codec_size (WireCodec:=HC) n Hn).
Qed.

Lemma attr_update_wf peer pa pa' :
  attr_update peer pa pa' -> attr_wf peer pa -> attr_wf peer pa' /\ GetCode pa' = GetCode pa.
Proof.
  intros Hu. unfold attr_wf, GetCode.
  destruct Hu as [pa seg pa' [Hn Hfit] Hs Hop | pa seg pa' [Hn Hfit] Hs Hop | pa seg pa' [Hn Hfit] Hs Hop
    | pa id pa' [Hn Hfit] Hs Hop | pa b afi safi nh r v n pa' -> [Hn Hfit] Hs Hop
    | pa b afi safi v n pa' -> [Hn Hfit] Hs Hop]; intros (Hb & Hl & Hv).
  - destruct pa; try done. cbn [PrependASPathSegment] in Hop.
    rewrite insert_front_eq in Hop by done. res_simpl. injection Hop as <-.
    destruct Hv as (Hc & -> & Hv). cbn [pa_base attr_body attr_value_wf] in *.
    destruct (add_Length_wf b _ Hb ltac:(by rewrite Hc) Hn Hfit) as (Hb' & Hl' & Hc').
    split_and!; try done; [|by constructor]. rewrite Hl', Hl.
    change ([seg] ++ v) with (seg :: v). rewrite wire_list_cons. len_simpl.
    rewrite (seg_wire_size (ASSize peer)) by done. lia.
  - destruct pa; try done. cbn [AppendASPathSegment] in Hop. injection Hop as <-.
    destruct Hv as (Hc & -> & Hv). cbn [pa_base attr_body attr_value_wf] in *.
    destruct (add_Length_wf b _ Hb ltac:(by rewrite Hc) Hn Hfit) as (Hb' & Hl' & Hc').
    split_and!; try done; [|by apply Forall_app; split; [|constructor]].
    rewrite Hl', Hl, wire_list_app. len_simpl. rewrite (seg_wire_size (ASSize peer)) by done.
    unfold wire_list at 3. cbn [map concat]. by rewrite app_nil_r.
  - destruct pa; try done. cbn [AddASPathSegment] in Hop.
    rewrite insert_front_eq in Hop by done. res_simpl. injection Hop as <-.
    destruct Hv as (Hc & Hv). cbn [pa_base attr_body attr_value_wf] in *.
    destruct (add_Length_wf b _ Hb ltac:(by rewrite Hc) Hn Hfit) as (Hb' & Hl' & Hc').
    split_and!; try done; [|by constructor]. rewrite Hl', Hl.
    change ([seg] ++ v) with (seg :: v). rewrite wire_list_cons. len_simpl.
    pose proof (seg_wire_size 4 (Seg4 seg) Hs) as Hsz. change (BGPASPathSegment_TotalLen (Seg4 seg))
      with (BGPASPathSegmentLen (as4_base seg)) in Hsz. rewrite Hsz.
    change (@wire_bytes _ BGPAS4PathSegment_Wire seg)
      with (@wire_bytes _ (BGPASPathSegment_Wire 4) (Seg4 seg)). lia.
  - destruct pa; try done. cbn [PrependId] in Hop.
    rewrite insert_front_eq in Hop by done. res_simpl. injection Hop as <-.
    destruct Hv as (Hc & Hv). cbn [pa_base attr_body attr_value_wf] in *.
    destruct (add_Length_wf b _ Hb ltac:(by rewrite Hc) Hn Hfit) as (Hb' & Hl' & Hc').
    split_and!; try done; [|by constructor]. rewrite Hl', Hl.
    rewrite !(len_words be32 4) by done. len_simpl. lia.
  - cbn [MPReachNLRI_AddNLRI] in Hop. injection Hop as <-.
    destruct Hv as (Hc & Hafi & Hsafi & Hnh & -> & Hv). cbn [pa_base attr_body attr_value_wf] in *.
    replace (u16 (NLRI_Len n)) with (NLRI_Len n) by (pose proof (NLRI_Len_range n); zlia).
    destruct (add_Length_wf b _ Hb ltac:(by rewrite Hc) Hn Hfit) as (Hb' & Hl' & Hc').
    destruct nh as [nh|]; [|done].
    split_and!; try done; [|by apply Forall_app; split; [|constructor]].
    rewrite Hl', Hl, wire_list_app. len_simpl.
    rewrite <- (len_wire_nlri (AddPathsRxActual peer) afi n Hafi Hs).
    unfold wire_list at 3. cbn [map concat]. rewrite app_nil_r. lia.
  - cbn [MPUnreachNLRI_AddNLRI] in Hop. injection Hop as <-.
    destruct Hv as (Hc & Hafi & Hsafi & Hv). cbn [pa_base attr_body attr_value_wf] in *.
    replace (u16 (NLRI_Len n)) with (NLRI_Len n) by (pose proof (NLRI_Len_range n); zlia).
    destruct (add_Length_wf b _ Hb ltac:(by rewrite Hc) Hn Hfit) as (Hb' & Hl' & Hc').
    split_and!; try done; [|by apply Forall_app; split; [|constructor]].
    rewrite Hl', Hl, wire_list_app. len_simpl.
    rewrite <- (len_wire_nlri (AddPathsRxActual peer) afi n Hafi Hs).
    unfold wire_list at 3. cbn [map concat]. rewrite app_nil_r. lia.
Qed.

Lemma rtc_attr_update_wf peer pa pa' :
  rtc (attr_update peer) pa pa' -> attr_wf peer pa ->
  attr_wf peer pa' /\ GetCode pa' = GetCode pa.
Proof.
  induction 1 as [pa|pa pa1 pa' Hu _ IH]; [done|]. intros Hwf.
  destruct (attr_update_wf _ _ _ Hu Hwf) as [Hwf1 <-]. by apply IH.
Qed.

(** changing a path attribute keeps it encodable. From a well-formed
    attribute, any sequence of calls of the methods that add to it (prepending or
    appending an AS path segment, adding an AS4_PATH segment, prepending a
    cluster id, adding a reachable or withdrawn prefix), each with an argument
    that has a wire form and room left in the length field, yields a
    well-formed attribute of the same code, which encodes in [TotalLen] octets
    and decodes to itself. *)
Theorem path_attr_updates peer pa pa' rest :
  attr_wf peer pa -> rtc (attr_update peer) pa pa' -> len rest < 65536 ->
  attr_wf peer pa' /\ GetCode pa' = GetCode pa /\
  exists w, BGPPathAttr_Encode pa' = Ok w /\ len w = TotalLen pa' /\
    BGPGetPathAttr_Decode peer (w ++ rest) = Ok pa'.
Proof.
  intros Hwf Hu Hrest. destruct (rtc_attr_update_wf _ _ _ Hu Hwf) as [Hwf' Hc].
  split_and!; [done|done|]. exists (base_hdr (pa_base pa') ++ attr_body peer pa'). split_and!.
  - by apply attr_encode_ok.
  - by apply attr_wf_TotalLen.
  - rewrite <- app_assoc. by apply attr_decode_ok.
Qed.

Lemma path_attr_updates_witness :
  let b := mkBase 128 10 0 3 in
  let pa' := PAClusterList (mkBase 128 10 8 3) [2; 1] in
  attr_wf example_peer pa' /\ GetCode pa' = GetCode (PAClusterList b []) /\
  exists w, BGPPathAttr_Encode pa' = Ok w /\ len w = TotalLen pa' /\
    BGPGetPathAttr_Decode example_peer (w ++ [5]) = Ok pa'.
Proof.
  apply (path_attr_updates example_peer (PAClusterList (mkBase 128 10 0 3) [])
    (PAClusterList (mkBase 128 10 8 3) [2; 1]) [5]); [ground| |done].
  eapply rtc_l; [apply (upd_prepend_id _ _ 1 (PAClusterList (mkBase 128 10 4 3) [1])); ground|].
  eapply rtc_l; [eapply (upd_prepend_id _ _ 2); ground|]. apply rtc_refl.
Defined.
