(* ===== verification/BgpAttrSafety.v ===== *)
(** * Path attributes: decoding untrusted octets

    What decoding guarantees on octets no encoder wrote, where it fails to end
    or panics, and the community attributes, which it does not recognise. *)

From S2P Require Import Prelude.
From S2P Require Import BgpOpen.
From S2P Require Import BgpNlri.
From S2P Require Import BgpAsPath.
From S2P Require Import BgpAttr.
From S2P Require Import BgpAttrCodec.

(** ** AS paths that do not decode *)

Lemma decode_segments_stuck {A} (dec : bytes -> res A) (size : A -> Z) pkt stop ptr sub s :
  ptr < stop -> slice_from pkt ptr = Ok sub -> dec sub = Ok s -> size s = 0 -> is_u32 ptr ->
  forall fuel acc, decode_segments dec size fuel pkt stop ptr acc = NoFuel.
Proof.
  intros Hlt Hs Hd Hz Hp fuel. induction fuel as [|fuel IH]; intros acc; cbn [decode_segments];
    rewrite (proj2 (Z.ltb_lt ptr stop)) by done; [done|].
  rewrite Hs. res_simpl. rewrite Hd, Hz, Z.add_0_r.
  replace (u32 ptr) with ptr by zlia. rewrite (proj2 (Z.ltb_ge _ _)) by lia. apply IH.
Qed.

(** a legal AS_PATH hangs the decoder. When the peer is decoded with
    two-octet AS numbers, an AS_PATH attribute whose first segment holds 127 (or
    255) AS numbers is never decoded: the octet arithmetic
    [uint16(ps.Length*2 + 2)] gives the segment the length 0, the loop of
    [BGPPathAttrASPath.Decode] stays at its first octet and reads it again for
    ever. *)
Theorem as_path_decode_hangs asSize b t vs tail rest fuel :
  base_wf b -> asSize <> 4 -> Forall is_u16 vs -> len vs = 127 \/ len vs = 255 ->
  pa_Length b = len ([t; len vs] ++ words be16 vs ++ tail) ->
  BGPPathAttrASPath_Decode fuel asSize
    (base_hdr b ++ ([t; len vs] ++ words be16 vs ++ tail) ++ rest) = NoFuel.
Proof.
  intros Hb Has Hvs Hn Hl. pose proof (base_wf_bounds b Hb). pose proof (len_nonneg tail).
  pose proof (seg_decode_words asSize t vs (tail ++ rest)) as Hd.
  rewrite (proj2 (Z.eqb_neq _ _)) in Hd by done. pose proof (len_nonneg (tail ++ rest)).
  destruct Hd as (s & Hd & _ & _ & Hsz & _); [done|lia|].
  unfold BGPPathAttrASPath_Decode. rewrite base_decode by done. res_simpl.
  rewrite (decode_segments_stuck _ _ _ _ _ ([t; len vs] ++ words be16 vs ++ tail ++ rest) s);
    [done| | |done| |zlia].
  - rewrite base_TotalLen by done. len_simpl. rewrite (len_words be16 2) in Hl by done. lia.
  - rewrite slice_from_value by done. by rewrite <- !app_assoc.
  - rewrite Hsz. by destruct Hn as [-> | ->].
Qed.

Lemma as_path_decode_hangs_witness :
  BGPPathAttrASPath_Decode 1000 2
    ([80; 2; 1; 0] ++ ([2; 127] ++ words be16 (repeat 7 127) ++ []) ++ []) = NoFuel.
Proof.
  apply (as_path_decode_hangs 2 (mkBase 80 2 256 4) 2 (repeat 7 127) [] []).
  - ground.
  - done.
  - ground.
  - by left.
  - done.
Defined.

(** an attribute length near 65535 crashes the decoder. The sum
    [pa.Length+pa.BGPPathAttrLen] that is compared with the octets present is
    computed in uint16, so with an extended length of 65532 or more the check
    passes on any packet of at least 4 octets, and an attribute of unknown type
    with the optional flag then panics on the slice of its value, instead of
    being reported as malformed. *)
Theorem attr_length_overflow_panics peer flags code hi lo rest :
  has_bits flags BGPPathAttrFlagExtendedLen = true ->
  has_bits flags BGPPathAttrFlagOptional = true ->
  has_bits flags BGPPathAttrFlagTransitive = true ->
  BGPPathAttrTypeUnknown <= code ->
  65532 <= hi * 256 + lo < 65536 ->
  BGPGetPathAttr_Decode peer (flags :: code :: hi :: lo :: rest) = Panic.
Proof.
  intros He Ho Ht Hc Hlen. unfold BGPGetPathAttr_Decode.
  change (index _ 1) with (Ok code). res_simpl.
  unfold BGPPathAttrTypeUnknown in Hc.
  rewrite decode_code_unknown by (cbn; unfold BGPPathAttrTypeOrigin, BGPPathAttrTypeASPath,
    BGPPathAttrTypeNextHop, BGPPathAttrTypeMultiExitDisc, BGPPathAttrTypeLocalPref,
    BGPPathAttrTypeAtomicAggregate, BGPPathAttrTypeAggregator, BGPPathAttrTypeOriginatorId,
    BGPPathAttrTypeClusterList, BGPPathAttrTypeMPReachNLRI, BGPPathAttrTypeMPUnreachNLRI,
    BGPPathAttrTypeAS4Path, BGPPathAttrTypeAS4Aggregator; lia).
  set (pkt := flags :: code :: hi :: lo :: rest). pose proof (len_nonneg rest).
  assert (len pkt = 4 + len rest) as Hpkt by (unfold pkt; len_simpl; lia).
  set (b := mkBase flags code (hi * 256 + lo) 4).
  assert (BGPPathAttrBase_Decode pkt = Ok b) as Hb.
  { unfold BGPPathAttrBase_Decode, BGPPathAttrBase_Decode_header.
    rewrite (proj2 (Z.ltb_ge _ 3)), (proj2 (Z.ltb_ge _ 4)) by lia. res_simpl.
    change (index pkt 0) with (Ok flags). change (index pkt 1) with (Ok code). res_simpl.
    rewrite He. assert (slice pkt 2 4 = Ok [hi; lo]) as ->
      by exact (slice_app [flags; code] [hi; lo] rest 2 4 eq_refl eq_refl). res_simpl.
    change (Uint16 [hi; lo]) with (Ok (hi * 256 + lo)). res_simpl.
    cbn [pa_Length BGPPathAttrLen Code]. rewrite (proj2 (Z.ltb_ge _ (u16 _))) by zlia. res_simpl.
    rewrite (assocZ_above BGPPathAttrTypeFlagsMap 19 code), (assocZ_above BGPPathAttrTypeLenMap 19 code)
      by done. res_simpl. unfold BGPPathAttrBase_checkFlags. cbn [Flags]. rewrite Ho, Ht. cbn [negb andb].
    by destruct (has_bits flags BGPPathAttrFlagPartial). }
  unfold BGPPathAttrUnknown_Decode. rewrite Hb. res_simpl. unfold attr_value, slice.
  cbn [pa_Length BGPPathAttrLen b]. rewrite (proj2 (Z.leb_gt 4 (u16 _))) by zlia. done.
Qed.

Lemma attr_length_overflow_panics_witness :
  BGPGetPathAttr_Decode example_peer (208 :: 99 :: 255 :: 255 :: [1; 2]) = Panic.
Proof. apply (attr_length_overflow_panics example_peer 208 99 255 255 [1; 2]); done. Defined.

(** ** What decoding a single attribute guarantees *)

Definition header_read (b : BGPPathAttrBase) : Prop :=
  is_u8 (Code b) /\ is_u16 (pa_Length b) /\
  ((BGPPathAttrLen b = 4) \/ (BGPPathAttrLen b = 3 /\ pa_Length b <= 255)).

Lemma decode_header_safe pkt :
  is_bytes pkt ->
  safe (BGPPathAttrBase_Decode_header pkt) (fun b => header_read b /\ BGPPathAttrLen b <= len pkt /\
    index pkt 1 = Ok (Code b)).
Proof.
  intros Hp. unfold BGPPathAttrBase_Decode_header.
  destruct (len pkt <? 3) eqn:E3; res_simpl; [done|]. apply Z.ltb_ge in E3.
  destruct (index_bytes pkt 0 Hp) as (f & -> & Hf); [lia|]. res_simpl.
  destruct (index_bytes pkt 1 Hp) as (c & -> & Hc); [lia|]. res_simpl.
  destruct (has_bits f BGPPathAttrFlagExtendedLen).
  - destruct (len pkt <? 4) eqn:E4; res_simpl; [done|]. apply Z.ltb_ge in E4.
    rewrite slice_range by lia. res_simpl.
    set (s := take _ _). assert (is_bytes s) as Hs by (unfold s; auto with slices).
    destruct (Uint16_ok s) as [v Hv]; [unfold s; rewrite len_take_drop; lia|].
    rewrite Hv. res_simpl. unfold header_read. cbn.
    pose proof (Uint16_range s v Hs Hv). split_and!; done || auto.
  - destruct (index_bytes pkt 2 Hp) as (l & -> & Hl); [lia|]. res_simpl.
    unfold header_read. cbn. split_and!; try done; [zlia|right; split; [done|zlia]].
Qed.

(** The error paths do not panic when the attribute is within the packet. *)
Lemma attr_error_safe {A} b sub pkt (P : A -> Prop) :
  0 <= BGPPathAttrBase_TotalLen b <= len pkt -> safe (attr_error b sub pkt) P.
Proof. intros H. unfold attr_error. rewrite slice_range by lia. done. Qed.

Lemma header_read_TotalLen b :
  header_read b -> pa_Length b <= 65531 ->
  BGPPathAttrBase_TotalLen b = pa_Length b + BGPPathAttrLen b /\
  u16 (pa_Length b + BGPPathAttrLen b) = pa_Length b + BGPPathAttrLen b.
Proof. intros (_ & Hl & H) Hle. unfold BGPPathAttrBase_TotalLen. zlia. Qed.

(** Decoding the header of an attribute whose length does not overflow. *)
Lemma base_decode_safe pkt :
  is_bytes pkt ->
  (forall b, BGPPathAttrBase_Decode_header pkt = Ok b -> pa_Length b <= 65531) ->
  safe (BGPPathAttrBase_Decode pkt) (fun b =>
    BGPPathAttrBase_Decode_header pkt = Ok b /\ header_read b /\ header_ok b = true /\
    pa_Length b <= 65531 /\ pa_Length b + BGPPathAttrLen b <= len pkt).
Proof.
  intros Hp Hlim. unfold BGPPathAttrBase_Decode.
  eapply safe_bind; [by apply decode_header_safe|]. intros b Hb (Hr & _ & _).
  specialize (Hlim b Hb). destruct (header_read_TotalLen b Hr Hlim) as [Ht Hu]. rewrite Hu.
  destruct (len pkt <? _) eqn:E; res_simpl; [done|]. apply Z.ltb_ge in E.
  assert (0 <= BGPPathAttrBase_TotalLen b <= len pkt) as Hin by (destruct Hr as (_ & ? & ?); zlia).
  assert (forall c (P : unit -> Prop) sub, (c = false -> P tt) ->
    safe (if c then attr_error b sub pkt else Ok tt) P) as Hchk.
  { intros [] P sub HP; [by apply attr_error_safe|by apply HP]. }
  eapply (safe_bind _ _ (fun _ => match assocZ BGPPathAttrTypeFlagsMap (Code b) with
    | Some (val, mask) => negb (has_bits (Z.lxor val (Flags b)) mask) | None => true end = true)).
  { destruct (assocZ BGPPathAttrTypeFlagsMap (Code b)) as [[val mask]|]; [|done].
    apply Hchk. by intros ->. }
  intros [] _ H1.
  eapply (safe_bind _ _ (fun _ => (has_bits (Flags b) BGPPathAttrFlagOptional
      || has_bits (Flags b) BGPPathAttrFlagTransitive) &&
      (negb (has_bits (Flags b) BGPPathAttrFlagPartial) ||
       (has_bits (Flags b) BGPPathAttrFlagOptional && has_bits (Flags b) BGPPathAttrFlagTransitive))
      = true)).
  { unfold BGPPathAttrBase_checkFlags.
    destruct (has_bits (Flags b) BGPPathAttrFlagOptional),
      (has_bits (Flags b) BGPPathAttrFlagTransitive),
      (has_bits (Flags b) BGPPathAttrFlagPartial); cbn [negb andb orb];
      first [done | by apply attr_error_safe]. }
  intros [] _ H2.
  eapply (safe_bind _ _ (fun _ => match assocZ BGPPathAttrTypeLenMap (Code b) with
    | Some l => l =? pa_Length b | None => true end = true)).
  { destruct (assocZ BGPPathAttrTypeLenMap (Code b)) as [l|]; [|done].
    apply Hchk. by intros H%negb_false_iff. }
  intros [] _ H3.
  eapply (safe_bind _ _ (fun _ => (has_bits (Flags b) BGPPathAttrFlagOptional
    || (Code b <? BGPPathAttrTypeUnknown)) = true)).
  { apply Hchk. rewrite Z.leb_antisym. destruct (has_bits (Flags b) BGPPathAttrFlagOptional); [done|].
    cbn. by intros ->%negb_false_iff. }
  intros [] _ H4. cbn [safe]. split_and!; try done.
  unfold header_ok. rewrite H1, H3, H4. cbn [andb]. by rewrite H2.
Qed.

Lemma decode_segments_safe {A} (dec : bytes -> res A) (size : A -> Z) fuel pkt stop ptr acc :
  (forall s, is_bytes s -> safe (dec s) (fun seg => 2 <= size seg <= 65535)) ->
  is_bytes pkt -> 0 <= ptr -> stop <= len pkt -> stop < 131072 -> stop - ptr <= Z.of_nat fuel ->
  safe (decode_segments dec size fuel pkt stop ptr acc) (fun _ => True).
Proof.
  intros Hdec Hp. revert ptr acc. induction fuel as [|fuel IH]; intros ptr acc Hptr Hstop Hs Hf;
    cbn [decode_segments]; destruct (ptr <? stop) eqn:E; try lia;
    try (by destruct (negb (ptr =? stop))).
  apply Z.ltb_lt in E. rewrite slice_from_range by lia. res_simpl.
  specialize (Hdec (drop (Z.to_nat ptr) pkt) ltac:(auto with slices)).
  destruct (dec _) as [seg|e| |]; cbn [safe] in Hdec; try done.
  destruct (stop <? u32 (ptr + size seg)) eqn:E'; res_simpl; [done|].
  apply IH; zlia.
Qed.

Lemma AS4_decode_safe s :
  is_bytes s -> safe (BGPAS4PathSegment_Decode s)
    (fun seg => 2 <= BGPASPathSegmentLen (as4_base seg) <= 65535).
Proof.
  intros Hs. unfold BGPAS4PathSegment_Decode, BGPASPathSegmentBase_Decode.
  destruct (len s <=? 2) eqn:E; res_simpl; [done|]. apply Z.leb_gt in E.
  destruct (index_bytes s 0 Hs) as (t & -> & Ht); [lia|]. res_simpl.
  destruct (index_bytes s 1 Hs) as (l & -> & Hl); [lia|]. res_simpl.
  destruct (len s - 2 <? l * 4) eqn:E2; res_simpl; [done|]. apply Z.ltb_ge in E2.
  eapply safe_bind; [apply read_all_safe|].
  - intros j Hj. rewrite slice_from_range by zlia. res_simpl.
    destruct (Uint32_safe (drop (Z.to_nat (j * 4 + 2)) s)) as [v ->]; [|done].
    rewrite len_drop_range by zlia. zlia.
  - intros AS _ _. cbn [safe as4_base BGPASPathSegmentLen]. unfold decoded_segment_len. zlia.
Qed.

(** What the checks on a header leave of an attribute in a packet. *)
Definition attr_in (pkt : bytes) (pa : BGPPathAttr) : Prop :=
  index pkt 1 = Ok (GetCode pa) /\ header_ok (pa_base pa) = true /\ 3 <= TotalLen pa <= len pkt.

(** The value of an attribute whose header has been checked. *)
Lemma checked_attr pkt (k : BGPPathAttrBase -> res BGPPathAttr) :
  is_bytes pkt ->
  (forall b, BGPPathAttrBase_Decode_header pkt = Ok b -> pa_Length b <= 65531) ->
  (forall b, header_read b -> header_ok b = true -> pa_Length b <= 65531 ->
     pa_Length b + BGPPathAttrLen b <= len pkt -> index pkt 1 = Ok (Code b) ->
     safe (k b) (fun pa => pa_base pa = b)) ->
  safe (b ← BGPPathAttrBase_Decode pkt; k b) (attr_in pkt).
Proof.
  intros Hp Hlim Hk. eapply safe_bind; [by apply base_decode_safe|].
  intros b _ (Hh & Hr & Hok & Hl & Hin).
  pose proof (decode_header_safe pkt Hp) as Hs. rewrite Hh in Hs. destruct Hs as (_ & _ & Hc).
  eapply safe_mono; [by apply Hk|]. intros pa <-. unfold attr_in, GetCode, TotalLen.
  destruct (header_read_TotalLen _ Hr Hl) as [-> _].
  split_and!; try done. destruct Hr as (_ & ? & ?). zlia.
Qed.

Lemma attr_value_safe b pkt :
  header_read b -> pa_Length b <= 65531 -> pa_Length b + BGPPathAttrLen b <= len pkt ->
  exists s, attr_value b pkt = Ok s /\ len s = pa_Length b.
Proof.
  intros Hr Hl Hin. destruct (header_read_TotalLen b Hr Hl) as [_ Hu].
  destruct Hr as (_ & Hr & Hx). unfold attr_value. rewrite Z.add_comm, Hu.
  rewrite slice_range by zlia. eexists. split; [done|]. rewrite len_take_drop by zlia. lia.
Qed.

(** The lengths [BGPPathAttrTypeLenMap] prescribes. *)
Lemma header_ok_length b l :
  header_ok b = true -> assocZ BGPPathAttrTypeLenMap (Code b) = Some l -> pa_Length b = l.
Proof.
  unfold header_ok. rewrite !andb_true_iff. intros ((_ & H) & _) Hl. rewrite Hl in H. lia.
Qed.

Lemma value32_safe b pkt (f : Z -> BGPPathAttr) :
  header_read b -> pa_Length b <= 65531 -> pa_Length b + BGPPathAttrLen b <= len pkt ->
  pa_Length b = 4 -> (forall v, pa_base (f v) = b) ->
  safe (s ← attr_value b pkt; v ← Uint32 s; Ok (f v)) (fun pa => pa_base pa = b).
Proof.
  intros Hr Hl Hin H4 Hf. destruct (attr_value_safe b pkt Hr Hl Hin) as (s & -> & Hs). res_simpl.
  destruct (Uint32_safe s) as [v ->]; [lia|]. apply Hf.
Qed.

Section Safe.
Context (pkt : bytes) (Hp : is_bytes pkt).
Context (Hlim : forall b, BGPPathAttrBase_Decode_header pkt = Ok b -> pa_Length b <= 65531).

Lemma origin_safe :
  index pkt 1 = Ok BGPPathAttrTypeOrigin -> safe (BGPPathAttrOrigin_Decode pkt) (attr_in pkt).
Proof using Hp Hlim.
  intros Hcode. apply checked_attr; [done|done|]. intros b Hr Hok Hl Hin Hc.
  assert (pa_Length b = 1) as H1.
  { eapply header_ok_length; [done|]. rewrite Hcode in Hc. by injection Hc as <-. }
  destruct (header_read_TotalLen b Hr Hl) as [Ht _]. destruct Hr as (_ & _ & Hx).
  destruct (index_bytes pkt (BGPPathAttrLen b) Hp) as (v & -> & Hv); [lia|]. res_simpl.
  destruct (_ <=? v); [|done]. apply attr_error_safe. lia.
Qed.

Lemma as_path_safe : safe (BGPPathAttrASPath_Decode (S (length pkt)) 4 pkt) (attr_in pkt).
Proof using Hp Hlim.
  apply checked_attr; [done|done|]. intros b Hr Hok Hl Hin _.
  destruct (header_read_TotalLen b Hr Hl) as [Ht _]. destruct Hr as (_ & ? & Hx).
  eapply safe_bind; [|by intros].
  apply decode_segments_safe; try done; try (unfold len in *; zlia).
  intros s Hs. unfold BGPASPathSegment_Decode. cbn [Z.eqb Pos.eqb].
  eapply safe_bind; [by apply AS4_decode_safe|]. by intros.
Qed.

Lemma as4_path_safe : safe (BGPPathAttrAS4Path_Decode (S (length pkt)) pkt) (attr_in pkt).
Proof using Hp Hlim.
  apply checked_attr; [done|done|]. intros b Hr Hok Hl Hin _.
  destruct (header_read_TotalLen b Hr Hl) as [Ht _]. destruct Hr as (_ & ? & Hx).
  eapply safe_bind; [|by intros].
  apply decode_segments_safe; try done; try (unfold len in *; zlia).
  intros s Hs. by apply AS4_decode_safe.
Qed.

Lemma aggregator_safe asSize :
  asSize = 2 \/ asSize = 4 -> safe (BGPPathAttrAggregator_Decode asSize pkt) (attr_in pkt).
Proof using Hp Hlim.
  intros Has. apply checked_attr; [done|done|]. intros b Hr Hok Hl Hin _.
  destruct (header_read_TotalLen b Hr Hl) as [Ht _]. destruct Hr as (_ & ? & Hx).
  destruct (pa_Length b <? u8 (asSize + 4)) eqn:E.
  { res_simpl. eapply safe_bind; [apply (attr_error_safe _ _ _ (fun _ => False)); zlia|done]. }
  apply Z.ltb_ge in E. res_simpl. rewrite slice_from_range by zlia. res_simpl.
  pose proof (len_drop_range pkt (BGPPathAttrLen b) ltac:(zlia)) as Hd.
  destruct Has as [-> | ->]; cbn [Z.eqb Pos.eqb].
  - unfold BGPAggregator2ByteAS_Decode. rewrite (proj2 (Z.ltb_ge _ 2)) by zlia. res_simpl.
    destruct (Uint16_ok (drop (Z.to_nat (BGPPathAttrLen b)) pkt)) as [v ->]; [zlia|]. res_simpl.
    cbn [BGPAggregatorAS_GetLen]. rewrite slice_from_range by zlia. done.
  - unfold BGPAggregator4ByteAS_Decode. rewrite slice_range by zlia. res_simpl.
    rewrite drop_0. destruct (Uint32_safe (take (Z.to_nat (4 - 0)) (drop (Z.to_nat (BGPPathAttrLen b)) pkt)))
      as [v ->]; [rewrite len_take by zlia; lia|]. res_simpl.
    cbn [BGPAggregatorAS_GetLen]. rewrite slice_from_range by zlia. done.
Qed.

Lemma as4_aggregator_safe :
  index pkt 1 = Ok BGPPathAttrTypeAS4Aggregator ->
  safe (BGPPathAttrAS4Aggregator_Decode pkt) (attr_in pkt).
Proof using Hp Hlim.
  intros Hcode. apply checked_attr; [done|done|]. intros b Hr Hok Hl Hin Hc.
  assert (pa_Length b = 8) as H8.
  { eapply header_ok_length; [done|]. rewrite Hcode in Hc. by injection Hc as <-. }
  destruct Hr as (_ & ? & Hx). rewrite (slice_from_range pkt (BGPPathAttrLen b)) by zlia. res_simpl.
  pose proof (len_drop_range pkt (BGPPathAttrLen b) ltac:(zlia)) as Hd.
  unfold BGPAggregator4ByteAS_Decode. rewrite slice_range by zlia. res_simpl.
  rewrite drop_0. destruct (Uint32_safe (take (Z.to_nat (4 - 0)) (drop (Z.to_nat (BGPPathAttrLen b)) pkt)))
    as [v ->]; [rewrite len_take by zlia; lia|]. res_simpl.
  rewrite slice_from_range by zlia. done.
Qed.

Lemma cluster_list_safe : safe (BGPPathAttrClusterList_Decode pkt) (attr_in pkt).
Proof using Hp Hlim.
  apply checked_attr; [done|done|]. intros b Hr Hok Hl Hin _.
  destruct Hr as (_ & ? & Hx).
  eapply safe_bind; [apply read_all_safe|by intros].
  intros j Hj. cbn zeta. rewrite slice_range by zlia. res_simpl.
  edestruct Uint32_safe as [v Hv]; [|rewrite Hv; done].
  rewrite len_take_drop by zlia. zlia.
Qed.
End Safe.

(** decoding one path attribute neither panics nor loops, on any octets.
    This holds of every attribute type but the two MP attributes, when the
    announced length does not overflow the 16-bit sum and when AS paths are read
    with four-octet AS numbers. A successful decode has passed the header checks
    and stays within the packet, so the loop over the attributes advances by at
    least three octets and never past the end. *)
Theorem attr_decode_safe peer pkt :
  is_bytes pkt -> 2 <= len pkt -> ASSize peer = 2 \/ ASSize peer = 4 ->
  (forall b, BGPPathAttrBase_Decode_header pkt = Ok b -> pa_Length b <= 65531) ->
  index pkt 1 <> Ok BGPPathAttrTypeMPReachNLRI -> index pkt 1 <> Ok BGPPathAttrTypeMPUnreachNLRI ->
  (index pkt 1 = Ok BGPPathAttrTypeASPath -> ASSize peer = 4) ->
  match BGPGetPathAttr_Decode peer pkt with
  | Ok pa => attr_in pkt pa
  | Err _ => True
  | Panic | NoFuel => False
  end.
Proof.
  intros Hp H2 Has Hlim Hreach Hunreach Hpath.
  change (safe (BGPGetPathAttr_Decode peer pkt) (attr_in pkt)).
  destruct (index_bytes pkt 1 Hp) as (code & Hcode & _); [lia|]. unfold BGPGetPathAttr_Decode.
  rewrite Hcode in *. res_simpl. unfold BGPPathAttr_Decode_code.
  destruct (Z.eqb_spec code BGPPathAttrTypeOrigin) as [->|_]; [by apply origin_safe|].
  destruct (Z.eqb_spec code BGPPathAttrTypeASPath) as [->|_].
  { rewrite Hpath by done. by apply as_path_safe. }
  destruct (Z.eqb_spec code BGPPathAttrTypeNextHop) as [->|_].
  { apply checked_attr; [done|done|]. intros b Hr Hok Hl Hin _.
    by destruct (attr_value_safe b pkt Hr Hl Hin) as (s & -> & _). }
  destruct (Z.eqb_spec code BGPPathAttrTypeMultiExitDisc) as [->|_].
  { apply checked_attr; [done|done|]. intros b Hr Hok Hl Hin Hc.
    apply (value32_safe b pkt (PAMultiExitDisc b)); try done.
    eapply header_ok_length; [done|]. rewrite Hcode in Hc. by injection Hc as <-. }
  destruct (Z.eqb_spec code BGPPathAttrTypeLocalPref) as [->|_].
  { apply checked_attr; [done|done|]. intros b Hr Hok Hl Hin Hc.
    apply (value32_safe b pkt (PALocalPref b)); try done.
    eapply header_ok_length; [done|]. rewrite Hcode in Hc. by injection Hc as <-. }
  destruct (Z.eqb_spec code BGPPathAttrTypeAtomicAggregate) as [->|_].
  { by apply checked_attr. }
  destruct (Z.eqb_spec code BGPPathAttrTypeAggregator) as [->|_].
  { by apply aggregator_safe. }
  destruct (Z.eqb_spec code BGPPathAttrTypeOriginatorId) as [->|_].
  { apply checked_attr; [done|done|]. intros b Hr Hok Hl Hin _.
    by destruct (attr_value_safe b pkt Hr Hl Hin) as (s & -> & _). }
  destruct (Z.eqb_spec code BGPPathAttrTypeClusterList) as [->|_]; [by apply cluster_list_safe|].
  destruct (Z.eqb_spec code BGPPathAttrTypeMPReachNLRI) as [->|_]; [done|].
  destruct (Z.eqb_spec code BGPPathAttrTypeMPUnreachNLRI) as [->|_]; [done|].
  destruct (Z.eqb_spec code BGPPathAttrTypeAS4Path) as [->|_]; [by apply as4_path_safe|].
  destruct (Z.eqb_spec code BGPPathAttrTypeAS4Aggregator) as [->|_].
  { by apply as4_aggregator_safe. }
  apply checked_attr; [done|done|]. intros b Hr Hok Hl Hin _.
  by destruct (attr_value_safe b pkt Hr Hl Hin) as (s & -> & _).
Qed.

Lemma attr_decode_safe_witness :
  let pkt := [64; 99; 5; 1; 2] in
  match BGPGetPathAttr_Decode example_peer pkt with
  | Ok pa => attr_in pkt pa
  | Err _ => True
  | Panic | NoFuel => False
  end.
Proof.
  apply (attr_decode_safe example_peer [64; 99; 5; 1; 2]); try done.
  - ground.
  - by right.
  - intros b Hb. injection Hb as <-. done.
Defined.

(** ** Communities *)

(** The counters and flags of a community attribute agree with its values. *)
Definition comm_wf (pa : BGPPathAttr) : Prop :=
  base_wf (pa_base pa) /\
  match pa with
  | PACommunity b v => Code b = BGPPathAttrTypeCommunity /\ pa_Length b = 4 * len v /\ Forall is_u32 v
  | PAExtCommunity b v =>
    Code b = BGPPathAttrTypeExtCommunity /\ pa_Length b = 8 * len v /\ Forall is_u64 v
  | _ => False
  end.

Definition comm_bytes (pa : BGPPathAttr) : bytes :=
  match pa with
  | PACommunity b v => words be32 v
  | PAExtCommunity b v => words be64 v
  | _ => []
  end.

(** [Decode] of the attribute's own type. *)
Definition comm_decode (pa : BGPPathAttr) (pkt : bytes) : res BGPPathAttr :=
  match pa with
  | PAExtCommunity _ _ => BGPPathAttrExtCommunity_Decode pkt
  | _ => BGPPathAttrCommunity_Decode pkt
  end.

Lemma comm_len pa : comm_wf pa -> len (comm_bytes pa) = pa_Length (pa_base pa).
Proof.
  intros [_ H]. destruct pa; try done; destruct H as (_ & Hl & _);
    cbn [comm_bytes pa_base]; [rewrite (len_words be32 4)|rewrite (len_words be64 8)]; done || lia.
Qed.

Lemma comm_encode pa : comm_wf pa -> BGPPathAttr_Encode pa = Ok (base_hdr (pa_base pa) ++ comm_bytes pa).
Proof.
  intros Hwf. pose proof (comm_len pa Hwf) as Hl. destruct Hwf as [Hb H].
  destruct pa; try done; cbn [pa_base comm_bytes BGPPathAttr_Encode] in *.
  - unfold BGPPathAttrCommunity_Encode. rewrite base_encode by done. res_simpl.
    apply (words_value_ok b Hb _ be32 4 (fun i => i * 4 + BGPPathAttrLen b));
      [done|intros; by apply PutUint32_zeros|intros; lia|done].
  - unfold BGPPathAttrExtCommunity_Encode. rewrite base_encode by done. res_simpl.
    apply (words_value_ok b Hb _ be64 8 (fun i => i * 8 + BGPPathAttrLen b));
      [done|intros; by apply PutUint64_zeros|intros; lia|done].
Qed.

Lemma comm_decode_ok pa rest :
  comm_wf pa -> comm_decode pa (base_hdr (pa_base pa) ++ comm_bytes pa ++ rest) = Ok pa.
Proof.
  intros Hwf. pose proof (comm_len pa Hwf) as Hlen. destruct Hwf as [Hb H].
  destruct pa; try done; cbn [pa_base comm_bytes comm_decode] in *; destruct H as (Hc & Hl & Hv).
  - unfold BGPPathAttrCommunity_Decode. rewrite base_decode by done. res_simpl.
    rewrite (proj2 (Z.eqb_eq _ 0)) by zlia. cbn [negb]. res_simpl.
    set (pkt := base_hdr b ++ words be32 v ++ rest).
    replace (Z.to_nat (pa_Length b / 4)) with (length v) by (unfold len in Hl; zlia).
    rewrite (read_all_words _ be32 4 (fun i => i * 4 + BGPPathAttrLen b) is_u32
      (len (base_hdr b) + 4 * len v) pkt (base_hdr b) v rest 0);
      [done|done| |intros; rewrite len_base_hdr by done; lia|done|lia|done].
    intros j x pre post Hx -> Hoff _. rewrite slice_from_app by done. res_simpl.
    by rewrite Uint32_be32.
  - unfold BGPPathAttrExtCommunity_Decode. rewrite base_decode by done. res_simpl.
    rewrite (proj2 (Z.eqb_eq _ 0)) by zlia. cbn [negb]. res_simpl.
    set (pkt := base_hdr b ++ words be64 v ++ rest).
    replace (Z.to_nat (pa_Length b / 8)) with (length v) by (unfold len in Hl; zlia).
    rewrite (read_all_words _ be64 8 (fun i => i * 8 + BGPPathAttrLen b) is_u64
      (len (base_hdr b) + 8 * len v) pkt (base_hdr b) v rest 0);
      [done|done| |intros; rewrite len_base_hdr by done; lia|done|lia|done].
    intros j x pre post Hx -> Hoff _. rewrite slice_from_app by done. res_simpl.
    by rewrite Uint64_be64.
Qed.

Lemma comm_decoded_unknown peer pa rest :
  comm_wf pa ->
  BGPGetPathAttr_Decode peer (base_hdr (pa_base pa) ++ comm_bytes pa ++ rest)
  = Ok (PAUnknown (pa_base pa) (comm_bytes pa)).
Proof.
  intros Hwf. pose proof (comm_len pa Hwf) as Hlen. destruct Hwf as [Hb H].
  unfold BGPGetPathAttr_Decode. pose proof (base_wf_bounds _ Hb).
  assert (index (base_hdr (pa_base pa) ++ comm_bytes pa ++ rest) 1 = Ok (Code (pa_base pa)))
    as -> by done. res_simpl.
  rewrite decode_code_unknown.
  2:{ destruct pa; try done; cbn [pa_base]; destruct H as (-> & _); vm_compute; intuition congruence. }
  unfold BGPPathAttrUnknown_Decode. rewrite base_decode by done. res_simpl.
  rewrite attr_value_ok by done. res_simpl. rewrite copy_all; [done|]. rewrite len_zeros; lia.
Qed.

(** a received COMMUNITY or EXTENDED COMMUNITIES attribute is not recognised.
    Both types encode to [TotalLen] octets which their own [Decode] reads back,
    but [BGPPathAttrTypeToStructMap] has neither of them, so the decoder of an
    UPDATE turns the same octets into an attribute of unknown type with the same
    header and octets. The assertion of [GetCommunityValues] and of
    [AddCommunityToPathAttrs] on it fails. *)
Theorem community_received_unknown peer pa rest value :
  comm_wf pa ->
  exists w, BGPPathAttr_Encode pa = Ok w /\ len w = TotalLen pa /\
    comm_decode pa (w ++ rest) = Ok pa /\
    exists v, BGPGetPathAttr_Decode peer (w ++ rest) = Ok (PAUnknown (pa_base pa) v) /\
      AddCommunity (PAUnknown (pa_base pa) v) value = Panic.
Proof.
  intros Hwf. exists (base_hdr (pa_base pa) ++ comm_bytes pa). rewrite <- app_assoc. split_and!.
  - by apply comm_encode.
  - pose proof (comm_len pa Hwf) as Hl. destruct Hwf as [Hb _]. unfold TotalLen.
    rewrite base_TotalLen by done. len_simpl. rewrite len_base_hdr by done. lia.
  - by apply comm_decode_ok.
  - exists (comm_bytes pa). split; [by apply comm_decoded_unknown|done].
Qed.

Definition example_community : BGPPathAttr := PACommunity (mkBase 192 8 8 3) [4259840001; 4294967041].

Lemma community_received_unknown_witness :
  exists w, BGPPathAttr_Encode example_community = Ok w /\ len w = TotalLen example_community /\
    comm_decode example_community (w ++ [1]) = Ok example_community /\
    exists v, BGPGetPathAttr_Decode example_peer (w ++ [1]) = Ok (PAUnknown (mkBase 192 8 8 3) v) /\
      AddCommunity (PAUnknown (mkBase 192 8 8 3) v) 5 = Panic.
Proof. apply (community_received_unknown example_peer example_community [1] 5). ground. Defined.

Lemma ext_flag_set f : has_bits (Z.lor f 16) BGPPathAttrFlagExtendedLen = true.
Proof.
  unfold has_bits, BGPPathAttrFlagExtendedLen. apply negb_true_iff, Z.eqb_neq. intros H.
  apply (f_equal (fun x => Z.testbit x 4)) in H. rewrite Z.land_spec, Z.lor_spec in H.
  change (Z.testbit 16 4) with true in H. by rewrite orb_true_r in H.
Qed.

Lemma ext_flag_other f m :
  Z.land 16 m = 0 -> has_bits (Z.lor f 16) m = has_bits f m.
Proof. intros H. unfold has_bits. by rewrite Z.land_lor_distr_l, H, Z.lor_0_r. Qed.

Lemma ext_flag_xor f v m :
  Z.land 16 m = 0 -> has_bits (Z.lxor v (Z.lor f 16)) m = has_bits (Z.lxor v f) m.
Proof.
  intros H. unfold has_bits. do 2 f_equal. apply Z.bits_inj'. intros n Hn.
  apply (f_equal (fun x => Z.testbit x n)) in H. rewrite Z.land_spec, Z.bits_0 in H.
  rewrite !Z.land_spec, !Z.lxor_spec, Z.lor_spec.
  destruct (Z.testbit 16 n), (Z.testbit m n); try done; by rewrite ?orb_false_r, ?andb_false_r.
Qed.

Lemma is_u8_lor16 f : is_u8 f -> is_u8 (Z.lor f 16).
Proof.
  intros Hf. split; [apply Z.lor_nonneg; zlia|]. apply Z.log2_lt_cancel.
  rewrite Z.log2_lor by zlia. change (Z.log2 256) with 8.
  apply Z.max_lub_lt; [|done]. destruct (Z.eq_dec f 0) as [->|]; [done|].
  apply Z.log2_lt_pow2; zlia.
Qed.

(** Growing the header keeps what the decoder checks. *)
Lemma grow_community_wf b n :
  base_wf b -> assocZ BGPPathAttrTypeLenMap (Code b) = None ->
  Code b = BGPPathAttrTypeCommunity \/ Code b = BGPPathAttrTypeExtCommunity ->
  0 <= n <= 8 -> pa_Length b + n <= 65531 ->
  base_wf (grow_community b n) /\ pa_Length (grow_community b n) = pa_Length b + n /\
  Code (grow_community b n) = Code b.
Proof.
  intros Hb Hm Hc Hn Hfit. pose proof Hb as (Hf & Hcode & Hl & He & Hok).
  unfold grow_community. replace (u16 (pa_Length b + n)) with (pa_Length b + n) by zlia.
  destruct ((pa_Length b <=? 255) && (255 <? pa_Length b + n)) eqn:E.
  - set (b' := mkBase (Z.lor (Flags b) BGPPathAttrFlagExtendedLen) (Code b) (pa_Length b) 4).
    assert (ext_len b' = true) as Hext by apply ext_flag_set.
    assert (base_wf b') as Hb'.
    { unfold base_wf. rewrite Hext. split_and!; try done.
      - by apply is_u8_lor16.
      - cbn. lia.
      - unfold header_ok in *. cbn [Flags Code pa_Length b']. rewrite Hm in *.
        rewrite !ext_flag_other by done.
        destruct Hc as [Hc|Hc]; rewrite Hc in *; [|done].
        change (assocZ BGPPathAttrTypeFlagsMap BGPPathAttrTypeCommunity) with (Some (192, 224)) in *.
        lazy beta iota in Hok |- *. by rewrite ext_flag_xor. }
    apply (add_Length_wf b' n Hb'); [done|lia|]. rewrite Hext. cbn. lia.
  - apply add_Length_wf; [done|done|lia|]. destruct (ext_len b); lia.
Qed.

Definition comm_values (pa : BGPPathAttr) : list Z :=
  match pa with PACommunity _ v | PAExtCommunity _ v => v | _ => [] end.

Definition comm_add (pa : BGPPathAttr) (value : Z) : res BGPPathAttr :=
  match pa with PAExtCommunity _ _ => AddExtCommunity pa value | _ => AddCommunity pa value end.

(** [AddCommunity] of both community types puts the value in front and keeps
    the attribute well-formed; in particular it sets the extended-length flag and
    counts the longer header exactly when the length passes 255 octets. *)
Theorem community_add pa value :
  comm_wf pa -> is_u32 value -> pa_Length (pa_base pa) <= 65523 ->
  exists pa', comm_add pa value = Ok pa' /\ comm_wf pa' /\
    comm_values pa' = value :: comm_values pa.
Proof.
  intros [Hb H] Hv Hfit. destruct pa; try done; destruct H as (Hc & Hl & Hvs);
    cbn [pa_base comm_add comm_values] in *.
  - cbn [AddCommunity]. rewrite insert_front_eq by done. res_simpl. eexists. split; [done|].
    destruct (grow_community_wf b 4) as (Hb' & Hl' & Hc'); [done|by rewrite Hc|auto|lia|lia|].
    split; [|done]. split; [done|]. split_and!; [congruence|len_simpl; lia|by constructor].
  - cbn [AddExtCommunity]. rewrite insert_front_eq by done. res_simpl. eexists. split; [done|].
    destruct (grow_community_wf b 8) as (Hb' & Hl' & Hc'); [done|by rewrite Hc|auto|lia|lia|].
    split; [|done]. split; [done|]. split_and!; [congruence|len_simpl; lia|constructor; [zlia|done]].
Qed.

Lemma community_add_witness :
  exists pa', comm_add example_community 77 = Ok pa' /\ comm_wf pa' /\
    comm_values pa' = 77 :: comm_values example_community.
Proof. apply (community_add example_community 77); ground. Defined.
