(* ===== verification/BgpUpdate.v ===== *)
(** * UPDATE messages

    BGPUpdate of src/bgp/packet/bgp.go: encoding and decoding of the body of an
    UPDATE, and the check that the mandatory attributes are present. *)

From S2P Require Import Prelude.
From S2P Require Import BgpOpen.
From S2P Require Import BgpNlri.
From S2P Require Import BgpAsPath.
From S2P Require Import BgpAttr.
From S2P Require Import BgpAttrCodec.
From S2P Require Import BgpAttrSafety.

(** [NLRI_] is the field NLRI. *)
Record BGPUpdate := mkBGPUpdate {
  WithdrawnRoutesLen : Z;
  WithdrawnRoutes : list NLRI;
  TotalPathAttrLen : Z;
  PathAttributes : list BGPPathAttr;
  NLRI_ : list NLRI;
}.

Definition BGPUpdate_Encode (msg : BGPUpdate) : res bytes :=
  let pkt := zeros 2 in
  pkt ← encode_items (fun route => NLRI_Encode route AfiIP) pkt (WithdrawnRoutes msg);
  let wdLen := len pkt in
  pkt ← PutUint16 pkt 0 (u16 (wdLen - 2));
  pkt ← encode_items BGPPathAttr_Encode (pkt ++ zeros 2) (PathAttributes msg);
  let paLen := len pkt - wdLen in
  pkt ← PutUint16 pkt wdLen (u16 (paLen - 2));
  encode_items (fun nlri => NLRI_Encode nlri AfiIP) pkt (NLRI_ msg).

Definition malformed {A} : res A :=
  Err (BGPMessageError BGPUpdateMsgError BGPMalformedAttrList []).

(** The loop over the attributes: each takes at least three octets, so it has
    fuel for as many turns as the packet has octets. *)
Definition decode_attrs (peer : BGPPeerAttrs) (pkt : bytes) (ptr length_ : Z)
  : res (list BGPPathAttr * Z * Z) :=
  decode_items u32 (BGPGetPathAttr_Decode peer) TotalLen (length pkt) pkt ptr length_ [].

(** An error of the withdrawn routes is replaced by the one of the attribute
    list; [headerLen] is [header.Len()]. *)
Definition BGPUpdate_Decode (peer : BGPPeerAttrs) (headerLen : Z) (pkt : bytes) : res BGPUpdate :=
  s ← slice pkt 0 2;
  wdLen ← Uint16 s;
  if headerLen <? u32 (wdLen + 23) then malformed else
  s ← slice_from pkt 2;
  '(routes, ipLen) ← match decodeNLRI (AddPathsRxActual peer) s wdLen AfiIP with
                     | Err _ => malformed
                     | r => r
                     end;
  let ptr := u32 (2 + ipLen) in
  s ← slice pkt ptr (u32 (ptr + 2));
  paLen ← Uint16 s;
  let ptr := u32 (ptr + 2) in
  if headerLen <? paLen + wdLen + 23 then malformed else
  '(pas, ptr, remaining) ← decode_attrs peer pkt ptr paLen;
  if remaining <? 0 then malformed else
  s ← slice_from pkt ptr;
  '(nlri, _) ← decodeNLRI (AddPathsRxActual peer) s (u32 (headerLen - 23 - wdLen - paLen)) AfiIP;
  Ok (mkBGPUpdate wdLen routes paLen pas nlri).

(** [found] is the map the function fills. *)
Fixpoint find_twice (found : list Z) (pas : list BGPPathAttr) : bool :=
  match pas with
  | [] => false
  | pa :: pas =>
    if existsb (Z.eqb (GetCode pa)) found then true else find_twice (GetCode pa :: found) pas
  end.

Definition BGPPathAttrWellKnownMandatory : list Z :=
  [BGPPathAttrTypeOrigin; BGPPathAttrTypeASPath; BGPPathAttrTypeNextHop].

Definition checkPathAttributes (pas : list BGPPathAttr) : res unit :=
  if find_twice [] pas then malformed else
  match List.find (fun c => negb (existsb (fun pa => GetCode pa =? c) pas))
          BGPPathAttrWellKnownMandatory with
  | Some c => Err (BGPMessageError BGPUpdateMsgError BGPMissingWellKnownAttr [c])
  | None => Ok tt
  end.

(** ** The wire format *)

Definition routes_bytes (peer : BGPPeerAttrs) (ns : list NLRI) : bytes :=
  @wire_list _ (NLRI_Wire (AddPathsRxActual peer) AfiIP) ns.

Definition update_bytes (peer : BGPPeerAttrs) (msg : BGPUpdate) : bytes :=
  let wd := routes_bytes peer (WithdrawnRoutes msg) in
  let pa := @wire_list _ (PathAttr_Wire peer) (PathAttributes msg) in
  be16 (len wd) ++ wd ++ be16 (len pa) ++ pa ++ routes_bytes peer (NLRI_ msg).

(** An UPDATE whose parts have a wire form and that fits a BGP message. *)
Definition update_wf (peer : BGPPeerAttrs) (msg : BGPUpdate) : Prop :=
  Forall (nlri_wf (AddPathsRxActual peer) AfiIP) (WithdrawnRoutes msg) /\
  Forall (attr_wf peer) (PathAttributes msg) /\
  Forall (nlri_wf (AddPathsRxActual peer) AfiIP) (NLRI_ msg) /\
  len (update_bytes peer msg) + BGPMsgHeaderLen <= 65535.

(** The message with the two length fields the decoder fills in. *)
Definition with_lengths (peer : BGPPeerAttrs) (msg : BGPUpdate) : BGPUpdate :=
  mkBGPUpdate (len (routes_bytes peer (WithdrawnRoutes msg))) (WithdrawnRoutes msg)
    (len (@wire_list _ (PathAttr_Wire peer) (PathAttributes msg))) (PathAttributes msg) (NLRI_ msg).

(** ** Lemmas *)

Lemma encode_routes peer pkt ns :
  Forall (nlri_wf (AddPathsRxActual peer) AfiIP) ns ->
  encode_items (fun n => NLRI_Encode n AfiIP) pkt ns = Ok (pkt ++ routes_bytes peer ns).
Proof.
  intros Hns. pose proof (NLRI_Codec (AddPathsRxActual peer) AfiIP ltac:(by left)) as HC.
  by apply (encode_items_wire (WireCodec0:=HC)).
Qed.

Lemma decode_routes peer ns rest :
  Forall (nlri_wf (AddPathsRxActual peer) AfiIP) ns ->
  len (routes_bytes peer ns) + len rest < 4294967296 ->
  decodeNLRI (AddPathsRxActual peer) (routes_bytes peer ns ++ rest) (len (routes_bytes peer ns)) AfiIP
  = Ok (ns, len (routes_bytes peer ns)).
Proof. intros Hns Hl. apply decodeNLRI_wire; [by left|done|]. by rewrite len_app. Qed.

Lemma encode_attrs peer pkt pas :
  Forall (attr_wf peer) pas ->
  encode_items BGPPathAttr_Encode pkt pas = Ok (pkt ++ @wire_list _ (PathAttr_Wire peer) pas).
Proof.
  intros Hpas. revert pkt. induction Hpas as [|pa pas Hpa _ IH]; intros pkt; cbn [encode_items].
  - by rewrite app_nil_r.
  - rewrite (attr_encode_ok peer) by done. res_simpl. rewrite IH, wire_list_cons. cbn [wire_bytes PathAttr_Wire]. by rewrite <- !app_assoc.
Qed.

(** A 16-bit length patched into the two octets left for it. *)
Lemma patch_len pre post v i :
  i = len pre -> PutUint16 (pre ++ zeros 2 ++ post) i v = Ok (pre ++ be16 v ++ post).
Proof.
  intros Hi. unfold PutUint16. rewrite on_suffix_app by done. unfold put.
  rewrite (proj2 (Z.leb_le _ _)) by (len_simpl; change (len (zeros 2)) with 2;
    pose proof (len_nonneg post); lia). res_simpl.
  rewrite copy_fits by (len_simpl; change (len (zeros 2)) with 2; pose proof (len_nonneg post); lia).
  done.
Qed.

Lemma update_encode_ok peer msg :
  update_wf peer msg -> BGPUpdate_Encode msg = Ok (update_bytes peer msg).
Proof.
  intros (Hwd & Hpa & Hnlri & Hlen). unfold BGPUpdate_Encode, update_bytes in *.
  set (wd := routes_bytes peer (WithdrawnRoutes msg)) in *.
  set (pa := @wire_list _ (PathAttr_Wire peer) (PathAttributes msg)) in *.
  set (nl := routes_bytes peer (NLRI_ msg)) in *. cbn zeta in Hlen. len_simpl.
  pose proof (len_nonneg wd). pose proof (len_nonneg pa). pose proof (len_nonneg nl).
  unfold BGPMsgHeaderLen in Hlen.
  rewrite (encode_routes peer) by done. res_simpl. fold wd.
  rewrite (patch_len [] wd) by done. res_simpl.
  rewrite (encode_attrs peer) by done. res_simpl. fold pa.
  assert (len (zeros 2 ++ wd) = 2 + len wd) as -> by (len_simpl; reflexivity).
  replace (u16 (2 + len wd - 2)) with (len wd) by zlia. cbn [app].
  rewrite <- app_assoc. rewrite patch_len by (len_simpl; lia). res_simpl.
  rewrite (encode_routes peer) by done. fold nl. f_equal.
  replace (u16 _) with (len pa); [by rewrite <- !app_assoc|].
  len_simpl. change (len (zeros 2)) with 2. zlia.
Qed.

Lemma attrs_fuel peer pas :
  Forall (attr_wf peer) pas ->
  (length pas <= length (@wire_list _ (PathAttr_Wire peer) pas))%nat.
Proof.
  induction 1 as [|pa pas Hpa _ IH]; [done|]. rewrite wire_list_cons, length_app.
  cbn [wire_bytes PathAttr_Wire length]. rewrite length_app. unfold base_hdr. cbn. lia.
Qed.

(** Reading the attributes back; the offset wraps at 2^32 only. *)
Lemma decode_attrs_wire peer pas pre rest fuel acc :
  Forall (attr_wf peer) pas -> (length pas <= fuel)%nat ->
  let w := @wire_list _ (PathAttr_Wire peer) pas in
  len (pre ++ w ++ rest) < 65536 ->
  decode_items u32 (BGPGetPathAttr_Decode peer) TotalLen fuel (pre ++ w ++ rest) (len pre) (len w) acc
  = Ok (acc ++ pas, len pre + len w, 0).
Proof.
  intros Hpas. revert fuel pre acc. induction Hpas as [|pa pas Hpa _ IH]; intros fuel pre acc Hfuel w Hlen;
    subst w.
  - change (wire_list []) with (@nil Z). rewrite len_nil, Z.add_0_r, app_nil_r. by destruct fuel.
  - rewrite wire_list_cons in *. cbn [wire_bytes PathAttr_Wire] in *.
    pose proof (attr_wf_TotalLen peer pa Hpa) as Ht. len_simpl.
    pose proof (len_nonneg (@wire_list _ (PathAttr_Wire peer) pas)). pose proof (len_nonneg pre).
    pose proof (len_nonneg rest). pose proof (len_nonneg (attr_body peer pa)).
    assert (3 <= len (base_hdr (pa_base pa))) as Hh.
    { destruct Hpa as (Hb & _). rewrite len_base_hdr by done.
      pose proof (base_wf_bounds _ Hb). lia. }
    destruct fuel as [|fuel]; [cbn in Hfuel; lia|]. cbn [decode_items length] in *.
    rewrite (proj2 (Z.ltb_lt _ _)) by lia.
    rewrite slice_from_app by done. res_simpl. rewrite <- !app_assoc.
    rewrite attr_decode_ok by (done || (len_simpl; lia)). res_simpl.
    replace (u32 _) with (len (pre ++ base_hdr (pa_base pa) ++ attr_body peer pa)) by (len_simpl; zlia).
    replace (_ - TotalLen pa) with (len (@wire_list _ (PathAttr_Wire peer) pas)) by lia.
    replace (pre ++ base_hdr (pa_base pa) ++ attr_body peer pa ++ @wire_list _ (PathAttr_Wire peer) pas ++ rest)
      with ((pre ++ base_hdr (pa_base pa) ++ attr_body peer pa) ++
        @wire_list _ (PathAttr_Wire peer) pas ++ rest)
      by by rewrite <- !app_assoc.
    rewrite IH by (len_simpl; lia). rewrite <- app_assoc.
    match goal with |- Ok (_, ?b, _) = Ok (_, ?d, _) => replace b with d by (len_simpl; lia) end.
    done.
Qed.

Lemma update_decode_ok peer msg :
  update_wf peer msg ->
  BGPUpdate_Decode peer (len (update_bytes peer msg) + BGPMsgHeaderLen) (update_bytes peer msg)
  = Ok (with_lengths peer msg).
Proof.
  intros (Hwd & Hpa & Hnlri & Hlen). unfold with_lengths, update_bytes in *. cbn zeta in *.
  set (wd := routes_bytes peer (WithdrawnRoutes msg)) in *.
  set (pa := @wire_list _ (PathAttr_Wire peer) (PathAttributes msg)) in *.
  set (nl := routes_bytes peer (NLRI_ msg)) in *.
  assert (len (be16 (len wd) ++ wd ++ be16 (len pa) ++ pa ++ nl) = 4 + len wd + len pa + len nl)
    as Hl by (len_simpl; lia). rewrite Hl in *.
  pose proof (len_nonneg wd). pose proof (len_nonneg pa). pose proof (len_nonneg nl).
  unfold BGPMsgHeaderLen in *. unfold BGPUpdate_Decode.
  rewrite slice_to_app by done. res_simpl.
  rewrite <- (app_nil_r (be16 (len wd))) at 1. rewrite Uint16_be16 by zlia. res_simpl.
  rewrite (proj2 (Z.ltb_ge _ (u32 _))) by zlia.
  rewrite slice_from_app by done. res_simpl.
  rewrite (decode_routes peer (WithdrawnRoutes msg)) by (done || (fold wd; len_simpl; lia)).
  fold wd. res_simpl.
  replace (u32 (2 + len wd)) with (2 + len wd) by zlia.
  replace (u32 (2 + len wd + 2)) with (4 + len wd) by zlia.
  rewrite (app_assoc (be16 (len wd))).
  rewrite slice_app by (len_simpl; lia). res_simpl.
  rewrite <- (app_nil_r (be16 (len pa))) at 1. rewrite Uint16_be16 by zlia. res_simpl.
  rewrite (proj2 (Z.ltb_ge _ (len pa + _ + 23))) by lia.
  rewrite (app_assoc (_ ++ wd)). unfold decode_attrs.
  set (pre := (be16 (len wd) ++ wd) ++ be16 (len pa)).
  replace (4 + len wd) with (len pre) by (unfold pre; len_simpl; lia).
  unfold pa. rewrite decode_attrs_wire; [|done| |].
  2:{ rewrite !length_app. pose proof (attrs_fuel peer _ Hpa). lia. }
  2:{ fold pa. unfold pre. len_simpl. lia. }
  fold pa. res_simpl. change (0 <? 0) with false. cbn iota.
  rewrite (app_assoc pre). rewrite slice_from_app by (len_simpl; lia). res_simpl.
  assert (len pre = 4 + len wd) as Hpre by (unfold pre; len_simpl; lia).
  replace (u32 _) with (len nl) by zlia. rewrite <- (app_nil_r nl) at 1.
  by rewrite (decode_routes peer (NLRI_ msg)) by (done || (fold nl; len_simpl; lia)).
Qed.

(** ** What the codec promises *)

(** UPDATE messages round-trip. An UPDATE whose withdrawn routes, path
    attributes and NLRI each have a wire form is encoded without an error, and
    decoding the body under the header length of the whole message gives the
    same routes and attributes, with the two length fields set to the octets
    their parts take. *)
Theorem update_roundtrip peer msg :
  update_wf peer msg ->
  exists w, BGPUpdate_Encode msg = Ok w /\
    BGPUpdate_Decode peer (len w + BGPMsgHeaderLen) w = Ok (with_lengths peer msg).
Proof.
  intros Hwf. exists (update_bytes peer msg).
  split; [by apply update_encode_ok|by apply update_decode_ok].
Qed.

Definition example_update : BGPUpdate :=
  mkBGPUpdate 0 [NIPPrefix (mkIPPrefix 24 [192; 168; 7; 0])] 0
    [ PAOrigin (mkBase 64 1 1 3) 0;
      PAASPath (mkBase 80 2 10 4) [example_segment] 4;
      PANextHop (mkBase 64 3 4 3) [10; 0; 0; 1] ]
    [NIPPrefix (mkIPPrefix 8 [10; 0; 0; 0]); NIPPrefix (mkIPPrefix 0 [0; 0; 0; 0])].

Lemma update_roundtrip_witness :
  exists w, BGPUpdate_Encode example_update = Ok w /\
    BGPUpdate_Decode example_peer (len w + BGPMsgHeaderLen) w
    = Ok (with_lengths example_peer example_update).
Proof.
  apply (update_roundtrip example_peer example_update).
  split_and!; try done; cbn [WithdrawnRoutes PathAttributes NLRI_ example_update];
    repeat constructor; ground.
Defined.

(** The octets the attributes of a decoded list take. *)
Definition attrs_len (pas : list BGPPathAttr) : Z := foldr (fun pa n => TotalLen pa + n) 0 pas.
Definition nlris_len (ns : list NLRI) : Z := foldr (fun n k => NLRI_Len n + k) 0 ns.

Lemma decodeNLRI_safe addPaths pkt n :
  is_bytes pkt -> len pkt < 4294967296 ->
  safe (decodeNLRI addPaths pkt n AfiIP)
    (fun '(ns, ptr) => ptr = n /\ n <= len pkt /\ Forall (nlri_wf addPaths AfiIP) ns /\ nlris_len ns = n).
Proof.
  intros Hp Hlen. unfold decodeNLRI. pose proof (len_nonneg pkt).
  destruct (u32 (len pkt) <? n) eqn:E; res_simpl; [done|].
  eapply safe_bind; [apply (decodeNLRI_loop_safe addPaths AfiIP (length pkt) pkt n 0 []);
    first [by left | done | lia | zlia | (unfold len in *; zlia)]|].
  intros [ns ptr] _ (new & -> & Hnew & ->). cbn [app].
  destruct (negb _) eqn:En; res_simpl; [done|]. cbn [safe].
  apply negb_false_iff, Z.eqb_eq in En. split_and!; try done; zlia.
Qed.

(** The offsets at which the loop over the attributes reads one, from [off] on. *)
Inductive reached (peer : BGPPeerAttrs) (pkt : bytes) : Z -> Z -> Prop :=
| reached_here off : reached peer pkt off off
| reached_next off pa off' :
  BGPGetPathAttr_Decode peer (drop (Z.to_nat off) pkt) = Ok pa ->
  reached peer pkt (off + TotalLen pa) off' -> reached peer pkt off off'.

(** An attribute, good or bad, of a type other than the two MP attributes, and whose
    announced length and header fit in sixteen bits. *)
Definition plain (s : bytes) : Prop :=
  index s 1 <> Ok BGPPathAttrTypeMPReachNLRI /\ index s 1 <> Ok BGPPathAttrTypeMPUnreachNLRI /\
  forall b, BGPPathAttrBase_Decode_header s = Ok b -> pa_Length b <= 65531.

Section Safe.
Context (peer : BGPPeerAttrs) (pkt : bytes).
Context (Hp : is_bytes pkt) (Hlen : len pkt < 65536) (Has : ASSize peer = 4).

(** The loop stays within the attributes' octets; it can only fail on an
    attribute cut after its first octet at the very end of the packet. *)
Lemma decode_attrs_safe fuel ptr n acc :
  0 <= ptr <= len pkt -> ptr + n <= len pkt -> n <= Z.of_nat fuel ->
  (forall off, reached peer pkt ptr off -> off < ptr + n -> plain (drop (Z.to_nat off) pkt)) ->
  match decode_items u32 (BGPGetPathAttr_Decode peer) TotalLen fuel pkt ptr n acc with
  | Ok (pas, ptr', n') => exists new, pas = acc ++ new /\ ptr' = ptr + attrs_len new /\
      n' = n - attrs_len new /\ n' <= 0 /\ ptr' <= len pkt /\ ptr <= ptr' /\
      Forall (fun pa => header_ok (pa_base pa) = true) new
  | Err _ => True
  | Panic => ptr + n = len pkt
  | NoFuel => False
  end.
Proof using All.
  revert ptr n acc. induction fuel as [|fuel IH]; intros ptr n acc Hptr Hn Hf Hpl;
    cbn [decode_items]; destruct (0 <? n) eqn:E; try lia.
  2:{ apply Z.ltb_lt in E. rewrite slice_from_range by lia. res_simpl.
      destruct (decide (ptr + 2 <= len pkt)) as [H2|H2].
      2:{ assert (BGPGetPathAttr_Decode peer (drop (Z.to_nat ptr) pkt) = Panic) as ->; [|cbn; lia].
          unfold BGPGetPathAttr_Decode, index. cbn [Z.ltb Z.compare].
          rewrite lookup_ge_None_2; [done|]. rewrite length_drop. unfold len in *. lia. }
      destruct (Hpl ptr (reached_here _ _ _) ltac:(lia)) as (Hr & Hu & Hlim).
      pose proof (attr_decode_safe peer (drop (Z.to_nat ptr) pkt) ltac:(auto with slices)
        ltac:(rewrite len_drop_range; lia) (or_intror Has) Hlim Hr Hu (fun _ => Has)) as Hattr.
      destruct (BGPGetPathAttr_Decode peer _) as [pa|e| |] eqn:Ed; try done.
      destruct Hattr as (_ & Hok & H3 & Htot). rewrite len_drop_range in Htot by lia. res_simpl.
      replace (u32 (ptr + TotalLen pa)) with (ptr + TotalLen pa) by zlia.
      specialize (IH (ptr + TotalLen pa) (n - TotalLen pa) (acc ++ [pa]) ltac:(lia) ltac:(lia) ltac:(lia)).
      specialize (IH (fun off Hoff Hlt => Hpl off (reached_next _ _ _ _ _ Ed Hoff) ltac:(lia))).
      destruct (decode_items _ _ _ _ _ _ _ _) as [[[pas ptr'] n']|e| |]; try done; [|lia].
      destruct IH as (new & -> & -> & -> & Hneg & Hle & Hge & Hall). exists (pa :: new).
      rewrite <- app_assoc. cbn [attrs_len foldr]. fold (attrs_len new).
      split_and!; try done; try lia. by constructor. }
  all: exists []; rewrite app_nil_r; cbn [attrs_len foldr]; split_and!; first [done | lia].
Qed.
End Safe.


(** The octets of [example_update]: three attributes, at 8, 12 and 26. *)
Definition example_update_octets : bytes :=
  [0; 4; 24; 192; 168; 7; 0; 25; 64; 1; 1; 0; 80; 2; 0; 10; 2; 2; 0; 1; 0; 0; 0; 0; 0; 7; 64; 3; 4; 10; 0; 0; 1; 8; 10; 0].

Lemma reached_cons peer pkt off n off' :
  (pa ← BGPGetPathAttr_Decode peer (drop (Z.to_nat off) pkt); Ok (TotalLen pa)) = Ok n ->
  reached peer pkt off off' -> off' = off \/ reached peer pkt (off + n) off'.
Proof. intros E H. inversion H as [|? pa' ? E' H']; [by left|]. rewrite E' in E. injection E as <-. by right. Qed.

Lemma reached_le peer pkt off off' : reached peer pkt off off' -> off <= off'.
Proof. induction 1 as [|off pa off' _ _ IH]; [done|]. unfold TotalLen, BGPPathAttrBase_TotalLen in IH. zlia. Qed.


(** an UPDATE of 24 octets whose attribute field holds a single octet panics
    the decoder, whatever that octet is: [BGPGetPathAttr] reads the type code
    from the second octet of a slice that has one. *)
Theorem update_cut_attr_panics peer x :
  BGPUpdate_Decode peer 24 [0; 0; 0; 1; x] = Panic.
Proof. unfold BGPUpdate_Decode. by destruct peer as [? ? []]. Qed.

Lemma existsb_GetCode pas c :
  existsb (fun pa => GetCode pa =? c) pas = true <-> c ∈ map GetCode pas.
Proof.
  rewrite existsb_exists, list_elem_of_In, in_map_iff. split.
  - intros (pa & Hin & Hc). exists pa. split; [lia|done].
  - intros (pa & Hc & Hin). exists pa. split; [done|lia].
Qed.

Lemma find_twice_spec pas found :
  find_twice found pas = false <->
  NoDup (map GetCode pas) /\ forall c, c ∈ map GetCode pas -> c ∉ found.
Proof.
  revert found. induction pas as [|pa pas IH]; intros found; cbn [find_twice map].
  { split; [|done]. intros _. split; [constructor|set_solver]. }
  rewrite NoDup_cons. destruct (existsb _ found) eqn:E.
  - split; [done|]. intros (_ & Hf). apply existsb_exists in E as (c & Hc & Heq).
    apply Z.eqb_eq in Heq. subst c. exfalso. apply (Hf (GetCode pa)); [set_solver|].
    by apply list_elem_of_In.
  - rewrite IH. assert (GetCode pa ∉ found) as Hn.
    { intros Hin%list_elem_of_In. enough (existsb (Z.eqb (GetCode pa)) found = true) by congruence.
      apply existsb_exists. exists (GetCode pa). split; [done|lia]. }
    set_solver.
Qed.

(** [checkPathAttributes] accepts a list of attributes exactly when no type
    occurs twice and ORIGIN, AS_PATH and NEXT_HOP are present; otherwise it
    reports a malformed list for a repetition, and else names one of the three
    that is missing. *)
Theorem check_path_attributes_spec pas :
  match checkPathAttributes pas with
  | Ok _ => NoDup (map GetCode pas) /\
      Forall (fun c => c ∈ map GetCode pas) BGPPathAttrWellKnownMandatory
  | Err (BGPMessageError _ sub [c]) => NoDup (map GetCode pas) /\
      sub = BGPMissingWellKnownAttr /\ c ∈ BGPPathAttrWellKnownMandatory /\ c ∉ map GetCode pas
  | Err e => ~ NoDup (map GetCode pas) /\
      e = BGPMessageError BGPUpdateMsgError BGPMalformedAttrList []
  | _ => False
  end.
Proof.
  unfold checkPathAttributes. pose proof (find_twice_spec pas []) as Hft.
  destruct (find_twice [] pas) eqn:Et.
  { split; [|done]. intros Hnd. enough (true = false) by done. apply Hft. split; [done|set_solver]. }
  destruct Hft as [Hft _]. specialize (Hft eq_refl) as [Hnd _].
  destruct (List.find _ _) as [c|] eqn:Ef.
  - apply List.find_some in Ef as [Hin Hne]. apply negb_true_iff in Hne.
    split_and!; [done|done|by apply list_elem_of_In|].
    rewrite <- existsb_GetCode. by rewrite Hne.
  - split; [done|]. apply Forall_forall. intros c Hc%list_elem_of_In.
    pose proof (List.find_none _ _ Ef c Hc) as Hn. apply negb_false_iff in Hn.
    by apply existsb_GetCode.
Qed.
