(* ===== verification/BgpHelpers.v ===== *)
(** * Operations on the attributes of an UPDATE

    src/bgp/packet/helpers.go: finding, adding, replacing and removing path
    attributes, the values the decision process reads from them, growing the AS
    path, and the route-reflection attributes. The functions that the code
    defines on a message act on its list of attributes here. *)

From stdpp Require Import sorting.
From S2P Require Import Prelude.
From S2P Require Import BgpOpen.
From S2P Require Import BgpNlri.
From S2P Require Import BgpAsPath.
From S2P Require Import BgpAttr.
From S2P Require Import BgpUpdate.

#[local] Open Scope Z_scope.

(** ** Finding and removing *)

Definition getTypeFromPathAttrs (pas : list BGPPathAttr) (code : Z) : option BGPPathAttr :=
  List.find (fun pa => GetCode pa =? code) pas.

(** The list without the first attribute of the type, and that attribute. *)
Fixpoint removeTypeFromPathAttrs (pas : list BGPPathAttr) (code : Z)
  : list BGPPathAttr * option BGPPathAttr :=
  match pas with
  | [] => ([], None)
  | pa :: pas =>
    if GetCode pa =? code then (pas, Some pa)
    else let (pas', r) := removeTypeFromPathAttrs pas code in (pa :: pas', r)
  end.

Definition RemoveNextHop (pas : list BGPPathAttr) : list BGPPathAttr :=
  (removeTypeFromPathAttrs pas BGPPathAttrTypeNextHop).1.
Definition RemoveMultiExitDisc (pas : list BGPPathAttr) : list BGPPathAttr * option BGPPathAttr :=
  removeTypeFromPathAttrs pas BGPPathAttrTypeMultiExitDisc.
Definition RemoveLocalPref (pas : list BGPPathAttr) : list BGPPathAttr * option BGPPathAttr :=
  removeTypeFromPathAttrs pas BGPPathAttrTypeLocalPref.
Definition RemoveOriginatorId (pas : list BGPPathAttr) : list BGPPathAttr :=
  (removeTypeFromPathAttrs pas BGPPathAttrTypeOriginatorId).1.
Definition RemoveClusterList (pas : list BGPPathAttr) : list BGPPathAttr :=
  (removeTypeFromPathAttrs pas BGPPathAttrTypeClusterList).1.

(** The type assertions [reach.( *BGPPathAttrMPReachNLRI)] and so on. *)
Definition as_reach (pa : option BGPPathAttr) : res (option BGPPathAttr) :=
  match pa with
  | None => Ok None
  | Some (PAMPReachNLRI _ _ _ _ _ _) => Ok pa
  | Some _ => Panic
  end.
Definition as_unreach (pa : option BGPPathAttr) : res (option BGPPathAttr) :=
  match pa with
  | None => Ok None
  | Some (PAMPUnreachNLRI _ _ _ _) => Ok pa
  | Some _ => Panic
  end.

Definition RemoveMPAttrs (pas : list BGPPathAttr)
  : res (list BGPPathAttr * option BGPPathAttr * option BGPPathAttr) :=
  let (pas, reach) := removeTypeFromPathAttrs pas BGPPathAttrTypeMPReachNLRI in
  reach ← as_reach reach;
  let (pas, unreach) := removeTypeFromPathAttrs pas BGPPathAttrTypeMPUnreachNLRI in
  unreach ← as_unreach unreach;
  Ok (pas, reach, unreach).

Definition GetMPAttrs (pas : list BGPPathAttr) : res (option BGPPathAttr * option BGPPathAttr) :=
  reach ← as_reach (getTypeFromPathAttrs pas BGPPathAttrTypeMPReachNLRI);
  unreach ← as_unreach (getTypeFromPathAttrs pas BGPPathAttrTypeMPUnreachNLRI);
  Ok (reach, unreach).

Definition GetAtomicAggregatePathAttr (pas : list BGPPathAttr) : option BGPPathAttr :=
  getTypeFromPathAttrs pas BGPPathAttrTypeAtomicAggregate.

Definition HasMPAttrs (pas : list BGPPathAttr) : bool :=
  existsb (fun pa => (GetCode pa =? BGPPathAttrTypeMPReachNLRI)
                     || (GetCode pa =? BGPPathAttrTypeMPUnreachNLRI)) pas.
Definition HasMPReachNLRI (pas : list BGPPathAttr) : bool :=
  existsb (fun pa => GetCode pa =? BGPPathAttrTypeMPReachNLRI) pas.

(** ** Adding *)

(** [for idx, pa := range pathAttrs { if pa.GetCode() > code { addIdx = idx } }]:
    the loop goes on after a match, so the last one counts. *)
Fixpoint last_larger (code : Z) (pas : list BGPPathAttr) (idx addIdx : Z) : Z :=
  match pas with
  | [] => addIdx
  | pa :: pas => last_larger code pas (idx + 1) (if code <? GetCode pa then idx else addIdx)
  end.

(** [append(s, x); copy(s[i+1:], s[i:]); s[i] = x] *)
Definition insert_at {A} (s : list A) (i : Z) (x : A) : res (list A) :=
  let s := s ++ [x] in
  sub ← slice_from s i;
  s ← copy_at s (i + 1) sub;
  set_index s i x.

Definition AddPathAttrToPathAttrsByCode (pas : list BGPPathAttr) (code : Z) (attr : BGPPathAttr)
  : res (list BGPPathAttr) :=
  let addIdx := last_larger code pas 0 (-1) in
  let addIdx := if addIdx =? -1 then len pas else addIdx in
  insert_at pas addIdx attr.

(** [attr] is never nil where it is called. *)
Definition addPathAttrToPathAttrs (pas : list BGPPathAttr) (attr : BGPPathAttr)
  : res (list BGPPathAttr) :=
  AddPathAttrToPathAttrsByCode pas (GetCode attr) attr.

Definition AddMPReachNLRIToPathAttrs (pas : list BGPPathAttr) (mpReach : BGPPathAttr) :=
  AddPathAttrToPathAttrsByCode pas BGPPathAttrTypeMPReachNLRI mpReach.
Definition AddMPUnreachNLRIToPathAttrs (pas : list BGPPathAttr) (mpUnreach : BGPPathAttr) :=
  AddPathAttrToPathAttrsByCode pas BGPPathAttrTypeMPUnreachNLRI mpUnreach.

(** The index of [idx] after
      [idx = -1; for idx, pa = range pas {
         if pa.GetCode() > code { break } else if idx == len(pas)-1 { idx += 1 } }] *)
Fixpoint first_larger (code : Z) (pas : list BGPPathAttr) (idx : Z) : Z :=
  match pas with
  | [] => -1
  | [pa] => if code <? GetCode pa then idx else idx + 1
  | pa :: pas => if code <? GetCode pa then idx else first_larger code pas (idx + 1)
  end.

(** [if idx >= 0 { pas = append(pas, x); if idx < len(pas)-1 { shift; pas[idx] = x } }] *)
Definition place (pas : list BGPPathAttr) (idx : Z) (x : BGPPathAttr) : res (list BGPPathAttr) :=
  if 0 <=? idx then
    let pas' := pas ++ [x] in
    if idx <? len pas' - 1 then
      sub ← slice_from pas' idx;
      s ← copy_at pas' (idx + 1) sub;
      set_index s idx x
    else Ok pas'
  else Ok pas.

Definition set_LocalPref (pref : Z) (pa : BGPPathAttr) : res BGPPathAttr :=
  match pa with PALocalPref b _ => Ok (PALocalPref b pref) | _ => Panic end.
Definition set_MED (med : Z) (pa : BGPPathAttr) : res BGPPathAttr :=
  match pa with PAMultiExitDisc b _ => Ok (PAMultiExitDisc b med) | _ => Panic end.

(** Overwrite the first attribute of the type, if there is one. *)
Fixpoint overwrite_first (code : Z) (f : BGPPathAttr -> res BGPPathAttr) (pas : list BGPPathAttr)
  : res (option (list BGPPathAttr)) :=
  match pas with
  | [] => Ok None
  | pa :: pas =>
    if GetCode pa =? code then
      pa ← f pa;
      Ok (Some (pa :: pas))
    else
      r ← overwrite_first code f pas;
      Ok (option_map (cons pa) r)
  end.

Definition set_or_add (code : Z) (f : BGPPathAttr -> res BGPPathAttr) (fresh : BGPPathAttr)
  (pas : list BGPPathAttr) (overwrite : bool) : res (list BGPPathAttr) :=
  r ← overwrite_first code (if overwrite then f else Ok) pas;
  match r with
  | Some pas => Ok pas
  | None =>
    pa ← f fresh;
    place pas (first_larger code pas 0) pa
  end.

Definition SetLocalPrefToPathAttrs (pas : list BGPPathAttr) (pref : Z) (overwrite : bool) :=
  set_or_add BGPPathAttrTypeLocalPref (set_LocalPref pref) NewBGPPathAttrLocalPref pas overwrite.
Definition SetMEDToPathAttrs (pas : list BGPPathAttr) (med : Z) (overwrite : bool) :=
  set_or_add BGPPathAttrTypeMultiExitDisc (set_MED med) NewBGPPathAttrMultiExitDisc pas overwrite.

(** Apply [f] to every attribute of the type. *)
Fixpoint map_type (code : Z) (f : BGPPathAttr -> res BGPPathAttr) (pas : list BGPPathAttr)
  : res (list BGPPathAttr) :=
  match pas with
  | [] => Ok []
  | pa :: pas =>
    pa ← (if GetCode pa =? code then f pa else Ok pa);
    pas ← map_type code f pas;
    Ok (pa :: pas)
  end.

Definition SetNextHopPathAttrs (pas : list BGPPathAttr) (nextHopIP : bytes) :=
  map_type BGPPathAttrTypeNextHop
    (fun pa => match pa with PANextHop b _ => Ok (PANextHop b nextHopIP) | _ => Panic end) pas.

Definition SetPathAttrAggregator (pas : list BGPPathAttr) (as_ : Z) (ip : bytes) :=
  map_type BGPPathAttrTypeAggregator
    (fun pa =>
       pa ← SetBGPAggregatorAS pa (BGPAggregator4ByteAS as_);
       match pa with PAAggregator b AS _ => Ok (PAAggregator b AS ip) | _ => Panic end) pas.

(** ** Values the daemon reads *)

(** The AS_PATH is looked up by code and must be of its type. *)
Definition get_ASPath (pas : list BGPPathAttr) : res (option (list BGPASPathSegment * Z)) :=
  match getTypeFromPathAttrs pas BGPPathAttrTypeASPath with
  | None => Ok None
  | Some (PAASPath _ v asSize) => Ok (Some (v, asSize))
  | Some _ => Panic
  end.

(** [asSegment.( *BGPAS4PathSegment)] for AS size 4, [BGPAS2PathSegment] else;
    a segment of the other type is a failed assertion. *)
Fixpoint loop_in_segments (asSize localAS : Z) (segs : list BGPASPathSegment) : res bool :=
  match segs with
  | [] => Ok false
  | seg :: segs =>
    hit ← match seg with
          | Seg4 s => if asSize =? 4 then Ok (existsb (Z.eqb localAS) (as4_AS s)) else Panic
          | Seg2 s => if asSize =? 4 then Panic else Ok (existsb (Z.eqb (u16 localAS)) (as2_AS s))
          end;
    if (hit : bool) then Ok true else loop_in_segments asSize localAS segs
  end.

Definition HasASLoop (pas : list BGPPathAttr) (localAS : Z) : res bool :=
  p ← get_ASPath pas;
  match p with
  | Some (segs, asSize) => loop_in_segments asSize localAS segs
  | None => Ok false
  end.

Definition GetNumASes (pas : list BGPPathAttr) : res Z :=
  p ← get_ASPath pas;
  Ok (match p with
      | Some (segs, _) => foldl (fun n s => u32 (n + BGPASPathSegment_GetNumASes s)) 0 segs
      | None => 0
      end).

Definition GetOrigin (pas : list BGPPathAttr) : res Z :=
  match getTypeFromPathAttrs pas BGPPathAttrTypeOrigin with
  | Some (PAOrigin _ v) => Ok v
  | Some _ => Panic
  | None => Ok BGPPathAttrOriginMax
  end.

Definition GetMED (pas : list BGPPathAttr) : res (Z * bool) :=
  match getTypeFromPathAttrs pas BGPPathAttrTypeMultiExitDisc with
  | Some (PAMultiExitDisc _ v) => Ok (v, true)
  | Some _ => Panic
  | None => Ok (0, false)
  end.

Definition GetLocalPref (pas : list BGPPathAttr) : res Z :=
  match getTypeFromPathAttrs pas BGPPathAttrTypeLocalPref with
  | Some (PALocalPref _ v) => Ok v
  | Some _ => Panic
  | None => Err (ErrText "Local Pref path attr not found")
  end.

Definition GetNextHop (pas : list BGPPathAttr) : res bytes :=
  match getTypeFromPathAttrs pas BGPPathAttrTypeNextHop with
  | Some (PANextHop _ v) => Ok v
  | Some _ => Panic
  | None => Ok IPv4zero
  end.

Definition GetNumClusters (pas : list BGPPathAttr) : res Z :=
  match getTypeFromPathAttrs pas BGPPathAttrTypeClusterList with
  | Some (PAClusterList b _) => Ok (pa_Length b / 4)
  | Some _ => Panic
  | None => Ok 0
  end.

(** ** Growing the AS path *)

(** Whether a new segment is put in front first. *)
Definition needs_segment (segs : list BGPASPathSegment) : bool :=
  match segs with
  | [] => true
  | s :: _ => (BGPASPathSegment_GetType s =? BGPASPathSegmentSet) || (255 <=? BGPASPathSegment_GetLen s)
  end.

Definition new_segment_seq (asSize : Z) : BGPASPathSegment :=
  if asSize =? 4 then Seg4 NewBGPAS4PathSegmentSeq else Seg2 NewBGPAS2PathSegmentSeq.

(** The attribute with a sequence in front that has room, and the AS number,
    which becomes AS_TRANS for a new two-octet segment if it does not fit. *)
Definition ensure_segment (pa : BGPPathAttr) (segs : list BGPASPathSegment) (asSize : Z)
  : res BGPPathAttr :=
  if needs_segment segs then PrependASPathSegment pa (new_segment_seq asSize) else Ok pa.

Definition trans_AS (segs : list BGPASPathSegment) (asSize as_ : Z) : Z :=
  if needs_segment segs && (asSize =? 2) && (65535 <? as_) then BGPASTrans else as_.

(** Replace the first segment of an AS_PATH and add to its length; the boolean
    of the segment's method is not looked at. *)
Definition update_first_segment (pa : BGPPathAttr)
  (f : BGPASPathSegment -> res (bool * BGPASPathSegment)) (add : Z) : res BGPPathAttr :=
  match pa with
  | PAASPath b (s :: segs) asSize =>
    '(_, s) ← f s;
    Ok (PAASPath (add_Length b add) (s :: segs) asSize)
  | _ => Panic
  end.

(** One attribute of the loop of [PrependAS], and the AS number for the next
    ones. The branch for AS4_PATH asserts the attribute to be an AS_PATH after
    it has asserted the opposite, so it cannot return. *)
Definition PrependAS_attr (pa : BGPPathAttr) (as_ asSize : Z) : res (BGPPathAttr * Z) :=
  if GetCode pa =? BGPPathAttrTypeASPath then
    match pa with
    | PAASPath _ segs _ =>
      let as_ := trans_AS segs asSize as_ in
      pa ← ensure_segment pa segs asSize;
      pa ← update_first_segment pa (fun s => BGPASPathSegment_PrependAS s as_) asSize;
      Ok (pa, as_)
    | _ => Panic
    end
  else if GetCode pa =? BGPPathAttrTypeAS4Path then Panic
  else Ok (pa, as_).

Fixpoint PrependAS (pas : list BGPPathAttr) (as_ asSize : Z) : res (list BGPPathAttr) :=
  match pas with
  | [] => Ok []
  | pa :: pas =>
    '(pa, as_) ← PrependAS_attr pa as_ asSize;
    pas ← PrependAS pas as_ asSize;
    Ok (pa :: pas)
  end.

Definition GetMaxASes : Z := 255.

(** One attribute of the loop of [PrependASList]: the attribute, the list, which
    AS_TRANS is written into, and the number of AS numbers taken from it. *)
Definition PrependASList_attr (pa : BGPPathAttr) (asList : list Z) (asSize newASes : Z)
  : res (BGPPathAttr * list Z * Z) :=
  if GetCode pa =? BGPPathAttrTypeASPath then
    match pa with
    | PAASPath _ segs _ =>
      let asList := map (trans_AS segs asSize) asList in
      pa ← ensure_segment pa segs asSize;
      match pa with
      | PAASPath _ (s :: _) _ =>
        let room := GetMaxASes - BGPASPathSegment_GetLen s in
        let newASes := if room <? len asList then room else len asList in
        front ← slice asList 0 newASes;
        pa ← update_first_segment pa (fun s => BGPASPathSegment_PrependASList s front)
               (u16 (asSize * newASes));
        Ok (pa, asList, newASes)
      | _ => Panic
      end
    | _ => Panic
    end
  else if GetCode pa =? BGPPathAttrTypeAS4Path then Panic
  else Ok (pa, asList, newASes).

Fixpoint PrependASList_attrs (pas : list BGPPathAttr) (asList : list Z) (asSize newASes : Z)
  : res (list BGPPathAttr * list Z * Z) :=
  match pas with
  | [] => Ok ([], asList, newASes)
  | pa :: pas =>
    '(pa, asList, newASes) ← PrependASList_attr pa asList asSize newASes;
    '(pas, asList, newASes) ← PrependASList_attrs pas asList asSize newASes;
    Ok (pa :: pas, asList, newASes)
  end.

(** The recursion on the rest of the list; every call but the last takes at
    least one AS number, so one more call than there are numbers is enough. *)
Fixpoint PrependASList (fuel : nat) (pas : list BGPPathAttr) (asList : list Z) (asSize : Z)
  : res (list BGPPathAttr) :=
  match fuel with
  | O => NoFuel
  | S fuel =>
    '(pas, asList, newASes) ← PrependASList_attrs pas asList asSize 0;
    if 0 <? newASes then
      rest ← slice_from asList newASes;
      PrependASList fuel pas rest asSize
    else Ok pas
  end.

(** ** Route reflection *)

(** [append(pas[:idx], x)] cuts the list at [idx] before it appends, so there is
    nothing behind [x] for the copy that follows to move. *)
Definition cut_and_append (pas : list BGPPathAttr) (idx : Z) (x : BGPPathAttr)
  : res (list BGPPathAttr) :=
  head ← slice pas 0 idx;
  let pas := head ++ [x] in
  sub ← slice_from pas idx;
  pas ← copy_at pas (idx + 1) sub;
  set_index pas idx x.

Definition AddOriginatorId (pas : list BGPPathAttr) (id : bytes) : res (list BGPPathAttr * bool) :=
  if existsb (fun pa => GetCode pa =? BGPPathAttrTypeOriginatorId) pas then Ok (pas, false) else
  let idx := first_larger BGPPathAttrTypeOriginatorId pas 0 in
  pas ← (if 0 <=? idx then cut_and_append pas idx (NewBGPPathAttrOriginatorId id) else Ok pas);
  Ok (pas, true).

(** The loop of [AddClusterId]: the index and whether a CLUSTER_LIST is there. *)
Fixpoint cluster_index (pas : list BGPPathAttr) (i n idx : Z) : Z * bool :=
  match pas with
  | [] => (idx, false)
  | pa :: pas =>
    if GetCode pa =? BGPPathAttrTypeClusterList then (i, true)
    else
      let idx := if idx =? -1 then
                   if BGPPathAttrTypeClusterList <? GetCode pa then i
                   else if i =? n - 1 then i + 1 else idx
                 else idx in
      cluster_index pas (i + 1) n idx
  end.

Definition AddClusterId (pas : list BGPPathAttr) (id : Z) : res (list BGPPathAttr * bool) :=
  let (idx, found) := cluster_index pas 0 (len pas) (-1) in
  pas ← (if negb found && (0 <=? idx) then cut_and_append pas idx NewBGPPathAttrClusterList
         else Ok pas);
  if 0 <=? idx then
    pa ← index pas idx;
    pa ← PrependId pa id;
    pas ← set_index pas idx pa;
    Ok (pas, true)
  else Ok (pas, false).

Definition ConvertIPBytesToUint (b : bytes) : res Z :=
  b0 ← index b 0; b1 ← index b 1; b2 ← index b 2; b3 ← index b 3;
  Ok (Z.lor (Z.lor (Z.lor (Z.shiftl b0 24) (u8 (Z.shiftl b1 16))) (u8 (Z.shiftl b2 8))) b3).

(** ** Lemmas on the list operations *)

Lemma insert_at_eq {A} (s : list A) i x :
  0 <= i <= len s ->
  insert_at s i x = Ok (take (Z.to_nat i) s ++ x :: drop (Z.to_nat i) s).
Proof.
  intros Hi. unfold insert_at.
  set (a := take (Z.to_nat i) s). set (b := drop (Z.to_nat i) s).
  assert (s = a ++ b) as Hs by (unfold a, b; by rewrite take_drop).
  assert (i = len a) as Ha by (unfold a; by rewrite len_take).
  clearbody a b. subst s. rewrite <- app_assoc. rewrite slice_from_app by done. res_simpl.
  unfold copy_at. destruct b as [|y b].
  - cbn [app]. change [x] with ([x] ++ @nil A) at 1. rewrite app_assoc.
    rewrite on_suffix_app by (len_simpl; lia). res_simpl.
    change (copy [] [x]) with (@nil A). rewrite app_nil_r.
    by rewrite set_index_app.
  - change (a ++ (y :: b) ++ [x]) with (a ++ [y] ++ b ++ [x]). rewrite (app_assoc a [y]).
    rewrite on_suffix_app by (len_simpl; lia). res_simpl.
    assert (copy (b ++ [x]) ((y :: b) ++ [x]) = y :: b) as ->.
    { apply copy_prefix. len_simpl. lia. }
    rewrite <- app_assoc. cbn [app]. by rewrite set_index_app.
Qed.

Lemma place_eq pas i x :
  0 <= i <= len pas -> place pas i x = Ok (take (Z.to_nat i) pas ++ x :: drop (Z.to_nat i) pas).
Proof.
  intros Hi. unfold place. rewrite (proj2 (Z.leb_le 0 i)) by lia. len_simpl.
  destruct (i <? len pas + (1 + 0) - 1) eqn:E; [by apply insert_at_eq|]. apply Z.ltb_ge in E.
  rewrite take_ge, drop_ge by (unfold len in *; lia). done.
Qed.

Lemma cut_and_append_eq pas i x :
  0 <= i <= len pas -> cut_and_append pas i x = Ok (take (Z.to_nat i) pas ++ [x]).
Proof.
  intros Hi. unfold cut_and_append. rewrite slice_range by lia. res_simpl.
  change (Z.to_nat 0) with 0%nat. rewrite Z.sub_0_r, drop_0.
  set (a := take (Z.to_nat i) pas). assert (i = len a) as Ha by (unfold a; by rewrite len_take).
  clearbody a. rewrite slice_from_app by done. res_simpl. unfold copy_at.
  assert (on_suffix (a ++ [x]) (i + 1) (fun sub => Ok (copy sub [x])) = Ok (a ++ [x])) as ->.
  { rewrite <- (app_nil_r (a ++ [x])). rewrite on_suffix_app by (len_simpl; lia). res_simpl.
    change (copy [] [x]) with (@nil BGPPathAttr). done. }
  res_simpl. by rewrite set_index_app.
Qed.

Definition codes (pas : list BGPPathAttr) : list Z := map GetCode pas.

Lemma last_larger_bounds code pas idx add :
  -1 <= add < idx -> 0 <= idx ->
  -1 <= last_larger code pas idx add < idx + len pas.
Proof.
  revert idx add. induction pas as [|pa pas IH]; intros idx add Ha Hi; cbn [last_larger].
  { len_simpl. lia. }
  len_simpl. destruct (code <? GetCode pa).
  - pose proof (IH (idx + 1) idx ltac:(lia) ltac:(lia)). lia.
  - pose proof (IH (idx + 1) add ltac:(lia) ltac:(lia)). lia.
Qed.

(** Where the attribute goes. *)
Definition add_index (code : Z) (pas : list BGPPathAttr) : Z :=
  let i := last_larger code pas 0 (-1) in if i =? -1 then len pas else i.

Lemma add_index_bounds code pas : 0 <= add_index code pas <= len pas.
Proof.
  unfold add_index. pose proof (last_larger_bounds code pas 0 (-1) ltac:(lia) ltac:(lia)).
  pose proof (len_nonneg pas). destruct (Z.eqb_spec (last_larger code pas 0 (-1)) (-1)); lia.
Qed.

Lemma add_attr_eq pas code attr :
  AddPathAttrToPathAttrsByCode pas code attr
  = Ok (take (Z.to_nat (add_index code pas)) pas ++ attr :: drop (Z.to_nat (add_index code pas)) pas).
Proof. apply insert_at_eq. apply add_index_bounds. Qed.

Definition sorted (pas : list BGPPathAttr) : Prop := StronglySorted Z.le (codes pas).

(** The attributes of a sorted list that come after a code are at its end. *)
Definition larger (code : Z) (pas : list BGPPathAttr) : list BGPPathAttr :=
  List.filter (fun pa => code <? GetCode pa) pas.

Lemma last_larger_none code pas idx add :
  larger code pas = [] -> last_larger code pas idx add = add.
Proof.
  revert idx. induction pas as [|pa pas IH]; intros idx; cbn [larger List.filter last_larger]; [done|].
  destruct (code <? GetCode pa); [done|]. apply IH.
Qed.

Lemma last_larger_last code pas pa idx add :
  code < GetCode pa -> last_larger code (pas ++ [pa]) idx add = idx + len pas.
Proof.
  intros Hpa. revert idx add. induction pas as [|q pas IH]; intros idx add; cbn [app last_larger].
  - rewrite (proj2 (Z.ltb_lt _ _)) by done. len_simpl. lia.
  - rewrite IH. len_simpl. lia.
Qed.

Lemma larger_app code pas qas : larger code (pas ++ qas) = larger code pas ++ larger code qas.
Proof. apply List.filter_app. Qed.

Lemma sorted_app pas qas :
  sorted (pas ++ qas) <->
  sorted pas /\ sorted qas /\ (forall p q, p ∈ pas -> q ∈ qas -> GetCode p <= GetCode q).
Proof.
  unfold sorted, codes. rewrite map_app, StronglySorted_app. split.
  - intros (H1 & H2 & H3). split_and!; [done|done|]. intros p q Hp Hq.
    apply H1; apply list_elem_of_In; apply in_map; by apply list_elem_of_In.
  - intros (H1 & H2 & H3). split_and!; [|done|done]. intros x y Hx Hy.
    apply list_elem_of_In, in_map_iff in Hx as (p & <- & Hp).
    apply list_elem_of_In, in_map_iff in Hy as (q & <- & Hq).
    apply H3; by apply list_elem_of_In.
Qed.

Lemma larger_nil_forall code pas :
  larger code pas = [] -> forall p, p ∈ pas -> GetCode p <= code.
Proof.
  intros Hl p Hp. destruct (code <? GetCode p) eqn:E; [|lia]. exfalso.
  assert (In p (larger code pas)) as Hin.
  { apply filter_In. split; [by apply list_elem_of_In|done]. }
  by rewrite Hl in Hin.
Qed.

(** In a sorted list with an attribute after the code, the last is one. *)
Lemma sorted_larger_last code pas :
  sorted pas -> larger code pas <> [] ->
  exists qas p, pas = qas ++ [p] /\ code < GetCode p.
Proof.
  intros Hs Hl. destruct pas as [|p qas _] using rev_ind; [done|]. exists qas, p. split; [done|].
  destruct (decide (code < GetCode p)) as [|Hn]; [done|]. exfalso. apply Hl.
  apply sorted_app in Hs as (_ & _ & Hle). rewrite larger_app.
  assert (larger code [p] = []) as ->.
  { unfold larger. cbn [List.filter]. by rewrite (proj2 (Z.ltb_ge _ _)) by lia. }
  rewrite app_nil_r. destruct (larger code qas) as [|q l] eqn:E; [done|].
  assert (In q (larger code qas)) as Hq by (rewrite E; by left).
  apply filter_In in Hq as [Hq Hc]. apply list_elem_of_In in Hq.
  specialize (Hle q p Hq ltac:(set_solver)). lia.
Qed.

Lemma sorted_singleton p : sorted [p].
Proof. repeat constructor. Qed.

(** adding an attribute by its type keeps every attribute, but keeps the list
    in order only when at most one of them comes after it. The loop of
    [AddPathAttrToPathAttrsByCode] does not stop at the first larger code, so the
    new attribute is put in front of the last one: for a sorted list the result
    is sorted exactly when no more than one attribute has a larger code. *)
Theorem add_attr_order pas attr :
  sorted pas ->
  exists pas', addPathAttrToPathAttrs pas attr = Ok pas' /\ Permutation pas' (attr :: pas) /\
    (sorted pas' <-> (length (larger (GetCode attr) pas) <= 1)%nat).
Proof.
  intros Hs. unfold addPathAttrToPathAttrs. set (code := GetCode attr). rewrite add_attr_eq.
  eexists. split; [done|]. split.
  { rewrite <- Permutation_middle, take_drop. done. }
  destruct (decide (larger code pas = [])) as [Hl|Hl].
  - assert (add_index code pas = len pas) as ->.
    { unfold add_index. by rewrite last_larger_none. }
    rewrite take_ge, drop_ge by (unfold len; lia). rewrite Hl. split; [cbn; lia|]. intros _.
    apply sorted_app. split_and!; [done|apply sorted_singleton|].
    intros p q Hp Hq. assert (q = attr) as -> by set_solver. by apply (larger_nil_forall code pas).
  - destruct (sorted_larger_last code pas Hs Hl) as (qas & p & -> & Hp).
    assert (add_index code (qas ++ [p]) = len qas) as ->.
    { unfold add_index. rewrite last_larger_last by done. pose proof (len_nonneg qas).
      by rewrite Z.add_0_l, (proj2 (Z.eqb_neq (len qas) (-1))) by lia. }
    rewrite to_nat_len, take_app_length, drop_app_length.
    rewrite larger_app, length_app. unfold larger at 2. cbn [List.filter].
    rewrite (proj2 (Z.ltb_lt code _)) by done. cbn [length].
    apply sorted_app in Hs as (Hq & _ & Hle). rewrite sorted_app. split.
    + intros (_ & _ & Hall). destruct (larger code qas) as [|q l] eqn:E; [cbn; lia|].
      assert (In q (larger code qas)) as Hin by (rewrite E; by left).
      apply filter_In in Hin as [Hin Hc]. apply list_elem_of_In in Hin.
      specialize (Hall q attr Hin ltac:(set_solver)). fold code in Hall. lia.
    + intros Hlen. assert (larger code qas = []) as Hnil by (destruct (larger code qas); cbn in *; [done|lia]).
      split_and!; [done| |].
      * apply (sorted_app [attr] [p]). split_and!; [apply sorted_singleton|apply sorted_singleton|].
        intros x y Hx Hy. assert (x = attr) as -> by set_solver. assert (y = p) as -> by set_solver.
        fold code. lia.
      * intros x y Hx Hy. assert (y = attr \/ y = p) as [-> | ->] by set_solver.
        -- by apply (larger_nil_forall code qas).
        -- apply Hle; [done|set_solver].
Qed.

Definition attr_of (code : Z) : BGPPathAttr := PAUnknown (mkBase 192 code 0 3) [].

Definition example_attrs : list BGPPathAttr := map attr_of [1; 2; 3; 9; 10].
Definition example_attr : BGPPathAttr := attr_of 8.

Lemma add_attr_order_witness :
  exists pas', addPathAttrToPathAttrs example_attrs example_attr = Ok pas' /\
    Permutation pas' (example_attr :: example_attrs) /\
    (sorted pas' <-> (length (larger (GetCode example_attr) example_attrs) <= 1)%nat).
Proof.
  apply (add_attr_order example_attrs example_attr).
  unfold sorted. cbn. repeat (constructor; [|repeat (constructor; [lia|]); constructor]). constructor.
Defined.

(** ** Setting LOCAL_PREF and MULTI_EXIT_DISC *)

Lemma first_larger_spec code pas idx :
  pas <> [] -> sorted pas ->
  exists k, first_larger code pas idx = idx + Z.of_nat k /\ (k <= length pas)%nat /\
    (forall p, p ∈ take k pas -> GetCode p <= code) /\
    (forall p, p ∈ drop k pas -> code < GetCode p).
Proof.
  intros Hne Hs. revert idx. induction pas as [|p pas IH]; intros idx; [done|].
  apply (sorted_app [p] pas) in Hs as (_ & Hs & Hle).
  assert (code < GetCode p -> exists k, idx = idx + Z.of_nat k /\ (k <= length (p :: pas))%nat /\
    (forall q, q ∈ take k (p :: pas) -> GetCode q <= code) /\
    (forall q, q ∈ drop k (p :: pas) -> code < GetCode q)) as Hfirst.
  { intros Hp. exists 0%nat. split_and!; [lia|lia|set_solver|].
    intros q Hq. cbn in Hq. apply elem_of_cons in Hq as [-> | Hq]; [done|].
    specialize (Hle p q ltac:(set_solver) Hq). lia. }
  destruct pas as [|p' pas].
  - cbn [first_larger]. destruct (code <? GetCode p) eqn:E; [apply Hfirst; lia|].
    exists 1%nat. split_and!; [lia|cbn; lia| |set_solver].
    intros q Hq. assert (q = p) as -> by set_solver. lia.
  - change (first_larger code (p :: p' :: pas) idx)
      with (if code <? GetCode p then idx else first_larger code (p' :: pas) (idx + 1)).
    destruct (code <? GetCode p) eqn:E; [apply Hfirst; lia|].
    destruct (IH ltac:(done) Hs (idx + 1)) as (k & -> & Hk & Htake & Hdrop).
    exists (S k). split_and!; [lia|cbn [length] in *; lia| |done].
    intros q Hq. cbn [take] in Hq. apply elem_of_cons in Hq as [-> | Hq]; [lia|by apply Htake].
Qed.

Lemma overwrite_first_none code f pas :
  code ∉ codes pas -> overwrite_first code f pas = Ok None.
Proof.
  induction pas as [|pa pas IH]; [done|]. cbn [codes map overwrite_first]. intros Hn.
  rewrite (proj2 (Z.eqb_neq _ _)) by set_solver. rewrite IH by set_solver. done.
Qed.

Lemma overwrite_first_some code f pre pa pa' post :
  code ∉ codes pre -> GetCode pa = code -> f pa = Ok pa' ->
  overwrite_first code f (pre ++ pa :: post) = Ok (Some (pre ++ pa' :: post)).
Proof.
  intros Hn Hc Hf. induction pre as [|q pre IH]; cbn [app overwrite_first].
  - rewrite (proj2 (Z.eqb_eq _ _)) by done. by rewrite Hf.
  - cbn [codes map] in Hn. rewrite (proj2 (Z.eqb_neq _ _)) by set_solver.
    rewrite IH by set_solver. done.
Qed.

(** Adding an attribute whose type is not in a sorted list. *)
Lemma place_sorted pas attr :
  pas <> [] -> sorted pas ->
  exists pre post, pas = pre ++ post /\
    place pas (first_larger (GetCode attr) pas 0) attr = Ok (pre ++ attr :: post) /\
    sorted (pre ++ attr :: post).
Proof.
  intros Hne Hs. destruct (first_larger_spec (GetCode attr) pas 0 Hne Hs) as (k & -> & Hk & Ht & Hd).
  exists (take k pas), (drop k pas). rewrite take_drop. split; [done|].
  rewrite place_eq by (unfold len; lia). rewrite Z.add_0_l, Nat2Z.id. split; [done|].
  rewrite <- (take_drop k pas) in Hs. apply sorted_app in Hs as (H1 & H2 & H3).
  apply sorted_app. split_and!; [done| |].
  - apply (sorted_app [attr]). split_and!; [apply sorted_singleton|done|].
    intros x y Hx Hy. assert (x = attr) as -> by set_solver. specialize (Hd y Hy). lia.
  - intros x y Hx Hy. apply elem_of_cons in Hy as [-> | Hy]; [by apply Ht|by apply H3].
Qed.

(** The contract of [SetLocalPrefToPathAttrs] and [SetMEDToPathAttrs]: [code] is
    the type of the attribute, [make b v] the attribute with a header and a value,
    and [b0] the header of a new one. *)
Definition sets_value (code : Z) (make : BGPPathAttrBase -> Z -> BGPPathAttr) (b0 : BGPPathAttrBase)
  (op : list BGPPathAttr -> Z -> bool -> res (list BGPPathAttr)) : Prop :=
  forall pas v overwrite,
    sorted pas ->
    (code ∉ codes pas -> pas <> [] ->
       exists pre post, pas = pre ++ post /\
         op pas v overwrite = Ok (pre ++ make b0 v :: post) /\ sorted (pre ++ make b0 v :: post)) /\
    (code ∉ codes pas -> pas = [] -> op pas v overwrite = Ok []) /\
    (forall pre b old post, pas = pre ++ make b old :: post -> Code b = code -> code ∉ codes pre ->
       op pas v overwrite = Ok (if overwrite then pre ++ make b v :: post else pas)).

Lemma set_or_add_spec code f make b0 fresh :
  (forall v b old, f v (make b old) = Ok (make b v)) -> (forall v, f v fresh = Ok (make b0 v)) ->
  (forall v b, GetCode (make b v) = Code b) -> Code b0 = code ->
  sets_value code make b0 (fun pas v overwrite => set_or_add code (f v) fresh pas overwrite).
Proof.
  intros Hf Hfresh Hc Hb0 pas v overwrite Hs. unfold set_or_add. split_and!.
  - intros Hn Hne. rewrite overwrite_first_none by done. res_simpl. rewrite Hfresh. res_simpl.
    destruct (place_sorted pas (make b0 v) Hne Hs) as (pre & post & -> & Hp & Hs').
    rewrite Hc, Hb0 in Hp. eauto.
  - intros _ ->. cbn [overwrite_first]. res_simpl. by rewrite Hfresh.
  - intros pre b old post -> Hb Hn. rewrite <- Hb in *. destruct overwrite.
    + by erewrite overwrite_first_some by eauto.
    + by erewrite overwrite_first_some by eauto.
Qed.

(** [SetLocalPrefToPathAttrs] sets LOCAL_PREF in a list of attributes kept in
    order of their types: an attribute that is there gets the value if [overwrite]
    is given and is left alone otherwise; one that is missing is inserted so that
    the list stays in order and nothing else changes; only the empty list is
    returned as it is, without the attribute. *)
Theorem set_local_pref_spec :
  sets_value BGPPathAttrTypeLocalPref PALocalPref
    (mkBase BGPPathAttrFlagTransitive BGPPathAttrTypeLocalPref 4 3) SetLocalPrefToPathAttrs.
Proof. by apply (set_or_add_spec _ set_LocalPref). Qed.

(** [SetMEDToPathAttrs] does the same for MULTI_EXIT_DISC. *)
Theorem set_med_spec :
  sets_value BGPPathAttrTypeMultiExitDisc PAMultiExitDisc
    (mkBase 128 BGPPathAttrTypeMultiExitDisc 4 3) SetMEDToPathAttrs.
Proof. by apply (set_or_add_spec _ set_MED). Qed.

(** ** Growing the AS path *)

Definition segs_len (segs : list BGPASPathSegment) : Z :=
  foldr (fun s n => BGPASPathSegment_TotalLen s + n) 0 segs.

(** The AS numbers of a path in order. *)
Definition segs_AS (segs : list BGPASPathSegment) : list Z := concat (map seg_AS segs).

(** The counters of the attribute and of its segments, all of one width, agree
    with the AS numbers. *)
Definition path_ok (w : Z) (b : BGPPathAttrBase) (segs : list BGPASPathSegment) : Prop :=
  Forall (fun s => seg_wf s /\ seg_width s = w) segs /\ pa_Length b = segs_len segs.

Definition as_width (asSize : Z) : Z := if asSize =? 4 then 4 else 2.

Lemma new_segment_ok asSize :
  seg_wf (new_segment_seq asSize) /\ seg_width (new_segment_seq asSize) = as_width asSize /\
  BGPASPathSegment_GetLen (new_segment_seq asSize) = 0 /\
  BGPASPathSegment_TotalLen (new_segment_seq asSize) = 2 /\
  BGPASPathSegment_GetType (new_segment_seq asSize) = BGPASPathSegmentSequence /\
  seg_AS (new_segment_seq asSize) = [].
Proof. unfold new_segment_seq, as_width. destruct (asSize =? 4); split_and!; ground. Qed.

Lemma segs_len_nonneg w segs :
  Forall (fun s => seg_wf s /\ seg_width s = w) segs -> 0 <= segs_len segs.
Proof.
  induction 1 as [|s segs [(_ & _ & _ & Ht & _) _] _ IH]; [done|]. cbn [segs_len foldr].
  fold (segs_len segs). rewrite Ht. pose proof (len_nonneg (seg_AS s)). destruct s; cbn [seg_width]; lia.
Qed.

(** After [ensure_segment] there is a first segment with room. *)
Lemma ensure_segment_ok b segs asz asSize :
  path_ok (as_width asSize) b segs -> pa_Length b + 2 <= 65535 ->
  exists b' s segs', ensure_segment (PAASPath b segs asz) segs asSize = Ok (PAASPath b' (s :: segs') asz) /\
    path_ok (as_width asSize) b' (s :: segs') /\ len (seg_AS s) < 255 /\
    BGPASPathSegment_GetType s <> BGPASPathSegmentSet /\
    segs_AS (s :: segs') = segs_AS segs /\ pa_Length b' <= pa_Length b + 2 /\
    Flags b' = Flags b /\ Code b' = Code b /\ BGPPathAttrLen b' = BGPPathAttrLen b.
Proof.
  intros [Hsegs Hl] Hfit. pose proof (segs_len_nonneg _ _ Hsegs) as Hnn. unfold ensure_segment.
  destruct (needs_segment segs) eqn:En.
  - destruct (new_segment_ok asSize) as (Hwf & Hw & Hlen & Htot & Hty & Has).
    cbn [PrependASPathSegment]. rewrite insert_front_eq by done. res_simpl. cbn [app].
    do 3 eexists. split; [done|]. rewrite Htot. unfold path_ok. cbn [segs_len foldr]. fold (segs_len segs).
    rewrite Htot, Has, Hty. cbn [add_Length Flags Code BGPPathAttrLen pa_Length].
    split_and!; try done; try zlia; [by constructor|].
    unfold segs_AS. cbn [map concat]. by rewrite Has.
  - destruct segs as [|s segs]; [done|]. cbn [needs_segment] in En. apply orb_false_iff in En as [Et Elen].
    exists b, s, segs. apply Forall_cons in Hsegs as [[Hwf Hw] Hsegs].
    pose proof Hwf as (_ & Hgl & _). split_and!; try done; try lia.
    split; [by constructor|done].
Qed.

(** Putting new AS numbers in the first segment. *)
Lemma update_first_ok w b s segs asz f xs add :
  path_ok w b (s :: segs) ->
  (exists s', f s = Ok (true, s') /\ seg_with s s' (xs ++ seg_AS s)) ->
  add = w * len xs -> 0 <= w -> pa_Length b + add <= 65535 ->
  exists b' s', update_first_segment (PAASPath b (s :: segs) asz) f add
      = Ok (PAASPath b' (s' :: segs) asz) /\
    path_ok w b' (s' :: segs) /\ segs_AS (s' :: segs) = xs ++ segs_AS (s :: segs) /\
    Flags b' = Flags b /\ Code b' = Code b /\ BGPPathAttrLen b' = BGPPathAttrLen b.
Proof.
  intros [Hsegs Hl] (s' & Hf & Hwf' & Hw' & Ht' & Has') -> Hw0 Hfit.
  pose proof (segs_len_nonneg _ _ Hsegs) as Hnn.
  apply Forall_cons in Hsegs as [[Hwf Hw] Hsegs]. cbn [update_first_segment]. rewrite Hf. res_simpl.
  do 2 eexists. split; [done|]. pose proof Hwf as (_ & _ & _ & Htot & _).
  pose proof Hwf' as (_ & _ & _ & Htot' & _). rewrite Hw', Has' in Htot'. rewrite Hw in *.
  cbn [segs_len foldr] in *. fold (segs_len segs) in *. len_simpl. pose proof (len_nonneg xs).
  assert (0 <= w * len xs) by nia.
  split_and!; try done.
  - split; [constructor; [by split|done]|]. cbn [add_Length pa_Length segs_len foldr].
    fold (segs_len segs). rewrite Htot'. zlia.
  - unfold segs_AS. cbn [map concat]. by rewrite Has', <- app_assoc.
Qed.

Lemma PrependAS_skip pas as_ asSize :
  BGPPathAttrTypeASPath ∉ codes pas -> BGPPathAttrTypeAS4Path ∉ codes pas ->
  PrependAS pas as_ asSize = Ok pas.
Proof.
  induction pas as [|pa pas IH]; [done|]. cbn [codes map PrependAS]. intros H2 H17.
  unfold PrependAS_attr. rewrite (proj2 (Z.eqb_neq _ _)) by (intros Heq; apply H2; rewrite Heq; by left).
  rewrite (proj2 (Z.eqb_neq _ _)) by (intros Heq; apply H17; rewrite Heq; by left). res_simpl.
  rewrite IH; [done| |]; intros Hin; [apply H2|apply H17]; by right.
Qed.

Lemma PrependAS_app pre pas as_ asSize :
  BGPPathAttrTypeASPath ∉ codes pre -> BGPPathAttrTypeAS4Path ∉ codes pre ->
  PrependAS (pre ++ pas) as_ asSize = (pas' ← PrependAS pas as_ asSize; Ok (pre ++ pas')).
Proof.
  induction pre as [|pa pre IH]; intros H2 H17; cbn [app].
  { by destruct (PrependAS pas as_ asSize). }
  cbn [codes map PrependAS] in *. unfold PrependAS_attr.
  rewrite (proj2 (Z.eqb_neq _ _)) by (intros Heq; apply H2; rewrite Heq; by left).
  rewrite (proj2 (Z.eqb_neq _ _)) by (intros Heq; apply H17; rewrite Heq; by left). res_simpl.
  rewrite IH by (intros Hin; first [apply H2; by right | apply H17; by right]).
  by destruct (PrependAS pas as_ asSize).
Qed.

(** [PrependAS] puts the local AS in front of the AS path. On a list with one
    AS_PATH attribute of the session's AS size whose counters are right and no
    AS4_PATH, the path afterwards is the AS number followed by the old path, and
    the lengths of the attribute and of its segments are right again; a new
    sequence is begun when there is none, when a set comes first or when 255 are
    present. In a two-octet session the number is AS_TRANS if it does not fit and
    a sequence was begun, and is cut to 16 bits otherwise. *)
Theorem prepend_as_spec pre b segs asz post as_ asSize :
  Forall (fun c => c ∉ codes (pre ++ post)) [BGPPathAttrTypeASPath; BGPPathAttrTypeAS4Path] ->
  Code b = BGPPathAttrTypeASPath -> asSize = 2 \/ asSize = 4 -> is_u32 as_ ->
  path_ok asSize b segs -> pa_Length b + 6 <= 65535 ->
  exists b' segs',
    PrependAS (pre ++ PAASPath b segs asz :: post) as_ asSize
      = Ok (pre ++ PAASPath b' segs' asz :: post) /\
    path_ok asSize b' segs' /\
    segs_AS segs' = as_trunc asSize (trans_AS segs asSize as_) :: segs_AS segs /\
    Flags b' = Flags b /\ Code b' = Code b /\ BGPPathAttrLen b' = BGPPathAttrLen b.
Proof.
  intros Hn Hc Hsz Has Hok Hfit. rewrite !Forall_cons in Hn. destruct Hn as (H2 & H17 & _).
  unfold codes in H2, H17. rewrite map_app, not_elem_of_app in H2, H17.
  rewrite PrependAS_app by tauto. cbn [PrependAS]. unfold PrependAS_attr at 1.
  cbn [GetCode pa_base]. unfold GetCode at 1. cbn [pa_base]. rewrite Hc. cbn [Z.eqb Pos.eqb BGPPathAttrTypeASPath].
  assert (as_width asSize = asSize) as Hw by (by destruct Hsz as [-> | ->]). rewrite <- Hw in Hok.
  destruct (ensure_segment_ok b segs asz asSize Hok ltac:(lia))
    as (b1 & s & segs1 & Hens & Hok1 & Hroom & _ & Has1 & Hl1 & Hf1 & Hc1 & Ha1).
  change (if (2 =? 2) then ?x else ?y) with x. rewrite Hens. res_simpl. rewrite Hw in *.
  set (as1 := trans_AS segs asSize as_).
  assert (is_u32 as1) as Has1u by (unfold as1, trans_AS; destruct (_ && _); [done|done]).
  pose proof Hok1 as [Hs1 _]. apply Forall_cons in Hs1 as [[Hwf1 Hw1] _].
  destruct (seg_prepend_ok s as1 Hwf1 Has1u Hroom) as (s2 & Hs2 & Hwith). rewrite Hw1 in Hwith.
  destruct (update_first_ok asSize b1 s segs1 asz (fun s => BGPASPathSegment_PrependAS s as1)
    [as_trunc asSize as1] asSize Hok1 ltac:(eauto) ltac:(len_simpl; lia) ltac:(lia) ltac:(lia))
    as (b2 & s3 & Hup & Hok2 & Has2 & Hf2 & Hc2 & Ha2).
  rewrite Hup. res_simpl. rewrite PrependAS_skip by tauto. res_simpl.
  exists b2, (s3 :: segs1). split_and!; try done; try congruence. by rewrite Has2, Has1.
Qed.

Definition example_path : BGPPathAttr := PAASPath (mkBase 80 2 10 4) [example_segment] 4.

Lemma prepend_as_spec_witness :
  exists b' segs',
    PrependAS ([attr_of 1] ++ example_path :: [attr_of 3]) 70000 4
      = Ok ([attr_of 1] ++ PAASPath b' segs' 4 :: [attr_of 3]) /\
    path_ok 4 b' segs' /\
    segs_AS segs' = [70000; 65536; 7] /\
    Flags b' = 80 /\ Code b' = 2 /\ BGPPathAttrLen b' = 4.
Proof.
  apply (prepend_as_spec [attr_of 1] (mkBase 80 2 10 4) [example_segment] 4 [attr_of 3] 70000 4).
  - repeat constructor; intros H; cbn in H; repeat (apply elem_of_cons in H as [H|H]; [discriminate|]);
      by apply elem_of_nil in H.
  - done.
  - by right.
  - ground.
  - split; ground.
  - done.
Defined.

Lemma PrependASList_attrs_skip pas asList asSize n :
  BGPPathAttrTypeASPath ∉ codes pas -> BGPPathAttrTypeAS4Path ∉ codes pas ->
  PrependASList_attrs pas asList asSize n = Ok (pas, asList, n).
Proof.
  induction pas as [|pa pas IH]; [done|]. cbn [codes map PrependASList_attrs]. intros H2 H17.
  unfold PrependASList_attr.
  rewrite (proj2 (Z.eqb_neq _ _)) by (intros Heq; apply H2; rewrite Heq; by left).
  rewrite (proj2 (Z.eqb_neq _ _)) by (intros Heq; apply H17; rewrite Heq; by left). res_simpl.
  rewrite IH; [done| |]; intros Hin; [apply H2|apply H17]; by right.
Qed.

(** The loop reaches the one AS_PATH and leaves the rest alone. *)
Lemma PrependASList_attrs_one pre b segs asz post asList asSize n :
  Forall (fun c => c ∉ codes (pre ++ post)) [BGPPathAttrTypeASPath; BGPPathAttrTypeAS4Path] ->
  PrependASList_attrs (pre ++ PAASPath b segs asz :: post) asList asSize n
  = ('(pa, l, n) ← PrependASList_attr (PAASPath b segs asz) asList asSize n;
     Ok (pre ++ pa :: post, l, n)).
Proof.
  intros Hn. rewrite !Forall_cons in Hn. destruct Hn as (H2 & H17 & _).
  unfold codes in H2, H17. rewrite map_app, not_elem_of_app in H2, H17.
  destruct H2 as [H2 H2'], H17 as [H17 H17'].
  induction pre as [|pa pre IH]; cbn [app PrependASList_attrs].
  - destruct (PrependASList_attr (PAASPath b segs asz) asList asSize n) as [[[pa l] m]|e| |]; res_simpl; try done.
    by rewrite PrependASList_attrs_skip.
  - cbn [map] in H2, H17. unfold PrependASList_attr at 1.
    rewrite (proj2 (Z.eqb_neq _ _)) by (intros Heq; apply H2; rewrite Heq; by left).
    rewrite (proj2 (Z.eqb_neq _ _)) by (intros Heq; apply H17; rewrite Heq; by left). res_simpl.
    rewrite IH; [|intros Hin; apply H2; by right|intros Hin; apply H17; by right].
    by destruct (PrependASList_attr (PAASPath b segs asz) asList asSize n) as [[[pa' l] m]|e| |].
Qed.

(** Taking a list that fits, on a path whose first segment has room. *)
Lemma PrependASList_attr_fits b s segs asz asList asSize n :
  Code b = BGPPathAttrTypeASPath -> asSize = 2 \/ asSize = 4 -> Forall is_u32 asList ->
  path_ok asSize b (s :: segs) -> needs_segment (s :: segs) = false ->
  len (seg_AS s) + len asList < 255 -> pa_Length b + asSize * len asList <= 65535 ->
  exists b' s',
    PrependASList_attr (PAASPath b (s :: segs) asz) asList asSize n
      = Ok (PAASPath b' (s' :: segs) asz, asList, len asList) /\
    path_ok asSize b' (s' :: segs) /\ needs_segment (s' :: segs) = false /\
    len (seg_AS s') = len asList + len (seg_AS s) /\
    segs_AS (s' :: segs) = map (as_trunc asSize) asList ++ segs_AS (s :: segs) /\
    Flags b' = Flags b /\ Code b' = Code b /\ BGPPathAttrLen b' = BGPPathAttrLen b.
Proof.
  intros Hc Hsz Hlist Hok Hns Hroom Hfit. pose proof (len_nonneg asList) as Hll.
  pose proof Hok as [Hs Hlen]. pose proof (segs_len_nonneg _ _ Hs) as Hnn.
  apply Forall_cons in Hs as [[Hwf Hw] Hs].
  pose proof Hwf as (_ & Hgl & _). unfold PrependASList_attr, GetCode. cbn [pa_base]. rewrite Hc.
  assert (map (trans_AS (s :: segs) asSize) asList = asList) as ->.
  { rewrite <- (map_id asList) at 2. apply map_ext. intros x. unfold trans_AS. by rewrite Hns. }
  cbn [Z.eqb Pos.eqb BGPPathAttrTypeASPath]. unfold ensure_segment. rewrite Hns. res_simpl. rewrite Hgl.
  unfold GetMaxASes. rewrite (proj2 (Z.ltb_ge _ (len asList))) by lia.
  rewrite slice_range by lia. res_simpl. change (Z.to_nat 0) with 0%nat.
  rewrite Z.sub_0_r, drop_0, to_nat_len, firstn_all.
  destruct (seg_prepend_list_ok s asList Hwf Hlist ltac:(lia) ltac:(lia)) as (s2 & Hs2 & Hwith).
  rewrite Hw in Hwith. assert (0 <= asSize * len asList) by nia.
  destruct (update_first_ok asSize b s segs asz (fun s => BGPASPathSegment_PrependASList s asList)
    (map (as_trunc asSize) asList) (u16 (asSize * len asList)) Hok ltac:(eauto)
    ltac:(len_simpl; zlia) ltac:(lia) ltac:(zlia)) as (b2 & s3 & Hup & Hok2 & Has2 & Hf2 & Hc2 & Ha2).
  assert (s3 = s2) as ->.
  { cbn [update_first_segment] in Hup. rewrite Hs2 in Hup. res_simpl. by injection Hup. }
  rewrite Hup. res_simpl. exists b2, s2. destruct Hwith as (Hwf2 & _ & Ht2 & Hseq2).
  pose proof Hwf2 as (_ & Hgl2 & _).
  assert (len (seg_AS s2) = len asList + len (seg_AS s)) as Hl2 by (rewrite Hseq2; len_simpl; lia).
  split_and!; try done; try congruence.
  cbn [needs_segment] in *. rewrite Ht2, Hgl2, Hl2. apply orb_false_iff in Hns as [-> _].
  cbn [orb]. apply Z.leb_gt. lia.
Qed.

(** [PrependASList] with a list that fits the first segment. When the path
    begins with a sequence that has room for the list and stays below 255, the
    numbers are put in front in their order (cut to 16 bits in a two-octet
    session), the counters stay right, and the recursion ends after its second
    call, which has nothing left to take. *)
Theorem prepend_list_spec fuel pre b s segs asz post asList asSize :
  Forall (fun c => c ∉ codes (pre ++ post)) [BGPPathAttrTypeASPath; BGPPathAttrTypeAS4Path] ->
  Code b = BGPPathAttrTypeASPath -> asSize = 2 \/ asSize = 4 -> Forall is_u32 asList ->
  path_ok asSize b (s :: segs) -> needs_segment (s :: segs) = false ->
  len (seg_AS s) + len asList < 255 -> pa_Length b + asSize * len asList <= 65535 ->
  (2 <= fuel)%nat ->
  exists b' s',
    PrependASList fuel (pre ++ PAASPath b (s :: segs) asz :: post) asList asSize
      = Ok (pre ++ PAASPath b' (s' :: segs) asz :: post) /\
    path_ok asSize b' (s' :: segs) /\
    segs_AS (s' :: segs) = map (as_trunc asSize) asList ++ segs_AS (s :: segs).
Proof.
  intros Hn Hc Hsz Hlist Hok Hns Hroom Hfit Hfuel.
  destruct fuel as [|[|fuel]]; [lia|lia|]. cbn [PrependASList].
  rewrite (PrependASList_attrs_one pre b (s :: segs)) by done.
  destruct (PrependASList_attr_fits b s segs asz asList asSize 0 Hc Hsz Hlist Hok Hns Hroom Hfit)
    as (b1 & s1 & -> & Hok1 & Hns1 & Hl1 & Has1 & Hf1 & Hc1 & Ha1). res_simpl.
  destruct (0 <? len asList) eqn:E; [|eauto].
  rewrite slice_from_range by (pose proof (len_nonneg asList); lia). res_simpl.
  rewrite to_nat_len, drop_all.
  rewrite (PrependASList_attrs_one pre b1 (s1 :: segs)) by done.
  pose proof Hok1 as [Hs Hlen1]. pose proof Hok as [Hs0 Hlen0].
  assert (pa_Length b1 <= 65535) as Hb1.
  { rewrite Hlen1. cbn [segs_len foldr]. fold (segs_len segs). rewrite Hlen0 in Hfit. cbn [segs_len foldr] in Hfit.
    fold (segs_len segs) in Hfit.
    apply Forall_cons in Hs as [[(_ & _ & _ & Ht1 & _) Hw1] _].
    apply Forall_cons in Hs0 as [[(_ & _ & _ & Ht0 & _) Hw0] _].
    rewrite Ht1, Hl1, Hw1. rewrite Ht0, Hw0 in Hfit. lia. }
  destruct (PrependASList_attr_fits b1 s1 segs asz [] asSize 0 ltac:(congruence) Hsz
    ltac:(constructor) Hok1 Hns1) as (b2 & s2 & -> & Hok2 & _ & _ & Has2 & _);
    [change (len []) with 0; lia|change (len []) with 0; lia|].
  res_simpl. change (0 <? len []) with false. cbn iota. exists b2, s2.
  split_and!; [done|done|]. rewrite Has2, Has1. done.
Qed.

Lemma prepend_list_spec_witness :
  exists b' s',
    PrependASList 2 ([] ++ PAASPath (mkBase 80 2 10 4) [example_segment] 4 :: []) [5; 70000] 4
      = Ok ([] ++ PAASPath b' [s'] 4 :: []) /\
    path_ok 4 b' [s'] /\ segs_AS [s'] = [5; 70000; 65536; 7].
Proof.
  apply (prepend_list_spec 2 [] (mkBase 80 2 10 4) example_segment [] 4 [] [5; 70000] 4).
  - repeat constructor; apply not_elem_of_nil.
  - done.
  - by right.
  - ground.
  - split; ground.
  - done.
  - done.
  - done.
  - lia.
Defined.

(** [PrependASList] corrupts the path when the list fills a four-octet
    segment. For 255 AS numbers and an AS_PATH without segments, the new segment
    refuses the list because [PrependASList] of four-octet segments compares with
    [>= 255], the refusal is not looked at, and the attribute's length grows by
    1020 octets that no segment has: the encoder then writes an attribute whose
    octets are not those of its segments. *)
Theorem prepend_list_corrupts fuel b asz asList :
  Code b = BGPPathAttrTypeASPath -> pa_Length b = 0 -> len asList = 255 -> (2 <= fuel)%nat ->
  exists b' segs,
    PrependASList fuel [PAASPath b [] asz] asList 4 = Ok [PAASPath b' segs asz] /\
    pa_Length b' = 1022 /\ segs_len segs = 2 /\ segs_AS segs = [].
Proof.
  intros Hc Hl Hn Hfuel. destruct fuel as [|[|fuel]]; [lia|lia|]. destruct b as [fl c l n].
  cbn [Code pa_Length] in *. change BGPPathAttrTypeASPath with 2 in Hc. subst c l.
  exists (mkBase fl 2 1022 n), [Seg4 NewBGPAS4PathSegmentSeq]. split; [|done].
  assert (map (trans_AS [] 4) asList = asList) as Hmap.
  { rewrite <- (map_id asList) at 2. by apply map_ext. }
  assert (PrependASList_attrs [PAASPath (mkBase fl 2 0 n) [] asz] asList 4 0
    = Ok ([PAASPath (mkBase fl 2 1022 n) [Seg4 NewBGPAS4PathSegmentSeq] asz], asList, 255)) as Hfirst.
  { cbn [PrependASList_attrs]. unfold PrependASList_attr, GetCode. cbn [pa_base Code].
    cbn [Z.eqb Pos.eqb BGPPathAttrTypeASPath]. rewrite Hmap.
    change (ensure_segment (PAASPath (mkBase fl 2 0 n) [] asz) [] 4)
      with (Ok (PAASPath (mkBase fl 2 2 n) [Seg4 NewBGPAS4PathSegmentSeq] asz)). res_simpl.
    change (GetMaxASes - BGPASPathSegment_GetLen (Seg4 NewBGPAS4PathSegmentSeq)) with 255.
    rewrite Hn. change (255 <? 255) with false. cbn iota. rewrite slice_range by lia. res_simpl.
    change (Z.to_nat 0) with 0%nat. rewrite drop_0, take_ge by (unfold len in Hn; lia).
    cbn [update_first_segment BGPASPathSegment_PrependASList].
    unfold BGPAS4PathSegment_PrependASList. rewrite Hn. done. }
  cbn [PrependASList]. rewrite Hfirst. res_simpl. change (0 <? 255) with true. cbn iota.
  rewrite slice_from_range by lia. res_simpl. rewrite drop_ge by (unfold len in Hn; lia). done.
Qed.

Lemma prepend_list_corrupts_witness :
  exists b' segs,
    PrependASList 3 [PAASPath (mkBase 80 2 0 4) [] 4] (repeat 7 255) 4 = Ok [PAASPath b' segs 4] /\
    pa_Length b' = 1022 /\ segs_len segs = 2 /\ segs_AS segs = [].
Proof. apply (prepend_list_corrupts 3 (mkBase 80 2 0 4) 4 (repeat 7 255)); done || lia. Defined.

(** ** Route reflection *)

(** adding ORIGINATOR_ID drops the attributes behind it. On a sorted list
    without one, [AddOriginatorId] returns the attributes with a smaller or equal
    type followed by the new one; every attribute of a larger type, such as
    CLUSTER_LIST, MP_REACH_NLRI or AS4_PATH, is lost, because
    [append(attrs[:idx], x)] cuts the slice before the copy that should move its
    tail. *)
Theorem originator_id_drops_tail pas id :
  sorted pas -> pas <> [] -> BGPPathAttrTypeOriginatorId ∉ codes pas ->
  exists pre post,
    pas = pre ++ post /\
    (forall p, p ∈ pre -> GetCode p < BGPPathAttrTypeOriginatorId) /\
    (forall p, p ∈ post -> BGPPathAttrTypeOriginatorId < GetCode p) /\
    AddOriginatorId pas id = Ok (pre ++ [NewBGPPathAttrOriginatorId id], true).
Proof.
  intros Hs Hne Hn.
  destruct (first_larger_spec BGPPathAttrTypeOriginatorId pas 0 Hne Hs) as (k & Hk & Hle & Ht & Hd).
  exists (take k pas), (drop k pas). rewrite take_drop. split; [done|]. split; [|split; [done|]].
  - intros p Hp. specialize (Ht p Hp).
    enough (GetCode p <> BGPPathAttrTypeOriginatorId) by lia. intros Hc. apply Hn. rewrite <- Hc.
    unfold codes. apply list_elem_of_fmap_2. rewrite <- (take_drop k pas). set_solver.
  - unfold AddOriginatorId. rewrite Hk.
    assert (existsb (fun pa => GetCode pa =? BGPPathAttrTypeOriginatorId) pas = false) as ->.
    { apply not_true_is_false. intros Hex. apply Hn. by apply existsb_GetCode. }
    rewrite (proj2 (Z.leb_le 0 _)) by lia. rewrite cut_and_append_eq by (unfold len; lia).
    res_simpl. by rewrite Z.add_0_l, Nat2Z.id.
Qed.

Definition example_attrs' : list BGPPathAttr := map attr_of [1; 2; 3; 10; 14].

Lemma example_attrs'_sorted : sorted example_attrs'.
Proof.
  unfold sorted. cbn. repeat (constructor; [|repeat (constructor; [lia|]); constructor]). constructor.
Defined.

Lemma originator_id_drops_tail_witness :
  exists pre post,
    example_attrs' = pre ++ post /\
    (forall p, p ∈ pre -> GetCode p < BGPPathAttrTypeOriginatorId) /\
    (forall p, p ∈ post -> BGPPathAttrTypeOriginatorId < GetCode p) /\
    AddOriginatorId example_attrs' [10; 0; 0; 1]
      = Ok (pre ++ [NewBGPPathAttrOriginatorId [10; 0; 0; 1]], true).
Proof.
  apply (originator_id_drops_tail example_attrs' [10; 0; 0; 1]).
  - apply example_attrs'_sorted.
  - done.
  - intros H. cbn in H. repeat (apply elem_of_cons in H as [H|H]; [discriminate|]).
    by apply elem_of_nil in H.
Defined.

(** the BGP identifier comparison ignores the middle octets. The value
    [ConvertIPBytesToUint] makes of an address is its first octet times 2^24 plus
    its last one: [bytes[1]<<16] and [bytes[2]<<8] shift within an octet. Two
    addresses that differ in the middle octets are the same identifier to the
    connection collision resolution. *)
Theorem convert_ip_drops_octets a b c d :
  is_bytes [a; b; c; d] ->
  ConvertIPBytesToUint [a; b; c; d] = Ok (a * 16777216 + d).
Proof.
  intros H. unfold is_bytes in H. rewrite !Forall_cons in H. destruct H as (Ha & Hb & Hc & Hd & _).
  unfold ConvertIPBytesToUint. change (index [a; b; c; d] 0) with (Ok a).
  change (index [a; b; c; d] 1) with (Ok b). change (index [a; b; c; d] 2) with (Ok c).
  change (index [a; b; c; d] 3) with (Ok d). res_simpl. f_equal.
  rewrite !Z.shiftl_mul_pow2 by lia.
  replace (u8 (b * 2 ^ 16)) with 0 by zlia. replace (u8 (c * 2 ^ 8)) with 0 by zlia.
  rewrite !Z.lor_0_r. change (2 ^ 24) with 16777216.
  rewrite <- Z.lxor_lor, <- Z.add_nocarry_lxor; [done| |].
  all: apply Z.bits_inj'; intros n Hn; rewrite Z.land_spec, Z.bits_0.
  all: change 16777216 with (2 ^ 24); rewrite Z.mul_pow2_bits by lia.
  all: destruct (decide (n < 24)) as [Hlt|Hge]; [by rewrite Z.testbit_neg_r by lia|].
  all: apply andb_false_iff; right.
  all: destruct (Z.eq_dec d 0) as [->|]; [apply Z.bits_0|].
  all: apply Z.bits_above_log2; [zlia|].
  all: apply Z.log2_lt_pow2; [zlia|].
  all: apply Z.lt_le_trans with (2 ^ 24); [zlia|]; apply Z.pow_le_mono_r; lia.
Qed.

Lemma convert_ip_drops_octets_witness :
  ConvertIPBytesToUint [10; 1; 2; 3] = Ok (10 * 16777216 + 3).
Proof. apply (convert_ip_drops_octets 10 1 2 3). ground. Defined.
