(* ===== verification/BgpNormalize.v ===== *)
(** * AS path conversion and whole messages

    The conversions between two- and four-octet AS paths of
    src/bgp/packet/helpers.go, which normalise a received UPDATE and adapt one
    that is sent, BGPMessage of src/bgp/packet/bgp.go, and DecodeMessage of
    src/bgp/fsm/conn.go, which learns the peer's capabilities from its OPEN. *)

From S2P Require Import Prelude.
From S2P Require Import BgpOpen.
From S2P Require Import BgpNlri.
From S2P Require Import BgpAsPath.
From S2P Require Import BgpAttr.
From S2P Require Import BgpAttrCodec.
From S2P Require Import BgpUpdate.
From S2P Require Import BgpHelpers.

(** ** Counting *)

(** A set counts as one AS; a segment that is neither a set nor a sequence does
    not count. *)
Definition count_by_type (n : Z) (b : BGPASPathSegmentBase) : Z :=
  if seg_Type b =? BGPASPathSegmentSet then u32 (n + 1)
  else if seg_Type b =? BGPASPathSegmentSequence then u32 (n + seg_Length b)
  else n.

Definition GetNumASesByASType (pas : list BGPPathAttr) (asType : Z) : res Z :=
  if asType =? BGPPathAttrTypeASPath then
    match getTypeFromPathAttrs pas asType with
    | Some (PAASPath _ segs _) => Ok (foldl (fun n s => count_by_type n (seg_base s)) 0 segs)
    | Some _ => Panic
    | None => Ok 0
    end
  else if asType =? BGPPathAttrTypeAS4Path then
    match getTypeFromPathAttrs pas asType with
    | Some (PAAS4Path _ segs) => Ok (foldl (fun n s => count_by_type n (as4_base s)) 0 segs)
    | Some _ => Panic
    | None => Ok 0
    end
  else Ok 0.

(** ** From two to four octets *)

(** [as4Seg.AS = make([]uint32, as4Seg.Length)], into which the loop writes the
    numbers of the old segment: one more than [Length] is out of range. *)
Definition widen_segment (seg : BGPASPathSegment) : res BGPASPathSegment :=
  match seg with
  | Seg2 s =>
    _ ← must (len (as2_AS s) <=? seg_Length (as2_base s));
    Ok (Seg4 (mkAS4
      (mkSegBase (seg_Type (as2_base s)) (seg_Length (as2_base s))
         (u16 (2 + u16 (seg_Length (as2_base s) * 4))))
      (as2_AS s ++ zeros (seg_Length (as2_base s) - len (as2_AS s)))))
  | Seg4 _ => Panic
  end.

Fixpoint append_segments (f : BGPASPathSegment -> res BGPASPathSegment) (pa : BGPPathAttr)
  (segs : list BGPASPathSegment) : res BGPPathAttr :=
  match segs with
  | [] => Ok pa
  | seg :: segs =>
    seg ← f seg;
    pa ← AppendASPathSegment pa seg;
    append_segments f pa segs
  end.

Definition set_ASSize (asSize : Z) (pa : BGPPathAttr) : BGPPathAttr :=
  match pa with PAASPath b v _ => PAASPath b v asSize | _ => pa end.

(** The first AS_PATH of the list is replaced; the later ones are not reached. *)
Fixpoint ConvertAS2ToAS4 (pas : list BGPPathAttr) : res (list BGPPathAttr) :=
  match pas with
  | [] => Ok []
  | pa :: pas =>
    if GetCode pa =? BGPPathAttrTypeASPath then
      match pa with
      | PAASPath _ segs _ =>
        new ← append_segments widen_segment (set_ASSize 4 NewBGPPathAttrASPath) segs;
        Ok (new :: pas)
      | _ => Panic
      end
    else
      pas ← ConvertAS2ToAS4 pas;
      Ok (pa :: pas)
  end.

(** ** Merging AS_PATH and AS4_PATH *)

(** The loop over the segments of the old path: the path built so far, the index
    and the AS numbers it has taken. The index of a loop that runs to the end is
    the last one. *)
Fixpoint take_segments (segs : list BGPASPathSegment) (skip segIdx asNum : Z) (pa : BGPPathAttr)
  : res (BGPPathAttr * Z * Z) :=
  match segs with
  | [] => Ok (pa, segIdx, asNum)
  | seg :: segs =>
    if skip <? u16 (BGPASPathSegment_GetNumASes seg + asNum) then Ok (pa, segIdx, asNum)
    else
      pa ← AppendASPathSegment pa seg;
      let asNum := u16 (asNum + BGPASPathSegment_GetNumASes seg) in
      match segs with
      | [] => Ok (pa, segIdx, asNum)
      | _ => take_segments segs skip (segIdx + 1) asNum pa
      end
  end.

Definition ConstructASPathFromAS4Path (segs : list BGPASPathSegment) (segs4 : list BGPAS4PathSegment)
  (skip : Z) : res BGPPathAttr :=
  '(pa, segIdx, asNum) ← take_segments segs skip 0 0 (set_ASSize 4 NewBGPPathAttrASPath);
  match segs4 with
  | [] => Ok pa
  | segment :: segs4 =>
    seg ← index segs segIdx;
    match seg with
    | Seg4 seg =>
      front ← slice (as4_AS seg) 0 (u16 (skip - asNum));
      '(_, segment) ← BGPAS4PathSegment_PrependASList segment front;
      append_segments Ok pa (map Seg4 (segment :: segs4))
    | Seg2 _ => Panic
    end
  end.

(** ** From four to two octets *)

Definition CloneAsAS4Path (b : BGPPathAttrBase) (segs : list BGPASPathSegment) : res BGPPathAttr :=
  let nb := NewBGPPathAttrAS4Path_base in
  segs4 ← foldr (fun s r => l ← r; match s with Seg4 s => Ok (s :: l) | Seg2 _ => Panic end)
            (Ok []) segs;
  Ok (PAAS4Path (mkBase (Flags nb) (Code nb) (pa_Length b)
        (u16 (BGPPathAttrLen nb + u16 (len segs * 4)))) segs4).

(** The two-octet copies and whether an AS number did not fit. *)
Fixpoint narrow_segments (segs : list BGPASPathSegment) (pa : BGPPathAttr) (addAS4Path : bool)
  : res (BGPPathAttr * bool) :=
  match segs with
  | [] => Ok (pa, addAS4Path)
  | Seg4 s :: segs =>
    let (as2Seg, mappable) := CloneAsAS2PathSegment s in
    pa ← AppendASPathSegment pa (Seg2 as2Seg);
    narrow_segments segs pa (addAS4Path || negb mappable)
  | Seg2 _ :: _ => Panic
  end.

(** The first AS_PATH of the list and what comes before and after it. *)
Fixpoint split_ASPath (pas : list BGPPathAttr)
  : option (list BGPPathAttr * BGPPathAttr * list BGPPathAttr) :=
  match pas with
  | [] => None
  | pa :: pas =>
    if GetCode pa =? BGPPathAttrTypeASPath then Some ([], pa, pas)
    else option_map (fun '(pre, x, post) => (pa :: pre, x, post)) (split_ASPath pas)
  end.

Definition Convert4ByteTo2ByteASPath (pas : list BGPPathAttr) : res (list BGPPathAttr) :=
  match split_ASPath pas with
  | None => Ok pas
  | Some (pre, PAASPath b segs _, post) =>
    newAS4Path ← CloneAsAS4Path b segs;
    '(newAS2Path, addAS4Path) ← narrow_segments segs NewBGPPathAttrASPath false;
    let pas := pre ++ newAS2Path :: post in
    if (addAS4Path : bool) then AddPathAttrToPathAttrsByCode pas BGPPathAttrTypeAS4Path newAS4Path
    else Ok pas
  | Some _ => Panic
  end.

(** ** Normalising a received UPDATE *)

(** The last attribute of each of the four types, as the loop leaves it in its
    variable; an attribute of another struct type under one of the codes is a
    failed assertion. *)
Record as_attrs := mkAsAttrs {
  asPath : option (BGPPathAttrBase * list BGPASPathSegment * Z);
  as4Path : option (list BGPAS4PathSegment);
  asAggregator : option (option BGPAggregatorAS);
  as4Aggregator : bool;
}.

Fixpoint find_as_attrs (pas : list BGPPathAttr) (a : as_attrs) : res as_attrs :=
  match pas with
  | [] => Ok a
  | pa :: pas =>
    a ← (if GetCode pa =? BGPPathAttrTypeASPath then
           match pa with
           | PAASPath b v s => Ok (mkAsAttrs (Some (b, v, s)) (as4Path a) (asAggregator a) (as4Aggregator a))
           | _ => Panic
           end
         else if GetCode pa =? BGPPathAttrTypeAS4Path then
           match pa with
           | PAAS4Path _ v => Ok (mkAsAttrs (asPath a) (Some v) (asAggregator a) (as4Aggregator a))
           | _ => Panic
           end
         else if GetCode pa =? BGPPathAttrTypeAggregator then
           match pa with
           | PAAggregator _ v _ => Ok (mkAsAttrs (asPath a) (as4Path a) (Some v) (as4Aggregator a))
           | _ => Panic
           end
         else if GetCode pa =? BGPPathAttrTypeAS4Aggregator then
           match pa with
           | PAAS4Aggregator _ _ _ => Ok (mkAsAttrs (asPath a) (as4Path a) (asAggregator a) true)
           | _ => Panic
           end
         else Ok a);
    find_as_attrs pas a
  end.

Definition remove (code : Z) (pas : list BGPPathAttr) : list BGPPathAttr :=
  (removeTypeFromPathAttrs pas code).1.

(** AGGREGATOR and AS4_AGGREGATOR are present and the former is not AS_TRANS. *)
Definition foreign_aggregator (a : as_attrs) : res bool :=
  match asAggregator a with
  | Some AS =>
    if as4Aggregator a then
      AS ← of_option AS;
      Ok (negb (u16 (BGPAggregatorAS_GetAS AS) =? BGPASTrans))
    else Ok false
  | None => Ok false
  end.

(** [ConstructASPathFromAS4Path] is given the AS_PATH found before the
    conversion, whose segments have two octets. *)
Definition NormalizeASPath_attrs (pas : list BGPPathAttr) : res (list BGPPathAttr) :=
  a ← find_as_attrs pas (mkAsAttrs None None None false);
  match asPath a with
  | None => Ok pas
  | Some (_, segs, asSize) =>
    if asSize =? 2 then
      foreign ← foreign_aggregator a;
      if (foreign : bool) then
        Ok (remove BGPPathAttrTypeAS4Path (remove BGPPathAttrTypeAS4Aggregator pas))
      else
        pas ← ConvertAS2ToAS4 pas;
        match as4Path a with
        | None => Ok pas
        | Some segs4 =>
          numASes ← GetNumASesByASType pas BGPPathAttrTypeASPath;
          numAS4es ← GetNumASesByASType pas BGPPathAttrTypeAS4Path;
          if numAS4es <=? numASes then
            newASPath ← ConstructASPathFromAS4Path segs segs4 (u16 (numASes - numAS4es));
            AddPathAttrToPathAttrsByCode
              (remove BGPPathAttrTypeASPath (remove BGPPathAttrTypeAS4Path pas))
              BGPPathAttrTypeASPath newASPath
          else Ok pas
        end
    else if asSize =? 4 then
      let pas := if as4Aggregator a then remove BGPPathAttrTypeAS4Aggregator pas else pas in
      Ok (match as4Path a with Some _ => remove BGPPathAttrTypeAS4Path pas | None => pas end)
    else Ok pas
  end.

Definition NormalizeASPath (msg : BGPUpdate) : res BGPUpdate :=
  if TotalPathAttrLen msg =? 0 then Ok msg else
  pas ← NormalizeASPath_attrs (PathAttributes msg);
  Ok (mkBGPUpdate (WithdrawnRoutesLen msg) (WithdrawnRoutes msg) (TotalPathAttrLen msg) pas (NLRI_ msg)).

(** ** Messages *)

Inductive BGPBody :=
| BodyOpen (msg : BGPOpen)
| BodyKeepAlive
| BodyUpdate (msg : BGPUpdate)
| BodyNotification (msg : BGPNotification).

(** A message decoded under an unknown type has no body. *)
Record BGPMessage := mkBGPMessage { Header : BGPHeader; Body : option BGPBody }.

Definition BGPBody_Encode (b : BGPBody) : res bytes :=
  match b with
  | BodyOpen msg => BGPOpen_Encode msg
  | BodyKeepAlive => Ok []
  | BodyUpdate msg => BGPUpdate_Encode msg
  | BodyNotification msg => BGPNotification_Encode msg
  end.

Definition BGPMessage_Encode (msg : BGPMessage) : res bytes :=
  body ← of_option (Body msg);
  body ← BGPBody_Encode body;
  let h := Header msg in
  h ← (if hdr_Length h =? 0 then
         _ ← guard_err (BGPMsgMaxLen <? BGPMsgHeaderLen + len body) (BGPMessageError 0 0 []);
         Ok (mkBGPHeader (u16 (BGPMsgHeaderLen + u16 (len body))) (hdr_Type h))
       else Ok h);
  header ← BGPHeader_Encode h;
  Ok (header ++ body).

(** [fuel] is for the optional parameters of an OPEN. *)
Definition BGPMessage_Decode (fuel : nat) (peer : BGPPeerAttrs) (h : BGPHeader) (pkt : bytes)
  : res BGPMessage :=
  if hdr_Type h =? BGPMsgTypeOpen then
    b ← BGPOpen_Decode fuel pkt; Ok (mkBGPMessage h (Some (BodyOpen b)))
  else if hdr_Type h =? BGPMsgTypeKeepAlive then Ok (mkBGPMessage h (Some BodyKeepAlive))
  else if hdr_Type h =? BGPMsgTypeUpdate then
    b ← BGPUpdate_Decode peer (hdr_Length h) pkt;
    b ← NormalizeASPath b;
    Ok (mkBGPMessage h (Some (BodyUpdate b)))
  else if hdr_Type h =? BGPMsgTypeNotification then
    b ← BGPNotification_Decode pkt; Ok (mkBGPMessage h (Some (BodyNotification b)))
  else Ok (mkBGPMessage h None).

Definition NewBGPUpdateMessage (wdRoutes : list NLRI) (pa : list BGPPathAttr) (nlri : list NLRI)
  : BGPMessage :=
  mkBGPMessage (mkBGPHeader 0 BGPMsgTypeUpdate) (Some (BodyUpdate (mkBGPUpdate 0 wdRoutes 0 pa nlri))).
Definition NewBGPKeepAliveMessage : BGPMessage :=
  mkBGPMessage (mkBGPHeader 19 BGPMsgTypeKeepAlive) (Some BodyKeepAlive).

(** ** DecodeMessage

    [peerAS] and [addPathsRx] are the neighbor's configuration. The result is
    the message if its body decoded, the error for the FSM, whether reading goes
    on, and what is known of the peer afterwards. An error that is not a
    BGPMessageError fails the assertion on it. *)
Definition DecodeMessage (fuel : nat) (peerAS : Z) (addPathsRx : bool) (peer : BGPPeerAttrs)
  (h : BGPHeader) (buf : bytes)
  : res (option BGPMessage * option goerr * bool * BGPPeerAttrs) :=
  let msgOk := negb (hdr_Type h =? BGPMsgTypeNotification) in
  match BGPMessage_Decode fuel peer h buf with
  | Err (BGPMessageError t s d) => Ok (None, Some (BGPMessageError t s d), false, peer)
  | Err (ErrText _) => Panic
  | Panic => Panic
  | NoFuel => NoFuel
  | Ok msg =>
    match Body msg with
    | Some (BodyOpen b) =>
      as_ ← GetPeerAS b;
      if negb (as_ =? peerAS) then
        Ok (Some msg, Some (BGPMessageError BGPOpenMsgError BGPBadPeerAS []), false, peer)
      else
        asSize ← GetASSize b;
        let family := GetAddPathFamily b in
        let rx := if IsAddPathsTxEnabledForIPv4 family && addPathsRx then true
                  else AddPathsRxActual peer in
        Ok (Some msg, None, msgOk, mkPeerAttrs asSize family rx)
    | _ => Ok (Some msg, None, msgOk, peer)
    end
  end.

(** ** Lemmas on the conversions *)

Lemma append_segments_eq f b acc asz segs segs' :
  Forall2 (fun s s' => f s = Ok s') segs segs' ->
  append_segments f (PAASPath b acc asz) segs
  = Ok (PAASPath (foldl (fun b s => add_Length b (BGPASPathSegment_TotalLen s)) b segs')
          (acc ++ segs') asz).
Proof.
  intros Hf. revert b acc. induction Hf as [|s s' segs segs' Hs _ IH]; intros b acc;
    cbn [append_segments foldl].
  { by rewrite app_nil_r. }
  rewrite Hs. res_simpl. cbn [AppendASPathSegment]. res_simpl. by rewrite IH, <- app_assoc.
Qed.

Lemma foldl_add_Length b segs :
  0 <= pa_Length b -> 0 <= segs_len segs -> pa_Length b + segs_len segs <= 65535 ->
  Forall (fun s => 0 <= BGPASPathSegment_TotalLen s) segs ->
  let b' := foldl (fun b s => add_Length b (BGPASPathSegment_TotalLen s)) b segs in
  pa_Length b' = pa_Length b + segs_len segs /\ Flags b' = Flags b /\ Code b' = Code b /\
  BGPPathAttrLen b' = BGPPathAttrLen b.
Proof.
  intros H0 _ Hfit Hs. revert b H0 Hfit. induction Hs as [|s segs Hs Hss IH]; intros b H0 Hfit; cbn [foldl].
  { cbn. split_and!; lia || done. }
  cbn [segs_len foldr] in *. fold (segs_len segs) in *.
  assert (0 <= segs_len segs) as Hnn.
  { clear -Hss. induction Hss as [|x l Hx _ IH]; [done|]. cbn [segs_len foldr]. fold (segs_len l). lia. }
  assert (pa_Length (add_Length b (BGPASPathSegment_TotalLen s))
    = pa_Length b + BGPASPathSegment_TotalLen s) as Hb by (cbn; zlia).
  destruct (IH (add_Length b (BGPASPathSegment_TotalLen s))) as (H1 & H2 & H3 & H4);
    [lia|lia|]. rewrite H1, H2, H3, H4, Hb. split_and!; [lia|done|done|done].
Qed.

Lemma seg_wf_TotalLen_nonneg s : seg_wf s -> 0 <= BGPASPathSegment_TotalLen s.
Proof.
  intros (_ & _ & _ & -> & _). pose proof (len_nonneg (seg_AS s)). destruct s; cbn [seg_width]; lia.
Qed.

Definition widened (s : BGPASPathSegment) : BGPASPathSegment :=
  Seg4 (mkAS4 (mkSegBase (BGPASPathSegment_GetType s) (BGPASPathSegment_GetLen s)
    (2 + 4 * len (seg_AS s))) (seg_AS s)).

Lemma widen_segment_ok s :
  seg_wf s -> seg_width s = 2 -> widen_segment s = Ok (widened s) /\ seg_wf (widened s).
Proof.
  intros (Ht & Hl & H255 & Htot & HAS) Hw. destruct s as [s|s]; [|done].
  unfold BGPASPathSegment_GetLen in Hl. cbn [seg_base seg_AS seg_width] in *.
  pose proof (len_nonneg (as2_AS s)). split.
  - cbn [widen_segment]. rewrite Hl, Z.leb_refl. res_simpl. unfold widened.
    cbn [seg_AS]. unfold BGPASPathSegment_GetType, BGPASPathSegment_GetLen. cbn [seg_base].
    rewrite Hl, Z.sub_diag, zeros_0, app_nil_r.
    by replace (u16 (2 + u16 (len (as2_AS s) * 4))) with (2 + 4 * len (as2_AS s)) by zlia.
  - unfold seg_wf, widened. cbn [seg_AS as4_AS seg_width]. split_and!; try done.
    eapply Forall_impl; [exact HAS|]. intros x Hx. unfold is_as in *. cbn in *. zlia.
Qed.

(** Widening a path keeps the AS numbers, the segment types and the counters. *)
Lemma widen_path w b segs :
  path_ok 2 b segs -> pa_Length b <= 32767 -> w = NewBGPPathAttrASPath ->
  exists b', append_segments widen_segment (set_ASSize 4 w) segs = Ok (PAASPath b' (map widened segs) 4) /\
    path_ok 4 b' (map widened segs) /\ segs_AS (map widened segs) = segs_AS segs /\
    Flags b' = 80 /\ Code b' = BGPPathAttrTypeASPath /\ BGPPathAttrLen b' = 4.
Proof.
  intros [Hsegs Hl] Hle ->. cbn [set_ASSize NewBGPPathAttrASPath].
  assert (Forall2 (fun s s' => widen_segment s = Ok s') segs (map widened segs)) as HF.
  { clear -Hsegs. induction Hsegs as [|s segs [Hwf Hw] _ IH]; constructor; [|done].
    by apply widen_segment_ok. }
  assert (Forall (fun s => seg_wf s /\ seg_width s = 4) (map widened segs)) as Hok.
  { apply Forall_map. eapply Forall_impl; [exact Hsegs|]. intros s [Hwf Hw].
    split; [by apply widen_segment_ok|done]. }
  assert (segs_len (map widened segs) <= 2 * segs_len segs) as Hlen.
  { clear -Hsegs. induction Hsegs as [|s segs [(_ & _ & _ & Ht & _) Hw] _ IH]; [done|].
    cbn [map segs_len foldr]. fold (segs_len segs). fold (segs_len (map widened segs)).
    rewrite Ht, Hw. change (BGPASPathSegment_TotalLen (widened s)) with (2 + 4 * len (seg_AS s)).
    pose proof (len_nonneg (seg_AS s)). lia. }
  rewrite (append_segments_eq _ _ _ _ _ _ HF). cbn [app]. eexists. split; [done|].
  pose proof (segs_len_nonneg _ _ Hok) as Hnn.
  destruct (foldl_add_Length (mkBase 80 BGPPathAttrTypeASPath 0 4) (map widened segs))
    as (H1 & H2 & H3 & H4); [done|done|cbn; lia| |].
  { eapply Forall_impl; [exact Hok|]. intros s [Hwf _]. by apply seg_wf_TotalLen_nonneg. }
  split_and!; try done.
  unfold segs_AS. f_equal. rewrite map_map. by apply map_ext.
Qed.

(** The other attributes do not take part in the conversion. *)
Definition plain_attrs (pas : list BGPPathAttr) : Prop :=
  Forall (fun c => c ∉ codes pas)
    [BGPPathAttrTypeASPath; BGPPathAttrTypeAS4Path; BGPPathAttrTypeAS4Aggregator] /\
  Forall (fun pa => GetCode pa = BGPPathAttrTypeAggregator ->
                    exists b AS ip, pa = PAAggregator b AS ip) pas.

Lemma plain_attrs_cons pa pas :
  plain_attrs (pa :: pas) ->
  GetCode pa <> BGPPathAttrTypeASPath /\ GetCode pa <> BGPPathAttrTypeAS4Path /\
  GetCode pa <> BGPPathAttrTypeAS4Aggregator /\
  (GetCode pa = BGPPathAttrTypeAggregator -> exists b AS ip, pa = PAAggregator b AS ip) /\
  plain_attrs pas.
Proof.
  intros [Hc Ha]. rewrite !Forall_cons in Hc. destruct Hc as (H2 & H17 & H18 & _).
  apply Forall_cons in Ha as [Ha Has]. cbn [codes map] in *.
  split_and!; [intros H; apply H2; rewrite H; by left|intros H; apply H17; rewrite H; by left|
    intros H; apply H18; rewrite H; by left|done|].
  split; [|done]. rewrite !Forall_cons. split_and!; [| | |done]; intros Hin;
    [apply H2|apply H17|apply H18]; by right.
Qed.

Lemma find_as_attrs_plain pas rest a :
  plain_attrs pas ->
  exists agg, find_as_attrs (pas ++ rest) a
    = find_as_attrs rest (mkAsAttrs (asPath a) (as4Path a) agg (as4Aggregator a)).
Proof.
  revert a. induction pas as [|pa pas IH]; intros a Hp.
  { exists (asAggregator a). by destruct a. }
  apply plain_attrs_cons in Hp as (H2 & H17 & H18 & H7 & Hp). cbn [app find_as_attrs].
  rewrite (proj2 (Z.eqb_neq _ _) H2), (proj2 (Z.eqb_neq _ _) H17).
  destruct (Z.eqb_spec (GetCode pa) BGPPathAttrTypeAggregator) as [E|_].
  - destruct (H7 E) as (b & AS & ip & ->). res_simpl.
    destruct (IH (mkAsAttrs (asPath a) (as4Path a) (Some AS) (as4Aggregator a)) Hp) as [agg Hagg].
    exists agg. exact Hagg.
  - rewrite (proj2 (Z.eqb_neq _ _) H18). res_simpl. by apply IH.
Qed.

Lemma find_as_attrs_plain_end pas a :
  plain_attrs pas ->
  exists agg, find_as_attrs pas a = Ok (mkAsAttrs (asPath a) (as4Path a) agg (as4Aggregator a)).
Proof.
  intros Hp. destruct (find_as_attrs_plain pas [] a Hp) as [agg H].
  rewrite app_nil_r in H. by exists agg.
Qed.

Lemma ConvertAS2ToAS4_app pre pas :
  BGPPathAttrTypeASPath ∉ codes pre ->
  ConvertAS2ToAS4 (pre ++ pas) = (pas' ← ConvertAS2ToAS4 pas; Ok (pre ++ pas')).
Proof.
  induction pre as [|pa pre IH]; intros H2; cbn [app].
  { by destruct (ConvertAS2ToAS4 pas). }
  cbn [codes map ConvertAS2ToAS4] in *.
  rewrite (proj2 (Z.eqb_neq _ _)) by (intros Heq; apply H2; rewrite Heq; by left).
  rewrite IH by (intros Hin; apply H2; by right). by destruct (ConvertAS2ToAS4 pas).
Qed.

Lemma plain_not_path pas : plain_attrs pas -> BGPPathAttrTypeASPath ∉ codes pas.
Proof. intros [H _]. by apply Forall_cons in H as [H _]. Qed.

Lemma plain_not_as4 pas :
  plain_attrs pas -> BGPPathAttrTypeAS4Path ∉ codes pas /\ BGPPathAttrTypeAS4Aggregator ∉ codes pas.
Proof.
  intros [H _]. apply Forall_cons in H as [_ H]. apply Forall_cons in H as [H17 H].
  by apply Forall_cons in H as [H18 _].
Qed.

Lemma foreign_none a : as4Aggregator a = false -> foreign_aggregator a = Ok false.
Proof. intros H. unfold foreign_aggregator. rewrite H. by destruct (asAggregator a). Qed.

Lemma GetCode_path b segs asz : GetCode (PAASPath b segs asz) = Code b.
Proof. done. Qed.
Lemma GetCode_path4 b segs : GetCode (PAAS4Path b segs) = Code b.
Proof. done. Qed.

(** ** Normalisation *)

(** normalising an UPDATE from a two-octet peer widens its AS path. When the
    attributes hold one AS_PATH read with two-octet AS numbers and neither
    AS4_PATH nor AS4_AGGREGATOR, the path is replaced by one of four-octet
    segments with the same types and the same AS numbers in the same order, whose
    counters are right, and every other attribute is left in place. *)
Theorem normalize_widens pre b segs post :
  plain_attrs pre -> plain_attrs post -> Code b = BGPPathAttrTypeASPath ->
  path_ok 2 b segs -> pa_Length b <= 32767 ->
  exists b' segs',
    NormalizeASPath_attrs (pre ++ PAASPath b segs 2 :: post)
      = Ok (pre ++ PAASPath b' segs' 4 :: post) /\
    path_ok 4 b' segs' /\ segs_AS segs' = segs_AS segs /\
    map BGPASPathSegment_GetType segs' = map BGPASPathSegment_GetType segs /\
    Code b' = BGPPathAttrTypeASPath.
Proof.
  intros Hpre Hpost Hc Hok Hle.
  destruct (widen_path NewBGPPathAttrASPath b segs Hok Hle eq_refl)
    as (b' & Hw & Hok' & Has & _ & Hc' & _).
  exists b', (map widened segs). split_and!; try done.
  2:{ rewrite map_map. by apply map_ext. }
  unfold NormalizeASPath_attrs.
  destruct (find_as_attrs_plain pre (PAASPath b segs 2 :: post) (mkAsAttrs None None None false) Hpre)
    as [agg1 ->].
  cbn [find_as_attrs]. rewrite GetCode_path, Hc, Z.eqb_refl. res_simpl.
  rewrite <- (app_nil_r post) at 1.
  match goal with |- context [find_as_attrs (post ++ []) ?a] =>
    destruct (find_as_attrs_plain post [] a Hpost) as [agg2 ->] end.
  cbn [find_as_attrs asPath as4Path as4Aggregator]. res_simpl. cbn [asPath as4Path].
  rewrite foreign_none by done. cbn [Z.eqb Pos.eqb]. res_simpl.
  rewrite ConvertAS2ToAS4_app by (by apply plain_not_path). cbn [ConvertAS2ToAS4].
  rewrite GetCode_path, Hc, Z.eqb_refl. rewrite Hw. by res_simpl.
Qed.

Definition example_path2 : list BGPASPathSegment :=
  [Seg2 (mkAS2 (mkSegBase BGPASPathSegmentSequence 2 6) [100; 23456])].

Lemma normalize_widens_witness :
  exists b' segs',
    NormalizeASPath_attrs ([attr_of 1] ++ PAASPath (mkBase 64 2 6 3) example_path2 2 :: [attr_of 3])
      = Ok ([attr_of 1] ++ PAASPath b' segs' 4 :: [attr_of 3]) /\
    path_ok 4 b' segs' /\ segs_AS segs' = [100; 23456] /\
    map BGPASPathSegment_GetType segs' = [BGPASPathSegmentSequence] /\
    Code b' = BGPPathAttrTypeASPath.
Proof.
  apply (normalize_widens [attr_of 1] (mkBase 64 2 6 3) example_path2 [attr_of 3]).
  - split; [|repeat constructor; done].
    repeat constructor; intros H; cbn in H; apply elem_of_cons in H as [H|H]; try discriminate;
      by apply elem_of_nil in H.
  - split; [|repeat constructor; done].
    repeat constructor; intros H; cbn in H; apply elem_of_cons in H as [H|H]; try discriminate;
      by apply elem_of_nil in H.
  - done.
  - split; ground.
  - done.
Defined.

Lemma ConstructASPath_two_octet segs s4 segs4 skip :
  Forall (fun s => seg_wf s /\ seg_width s = 2) segs ->
  ConstructASPathFromAS4Path segs (s4 :: segs4) skip = Panic.
Proof.
  intros Hs. unfold ConstructASPathFromAS4Path.
  assert (forall l idx n b acc asz, exists b' acc' idx' n',
    take_segments l skip idx n (PAASPath b acc asz) = Ok (PAASPath b' acc' asz, idx', n')) as Ht.
  { induction l as [|s l IH]; intros idx n b acc asz; cbn [take_segments]; [eauto 10|].
    destruct (skip <? _); [eauto 10|]. cbn [AppendASPathSegment]. res_simpl.
    destruct l; [eauto 10|]. apply IH. }
  destruct (Ht segs 0 0 (mkBase 80 BGPPathAttrTypeASPath 0 4) [] 4) as (b' & acc' & idx' & n' & Heq).
  cbn [set_ASSize NewBGPPathAttrASPath]. rewrite Heq. res_simpl.
  unfold index. destruct (idx' <? 0); [done|].
  destruct (segs !! Z.to_nat idx') as [s|] eqn:El; [|done]. res_simpl.
  rewrite Forall_lookup in Hs. destruct (Hs _ _ El) as [_ Hw]. by destruct s.
Qed.

Lemma count_widened segs n :
  foldl (fun n s => count_by_type n (seg_base s)) n (map widened segs)
  = foldl (fun n s => count_by_type n (seg_base s)) n segs.
Proof. revert n. induction segs as [|s segs IH]; intros n; [done|]. apply IH. Qed.

Lemma getType_app_skip pre pa pas code :
  code ∉ codes pre -> getTypeFromPathAttrs (pre ++ pa :: pas) code
  = if GetCode pa =? code then Some pa else getTypeFromPathAttrs pas code.
Proof.
  induction pre as [|q pre IH]; intros Hn; cbn [app]; [done|]. cbn [codes map] in Hn.
  unfold getTypeFromPathAttrs in *. cbn [List.find].
  rewrite (proj2 (Z.eqb_neq _ _)) by (intros Heq; apply Hn; rewrite Heq; by left).
  apply IH. intros Hin. apply Hn. by right.
Qed.

(** C40: normalising an UPDATE of a two-octet peer that carries AS4_PATH panics. The UPDATE
    has one AS_PATH of two-octet segments, of at most 32767 octets, and behind it one
    AS4_PATH with at least one segment and no more AS numbers than AS_PATH, as RFC 6793
    has it, and no AS4_AGGREGATOR; its other attributes are any. [NormalizeASPath] hands
    the segments from before the conversion to [ConstructASPathFromAS4Path], whose
    assertion that they are four-octet segments fails (helpers.go:1136). *)
Theorem normalize_as4path_panics pre b segs mid b4 s4 segs4 post :
  plain_attrs pre -> plain_attrs mid -> plain_attrs post ->
  Code b = BGPPathAttrTypeASPath -> Code b4 = BGPPathAttrTypeAS4Path ->
  path_ok 2 b segs -> pa_Length b <= 32767 ->
  foldl (fun n s => count_by_type n (as4_base s)) 0 (s4 :: segs4)
    <= foldl (fun n s => count_by_type n (seg_base s)) 0 segs ->
  NormalizeASPath_attrs (pre ++ PAASPath b segs 2 :: mid ++ PAAS4Path b4 (s4 :: segs4) :: post) = Panic.
Proof.
  intros Hpre Hmid Hpost Hc Hc4 Hok Hle Hcount.
  destruct (widen_path NewBGPPathAttrASPath b segs Hok Hle eq_refl)
    as (b' & Hw & Hok' & Has & _ & Hc' & _).
  set (pas := pre ++ _). unfold NormalizeASPath_attrs.
  assert (exists agg, find_as_attrs pas (mkAsAttrs None None None false)
    = Ok (mkAsAttrs (Some (b, segs, 2)) (Some (s4 :: segs4)) agg false)) as [agg ->].
  { unfold pas.
    destruct (find_as_attrs_plain pre (PAASPath b segs 2 :: mid ++ PAAS4Path b4 (s4 :: segs4) :: post)
      (mkAsAttrs None None None false) Hpre) as [agg1 ->].
    cbn [find_as_attrs]. rewrite GetCode_path, Hc, Z.eqb_refl. res_simpl.
    match goal with |- context [find_as_attrs (mid ++ ?r) ?a] =>
      destruct (find_as_attrs_plain mid r a Hmid) as [agg2 ->] end.
    cbn [find_as_attrs]. rewrite GetCode_path4, Hc4.
    cbn [Z.eqb Pos.eqb BGPPathAttrTypeASPath BGPPathAttrTypeAS4Path]. res_simpl.
    cbn [asPath as4Path as4Aggregator asAggregator].
    match goal with |- context [find_as_attrs post ?a] =>
      destruct (find_as_attrs_plain_end post a Hpost) as [agg3 Hagg]; exists agg3; exact Hagg end. }
  res_simpl. cbn [asPath as4Path]. rewrite foreign_none by done. cbn [Z.eqb Pos.eqb]. res_simpl.
  unfold pas. rewrite ConvertAS2ToAS4_app by (by apply plain_not_path). cbn [ConvertAS2ToAS4].
  rewrite GetCode_path, Hc, Z.eqb_refl. rewrite Hw. res_simpl.
  set (pas' := pre ++ PAASPath b' (map widened segs) 4 :: mid ++ PAAS4Path b4 (s4 :: segs4) :: post).
  assert (GetNumASesByASType pas' BGPPathAttrTypeASPath
    = Ok (foldl (fun n s => count_by_type n (seg_base s)) 0 segs)) as ->.
  { unfold GetNumASesByASType, pas'. rewrite Z.eqb_refl.
    rewrite getType_app_skip by (by apply plain_not_path). rewrite GetCode_path, Hc', Z.eqb_refl.
    by rewrite count_widened. }
  assert (GetNumASesByASType pas' BGPPathAttrTypeAS4Path
    = Ok (foldl (fun n s => count_by_type n (as4_base s)) 0 (s4 :: segs4))) as ->.
  { unfold GetNumASesByASType, pas'.
    change (BGPPathAttrTypeAS4Path =? BGPPathAttrTypeASPath) with false. rewrite Z.eqb_refl.
    rewrite getType_app_skip by (by apply plain_not_as4). rewrite GetCode_path, Hc'.
    change (BGPPathAttrTypeASPath =? BGPPathAttrTypeAS4Path) with false. cbn iota.
    rewrite getType_app_skip by (by apply plain_not_as4). by rewrite GetCode_path4, Hc4, Z.eqb_refl. }
  res_simpl.
  match goal with |- context [?x <=? ?y] =>
    assert ((x <=? y) = true) as -> by (apply Z.leb_le; exact Hcount) end.
  destruct Hok as [Hs _]. by rewrite ConstructASPath_two_octet.
Qed.

Lemma normalize_as4path_panics_witness :
  NormalizeASPath_attrs ([attr_of 1] ++ PAASPath (mkBase 64 2 6 3) example_path2 2 ::
    [attr_of 3] ++ PAAS4Path (mkBase 192 17 6 3)
      [mkAS4 (mkSegBase BGPASPathSegmentSequence 1 6) [70000]] :: []) = Panic.
Proof.
  apply (normalize_as4path_panics [attr_of 1] (mkBase 64 2 6 3) example_path2 [attr_of 3]
    (mkBase 192 17 6 3) (mkAS4 (mkSegBase BGPASPathSegmentSequence 1 6) [70000]) [] []).
  - split; [|repeat constructor; done].
    repeat constructor; intros H; cbn in H; apply elem_of_cons in H as [H|H]; try discriminate;
      by apply elem_of_nil in H.
  - split; [|repeat constructor; done].
    repeat constructor; intros H; cbn in H; apply elem_of_cons in H as [H|H]; try discriminate;
      by apply elem_of_nil in H.
  - split; [|constructor]. repeat constructor; apply not_elem_of_nil.
  - done.
  - done.
  - split; ground.
  - done.
  - vm_compute. discriminate.
Defined.

(** ** Sending to a two-octet peer *)

Definition narrowed (s : BGPASPathSegment) : BGPASPathSegment :=
  match s with Seg4 s => Seg2 (CloneAsAS2PathSegment s).1 | Seg2 _ => s end.

Definition mappable (segs : list BGPASPathSegment) : bool :=
  forallb (fun as_ => as_ <=? 65535) (segs_AS segs).

Lemma narrow_segments_eq segs b acc asz flag :
  Forall (fun s => seg_width s = 4) segs ->
  narrow_segments segs (PAASPath b acc asz) flag
  = Ok (PAASPath (foldl (fun b s => add_Length b (BGPASPathSegment_TotalLen s)) b (map narrowed segs))
          (acc ++ map narrowed segs) asz, flag || negb (mappable segs)).
Proof.
  intros Hs. revert b acc flag. induction Hs as [|s segs Hw _ IH]; intros b acc flag.
  { cbn. by rewrite app_nil_r, orb_false_r. }
  destruct s as [s|s]; [done|]. cbn [narrow_segments map foldl narrowed].
  destruct (CloneAsAS2PathSegment s) as [s2 m] eqn:E. cbn [AppendASPathSegment fst].
  res_simpl. rewrite IH, <- app_assoc. do 2 f_equal.
  unfold mappable, segs_AS. cbn [map concat]. rewrite forallb_app.
  assert (m = forallb (fun as_ => as_ <=? 65535) (seg_AS (Seg4 s))) as -> by (by injection E).
  by rewrite negb_andb, orb_assoc.
Qed.

Lemma narrowed_ok s :
  seg_wf s -> seg_width s = 4 -> len (seg_AS s) <= 127 ->
  seg_wf (narrowed s) /\ seg_width (narrowed s) = 2 /\
  BGPASPathSegment_TotalLen (narrowed s) = 2 + 2 * len (seg_AS s) /\
  seg_AS (narrowed s) = map as_to_2 (seg_AS s).
Proof.
  intros (Ht & Hl & _ & _ & HAS) Hw Hlen. destruct s as [s|s]; [done|].
  unfold BGPASPathSegment_GetLen in Hl. cbn [seg_base seg_AS] in *. pose proof (len_nonneg (as4_AS s)).
  assert (BGPASPathSegment_TotalLen (narrowed (Seg4 s)) = 2 + 2 * len (as4_AS s)) as Htot.
  { unfold BGPASPathSegment_TotalLen. cbn [narrowed CloneAsAS2PathSegment fst seg_base as2_base BGPASPathSegmentLen].
    rewrite Hl. zlia. }
  split_and!; try done. unfold seg_wf. rewrite Htot.
  cbn [narrowed CloneAsAS2PathSegment fst seg_AS as2_AS seg_width]. len_simpl.
  split_and!; try done; [lia|]. apply Forall_map. eapply Forall_impl; [exact HAS|].
  intros x Hx. unfold is_as, as_to_2, BGPASTrans in *. cbn in *.
  destruct (65535 <? x) eqn:E; zlia.
Qed.

Lemma split_ASPath_eq pre b segs asz post :
  BGPPathAttrTypeASPath ∉ codes pre -> Code b = BGPPathAttrTypeASPath ->
  split_ASPath (pre ++ PAASPath b segs asz :: post) = Some (pre, PAASPath b segs asz, post).
Proof.
  intros Hn Hc. induction pre as [|pa pre IH]; cbn [app split_ASPath].
  - by rewrite GetCode_path, Hc, Z.eqb_refl.
  - cbn [codes map] in Hn.
    rewrite (proj2 (Z.eqb_neq _ _)) by (intros Heq; apply Hn; rewrite Heq; by left).
    rewrite IH by (intros Hin; apply Hn; by right). done.
Qed.

Lemma CloneAsAS4Path_eq b segs :
  Forall (fun s => seg_width s = 4) segs ->
  exists nb l, CloneAsAS4Path b segs = Ok (PAAS4Path nb l) /\ Code nb = BGPPathAttrTypeASPath.
Proof.
  intros Hs. unfold CloneAsAS4Path.
  assert (exists l, foldr (fun s r => l ← r; match s with Seg4 s => Ok (s :: l) | Seg2 _ => Panic end)
            (Ok []) segs = Ok l) as [l ->].
  { induction Hs as [|s segs Hw _ [l IH]]; [by exists []|]. cbn [foldr]. rewrite IH. res_simpl.
    destruct s as [s|s]; [done|]. eauto. }
  res_simpl. eauto.
Qed.

Lemma path_ok_width w b segs : path_ok w b segs -> Forall (fun s => seg_width s = w) segs.
Proof. intros [H _]. eapply Forall_impl; [exact H|]. by intros s []. Qed.

Lemma map_as_to_2_id l : forallb (fun as_ => as_ <=? 65535) l = true -> Forall is_u32 l -> map as_to_2 l = l.
Proof.
  induction l as [|x l IH]; [done|]. cbn [forallb map]. intros [Hx Hl]%andb_true_iff [Hu Hus]%Forall_cons.
  rewrite IH by done. f_equal. unfold as_to_2. rewrite (proj2 (Z.ltb_ge _ _)) by lia. zlia.
Qed.

Lemma narrowed_AS segs :
  Forall (fun s => seg_wf s /\ seg_width s = 4) segs -> mappable segs = true ->
  Forall (fun s => len (seg_AS s) <= 127) segs -> segs_AS (map narrowed segs) = segs_AS segs.
Proof.
  intros Hs Hm Hlen. unfold mappable, segs_AS in *. induction Hs as [|s segs [Hwf Hw] _ IH]; [done|].
  apply Forall_cons in Hlen as [Hl Hlen]. cbn [map concat] in *. rewrite forallb_app in Hm.
  apply andb_true_iff in Hm as [Hm1 Hm2]. rewrite IH by done. f_equal.
  destruct (narrowed_ok s Hwf Hw Hl) as (_ & _ & _ & ->). apply map_as_to_2_id; [done|].
  destruct Hwf as (_ & _ & _ & _ & HAS). rewrite Hw in HAS. exact HAS.
Qed.

(** adapting an AS path to a two-octet peer. A four-octet path whose AS
    numbers all fit 16 bits and whose segments hold at most 127 of them is
    replaced by a two-octet path with the same numbers in the same order and
    right counters; nothing else of the list changes. *)
Theorem convert_to_two_octets pre b segs asz post :
  BGPPathAttrTypeASPath ∉ codes pre -> Code b = BGPPathAttrTypeASPath ->
  path_ok 4 b segs -> pa_Length b <= 65535 ->
  Forall (fun s => len (seg_AS s) <= 127) segs -> mappable segs = true ->
  exists b' segs',
    Convert4ByteTo2ByteASPath (pre ++ PAASPath b segs asz :: post)
      = Ok (pre ++ PAASPath b' segs' 0 :: post) /\
    path_ok 2 b' segs' /\ segs_AS segs' = segs_AS segs.
Proof.
  intros Hpre Hc Hok Hle Hlen Hm. pose proof (path_ok_width _ _ _ Hok) as Hw. destruct Hok as [Hs Hl].
  unfold Convert4ByteTo2ByteASPath. rewrite split_ASPath_eq by done.
  destruct (CloneAsAS4Path_eq b segs Hw) as (nb & l & -> & _). res_simpl.
  unfold NewBGPPathAttrASPath. rewrite narrow_segments_eq by done. rewrite Hm. res_simpl. cbn [app orb negb].
  assert (Forall (fun s => seg_wf s /\ seg_width s = 2) (map narrowed segs) /\
    segs_len (map narrowed segs) <= segs_len segs) as [Hs' Hsl].
  { clear -Hs Hlen. induction Hs as [|s segs [Hwf Hw] _ IH]; [done|].
    apply Forall_cons in Hlen as [Hl Hlen]. destruct (IH Hlen) as [IH1 IH2]. cbn [map].
    destruct (narrowed_ok s Hwf Hw Hl) as (Hwf' & Hw' & Htot & _). split; [by constructor|].
    cbn [segs_len foldr]. fold (segs_len segs). fold (segs_len (map narrowed segs)). rewrite Htot.
    destruct Hwf as (_ & _ & _ & -> & _). rewrite Hw. pose proof (len_nonneg (seg_AS s)). lia. }
  pose proof (segs_len_nonneg _ _ Hs') as Hnn.
  destruct (foldl_add_Length (mkBase 80 BGPPathAttrTypeASPath 0 4) (map narrowed segs))
    as (H1 & H2 & H3 & H4); [done|done|cbn; lia| |].
  { eapply Forall_impl; [exact Hs'|]. intros s [Hwf _]. by apply seg_wf_TotalLen_nonneg. }
  do 2 eexists. split; [done|]. split; [by split|]. by apply narrowed_AS.
Qed.

Lemma convert_to_two_octets_witness :
  exists b' segs',
    Convert4ByteTo2ByteASPath ([attr_of 1] ++ PAASPath (mkBase 80 2 10 4)
        [Seg4 (mkAS4 (mkSegBase BGPASPathSegmentSequence 2 10) [65535; 7])] 4 :: [attr_of 3])
      = Ok ([attr_of 1] ++ PAASPath b' segs' 0 :: [attr_of 3]) /\
    path_ok 2 b' segs' /\ segs_AS segs' = [65535; 7].
Proof.
  apply (convert_to_two_octets [attr_of 1] (mkBase 80 2 10 4)
    [Seg4 (mkAS4 (mkSegBase BGPASPathSegmentSequence 2 10) [65535; 7])] 4 [attr_of 3]).
  - intros H. cbn in H. apply elem_of_cons in H as [H|H]; [discriminate|]. by apply elem_of_nil in H.
  - done.
  - split; ground.
  - done.
  - ground.
  - done.
Defined.

(** A computation that returns a value or panics, but reports no error. *)
Definition no_error {A} (r : res A) : Prop :=
  match r with Ok _ | Panic => True | Err _ | NoFuel => False end.

Lemma no_error_bind {A B} (m : res A) (k : A -> res B) :
  no_error m -> (forall a, no_error (k a)) -> no_error (m ≫= k).
Proof. destruct m; cbn; eauto. Qed.

Lemma no_error_insert_front {A} (s fill xs : list A) : no_error (insert_front s fill xs).
Proof.
  unfold insert_front, copy_at, on_suffix, slice_from. repeat (apply no_error_bind; [|done]).
  by destruct (_ && _).
Qed.

Lemma no_error_PrependAS_seg s as_ : no_error (BGPASPathSegment_PrependAS s as_).
Proof.
  destruct s as [s|s]; cbn [BGPASPathSegment_PrependAS]; (apply no_error_bind; [|by intros []]);
    unfold BGPAS2PathSegment_PrependAS, BGPAS4PathSegment_PrependAS;
    (destruct (255 <=? _); [done|]); (apply no_error_bind; [apply no_error_insert_front|done]).
Qed.

Lemma no_error_PrependAS_attr pa as_ asSize : no_error (PrependAS_attr pa as_ asSize).
Proof.
  unfold PrependAS_attr. destruct (_ =? _); [|by destruct (_ =? _)].
  destruct pa; try done. apply no_error_bind.
  - unfold ensure_segment. destruct (needs_segment v); [|done]. cbn [PrependASPathSegment].
    apply no_error_bind; [apply no_error_insert_front|done].
  - intros pa. apply no_error_bind; [|done]. unfold update_first_segment.
    destruct pa as [|? [|]| | | | | | | | | | | | | |]; try done.
    apply no_error_bind; [apply no_error_PrependAS_seg|]. by intros [].
Qed.

Lemma PrependAS_bad_struct pas pa as_ asSize :
  pa ∈ pas -> GetCode pa = BGPPathAttrTypeASPath ->
  match pa with PAASPath _ _ _ => False | _ => True end ->
  PrependAS pas as_ asSize = Panic.
Proof.
  intros Hin Hc Hbad. revert as_. induction pas as [|q pas IH]; intros as_.
  { by apply elem_of_nil in Hin. }
  cbn [PrependAS]. pose proof (no_error_PrependAS_attr q as_ asSize) as Hne.
  apply elem_of_cons in Hin as [<- | Hin].
  - unfold PrependAS_attr. rewrite Hc, Z.eqb_refl. by destruct pa.
  - destruct (PrependAS_attr q as_ asSize) as [[q' as']|e| |]; try done. res_simpl.
    by rewrite IH.
Qed.

(** advertising a route with a four-octet AS number to a two-octet external
    peer panics the daemon. [Convert4ByteTo2ByteASPath] then adds an AS4_PATH
    attribute, but the one [CloneAsAS4Path] makes carries the type code of
    AS_PATH; [PrependAS], which runs next, takes it for an AS_PATH by its code
    and its assertion on the struct fails. *)
Theorem send_as4_to_two_octet_panics pre b segs asz post as_ :
  BGPPathAttrTypeASPath ∉ codes pre -> Code b = BGPPathAttrTypeASPath ->
  path_ok 4 b segs -> mappable segs = false ->
  exists pas', Convert4ByteTo2ByteASPath (pre ++ PAASPath b segs asz :: post) = Ok pas' /\
    PrependAS pas' as_ 2 = Panic.
Proof.
  intros Hpre Hc Hok Hm. pose proof (path_ok_width _ _ _ Hok) as Hw.
  unfold Convert4ByteTo2ByteASPath. rewrite split_ASPath_eq by done.
  destruct (CloneAsAS4Path_eq b segs Hw) as (nb & l & -> & Hnb). res_simpl.
  unfold NewBGPPathAttrASPath. rewrite narrow_segments_eq by done. rewrite Hm. res_simpl. cbn [app orb negb].
  rewrite add_attr_eq. eexists. split; [done|].
  apply (PrependAS_bad_struct _ (PAAS4Path nb l)); [|done|done]. set_solver.
Qed.

Lemma send_as4_to_two_octet_panics_witness :
  exists pas', Convert4ByteTo2ByteASPath ([attr_of 1] ++ example_path :: [attr_of 3]) = Ok pas' /\
    PrependAS pas' 100 2 = Panic.
Proof.
  apply (send_as4_to_two_octet_panics [attr_of 1] (mkBase 80 2 10 4) [example_segment] 4 [attr_of 3] 100).
  - intros H. cbn in H. apply elem_of_cons in H as [H|H]; [discriminate|]. by apply elem_of_nil in H.
  - done.
  - split; ground.
  - done.
Defined.

(** ** Whole messages *)

Definition body_bytes (peer : BGPPeerAttrs) (b : BGPBody) : bytes :=
  match b with
  | BodyOpen msg => open_bytes msg
  | BodyKeepAlive => []
  | BodyUpdate msg => update_bytes peer msg
  | BodyNotification msg => [ErrorCode msg; ErrorSubcode msg] ++ NotifData msg
  end.

Definition body_type (b : BGPBody) : Z :=
  match b with
  | BodyOpen _ => BGPMsgTypeOpen
  | BodyKeepAlive => BGPMsgTypeKeepAlive
  | BodyUpdate _ => BGPMsgTypeUpdate
  | BodyNotification _ => BGPMsgTypeNotification
  end.

Definition body_wf (peer : BGPPeerAttrs) (b : BGPBody) : Prop :=
  match b with
  | BodyOpen msg => open_wf msg
  | BodyKeepAlive => True
  | BodyUpdate msg => update_wf peer msg
  | BodyNotification _ => True
  end.

(** What the receiver makes of a body: an UPDATE is normalised. *)
Definition received (peer : BGPPeerAttrs) (b : BGPBody) : res BGPBody :=
  match b with
  | BodyUpdate msg => msg ← NormalizeASPath (with_lengths peer msg); Ok (BodyUpdate msg)
  | _ => Ok b
  end.

Lemma body_encode_ok peer b : body_wf peer b -> BGPBody_Encode b = Ok (body_bytes peer b).
Proof.
  destruct b; cbn [body_wf BGPBody_Encode body_bytes]; intros H; try done.
  - by apply BGPOpen_Encode_ok.
  - by apply update_encode_ok.
Qed.

Lemma header_encode_ok h :
  BGPHeader_Encode h = Ok (replicate 16 255 ++ be16 (hdr_Length h) ++ [hdr_Type h]).
Proof.
  unfold BGPHeader_Encode. rewrite (copy_at_zeros [] _ 19) by done. res_simpl. cbn [app].
  rewrite (PutUint16_zeros (replicate 16 255)) by done. res_simpl.
  rewrite (set_index_zeros (replicate 16 255 ++ be16 (hdr_Length h))) by done. done.
Qed.

(** What arrives when there is nothing to normalise. *)
Definition arrives_as (peer : BGPPeerAttrs) (b : BGPBody) : BGPBody :=
  match b with BodyUpdate msg => BodyUpdate (with_lengths peer msg) | _ => b end.

(** A peer with four-octet AS numbers sends no AS4_PATH and no AS4_AGGREGATOR. *)
Definition four_octet (peer : BGPPeerAttrs) (b : BGPBody) : Prop :=
  match b with
  | BodyUpdate msg => ASSize peer = 4 /\
    Forall (fun pa => GetCode pa <> BGPPathAttrTypeAS4Path /\ GetCode pa <> BGPPathAttrTypeAS4Aggregator) (PathAttributes msg)
  | _ => True
  end.

Definition path_of_four (a : as_attrs) : Prop :=
  match asPath a with Some (_, _, n) => n = 4 | None => True end /\ as4Path a = None /\ as4Aggregator a = false.

(** The constructors whose code is not the one of [E]. *)
Ltac other_code E := try done; try (exfalso; destruct_and?; match goal with
  H : Code ?b = _ |- _ => match type of E with Code b = _ => rewrite E in H; discriminate H end end).

Lemma find_as_attrs_four peer pas a : ASSize peer = 4 -> Forall (attr_wf peer) pas ->
  Forall (fun pa => GetCode pa <> BGPPathAttrTypeAS4Path /\ GetCode pa <> BGPPathAttrTypeAS4Aggregator) pas ->
  path_of_four a -> exists a', find_as_attrs pas a = Ok a' /\ path_of_four a'.
Proof.
  intros Hs Hwf Hno. revert a. induction pas as [|pa pas IH]; intros a Ha; [by exists a|].
  apply Forall_cons in Hwf as [(_ & _ & Hv) Hwf], Hno as [[H17 H18] Hno]. cbn [find_as_attrs].
  rewrite (proj2 (Z.eqb_neq _ _) H17), (proj2 (Z.eqb_neq _ _) H18).
  destruct (Z.eqb_spec (GetCode pa) BGPPathAttrTypeASPath) as [E|_].
  { destruct pa; unfold GetCode in E; cbn [pa_base attr_value_wf] in *; other_code E.
    - res_simpl. apply IH; [done..|]. destruct Hv as (_ & -> & _). by destruct Ha as (_ & ? & ?).
    - destruct Hv as [Hv _]. rewrite E in Hv. destruct Hv. by vm_compute; auto. }
  destruct (Z.eqb_spec (GetCode pa) BGPPathAttrTypeAggregator) as [E|_]; [|res_simpl; by apply IH].
  destruct pa; unfold GetCode in E; cbn [pa_base attr_value_wf] in *; other_code E.
  - res_simpl. by apply IH.
  - destruct Hv as [Hv _]. rewrite E in Hv. destruct Hv. by vm_compute; tauto.
Qed.

Lemma received_four peer b : body_wf peer b -> four_octet peer b -> received peer b = Ok (arrives_as peer b).
Proof.
  destruct b as [msg| |msg|msg]; try done. intros (_ & Hwf & _) [Hs Hno]. cbn [received arrives_as].
  destruct (find_as_attrs_four peer (PathAttributes msg) (mkAsAttrs None None None false) Hs Hwf Hno) as (a & E & Hp & H1 & H2);
    [done|]. unfold NormalizeASPath. destruct (TotalPathAttrLen _ =? 0); res_simpl; [done|].
  unfold NormalizeASPath_attrs. cbn [PathAttributes with_lengths]. rewrite E. res_simpl. rewrite H1, H2.
  destruct (asPath a) as [[[? segs] n]|]; [|done]. by subst n.
Qed.

Lemma decode_received fuel peer b :
  body_wf peer b -> match b with BodyOpen msg => (length (OptParams msg) <= fuel)%nat | _ => True end ->
  let h := mkBGPHeader (19 + len (body_bytes peer b)) (body_type b) in
  BGPMessage_Decode fuel peer h (body_bytes peer b) = (b' ← received peer b; Ok (mkBGPMessage h (Some b'))).
Proof.
  intros Hwf Hfuel h. destruct b as [msg| |msg|msg]; cbn [body_wf received body_bytes] in *.
  - change (BGPMessage_Decode fuel peer h (open_bytes msg)) with
      (b ← BGPOpen_Decode fuel (open_bytes msg); Ok (mkBGPMessage h (Some (BodyOpen b)))).
    rewrite <- (app_nil_r (open_bytes msg)), BGPOpen_Decode_ok by done. done.
  - done.
  - change (BGPMessage_Decode fuel peer h (update_bytes peer msg)) with
      (b ← BGPUpdate_Decode peer (19 + len (update_bytes peer msg)) (update_bytes peer msg);
       b ← NormalizeASPath b; Ok (mkBGPMessage h (Some (BodyUpdate b)))).
    rewrite Z.add_comm. change 19 with BGPMsgHeaderLen. rewrite update_decode_ok by done. res_simpl.
    by destruct (NormalizeASPath _).
  - destruct msg as [c sc d]. cbn [ErrorCode ErrorSubcode NotifData] in *.
    change (BGPMessage_Decode fuel peer h ([c; sc] ++ d)) with
      (b ← BGPNotification_Decode (c :: sc :: d); Ok (mkBGPMessage h (Some (BodyNotification b)))).
    unfold BGPNotification_Decode. change (index (c :: sc :: d) 0) with (Ok c).
    change (index (c :: sc :: d) 1) with (Ok sc). res_simpl.
    destruct (2 <? len (c :: sc :: d)) eqn:E.
    { pose proof (slice_from_2 c sc d) as ->. done. }
    destruct d as [|x d]; [done|]. apply Z.ltb_ge in E. len_simpl. pose proof (len_nonneg d). lia.
Qed.


