(* ===== verification/BgpNeighbor.v ===== *)
(** * Neighbor configuration

    NeighborConf of src/bgp/baseobjects/neighbor.go: the configuration a neighbor
    runs with, merged from the global, peer-group and neighbor configuration, and
    the state the daemon reports of it. The structs are those of
    src/bgp/config/bgp.go. Left out: the logger, the Queues counters, the time of
    the last state change, and the event PublishEvents sends. A pointer to a
    configuration that the server replaces is modelled by its contents. *)

From S2P Require Import Prelude.
From S2P Require Import BgpOpen.

(** ** Configuration *)

Record GlobalConfig := mkGlobalConfig { g_AS : Z; g_RouterId : bytes }.

Record BaseConfig := mkBaseConfig {
  PeerAS : Z;
  LocalAS : Z;
  PeerAddressType : Z;
  UpdateSource : string;
  NextHopSelf : bool;
  AuthPassword : string;
  Description : string;
  RouteReflectorClusterId : Z;
  RouteReflectorClient : bool;
  MultiHopEnable : bool;
  MultiHopTTL : Z;
  ConnectRetryTime : Z;
  cfg_HoldTime : Z;
  KeepaliveTime : Z;
  BfdEnable : bool;
  BfdSessionParam : string;
  AddPathsRx : bool;
  AddPathsMaxTx : Z;
  MaxPrefixes : Z;
  MaxPrefixesThresholdPct : Z;
  MaxPrefixesDisconnect : bool;
  MaxPrefixesRestartTimer : Z;
  AdjRIBInFilter : string;
  AdjRIBOutFilter : string;
}.

(** [BaseConfig{}] *)
Definition zero_BaseConfig : BaseConfig :=
  mkBaseConfig 0 0 0 "" false "" "" 0 false false 0 0 0 0 false "" false 0 0 0 false 0 "" "".

Definition BaseConfig_eta (c : BaseConfig) : BaseConfig :=
  mkBaseConfig (PeerAS c) (LocalAS c) (PeerAddressType c) (UpdateSource c) (NextHopSelf c)
    (AuthPassword c) (Description c) (RouteReflectorClusterId c) (RouteReflectorClient c)
    (MultiHopEnable c) (MultiHopTTL c) (ConnectRetryTime c) (cfg_HoldTime c) (KeepaliveTime c)
    (BfdEnable c) (BfdSessionParam c) (AddPathsRx c) (AddPathsMaxTx c) (MaxPrefixes c)
    (MaxPrefixesThresholdPct c) (MaxPrefixesDisconnect c) (MaxPrefixesRestartTimer c)
    (AdjRIBInFilter c) (AdjRIBOutFilter c).

Definition set_LocalAS (v : Z) (c : BaseConfig) : BaseConfig :=
  ltac:(update BaseConfig_eta c LocalAS v).
Definition set_ConnectRetryTime (v : Z) (c : BaseConfig) : BaseConfig :=
  ltac:(update BaseConfig_eta c ConnectRetryTime v).
Definition set_cfg_HoldTime (v : Z) (c : BaseConfig) : BaseConfig :=
  ltac:(update BaseConfig_eta c cfg_HoldTime v).
Definition set_KeepaliveTime (v : Z) (c : BaseConfig) : BaseConfig :=
  ltac:(update BaseConfig_eta c KeepaliveTime v).

Record NeighborConfig := mkNeighborConfig {
  nc_base : BaseConfig;
  nc_NeighborAddress : bytes;
  nc_IfIndex : Z;
  nc_IfName : string;
  nc_PeerGroup : string;
  nc_Disabled : bool;
}.

Definition zero_NeighborConfig : NeighborConfig :=
  mkNeighborConfig zero_BaseConfig [] 0 "" "" false.

Definition NeighborConfig_eta (c : NeighborConfig) : NeighborConfig :=
  mkNeighborConfig (nc_base c) (nc_NeighborAddress c) (nc_IfIndex c) (nc_IfName c)
    (nc_PeerGroup c) (nc_Disabled c).

Definition set_nc_base (v : BaseConfig) (c : NeighborConfig) : NeighborConfig :=
  ltac:(update NeighborConfig_eta c nc_base v).
Definition set_nc_NeighborAddress (v : bytes) (c : NeighborConfig) : NeighborConfig :=
  ltac:(update NeighborConfig_eta c nc_NeighborAddress v).

Record PeerGroupConfig := mkPeerGroupConfig { pg_base : BaseConfig; pg_Name : string }.

(** [Bgp.PeerGroups], of which the neighbor reads the configuration. *)
Definition PeerGroups := gmap Z (gmap string PeerGroupConfig).

(** ** State *)

Record Messages := mkMessages {
  Sent_Update : Z; Sent_Notification : Z; Received_Update : Z; Received_Notification : Z;
}.
Record NeighborState := mkNState {
  ns_NeighborAddress : bytes;
  ns_IfIndex : Z;
  ns_Disabled : bool;
  ns_PeerAS : Z;
  ns_LocalAS : Z;
  ns_UpdateSource : string;
  ns_NextHopSelf : bool;
  ns_PeerType : Z;
  ns_AuthPassword : string;
  ns_Description : string;
  ns_SessionState : Z;
  ns_Messages : Messages;
  ns_RouteReflectorClusterId : Z;
  ns_RouteReflectorClient : bool;
  ns_MultiHopEnable : bool;
  ns_MultiHopTTL : Z;
  ns_ConnectRetryTime : Z;
  ns_HoldTime : Z;
  ns_KeepaliveTime : Z;
  ns_BfdNeighborState : string;
  ns_UseBfdState : bool;
  ns_PeerGroup : string;
  ns_AddPathsRx : bool;
  ns_AddPathsMaxTx : Z;
  ns_MaxPrefixes : Z;
  ns_MaxPrefixesThresholdPct : Z;
  ns_MaxPrefixesDisconnect : bool;
  ns_MaxPrefixesRestartTimer : Z;
  ns_TotalPrefixes : Z;
  ns_AdjRIBInFilter : string;
  ns_AdjRIBOutFilter : string;
}.

Definition NeighborState_eta (s : NeighborState) : NeighborState :=
  mkNState (ns_NeighborAddress s) (ns_IfIndex s) (ns_Disabled s) (ns_PeerAS s)
    (ns_LocalAS s) (ns_UpdateSource s) (ns_NextHopSelf s) (ns_PeerType s)
    (ns_AuthPassword s) (ns_Description s) (ns_SessionState s) (ns_Messages s)
    (ns_RouteReflectorClusterId s) (ns_RouteReflectorClient s) (ns_MultiHopEnable s)
    (ns_MultiHopTTL s) (ns_ConnectRetryTime s) (ns_HoldTime s) (ns_KeepaliveTime s)
    (ns_BfdNeighborState s) (ns_UseBfdState s) (ns_PeerGroup s) (ns_AddPathsRx s)
    (ns_AddPathsMaxTx s) (ns_MaxPrefixes s) (ns_MaxPrefixesThresholdPct s)
    (ns_MaxPrefixesDisconnect s) (ns_MaxPrefixesRestartTimer s) (ns_TotalPrefixes s)
    (ns_AdjRIBInFilter s) (ns_AdjRIBOutFilter s).

Definition set_ns_NeighborAddress (v : bytes) (s : NeighborState) : NeighborState :=
  ltac:(update NeighborState_eta s ns_NeighborAddress v).
Definition set_ns_PeerType (v : Z) (s : NeighborState) : NeighborState :=
  ltac:(update NeighborState_eta s ns_PeerType v).
Definition set_ns_SessionState (v : Z) (s : NeighborState) : NeighborState :=
  ltac:(update NeighborState_eta s ns_SessionState v).
Definition set_ns_Messages (v : Messages) (s : NeighborState) : NeighborState :=
  ltac:(update NeighborState_eta s ns_Messages v).
Definition set_ns_ConnectRetryTime (v : Z) (s : NeighborState) : NeighborState :=
  ltac:(update NeighborState_eta s ns_ConnectRetryTime v).
Definition set_ns_HoldTime (v : Z) (s : NeighborState) : NeighborState :=
  ltac:(update NeighborState_eta s ns_HoldTime v).
Definition set_ns_KeepaliveTime (v : Z) (s : NeighborState) : NeighborState :=
  ltac:(update NeighborState_eta s ns_KeepaliveTime v).
Definition set_ns_BfdNeighborState (v : string) (s : NeighborState) : NeighborState :=
  ltac:(update NeighborState_eta s ns_BfdNeighborState v).
Definition set_ns_UseBfdState (v : bool) (s : NeighborState) : NeighborState :=
  ltac:(update NeighborState_eta s ns_UseBfdState v).
Definition set_ns_AddPathsRx (v : bool) (s : NeighborState) : NeighborState :=
  ltac:(update NeighborState_eta s ns_AddPathsRx v).
Definition set_ns_AddPathsMaxTx (v : Z) (s : NeighborState) : NeighborState :=
  ltac:(update NeighborState_eta s ns_AddPathsMaxTx v).
Definition set_ns_TotalPrefixes (v : Z) (s : NeighborState) : NeighborState :=
  ltac:(update NeighborState_eta s ns_TotalPrefixes v).

Definition PeerTypeInternal : Z := 0.
Definition PeerTypeExternal : Z := 1.

(** The NeighborConf struct with the Neighbor it points to: [nb_Config] and
    [nb_State] are the neighbor's [Config] and [State]. [ignoreBfdFaultsTimer] is
    the timer's seconds, or [None] for the nil pointer. *)
Record NeighborConf := mkNeighborConf {
  Global : GlobalConfig;
  Group : option PeerGroupConfig;
  nb_NeighborAddress : bytes;
  nb_Config : NeighborConfig;
  nb_State : NeighborState;
  RunningConf : NeighborConfig;
  conf_BGPId : bytes;
  conf_ASSize : Z;
  AfiSafiMap : gset Z;
  MaxPrefixesThreshold : Z;
  ignoreBfdFaultsTimer : option Z;
}.

Definition NeighborConf_eta (n : NeighborConf) : NeighborConf :=
  mkNeighborConf (Global n) (Group n) (nb_NeighborAddress n) (nb_Config n) (nb_State n)
    (RunningConf n) (conf_BGPId n) (conf_ASSize n) (AfiSafiMap n) (MaxPrefixesThreshold n)
    (ignoreBfdFaultsTimer n).

Definition set_Global (v : GlobalConfig) (n : NeighborConf) : NeighborConf :=
  ltac:(update NeighborConf_eta n Global v).
Definition set_Group (v : option PeerGroupConfig) (n : NeighborConf) : NeighborConf :=
  ltac:(update NeighborConf_eta n Group v).
Definition set_nb_NeighborAddress (v : bytes) (n : NeighborConf) : NeighborConf :=
  ltac:(update NeighborConf_eta n nb_NeighborAddress v).
Definition set_nb_Config (v : NeighborConfig) (n : NeighborConf) : NeighborConf :=
  ltac:(update NeighborConf_eta n nb_Config v).
Definition set_nb_State (v : NeighborState) (n : NeighborConf) : NeighborConf :=
  ltac:(update NeighborConf_eta n nb_State v).
Definition set_RunningConf (v : NeighborConfig) (n : NeighborConf) : NeighborConf :=
  ltac:(update NeighborConf_eta n RunningConf v).
Definition set_conf_BGPId (v : bytes) (n : NeighborConf) : NeighborConf :=
  ltac:(update NeighborConf_eta n conf_BGPId v).
Definition set_conf_ASSize (v : Z) (n : NeighborConf) : NeighborConf :=
  ltac:(update NeighborConf_eta n conf_ASSize v).
Definition set_AfiSafiMap (v : gset Z) (n : NeighborConf) : NeighborConf :=
  ltac:(update NeighborConf_eta n AfiSafiMap v).
Definition set_MaxPrefixesThreshold (v : Z) (n : NeighborConf) : NeighborConf :=
  ltac:(update NeighborConf_eta n MaxPrefixesThreshold v).
Definition set_ignoreBfdFaultsTimer (v : option Z) (n : NeighborConf) : NeighborConf :=
  ltac:(update NeighborConf_eta n ignoreBfdFaultsTimer v).

(** Assignments to the neighbor's state. *)
Definition on_State (f : NeighborState -> NeighborState) (n : NeighborConf) : NeighborConf :=
  set_nb_State (f (nb_State n)) n.

(** ** Merging the configuration *)

Definition BGPConnectRetryTime : Z := 120.
Definition BGPHoldTimeDefault : Z := 180.

Definition setDefaults (c : BaseConfig) : BaseConfig :=
  let c := if ConnectRetryTime c =? 0 then set_ConnectRetryTime BGPConnectRetryTime c else c in
  let c := if cfg_HoldTime c =? 0 then set_cfg_HoldTime BGPHoldTimeDefault c
           else if cfg_HoldTime c <? 3 then set_cfg_HoldTime 3 c else c in
  if KeepaliveTime c =? 0 then set_KeepaliveTime (cfg_HoldTime c / 3) c else c.

(** [if in != 0 { out = in }], and the same for booleans and strings. *)
Definition override (inv out : Z) : Z := if negb (inv =? 0) then inv else out.
Definition override_bool (inv out : bool) : bool := if inv then inv else out.
Definition override_str (inv out : string) : string := if negb (inv =? "")%string then inv else out.

(** The assignments to [outConf.BaseConfig] up to [setDefaults]. *)
Definition override_base (i o : BaseConfig) : BaseConfig :=
  mkBaseConfig (override (PeerAS i) (PeerAS o)) (override (LocalAS i) (LocalAS o))
    (PeerAddressType o) (override_str (UpdateSource i) (UpdateSource o))
    (override_bool (NextHopSelf i) (NextHopSelf o))
    (override_str (AuthPassword i) (AuthPassword o))
    (override_str (Description i) (Description o))
    (override (RouteReflectorClusterId i) (RouteReflectorClusterId o))
    (override_bool (RouteReflectorClient i) (RouteReflectorClient o))
    (override_bool (MultiHopEnable i) (MultiHopEnable o))
    (override (MultiHopTTL i) (MultiHopTTL o))
    (override (ConnectRetryTime i) (ConnectRetryTime o))
    (override (cfg_HoldTime i) (cfg_HoldTime o))
    (override (KeepaliveTime i) (KeepaliveTime o))
    (override_bool (BfdEnable i) (BfdEnable o))
    (override_str (BfdSessionParam i) (BfdSessionParam o))
    (override_bool (AddPathsRx i) (AddPathsRx o))
    (override (AddPathsMaxTx i) (AddPathsMaxTx o))
    (override (MaxPrefixes i) (MaxPrefixes o))
    (override (MaxPrefixesThresholdPct i) (MaxPrefixesThresholdPct o))
    (override_bool (MaxPrefixesDisconnect i) (MaxPrefixesDisconnect o))
    (override (MaxPrefixesRestartTimer i) (MaxPrefixesRestartTimer o))
    (override_str (AdjRIBInFilter i) (AdjRIBInFilter o))
    (override_str (AdjRIBOutFilter i) (AdjRIBOutFilter o)).

Definition set_PeerAddressType (v : Z) (c : BaseConfig) : BaseConfig :=
  ltac:(update BaseConfig_eta c PeerAddressType v).

Definition GetConfFromNeighbor (inConf outConf : NeighborConfig) : NeighborConfig :=
  let base := setDefaults (override_base (nc_base inConf) (nc_base outConf)) in
  mkNeighborConfig (set_PeerAddressType (PeerAddressType (nc_base inConf)) base)
    (nc_NeighborAddress inConf) (nc_IfIndex inConf) (nc_IfName inConf) (nc_PeerGroup inConf)
    (nc_Disabled inConf).

Definition GetNeighConfFromGlobal (n : NeighborConf) (peerConf : NeighborConfig) : NeighborConfig :=
  set_nc_base (set_LocalAS (g_AS (Global n)) (nc_base peerConf)) peerConf.

Definition GetNeighConfFromPeerGroup (groupConf : option PeerGroupConfig) (peerConf : NeighborConfig)
  : NeighborConfig :=
  let globalAS := LocalAS (nc_base peerConf) in
  let peerConf := match groupConf with
                  | Some g => set_nc_base (pg_base g) peerConf
                  | None => peerConf
                  end in
  if LocalAS (nc_base peerConf) =? 0
  then set_nc_base (set_LocalAS globalAS (nc_base peerConf)) peerConf else peerConf.

Definition SetRunningConf (peerGroup : option PeerGroupConfig) (n : NeighborConf)
  (peerConf : NeighborConfig) : NeighborConfig :=
  let peerConf := GetNeighConfFromGlobal n peerConf in
  let peerConf := GetNeighConfFromPeerGroup peerGroup peerConf in
  GetConfFromNeighbor (nb_Config n) peerConf.

(** ** The reported state *)

(** The threshold is computed in floating point, exactly for the values a uint32
    product can have; the product itself wraps. *)
Definition SetNeighborState (peerConf : NeighborConfig) (n : NeighborConf) : NeighborConf :=
  let c := nc_base peerConf in
  let st := mkNState (nc_NeighborAddress peerConf) (nc_IfIndex peerConf) (nc_Disabled peerConf)
    (PeerAS c) (LocalAS c) (UpdateSource c) (NextHopSelf c) 0 (AuthPassword c) (Description c)
    0 (mkMessages 0 0 0 0) (RouteReflectorClusterId c) (RouteReflectorClient c)
    (MultiHopEnable c) (MultiHopTTL c) (ConnectRetryTime c) (cfg_HoldTime c) (KeepaliveTime c)
    "" false (nc_PeerGroup peerConf) false 0 (MaxPrefixes c) (MaxPrefixesThresholdPct c)
    (MaxPrefixesDisconnect c) (MaxPrefixesRestartTimer c) 0 (AdjRIBInFilter c) (AdjRIBOutFilter c) in
  set_MaxPrefixesThreshold (u32 (MaxPrefixes c * MaxPrefixesThresholdPct c) / 100)
    (set_nb_State st n).

Definition setOtherStates (n : NeighborConf) : NeighborConf :=
  let c := nc_base (RunningConf n) in
  let n := on_State (set_ns_PeerType (if LocalAS c =? PeerAS c then PeerTypeInternal
                                      else PeerTypeExternal)) n in
  on_State (set_ns_BfdNeighborState (if BfdEnable c then "up" else "down")%string) n.

(** [GetProtocolFromConfig] with no family configured, which is what
    NewNeighborConf passes: the family of the neighbor's address. *)
Definition default_family (neighborAddress : bytes) : gset Z :=
  {[ GetProtocolFamily (if bool_decide (To4 neighborAddress = []) then AfiIP6 else AfiIP) SafiUnicast ]}.

Definition NewNeighborConf (globalConf : GlobalConfig) (peerGroup : option PeerGroupConfig)
  (peerConf : NeighborConfig) : NeighborConf :=
  let zero := mkNState [] 0 false 0 0 "" false 0 "" "" 0 (mkMessages 0 0 0 0) 0 false false 0 0 0 0
                "" false "" false 0 0 0 false 0 0 "" "" in
  let conf := mkNeighborConf globalConf peerGroup (nc_NeighborAddress peerConf) peerConf zero
                zero_NeighborConfig [] 0 ∅ 0 None in
  let conf := set_RunningConf (SetRunningConf peerGroup conf (RunningConf conf)) conf in
  let conf := SetNeighborState (RunningConf conf) conf in
  let conf := setOtherStates conf in
  set_AfiSafiMap (default_family (nb_NeighborAddress conf)) conf.

(** ** Updates *)

Definition SetNeighborAddress (ip : bytes) (n : NeighborConf) : NeighborConf :=
  let n := set_nb_NeighborAddress ip n in
  let n := set_nb_Config (set_nc_NeighborAddress ip (nb_Config n)) n in
  let n := on_State (set_ns_NeighborAddress ip) n in
  set_RunningConf (set_nc_NeighborAddress ip (RunningConf n)) n.

Definition ResetNeighborAddress (n : NeighborConf) : NeighborConf := SetNeighborAddress [] n.

Definition copyNonKeyNeighConfAttrs (nConf : NeighborConfig) (n : NeighborConf) : NeighborConf :=
  let c := nb_Config n in
  set_nb_Config (mkNeighborConfig (nc_base nConf) (nc_NeighborAddress c) (nc_IfIndex c) (nc_IfName c)
    (nc_PeerGroup nConf) (nc_Disabled nConf)) n.

(** [packet.GetProtocolFamilyFromPeerAddrType], whose error is ignored. *)
Definition GetProtocolFamilyFromPeerAddrType (addrType : Z) : Z :=
  if addrType =? 0 then GetProtocolFamily AfiIP SafiUnicast
  else if addrType =? 1 then GetProtocolFamily AfiIP6 SafiUnicast else 0.

Definition UpdateNeighborConf (nConf : NeighborConfig) (groups : PeerGroups) (n : NeighborConf)
  : NeighborConf :=
  let n := copyNonKeyNeighConfAttrs nConf n in
  let running := zero_NeighborConfig in
  let changed := match Group n with
                 | None => negb (nc_PeerGroup nConf =? "")%string
                 | Some g => negb (nc_PeerGroup nConf =? pg_Name g)%string
                 end in
  let running :=
    if changed then
      let protoFamily := GetProtocolFamilyFromPeerAddrType (PeerAddressType (nc_base nConf)) in
      match groups !! protoFamily with
      | Some m => match m !! nc_PeerGroup nConf with
                  | Some g => GetNeighConfFromPeerGroup (Some g) running
                  | None => running
                  end
      | None => running
      end
    else running in
  let n := set_RunningConf (GetConfFromNeighbor (nb_Config n) running) n in
  SetNeighborState (RunningConf n) n.

Definition UpdateGlobal (gConf : GlobalConfig) (n : NeighborConf) : NeighborConf :=
  let n := set_Global gConf n in
  let n := set_RunningConf (SetRunningConf (Group n) n zero_NeighborConfig) n in
  let n := SetNeighborState (RunningConf n) n in
  setOtherStates n.

Definition UpdatePeerGroup (peerGroup : option PeerGroupConfig) (n : NeighborConf) : NeighborConf :=
  let n := set_Group peerGroup n in
  let n := set_RunningConf (SetRunningConf peerGroup n zero_NeighborConfig) n in
  SetNeighborState (RunningConf n) n.

Definition IsInternal (n : NeighborConf) : bool :=
  PeerAS (nc_base (RunningConf n)) =? LocalAS (nc_base (RunningConf n)).
Definition IsExternal (n : NeighborConf) : bool := negb (IsInternal n).

(** ** Prefix counting *)

Definition IncrPrefixCount : NeighborConf -> NeighborConf :=
  on_State (fun s => set_ns_TotalPrefixes (u32 (ns_TotalPrefixes s + 1)) s).
Definition DecrPrefixCount : NeighborConf -> NeighborConf :=
  on_State (fun s => set_ns_TotalPrefixes (u32 (ns_TotalPrefixes s - 1)) s).
Definition SetPrefixCount (count : Z) : NeighborConf -> NeighborConf :=
  on_State (set_ns_TotalPrefixes 0).

Definition CanAcceptNewPrefix (n : NeighborConf) : bool :=
  negb ((0 <? MaxPrefixes (nc_base (RunningConf n)))
        && (MaxPrefixes (nc_base (RunningConf n)) <=? ns_TotalPrefixes (nb_State n))).

(** ** Events of the session *)

Definition NC_FSMStateChange (state : Z) : NeighborConf -> NeighborConf :=
  on_State (set_ns_SessionState state).

(** One entry of an address family the peer sent: what the local end may then
    send and receive. *)
Definition set_add_paths (conf : NeighborConfig) (val : Z) (s : NeighborState) : NeighborState :=
  let s := if has_bits val BGPCapAddPathRx then set_ns_AddPathsMaxTx (AddPathsMaxTx (nc_base conf)) s
           else s in
  if has_bits val BGPCapAddPathTx then set_ns_AddPathsRx true s else s.

Definition SetPeerAttrs (bgpId : bytes) (asSize holdTime keepaliveTime : Z)
  (addPathFamily : gmap Z (gmap Z Z)) (n : NeighborConf) : NeighborConf :=
  let n := set_conf_ASSize asSize (set_conf_BGPId bgpId n) in
  let n := on_State (set_ns_HoldTime holdTime) n in
  let n := on_State (set_ns_KeepaliveTime keepaliveTime) n in
  let vals := concat (map (fun '(afi, safiMap) =>
      if (afi =? AfiIP) || (afi =? AfiIP6) then (map_to_list (safiMap : gmap Z Z)).*2 else [])
    (map_to_list addPathFamily)) in
  on_State (fun s => foldl (fun s val => set_add_paths (RunningConf n) val s) s vals) n.

Definition IgnoreBfdFaultsDefaultTime : Z := 300.

Definition BfdFaultSet (n : NeighborConf) : NeighborConf :=
  let n := on_State (set_ns_BfdNeighborState "down") n in
  set_ignoreBfdFaultsTimer (Some IgnoreBfdFaultsDefaultTime) n.

(** The condition compares the method value [n.IgnoreBfdFaultsTimerExpired], not
    the timer, with nil, and so is always true; stopping a nil timer panics. *)
Definition BfdFaultCleared (n : NeighborConf) : res NeighborConf :=
  _ ← of_option (ignoreBfdFaultsTimer n);
  Ok (on_State (set_ns_BfdNeighborState "up") n).

Definition IgnoreBfdFaultsTimerExpired : NeighborConf -> NeighborConf :=
  on_State (set_ns_UseBfdState false).

Definition PeerConnEstablished : NeighborConf -> NeighborConf :=
  on_State (set_ns_UseBfdState true).

Definition PeerConnBroken (n : NeighborConf) : NeighborConf :=
  let c := nc_base (RunningConf n) in
  let n := on_State (set_ns_ConnectRetryTime (ConnectRetryTime c)) n in
  let n := on_State (set_ns_HoldTime (cfg_HoldTime c)) n in
  let n := on_State (set_ns_KeepaliveTime (KeepaliveTime c)) n in
  let n := on_State (set_ns_AddPathsRx false) n in
  let n := on_State (set_ns_AddPathsMaxTx 0) n in
  on_State (set_ns_TotalPrefixes 0) n.

(** Peer.ProcessBfd of src/bgp/server/peer.go; [ret] is what the BFD manager
    answers. *)
Definition ProcessBfd (add ret : bool) (n : NeighborConf) : NeighborConf :=
  if add && BfdEnable (nc_base (RunningConf n)) then
    if ret then on_State (set_ns_BfdNeighborState "up") n else n
  else if negb (ns_BfdNeighborState (nb_State n) =? "")%string then
    if ret then on_State (set_ns_BfdNeighborState "") n else n
  else n.

(** BGPServer.handleBfdNotifications of src/bgp/server/server.go for the peer it
    finds: the configuration afterwards, and the statuses sent to the FSM
    manager. *)
Definition handleBfdNotifications (State : bool) (n : NeighborConf)
  : res (NeighborConf * list bool) :=
  let '(n, sent) :=
    if negb State && (ns_BfdNeighborState (nb_State n) =? "up")%string
    then (BfdFaultSet n, [false]) else (n, []) in
  if State && (ns_BfdNeighborState (nb_State n) =? "down")%string
  then n ← BfdFaultCleared n; Ok (n, sent ++ [true])
  else Ok (n, sent).

(** ** The timers of a running configuration *)

Definition timers_range (c : BaseConfig) : Prop :=
  is_u32 (ConnectRetryTime c) /\ is_u32 (cfg_HoldTime c) /\ is_u32 (KeepaliveTime c).

(** What the state machine relies on. *)
Definition timers_ok (c : BaseConfig) : Prop :=
  0 < ConnectRetryTime c < 4294967296 /\ 3 <= cfg_HoldTime c < 4294967296 /\
  0 < KeepaliveTime c < 4294967296.

Lemma override_range i o : is_u32 i -> is_u32 o -> is_u32 (override i o).
Proof. unfold override. by destruct (negb _). Qed.

Lemma override_base_range i o :
  timers_range i -> timers_range o -> timers_range (override_base i o).
Proof. intros (?&?&?) (?&?&?). split_and!; by apply override_range. Qed.

Lemma setDefaults_ok c : timers_range c -> timers_ok (setDefaults c).
Proof.
  intros (Hc & Hh & Hk). unfold setDefaults, timers_ok, is_u32 in *.
  unfold set_ConnectRetryTime, set_cfg_HoldTime, set_KeepaliveTime, BGPConnectRetryTime, BGPHoldTimeDefault.
  assert (forall h, 3 <= h -> 0 < h / 3) as Hdiv by (intros h ?; apply Z.div_str_pos; lia).
  assert (forall h, 0 <= h -> h / 3 <= h) as Hle by (intros h ?; apply Z.div_le_upper_bound; lia).
  destruct (ConnectRetryTime c =? 0) eqn:E1; cbn [cfg_HoldTime ConnectRetryTime KeepaliveTime];
    destruct (cfg_HoldTime c =? 0) eqn:E2; cbn [cfg_HoldTime ConnectRetryTime KeepaliveTime];
    try (destruct (cfg_HoldTime c <? 3) eqn:E3; cbn [cfg_HoldTime ConnectRetryTime KeepaliveTime]);
    destruct (KeepaliveTime c =? 0) eqn:E4; cbn [cfg_HoldTime ConnectRetryTime KeepaliveTime];
    rewrite ?Z.eqb_eq, ?Z.eqb_neq, ?Z.ltb_lt, ?Z.ltb_ge in *;
    change (180 / 3) with 60; change (3 / 3) with 1;
    pose proof (Hdiv (cfg_HoldTime c)); pose proof (Hle (cfg_HoldTime c)); lia.
Qed.

Lemma GetConfFromNeighbor_ok i o :
  timers_range (nc_base i) -> timers_range (nc_base o) ->
  timers_ok (nc_base (GetConfFromNeighbor i o)).
Proof. intros Hi Ho. exact (setDefaults_ok _ (override_base_range _ _ Hi Ho)). Qed.

Definition group_range (g : option PeerGroupConfig) : Prop :=
  match g with Some g => timers_range (pg_base g) | None => True end.

Lemma GetNeighConfFromPeerGroup_range g c :
  group_range g -> timers_range (nc_base c) ->
  timers_range (nc_base (GetNeighConfFromPeerGroup g c)).
Proof.
  intros Hg Hc. unfold GetNeighConfFromPeerGroup. destruct g as [g|]; cbn [nc_base set_nc_base] in *;
    by destruct (_ =? 0).
Qed.

Lemma SetRunningConf_ok g n c :
  group_range g -> timers_range (nc_base (nb_Config n)) -> timers_range (nc_base c) ->
  timers_ok (nc_base (SetRunningConf g n c)).
Proof.
  intros Hg Hn Hc. apply GetConfFromNeighbor_ok; [done|]. by apply GetNeighConfFromPeerGroup_range.
Qed.

Lemma zero_range : timers_range (nc_base zero_NeighborConfig).
Proof. by split_and!. Qed.
#[export] Hint Resolve zero_range : core.

(** The operations on a neighbor's configuration. *)
Inductive conf_op :=
| OpNeighborAddress (ip : bytes)
| OpNeighborConf (nConf : NeighborConfig) (groups : PeerGroups)
| OpGlobal (gConf : GlobalConfig)
| OpPeerGroup (group : option PeerGroupConfig)
| OpState (f : NeighborState -> NeighborState)
| OpPeerAttrs (bgpId : bytes) (asSize holdTime keepaliveTime : Z) (family : gmap Z (gmap Z Z))
| OpConnBroken
| OpBfd (up : bool).

Definition conf_step (op : conf_op) (n : NeighborConf) : res NeighborConf :=
  match op with
  | OpNeighborAddress ip => Ok (SetNeighborAddress ip n)
  | OpNeighborConf nConf groups => Ok (UpdateNeighborConf nConf groups n)
  | OpGlobal gConf => Ok (UpdateGlobal gConf n)
  | OpPeerGroup group => Ok (UpdatePeerGroup group n)
  | OpState f => Ok (on_State f n)
  | OpPeerAttrs id sz hold ka family => Ok (SetPeerAttrs id sz hold ka family n)
  | OpConnBroken => Ok (PeerConnBroken n)
  | OpBfd up => r ← handleBfdNotifications up n; Ok r.1
  end.

(** The configurations the operations are given have uint32 timers. *)
Definition conf_op_range (op : conf_op) : Prop :=
  match op with
  | OpNeighborConf nConf groups =>
      timers_range (nc_base nConf) /\
      (forall pf m name g, groups !! pf = Some m -> m !! name = Some g -> timers_range (pg_base g))
  | OpPeerGroup group => group_range group
  | _ => True
  end.

Inductive conf_reachable : NeighborConf -> Prop :=
| conf_new gConf group peerConf :
    group_range group -> timers_range (nc_base peerConf) ->
    conf_reachable (NewNeighborConf gConf group peerConf)
| conf_next n op n' :
    conf_reachable n -> conf_op_range op -> conf_step op n = Ok n' -> conf_reachable n'.

Definition conf_inv (n : NeighborConf) : Prop :=
  timers_ok (nc_base (RunningConf n)) /\ timers_range (nc_base (nb_Config n)) /\ group_range (Group n).

Lemma UpdateNeighborConf_inv nConf groups n :
  conf_op_range (OpNeighborConf nConf groups) -> conf_inv n ->
  conf_inv (UpdateNeighborConf nConf groups n).
Proof.
  intros [Hn Hg] (_ & _ & Hgr). unfold UpdateNeighborConf.
  split; [|by split]. apply GetConfFromNeighbor_ok; [done|].
  cbn [Group copyNonKeyNeighConfAttrs set_nb_Config].
  destruct (match Group n with None => _ | Some _ => _ end); [|done].
  destruct (groups !! _) as [m|] eqn:E1; [|done]. destruct (m !! _) as [g|] eqn:E2; [|done].
  apply GetNeighConfFromPeerGroup_range; [|done]. by apply (Hg _ _ _ _ E1 E2).
Qed.

Lemma handleBfdNotifications_conf up n n' sent :
  handleBfdNotifications up n = Ok (n', sent) ->
  RunningConf n' = RunningConf n /\ nb_Config n' = nb_Config n /\ Group n' = Group n.
Proof.
  unfold handleBfdNotifications, BfdFaultCleared.
  destruct (negb up && _); destruct (up && _); try (by intros [= <- <-]);
    destruct (ignoreBfdFaultsTimer _); cbn; try done; by intros [= <- <-].
Qed.

Lemma conf_step_inv op n n' :
  conf_op_range op -> conf_inv n -> conf_step op n = Ok n' -> conf_inv n'.
Proof.
  intros Hop (Hr & Hc & Hg). pose proof Hop as Hop'.
  destruct op; cbn [conf_step conf_op_range] in *; intros Hn;
    try (injection Hn as <-; split_and!; done).
  - injection Hn as <-. by apply UpdateNeighborConf_inv.
  - injection Hn as <-. split; [by apply SetRunningConf_ok|done].
  - injection Hn as <-. split; [by apply SetRunningConf_ok|done].
  - destruct (handleBfdNotifications up n) as [[m sent]| | |] eqn:E; try done. injection Hn as <-.
    apply handleBfdNotifications_conf in E as (Er & Ec & Eg). unfold conf_inv. cbn [fst].
    by rewrite Er, Ec, Eg.
Qed.

(** whatever the global, peer-group and neighbor configuration are, and
    whatever sequence of updates and session events follows, the configuration a
    neighbor runs with has a positive connect-retry time, a hold time of at least
    3 seconds and a positive keepalive time. *)
Theorem running_timers_valid n :
  conf_reachable n -> timers_ok (nc_base (RunningConf n)).
Proof.
  intros H. assert (conf_inv n) as [? _]; [|done]. induction H as [gConf g c Hg Hc|n op n' _ IH Hop Hs].
  - split; [by apply SetRunningConf_ok|done].
  - by apply (conf_step_inv op n).
Qed.

Definition example_conf : NeighborConf :=
  NewNeighborConf (mkGlobalConfig 65001 [10; 0; 0; 1]) None
    (mkNeighborConfig (set_cfg_HoldTime 1 zero_BaseConfig) [10; 0; 0; 2] 0 "" "" false).

Lemma running_timers_valid_witness :
  conf_reachable (UpdateGlobal (mkGlobalConfig 65002 [10; 0; 0; 1]) example_conf) /\
  timers_ok (nc_base (RunningConf (UpdateGlobal (mkGlobalConfig 65002 [10; 0; 0; 1]) example_conf))).
Proof.
  assert (conf_reachable (UpdateGlobal (mkGlobalConfig 65002 [10; 0; 0; 1]) example_conf)) as H.
  { apply (conf_next example_conf (OpGlobal (mkGlobalConfig 65002 [10; 0; 0; 1]))); [|done|done].
    apply conf_new; [done|]. split_and!; done. }
  split; [exact H|]. by apply running_timers_valid.
Defined.

(** ** Precedence *)

Fixpoint first_set (l : list Z) : Z :=
  match l with [] => 0 | x :: l => if x =? 0 then first_set l else x end.
Fixpoint first_str (l : list string) : string :=
  match l with [] => "" | x :: l => if (x =? "")%string then first_str l else x end.

Definition group_base (g : option PeerGroupConfig) : BaseConfig :=
  match g with Some g => pg_base g | None => zero_BaseConfig end.

Lemma setDefaults_timers c :
  let d := setDefaults c in
  ConnectRetryTime d = first_set [ConnectRetryTime c; 120] /\
  cfg_HoldTime d = (let h := first_set [cfg_HoldTime c; 180] in if h <? 3 then 3 else h) /\
  KeepaliveTime d = first_set [KeepaliveTime c; cfg_HoldTime d / 3].
Proof.
  cbn zeta. unfold setDefaults, first_set.
  destruct (ConnectRetryTime c =? 0) eqn:E1; cbn [cfg_HoldTime set_ConnectRetryTime];
    destruct (cfg_HoldTime c =? 0) eqn:E2; cbn [cfg_HoldTime set_ConnectRetryTime];
    try (destruct (cfg_HoldTime c <? 3) eqn:E3);
    cbn [KeepaliveTime cfg_HoldTime ConnectRetryTime set_ConnectRetryTime set_cfg_HoldTime];
    destruct (KeepaliveTime c =? 0) eqn:E4;
    cbn [KeepaliveTime cfg_HoldTime ConnectRetryTime set_ConnectRetryTime set_cfg_HoldTime set_KeepaliveTime];
    split_and!; try done.
  all: try (by destruct (cfg_HoldTime c / 3 =? 0) eqn:E; rewrite ?Z.eqb_eq in E).
Qed.

Lemma setDefaults_rest c :
  exists a h k, setDefaults c = set_ConnectRetryTime a (set_cfg_HoldTime h (set_KeepaliveTime k c)).
Proof.
  exists (ConnectRetryTime (setDefaults c)), (cfg_HoldTime (setDefaults c)), (KeepaliveTime (setDefaults c)).
  unfold setDefaults. destruct c. cbn.
  by destruct (_ =? 0); cbn; destruct (_ =? 0); cbn; try (destruct (_ <? 3); cbn); destruct (_ =? 0).
Qed.

Lemma group_merge group gAS :
  nc_base (GetNeighConfFromPeerGroup group (set_nc_base (set_LocalAS gAS zero_BaseConfig) zero_NeighborConfig))
  = set_LocalAS (first_set [LocalAS (group_base group); gAS]) (group_base group).
Proof.
  unfold GetNeighConfFromPeerGroup. destruct group as [[[] ?]|]; cbn.
  - destruct (_ =? 0) eqn:E; cbn; rewrite ?E; [|done].
    destruct (gAS =? 0) eqn:E2; rewrite ?Z.eqb_eq in *; by subst.
  - destruct (gAS =? 0) eqn:E; cbn; [|done]. rewrite Z.eqb_eq in E. by subst.
Qed.

Lemma override_first i o l : o = first_set l -> override i o = first_set (i :: l).
Proof. unfold override. cbn. intros ->. by destruct (i =? 0). Qed.

Lemma override_str_first i o l : o = first_str l -> override_str i o = first_str (i :: l).
Proof. unfold override_str. cbn. intros ->. by destruct (i =? "")%string. Qed.

Lemma first_set_1 x : x = first_set [x].
Proof. cbn. destruct (x =? 0) eqn:E; [by rewrite Z.eqb_eq in E|done]. Qed.

Lemma first_str_1 x : x = first_str [x].
Proof. cbn. destruct (String.eqb_spec x ""); by subst. Qed.

Lemma first_set_assoc x y l : first_set (first_set [x; y] :: l) = first_set (x :: y :: l).
Proof. cbn. destruct (x =? 0) eqn:E; [|by rewrite E]. by destruct (y =? 0) eqn:E2; rewrite ?E2. Qed.

(** the merged configuration takes each setting from the most specific place
    that sets it: the neighbor, then the peer group, then the default, which for
    the local AS is the global one, for the hold time 180 seconds and never less
    than 3, and for the keepalive time a third of the hold time. *)
Theorem running_conf_precedence n group :
  let i := nc_base (nb_Config n) in
  let g := group_base group in
  let c := nc_base (SetRunningConf group n zero_NeighborConfig) in
  LocalAS c = first_set [LocalAS i; LocalAS g; g_AS (Global n)] /\
  PeerAS c = first_set [PeerAS i; PeerAS g] /\
  ConnectRetryTime c = first_set [ConnectRetryTime i; ConnectRetryTime g; 120] /\
  cfg_HoldTime c = (let h := first_set [cfg_HoldTime i; cfg_HoldTime g; 180] in
                    if h <? 3 then 3 else h) /\
  KeepaliveTime c = first_set [KeepaliveTime i; KeepaliveTime g; cfg_HoldTime c / 3] /\
  UpdateSource c = first_str [UpdateSource i; UpdateSource g] /\
  AuthPassword c = first_str [AuthPassword i; AuthPassword g] /\
  BfdEnable c = BfdEnable i || BfdEnable g /\
  AddPathsRx c = AddPathsRx i || AddPathsRx g /\
  AddPathsMaxTx c = first_set [AddPathsMaxTx i; AddPathsMaxTx g] /\
  RouteReflectorClient c = RouteReflectorClient i || RouteReflectorClient g /\
  MaxPrefixes c = first_set [MaxPrefixes i; MaxPrefixes g].
Proof.
  cbn zeta. unfold SetRunningConf, GetNeighConfFromGlobal, GetConfFromNeighbor.
  cbn [nc_base zero_NeighborConfig]. rewrite group_merge.
  set (i := nc_base (nb_Config n)). set (o := set_LocalAS _ (group_base group)).
  pose proof (setDefaults_timers (override_base i o)) as (H1 & H2 & H3).
  destruct (setDefaults_rest (override_base i o)) as (a & h & k & Hd).
  rewrite Hd in *. clear Hd.
  cbn [set_PeerAddressType set_ConnectRetryTime set_cfg_HoldTime set_KeepaliveTime override_base
       LocalAS PeerAS ConnectRetryTime cfg_HoldTime KeepaliveTime UpdateSource AuthPassword BfdEnable
       AddPathsRx AddPathsMaxTx RouteReflectorClient MaxPrefixes] in *.
  rewrite (override_first _ _ [_] (first_set_1 _)), first_set_assoc in H1.
  rewrite (override_first _ _ [_] (first_set_1 _)), first_set_assoc in H2.
  rewrite (override_first _ _ [_] (first_set_1 _)), first_set_assoc in H3.
  assert (Hb : forall x y, override_bool x y = x || y) by by intros [].
  split_and!; rewrite ?Hb; try done;
    try (by apply override_first; try apply first_set_1); by apply override_str_first, first_str_1.
Qed.

Lemma UpdateNeighborConf_alone nConf groups n :
  Group n = None -> nc_PeerGroup nConf = ""%string ->
  let n' := UpdateNeighborConf nConf groups n in
  RunningConf n' = GetConfFromNeighbor (nb_Config (copyNonKeyNeighConfAttrs nConf n)) zero_NeighborConfig /\
  ns_LocalAS (nb_State n') = LocalAS (nc_base (RunningConf n')) /\ Group n' = None.
Proof.
  intros Hg Hp. unfold UpdateNeighborConf. cbn [Group copyNonKeyNeighConfAttrs set_nb_Config].
  rewrite Hg, Hp. by split_and!.
Qed.

Lemma UpdateGlobal_LocalAS gConf n :
  LocalAS (nc_base (RunningConf (UpdateGlobal gConf n)))
  = first_set [LocalAS (nc_base (nb_Config n)); LocalAS (group_base (Group n)); g_AS gConf].
Proof.
  assert (RunningConf (UpdateGlobal gConf n)
    = SetRunningConf (Group n) (set_Global gConf n) zero_NeighborConfig) as -> by done.
  unfold SetRunningConf, GetNeighConfFromGlobal, GetConfFromNeighbor.
  cbn [nc_base zero_NeighborConfig]. rewrite group_merge.
  destruct (setDefaults_rest (override_base (nc_base (nb_Config (set_Global gConf n)))
    (set_LocalAS (first_set [LocalAS (group_base (Group n)); g_AS (Global (set_Global gConf n))])
      (group_base (Group n))))) as (a & h & k & ->).
  cbn [set_PeerAddressType set_ConnectRetryTime set_cfg_HoldTime set_KeepaliveTime override_base
       LocalAS nc_base set_LocalAS nb_Config set_Global Global].
  by apply override_first.
Qed.

(** updating a neighbor that is in no peer group loses the global AS number.
    Unlike UpdateGlobal and UpdatePeerGroup, UpdateNeighborConf does not start from
    the global configuration: a neighbor whose own configuration leaves the local
    AS unset runs with AS 0 from then on, and reports it. *)
Theorem update_neighbor_loses_local_as nConf groups n :
  Group n = None -> nc_PeerGroup nConf = ""%string -> LocalAS (nc_base nConf) = 0 ->
  let n' := UpdateNeighborConf nConf groups n in
  LocalAS (nc_base (RunningConf n')) = 0 /\ ns_LocalAS (nb_State n') = 0 /\
  LocalAS (nc_base (RunningConf (UpdateGlobal (Global n) n'))) = g_AS (Global n).
Proof.
  intros Hg Hp Hl. cbn zeta.
  pose proof (UpdateNeighborConf_alone nConf groups n Hg Hp) as (Hr & Hs & Hg').
  assert (LocalAS (nc_base (RunningConf (UpdateNeighborConf nConf groups n))) = 0) as H0.
  { rewrite Hr. unfold GetConfFromNeighbor. cbn [nb_Config copyNonKeyNeighConfAttrs set_nb_Config nc_base].
    destruct (setDefaults_rest (override_base (nc_base nConf) (nc_base zero_NeighborConfig)))
      as (a & h & k & ->).
    cbn. unfold override. by rewrite Hl. }
  split_and!; [done|by rewrite Hs|].
  rewrite UpdateGlobal_LocalAS, Hg'. cbn [group_base zero_BaseConfig LocalAS first_set Z.eqb].
  assert (nb_Config (UpdateNeighborConf nConf groups n) = nb_Config (copyNonKeyNeighConfAttrs nConf n))
    as -> by done.
  cbn [nb_Config copyNonKeyNeighConfAttrs set_nb_Config nc_base]. rewrite Hl. cbn [Z.eqb].
  destruct (g_AS (Global n) =? 0) eqn:E; [by rewrite Z.eqb_eq in E|done].
Qed.

Lemma update_neighbor_loses_local_as_witness :
  let nConf := mkNeighborConfig (set_cfg_HoldTime 90 zero_BaseConfig) [10; 0; 0; 2] 0 "" "" false in
  let n' := UpdateNeighborConf nConf ∅ example_conf in
  LocalAS (nc_base (RunningConf example_conf)) = 65001 /\
  LocalAS (nc_base (RunningConf n')) = 0 /\ ns_LocalAS (nb_State n') = 0 /\
  LocalAS (nc_base (RunningConf (UpdateGlobal (Global example_conf) n'))) = 65001.
Proof.
  split; [reflexivity|].
  apply (update_neighbor_loses_local_as
    (mkNeighborConfig (set_cfg_HoldTime 90 zero_BaseConfig) [10; 0; 0; 2] 0 "" "" false) ∅ example_conf);
    reflexivity.
Defined.

(** The initial state of a neighbor without BFD is "down" with no timer set: an
    up-notification for it stops a nil timer. *)
Lemma bfd_up_unconfigured_panics gConf group peerConf :
  BfdEnable (nc_base (RunningConf (NewNeighborConf gConf group peerConf))) = false ->
  handleBfdNotifications true (NewNeighborConf gConf group peerConf) = Panic.
Proof.
  intros H. unfold handleBfdNotifications. cbn [negb andb].
  assert (ns_BfdNeighborState (nb_State (NewNeighborConf gConf group peerConf)) = "down"%string) as ->;
    [|done].
  change (ns_BfdNeighborState (nb_State (NewNeighborConf gConf group peerConf))) with
    (if BfdEnable (nc_base (RunningConf (NewNeighborConf gConf group peerConf)))
     then "up" else "down")%string. by rewrite H.
Qed.
