(* ===== verification/BgpPath.v ===== *)
(** * Paths of the local RIB

    Path of src/bgp/rib/path.go: the attributes a peer announced for its routes,
    the preference computed from them, and the reachability of their next hops.
    The pointer to the neighbor is the neighbor's configuration and state at the
    time of the call. Left out: the logger, the RIB a path belongs to, and the
    operations that aggregate paths. *)

From stdpp Require Import pretty.
From S2P Require Import Prelude.
From S2P Require Import BgpOpen.
From S2P Require Import BgpNlri.
From S2P Require Import BgpAsPath.
From S2P Require Import BgpAttr.
From S2P Require Import BgpUpdate.
From S2P Require Import BgpHelpers.
From S2P Require Import BgpNeighbor.

(** ** Route types and sources *)

Definition RouteTypeAgg : Z := 1.
Definition RouteTypeConnected : Z := 2.
Definition RouteTypeDefault : Z := 4.
Definition RouteTypeStatic : Z := 8.
Definition RouteTypeIGP : Z := 16.
Definition RouteTypeEGP : Z := 32.

Definition RouteSrcLocal : Z := 1.
Definition RouteSrcExternal : Z := 2.
Definition RouteSrcUnknown : Z := 4.

Definition RouteTypeToSource : list (Z * Z) :=
  [ (RouteTypeAgg, RouteSrcLocal); (RouteTypeConnected, RouteSrcLocal);
    (RouteTypeDefault, RouteSrcLocal); (RouteTypeStatic, RouteSrcLocal);
    (RouteTypeIGP, RouteSrcLocal); (RouteTypeEGP, RouteSrcExternal) ].

Definition getRouteSource (routeType : Z) : Z :=
  match assocZ RouteTypeToSource routeType with
  | Some routeSource => routeSource
  | None => RouteSrcUnknown
  end.

(** ** Data *)

Record ReachabilityInfo := mkReachabilityInfo {
  ri_NextHop : string;
  ri_NextHopIfType : Z;
  ri_NextHopIfIdx : Z;
  ri_Metric : Z;
}.

Record NHReachabilityInfo := mkNHReachabilityInfo {
  nh_nextHop : bytes;
  nh_reachabilityInfo : option ReachabilityInfo;
}.

(** The aggregated paths are kept by their addresses. *)
Record Path := mkPath {
  path_NeighborConf : option NeighborConf;
  path_PathAttrs : list BGPPathAttr;
  path_Pref : Z;
  nhReachabilityInfo : gmap Z NHReachabilityInfo;
  path_routeType : Z;
  path_MED : Z;
  path_LocalPref : Z;
  path_AggregatedPaths : gmap string nat;
}.

Definition Path_eta (p : Path) : Path :=
  mkPath (path_NeighborConf p) (path_PathAttrs p) (path_Pref p) (nhReachabilityInfo p)
    (path_routeType p) (path_MED p) (path_LocalPref p) (path_AggregatedPaths p).

Definition set_nhReachabilityInfo (v : gmap Z NHReachabilityInfo) (p : Path) : Path :=
  ltac:(update Path_eta p nhReachabilityInfo v).

(** ** Construction *)

Definition BGP_INTERNAL_PREF : Z := 100.
Definition BGP_EXTERNAL_PREF : Z := 100.

Definition path_IsExternal (neighborConf : option NeighborConf) : bool :=
  match neighborConf with Some n => IsExternal n | None => false end.
Definition path_IsInternal (neighborConf : option NeighborConf) : bool :=
  match neighborConf with Some n => IsInternal n | None => false end.

(** The loop of [calculatePref]: the preference and the two attribute values it
    stores in the path on its way. *)
Fixpoint calculatePref_loop (pas : list BGPPathAttr) (pref LocalPref MED : Z) : res (Z * Z * Z) :=
  match pas with
  | [] => Ok (pref, LocalPref, MED)
  | pa :: pas =>
    if GetCode pa =? BGPPathAttrTypeLocalPref then
      match pa with
      | PALocalPref _ v => calculatePref_loop pas v v MED
      | _ => Panic
      end
    else if GetCode pa =? BGPPathAttrTypeMultiExitDisc then
      match pa with
      | PAMultiExitDisc _ v => calculatePref_loop pas pref LocalPref v
      | _ => Panic
      end
    else calculatePref_loop pas pref LocalPref MED
  end.

Definition calculatePref (neighborConf : option NeighborConf) (pas : list BGPPathAttr)
  : res (Z * Z * Z) :=
  '(pref, localPref, med) ← calculatePref_loop pas BGP_INTERNAL_PREF 0 0;
  Ok (if path_IsExternal neighborConf then BGP_EXTERNAL_PREF else pref, localPref, med).

(** [p.nhReachabilityInfo[family].nextHop = nextHop], the entry made if it is
    missing. *)
Definition set_nextHop (family : Z) (nextHop : bytes) (m : gmap Z NHReachabilityInfo)
  : gmap Z NHReachabilityInfo :=
  <[family := mkNHReachabilityInfo nextHop
       (match m !! family with Some i => nh_reachabilityInfo i | None => None end)]> m.

Fixpoint nextHop_attrs (pas : list BGPPathAttr) (m : gmap Z NHReachabilityInfo)
  : res (gmap Z NHReachabilityInfo) :=
  match pas with
  | [] => Ok m
  | pa :: pas =>
    if GetCode pa =? BGPPathAttrTypeNextHop then
      match pa with
      | PANextHop _ v => nextHop_attrs pas (set_nextHop (GetProtocolFamily AfiIP SafiUnicast) v m)
      | _ => Panic
      end
    else nextHop_attrs pas m
  end.

(** [mpReach] is an MP_REACH_NLRI attribute, if there is one. *)
Definition constructNHReachabilityInfo (pas : list BGPPathAttr) (mpReach : option BGPPathAttr)
  : res (gmap Z NHReachabilityInfo) :=
  m ← nextHop_attrs pas ∅;
  match mpReach with
  | None => Ok m
  | Some (PAMPReachNLRI _ afi safi nh _ _) =>
    nh ← of_option nh;
    Ok (set_nextHop (GetProtocolFamily afi safi) (MPNextHop_GetNextHop nh) m)
  | Some _ => Panic
  end.

Definition NewPath (peer : option NeighborConf) (pas : list BGPPathAttr)
  (mpReach : option BGPPathAttr) (routeType : Z) : res Path :=
  '(pref, localPref, med) ← calculatePref peer pas;
  m ← constructNHReachabilityInfo pas mpReach;
  Ok (mkPath peer pas pref m routeType med localPref ∅).

(** ** Queries *)

(** [net.IP.Equal]: an IPv4 address equals its form mapped into IPv6. *)
Definition IP_Equal (ip x : bytes) : bool :=
  if len ip =? len x then bool_decide (ip = x)
  else if (len ip =? 4) && (len x =? 16) then bool_decide (v4InV6Prefix ++ ip = x)
  else if (len ip =? 16) && (len x =? 4) then bool_decide (ip = v4InV6Prefix ++ x)
  else false.

(** The checks of one attribute by [IsValid]: the route has passed this router or
    its cluster already. *)
Definition attr_valid (neighborConf : option NeighborConf) (pa : BGPPathAttr) : res bool :=
  if GetCode pa =? BGPPathAttrTypeOriginatorId then
    n ← of_option neighborConf;
    match pa with
    | PAOriginatorId _ v => Ok (negb (IP_Equal (g_RouterId (Global n)) v))
    | _ => Panic
    end
  else if GetCode pa =? BGPPathAttrTypeClusterList then
    match pa with
    | PAClusterList _ [] => Ok true
    | PAClusterList _ clusters =>
      n ← of_option neighborConf;
      Ok (negb (existsb (Z.eqb (RouteReflectorClusterId (nc_base (RunningConf n)))) clusters))
    | _ => Panic
    end
  else Ok true.

Fixpoint attrs_valid (neighborConf : option NeighborConf) (pas : list BGPPathAttr) : res bool :=
  match pas with
  | [] => Ok true
  | pa :: pas =>
    ok ← attr_valid neighborConf pa;
    if (ok : bool) then attrs_valid neighborConf pas else Ok false
  end.

Definition IsValid (p : Path) : res bool := attrs_valid (path_NeighborConf p) (path_PathAttrs p).

Definition path_HasASLoop (p : Path) : res bool :=
  match path_NeighborConf p with
  | None => Ok false
  | Some n => HasASLoop (path_PathAttrs p) (LocalAS (nc_base (RunningConf n)))
  end.

Definition IsLocal (p : Path) : bool := getRouteSource (path_routeType p) =? RouteSrcLocal.
Definition IsAggregate (p : Path) : bool := path_routeType p =? RouteTypeAgg.

Definition GetPreference (p : Path) : Z := path_Pref p.
Definition path_GetNumASes (p : Path) : res Z := GetNumASes (path_PathAttrs p).
Definition path_GetOrigin (p : Path) : res Z := GetOrigin (path_PathAttrs p).
Definition path_GetNumClusters (p : Path) : res Z := GetNumClusters (path_PathAttrs p).

(** The AS path for display: a set becomes one string. Every segment has to have the
    width the attribute announces. *)
Definition asSegment_strings (segType : Z) (AS : list Z) : list string :=
  if segType =? BGPASPathSegmentSet then
    ["{ " ++ String.concat ", " (map pretty AS) ++ " }"]%string
  else if segType =? BGPASPathSegmentSequence then map pretty AS
  else [].

Fixpoint asSegments_strings (asSize : Z) (segs : list BGPASPathSegment) : res (list string) :=
  match segs with
  | [] => Ok []
  | s :: segs =>
    strs ← match s with
           | Seg4 s => if asSize =? 4 then Ok (asSegment_strings (seg_Type (as4_base s)) (as4_AS s)) else Panic
           | Seg2 s => if asSize =? 4 then Panic else Ok (asSegment_strings (seg_Type (as2_base s)) (as2_AS s))
           end;
    rest ← asSegments_strings asSize segs;
    Ok (strs ++ rest)
  end.

Definition GetAS4ByteList (p : Path) : res (list string) :=
  match getTypeFromPathAttrs (path_PathAttrs p) BGPPathAttrTypeASPath with
  | Some (PAASPath _ asPaths asSize) => asSegments_strings asSize asPaths
  | Some _ => Panic
  | None => Ok []
  end.

Definition path_GetNextHop (p : Path) (protoFamily : Z) : bytes :=
  match nhReachabilityInfo p !! protoFamily with
  | Some i => nh_nextHop i
  | None => []
  end.

Definition GetBGPId (p : Path) : res Z :=
  match getTypeFromPathAttrs (path_PathAttrs p) BGPPathAttrTypeOriginatorId with
  | Some (PAOriginatorId _ v) => Uint32 (To4 v)
  | Some _ => Panic
  | None => n ← of_option (path_NeighborConf p); Uint32 (To4 (conf_BGPId n))
  end.

Definition GetReachability (p : Path) (protoFamily : Z) : option ReachabilityInfo :=
  match nhReachabilityInfo p !! protoFamily with
  | Some i => nh_reachabilityInfo i
  | None => None
  end.

Definition IsReachable (p : Path) (protoFamily : Z) : bool :=
  if existsb (Z.eqb (path_routeType p))
       [RouteTypeStatic; RouteTypeConnected; RouteTypeDefault; RouteTypeIGP] then true
  else match GetReachability p protoFamily with Some _ => true | None => false end.

Definition SetReachabilityForFamily (protoFamily : Z) (info : option ReachabilityInfo) (p : Path)
  : Path :=
  match nhReachabilityInfo p !! protoFamily with
  | Some i =>
    set_nhReachabilityInfo
      (<[protoFamily := mkNHReachabilityInfo (nh_nextHop i) info]> (nhReachabilityInfo p)) p
  | None => p
  end.
