(* ===== verification/BgpDecision.v ===== *)
(** * The decision process

    The selection of the best path of a destination: calculateBestPath of
    src/bgp/rib/destination.go with the steps it calls, and the orders of
    src/bgp/rib/pathsort.go. Paths are compared by pointer in the code, so a path
    is an address here and [path] gives the object at it. The steps rewrite the
    slice of candidates in place and cut it; they return the slice. *)

From stdpp Require Import sorting.
From S2P Require Import Prelude.
From S2P Require Import BgpOpen.
From S2P Require Import BgpNlri.
From S2P Require Import BgpAsPath.
From S2P Require Import BgpAttr.
From S2P Require Import BgpUpdate.
From S2P Require Import BgpHelpers.
From S2P Require Import BgpNeighbor.
From S2P Require Import BgpPath.

Abbreviation ptr := nat.

(** The sort.Interface values of pathsort.go. *)
Inductive PathOrder :=
| ByRouteSrc | ByPref | BySmallestAS | ByLowestOrigin | ByIBGPOrEBGPRoutes
| ByLowestBGPId | ByShorterClusterLen | ByLowestPeerAddress.

(** [PathSortIface]: pruned paths and the order to sort them by. *)
Abbreviation Pruned := (list (PathOrder * list ptr)).

(** What the run time decides: the order in which the values of a map are visited,
    and what sort.Sort makes of a slice. *)
Record RibEnv := mkRibEnv {
  range_groups : list (list ptr) -> list (list ptr);
  range_paths : list ptr -> list ptr;
  sort_Sort : (ptr -> ptr -> res bool) -> list ptr -> res (list ptr);
}.

(** ** Filters

    Six of the seven steps run the same loop over the candidates: [key] is the
    value they compare, [lt a b] that [a] is better than [b]. [i] is the index of
    the candidate, [idx] the number of those kept so far in front of the slice,
    [best] the best value seen, and [reset] what the step sets [idx] to when it
    finds a better one. *)
Section KeepLoop.
Context (key : ptr -> res Z) (lt : Z -> Z -> bool) (reset : Z -> Z).

Fixpoint keep_loop (todo : nat) (updatedPaths : list ptr) (i idx best : Z)
  (removedPaths : list ptr) : res (list ptr * Z * list ptr) :=
  match todo with
  | O => Ok (updatedPaths, idx, removedPaths)
  | S todo =>
    p ← index updatedPaths i;
    curr ← key p;
    if lt best curr then keep_loop todo updatedPaths (i + 1) idx best (removedPaths ++ [p])
    else if lt curr best then
      old ← slice updatedPaths 0 idx;
      updatedPaths ← set_index updatedPaths 0 p;
      keep_loop todo updatedPaths (i + 1) (reset idx) curr (removedPaths ++ old)
    else
      updatedPaths ← set_index updatedPaths idx p;
      keep_loop todo updatedPaths (i + 1) (idx + 1) best removedPaths
  end.
End KeepLoop.

(** The end of a step: what it removed is pruned, and the slice is cut. *)
Definition prune (order : PathOrder) (removedPaths : list ptr) (prunedPaths : Pruned) : Pruned :=
  match removedPaths with [] => prunedPaths | _ => prunedPaths ++ [(order, removedPaths)] end.

Definition cut (updatedPaths : list ptr) (idx : Z) : res (list ptr) :=
  if 0 <? idx then slice updatedPaths 0 idx else Ok updatedPaths.

Definition keep_step (order : PathOrder) (key : ptr -> res Z) (lt : Z -> Z -> bool)
  (reset : Z -> Z) (init : Z) (updatedPaths : list ptr) (prunedPaths : Pruned)
  : res (list ptr * Pruned) :=
  '(updatedPaths, idx, removedPaths) ←
    keep_loop key lt reset (length updatedPaths) updatedPaths 0 0 init [];
  updatedPaths ← cut updatedPaths idx;
  Ok (updatedPaths, prune order removedPaths prunedPaths).

(** The neighbor addresses, compared octet by octet; [Err] is the AddressError for
    addresses of different lengths. *)
Fixpoint compare_octets (a b : bytes) : Z :=
  match a, b with
  | x :: a, y :: b => if x <? y then -1 else if y <? x then 1 else compare_octets a b
  | _, _ => 0
  end.

Definition CompareNeighborAddress (a b : bytes) : res Z :=
  if len a =? len b then Ok (compare_octets a b) else Err (ErrText "Address lenght not equal").

(** The value the caller uses, which logs an error and goes on with 0. *)
Definition CompareNeighborAddress_logged (a b : bytes) : Z :=
  match CompareNeighborAddress a b with Ok v => v | _ => 0 end.

Section Decision.
Context (env : RibEnv) (path : ptr -> Path) (protoFamily : Z).

Definition getRoutesWithHighestPref : list ptr -> Pruned -> res (list ptr * Pruned) :=
  keep_step ByPref (fun p => Ok (GetPreference (path p))) (fun a b => b <? a) (fun _ => 1) 0.

Definition getRoutesWithSmallestAS : list ptr -> Pruned -> res (list ptr * Pruned) :=
  keep_step BySmallestAS (fun p => path_GetNumASes (path p)) Z.ltb (fun _ => 1) 4096.

Definition getRoutesWithLowestOrigin : list ptr -> Pruned -> res (list ptr * Pruned) :=
  keep_step ByLowestOrigin (fun p => path_GetOrigin (path p)) Z.ltb (fun idx => idx + 1)
    BGPPathAttrOriginMax.

Definition getRoutesWithLowestBGPId : list ptr -> Pruned -> res (list ptr * Pruned) :=
  keep_step ByLowestBGPId (fun p => GetBGPId (path p)) Z.ltb (fun _ => 1) 4294967295.

Definition getRoutesWithShorterClusterLen : list ptr -> Pruned -> res (list ptr * Pruned) :=
  keep_step ByShorterClusterLen (fun p => path_GetNumClusters (path p)) Z.ltb (fun _ => 1) 65535.

(** [deleteIBGPRoutes]: [n] is the last index still in use. *)
Fixpoint deleteIBGP_loop (fuel : nat) (updatedPaths : list ptr) (i n : Z) (removedPaths : list ptr)
  : res (list ptr * list ptr) :=
  if i <=? n then
    match fuel with
    | O => NoFuel
    | S fuel =>
      p ← index updatedPaths i;
      c ← of_option (path_NeighborConf (path p));
      if IsInternal c then
        q ← index updatedPaths n;
        updatedPaths ← set_index updatedPaths i q;
        deleteIBGP_loop fuel updatedPaths i (n - 1) (removedPaths ++ [p])
      else deleteIBGP_loop fuel updatedPaths (i + 1) n removedPaths
    end
  else
    kept ← slice updatedPaths 0 i;
    Ok (kept, removedPaths).

Definition deleteIBGPRoutes (updatedPaths : list ptr) (prunedPaths : Pruned)
  : res (list ptr * Pruned) :=
  '(kept, removedPaths) ←
    deleteIBGP_loop (length updatedPaths) updatedPaths 0 (len updatedPaths - 1) [];
  Ok (kept, prune ByIBGPOrEBGPRoutes removedPaths prunedPaths).

Definition isEBGPRoute (p : ptr) : bool := path_IsExternal (path_NeighborConf (path p)).
Definition isIBGPRoute (p : ptr) : bool := path_IsInternal (path_NeighborConf (path p)).

Definition removeIBGPRoutesIfEBGPExist (updatedPaths : list ptr) (prunedPaths : Pruned)
  : res (list ptr * Pruned) :=
  if existsb isEBGPRoute updatedPaths then deleteIBGPRoutes updatedPaths prunedPaths
  else Ok (updatedPaths, prunedPaths).

(** [path.NeighborConf.Neighbor.NeighborAddress] *)
Definition peer_address (p : ptr) : res bytes :=
  c ← of_option (path_NeighborConf (path p));
  Ok (nb_NeighborAddress c).

(** The loop of the last step, which compares with the first of those kept. *)
Fixpoint peer_loop (todo : nat) (updatedPaths : list ptr) (i idx : Z) (removedPaths : list ptr)
  : res (list ptr * Z * list ptr) :=
  match todo with
  | O => Ok (updatedPaths, idx, removedPaths)
  | S todo =>
    p ← index updatedPaths i;
    first ← index updatedPaths 0;
    a ← peer_address p;
    b ← peer_address first;
    let val := CompareNeighborAddress_logged a b in
    if 0 <? val then peer_loop todo updatedPaths (i + 1) idx (removedPaths ++ [p])
    else if val <? 0 then
      old ← slice updatedPaths 0 idx;
      updatedPaths ← set_index updatedPaths 0 p;
      peer_loop todo updatedPaths (i + 1) 1 (removedPaths ++ old)
    else
      updatedPaths ← set_index updatedPaths idx p;
      peer_loop todo updatedPaths (i + 1) (idx + 1) removedPaths
  end.

Definition getRoutesWithLowestPeerAddress (updatedPaths : list ptr) (prunedPaths : Pruned)
  : res (list ptr * Pruned) :=
  '(updatedPaths, idx, removedPaths) ←
    peer_loop (length updatedPaths) updatedPaths 0 0 [];
  updatedPaths ← cut updatedPaths idx;
  Ok (updatedPaths, prune ByLowestPeerAddress removedPaths prunedPaths).

(** ** Equal-cost and additional paths *)

(** [path.GetReachability(d.protoFamily).NextHop] *)
Definition next_hop (p : ptr) : res string :=
  info ← of_option (GetReachability (path p) protoFamily);
  Ok (ri_NextHop info).

Fixpoint ecmp_groups (ps : list ptr) (m : gmap string (list ptr)) : res (gmap string (list ptr)) :=
  match ps with
  | [] => Ok m
  | p :: ps =>
    nh ← next_hop p;
    ecmp_groups ps (<[nh := match m !! nh with Some l => l ++ [p] | None => [p] end]> m)
  end.

Definition getECMPPaths (updatedPaths : list ptr) : res (list (list ptr)) :=
  m ← ecmp_groups updatedPaths ∅;
  Ok (range_groups env (map snd (map_to_list m))).

(** The paths of [currPaths] with a next hop that is not in [pathMap] yet. *)
Fixpoint new_next_hops (currPaths : list ptr) (currPathMap pathMap : gmap string ptr)
  : res (gmap string ptr * gmap string ptr) :=
  match currPaths with
  | [] => Ok (currPathMap, pathMap)
  | p :: currPaths =>
    nh ← next_hop p;
    match pathMap !! nh with
    | Some _ => new_next_hops currPaths currPathMap pathMap
    | None => new_next_hops currPaths (<[nh := p]> currPathMap) (<[nh := p]> pathMap)
    end
  end.

Definition addAddPaths (addPaths currPaths : list ptr) (pathMap : gmap string ptr)
  : res (list ptr * gmap string ptr) :=
  '(currPathMap, pathMap) ← new_next_hops currPaths ∅ pathMap;
  Ok (addPaths ++ range_paths env (map snd (map_to_list currPathMap)), pathMap).

(** [Less] of pathsort.go. *)
Definition compare_keys (lt : Z -> Z -> bool) (key : ptr -> res Z) (p q : ptr) : res bool :=
  a ← key p; b ← key q; Ok (lt a b).

Definition Less (order : PathOrder) (p q : ptr) : res bool :=
  match order with
  | ByRouteSrc =>
    compare_keys Z.ltb (fun p => Ok (getRouteSource (path_routeType (path p)))) p q
  | ByPref => compare_keys (fun a b => b <? a) (fun p => Ok (path_Pref (path p))) p q
  | BySmallestAS => compare_keys Z.ltb (fun p => path_GetNumASes (path p)) p q
  | ByLowestOrigin => compare_keys Z.ltb (fun p => path_GetOrigin (path p)) p q
  | ByIBGPOrEBGPRoutes => Ok true
  | ByLowestBGPId => compare_keys Z.ltb (fun p => GetBGPId (path p)) p q
  | ByShorterClusterLen => compare_keys Z.ltb (fun p => path_GetNumClusters (path p)) p q
  | ByLowestPeerAddress =>
    match path_NeighborConf (path p), path_NeighborConf (path q) with
    | None, _ => Ok true
    | Some _, None => Ok false
    | Some c, Some d =>
      let a := nb_NeighborAddress c in
      let b := nb_NeighborAddress d in
      Ok (if len a <? len b then true
          else if len b <? len a then false
          else compare_octets a b <? 0)
    end
  end.

(** [for i := len(prunedPaths) - 1; i >= 0; i--]: the last pruned come first. *)
Fixpoint add_pruned (pruned : Pruned) (addPathCount : Z) (addPaths : list ptr)
  (pathMap : gmap string ptr) : res (list ptr) :=
  match pruned with
  | [] => Ok addPaths
  | (order, paths) :: pruned =>
    currPaths ← sort_Sort env (Less order) paths;
    '(addPaths, pathMap) ← addAddPaths addPaths currPaths pathMap;
    if addPathCount <=? len addPaths then slice addPaths 0 addPathCount
    else add_pruned pruned addPathCount addPaths pathMap
  end.

(** ** The whole process *)

(** A step runs only while there is a choice. *)
Definition step (f : list ptr -> Pruned -> res (list ptr * Pruned)) (ps : list ptr)
  (pruned : Pruned) : res (list ptr * Pruned) :=
  if 1 <? len ps then f ps pruned else Ok (ps, pruned).

(** The multipath groups taken after the iBGP paths are gone. *)
Definition second_ecmp (ebgpMultiPath ibgpMultiPath : bool) (ps : list ptr)
  (ecmpPaths : list (list ptr)) : res (list (list ptr)) :=
  if (1 <? len ps) && negb (eqb ibgpMultiPath ebgpMultiPath) then
    first ← index ps 0;
    if ebgpMultiPath && isEBGPRoute first then getECMPPaths ps
    else if ibgpMultiPath && isIBGPRoute first then getECMPPaths ps
    else Ok ecmpPaths
  else Ok ecmpPaths.

(** The additional paths: what is left beside the best path, then the pruned. *)
Definition additional (ps : list ptr) (pruned : Pruned) (addPathCount : Z) : res (list ptr) :=
  '(addPaths, pathMap) ←
    (if (0 <? addPathCount) && (1 <? len ps) then
       rest ← slice_from ps 1; addAddPaths [] rest ∅
     else Ok ([], ∅));
  if len addPaths <? addPathCount then add_pruned (reverse pruned) addPathCount addPaths pathMap
  else Ok addPaths.

Definition calculateBestPath (updatedPaths removedPaths : list ptr)
  (ebgpMultiPath ibgpMultiPath : bool) (addPathCount : Z)
  : res (list ptr * list (list ptr) * list ptr) :=
  '(ps, pruned) ← step getRoutesWithHighestPref updatedPaths [(ByRouteSrc, removedPaths)];
  '(ps, pruned) ← step getRoutesWithSmallestAS ps pruned;
  '(ps, pruned) ← step getRoutesWithLowestOrigin ps pruned;
  ecmpPaths ← (if (1 <? len ps) && ebgpMultiPath && ibgpMultiPath then getECMPPaths ps else Ok []);
  '(ps, pruned) ← step removeIBGPRoutesIfEBGPExist ps pruned;
  ecmpPaths ← second_ecmp ebgpMultiPath ibgpMultiPath ps ecmpPaths;
  '(ps, pruned) ← step getRoutesWithLowestBGPId ps pruned;
  '(ps, pruned) ← step getRoutesWithShorterClusterLen ps pruned;
  '(ps, pruned) ← step getRoutesWithLowestPeerAddress ps pruned;
  addPaths ← additional ps pruned addPathCount;
  Ok (ps, ecmpPaths, addPaths).
End Decision.
