(* ===== verification/BgpDecisionSpec.v ===== *)
(** * The decision process: what it selects

    The steps of the decision process of BgpDecision implement the selection of the
    candidates with the lexicographically smallest rank, whatever order the
    candidates come in; where they do not, and where they panic. *)

From stdpp Require Import sorting.
From S2P Require Import Prelude.
From S2P Require Import BgpOpen.
From S2P Require Import BgpNlri.
From S2P Require Import BgpAsPath.
From S2P Require Import BgpAttr.
From S2P Require Import BgpUpdate.
From S2P Require Import BgpHelpers.
From S2P Require Import BgpNeighbor.
From S2P Require Import BgpPath.
From S2P Require Import BgpDecision.

(** ** The reference selection *)

(** Lexicographic order of ranks of one length. *)
Fixpoint lex_le (a b : list Z) : bool :=
  match a, b with
  | x :: a, y :: b => if x <? y then true else if y <? x then false else lex_le a b
  | _, _ => true
  end.

Definition undominated (rank : ptr -> list Z) (ps : list ptr) (p : ptr) : Prop :=
  Forall (fun q => lex_le (rank p) (rank q) = true) ps.

#[export] Instance undominated_dec rank ps p : Decision (undominated rank ps p).
Proof. unfold undominated. apply _. Defined.

(** The candidates that no candidate beats, in their order. *)
Definition select (rank : ptr -> list Z) (ps : list ptr) : list ptr :=
  filter (undominated rank ps) ps.

Definition argmin (k : ptr -> Z) (ps : list ptr) : list ptr := select (fun p => [k p]) ps.

(** The values the process compares, most significant first: preference, AS path
    length, origin, internal after external, BGP identifier, cluster list length,
    and the octets of the peer's address. *)
Definition value (r : res Z) : Z := match r with Ok v => v | _ => 0 end.

Definition address (path : Path) : bytes :=
  match path_NeighborConf path with Some c => nb_NeighborAddress c | None => [] end.

Definition rank (path : Path) : list Z :=
  - GetPreference path :: value (path_GetNumASes path) :: value (path_GetOrigin path) ::
  (if path_IsInternal (path_NeighborConf path) then 1 else 0) :: value (GetBGPId path) ::
  value (path_GetNumClusters path) :: address path.

(** A path all of whose values are there and within the bounds the steps start
    from, as those of a path learned from a peer are. *)
Record comparable (path : Path) : Prop := mkComparable {
  cmp_pref : 0 <= GetPreference path;
  cmp_ases : exists n, path_GetNumASes path = Ok n /\ n <= 4096;
  cmp_origin : exists o, path_GetOrigin path = Ok o /\ o <= BGPPathAttrOriginMax;
  cmp_conf : is_Some (path_NeighborConf path);
  cmp_id : exists i, GetBGPId path = Ok i /\ i <= 4294967295;
  cmp_clusters : exists n, path_GetNumClusters path = Ok n /\ n <= 65535;
}.

(** ** Lemmas on the reference *)

Lemma filter_ext_in {A} (P Q : A -> Prop) `{!forall x, Decision (P x), !forall x, Decision (Q x)} (l : list A) :
  (forall x, x ∈ l -> P x <-> Q x) -> filter P l = filter Q l.
Proof.
  induction l as [|x l IH]; intros Hiff; [done|]. rewrite !filter_cons.
  rewrite IH by (intros y Hy; apply Hiff; by right).
  pose proof (Hiff x (list_elem_of_here x l)).
  destruct (decide (P x)), (decide (Q x)); tauto || done.
Qed.

Lemma undominated_Permutation rank ps qs p :
  Permutation ps qs -> undominated rank ps p <-> undominated rank qs p.
Proof. intros H. split; apply Permutation_Forall; [done|by symmetry]. Qed.

Lemma select_Permutation rank ps qs :
  Permutation ps qs -> Permutation (select rank ps) (select rank qs).
Proof.
  intros H. unfold select. trans (filter (undominated rank ps) qs).
  - by apply filter_Permutation.
  - apply reflexive_eq, filter_ext_in. intros p _. by apply undominated_Permutation.
Qed.

Lemma select_subseteq rank ps : select rank ps ⊆ ps.
Proof. intros p Hp. by apply list_elem_of_filter in Hp as [_ Hp]. Qed.

Lemma argmin_le k ps p : undominated (fun p => [k p]) ps p <-> Forall (fun q => k p <= k q) ps.
Proof.
  unfold undominated. apply Forall_iff. intros q. cbn.
  destruct (k p <? k q) eqn:E1; [split; [lia|done]|].
  destruct (k q <? k p) eqn:E2; split; try done; lia.
Qed.

(** One comparison after the other is the lexicographic comparison. *)
Lemma select_cons k r ps : select (fun p => k p :: r p) ps = select r (argmin k ps).
Proof.
  unfold argmin at 1. unfold select at 1 2 3. rewrite list_filter_filter.
  apply filter_ext_in. intros p Hp. rewrite argmin_le. unfold undominated, argmin, select.
  rewrite !Forall_forall. split.
  - intros H. assert (forall q, q ∈ ps -> k p <= k q) as Hk.
    { intros q Hq. specialize (H q Hq). cbn in H.
      destruct (k p <? k q) eqn:E1; [lia|]. destruct (k q <? k p) eqn:E2; [done|lia]. }
    split; [|done]. intros q [Hq1 Hq2]%list_elem_of_filter. specialize (H q Hq2). cbn in H.
    apply argmin_le in Hq1. rewrite Forall_forall in Hq1.
    specialize (Hq1 p Hp). specialize (Hk q Hq2).
    destruct (k p <? k q) eqn:E1; [lia|]. destruct (k q <? k p) eqn:E2; [lia|done].
  - intros [H1 H2] q Hq. cbn. pose proof (H2 q Hq).
    destruct (k p <? k q) eqn:E1; [done|]. destruct (k q <? k p) eqn:E2; [lia|].
    apply H1, list_elem_of_filter. split; [|done]. apply argmin_le, Forall_forall.
    intros x Hx. specialize (H2 x Hx). lia.
Qed.

Lemma select_singleton rank p : select rank [p] = [p].
Proof.
  unfold select. rewrite filter_cons_True; [done|]. constructor; [|constructor].
  induction (rank p) as [|x l IH]; cbn; [done|]. by rewrite Z.ltb_irrefl.
Qed.

Lemma argmin_short k ps : len ps <= 1 -> argmin k ps = ps.
Proof.
  destruct ps as [|p [|q ps]]; [done|intros _; apply select_singleton|].
  rewrite !len_cons. pose proof (len_nonneg ps). lia.
Qed.

Lemma argmin_attained k ps p :
  p ∈ ps -> undominated (fun p => [k p]) ps p -> argmin k ps = filter (fun q => k q = k p) ps.
Proof.
  intros Hp Hmin. apply argmin_le in Hmin. rewrite Forall_forall in Hmin.
  apply filter_ext_in. intros q Hq. rewrite argmin_le, Forall_forall. split.
  - intros H. specialize (H p Hp). specialize (Hmin q Hq). lia.
  - intros -> x Hx. auto.
Qed.

Lemma argmin_ties k ps : (forall p q, p ∈ ps -> q ∈ ps -> k p = k q) -> argmin k ps = ps.
Proof.
  intros H. unfold argmin, select. trans (filter (fun _ : ptr => True) ps).
  - apply filter_ext_in. intros p Hp. split; [done|]. intros _.
    apply argmin_le, Forall_forall. intros q Hq. by rewrite (H p q).
  - clear H. induction ps as [|p ps IH]; [done|]. rewrite filter_cons_True by done. by f_equal.
Qed.

(** A least element exists. *)
Lemma argmin_nonempty k ps : ps <> [] -> exists p, p ∈ argmin k ps.
Proof.
  intros Hne. enough (exists p, p ∈ ps /\ Forall (fun q => k p <= k q) ps) as (p & Hp & Hmin).
  { exists p. apply list_elem_of_filter. split; [by apply argmin_le|done]. }
  induction ps as [|p ps IH]; [done|]. destruct ps as [|q ps].
  { exists p. split; [left|]. repeat constructor. lia. }
  destruct IH as (m & Hm & Hmin); [done|]. destruct (decide (k p <= k m)).
  - exists p. split; [left|]. constructor; [lia|].
    eapply Forall_impl; [exact Hmin|]. cbn. lia.
  - exists m. split; [by right|]. constructor; [lia|done].
Qed.

(** ** The loop of a step *)

Section KeepLoop.
Context (key : ptr -> res Z) (lt : Z -> Z -> bool) (f : Z -> Z) (k : ptr -> Z).
Context (Hlt : forall a b, lt a b = (f a <? f b)).

(** What the loop has kept of the candidates [pre] it has passed. *)
Definition kept_of (best init : Z) (pre kept : list ptr) : Prop :=
  kept = filter (fun p => f (k p) = f best) pre /\
  Forall (fun p => f best <= f (k p)) pre /\ f best <= f init /\
  (best = init \/ exists p, p ∈ pre /\ f (k p) = f best).

Lemma filter_none {A} (P : A -> Prop) `{!forall x, Decision (P x)} (l : list A) :
  Forall (fun x => ~ P x) l -> filter P l = [].
Proof. induction 1; [done|]. by rewrite filter_cons_False. Qed.

Lemma kept_of_snoc best init pre kept p :
  kept_of best init pre kept ->
  if lt best (k p) then kept_of best init (pre ++ [p]) kept
  else if lt (k p) best then kept_of (k p) init (pre ++ [p]) [p]
  else kept_of best init (pre ++ [p]) (kept ++ [p]).
Proof.
  unfold kept_of. intros (-> & Hle & Hi & Ha). rewrite !Hlt, filter_app.
  destruct (f best <? f (k p)) eqn:E1; [|destruct (f (k p) <? f best) eqn:E2].
  - rewrite filter_cons_False by lia. rewrite app_nil_r. repeat split; try done.
    + apply Forall_app; split; [done|]. repeat constructor. lia.
    + destruct Ha as [->|(q & Hq & Eq)]; [by left|right; exists q]. set_solver.
  - rewrite filter_app, filter_cons_True by done. repeat split; [| |lia|].
    + rewrite filter_none; [done|]. eapply Forall_impl; [exact Hle|]. cbn. lia.
    + apply Forall_app; split; [|by repeat constructor].
      eapply Forall_impl; [exact Hle|]. cbn. lia.
    + right. exists p. set_solver.
  - rewrite filter_cons_True by lia. repeat split; try done.
    + apply Forall_app; split; [done|]. repeat constructor. lia.
    + destruct Ha as [->|(q & Hq & Eq)]; [by left|right; exists q]. set_solver.
Qed.

Lemma keep_loop_ok todo ps i idx best init removed pre rest :
  drop (Z.to_nat i) ps = rest -> length rest = todo -> 0 <= idx <= i -> i + len rest = len ps ->
  kept_of best init pre (take (Z.to_nat idx) ps) ->
  Forall (fun p => key p = Ok (k p)) rest ->
  exists ps' idx' removed' best',
    keep_loop key lt (fun _ => 1) todo ps i idx best removed = Ok (ps', idx', removed') /\
    0 <= idx' <= len ps' /\ kept_of best' init (pre ++ rest) (take (Z.to_nat idx') ps') /\
    Forall (fun p => p ∈ removed \/ p ∈ rest \/ p ∈ take (Z.to_nat idx) ps) removed'.
Proof.
  revert ps i idx best removed pre rest. induction todo as [|todo IH].
  { intros ps i idx best removed pre [|] Hd Ht Hi Hl Hk _; [|done].
    exists ps, idx, removed, best. rewrite app_nil_r. rewrite len_nil in Hl.
    refine (conj eq_refl (conj _ (conj Hk _))); [lia|]. apply Forall_forall. by left. }
  intros ps i idx best removed pre [|p rest] Hd Ht Hi Hl Hk Hok; [done|].
  apply Forall_cons in Hok as [Hp Hok]. injection Ht as Ht. rewrite len_cons in Hl.
  assert (ps !! Z.to_nat i = Some p) as Hpi.
  { rewrite <- (Nat.add_0_r (Z.to_nat i)), <- lookup_drop, Hd. done. }
  assert (drop (Z.to_nat (i + 1)) ps = rest) as Hd'.
  { replace (Z.to_nat (i + 1)) with (1 + Z.to_nat i)%nat by lia.
    rewrite Nat.add_comm, <- drop_drop, Hd. done. }
  pose proof (kept_of_snoc _ _ _ _ p Hk) as Hk'. pose proof (len_nonneg rest).
  assert (length ps = Z.to_nat (len ps)) as Hlen by (unfold len; lia).
  cbn [keep_loop]. unfold index. rewrite (proj2 (Z.ltb_ge i 0)) by lia. rewrite Hpi. res_simpl. rewrite Hp. res_simpl.
  rewrite (cons_middle p pre rest), (assoc_L (++)).
  destruct (lt best (k p)); [|destruct (lt (k p) best)].
  - edestruct (IH ps (i + 1) idx best (removed ++ [p])) as (ps' & idx' & rm & b' & -> & H1 & H2 & H3);
      [exact Hd'|done|lia|lia|exact Hk'|exact Hok|].
    exists ps', idx', rm, b'. refine (conj eq_refl (conj H1 (conj H2 _))).
    eapply Forall_impl; [exact H3|]. set_solver.
  - unfold slice, set_index. rewrite Z.sub_0_r, drop_0.
    rewrite (proj2 (andb_true_iff _ _)) by lia. res_simpl.
    rewrite (proj2 (andb_true_iff _ _)) by lia. res_simpl. change (Z.to_nat 0) with 0%nat.
    edestruct (IH (<[0%nat := p]> ps) (i + 1) 1 (k p)) as (ps' & idx' & rm & b' & -> & H1 & H2 & H3);
      [rewrite drop_insert_lt by lia; exact Hd'|done|lia|rewrite len_insert; lia
      |rewrite (take_S_r _ 0 p); [exact Hk'|by rewrite list_lookup_insert_eq by lia]|exact Hok|].
    exists ps', idx', rm, b'. refine (conj eq_refl (conj H1 (conj H2 _))).
    rewrite (take_S_r _ 0 p) in H3 by (by rewrite list_lookup_insert_eq by lia).
    eapply Forall_impl; [exact H3|]. set_solver.
  - unfold set_index. rewrite (proj2 (andb_true_iff _ _)) by lia. res_simpl.
    assert (take (Z.to_nat (idx + 1)) (<[Z.to_nat idx:=p]> ps) = take (Z.to_nat idx) ps ++ [p]) as Ht'.
    { replace (Z.to_nat (idx + 1)) with (S (Z.to_nat idx)) by lia.
      rewrite (take_S_r _ _ p) by (rewrite list_lookup_insert_eq by lia; done).
      by rewrite take_insert_ge by lia. }
    edestruct (IH (<[Z.to_nat idx := p]> ps) (i + 1) (idx + 1) best removed)
      as (ps' & idx' & rm & b' & -> & H1 & H2 & H3);
      [rewrite drop_insert_lt by lia; exact Hd'|done|lia|rewrite len_insert; lia
      |rewrite Ht'; exact Hk'|exact Hok|].
    exists ps', idx', rm, b'. refine (conj eq_refl (conj H1 (conj H2 _))).
    rewrite Ht' in H3. eapply Forall_impl; [exact H3|]. set_solver.
Qed.
End KeepLoop.

(** ** The steps *)

(** The pruned paths are among the candidates [all], but for [loc], those that a
    better source had ruled out before. *)
Definition pruned_in (loc all : list ptr) (pruned : Pruned) : Prop :=
  Forall (fun e => e.2 ⊆ all \/ e = (ByRouteSrc, loc)) pruned.

Lemma prune_in loc all order removed pruned :
  removed ⊆ all -> pruned_in loc all pruned -> pruned_in loc all (prune order removed pruned).
Proof.
  intros Hr Hp. unfold prune. destruct removed; [done|].
  apply Forall_app; split; [done|]. apply Forall_singleton. by left.
Qed.

(** [step] applied to [F] selects [sel] of the candidates and prunes the rest. *)
Definition selects (F : list ptr -> Pruned -> res (list ptr * Pruned)) (ps qs : list ptr) : Prop :=
  forall loc all pruned, ps ⊆ all -> pruned_in loc all pruned ->
    exists pruned', step F ps pruned = Ok (qs, pruned') /\ pruned_in loc all pruned'.

Lemma keep_step_selects order key lt f k init ps :
  (forall a b, lt a b = (f a <? f b)) -> Forall (fun p => key p = Ok (k p)) ps ->
  Forall (fun p => f (k p) <= f init) ps ->
  selects (keep_step order key lt (fun _ => 1) init) ps (argmin (fun p => f (k p)) ps).
Proof.
  intros Hlt Hkey Hinit loc all pruned Hall Hpr. unfold step.
  destruct (1 <? len ps) eqn:Hlen; [|rewrite argmin_short by lia; eauto].
  destruct ps as [|p0 ps0]; [done|]. set (ps := p0 :: ps0) in *.
  edestruct (keep_loop_ok key lt f k Hlt (length ps) ps 0 0 init init [] [] ps)
    as (ps' & idx & rm & best & E & Hidx & (Hk & Hle & Hi & Ha) & Hrm);
    [done|done|lia|lia|by repeat split; [constructor|lia|left]|exact Hkey|].
  unfold keep_step. rewrite E. res_simpl. rewrite app_nil_l in *.
  assert (exists q, q ∈ ps /\ f (k q) = f best) as (q & Hq & Eq).
  { destruct Ha as [->|]; [|done]. exists p0. split; [left|].
    apply Forall_cons in Hinit as [H0 _]. apply Forall_cons in Hle as [H1 _]. lia. }
  assert (take (Z.to_nat idx) ps' = argmin (fun p => f (k p)) ps) as Hs.
  { rewrite Hk, (argmin_attained _ ps q Hq); [by rewrite Eq|].
    apply argmin_le. by rewrite Eq. }
  assert (0 < idx) as Hpos.
  { destruct (decide (idx = 0)) as [->|]; [|lia]. exfalso. change (take (Z.to_nat 0) ps') with (@nil ptr) in Hk.
    assert (q ∈ @nil ptr) as Hnil by (rewrite Hk; by apply list_elem_of_filter). inversion Hnil. }
  unfold cut, slice. rewrite (proj2 (Z.ltb_lt _ _) Hpos), Z.sub_0_r, drop_0.
  rewrite (proj2 (andb_true_iff _ _)) by lia. res_simpl. rewrite Hs.
  eexists. split; [done|]. apply prune_in; [|done].
  intros x Hx. rewrite Forall_forall in Hrm. specialize (Hrm x Hx). set_solver.
Qed.

(** The first of [ps] has the least value. *)
Definition leads (k : ptr -> Z) (ps : list ptr) : Prop :=
  match ps with [] => True | p :: rest => Forall (fun q => k p <= k q) rest end.

(** Without a better value ahead the loop does not reset. *)
Lemma keep_loop_no_reset key reset reset' todo ps i idx best removed rest :
  drop (Z.to_nat i) ps = rest -> 0 <= idx <= i -> i + len rest = len ps ->
  Forall (fun p => exists v, key p = Ok v /\ best <= v) rest ->
  keep_loop key Z.ltb reset todo ps i idx best removed = keep_loop key Z.ltb reset' todo ps i idx best removed.
Proof.
  revert ps i idx removed rest. induction todo as [|todo IH]; intros ps i idx removed rest Hd Hi Hl Hk; [done|].
  assert (length ps = Z.to_nat (len ps)) as Hlen by (unfold len; lia).
  cbn [keep_loop]. destruct rest as [|p rest].
  { unfold index. rewrite len_nil in Hl. rewrite (proj2 (Z.ltb_ge i 0)) by lia. by rewrite lookup_ge_None_2 by lia. }
  apply Forall_cons in Hk as [(v & Hp & Hv) Hk]. rewrite len_cons in Hl. pose proof (len_nonneg rest).
  assert (ps !! Z.to_nat i = Some p) as Hpi.
  { rewrite <- (Nat.add_0_r (Z.to_nat i)), <- lookup_drop, Hd. done. }
  assert (drop (Z.to_nat (i + 1)) ps = rest) as Hd'.
  { replace (Z.to_nat (i + 1)) with (Z.to_nat i + 1)%nat by lia. rewrite <- drop_drop, Hd. done. }
  unfold index. rewrite (proj2 (Z.ltb_ge i 0)) by lia. rewrite Hpi. res_simpl. rewrite Hp. res_simpl.
  rewrite (proj2 (Z.ltb_ge v best)) by lia. destruct (best <? v).
  - apply (IH _ _ _ _ rest); [done|lia|lia|done].
  - unfold set_index. rewrite (proj2 (andb_true_iff _ _)) by lia. res_simpl.
    apply (IH _ _ _ _ rest); [rewrite drop_insert_lt by lia; done|lia|rewrite len_insert; lia|done].
Qed.

(** A loop that resets wrongly is right as long as the first candidate has the least value. *)
Lemma keep_step_leads order key reset k init ps :
  reset 0 = 1 -> Forall (fun p => key p = Ok (k p)) ps -> Forall (fun p => k p <= init) ps -> leads k ps ->
  selects (keep_step order key Z.ltb reset init) ps (argmin k ps).
Proof.
  intros Hreset Hkey Hinit Hl.
  assert (keep_loop key Z.ltb reset (length ps) ps 0 0 init [] = keep_loop key Z.ltb (fun _ => 1) (length ps) ps 0 0 init [])
    as E.
  { destruct ps as [|p0 ps]; [done|]. cbn [length keep_loop]. change (index (p0 :: ps) 0) with (Ok p0).
    apply Forall_cons in Hkey as [Hk0 Hkey]. apply Forall_cons in Hinit as [Hi _]. cbn in Hl.
    assert (Forall (fun p => exists v, key p = Ok v /\ k p0 <= v) ps) as Hk.
    { rewrite Forall_forall in Hkey, Hl |- *. intros p Hp. exists (k p). by split; [apply Hkey|apply Hl]. }
    res_simpl. rewrite Hk0. res_simpl. rewrite (proj2 (Z.ltb_ge init (k p0)) Hi). pose proof (len_nonneg ps).
    destruct (k p0 <? init) eqn:Ek.
    - change (slice (p0 :: ps) 0 0) with (Ok (@nil ptr)). change (set_index (p0 :: ps) 0 p0) with (Ok (p0 :: ps)).
      res_simpl. rewrite Hreset.
      apply (keep_loop_no_reset _ _ _ _ _ _ _ _ _ ps); [done|lia|rewrite len_cons; lia|done].
    - change (set_index (p0 :: ps) 0 p0) with (Ok (p0 :: ps)). res_simpl. assert (init = k p0) as -> by lia.
      apply (keep_loop_no_reset _ _ _ _ _ _ _ _ _ ps); [done|lia|rewrite len_cons; lia|done]. }
  pose proof (keep_step_selects order key Z.ltb (fun x => x) k init ps ltac:(done) Hkey Hinit) as H.
  intros loc all pruned Hall Hpr. destruct (H loc all pruned Hall Hpr) as (pr & Hs & Hin). exists pr. split; [|done].
  etrans; [|exact Hs]. unfold step. destruct (1 <? len ps); [|done]. unfold keep_step. by rewrite E.
Qed.

(** ** The peer address *)

Lemma compare_octets_spec a b :
  len a = len b ->
  (compare_octets a b = 0 <-> a = b) /\ (lex_le a b = true <-> compare_octets a b <= 0) /\
  compare_octets b a = - compare_octets a b.
Proof.
  revert b. induction a as [|x a IH]; intros [|y b] Hl; rewrite ?len_nil, ?len_cons in Hl;
    try (pose proof (len_nonneg a); lia); try (pose proof (len_nonneg b); lia).
  { by repeat split. }
  destruct (IH b ltac:(lia)) as (H0 & H1 & H2). cbn.
  destruct (x <? y) eqn:E1, (y <? x) eqn:E2; try lia.
  - split_and!; [|split; done || lia|done]. split; [lia|]. intros [= -> _]. lia.
  - split_and!; [|split; done || lia|done]. split; [lia|]. intros [= -> _]. lia.
  - assert (x = y) as -> by lia. split_and!; [|done|done]. rewrite H0. split; [by intros ->|by intros [=]].
Qed.

Lemma lex_le_trans a b c :
  len a = len b -> len b = len c -> lex_le a b = true -> lex_le b c = true -> lex_le a c = true.
Proof.
  revert b c. induction a as [|x a IH]; intros [|y b] [|z c] H1 H2; try done;
    rewrite ?len_nil, ?len_cons in *; cbn;
    try (pose proof (len_nonneg b); lia).
  intros Hab Hbc.
  destruct (x <? y) eqn:E1, (y <? x) eqn:E2, (y <? z) eqn:E3, (z <? y) eqn:E4,
    (x <? z) eqn:E5, (z <? x) eqn:E6; try done; try lia.
  apply (IH b c); [lia|lia|done|done].
Qed.

(** One more candidate, compared with one of those selected so far. *)
Lemma select_snoc r L pre b p :
  Forall (fun q => len (r q) = L) (pre ++ [p]) -> b ∈ select r pre ->
  let c := compare_octets (r p) (r b) in
  select r (pre ++ [p]) =
    if 0 <? c then select r pre else if c <? 0 then [p] else select r pre ++ [p].
Proof.
  intros HL [Hb Hbp]%list_elem_of_filter c. rewrite Forall_forall in HL.
  assert (forall q, q ∈ pre -> len (r q) = L) as HLp by (intros; apply HL; set_solver).
  assert (len (r p) = L) as Lp by (apply HL; set_solver).
  destruct (compare_octets_spec (r p) (r b)) as (C0 & C1 & C2); [by rewrite Lp, HLp|].
  destruct (compare_octets_spec (r b) (r p)) as (_ & C3 & _); [by rewrite Lp, HLp|].
  unfold undominated in Hb. rewrite Forall_forall in Hb.
  assert (forall q, q ∈ pre -> undominated r (pre ++ [p]) q <->
            undominated r pre q /\ lex_le (r q) (r p) = true) as Hq.
  { intros q Hq. unfold undominated. rewrite Forall_app, Forall_singleton. done. }
  assert (undominated r (pre ++ [p]) p <-> c <= 0) as Hp.
  { unfold undominated. rewrite Forall_forall. unfold c. rewrite <- C1. split.
    - intros H. apply H. set_solver.
    - intros H q Hin. apply elem_of_app in Hin as [Hin|Hin].
      + eapply lex_le_trans; [| |exact H|by apply Hb]; rewrite ?Lp, ?HLp by done; done.
      + apply list_elem_of_singleton in Hin as ->. 
        destruct (compare_octets_spec (r p) (r p) eq_refl) as (D0 & D1 & _).
        apply D1. rewrite (proj2 D0); done. }
  unfold select. rewrite filter_app.
  assert (forall q, q ∈ pre -> undominated r pre q -> lex_le (r q) (r p) = true <-> 0 <= c) as Hqp.
  { intros q Hin Hu. unfold undominated in Hu. rewrite Forall_forall in Hu.
    fold c in C2. split.
    - intros H. assert (lex_le (r b) (r p) = true) as E.
      { eapply lex_le_trans; [| |by apply Hb|exact H]; rewrite ?Lp, ?HLp by done; done. }
      apply C3 in E. lia.
    - intros H. assert (lex_le (r b) (r p) = true) as E by (apply C3; lia).
      eapply lex_le_trans; [| |by apply (Hu b)|exact E]; rewrite ?Lp, ?HLp by done; done. }
  destruct (0 <? c) eqn:E1; [|destruct (c <? 0) eqn:E2].
  - rewrite (filter_cons_False _ p []), app_nil_r by (rewrite Hp; lia).
    apply filter_ext_in. intros q Hin. rewrite Hq by done. split; [tauto|].
    intros Hu. split; [done|]. apply (Hqp q Hin Hu). lia.
  - rewrite (filter_cons_True _ p []) by (apply Hp; lia). rewrite filter_none; [done|].
    apply Forall_forall. intros q Hin Hu%Hq; [|done]. destruct Hu as [Hu H%(Hqp q Hin Hu)]. lia.
  - rewrite (filter_cons_True _ p []) by (apply Hp; lia). f_equal.
    apply filter_ext_in. intros q Hin. rewrite Hq by done. split; [tauto|].
    intros Hu. split; [done|]. apply (Hqp q Hin Hu). lia.
Qed.

Section Process.
Context (path : ptr -> Path).
Abbreviation addr p := (address (path p)).

Lemma peer_address_ok p : is_Some (path_NeighborConf (path p)) -> peer_address path p = Ok (addr p).
Proof. unfold peer_address, address. intros [c ->]. done. Qed.

Lemma peer_loop_ok L todo ps i idx removed pre rest :
  drop (Z.to_nat i) ps = rest -> length rest = todo -> 0 <= idx <= i -> i + len rest = len ps ->
  (pre = [] -> idx = 0 /\ i = 0) -> (pre <> [] -> 0 < idx) ->
  take (Z.to_nat idx) ps = select (fun p => addr p) pre ->
  Forall (fun p => is_Some (path_NeighborConf (path p)) /\ len (addr p) = L) (pre ++ rest) ->
  exists ps' idx' removed',
    peer_loop path todo ps i idx removed = Ok (ps', idx', removed') /\
    0 <= idx' <= len ps' /\ (pre ++ rest <> [] -> 0 < idx') /\
    take (Z.to_nat idx') ps' = select (fun p => addr p) (pre ++ rest) /\
    Forall (fun p => p ∈ removed \/ p ∈ rest \/ p ∈ take (Z.to_nat idx) ps) removed'.
Proof.
  revert ps i idx removed pre rest. induction todo as [|todo IH].
  { intros ps i idx removed pre [|] Hd Ht Hi Hl Hnil Hpos Hk _; [|done].
    exists ps, idx, removed. rewrite app_nil_r. rewrite len_nil in Hl.
    refine (conj eq_refl (conj _ (conj Hpos (conj Hk _)))); [lia|]. apply Forall_forall. by left. }
  intros ps i idx removed pre [|p rest] Hd Ht Hi Hl Hnil Hpos Hk Hok; [done|].
  injection Ht as Ht. rewrite len_cons in Hl.
  assert (ps !! Z.to_nat i = Some p) as Hpi.
  { rewrite <- (Nat.add_0_r (Z.to_nat i)), <- lookup_drop, Hd. done. }
  assert (drop (Z.to_nat (i + 1)) ps = rest) as Hd'.
  { replace (Z.to_nat (i + 1)) with (Z.to_nat i + 1)%nat by lia. rewrite <- drop_drop, Hd. done. }
  pose proof (len_nonneg rest). assert (length ps = Z.to_nat (len ps)) as Hlen by (unfold len; lia).
  rewrite (cons_middle p pre rest), (assoc_L (++)) in Hok |- *.
  assert (exists b, ps !! 0%nat = Some b /\ (pre = [] /\ b = p \/ pre <> [] /\ b ∈ select (fun p => addr p) pre))
    as (b & Hb0 & Hb).
  { destruct (decide (pre = [])) as [->|Hne].
    - destruct (Hnil eq_refl) as [-> ->]. exists p. split; [exact Hpi|by left].
    - specialize (Hpos Hne). destruct (lookup_lt_is_Some_2 ps 0%nat) as [b Hb]; [lia|].
      exists b. split; [done|right; split; [done|]]. rewrite <- Hk.
      apply (list_elem_of_lookup_2 _ 0). rewrite lookup_take_lt by lia. done. }
  pose proof Hok as Hok'. apply Forall_app in Hok' as [[Hpre Hp]%Forall_app Hrest].
  apply Forall_singleton in Hp as [Hpc Hpl].
  assert (is_Some (path_NeighborConf (path b)) /\ len (addr b) = L) as [Hbc Hbl].
  { destruct Hb as [[_ ->]|[_ Hb]]; [done|]. rewrite Forall_forall in Hpre.
    apply Hpre. by apply select_subseteq in Hb. }
  cbn [peer_loop]. unfold index. rewrite (proj2 (Z.ltb_ge i 0)) by lia. rewrite Hpi. res_simpl.
  change (Z.to_nat 0) with 0%nat. rewrite Hb0. change (0 <? 0) with false. cbv iota. res_simpl.
  rewrite (peer_address_ok p Hpc). res_simpl. rewrite (peer_address_ok b Hbc). res_simpl.
  unfold CompareNeighborAddress_logged, CompareNeighborAddress.
  rewrite (proj2 (Z.eqb_eq _ _)) by congruence.
  set (c := compare_octets (addr p) (addr b)).
  assert (select (fun p => addr p) (pre ++ [p]) =
    if 0 <? c then select (fun p => addr p) pre else if c <? 0 then [p]
    else select (fun p => addr p) pre ++ [p]) as Hsel.
  { destruct Hb as [[-> ->]|[_ Hb]].
    - rewrite app_nil_l, select_singleton. unfold c.
      destruct (compare_octets_spec (addr p) (addr p) eq_refl) as [[_ E] _]. by rewrite E.
    - refine (select_snoc (fun p => addr p) L pre b p _ Hb). apply Forall_app; split.
      + eapply Forall_impl; [exact Hpre|]. by intros x [_ Hx].
      + by apply Forall_singleton. }
  assert (pre = [] -> c = 0) as Hc0.
  { intros ->. destruct Hb as [[_ ->]|[Hb _]]; [|done].
    unfold c. apply (proj1 (compare_octets_spec _ _ eq_refl)). done. }
  destruct (0 <? c) eqn:E1; [|destruct (c <? 0) eqn:E2].
  - edestruct (IH ps (i + 1) idx (removed ++ [p]) (pre ++ [p]))
      as (ps' & idx' & rm & -> & H1 & H2 & H3 & H4);
      [exact Hd'|done|lia|lia|by intros [_ ?]%app_nil|intros _; apply Hpos; intros ->; specialize (Hc0 eq_refl); lia
      |by rewrite Hsel|exact Hok|].
    exists ps', idx', rm. refine (conj eq_refl (conj H1 (conj H2 (conj H3 _)))).
    eapply Forall_impl; [exact H4|]. set_solver.
  - unfold slice, set_index. rewrite Z.sub_0_r, drop_0.
    rewrite (proj2 (andb_true_iff _ _)) by lia. res_simpl.
    rewrite (proj2 (andb_true_iff _ _)) by lia. res_simpl. change (Z.to_nat 0) with 0%nat.
    assert (take 1 (<[0%nat := p]> ps) = [p]) as Ht1.
    { by rewrite (take_S_r _ 0 p) by (by rewrite list_lookup_insert_eq by lia). }
    edestruct (IH (<[0%nat := p]> ps) (i + 1) 1 (removed ++ take (Z.to_nat idx) ps) (pre ++ [p]))
      as (ps' & idx' & rm & -> & H1 & H2 & H3 & H4);
      [rewrite drop_insert_lt by lia; exact Hd'|done|lia|rewrite len_insert; lia|by intros [_ ?]%app_nil|lia
      |by rewrite Hsel|exact Hok|].
    exists ps', idx', rm. refine (conj eq_refl (conj H1 (conj H2 (conj H3 _)))).
    change (Z.to_nat 1) with 1%nat in H4. rewrite Ht1 in H4.
    eapply Forall_impl; [exact H4|]. set_solver.
  - unfold set_index. rewrite (proj2 (andb_true_iff _ _)) by lia. res_simpl.
    assert (take (Z.to_nat (idx + 1)) (<[Z.to_nat idx:=p]> ps) = take (Z.to_nat idx) ps ++ [p]) as Ht'.
    { replace (Z.to_nat (idx + 1)) with (S (Z.to_nat idx)) by lia.
      rewrite (take_S_r _ _ p) by (rewrite list_lookup_insert_eq by lia; done).
      by rewrite take_insert_ge by lia. }
    edestruct (IH (<[Z.to_nat idx := p]> ps) (i + 1) (idx + 1) removed (pre ++ [p]))
      as (ps' & idx' & rm & -> & H1 & H2 & H3 & H4);
      [rewrite drop_insert_lt by lia; exact Hd'|done|lia|rewrite len_insert; lia|by intros [_ ?]%app_nil|lia
      |by rewrite Ht', Hsel, Hk|exact Hok|].
    exists ps', idx', rm. refine (conj eq_refl (conj H1 (conj H2 (conj H3 _)))).
    rewrite Ht' in H4. eapply Forall_impl; [exact H4|]. set_solver.
Qed.

Lemma select_short r ps : len ps <= 1 -> select r ps = ps.
Proof.
  destruct ps as [|p [|q ps]]; [done|intros _; apply select_singleton|].
  rewrite !len_cons. pose proof (len_nonneg ps). lia.
Qed.

Lemma peer_step_selects L ps :
  Forall (fun p => is_Some (path_NeighborConf (path p)) /\ len (addr p) = L) ps ->
  selects (getRoutesWithLowestPeerAddress path) ps (select (fun p => addr p) ps).
Proof.
  intros Hok loc all pruned Hall Hpr. unfold step.
  destruct (1 <? len ps) eqn:Hlen; [|rewrite select_short by lia; eauto].
  edestruct (peer_loop_ok L (length ps) ps 0 0 [] [] ps)
    as (ps' & idx & rm & E & Hidx & Hpos & Hk & Hrm);
    [done|done|lia|lia|done|done|done|exact Hok|].
  unfold getRoutesWithLowestPeerAddress. rewrite E. res_simpl. rewrite app_nil_l in *.
  assert (0 < idx) as Hpos' by (apply Hpos; intros ->; done).
  unfold cut, slice. rewrite (proj2 (Z.ltb_lt _ _) Hpos'), Z.sub_0_r, drop_0.
  rewrite (proj2 (andb_true_iff _ _)) by lia. res_simpl. rewrite Hk.
  eexists. split; [done|]. apply prune_in; [|done].
  intros x Hx. rewrite Forall_forall in Hrm. specialize (Hrm x Hx). set_solver.
Qed.

(** ** External before internal *)

Definition internal (p : ptr) : Z := if isIBGPRoute path p then 1 else 0.

Lemma isIBGPRoute_conf p c : path_NeighborConf (path p) = Some c -> isIBGPRoute path p = IsInternal c.
Proof. intros H. unfold isIBGPRoute. by rewrite H. Qed.

Lemma isEBGPRoute_negb p :
  is_Some (path_NeighborConf (path p)) -> isEBGPRoute path p = negb (isIBGPRoute path p).
Proof.
  intros [c H]. unfold isEBGPRoute, isIBGPRoute. rewrite H. cbn. unfold IsExternal, IsInternal.
  by destruct (_ =? _).
Qed.

(** The loop moves the last candidate in use into the place of an internal one. *)
Lemma deleteIBGP_loop_ok fuel ps i n removed pre mid rest :
  ps = pre ++ mid ++ rest -> len pre = i -> len mid = n - i + 1 -> (length mid <= fuel)%nat ->
  Forall (fun p => is_Some (path_NeighborConf (path p))) mid ->
  exists kept removed',
    deleteIBGP_loop path fuel ps i n removed = Ok (kept, removed') /\
    Permutation kept (pre ++ filter (fun p => isIBGPRoute path p = false) mid) /\
    Permutation removed' (removed ++ filter (fun p => isIBGPRoute path p = true) mid).
Proof.
  revert ps i n removed pre mid rest. induction fuel as [|fuel IH];
    intros ps i n removed pre [|p mid] rest -> Hi Hn Hf Hc; cbn [length] in Hf; try lia;
    rewrite ?len_nil, ?len_cons in Hn; pose proof (len_nonneg pre).
  1,2: cbn [deleteIBGP_loop]; rewrite (proj2 (Z.leb_gt i n)) by lia; unfold slice;
    rewrite Z.sub_0_r, drop_0, (proj2 (andb_true_iff _ _)) by (len_simpl; pose proof (len_nonneg rest); lia);
    res_simpl; rewrite take_app_length' by (unfold len in *; lia);
    exists pre, removed; rewrite !filter_nil, !app_nil_r; done.
  apply Forall_cons in Hc as [[c Hp] Hc]. pose proof (len_nonneg mid).
  cbn [deleteIBGP_loop]. rewrite (proj2 (Z.leb_le i n)) by lia. cbn [app].
  rewrite (index_app pre p (mid ++ rest) i) by lia. res_simpl. rewrite Hp. res_simpl.
  rewrite <- (isIBGPRoute_conf p c Hp). destruct (isIBGPRoute path p) eqn:Ep.
  - rewrite (filter_cons_False _ p) by (rewrite Ep; done). rewrite (filter_cons_True _ p) by done.
    destruct mid as [|q mid _] using rev_ind.
    + cbn [app]. rewrite (index_app pre p rest n) by (rewrite len_nil in Hn; lia). res_simpl.
      rewrite set_index_app by lia. res_simpl.
      edestruct (IH (pre ++ p :: rest) i (n - 1) (removed ++ [p]) pre [] (p :: rest))
        as (kept & rm & -> & P1 & P2); [done|done|rewrite len_nil in *; lia|cbn; lia|constructor|].
      exists kept, rm. split; [done|]. split; [done|]. rewrite P2. by rewrite app_nil_r.
    + rewrite len_app, len_cons, len_nil in Hn. pose proof (len_nonneg mid).
      replace (pre ++ p :: (mid ++ [q]) ++ rest) with ((pre ++ p :: mid) ++ q :: rest)
        by (by rewrite <- !(assoc_L (++))).
      rewrite (index_app (pre ++ p :: mid) q rest n) by (len_simpl; lia). res_simpl. rewrite <- (assoc_L (++)). cbn [app].
      rewrite set_index_app by lia. res_simpl. apply Forall_app in Hc as [Hc Hq].
      edestruct (IH (pre ++ q :: mid ++ q :: rest) i (n - 1) (removed ++ [p]) pre (q :: mid) (q :: rest))
        as (kept & rm & -> & P1 & P2);
        [done|done|rewrite len_cons; lia|rewrite length_app in Hf; cbn in *; lia
        |constructor; [by inversion Hq|done]|].
      exists kept, rm. split; [done|].
      assert (Permutation (mid ++ [q]) (q :: mid)) as Hpm by (symmetry; apply Permutation_cons_append).
      split.
      * rewrite P1. apply Permutation_app_head. by rewrite Hpm.
      * rewrite P2, <- (assoc_L (++)). apply Permutation_app_head. cbn [app]. by rewrite Hpm.
  - rewrite (filter_cons_True _ p) by done. rewrite (filter_cons_False _ p) by (rewrite Ep; done).
    edestruct (IH (pre ++ p :: mid ++ rest) (i + 1) n removed (pre ++ [p]) mid rest)
      as (kept & rm & -> & P1 & P2);
      [by rewrite <- !(assoc_L (++))|len_simpl; lia|lia|lia|done|].
    exists kept, rm. split; [done|]. split; [|done]. rewrite P1, <- (assoc_L (++)). done.
Qed.

Lemma removeIBGP_selects ps :
  Forall (fun p => is_Some (path_NeighborConf (path p))) ps ->
  exists qs, Permutation qs (argmin internal ps) /\ selects (removeIBGPRoutesIfEBGPExist path) ps qs.
Proof.
  intros Hc. assert (forall p, p ∈ ps -> isEBGPRoute path p = negb (isIBGPRoute path p)) as Hneg.
  { rewrite Forall_forall in Hc. intros p Hp. apply isEBGPRoute_negb. auto. }
  destruct (existsb (isEBGPRoute path) ps) eqn:Ex.
  - apply existsb_exists in Ex as (e & He%list_elem_of_In & Ee).
    destruct (deleteIBGP_loop_ok (length ps) ps 0 (len ps - 1) [] [] ps []) as (kept & rm & E & H1 & H2);
      [by rewrite app_nil_r|done|lia|lia|done|].
    assert (argmin internal ps = filter (fun p => isIBGPRoute path p = false) ps) as Ha.
    { assert (internal e = 0) as He0.
      { unfold internal. rewrite (Hneg e He) in Ee. by destruct (isIBGPRoute path e). }
      rewrite (argmin_attained _ ps e He).
      - apply filter_ext_in. intros p _. rewrite He0. unfold internal. by destruct (isIBGPRoute path p).
      - apply argmin_le, Forall_forall. intros p _. rewrite He0. unfold internal.
        by destruct (isIBGPRoute path p). }
    destruct (decide (1 < len ps)).
    + exists kept. rewrite Ha. split; [done|]. intros loc all pruned Hall Hpr.
      unfold step, removeIBGPRoutesIfEBGPExist, deleteIBGPRoutes.
      rewrite (proj2 (Z.ltb_lt _ _)) by lia.
      rewrite (proj2 (existsb_exists _ _)) by (exists e; by rewrite <- list_elem_of_In).
      rewrite E. res_simpl. eexists. split; [done|]. apply prune_in; [|done].
      rewrite H2. intros x Hx. apply list_elem_of_filter in Hx as [_ Hx]. auto.
    + exists ps. rewrite argmin_short by lia. split; [done|]. intros loc all pruned Hall Hpr.
      unfold step. rewrite (proj2 (Z.ltb_ge _ _)) by lia. eauto.
  - exists ps. split.
    + rewrite argmin_ties; [done|]. intros p q Hp Hq.
      enough (forall x, x ∈ ps -> internal x = 1) as Hi by (by rewrite !Hi).
      intros x Hx. unfold internal. destruct (isIBGPRoute path x) eqn:E; [done|].
      enough (existsb (isEBGPRoute path) ps = true) by congruence.
      apply existsb_exists. exists x. split; [by apply list_elem_of_In|].
      rewrite (Hneg x Hx). by rewrite E.
    + intros loc all pruned Hall Hpr. unfold step, removeIBGPRoutesIfEBGPExist. rewrite Ex.
      destruct (1 <? len ps); eauto.
Qed.

(** ** Groups of paths with the same next hop *)

Context (env : RibEnv) (fam : Z).

Definition reachable (p : ptr) : Prop := is_Some (GetReachability (path p) fam).
Definition nh (p : ptr) : string :=
  match GetReachability (path p) fam with Some i => ri_NextHop i | None => EmptyString end.

Lemma next_hop_ok p : reachable p -> next_hop path fam p = Ok (nh p).
Proof. unfold reachable, next_hop, nh. by intros [i ->]. Qed.

(** What the grouping has made of the paths it has passed. *)
Definition groups_of (pre : list ptr) (m : gmap string (list ptr)) : Prop :=
  forall h l, m !! h = Some l <-> l = filter (fun p => nh p = h) pre /\ l <> [].

Lemma groups_of_nil : groups_of [] ∅.
Proof. intros h l. rewrite lookup_empty. split; [done|]. intros [-> H]. done. Qed.

Lemma groups_of_None pre m h : groups_of pre m -> m !! h = None -> filter (fun p => nh p = h) pre = [].
Proof.
  intros Hm Hh. destruct (filter _ pre) as [|p l] eqn:E; [done|].
  enough (m !! h = Some (p :: l)) by congruence. by apply Hm.
Qed.

Lemma ecmp_groups_ok pre ps m :
  groups_of pre m -> Forall reachable ps ->
  exists m', ecmp_groups path fam ps m = Ok m' /\ groups_of (pre ++ ps) m'.
Proof.
  revert pre m. induction ps as [|p ps IH]; intros pre m Hm Hr.
  { exists m. by rewrite app_nil_r. }
  apply Forall_cons in Hr as [Hp Hr]. cbn [ecmp_groups]. rewrite (next_hop_ok p Hp). res_simpl.
  rewrite (cons_middle p pre ps), (assoc_L (++)). apply IH; [|done].
  set (h := nh p). intros h' l. rewrite filter_app.
  destruct (decide (h' = h)) as [->|Hne].
  - rewrite lookup_insert_eq, filter_cons_True by done. rewrite filter_nil.
    split.
    + intros [= <-]. destruct (m !! h) as [g|] eqn:Eg.
      * apply Hm in Eg as [-> _]. split; [done|]. by intros [_ ?]%app_nil.
      * by rewrite (groups_of_None _ _ _ Hm Eg).
    + intros [-> _]. f_equal. destruct (m !! h) as [g|] eqn:Eg.
      * by apply Hm in Eg as [-> _].
      * by rewrite (groups_of_None _ _ _ Hm Eg).
  - rewrite lookup_insert_ne, filter_cons_False by done. by rewrite filter_nil, app_nil_r.
Qed.

(** ** What the run time may do *)

Record env_ok : Prop := mkEnvOk {
  range_groups_perm gs : Permutation (range_groups env gs) gs;
  range_paths_perm ps : Permutation (range_paths env ps) ps;
  sort_Sort_perm less ps :
    (forall p q, p ∈ ps -> q ∈ ps -> exists b, less p q = Ok b) ->
    exists qs, sort_Sort env less ps = Ok qs /\ Permutation qs ps;
}.
Context (Henv : env_ok).

(** The specification of the grouping: one group for each next hop. *)
Definition grouped (ps : list ptr) (gs : list (list ptr)) : Prop :=
  exists hops, NoDup hops /\ (forall h, h ∈ hops <-> exists p, p ∈ ps /\ nh p = h) /\
    Permutation gs (map (fun h => filter (fun p => nh p = h) ps) hops).

Lemma getECMPPaths_ok ps :
  Forall reachable ps -> exists gs, getECMPPaths env path fam ps = Ok gs /\ grouped ps gs.
Proof.
  intros Hr. destruct (ecmp_groups_ok [] ps ∅ groups_of_nil Hr) as (m & E & Hm).
  unfold getECMPPaths. rewrite E. res_simpl. rewrite app_nil_l in Hm.
  eexists. split; [done|]. exists (map fst (map_to_list m)). split_and!.
  - apply NoDup_fst_map_to_list.
  - intros h. rewrite list_elem_of_fmap. split.
    + intros ([h' l] & -> & Hl). apply elem_of_map_to_list, Hm in Hl as [-> Hl].
      destruct (filter _ ps) as [|p l] eqn:El; [done|]. exists p.
      apply and_comm, (list_elem_of_filter (fun p => nh p = h')). rewrite El. left.
    + intros (p & Hp & Eh). eexists (h, filter (fun p => nh p = h) ps). split; [done|].
      apply elem_of_map_to_list, Hm. split; [done|]. intros Hnil.
      assert (p ∈ @nil ptr) as Hin by (rewrite <- Hnil; by apply list_elem_of_filter). inversion Hin.
  - rewrite (range_groups_perm Henv). apply reflexive_eq. rewrite map_map. apply list_fmap_ext.
    intros i [h l] Hi. apply list_elem_of_lookup_2, elem_of_map_to_list, Hm in Hi as [-> _]. done.
Qed.

(** ** Additional paths *)

Definition keyed (m : gmap string ptr) : Prop := map_Forall (fun h p => nh p = h) m.

Lemma new_next_hops_ok base ps cm pm :
  Forall reachable ps -> keyed cm -> dom pm = dom cm ∪ base -> dom cm ## base ->
  exists cm' pm', new_next_hops path fam ps cm pm = Ok (cm', pm') /\
    keyed cm' /\ dom pm' = dom cm' ∪ base /\ dom cm' ## base /\
    (forall h p, cm' !! h = Some p -> p ∈ ps \/ cm !! h = Some p).
Proof.
  revert cm pm. induction ps as [|p ps IH]; intros cm pm Hr Hk Hd Hb.
  { exists cm, pm. split_and!; auto. }
  apply Forall_cons in Hr as [Hp Hr]. cbn [new_next_hops]. rewrite (next_hop_ok p Hp). res_simpl.
  destruct (pm !! nh p) as [q|] eqn:E.
  - destruct (IH cm pm Hr Hk Hd Hb) as (cm' & pm' & -> & H1 & H2 & H3 & H4).
    exists cm', pm'. split_and!; try done. intros h x Hx. destruct (H4 h x Hx); set_solver.
  - apply not_elem_of_dom in E.
    destruct (IH (<[nh p := p]> cm) (<[nh p := p]> pm)) as (cm' & pm' & -> & H1 & H2 & H3 & H4);
      [done|by apply map_Forall_insert_2|rewrite !dom_insert_L; set_solver|rewrite dom_insert_L; set_solver|].
    exists cm', pm'. split_and!; try done. intros h x Hx.
    destruct (H4 h x Hx) as [|[[<- <-]|[_ ?]]%lookup_insert_Some]; set_solver.
Qed.

(** The additional paths so far lead to different next hops, which the map holds. *)
Definition add_inv (add : list ptr) (pm : gmap string ptr) : Prop :=
  NoDup (map nh add) /\ dom pm = list_to_set (map nh add).

Lemma addAddPaths_ok add ps pm :
  Forall reachable ps -> add_inv add pm ->
  exists add' pm', addAddPaths env path fam add ps pm = Ok (add ++ add', pm') /\
    add_inv (add ++ add') pm' /\ add' ⊆ ps.
Proof.
  intros Hr [Hn Hd].
  destruct (new_next_hops_ok (dom pm) ps ∅ pm) as (cm & pm' & E & H1 & H2 & H3 & H4);
    [done|apply map_Forall_empty|set_solver|set_solver|].
  unfold addAddPaths. rewrite E. res_simpl. eexists _, _. split; [done|].
  set (new := range_paths env _). assert (Permutation new (map snd (map_to_list cm))) as Hnew
    by apply (range_paths_perm Henv).
  assert (Permutation (map nh new) (map fst (map_to_list cm))) as Hnh.
  { rewrite Hnew. apply reflexive_eq. rewrite map_map. apply list_fmap_ext.
    intros i [h p] Hi. apply list_elem_of_lookup_2, elem_of_map_to_list in Hi. by apply H1. }
  assert (forall h, h ∈ map nh new <-> h ∈ dom cm) as Hdom.
  { intros h. rewrite Hnh, elem_of_dom, list_elem_of_fmap. split.
    - intros ([h' p] & -> & Hp%elem_of_map_to_list). by exists p.
    - intros [p Hp]. exists (h, p). by rewrite elem_of_map_to_list. }
  split; [split|].
  - rewrite map_app. apply NoDup_app. split; [done|]. split; [|rewrite Hnh; apply NoDup_fst_map_to_list].
    intros h Hh. rewrite Hdom. rewrite Hd in H3. set_solver.
  - rewrite H2, Hd, map_app. apply set_eq. intros h. rewrite elem_of_union, !elem_of_list_to_set.
    rewrite elem_of_app, Hdom. tauto.
  - intros p Hp. rewrite Hnew in Hp. apply list_elem_of_fmap in Hp as ([h q] & -> & Hq%elem_of_map_to_list).
    destruct (H4 h q Hq) as [|Hc]; [done|]. by rewrite lookup_empty in Hc.
Qed.

Lemma compare_keys_ok lt key p q a b :
  key p = Ok a -> key q = Ok b -> compare_keys lt key p q = Ok (lt a b).
Proof. intros H1 H2. unfold compare_keys. rewrite H1. res_simpl. rewrite H2. by res_simpl. Qed.

Lemma Less_ok order p q :
  comparable (path p) -> comparable (path q) -> exists b, Less path order p q = Ok b.
Proof.
  intros [_ (? & Ea & _) (? & Eo & _) [? Ec] (? & Ei & _) (? & El & _)]
    [_ (? & Ea' & _) (? & Eo' & _) [? Ec'] (? & Ei' & _) (? & El' & _)].
  destruct order; cbn [Less]; rewrite ?Ec, ?Ec'; eauto using compare_keys_ok.
Qed.

Lemma sort_pruned loc all order ps :
  Forall (fun p => comparable (path p)) all -> (ps ⊆ all \/ (order, ps) = (ByRouteSrc, loc)) ->
  exists qs, sort_Sort env (Less path order) ps = Ok qs /\ Permutation qs ps.
Proof.
  intros Hc Hin. apply (sort_Sort_perm Henv). intros p q Hp Hq.
  rewrite Forall_forall in Hc. destruct Hin as [Hin|[= -> ->]].
  - apply Less_ok; auto.
  - by eexists.
Qed.

Section Additional.
Context (loc all : list ptr) (Hc : Forall (fun p => comparable (path p)) all).
Context (Hr : Forall reachable (all ++ loc)).

Lemma reachable_among ps : ps ⊆ all ++ loc -> Forall reachable ps.
Proof. intros H. rewrite Forall_forall in Hr. apply Forall_forall. auto. Qed.

Lemma add_pruned_ok pruned count add pm :
  pruned_in loc all pruned -> add_inv add pm -> add ⊆ all ++ loc -> 0 <= count ->
  exists add', add_pruned env path fam pruned count add pm = Ok add' /\
    NoDup (map nh add') /\ add' ⊆ all ++ loc /\ len add' <= Z.max count (len add).
Proof.
  intros Hp Ha Hin Hcount. revert add pm Ha Hin.
  induction Hp as [|[order ps] pruned He Hp IH]; intros add pm Ha Hin; cbn [add_pruned].
  { exists add. split_and!; [done|by destruct Ha|done|lia]. }
  destruct (sort_pruned loc all order ps Hc He) as (qs & -> & Hqs). res_simpl.
  assert (qs ⊆ all ++ loc) as Hqin.
  { rewrite Hqs. cbn in He. destruct He as [He|[= -> ->]]; set_solver. }
  destruct (addAddPaths_ok add qs pm) as (new & pm' & -> & Ha' & Hnew);
    [by apply reachable_among|done|]. res_simpl.
  assert (add ++ new ⊆ all ++ loc) as Hin' by set_solver.
  destruct (count <=? len (add ++ new)) eqn:E.
  - unfold slice. rewrite Z.sub_0_r, drop_0, (proj2 (andb_true_iff _ _)) by lia.
    exists (take (Z.to_nat count) (add ++ new)). destruct Ha' as [Ha' _]. split_and!; [done| | |].
    + rewrite <- (take_drop (Z.to_nat count) (add ++ new)), map_app, NoDup_app in Ha'. by destruct Ha'.
    + intros x Hx. apply Hin'. rewrite <- (take_drop (Z.to_nat count) (add ++ new)).
      apply elem_of_app. by left.
    + unfold len in *. rewrite length_take. lia.
  - edestruct (IH (add ++ new) pm') as (add' & -> & H1 & H2 & H3); [done|done|].
    exists add'. split_and!; try done. lia.
Qed.

Lemma additional_ok ps pruned count :
  ps ⊆ all -> pruned_in loc all pruned -> 0 <= count ->
  exists add, additional env path fam ps pruned count = Ok add /\
    NoDup (map nh add) /\ add ⊆ all ++ loc /\ len add <= Z.max count (len ps - 1).
Proof.
  intros Hps Hp Hcount. unfold additional.
  enough (exists add pm,
    (if (0 <? count) && (1 <? len ps) then
       rest ← slice_from ps 1; addAddPaths env path fam [] rest ∅
     else Ok ([], ∅)) = Ok (add, pm) /\ add_inv add pm /\ add ⊆ ps /\
    len add <= Z.max count (len ps - 1)) as (add & pm & -> & Ha & Hin & Hl).
  { res_simpl. assert (add ⊆ all ++ loc) by set_solver. destruct (len add <? count) eqn:E.
    - destruct (add_pruned_ok (reverse pruned) count add pm) as (add' & -> & H1 & H2 & H3);
        [by apply Forall_reverse|done|done|done|].
      exists add'. split_and!; try done. lia.
    - exists add. destruct Ha. done. }
  destruct (0 <? count) eqn:E1; [destruct (1 <? len ps) eqn:E2|]; cbn [andb].
  2,3: exists [], ∅; split_and!; [done| |set_solver|rewrite len_nil; lia]; split; [constructor|set_solver].
  destruct ps as [|p rest]; [done|].
  assert (slice_from (p :: rest) 1 = Ok rest) as -> by (by apply (slice_from_app [p] rest)).
  res_simpl. destruct (addAddPaths_ok [] rest ∅) as (add & pm & -> & Ha & Hin).
  { apply reachable_among. set_solver. }
  { split; [constructor|set_solver]. }
  exists add, pm. rewrite !app_nil_l in *. split_and!; [done|done|set_solver|].
  rewrite len_cons. enough (len add <= len rest) by lia. unfold len.
  apply inj_le, submseteq_length, NoDup_submseteq; [|done].
  destruct Ha as [Ha _]. by apply NoDup_fmap_1 in Ha.
Qed.
End Additional.

(** ** The process *)

Definition pref_key (p : ptr) : Z := - GetPreference (path p).
Definition ases_key (p : ptr) : Z := value (path_GetNumASes (path p)).
Definition origin_key (p : ptr) : Z := value (path_GetOrigin (path p)).
Definition id_key (p : ptr) : Z := value (GetBGPId (path p)).
Definition clusters_key (p : ptr) : Z := value (path_GetNumClusters (path p)).

(** The candidates left before and after the comparison of origins. *)
Definition shortest (ps : list ptr) : list ptr := argmin ases_key (argmin pref_key ps).
Definition tied (ps : list ptr) : list ptr := argmin origin_key (shortest ps).

(** The multipath groups: of all the tied paths when both kinds may be used, else of
    those left without the internal ones, if they are of the kind that may be. *)
Definition multipath_spec (eb ib : bool) (ps : list ptr) (gs : list (list ptr)) : Prop :=
  if eb && ib then if 1 <? len (tied ps) then grouped (tied ps) gs else gs = []
  else exists qs, Permutation qs (argmin internal (tied ps)) /\
    if (1 <? len qs) && (eb && forallb (isEBGPRoute path) qs || ib && forallb (isIBGPRoute path) qs)
    then grouped qs gs else gs = [].

Lemma select_rank ps :
  select (fun p => rank (path p)) ps =
  select (fun p => addr p) (argmin clusters_key (argmin id_key (argmin internal (tied ps)))).
Proof.
  unfold tied, shortest. rewrite <- !select_cons. done.
Qed.

Lemma argmin_internal_same ps p q : p ∈ argmin internal ps -> q ∈ argmin internal ps -> internal p = internal q.
Proof.
  intros [Hp Hp']%list_elem_of_filter [Hq Hq']%list_elem_of_filter.
  apply argmin_le in Hp, Hq. rewrite Forall_forall in Hp, Hq.
  specialize (Hp q Hq'). specialize (Hq p Hp'). lia.
Qed.

Lemma isEBGP_internal p : is_Some (path_NeighborConf (path p)) ->
  isEBGPRoute path p = (internal p =? 0) /\ isIBGPRoute path p = (internal p =? 1).
Proof.
  intros Hc. rewrite (isEBGPRoute_negb p Hc). unfold internal. by destruct (isIBGPRoute path p).
Qed.

Lemma second_ecmp_spec eb ib ps qs :
  Forall (fun p => is_Some (path_NeighborConf (path p))) (tied ps) -> Forall reachable (tied ps) ->
  Permutation qs (argmin internal (tied ps)) ->
  exists g1 g2,
    (if (1 <? len (tied ps)) && eb && ib then getECMPPaths env path fam (tied ps) else Ok []) = Ok g1 /\
    second_ecmp env path fam eb ib qs g1 = Ok g2 /\ multipath_spec eb ib ps g2.
Proof.
  intros Hc Hr Hq. destruct (getECMPPaths_ok (tied ps) Hr) as (g & Eg & Hg). unfold multipath_spec.
  destruct (eb && ib) eqn:Eb.
  { apply andb_true_iff in Eb as [-> ->]. unfold second_ecmp. rewrite andb_false_r, !andb_true_r.
    destruct (1 <? len (tied ps)); eauto. }
  assert ((1 <? len (tied ps)) && eb && ib = false) as -> by (by rewrite <- andb_assoc, Eb, andb_false_r).
  assert (qs ⊆ tied ps) as Hin by (rewrite Hq; apply select_subseteq).
  assert (Forall reachable qs) as Hrq.
  { rewrite Forall_forall in Hr. apply Forall_forall. auto. }
  destruct (getECMPPaths_ok qs Hrq) as (g' & Eg' & Hg').
  enough (exists g2, second_ecmp env path fam eb ib qs [] = Ok g2 /\
    if (1 <? len qs) && (eb && forallb (isEBGPRoute path) qs || ib && forallb (isIBGPRoute path) qs)
    then grouped qs g2 else g2 = []) as (g2 & H1 & H2) by (exists [], g2; eauto 6).
  unfold second_ecmp. destruct (1 <? len qs) eqn:El; [|by exists []].
  destruct qs as [|q qs]; [done|].
  assert (forall x, x ∈ q :: qs -> isEBGPRoute path x = isEBGPRoute path q /\ isIBGPRoute path x = isIBGPRoute path q)
    as Hsame.
  { intros x Hx. rewrite Forall_forall in Hc.
    destruct (isEBGP_internal x) as [-> ->]; [by apply Hc, Hin|].
    destruct (isEBGP_internal q) as [-> ->]; [apply Hc, Hin; left|].
    rewrite (argmin_internal_same (tied ps) x q); [done|by rewrite <- Hq|rewrite <- Hq; left]. }
  assert (forallb (isEBGPRoute path) (q :: qs) = isEBGPRoute path q) as ->.
  { destruct (isEBGPRoute path q) eqn:E; [|cbn; by rewrite E].
    apply forallb_forall. intros x Hx%list_elem_of_In. by rewrite (proj1 (Hsame x Hx)). }
  assert (forallb (isIBGPRoute path) (q :: qs) = isIBGPRoute path q) as ->.
  { destruct (isIBGPRoute path q) eqn:E; [|cbn; by rewrite E].
    apply forallb_forall. intros x Hx%list_elem_of_In. by rewrite (proj2 (Hsame x Hx)). }
  change (index (q :: qs) 0) with (Ok q).
  res_simpl. destruct eb, ib, (isEBGPRoute path q), (isIBGPRoute path q); try done;
    cbn [andb orb negb eqb]; eauto.
Qed.

Lemma step_chain F ps qs loc all pruned (K : list ptr * Pruned -> Prop) :
  selects F ps qs -> ps ⊆ all -> pruned_in loc all pruned ->
  (forall pruned', pruned_in loc all pruned' -> K (qs, pruned')) ->
  exists r, step F ps pruned = Ok r /\ K r.
Proof. intros HF Ha Hp HK. destruct (HF loc all pruned Ha Hp) as (pr & -> & Hpr). eauto. Qed.

(** The hypotheses on the candidates: every value is there, all peers have
    addresses of one length, next hops are known, and of those of the highest
    preference and the shortest path the first has the lowest origin, without which the
    comparison of origins goes wrong ([origin_step_keeps_worse]). *)
Record candidates (L : Z) (ps loc : list ptr) : Prop := mkCandidates {
  cand_some : ps <> [];
  cand_comparable : Forall (fun p => comparable (path p)) ps;
  cand_address : Forall (fun p => len (addr p) = L) ps;
  cand_reachable : Forall reachable (ps ++ loc);
  cand_origin : leads origin_key (shortest ps);
}.

Definition key_ok (key : ptr -> res Z) (ps : list ptr) (bound : Z) : Prop :=
  Forall (fun p => key p = Ok (value (key p))) ps /\ Forall (fun p => value (key p) <= bound) ps.

Lemma key_ok_exists key ps bound :
  Forall (fun p => exists n, key p = Ok n /\ n <= bound) ps -> key_ok key ps bound.
Proof.
  intros H. split; eapply Forall_impl; try exact H; intros p (n & -> & Hn); done.
Qed.

Lemma keys_ok all ps :
  Forall (fun p => comparable (path p)) all -> ps ⊆ all ->
  Forall (fun p => - GetPreference (path p) <= - 0) ps /\
  key_ok (fun p => path_GetNumASes (path p)) ps 4096 /\
  key_ok (fun p => path_GetOrigin (path p)) ps BGPPathAttrOriginMax /\
  key_ok (fun p => GetBGPId (path p)) ps 4294967295 /\
  key_ok (fun p => path_GetNumClusters (path p)) ps 65535 /\
  Forall (fun p => is_Some (path_NeighborConf (path p))) ps.
Proof.
  intros Hc Hin. rewrite Forall_forall in Hc.
  split_and!; try apply key_ok_exists; apply Forall_forall; intros p Hp;
    destruct (Hc p (Hin p Hp)); try done; lia.
Qed.

Lemma Ok_bind_ex {A B} (r : res A) (f : A -> res B) (K : B -> Prop) :
  (exists a, r = Ok a /\ exists b, f a = Ok b /\ K b) -> exists b, (a ← r; f a) = Ok b /\ K b.
Proof. intros (a & -> & b & Hb & HK). exists b. by res_simpl. Qed.

Lemma calculateBestPath_ok L ps loc eb ib count :
  candidates L ps loc -> 0 <= count ->
  exists r, calculateBestPath env path fam ps loc eb ib count = Ok r /\
    let '(qs, gs, add) := r in
    Permutation qs (select (fun p => rank (path p)) ps) /\ multipath_spec eb ib ps gs /\
    NoDup (map nh add) /\ add ⊆ ps ++ loc /\ len add <= Z.max count (len qs - 1).
Proof.
  intros [_ Hcmp Haddr Hreach Horig] Hcount. unfold calculateBestPath.
  assert (pruned_in loc ps [(ByRouteSrc, loc)]) as Hp0 by (apply Forall_singleton; by right).
  destruct (keys_ok ps ps Hcmp (reflexivity _)) as (Hk1 & _).
  apply Ok_bind_ex, (step_chain _ _ (argmin pref_key ps) loc ps);
    [|done|done|intros pr1 Hp1].
  { apply (keep_step_selects ByPref _ _ Z.opp (fun p => GetPreference (path p))); [|by apply Forall_true|done].
    intros a b. lia. }
  assert (argmin pref_key ps ⊆ ps) as H1 by apply select_subseteq.
  destruct (keys_ok ps _ Hcmp H1) as (_ & [K1 K2] & _).
  apply Ok_bind_ex, (step_chain _ _ (shortest ps) loc ps); [|done|done|intros pr2 Hp2].
  { by apply (keep_step_selects BySmallestAS _ _ (fun x => x) ases_key). }
  assert (shortest ps ⊆ ps) as H2 by (unfold shortest; etrans; [apply select_subseteq|done]).
  destruct (keys_ok ps _ Hcmp H2) as (_ & _ & [K3 K4] & _ & _ & Hc).
  apply Ok_bind_ex, (step_chain _ _ (tied ps) loc ps); [|done|done|intros pr3 Hp3].
  { by apply (keep_step_leads ByLowestOrigin _ _ origin_key). }
  clear H2 Hc. assert (tied ps ⊆ ps) as H2 by (unfold tied, shortest; repeat (etrans; [apply select_subseteq|]); done).
  destruct (keys_ok ps _ Hcmp H2) as (_ & _ & _ & _ & _ & Hc).
  assert (forall qs, qs ⊆ ps -> Forall reachable qs) as Hre.
  { intros qs Hq. rewrite Forall_forall in Hreach. apply Forall_forall. set_solver. }
  destruct (removeIBGP_selects (tied ps) Hc) as (es & Hes & Hrem).
  destruct (second_ecmp_spec eb ib ps es Hc (Hre _ H2) Hes) as (g1 & g2 & E1 & E2 & Hg).
  apply Ok_bind_ex. exists g1. split; [exact E1|].
  apply Ok_bind_ex, (step_chain _ _ es loc ps _ _ Hrem); [done|done|intros pr4 Hp4].
  apply Ok_bind_ex. exists g2. split; [exact E2|].
  assert (es ⊆ ps) as H3 by (rewrite Hes; etrans; [apply select_subseteq|done]).
  destruct (keys_ok ps _ Hcmp H3) as (_ & _ & _ & [K5 K6] & _).
  apply Ok_bind_ex, (step_chain _ _ (argmin id_key es) loc ps); [|done|done|intros pr5 Hp5].
  { by apply (keep_step_selects ByLowestBGPId _ _ (fun x => x) id_key). }
  assert (argmin id_key es ⊆ ps) as H4 by (etrans; [apply select_subseteq|done]).
  destruct (keys_ok ps _ Hcmp H4) as (_ & _ & _ & _ & [K7 K8] & _).
  apply Ok_bind_ex, (step_chain _ _ (argmin clusters_key (argmin id_key es)) loc ps);
    [|done|done|intros pr6 Hp6].
  { by apply (keep_step_selects ByShorterClusterLen _ _ (fun x => x) clusters_key). }
  set (last := argmin clusters_key (argmin id_key es)).
  assert (last ⊆ ps) as H5 by (etrans; [apply select_subseteq|done]).
  destruct (keys_ok ps _ Hcmp H5) as (_ & _ & _ & _ & _ & Hcl).
  apply Ok_bind_ex, (step_chain _ _ (select (fun p => addr p) last) loc ps); [|done|done|intros pr7 Hp7].
  { apply (peer_step_selects L), Forall_and. split; [done|].
    rewrite Forall_forall in Haddr. apply Forall_forall. auto. }
  assert (select (fun p => addr p) last ⊆ ps) as H6 by (etrans; [apply select_subseteq|done]).
  destruct (additional_ok loc ps Hcmp Hreach _ pr7 count H6 Hp7 Hcount) as (add & -> & Ha).
  res_simpl. eexists. split; [done|]. split; [|split; [done|exact Ha]].
  rewrite select_rank. unfold last, argmin. by do 3 apply select_Permutation.
Qed.

(** A candidate of least rank exists. *)
Lemma select_nonempty_rank ps :
  ps <> [] -> (exists L, Forall (fun p => len (addr p) = L) ps) ->
  exists p, p ∈ select (fun p => rank (path p)) ps.
Proof.
  clear Henv env. intros Hne [L HL]. rewrite select_rank.
  set (qs := argmin clusters_key _).
  assert (qs <> []) as Hq.
  { assert (forall k l, l <> [] -> argmin k l <> []) as Hk.
    { intros k l Hl He. destruct (argmin_nonempty k l Hl) as [p Hp]. rewrite He in Hp. inversion Hp. }
    unfold qs, tied, shortest. by repeat apply Hk. }
  assert (qs ⊆ ps) as Hin by (unfold qs, tied, shortest, argmin; repeat (etrans; [apply select_subseteq|]); done).
  assert (Forall (fun p => len (addr p) = L) qs) as HLq.
  { rewrite Forall_forall in HL. apply Forall_forall. auto. }
  clearbody qs. clear Hin. induction qs as [|q qs IH] using rev_ind; [done|].
  destruct qs as [|p qs]; [exists q; cbn [app]; rewrite select_singleton; left|].
  destruct IH as [b Hb]; [done|by apply Forall_app in HLq as []|].
  rewrite (select_snoc _ L _ b q HLq Hb).
  destruct (0 <? _); [by exists b|]. destruct (_ <? 0); [exists q; left|exists b; set_solver].
Qed.

Lemma candidates_length L ps loc :
  candidates L ps loc -> exists L, Forall (fun p => len (addr p) = L) ps.
Proof. intros H. exists L. apply H. Qed.

Lemma candidates_Permutation L ps ps' loc :
  Permutation ps ps' -> leads origin_key (shortest ps') -> candidates L ps loc -> candidates L ps' loc.
Proof.
  clear Henv env. intros Hp Hl [H1 H2 H3 H4 _].
  split; [|by rewrite <- Hp..|done].
  intros ->. by apply H1, Permutation_nil_r.
Qed.
End Process.

(** ** The theorems *)

(** C6: The candidates that survive the decision process are those of the
    lexicographically smallest rank (preference, AS path length, ORIGIN, external before
    internal, BGP identifier, cluster list length, peer address), as the reference
    selection has them: the process returns, and its first path is one that no candidate
    beats. This supposes that every value compared is there and within the bounds
    the steps start from (an AS path of at most 4096 ASes, a defined ORIGIN), so that all candidates have
    a neighbor and its identifier, with neighbor addresses of one length and known next
    hops (local routes are left out, and panic: local_paths_panic), and that of the
    candidates with the highest preference and the shortest path the first in the list has
    the lowest ORIGIN. Without the last the claim is false (origin_step_keeps_worse):
    getRoutesWithLowestOrigin counts on where it should start over. *)
Theorem decision_best path env fam L ps loc eb ib count :
  env_ok env -> candidates path fam L ps loc -> 0 <= count ->
  exists best rest gs add,
    calculateBestPath env path fam ps loc eb ib count = Ok (best :: rest, gs, add) /\
    Permutation (best :: rest) (select (fun p => rank (path p)) ps).
Proof.
  intros He Hc Hn.
  destruct (calculateBestPath_ok path env fam He L ps loc eb ib count Hc Hn)
    as ([[qs gs] add] & E & Hq & _).
  destruct (select_nonempty_rank path ps (cand_some _ _ _ _ _ Hc)) as [p Hp].
  { eapply candidates_length; exact Hc. }
  destruct qs as [|best rest]; [|by exists best, rest, gs, add].
  rewrite <- Hq in Hp. inversion Hp.
Qed.

(** The result does not depend on the order of the candidates, as long as the lowest
    origin comes first, on the order in which
    maps are visited, on how paths are sorted, or on the multipath settings. *)
Theorem decision_order_independent path env env' fam L ps ps' loc eb ib eb' ib' count count' :
  env_ok env -> env_ok env' -> candidates path fam L ps loc -> Permutation ps ps' ->
  leads (origin_key path) (shortest path ps') -> 0 <= count -> 0 <= count' ->
  exists qs qs' gs gs' add add',
    calculateBestPath env path fam ps loc eb ib count = Ok (qs, gs, add) /\
    calculateBestPath env' path fam ps' loc eb' ib' count' = Ok (qs', gs', add') /\
    Permutation qs qs'.
Proof.
  intros He He' Hc Hps Hl Hn Hn'.
  destruct (calculateBestPath_ok path env fam He L ps loc eb ib count Hc Hn)
    as ([[qs gs] add] & E & Hq & _).
  destruct (calculateBestPath_ok path env' fam He' L ps' loc eb' ib' count'
    (candidates_Permutation _ _ _ _ _ _ Hps Hl Hc) Hn') as ([[qs' gs'] add'] & E' & Hq' & _).
  exists qs, qs', gs, gs', add, add'. split_and!; [done|done|].
  rewrite Hq, Hq'. by apply select_Permutation.
Qed.

(** The multipath groups are the groups of the specification: of all the paths tied
    on preference, path length and origin if both kinds of multipath are on, else of
    those left when external ones have displaced the internal ones; each group holds
    the paths of one next hop. *)
Theorem multipath_groups path env fam L ps loc eb ib count :
  env_ok env -> candidates path fam L ps loc -> 0 <= count ->
  exists qs gs add, calculateBestPath env path fam ps loc eb ib count = Ok (qs, gs, add) /\
    multipath_spec path fam eb ib ps gs.
Proof.
  intros He Hc Hn.
  destruct (calculateBestPath_ok path env fam He L ps loc eb ib count Hc Hn)
    as ([[qs gs] add] & E & _ & Hg & _). by exists qs, gs, add.
Qed.

(** The additional paths are among the candidates and those ruled out by their
    source, lead to different next hops, and are no more than the configured number
    or than the best paths tied to the end. *)
Theorem additional_paths path env fam L ps loc eb ib count :
  env_ok env -> candidates path fam L ps loc -> 0 <= count ->
  exists qs gs add, calculateBestPath env path fam ps loc eb ib count = Ok (qs, gs, add) /\
    NoDup (map (nh path fam) add) /\ add ⊆ ps ++ loc /\ len add <= Z.max count (len qs - 1).
Proof.
  intros He Hc Hn.
  destruct (calculateBestPath_ok path env fam He L ps loc eb ib count Hc Hn)
    as ([[qs gs] add] & E & _ & _ & Ha). by exists qs, gs, add.
Qed.

(** ** Examples, and what the process does beyond its hypotheses *)

(** sort.Sort as an insertion sort. *)
Fixpoint insert_by (less : ptr -> ptr -> res bool) (p : ptr) (ps : list ptr) : res (list ptr) :=
  match ps with
  | [] => Ok [p]
  | q :: ps' =>
    b ← less p q;
    if (b : bool) then Ok (p :: ps) else qs ← insert_by less p ps'; Ok (q :: qs)
  end.

Fixpoint sort_by (less : ptr -> ptr -> res bool) (ps : list ptr) : res (list ptr) :=
  match ps with
  | [] => Ok []
  | p :: ps => qs ← sort_by less ps; insert_by less p qs
  end.

Definition example_env : RibEnv := mkRibEnv (fun gs => gs) (fun ps => ps) sort_by.

Lemma insert_by_ok less p ps :
  (forall q, q ∈ ps -> exists b, less p q = Ok b) ->
  exists qs, insert_by less p ps = Ok qs /\ Permutation qs (p :: ps).
Proof.
  induction ps as [|q ps IH]; intros H; cbn [insert_by]; [by eexists|].
  destruct (H q) as [b ->]; [left|]. res_simpl. destruct b; [by eexists|].
  destruct IH as (qs & -> & Hq); [intros x Hx; apply H; by right|]. res_simpl.
  eexists. split; [done|]. rewrite Hq. apply perm_swap.
Qed.

Lemma example_env_ok : env_ok example_env.
Proof.
  split; [done|done|]. cbn. intros less ps. induction ps as [|p ps IH]; intros H; [by exists []|].
  destruct IH as (qs & E & Hq); [intros x y Hx Hy; apply H; by right|]. cbn [sort_by]. rewrite E. res_simpl.
  destruct (insert_by_ok less p qs) as (rs & -> & Hr).
  { intros q Hin. rewrite Hq in Hin. apply H; [left|by right]. }
  exists rs. split; [done|]. by rewrite Hr, Hq.
Qed.

(** A peer in the given AS, with an identifier and an address in 10.0.0.0/24; the
    local AS is 65001. *)
Definition example_peer (asn id addr : Z) : NeighborConf :=
  set_conf_BGPId [10; 0; 0; id]
    (NewNeighborConf (mkGlobalConfig 65001 [10; 0; 0; 1]) None
       (mkNeighborConfig
          (mkBaseConfig asn 65001 0 "" false "" "" 0 false false 0 0 0 0 false "" false 0 0 0 false 0
             "" "") [10; 0; 0; addr] 0 "" "" false)).

(** A path of a peer with an origin, a path of one AS, and a next hop. *)
Definition example_path (peer : option NeighborConf) (origin : Z) (asn hop : Z) (nh : string) : Path :=
  let path :=
    NewPath peer
      [ NewBGPPathAttrOrigin origin;
        PAASPath (mkBase 64 BGPPathAttrTypeASPath 6 9) [Seg4 (mkAS4 (mkSegBase 2 1 6) [asn])] 4;
        PANextHop (mkBase 64 BGPPathAttrTypeNextHop 4 7) [10; 0; 0; hop] ] None RouteTypeEGP in
  match path with
  | Ok p => SetReachabilityForFamily 257 (Some (mkReachabilityInfo nh 0 0 0)) p
  | _ => mkPath None [] 0 ∅ 0 0 0 ∅
  end.

(** Three external paths and an internal one: 2 and 3 tie on the identifier and 3 has
    the lower address. *)
Definition example_paths (p : ptr) : Path :=
  match p with
  | 0%nat => example_path (Some (example_peer 65002 5 5)) 0 65002 5 "10.0.0.5"
  | 1%nat => example_path (Some (example_peer 65001 1 2)) 0 65002 2 "10.0.0.2"
  | 2%nat => example_path (Some (example_peer 65003 3 7)) 0 65003 7 "10.0.0.7"
  | _ => example_path (Some (example_peer 65004 3 6)) 0 65004 5 "10.0.0.5"
  end.

Lemma comparable_compute p :
  (0 <=? GetPreference p) && bool_decide (is_Some (path_NeighborConf p)) &&
  match path_GetNumASes p, path_GetOrigin p, GetBGPId p, path_GetNumClusters p with
  | Ok n, Ok o, Ok i, Ok c => (n <=? 4096) && (o <=? 3) && (i <=? 4294967295) && (c <=? 65535)
  | _, _, _, _ => false
  end = true -> comparable p.
Proof.
  intros [[H1 H2]%andb_true_iff H]%andb_true_iff. apply bool_decide_eq_true in H2.
  destruct (path_GetNumASes p) eqn:E1, (path_GetOrigin p) eqn:E2, (GetBGPId p) eqn:E3,
    (path_GetNumClusters p) eqn:E4; try done.
  apply andb_true_iff in H as [[[? ?]%andb_true_iff ?]%andb_true_iff ?].
  split; [lia|eexists; split; [done|lia]|eexists; split; [done|unfold BGPPathAttrOriginMax; lia]|done| |];
    eexists; (split; [done|lia]).
Qed.

(** A decidable form of [leads], for the examples. *)
Lemma leads_compute k ps :
  match ps with [] => true | p :: rest => forallb (fun q => k p <=? k q) rest end = true -> leads k ps.
Proof.
  destruct ps as [|p rest]; [done|]. intros H. rewrite forallb_forall in H. apply Forall_forall.
  intros q Hq%list_elem_of_In. specialize (H q Hq). lia.
Qed.

Lemma example_candidates : candidates example_paths 257 4 [0; 1; 2; 3]%nat [].
Proof.
  split; [done| | | |].
  - repeat constructor; apply comparable_compute; vm_compute; reflexivity.
  - repeat constructor.
  - repeat constructor; vm_compute; by eexists.
  - assert (shortest example_paths [0; 1; 2; 3]%nat = [0; 1; 2; 3]%nat) as -> by (vm_compute; reflexivity).
    apply leads_compute. by vm_compute.
Qed.

(** Two paths of incomplete origin and one of origin IGP. *)
Definition origin_paths (p : ptr) : Path :=
  match p with
  | 0%nat => example_path (Some (example_peer 65002 5 5)) 2 65002 5 "10.0.0.5"
  | 1%nat => example_path (Some (example_peer 65003 2 7)) 2 65003 7 "10.0.0.7"
  | _ => example_path (Some (example_peer 65004 3 6)) 0 65004 6 "10.0.0.6"
  end.

Lemma origin_candidates : candidates origin_paths 257 4 [2; 0; 1]%nat [].
Proof.
  split; [done| | | |].
  - repeat constructor; apply comparable_compute; vm_compute; reflexivity.
  - repeat constructor.
  - repeat constructor; vm_compute; by eexists.
  - apply leads_compute. by vm_compute.
Qed.

Lemma decision_best_witness :
  exists best rest gs add,
    calculateBestPath example_env origin_paths 257 [2; 0; 1]%nat [] false false 2 =
      Ok (best :: rest, gs, add) /\
    Permutation (best :: rest) (select (fun p => rank (origin_paths p)) [2; 0; 1]%nat).
Proof.
  apply (decision_best origin_paths example_env 257 4 [2; 0; 1]%nat [] false false 2);
    [apply example_env_ok|apply origin_candidates|lia].
Defined.

Example example_best :
  calculateBestPath example_env example_paths 257 [0; 1; 2; 3]%nat [] true false 3 =
    Ok ([3]%nat, [[2]; [0; 3]]%nat, [2; 0; 1]%nat).
Proof. vm_compute. reflexivity. Qed.

Lemma decision_order_independent_witness :
  exists qs qs' gs gs' add add',
    calculateBestPath example_env example_paths 257 [0; 1; 2; 3]%nat [] false false 2 = Ok (qs, gs, add) /\
    calculateBestPath example_env example_paths 257 [3; 2; 1; 0]%nat [] true true 0 = Ok (qs', gs', add') /\
    Permutation qs qs'.
Proof.
  apply (decision_order_independent example_paths example_env example_env 257 4 [0; 1; 2; 3]%nat
    [3; 2; 1; 0]%nat [] false false true true 2 0);
    [apply example_env_ok|apply example_env_ok|apply example_candidates
    |apply (Permutation_rev [0; 1; 2; 3]%nat)|apply leads_compute; by vm_compute|lia|lia].
Defined.

Lemma multipath_groups_witness :
  exists qs gs add, calculateBestPath example_env example_paths 257 [0; 1; 2; 3]%nat [] true true 0 = Ok (qs, gs, add) /\
    multipath_spec example_paths 257 true true [0; 1; 2; 3]%nat gs.
Proof.
  apply (multipath_groups example_paths example_env 257 4 [0; 1; 2; 3]%nat [] true true 0);
    [apply example_env_ok|apply example_candidates|lia].
Defined.

Lemma additional_paths_witness :
  exists qs gs add, calculateBestPath example_env example_paths 257 [0; 1; 2; 3]%nat [] false false 2 = Ok (qs, gs, add) /\
    NoDup (map (nh example_paths 257) add) /\ add ⊆ [0; 1; 2; 3]%nat ++ [] /\ len add <= Z.max 2 (len qs - 1).
Proof.
  apply (additional_paths example_paths example_env 257 4 [0; 1; 2; 3]%nat [] false false 2);
    [apply example_env_ok|apply example_candidates|lia].
Defined.

(** The comparison of origins does not start over when it finds a better origin: it
    counts on, so the second path stays among the candidates, the third is there
    twice, and the second wins here by its lower identifier although the reference
    has one of origin IGP. *)
Theorem origin_step_keeps_worse :
  getRoutesWithLowestOrigin origin_paths [0; 1; 2]%nat [] = Ok ([2; 1; 2]%nat, [(ByLowestOrigin, [0; 1]%nat)]) /\
  calculateBestPath example_env origin_paths 257 [0; 1; 2]%nat [] false false 0 = Ok ([1]%nat, [], []) /\
  select (fun p => rank (origin_paths p)) [0; 1; 2]%nat = [2]%nat.
Proof. repeat split; vm_compute; reflexivity. Qed.

(** Paths of one peer with three next hops, as it sends them with ADD-PATH. *)
Definition add_path_paths (p : ptr) : Path :=
  match p with
  | 0%nat => example_path (Some (example_peer 65002 5 5)) 0 65002 5 "10.0.0.5"
  | 1%nat => example_path (Some (example_peer 65002 5 5)) 0 65002 7 "10.0.0.7"
  | _ => example_path (Some (example_peer 65002 5 5)) 0 65002 6 "10.0.0.6"
  end.

(** The additional paths taken from those tied to the end are not cut to the
    configured number. *)
Theorem additional_paths_exceed :
  calculateBestPath example_env add_path_paths 257 [0; 1; 2]%nat [] false false 1 =
    Ok ([0; 1; 2]%nat, [], [1; 2]%nat).
Proof. vm_compute. reflexivity. Qed.

Lemma GetBGPId_local path :
  path_NeighborConf path = None ->
  getTypeFromPathAttrs (path_PathAttrs path) BGPPathAttrTypeOriginatorId = None ->
  GetBGPId path = Panic.
Proof. intros H1 H2. unfold GetBGPId. by rewrite H2, H1. Qed.

Lemma step_many F ps pruned : 1 < len ps -> step F ps pruned = F ps pruned.
Proof. intros H. unfold step. by rewrite (proj2 (Z.ltb_lt _ _) H). Qed.

(** Local paths have no neighbor to take a BGP identifier from: when two of them,
    without an ORIGINATOR_ID, tie on preference, path length and origin, the process
    panics. *)
Theorem local_paths_panic path env fam ps loc count :
  Forall (fun p => path_NeighborConf (path p) = None /\
    getTypeFromPathAttrs (path_PathAttrs (path p)) BGPPathAttrTypeOriginatorId = None) ps ->
  Forall (fun p => 0 <= GetPreference (path p) /\
    (exists n, path_GetNumASes (path p) = Ok n /\ n <= 4096) /\
    (exists o, path_GetOrigin (path p) = Ok o /\ o <= BGPPathAttrOriginMax)) ps ->
  leads (origin_key path) (shortest path ps) -> 1 < len (tied path ps) ->
  calculateBestPath env path fam ps loc false false count = Panic.
Proof.
  intros Hloc Hok Horig Hlen. unfold calculateBestPath.
  assert (forall qs, qs ⊆ ps -> Forall (fun p => - GetPreference (path p) <= - 0) qs /\
    key_ok (fun p => path_GetNumASes (path p)) qs 4096 /\
    key_ok (fun p => path_GetOrigin (path p)) qs BGPPathAttrOriginMax) as Hkeys.
  { intros qs Hq. rewrite Forall_forall in Hok.
    split_and!; try apply key_ok_exists; apply Forall_forall; intros p Hp;
      destruct (Hok p (Hq p Hp)) as (? & ? & ?); done || lia. }
  assert (pruned_in loc ps [(ByRouteSrc, loc)]) as Hp0 by (apply Forall_singleton; by right).
  destruct (Hkeys ps (reflexivity _)) as (Hk1 & _).
  destruct (keep_step_selects ByPref (fun p => Ok (GetPreference (path p))) (fun a b => b <? a) Z.opp
    (fun p => GetPreference (path p)) 0 ps ltac:(intros a b; cbv beta; lia) ltac:(by apply Forall_true) Hk1 loc ps _
    (reflexivity _) Hp0) as (pr1 & E1 & Hp1).
  unfold getRoutesWithHighestPref. rewrite E1. res_simpl.
  change (argmin (fun p => - GetPreference (path p)) ps) with (argmin (pref_key path) ps).
  assert (argmin (pref_key path) ps ⊆ ps) as H1 by apply select_subseteq.
  destruct (Hkeys _ H1) as (_ & [K1 K2] & _).
  destruct (keep_step_selects BySmallestAS (fun p => path_GetNumASes (path p)) Z.ltb (fun x => x)
    (ases_key path) 4096 _ ltac:(done) K1 K2 loc ps _ H1 Hp1) as (pr2 & E2 & Hp2).
  unfold getRoutesWithSmallestAS. rewrite E2. res_simpl.
  change (argmin (fun p => ases_key path p) _) with (shortest path ps).
  assert (shortest path ps ⊆ ps) as H2 by (unfold shortest; etrans; [apply select_subseteq|done]).
  destruct (Hkeys _ H2) as (_ & _ & [K3 K4]).
  destruct (keep_step_leads ByLowestOrigin (fun p => path_GetOrigin (path p)) (fun idx => idx + 1)
    (origin_key path) BGPPathAttrOriginMax _ ltac:(done) K3 K4 Horig loc ps _ H2 Hp2) as (pr3 & E3 & _).
  unfold getRoutesWithLowestOrigin. rewrite E3. res_simpl.
  change (argmin (origin_key path) (shortest path ps)) with (tied path ps).
  assert (tied path ps ⊆ ps) as H3 by (etrans; [apply select_subseteq|done]).
  rewrite andb_false_r. res_simpl.
  set (qs := tied path ps) in *.
  rewrite (step_many (removeIBGPRoutesIfEBGPExist path) qs pr3 Hlen).
  unfold removeIBGPRoutesIfEBGPExist. rewrite Forall_forall in Hloc.
  assert (existsb (isEBGPRoute path) qs = false) as ->.
  { apply not_true_iff_false. intros (x & Hx%list_elem_of_In & Ex)%existsb_exists.
    unfold isEBGPRoute in Ex. destruct (Hloc x (H3 x Hx)) as [Hn _]. by rewrite Hn in Ex. }
  res_simpl. unfold second_ecmp. cbn [eqb negb]. rewrite andb_false_r. res_simpl.
  rewrite (step_many _ qs pr3 Hlen). clearbody qs. destruct qs as [|q qs]; [done|].
  destruct (Hloc q (H3 q (list_elem_of_here _ _))) as [Hn Ho].
  unfold getRoutesWithLowestBGPId, keep_step. cbn [length keep_loop].
  change (index (q :: qs) 0) with (Ok q). res_simpl. by rewrite (GetBGPId_local _ Hn Ho).
Qed.

(** Two redistributed routes. *)
Definition local_paths (p : ptr) : Path :=
  match NewPath None [NewBGPPathAttrOrigin 2; PANextHop (mkBase 64 BGPPathAttrTypeNextHop 4 7) [10; 0; 0; 1]]
          None RouteTypeConnected with
  | Ok path => path
  | _ => mkPath None [] 0 ∅ 0 0 0 ∅
  end.

Lemma local_paths_panic_witness :
  calculateBestPath example_env local_paths 257 [0; 1]%nat [] false false 0 = Panic.
Proof.
  apply (local_paths_panic local_paths example_env 257 [0; 1]%nat [] 0).
  - repeat constructor.
  - assert (forall p : nat, 0 <= GetPreference (local_paths p) /\
      (exists n, path_GetNumASes (local_paths p) = Ok n /\ n <= 4096) /\
      (exists o, path_GetOrigin (local_paths p) = Ok o /\ o <= BGPPathAttrOriginMax)) as H.
    { intros p. split_and!; [by vm_compute|by exists 0|by exists 2]. }
    by apply Forall_true.
  - apply leads_compute. by vm_compute.
  - by vm_compute.
Defined.
