(* ===== verification/BgpDest.v ===== *)
(** * Destinations

    A prefix of the local RIB: Destination of src/bgp/rib/destination.go with the
    Route objects of route.go and the list of paths the management interface shows
    (ipv4Route.go; ipv6Route.go is the same). Paths and routes are compared by
    pointer in the code: a path is an address that [path] gives the object of, a
    route is an address in the heap [routes] of the destination it belongs to. A
    Route and its PathInfo are allocated together and point to each other, so the
    address of the route stands for the PathInfo too. *)

From S2P Require Import Prelude.
From S2P Require Import BgpOpen.
From S2P Require Import BgpNlri.
From S2P Require Import BgpAttr.
From S2P Require Import BgpHelpers.
From S2P Require Import BgpNeighbor.
From S2P Require Import BgpPath.
From S2P Require Import BgpDecision.

(** ** Routes *)

Inductive RouteAction := RouteActionNone | RouteActionAdd | RouteActionReplace | RouteActionDelete.

#[export] Instance RouteAction_eq_dec : EqDecision RouteAction.
Proof. solve_decision. Defined.

(** The fields of bgpd.PathInfo that are not strings made for display. *)
Record PathInfo := mkPathInfo {
  pi_NextHop : bytes;
  pi_Metric : Z;
  pi_LocalPref : Z;
  pi_Path : list string;
  pi_PathId : Z;
  ValidPath : bool;
  BestPath : bool;
  MultiPath : bool;
  AdditionalPath : bool;
  pi_Origin : Z;
}.

Record Route := mkRoute {
  route_PathInfo : PathInfo;
  route_path : ptr;
  routeListIdx : Z;
  action : RouteAction;
  OutPathId : Z;
}.

Definition PathInfo_eta (i : PathInfo) : PathInfo :=
  mkPathInfo (pi_NextHop i) (pi_Metric i) (pi_LocalPref i) (pi_Path i) (pi_PathId i) (ValidPath i)
    (BestPath i) (MultiPath i) (AdditionalPath i) (pi_Origin i).
Definition Route_eta (r : Route) : Route :=
  mkRoute (route_PathInfo r) (route_path r) (routeListIdx r) (action r) (OutPathId r).

Definition set_BestPath (v : bool) (i : PathInfo) : PathInfo := ltac:(update PathInfo_eta i BestPath v).
Definition set_MultiPath (v : bool) (i : PathInfo) : PathInfo := ltac:(update PathInfo_eta i MultiPath v).
Definition set_AdditionalPath (v : bool) (i : PathInfo) : PathInfo :=
  ltac:(update PathInfo_eta i AdditionalPath v).

Definition setAction (v : RouteAction) (r : Route) : Route := ltac:(update Route_eta r action v).
Definition setIdx (v : Z) (r : Route) : Route := ltac:(update Route_eta r routeListIdx v).
Definition on_PathInfo (f : PathInfo -> PathInfo) (r : Route) : Route :=
  let v := f (route_PathInfo r) in ltac:(update Route_eta r route_PathInfo v).

Definition SetBestPath : Route -> Route := on_PathInfo (set_BestPath true).
Definition ResetBestPath : Route -> Route := on_PathInfo (set_BestPath false).
Definition SetMultiPath : Route -> Route := on_PathInfo (set_MultiPath true).
Definition ResetMultiPath : Route -> Route := on_PathInfo (set_MultiPath false).
Definition SetAdditionalPath : Route -> Route := on_PathInfo (set_AdditionalPath true).
Definition ResetAdditionalPath : Route -> Route := on_PathInfo (set_AdditionalPath false).

(** The heap address of the path is [p]. *)
Definition NewRoute (protoFamily : Z) (path : Path) (p : ptr) (act : RouteAction)
  (inPathId outPathId : Z) : res Route :=
  asList ← GetAS4ByteList path;
  origin ← path_GetOrigin path;
  Ok (mkRoute
        (mkPathInfo (path_GetNextHop path protoFamily) (i32 (path_MED path)) (i32 (path_LocalPref path))
           asList (i32 inPathId) (IsReachable path protoFamily) false false false origin)
        p (-1) act outPathId).

(** ** Destinations *)

(** [statePaths] is the list of paths of BGPRouteState. *)
Record Destination := mkDestination {
  dest_NLRI : NLRI;
  protoFamily : Z;
  peerPathMap : gmap string (gmap Z ptr);
  LocRibPath : option ptr;
  LocRibPathRoute : option ptr;
  aggPath : option ptr;
  aggregatedDestMap : gmap string nat;
  dest_ecmpPaths : gmap ptr ptr;
  pathRouteMap : gmap ptr ptr;
  AddPaths : list ptr;
  maxPathId : Z;
  pathIds : list Z;
  recalculate : bool;
  statePaths : list ptr;
  PathInfoRouteMap : gmap ptr ptr;
  dest_routeListIdx : Z;
  routes : gmap ptr Route;
}.

Definition Destination_eta (d : Destination) : Destination :=
  mkDestination (dest_NLRI d) (protoFamily d) (peerPathMap d) (LocRibPath d) (LocRibPathRoute d)
    (aggPath d) (aggregatedDestMap d) (dest_ecmpPaths d) (pathRouteMap d) (AddPaths d) (maxPathId d)
    (pathIds d) (recalculate d) (statePaths d) (PathInfoRouteMap d) (dest_routeListIdx d) (routes d).

Definition set_peerPathMap v d := ltac:(update Destination_eta d peerPathMap v).
Definition set_LocRibPath v d := ltac:(update Destination_eta d LocRibPath v).
Definition set_LocRibPathRoute v d := ltac:(update Destination_eta d LocRibPathRoute v).
Definition setAggPath v d := ltac:(update Destination_eta d aggPath v).
Definition set_aggregatedDestMap v d := ltac:(update Destination_eta d aggregatedDestMap v).
Definition set_ecmpPaths v d := ltac:(update Destination_eta d dest_ecmpPaths v).
Definition set_pathRouteMap v d := ltac:(update Destination_eta d pathRouteMap v).
Definition set_AddPaths v d := ltac:(update Destination_eta d AddPaths v).
Definition set_maxPathId v d := ltac:(update Destination_eta d maxPathId v).
Definition set_pathIds v d := ltac:(update Destination_eta d pathIds v).
Definition set_recalculate v d := ltac:(update Destination_eta d recalculate v).
Definition set_statePaths v d := ltac:(update Destination_eta d statePaths v).
Definition set_PathInfoRouteMap v d := ltac:(update Destination_eta d PathInfoRouteMap v).
Definition set_dest_routeListIdx v d := ltac:(update Destination_eta d dest_routeListIdx v).
Definition set_routes v d := ltac:(update Destination_eta d routes v).

Definition NewDestination (nlri : NLRI) (family : Z) : Destination :=
  mkDestination nlri family ∅ None None None ∅ ∅ ∅ [] 1 [] false [] ∅ (-1) ∅.

(** [range] is the order in which the pairs of a map are visited. *)
Record DestEnv := mkDestEnv {
  rib_env : RibEnv;
  range : forall A : Type, list A -> list A;
}.
Arguments range _ {A}.

(** The fields of config.GlobalConfig that the RIB reads. *)
Record RibConfig := mkRibConfig {
  UseMultiplePaths : bool;
  EBGPMaxPaths : Z;
  IBGPMaxPaths : Z;
}.

(** ** The list of paths that is shown *)

Definition GetLastPath (d : Destination) : res ptr :=
  index (statePaths d) (len (statePaths d) - 1).

Definition AppendPath (r : ptr) (d : Destination) : Destination :=
  set_statePaths (statePaths d ++ [r]) d.

Definition SetPath (r : ptr) (idx : Z) (d : Destination) : res Destination :=
  l ← set_index (statePaths d) idx r;
  Ok (set_statePaths l d).

Definition RemovePathAndSetLast (idx : Z) (d : Destination) : res Destination :=
  if idx <? len (statePaths d) then
    last ← GetLastPath d;
    l ← set_index (statePaths d) idx last;
    l ← slice l 0 (len l - 1);
    Ok (set_statePaths l d)
  else Ok d.

(** ** Path identifiers *)

Definition getNextPathId (d : Destination) : Z * Destination :=
  match last (pathIds d) with
  | Some pathId => (pathId, set_pathIds (take (length (pathIds d) - 1) (pathIds d)) d)
  | None => (maxPathId d, set_maxPathId (u32 (maxPathId d + 1)) d)
  end.

Definition releasePathId (pathId : Z) (d : Destination) : Destination :=
  if u32 (pathId + 1) =? maxPathId d then set_maxPathId (u32 (maxPathId d - 1)) d
  else set_pathIds (pathIds d ++ [pathId]) d.

(** ** Queries *)

Definition on_route (f : Route -> Route) (r : ptr) (d : Destination) : Destination :=
  set_routes (alter f r (routes d)) d.

(** A call on the route of a path, if the path has one. *)
Definition on_path_route (f : Route -> Route) (p : ptr) (d : Destination) : Destination :=
  match pathRouteMap d !! p with
  | Some r => on_route f r d
  | None => d
  end.

Definition route_at (d : Destination) (r : ptr) : res Route := of_option (routes d !! r).

Definition GetPathRoute (p : ptr) (d : Destination) : option ptr := pathRouteMap d !! p.

Definition IsEmpty (d : Destination) : bool := bool_decide (peerPathMap d = ∅).

(** Lookup in the nested map; the map of a peer that is not there is empty. *)
Definition peer_paths (peerIP : string) (d : Destination) : gmap Z ptr :=
  match peerPathMap d !! peerIP with Some m => m | None => ∅ end.

Definition getPathForIP (peerIP : string) (pathId : Z) (d : Destination) : option ptr :=
  peer_paths peerIP d !! pathId.

Section Operations.
Context (env : DestEnv) (gConf : RibConfig) (path : ptr -> Path).

(** The pairs of the nested map, in the order they are visited. *)
Definition all_paths (d : Destination) : list (string * (Z * ptr)) :=
  mjoin (map (fun e : string * gmap Z ptr => map (fun x => (e.1, x)) (range env (map_to_list e.2)))
           (range env (map_to_list (peerPathMap d)))).

Definition getPathIdForPath (p : ptr) (d : Destination) : option Z :=
  match List.find (fun e : string * (Z * ptr) => bool_decide (e.2.2 = p)) (all_paths d) with
  | Some (_, (pathId, _)) => Some pathId
  | None => None
  end.

Definition source (p : ptr) : Z := getRouteSource (path_routeType (path p)).

(** [d.LocRibPath == nil || source of d.LocRibPath >= source of path] *)
Definition may_replace (p : ptr) (d : Destination) : bool :=
  match LocRibPath d with
  | None => true
  | Some best => source p <=? source best
  end.

(** ** Changes of the paths *)

Definition updateAddPaths (addPaths : list ptr) (d : Destination) : bool * Destination :=
  if bool_decide (AddPaths d = addPaths) then (false, d)
  else
    let d := foldl (fun d p => on_path_route ResetAdditionalPath p d) d (AddPaths d) in
    let d := set_AddPaths addPaths d in
    (true, foldl (fun d p => on_path_route SetAdditionalPath p d) d addPaths).

(** The part of [AddOrUpdatePath] that makes the route of the path and puts it at
    [idx] in the list that is shown, or at its end. *)
Definition add_route (peerIp : string) (pathId : Z) (p : ptr) (idx : Z) (d : Destination)
  : res Destination :=
  let '(outPathId, d) := getNextPathId d in
  route ← NewRoute (protoFamily d) (path p) p RouteActionNone pathId outPathId;
  let r := fresh (dom (routes d)) in
  let d := set_routes (<[r := route]> (routes d)) d in
  let d := set_pathRouteMap (<[p := r]> (pathRouteMap d)) d in
  '(idx, d) ← (if negb (idx =? -1) then d ← SetPath r idx d; Ok (idx, d)
               else Ok (len (statePaths d), AppendPath r d));
  let d := set_PathInfoRouteMap (<[r := r]> (PathInfoRouteMap d)) d in
  let d := on_route (setIdx idx) r d in
  Ok (set_peerPathMap (<[peerIp := <[pathId := p]> (peer_paths peerIp d)]> (peerPathMap d)) d).

Definition AddOrUpdatePath (peerIp : string) (pathId : Z) (p : ptr) (d : Destination)
  : res (bool * Destination) :=
  match getPathForIP peerIp pathId d with
  | Some oldPath =>
    if bool_decide (oldPath = p) then Ok (false, d)
    else
      '(idx, d) ← match pathRouteMap d !! oldPath with
                  | Some r =>
                    route ← route_at d r;
                    Ok (routeListIdx route, set_PathInfoRouteMap (delete r (PathInfoRouteMap d)) d)
                  | None => Ok (-1, d)
                  end;
      let d := if bool_decide (LocRibPath d = Some oldPath) then set_LocRibPath None d else d in
      let d := if may_replace p d then set_recalculate true d else d in
      d ← add_route peerIp pathId p idx d;
      Ok (false, d)
  | None =>
    let d := if may_replace p d then set_recalculate true d else d in
    d ← add_route peerIp pathId p (-1) d;
    Ok (true, d)
  end.

(** The part of [RemovePath] that gives up the route of a path: its identifier, its
    place in the list that is shown. *)
Definition drop_route (oldPath : ptr) (d : Destination) : res Destination :=
  r ← of_option (pathRouteMap d !! oldPath);
  route ← route_at d r;
  let d := releasePathId (OutPathId route) d in
  let d := set_pathRouteMap (delete oldPath (pathRouteMap d)) d in
  if negb (routeListIdx route =? -1) then
    newPath ← GetLastPath d;
    match PathInfoRouteMap d !! newPath with
    | Some newRoute =>
      let d := set_PathInfoRouteMap (delete r (PathInfoRouteMap d)) d in
      d ← RemovePathAndSetLast (routeListIdx route) d;
      Ok (on_route (setIdx (routeListIdx route)) newRoute d)
    | None => Ok d
    end
  else Ok d.

(** [delete(d.peerPathMap[peerIP], pathId)], and the map of the peer if it is empty. *)
Definition delete_path (peerIP : string) (pathId : Z) (d : Destination) : Destination :=
  let m := delete pathId (peer_paths peerIP d) in
  set_peerPathMap (if bool_decide (m = ∅) then delete peerIP (peerPathMap d)
                   else <[peerIP := m]> (peerPathMap d)) d.

(** Returns the path that was removed. *)
Definition RemovePath (peerIP : string) (pathId : Z) (d : Destination)
  : res (option ptr * Destination) :=
  match getPathForIP peerIP pathId d with
  | None => Ok (None, d)
  | Some oldPath =>
    let d := if bool_decide (is_Some (dest_ecmpPaths d !! oldPath)) then set_recalculate true d else d in
    let d := if bool_decide (LocRibPath d = Some oldPath) then set_LocRibPath None (set_recalculate true d)
             else d in
    d ← drop_route oldPath d;
    Ok (Some oldPath, delete_path peerIP pathId d)
  end.

Fixpoint remove_paths (peerIP : string) (ids : list Z) (d : Destination) : res Destination :=
  match ids with
  | [] => Ok d
  | pathId :: ids => '(_, d) ← RemovePath peerIP pathId d; remove_paths peerIP ids d
  end.

Definition RemoveAllPaths (peerIP : string) (d : Destination) : res Destination :=
  remove_paths peerIP (range env (map fst (map_to_list (peer_paths peerIP d)))) d.

(** The routes of these paths stay where they are. *)
Definition RemoveAllNeighborPaths (d : Destination) : Destination :=
  let d := foldl (fun d e => match path_NeighborConf (path e.2.2) with
                             | Some _ => delete_path e.1 e.2.1 d
                             | None => d
                             end) d (all_paths d) in
  match LocRibPath d with
  | Some best =>
    match path_NeighborConf (path best) with
    | Some _ => set_LocRibPath None (set_recalculate true d)
    | None => d
    end
  | None => d
  end.

Definition setUpdateAggPath (peerIP : string) (pathId : Z) (d : Destination) : Destination :=
  let d := match getPathForIP peerIP pathId d with
           | Some p =>
             if bool_decide (LocRibPath d = Some p) || may_replace p d then set_recalculate true d else d
           | None => d
           end in
  match LocRibPath d with
  | None => set_recalculate true d
  | Some _ => d
  end.

Definition addAggregatedDests (peerIP : string) (dest : nat) (d : Destination) : Destination :=
  set_aggregatedDestMap (<[peerIP := dest]> (aggregatedDestMap d)) d.
Definition removeAggregatedDests (peerIP : string) (d : Destination) : Destination :=
  set_aggregatedDestMap (delete peerIP (aggregatedDestMap d)) d.

(** ** Installation of routes *)

(** The loop writes into [ip] up to [bytes], and the rest of the bits into the next
    octet. *)
Definition constructNetmaskFromLen (ones bits : Z) : res bytes :=
  let ip := zeros (bits / 8) in
  let bytes := ones / 8 in
  if (bits / 8 <? 0) || (len ip <? bytes) then Panic
  else
    let ip := repeat 255 (Z.to_nat bytes) ++ drop (Z.to_nat bytes) ip in
    let rem := ones mod 8 in
    if negb (rem =? 0) then set_index ip bytes (u8 (Z.shiftl 255 (8 - rem))) else Ok ip.

(** config.RouteConfig; addresses are kept as octets. *)
Record RouteConfig := mkRouteConfig {
  Cost : Z;
  rc_IntfType : Z;
  Protocol : string;
  NextHopIp : string;
  NetworkMask : bytes;
  DestinationNw : bytes;
  OutgoingInterface : Z;
  IsIPv6 : bool;
  NullRoute : bool;
}.

Definition ConstructRouteConfig (d : Destination) (p : Path) (reachInfo : ReachabilityInfo)
  (ipLength : Z) : res RouteConfig :=
  let protocol := if path_IsExternal (path_NeighborConf p) then "EBGP"%string else "IBGP"%string in
  mask ← constructNetmaskFromLen (pfx_Length (NLRI_IPPrefix (dest_NLRI d))) (ipLength * 8);
  Ok (mkRouteConfig (i32 (ri_Metric reachInfo)) (i32 (ri_NextHopIfType reachInfo)) protocol
        (ri_NextHop reachInfo) mask (Prefix (NLRI_IPPrefix (dest_NLRI d))) (ri_NextHopIfIdx reachInfo)
        (ipLength =? 16) (IsAggregate p)).

(** The calls made on the route manager. *)
Inductive RouteCmd :=
| CreateRoute (cfg : RouteConfig)
| UpdateRoute (cfg : RouteConfig) (op : string).

(** [removeAndPrepend]: the position of the item in the list of lists. *)
Fixpoint find_item (item : ptr) (paths : list ptr) : option nat :=
  match paths with
  | [] => None
  | p :: paths => if bool_decide (p = item) then Some O else S <$> find_item item paths
  end.

Fixpoint find_list (item : ptr) (lists : list (list ptr)) : option (nat * list ptr * nat) :=
  match lists with
  | [] => None
  | paths :: lists =>
    match find_item item paths with
    | Some i => Some (O, paths, i)
    | None => match find_list item lists with Some (k, paths, i) => Some (S k, paths, i) | None => None end
    end
  end.

(** The list of the item, with the item moved to its front, takes the first place,
    and the lists before its own move up by one. When the item is in none, the index
    left over from the search is that of the last list. *)
Definition removeAndPrepend (pathsList : list (list ptr)) (item : ptr) : list (list ptr) :=
  let '(idx, paths, lists) :=
    match find_list item pathsList with
    | Some (idx, paths, i) => (idx, item :: take i paths ++ drop (S i) paths, pathsList)
    | None => ((length pathsList - 1)%nat, [item], pathsList ++ [[item]])
    end in
  paths :: take idx lists ++ drop (S idx) lists.

(** The candidates: those of the best source are updated, the others removed. *)
Definition consider (d : Destination) (acc : list ptr * list ptr * Z) (p : ptr)
  : res (list ptr * list ptr * Z) :=
  let '(updatedPaths, removedPaths, routeSrc) := acc in
  if bool_decide (LocRibPath d = Some p) then Ok acc
  else if negb (IsReachable (path p) (protoFamily d)) then Ok acc
  else
    loop ← path_HasASLoop (path p);
    if (loop : bool) then Ok acc
    else
      let currPathSource := source p in
      if routeSrc <? currPathSource then Ok (updatedPaths, removedPaths ++ [p], routeSrc)
      else if currPathSource <? routeSrc then
        Ok ([p], removedPaths ++ updatedPaths, currPathSource)
      else Ok (updatedPaths ++ [p], removedPaths, routeSrc).

Fixpoint consider_all (d : Destination) (acc : list ptr * list ptr * Z) (ps : list ptr)
  : res (list ptr * list ptr * Z) :=
  match ps with
  | [] => Ok acc
  | p :: ps => acc ← consider d acc p; consider_all d acc ps
  end.

Definition collect (d : Destination) : res (list ptr * list ptr * Z) :=
  let acc := match LocRibPath d with
             | Some best => ([best], [], source best)
             | None => ([], [], RouteSrcUnknown)
             end in
  consider_all d acc (map (fun e => e.2.2) (all_paths d)).

(** What one pass over the groups has done. *)
Record Installed := mkInstalled {
  ins_dest : Destination;
  locRibAction : RouteAction;
  firstRoute : bool;
  addedRoutes : list ptr;
  updatedRoutes : list ptr;
  createRibRoutes : list ptr;
}.

(** The first path of the group that is installed; of the first group only the best
    path itself is looked at. *)
Definition find_installed (d : Destination) (idx : Z) (paths : list ptr) : option (ptr * ptr) :=
  let paths := if idx =? 0 then take 1 paths else paths in
  match List.find (fun p => bool_decide (is_Some (dest_ecmpPaths d !! p))) paths with
  | Some p => (fun r => (p, r)) <$> dest_ecmpPaths d !! p
  | None => None
  end.

Definition is_fib_path (p : ptr) : bool := negb (IsLocal (path p)) || IsAggregate (path p).

Definition install_group (ipLength idx : Z) (paths : list ptr) (s : Installed) : res Installed :=
  let '(mkInstalled d act first added updated create) := s in
  match find_installed d idx paths with
  | Some (p, route) =>
    let act := if (idx =? 0) && IsAggregate (path p) then RouteActionReplace else act in
    let d := on_route (setAction RouteActionReplace) route d in
    let d := if negb (idx =? 0) then on_route ResetBestPath route d else d in
    Ok (mkInstalled d act false added (updated ++ [route]) create)
  | None =>
    p ← index paths 0;
    match pathRouteMap d !! p with
    | None => Ok s
    | Some newRoute =>
      let d := on_route SetMultiPath newRoute (on_route (setAction RouteActionAdd) newRoute d) in
      create ← (if is_fib_path p then
                  _ ← constructNetmaskFromLen (pfx_Length (NLRI_IPPrefix (dest_NLRI d))) (ipLength * 8);
                  _ ← of_option (GetReachability (path p) (protoFamily d));
                  Ok (create ++ [p])
                else Ok create);
      let '(act, d) := if idx =? 0 then (RouteActionAdd, on_route SetBestPath newRoute d) else (act, d) in
      Ok (mkInstalled (set_ecmpPaths (<[p := newRoute]> (dest_ecmpPaths d)) d) act first
            (added ++ [newRoute]) updated create)
    end
  end.

Fixpoint install_groups (ipLength idx : Z) (groups : list (list ptr)) (s : Installed) : res Installed :=
  match groups with
  | [] => Ok s
  | paths :: groups =>
    s ← install_group ipLength idx paths s; install_groups ipLength (idx + 1) groups s
  end.

(** The configuration of the route of a path, as the route manager is given it. *)
Definition path_config (d : Destination) (p : ptr) (ipLength : Z) : res RouteConfig :=
  reachInfo ← of_option (GetReachability (path p) (protoFamily d));
  ConstructRouteConfig d (path p) reachInfo ipLength.

(** The pass over the installed paths: those no group asked for are removed. *)
Fixpoint sweep (ipLength : Z) (l : list (ptr * ptr)) (d : Destination) (deleted : list ptr)
  (cmds : list RouteCmd) : res (Destination * list ptr * list RouteCmd) :=
  match l with
  | [] => Ok (d, deleted, cmds)
  | (p, r) :: l =>
    route ← route_at d r;
    if bool_decide (action route = RouteActionNone) || bool_decide (action route = RouteActionDelete) then
      cmds ← (if is_fib_path p then
                cfg ← path_config d p ipLength; Ok (cmds ++ [UpdateRoute cfg "remove"%string])
              else Ok cmds);
      let d := on_route ResetMultiPath r (on_route ResetBestPath r d) in
      sweep ipLength l (set_ecmpPaths (delete p (dest_ecmpPaths d)) d) (deleted ++ [r]) cmds
    else sweep ipLength l (on_route (setAction RouteActionNone) r d) deleted cmds
  end.

Fixpoint create_routes (ipLength : Z) (d : Destination) (first : bool) (ps : list ptr)
  (cmds : list RouteCmd) : res (list RouteCmd) :=
  match ps with
  | [] => Ok cmds
  | p :: ps =>
    cfg ← path_config d p ipLength;
    create_routes ipLength d false ps
      (cmds ++ [if first then CreateRoute cfg else UpdateRoute cfg "add"%string])
  end.

(** What [SelectRouteForLocRib] returns, with the calls on the route manager. *)
Record Selection := mkSelection {
  sel_action : RouteAction;
  sel_addPathsUpdated : bool;
  sel_added : list ptr;
  sel_updated : list ptr;
  sel_deleted : list ptr;
  sel_cmds : list RouteCmd;
}.

Definition best_and_groups (updatedPaths removedPaths : list ptr) (addPathCount : Z) (d : Destination)
  : res (list ptr * list (list ptr) * list ptr) :=
  if (1 <? len updatedPaths) || (0 <? addPathCount) then
    if UseMultiplePaths gConf then
      calculateBestPath (rib_env env) path (protoFamily d) updatedPaths removedPaths
        (1 <? EBGPMaxPaths gConf) (1 <? IBGPMaxPaths gConf) addPathCount
    else calculateBestPath (rib_env env) path (protoFamily d) updatedPaths removedPaths false false addPathCount
  else Ok (updatedPaths, [], []).

(** The branch with candidates: the groups are installed, the best path becomes the
    LocRib path. *)
Definition select_best (ipLength addPathCount : Z) (updatedPaths removedPaths : list ptr)
  (d : Destination) : res (bool * Installed) :=
  '(ps, ecmpPaths, addPaths) ← best_and_groups updatedPaths removedPaths addPathCount d;
  let '(addPathsUpdated, d) := updateAddPaths addPaths d in
  best ← index ps 0;
  let groups := removeAndPrepend ecmpPaths best in
  s ← install_groups ipLength 0 groups (mkInstalled d RouteActionNone true [] [] []);
  first ← index groups 0;
  loc ← index first 0;
  let d := set_LocRibPath (Some loc) (ins_dest s) in
  let d := set_LocRibPathRoute (dest_ecmpPaths d !! loc) d in
  Ok (addPathsUpdated, mkInstalled d (locRibAction s) (firstRoute s) (addedRoutes s) (updatedRoutes s)
                         (createRibRoutes s)).

Definition mark_deleted (d : Destination) : Destination :=
  set_LocRibPath None
    (foldl (fun d r => on_route (setAction RouteActionDelete) r d) d
       (map snd (range env (map_to_list (dest_ecmpPaths d))))).

Definition SelectRouteForLocRib (addPathCount : Z) (d : Destination) : res (Selection * Destination) :=
  let ipLength := GetAddressLengthForFamily (protoFamily d) in
  if negb (recalculate d) then Ok (mkSelection RouteActionNone false [] [] [] [], d)
  else
    let d := set_recalculate false d in
    '(updatedPaths, removedPaths, _) ← collect d;
    '(addPathsUpdated, s) ←
      (if 0 <? len updatedPaths then select_best ipLength addPathCount updatedPaths removedPaths d
       else Ok (false, mkInstalled (mark_deleted d) RouteActionDelete true [] [] []));
    '(d, deleted, cmds) ←
      sweep ipLength (range env (map_to_list (dest_ecmpPaths (ins_dest s)))) (ins_dest s) [] [];
    cmds ← create_routes ipLength d (firstRoute s) (createRibRoutes s) cmds;
    Ok (mkSelection (locRibAction s) addPathsUpdated (addedRoutes s) (updatedRoutes s) deleted cmds, d).
End Operations.
