(* ===== verification/BgpDestSpec.v ===== *)
(** * Destinations: invariants and what a selection installs

    The bookkeeping of BgpDest keeps its maps consistent whatever the peers announce
    and withdraw, and a selection leaves installed what it selected; where the
    bookkeeping fails. *)

From stdpp Require Import sorting.
From S2P Require Import Prelude.
From S2P Require Import BgpOpen.
From S2P Require Import BgpNlri.
From S2P Require Import BgpAttr.
From S2P Require Import BgpHelpers.
From S2P Require Import BgpNeighbor.
From S2P Require Import BgpPath.
From S2P Require Import BgpDecision.
From S2P Require Import BgpDecisionSpec.
From S2P Require Import BgpDest.

(** ** The invariant *)

Definition stored (d : Destination) (ip : string) (id : Z) (p : ptr) : Prop :=
  getPathForIP ip id d = Some p.

(** The route of a path, and the object it points to. *)
Definition live (d : Destination) (p r : ptr) (rt : Route) : Prop :=
  pathRouteMap d !! p = Some r /\ routes d !! r = Some rt.

(** The invariant for the paths stored under the keys [K] and the positions [P] of the
    list that is shown; all keys and all positions between two operations. *)
Record dest_inv_at (K : string -> Z -> Prop) (P : nat -> Prop) (d : Destination) : Prop := mkDestInv {
  inv_route ip id p : K ip id -> stored d ip id p ->
    exists r rt i, live d p r rt /\ routeListIdx rt = Z.of_nat i /\ P i /\ statePaths d !! i = Some r;
  inv_inj ip id ip' id' p : K ip id -> K ip' id' -> stored d ip id p -> stored d ip' id' p ->
    ip = ip' /\ id = id';
  inv_back p r : pathRouteMap d !! p = Some r -> exists rt, routes d !! r = Some rt /\ route_path rt = p;
  inv_state i r : P i -> statePaths d !! i = Some r ->
    PathInfoRouteMap d !! r = Some r /\ exists rt, routes d !! r = Some rt /\ routeListIdx rt = Z.of_nat i;
  inv_max : 1 <= maxPathId d < 4294967296;
  inv_free : NoDup (pathIds d);
  inv_free_range k : k ∈ pathIds d -> 1 <= k < maxPathId d;
  inv_out ip id p r rt : K ip id -> stored d ip id p -> live d p r rt ->
    1 <= OutPathId rt < maxPathId d /\ ~ OutPathId rt ∈ pathIds d;
  inv_out_inj ip id p r rt ip' id' p' r' rt' : K ip id -> K ip' id' ->
    stored d ip id p -> live d p r rt -> stored d ip' id' p' -> live d p' r' rt' ->
    OutPathId rt = OutPathId rt' -> p = p';
  inv_inner ip m : peerPathMap d !! ip = Some m -> m <> ∅;
  inv_ecmp p r : dest_ecmpPaths d !! p = Some r ->
    exists rt, routes d !! r = Some rt /\ route_path rt = p /\ action rt = RouteActionNone;
  inv_loc p : LocRibPath d = Some p -> exists ip id, K ip id /\ stored d ip id p;
}.

Definition dest_inv : Destination -> Prop := dest_inv_at (fun _ _ => True) (fun _ => True).

Lemma NewDestination_inv nlri family : dest_inv (NewDestination nlri family).
Proof.
  assert (forall ip id p, ~ stored (NewDestination nlri family) ip id p) as Hno.
  { intros ip id p H. unfold stored, getPathForIP, peer_paths in H. cbn in H. by rewrite lookup_empty in H. }
  split; try done; try (by intros; exfalso; match goal with H : stored _ _ _ _ |- _ => exact (Hno _ _ _ H) end).
  - constructor.
  - intros k Hk. inversion Hk.
Qed.

(** ** The nested map *)

Lemma peer_paths_insert ip m ip' d :
  peer_paths ip' (set_peerPathMap (<[ip := m]> (peerPathMap d)) d) =
  if bool_decide (ip' = ip) then m else peer_paths ip' d.
Proof.
  unfold peer_paths. cbn. case_bool_decide as E.
  - subst. by rewrite lookup_insert_eq.
  - by rewrite lookup_insert_ne by done.
Qed.

Lemma stored_insert ip id p d ip' id' q :
  stored (set_peerPathMap (<[ip := <[id := p]> (peer_paths ip d)]> (peerPathMap d)) d) ip' id' q <->
  (ip', id') = (ip, id) /\ q = p \/ (ip', id') <> (ip, id) /\ stored d ip' id' q.
Proof.
  unfold stored, getPathForIP. rewrite peer_paths_insert. case_bool_decide as E.
  - subst. rewrite lookup_insert_Some. split.
    + intros [[-> ->]|[Hne H]]; [by left|right]. split; [congruence|done].
    + intros [[[= ->] ->]|[Hne H]]; [by left|right]. split; [congruence|done].
  - split.
    + intros H. right. split; [congruence|done].
    + intros [[[= ? ?] _]|[_ H]]; [done|done].
Qed.

Lemma delete_path_spec ip id d ip' id' :
  getPathForIP ip' id' (delete_path ip id d) =
  if bool_decide ((ip', id') = (ip, id)) then None else getPathForIP ip' id' d.
Proof.
  unfold delete_path, getPathForIP. set (m := delete id (peer_paths ip d)).
  assert (peer_paths ip' (set_peerPathMap (if bool_decide (m = ∅) then delete ip (peerPathMap d)
      else <[ip := m]> (peerPathMap d)) d) = if bool_decide (ip' = ip) then m else peer_paths ip' d) as ->.
  { case_bool_decide as E.
    - unfold peer_paths at 1. cbn. case_bool_decide as E'.
      + subst ip'. rewrite lookup_delete_eq. done.
      + rewrite lookup_delete_ne by done. done.
    - rewrite peer_paths_insert. done. }
  case_bool_decide as E; [subst ip'|].
  - unfold m. case_bool_decide as E'.
    + injection E' as ->. apply lookup_delete_eq.
    + rewrite lookup_delete_ne by congruence. done.
  - rewrite bool_decide_eq_false_2 by congruence. done.
Qed.

(** ** Path identifiers *)

Lemma getNextPathId_spec d :
  1 <= maxPathId d < 4294967295 -> NoDup (pathIds d) -> (forall k, k ∈ pathIds d -> 1 <= k < maxPathId d) ->
  exists o max free,
    getNextPathId d = (o, set_pathIds free (set_maxPathId max d)) /\
    1 <= o < max /\ maxPathId d <= max < 4294967296 /\ NoDup free /\ ~ o ∈ free /\ free ⊆ pathIds d /\
    (o ∈ pathIds d \/ o = maxPathId d).
Proof.
  intros Hm Hn Hr. unfold getNextPathId. destruct (last (pathIds d)) as [o|] eqn:E.
  - apply last_Some in E as [free E]. exists o, (maxPathId d), free.
    rewrite E in Hn, Hr |- *. apply NoDup_app in Hn as (Hf & Hno & _).
    pose proof (Hr o ltac:(set_solver)) as Ho.
    split_and!; [|lia..|done| | |].
    + rewrite length_app, Nat.add_sub, take_app_length. by destruct d.
    + intros Hin. apply (Hno o Hin). left.
    + set_solver.
    + left. set_solver.
  - apply last_None in E. exists (maxPathId d), (maxPathId d + 1), [].
    rewrite E. unfold u32. rewrite Z.mod_small by lia.
    split_and!; [|lia..|constructor|apply not_elem_of_nil|done|by right].
    destruct d; cbn in *. by subst.
Qed.

Lemma releasePathId_spec d k :
  1 <= maxPathId d < 4294967296 -> NoDup (pathIds d) -> (forall k, k ∈ pathIds d -> 1 <= k < maxPathId d) ->
  1 <= k < maxPathId d -> ~ k ∈ pathIds d ->
  exists max free,
    releasePathId k d = set_pathIds free (set_maxPathId max d) /\
    1 <= max <= maxPathId d /\ NoDup free /\ (forall k', k' ∈ free -> 1 <= k' < max) /\
    (forall k', 1 <= k' < maxPathId d -> ~ k' ∈ pathIds d -> k' <> k -> k' < max /\ ~ k' ∈ free).
Proof.
  intros Hm Hn Hr Hk Hnk. unfold releasePathId, u32. rewrite Z.mod_small by lia.
  destruct (k + 1 =? maxPathId d) eqn:E.
  - rewrite Z.mod_small by lia. exists (maxPathId d - 1), (pathIds d).
    split_and!; [by destruct d|lia|lia|done| |].
    + intros k' Hk'. specialize (Hr k' Hk'). assert (k' <> k) by (by intros ->). lia.
    + intros k' ? ? ?. split; [lia|done].
  - exists (maxPathId d), (pathIds d ++ [k]). split_and!; [by destruct d|lia|lia| | |].
    + apply NoDup_app. split_and!; [done| |apply NoDup_singleton].
      intros x Hx ->%list_elem_of_singleton. done.
    + intros k' [Hk'|Hk']%elem_of_app; [by apply Hr|]. apply list_elem_of_singleton in Hk' as ->. lia.
    + intros k' ? ? ?. split; [lia|]. rewrite elem_of_app, list_elem_of_singleton. tauto.
Qed.

(** ** Announcements *)

(** The strings and the origin that are shown can be made. *)
Definition displayable (path : Path) : Prop :=
  (exists l, GetAS4ByteList path = Ok l) /\ exists o, path_GetOrigin path = Ok o.

Lemma NewRoute_ok fam path p act inId outId :
  displayable path -> exists rt, NewRoute fam path p act inId outId = Ok rt /\
    route_path rt = p /\ routeListIdx rt = -1 /\ action rt = act /\ OutPathId rt = outId.
Proof.
  intros [[l E1] [o E2]]. unfold NewRoute. rewrite E1. res_simpl. rewrite E2. res_simpl.
  eexists. split_and!; [done|done..].
Qed.

Section Spec.
Context (env : DestEnv) (gConf : RibConfig) (path : ptr -> Path).

(** What [add_route] makes of a destination, when it writes at position [i]. *)
Definition with_route (ip : string) (id : Z) (p r : ptr) (rt : Route) (l : list ptr) (max : Z)
  (free : list Z) (d : Destination) : Destination :=
  mkDestination (dest_NLRI d) (protoFamily d) (<[ip := <[id := p]> (peer_paths ip d)]> (peerPathMap d))
    (LocRibPath d) (LocRibPathRoute d) (aggPath d) (aggregatedDestMap d) (dest_ecmpPaths d)
    (<[p := r]> (pathRouteMap d)) (AddPaths d) max free (recalculate d) l
    (<[r := r]> (PathInfoRouteMap d)) (dest_routeListIdx d) (<[r := rt]> (routes d)).

Lemma add_route_ok ip id p idx d :
  displayable (path p) -> 1 <= maxPathId d < 4294967295 -> NoDup (pathIds d) ->
  (forall k, k ∈ pathIds d -> 1 <= k < maxPathId d) ->
  idx = -1 \/ 0 <= idx < len (statePaths d) ->
  exists rt max free i l,
    add_route path ip id p idx d = Ok (with_route ip id p (fresh (dom (routes d))) rt l max free d) /\
    route_path rt = p /\ action rt = RouteActionNone /\ routeListIdx rt = Z.of_nat i /\
    (if idx =? -1 then i = length (statePaths d) /\ l = statePaths d ++ [fresh (dom (routes d))]
     else Z.of_nat i = idx /\ l = <[i := fresh (dom (routes d))]> (statePaths d)) /\
    1 <= OutPathId rt < max /\ maxPathId d <= max < 4294967296 /\ NoDup free /\ ~ OutPathId rt ∈ free /\
    free ⊆ pathIds d /\ (OutPathId rt ∈ pathIds d \/ OutPathId rt = maxPathId d).
Proof.
  intros Hp Hm Hn Hr Hidx. unfold add_route.
  destruct (getNextPathId_spec d Hm Hn Hr) as (o & max & free & -> & H1 & H2 & H3 & H4 & H5 & H6).
  destruct (NewRoute_ok (protoFamily d) (path p) p RouteActionNone id o Hp) as (rt & E & R1 & R2 & R3 & R4).
  cbn. cbn in E. rewrite E. res_simpl. cbn.
  set (r := fresh (dom (routes d))).
  destruct (idx =? -1) eqn:Ei; cbn [negb].
  - res_simpl. unfold AppendPath, on_route. cbn.
    exists (setIdx (len (statePaths d)) rt), max, free, (length (statePaths d)), (statePaths d ++ [r]).
    split_and!; try done; try lia; try (cbn; rewrite ?R4; done || lia).
    unfold with_route, set_peerPathMap, set_routes. cbn. f_equal. f_equal.
    by rewrite alter_insert_eq.
  - assert (0 <= idx < len (statePaths d)) as Hi by lia. unfold SetPath, set_index. cbn.
    rewrite (proj2 (andb_true_iff _ _)) by lia. res_simpl. unfold on_route. cbn.
    exists (setIdx idx rt), max, free, (Z.to_nat idx), (<[Z.to_nat idx := r]> (statePaths d)).
    split_and!; try done; try lia; try (cbn; rewrite ?R4; done || lia).
    unfold with_route, set_peerPathMap, set_routes. cbn. f_equal. f_equal.
    by rewrite alter_insert_eq.
Qed.

Lemma stored_with_route ip id p r rt l max free d ip' id' q :
  stored (with_route ip id p r rt l max free d) ip' id' q <->
  (ip', id') = (ip, id) /\ q = p \/ (ip', id') <> (ip, id) /\ stored d ip' id' q.
Proof. apply stored_insert. Qed.

(** The keys other than one, and the positions other than that of an index. *)
Definition other_key (ip : string) (id : Z) (ip' : string) (id' : Z) : Prop := (ip', id') <> (ip, id).
Definition other_pos (idx : Z) (i : nat) : Prop := Z.of_nat i <> idx.

Lemma with_route_inv ip id p idx d :
  displayable (path p) -> maxPathId d < 4294967295 ->
  idx = -1 \/ 0 <= idx < len (statePaths d) ->
  (forall ip' id', other_key ip id ip' id' -> ~ stored d ip' id' p) ->
  dest_inv_at (other_key ip id) (other_pos idx) d ->
  exists d', add_route path ip id p idx d = Ok d' /\ dest_inv d' /\
    (forall ip' id' q, stored d' ip' id' q <->
       (ip', id') = (ip, id) /\ q = p \/ (ip', id') <> (ip, id) /\ stored d ip' id' q) /\
    LocRibPath d' = LocRibPath d /\ recalculate d' = recalculate d /\ dest_ecmpPaths d' = dest_ecmpPaths d.
Proof.
  intros Hp Hm Hidx Hfresh I.
  destruct (add_route_ok ip id p idx d Hp) as
    (rt & max & free & i & l & E & R1 & R2 & R3 & Hl & O1 & O2 & O3 & O4 & O5 & O6);
    [destruct (inv_max _ _ _ I); lia|apply I|apply I|done|].
  rewrite E. eexists. split; [done|]. split; [|split; [apply stored_with_route|done]].
  set (r := fresh (dom (routes d))) in *.
  assert (routes d !! r = None) as Hr by (apply not_elem_of_dom, is_fresh).
  assert (forall q s rt', live d q s rt' -> s <> r) as Hne by (intros q s rt' [_ Hs] ->; congruence).
  assert (forall j s, other_pos idx j -> statePaths d !! j = Some s -> s <> r) as Hns.
  { intros j s Hj Hs ->. destruct (inv_state _ _ _ I j r Hj Hs) as (_ & ? & ? & _). congruence. }
  (* the list that is shown *)
  assert (l !! i = Some r /\ forall j s, j <> i -> l !! j = Some s <-> other_pos idx j /\ statePaths d !! j = Some s)
    as [Hli Hlj].
  { unfold other_pos. destruct (idx =? -1) eqn:Ei.
    - destruct Hl as [-> ->]. split; [by rewrite lookup_app_r, Nat.sub_diag by done|].
      intros j s Hj. rewrite lookup_app. destruct (statePaths d !! j) eqn:Ej.
      + split; [intros [= ->]; split; [lia|done]|by intros [_ ?]].
      + rewrite list_lookup_singleton. apply lookup_ge_None in Ej.
        destruct (j - _)%nat eqn:Ejl; [lia|]. split; [done|by intros [_ ?]].
    - destruct Hl as [Hi ->]. unfold len in Hidx. split; [by rewrite list_lookup_insert_eq by lia|].
      intros j s Hj. rewrite list_lookup_insert_ne by done. split; [intros ?; split; [lia|done]|by intros [_ ?]]. }
  (* routes of the new destination *)
  assert (forall q s rt', live (with_route ip id p r rt l max free d) q s rt' ->
    q = p /\ s = r /\ rt' = rt \/ q <> p /\ s <> r /\ live d q s rt') as Hlive.
  { intros q s rt' [H1 H2]. cbn in H1, H2. apply lookup_insert_Some in H1 as [[<- <-]|[Hq H1]].
    - rewrite lookup_insert_eq in H2. left. split_and!; congruence.
    - right. assert (s <> r) as Hs.
      { intros ->. destruct (inv_back _ _ _ I _ _ H1) as (? & ? & _). congruence. }
      rewrite lookup_insert_ne in H2 by done. done. }
  split; cbn.
  - intros a b q _ Hq. apply stored_with_route in Hq as [[_ ->]|[Hk Hq]].
    + exists r, rt, i. unfold live. cbn. rewrite !lookup_insert_eq. done.
    + destruct (inv_route _ _ _ I a b q Hk Hq) as (s & rt' & j & [L1 L2] & Hj & Pj & Hs).
      assert (q <> p) as Hqp by (intros ->; by eapply Hfresh).
      pose proof (Hne q s rt' (conj L1 L2)) as Hsr.
      assert (j <> i) as Hji.
      { intros ->. destruct (idx =? -1) eqn:Ei.
        - destruct Hl as [-> _]. by rewrite lookup_ge_None_2 in Hs by lia.
        - destruct Hl as [Hi _]. by apply Pj. }
      exists s, rt', j. unfold live. cbn. rewrite !lookup_insert_ne by done.
      split_and!; try done. apply Hlj; done.
  - intros a b a' b' q _ _ H1 H2. apply stored_with_route in H1, H2.
    destruct H1 as [[H1 ->]|[H1 H1']], H2 as [[H2 E2]|[H2 H2']].
    + split; congruence.
    + by destruct (Hfresh _ _ H2).
    + subst. by destruct (Hfresh _ _ H1).
    + by apply (inv_inj _ _ _ I a b a' b' q).
  - intros q s [[<- <-]|[Hq Hs]]%lookup_insert_Some.
    + exists rt. by rewrite lookup_insert_eq.
    + destruct (inv_back _ _ _ I q s Hs) as (rt' & H1 & H2). exists rt'.
      rewrite lookup_insert_ne by congruence. done.
  - intros j s _ Hs. destruct (decide (j = i)) as [->|Hj].
    + rewrite Hli in Hs. injection Hs as <-. rewrite !lookup_insert_eq. split; [done|]. by exists rt.
    + apply Hlj in Hs as [Pj Hs]; [|done]. pose proof (Hns j s Pj Hs) as Hsr.
      destruct (inv_state _ _ _ I j s Pj Hs) as (H1 & rt' & H2 & H3).
      rewrite !lookup_insert_ne by done. split; [done|]. by exists rt'.
  - destruct (inv_max _ _ _ I). lia.
  - done.
  - intros k Hk. apply O5, (inv_free_range _ _ _ I) in Hk. lia.
  - intros a b q s rt' _ Hq Hlv. apply Hlive in Hlv as [(-> & -> & ->)|(Hqp & Hsr & Hlv)]; [done|].
    apply stored_with_route in Hq as [[_ ->]|[Hk Hq]]; [done|].
    destruct (inv_out _ _ _ I a b q s rt' Hk Hq Hlv) as [H1 H2]. split; [lia|]. intros H. by apply H2, O5.
  - intros a b q s rt' a' b' q' s' rt'' _ _ Hq Hlv Hq' Hlv' Heq.
    assert (forall a b q s rt', stored (with_route ip id p r rt l max free d) a b q -> live d q s rt' -> q <> p ->
      OutPathId rt' <> OutPathId rt) as Hout.
    { clear - I O6. intros a b q s rt' Hq Hlv Hqp He.
      apply stored_with_route in Hq as [[_ ->]|[Hk Hq]]; [done|].
      destruct (inv_out _ _ _ I a b q s rt' Hk Hq Hlv) as [H1 H2]. rewrite He in H1, H2.
      destruct O6 as [|O6]; [done|]. rewrite O6 in H1. lia. }
    apply Hlive in Hlv as [(-> & -> & ->)|(Hqp & Hsr & Hlv)],
      Hlv' as [(-> & -> & ->)|(Hqp' & Hsr' & Hlv')]; [done| | |].
    + exfalso. eapply (Hout a' b' q' s' rt''); [exact Hq'|done..].
    + exfalso. eapply (Hout a b q s rt'); [exact Hq|done..].
    + apply stored_with_route in Hq as [[_ ->]|[Hk Hq]]; [done|].
      apply stored_with_route in Hq' as [[_ ->]|[Hk' Hq']]; [done|].
      by eapply (inv_out_inj _ _ _ I a b q s rt' a' b' q').
  - intros a m [[<- <-]|[Ha H]]%lookup_insert_Some; [apply insert_non_empty|by eapply inv_inner].
  - intros q s H. destruct (inv_ecmp _ _ _ I q s H) as (rt' & H').
    exists rt'. rewrite lookup_insert_ne by (destruct H'; congruence). done.
  - intros q H. destruct (inv_loc _ _ _ I q H) as (a & b & Hk & Hq). exists a, b. split; [done|].
    apply stored_with_route. by right.
Qed.

Lemma inv_set_recalculate K P b d : dest_inv_at K P d -> dest_inv_at K P (set_recalculate b d).
Proof. intros I. split; apply I. Qed.

Lemma inv_weaken K P d :
  dest_inv_at (fun _ _ => True) P d -> (forall p, LocRibPath d = Some p -> exists ip id, K ip id /\ stored d ip id p) ->
  dest_inv_at K P d.
Proof.
  intros I Hl. split; try (intros; eapply I; eauto; fail); done || apply I.
Qed.

(** The route of a stored path. *)
Lemma stored_route ip id p d :
  dest_inv d -> stored d ip id p ->
  exists r rt i, live d p r rt /\ routeListIdx rt = Z.of_nat i /\ statePaths d !! i = Some r /\
    PathInfoRouteMap d !! r = Some r.
Proof.
  intros I H. destruct (inv_route _ _ _ I ip id p Logic.I H) as (r & rt & i & L & Hi & _ & Hs).
  exists r, rt, i. split_and!; try done. by destruct (inv_state _ _ _ I i r Logic.I Hs).
Qed.

(** Different paths have different routes. *)
Lemma live_inj K P d p q r rt rt' :
  dest_inv_at K P d -> live d p r rt -> live d q r rt' -> p = q /\ rt = rt'.
Proof.
  intros I [H1 H2] [H3 H4]. destruct (inv_back _ _ _ I p r H1) as (a & A1 & A2).
  destruct (inv_back _ _ _ I q r H3) as (b & B1 & B2). split; congruence.
Qed.

Lemma state_unique P K d i j r :
  dest_inv_at K P d -> P i -> P j -> statePaths d !! i = Some r -> statePaths d !! j = Some r -> i = j.
Proof.
  intros I Pi Pj Hi Hj. destruct (inv_state _ _ _ I i r Pi Hi) as (_ & rt & H1 & H2).
  destruct (inv_state _ _ _ I j r Pj Hj) as (_ & rt' & H3 & H4).
  assert (rt = rt') as -> by congruence. lia.
Qed.

(** What an update takes out of the destination before the new route goes in. *)
Lemma inv_forget ip id old r rt i d :
  dest_inv d -> stored d ip id old -> live d old r rt -> routeListIdx rt = Z.of_nat i ->
  statePaths d !! i = Some r ->
  dest_inv_at (other_key ip id) (other_pos (Z.of_nat i))
    (let d := set_PathInfoRouteMap (delete r (PathInfoRouteMap d)) d in
     if bool_decide (LocRibPath d = Some old) then set_LocRibPath None d else d).
Proof.
  intros I Hold Hlive Hi Hs.
  assert (forall a b q s rt', other_key ip id a b -> stored d a b q -> live d q s rt' -> s <> r) as Hne.
  { intros a b q s rt' Hk Hq Hl ->. destruct (live_inj _ _ d q old r rt' rt I Hl Hlive) as [-> _].
    apply Hk. destruct (inv_inj _ _ _ I a b ip id old Logic.I Logic.I Hq Hold) as [-> ->]. done. }
  set (d' := set_PathInfoRouteMap (delete r (PathInfoRouteMap d)) d). cbn zeta.
  set (loc := if bool_decide (LocRibPath d = Some old) then None else LocRibPath d).
  replace (if bool_decide (LocRibPath d' = Some old) then set_LocRibPath None d' else d')
    with (set_LocRibPath loc d') by (unfold loc; cbn; case_bool_decide; by destruct d).
  split; cbn; try (intros; eapply I; eauto; fail); try apply I.
  - intros a b q Hk Hq.
    destruct (inv_route _ _ _ I a b q Logic.I Hq) as (s & rt' & j & L & Hj & _ & Hsj).
    exists s, rt', j. split_and!; try done. unfold other_pos. intros [= ->%Nat2Z.inj].
    rewrite Hs in Hsj. injection Hsj as <-. by eapply (Hne a b q r rt').
  - intros j s Pj Hj. assert (s <> r) as Hsr.
    { intros ->. apply Pj. f_equal. by eapply (state_unique _ _ d j i r I). }
    destruct (inv_state _ _ _ I j s Logic.I Hj) as (H1 & rt' & H2 & H3).
    rewrite lookup_delete_ne by done. split; [done|]. by exists rt'.
  - intros q Hq. unfold loc in Hq. case_bool_decide as E; [done|].
    destruct (inv_loc _ _ _ I q Hq) as (a & b & _ & H). exists a, b. split; [|done].
    intros [= -> ->]. unfold stored in *. congruence.
Qed.

Lemma inv_other_pos K d : dest_inv_at K (fun _ => True) d -> dest_inv_at K (other_pos (-1)) d.
Proof.
  intros I. split; try (intros; eapply I; eauto; fail); try apply I.
  intros ip id p Hk Hs. destruct (inv_route _ _ _ I ip id p Hk Hs) as (r & rt & i & ? & ? & _ & ?).
  exists r, rt, i. split_and!; try done. unfold other_pos. lia.
Qed.

(** An announcement of a path that is not stored under another key is taken, and
    keeps the invariant. *)
Lemma AddOrUpdatePath_ok ip id p d :
  dest_inv d -> displayable (path p) -> maxPathId d < 4294967295 ->
  (forall ip' id', other_key ip id ip' id' -> ~ stored d ip' id' p) ->
  exists added d', AddOrUpdatePath path ip id p d = Ok (added, d') /\ dest_inv d' /\
    (forall ip' id' q, stored d' ip' id' q <->
       (ip', id') = (ip, id) /\ q = p \/ (ip', id') <> (ip, id) /\ stored d ip' id' q) /\
    added = bool_decide (getPathForIP ip id d = None).
Proof.
  intros I Hp Hm Hfresh. unfold AddOrUpdatePath.
  destruct (getPathForIP ip id d) as [old|] eqn:E.
  - case_bool_decide as Ep.
    { subst old. exists false, d. split_and!; try done. intros a b q. split.
      - intros Hq. destruct (decide ((a, b) = (ip, id))) as [[= -> ->]|]; [left|by right].
        unfold stored in Hq. split; congruence.
      - by intros [[[= -> ->] ->]|[_ H]]. }
    destruct (stored_route ip id old d I E) as (r & rt & i & [L1 L2] & Hi & Hs & _).
    rewrite L1. unfold route_at. rewrite L2. res_simpl.
    pose proof (inv_forget ip id old r rt i d I E (conj L1 L2) Hi Hs) as I2. cbn zeta in I2.
    set (d2 := if bool_decide (LocRibPath _ = Some old) then _ else _) in *.
    set (d3 := if may_replace path p d2 then set_recalculate true d2 else d2).
    assert (maxPathId d3 = maxPathId d /\ statePaths d3 = statePaths d /\
      forall a b q, stored d3 a b q <-> stored d a b q) as (M1 & M2 & M3).
    { unfold d3, d2. destruct (may_replace _ _ _); case_bool_decide; done. }
    destruct (with_route_inv ip id p (routeListIdx rt) d3 Hp) as (d' & -> & I' & Hst & _).
    + by rewrite M1.
    + right. rewrite M2, Hi. apply lookup_lt_Some in Hs. unfold len. lia.
    + intros a b Hk. rewrite M3. by apply Hfresh.
    + rewrite Hi. unfold d3. destruct (may_replace _ _ _); [by apply inv_set_recalculate|done].
    + exists false, d'. split_and!; try done. intros a b q. by rewrite Hst, M3.
  - set (d3 := if may_replace path p d then set_recalculate true d else d).
    assert (maxPathId d3 = maxPathId d /\ statePaths d3 = statePaths d /\
      forall a b q, stored d3 a b q <-> stored d a b q) as (M1 & M2 & M3).
    { unfold d3. by destruct (may_replace _ _ _). }
    destruct (with_route_inv ip id p (-1) d3 Hp) as (d' & -> & I' & Hst & _).
    + by rewrite M1.
    + by left.
    + intros a b Hk. rewrite M3. by apply Hfresh.
    + assert (dest_inv d3) as I3 by (unfold d3; destruct (may_replace _ _ _); [by apply inv_set_recalculate|done]).
      apply inv_other_pos, inv_weaken; [done|]. intros q Hq.
      destruct (inv_loc _ _ _ I3 q Hq) as (a & b & _ & H). exists a, b. split; [|done].
      intros [= -> ->]. apply M3 in H. unfold stored in *. congruence.
    + exists true, d'. split_and!; try done. intros a b q. by rewrite Hst, M3.
Qed.

(** ** Withdrawals *)

(** What [drop_route] makes of a destination. *)
Definition without_route (old r newRoute : ptr) (i : nat) (l : list ptr) (max : Z) (free : list Z)
  (d : Destination) : Destination :=
  mkDestination (dest_NLRI d) (protoFamily d) (peerPathMap d)
    (LocRibPath d) (LocRibPathRoute d) (aggPath d) (aggregatedDestMap d) (dest_ecmpPaths d)
    (delete old (pathRouteMap d)) (AddPaths d) max free (recalculate d) l
    (delete r (PathInfoRouteMap d)) (dest_routeListIdx d)
    (alter (setIdx (Z.of_nat i)) newRoute (routes d)).

Lemma drop_route_ok ip id old d :
  dest_inv d -> stored d ip id old ->
  exists r rt i l newRoute max free,
    live d old r rt /\ routeListIdx rt = Z.of_nat i /\ statePaths d = l ++ [newRoute] /\
    statePaths d !! i = Some r /\
    drop_route old d = Ok (without_route old r newRoute i (take (length l) (<[i := newRoute]> (statePaths d))) max free d) /\
    1 <= max < 4294967296 /\ NoDup free /\ (forall k, k ∈ free -> 1 <= k < max) /\
    (forall k, 1 <= k < maxPathId d -> ~ k ∈ pathIds d -> k <> OutPathId rt -> k < max /\ ~ k ∈ free).
Proof.
  intros I H. destruct (stored_route ip id old d I H) as (r & rt & i & [L1 L2] & Hi & Hs & _).
  destruct (inv_out _ _ _ I ip id old r rt Logic.I H (conj L1 L2)) as [O1 O2].
  destruct (releasePathId_spec d (OutPathId rt)) as (max & free & E & M1 & M2 & M3 & M4);
    [apply I|apply I|apply I|done|done|].
  destruct (exists_last (l := statePaths d)) as (l & newRoute & El).
  { intros Hnil. by rewrite Hnil in Hs. }
  exists r, rt, i, l, newRoute, max, free. split_and!; try done; try lia; [|destruct (inv_max _ _ _ I); lia].
  destruct (inv_state _ _ _ I (length l) newRoute Logic.I) as (N1 & _).
  { rewrite El. by apply list_lookup_middle. }
  unfold drop_route. rewrite L1. res_simpl. unfold route_at. rewrite L2. res_simpl. rewrite E.
  rewrite Hi, (proj2 (Z.eqb_neq _ _)) by lia. cbn [negb].
  unfold GetLastPath. cbn [statePaths set_pathRouteMap set_pathIds set_maxPathId].
  rewrite El at 1 2. rewrite index_app by (len_simpl; lia). res_simpl.
  cbn [PathInfoRouteMap set_pathRouteMap set_pathIds set_maxPathId]. rewrite N1.
  unfold RemovePathAndSetLast, GetLastPath.
  cbn [statePaths set_pathRouteMap set_pathIds set_maxPathId set_PathInfoRouteMap].
  apply lookup_lt_Some in Hs. rewrite (proj2 (Z.ltb_lt _ _)) by (unfold len; lia).
  rewrite El at 1 2. rewrite index_app by (len_simpl; lia). res_simpl.
  unfold set_index. rewrite (proj2 (andb_true_iff _ _)) by (unfold len; lia). res_simpl.
  rewrite Nat2Z.id. unfold slice. rewrite drop_0, Z.sub_0_r, len_insert.
  rewrite (proj2 (andb_true_iff _ _)) by (unfold len; lia). res_simpl.
  replace (Z.to_nat (len (statePaths d) - 1)) with (length l); [by destruct d|].
  rewrite El. unfold len. rewrite length_app. cbn. lia.
Qed.

(** The positions after the last path has moved into the place of another. *)
Lemma state_moved (l : list ptr) x i :
  (i < length (l ++ [x]))%nat ->
  forall j s, take (length l) (<[i := x]> (l ++ [x])) !! j = Some s <->
    (j < length l)%nat /\ (j = i /\ s = x \/ j <> i /\ (l ++ [x]) !! j = Some s).
Proof.
  intros Hi j s. rewrite lookup_take_Some. split.
  - intros [H Hj]. split; [done|]. destruct (decide (j = i)) as [->|Hne].
    + rewrite list_lookup_insert_eq in H by done. left. split; congruence.
    + rewrite list_lookup_insert_ne in H by done. by right.
  - intros [Hj [[-> ->]|[Hne H]]]; (split; [|done]).
    + by rewrite list_lookup_insert_eq.
    + by rewrite list_lookup_insert_ne.
Qed.

Lemma without_route_inv ip id old r rt i l newRoute max free d :
  dest_inv d -> stored d ip id old -> LocRibPath d <> Some old ->
  live d old r rt -> routeListIdx rt = Z.of_nat i -> statePaths d = l ++ [newRoute] ->
  statePaths d !! i = Some r -> 1 <= max < 4294967296 -> NoDup free ->
  (forall k, k ∈ free -> 1 <= k < max) ->
  (forall k, 1 <= k < maxPathId d -> ~ k ∈ pathIds d -> k <> OutPathId rt -> k < max /\ ~ k ∈ free) ->
  dest_inv (delete_path ip id
    (without_route old r newRoute i (take (length l) (<[i := newRoute]> (statePaths d))) max free d)).
Proof.
  intros I Hold Hloc Hlive Hi El Hs M1 M2 M3 M4.
  set (d' := without_route old r newRoute i _ max free d).
  assert (forall a b q, stored (delete_path ip id d') a b q <-> other_key ip id a b /\ stored d a b q) as Hst.
  { intros a b q. unfold stored. rewrite delete_path_spec. unfold other_key.
    case_bool_decide as E; [|by split; [|intros []]]. split; [done|]. by intros [Hn _]. }
  assert (forall q s rt', live (delete_path ip id d') q s rt' ->
    q <> old /\ s <> r /\ exists rt0, live d q s rt0 /\ OutPathId rt' = OutPathId rt0) as Hlv.
  { intros q s rt' [H1 H2]. cbn in H1, H2. apply lookup_delete_Some in H1 as [Hq H1].
    destruct (inv_back _ _ _ I q s H1) as (rt0 & B1 & B2).
    assert (s <> r) as Hsr.
    { intros ->. destruct Hlive as [L1 L2]. destruct (inv_back _ _ _ I old r L1) as (? & ? & ?). congruence. }
    split_and!; [done|done|]. exists rt0. split; [done|].
    rewrite lookup_alter_Some in H2. destruct H2 as [(-> & x & H2 & ->)|[_ H2]]; cbn; congruence. }
  assert (forall a b q, other_key ip id a b -> stored d a b q -> q <> old) as Hne.
  { intros a b q Hk Hq ->. apply Hk. by destruct (inv_inj _ _ _ I a b ip id old Logic.I Logic.I Hq Hold) as [-> ->]. }
  assert (forall j s, take (length l) (<[i:=newRoute]> (statePaths d)) !! j = Some s <->
    (j < length l)%nat /\ (j = i /\ s = newRoute \/ j <> i /\ statePaths d !! j = Some s)) as Hstate.
  { rewrite El. apply state_moved. rewrite <- El. by apply lookup_lt_Some in Hs. }
  assert (statePaths d !! length l = Some newRoute) as Hlast by (rewrite El; by apply list_lookup_middle).
  assert (forall a b q s rt0 j, other_key ip id a b -> stored d a b q -> live d q s rt0 ->
    statePaths d !! j = Some s -> j <> i) as Hji.
  { intros a b q s rt0 j Hk Hq Hl Hj ->. apply (Hne a b q Hk Hq).
    rewrite Hs in Hj. injection Hj as <-. by destruct (live_inj _ _ d q old r rt0 rt I Hl Hlive). }
  split; cbn.
  - intros a b q _ Hq. apply Hst in Hq as [Hk Hq].
    destruct (inv_route _ _ _ I a b q Logic.I Hq) as (s & rt0 & j & [L1 L2] & Hj & _ & Hsj).
    pose proof (Hji a b q s rt0 j Hk Hq (conj L1 L2) Hsj) as Hne'.
    destruct (decide (s = newRoute)) as [->|Hsn].
    + exists newRoute, (setIdx (Z.of_nat i) rt0), i. unfold live. cbn.
      rewrite lookup_delete_ne by (intros ->; by eapply Hne). rewrite lookup_alter_eq, L2.
      split_and!; try done. apply Hstate. split; [|by left].
      assert (j = length l) as -> by (by eapply (state_unique _ _ d _ _ newRoute I)).
      apply lookup_lt_Some in Hs. rewrite El, length_app in Hs. cbn in Hs. lia.
    + exists s, rt0, j. unfold live. cbn.
      rewrite lookup_delete_ne by (intros ->; by eapply Hne). rewrite lookup_alter_ne by done.
      split_and!; try done. apply Hstate. split; [|by right].
      pose proof (lookup_lt_Some _ _ _ Hsj) as Hlt. rewrite El, length_app in Hlt. cbn in Hlt.
      assert (j <> length l) by congruence. lia.
  - intros a b a' b' q _ _ [_ H1]%Hst [_ H2]%Hst. by apply (inv_inj _ _ _ I a b a' b' q).
  - intros q s [Hq H]%lookup_delete_Some. destruct (inv_back _ _ _ I q s H) as (rt0 & B1 & B2).
    destruct (decide (s = newRoute)) as [->|].
    + rewrite lookup_alter_eq, B1. by eexists.
    + rewrite lookup_alter_ne by done. by exists rt0.
  - intros j s _ [Hj [[-> ->]|[Hji' Hsj]]]%Hstate.
    + destruct (inv_state _ _ _ I (length l) newRoute Logic.I Hlast) as (N1 & rt0 & N2 & _).
      assert (newRoute <> r) as Hnr.
      { intros ->. assert (i = length l) by (by eapply (state_unique _ _ d _ _ r I)). lia. }
      rewrite lookup_delete_ne by done. split; [done|].
      rewrite lookup_alter_eq, N2. by eexists.
    + destruct (inv_state _ _ _ I j s Logic.I Hsj) as (N1 & rt0 & N2 & N3).
      assert (s <> r) by (intros ->; apply Hji'; by eapply (state_unique _ _ d _ _ r I)).
      assert (s <> newRoute).
      { intros ->. assert (j = length l) by (by eapply (state_unique _ _ d _ _ newRoute I)). lia. }
      rewrite lookup_delete_ne, lookup_alter_ne by done. split; [done|]. by exists rt0.
  - done.
  - done.
  - done.
  - intros a b q s rt' _ [Hk Hq]%Hst (_ & Hsr & rt0 & L & ->)%Hlv.
    destruct (inv_out _ _ _ I a b q s rt0 Logic.I Hq L) as [O1 O2].
    destruct (M4 (OutPathId rt0) O1 O2) as [M5 M6]; [|split; [lia|done]].
    intros He. apply (Hne a b q Hk Hq).
    by apply (inv_out_inj _ _ _ I a b q s rt0 ip id old r rt).
  - intros a b q s rt' a' b' q' s' rt'' _ _ [Hk Hq]%Hst (_ & _ & rt0 & L & ->)%Hlv
      [Hk' Hq']%Hst (_ & _ & rt1 & L' & ->)%Hlv He.
    by apply (inv_out_inj _ _ _ I a b q s rt0 a' b' q' s' rt1).
  - intros a m. case_bool_decide as E; intros H.
    + apply lookup_delete_Some in H as [_ H]. by eapply inv_inner.
    + apply lookup_insert_Some in H as [[_ <-]|[_ H]]; [done|by eapply inv_inner].
  - intros q s H. destruct (inv_ecmp _ _ _ I q s H) as (rt0 & H' & H2).
    destruct (decide (s = newRoute)) as [->|].
    + rewrite lookup_alter_eq, H'. by eexists.
    + rewrite lookup_alter_ne by done. by exists rt0.
  - intros q H. destruct (inv_loc _ _ _ I q H) as (a & b & _ & Hq). exists a, b. split; [done|].
    apply Hst. split; [|done]. intros [= -> ->]. unfold stored in *. congruence.
Qed.

(** A withdrawal returns the path that was stored, and keeps the invariant. *)
Lemma RemovePath_ok ip id d :
  dest_inv d ->
  exists d', RemovePath ip id d = Ok (getPathForIP ip id d, d') /\ dest_inv d' /\
    (forall ip' id' q, stored d' ip' id' q <-> other_key ip id ip' id' /\ stored d ip' id' q).
Proof.
  intros I. unfold RemovePath. destruct (getPathForIP ip id d) as [old|] eqn:E.
  - set (d1 := if bool_decide (is_Some (dest_ecmpPaths d !! old)) then set_recalculate true d else d).
    set (d2 := if bool_decide (LocRibPath d1 = Some old) then _ else d1).
    assert (dest_inv d2 /\ LocRibPath d2 <> Some old /\ forall a b q, stored d2 a b q <-> stored d a b q)
      as (I2 & Hl & Hst).
    { assert (dest_inv d1) as I1 by (unfold d1; case_bool_decide; [by apply inv_set_recalculate|done]).
      assert (forall a b q, stored d1 a b q <-> stored d a b q) as Hst by (unfold d1; by case_bool_decide).
      unfold d2. case_bool_decide as El; [|done]. split_and!; [|done|done].
      split; try apply I1. done. }
    apply Hst in E as E2.
    destruct (drop_route_ok ip id old d2 I2 E2)
      as (r & rt & i & l & nr & max & free & L & Hi & Hlst & Hs & -> & M1 & M2 & M3 & M4).
    res_simpl. eexists. split; [done|]. split; [by eapply without_route_inv|].
    intros a b q. unfold stored at 1. rewrite delete_path_spec. unfold other_key.
    case_bool_decide as Ek; [split; [done|by intros [Hn _]]|]. rewrite <- Hst. by split; [|intros []].
  - exists d. split_and!; try done. intros a b q. split; [|by intros []].
    intros H. split; [|done]. intros [= -> ->]. unfold stored in H. congruence.
Qed.

(** ** All paths of a peer, of all peers *)

Record dest_env_ok : Prop := mkDestEnvOk {
  rib_env_ok : env_ok (rib_env env);
  range_perm A (l : list A) : Permutation (range env l) l;
}.
Context (Henv : dest_env_ok).

Lemma remove_paths_ok ip ids d :
  dest_inv d ->
  exists d', remove_paths ip ids d = Ok d' /\ dest_inv d' /\
    forall ip' id' q, stored d' ip' id' q <-> ~ (ip' = ip /\ id' ∈ ids) /\ stored d ip' id' q.
Proof.
  clear gConf path Henv. revert d. induction ids as [|id ids IH]; intros d I; cbn [remove_paths].
  { exists d. split_and!; try done. intros a b q. set_solver. }
  destruct (RemovePath_ok ip id d I) as (d1 & -> & I1 & H1). res_simpl.
  destruct (IH d1 I1) as (d' & -> & I' & H'). exists d'. split_and!; try done.
  intros a b q. rewrite H', H1. unfold other_key. rewrite elem_of_cons. split.
  - intros (Hn & Hk & Hs). split; [|done]. intros [-> [->|]]; [by apply Hk|by apply Hn].
  - intros [Hn Hs]. split_and!; [naive_solver| |done]. intros [= -> ->]. apply Hn. by split; [|left].
Qed.

(** After a peer has gone, none of its paths is left, and the others are. *)
Lemma RemoveAllPaths_ok ip d :
  dest_inv d ->
  exists d', RemoveAllPaths env ip d = Ok d' /\ dest_inv d' /\
    forall ip' id' q, stored d' ip' id' q <-> ip' <> ip /\ stored d ip' id' q.
Proof.
  clear gConf path. intros I. unfold RemoveAllPaths. edestruct (remove_paths_ok ip) as (d' & -> & I' & H); [exact I|].
  exists d'. split_and!; try done. intros a b q. rewrite H, range_perm by done. split.
  - intros [Hn Hs]. split; [|done]. intros ->. apply Hn. split; [done|].
    apply list_elem_of_fmap. exists (b, q). split; [done|]. by apply elem_of_map_to_list.
  - intros [Hne Hs]. split; [by intros [? _]|done].
Qed.

Lemma elem_all_paths d e : e ∈ all_paths env d <-> stored d e.1 e.2.1 e.2.2.
Proof.
  unfold all_paths. rewrite list_elem_of_join. setoid_rewrite list_elem_of_fmap.
  destruct e as [ip [id p]]. cbn. unfold stored, getPathForIP, peer_paths. split.
  - intros (l & Hl & [ip' m] & -> & Hm). apply list_elem_of_fmap in Hl as ([id' p'] & [= -> -> ->] & Hx).
    cbn in Hx. rewrite range_perm in Hx, Hm by done. apply elem_of_map_to_list in Hx, Hm. by rewrite Hm.
  - destruct (peerPathMap d !! ip) as [m|] eqn:E; [|by rewrite lookup_empty]. intros H.
    eexists. split; [|exists (ip, m); split; [done|]].
    + apply list_elem_of_fmap. exists (id, p). split; [done|].
      rewrite range_perm by done. by apply elem_of_map_to_list.
    + rewrite range_perm by done. by apply elem_of_map_to_list.
Qed.

Lemma delete_path_inv ip id d :
  dest_inv d -> LocRibPath d = None -> dest_inv (delete_path ip id d).
Proof.
  intros I Hl.
  assert (forall a b q, stored (delete_path ip id d) a b q -> stored d a b q) as Hst.
  { intros a b q. unfold stored. rewrite delete_path_spec. by case_bool_decide. }
  split; try (intros; eapply I; eauto; fail); try apply I.
  - intros a m. cbn. case_bool_decide as E; intros H.
    + apply lookup_delete_Some in H as [_ H]. by eapply inv_inner.
    + apply lookup_insert_Some in H as [[_ <-]|[_ H]]; [done|by eapply inv_inner].
  - intros p Hp. cbn in Hp. congruence.
Qed.

(** [RemoveAllNeighborPaths] leaves the paths that have no neighbor. *)
Lemma RemoveAllNeighborPaths_ok d :
  dest_inv d ->
  dest_inv (RemoveAllNeighborPaths env path d) /\
  forall ip id q, stored (RemoveAllNeighborPaths env path d) ip id q <->
    stored d ip id q /\ path_NeighborConf (path q) = None.
Proof.
  intros I. unfold RemoveAllNeighborPaths.
  set (f := fun d (e : string * (Z * ptr)) => match path_NeighborConf (path e.2.2) with
                             | Some _ => delete_path e.1 e.2.1 d | None => d end).
  assert (forall es d, dest_inv (set_LocRibPath None d) ->
    dest_inv (set_LocRibPath None (foldl f d es)) /\ LocRibPath (foldl f d es) = LocRibPath d /\
    forall a b q, stored (foldl f d es) a b q <-> stored d a b q /\
      ~ exists p, (a, (b, p)) ∈ es /\ is_Some (path_NeighborConf (path p))) as Hfold.
  { clear d I. intros es. induction es as [|[a' [b' p']] es IH]; intros d I; cbn [foldl].
    { split_and!; try done. intros a b q. set_solver. }
    unfold f at 2 4 6. cbn. destruct (path_NeighborConf (path p')) as [c|] eqn:Ec.
    - destruct (IH (delete_path a' b' d)) as (I' & L' & H').
      { replace (set_LocRibPath None (delete_path a' b' d)) with (delete_path a' b' (set_LocRibPath None d))
          by done. by apply delete_path_inv. }
      split_and!; [done|done|]. intros a b q. rewrite H'. unfold stored at 1. rewrite delete_path_spec.
      case_bool_decide as Ek.
      + split; [by intros []|]. intros [_ []]. injection Ek as -> ->. exists p'. split; [left|]. by eexists.
      + split.
        * intros [Hs Hn]. split; [done|]. intros (p & [Hp|Hp]%elem_of_cons & Hc); [congruence|]. apply Hn. eauto.
        * intros [Hs Hn]. split; [done|]. intros (p & Hp & Hc). apply Hn. exists p. split; [by right|done].
    - destruct (IH d I) as (I' & L' & H'). split_and!; [done|done|]. intros a b q. rewrite H'. split.
      + intros [Hs Hn]. split; [done|]. intros (p & [Hp|Hp]%elem_of_cons & Hc); [|apply Hn; eauto].
        injection Hp as -> -> ->. rewrite Ec in Hc. by destruct Hc.
      + intros [Hs Hn]. split; [done|]. intros (p & Hp & Hc). apply Hn. exists p. split; [by right|done]. }
  destruct (Hfold (all_paths env d) d) as (I' & L' & H').
  { split; try apply I. done. }
  set (d' := foldl f d (all_paths env d)) in *.
  assert (forall a b q, stored d' a b q <-> stored d a b q /\ path_NeighborConf (path q) = None) as Hst.
  { intros a b q. rewrite H'. setoid_rewrite elem_all_paths. cbn. split.
    - intros [Hs Hn]. split; [done|]. destruct (path_NeighborConf (path q)) eqn:E; [|done].
      exfalso. apply Hn. exists q. by rewrite E.
    - intros [Hs Hn]. split; [done|]. intros (p & Hp & Hc).
      assert (p = q) as -> by (unfold stored in *; congruence). rewrite Hn in Hc. by destruct Hc. }
  destruct (LocRibPath d') as [best|] eqn:Eb; [destruct (path_NeighborConf (path best)) eqn:Ec|].
  - split; [|done]. split; try apply I'; done.
  - split; [|done]. split; try apply I'. intros p Hp. rewrite Eb in Hp. injection Hp as <-.
    destruct (inv_loc _ _ _ I best ltac:(congruence)) as (a & b & _ & Hs).
    exists a, b. split; [done|]. by apply Hst.
  - split; [|done]. split; try apply I'. intros p Hp. congruence.
Qed.
End Spec.
