(* ===== verification/BgpDestSelect.v ===== *)
(** * Destinations: the selection

    SelectRouteForLocRib of BgpDest selects the best of the paths that may be used,
    installs one path of each multipath group, and tells the route manager exactly
    what has changed. *)

From stdpp Require Import sorting.
From S2P Require Import Prelude.
From S2P Require Import BgpOpen.
From S2P Require Import BgpNlri.
From S2P Require Import BgpAttr.
From S2P Require Import BgpHelpers.
From S2P Require Import BgpNeighbor.
From S2P Require Import BgpPath.
From S2P Require Import BgpDecision.
From S2P Require Import BgpDecisionSpec.
From S2P Require Import BgpDest.
From S2P Require Import BgpDestSpec.

(** ** Network masks *)

(** The octets as a number in network order. *)
Definition be_value (l : bytes) : Z := foldl (fun v b => v * 256 + b) 0 l.

Lemma be_value_from v k : foldl (fun v b => v * 256 + b) v k = v * 256 ^ len k + be_value k.
Proof.
  unfold be_value. revert v. induction k as [|b k IH] using rev_ind; intros v; [rewrite len_nil; cbn; lia|].
  rewrite !foldl_app. cbn. rewrite (IH v). pose proof (len_nonneg k).
  replace (len (k ++ [b])) with (len k + 1) by (unfold len; rewrite length_app; cbn; lia).
  rewrite (Z.pow_add_r 256 (len k)) by lia. change (256 ^ 1) with 256. lia.
Qed.

Lemma be_value_app l k : be_value (l ++ k) = be_value l * 256 ^ len k + be_value k.
Proof. unfold be_value at 1. rewrite foldl_app. apply be_value_from. Qed.

Lemma be_value_ones n : be_value (repeat 255 n) = 256 ^ Z.of_nat n - 1.
Proof.
  induction n as [|n IH]; [done|]. change (repeat 255 (S n)) with (255 :: repeat 255 n).
  rewrite (repeat_cons n 255), be_value_app, IH.
  change (len [255]) with 1. change (be_value [255]) with 255. rewrite Nat2Z.inj_succ, Z.pow_succ_r by lia. lia.
Qed.

Lemma be_value_zeros n : be_value (zeros n) = 0.
Proof.
  unfold zeros. induction (Z.to_nat n) as [|m IH]; [done|]. exact IH.
Qed.

Lemma last_octet rem : 0 < rem < 8 -> u8 (Z.shiftl 255 (8 - rem)) = 256 - 2 ^ (8 - rem).
Proof.
  intros H. assert (rem = 1 \/ rem = 2 \/ rem = 3 \/ rem = 4 \/ rem = 5 \/ rem = 6 \/ rem = 7) as Hr by lia.
  by destruct Hr as [-> | [-> | [-> | [-> | [-> | [-> | ->]]]]]].
Qed.

(** The mask for [ones] bits of [8 * n] is there, and has the [ones] highest bits set. *)
Lemma constructNetmaskFromLen_ok ones n :
  0 <= n -> 0 <= ones <= n * 8 ->
  exists mask, constructNetmaskFromLen ones (n * 8) = Ok mask /\ len mask = n /\
    be_value mask = 2 ^ (n * 8) - 2 ^ (n * 8 - ones).
Proof.
  intros Hn Ho. unfold constructNetmaskFromLen. rewrite Z.div_mul by lia.
  pose proof (Z.div_mod ones 8 ltac:(lia)) as Hd. pose proof (Z.mod_pos_bound ones 8 ltac:(lia)) as Hm.
  set (q := ones / 8) in *. set (rem := ones mod 8) in *.
  rewrite len_zeros by lia. rewrite (proj2 (Z.ltb_ge n 0)), (proj2 (Z.ltb_ge n q)) by lia. cbn [orb].
  assert (drop (Z.to_nat q) (zeros n) = zeros (n - q)) as Hdz.
  { unfold zeros. rewrite drop_replicate. f_equal. lia. }
  rewrite Hdz. assert (len (repeat 255 (Z.to_nat q)) = q) as Hlr by (unfold len; rewrite repeat_length; lia).
  destruct (rem =? 0) eqn:Er; cbn [negb].
  - eexists. split; [done|]. split; [rewrite len_app, Hlr, len_zeros by lia; lia|].
    rewrite be_value_app, be_value_ones, be_value_zeros, len_zeros, Z2Nat.id by lia.
    change 256 with (2 ^ 8). rewrite <- !Z.pow_mul_r by lia.
    rewrite Z.mul_sub_distr_r, <- Z.pow_add_r, Z.mul_1_l, Z.add_0_r by lia. f_equal; f_equal; lia.
  - assert (zeros (n - q) = 0 :: zeros (n - q - 1)) as Hz.
    { unfold zeros. replace (Z.to_nat (n - q)) with (S (Z.to_nat (n - q - 1))) by lia. done. }
    rewrite Hz, set_index_app by (rewrite Hlr; done). eexists. split; [done|].
    split; [rewrite len_app, len_cons, Hlr, len_zeros by lia; lia|].
    rewrite (cons_middle _ (repeat 255 (Z.to_nat q))), !be_value_app, be_value_ones, be_value_zeros.
    rewrite len_app, len_zeros, Z2Nat.id, last_octet by lia. change (len [256 - 2 ^ (8 - rem)]) with 1.
    change (be_value [256 - 2 ^ (8 - rem)]) with (256 - 2 ^ (8 - rem)).
    change 256 with (2 ^ 8) at 1 2 4. rewrite <- !Z.pow_mul_r by lia.
    replace (n * 8) with (8 * q + 8 * (1 + (n - q - 1))) at 1 by lia.
    replace (n * 8 - ones) with ((8 - rem) + 8 * (n - q - 1)) by lia.
    rewrite !Z.pow_add_r by lia.
    rewrite (Z.mul_add_distr_l 8 1), (Z.pow_add_r 2 (8 * 1)) by lia. change (2 ^ (8 * 1)) with 256. lia.
Qed.

(** ** The candidates *)

Lemma filter_all {A} (l : list A) : filter (fun _ => True) l = l.
Proof. induction l as [|x l IH]; [done|]. rewrite filter_cons_True by done. by f_equal. Qed.

Section Select.
Context (env : DestEnv) (gConf : RibConfig) (path : ptr -> Path).
Context (Henv : dest_env_ok env).

(** A path that may be used: the LocRib path, or a reachable one without a loop. *)
Definition usable (d : Destination) (p : ptr) : bool :=
  bool_decide (LocRibPath d <> Some p) && IsReachable (path p) (protoFamily d) &&
  match path_HasASLoop (path p) with Ok loop => negb loop | _ => false end.

Definition stored_paths (d : Destination) : list ptr := map (fun e => e.2.2) (all_paths env d).

Definition eligible (d : Destination) : list ptr :=
  match LocRibPath d with Some p => [p] | None => [] end ++
  filter (fun p => usable d p = true) (stored_paths d).

Lemma getRouteSource_range t : 1 <= getRouteSource t <= 4.
Proof.
  unfold getRouteSource, RouteTypeToSource. cbn [assocZ].
  repeat (destruct (_ =? t); [ unfold RouteSrcLocal, RouteSrcExternal; lia|]).
  unfold RouteSrcUnknown. lia.
Qed.

(** What [collect] has made of the eligible paths [pre] it has passed. *)
Definition collected (pre : list ptr) (acc : list ptr * list ptr * Z) : Prop :=
  acc.1.1 = filter (fun p => source path p = acc.2) pre /\
  Permutation (acc.1.1 ++ acc.1.2) pre /\
  Forall (fun p => acc.2 <= source path p) pre /\
  (acc.2 = RouteSrcUnknown \/ exists p, p ∈ pre /\ source path p = acc.2).

Lemma consider_ok d pre acc p :
  collected pre acc -> (exists b, path_HasASLoop (path p) = Ok b) ->
  exists acc', consider path d acc p = Ok acc' /\
    collected (pre ++ (if usable d p then [p] else [])) acc'.
Proof.
  destruct acc as [[us rs] src]. intros (H1 & H2 & H3 & H4) [b Hb]. cbn in *. unfold usable, consider.
  rewrite Hb. destruct (decide (LocRibPath d = Some p)) as [El|El].
  { rewrite (bool_decide_eq_false_2 (LocRibPath d <> Some p)), bool_decide_eq_true_2 by tauto. cbn [andb]. rewrite app_nil_r.
    eexists. split; [done|]. by split_and!. }
  rewrite (bool_decide_eq_true_2 (LocRibPath d <> Some p)), bool_decide_eq_false_2 by tauto. cbn [andb].
  destruct (IsReachable _ _) eqn:Er; cbn [negb andb];
    [|by rewrite app_nil_r; eexists; split].
  res_simpl. destruct b; cbn [negb]; [by rewrite app_nil_r; eexists; split|].
  assert (forall s, filter (fun q => source path q = s) (pre ++ [p]) =
    filter (fun q => source path q = s) pre ++ (if decide (source path p = s) then [p] else [])) as Hf.
  { intros s. by rewrite filter_app. }
  destruct (src <? source path p) eqn:E1; [|destruct (source path p <? src) eqn:E2].
  - eexists. split; [done|]. unfold collected. cbn. rewrite Hf, decide_False, app_nil_r by lia.
    split_and!; [done| | |].
    + by rewrite (assoc_L (++)), H2.
    + apply Forall_app; split; [done|]. apply Forall_singleton. lia.
    + destruct H4 as [|(q & Hq & Eq)]; [by left|right; exists q; set_solver].
  - eexists. split; [done|]. unfold collected. cbn. rewrite Hf, decide_True by done.
    split_and!.
    + rewrite filter_none; [done|]. eapply Forall_impl; [exact H3|]. cbn. lia.
    + rewrite <- H2, (comm (++) rs us). apply Permutation_cons_append.
    + apply Forall_app; split; [|apply Forall_singleton; lia].
      eapply Forall_impl; [exact H3|]. cbn. lia.
    + right. exists p. set_solver.
  - eexists. split; [done|]. unfold collected. cbn. rewrite Hf, decide_True by lia.
    split_and!; [by rewrite H1| | |].
    + rewrite <- (assoc_L (++)), (comm (++) [p] rs), (assoc_L (++)). by rewrite H2.
    + apply Forall_app; split; [done|]. apply Forall_singleton. lia.
    + destruct H4 as [|(q & Hq & Eq)]; [by left|right; exists q; set_solver].
Qed.

Lemma consider_all_ok d ps pre acc :
  collected pre acc -> Forall (fun p => exists b, path_HasASLoop (path p) = Ok b) ps ->
  exists acc', consider_all path d acc ps = Ok acc' /\
    collected (pre ++ filter (fun p => usable d p = true) ps) acc'.
Proof.
  revert pre acc. induction ps as [|p ps IH]; intros pre acc Hc Hl; cbn [consider_all].
  { exists acc. by rewrite filter_nil, app_nil_r. }
  apply Forall_cons in Hl as [Hp Hl]. destruct (consider_ok d pre acc p Hc Hp) as (acc1 & -> & H1).
  res_simpl. destruct (IH _ _ H1 Hl) as (acc' & -> & H'). exists acc'. split; [done|].
  rewrite filter_cons. destruct (usable d p); [rewrite decide_True by done|rewrite decide_False by done].
  - by rewrite <- (assoc_L (++)) in H'.
  - by rewrite app_nil_r in H'.
Qed.

(** The updated paths are the eligible ones of the best source, the removed paths the
    others. *)
Lemma collect_ok d :
  (forall ip id p, stored d ip id p -> exists b, path_HasASLoop (path p) = Ok b) ->
  exists us rs src, collect env path d = Ok (us, rs, src) /\
    us = argmin (source path) (eligible d) /\ Permutation (us ++ rs) (eligible d).
Proof.
  intros Hloop. unfold collect.
  set (acc := match LocRibPath d with Some best => _ | None => _ end).
  assert (collected (match LocRibPath d with Some p => [p] | None => [] end) acc) as H0.
  { unfold acc. destruct (LocRibPath d) as [p|]; unfold collected; cbn.
    - rewrite decide_True by done. split_and!; [done|done|by repeat constructor|].
      right. exists p. set_solver.
    - split_and!; [done|done|done|by left]. }
  destruct (consider_all_ok d (stored_paths d) _ acc H0) as ([[us rs] src] & E & H1 & H2 & H3 & H4).
  { apply Forall_forall. intros p Hp. apply list_elem_of_fmap in Hp as ([ip [id q]] & -> & He).
    apply (elem_all_paths env Henv) in He. by eapply Hloop. }
  exists us, rs, src. split; [exact E|]. cbn in *. fold (eligible d) in *. split; [|exact H2].
  rewrite Forall_forall in H3. rewrite H1. symmetry. destruct H4 as [->|(p & Hp & <-)].
  - trans (eligible d).
    + apply argmin_ties. intros p q Hp Hq. specialize (H3 p Hp) as Hp'. specialize (H3 q Hq).
      unfold source, RouteSrcUnknown in *. pose proof (getRouteSource_range (path_routeType (path p))).
      pose proof (getRouteSource_range (path_routeType (path q))). lia.
    + trans (filter (fun _ : ptr => True) (eligible d)); [by symmetry; apply filter_all|].
      apply filter_ext_in. intros p Hp. specialize (H3 p Hp).
      unfold source, RouteSrcUnknown in *. pose proof (getRouteSource_range (path_routeType (path p))).
      split; [lia|done].
  - apply argmin_attained; [done|]. by apply argmin_le, Forall_forall.
Qed.

(** ** The groups *)

Lemma find_item_Some item ps i :
  find_item item ps = Some i -> ps = take i ps ++ item :: drop (S i) ps.
Proof.
  revert i. induction ps as [|p ps IH]; intros i; cbn [find_item]; [done|].
  case_bool_decide as E; [intros [= <-]; by subst|].
  destruct (find_item item ps) as [j|] eqn:Ej; [|done]. intros [= <-]. cbn. f_equal. by apply IH.
Qed.

Lemma find_item_None item ps : find_item item ps = None -> ~ item ∈ ps.
Proof.
  induction ps as [|p ps IH]; cbn [find_item]; intros H Hin; [inversion Hin|].
  case_bool_decide as E; [done|]. destruct (find_item item ps); [done|].
  apply elem_of_cons in Hin as [Hin|Hin]; [congruence|by apply IH].
Qed.

Lemma find_list_Some item lists k paths i :
  find_list item lists = Some (k, paths, i) ->
  lists = take k lists ++ paths :: drop (S k) lists /\ find_item item paths = Some i.
Proof.
  revert k. induction lists as [|l lists IH]; intros k; cbn [find_list]; [done|].
  destruct (find_item item l) as [j|] eqn:E.
  - intros [= <- <- <-]. done.
  - destruct (find_list item lists) as [[[k' paths'] i']|] eqn:E'; [|done].
    intros [= <- <- <-]. destruct (IH k' eq_refl) as [H1 H2]. split; [cbn; by f_equal|done].
Qed.

Lemma find_list_None item lists : find_list item lists = None -> ~ item ∈ mjoin lists.
Proof.
  induction lists as [|l lists IH]; cbn [find_list]; intros H Hin; [inversion Hin|].
  destruct (find_item item l) eqn:E; [done|].
  destruct (find_list item lists) as [[[? ?] ?]|]; [done|].
  cbn in Hin. apply elem_of_app in Hin as [Hin|Hin]; [by eapply find_item_None|by apply IH].
Qed.

(** The group of the best path comes first, with the best path at its head; with no
    groups the best path is the only one. *)
Lemma removeAndPrepend_ok lists item :
  lists = [] \/ item ∈ mjoin lists ->
  exists rest groups, removeAndPrepend lists item = (item :: rest) :: groups /\
    (lists = [] -> rest = [] /\ groups = []) /\
    (lists <> [] -> exists g front back, lists = front ++ g :: back /\ groups = front ++ back /\
       Permutation g (item :: rest)).
Proof.
  intros H. unfold removeAndPrepend. destruct (find_list item lists) as [[[k paths] i]|] eqn:E.
  - apply find_list_Some in E as [E1 E2]. apply find_item_Some in E2.
    eexists _, _. split; [done|]. split; [intros ->; by destruct k|].
    intros _. exists paths, (take k lists), (drop (S k) lists). split_and!; [done|done|].
    rewrite E2 at 1. by rewrite <- Permutation_middle.
  - apply find_list_None in E. destruct H as [->|H]; [|done]. by exists [], [].
Qed.

Lemma grouped_join fam ps gs :
  grouped path fam ps gs -> Permutation (mjoin gs) ps /\ Forall (fun g => g <> []) gs.
Proof.
  intros (hops & Hn & Hh & Hp). split.
  - trans (mjoin (map (fun h => filter (fun p => nh path fam p = h) ps) hops)).
    { clear -Hp. revert Hp. generalize (map (fun h => filter (fun p => nh path fam p = h) ps) hops).
      intros l Hp. induction Hp; cbn; [done|by apply Permutation_app_head| |by etrans].
      rewrite !(assoc_L (++)). by rewrite (comm (++) y x). }
    assert (forall p, p ∈ ps -> nh path fam p ∈ hops) as Hall by (intros p Hin; apply Hh; eauto).
    clear Hh Hp gs. revert ps Hall. induction Hn as [|h hops Hnot Hn IH]; intros ps Hall.
    + destruct ps as [|p ps]; [done|]. specialize (Hall p (list_elem_of_here _ _)). inversion Hall.
    + cbn. set (P := fun p => nh path fam p = h).
      rewrite (list_fmap_ext _ (fun h' => filter (fun p => nh path fam p = h') (filter (fun p => ~ P p) ps)) hops).
      * rewrite (IH (filter (fun p => ~ P p) ps)).
        -- clear. induction ps as [|p ps IH]; [done|]. rewrite !filter_cons.
           destruct (decide (P p)) as [HP|HP].
           ++ rewrite decide_False by tauto. cbn. by f_equiv.
           ++ rewrite decide_True by tauto. rewrite <- Permutation_middle. by f_equiv.
        -- intros p [HP Hin]%list_elem_of_filter. specialize (Hall p Hin).
           apply elem_of_cons in Hall as [|]; done.
      * intros i h' Hi. rewrite list_filter_filter. apply filter_ext_in. intros p Hin. unfold P.
        split; [|tauto]. intros <-. split; [done|]. intros <-. apply Hnot.
        by eapply list_elem_of_lookup_2.
  - rewrite Hp. apply Forall_forall. intros g (h & -> & Hin)%list_elem_of_fmap Hnil.
    apply Hh in Hin as (p & Hin & E). assert (p ∈ @nil ptr) as Hc; [|inversion Hc].
    rewrite <- Hnil. by apply list_elem_of_filter.
Qed.

(** ** What a selection leaves alone *)

Definition shape (rt : Route) : ptr * Z * Z := (route_path rt, routeListIdx rt, OutPathId rt).

Record same_books (d d' : Destination) : Prop := mkSameBooks {
  sb_nlri : dest_NLRI d' = dest_NLRI d;
  sb_family : protoFamily d' = protoFamily d;
  sb_paths : peerPathMap d' = peerPathMap d;
  sb_routes : pathRouteMap d' = pathRouteMap d;
  sb_max : maxPathId d' = maxPathId d;
  sb_free : pathIds d' = pathIds d;
  sb_state : statePaths d' = statePaths d;
  sb_info : PathInfoRouteMap d' = PathInfoRouteMap d;
  sb_shape r : shape <$> routes d' !! r = shape <$> routes d !! r;
}.

#[export] Instance same_books_refl : Reflexive same_books.
Proof. by split. Qed.
#[export] Instance same_books_trans : Transitive same_books.
Proof. intros d1 d2 d3 H1 H2. split; try (etrans; [apply H2|apply H1]). Qed.

Lemma same_books_route d d' r rt :
  same_books d d' -> routes d !! r = Some rt -> exists rt', routes d' !! r = Some rt' /\ shape rt' = shape rt.
Proof.
  intros H Hr. pose proof (sb_shape _ _ H r) as Hs. rewrite Hr in Hs.
  destruct (routes d' !! r) as [rt'|]; [|done]. exists rt'. split; [done|]. cbn in Hs. congruence.
Qed.

Lemma same_books_sym d d' : same_books d d' -> same_books d' d.
Proof. intros H. split; symmetry; apply H. Qed.

Lemma same_books_stored d d' ip id p : same_books d d' -> stored d' ip id p <-> stored d ip id p.
Proof. intros H. unfold stored, getPathForIP, peer_paths. by rewrite (sb_paths _ _ H). Qed.

(** The invariant for a destination with the same books. *)
Lemma same_books_inv d d' :
  same_books d d' -> dest_inv d ->
  (forall p r, dest_ecmpPaths d' !! p = Some r ->
     exists rt, routes d' !! r = Some rt /\ route_path rt = p /\ action rt = RouteActionNone) ->
  (forall p, LocRibPath d' = Some p -> exists ip id, stored d ip id p) -> dest_inv d'.
Proof.
  intros S I He Hl. pose proof (same_books_sym _ _ S) as S'.
  assert (forall p r rt', live d' p r rt' -> exists rt, live d p r rt /\ shape rt = shape rt') as Hlive.
  { intros p r rt' [H1 H2]. rewrite (sb_routes _ _ S) in H1.
    destruct (same_books_route d' d r rt' S' H2) as (rt & H3 & H4). by exists rt. }
  split.
  - intros ip id p _ Hp. apply (same_books_stored d) in Hp; [|done].
    destruct (inv_route _ _ _ I ip id p Logic.I Hp) as (r & rt & i & [L1 L2] & Hi & _ & Hs).
    destruct (same_books_route d d' r rt S L2) as (rt' & L3 & L4). exists r, rt', i.
    unfold live. rewrite (sb_routes _ _ S), (sb_state _ _ S). split_and!; try done.
    unfold shape in L4. congruence.
  - intros ip id ip' id' p _ _ H1 H2. apply (same_books_stored d) in H1, H2; [|done..].
    by apply (inv_inj _ _ _ I ip id ip' id' p).
  - intros p r H. rewrite (sb_routes _ _ S) in H. destruct (inv_back _ _ _ I p r H) as (rt & H1 & H2).
    destruct (same_books_route d d' r rt S H1) as (rt' & H3 & H4). exists rt'. split; [done|].
    unfold shape in H4. congruence.
  - intros i r _ H. rewrite (sb_state _ _ S) in H. rewrite (sb_info _ _ S).
    destruct (inv_state _ _ _ I i r Logic.I H) as (H1 & rt & H2 & H3). split; [done|].
    destruct (same_books_route d d' r rt S H2) as (rt' & H4 & H5). exists rt'. split; [done|].
    unfold shape in H5. congruence.
  - rewrite (sb_max _ _ S). apply I.
  - rewrite (sb_free _ _ S). apply I.
  - rewrite (sb_free _ _ S), (sb_max _ _ S). apply I.
  - intros ip id p r rt' _ Hp Hlv. apply (same_books_stored d) in Hp; [|done].
    destruct (Hlive p r rt' Hlv) as (rt & L & E). rewrite (sb_free _ _ S), (sb_max _ _ S).
    replace (OutPathId rt') with (OutPathId rt) by (unfold shape in E; congruence).
    by apply (inv_out _ _ _ I ip id p r rt).
  - intros ip id p r rt ip' id' p' r' rt' _ _ H1 L1 H2 L2 E. apply (same_books_stored d) in H1, H2; [|done..].
    destruct (Hlive _ _ _ L1) as (rt0 & L3 & E3). destruct (Hlive _ _ _ L2) as (rt1 & L4 & E4).
    apply (inv_out_inj _ _ _ I ip id p r rt0 ip' id' p' r' rt1); try done. unfold shape in *. congruence.
  - rewrite (sb_paths _ _ S). apply I.
  - done.
  - intros p Hp. destruct (Hl p Hp) as (ip & id & H). exists ip, id. split; [done|].
    by apply (same_books_stored d).
Qed.

Lemma on_route_books f r d : (forall rt, shape (f rt) = shape rt) -> same_books d (on_route f r d).
Proof.
  intros Hf. split; try done. intros s. cbn. destruct (decide (s = r)) as [->|].
  - rewrite lookup_alter_eq. destruct (routes d !! r); cbn; [by rewrite Hf|done].
  - by rewrite lookup_alter_ne.
Qed.

Lemma on_path_route_books f p d : (forall rt, shape (f rt) = shape rt) -> same_books d (on_path_route f p d).
Proof. intros Hf. unfold on_path_route. destruct (pathRouteMap d !! p); [by apply on_route_books|done]. Qed.

Lemma same_books_set_ecmpPaths v d : same_books d (set_ecmpPaths v d).
Proof. by split. Qed.

(** ** The action of a route *)

Definition action_of (d : Destination) (r : ptr) : option RouteAction := action <$> routes d !! r.

Lemma action_on_route f r s d :
  action_of (on_route f r d) s = if decide (s = r) then action <$> (f <$> routes d !! r) else action_of d s.
Proof.
  unfold action_of. cbn. destruct (decide (s = r)) as [->|].
  - by rewrite lookup_alter_eq.
  - by rewrite lookup_alter_ne.
Qed.

Lemma action_on_PathInfo f r s d : action_of (on_route (on_PathInfo f) r d) s = action_of d s.
Proof.
  rewrite action_on_route. destruct (decide (s = r)) as [->|]; [|done].
  unfold action_of. by destruct (routes d !! r).
Qed.

Lemma action_setAction a r s d :
  is_Some (routes d !! r) ->
  action_of (on_route (setAction a) r d) s = if decide (s = r) then Some a else action_of d s.
Proof.
  intros [rt H]. rewrite action_on_route. destruct (decide (s = r)); [|done]. by rewrite H.
Qed.

Lemma path_config_books d d' p l : same_books d d' -> path_config path d' p l = path_config path d p l.
Proof.
  intros H. unfold path_config, ConstructRouteConfig. by rewrite (sb_nlri _ _ H), (sb_family _ _ H).
Qed.

(** ** One path of each group *)

(** The state of the pass: [reps] are the paths chosen so far, those that were not
    installed before are new. *)
Definition is_new (d0 : Destination) (p : ptr) : bool := bool_decide (dest_ecmpPaths d0 !! p = None).

Definition chosen_action (a : RouteAction) : bool :=
  match a with RouteActionAdd | RouteActionReplace => true | _ => false end.

Record pass_inv (d0 d : Destination) (reps : list ptr) : Prop := mkPassInv {
  pass_books : same_books d0 d;
  pass_loc : LocRibPath d = LocRibPath d0;
  pass_recalc : recalculate d = recalculate d0;
  pass_ecmp p r : dest_ecmpPaths d !! p = Some r <->
    dest_ecmpPaths d0 !! p = Some r \/
    dest_ecmpPaths d0 !! p = None /\ p ∈ reps /\ pathRouteMap d0 !! p = Some r;
  pass_reps p : p ∈ reps -> is_Some (dest_ecmpPaths d !! p);
  pass_action p r : dest_ecmpPaths d !! p = Some r ->
    exists a, action_of d r = Some a /\ chosen_action a = bool_decide (p ∈ reps);
}.

Lemma pass_route d0 d reps p r :
  dest_inv d0 -> pass_inv d0 d reps -> dest_ecmpPaths d !! p = Some r ->
  exists rt, routes d !! r = Some rt /\ route_path rt = p.
Proof.
  intros I J H. assert (exists rt, routes d0 !! r = Some rt /\ route_path rt = p) as (rt & H1 & H2).
  { apply (pass_ecmp _ _ _ J) in H as [H|(_ & _ & H)].
    - destruct (inv_ecmp _ _ _ I p r H) as (rt & ? & ? & _). eauto.
    - by apply (inv_back _ _ _ I). }
  destruct (same_books_route _ _ r rt (pass_books _ _ _ J) H1) as (rt' & H3 & H4).
  exists rt'. split; [done|]. unfold shape in H4. congruence.
Qed.

Lemma pass_unique d0 d reps p q r :
  dest_inv d0 -> pass_inv d0 d reps -> dest_ecmpPaths d !! p = Some r -> dest_ecmpPaths d !! q = Some r -> p = q.
Proof.
  intros I J Hp Hq. destruct (pass_route _ _ _ _ _ I J Hp) as (rt & H1 & H2).
  destruct (pass_route _ _ _ _ _ I J Hq) as (rt' & H3 & H4). congruence.
Qed.

Lemma find_installed_Some d idx g p r :
  find_installed d idx g = Some (p, r) ->
  p ∈ g /\ dest_ecmpPaths d !! p = Some r /\ (idx = 0 -> g !! 0%nat = Some p).
Proof.
  unfold find_installed. destruct (List.find _ _) as [q|] eqn:E; [|done].
  apply List.find_some in E as [Hin Hq]. destruct (dest_ecmpPaths d !! q) as [s|] eqn:Es; [|done].
  intros [= <- <-]. apply list_elem_of_In in Hin. destruct (idx =? 0) eqn:E0.
  - destruct g as [|x g]; [inversion Hin|]. cbn in Hin. apply list_elem_of_singleton in Hin as ->.
    split_and!; [left|done|done].
  - split_and!; [done|done|lia].
Qed.

Lemma find_installed_None d idx g p :
  find_installed d idx g = None -> g !! 0%nat = Some p -> dest_ecmpPaths d !! p = None.
Proof.
  unfold find_installed. intros H Hg. destruct g as [|x g]; [done|]. injection Hg as ->.
  destruct (dest_ecmpPaths d !! p) as [r|] eqn:E; [|done]. exfalso. revert H.
  assert (exists k, (if idx =? 0 then take 1 (p :: g) else p :: g) = p :: k) as [k ->]
    by (destruct (idx =? 0); by eexists).
  cbn [List.find]. rewrite E. rewrite bool_decide_eq_true_2 by done. by rewrite E.
Qed.

(** A call that marks the route of a path as chosen. *)
Lemma pass_choose d0 d reps p r a d' :
  dest_inv d0 -> pass_inv d0 d reps -> chosen_action a = true ->
  same_books d d' -> LocRibPath d' = LocRibPath d -> recalculate d' = recalculate d ->
  (forall q s, dest_ecmpPaths d' !! q = Some s <-> dest_ecmpPaths d !! q = Some s \/ q = p /\ s = r) ->
  (dest_ecmpPaths d !! p = Some r \/ dest_ecmpPaths d !! p = None /\ pathRouteMap d !! p = Some r) ->
  (forall s, action_of d' s = if decide (s = r) then Some a else action_of d s) ->
  pass_inv d0 d' (reps ++ [p]).
Proof.
  intros I J Ha Hb Hl Hrc He Hp Hact. pose proof (pass_books _ _ _ J) as Hb0.
  assert (forall q s, dest_ecmpPaths d' !! q = Some s <->
    dest_ecmpPaths d0 !! q = Some s \/
    dest_ecmpPaths d0 !! q = None /\ q ∈ reps ++ [p] /\ pathRouteMap d0 !! q = Some s) as He'.
  { intros q s. rewrite He, (pass_ecmp _ _ _ J). rewrite elem_of_app, list_elem_of_singleton. split.
    - intros [[H|(? & ? & ?)]|[-> ->]]; [by left|by right; split_and!; auto|].
      destruct Hp as [Hp|[Hp1 Hp2]].
      + apply (pass_ecmp _ _ _ J) in Hp as [Hp|(? & ? & ?)]; [by left|right; split_and!; auto].
      + right. rewrite (sb_routes _ _ Hb0) in Hp2. split_and!; [|by right|done].
        destruct (dest_ecmpPaths d0 !! p) as [s|] eqn:E; [|done].
        enough (dest_ecmpPaths d !! p = Some s) by congruence. apply (pass_ecmp _ _ _ J). by left.
    - intros [H|(H1 & [H2 | ->] & H3)]; [by left; left|left; right; done|].
      right. split; [done|]. destruct Hp as [Hp|[_ Hp2]].
      + apply (pass_ecmp _ _ _ J) in Hp as [|(_ & _ & ?)]; congruence.
      + rewrite (sb_routes _ _ Hb0) in Hp2. congruence. }
  split; [by etrans|by rewrite Hl; apply J|by rewrite Hrc; apply J|exact He'| |].
  - intros q [Hq|Hq]%elem_of_app.
    + destruct (pass_reps _ _ _ J q Hq) as [s Hs]. exists s. apply He. by left.
    + apply list_elem_of_singleton in Hq as ->. exists r. apply He. by right.
  - assert (forall q, dest_ecmpPaths d !! q = Some r -> q = p) as Hu.
    { intros q Hq. destruct Hp as [Hp|[_ Hp]]; [by apply (pass_unique d0 d reps q p r)|].
      destruct (pass_route _ _ _ _ _ I J Hq) as (rt & H1 & H2). rewrite (sb_routes _ _ Hb0) in Hp.
      destruct (inv_back _ _ _ I p r Hp) as (rt0 & H3 & H4).
      destruct (same_books_route _ _ r rt0 Hb0 H3) as (rt1 & H5 & H6). unfold shape in H6. congruence. }
    intros q s [Hq|[-> ->]]%He.
    + rewrite Hact. destruct (decide (s = r)) as [->|Hne].
      * exists a. split; [done|]. rewrite (Hu q Hq), Ha. symmetry. apply bool_decide_eq_true_2. set_solver.
      * destruct (pass_action _ _ _ J q s Hq) as (b & Hb1 & Hb2). exists b. split; [done|]. rewrite Hb2.
        apply bool_decide_ext. rewrite elem_of_app, list_elem_of_singleton. split; [tauto|].
        intros [|E]; [done|]. subst q. exfalso. apply Hne.
        destruct Hp as [Hp|[Hp _]]; congruence.
    + exists a. rewrite Hact, decide_True by done. split; [done|]. rewrite Ha. symmetry.
      apply bool_decide_eq_true_2. set_solver.
Qed.

(** What the code relies on for a path it gives to the route manager: the mask of the
    prefix can be made and the next hop of the path is known. *)
Definition configurable (d : Destination) (ipLength : Z) (p : ptr) : Prop :=
  exists cfg, path_config path d p ipLength = Ok cfg.

Lemma configurable_inv d ipLength p :
  configurable d ipLength p ->
  (exists m, constructNetmaskFromLen (pfx_Length (NLRI_IPPrefix (dest_NLRI d))) (ipLength * 8) = Ok m) /\
  is_Some (GetReachability (path p) (protoFamily d)).
Proof.
  intros [cfg H]. unfold path_config, ConstructRouteConfig in H.
  destruct (GetReachability _ _); [|done]. res_simpl. split; [|done].
  destruct (constructNetmaskFromLen _ _) as [m| | |]; try done. by exists m.
Qed.

(** The new paths among those chosen that the route manager is told of. *)
Definition new_fib (d0 : Destination) (ps : list ptr) : list ptr :=
  filter (fun p => is_new d0 p && is_fib_path path p = true) ps.

Lemma install_group_ok ipLength idx g p0 d0 reps s :
  dest_inv d0 -> pass_inv d0 (ins_dest s) reps -> g !! 0%nat = Some p0 ->
  (forall p, p ∈ g -> ~ p ∈ reps) -> is_Some (pathRouteMap d0 !! p0) ->
  (forall p, p ∈ g -> is_fib_path path p = true -> configurable d0 ipLength p) ->
  exists s' p,
    install_group path ipLength idx g s = Ok s' /\ p ∈ g /\ (idx = 0 -> p = p0) /\
    pass_inv d0 (ins_dest s') (reps ++ [p]) /\
    createRibRoutes s' = createRibRoutes s ++ new_fib d0 [p] /\
    firstRoute s' = firstRoute s && is_new d0 p /\
    locRibAction s' = (if idx =? 0 then
      if is_new d0 p then RouteActionAdd
      else if IsAggregate (path p) then RouteActionReplace else locRibAction s
      else locRibAction s).
Proof.
  intros I J Hg0 Hdis [r0 Hr0] Hcfg. destruct s as [d act first added updated create]. cbn [ins_dest] in J.
  pose proof (pass_books _ _ _ J) as Hb. unfold install_group.
  destruct (find_installed d idx g) as [[p r]|] eqn:E.
  - apply find_installed_Some in E as (Hp & Hpr & H0).
    set (d' := if negb (idx =? 0) then _ else _).
    exists (mkInstalled d' (if (idx =? 0) && IsAggregate (path p) then RouteActionReplace else act) false
      added (updated ++ [r]) create), p.
    assert (dest_ecmpPaths d0 !! p = Some r) as Hold.
    { apply (pass_ecmp _ _ _ J) in Hpr as [|(_ & Hin & _)]; [done|]. by destruct (Hdis p Hp). }
    assert (is_new d0 p = false) as Hnew by (unfold is_new; rewrite Hold; done).
    destruct (pass_route _ _ _ _ _ I J Hpr) as (rt & Hrt & _).
    split_and!; [done|done| | | | |].
    + intros ->. rewrite (H0 eq_refl) in Hg0. congruence.
    + cbn [ins_dest]. apply (pass_choose d0 d reps p r RouteActionReplace d' I J); try done.
      * unfold d'. destruct (negb _); [etrans; [|by apply on_route_books]|]; by apply on_route_books.
      * unfold d'. by destruct (negb _).
      * unfold d'. by destruct (negb _).
      * intros q s. unfold d'. destruct (negb _); cbn; (split; [by left|intros [|[-> ->]]; done]).
      * by left.
      * intros s. unfold d'. destruct (negb _); unfold ResetBestPath; rewrite ?action_on_PathInfo;
          by apply action_setAction; exists rt.
    + unfold new_fib. rewrite filter_cons_False by (by rewrite Hnew). by rewrite app_nil_r.
    + by rewrite Hnew, andb_false_r.
    + rewrite Hnew. cbn. by destruct (idx =? 0).
  - pose proof (find_installed_None d idx g p0 E Hg0) as Hnone.
    assert (p0 ∈ g) as Hp by (by eapply list_elem_of_lookup_2).
    assert (index g 0 = Ok p0) as -> by (unfold index; change (Z.to_nat 0) with 0%nat; by rewrite Hg0).
    res_simpl. rewrite (sb_routes _ _ Hb), Hr0.
    assert (is_new d0 p0 = true) as Hnew.
    { apply bool_decide_eq_true_2. destruct (dest_ecmpPaths d0 !! p0) as [r|] eqn:Er; [|done].
      enough (dest_ecmpPaths d !! p0 = Some r) by congruence. apply (pass_ecmp _ _ _ J). by left. }
    destruct (inv_back _ _ _ I p0 r0 Hr0) as (rt0 & Hrt0 & _).
    destruct (same_books_route _ _ _ _ Hb Hrt0) as (rt & Hrt & _).
    set (d1 := on_route SetMultiPath r0 (on_route (setAction RouteActionAdd) r0 d)).
    assert (same_books d d1) as Hb1.
    { unfold d1. etrans; [|by apply on_route_books]. by apply on_route_books. }
    assert ((if is_fib_path path p0 then
        _ ← constructNetmaskFromLen (pfx_Length (NLRI_IPPrefix (dest_NLRI d1))) (ipLength * 8);
        _ ← of_option (GetReachability (path p0) (protoFamily d1)); Ok (create ++ [p0])
      else Ok create) = Ok (create ++ new_fib d0 [p0])) as ->.
    { unfold new_fib. destruct (is_fib_path path p0) eqn:Ef.
      - destruct (configurable_inv d0 ipLength p0) as [[m Hm] [i Hi]]; [by apply Hcfg|].
        rewrite (sb_nlri _ _ Hb1), (sb_nlri _ _ Hb), (sb_family _ _ Hb1), (sb_family _ _ Hb), Hm.
        res_simpl. rewrite Hi. res_simpl. rewrite filter_cons_True by (by rewrite Hnew, Ef). done.
      - rewrite filter_cons_False by (by rewrite Ef, andb_false_r). by rewrite app_nil_r. }
    res_simpl.
    destruct (if idx =? 0 then _ else _) as [act' d2] eqn:Ed.
    assert (same_books d d2 /\ LocRibPath d2 = LocRibPath d /\ recalculate d2 = recalculate d /\
      dest_ecmpPaths d2 = dest_ecmpPaths d /\
      (forall s, action_of d2 s = action_of d1 s) /\ act' = (if idx =? 0 then RouteActionAdd else act))
      as (Hb2 & Hl2 & Hrc2 & He2 & Ha2 & ->).
    { destruct (idx =? 0); injection Ed as <- <-; split_and!; try done.
      - etrans; [exact Hb1|by apply on_route_books].
      - intros s. apply action_on_PathInfo. }
    eexists _, p0. split; [done|]. split; [done|]. split; [done|]. cbn [ins_dest createRibRoutes firstRoute locRibAction].
    split_and!; [|done|by rewrite Hnew, andb_true_r|by rewrite Hnew; destruct (idx =? 0)].
    apply (pass_choose d0 d reps p0 r0 RouteActionAdd _ I J); try done.
    + etrans; [exact Hb2|apply same_books_set_ecmpPaths].
    + intros q s. cbn. rewrite He2, lookup_insert_Some. split.
      * intros [[-> ->]|[? ?]]; [by right|by left].
      * intros [H|[-> ->]]; [|by left]. right. split; [|done]. intros ->. congruence.
    + right. split; [done|]. by rewrite (sb_routes _ _ Hb).
    + intros s. change (action_of (set_ecmpPaths _ d2) s) with (action_of d2 s). rewrite Ha2.
      unfold d1, SetMultiPath.
      rewrite action_on_PathInfo. by apply action_setAction; exists rt.
Qed.

(** The first route sent is created if nothing was installed before. *)
Lemma install_groups_ok ipLength idx groups d0 reps s :
  dest_inv d0 -> pass_inv d0 (ins_dest s) reps -> 0 <= idx ->
  Forall (fun g => exists p0, g !! 0%nat = Some p0 /\ is_Some (pathRouteMap d0 !! p0)) groups ->
  NoDup (mjoin groups) -> (forall p, p ∈ mjoin groups -> ~ p ∈ reps) ->
  (forall p, p ∈ mjoin groups -> is_fib_path path p = true -> configurable d0 ipLength p) ->
  exists s' reps',
    install_groups path ipLength idx groups s = Ok s' /\
    Forall2 (fun p g => p ∈ g) reps' groups /\
    (idx = 0 -> forall p0 g gs, groups = (p0 :: g) :: gs -> reps' !! 0%nat = Some p0 /\
       locRibAction s' = if is_new d0 p0 then RouteActionAdd
         else if IsAggregate (path p0) then RouteActionReplace else locRibAction s) /\
    pass_inv d0 (ins_dest s') (reps ++ reps') /\
    createRibRoutes s' = createRibRoutes s ++ new_fib d0 reps' /\
    firstRoute s' = firstRoute s && forallb (is_new d0) reps' /\
    (0 < idx -> locRibAction s' = locRibAction s).
Proof.
  intros I. revert idx reps s. induction groups as [|g groups IH]; intros idx reps s J Hidx Hg Hn Hdis Hcfg.
  { exists s, []. cbn. split_and!; try done; by rewrite ?app_nil_r, ?andb_true_r. }
  apply Forall_cons in Hg as [(p0 & Hg0 & Hr0) Hg]. cbn in Hn. apply NoDup_app in Hn as (_ & Hgd & Hn).
  cbn [mjoin list_join] in Hdis, Hcfg.
  destruct (install_group_ok ipLength idx g p0 d0 reps s I J Hg0)
    as (s1 & p & E & Hp & Hp0 & J1 & C1 & F1 & A1).
  { intros p Hp. apply Hdis. cbn. apply elem_of_app. by left. }
  { done. }
  { intros p Hp. apply Hcfg. cbn. apply elem_of_app. by left. }
  cbn [install_groups]. rewrite E. res_simpl.
  destruct (IH (idx + 1) (reps ++ [p]) s1) as (s' & reps' & -> & H1 & _ & H3 & H4 & H5 & H6); try done; try lia.
  { intros q Hq [Hin|Hin]%elem_of_app.
    - eapply Hdis; [|exact Hin]. cbn. apply elem_of_app. by right.
    - apply list_elem_of_singleton in Hin as ->. by eapply Hgd. }
  { intros q Hq. apply Hcfg. cbn. apply elem_of_app. by right. }
  exists s', (p :: reps'). split; [done|]. split; [by constructor|]. split; [|split_and!].
  - intros -> q g' gs' [= -> ->]. cbn in Hg0. injection Hg0 as ->. rewrite (Hp0 eq_refl).
    split; [done|]. rewrite H6 by lia. rewrite A1. cbn. by rewrite (Hp0 eq_refl).
  - by rewrite <- (assoc_L (++)) in H3.
  - rewrite H4, C1, <- (assoc_L (++)). f_equal. unfold new_fib. by rewrite (filter_app _ [p] reps').
  - rewrite H5, F1. cbn. by rewrite andb_assoc.
  - intros Hpos. rewrite H6 by lia. rewrite A1. by rewrite (proj2 (Z.eqb_neq idx 0)) by lia.
Qed.

(** ** What is no longer wanted *)

Definition kept (d : Destination) (r : ptr) : bool :=
  match action_of d r with Some a => chosen_action a | None => false end.

Definition gone (d : Destination) (l : list (ptr * ptr)) : list (ptr * ptr) :=
  filter (fun e => kept d e.2 = false) l.

Lemma gone_ext d d' l : (forall p r, (p, r) ∈ l -> kept d' r = kept d r) -> gone d' l = gone d l.
Proof. intros H. apply filter_ext_in. intros [p r] Hin. cbn. by rewrite (H p r Hin). Qed.

(** The commands that take the routes of these paths out. *)
Definition remove_cmds (d : Destination) (ipLength : Z) (ps : list ptr) (cmds : list RouteCmd) : Prop :=
  exists cfgs, Forall2 (fun p cfg => path_config path d p ipLength = Ok cfg) ps cfgs /\
    cmds = map (fun cfg => UpdateRoute cfg "remove"%string) cfgs.

Definition fib_paths (l : list (ptr * ptr)) : list ptr :=
  filter (fun p => is_fib_path path p = true) (map fst l).

Record swept (l : list (ptr * ptr)) (d d' : Destination) : Prop := mkSwept {
  swept_books : same_books d d';
  swept_loc : LocRibPath d' = LocRibPath d;
  swept_loc_route : LocRibPathRoute d' = LocRibPathRoute d;
  swept_recalc : recalculate d' = recalculate d;
  swept_ecmp p r : dest_ecmpPaths d' !! p = Some r <->
    dest_ecmpPaths d !! p = Some r /\ ((p, r) ∈ l -> kept d r = true);
  swept_kept p r : (p, r) ∈ l -> kept d r = true -> action_of d' r = Some RouteActionNone;
  swept_other s : ~ s ∈ map snd l -> action_of d' s = action_of d s;
}.

Lemma sweep_ok ipLength l d deleted cmds :
  NoDup (map fst l) -> NoDup (map snd l) ->
  (forall p r, (p, r) ∈ l -> dest_ecmpPaths d !! p = Some r /\ is_Some (routes d !! r)) ->
  (forall p r, (p, r) ∈ gone d l -> is_fib_path path p = true -> configurable d ipLength p) ->
  exists d' new, sweep path ipLength l d deleted cmds = Ok (d', deleted ++ map snd (gone d l), cmds ++ new) /\
    swept l d d' /\ remove_cmds d ipLength (fib_paths (gone d l)) new.
Proof.
  revert d deleted cmds. induction l as [|[p r] l IH]; intros d deleted cmds Hn1 Hn2 Hl Hcfg.
  { exists d, []. cbn. rewrite !app_nil_r. split_and!; [done| |by exists []].
    split; try done; intros q s.
    - split; [intros ?; split; [done|intros Hin; inversion Hin]|by intros []].
    - intros Hin. inversion Hin. }
  cbn [map fst snd] in Hn1, Hn2. apply NoDup_cons in Hn1 as [Hp Hn1]. apply NoDup_cons in Hn2 as [Hr Hn2].
  destruct (Hl p r) as [Hpr [rt Hrt]]; [left|].
  assert (action_of d r = Some (action rt)) as Ha by (unfold action_of; by rewrite Hrt).
  assert (kept d r = chosen_action (action rt)) as Hk by (unfold kept; by rewrite Ha).
  assert (forall q s, (q, s) ∈ l -> q <> p /\ s <> r) as Hne.
  { intros q s Hin. split; intros ->; [apply Hp|apply Hr]; apply list_elem_of_fmap; by eexists (_, _). }
  cbn [sweep]. unfold route_at. rewrite Hrt. res_simpl.
  destruct (chosen_action (action rt)) eqn:Ec.
  - assert (bool_decide (action rt = RouteActionNone) || bool_decide (action rt = RouteActionDelete) = false) as ->
      by (by destruct (action rt)).
    set (d1 := on_route (setAction RouteActionNone) r d).
    assert (forall s, action_of d1 s = if decide (s = r) then Some RouteActionNone else action_of d s) as Ha1
      by (intros s; by apply action_setAction; exists rt).
    assert (same_books d d1) as Hb1 by (by apply on_route_books).
    assert (gone d1 l = gone d l) as Hg1.
    { apply gone_ext. intros q s Hin. unfold kept. rewrite Ha1, decide_False; [done|by eapply Hne]. }
    assert (gone d ((p, r) :: l) = gone d l) as Hg by (unfold gone; rewrite filter_cons_False; [done|cbn; by rewrite Hk]).
    rewrite Hg in *.
    destruct (IH d1 deleted cmds Hn1 Hn2) as (d' & new & -> & S & C).
    { intros q s Hin. destruct (Hl q s) as [H1 [rt1 H2]]; [by right|]. split; [done|].
      destruct (same_books_route _ _ _ _ Hb1 H2) as (rt2 & H3 & _). by exists rt2. }
    { rewrite Hg1. intros q s Hin Hf. unfold configurable. rewrite (path_config_books d d1) by done. by eapply Hcfg. }
    rewrite Hg1 in *. exists d', new. split; [done|]. split.
    + split; [etrans; [exact Hb1|apply S]|by rewrite (swept_loc _ _ _ S)
        |by rewrite (swept_loc_route _ _ _ S)|by rewrite (swept_recalc _ _ _ S)| | |].
      * intros q s. rewrite (swept_ecmp _ _ _ S). change (dest_ecmpPaths d1) with (dest_ecmpPaths d).
        split; intros [H1 H2]; (split; [done|]).
        -- intros [[= -> ->]|Hin]%elem_of_cons; [by rewrite Hk|]. specialize (H2 Hin).
           unfold kept in *. rewrite Ha1, decide_False in H2; [done|by eapply Hne].
        -- intros Hin. unfold kept. rewrite Ha1, decide_False by (by eapply Hne). apply H2. by right.
      * intros q s [[= -> ->]|Hin]%elem_of_cons Hks.
        -- rewrite (swept_other _ _ _ S) by done. by rewrite Ha1, decide_True.
        -- apply (swept_kept _ _ _ S q); [done|]. unfold kept. by rewrite Ha1, decide_False by (by eapply Hne).
      * intros s Hs. cbn [map snd] in Hs. rewrite (swept_other _ _ _ S) by set_solver.
        rewrite Ha1, decide_False by set_solver. done.
    + destruct C as (cfgs & H1 & H2). exists cfgs. split; [|done].
      eapply Forall2_impl; [exact H1|]. cbn. intros q c. by rewrite (path_config_books d d1).
  - assert (bool_decide (action rt = RouteActionNone) || bool_decide (action rt = RouteActionDelete) = true) as ->
      by (by destruct (action rt)).
    set (d1 := set_ecmpPaths (delete p (dest_ecmpPaths (on_route ResetMultiPath r (on_route ResetBestPath r d))))
      (on_route ResetMultiPath r (on_route ResetBestPath r d))).
    assert (forall s, action_of d1 s = action_of d s) as Ha1.
    { intros s. unfold d1. change (action_of (set_ecmpPaths ?v ?x) s) with (action_of x s).
      unfold ResetMultiPath, ResetBestPath. by rewrite !action_on_PathInfo. }
    assert (same_books d d1) as Hb1.
    { unfold d1. etrans; [|apply same_books_set_ecmpPaths]. etrans; by apply on_route_books. }
    assert (gone d1 l = gone d l) as Hg1.
    { apply gone_ext. intros q s Hin. unfold kept. by rewrite Ha1. }
    assert (gone d ((p, r) :: l) = (p, r) :: gone d l) as Hg by (unfold gone; by rewrite filter_cons_True).
    rewrite Hg in *.
    assert (exists new0, (if is_fib_path path p then
        cfg ← path_config path d p ipLength; Ok (cmds ++ [UpdateRoute cfg "remove"%string]) else Ok cmds) =
        Ok (cmds ++ new0) /\ remove_cmds d ipLength (fib_paths [(p, r)]) new0) as (new0 & -> & C0).
    { unfold fib_paths. cbn. destruct (is_fib_path path p) eqn:Ef.
      - destruct (Hcfg p r) as [cfg E]; [left|done|]. rewrite E. res_simpl.
        eexists. split; [done|]. rewrite decide_True by done. exists [cfg]. by repeat constructor.
      - exists []. rewrite app_nil_r, decide_False by done. split; [done|]. by exists []. }
    res_simpl. fold d1.
    destruct (IH d1 (deleted ++ [r]) (cmds ++ new0) Hn1 Hn2) as (d' & new & -> & S & C).
    { intros q s Hin. destruct (Hl q s) as [H1 [rt1 H2]]; [by right|].
      destruct (Hne q s Hin) as [Hqp _]. split; [by cbn; rewrite lookup_delete_ne|].
      destruct (same_books_route _ _ _ _ Hb1 H2) as (rt2 & H3 & _). by exists rt2. }
    { rewrite Hg1. intros q s Hin Hf. unfold configurable. rewrite (path_config_books d d1) by done.
      apply (Hcfg q s); [by right|done]. }
    rewrite Hg1 in *. exists d', (new0 ++ new). rewrite <- !(assoc_L (++)). split; [done|]. split.
    + split; [etrans; [exact Hb1|apply S]|by rewrite (swept_loc _ _ _ S)
        |by rewrite (swept_loc_route _ _ _ S)|by rewrite (swept_recalc _ _ _ S)| | |].
      * intros q s. rewrite (swept_ecmp _ _ _ S). cbn. rewrite lookup_delete_Some. unfold kept. setoid_rewrite Ha1.
        split.
        -- intros [[H0 H1] H2]. split; [done|]. intros [[= -> ->]|Hin]%elem_of_cons; [done|by apply H2].
        -- intros [H1 H2]. split_and!; [|done|].
           ++ intros ->. assert (s = r) as -> by congruence. specialize (H2 (list_elem_of_here _ _)).
              rewrite Ha in H2. by rewrite Ec in H2.
           ++ intros Hin. apply H2. by right.
      * intros q s [[= -> ->]|Hin]%elem_of_cons Hks; [by rewrite Hk in Hks|].
        apply (swept_kept _ _ _ S q); [done|]. unfold kept. by rewrite Ha1.
      * intros s Hs. cbn [map snd] in Hs. rewrite (swept_other _ _ _ S) by set_solver. apply Ha1.
    + destruct C0 as (cf0 & F0 & ->), C as (cf & F & ->). exists (cf0 ++ cf). split; [|by rewrite map_app].
      unfold fib_paths in *. change (map fst ((p, r) :: gone d l)) with ([p] ++ map fst (gone d l)).
      rewrite filter_app. apply Forall2_app; [done|].
      eapply Forall2_impl; [exact F|]. cbn. intros q c. by rewrite (path_config_books d d1).
Qed.

(** The commands for the new routes: the first creates the route when nothing was
    installed. *)
Definition add_cmds (first : bool) (cfgs : list RouteConfig) : list RouteCmd :=
  match cfgs with
  | [] => []
  | cfg :: cfgs =>
    (if first then CreateRoute cfg else UpdateRoute cfg "add"%string) ::
    map (fun cfg => UpdateRoute cfg "add"%string) cfgs
  end.

Lemma create_routes_ok ipLength d first ps cmds :
  Forall (configurable d ipLength) ps ->
  exists cfgs, create_routes path ipLength d first ps cmds = Ok (cmds ++ add_cmds first cfgs) /\
    Forall2 (fun p cfg => path_config path d p ipLength = Ok cfg) ps cfgs.
Proof.
  intros H. revert first cmds. induction H as [|p ps [cfg Hp] H IH]; intros first cmds; cbn [create_routes].
  { exists []. by rewrite app_nil_r. }
  rewrite Hp. res_simpl. destruct (IH false (cmds ++ [if first then CreateRoute cfg else UpdateRoute cfg "add"%string]))
    as (cfgs & -> & F).
  exists (cfg :: cfgs). split; [|by constructor]. rewrite <- (assoc_L (++)). by destruct cfgs.
Qed.

(** ** The whole selection *)

Lemma sweep_all ipLength d cmds :
  (forall p r, dest_ecmpPaths d !! p = Some r -> exists rt, routes d !! r = Some rt /\ route_path rt = p) ->
  let l := range env (map_to_list (dest_ecmpPaths d)) in
  (forall p r, (p, r) ∈ gone d l -> is_fib_path path p = true -> configurable d ipLength p) ->
  exists d' new, sweep path ipLength l d [] cmds = Ok (d', map snd (gone d l), cmds ++ new) /\
    swept l d d' /\ remove_cmds d ipLength (fib_paths (gone d l)) new /\ NoDup (fib_paths (gone d l)) /\
    (forall e, e ∈ l <-> dest_ecmpPaths d !! e.1 = Some e.2).
Proof.
  intros Hr l Hcfg.
  assert (forall e, e ∈ l <-> dest_ecmpPaths d !! e.1 = Some e.2) as Hl.
  { intros [p r]. unfold l. rewrite (range_perm _ Henv). apply elem_of_map_to_list. }
  assert (NoDup (map fst l)) as Hn1.
  { unfold l. rewrite (range_perm _ Henv). apply NoDup_fst_map_to_list. }
  assert (NoDup (map snd l)) as Hn2.
  { apply NoDup_fmap_2_strong; [|by eapply NoDup_fmap_1].
    intros [p r] [q s] H1%Hl H2%Hl. cbn in *. intros <-.
    destruct (Hr p r H1) as (rt & E1 & E2). destruct (Hr q r H2) as (rt' & E3 & E4). congruence. }
  destruct (sweep_ok ipLength l d [] cmds Hn1 Hn2) as (d' & new & E & S & C).
  { intros p r H%Hl. split; [done|]. destruct (Hr p r H) as (rt & ? & _). by exists rt. }
  { done. }
  exists d', new. split_and!; try done. unfold fib_paths, gone. apply NoDup_filter.
  clear -Hn1. induction l as [|[p r] l IH]; [constructor|]. apply NoDup_cons in Hn1 as [Hp Hn1].
  rewrite filter_cons. destruct (decide _); [|by apply IH]. cbn. constructor; [|by apply IH].
  intros Hx. apply list_elem_of_fmap in Hx as (x & Hx & Hin). apply list_elem_of_filter in Hin as [_ Hin].
  apply Hp. apply list_elem_of_fmap. by exists x.
Qed.

Lemma updateAddPaths_ok addPaths d :
  let d' := (updateAddPaths addPaths d).2 in
  same_books d d' /\ dest_ecmpPaths d' = dest_ecmpPaths d /\ LocRibPath d' = LocRibPath d /\
  recalculate d' = recalculate d /\ AddPaths d' = addPaths /\ forall s, action_of d' s = action_of d s.
Proof.
  cbn zeta. unfold updateAddPaths. case_bool_decide as E; [by split_and!|]. cbn [snd].
  assert (forall f ps d, same_books d (foldl (fun d p => on_path_route (on_PathInfo f) p d) d ps) /\
    dest_ecmpPaths (foldl (fun d p => on_path_route (on_PathInfo f) p d) d ps) = dest_ecmpPaths d /\
    LocRibPath (foldl (fun d p => on_path_route (on_PathInfo f) p d) d ps) = LocRibPath d /\
    recalculate (foldl (fun d p => on_path_route (on_PathInfo f) p d) d ps) = recalculate d /\
    AddPaths (foldl (fun d p => on_path_route (on_PathInfo f) p d) d ps) = AddPaths d /\
    forall s, action_of (foldl (fun d p => on_path_route (on_PathInfo f) p d) d ps) s = action_of d s) as Hf.
  { intros f ps. induction ps as [|p ps IH]; intros d0; [done|]. cbn [foldl].
    destruct (IH (on_path_route (on_PathInfo f) p d0)) as (H1 & H2 & H3 & H4 & H5 & H6).
    split_and!.
    - etrans; [|exact H1]. by apply on_path_route_books.
    - rewrite H2. unfold on_path_route. by destruct (_ !! _).
    - rewrite H3. unfold on_path_route. by destruct (_ !! _).
    - rewrite H4. unfold on_path_route. by destruct (_ !! _).
    - rewrite H5. unfold on_path_route. by destruct (_ !! _).
    - intros s. rewrite H6. unfold on_path_route. destruct (_ !! _); [|done]. apply action_on_PathInfo. }
  unfold ResetAdditionalPath, SetAdditionalPath.
  destruct (Hf (set_AdditionalPath false) (AddPaths d) d) as (A1 & A2 & A3 & A4 & A5 & A6).
  set (d1 := foldl _ d (AddPaths d)) in *.
  destruct (Hf (set_AdditionalPath true) addPaths (set_AddPaths addPaths d1)) as (B1 & B2 & B3 & B4 & B5 & B6).
  split_and!.
  - etrans; [exact A1|]. etrans; [|exact B1]. by split.
  - by rewrite B2.
  - by rewrite B3.
  - by rewrite B4.
  - by rewrite B5.
  - intros s. by rewrite B6, <- A6.
Qed.

Lemma mark_deleted_ok d :
  dest_inv d ->
  same_books d (mark_deleted env d) /\ dest_ecmpPaths (mark_deleted env d) = dest_ecmpPaths d /\
  LocRibPath (mark_deleted env d) = None /\ recalculate (mark_deleted env d) = recalculate d /\
  (forall p r, dest_ecmpPaths d !! p = Some r -> action_of (mark_deleted env d) r = Some RouteActionDelete).
Proof.
  intros I. unfold mark_deleted.
  assert (forall rs d, let d' := foldl (fun d r => on_route (setAction RouteActionDelete) r d) d rs in
    same_books d d' /\ dest_ecmpPaths d' = dest_ecmpPaths d /\ recalculate d' = recalculate d /\
    forall r, is_Some (routes d !! r) -> r ∈ rs \/ action_of d r = Some RouteActionDelete ->
      action_of d' r = Some RouteActionDelete) as Hf.
  { cbn zeta. intros rs. induction rs as [|r0 rs IH]; intros d0; cbn [foldl].
    { split_and!; try done. intros r _ [H|]; [inversion H|done]. }
    destruct (IH (on_route (setAction RouteActionDelete) r0 d0)) as (H1 & H2 & H3 & H4).
    split_and!; [etrans; [|exact H1]; by apply on_route_books|done|done|].
    intros r Hr Hin. apply H4.
    - cbn. destruct (decide (r = r0)) as [->|]; [rewrite lookup_alter_eq|by rewrite lookup_alter_ne].
      destruct Hr as [? ->]. by eexists.
    - rewrite elem_of_cons in Hin. rewrite action_on_route.
      destruct (decide (r = r0)) as [->|]; [|tauto]. right. destruct Hr as [? ->]. done. }
  destruct (Hf (map snd (range env (map_to_list (dest_ecmpPaths d)))) d) as (H1 & H2 & H3 & H4).
  split_and!; [etrans; [exact H1|by split]|done|done|done|].
  intros p r H. destruct (inv_ecmp _ _ _ I p r H) as (rt & Hr & _).
  change (action_of (set_LocRibPath None ?x) r) with (action_of x r). apply H4; [by exists rt|]. left.
  apply list_elem_of_fmap. exists (p, r). split; [done|]. rewrite (range_perm _ Henv).
  by apply elem_of_map_to_list.
Qed.

(** What the decision process has to be able to compare: one candidate is enough when
    no additional paths are asked for. *)
Definition decidable_candidates (fam L count : Z) (us rs : list ptr) : Prop :=
  0 <= count /\ (len us = 1 /\ count = 0 \/ candidates path fam L us rs).

Lemma mjoin_Forall2 {A} (l : list (list A)) : Forall (fun g => g <> []) l -> forall g, g ∈ l -> exists x, x ∈ g /\ x ∈ mjoin l.
Proof.
  rewrite Forall_forall. intros H g Hg. destruct g as [|x g]; [by destruct (H [])|].
  exists x. split; [left|]. apply list_elem_of_join. exists (x :: g). split; [left|done].
Qed.

(** The groups cover paths that are candidates, the best among them. *)
Definition groups_ok (us : list ptr) (best : ptr) (gs : list (list ptr)) : Prop :=
  gs = [] \/ Forall (fun g => g <> []) gs /\ NoDup (mjoin gs) /\ mjoin gs ⊆ us /\ best ∈ mjoin gs.

Lemma grouped_ok fam us qs best gs :
  NoDup qs -> qs ⊆ us -> best ∈ qs -> grouped path fam qs gs -> groups_ok us best gs.
Proof.
  intros Hn Hin Hb Hg. apply grouped_join in Hg as [Hp Hne]. right.
  split_and!; [done|by rewrite Hp|by rewrite Hp|by rewrite Hp].
Qed.

Lemma select_NoDup r ps : NoDup ps -> NoDup (select r ps).
Proof. apply NoDup_filter. Qed.

Lemma multipath_groups_ok fam eb ib us best gs :
  NoDup us -> best ∈ select (fun p => rank (path p)) us -> multipath_spec path fam eb ib us gs ->
  groups_ok us best gs.
Proof.
  intros Hn Hb Hg. rewrite select_rank in Hb. unfold multipath_spec in Hg.
  assert (NoDup (tied path us)) as Hnt by (by do 3 apply select_NoDup).
  assert (tied path us ⊆ us) as Ht
    by (unfold tied, shortest, argmin; repeat (etrans; [apply select_subseteq|]); done).
  apply select_subseteq in Hb. do 2 apply select_subseteq in Hb.
  destruct (eb && ib).
  - destruct (1 <? len (tied path us)); [|by left]. eapply grouped_ok; [exact Hnt|done| |exact Hg].
    by apply select_subseteq in Hb.
  - destruct Hg as (qs & Hq & Hg). destruct (_ && _); [|by left].
    eapply grouped_ok; [| | |exact Hg].
    + rewrite Hq. by apply select_NoDup.
    + rewrite Hq. etrans; [apply select_subseteq|done].
    + by rewrite Hq.
Qed.

Lemma best_and_groups_ok d L count us rs :
  NoDup us -> us <> [] -> decidable_candidates (protoFamily d) L count us rs ->
  exists best rest gs add,
    best_and_groups env gConf path us rs count d = Ok (best :: rest, gs, add) /\
    Permutation (best :: rest) (select (fun p => rank (path p)) us) /\ groups_ok us best gs /\
    NoDup (map (nh path (protoFamily d)) add) /\ add ⊆ us ++ rs.
Proof.
  intros Hn Hne [Hc Hdec]. unfold best_and_groups.
  destruct ((1 <? len us) || (0 <? count)) eqn:E.
  - assert (candidates path (protoFamily d) L us rs) as Hcand.
    { destruct Hdec as [[? ?]|]; [lia|done]. }
    enough (exists eb ib best rest gs add,
      (if UseMultiplePaths gConf then
         calculateBestPath (rib_env env) path (protoFamily d) us rs
           (1 <? EBGPMaxPaths gConf) (1 <? IBGPMaxPaths gConf) count
       else calculateBestPath (rib_env env) path (protoFamily d) us rs false false count) =
        Ok (best :: rest, gs, add) /\ Permutation (best :: rest) (select (fun p => rank (path p)) us) /\
      multipath_spec path (protoFamily d) eb ib us gs /\
      NoDup (map (nh path (protoFamily d)) add) /\ add ⊆ us ++ rs)
      as (eb & ib & best & rest & gs & add & E1 & Hp & Hg & Ha).
    { exists best, rest, gs, add. split_and!; try done; [|apply Ha..].
      apply (multipath_groups_ok (protoFamily d) eb ib); try done. rewrite <- Hp. left. }
    assert (forall eb ib, exists best rest gs add,
      calculateBestPath (rib_env env) path (protoFamily d) us rs eb ib count = Ok (best :: rest, gs, add) /\
      Permutation (best :: rest) (select (fun p => rank (path p)) us) /\
      multipath_spec path (protoFamily d) eb ib us gs /\
      NoDup (map (nh path (protoFamily d)) add) /\ add ⊆ us ++ rs) as Hall.
    { intros eb ib.
      destruct (calculateBestPath_ok path (rib_env env) (protoFamily d) (rib_env_ok _ Henv) L us rs eb ib count Hcand Hc)
        as ([[qs gs] add] & E1 & Hp & Hg & Ha1 & Ha2 & _).
      destruct (select_nonempty_rank path us Hne) as [p Hpin].
      { exists L. apply Hcand. }
      destruct qs as [|best rest]; [rewrite <- Hp in Hpin; inversion Hpin|].
      by exists best, rest, gs, add. }
    destruct (UseMultiplePaths gConf).
    + destruct (Hall (1 <? EBGPMaxPaths gConf) (1 <? IBGPMaxPaths gConf)) as (b & r & g & a & H). by eexists _, _, b, r, g, a.
    + destruct (Hall false false) as (b & r & g & a & H). by eexists _, _, b, r, g, a.
  - destruct us as [|best [|q us]]; [done| |rewrite !len_cons in E; pose proof (len_nonneg us); lia].
    exists best, [], [], []. split_and!; [done|by rewrite select_singleton|by left|apply NoDup_nil_2|intros x Hx; inversion Hx].
Qed.

(** The updated list of groups: the best path heads the first. *)
Lemma removeAndPrepend_groups us best gs :
  NoDup us -> best ∈ us -> groups_ok us best gs ->
  exists rest groups, removeAndPrepend gs best = (best :: rest) :: groups /\
    Forall (fun g => g <> []) ((best :: rest) :: groups) /\
    NoDup (mjoin ((best :: rest) :: groups)) /\ mjoin ((best :: rest) :: groups) ⊆ us.
Proof.
  intros Hn Hb Hg. destruct (removeAndPrepend_ok gs best) as (rest & groups & E & H1 & H2).
  { destruct Hg as [|(_ & _ & _ & ?)]; [by left|by right]. }
  exists rest, groups. split; [done|]. destruct (decide (gs = [])) as [->|Hne].
  - destruct (H1 eq_refl) as [-> ->]. cbn. split_and!; [by repeat constructor|apply NoDup_singleton|].
    intros p ->%list_elem_of_singleton. done.
  - destruct Hg as [|(G1 & G2 & G3 & G4)]; [done|].
    destruct (H2 Hne) as (g & front & back & -> & -> & Hperm).
    assert (Permutation (mjoin ((best :: rest) :: front ++ back)) (mjoin (front ++ g :: back))) as Hj.
    { change (mjoin ((best :: rest) :: front ++ back)) with ((best :: rest) ++ mjoin (front ++ back)).
      rewrite !join_app. cbn [mjoin list_join]. rewrite <- Hperm, !(assoc_L (++)).
      apply Permutation_app_tail, Permutation_app_comm. }
    split_and!.
    + constructor; [done|]. apply Forall_app in G1 as [? [_ ?]%Forall_cons]. by apply Forall_app.
    + by rewrite Hj.
    + by rewrite Hj.
Qed.

Lemma all_paths_NoDup d : NoDup (all_paths env d).
Proof.
  unfold all_paths. assert (NoDup (map fst (range env (map_to_list (peerPathMap d))))) as Hn.
  { rewrite (range_perm _ Henv). apply NoDup_fst_map_to_list. }
  induction (range env (map_to_list (peerPathMap d))) as [|[ip m] l IH]; [constructor|].
  cbn [map fst] in Hn. apply NoDup_cons in Hn as [Hip Hn]. cbn. apply NoDup_app. split_and!.
  - apply (NoDup_fmap_2 (pair ip)). rewrite (range_perm _ Henv). apply NoDup_map_to_list.
  - intros [ip' x] H1%list_elem_of_fmap H2%list_elem_of_join. destruct H1 as (y & [= -> ->] & _).
    destruct H2 as (l' & H3 & ([ip2 m2] & -> & H4)%list_elem_of_fmap).
    apply list_elem_of_fmap in H3 as (z & [= <- <-] & _). apply Hip. apply list_elem_of_fmap.
    by exists (ip, m2).
  - by apply IH.
Qed.

Lemma eligible_NoDup d : dest_inv d -> NoDup (eligible d).
Proof.
  intros I. unfold eligible.
  assert (NoDup (stored_paths d)) as Hs.
  { apply NoDup_fmap_2_strong; [|apply all_paths_NoDup].
    intros [ip [id p]] [ip' [id' q]] H1 H2. apply (elem_all_paths env Henv) in H1, H2. cbn in *. intros <-.
    by destruct (inv_inj _ _ _ I ip id ip' id' p Logic.I Logic.I H1 H2) as [-> ->]. }
  destruct (LocRibPath d) as [p|] eqn:E; [|by apply NoDup_filter].
  cbn. constructor; [|by apply NoDup_filter]. intros [H _]%list_elem_of_filter.
  unfold usable in H. rewrite E, bool_decide_eq_false_2 in H by tauto. done.
Qed.

Lemma eligible_stored d p : dest_inv d -> p ∈ eligible d -> exists ip id, stored d ip id p.
Proof.
  intros I [H|H]%elem_of_app.
  - destruct (LocRibPath d) as [q|] eqn:E; [|inversion H]. apply list_elem_of_singleton in H as ->.
    destruct (inv_loc _ _ _ I q E) as (ip & id & _ & Hs). eauto.
  - apply list_elem_of_filter in H as [_ ([ip [id q]] & -> & H)%list_elem_of_fmap].
    apply (elem_all_paths env Henv) in H. eauto.
Qed.

Record selectable (d : Destination) (L count : Z) : Prop := mkSelectable {
  sel_inv : dest_inv d;
  sel_loops ip id p : stored d ip id p -> exists b, path_HasASLoop (path p) = Ok b;
  sel_config p : p ∈ eligible d \/ is_Some (dest_ecmpPaths d !! p) -> is_fib_path path p = true ->
    configurable d (GetAddressLengthForFamily (protoFamily d)) p;
  sel_candidates rs : eligible d <> [] -> Permutation (argmin (source path) (eligible d) ++ rs) (eligible d) ->
    decidable_candidates (protoFamily d) L count (argmin (source path) (eligible d)) rs;
}.

(** What a selection promises. *)
Record selected (d : Destination) (sel : Selection) (d' : Destination) : Prop := mkSelected {
  sd_inv : dest_inv d';
  sd_recalc : recalculate d' = false;
  sd_none : eligible d = [] ->
    LocRibPath d' = None /\ dest_ecmpPaths d' = ∅ /\ sel_action sel = RouteActionDelete;
  sd_best : eligible d <> [] -> exists best,
    LocRibPath d' = Some best /\
    best ∈ select (fun p => rank (path p)) (argmin (source path) (eligible d)) /\
    is_Some (dest_ecmpPaths d' !! best) /\ LocRibPathRoute d' = dest_ecmpPaths d' !! best;
  sd_usable p : is_Some (dest_ecmpPaths d' !! p) -> p ∈ argmin (source path) (eligible d);
  sd_cmds : exists removed added first rem cfgs,
    sel_cmds sel = rem ++ add_cmds first cfgs /\
    remove_cmds d (GetAddressLengthForFamily (protoFamily d)) removed rem /\
    Forall2 (fun p cfg => path_config path d p (GetAddressLengthForFamily (protoFamily d)) = Ok cfg) added cfgs /\
    NoDup removed /\ NoDup added /\
    (forall p, p ∈ removed <-> is_fib_path path p = true /\
       is_Some (dest_ecmpPaths d !! p) /\ dest_ecmpPaths d' !! p = None) /\
    (forall p, p ∈ added <-> is_fib_path path p = true /\
       dest_ecmpPaths d !! p = None /\ is_Some (dest_ecmpPaths d' !! p)) /\
    (first = true <-> forall p, is_Some (dest_ecmpPaths d !! p) -> dest_ecmpPaths d' !! p = None);
}.

(** The last two passes, after the routes of [reps] have been chosen. *)
Lemma finish_ok ipLength d0 d reps first :
  dest_inv d0 -> pass_inv d0 d reps -> NoDup reps ->
  (forall p, p ∈ reps \/ is_Some (dest_ecmpPaths d0 !! p) -> is_fib_path path p = true ->
     configurable d0 ipLength p) ->
  exists d' deleted removed rem cfgs,
    sweep path ipLength (range env (map_to_list (dest_ecmpPaths d))) d [] [] = Ok (d', deleted, rem) /\
    create_routes path ipLength d' first (new_fib d0 reps) rem = Ok (rem ++ add_cmds first cfgs) /\
    dest_inv d' /\ LocRibPath d' = LocRibPath d0 /\ LocRibPathRoute d' = LocRibPathRoute d /\
    recalculate d' = recalculate d0 /\
    (forall p r, dest_ecmpPaths d' !! p = Some r <-> p ∈ reps /\ dest_ecmpPaths d !! p = Some r) /\
    remove_cmds d0 ipLength removed rem /\
    Forall2 (fun p cfg => path_config path d0 p ipLength = Ok cfg) (new_fib d0 reps) cfgs /\
    NoDup removed /\ NoDup (new_fib d0 reps) /\
    (forall p, p ∈ removed <-> is_fib_path path p = true /\ is_Some (dest_ecmpPaths d0 !! p) /\ ~ p ∈ reps).
Proof.
  intros I J Hn Hcfg. pose proof (pass_books _ _ _ J) as Hb.
  set (l := range env (map_to_list (dest_ecmpPaths d))).
  assert (forall p r, dest_ecmpPaths d !! p = Some r -> kept d r = bool_decide (p ∈ reps)) as Hk.
  { intros p r H. unfold kept. destruct (pass_action _ _ _ J p r H) as (a & -> & ->). done. }
  assert (forall p r, dest_ecmpPaths d !! p = Some r -> ~ p ∈ reps -> dest_ecmpPaths d0 !! p = Some r) as Hold.
  { intros p r H Hp. apply (pass_ecmp _ _ _ J) in H as [|(_ & ? & _)]; done. }
  destruct (sweep_all ipLength d []) as (d' & new & E & S & C & N & Hl).
  { intros p r H. by apply (pass_route _ _ _ _ _ I J H). }
  { intros p r [Hkept Hin]%list_elem_of_filter Hf. cbn in Hkept. rewrite (range_perm _ Henv) in Hin.
    apply elem_of_map_to_list in Hin. rewrite (Hk p r Hin) in Hkept. apply bool_decide_eq_false in Hkept.
    unfold configurable. rewrite (path_config_books d0 d) by done. apply Hcfg; [|done]. right.
    exists r. by apply Hold. }
  fold l in E, S, C, N, Hl. cbn [app] in E.
  assert (same_books d0 d') as Hb' by (etrans; [exact Hb|apply S]).
  destruct (create_routes_ok ipLength d' first (new_fib d0 reps) new) as (cfgs & E2 & F).
  { apply Forall_forall. intros p [Hf Hp]%list_elem_of_filter. apply andb_true_iff in Hf as [_ Hf].
    unfold configurable. rewrite (path_config_books d0 d') by done. apply Hcfg; [by left|done]. }
  assert (forall p r, dest_ecmpPaths d' !! p = Some r <-> p ∈ reps /\ dest_ecmpPaths d !! p = Some r) as He.
  { intros p r. rewrite (swept_ecmp _ _ _ S). split.
    - intros [H1 H2]. split; [|done]. specialize (H2 (proj2 (Hl (p, r)) H1)). rewrite (Hk p r H1) in H2.
      by apply bool_decide_eq_true in H2.
    - intros [H1 H2]. split; [done|]. intros _. rewrite (Hk p r H2). by apply bool_decide_eq_true_2. }
  exists d', (map snd (gone d l)), (fib_paths (gone d l)), new, cfgs. split_and!; try done.
  - apply (same_books_inv d0 d' Hb' I).
    + intros p r [H1 H2]%He. destruct (pass_route _ _ _ _ _ I J H2) as (rt & H3 & H4).
      destruct (same_books_route d d' r rt (swept_books _ _ _ S) H3) as (rt' & H5 & H6). exists rt'.
      split; [done|]. split; [unfold shape in H6; congruence|].
      assert (action_of d' r = Some RouteActionNone) as Ha.
      { apply (swept_kept _ _ _ S p); [by apply (Hl (p, r))|]. rewrite (Hk p r H2). by apply bool_decide_eq_true_2. }
      unfold action_of in Ha. rewrite H5 in Ha. by injection Ha.
    + intros p Hp. rewrite (swept_loc _ _ _ S), (pass_loc _ _ _ J) in Hp.
      destruct (inv_loc _ _ _ I p Hp) as (ip & id & _ & H). eauto.
  - rewrite (swept_loc _ _ _ S). apply J.
  - apply S.
  - rewrite (swept_recalc _ _ _ S). apply J.
  - destruct C as (cf & C1 & C2). exists cf. split; [|done]. eapply Forall2_impl; [exact C1|].
    intros p c. cbv beta. by rewrite (path_config_books d0 d).
  - eapply Forall2_impl; [exact F|]. intros p c. cbv beta. by rewrite (path_config_books d0 d').
  - by apply NoDup_filter.
  - intros p. unfold fib_paths. rewrite list_elem_of_filter, list_elem_of_fmap. split.
    + intros (Hf & [q r] & -> & [Hkept Hin%Hl]%list_elem_of_filter). cbn in *.
      rewrite (Hk q r Hin) in Hkept. apply bool_decide_eq_false in Hkept. split; [done|].
      split; [|done]. exists r. by apply Hold.
    + intros (Hf & [r Hr] & Hp). split; [done|]. assert (dest_ecmpPaths d !! p = Some r) as Hd.
      { apply (pass_ecmp _ _ _ J). by left. }
      exists (p, r). split; [done|]. apply list_elem_of_filter. split; [|by apply (Hl (p, r))].
      cbn. rewrite (Hk p r Hd). by apply bool_decide_eq_false_2.
Qed.

Lemma pass_start d : dest_inv d -> pass_inv d d [].
Proof.
  intros I. split; try done.
  - intros p r. split; [by left|]. intros [|(_ & H & _)]; [done|inversion H].
  - intros p H. inversion H.
  - intros p r H. destruct (inv_ecmp _ _ _ I p r H) as (rt & H1 & _ & H2). exists (action rt).
    unfold action_of. rewrite H1. cbn. split; [done|]. rewrite H2. symmetry. apply bool_decide_eq_false_2, not_elem_of_nil.
Qed.

(** The commands between two destinations, from what is known of [reps]. *)
Lemma cmds_from_reps d d' reps ipLength removed rem cfgs cmds :
  cmds = rem ++ add_cmds (forallb (is_new d) reps) cfgs ->
  remove_cmds d ipLength removed rem ->
  Forall2 (fun p cfg => path_config path d p ipLength = Ok cfg) (new_fib d reps) cfgs ->
  NoDup removed -> NoDup (new_fib d reps) ->
  (forall p, p ∈ removed <-> is_fib_path path p = true /\ is_Some (dest_ecmpPaths d !! p) /\ ~ p ∈ reps) ->
  (forall p, is_Some (dest_ecmpPaths d' !! p) <-> p ∈ reps) ->
  exists removed added first rem cfgs,
    cmds = rem ++ add_cmds first cfgs /\
    remove_cmds d ipLength removed rem /\
    Forall2 (fun p cfg => path_config path d p ipLength = Ok cfg) added cfgs /\
    NoDup removed /\ NoDup added /\
    (forall p, p ∈ removed <-> is_fib_path path p = true /\
       is_Some (dest_ecmpPaths d !! p) /\ dest_ecmpPaths d' !! p = None) /\
    (forall p, p ∈ added <-> is_fib_path path p = true /\
       dest_ecmpPaths d !! p = None /\ is_Some (dest_ecmpPaths d' !! p)) /\
    (first = true <-> forall p, is_Some (dest_ecmpPaths d !! p) -> dest_ecmpPaths d' !! p = None).
Proof.
  intros -> Hrem Hadd N1 N2 Hr Hd.
  assert (forall p, dest_ecmpPaths d' !! p = None <-> ~ p ∈ reps) as Hnone.
  { intros p. rewrite <- Hd, <- eq_None_not_Some. done. }
  exists removed, (new_fib d reps), (forallb (is_new d) reps), rem, cfgs.
  split_and!; try done.
  - intros p. by rewrite Hr, Hnone.
  - intros p. unfold new_fib. rewrite list_elem_of_filter, andb_true_iff, Hd. unfold is_new.
    rewrite bool_decide_eq_true. tauto.
  - rewrite forallb_forall. unfold is_new. split.
    + intros H p Hp. apply Hnone. intros Hin%list_elem_of_In. specialize (H p Hin).
      apply bool_decide_eq_true in H. rewrite H in Hp. by destruct Hp.
    + intros H p Hin%list_elem_of_In. apply bool_decide_eq_true_2.
      destruct (dest_ecmpPaths d !! p) as [r|] eqn:E; [|done]. exfalso.
      assert (dest_ecmpPaths d' !! p = None) as Hp by (apply H; by exists r). by apply Hnone in Hp.
Qed.

Lemma set_loc_inv p d :
  dest_inv d -> (exists ip id, stored d ip id p) -> dest_inv (set_LocRibPath (Some p) d).
Proof.
  intros I (ip & id & H). split; try apply I. intros q [= <-]. by exists ip, id.
Qed.

Lemma select_none_ok d count :
  dest_inv d -> recalculate d = true ->
  (forall ip id p, stored d ip id p -> exists b, path_HasASLoop (path p) = Ok b) ->
  (forall p, is_Some (dest_ecmpPaths d !! p) -> is_fib_path path p = true ->
     configurable d (GetAddressLengthForFamily (protoFamily d)) p) ->
  eligible d = [] ->
  exists sel d', SelectRouteForLocRib env gConf path count d = Ok (sel, d') /\ selected d sel d'.
Proof.
  intros I Hrc Hloops Hcfg Hel. unfold SelectRouteForLocRib. rewrite Hrc. cbn [negb].
  set (d1 := set_recalculate false d). assert (dest_inv d1) as I1 by (by apply inv_set_recalculate).
  destruct (collect_ok d1 Hloops) as (us & rs & src & -> & Hus & _). res_simpl.
  change (eligible d1) with (eligible d) in Hus. rewrite Hel in Hus. subst us.
  change (0 <? len (argmin (source path) [])) with false. cbv iota. res_simpl.
  destruct (mark_deleted_ok d1 I1) as (M1 & M2 & M3 & M4 & M5).
  set (d0 := set_LocRibPath None d1).
  assert (dest_inv d0) as I0 by (split; try apply I1; done).
  assert (pass_inv d0 (mark_deleted env d1) []) as J.
  { split; [etrans; [|exact M1]; by split|done|done| | |].
    - intros p r. rewrite M2. split; [by left|]. intros [|(_ & H & _)]; [done|inversion H].
    - intros p H. inversion H.
    - intros p r H. exists RouteActionDelete. split; [by apply (M5 p); rewrite <- M2|].
      symmetry. apply bool_decide_eq_false_2, not_elem_of_nil. }
  destruct (finish_ok (GetAddressLengthForFamily (protoFamily d)) d0 (mark_deleted env d1) [] true I0 J)
    as (d' & deleted & removed & rem & cfgs & E1 & E2 & I' & L' & _ & R' & He & C1 & C2 & C3 & C4 & C5).
  { constructor. }
  { intros p [Hp|Hp]; [inversion Hp|]. by apply Hcfg. }
  cbn [ins_dest createRibRoutes firstRoute]. change (protoFamily d1) with (protoFamily d).
  rewrite E1. res_simpl. change (new_fib d0 []) with (@nil ptr) in E2. rewrite E2. res_simpl.
  eexists _, d'. split; [done|].
  assert (dest_ecmpPaths d' = ∅) as Hempty.
  { apply map_eq. intros p. rewrite lookup_empty. destruct (dest_ecmpPaths d' !! p) as [r|] eqn:E; [|done].
    apply He in E as [E _]. inversion E. }
  split; cbn [sel_action sel_cmds].
  - done.
  - by rewrite R'.
  - intros _. by rewrite L'.
  - done.
  - intros p. rewrite Hempty, lookup_empty. by intros [? ?].
  - eapply (cmds_from_reps d d' []); try done.
    intros p. rewrite Hempty, lookup_empty. split; [by intros []|intros H; inversion H].
Qed.

Lemma selection_ok d L count :
  selectable d L count -> recalculate d = true ->
  exists sel d', SelectRouteForLocRib env gConf path count d = Ok (sel, d') /\ selected d sel d'.
Proof.
  intros [I Hloops Hcfg Hcand] Hrc.
  destruct (decide (eligible d = [])) as [Hel|Hel].
  { apply select_none_ok; try done. intros p Hp. apply Hcfg. by right. }
  unfold SelectRouteForLocRib. rewrite Hrc. cbn [negb].
  set (d1 := set_recalculate false d). assert (dest_inv d1) as I1 by (by apply inv_set_recalculate).
  destruct (collect_ok d1 Hloops) as (us & rs & src & -> & Hus & Hrs). res_simpl.
  change (eligible d1) with (eligible d) in *.
  destruct (argmin_nonempty (source path) (eligible d) Hel) as [x Hx]. rewrite <- Hus in Hx.
  assert (us <> []) as Hne by (intros ->; inversion Hx).
  assert ((0 <? len us) = true) as -> by (destruct us; [done|]; rewrite len_cons; pose proof (len_nonneg us); lia).
  assert (NoDup us) as Hnd by (rewrite Hus; by apply select_NoDup, eligible_NoDup).
  assert (us ⊆ eligible d) as Hsub by (rewrite Hus; apply select_subseteq).
  destruct (best_and_groups_ok d1 L count us rs Hnd Hne) as (best & rest & gs & add & Eb & Hbest & Hgs & _).
  { rewrite Hus in Hrs |- *. by apply Hcand. }
  assert (best ∈ select (fun p => rank (path p)) us) as Hb by (rewrite <- Hbest; left).
  assert (best ∈ us) as Hbu by (by apply select_subseteq in Hb).
  unfold select_best. rewrite Eb. res_simpl.
  destruct (updateAddPaths add d1) as [upd d2] eqn:Eu.
  destruct (updateAddPaths_ok add d1) as (U1 & U2 & U3 & U4 & _ & U6). rewrite Eu in U1, U2, U3, U4, U6. cbn [snd] in *.
  assert (dest_inv d2) as I2.
  { apply (same_books_inv d1 d2 U1 I1).
    - intros p r H. rewrite U2 in H. destruct (inv_ecmp _ _ _ I1 p r H) as (rt & H1 & H2 & H3).
      destruct (same_books_route d1 d2 r rt U1 H1) as (rt' & H4 & H5). exists rt'. split; [done|].
      split; [unfold shape in H5; congruence|]. specialize (U6 r). unfold action_of in U6.
      rewrite H1, H4 in U6. cbn in U6. congruence.
    - intros p H. rewrite U3 in H. destruct (inv_loc _ _ _ I1 p H) as (ip & id & _ & Hs). eauto. }
  change (index (best :: rest) 0) with (Ok best). res_simpl.
  destruct (removeAndPrepend_groups us best gs Hnd Hbu Hgs) as (bt & groups & -> & G1 & G2 & G3).
  assert (forall p, p ∈ us -> exists ip id, stored d2 ip id p) as Hst.
  { intros p Hp. destruct (eligible_stored d p I (Hsub p Hp)) as (ip & id & Hs). exists ip, id.
    by apply (same_books_stored d1). }
  assert (forall p, p ∈ us \/ is_Some (dest_ecmpPaths d !! p) -> is_fib_path path p = true ->
    configurable d2 (GetAddressLengthForFamily (protoFamily d)) p) as Hcfg2.
  { intros p Hp Hf. unfold configurable. rewrite (path_config_books d1 d2) by done.
    apply (Hcfg p); [|done]. destruct Hp; [left; auto|by right]. }
  destruct (install_groups_ok (GetAddressLengthForFamily (protoFamily d)) 0 ((best :: bt) :: groups) d2 []
    (mkInstalled d2 RouteActionNone true [] [] []) I2 (pass_start d2 I2))
    as (s & reps & E & H1 & H2 & J & C & F & _); [done| |exact G2|intros p _ Hp; inversion Hp| |].
  { apply Forall_forall. intros g Hg. rewrite Forall_forall in G1.
    destruct g as [|p g]; [by destruct (G1 [])|]. exists p. split; [done|].
    destruct (Hst p) as (ip & id & Hs).
    { apply G3, list_elem_of_join. exists (p :: g). split; [left|done]. }
    destruct (stored_route ip id p d2 I2 Hs) as (r & rt & i & [L1 _] & _). by exists r. }
  { intros p Hp Hf. apply Hcfg2; [left; by apply G3|done]. }
  change (protoFamily d1) with (protoFamily d) in *. cbn [app] in J, C. cbn [firstRoute createRibRoutes] in C, F.
  rewrite app_nil_l in C. rewrite E. res_simpl.
  destruct (H2 eq_refl best bt groups eq_refl) as [Hr0 _].
  change (index ((best :: bt) :: groups) 0) with (Ok (best :: bt)). res_simpl.
  change (index (best :: bt) 0) with (Ok best). res_simpl.
  set (d3 := set_LocRibPathRoute _ _). set (d0 := set_LocRibPath (Some best) d2).
  assert (dest_inv d0) as I0 by (apply set_loc_inv; auto).
  assert (pass_inv d0 d3 reps) as J0.
  { split; try apply J; [|done]. etrans; [|by etrans; [apply J|]]. by split. }
  assert (reps ⊆ us) as Hreps.
  { intros p Hp. apply list_elem_of_lookup in Hp as [i Hi].
    destruct (Forall2_lookup_l _ _ _ _ _ H1 Hi) as (g & Hg & Hin). apply G3, list_elem_of_join.
    exists g. split; [done|by eapply list_elem_of_lookup_2]. }
  assert (NoDup reps) as Hnr.
  { clear -H1 G2. induction H1 as [|p g reps gs Hp H1 IH]; [constructor|]. cbn in G2.
    apply NoDup_app in G2 as (_ & Hd & G2). constructor; [|by apply IH]. intros Hin.
    apply list_elem_of_lookup in Hin as [i Hi]. destruct (Forall2_lookup_l _ _ _ _ _ H1 Hi) as (g' & Hg & Hin).
    apply (Hd p Hp), list_elem_of_join. exists g'. split; [done|by eapply list_elem_of_lookup_2]. }
  destruct (finish_ok (GetAddressLengthForFamily (protoFamily d)) d0 d3 reps (firstRoute s) I0 J0 Hnr)
    as (d' & deleted & removed & rem & cfgs & E1 & E2 & I' & L' & LR' & R' & He & C1 & C2 & C3 & C4 & C5).
  { intros p Hp. apply Hcfg2. destruct Hp as [Hp|Hp]; [left; auto|right].
    change (dest_ecmpPaths d0) with (dest_ecmpPaths d2) in Hp. by rewrite U2 in Hp. }
  cbn [ins_dest createRibRoutes firstRoute]. rewrite E1. res_simpl.
  rewrite C. change (new_fib d2 reps) with (new_fib d0 reps). rewrite E2. res_simpl.
  eexists _, d'. split; [done|]. cbn in F. rewrite F in *.
  assert (forall p, is_Some (dest_ecmpPaths d' !! p) <-> p ∈ reps) as Hdom.
  { intros p. split.
    - intros [r [Hr _]%He]. done.
    - intros Hp. destruct (pass_reps _ _ _ J0 p Hp) as [r Hr]. exists r. by apply He. }
  assert (best ∈ reps) as Hbr by (by eapply list_elem_of_lookup_2).
  split; cbn [sel_action sel_cmds].
  - done.
  - rewrite R'. change (recalculate d0) with (recalculate d2). by rewrite U4.
  - done.
  - intros _. exists best. split_and!; [by rewrite L'|by rewrite <- Hus|by apply Hdom|].
    rewrite LR'. change (LocRibPathRoute d3) with (dest_ecmpPaths d3 !! best).
    destruct (pass_reps _ _ _ J0 best Hbr) as [r Hr]. rewrite Hr. symmetry. by apply He.
  - intros p Hp%Hdom. rewrite <- Hus. auto.
  - assert (forall p, is_new d0 p = is_new d p) as Hnew.
    { intros p. unfold is_new. change (dest_ecmpPaths d0) with (dest_ecmpPaths d2). by rewrite U2. }
    assert (new_fib d0 reps = new_fib d reps) as Hnf.
    { apply filter_ext_in. intros p _. by rewrite Hnew. }
    assert (forallb (is_new d0) reps = forallb (is_new d) reps) as Hfb.
    { clear -Hnew. induction reps as [|p reps IH]; [done|]. cbn. by rewrite Hnew, IH. }
    change (is_new d2) with (is_new d0) in *. rewrite Hnf in *. rewrite Hfb.
    eapply (cmds_from_reps d d' reps); [done| | |exact C3|done| |done].
    + destruct C1 as (cf & A1 & A2). exists cf. split; [|done]. eapply Forall2_impl; [exact A1|].
      intros p c. cbv beta. by rewrite (path_config_books d1 d0) by (etrans; [exact U1|by split]).
    + eapply Forall2_impl; [exact C2|]. intros p c. cbv beta.
      by rewrite (path_config_books d1 d0) by (etrans; [exact U1|by split]).
    + intros p. rewrite C5. change (dest_ecmpPaths d0) with (dest_ecmpPaths d2). by rewrite U2.
Qed.
End Select.

(** ** Any sequence of operations *)

(** An operation on a destination; the objects the paths point to may have changed
    since the last one, and so may what the run time decides. *)
Inductive dest_step : Destination -> Destination -> Prop :=
| step_announce path ip id p d added d' :
  displayable (path p) -> maxPathId d < 4294967295 ->
  (forall ip' id', other_key ip id ip' id' -> ~ stored d ip' id' p) ->
  AddOrUpdatePath path ip id p d = Ok (added, d') -> dest_step d d'
| step_withdraw ip id d old d' : RemovePath ip id d = Ok (old, d') -> dest_step d d'
| step_peer_gone env ip d d' : dest_env_ok env -> RemoveAllPaths env ip d = Ok d' -> dest_step d d'
| step_peers_gone env path d : dest_env_ok env -> dest_step d (RemoveAllNeighborPaths env path d)
| step_aggregate path ip id d : dest_step d (setUpdateAggPath path ip id d)
| step_select env gConf path d L count sel d' :
  dest_env_ok env -> selectable env path d L count ->
  SelectRouteForLocRib env gConf path count d = Ok (sel, d') -> dest_step d d'.

Inductive dest_reachable : Destination -> Prop :=
| reach_new nlri family : dest_reachable (NewDestination nlri family)
| reach_step d d' : dest_reachable d -> dest_step d d' -> dest_reachable d'.

Lemma setUpdateAggPath_inv path ip id d : dest_inv d -> dest_inv (setUpdateAggPath path ip id d).
Proof.
  intros I. unfold setUpdateAggPath.
  set (d1 := match getPathForIP ip id d with Some p => _ | None => d end).
  assert (dest_inv d1) as I1.
  { unfold d1. destruct (getPathForIP ip id d); [|done]. destruct (_ || _); [by apply inv_set_recalculate|done]. }
  destruct (LocRibPath d1); [done|by apply inv_set_recalculate].
Qed.

Lemma dest_step_inv d d' : dest_step d d' -> dest_inv d -> dest_inv d'.
Proof.
  intros H I. destruct H as [path ip id p d added d' Hp Hm Hf E|ip id d old d' E|env ip d d' He E|
    env path d He|path ip id d|env gConf path d L count sel d' He Hs E].
  - destruct (AddOrUpdatePath_ok path ip id p d I Hp Hm Hf) as (a & d2 & E2 & I2 & _). congruence.
  - destruct (RemovePath_ok ip id d I) as (d2 & E2 & I2 & _). congruence.
  - destruct (RemoveAllPaths_ok env He ip d I) as (d2 & E2 & I2 & _). congruence.
  - by apply RemoveAllNeighborPaths_ok.
  - by apply setUpdateAggPath_inv.
  - destruct (recalculate d) eqn:Er.
    + destruct (selection_ok env gConf path He d L count Hs Er) as (sel2 & d2 & E2 & S).
      assert (d' = d2) as -> by congruence. apply S.
    + unfold SelectRouteForLocRib in E. rewrite Er in E. cbn in E. by injection E as _ <-.
Qed.
