(* ===== verification/BgpDestProps.v ===== *)
(** * Destinations: the theorems

    The properties of a destination, with the examples that show their hypotheses can
    hold, and the sequences of operations that end badly. *)

From stdpp Require Import sorting.
From S2P Require Import Prelude.
From S2P Require Import BgpOpen.
From S2P Require Import BgpNlri.
From S2P Require Import BgpAttr.
From S2P Require Import BgpHelpers.
From S2P Require Import BgpNeighbor.
From S2P Require Import BgpPath.
From S2P Require Import BgpDecision.
From S2P Require Import BgpDecisionSpec.
From S2P Require Import BgpDest.
From S2P Require Import BgpDestSpec.
From S2P Require Import BgpDestSelect.

(** ** An example *)

Definition example_dest_env : DestEnv := mkDestEnv example_env (fun _ l => l).

Lemma example_dest_env_ok : dest_env_ok example_dest_env.
Proof. split; [apply example_env_ok|done]. Qed.

Definition example_dest : Destination := NewDestination (NIPPrefix (mkIPPrefix 24 [192; 0; 2; 0])) 257.

Definition announce (path : ptr -> Path) (ip : string) (id : Z) (p : ptr) (d : Destination) : Destination :=
  match AddOrUpdatePath path ip id p d with Ok (_, d') => d' | _ => d end.

(** A path that is not among those stored. *)
Lemma not_stored p d :
  forallb (fun e : string * (Z * ptr) => negb (Nat.eqb e.2.2 p)) (all_paths example_dest_env d) = true ->
  forall ip id, ~ stored d ip id p.
Proof.
  intros H ip id Hs. rewrite forallb_forall in H.
  assert ((ip, (id, p)) ∈ all_paths example_dest_env d) as Hin by (by apply (elem_all_paths _ example_dest_env_ok)).
  apply list_elem_of_In in Hin. specialize (H _ Hin). cbn in H. by rewrite Nat.eqb_refl in H.
Qed.

Lemma example_displayable p : displayable (example_paths p).
Proof. do 4 (destruct p as [|p]; [vm_compute; split; eexists; reflexivity|]). vm_compute; split; eexists; reflexivity. Qed.

(** One announcement after another. *)
Lemma announce_reachable ip id p d :
  dest_reachable d -> maxPathId d < 4294967295 ->
  forallb (fun e : string * (Z * ptr) => negb (Nat.eqb e.2.2 p)) (all_paths example_dest_env d) = true ->
  dest_reachable (announce example_paths ip id p d).
Proof.
  intros Hd Hm Hn. assert (dest_inv d) as I.
  { clear Hn Hm. induction Hd as [|d d' _ IH Hs]; [apply NewDestination_inv|by apply (dest_step_inv d d')]. }
  destruct (AddOrUpdatePath_ok example_paths ip id p d I (example_displayable p) Hm) as (a & d' & E & _).
  { intros x y _. by apply not_stored. }
  unfold announce. rewrite E. eapply reach_step; [exact Hd|].
  eapply (step_announce example_paths ip id p); [apply example_displayable|exact Hm| |exact E].
  intros x y _. by apply not_stored.
Qed.

Definition example_announced : Destination :=
  announce example_paths "10.0.0.6" 0 3 (announce example_paths "10.0.0.7" 0 2
    (announce example_paths "10.0.0.2" 0 1 (announce example_paths "10.0.0.5" 0 0 example_dest))).

Lemma example_announced_reachable : dest_reachable example_announced.
Proof.
  do 4 (apply announce_reachable; [|by vm_compute|by vm_compute]). apply reach_new.
Qed.

(** ** The invariant *)

(** C8: Whatever the peers of a destination announce and withdraw, its maps agree: every
    stored path has one route, at the place the route knows in the list that is
    shown; the outgoing path identifiers of the stored paths differ from each other
    and from the free ones; the LocRib path is stored; and the installed routes are
    there, with no action pending. The runs are those of [dest_reachable]: announcements
    of a Path object that is not stored under another key already (an UPDATE that
    announces a prefix under two path identifiers breaks this, and a withdrawal then
    panics: shared_path_panics), whose AS path and origin can be read, while the counter of
    identifiers is below 2^32 - 1; withdrawals of a path, of a peer's and of all paths;
    aggregate updates; and selections that are [selectable], as in selection_installs. *)
Theorem destination_consistent d : dest_reachable d -> dest_inv d.
Proof. induction 1 as [|d d' _ IH Hs]; [apply NewDestination_inv|by apply (dest_step_inv d d')]. Qed.

Lemma destination_consistent_witness :
  dest_reachable example_announced /\ dest_inv example_announced.
Proof.
  split; [apply example_announced_reachable|].
  apply destination_consistent, example_announced_reachable.
Defined.

(** ** Announcing and withdrawing *)

(** An announcement under a new key stores the path there and nowhere else, and its
    withdrawal returns it and leaves the paths stored before; neither fails. *)
Theorem announce_withdraw path ip id p d :
  dest_inv d -> displayable (path p) -> maxPathId d < 4294967295 ->
  getPathForIP ip id d = None -> (forall ip' id', ~ stored d ip' id' p) ->
  exists d1 d2,
    AddOrUpdatePath path ip id p d = Ok (true, d1) /\ getPathForIP ip id d1 = Some p /\
    RemovePath ip id d1 = Ok (Some p, d2) /\ dest_inv d2 /\
    forall ip' id', getPathForIP ip' id' d2 = getPathForIP ip' id' d.
Proof.
  intros I Hp Hm Hnone Hf.
  destruct (AddOrUpdatePath_ok path ip id p d I Hp Hm) as (added & d1 & E1 & I1 & H1 & ->); [by auto|].
  assert (getPathForIP ip id d1 = Some p) as Hg by (apply H1; by left).
  destruct (RemovePath_ok ip id d1 I1) as (d2 & E2 & I2 & H2).
  exists d1, d2. rewrite Hg in E2. rewrite bool_decide_eq_true_2 in E1 by done. split_and!; try done.
  intros a b. apply option_eq. intros q. fold (stored d2 a b q) (stored d a b q). rewrite H2, H1. unfold other_key.
  split; [naive_solver|]. intros Hs. destruct (decide ((a, b) = (ip, id))) as [[= -> ->]|]; [|naive_solver].
  unfold stored in Hs. congruence.
Qed.

Lemma announce_withdraw_witness :
  exists d1 d2,
    AddOrUpdatePath example_paths "10.0.0.9" 7 4 example_announced = Ok (true, d1) /\
    getPathForIP "10.0.0.9" 7 d1 = Some 4%nat /\
    RemovePath "10.0.0.9" 7 d1 = Ok (Some 4%nat, d2) /\ dest_inv d2 /\
    forall ip' id', getPathForIP ip' id' d2 = getPathForIP ip' id' example_announced.
Proof.
  apply (announce_withdraw example_paths "10.0.0.9" 7 4 example_announced);
    [apply destination_consistent, example_announced_reachable|apply example_displayable|by vm_compute
    |by vm_compute|by apply not_stored; vm_compute].
Defined.

(** The paths of one peer go, all of them and no others. *)
Theorem peer_withdraws_all env ip d :
  dest_env_ok env -> dest_inv d ->
  exists d', RemoveAllPaths env ip d = Ok d' /\ dest_inv d' /\
    forall ip' id', getPathForIP ip' id' d' = if bool_decide (ip' = ip) then None else getPathForIP ip' id' d.
Proof.
  intros He I. destruct (RemoveAllPaths_ok env He ip d I) as (d' & E & I' & H).
  exists d'. split_and!; try done. intros a b. apply option_eq. intros q.
  fold (stored d' a b q). rewrite H. unfold stored. case_bool_decide; [split; [by intros []|done]|].
  split; [by intros []|done].
Qed.

Lemma peer_withdraws_all_witness :
  exists d', RemoveAllPaths example_dest_env "10.0.0.7" example_announced = Ok d' /\ dest_inv d' /\
    forall ip' id', getPathForIP ip' id' d' =
      if bool_decide (ip' = "10.0.0.7"%string) then None else getPathForIP ip' id' example_announced.
Proof.
  apply (peer_withdraws_all example_dest_env "10.0.0.7" example_announced);
    [apply example_dest_env_ok|apply destination_consistent, example_announced_reachable].
Defined.

(** ** Selection *)


Definition multipath_conf : RibConfig := mkRibConfig true 2 2.

Lemma example_HasASLoop p : exists b, path_HasASLoop (example_paths p) = Ok b.
Proof. do 4 (destruct p as [|p]; [by vm_compute; eexists|]). by vm_compute; eexists. Qed.

Lemma configurable_compute path d l p :
  match path_config path d p l with Ok _ => true | _ => false end = true -> configurable path d l p.
Proof. unfold configurable. destruct (path_config path d p l); try done. intros _. by eexists. Qed.

Lemma not_installed d p : dest_ecmpPaths d = ∅ -> ~ is_Some (dest_ecmpPaths d !! p).
Proof. intros ->. rewrite lookup_empty. by intros [? ?]. Qed.

Lemma example_selectable : selectable example_dest_env example_paths example_announced 4 2.
Proof.
  assert (eligible example_dest_env example_paths example_announced = [2; 0; 3; 1]%nat) as Hel by (by vm_compute).
  assert (argmin (source example_paths) [2; 0; 3; 1]%nat = [2; 0; 3; 1]%nat) as Harg by (by vm_compute).
  split.
  - apply destination_consistent, example_announced_reachable.
  - intros ip id p _. apply example_HasASLoop.
  - assert (dest_ecmpPaths example_announced = ∅) as Hno by (by vm_compute).
    intros p [Hp|Hp] _; [|by destruct (not_installed _ p Hno Hp)].
    assert (Forall (fun p => configurable example_paths example_announced 4 p) [2; 0; 3; 1]%nat) as Hf.
    { do 4 (constructor; [apply configurable_compute; vm_compute; reflexivity|]). constructor. }
    rewrite Forall_forall in Hf. rewrite Hel in Hp. by apply Hf.
  - intros rs _. rewrite Hel, Harg. intros Hrs. split; [lia|]. right.
    assert (rs = []) as -> by (apply Permutation_length in Hrs; by destruct rs).
    apply (candidates_Permutation _ _ _ [0; 1; 2; 3]%nat);
      [|apply leads_compute; by vm_compute|apply example_candidates].
    trans [2; 0; 1; 3]%nat; [symmetry; apply (Permutation_middle [0; 1]%nat [3]%nat 2%nat)|].
    do 2 apply perm_skip. apply perm_swap.
Qed.


(** The network mask of a prefix has as many octets as an address of its family and
    its highest bits set, as many as the prefix is long. *)
Theorem netmask_of_length ones n :
  0 <= n -> 0 <= ones <= n * 8 ->
  exists mask, constructNetmaskFromLen ones (n * 8) = Ok mask /\ len mask = n /\
    be_value mask = 2 ^ (n * 8) - 2 ^ (n * 8 - ones).
Proof. apply constructNetmaskFromLen_ok. Qed.

Lemma netmask_of_length_witness :
  exists mask, constructNetmaskFromLen 20 (4 * 8) = Ok mask /\ len mask = 4 /\
    be_value mask = 2 ^ (4 * 8) - 2 ^ (4 * 8 - 20).
Proof. apply (netmask_of_length 20 4); lia. Defined.

(** ** Sequences that end badly *)

(** A path that gives up its route has none; the stored paths stay. *)
Lemma drop_route_forgets p d d' :
  drop_route p d = Ok d' -> pathRouteMap d' !! p = None /\ peerPathMap d' = peerPathMap d.
Proof.
  unfold drop_route. destruct (pathRouteMap d !! p) as [r|]; [|done]. res_simpl.
  destruct (route_at d r) as [rt| | |]; try done. res_simpl.
  set (dc := set_pathRouteMap _ _).
  assert (pathRouteMap dc !! p = None /\ peerPathMap dc = peerPathMap d) as Hc.
  { split; [apply lookup_delete_eq|]. cbn. unfold releasePathId. by destruct (_ =? _). }
  destruct (negb _); [|by intros [= <-]].
  destruct (GetLastPath dc) as [np| | |]; try done. res_simpl.
  destruct (PathInfoRouteMap dc !! np) as [nr|]; [|by intros [= <-]].
  unfold RemovePathAndSetLast. destruct (_ <? _); res_simpl; [|by intros [= <-]].
  destruct (GetLastPath _) as [last| | |]; try done. res_simpl.
  destruct (set_index _ _ _) as [l| | |]; try done. res_simpl.
  destruct (slice _ _ _) as [l'| | |]; try done. res_simpl. by intros [= <-].
Qed.

Lemma RemovePath_forgets ip id p d d' :
  RemovePath ip id d = Ok (Some p, d') ->
  pathRouteMap d' !! p = None /\
  forall ip' id', (ip', id') <> (ip, id) -> getPathForIP ip' id' d' = getPathForIP ip' id' d.
Proof.
  unfold RemovePath. destruct (getPathForIP ip id d) as [old|]; [|done].
  set (d1 := if bool_decide (is_Some _) then _ else d). set (d2 := if bool_decide (_ = Some old) then _ else d1).
  assert (peerPathMap d2 = peerPathMap d) as E by (unfold d2, d1; by repeat case_bool_decide).
  destruct (drop_route old d2) as [d3| | |] eqn:Ed; try done. res_simpl. intros [= -> <-].
  apply drop_route_forgets in Ed as [H1 H2]. split; [done|]. intros a b Hne.
  rewrite delete_path_spec, bool_decide_eq_false_2 by done. unfold getPathForIP, peer_paths. by rewrite H2, E.
Qed.

Lemma RemovePath_no_route ip id p d :
  getPathForIP ip id d = Some p -> pathRouteMap d !! p = None -> RemovePath ip id d = Panic.
Proof.
  intros Hg Hn. unfold RemovePath. rewrite Hg.
  set (d1 := if bool_decide (is_Some _) then _ else d). set (d2 := if bool_decide (_ = Some p) then _ else d1).
  assert (pathRouteMap d2 = pathRouteMap d) as E by (unfold d2, d1; by repeat case_bool_decide).
  unfold drop_route. by rewrite E, Hn.
Qed.

(** One Path object under two path identifiers of a peer, as an UPDATE makes it that
    announces a prefix twice: the withdrawal of the one takes the route of both, and
    the withdrawal of the other panics. *)
Theorem shared_path_panics ip id id' p d d' :
  stored d ip id p -> stored d ip id' p -> id <> id' ->
  RemovePath ip id d = Ok (Some p, d') -> RemovePath ip id' d' = Panic.
Proof.
  intros H1 H2 Hne E. apply RemovePath_forgets in E as [E1 E2].
  apply (RemovePath_no_route ip id' p); [|done]. rewrite E2 by congruence. done.
Qed.

Definition withdraw (ip : string) (id : Z) (d : Destination) : Destination :=
  match RemovePath ip id d with Ok (_, d') => d' | _ => d end.

Definition shared_dest : Destination :=
  announce example_paths "10.0.0.5" 2 0 (announce example_paths "10.0.0.5" 1 0 example_dest).

Lemma shared_path_panics_witness :
  RemovePath "10.0.0.5" 2 (withdraw "10.0.0.5" 1 shared_dest) = Panic.
Proof.
  apply (shared_path_panics "10.0.0.5" 1 2 0 shared_dest); [by vm_compute|by vm_compute|done|].
  by vm_compute.
Defined.

Definition selected_dest (gConf : RibConfig) (path : ptr -> Path) (count : Z) (d : Destination) : Destination :=
  match SelectRouteForLocRib example_dest_env gConf path count d with Ok (_, d') => d' | _ => d end.

(** Two paths of equal cost are installed. *)
Definition two_paths : Destination :=
  selected_dest multipath_conf example_paths 0
    (announce example_paths "10.0.0.7" 0 2 (announce example_paths "10.0.0.5" 0 0 example_dest)).

(** When the best path is withdrawn and the new best path was installed beside it, the
    selection reports no action, so the peers keep the path that was withdrawn. *)
Theorem best_change_unnoticed :
  LocRibPath two_paths = Some 2%nat /\
  match SelectRouteForLocRib example_dest_env multipath_conf example_paths 0 (withdraw "10.0.0.7" 0 two_paths) with
  | Ok (sel, d) => LocRibPath d = Some 0%nat /\ sel_action sel = RouteActionNone /\ sel_addPathsUpdated sel = false
  | _ => False
  end.
Proof. vm_compute. repeat split. Qed.
