(* ===== verification/NetIP.v ===== *)
(** * Addresses as text

    [net.IP.String] of Go's library, with which the daemons make the keys of their
    maps: dotted decimal for an IPv4 address in either form, and for IPv6 hexadecimal
    words with the longest run of zero words shortened to two colons. *)

From stdpp Require Import pretty.
From S2P Require Import Prelude.

Definition hex_digit (d : Z) : string :=
  match String.get (Z.to_nat d) "0123456789abcdef" with
  | Some c => String.String c EmptyString
  | None => ""
  end.

(** A 16-bit word without leading zeros. *)
Definition hex_word (w : Z) : string :=
  let digits := [w / 4096; w / 256 mod 16; w / 16 mod 16] in
  let fix skip l := match l with
                    | [] => []
                    | d :: l' => if d =? 0 then skip l' else l
                    end in
  String.concat "" (map hex_digit (skip digits ++ [w mod 16])).

Fixpoint ip_words (ip : bytes) : list Z :=
  match ip with
  | a :: b :: ip => a * 256 + b :: ip_words ip
  | _ => []
  end.

Fixpoint zero_run (ws : list Z) : nat :=
  match ws with
  | 0 :: ws => S (zero_run ws)
  | _ => O
  end.

(** The first of the longest runs of zeros: where it starts and its length. *)
Fixpoint longest_run (i : nat) (ws : list Z) : nat * nat :=
  match ws with
  | [] => (O, O)
  | _ :: ws' =>
    let '(j, n) := longest_run (S i) ws' in
    if (n <=? zero_run ws)%nat then (i, zero_run ws) else (j, n)
  end.

Definition words_string (ws : list Z) : string := String.concat ":" (map hex_word ws).

(** A single zero word is not shortened. *)
Definition ipv6_string (ws : list Z) : string :=
  let '(i, n) := longest_run 0 ws in
  if (1 <? n)%nat then words_string (take i ws) +:+ "::" +:+ words_string (drop (i + n) ws)
  else words_string ws.

Definition IP_String (ip : bytes) : string :=
  if len ip =? 0 then "<nil>"
  else if len (To4 ip) =? 4 then String.concat "." (map pretty (To4 ip))
  else if len ip =? 16 then ipv6_string (ip_words ip)
  else "?".

Example string_v4 : IP_String [192; 0; 2; 10] = "192.0.2.10"%string.
Proof. by vm_compute. Qed.
Example string_mapped : IP_String (IPv4 10 0 0 1) = "10.0.0.1"%string.
Proof. by vm_compute. Qed.
Example string_v6 : IP_String ([32; 1; 13; 184] ++ zeros 10 ++ [0; 1]) = "2001:db8::1"%string.
Proof. by vm_compute. Qed.
Example string_v6_two_runs :
  IP_String ([32; 1; 0; 0; 0; 0; 0; 10; 0; 0; 0; 0; 0; 0; 1; 0]) = "2001:0:0:a::100"%string.
Proof. by vm_compute. Qed.
Example string_v6_one_zero : IP_String (be16 1 ++ be16 0 ++ be16 3 ++ be16 4 ++ be16 5 ++ be16 6 ++ be16 7 ++ be16 8)
  = "1:0:3:4:5:6:7:8"%string.
Proof. by vm_compute. Qed.
Example string_v6_zero : IP_String (zeros 16) = "::"%string.
Proof. by vm_compute. Qed.

(** ** No address has a slash in it *)

Fixpoint no_slash (s : string) : bool :=
  match s with
  | EmptyString => true
  | String.String c s => negb (Ascii.eqb c (Ascii.ascii_of_nat 47)) && no_slash s
  end.

Lemma no_slash_app s t : no_slash (s +:+ t) = no_slash s && no_slash t.
Proof.
  induction s as [|c s IH]; [done|].
  change (negb (Ascii.eqb c (Ascii.ascii_of_nat 47)) && no_slash (s +:+ t) = no_slash (String.String c s) && no_slash t).
  rewrite IH. apply andb_assoc.
Qed.

Lemma no_slash_concat sep ss :
  no_slash sep = true -> forallb no_slash ss = true -> no_slash (String.concat sep ss) = true.
Proof.
  intros Hsep. induction ss as [|s ss IH]; [done|]. cbn [forallb]. intros [Hs Hss]%andb_true_iff.
  destruct ss as [|t ss]; [done|]. cbn [String.concat].
  change (no_slash (s +:+ (sep +:+ String.concat sep (t :: ss))) = true).
  rewrite !no_slash_app, Hs, Hsep. by apply IH.
Qed.

Lemma no_slash_map {A} (f : A -> string) (l : list A) :
  (forall x, no_slash (f x) = true) -> forallb no_slash (map f l) = true.
Proof. intros Hf. induction l as [|x l IH]; [done|]. cbn. by rewrite Hf. Qed.

Lemma no_slash_digits x s : no_slash (pretty_N_go x s) = no_slash s.
Proof.
  revert s. induction x as [x IH] using (well_founded_induction N.lt_wf_0). intros s.
  destruct (decide (x = 0)%N) as [->|Hx]; [done|].
  rewrite pretty_N_go_step by lia. rewrite IH by (apply N.div_lt; lia). cbn [no_slash].
  assert (Ascii.eqb (pretty_N_char (x mod 10)) (Ascii.ascii_of_nat 47) = false) as ->; [|done].
  generalize (x mod 10)%N. intros d. destruct d as [|d]; [done|].
  do 4 (try (destruct d as [d|d|]; try done)).
Qed.

Lemma no_slash_pretty (x : Z) : no_slash (pretty x) = true.
Proof.
  assert (forall n : N, no_slash (pretty n) = true) as Hn.
  { intros n. unfold pretty, pretty_N. case_decide; [done|]. by rewrite no_slash_digits. }
  unfold pretty, pretty_Z. destruct x as [|p|p]; [done|apply Hn|].
  rewrite no_slash_app. cbn. apply Hn.
Qed.

Lemma no_slash_hex_digit d : no_slash (hex_digit d) = true.
Proof.
  unfold hex_digit. generalize (Z.to_nat d). intros n. do 16 (destruct n as [|n]; [done|]). by destruct n.
Qed.

Lemma no_slash_words ws : no_slash (words_string ws) = true.
Proof.
  apply no_slash_concat; [done|]. apply no_slash_map. intros w. unfold hex_word.
  apply no_slash_concat; [done|]. apply no_slash_map, no_slash_hex_digit.
Qed.

Lemma IP_String_no_slash ip : no_slash (IP_String ip) = true.
Proof.
  unfold IP_String. destruct (len ip =? 0); [done|]. destruct (len (To4 ip) =? 4).
  - apply no_slash_concat; [done|]. apply no_slash_map, no_slash_pretty.
  - destruct (len ip =? 16); [|done]. unfold ipv6_string. destruct (longest_run 0 (ip_words ip)) as [i n].
    destruct (1 <? n)%nat; [|apply no_slash_words]. by rewrite !no_slash_app, !no_slash_words.
Qed.
