(* ===== verification/BgpRib.v ===== *)
(** * The local RIB

    LocRib of src/bgp/rib/rib.go: the table of destinations, the next hops that have
    been resolved, the paths that wait for their next hop, and the list from which the
    management interface is served in pages. Destinations and paths are shared through
    pointers: [rib_dests], [rib_paths] and [rib_peers] are the heaps of *Destination,
    *Path and *NeighborConf, and [path_at] reads a path with the present state of its
    neighbor. The calls on the route manager and on the state database are appended to
    [rib_trace]; the answers of the route manager come from [GetNextHopInfo] of the
    environment, which sees everything that was called before. Left out: the
    aggregation of routes, the mutex and the conversion of a route to the objects of
    the database and of Thrift, which are generated code. *)

From stdpp Require Import pretty.
From S2P Require Import Prelude.
From S2P Require Import NetIP.
From S2P Require Import BgpOpen.
From S2P Require Import BgpNlri.
From S2P Require Import BgpAttr.
From S2P Require Import BgpHelpers.
From S2P Require Import BgpNeighbor.
From S2P Require Import BgpPath.
From S2P Require Import BgpDecision.
From S2P Require Import BgpDest.

(** ** Data *)

(** The address of a Destination. *)
Abbreviation dptr := nat.

(** The fields of config.NextHopInfo that are read. *)
Record NextHopInfo := mkNextHopInfo {
  nhi_NextHopIp : string;
  nhi_NextHopIfType : Z;
  nhi_NextHopIfIndex : Z;
  nhi_Metric : Z;
}.

(** BGPv4RouteState and BGPv6RouteState. *)
Record RouteState := mkRouteState {
  Network : string;
  CIDRLen : Z;
  Paths : list PathInfo;
}.

Inductive DbOp := AddObject | UpdateObject | DeleteObject.

Inductive RibCmd :=
| QueryNextHop (ip : string)
| RouteMgr (cmd : RouteCmd)
| StateDB (op : DbOp) (obj : RouteState).

(** [timer] tells whether the timer of a family is armed. [rib_conf] is the neighbor a
    path points to. *)
Record LocRib := mkLocRib {
  destPathMap : gmap Z (gmap string dptr);
  reachabilityMap : gmap string ReachabilityInfo;
  unreachablePaths : gmap string (gmap ptr (gmap dptr (list Z)));
  routesCount : gmap Z Z;
  routeList : gmap Z (list (option dptr));
  routeListDirty : gmap Z bool;
  activeGet : gmap Z bool;
  timer : gmap Z bool;
  rib_dests : gmap dptr Destination;
  rib_paths : gmap ptr Path;
  rib_conf : gmap ptr nat;
  rib_peers : gmap nat NeighborConf;
  rib_trace : list RibCmd;
}.

Definition LocRib_eta (l : LocRib) : LocRib :=
  mkLocRib (destPathMap l) (reachabilityMap l) (unreachablePaths l) (routesCount l) (routeList l)
    (routeListDirty l) (activeGet l) (timer l) (rib_dests l) (rib_paths l) (rib_conf l) (rib_peers l)
    (rib_trace l).

Definition set_destPathMap v l := ltac:(update LocRib_eta l destPathMap v).
Definition set_reachabilityMap v l := ltac:(update LocRib_eta l reachabilityMap v).
Definition set_unreachablePaths v l := ltac:(update LocRib_eta l unreachablePaths v).
Definition set_routesCount v l := ltac:(update LocRib_eta l routesCount v).
Definition set_routeList v l := ltac:(update LocRib_eta l routeList v).
Definition set_routeListDirty v l := ltac:(update LocRib_eta l routeListDirty v).
Definition set_activeGet v l := ltac:(update LocRib_eta l activeGet v).
Definition set_timer v l := ltac:(update LocRib_eta l timer v).
Definition set_rib_dests v l := ltac:(update LocRib_eta l rib_dests v).
Definition set_rib_paths v l := ltac:(update LocRib_eta l rib_paths v).
Definition set_rib_conf v l := ltac:(update LocRib_eta l rib_conf v).
Definition set_rib_peers v l := ltac:(update LocRib_eta l rib_peers v).
Definition set_rib_trace v l := ltac:(update LocRib_eta l rib_trace v).

Definition NewLocRib (peers : gmap nat NeighborConf) : LocRib :=
  mkLocRib ∅ ∅ ∅ ∅ ∅ ∅ ∅ ∅ ∅ ∅ ∅ peers [].

(** The destinations a route was selected or withdrawn for, as the callers of the RIB
    advertise them: by family and best path, and those withdrawn. *)
Record RibOut := mkRibOut {
  updated : gmap Z (gmap (option ptr) (list dptr));
  withdrawn : list dptr;
  updatedAddPaths : list dptr;
}.

Definition no_out : RibOut := mkRibOut ∅ [] [].

(** What the run time and the route manager decide. *)
Record LocRibEnv := mkLocRibEnv {
  dest_env : DestEnv;
  GetNextHopInfo : list RibCmd -> string -> option NextHopInfo;
}.

(** ** Access to the heaps *)

Definition nil_path : Path := mkPath None [] 0 ∅ 0 0 0 ∅.

Definition with_conf (c : option NeighborConf) (p : Path) : Path :=
  ltac:(update Path_eta p path_NeighborConf c).

Definition path_at (l : LocRib) (p : ptr) : Path :=
  match rib_paths l !! p with
  | Some o => with_conf (match rib_conf l !! p with Some n => rib_peers l !! n | None => None end) o
  | None => nil_path
  end.

Definition dest_at (l : LocRib) (a : dptr) : res Destination := of_option (rib_dests l !! a).

Definition set_dest (a : dptr) (d : Destination) (l : LocRib) : LocRib :=
  set_rib_dests (<[a := d]> (rib_dests l)) l.
Definition on_path (f : Path -> Path) (p : ptr) (l : LocRib) : LocRib :=
  set_rib_paths (alter f p (rib_paths l)) l.
Definition on_peer (f : NeighborConf -> NeighborConf) (n : nat) (l : LocRib) : LocRib :=
  set_rib_peers (alter f n (rib_peers l)) l.

(** The calls on a *NeighborConf that may be nil. *)
Definition on_conf_of (f : NeighborConf -> NeighborConf) (p : ptr) (l : LocRib) : LocRib :=
  match rib_conf l !! p with Some n => on_peer f n l | None => l end.

Definition emit (cmds : list RibCmd) (l : LocRib) : LocRib := set_rib_trace (rib_trace l ++ cmds) l.

(** A new Path object. *)
Definition new_path (o : Path) (conf : option nat) (l : LocRib) : ptr * LocRib :=
  let p := fresh (dom (rib_paths l)) in
  let l := set_rib_paths (<[p := o]> (rib_paths l)) l in
  (p, match conf with Some n => set_rib_conf (<[p := n]> (rib_conf l)) l | None => l end).

(** The clone shares the map of next hops with the path; nothing reads it there. *)
Definition path_Clone (p : ptr) (l : LocRib) : res (ptr * LocRib) :=
  o ← of_option (rib_paths l !! p);
  Ok (new_path (mkPath (path_NeighborConf o) (path_PathAttrs o) (path_Pref o) (nhReachabilityInfo o)
                  (path_routeType o) (path_MED o) (path_LocalPref o) ∅) (rib_conf l !! p) l).

(** ** Prefixes *)

Definition NLRI_GetPrefix (n : NLRI) : bytes := Prefix (NLRI_IPPrefix n).

Definition GetCIDR (n : NLRI) : string :=
  IP_String (NLRI_GetPrefix n) +:+ "/" +:+ pretty (pfx_Length (NLRI_IPPrefix n)).

Definition isIpInList (prefixes : list NLRI) (ip : NLRI) : bool :=
  existsb (fun nlri => (NLRI_GetPathId nlri =? NLRI_GetPathId ip) &&
                       IP_Equal (NLRI_GetPrefix nlri) (NLRI_GetPrefix ip)) prefixes.

Definition GetPeerIP (p : Path) : string :=
  match path_NeighborConf p with Some n => IP_String (nb_NeighborAddress n) | None => "" end.

Definition SetReachabilityForNextHop (nextHop : string) (info : option ReachabilityInfo) (p : Path) : Path :=
  set_nhReachabilityInfo
    ((fun i => if bool_decide (IP_String (nh_nextHop i) = nextHop)
               then mkNHReachabilityInfo (nh_nextHop i) info else i) <$> nhReachabilityInfo p) p.

(** [GetBGPRoute] of a destination, as it is written to the database. *)
Definition GetBGPRoute_dest (d : Destination) : RouteState :=
  mkRouteState (IP_String (NLRI_GetPrefix (dest_NLRI d))) (pfx_Length (NLRI_IPPrefix (dest_NLRI d)))
    (omap (fun r => route_PathInfo <$> routes d !! r) (statePaths d)).

(** ** The list of routes

    A slot is nil when its destination was removed while the list is being read in
    pages. *)

Definition route_slots (family : Z) (l : LocRib) : list (option dptr) :=
  match routeList l !! family with Some s => s | None => [] end.
Definition set_route_slots (family : Z) (s : list (option dptr)) (l : LocRib) : LocRib :=
  set_routeList (<[family := s]> (routeList l)) l.

Definition flag (m : gmap Z bool) (family : Z) : bool :=
  match m !! family with Some b => b | None => false end.

(** [s[i].routeListIdx = idx]: a nil slot is dereferenced. *)
Definition set_slot_idx (slots : list (option dptr)) (i idx : Z) (l : LocRib) : res LocRib :=
  slot ← index slots i;
  a ← of_option slot;
  d ← dest_at l a;
  Ok (set_dest a (set_dest_routeListIdx idx d) l).

Definition removeRoutesFromRouteList (a : dptr) (family : Z) (l : LocRib) : res LocRib :=
  match routeList l !! family with
  | None => Ok l
  | Some slots =>
    d ← dest_at l a;
    let idx := dest_routeListIdx d in
    if idx =? -1 then Ok l
    else if negb (flag (activeGet l) family) then
      last ← index slots (len slots - 1);
      slots ← set_index slots idx last;
      l ← set_slot_idx slots idx idx l;
      slots ← set_index slots (len slots - 1) None;
      slots ← slice slots 0 (len slots - 1);
      Ok (set_route_slots family slots l)
    else
      slots ← set_index slots idx None;
      Ok (set_routeListDirty (<[family := true]> (routeListDirty l)) (set_route_slots family slots l))
  end.

(** The timer of the family is made and stopped with its first route. *)
Definition addRoutesToRouteList (a : dptr) (family : Z) (l : LocRib) : res LocRib :=
  let l := match timer l !! family with
           | None => set_timer (<[family := false]> (timer l)) l
           | Some _ => l
           end in
  let slots := route_slots family l ++ [Some a] in
  d ← dest_at l a;
  Ok (set_dest a (set_dest_routeListIdx (len slots - 1) d) (set_route_slots family slots l)).

(** The inner loop of [ResetRouteList]: from [modIdx] down to a slot that is not nil. *)
Fixpoint last_full (fuel : nat) (slots : list (option dptr)) (idx modIdx : Z) : res Z :=
  if idx <? modIdx then
    s ← index slots modIdx;
    match s, fuel with
    | Some _, _ => Ok modIdx
    | None, S fuel => last_full fuel slots idx (modIdx - 1)
    | None, O => NoFuel
    end
  else Ok modIdx.

(** The outer loop: every nil slot takes the last route that is there. *)
Fixpoint compact (fuel : nat) (slots : list (option dptr)) (idx lastIdx : Z) (l : LocRib)
  : res (list (option dptr) * Z * LocRib) :=
  if idx <? len slots then
    match fuel with
    | O => NoFuel
    | S fuel =>
      s ← index slots idx;
      match s with
      | Some _ => compact fuel slots (idx + 1) lastIdx l
      | None =>
        modIdx ← last_full (length slots) slots idx lastIdx;
        if modIdx <=? idx then Ok (slots, idx, l)
        else
          moved ← index slots modIdx;
          slots ← set_index slots idx moved;
          l ← set_slot_idx slots idx idx l;
          slots ← set_index slots modIdx None;
          compact fuel slots (idx + 1) modIdx l
      end
    end
  else Ok (slots, idx, l).

Definition ResetRouteList (family : Z) (l : LocRib) : res LocRib :=
  let l := set_activeGet (<[family := false]> (activeGet l)) l in
  if negb (flag (routeListDirty l) family) then Ok l
  else
    let slots := route_slots family l in
    '(slots, idx, l) ← compact (length slots) slots 0 (len slots - 1) l;
    slots ← slice slots 0 idx;
    Ok (set_routeListDirty (<[family := false]> (routeListDirty l)) (set_route_slots family slots l)).

(** A page of routes: [n] of the [count] places are filled from slot [i] on. *)
Fixpoint bulk_loop (l : LocRib) (slots : list (option dptr)) (i n count : Z) (result : list RouteState)
  : res (Z * Z * list RouteState) :=
  match slots with
  | [] => Ok (i, n, result)
  | slot :: slots =>
    if n <? count then
      match slot with
      | Some a =>
        d ← dest_at l a;
        if 0 <? len (statePaths d) then
          bulk_loop l slots (i + 1) (n + 1) count (result ++ [GetBGPRoute_dest d])
        else bulk_loop l slots (i + 1) n count result
      | None => bulk_loop l slots (i + 1) n count result
      end
    else Ok (i, n, result)
  end.

(** Returns the index to go on from, 0 when the end was reached. The result of a
    family without routes holds [count] nils. *)
Definition BulkGetBGPRoutes (idx count family : Z) (l : LocRib)
  : res (Z * Z * list (option RouteState) * LocRib) :=
  if count <? 0 then Panic
  else match timer l !! family with
  | None => Ok (0, 0, replicate (Z.to_nat count) None, l)
  | Some _ =>
    let l := set_timer (<[family := false]> (timer l)) l in
    l ← (if (idx =? 0) && flag (activeGet l) family then ResetRouteList family l else Ok l);
    let l := set_activeGet (<[family := true]> (activeGet l)) l in
    let slots := route_slots family l in
    if (idx <? 0) && (0 <? count) then Panic
    else
      '(i, n, result) ← bulk_loop l (drop (Z.to_nat idx) slots) idx 0 count [];
      let i := if len slots <=? i then 0 else i in
      Ok (i, n, map Some result, set_timer (<[family := true]> (timer l)) l)
  end.

(** The timer of a family, [ResetTime] seconds after the last page. *)
Definition timer_fires (family : Z) (l : LocRib) : res LocRib :=
  if flag (timer l) family then ResetRouteList family (set_timer (<[family := false]> (timer l)) l)
  else Ok l.

(** ** Destinations of the table *)

(** The prefixes of a family. *)
Definition family_dests (family : Z) (l : LocRib) : gmap string dptr :=
  match destPathMap l !! family with Some m => m | None => ∅ end.

Definition count_of (family : Z) (l : LocRib) : Z :=
  match routesCount l !! family with Some n => n | None => 0 end.

Definition GetRoutesCount (l : LocRib) : gmap Z Z := routesCount l.

Definition GetDestFromIPAndLen (family : Z) (ip : string) (cidrLen : Z) (l : LocRib) : option dptr :=
  family_dests family l !! ip.

(** The branch of [GetDest] that makes the destination. *)
Definition create_dest (nlri : NLRI) (family : Z) (l : LocRib) : res (dptr * LocRib) :=
  let a := fresh (dom (rib_dests l)) in
  let l := set_dest a (NewDestination nlri family) l in
  let l := set_destPathMap (<[family := <[GetCIDR nlri := a]> (family_dests family l)]> (destPathMap l)) l in
  l ← addRoutesToRouteList a family l;
  Ok (a, set_routesCount (<[family := u32 (count_of family l + 1)]> (routesCount l)) l).

Definition GetDest (nlri : NLRI) (family : Z) (createIfNotExist : bool) (l : LocRib)
  : res (option dptr * bool * LocRib) :=
  match family_dests family l !! GetCIDR nlri with
  | Some a => Ok (Some a, true, l)
  | None =>
    if createIfNotExist then '(a, l) ← create_dest nlri family l; Ok (Some a, false, l)
    else Ok (None, false, l)
  end.

(** A destination without routes leaves the table. *)
Definition remove_dest (a : dptr) (family : Z) (key : string) (l : LocRib) : res LocRib :=
  l ← removeRoutesFromRouteList a family l;
  let l := set_destPathMap (alter (delete key) family (destPathMap l)) l in
  Ok (set_routesCount (<[family := u32 (count_of family l - 1)]> (routesCount l)) l).

(** [action] and [addPathsMod] are those of the selection. *)
Definition updateRibOutInfo (act : RouteAction) (addPathsMod : bool) (a : dptr) (d : Destination) (out : RibOut)
  : RibOut :=
  match act with
  | RouteActionAdd | RouteActionReplace =>
    let m := match updated out !! protoFamily d with Some m => m | None => ∅ end in
    let ds := match m !! LocRibPath d with Some ds => ds | None => [] end in
    mkRibOut (<[protoFamily d := <[LocRibPath d := ds ++ [a]]> m]> (updated out)) (withdrawn out)
      (updatedAddPaths out)
  | RouteActionDelete => mkRibOut (updated out) (withdrawn out ++ [a]) (updatedAddPaths out)
  | RouteActionNone =>
    if addPathsMod then mkRibOut (updated out) (withdrawn out) (updatedAddPaths out ++ [a]) else out
  end.

Definition GetLocRib_family (l : LocRib) (m : gmap (option ptr) (list dptr)) (a : dptr)
  : gmap (option ptr) (list dptr) :=
  match rib_dests l !! a with
  | Some d =>
    match LocRibPath d with
    | Some p => <[Some p := match m !! Some p with Some ds => ds ++ [a] | None => [a] end]> m
    | None => m
    end
  | None => m
  end.

(** The paths that wait for a next hop: the first [pathId] of the list is overwritten
    by the last, which is cut off. *)
Definition remove_id (pathId : Z) (ids : list Z) : list Z :=
  match list_find (fun x => x = pathId) ids, last ids with
  | Some (i, _), Some lastId => take (length ids - 1) (<[i := lastId]> ids)
  | _, _ => ids
  end.

(** [m[k]] becomes [v], or goes when [v] is empty. *)
Definition put_or_delete {K V} `{Countable K} (k : K) (v : V) (empty : bool) (m : gmap K V) : gmap K V :=
  if empty then delete k m else <[k := v]> m.

(** The route of [oldPath] does not wait for [nextHop] any more. *)
Definition forget_unreachable (nextHop : string) (oldPath : ptr) (a : dptr) (pathId : Z) (l : LocRib) : LocRib :=
  match unreachablePaths l !! nextHop with
  | None => l
  | Some byPath =>
    let byPath :=
      match byPath !! oldPath with
      | None => byPath
      | Some byDest =>
        let byDest := match byDest !! a with
                      | None => byDest
                      | Some ids => let ids := remove_id pathId ids in put_or_delete a ids (len ids =? 0) byDest
                      end in
        put_or_delete oldPath byDest (bool_decide (byDest = ∅)) byPath
      end in
    set_unreachablePaths (put_or_delete nextHop byPath (bool_decide (byPath = ∅)) (unreachablePaths l)) l
  end.

(** A route waits for its next hop; writing to the map of a path that has none panics. *)
Definition note_unreachable (nextHop : string) (p : ptr) (a : dptr) (pathId : Z) (l : LocRib) : res LocRib :=
  let byPath := match unreachablePaths l !! nextHop with Some m => m | None => ∅ end in
  byDest ← of_option (byPath !! p);
  let ids := match byDest !! a with Some ids => ids | None => [] end in
  Ok (set_unreachablePaths
        (<[nextHop := <[p := <[a := ids ++ [pathId]]> byDest]> byPath]> (unreachablePaths l)) l).

(** The entries a path needs there before its routes are processed. *)
Definition init_unreachable (nextHop : string) (p : ptr) (l : LocRib) : LocRib :=
  let byPath := match unreachablePaths l !! nextHop with Some m => m | None => ∅ end in
  let byPath := match byPath !! p with Some _ => byPath | None => <[p := ∅]> byPath end in
  set_unreachablePaths (<[nextHop := byPath]> (unreachablePaths l)) l.

Section Operations.
Context (env : LocRibEnv) (gConf : RibConfig).

(** A next hop is asked for once; the answer may name another one. *)
Definition GetReachabilityInfo (ip : string) (l : LocRib) : option ReachabilityInfo * LocRib :=
  match reachabilityMap l !! ip with
  | Some info => (Some info, l)
  | None =>
    let l' := emit [QueryNextHop ip] l in
    match GetNextHopInfo env (rib_trace l) ip with
    | None => (None, l')
    | Some i =>
      let nextHop := nhi_NextHopIp i in
      let nextHop := if bool_decide (nextHop = ""%string) || String.prefix "0" nextHop
                        || bool_decide (nextHop = "::"%string) then ip else nextHop in
      let info := mkReachabilityInfo nextHop (nhi_NextHopIfType i) (nhi_NextHopIfIndex i) (nhi_Metric i) in
      (Some info, set_reachabilityMap (<[ip := info]> (reachabilityMap l')) l')
    end
  end.

(** The selection of a destination, and what its callers do with the result. *)
Definition select_dest (a : dptr) (addPathCount : Z) (out : RibOut) (l : LocRib)
  : res (RouteAction * RibOut * LocRib) :=
  d ← dest_at l a;
  '(sel, d) ← SelectRouteForLocRib (dest_env env) gConf (path_at l) addPathCount d;
  let l := emit (map RouteMgr (sel_cmds sel)) (set_dest a d l) in
  Ok (sel_action sel, updateRibOutInfo (sel_action sel) (sel_addPathsUpdated sel) a d out, l).

(** [op(l.GetRouteStateConfigObj(dest.GetBGPRoute()))] *)
Definition write_db (op : DbOp) (a : dptr) (l : LocRib) : res LocRib :=
  d ← dest_at l a;
  Ok (emit [StateDB op (GetBGPRoute_dest d)] l).

(** ** Updates *)

(** What [ProcessRoutes] does with a withdrawn prefix that is not announced as well. *)
Definition withdraw_dest (peerIP : string) (remPath : option ptr) (addPathCount family : Z) (nlri : NLRI)
  (a : dptr) (out : RibOut) (l : LocRib) : res (RibOut * LocRib) :=
  d ← dest_at l a;
  '(oldPath, d) ← RemovePath peerIP (NLRI_GetPathId nlri) d;
  let l := set_dest a d l in
  let l := match oldPath with
           | Some old =>
             if negb (IsReachable (path_at l old) (protoFamily d)) then
               match path_GetNextHop (path_at l old) (protoFamily d) with
               | [] => l
               | nextHop => forget_unreachable (IP_String nextHop) old a (NLRI_GetPathId nlri) l
               end
             else l
           | None => l
           end in
  '(act, out, l) ← select_dest a addPathCount out l;
  let l := match oldPath, remPath with
           | Some _, Some p => on_conf_of DecrPrefixCount p l
           | _, _ => l
           end in
  d ← dest_at l a;
  if bool_decide (act = RouteActionDelete) && IsEmpty d then
    l ← remove_dest a family (GetCIDR nlri) l;
    l ← write_db DeleteObject a l;
    Ok (out, l)
  else l ← write_db UpdateObject a l; Ok (out, l).

Fixpoint withdraw_all (peerIP : string) (add : list NLRI) (remPath : option ptr) (addPathCount family : Z)
  (rem : list NLRI) (out : RibOut) (l : LocRib) : res (RibOut * LocRib) :=
  match rem with
  | [] => Ok (out, l)
  | nlri :: rem =>
    '(out, l) ←
      (if isIpInList add nlri then Ok (out, l)
       else match family_dests family l !! GetCIDR nlri with
            | None => Ok (out, l)
            | Some a => withdraw_dest peerIP remPath addPathCount family nlri a out l
            end);
    withdraw_all peerIP add remPath addPathCount family rem out l
  end.

(** An announced prefix; the first result tells whether it was within the limit of the
    peer. *)
Definition announce_route (peerIP nextHop : string) (addPath : ptr) (addPathCount family : Z) (nlri : NLRI)
  (out : RibOut) (l : LocRib) : res (bool * RibOut * LocRib) :=
  '(dest, alreadyCreated, l) ← GetDest nlri family true l;
  a ← of_option dest;
  let op := if (alreadyCreated : bool) then UpdateObject else AddObject in
  d ← dest_at l a;
  let new := match getPathForIP peerIP (NLRI_GetPathId nlri) d with Some _ => false | None => true end in
  let conf := path_NeighborConf (path_at l addPath) in
  if new && (match conf with Some n => negb (CanAcceptNewPrefix n) | None => false end) then Ok (false, out, l)
  else
    let l := if new then on_conf_of IncrPrefixCount addPath l else l in
    '(_, d) ← AddOrUpdatePath (path_at l) peerIP (NLRI_GetPathId nlri) addPath d;
    let l := set_dest a d l in
    if negb (IsReachable (path_at l addPath) family) then
      l ← note_unreachable nextHop addPath a (NLRI_GetPathId nlri) l;
      Ok (true, out, l)
    else
      '(_, out, l) ← select_dest a addPathCount out l;
      l ← write_db op a l;
      Ok (true, out, l).

Fixpoint announce_all (peerIP nextHop : string) (addPath : ptr) (addPathCount family : Z) (add : list NLRI)
  (all : bool) (out : RibOut) (l : LocRib) : res (RibOut * bool * LocRib) :=
  match add with
  | [] => Ok (out, all, l)
  | nlri :: add =>
    '(ok, out, l) ← announce_route peerIP nextHop addPath addPathCount family nlri out l;
    announce_all peerIP nextHop addPath addPathCount family add (all && ok) out l
  end.

Definition ProcessRoutes (peerIP : string) (add rem : list NLRI) (addPath : ptr) (remPath : option ptr)
  (addPathCount family : Z) (out : RibOut) (l : LocRib) : res (RibOut * bool * LocRib) :=
  '(out, l) ← withdraw_all peerIP add remPath addPathCount family rem out l;
  let nextHop := IP_String (path_GetNextHop (path_at l addPath) family) in
  announce_all peerIP nextHop addPath addPathCount family add true out l.

(** ** Next hops that become reachable *)

Fixpoint add_ids (path : ptr -> Path) (peerIP : string) (p : ptr) (ids : list Z) (d : Destination)
  : res Destination :=
  match ids with
  | [] => Ok d
  | pathId :: ids => '(_, d) ← AddOrUpdatePath path peerIP pathId p d; add_ids path peerIP p ids d
  end.

Fixpoint reachable_dests (peerIP : string) (p : ptr) (addPathCount : Z) (dests : list (dptr * list Z))
  (out : RibOut) (l : LocRib) : res (RibOut * LocRib) :=
  match dests with
  | [] => Ok (out, l)
  | (a, ids) :: dests =>
    d ← dest_at l a;
    d ← add_ids (path_at l) peerIP p ids d;
    '(_, out, l) ← select_dest a addPathCount out (set_dest a d l);
    l ← write_db AddObject a l;
    reachable_dests peerIP p addPathCount dests out l
  end.

Fixpoint reachable_paths (nextHop : string) (info : ReachabilityInfo) (addPathCount : Z)
  (paths : list (ptr * gmap dptr (list Z))) (out : RibOut) (l : LocRib) : res (RibOut * LocRib) :=
  match paths with
  | [] => Ok (out, l)
  | (p, dests) :: paths =>
    let l := on_path (SetReachabilityForNextHop nextHop (Some info)) p l in
    let peerIP := GetPeerIP (path_at l p) in
    '(out, l) ←
      (if bool_decide (peerIP = ""%string) then Ok (out, l)
       else reachable_dests peerIP p addPathCount (range (dest_env env) (map_to_list dests)) out l);
    reachable_paths nextHop info addPathCount paths out l
  end.

Definition ProcessRoutesForReachableRoutes (nextHop : string) (info : ReachabilityInfo) (addPathCount : Z)
  (out : RibOut) (l : LocRib) : res (RibOut * LocRib) :=
  match unreachablePaths l !! nextHop with
  | Some byPath =>
    reachable_paths nextHop info addPathCount (range (dest_env env) (map_to_list byPath)) out l
  | None => Ok (out, l)
  end.

(** The next hop of the announced routes; [None] when the update is given up. *)
Definition test_next_hop (addPath : ptr) (family : Z) (l : LocRib)
  : res (option (string * option ReachabilityInfo) * LocRib) :=
  match path_GetNextHop (path_at l addPath) family with
  | [] => Ok (None, l)
  | nextHop =>
    let nextHopStr := IP_String nextHop in
    let '(info, l) := GetReachabilityInfo nextHopStr l in
    let l := on_path (SetReachabilityForFamily family info) addPath l in
    valid ← IsValid (path_at l addPath);
    if negb valid then Ok (None, l)
    else
      let l := match info with None => init_unreachable nextHopStr addPath l | Some _ => l end in
      Ok (Some (nextHopStr, info), l)
  end.

Definition TestNHAndProcessRoutes (peerIP : string) (add rem : list NLRI) (addPath : ptr) (remPath : option ptr)
  (addPathCount family : Z) (out : RibOut) (l : LocRib) : res (RibOut * bool * LocRib) :=
  '(hop, l) ← (if 0 <? len add then test_next_hop addPath family l else Ok (Some (""%string, None), l));
  match hop with
  | None => Ok (out, true, l)
  | Some (nextHopStr, info) =>
    '(out, all, l) ← ProcessRoutes peerIP add rem addPath remPath addPathCount family out l;
    match info with
    | Some info =>
      '(out, l) ← ProcessRoutesForReachableRoutes nextHopStr info addPathCount out l;
      Ok (out, all, l)
    | None => Ok (out, all, l)
    end
  end.

(** [neighborConf] is the address of the neighbor. *)
Definition neighbor_address (neighborConf : nat) (l : LocRib) : res string :=
  n ← of_option (rib_peers l !! neighborConf);
  Ok (IP_String (nb_NeighborAddress n)).

Definition ProcessUpdate (neighborConf : nat) (path : ptr) (add rem : list NLRI) (family addPathCount : Z)
  (out : RibOut) (l : LocRib) : res (RibOut * bool * LocRib) :=
  '(remPath, l) ← path_Clone path l;
  if (0 <? len add) || (0 <? len rem) then
    peerIP ← neighbor_address neighborConf l;
    TestNHAndProcessRoutes peerIP add rem path (Some remPath) addPathCount family out l
  else Ok (out, true, l).

(** The routes of an update that passed the policies, by path and family. *)
Record FilteredRoutes := mkFilteredRoutes { fr_Add : list NLRI; fr_Remove : list NLRI }.

Fixpoint filtered_families (neighborConf : nat) (path : ptr) (addPathCount : Z) (fams : list (Z * FilteredRoutes))
  (out : RibOut) (l : LocRib) : res (RibOut * bool * LocRib) :=
  match fams with
  | [] => Ok (out, true, l)
  | (family, routes) :: fams =>
    peerIP ← neighbor_address neighborConf l;
    '(out, all, l) ← TestNHAndProcessRoutes peerIP (fr_Add routes) (fr_Remove routes) path (Some path)
                       addPathCount family out l;
    if (all : bool) then filtered_families neighborConf path addPathCount fams out l else Ok (out, false, l)
  end.

Fixpoint filtered_paths (neighborConf : nat) (addPathCount : Z) (paths : list (ptr * gmap Z FilteredRoutes))
  (out : RibOut) (l : LocRib) : res (RibOut * bool * LocRib) :=
  match paths with
  | [] => Ok (out, true, l)
  | (path, fams) :: paths =>
    '(out, all, l) ← filtered_families neighborConf path addPathCount
                       (range (dest_env env) (map_to_list fams)) out l;
    if (all : bool) then filtered_paths neighborConf addPathCount paths out l else Ok (out, false, l)
  end.

Definition ProcessFilteredRoutes (neighborConf : nat) (filteredRoutes : gmap ptr (gmap Z FilteredRoutes))
  (addPathCount : Z) (l : LocRib) : res (RibOut * bool * LocRib) :=
  filtered_paths neighborConf addPathCount (range (dest_env env) (map_to_list filteredRoutes)) no_out l.

(** The routes of connected networks: families with withdrawn routes first. *)
Fixpoint connected_families (src : string) (path : ptr) (removePath : ptr) (addPathCount : Z)
  (add : gmap Z (list NLRI)) (fams : list (Z * list NLRI)) (out : RibOut) (l : LocRib) : res (RibOut * LocRib) :=
  match fams with
  | [] => Ok (out, l)
  | (family, rem) :: fams =>
    let nlris := match add !! family with Some a => a | None => [] end in
    '(out, _, l) ← ProcessRoutes src nlris rem path (Some removePath) addPathCount family out l;
    connected_families src path removePath addPathCount add fams out l
  end.

Definition ProcessConnectedRoutes (src : string) (path : ptr) (add remove : gmap Z (list NLRI))
  (addPathCount : Z) (l : LocRib) : res (RibOut * LocRib) :=
  '(removePath, l) ← path_Clone path l;
  '(out, l) ← connected_families src path removePath addPathCount add
                (range (dest_env env) (map_to_list remove)) no_out l;
  let rest := filter (fun e => remove !! e.1 = None) add in
  connected_families src path removePath addPathCount add
    (map (fun e => (e.1, [])) (range (dest_env env) (map_to_list rest))) out l.

(** ** Neighbors that go down *)

(** The destinations of all families, in the order they are visited. *)
Definition table (l : LocRib) : list (Z * string * dptr) :=
  mjoin (map (fun f : Z * gmap string dptr =>
                map (fun e => (f.1, e.1, e.2)) (range (dest_env env) (map_to_list f.2)))
           (range (dest_env env) (map_to_list (destPathMap l)))).

(** The rest of the loop body after the paths of [d] have been removed. *)
Definition sweep_dest (addPathCount : Z) (family : Z) (key : string) (a : dptr) (out : RibOut) (l : LocRib)
  : res (RibOut * LocRib) :=
  '(act, out, l) ← select_dest a addPathCount out l;
  d ← dest_at l a;
  if bool_decide (act = RouteActionDelete) && IsEmpty d then
    l ← remove_dest a family key l;
    l ← write_db DeleteObject a l;
    Ok (out, l)
  else l ← write_db UpdateObject a l; Ok (out, l).

Fixpoint sweep_table (remove : LocRib -> Destination -> res Destination) (addPathCount : Z)
  (es : list (Z * string * dptr)) (out : RibOut) (l : LocRib) : res (RibOut * LocRib) :=
  match es with
  | [] => Ok (out, l)
  | (family, key, a) :: es =>
    d ← dest_at l a;
    d ← remove l d;
    '(out, l) ← sweep_dest addPathCount family key a out (set_dest a d l);
    sweep_table remove addPathCount es out l
  end.

Definition RemoveUpdatesFromNeighbor (peerIP : string) (neighborConf : option nat) (addPathCount : Z)
  (l : LocRib) : res (RibOut * LocRib) :=
  '(out, l) ← sweep_table (fun _ => RemoveAllPaths (dest_env env) peerIP) addPathCount (table l) no_out l;
  Ok (out, match neighborConf with Some n => on_peer (SetPrefixCount 0) n l | None => l end).

Definition RemoveUpdatesFromAllNeighbors (addPathCount : Z) (l : LocRib) : res LocRib :=
  '(_, l) ← sweep_table (fun l d => Ok (RemoveAllNeighborPaths (dest_env env) (path_at l) d)) addPathCount
              (table l) no_out l;
  Ok l.

(** The best path of every destination. *)
Definition GetLocRib (l : LocRib) : gmap Z (gmap (option ptr) (list dptr)) :=
  (fun m => foldl (GetLocRib_family l) ∅ (map snd (range (dest_env env) (map_to_list m)))) <$> destPathMap l.
End Operations.

(** ** Queries of the management interface *)

Definition ResetAllRouteLists (env : DestEnv) (l : LocRib) : res LocRib :=
  foldl (fun r family => l ← r; ResetRouteList family l) (Ok l)
    (map fst (range env (map_to_list (routeList l)))).

Definition GetBGPRoute (prefix : string) (family : Z) (l : LocRib) : res (option RouteState) :=
  match family_dests family l !! prefix with
  | Some a => d ← dest_at l a; Ok (Some (GetBGPRoute_dest d))
  | None => Ok None
  end.

(** The type assertion on the route fails when there is none. *)
Definition GetBGPv4Route (prefix : string) (l : LocRib) : res RouteState :=
  r ← GetBGPRoute prefix (GetProtocolFamily AfiIP SafiUnicast) l; of_option r.
Definition GetBGPv6Route (prefix : string) (l : LocRib) : res RouteState :=
  r ← GetBGPRoute prefix (GetProtocolFamily AfiIP6 SafiUnicast) l; of_option r.

(** The assertions on the routes of a page: a nil among them panics. *)
Definition bulk_routes (idx count family : Z) (l : LocRib) : res (Z * Z * list RouteState * LocRib) :=
  '(i, n, rs, l) ← BulkGetBGPRoutes idx count family l;
  routes ← of_option (mapM id rs);
  Ok (i, n, routes, l).

Definition BulkGetBGPv4Routes (idx count : Z) (l : LocRib) :=
  bulk_routes idx count (GetProtocolFamily AfiIP SafiUnicast) l.
Definition BulkGetBGPv6Routes (idx count : Z) (l : LocRib) :=
  bulk_routes idx count (GetProtocolFamily AfiIP6 SafiUnicast) l.
