(* ===== verification/BgpRibSpec.v ===== *)
(** * The local RIB: the table and the list of routes

    Whatever updates come and whoever reads the routes, the table of destinations, the
    list the management interface is served from and the counters agree: the
    invariant, that every operation keeps it, and that the operations on the list do
    not fail under it. *)

From S2P Require Import Prelude.
From S2P Require Import NetIP.
From S2P Require Import BgpOpen.
From S2P Require Import BgpNlri.
From S2P Require Import BgpAttr.
From S2P Require Import BgpHelpers.
From S2P Require Import BgpNeighbor.
From S2P Require Import BgpPath.
From S2P Require Import BgpDecision.
From S2P Require Import BgpDest.
From S2P Require Import BgpDestSpec.
From S2P Require Import BgpRib.

(** ** What the operations on a destination leave alone *)

(** Where a destination is found. *)
Definition dest_id (d : Destination) : NLRI * Z * Z := (dest_NLRI d, protoFamily d, dest_routeListIdx d).

(** What a selection leaves alone beside it. *)
Definition dest_frame (d : Destination) : NLRI * Z * Z * gmap string (gmap Z ptr) * list ptr :=
  (dest_id d, peerPathMap d, statePaths d).

Lemma add_route_id path ip id p idx d d' : add_route path ip id p idx d = Ok d' -> dest_id d' = dest_id d.
Proof.
  unfold add_route. destruct (getNextPathId d) as [o d1] eqn:Eo.
  assert (dest_id d1 = dest_id d) as E1.
  { unfold getNextPathId in Eo. destruct (last (pathIds d)); by injection Eo as _ <-. }
  intros H. res_inv H. destruct a0 as [i d2]. res_inv H. subst d'. rewrite <- E1.
  destruct (negb (idx =? -1)).
  - unfold SetPath in E0. res_inv E0. subst. res_inv E2. by subst.
  - res_inv E0. by subst.
Qed.

Lemma AddOrUpdatePath_id path ip id p d b d' :
  AddOrUpdatePath path ip id p d = Ok (b, d') -> dest_id d' = dest_id d.
Proof.
  unfold AddOrUpdatePath. destruct (getPathForIP ip id d) as [old|].
  - case_bool_decide as Heq; [by intros [= _ <-]|]. intros H. res_inv H. destruct a as [i d1]. res_inv H. subst.
    apply add_route_id in E0. rewrite E0.
    assert (dest_id d1 = dest_id d) as <- by (destruct (pathRouteMap d !! old); res_inv E; by subst).
    destruct (may_replace _ _ _), (bool_decide _); done.
  - intros H. res_inv H. subst. apply add_route_id in E. rewrite E. by destruct (may_replace _ _ _).
Qed.

Lemma drop_route_id p d d' : drop_route p d = Ok d' -> dest_id d' = dest_id d.
Proof.
  unfold drop_route. intros H. res_inv H.
  set (d1 := set_pathRouteMap _ _) in H. assert (dest_id d1 = dest_id d) as <-.
  { unfold d1, releasePathId. by destruct (u32 _ =? _). }
  clearbody d1. destruct (negb _); res_inv H; [|by subst].
  destruct (PathInfoRouteMap _ !! _); res_inv H; [|by subst]. subst.
  match goal with E : RemovePathAndSetLast _ _ = Ok _ |- _ => rename E into Er end.
  unfold RemovePathAndSetLast in Er. destruct (_ <? _); res_inv Er; by subst.
Qed.

Lemma delete_path_id ip id d : dest_id (delete_path ip id d) = dest_id d.
Proof. done. Qed.

Lemma RemovePath_id ip id d old d' : RemovePath ip id d = Ok (old, d') -> dest_id d' = dest_id d.
Proof.
  unfold RemovePath. destruct (getPathForIP ip id d) as [p|]; [|by intros [= _ <-]].
  intros H. res_inv H. subst. rewrite delete_path_id. apply drop_route_id in E. rewrite E.
  repeat case_bool_decide; done.
Qed.

Lemma RemoveAllPaths_id env ip d d' : RemoveAllPaths env ip d = Ok d' -> dest_id d' = dest_id d.
Proof.
  unfold RemoveAllPaths. generalize (range env (map fst (map_to_list (peer_paths ip d)))).
  intros ids. revert d. induction ids as [|id ids IH]; intros d; cbn [remove_paths]; [by intros [= <-]|].
  intros H. res_inv H. destruct a as [o d1]. apply RemovePath_id in E. rewrite <- E. by apply IH.
Qed.

Lemma RemoveAllNeighborPaths_id env path d : dest_id (RemoveAllNeighborPaths env path d) = dest_id d.
Proof.
  unfold RemoveAllNeighborPaths. generalize (all_paths env d). intros es.
  assert (forall es d, dest_id (foldl (fun d e => match path_NeighborConf (path e.2.2) with
      | Some _ => delete_path e.1 e.2.1 d | None => d end) d es) = dest_id d) as Hf.
  { clear. induction es as [|e es IH]; intros d; [done|]. cbn [foldl]. rewrite IH. by destruct (path_NeighborConf _). }
  set (d1 := foldl _ _ _). destruct (LocRibPath d1); [|apply Hf]. by destruct (path_NeighborConf _); cbn; apply Hf.
Qed.

(** ** Selections *)

Lemma fold_frame {A} (f : Destination -> A -> Destination) l d :
  (forall d x, dest_frame (f d x) = dest_frame d) -> dest_frame (foldl f d l) = dest_frame d.
Proof. intros Hf. revert d. induction l as [|x l IH]; intros d; [done|]. cbn. by rewrite IH. Qed.

Lemma on_path_route_frame f p d : dest_frame (on_path_route f p d) = dest_frame d.
Proof. unfold on_path_route. by destruct (pathRouteMap d !! p). Qed.

Lemma updateAddPaths_frame ps d : dest_frame (updateAddPaths ps d).2 = dest_frame d.
Proof.
  unfold updateAddPaths. case_bool_decide; [done|]. cbn. rewrite fold_frame by (intros; apply on_path_route_frame).
  change (dest_frame (set_AddPaths ps ?d)) with (dest_frame d).
  by rewrite fold_frame by (intros; apply on_path_route_frame).
Qed.

Lemma install_groups_frame path L idx gs s s' :
  install_groups path L idx gs s = Ok s' -> dest_frame (ins_dest s') = dest_frame (ins_dest s).
Proof.
  revert idx s. induction gs as [|g gs IH]; intros idx s; cbn [install_groups]; [by intros [= <-]|].
  intros H. res_inv H. apply IH in H. rewrite H. clear H.
  unfold install_group in E. destruct s as [d act first added upd create].
  destruct (find_installed d idx g) as [[p r]|]; [injection E as <-; cbn; by destruct (negb _)|].
  res_inv E. destruct (pathRouteMap d !! a0); [|by injection E as <-].
  res_inv E. destruct (idx =? 0); by injection E as <-.
Qed.

Lemma sweep_frame path L l d del cmds d' del' cmds' :
  sweep path L l d del cmds = Ok (d', del', cmds') -> dest_frame d' = dest_frame d.
Proof.
  revert d del cmds. induction l as [|[p r] l IH]; intros d del cmds; cbn [sweep]; [by intros [= <-]|].
  intros H. res_inv H. destruct (_ || _); [|apply IH in H; by rewrite H].
  res_inv H. apply IH in H. by rewrite H.
Qed.

Lemma SelectRoute_frame env gConf path count d sel d' :
  SelectRouteForLocRib env gConf path count d = Ok (sel, d') -> dest_frame d' = dest_frame d.
Proof.
  unfold SelectRouteForLocRib. destruct (negb (recalculate d)); [by intros [= _ <-]|].
  intros H. res_inv H. destruct a as [[us rs] src]. res_inv H. destruct a as [upd s]. res_inv H.
  destruct a as [[d1 del] cmds]. res_inv H. subst.
  apply sweep_frame in E1. rewrite E1. change (dest_frame d) with (dest_frame (set_recalculate false d)).
  generalize dependent (set_recalculate false d). intros d0 _ E0. clear E1.
  destruct (0 <? len us).
  - unfold select_best in E0. res_inv E0. destruct a0 as [[ps gs] add].
    destruct (updateAddPaths add d0) as [upd' d2] eqn:Eu. res_inv E0. subst.
    match goal with E : install_groups _ _ _ _ _ = Ok _ |- _ => apply install_groups_frame in E; rename E into Ei end.
    etrans; [exact Ei|]. rewrite <- (updateAddPaths_frame add d0). by rewrite Eu.
  - res_inv E0. subst. cbn. unfold mark_deleted.
    change (dest_frame (set_LocRibPath None ?d)) with (dest_frame d). by apply fold_frame.
Qed.

Lemma SelectRoute_id env gConf path count d sel d' :
  SelectRouteForLocRib env gConf path count d = Ok (sel, d') -> dest_id d' = dest_id d.
Proof. intros H%SelectRoute_frame. unfold dest_frame in H. congruence. Qed.

(** ** The invariant of the table *)

Record table_inv (l : LocRib) : Prop := mkTableInv {
  ti_dest fam key a : family_dests fam l !! key = Some a -> exists d i,
    rib_dests l !! a = Some d /\ GetCIDR (dest_NLRI d) = key /\ protoFamily d = fam /\
    dest_routeListIdx d = Z.of_nat i /\ route_slots fam l !! i = Some (Some a);
  ti_slot fam i a : route_slots fam l !! i = Some (Some a) -> exists d,
    rib_dests l !! a = Some d /\ dest_routeListIdx d = Z.of_nat i /\
    family_dests fam l !! GetCIDR (dest_NLRI d) = Some a;
  ti_clean fam : flag (routeListDirty l) fam = false -> ~ None ∈ route_slots fam l;
  ti_dirty fam : flag (routeListDirty l) fam = true -> flag (activeGet l) fam = true;
  ti_timer fam : timer l !! fam = None -> route_slots fam l = [];
  ti_count fam : count_of fam l = u32 (Z.of_nat (size (family_dests fam l)));
}.

Lemma NewLocRib_inv peers : table_inv (NewLocRib peers).
Proof.
  split; unfold family_dests, route_slots, count_of, flag; cbn; intros *; rewrite ?lookup_empty; try done.
  intros _ H. inversion H.
Qed.

(** The invariant sees only where destinations are found. *)
Record same_table (l l' : LocRib) : Prop := mkSameTable {
  st_map : destPathMap l' = destPathMap l;
  st_list : routeList l' = routeList l;
  st_dirty : routeListDirty l' = routeListDirty l;
  st_active : activeGet l' = activeGet l;
  st_timer : timer l' = timer l;
  st_count : routesCount l' = routesCount l;
  st_ids : dest_id <$> rib_dests l' = dest_id <$> rib_dests l;
}.

#[export] Instance same_table_refl : Reflexive same_table.
Proof. by split. Qed.
#[export] Instance same_table_trans : Transitive same_table.
Proof. intros l1 l2 l3 H1 H2. split; (etrans; [apply H2|apply H1]). Qed.
#[export] Instance same_table_sym : Symmetric same_table.
Proof. intros l1 l2 H. split; symmetry; apply H. Qed.

Lemma st_dest l l' a d :
  same_table l l' -> rib_dests l !! a = Some d -> exists d', rib_dests l' !! a = Some d' /\ dest_id d' = dest_id d.
Proof.
  intros H Ha. pose proof (f_equal (.!! a) (st_ids _ _ H)) as E. cbn in E.
  rewrite !lookup_fmap, Ha in E. destruct (rib_dests l' !! a) as [d'|]; [|done]. exists d'.
  cbn in E. split; congruence.
Qed.

Lemma st_family l l' fam : same_table l l' -> family_dests fam l' = family_dests fam l.
Proof. intros H. unfold family_dests. by rewrite (st_map _ _ H). Qed.
Lemma st_slots l l' fam : same_table l l' -> route_slots fam l' = route_slots fam l.
Proof. intros H. unfold route_slots. by rewrite (st_list _ _ H). Qed.

Lemma dest_id_inv d d' :
  dest_id d' = dest_id d ->
  dest_NLRI d' = dest_NLRI d /\ protoFamily d' = protoFamily d /\ dest_routeListIdx d' = dest_routeListIdx d.
Proof. unfold dest_id. intros [= -> -> ->]. done. Qed.

Lemma same_table_inv l l' : same_table l l' -> table_inv l -> table_inv l'.
Proof.
  intros H I. split.
  - intros fam key a Ha. rewrite (st_family _ _ _ H) in Ha.
    destruct (ti_dest _ I fam key a Ha) as (d & i & H1 & H2 & H3 & H4 & H5).
    destruct (st_dest _ _ a d H H1) as (d' & E & (E1 & E2 & E3)%dest_id_inv).
    exists d', i. rewrite E1, E2, E3, (st_slots _ _ _ H). done.
  - intros fam i a Ha. rewrite (st_slots _ _ _ H) in Ha.
    destruct (ti_slot _ I fam i a Ha) as (d & H1 & H2 & H3).
    destruct (st_dest _ _ a d H H1) as (d' & E & (E1 & E2 & E3)%dest_id_inv).
    exists d'. rewrite E1, E3, (st_family _ _ _ H). done.
  - intros fam. rewrite (st_slots _ _ _ H), (st_dirty _ _ H). apply I.
  - intros fam. rewrite (st_dirty _ _ H), (st_active _ _ H). apply I.
  - intros fam. rewrite (st_slots _ _ _ H), (st_timer _ _ H). apply I.
  - intros fam. rewrite (st_family _ _ _ H). unfold count_of. rewrite (st_count _ _ H). apply I.
Qed.

Lemma same_table_set_dest a d d' l :
  rib_dests l !! a = Some d -> dest_id d' = dest_id d -> same_table l (set_dest a d' l).
Proof.
  intros Ha Hd. split; try done. cbn. rewrite fmap_insert, Hd. apply insert_id.
  by rewrite lookup_fmap, Ha.
Qed.

Lemma same_table_emit c l : same_table l (emit c l).
Proof. by split. Qed.
Lemma same_table_on_path f p l : same_table l (on_path f p l).
Proof. by split. Qed.
Lemma same_table_on_conf f p l : same_table l (on_conf_of f p l).
Proof. unfold on_conf_of. by destruct (rib_conf l !! p); split. Qed.
Lemma same_table_unreachable m l : same_table l (set_unreachablePaths m l).
Proof. by split. Qed.
Lemma same_table_new_path o c l : same_table l (new_path o c l).2.
Proof. by destruct c; split. Qed.

Create HintDb rib.
#[export] Hint Resolve same_table_emit same_table_on_path same_table_on_conf same_table_unreachable
  same_table_new_path : rib.

Lemma dest_at_Ok a l d : dest_at l a = Ok d -> rib_dests l !! a = Some d.
Proof. unfold dest_at. destruct (rib_dests l !! a); cbn; congruence. Qed.
Lemma dest_at_Some a l d : rib_dests l !! a = Some d -> dest_at l a = Ok d.
Proof. unfold dest_at. by intros ->. Qed.

(** ** Access to the maps of one family *)

Lemma family_dests_insert fam m l f :
  family_dests f (set_destPathMap (<[fam := m]> (destPathMap l)) l) =
  if bool_decide (f = fam) then m else family_dests f l.
Proof.
  unfold family_dests. cbn. case_bool_decide as E; [subst; by rewrite lookup_insert_eq|].
  by rewrite lookup_insert_ne by done.
Qed.

Lemma route_slots_insert fam s l f :
  route_slots f (set_route_slots fam s l) = if bool_decide (f = fam) then s else route_slots f l.
Proof.
  unfold route_slots, set_route_slots. cbn. case_bool_decide as E; [subst; by rewrite lookup_insert_eq|].
  by rewrite lookup_insert_ne by done.
Qed.

Lemma flag_insert m fam b f : flag (<[fam := b]> m) f = if bool_decide (f = fam) then b else flag m f.
Proof.
  unfold flag. case_bool_decide as E; [subst; by rewrite lookup_insert_eq|]. by rewrite lookup_insert_ne by done.
Qed.

Lemma count_insert m fam n l f :
  m = <[fam := n]> (routesCount l) ->
  match m !! f with Some n => n | None => 0 end = if bool_decide (f = fam) then n else count_of f l.
Proof.
  intros ->. unfold count_of. case_bool_decide as E; [subst; by rewrite lookup_insert_eq|].
  by rewrite lookup_insert_ne by done.
Qed.

Lemma family_dests_delete fam key l f :
  family_dests f (set_destPathMap (alter (delete key) fam (destPathMap l)) l) =
  if bool_decide (f = fam) then delete key (family_dests fam l) else family_dests f l.
Proof.
  unfold family_dests. cbn. case_bool_decide as E.
  - subst. rewrite lookup_alter_eq. destruct (destPathMap l !! fam); cbn; [done|by rewrite delete_empty].
  - by rewrite lookup_alter_ne by done.
Qed.

Lemma index_lookup {A} (s : list A) (i : nat) x : s !! i = Some x -> index s (Z.of_nat i) = Ok x.
Proof.
  intros H. unfold index. rewrite (proj2 (Z.ltb_ge _ _)) by lia. by rewrite Nat2Z.id, H.
Qed.

Lemma set_index_lookup {A} (s : list A) (i : nat) x :
  (i < length s)%nat -> set_index s (Z.of_nat i) x = Ok (<[i := x]> s).
Proof.
  intros H. unfold set_index, len. rewrite (proj2 (andb_true_iff _ _)) by lia. by rewrite Nat2Z.id.
Qed.

Lemma set_slot_idx_Ok slots (i : nat) idx a d l :
  slots !! i = Some (Some a) -> rib_dests l !! a = Some d ->
  set_slot_idx slots (Z.of_nat i) idx l = Ok (set_dest a (set_dest_routeListIdx idx d) l).
Proof.
  intros Hs Ha. unfold set_slot_idx. rewrite (index_lookup _ _ _ Hs). res_simpl.
  by rewrite (dest_at_Some _ _ _ Ha).
Qed.

(** ** New destinations *)

(** What [create_dest] makes of the table. *)
Record created (nlri : NLRI) (fam : Z) (a : dptr) (l l' : LocRib) : Prop := mkCreated {
  cr_fresh : rib_dests l !! a = None;
  cr_dests : rib_dests l' =
    <[a := set_dest_routeListIdx (len (route_slots fam l)) (NewDestination nlri fam)]> (rib_dests l);
  cr_family f : family_dests f l' =
    if bool_decide (f = fam) then <[GetCIDR nlri := a]> (family_dests fam l) else family_dests f l;
  cr_slots f : route_slots f l' =
    if bool_decide (f = fam) then route_slots fam l ++ [Some a] else route_slots f l;
  cr_timer f : timer l' !! f = if bool_decide (f = fam) then Some (flag (timer l) fam) else timer l !! f;
  cr_count f : count_of f l' = if bool_decide (f = fam) then u32 (count_of fam l + 1) else count_of f l;
  cr_active : activeGet l' = activeGet l;
  cr_dirty : routeListDirty l' = routeListDirty l;
  cr_paths : rib_paths l' = rib_paths l /\ rib_conf l' = rib_conf l /\ rib_peers l' = rib_peers l;
  cr_rest : unreachablePaths l' = unreachablePaths l /\ rib_trace l' = rib_trace l /\
    reachabilityMap l' = reachabilityMap l;
}.

Lemma create_dest_Ok nlri fam l : exists a l', create_dest nlri fam l = Ok (a, l') /\ created nlri fam a l l'.
Proof.
  set (a := fresh (dom (rib_dests l))).
  assert (rib_dests l !! a = None) as Hf by (apply not_elem_of_dom, is_fresh).
  unfold create_dest. fold a. unfold addRoutesToRouteList.
  set (l1 := set_destPathMap _ _).
  set (l2 := match timer l1 !! fam with Some _ => _ | None => _ end).
  assert (rib_dests l2 = <[a := NewDestination nlri fam]> (rib_dests l) /\ routeList l2 = routeList l /\
    destPathMap l2 = destPathMap l1 /\ activeGet l2 = activeGet l /\ routeListDirty l2 = routeListDirty l /\
    routesCount l2 = routesCount l) as (D1 & D2 & D3 & D4 & D5 & D6)
    by (unfold l2; by destruct (timer l1 !! fam)).
  assert (rib_paths l2 = rib_paths l /\ rib_conf l2 = rib_conf l /\ rib_peers l2 = rib_peers l /\
    unreachablePaths l2 = unreachablePaths l /\ rib_trace l2 = rib_trace l /\
    reachabilityMap l2 = reachabilityMap l) as (P1 & P2 & P3 & P4 & P5 & P6)
    by (unfold l2; by destruct (timer l1 !! fam)).
  assert (forall f, timer l2 !! f = if bool_decide (f = fam) then Some (flag (timer l) fam) else timer l !! f) as Ht.
  { intros f. unfold l2. change (timer l1) with (timer l). destruct (timer l !! fam) as [b|] eqn:E.
    - change (timer l1) with (timer l). case_bool_decide; [|done]. subst. unfold flag. by rewrite E.
    - cbn. case_bool_decide as Ef; [subst; rewrite lookup_insert_eq; unfold flag; by rewrite E|].
      by rewrite lookup_insert_ne by done. }
  unfold dest_at. rewrite D1, lookup_insert_eq. res_simpl. eexists a, _. split; [done|].
  assert (route_slots fam l2 = route_slots fam l) as Hs by (unfold route_slots; by rewrite D2).
  split; try done.
  - cbn. rewrite D1, Hs. rewrite insert_insert_eq. len_simpl.
    by replace (len (route_slots fam l) + (1 + 0) - 1) with (len (route_slots fam l)) by lia.
  - intros f. etrans; [|apply (family_dests_insert fam _ l f)]. unfold family_dests. cbn. by rewrite D3.
  - intros f. rewrite <- Hs. etrans; [apply (route_slots_insert fam (route_slots fam l2 ++ [Some a]) l2 f)|].
    case_bool_decide; [done|]. unfold route_slots. by rewrite D2.
  - intros f. unfold count_of at 1. cbn.
    assert (forall f, count_of f (set_dest a (set_dest_routeListIdx (len (route_slots fam l2 ++ [Some a]) - 1)
      (NewDestination nlri fam)) (set_route_slots fam (route_slots fam l2 ++ [Some a]) l2)) = count_of f l) as Hc
      by (intros g; unfold count_of; cbn; by rewrite D6).
    rewrite Hc, D6. by apply count_insert.
Qed.

Lemma created_lookup nlri fam a l l' b d :
  created nlri fam a l l' -> rib_dests l !! b = Some d -> rib_dests l' !! b = Some d.
Proof.
  intros H Hb. rewrite (cr_dests _ _ _ _ _ H), lookup_insert_ne; [done|].
  intros ->. pose proof (cr_fresh _ _ _ _ _ H). congruence.
Qed.

Lemma created_inv nlri fam a l l' :
  created nlri fam a l l' -> family_dests fam l !! GetCIDR nlri = None -> table_inv l -> table_inv l'.
Proof.
  intros H Hn I.
  set (d := set_dest_routeListIdx (len (route_slots fam l)) (NewDestination nlri fam)).
  assert (rib_dests l' !! a = Some d) as Ha by (rewrite (cr_dests _ _ _ _ _ H); apply lookup_insert_eq).
  assert (forall f i b, route_slots f l !! i = Some (Some b) -> route_slots f l' !! i = Some (Some b)) as Hs.
  { intros f i b Hi. rewrite (cr_slots _ _ _ _ _ H). case_bool_decide; [|done]. subst f. by apply lookup_app_l_Some. }
  split.
  - intros f key b Hb. rewrite (cr_family _ _ _ _ _ H) in Hb.
    assert (family_dests f l !! key = Some b -> exists d i,
      rib_dests l' !! b = Some d /\ GetCIDR (dest_NLRI d) = key /\ protoFamily d = f /\
      dest_routeListIdx d = Z.of_nat i /\ route_slots f l' !! i = Some (Some b)) as Hold.
    { intros Hb'. destruct (ti_dest _ I f key b Hb') as (d' & i & H1 & H2 & H3 & H4 & H5).
      exists d', i. split; [by eapply created_lookup|]. auto. }
    case_bool_decide as Ef; [subst f|by apply Hold].
    apply lookup_insert_Some in Hb as [[<- <-]|[_ Hb]]; [|by apply Hold].
    exists d, (length (route_slots fam l)). split_and!; try done.
    rewrite (cr_slots _ _ _ _ _ H), bool_decide_eq_true_2 by done.
    rewrite lookup_app_r, Nat.sub_diag by lia. done.
  - intros f i b Hb. rewrite (cr_slots _ _ _ _ _ H) in Hb.
    assert (route_slots f l !! i = Some (Some b) -> exists d, rib_dests l' !! b = Some d /\
      dest_routeListIdx d = Z.of_nat i /\ family_dests f l' !! GetCIDR (dest_NLRI d) = Some b) as Hold.
    { intros Hb'. destruct (ti_slot _ I f i b Hb') as (d' & H1 & H2 & H3). exists d'.
      split; [by eapply created_lookup|]. split; [done|]. rewrite (cr_family _ _ _ _ _ H).
      case_bool_decide; [|done]. subst f. rewrite lookup_insert_ne; [done|]. intros E. rewrite <- E in H3. congruence. }
    case_bool_decide as Ef; [subst f|by apply Hold].
    destruct (decide (i < length (route_slots fam l))%nat).
    { rewrite lookup_app_l in Hb by done. by apply Hold. }
    rewrite lookup_app_r in Hb by lia. apply list_lookup_singleton_Some in Hb as [Hi [= ->]].
    exists d. split; [done|]. split; [cbn; unfold len; lia|].
    rewrite (cr_family _ _ _ _ _ H), bool_decide_eq_true_2 by done. apply lookup_insert_eq.
  - intros f. rewrite (cr_dirty _ _ _ _ _ H), (cr_slots _ _ _ _ _ H). intros Hd.
    case_bool_decide; [|by apply I]. subst f. pose proof (ti_clean _ I fam Hd). set_solver.
  - intros f. rewrite (cr_dirty _ _ _ _ _ H), (cr_active _ _ _ _ _ H). apply I.
  - intros f. rewrite (cr_timer _ _ _ _ _ H), (cr_slots _ _ _ _ _ H). case_bool_decide; [done|]. apply I.
  - intros f. rewrite (cr_count _ _ _ _ _ H), (cr_family _ _ _ _ _ H). case_bool_decide; [|apply I]. subst f.
    rewrite map_size_insert_None by done. rewrite (ti_count _ I fam). zlia.
Qed.

(** ** Destinations that leave *)

(** What [remove_dest] makes of the table; [moved] is the destination that takes the
    slot, when the list is not being read. *)
Record removed (a : dptr) (fam : Z) (key : string) (l l' : LocRib) : Prop := mkRemoved {
  rm_family f : family_dests f l' = if bool_decide (f = fam) then delete key (family_dests fam l) else family_dests f l;
  rm_dests b d : rib_dests l !! b = Some d -> exists i, rib_dests l' !! b = Some (set_dest_routeListIdx i d);
  rm_count f : count_of f l' = if bool_decide (f = fam) then u32 (count_of fam l - 1) else count_of f l;
  rm_active : activeGet l' = activeGet l;
  rm_timer : timer l' = timer l;
  rm_other f : f <> fam -> route_slots f l' = route_slots f l;
  rm_reading : flag (activeGet l) fam = true -> exists i, route_slots fam l !! i = Some (Some a) /\
    route_slots fam l' = <[i := None]> (route_slots fam l) /\ rib_dests l' = rib_dests l;
  rm_paths : rib_paths l' = rib_paths l /\ rib_conf l' = rib_conf l /\ rib_peers l' = rib_peers l;
  rm_rest : unreachablePaths l' = unreachablePaths l /\ rib_trace l' = rib_trace l /\
    reachabilityMap l' = reachabilityMap l;
  rm_inv : table_inv l';
}.

Lemma set_idx_id d : set_dest_routeListIdx (dest_routeListIdx d) d = d.
Proof. by destruct d. Qed.

Lemma route_slots_some fam l i x : route_slots fam l !! i = Some x -> routeList l !! fam = Some (route_slots fam l).
Proof. unfold route_slots. by destruct (routeList l !! fam). Qed.

(** Where a destination's slot is. *)
Lemma slot_unique l fam i j a :
  table_inv l -> route_slots fam l !! i = Some (Some a) -> route_slots fam l !! j = Some (Some a) -> i = j.
Proof.
  intros I Hi Hj. destruct (ti_slot _ I fam i a Hi) as (d & H1 & H2 & _).
  destruct (ti_slot _ I fam j a Hj) as (d' & H1' & H2' & _). assert (d' = d) as -> by congruence. lia.
Qed.

Lemma family_of_dest l fam fam' key key' a :
  table_inv l -> family_dests fam l !! key = Some a -> family_dests fam' l !! key' = Some a -> fam' = fam /\ key' = key.
Proof.
  intros I H H'. destruct (ti_dest _ I fam key a H) as (d & i & H1 & H2 & H3 & _).
  destruct (ti_dest _ I fam' key' a H') as (d' & i' & H1' & H2' & H3' & _).
  assert (d' = d) as -> by congruence. split; congruence.
Qed.

Lemma remove_size fam key a l f (c : gmap string dptr) :
  table_inv l -> family_dests fam l !! key = Some a ->
  c = (if bool_decide (f = fam) then delete key (family_dests fam l) else family_dests f l) ->
  (if bool_decide (f = fam) then u32 (count_of fam l - 1) else count_of f l) = u32 (Z.of_nat (size c)).
Proof.
  intros I Ha ->. case_bool_decide; [|apply I]. rewrite (ti_count _ I fam).
  rewrite map_size_delete_Some by by eexists.
  assert (size (family_dests fam l) <> 0)%nat as Hne.
  { intros E%map_size_empty_inv. rewrite E, lookup_empty in Ha. done. }
  zlia.
Qed.

(** While the list is being read, the slot becomes nil. *)
Lemma remove_reading a fam key l d (i : nat) :
  table_inv l -> family_dests fam l !! key = Some a -> rib_dests l !! a = Some d ->
  dest_routeListIdx d = Z.of_nat i -> route_slots fam l !! i = Some (Some a) -> flag (activeGet l) fam = true ->
  exists l', remove_dest a fam key l = Ok l' /\ removed a fam key l l'.
Proof.
  intros I Hk Hd Hi Hs Hact. unfold remove_dest, removeRoutesFromRouteList.
  rewrite (route_slots_some _ _ _ _ Hs), (dest_at_Some _ _ _ Hd). res_simpl.
  rewrite Hi, Hact. rewrite (proj2 (Z.eqb_neq _ _)) by lia. cbn [negb].
  pose proof (lookup_lt_Some _ _ _ Hs) as Hlt. rewrite set_index_lookup by done. res_simpl.
  eexists. split; [done|]. set (slots' := <[i := None]> (route_slots fam l)). set (l' := set_routesCount _ _).
  assert (forall f, family_dests f l' = if bool_decide (f = fam) then delete key (family_dests fam l) else family_dests f l)
    as Hfam by (intros f; apply (family_dests_delete fam key l f)).
  assert (forall f, route_slots f l' = if bool_decide (f = fam) then slots' else route_slots f l) as Hsl
    by (intros f; apply (route_slots_insert fam slots' l f)).
  assert (forall f, count_of f l' = if bool_decide (f = fam) then u32 (count_of fam l - 1) else count_of f l) as Hc
    by (intros f; by apply count_insert).
  split; try done.
  - intros b d' Hb. exists (dest_routeListIdx d'). by rewrite set_idx_id.
  - intros f Hf. by rewrite Hsl, bool_decide_eq_false_2.
  - intros _. exists i. split; [done|]. split; [|done]. by rewrite Hsl, bool_decide_eq_true_2.
  - split.
    + intros f k b Hb. rewrite Hfam in Hb.
      assert (family_dests f l !! k = Some b /\ b <> a) as [Hb' Hne].
      { case_bool_decide as Ef; [subst f; apply lookup_delete_Some in Hb as [Hk' Hb]|]; (split; [done|]).
        - intros ->. by destruct (family_of_dest l fam fam key k a I Hk Hb).
        - intros ->. by destruct (family_of_dest l fam f key k a I Hk Hb). }
      destruct (ti_dest _ I f k b Hb') as (d' & j & H1 & H2 & H3 & H4 & H5). exists d', j.
      rewrite Hsl. split_and!; try done. case_bool_decide; [|done]. subst f. unfold slots'.
      rewrite list_lookup_insert_ne; [congruence|]. intros ->. congruence.
    + intros f j b Hb. rewrite Hsl in Hb.
      assert (route_slots f l !! j = Some (Some b) /\ b <> a) as [Hb' Hne].
      { case_bool_decide as Ef.
        - subst f. unfold slots' in Hb. apply list_lookup_insert_Some in Hb as [(_ & ? & _)|[Hj Hb]]; [done|].
          split; [done|]. intros ->. by destruct Hj; apply (slot_unique l fam i j a).
        - split; [done|]. intros ->. destruct (ti_slot _ I f j a Hb) as (d' & H1 & _ & H3).
          by destruct (family_of_dest l fam f key _ a I Hk H3). }
      destruct (ti_slot _ I f j b Hb') as (d' & H1 & H2 & H3). exists d'. split_and!; try done.
      rewrite Hfam. case_bool_decide; [|done]. subst f. rewrite lookup_delete_ne; [done|].
      intros ->. congruence.
    + intros f. rewrite Hsl. cbn. rewrite flag_insert. case_bool_decide; [done|]. apply I.
    + intros f. cbn. rewrite flag_insert. case_bool_decide; [by subst|]. apply I.
    + intros f Ht. rewrite Hsl. pose proof (ti_timer _ I f Ht) as Hnil.
      case_bool_decide; [|done]. subst f. rewrite Hnil in Hs. done.
    + intros f. rewrite Hc. apply (remove_size fam key a l f _ I Hk), Hfam.
Qed.

Lemma clean_slot l fam i x :
  table_inv l -> flag (routeListDirty l) fam = false -> route_slots fam l !! i = Some x ->
  exists a, x = Some a.
Proof.
  intros I Hd Hx. destruct x as [a|]; [by exists a|]. exfalso. apply (ti_clean _ I fam Hd).
  by eapply list_elem_of_lookup_2.
Qed.

(** Moving the last element into slot [i] and cutting the list. *)
Lemma swap_remove_lookup {A} (s : list A) i j k x y :
  s !! i = Some x -> s !! j = Some y -> S j = length s ->
  take j (<[i := y]> s) !! k = (if bool_decide (k < j)%nat then if bool_decide (k = i) then Some y else s !! k else None).
Proof.
  intros Hi Hj Hl. case_bool_decide.
  - rewrite lookup_take_lt by done. case_bool_decide as E.
    + subst. apply list_lookup_insert_eq. by apply lookup_lt_Some in Hi.
    + by rewrite list_lookup_insert_ne.
  - rewrite lookup_take_ge by lia. done.
Qed.

(** Else the last destination takes the slot. *)
Lemma remove_moving a fam key l d (i : nat) :
  table_inv l -> family_dests fam l !! key = Some a -> rib_dests l !! a = Some d ->
  dest_routeListIdx d = Z.of_nat i -> route_slots fam l !! i = Some (Some a) -> flag (activeGet l) fam = false ->
  exists l', remove_dest a fam key l = Ok l' /\ removed a fam key l l'.
Proof.
  intros I Hk Hd Hi Hs Hact.
  assert (flag (routeListDirty l) fam = false) as Hclean.
  { destruct (flag (routeListDirty l) fam) eqn:E; [|done]. apply (ti_dirty _ I) in E. congruence. }
  pose proof (lookup_lt_Some _ _ _ Hs) as Hlt. set (s := route_slots fam l) in *.
  set (j := (length s - 1)%nat). assert (S j = length s) as Hj by (unfold j; lia).
  destruct (lookup_lt_is_Some_2 s j) as [x Hx]; [lia|].
  destruct (clean_slot l fam j x I Hclean Hx) as [m ->].
  destruct (ti_slot _ I fam j m Hx) as (dm & Hm1 & Hm2 & Hm3).
  set (slots' := take j (<[i := Some m]> s)).
  unfold remove_dest, removeRoutesFromRouteList.
  rewrite (route_slots_some _ _ _ _ Hs), (dest_at_Some _ _ _ Hd). fold s. res_simpl.
  rewrite Hi, Hact. rewrite (proj2 (Z.eqb_neq _ _)) by lia. cbn [negb].
  replace (len s - 1) with (Z.of_nat j) by (unfold len; lia).
  rewrite (index_lookup s j _ Hx). res_simpl. rewrite set_index_lookup by done. res_simpl.
  rewrite (set_slot_idx_Ok _ i _ m dm l); [|by apply list_lookup_insert_eq|done]. res_simpl.
  replace (len (<[i := Some m]> s) - 1) with (Z.of_nat j) by (rewrite len_insert; unfold len; lia).
  rewrite set_index_lookup by (rewrite length_insert; lia). res_simpl.
  assert (slice (<[j := None]> (<[i := Some m]> s)) 0 (len (<[j := None]> (<[i := Some m]> s)) - 1) = Ok slots') as ->.
  { rewrite !len_insert. unfold slice. rewrite !len_insert. rewrite (proj2 (andb_true_iff _ _)) by (unfold len; lia).
    f_equal. rewrite drop_0. replace (Z.to_nat (len s - 1 - 0)) with j by (unfold len; lia).
    unfold slots'. by rewrite take_insert_ge by lia. }
  res_simpl. eexists. split; [done|]. set (l' := set_routesCount _ _).
  assert (forall f, family_dests f l' = if bool_decide (f = fam) then delete key (family_dests fam l) else family_dests f l)
    as Hfam by (intros f; apply (family_dests_delete fam key l f)).
  assert (forall f, route_slots f l' = if bool_decide (f = fam) then slots' else route_slots f l) as Hsl
    by (intros f; apply (route_slots_insert fam slots' l f)).
  assert (forall f, count_of f l' = if bool_decide (f = fam) then u32 (count_of fam l - 1) else count_of f l) as Hc
    by (intros f; by apply count_insert).
  assert (forall b, rib_dests l' !! b = if bool_decide (b = m) then Some (set_dest_routeListIdx (Z.of_nat i) dm) else rib_dests l !! b)
    as Hdests.
  { intros b. change (rib_dests l') with (<[m := set_dest_routeListIdx (Z.of_nat i) dm]> (rib_dests l)).
    case_bool_decide as E; [subst; apply lookup_insert_eq|by apply lookup_insert_ne]. }
  assert (forall k, slots' !! k = (if bool_decide (k < j)%nat then if bool_decide (k = i) then Some (Some m) else s !! k else None))
    as Hlk by (intros k; by eapply swap_remove_lookup).
  split; try done.
  - intros b d' Hb. rewrite Hdests. case_bool_decide as E; [|exists (dest_routeListIdx d'); by rewrite set_idx_id].
    subst b. assert (d' = dm) as -> by congruence. by eexists.
  - intros f Hf. by rewrite Hsl, bool_decide_eq_false_2.
  - congruence.
  - assert (routeListDirty l' = routeListDirty l /\ activeGet l' = activeGet l /\ timer l' = timer l)
      as (Hdirty & Hactive & Htimer) by done.
    clearbody l'. split.
    + intros f k b Hb. rewrite Hfam in Hb.
      assert (family_dests f l !! k = Some b /\ b <> a) as [Hb' Hne].
      { case_bool_decide as Ef; [subst f; apply lookup_delete_Some in Hb as [Hk' Hb]|]; (split; [done|]).
        - intros ->. by destruct (family_of_dest l fam fam key k a I Hk Hb).
        - intros ->. by destruct (family_of_dest l fam f key k a I Hk Hb). }
      destruct (ti_dest _ I f k b Hb') as (d' & n & H1 & H2 & H3 & H4 & H5). rewrite Hsl.
      destruct (decide (b = m)) as [->|Em].
      * assert (d' = dm) as -> by congruence. exists (set_dest_routeListIdx (Z.of_nat i) dm), i.
        rewrite Hdests, bool_decide_eq_true_2 by done. split_and!; try done. destruct (family_of_dest l fam f _ k m I Hm3 Hb') as [-> _].
        rewrite bool_decide_eq_true_2, Hlk by done.
        assert (i <> j) by (intros ->; congruence). rewrite !bool_decide_eq_true_2 by lia. done.
      * exists d', n. rewrite Hdests, bool_decide_eq_false_2 by done. split_and!; try done.
        case_bool_decide; [|done]. rewrite Hlk.
        assert (route_slots fam l !! n = Some (Some b)) as Hn by congruence.
        assert (n <> i) by (intros ->; unfold s in Hs; congruence).
        assert (n <> j) by (intros ->; unfold s in Hx; congruence).
        pose proof (lookup_lt_Some _ _ _ Hn). rewrite bool_decide_eq_true_2, bool_decide_eq_false_2 by (unfold s in *; lia).
        done.
    + intros f n b Hb. rewrite Hsl in Hb. case_bool_decide as Ef.
      * subst f. rewrite Hlk in Hb. case_bool_decide as En; [|done].
        assert (exists d, rib_dests l' !! b = Some d /\ dest_routeListIdx d = Z.of_nat n /\
          family_dests fam l !! GetCIDR (dest_NLRI d) = Some b /\ b <> a) as (d' & H1 & H2 & H3 & Hne).
        { case_bool_decide as Ei.
          - subst n. injection Hb as <-. eexists. rewrite Hdests, bool_decide_eq_true_2 by done. split_and!; try done.
            intros ->. assert (i = j) by (by eapply slot_unique). lia.
          - destruct (ti_slot _ I fam n b Hb) as (d' & H1 & H2 & H3). exists d'.
            assert (b <> m) by (intros ->; assert (n = j) by (by eapply slot_unique); lia).
            rewrite Hdests, bool_decide_eq_false_2 by done. split_and!; try done.
            intros ->. destruct Ei. by eapply slot_unique. }
        exists d'. split_and!; try done. rewrite Hfam, bool_decide_eq_true_2, lookup_delete_ne; [done| |done].
        intros E. rewrite <- E in H3. congruence.
      * destruct (ti_slot _ I f n b Hb) as (d' & H1 & H2 & H3). exists d'.
        assert (b <> m).
        { intros ->. assert (d' = dm) as -> by congruence.
          by destruct (family_of_dest l f fam _ _ m I H3 Hm3). }
        rewrite Hdests, Hfam, !bool_decide_eq_false_2 by done. done.
    + intros f Hf. rewrite Hsl. rewrite Hdirty in Hf. pose proof (ti_clean _ I f Hf) as Hno.
      case_bool_decide; [|done]. subst f. intros Hin. apply Hno. unfold slots' in Hin.
      apply elem_of_take in Hin as (n & Hn & _).
      apply list_lookup_insert_Some in Hn as [(_ & ? & _)|[_ Hn]]; [done|]. by eapply list_elem_of_lookup_2.
    + rewrite Hdirty, Hactive. apply I.
    + intros f Ht. rewrite Hsl. rewrite Htimer in Ht. pose proof (ti_timer _ I f Ht) as Hnil.
      case_bool_decide; [|done]. subst f. unfold s in Hs. rewrite Hnil in Hs. done.
    + intros f. rewrite Hc. apply (remove_size fam key a l f _ I Hk), Hfam.
Qed.

Lemma remove_dest_Ok a fam key l :
  table_inv l -> family_dests fam l !! key = Some a ->
  exists l', remove_dest a fam key l = Ok l' /\ removed a fam key l l'.
Proof.
  intros I Hk. destruct (ti_dest _ I fam key a Hk) as (d & i & Hd & _ & _ & Hi & Hs).
  destruct (flag (activeGet l) fam) eqn:Ha; [by eapply remove_reading|by eapply remove_moving].
Qed.

(** ** Compaction of the list *)

(** The two halves of the invariant about the list of one family, for [slots] in its
    place. *)
Definition slots_inv (fam : Z) (slots : list (option dptr)) (l : LocRib) : Prop :=
  (forall key a, family_dests fam l !! key = Some a -> exists d i,
     rib_dests l !! a = Some d /\ GetCIDR (dest_NLRI d) = key /\ protoFamily d = fam /\
     dest_routeListIdx d = Z.of_nat i /\ slots !! i = Some (Some a)) /\
  (forall i a, slots !! i = Some (Some a) -> exists d,
     rib_dests l !! a = Some d /\ dest_routeListIdx d = Z.of_nat i /\
     family_dests fam l !! GetCIDR (dest_NLRI d) = Some a).

(** The destinations in a list of slots. *)
Definition full (slots : list (option dptr)) : list dptr := omap (fun s => s) slots.

Lemma slots_inv_of l fam : table_inv l -> slots_inv fam (route_slots fam l) l.
Proof. intros I. split; intros *; apply I. Qed.

Lemma full_insert slots (i : nat) s a :
  slots !! i = Some s -> Permutation (full (<[i := Some a]> slots) ++ full [s]) (a :: full slots).
Proof.
  intros Hs. rewrite <- (take_drop_middle slots i s Hs) at 2.
  rewrite insert_take_drop by (by eapply lookup_lt_Some). unfold full. rewrite !omap_app. cbn.
  destruct s as [b|]; cbn; solve_Permutation.
Qed.

Lemma full_delete slots (i : nat) a :
  slots !! i = Some (Some a) -> Permutation (a :: full (<[i := None]> slots)) (full slots).
Proof.
  intros Hs. rewrite <- (take_drop_middle slots i _ Hs) at 2.
  rewrite insert_take_drop by (by eapply lookup_lt_Some). unfold full. rewrite !omap_app. cbn. solve_Permutation.
Qed.

Lemma last_full_ok fuel slots idx modIdx :
  0 <= idx -> modIdx < len slots -> modIdx - idx <= Z.of_nat fuel ->
  exists r, last_full fuel slots idx modIdx = Ok r /\ r <= modIdx /\ (idx <= r \/ r = modIdx) /\
    (idx < r -> exists a, slots !! Z.to_nat r = Some (Some a)) /\
    (forall k, r < Z.of_nat k <= modIdx -> idx < Z.of_nat k -> slots !! k = Some None).
Proof.
  intros Hi. revert modIdx. induction fuel as [|fuel IH]; intros modIdx Hm Hf; cbn [last_full];
    (destruct (idx <? modIdx) eqn:E; [|exists modIdx; split_and!; try done; lia]); [lia|].
  destruct (index_safe slots modIdx) as (s & Hs & Hlk); [lia|]. rewrite Hs. res_simpl.
  destruct s as [a|].
  - exists modIdx. split_and!; try done; try lia. intros _. by exists a.
  - destruct (IH (modIdx - 1)) as (r & -> & H1 & H2 & H3 & H4); [lia|lia|]. exists r. split_and!; [done|lia|lia|done|].
    intros k Hk Hk'. destruct (decide (Z.of_nat k = modIdx)) as [Hkm|]; [|apply H4; lia].
    rewrite <- Hlk. f_equal. lia.
Qed.

(** What the loop does to the heap: it renumbers destinations of the family. *)
Definition renumbered (fam : Z) (l l' : LocRib) : Prop :=
  exists dests, l' = set_rib_dests dests l /\
    forall b d, rib_dests l !! b = Some d -> exists i, dests !! b = Some (set_dest_routeListIdx i d) /\
      (protoFamily d <> fam -> i = dest_routeListIdx d).

Lemma renumbered_refl fam l : renumbered fam l l.
Proof.
  exists (rib_dests l). split; [by destruct l|]. intros b d Hb. exists (dest_routeListIdx d). by rewrite set_idx_id.
Qed.

Lemma renumbered_step fam l l' a d i :
  renumbered fam l l' -> rib_dests l' !! a = Some d -> protoFamily d = fam ->
  renumbered fam l (set_dest a (set_dest_routeListIdx i d) l').
Proof.
  intros (dests & -> & H) Ha Hf. cbn in Ha. exists (<[a := set_dest_routeListIdx i d]> dests). split; [done|].
  intros b e Hb. destruct (decide (b = a)) as [->|]; [|rewrite lookup_insert_ne by done; by apply H].
  rewrite lookup_insert_eq. destruct (H a e Hb) as (j & Hj & _). assert (d = set_dest_routeListIdx j e) as -> by congruence.
  exists i. split; [done|]. by intros [].
Qed.

(** A nil slot takes the destination of another. *)
Lemma slots_inv_move fam slots l (i j : nat) m d :
  slots_inv fam slots l -> slots !! i = Some None -> slots !! j = Some (Some m) -> rib_dests l !! m = Some d ->
  slots_inv fam (<[j := None]> (<[i := Some m]> slots)) (set_dest m (set_dest_routeListIdx (Z.of_nat i) d) l).
Proof.
  intros [I1 I2] Hi Hj Hm. assert (i <> j) as Hij by (intros ->; congruence).
  pose proof (lookup_lt_Some _ _ _ Hi). pose proof (lookup_lt_Some _ _ _ Hj).
  destruct (I2 j m Hj) as (d0 & Hm0 & Hm1 & Hm2). assert (d0 = d) as -> by congruence. split.
  - intros key a Ha. destruct (I1 key a Ha) as (e & k & H1 & H2 & H3 & H4 & H5). cbn.
    destruct (decide (a = m)) as [->|Hne].
    + assert (e = d) as -> by congruence. eexists _, i. rewrite lookup_insert_eq. split_and!; try done.
      rewrite list_lookup_insert_ne by done. by apply list_lookup_insert_eq.
    + exists e, k. rewrite lookup_insert_ne by done. split_and!; try done.
      rewrite list_lookup_insert_ne by (intros ->; congruence). by rewrite list_lookup_insert_ne by (intros ->; congruence).
  - intros k a Hk. apply list_lookup_insert_Some in Hk as [(_ & ? & _)|[Hkj Hk]]; [done|].
    cbn. apply list_lookup_insert_Some in Hk as [(<- & [= <-] & _)|[Hki Hk]].
    + eexists. rewrite lookup_insert_eq. done.
    + destruct (I2 k a Hk) as (e & H1 & H2 & H3). exists e. rewrite lookup_insert_ne; [done|].
      intros ->. assert (e = d) as -> by congruence. lia.
Qed.

Definition compacted (slots : list (option dptr)) (r : nat) : Prop :=
  (forall k, (k < r)%nat -> exists a, slots !! k = Some (Some a)) /\
  (forall k, (r <= k < length slots)%nat -> slots !! k = Some None).

Lemma compact_ok fam fuel slots (idx : nat) lastIdx l0 l :
  slots_inv fam slots l -> renumbered fam l0 l -> (idx <= length slots)%nat ->
  len slots - Z.of_nat idx <= Z.of_nat fuel -> lastIdx < len slots ->
  (forall k, (k < idx)%nat -> exists a, slots !! k = Some (Some a)) ->
  (forall k, (k < length slots)%nat -> lastIdx < Z.of_nat k -> slots !! k = Some None) ->
  exists slots' (r : nat) l', compact fuel slots (Z.of_nat idx) lastIdx l = Ok (slots', Z.of_nat r, l') /\
    (r <= length slots')%nat /\ slots_inv fam slots' l' /\ renumbered fam l0 l' /\ compacted slots' r /\
    Permutation (full slots') (full slots).
Proof.
  revert slots idx lastIdx l. induction fuel as [|fuel IH]; intros slots idx lastIdx l I Hr Hidx Hf Hlast Hlo Hhi;
    cbn [compact]; (destruct (Z.of_nat idx <? len slots) eqn:E;
      [|exists slots, idx, l; split_and!; try done; split; [done|intros; unfold len in E; lia]]);
    [unfold len in *; lia|].
  assert (idx < length slots)%nat as Hlt by (unfold len in E; lia).
  destruct (lookup_lt_is_Some_2 slots idx Hlt) as [s Hs]. rewrite (index_lookup _ _ _ Hs). res_simpl.
  replace (Z.of_nat idx + 1) with (Z.of_nat (S idx)) by lia.
  destruct s as [a|].
  - apply IH; try done; try (unfold len in *; lia). intros k Hk.
    destruct (decide (k = idx)) as [->|]; [by exists a|]. apply Hlo. lia.
  - destruct (last_full_ok (length slots) slots (Z.of_nat idx) lastIdx) as (r & -> & R1 & R2 & R3 & R4);
      [lia|done|unfold len in *; lia|]. res_simpl.
    destruct (r <=? Z.of_nat idx) eqn:Er.
    + exists slots, idx, l. split_and!; try done; split; [done|]. intros k Hk.
      destruct (decide (k = idx)) as [->|]; [done|].
      destruct (decide (Z.of_nat k <= lastIdx)); [apply R4; lia|apply Hhi; lia].
    + destruct R3 as [m Hm]; [lia|]. destruct I as [I1 I2] eqn:EI. clear EI.
      destruct (I2 _ m Hm) as (d & D1 & D2 & D3). pose proof (conj I1 I2) as I'. fold (slots_inv fam slots l) in I'.
      assert (r = Z.of_nat (Z.to_nat r)) as Hz by lia. set (j := Z.to_nat r) in *. rewrite Hz in *. clearbody j.
      pose proof (lookup_lt_Some _ _ _ Hm) as Hj.
      rewrite (index_lookup _ _ _ Hm). res_simpl. rewrite set_index_lookup by done. res_simpl.
      rewrite (set_slot_idx_Ok _ idx _ m d) by (by apply list_lookup_insert_eq || done). res_simpl.
      rewrite set_index_lookup by (rewrite length_insert; lia). res_simpl.
      destruct (IH (<[j := None]> (<[idx := Some m]> slots)) (S idx) (Z.of_nat j)
        (set_dest m (set_dest_routeListIdx (Z.of_nat idx) d) l)) as (s' & r' & l' & -> & Q1 & Q2 & Q3 & Q4 & Q5).
      * by apply slots_inv_move.
      * apply renumbered_step; [done..|]. destruct (I1 _ _ D3) as (e & _ & F1 & _ & F3 & _). congruence.
      * rewrite !length_insert. lia.
      * unfold len in *. rewrite !length_insert. lia.
      * unfold len in *. rewrite !length_insert. lia.
      * intros k Hk. rewrite list_lookup_insert_ne by lia. destruct (decide (k = idx)) as [->|].
        { exists m. by apply list_lookup_insert_eq. }
        rewrite list_lookup_insert_ne by done. apply Hlo. lia.
      * intros k Hk Hk'. rewrite !length_insert in Hk. rewrite !list_lookup_insert_ne by lia.
        destruct (decide (Z.of_nat k <= lastIdx)); [apply R4; lia|apply Hhi; lia].
      * exists s', r', l'. split_and!; try done. rewrite Q5.
        apply (Permutation_cons_inv (a := m)). rewrite full_delete.
        { rewrite <- (full_insert slots idx None m Hs). cbn. by rewrite app_nil_r. }
        rewrite list_lookup_insert_ne by lia. done.
Qed.

(** What [ResetRouteList] makes of the list of a family. *)
Record reset_list (fam : Z) (l l' : LocRib) : Prop := mkResetList {
  rs_inv : table_inv l';
  rs_full : ~ None ∈ route_slots fam l';
  rs_perm : Permutation (full (route_slots fam l')) (full (route_slots fam l));
  rs_other f : f <> fam -> route_slots f l' = route_slots f l;
  rs_map : destPathMap l' = destPathMap l;
  rs_active : activeGet l' = <[fam := false]> (activeGet l);
  rs_count : routesCount l' = routesCount l;
  rs_timer : timer l' = timer l;
  rs_dests b d : rib_dests l !! b = Some d -> exists i, rib_dests l' !! b = Some (set_dest_routeListIdx i d);
  rs_paths : rib_paths l' = rib_paths l /\ rib_conf l' = rib_conf l /\ rib_peers l' = rib_peers l;
  rs_rest : unreachablePaths l' = unreachablePaths l /\ rib_trace l' = rib_trace l /\
    reachabilityMap l' = reachabilityMap l;
}.

Lemma compacted_take slots r :
  compacted slots r -> (r <= length slots)%nat -> ~ None ∈ take r slots /\ full (take r slots) = full slots.
Proof.
  intros [H1 H2] Hr. split.
  - intros (k & Hk & Hlt)%elem_of_take. destruct (H1 k Hlt) as [a Ha]. congruence.
  - rewrite <- (take_drop r slots) at 2. unfold full. rewrite omap_app.
    assert (omap (fun s => s) (drop r slots) = []) as ->; [|by rewrite app_nil_r].
    assert (Forall (fun s => s = None) (drop r slots)) as Hn.
    { apply Forall_lookup_2. intros k s Hs. rewrite lookup_drop in Hs.
      rewrite H2 in Hs by (apply lookup_lt_Some in Hs; lia). congruence. }
    induction Hn as [|s ss -> _ IH]; [done|]. done.
Qed.

Lemma ResetRouteList_ok fam l : table_inv l -> exists l', ResetRouteList fam l = Ok l' /\ reset_list fam l l'.
Proof.
  intros I. unfold ResetRouteList. change (routeListDirty (set_activeGet _ l)) with (routeListDirty l).
  destruct (flag (routeListDirty l) fam) eqn:Ed; cbn [negb].
  2:{ eexists. split; [done|]. split; try done.
      - split; try apply I. intros f. cbn. rewrite flag_insert. case_bool_decide; [congruence|]. apply I.
      - by apply (ti_clean _ I).
      - intros b d Hb. exists (dest_routeListIdx d). by rewrite set_idx_id. }
  change (route_slots fam (set_activeGet _ l)) with (route_slots fam l). set (s := route_slots fam l).
  set (la := set_activeGet _ l).
  destruct (compact_ok fam (length s) s 0 (len s - 1) la la) as (s' & r & l' & E & H1 & H2 & H3 & H4 & H5).
  - apply (slots_inv_of l fam I).
  - apply renumbered_refl.
  - lia.
  - unfold len. lia.
  - lia.
  - lia.
  - unfold len. lia.
  - change (Z.of_nat 0) with 0 in E. rewrite E. res_simpl. destruct H3 as (dests & -> & Hdests).
    destruct (compacted_take s' r H4 H1) as [Hnone Hfull].
    unfold slice. rewrite (proj2 (andb_true_iff _ _)) by (unfold len; lia). rewrite drop_0, Z.sub_0_r, Nat2Z.id. res_simpl.
    eexists. split; [done|]. set (l' := set_routeListDirty _ _).
    assert (forall f, route_slots f l' = if bool_decide (f = fam) then take r s' else route_slots f l) as Hsl
      by (intros f; apply (route_slots_insert fam (take r s') l f)).
    destruct H2 as [J1 J2]. split; try done.
    + split.
      * intros f key a Ha. change (family_dests f l !! key = Some a) in Ha.
        rewrite Hsl. case_bool_decide as Ef.
        -- subst f. destruct (J1 key a Ha) as (d & i & D1 & D2 & D3 & D4 & D5). exists d, i. split_and!; try done.
           rewrite lookup_take_lt; [done|]. destruct (decide (i < r)%nat) as [|Hge]; [done|].
           destruct H4 as [_ H4]. rewrite H4 in D5; [done|]. apply lookup_lt_Some in D5. lia.
        -- destruct (ti_dest _ I f key a Ha) as (d & i & D1 & D2 & D3 & D4 & D5).
           destruct (Hdests a d D1) as (n & F1 & F2). exists (set_dest_routeListIdx n d), i.
           rewrite F2 by congruence. split_and!; try done. rewrite <- F2 by congruence. done.
      * intros f i a Ha. rewrite Hsl in Ha. case_bool_decide as Ef.
        -- subst f. apply lookup_take_Some in Ha as [Ha _]. by apply J2.
        -- destruct (ti_slot _ I f i a Ha) as (d & D1 & D2 & D3).
           destruct (ti_dest _ I f _ a D3) as (d' & _ & E1 & _ & E3 & _). assert (d' = d) as -> by congruence.
           destruct (Hdests a d D1) as (n & F1 & F2). rewrite F2 in F1 by congruence. rewrite set_idx_id in F1.
           by exists d.
      * intros f Hf. rewrite Hsl. case_bool_decide; [done|]. cbn in Hf. rewrite flag_insert in Hf.
        rewrite bool_decide_eq_false_2 in Hf by done. by apply I.
      * intros f. cbn. rewrite !flag_insert. case_bool_decide; [done|]. apply I.
      * intros f Hf. rewrite Hsl. change (timer l !! f = None) in Hf. pose proof (ti_timer _ I f Hf) as Hnil.
        case_bool_decide; [|done]. subst f. unfold s in H5. rewrite Hnil in H5.
        change (full []) with (@nil dptr) in H5. apply Permutation_nil_r in H5. rewrite <- Hfull in H5.
        destruct (take r s') as [|[x|] ?]; [done|done|]. exfalso. apply Hnone. left.
      * apply I.
    + by rewrite Hsl, bool_decide_eq_true_2.
    + rewrite Hsl, bool_decide_eq_true_2 by done. by rewrite Hfull, H5.
    + intros f Hf. by rewrite Hsl, bool_decide_eq_false_2.
    + intros b d Hb. destruct (Hdests b d Hb) as (n & F1 & _). by exists n.
Qed.
