(* ===== verification/BgpRibSteps.v ===== *)
(** * The local RIB: its operations

    Every operation on the local RIB keeps the invariant of BgpRibSpec and moves the
    list of routes only in ways that a reader of the list, who takes it in pages, can
    live with. *)

From S2P Require Import Prelude.
From S2P Require Import NetIP.
From S2P Require Import BgpOpen.
From S2P Require Import BgpNlri.
From S2P Require Import BgpAttr.
From S2P Require Import BgpHelpers.
From S2P Require Import BgpNeighbor.
From S2P Require Import BgpPath.
From S2P Require Import BgpDecision.
From S2P Require Import BgpDest.
From S2P Require Import BgpDestSpec.
From S2P Require Import BgpRib.
From S2P Require Import BgpRibSpec.

(** ** The operations keep the invariant *)

(** What a walk over the list of a family relies on while it is being read: a slot keeps
    its destination or becomes nil, and what is appended is new. *)
Record evolves (fam : Z) (l l' : LocRib) : Prop := mkEvolves {
  ev_active : flag (activeGet l') fam = true;
  ev_timer : timer l' !! fam = None -> timer l !! fam = None;
  ev_slots i s : route_slots fam l !! i = Some s ->
    route_slots fam l' !! i = Some s \/ route_slots fam l' !! i = Some None;
  ev_new i a : (length (route_slots fam l) <= i)%nat -> route_slots fam l' !! i = Some (Some a) ->
    rib_dests l !! a = None;
}.

Definition keeps (l l' : LocRib) : Prop :=
  table_inv l ->
  table_inv l' /\ (forall a, is_Some (rib_dests l !! a) -> is_Some (rib_dests l' !! a)) /\
  forall fam, flag (activeGet l) fam = true -> evolves fam l l'.

#[export] Instance keeps_refl : Reflexive keeps.
Proof.
  intros l I. split_and!; try done. intros fam Ha. split; try done; [intros; by left|].
  intros i a Hi Hs. apply lookup_lt_Some in Hs. lia.
Qed.

Lemma evolves_trans fam l1 l2 l3 :
  (forall a, is_Some (rib_dests l1 !! a) -> is_Some (rib_dests l2 !! a)) ->
  evolves fam l1 l2 -> evolves fam l2 l3 -> evolves fam l1 l3.
Proof.
  intros D12 E F. split; [apply F|intros H; by apply E, F| |].
  - intros i s Hs. destruct (ev_slots _ _ _ E i s Hs) as [H|H]; [by apply (ev_slots _ _ _ F)|].
    destruct (ev_slots _ _ _ F i None H); by right.
  - intros i a Hi Hs. destruct (rib_dests l1 !! a) eqn:Ea; [|done]. exfalso.
    destruct (D12 a) as [d2 Hd2]; [by eexists|].
    destruct (decide (length (route_slots fam l2) <= i)%nat) as [Hge|Hlt].
    + pose proof (ev_new _ _ _ F i a Hge Hs). congruence.
    + destruct (lookup_lt_is_Some_2 (route_slots fam l2) i) as [s2 H2]; [lia|].
      assert (s2 = Some a) as -> by (destruct (ev_slots _ _ _ F i s2 H2); congruence).
      pose proof (ev_new _ _ _ E i a Hi H2). congruence.
Qed.

#[export] Instance keeps_trans : Transitive keeps.
Proof.
  intros l1 l2 l3 H12 H23 I. destruct (H12 I) as (I2 & D12 & E12). destruct (H23 I2) as (I3 & D23 & E23).
  split_and!; [done|by auto|]. intros fam Ha. pose proof (E12 fam Ha) as E.
  eapply evolves_trans; [exact D12|exact E|]. apply E23, E.
Qed.

Lemma same_table_keeps l l' : same_table l l' -> keeps l l'.
Proof.
  intros T I. split; [by eapply same_table_inv|]. split.
  { intros a [d Hd]. destruct (st_dest _ _ a d T Hd) as (d' & H & _). by exists d'. }
  intros fam Ha. split.
  - by rewrite (st_active _ _ T).
  - by rewrite (st_timer _ _ T).
  - rewrite (st_slots _ _ fam T). auto.
  - rewrite (st_slots _ _ fam T). intros i a Hi Hs. apply lookup_lt_Some in Hs. lia.
Qed.

Lemma created_keeps nlri fam a l l' :
  created nlri fam a l l' -> family_dests fam l !! GetCIDR nlri = None -> keeps l l'.
Proof.
  intros C Hn I. split; [by eapply created_inv|]. split.
  { intros b [d Hd]. exists d. by eapply created_lookup. }
  intros f Ha. split.
  - by rewrite (cr_active _ _ _ _ _ C).
  - rewrite (cr_timer _ _ _ _ _ C). by case_bool_decide.
  - intros i s Hs. left. rewrite (cr_slots _ _ _ _ _ C). case_bool_decide; [subst f; by apply lookup_app_l_Some|done].
  - intros i b Hi. rewrite (cr_slots _ _ _ _ _ C). case_bool_decide; [subst f|intros Hs%lookup_lt_Some; lia].
    rewrite lookup_app_r by done. intros [_ [= <-]]%list_lookup_singleton_Some. apply C.
Qed.

Lemma removed_keeps a fam key l l' : removed a fam key l l' -> keeps l l'.
Proof.
  intros R I. split; [apply R|]. split.
  { intros b [d Hd]. destruct (rm_dests _ _ _ _ _ R b d Hd) as [i Hi]. by eexists. }
  intros f Ha. split.
  - by rewrite (rm_active _ _ _ _ _ R).
  - by rewrite (rm_timer _ _ _ _ _ R).
  - intros i s Hs. destruct (decide (f = fam)) as [->|]; [|rewrite (rm_other _ _ _ _ _ R) by done; by left].
    destruct (rm_reading _ _ _ _ _ R Ha) as (j & Hj & -> & _).
    destruct (decide (i = j)) as [->|]; [right|left; by rewrite list_lookup_insert_ne].
    apply list_lookup_insert_eq. by apply lookup_lt_Some in Hj.
  - intros i b Hi. destruct (decide (f = fam)) as [->|].
    + destruct (rm_reading _ _ _ _ _ R Ha) as (j & _ & -> & _). intros Hs%lookup_lt_Some.
      rewrite length_insert in Hs. lia.
    + rewrite (rm_other _ _ _ _ _ R) by done. intros Hs%lookup_lt_Some. lia.
Qed.

#[export] Hint Resolve same_table_keeps created_keeps removed_keeps : rib.

Lemma select_dest_table env gConf a count out l act out' l' :
  select_dest env gConf a count out l = Ok (act, out', l') -> same_table l l'.
Proof.
  unfold select_dest. intros H. res_inv H. destruct a1 as [sel d']. res_inv H. subst.
  apply dest_at_Ok in E. apply SelectRoute_id in E0.
  etrans; [by eapply same_table_set_dest|]. apply same_table_emit.
Qed.

Lemma write_db_table op a l l' : write_db op a l = Ok l' -> same_table l l'.
Proof. unfold write_db. intros H. res_inv H. subst. apply same_table_emit. Qed.

Lemma removal_keeps a fam key op l l1 l' :
  family_dests fam l !! key = Some a -> remove_dest a fam key l = Ok l1 -> write_db op a l1 = Ok l' -> keeps l l'.
Proof.
  intros Ha E1 E2 I. destruct (remove_dest_Ok a fam key l I Ha) as (l2 & E & R).
  assert (l1 = l2) as -> by congruence. apply write_db_table in E2. revert I.
  change (keeps l l'). etrans; [by eapply removed_keeps|by apply same_table_keeps].
Qed.

Lemma forget_unreachable_table nh p a id l : same_table l (forget_unreachable nh p a id l).
Proof. unfold forget_unreachable. by destruct (unreachablePaths l !! nh); split. Qed.

Lemma note_unreachable_table nh p a id l l' : note_unreachable nh p a id l = Ok l' -> same_table l l'.
Proof. unfold note_unreachable. intros H. res_inv H. subst. by split. Qed.

Lemma GetReachabilityInfo_table env ip l info l' : GetReachabilityInfo env ip l = (info, l') -> same_table l l'.
Proof.
  unfold GetReachabilityInfo. destruct (reachabilityMap l !! ip); [by intros [= _ <-]|].
  destruct (GetNextHopInfo _ _ _); intros [= _ <-]; by split.
Qed.

#[export] Hint Resolve forget_unreachable_table : rib.

(** ** Updates *)

Lemma withdraw_dest_keeps env gConf peerIP remPath count fam nlri a out l out' l' :
  withdraw_dest env gConf peerIP remPath count fam nlri a out l = Ok (out', l') ->
  family_dests fam l !! GetCIDR nlri = Some a -> keeps l l'.
Proof.
  unfold withdraw_dest. intros H Ha. res_inv H. destruct a1 as [old d1]. res_inv H.
  destruct a1 as [[act out1] l2]. apply dest_at_Ok in E. apply RemovePath_id in E0.
  apply select_dest_table in E1. set (l1 := match old with Some _ => _ | None => _ end) in E1.
  assert (same_table l l1) as T1.
  { etrans; [by eapply (same_table_set_dest a _ d1)|]. unfold l1. destruct old; [|done].
    destruct (negb _); [|done]. destruct (path_GetNextHop _ _); [done|]. auto with rib. }
  assert (same_table l l2) as T2 by (by etrans).
  set (l3 := match old with Some _ => _ | None => _ end) in H.
  assert (same_table l l3) as T3.
  { etrans; [exact T2|]. unfold l3. destruct old; [|done]. destruct remPath; [|done]. auto with rib. }
  rewrite <- (st_family _ _ fam T3) in Ha. etrans; [by apply same_table_keeps|]. clearbody l3.
  destruct (dest_at l3 a) as [d3| | |]; try done. cbn [mbind res_bind] in H.
  destruct (_ && _); res_inv H; subst; [by eapply removal_keeps|].
  by eapply same_table_keeps, write_db_table.
Qed.

Lemma withdraw_all_keeps env gConf peerIP add remPath count fam rem out l out' l' :
  withdraw_all env gConf peerIP add remPath count fam rem out l = Ok (out', l') -> keeps l l'.
Proof.
  revert out l. induction rem as [|nlri rem IH]; intros out l; cbn [withdraw_all]; [by intros [= _ <-]|].
  intros H. res_inv H. destruct a as [out1 l1]. etrans; [|by eapply IH].
  destruct (isIpInList add nlri); [by injection E as _ <-|].
  destruct (family_dests fam l !! GetCIDR nlri) as [a|] eqn:Ea; [|by injection E as _ <-].
  by eapply withdraw_dest_keeps.
Qed.

Lemma GetDest_keeps nlri fam l a b l' : GetDest nlri fam true l = Ok (a, b, l') -> keeps l l'.
Proof.
  unfold GetDest. destruct (family_dests fam l !! GetCIDR nlri) eqn:E; [by intros [= _ _ <-]|].
  destruct (create_dest_Ok nlri fam l) as (c & l1 & E1 & C). rewrite E1. res_simpl. intros [= _ _ <-].
  by eapply created_keeps.
Qed.

Lemma announce_route_keeps env gConf peerIP nh addPath count fam nlri out l b out' l' :
  announce_route env gConf peerIP nh addPath count fam nlri out l = Ok (b, out', l') -> keeps l l'.
Proof.
  unfold announce_route. intros H. res_inv H. destruct a as [[dest created] l1]. res_inv H.
  apply (GetDest_keeps nlri fam) in E. apply dest_at_Ok in E1. etrans; [exact E|].
  destruct (_ && _); [by injection H as _ _ <-|]. res_inv H. destruct a1 as [added d1].
  apply AddOrUpdatePath_id in E2.
  set (l2 := match getPathForIP _ _ _ with Some _ => _ | None => _ end) in *.
  set (l3 := if (l2 : bool) then _ else _) in *.
  assert (same_table l1 l3) as T by (unfold l3; destruct l2; [auto with rib|done]).
  assert (same_table l1 (set_dest a d1 l3)) as T'.
  { etrans; [exact T|]. destruct (st_dest _ _ _ _ T E1) as (d3 & F1 & F2).
    eapply same_table_set_dest; [exact F1|congruence]. }
  apply same_table_keeps. etrans; [exact T'|]. destruct (negb _); res_inv H.
  - subst. by eapply note_unreachable_table.
  - destruct a1 as [[act out1] l4]. res_inv H. subst. etrans; [by eapply select_dest_table|]. by eapply write_db_table.
Qed.

Lemma announce_all_keeps env gConf peerIP nh addPath count fam add all out l out' all' l' :
  announce_all env gConf peerIP nh addPath count fam add all out l = Ok (out', all', l') -> keeps l l'.
Proof.
  revert all out l. induction add as [|nlri add IH]; intros all out l; cbn [announce_all]; [by intros [= _ _ <-]|].
  intros H. res_inv H. destruct a as [[ok out1] l1]. etrans; [|by eapply IH]. by eapply announce_route_keeps.
Qed.

Lemma ProcessRoutes_keeps env gConf peerIP add rem addPath remPath count fam out l out' all l' :
  ProcessRoutes env gConf peerIP add rem addPath remPath count fam out l = Ok (out', all, l') -> keeps l l'.
Proof.
  unfold ProcessRoutes. intros H. res_inv H. destruct a as [out1 l1].
  etrans; [by eapply withdraw_all_keeps|by eapply announce_all_keeps].
Qed.

Lemma add_ids_id path peerIP p ids d d' : add_ids path peerIP p ids d = Ok d' -> dest_id d' = dest_id d.
Proof.
  revert d. induction ids as [|id ids IH]; intros d; cbn [add_ids]; [by intros [= <-]|].
  intros H. res_inv H. destruct a as [b d1]. apply AddOrUpdatePath_id in E. rewrite <- E. by apply IH.
Qed.

Lemma reachable_dests_table env gConf peerIP p count ds out l out' l' :
  reachable_dests env gConf peerIP p count ds out l = Ok (out', l') -> same_table l l'.
Proof.
  revert out l. induction ds as [|[a ids] ds IH]; intros out l; cbn [reachable_dests]; [by intros [= _ <-]|].
  intros H. res_inv H. destruct a2 as [[act out1] l1]. res_inv H.
  apply dest_at_Ok in E. apply add_ids_id in E0.
  etrans; [|by eapply IH]. etrans; [|by eapply write_db_table]. etrans; [|by eapply select_dest_table].
  by eapply same_table_set_dest.
Qed.

Lemma reachable_paths_table env gConf nh info count ps out l out' l' :
  reachable_paths env gConf nh info count ps out l = Ok (out', l') -> same_table l l'.
Proof.
  revert out l. induction ps as [|[p ds] ps IH]; intros out l; cbn [reachable_paths]; [by intros [= _ <-]|].
  intros H. res_inv H. destruct a as [out1 l1]. etrans; [|by eapply IH].
  etrans; [apply (same_table_on_path (SetReachabilityForNextHop nh (Some info)) p)|].
  case_bool_decide; [by injection E as _ <-|]. by eapply reachable_dests_table.
Qed.

Lemma test_next_hop_table env addPath fam l hop l' :
  test_next_hop env addPath fam l = Ok (hop, l') -> same_table l l'.
Proof.
  unfold test_next_hop. destruct (path_GetNextHop _ _) as [|x nh]; [by intros [= _ <-]|].
  destruct (GetReachabilityInfo env (IP_String (x :: nh)) l) as [info l1] eqn:E.
  apply GetReachabilityInfo_table in E. intros H. res_inv H. etrans; [exact E|].
  etrans; [apply (same_table_on_path (SetReachabilityForFamily fam info) addPath)|].
  destruct (negb a); [by injection H as _ <-|]. injection H as _ <-.
  destruct info; [done|]. unfold init_unreachable. auto with rib.
Qed.

Lemma TestNHAndProcessRoutes_keeps env gConf peerIP add rem addPath remPath count fam out l out' all l' :
  TestNHAndProcessRoutes env gConf peerIP add rem addPath remPath count fam out l = Ok (out', all, l') -> keeps l l'.
Proof.
  unfold TestNHAndProcessRoutes. intros H. res_inv H. destruct a as [hop l1].
  assert (same_table l l1) as T.
  { destruct (0 <? len add); [by eapply test_next_hop_table|by injection E as _ <-]. }
  etrans; [by apply same_table_keeps|].
  destruct hop as [[nh info]|]; [|by injection H as _ _ <-]. res_inv H. destruct a as [[out1 all1] l2].
  apply ProcessRoutes_keeps in E0. etrans; [exact E0|]. destruct info as [info|]; [|by injection H as _ _ <-].
  res_inv H. destruct a as [out2 l3]. injection H as _ _ <-.
  unfold ProcessRoutesForReachableRoutes in E1. destruct (unreachablePaths l2 !! nh); [|by injection E1 as _ <-].
  by eapply same_table_keeps, reachable_paths_table.
Qed.

Lemma path_Clone_table p l q l' : path_Clone p l = Ok (q, l') -> same_table l l'.
Proof.
  unfold path_Clone. destruct (rib_paths l !! p) as [o|]; [|done]. res_simpl.
  intros [= _ <-]. by destruct (rib_conf l !! p); split.
Qed.

Lemma ProcessUpdate_keeps env gConf n path add rem fam count out l out' all l' :
  ProcessUpdate env gConf n path add rem fam count out l = Ok (out', all, l') -> keeps l l'.
Proof.
  unfold ProcessUpdate. intros H. res_inv H. destruct a as [q l1]. apply path_Clone_table in E.
  etrans; [by apply same_table_keeps|]. destruct (_ || _); [|by injection H as _ _ <-].
  res_inv H. by eapply TestNHAndProcessRoutes_keeps.
Qed.

Lemma filtered_families_keeps env gConf n path count fams out l out' all l' :
  filtered_families env gConf n path count fams out l = Ok (out', all, l') -> keeps l l'.
Proof.
  revert out l. induction fams as [|[fam rs] fams IH]; intros out l; cbn [filtered_families]; [by intros [= _ _ <-]|].
  intros H. res_inv H. destruct a0 as [[out1 all1] l1]. apply TestNHAndProcessRoutes_keeps in E0.
  etrans; [exact E0|]. destruct all1; [by eapply IH|by injection H as _ _ <-].
Qed.

Lemma ProcessFilteredRoutes_keeps env gConf n routes count l out' all l' :
  ProcessFilteredRoutes env gConf n routes count l = Ok (out', all, l') -> keeps l l'.
Proof.
  unfold ProcessFilteredRoutes. generalize (range (dest_env env) (map_to_list routes)), no_out. intros ps.
  revert l. induction ps as [|[p fams] ps IH]; intros l out; cbn [filtered_paths]; [by intros [= _ _ <-]|].
  intros H. res_inv H. destruct a as [[out1 all1] l1]. apply filtered_families_keeps in E.
  etrans; [exact E|]. destruct all1; [by eapply IH|by injection H as _ _ <-].
Qed.

Lemma connected_families_keeps env gConf src path rp count add fams out l out' l' :
  connected_families env gConf src path rp count add fams out l = Ok (out', l') -> keeps l l'.
Proof.
  revert out l. induction fams as [|[fam rem] fams IH]; intros out l; cbn [connected_families]; [by intros [= _ <-]|].
  intros H. res_inv H. destruct a as [[out1 all1] l1]. etrans; [by eapply ProcessRoutes_keeps|by eapply IH].
Qed.

Lemma ProcessConnectedRoutes_keeps env gConf src path add remove count l out l' :
  ProcessConnectedRoutes env gConf src path add remove count l = Ok (out, l') -> keeps l l'.
Proof.
  unfold ProcessConnectedRoutes. intros H. res_inv H. destruct a as [q l1]. res_inv H. destruct a as [out1 l2].
  etrans; [by eapply same_table_keeps, path_Clone_table|].
  etrans; [by eapply connected_families_keeps|by eapply connected_families_keeps].
Qed.

(** ** The loops over the table *)

(** Entries that are in the table, no prefix twice. *)
Definition entries (l : LocRib) (es : list (Z * string * dptr)) : Prop :=
  NoDup (map fst es) /\ forall f k a, (f, k, a) ∈ es -> family_dests f l !! k = Some a.

Lemma table_elem env l f k a :
  dest_env_ok (dest_env env) -> (f, k, a) ∈ table env l <-> family_dests f l !! k = Some a.
Proof.
  intros He. unfold table. rewrite list_elem_of_join. split.
  - intros (es & H & ([f' m] & -> & Hm)%list_elem_of_fmap). rewrite (range_perm _ He), elem_of_map_to_list in Hm.
    apply list_elem_of_fmap in H as ([k' a'] & [= -> -> ->] & H). rewrite (range_perm _ He), elem_of_map_to_list in H.
    unfold family_dests. by rewrite Hm.
  - unfold family_dests. destruct (destPathMap l !! f) as [m|] eqn:Em; [|done]. intros H.
    exists (map (fun e => (f, e.1, e.2)) (range (dest_env env) (map_to_list m))). split.
    + apply list_elem_of_fmap. exists (k, a). split; [done|]. by rewrite (range_perm _ He), elem_of_map_to_list.
    + apply list_elem_of_fmap. exists (f, m). split; [done|]. by rewrite (range_perm _ He), elem_of_map_to_list.
Qed.

Lemma table_entries env l : dest_env_ok (dest_env env) -> entries l (table env l).
Proof.
  intros He. split; [|by intros f k a; apply table_elem].
  unfold table. assert (NoDup (map fst (range (dest_env env) (map_to_list (destPathMap l))))) as Hn.
  { rewrite (range_perm _ He). apply NoDup_fst_map_to_list. }
  induction (range (dest_env env) (map_to_list (destPathMap l))) as [|[f m] es IH]; [constructor|].
  cbn [map fst] in Hn. apply NoDup_cons in Hn as [Hf Hn]. cbn. rewrite map_app, map_map. apply NoDup_app. split_and!.
  - change (NoDup ((pair f ∘ fst) <$> range (dest_env env) (map_to_list m))).
    rewrite (list_fmap_compose fst (pair f)). apply (NoDup_fmap_2 (pair f)). rewrite (range_perm _ He).
    apply NoDup_fst_map_to_list.
  - intros [f' k] H1%list_elem_of_fmap H2%list_elem_of_fmap. destruct H1 as (y & [= -> ->] & _).
    destruct H2 as ([[f2 k2] a2] & [= <- <-] & H3). apply list_elem_of_join in H3 as (es' & H3 & H4).
    apply list_elem_of_fmap in H4 as ([f3 m3] & -> & H4). apply list_elem_of_fmap in H3 as (z & [= <- _ _] & _).
    apply Hf, list_elem_of_fmap. by exists (f, m3).
  - by apply IH.
Qed.

(** The other entries of the table stay. *)
Definition others_stay (fam : Z) (key : string) (l l' : LocRib) : Prop :=
  forall f k, (f, k) <> (fam, key) -> family_dests f l' !! k = family_dests f l !! k.

Lemma removed_others a fam key l l' : removed a fam key l l' -> others_stay fam key l l'.
Proof.
  intros R f k Hne. rewrite (rm_family _ _ _ _ _ R). case_bool_decide; [|done]. subst f.
  apply lookup_delete_ne. congruence.
Qed.

Lemma sweep_dest_keeps env gConf count fam key a out l out' l' :
  sweep_dest env gConf count fam key a out l = Ok (out', l') -> family_dests fam l !! key = Some a ->
  table_inv l -> keeps l l' /\ others_stay fam key l l'.
Proof.
  unfold sweep_dest. intros H Ha I. res_inv H. destruct a0 as [[act out1] l1]. apply select_dest_table in E.
  pose proof (same_table_inv _ _ E I) as I1. rewrite <- (st_family _ _ fam E) in Ha. res_inv H.
  destruct (_ && _); res_inv H; subst.
  - split; [etrans; [by apply same_table_keeps|by eapply removal_keeps]|].
    destruct (remove_dest_Ok a fam key l1 I1 Ha) as (l3 & F & R).
    assert (a1 = l3) as -> by congruence. intros f k Hne.
    match goal with W : write_db _ _ _ = Ok _ |- _ => apply write_db_table in W; rewrite (st_family _ _ f W) end.
    rewrite (removed_others _ _ _ _ _ R f k Hne). by rewrite (st_family _ _ f E).
  - match goal with W : write_db _ _ _ = Ok _ |- _ => apply write_db_table in W; rename W into Ew end.
    split; [apply same_table_keeps; by etrans|]. intros f k _. by rewrite (st_family _ _ f Ew), (st_family _ _ f E).
Qed.

Lemma entries_step l l' f k a es :
  entries l ((f, k, a) :: es) -> others_stay f k l l' -> entries l' es.
Proof.
  intros [Hn He] Ho. cbn in Hn. apply NoDup_cons in Hn as [Hni Hn]. split; [done|]. intros f' k' a' Hin.
  rewrite Ho; [apply He; by right|]. intros E. apply Hni. rewrite <- E. by apply (list_elem_of_fmap_2 fst) in Hin.
Qed.

Lemma entries_table l l' es : same_table l l' -> entries l es -> entries l' es.
Proof. intros T [Hn He]. split; [done|]. intros f k a Hin. rewrite (st_family _ _ f T). by apply He. Qed.

Lemma sweep_table_keeps env gConf remove count es out l out' l' :
  (forall l d d', remove l d = Ok d' -> dest_id d' = dest_id d) ->
  sweep_table env gConf remove count es out l = Ok (out', l') -> entries l es -> keeps l l'.
Proof.
  intros Hr. revert out l. induction es as [|[[f k] a] es IH]; intros out l; cbn [sweep_table]; [by intros [= _ <-]|].
  intros H He I. res_inv H. destruct a2 as [out1 l1]. apply dest_at_Ok in E. apply Hr in E0.
  assert (same_table l (set_dest a a1 l)) as T by (by eapply same_table_set_dest).
  pose proof (entries_table _ _ _ T He) as He1. pose proof (same_table_inv _ _ T I) as I1.
  apply sweep_dest_keeps in E1 as [K Ho]; [|apply He1; left|done].
  revert I. change (keeps l l'). etrans; [by apply same_table_keeps|]. etrans; [exact K|].
  eapply IH; [exact H|]. by eapply entries_step.
Qed.

Lemma RemoveUpdatesFromNeighbor_keeps env gConf peerIP n count l out l' :
  dest_env_ok (dest_env env) -> RemoveUpdatesFromNeighbor env gConf peerIP n count l = Ok (out, l') -> keeps l l'.
Proof.
  intros He H. unfold RemoveUpdatesFromNeighbor in H. res_inv H. destruct a as [out1 l1].
  apply sweep_table_keeps in E; [| |by apply table_entries].
  2:{ intros _ d d'. apply RemoveAllPaths_id. }
  etrans; [exact E|]. injection H as _ <-. destruct n; [|done]. apply same_table_keeps. by split.
Qed.

Lemma RemoveUpdatesFromAllNeighbors_keeps env gConf count l l' :
  dest_env_ok (dest_env env) -> RemoveUpdatesFromAllNeighbors env gConf count l = Ok l' -> keeps l l'.
Proof.
  intros He H. unfold RemoveUpdatesFromAllNeighbors in H. res_inv H. destruct a as [out1 l1]. injection H as <-.
  eapply sweep_table_keeps; [|exact E|by apply table_entries].
  intros l0 d d' [= <-]. apply RemoveAllNeighborPaths_id.
Qed.

(** ** Pages *)

Lemma bulk_loop_ok l slots i n count result :
  Forall (fun s => match s with Some a => is_Some (rib_dests l !! a) | None => True end) slots ->
  exists i' n' result', bulk_loop l slots i n count result = Ok (i', n', result').
Proof.
  intros H. revert i n result. induction H as [|s slots Hs _ IH]; intros i n result; cbn [bulk_loop]; [eauto|].
  destruct (n <? count); [|eauto]. destruct s as [a|]; [|apply IH]. destruct Hs as [d Hd].
  rewrite (dest_at_Some _ _ _ Hd). res_simpl. destruct (0 <? _); apply IH.
Qed.

Lemma same_timer_inv fam b l : table_inv l -> table_inv (set_timer (<[fam := b]> (timer l)) l).
Proof.
  intros I. split; try apply I. intros f Hf. apply (ti_timer _ I f). cbn in Hf.
  destruct (decide (f = fam)) as [->|]; [by rewrite lookup_insert_eq in Hf|by rewrite lookup_insert_ne in Hf].
Qed.

Lemma slots_exist l fam : table_inv l ->
  Forall (fun s => match s with Some a => is_Some (rib_dests l !! a) | None => True end) (route_slots fam l).
Proof.
  intros I. apply Forall_lookup_2. intros i [a|] H; [|done]. destruct (ti_slot _ I fam i a H) as (d & Hd & _).
  by exists d.
Qed.

(** The state after the first half of [BulkGetBGPRoutes]: the list is compacted when a
    walk begins while another may be going on. *)
Definition walk_begins (idx fam : Z) (l : LocRib) : bool := (idx =? 0) && flag (activeGet l) fam.

Lemma set_active_inv fam l : table_inv l -> table_inv (set_activeGet (<[fam := true]> (activeGet l)) l).
Proof.
  intros I. split; try apply I. intros f Hf. cbn in *. rewrite flag_insert. case_bool_decide; [done|].
  by apply (ti_dirty _ I).
Qed.

(** A page is read without fail, and leaves the table as it was, but for the order of
    its list and the flags. *)
Lemma BulkGetBGPRoutes_ok idx count fam l :
  table_inv l -> 0 <= idx -> 0 <= count ->
  exists i n rs l', BulkGetBGPRoutes idx count fam l = Ok (i, n, rs, l') /\ table_inv l'.
Proof.
  intros I Hi Hc. unfold BulkGetBGPRoutes. rewrite (proj2 (Z.ltb_ge count 0)) by lia.
  destruct (timer l !! fam) eqn:Et; [|do 4 eexists; split; [done|done]].
  pose proof (same_timer_inv fam false l I) as I1. set (l1 := set_timer _ l) in *.
  assert (exists l2, (if (idx =? 0) && flag (activeGet l1) fam then ResetRouteList fam l1 else Ok l1) = Ok l2 /\
    table_inv l2) as (l2 & -> & I2).
  { destruct (_ && _); [|by exists l1]. destruct (ResetRouteList_ok fam l1 I1) as (l2 & E & R).
    exists l2. split; [done|apply R]. }
  res_simpl. apply (set_active_inv fam) in I2. set (l3 := set_activeGet _ _) in *.
  rewrite (proj2 (Z.ltb_ge idx 0)) by lia. cbn [andb].
  destruct (bulk_loop_ok l3 (drop (Z.to_nat idx) (route_slots fam l3)) idx 0 count []) as (i' & n' & rs & ->).
  { by apply Forall_drop, slots_exist. }
  res_simpl. do 4 eexists. split; [done|]. by apply same_timer_inv.
Qed.
