(* ===== verification/BgpRibDown.v ===== *)
(** * The local RIB: neighbors that go down

    RemoveUpdatesFromNeighbor of BgpRib takes the paths of a neighbor out of every
    destination, selects again, and drops the destinations without paths. *)

From S2P Require Import Prelude.
From S2P Require Import NetIP.
From S2P Require Import BgpOpen.
From S2P Require Import BgpNlri.
From S2P Require Import BgpAttr.
From S2P Require Import BgpHelpers.
From S2P Require Import BgpNeighbor.
From S2P Require Import BgpPath.
From S2P Require Import BgpDecision.
From S2P Require Import BgpDecisionSpec.
From S2P Require Import BgpDest.
From S2P Require Import BgpDestSpec.
From S2P Require Import BgpDestSelect.
From S2P Require Import BgpRib.
From S2P Require Import BgpRibSpec.
From S2P Require Import BgpRibSteps.

(** ** The slot of a destination does not matter to it *)

Abbreviation set_idx := set_dest_routeListIdx.

(** The outcome of an operation on a destination, with another slot. *)
Definition at_idx {A} (i : Z) (r : res (A * Destination)) : res (A * Destination) :=
  '(x, d) ← r; Ok (x, set_idx i d).

Lemma set_idx_releasePathId i o d : releasePathId o (set_idx i d) = set_idx i (releasePathId o d).
Proof. unfold releasePathId. cbn. by destruct (_ =? _). Qed.

Lemma set_idx_RemovePathAndSetLast i j d :
  RemovePathAndSetLast j (set_idx i d) = (d ← RemovePathAndSetLast j d; Ok (set_idx i d)).
Proof.
  unfold RemovePathAndSetLast. change (statePaths (set_idx i d)) with (statePaths d).
  destruct (_ <? _); [|done]. change (GetLastPath (set_idx i d)) with (GetLastPath d).
  destruct (GetLastPath d); res_simpl; try done. destruct (set_index _ _ _); res_simpl; try done.
  by destruct (slice _ _ _).
Qed.

Lemma set_idx_drop_route i p d : drop_route p (set_idx i d) = (d ← drop_route p d; Ok (set_idx i d)).
Proof.
  unfold drop_route. change (pathRouteMap (set_idx i d)) with (pathRouteMap d).
  destruct (pathRouteMap d !! p) as [r|]; [|done]. res_simpl. change (route_at (set_idx i d) r) with (route_at d r).
  destruct (route_at d r) as [rt| | |]; try done. res_simpl. rewrite set_idx_releasePathId.
  set (d1 := releasePathId (OutPathId rt) d). change (pathRouteMap (set_idx i d1)) with (pathRouteMap d1).
  set (d2 := set_pathRouteMap (delete p (pathRouteMap d1)) d1).
  change (set_pathRouteMap (delete p (pathRouteMap d1)) (set_idx i d1)) with (set_idx i d2).
  destruct (negb _); [|done]. change (GetLastPath (set_idx i d2)) with (GetLastPath d2).
  destruct (GetLastPath d2) as [np| | |]; try done. res_simpl.
  change (PathInfoRouteMap (set_idx i d2)) with (PathInfoRouteMap d2).
  destruct (PathInfoRouteMap d2 !! np) as [nr|]; [|done].
  change (set_PathInfoRouteMap ?m (set_idx i d2)) with (set_idx i (set_PathInfoRouteMap m d2)).
  rewrite set_idx_RemovePathAndSetLast. by destruct (RemovePathAndSetLast _ _).
Qed.

Lemma set_idx_RemovePath i ip id d : RemovePath ip id (set_idx i d) = at_idx i (RemovePath ip id d).
Proof.
  unfold RemovePath, at_idx. change (getPathForIP ip id (set_idx i d)) with (getPathForIP ip id d).
  destruct (getPathForIP ip id d) as [p|]; [|done]. cbv zeta.
  change (dest_ecmpPaths (set_idx i d)) with (dest_ecmpPaths d).
  set (d1 := if bool_decide (is_Some _) then set_recalculate true d else d).
  assert ((if bool_decide (is_Some (dest_ecmpPaths d !! p)) then set_recalculate true (set_idx i d) else set_idx i d)
    = set_idx i d1) as -> by (unfold d1; by case_bool_decide).
  change (LocRibPath (set_idx i d1)) with (LocRibPath d1).
  set (d2 := if bool_decide (LocRibPath d1 = Some p) then _ else d1).
  assert ((if bool_decide (LocRibPath d1 = Some p) then set_LocRibPath None (set_recalculate true (set_idx i d1))
    else set_idx i d1) = set_idx i d2) as -> by (unfold d2; by case_bool_decide).
  rewrite set_idx_drop_route. by destruct (drop_route p d2).
Qed.

Lemma set_idx_RemoveAllPaths env i ip d :
  RemoveAllPaths env ip (set_idx i d) = (d ← RemoveAllPaths env ip d; Ok (set_idx i d)).
Proof.
  unfold RemoveAllPaths. change (peer_paths ip (set_idx i d)) with (peer_paths ip d).
  generalize (range env (map fst (map_to_list (peer_paths ip d)))). intros ids. revert d.
  induction ids as [|id ids IH]; intros d; [done|]. cbn [remove_paths]. rewrite set_idx_RemovePath.
  unfold at_idx. destruct (RemovePath ip id d) as [[o d1]| | |]; res_simpl; try done.
Qed.

Lemma set_idx_inv i d : dest_inv d -> dest_inv (set_idx i d).
Proof. intros I. split; apply I. Qed.

Lemma set_idx_selectable env path i d L count : selectable env path d L count -> selectable env path (set_idx i d) L count.
Proof. intros S. split; [apply set_idx_inv, S|apply S..]. Qed.

(** ** One destination *)

Section Down.
Context (env : LocRibEnv) (gConf : RibConfig) (peerIP : string) (count : Z).
Context (Henv : dest_env_ok (dest_env env)).

(** A destination whose selection can be made when the paths of the peer are gone. *)
Definition can_lose (path : ptr -> Path) (d : Destination) : Prop :=
  dest_inv d /\
  forall d', RemoveAllPaths (dest_env env) peerIP d = Ok d' -> recalculate d' = true ->
    exists L, selectable (dest_env env) path d' L count.

Lemma set_idx_can_lose path i d : can_lose path d -> can_lose path (set_idx i d).
Proof.
  intros [I H]. split; [by apply set_idx_inv|]. intros d'. rewrite set_idx_RemoveAllPaths.
  destruct (RemoveAllPaths (dest_env env) peerIP d) as [d1| | |]; try done. res_simpl.
  intros [= <-] Hr. destruct (H d1 eq_refl Hr) as [L S]. exists L. by apply set_idx_selectable.
Qed.

(** The paths of [d'] are those of [d] without the peer's. *)
Definition lost (d d' : Destination) : Prop :=
  forall ip id, getPathForIP ip id d' = if bool_decide (ip = peerIP) then None else getPathForIP ip id d.

Lemma lost_ok path d :
  can_lose path d -> exists d1 sel d2,
    RemoveAllPaths (dest_env env) peerIP d = Ok d1 /\
    SelectRouteForLocRib (dest_env env) gConf path count d1 = Ok (sel, d2) /\
    dest_inv d2 /\ lost d d2 /\ dest_id d2 = dest_id d.
Proof.
  intros [I H]. destruct (RemoveAllPaths_ok (dest_env env) Henv peerIP d I) as (d1 & E1 & I1 & S1).
  assert (exists sel d2, SelectRouteForLocRib (dest_env env) gConf path count d1 = Ok (sel, d2) /\ dest_inv d2)
    as (sel & d2 & E2 & I2).
  { destruct (recalculate d1) eqn:Er.
    - destruct (H d1 E1 Er) as [L S].
      destruct (selection_ok (dest_env env) gConf path Henv d1 L count S Er) as (sel & d2 & E2 & R).
      exists sel, d2. split; [done|apply R].
    - unfold SelectRouteForLocRib. rewrite Er. cbn. eauto. }
  exists d1, sel, d2. pose proof (SelectRoute_frame _ _ _ _ _ _ _ E2) as Hf. injection Hf as F1 F2 F3 F4 F5.
  split_and!; try done.
  - intros ip id. unfold getPathForIP, peer_paths. rewrite F4. fold (peer_paths ip d1). fold (getPathForIP ip id d1).
    apply option_eq. intros p. fold (stored d1 ip id p). rewrite S1. unfold stored, getPathForIP.
    case_bool_decide; [split; [by intros []|done]|]. split; [by intros []|done].
  - apply RemoveAllPaths_id in E1. unfold dest_id in *. congruence.
Qed.

(** The components that selections read. *)
Definition same_heap (l l' : LocRib) : Prop :=
  rib_paths l' = rib_paths l /\ rib_conf l' = rib_conf l /\ rib_peers l' = rib_peers l.

Lemma same_heap_path_at l l' : same_heap l l' -> path_at l' = path_at l.
Proof. intros (E1 & E2 & E3). unfold path_at. by rewrite E1, E2, E3. Qed.

(** What one round of the loop does: destination [a] loses the paths, and the entry goes
    if nothing is left. *)
Record one_down (f : Z) (k : string) (a : dptr) (l l' : LocRib) : Prop := mkOneDown {
  od_inv : table_inv l';
  od_heap : same_heap l l';
  od_others : others_stay f k l l';
  od_dests b d : b <> a -> rib_dests l !! b = Some d -> exists i, rib_dests l' !! b = Some (set_idx i d);
  od_dest d : rib_dests l !! a = Some d -> exists d', rib_dests l' !! a = Some d' /\ dest_inv d' /\ lost d d' /\
    dest_NLRI d' = dest_NLRI d /\
    (family_dests f l' !! k = Some a \/ family_dests f l' !! k = None /\ IsEmpty d' = true);
}.

Lemma sweep_dest_ok f k a d d1 out l :
  table_inv l -> family_dests f l !! k = Some a -> rib_dests l !! a = Some d ->
  can_lose (path_at l) d -> RemoveAllPaths (dest_env env) peerIP d = Ok d1 ->
  exists out' l', sweep_dest env gConf count f k a out (set_dest a d1 l) = Ok (out', l') /\ one_down f k a l l'.
Proof.
  intros I Hk Ha Hc E1. destruct (lost_ok (path_at l) d Hc) as (d1' & sel & d2 & E1' & E2 & I2 & L & Hid).
  assert (d1' = d1) as -> by congruence. set (l1 := set_dest a d1 l).
  assert (same_table l l1) as T1 by (eapply same_table_set_dest; [exact Ha|by eapply RemoveAllPaths_id]).
  assert (rib_dests l1 !! a = Some d1) as Ha1 by apply lookup_insert_eq.
  unfold sweep_dest, select_dest. rewrite (dest_at_Some _ _ _ Ha1). res_simpl. change (path_at l1) with (path_at l). rewrite E2. res_simpl.
  set (l2 := emit _ _).
  assert (rib_dests l2 = <[a := d2]> (rib_dests l)) as D2 by apply insert_insert_eq.
  assert (same_table l l2) as T2.
  { split; try done. rewrite D2, fmap_insert, Hid. apply insert_id. by rewrite lookup_fmap, Ha. }
  pose proof (same_table_inv _ _ T2 I) as J2.
  assert (rib_dests l2 !! a = Some d2) as Ha2 by (rewrite D2; apply lookup_insert_eq).
  rewrite (dest_at_Some _ _ _ Ha2). res_simpl.
  assert (dest_NLRI d2 = dest_NLRI d) as Hn by (unfold dest_id in Hid; congruence).
  assert (family_dests f l2 !! k = Some a) as Hk2 by (by rewrite (st_family _ _ f T2)).
  destruct (bool_decide _ && IsEmpty d2) eqn:Eb.
  - apply andb_true_iff in Eb as [_ Hempty].
    destruct (remove_dest_Ok a f k l2 J2 Hk2) as (l3 & -> & R). res_simpl.
    destruct (rm_dests _ _ _ _ _ R a d2 Ha2) as [i Hi].
    unfold write_db. rewrite (dest_at_Some _ _ _ Hi). res_simpl. eexists _, _. split; [done|].
    split.
    + eapply same_table_inv; [apply same_table_emit|apply R].
    + apply (rm_paths _ _ _ _ _ R).
    + intros f' k' Hne. etrans; [apply (removed_others _ _ _ _ _ R f' k' Hne)|]. by rewrite (st_family _ _ f' T2).
    + intros b e Hb He. cbn. apply (rm_dests _ _ _ _ _ R). by rewrite D2, lookup_insert_ne.
    + intros e He. assert (e = d) as -> by congruence. exists (set_idx i d2). split_and!; try done.
      * by apply set_idx_inv.
      * right. split; [|done]. change (family_dests f l3 !! k = None). rewrite (rm_family _ _ _ _ _ R).
        rewrite bool_decide_eq_true_2 by done. apply lookup_delete_eq.
  - unfold write_db. rewrite (dest_at_Some _ _ _ Ha2). res_simpl. eexists _, _. split; [done|]. split.
    + eapply same_table_inv; [apply same_table_emit|done].
    + done.
    + intros f' k' Hne. change (family_dests f' l2 !! k' = family_dests f' l !! k'). by rewrite (st_family _ _ f' T2).
    + intros b e Hb He. exists (dest_routeListIdx e). rewrite set_idx_id. cbn. by rewrite insert_insert_eq, lookup_insert_ne.
    + intros e He. assert (e = d) as -> by congruence. exists d2. split_and!; try done. by left.
Qed.

(** The whole table. *)
Lemma sweep_table_ok es out l :
  table_inv l -> entries l es ->
  (forall f k a d, (f, k, a) ∈ es -> rib_dests l !! a = Some d -> can_lose (path_at l) d) ->
  exists out' l',
    sweep_table env gConf (fun _ => RemoveAllPaths (dest_env env) peerIP) count es out l = Ok (out', l') /\
    table_inv l' /\ same_heap l l' /\
    (forall f k, (forall a, ~ (f, k, a) ∈ es) -> family_dests f l' !! k = family_dests f l !! k) /\
    (forall f k a d, (f, k, a) ∈ es -> rib_dests l !! a = Some d -> exists d', rib_dests l' !! a = Some d' /\
       dest_inv d' /\ lost d d' /\ dest_NLRI d' = dest_NLRI d /\
       (family_dests f l' !! k = Some a \/ family_dests f l' !! k = None /\ IsEmpty d' = true)) /\
    (forall b d, (forall f k, ~ (f, k, b) ∈ es) -> rib_dests l !! b = Some d ->
       exists i, rib_dests l' !! b = Some (set_idx i d)).
Proof.
  revert out l. induction es as [|[[f k] a] es IH]; intros out l I He Hc; cbn [sweep_table].
  { eexists _, _. split; [done|]. split_and!; try done; [intros ? ? ? ? H; inversion H|].
    intros b d _ Hb. exists (dest_routeListIdx d). by rewrite set_idx_id. }
  assert (family_dests f l !! k = Some a) as Hk by (apply He; left).
  destruct (ti_dest _ I f k a Hk) as (d & _ & Ha & _).
  assert (can_lose (path_at l) d) as Hcl by (eapply Hc; [left|done]).
  destruct (lost_ok (path_at l) d Hcl) as (d1 & _ & _ & E1 & _).
  rewrite (dest_at_Some _ _ _ Ha). res_simpl. rewrite E1. res_simpl.
  destruct (sweep_dest_ok f k a d d1 out l I Hk Ha Hcl E1) as (out1 & l1 & -> & O). res_simpl.
  pose proof (entries_step _ _ _ _ _ _ He (od_others _ _ _ _ _ O)) as He1.
  assert (forall f' k' b, (f', k', b) ∈ es -> b <> a) as Hne.
  { intros f' k' b Hin ->. destruct He as [Hn He]. cbn in Hn. apply NoDup_cons in Hn as [Hni _]. apply Hni.
    destruct (family_of_dest l f f' k k' a I Hk) as [-> ->]; [apply He; by right|].
    by apply (list_elem_of_fmap_2 fst) in Hin. }
  destruct (IH out1 l1 (od_inv _ _ _ _ _ O) He1) as (out' & l' & E & I' & H1 & H2 & H3 & H4).
  { intros f' k' b e Hin Hb. pose proof (Hne _ _ _ Hin) as Hba.
    rewrite (same_heap_path_at _ _ (od_heap _ _ _ _ _ O)).
    assert (family_dests f' l !! k' = Some b) as Hb' by (apply He; by right).
    destruct (ti_dest _ I f' k' b Hb') as (e0 & _ & He0 & _).
    destruct (od_dests _ _ _ _ _ O b e0 Hba He0) as [i Hi]. assert (e = set_idx i e0) as -> by congruence.
    apply set_idx_can_lose. eapply Hc; [by right|done]. }
  exists out', l'. split; [done|]. split; [done|]. split.
  { destruct H1 as (? & ? & ?), (od_heap _ _ _ _ _ O) as (? & ? & ?). split_and!; congruence. }
  split_and!.
  - intros f' k' Hno. rewrite H2 by (intros b Hb; apply (Hno b); by right). apply (od_others _ _ _ _ _ O).
    intros [= -> ->]. apply (Hno a). left.
  - intros f' k' b e Hin Hb. apply list_elem_of_In in Hin as [[= <- <- <-]|Hin%list_elem_of_In].
    + destruct (od_dest _ _ _ _ _ O e Hb) as (d2 & D1 & D2 & D3 & D4 & D5).
      destruct (H4 a d2) as [i Hi]; [intros f' k' Hin; by apply (Hne f' k' a)|done|].
      exists (set_idx i d2). split_and!; try done; [by apply set_idx_inv|].
      rewrite (H2 f k); [done|]. intros b Hin. destruct He as [Hn _]. cbn in Hn. apply NoDup_cons in Hn as [Hni _].
      apply Hni. by apply (list_elem_of_fmap_2 fst) in Hin.
    + pose proof (Hne _ _ _ Hin) as Hba. destruct (od_dests _ _ _ _ _ O b e Hba Hb) as [i Hi].
      destruct (H3 f' k' b _ Hin Hi) as (d2 & D1 & D2 & D3 & D4 & D5). by exists d2.
  - intros b e Hno Hb. assert (b <> a) as Hba by (intros ->; apply (Hno f k); left).
    destruct (od_dests _ _ _ _ _ O b e Hba Hb) as [i Hi].
    destruct (H4 b (set_idx i e)) as [j Hj]; [intros f' k' Hin; apply (Hno f' k'); by right|done|].
    by exists j.
Qed.
End Down.
