(* ===== verification/BgpRibWalk.v ===== *)
(** * The local RIB: reading the routes in pages

    The management interface reads the routes of a family in pages, with updates in
    between. A walk lists every route that stays exactly once. *)

From stdpp Require Import relations.
From stdpp Require Import pretty.
From S2P Require Import Prelude.
From S2P Require Import NetIP.
From S2P Require Import BgpOpen.
From S2P Require Import BgpNlri.
From S2P Require Import BgpAttr.
From S2P Require Import BgpHelpers.
From S2P Require Import BgpNeighbor.
From S2P Require Import BgpPath.
From S2P Require Import BgpDecision.
From S2P Require Import BgpDest.
From S2P Require Import BgpDestSpec.
From S2P Require Import BgpRib.
From S2P Require Import BgpRibSpec.
From S2P Require Import BgpRibSteps.

(** ** Steps of the local RIB *)

(** The operations of the server on the RIB, and the changes other components make to
    what it points to. *)
Inductive rib_change : LocRib -> LocRib -> Prop :=
| change_path o c l : rib_change l (new_path o c l).2
| change_peer f n l : rib_change l (on_peer f n l)
| change_next_hop env ip l info l' : GetReachabilityInfo env ip l = (info, l') -> rib_change l l'
| change_update env gConf n path add rem fam count out l out' all l' :
  ProcessUpdate env gConf n path add rem fam count out l = Ok (out', all, l') -> rib_change l l'
| change_filtered env gConf n routes count l out' all l' :
  ProcessFilteredRoutes env gConf n routes count l = Ok (out', all, l') -> rib_change l l'
| change_connected env gConf src path add remove count l out l' :
  ProcessConnectedRoutes env gConf src path add remove count l = Ok (out, l') -> rib_change l l'
| change_down env gConf peerIP n count l out l' : dest_env_ok (dest_env env) ->
  RemoveUpdatesFromNeighbor env gConf peerIP n count l = Ok (out, l') -> rib_change l l'
| change_all_down env gConf count l l' : dest_env_ok (dest_env env) ->
  RemoveUpdatesFromAllNeighbors env gConf count l = Ok l' -> rib_change l l'.

Inductive rib_step : LocRib -> LocRib -> Prop :=
| step_change l l' : rib_change l l' -> rib_step l l'
| step_page idx count fam l i n rs l' : 0 <= idx -> 0 <= count ->
  BulkGetBGPRoutes idx count fam l = Ok (i, n, rs, l') -> rib_step l l'
| step_timer fam l l' : timer_fires fam l = Ok l' -> rib_step l l'.

Inductive rib_reachable : LocRib -> Prop :=
| rib_new peers : rib_reachable (NewLocRib peers)
| rib_next l l' : rib_reachable l -> rib_step l l' -> rib_reachable l'.

Lemma rib_change_keeps l l' : rib_change l l' -> keeps l l'.
Proof.
  destruct 1; eauto using ProcessUpdate_keeps, ProcessFilteredRoutes_keeps, ProcessConnectedRoutes_keeps,
    RemoveUpdatesFromNeighbor_keeps, RemoveUpdatesFromAllNeighbors_keeps.
  - apply same_table_keeps, same_table_new_path.
  - apply same_table_keeps. by split.
  - by eapply same_table_keeps, GetReachabilityInfo_table.
Qed.

Lemma rib_changes_keep l l' : rtc rib_change l l' -> keeps l l'.
Proof. induction 1 as [|l1 l2 l3 H _ IH]; [done|]. etrans; [by apply rib_change_keeps|done]. Qed.

Lemma rib_step_inv l l' : rib_step l l' -> table_inv l -> table_inv l'.
Proof.
  intros H I. destruct H as [l l' H|idx count fam l i n rs l' Hi Hc H|fam l l' H].
  - by apply (rib_change_keeps _ _ H I).
  - destruct (BulkGetBGPRoutes_ok idx count fam l I Hi Hc) as (? & ? & ? & ? & E & I'). congruence.
  - unfold timer_fires in H. destruct (flag (timer l) fam); [|by injection H as <-].
    destruct (ResetRouteList_ok fam _ (same_timer_inv fam false l I)) as (l2 & E & R).
    assert (l' = l2) as -> by congruence. apply R.
Qed.

(** ** A page *)

(** What is shown of a slot. *)
Definition shown (l : LocRib) (s : option dptr) : option RouteState :=
  match s with
  | Some a =>
    match rib_dests l !! a with
    | Some d => if 0 <? len (statePaths d) then Some (GetBGPRoute_dest d) else None
    | None => None
    end
  | None => None
  end.

Lemma bulk_loop_spec l slots i n count result i' n' result' :
  bulk_loop l slots i n count result = Ok (i', n', result') ->
  exists k : nat, (k <= length slots)%nat /\ i' = i + Z.of_nat k /\
    result' = result ++ omap (shown l) (take k slots) /\ n' = n + len (omap (shown l) (take k slots)) /\
    ((k < length slots)%nat -> count <= n') /\ (n <= count -> n' <= count).
Proof.
  revert i n result. induction slots as [|s slots IH]; intros i n result; cbn [bulk_loop].
  { intros [= <- <- <-]. exists 0%nat. change (omap (shown l) (take 0 [])) with (@nil RouteState).
    rewrite app_nil_r. change (len (@nil RouteState)) with 0. split_and!; cbn [length]; lia || done. }
  destruct (n <? count) eqn:En.
  2:{ intros [= <- <- <-]. exists 0%nat. change (omap (shown l) (take 0 (s :: slots))) with (@nil RouteState).
      rewrite app_nil_r. change (len (@nil RouteState)) with 0. split_and!; cbn [length]; lia || done. }
  intros H.
  assert (exists o, shown l s = o /\ bulk_loop l slots (i + 1) (n + len (option_list o)) count
    (result ++ option_list o) = Ok (i', n', result')) as (o & Ho & H').
  { eexists. split; [reflexivity|]. destruct s as [a|]; cbn [shown]; [|cbn; by rewrite Z.add_0_r, app_nil_r].
    unfold dest_at in H. destruct (rib_dests l !! a) as [d|]; [|done]. res_simpl.
    destruct (0 <? len (statePaths d)); cbn; [done|]. by rewrite Z.add_0_r, app_nil_r. }
  clear H. apply IH in H' as (k & H1 & -> & -> & -> & H2 & H3). exists (S k). cbn [length take].
  assert (omap (shown l) (s :: take k slots) = option_list o ++ omap (shown l) (take k slots)) as ->.
  { cbn. rewrite Ho. by destruct o. }
  rewrite app_assoc, len_app. assert (len (option_list o) <= 1) by (destruct o; unfold len; cbn; lia).
  split_and!; lia || done.
Qed.

(** The state [l3] a page is taken from, compacted when a walk begins anew, and what the
    page leaves. *)
Record paged (idx count fam : Z) (l : LocRib) (i : Z) (rs : list (option RouteState)) (l' : LocRib) : Prop := mkPaged {
  pg_inv : table_inv l';
  pg_active : flag (activeGet l') fam = true;
  pg_timer : timer l' !! fam = Some true;
  pg_map : destPathMap l' = destPathMap l;
  pg_same : idx <> 0 -> route_slots fam l' = route_slots fam l /\ rib_dests l' = rib_dests l;
  pg_dests b d : rib_dests l !! b = Some d -> exists j, rib_dests l' !! b = Some (set_dest_routeListIdx j d);
  pg_rows : exists k : nat, (k <= length (route_slots fam l') - Z.to_nat idx)%nat /\
    rs = map Some (omap (shown l') (take k (drop (Z.to_nat idx) (route_slots fam l')))) /\
    len rs <= count /\
    ((0 < k)%nat /\ i = idx + Z.of_nat k /\ i < len (route_slots fam l') \/
     i = 0 /\ (length (route_slots fam l') <= Z.to_nat idx + k)%nat);
}.

Lemma BulkGetBGPRoutes_paged idx count fam l i n rs l' :
  table_inv l -> 0 <= idx -> 0 < count -> timer l !! fam <> None ->
  BulkGetBGPRoutes idx count fam l = Ok (i, n, rs, l') -> paged idx count fam l i rs l'.
Proof.
  intros I Hi Hc Ht. unfold BulkGetBGPRoutes. rewrite (proj2 (Z.ltb_ge count 0)) by lia.
  destruct (timer l !! fam); [clear Ht|done].
  pose proof (same_timer_inv fam false l I) as I1. set (l1 := set_timer _ l) in *.
  assert (exists l2, (if (idx =? 0) && flag (activeGet l1) fam then ResetRouteList fam l1 else Ok l1) = Ok l2 /\
    table_inv l2 /\ destPathMap l2 = destPathMap l /\
    (idx <> 0 -> route_slots fam l2 = route_slots fam l /\ rib_dests l2 = rib_dests l) /\
    forall b d, rib_dests l !! b = Some d -> exists j, rib_dests l2 !! b = Some (set_dest_routeListIdx j d))
    as (l2 & -> & I2 & H1 & H2 & H3).
  { destruct (_ && _) eqn:Eb.
    - apply andb_true_iff in Eb as [Eb _]. destruct (ResetRouteList_ok fam l1 I1) as (l2 & E & R).
      exists l2. split_and!; [done|apply R|apply R|lia|]. intros b0 d Hb. by apply (rs_dests _ _ _ R).
    - exists l1. split_and!; try done. intros b0 d Hb. exists (dest_routeListIdx d). by rewrite set_idx_id. }
  res_simpl. apply (set_active_inv fam) in I2. set (l3 := set_activeGet _ _) in *.
  rewrite (proj2 (Z.ltb_ge idx 0)) by lia. cbn [andb].
  destruct (bulk_loop l3 _ idx 0 count []) as [[[i' n'] rows]| | |] eqn:Eb; try done.
  apply bulk_loop_spec in Eb as (k & K1 & -> & -> & -> & K2 & K3). res_simpl. intros [= <- <- <- <-].
  rewrite length_drop in K1, K2. set (s := route_slots fam l3) in *. cbn [app].
  split; try done.
  - exact (same_timer_inv fam true l3 I2).
  - cbn. rewrite flag_insert. by rewrite bool_decide_eq_true_2.
  - apply lookup_insert_eq.
  - set (l4 := set_timer _ l3). change (route_slots fam l4) with s. exists k. split; [lia|]. split; [done|].
    assert (forall A B (f : A -> B) (xs : list A), len (map f xs) = len xs) as Hlm
      by (intros; unfold len; by rewrite length_map).
    rewrite Hlm. split; [lia|]. destruct (len s <=? idx + Z.of_nat k) eqn:E.
    + right. split; [done|]. unfold len in E. lia.
    + left. split_and!; [|done|lia]. destruct k; [|lia]. exfalso.
      rewrite take_0 in K2. change (len (omap (shown l3) [])) with 0 in K2.
      assert (count <= 0 + 0); [|lia]. apply K2. unfold len in E. clear -E Hi. apply Z.leb_gt in E. lia.
Qed.

(** ** Counting *)

Section Counting.
Context {A B : Type} (f : A -> option B) (P : B -> Prop) `{!forall y, Decision (P y)}.

Definition hits (s : list A) : nat := length (filter P (omap f s)).

Lemma hits_app s1 s2 : hits (s1 ++ s2) = (hits s1 + hits s2)%nat.
Proof. unfold hits. by rewrite omap_app, filter_app, length_app. Qed.

Lemma hits_none s : (forall i x y, s !! i = Some x -> f x = Some y -> ~ P y) -> hits s = 0%nat.
Proof.
  intros Hno. unfold hits. destruct (filter P (omap f s)) as [|y ys] eqn:E; [done|]. exfalso.
  assert (y ∈ filter P (omap f s)) as [Hy (x & Hx & Hf)%list_elem_of_omap]%list_elem_of_filter by (rewrite E; left).
  apply list_elem_of_lookup in Hx as [i Hi]. by eapply Hno.
Qed.

(** Only the element at [j] counts. *)
Lemma hits_one s j x y :
  s !! j = Some x -> f x = Some y -> P y ->
  (forall i x' y', s !! i = Some x' -> f x' = Some y' -> P y' -> i = j) -> hits s = 1%nat.
Proof.
  intros Hj Hf Hy Huniq. rewrite <- (take_drop_middle s j x Hj). pose proof (lookup_lt_Some _ _ _ Hj) as Hlt.
  change (x :: drop (S j) s) with ([x] ++ drop (S j) s). rewrite !hits_app.
  rewrite (hits_none (take j s)), (hits_none (drop (S j) s)).
  - unfold hits. cbn. rewrite Hf. cbn. by rewrite decide_True.
  - intros i x' y' Hi Hx' Hy'. rewrite lookup_drop in Hi. specialize (Huniq _ _ _ Hi Hx' Hy'). lia.
  - intros i x' y' [Hi Hlt']%lookup_take_Some Hx' Hy'. specialize (Huniq _ _ _ Hi Hx' Hy'). lia.
Qed.
End Counting.

(** ** Walks *)

(** The prefix of a route that is shown. *)
Definition route_key (r : RouteState) : string := Network r +:+ "/" +:+ pretty (CIDRLen r).

(** Destination [a] of prefix [key] has paths. *)
Definition has_paths (key : string) (a : dptr) (l : LocRib) : Prop :=
  exists d, rib_dests l !! a = Some d /\ GetCIDR (dest_NLRI d) = key /\ statePaths d <> [].

(** A walk from slot [idx]: pages of [count] routes until the index returned is 0, with
    changes in between; [Q] holds whenever a page is read. *)
Inductive walk (fam count : Z) (Q : LocRib -> Prop) : Z -> LocRib -> list (list (option RouteState)) -> LocRib -> Prop :=
| walk_last idx l n page l' :
  Q l -> BulkGetBGPRoutes idx count fam l = Ok (0, n, page, l') -> walk fam count Q idx l [page] l'
| walk_more idx l i n page l1 l2 pages l' :
  Q l -> BulkGetBGPRoutes idx count fam l = Ok (i, n, page, l1) -> i <> 0 -> rtc rib_change l1 l2 ->
  walk fam count Q i l2 pages l' -> walk fam count Q idx l (page :: pages) l'.

(** How often a prefix is listed. *)
Definition listed (key : string) (rows : list (option RouteState)) : nat :=
  length (filter (fun r => route_key r = key) (omap (fun r => r) rows)).

Lemma listed_app key r1 r2 : listed key (r1 ++ r2) = (listed key r1 + listed key r2)%nat.
Proof. unfold listed. by rewrite omap_app, filter_app, length_app. Qed.

Lemma omap_map_Some {A} (l : list A) : omap (fun r => r) (map Some l) = l.
Proof. induction l as [|x l IH]; [done|]. cbn. by f_equal. Qed.

(** Only one slot shows a prefix. *)
Lemma shown_unique l fam key a j i s r :
  table_inv l -> route_slots fam l !! j = Some (Some a) -> has_paths key a l ->
  route_slots fam l !! i = Some s -> shown l s = Some r -> route_key r = key -> i = j.
Proof.
  intros I Hj (d & Hd & Hk & _) Hi Hs Hr. destruct s as [b|]; [|done]. cbn in Hs.
  destruct (rib_dests l !! b) as [e|] eqn:Eb; [|done]. destruct (0 <? _); [|done]. injection Hs as <-.
  destruct (ti_slot _ I fam i b Hi) as (e' & E1 & _ & E3). destruct (ti_slot _ I fam j a Hj) as (d' & D1 & _ & D3).
  assert (e' = e) as -> by congruence. assert (d' = d) as -> by congruence.
  change (GetCIDR (dest_NLRI e) = key) in Hr. rewrite Hr in E3. rewrite Hk in D3.
  assert (b = a) as -> by congruence. by eapply slot_unique.
Qed.

Lemma has_paths_shown l key a : has_paths key a l -> exists r, shown l (Some a) = Some r /\ route_key r = key.
Proof.
  intros (d & Hd & Hk & Hp). exists (GetBGPRoute_dest d). cbn. rewrite Hd.
  destruct (statePaths d) as [|p ps]; [done|]. rewrite len_cons. pose proof (len_nonneg ps).
  rewrite (proj2 (Z.ltb_lt _ _)) by lia. done.
Qed.

(** The rows of the slots from [lo] on, [k] of them. *)
Lemma page_listed l fam key a j lo k :
  table_inv l -> route_slots fam l !! j = Some (Some a) -> has_paths key a l ->
  listed key (map Some (omap (shown l) (take k (drop lo (route_slots fam l))))) =
  if bool_decide (lo <= j < lo + k)%nat then 1%nat else 0%nat.
Proof.
  intros I Hj Hp. unfold listed. rewrite omap_map_Some.
  change (hits (shown l) (fun r => route_key r = key) (take k (drop lo (route_slots fam l))) =
    if bool_decide (lo <= j < lo + k)%nat then 1%nat else 0%nat).
  destruct (has_paths_shown l key a Hp) as (r & Hr & Hk). case_bool_decide as E.
  - apply (hits_one _ _ _ (j - lo) (Some a) r); [|done|done|].
    + rewrite lookup_take_lt, lookup_drop by lia. by replace (lo + (j - lo))%nat with j by lia.
    + intros i s r' Hi Hs Hr'. apply lookup_take_Some in Hi as [Hi Hlt]. rewrite lookup_drop in Hi.
      assert (lo + i = j)%nat; [|lia]. by eapply shown_unique.
  - apply hits_none. intros i s r' Hi Hs Hr'. apply lookup_take_Some in Hi as [Hi Hlt]. rewrite lookup_drop in Hi.
    assert (lo + i = j)%nat; [by eapply shown_unique|]. lia.
Qed.

(** The route is there when a page is read, so there is a timer. *)
Lemma slot_timer l fam j s : table_inv l -> route_slots fam l !! j = Some s -> timer l !! fam <> None.
Proof. intros I H Ht. rewrite (ti_timer _ I fam Ht) in H. done. Qed.

(** A page read in the middle of a walk changes nothing the walk sees. *)
Lemma page_evolves idx count fam l i n rs l' :
  table_inv l -> 0 < idx -> 0 < count -> flag (activeGet l) fam = true ->
  BulkGetBGPRoutes idx count fam l = Ok (i, n, rs, l') ->
  table_inv l' /\ (forall a, is_Some (rib_dests l !! a) -> is_Some (rib_dests l' !! a)) /\ evolves fam l l'.
Proof.
  intros I Hi Hc Ha E. destruct (timer l !! fam) as [b|] eqn:Et.
  - assert (paged idx count fam l i rs l') as P by (apply (BulkGetBGPRoutes_paged idx count fam l i n rs l'); [done|lia|lia|by rewrite Et|done]).
    destruct (pg_same _ _ _ _ _ _ _ P) as [E1 E2]; [lia|].
    split_and!; [apply P|by rewrite E2|]. split.
    + exact (pg_active _ _ _ _ _ _ _ P).
    + by rewrite (pg_timer _ _ _ _ _ _ _ P).
    + rewrite E1. auto.
    + rewrite E1. intros k a Hk Hs%lookup_lt_Some. lia.
  - unfold BulkGetBGPRoutes in E. rewrite (proj2 (Z.ltb_ge _ _)) in E by lia. rewrite Et in E.
    injection E as _ _ _ <-. destruct (keeps_refl l I) as (? & ? & Hev). auto.
Qed.

Lemma page_index idx count fam l i n rs l' :
  table_inv l -> 0 <= idx -> 0 < count -> BulkGetBGPRoutes idx count fam l = Ok (i, n, rs, l') -> 0 <= i.
Proof.
  intros I Hi Hc E. destruct (timer l !! fam) as [b|] eqn:Et.
  - assert (paged idx count fam l i rs l') as P
      by (apply (BulkGetBGPRoutes_paged idx count fam l i n rs l'); [done|done|done|by rewrite Et|done]).
    destruct (pg_rows _ _ _ _ _ _ _ P) as (k & _ & _ & _ & [(? & ? & _)|[? _]]); lia.
  - unfold BulkGetBGPRoutes in E. rewrite (proj2 (Z.ltb_ge _ _)) in E by lia. rewrite Et in E.
    injection E as <- _ _ _. done.
Qed.

(** The rest of a walk. *)
Lemma walk_evolves fam count Q idx l pages l' :
  0 < count -> walk fam count Q idx l pages l' -> 0 < idx -> table_inv l -> flag (activeGet l) fam = true ->
  table_inv l' /\ (forall a, is_Some (rib_dests l !! a) -> is_Some (rib_dests l' !! a)) /\ evolves fam l l'.
Proof.
  intros Hc W. induction W as [idx l n page l' _ E|idx l i n page l1 l2 pages l' _ E Hi Hch _ IH]; intros Hidx I Ha.
  - exact (page_evolves _ _ _ _ _ _ _ _ I Hidx Hc Ha E).
  - destruct (page_evolves _ _ _ _ _ _ _ _ I Hidx Hc Ha E) as (I1 & D1 & E1).
    destruct (rib_changes_keep _ _ Hch I1) as (I2 & D2 & E2). specialize (E2 fam (ev_active _ _ _ E1)).
    assert (0 <= i) by (eapply page_index; [exact I| |exact Hc|exact E]; lia).
    destruct (IH ltac:(lia) I2 (ev_active _ _ _ E2)) as (I' & D3 & E3).
    split_and!; [done|by auto|]. eapply evolves_trans; [exact D1|exact E1|]. by eapply evolves_trans.
Qed.

(** Where a route is that was in the list before: in its old slot. *)
Lemma evolves_slot fam l l' j a :
  evolves fam l l' -> is_Some (rib_dests l !! a) -> route_slots fam l' !! j = Some (Some a) ->
  route_slots fam l !! j = Some (Some a).
Proof.
  intros E [d Hd] Hj. destruct (decide (length (route_slots fam l) <= j)%nat) as [Hge|Hlt].
  - pose proof (ev_new _ _ _ E j a Hge Hj). congruence.
  - destruct (lookup_lt_is_Some_2 (route_slots fam l) j) as [s Hs]; [lia|].
    destruct (ev_slots _ _ _ E j s Hs); congruence.
Qed.

(** One page and what follows. [j] is the slot of the route when the page has been read. *)
Lemma page_then idx count fam key a l i n page l1 j rest :
  table_inv l -> 0 <= idx -> 0 < count -> timer l !! fam <> None ->
  BulkGetBGPRoutes idx count fam l = Ok (i, n, page, l1) ->
  route_slots fam l1 !! j = Some (Some a) -> has_paths key a l ->
  (i = 0 -> rest = 0%nat) -> (i <> 0 -> rest = if bool_decide (i <= Z.of_nat j) then 1%nat else 0%nat) ->
  (listed key page + rest)%nat = if bool_decide (idx <= Z.of_nat j) then 1%nat else 0%nat.
Proof.
  intros I Hi Hc Ht E Hj (d & Hd & Hk & Hp) H0 H1.
  pose proof (BulkGetBGPRoutes_paged idx count fam l i n page l1 I Hi Hc Ht E) as P.
  assert (has_paths key a l1) as Hp1.
  { destruct (pg_dests _ _ _ _ _ _ _ P a d Hd) as [m Hm]. by eexists. }
  destruct (pg_rows _ _ _ _ _ _ _ P) as (k & K1 & -> & K2 & K3).
  rewrite (page_listed l1 fam key a j (Z.to_nat idx) k (pg_inv _ _ _ _ _ _ _ P) Hj Hp1).
  pose proof (lookup_lt_Some _ _ _ Hj) as Hlt.
  destruct K3 as [(Hk0 & Hi' & Hlen)|[Hi' Hlen]].
  - rewrite H1 by lia. repeat case_bool_decide; lia.
  - rewrite H0 by done. repeat case_bool_decide; lia.
Qed.

Lemma walk_from fam count key a j idx l pages l' :
  0 < count -> walk fam count (has_paths key a) idx l pages l' -> 0 < idx -> table_inv l ->
  flag (activeGet l) fam = true -> route_slots fam l' !! j = Some (Some a) ->
  listed key (concat pages) = if bool_decide (idx <= Z.of_nat j) then 1%nat else 0%nat.
Proof.
  intros Hc W. induction W as [idx l n page l' Q E|idx l i n page l1 l2 pages l' Q E Hi Hch W IH]; intros Hidx I Ha Hj;
    (assert (is_Some (rib_dests l !! a)) as Hda by (destruct Q as (d & Hd & _); by exists d));
    destruct (page_evolves _ _ _ _ _ _ _ _ I Hidx Hc Ha E) as (I1 & D1 & E1); cbn [concat].
  - rewrite app_nil_r. assert (route_slots fam l !! j = Some (Some a)) as Hs by (by eapply evolves_slot).
    rewrite <- (Nat.add_0_r (listed key page)). eapply page_then; [exact I|lia|exact Hc|by eapply slot_timer|exact E|exact Hj|exact Q|done|done].
  - rewrite listed_app. destruct (rib_changes_keep _ _ Hch I1) as (I2 & D2 & E2). specialize (E2 fam (ev_active _ _ _ E1)).
    assert (0 <= i) by (eapply page_index; [exact I| |exact Hc|exact E]; lia).
    destruct (walk_evolves _ _ _ _ _ _ _ Hc W ltac:(lia) I2 (ev_active _ _ _ E2)) as (_ & _ & E3).
    assert (route_slots fam l1 !! j = Some (Some a)) as Hs1.
    { eapply evolves_slot; [exact E2|by auto|]. eapply evolves_slot; [exact E3|by auto|done]. }
    assert (route_slots fam l !! j = Some (Some a)) as Hs by (by eapply evolves_slot).
    eapply page_then; [exact I|lia|exact Hc|by eapply slot_timer|exact E|exact Hs1|exact Q|done|].
    intros _. apply IH; [lia|done|apply E2|done].
Qed.

(** A whole walk. *)
Lemma walk_lists_once fam count key a l pages l' :
  table_inv l -> 0 < count -> walk fam count (has_paths key a) 0 l pages l' ->
  family_dests fam l !! key = Some a -> family_dests fam l' !! key = Some a ->
  listed key (concat pages) = 1%nat.
Proof.
  intros I Hc W Hk Hk'. destruct (ti_dest _ I fam key a Hk) as (d & i0 & Hd & _ & _ & _ & Hs0).
  pose proof (slot_timer _ _ _ _ I Hs0) as Ht.
  assert (forall l1, destPathMap l1 = destPathMap l -> table_inv l1 -> exists j, route_slots fam l1 !! j = Some (Some a)) as Hslot.
  { intros l1 Hm I1. assert (family_dests fam l1 !! key = Some a) as H1 by (unfold family_dests in *; by rewrite Hm).
    destruct (ti_dest _ I1 fam key a H1) as (? & j & _ & _ & _ & _ & H2). by exists j. }
  inversion W as [? ? n page ? Q E|? ? i n page l1 l2 rest ? Q E Hi Hch W']; subst; cbn [concat];
    pose proof (BulkGetBGPRoutes_paged _ _ _ _ _ _ _ _ I (Z.le_refl 0) Hc Ht E) as P;
    destruct (Hslot _ (pg_map _ _ _ _ _ _ _ P) (pg_inv _ _ _ _ _ _ _ P)) as [j Hj].
  - rewrite app_nil_r, <- (Nat.add_0_r (listed key page)).
    rewrite (page_then 0 count fam key a l 0 n page l' j 0); try done. by rewrite bool_decide_eq_true_2 by lia.
  - rewrite listed_app. assert (0 <= i) by (exact (page_index _ _ _ _ _ _ _ _ I (Z.le_refl 0) Hc E)).
    assert (table_inv l1) as I1 by apply P.
    destruct (rib_changes_keep _ _ Hch I1) as (I2 & D2 & E2). specialize (E2 fam (pg_active _ _ _ _ _ _ _ P)).
    destruct (walk_evolves _ _ _ _ _ _ _ Hc W' ltac:(lia) I2 (ev_active _ _ _ E2)) as (I' & D3 & E3).
    assert (is_Some (rib_dests l1 !! a)) as Hda
      by (destruct (pg_dests _ _ _ _ _ _ _ P a d Hd) as [m Hm]; by eexists).
    assert (route_slots fam l' !! j = Some (Some a)) as Hj'.
    { destruct (ti_dest _ I' fam key a Hk') as (? & j' & _ & _ & _ & _ & H2).
      enough (j' = j) as -> by done. eapply slot_unique; [exact I1| |exact Hj].
      eapply evolves_slot; [exact E2|done|]. eapply evolves_slot; [exact E3|by auto|done]. }
    rewrite (page_then 0 count fam key a l i n page l1 j (listed key (concat rest))); try done; try lia.
    + by rewrite bool_decide_eq_true_2 by lia.
    + intros _. eapply walk_from; [exact Hc|exact W'|lia|done|apply E2|done].
Qed.
