(* ===== verification/BgpRibProps.v ===== *)
(** * The local RIB: the theorems

    The properties of the local RIB, with the examples that show their hypotheses can
    hold, and the sequences of operations that end badly. *)

From stdpp Require Import relations.
From stdpp Require Import pretty.
From S2P Require Import Prelude.
From S2P Require Import NetIP.
From S2P Require Import BgpOpen.
From S2P Require Import BgpNlri.
From S2P Require Import BgpAsPath.
From S2P Require Import BgpAttr.
From S2P Require Import BgpHelpers.
From S2P Require Import BgpNeighbor.
From S2P Require Import BgpPath.
From S2P Require Import BgpDecision.
From S2P Require Import BgpDecisionSpec.
From S2P Require Import BgpDest.
From S2P Require Import BgpDestSpec.
From S2P Require Import BgpDestSelect.
From S2P Require Import BgpDestProps.
From S2P Require Import BgpRib.
From S2P Require Import BgpRibSpec.
From S2P Require Import BgpRibSteps.
From S2P Require Import BgpRibDown.
From S2P Require Import BgpRibWalk.

(** ** Examples *)

(** A route manager that knows every next hop once it has been asked [n] times. *)
Definition rib_env_after (n : Z) : LocRibEnv :=
  mkLocRibEnv example_dest_env
    (fun trace ip => if len (List.filter (fun c => match c with QueryNextHop _ => true | _ => false end) trace) <? n
                     then None else Some (mkNextHopInfo "" 0 3 1)).

Definition example_peers : gmap nat NeighborConf :=
  {[ 0%nat := example_peer 65002 5 5; 1%nat := example_peer 65003 3 7 ]}.

Definition example_prefix (n : Z) : NLRI := NIPPrefix (mkIPPrefix 24 [192; 0; n; 0]).

(** An UPDATE of a peer with next hop 10.0.0.[hop]. *)
Definition rib_path (peer : nat) (asn hop : Z) : Path :=
  match NewPath (example_peers !! peer)
      [ NewBGPPathAttrOrigin 0;
        PAASPath (mkBase 64 BGPPathAttrTypeASPath 6 9) [Seg4 (mkAS4 (mkSegBase 2 1 6) [asn])] 4;
        PANextHop (mkBase 64 BGPPathAttrTypeNextHop 4 7) [10; 0; 0; hop] ] None RouteTypeEGP with
  | Ok p => p
  | _ => nil_path
  end.

Definition update (env : LocRibEnv) (peer : nat) (asn hop : Z) (add rem : list NLRI) (l : LocRib) : LocRib :=
  let '(p, l) := new_path (rib_path peer asn hop) (Some peer) l in
  match ProcessUpdate env multipath_conf peer p add rem 257 0 no_out l with Ok (_, _, l) => l | _ => l end.

Definition rib_commands (l : LocRib) : list RibCmd := rib_trace l.

(** The next hop of the first route is not known at first. *)
Definition waiting_rib : LocRib := update (rib_env_after 1) 0 65002 5 [example_prefix 2] [] (NewLocRib example_peers).
Definition resolved_rib : LocRib := update (rib_env_after 1) 1 65003 5 [example_prefix 3] [] waiting_rib.
Definition gone_rib : LocRib := update (rib_env_after 1) 0 65002 5 [] [example_prefix 2] resolved_rib.
Definition haunted_rib : LocRib := update (rib_env_after 1) 1 65003 5 [example_prefix 4] [] gone_rib.

(** ** The invariant *)

(** C9: Whatever updates come, whichever neighbors go down and however the routes are read,
    every destination of the table has one slot of the list of its family, which it
    knows, no other destination has a slot, slots are nil only while the list is being
    read, and the counter of a family is the number of its destinations. *)
Theorem rib_consistent l : rib_reachable l -> table_inv l.
Proof. induction 1 as [peers|l l' _ IH H]; [apply NewLocRib_inv|by apply (rib_step_inv l l')]. Qed.

Lemma update_reachable env peer asn hop add rem l :
  rib_reachable l -> rib_reachable (update env peer asn hop add rem l).
Proof.
  intros H. unfold update. destruct (new_path (rib_path peer asn hop) (Some peer) l) as [p l1] eqn:E.
  assert (rib_reachable l1) as H1.
  { eapply rib_next; [exact H|]. apply step_change. replace l1 with (new_path (rib_path peer asn hop) (Some peer) l).2
      by (by rewrite E). apply change_path. }
  destruct (ProcessUpdate _ _ _ _ _ _ _ _ _ _) as [[[out all] l2]| | |] eqn:Eu; try done.
  eapply rib_next; [exact H1|]. apply step_change. by eapply change_update.
Qed.

Lemma example_ribs_reachable :
  rib_reachable waiting_rib /\ rib_reachable resolved_rib /\ rib_reachable gone_rib /\ rib_reachable haunted_rib.
Proof.
  assert (rib_reachable waiting_rib) as H1 by (apply update_reachable, rib_new).
  assert (rib_reachable resolved_rib) as H2 by (apply update_reachable; exact H1).
  assert (rib_reachable gone_rib) as H3 by (apply update_reachable; exact H2).
  split; [exact H1|]. split; [exact H2|]. split; [exact H3|]. apply update_reachable. exact H3.
Qed.

Lemma rib_consistent_witness : rib_reachable resolved_rib /\ table_inv resolved_rib.
Proof. split; [apply example_ribs_reachable|]. apply rib_consistent, example_ribs_reachable. Defined.

(** ** The list of routes *)

(** A list with nil slots is compacted: the operation returns, no slot is nil, the
    destinations are those that were listed, each knows its new slot, and the lists of
    other families and the table stay. *)
Theorem list_compacted fam l :
  table_inv l -> exists l', ResetRouteList fam l = Ok l' /\ reset_list fam l l'.
Proof. apply ResetRouteList_ok. Qed.

Lemma list_compacted_witness : exists l', ResetRouteList 257 resolved_rib = Ok l' /\ reset_list 257 resolved_rib l'.
Proof. apply (list_compacted 257 resolved_rib), rib_consistent, example_ribs_reachable. Defined.

(** C11: A route that is in the table when a walk over the routes of its family begins and
    when it ends is listed exactly once, whatever is announced and withdrawn between
    the pages; that the route has paths is asked for when a page is read. *)
Theorem walk_complete fam count key a l pages l' :
  table_inv l -> 0 < count -> walk fam count (has_paths key a) 0 l pages l' ->
  family_dests fam l !! key = Some a -> family_dests fam l' !! key = Some a ->
  listed key (concat pages) = 1%nat.
Proof. apply walk_lists_once. Qed.

(** The state a page leaves, and its rows. *)
Definition page_state (idx count : Z) (l : LocRib) : LocRib :=
  match BulkGetBGPRoutes idx count 257 l with Ok (_, _, _, l) => l | _ => l end.
Definition page_rows (idx count : Z) (l : LocRib) : list (option RouteState) :=
  match BulkGetBGPRoutes idx count 257 l with Ok (_, _, rs, _) => rs | _ => [] end.

(** One route to a page; in between the other route is withdrawn and a third comes. *)
Definition between : LocRib :=
  update (rib_env_after 0) 0 65002 5 [example_prefix 9] [example_prefix 2] (page_state 0 1 resolved_rib).

Lemma has_paths_compute key a l :
  match rib_dests l !! a with
  | Some d => bool_decide (GetCIDR (dest_NLRI d) = key) && negb (bool_decide (statePaths d = []))
  | None => false
  end = true -> has_paths key a l.
Proof.
  destruct (rib_dests l !! a) as [d|] eqn:E; [|done]. intros [H1 H2]%andb_true_iff. exists d.
  apply bool_decide_eq_true in H1. apply negb_true_iff, bool_decide_eq_false in H2. done.
Qed.

Lemma update_change env peer asn hop add rem l : rtc rib_change l (update env peer asn hop add rem l).
Proof.
  unfold update. destruct (new_path (rib_path peer asn hop) (Some peer) l) as [p l1] eqn:E.
  assert (rib_change l l1) as H1.
  { replace l1 with (new_path (rib_path peer asn hop) (Some peer) l).2 by (by rewrite E). apply change_path. }
  eapply rtc_l; [exact H1|].
  destruct (ProcessUpdate _ _ _ _ _ _ _ _ _ _) as [[[out all] l2]| | |] eqn:Eu; try done.
  apply rtc_once. by eapply change_update.
Qed.

Lemma walk_complete_witness :
  walk 257 1 (has_paths "192.0.3.0/24" 1) 0 resolved_rib
    [page_rows 0 1 resolved_rib; page_rows 1 1 between; page_rows 2 1 (page_state 1 1 between)]
    (page_state 2 1 (page_state 1 1 between)) /\
  listed "192.0.3.0/24" (concat [page_rows 0 1 resolved_rib; page_rows 1 1 between; page_rows 2 1 (page_state 1 1 between)])
  = 1%nat.
Proof.
  assert (walk 257 1 (has_paths "192.0.3.0/24" 1) 0 resolved_rib
    [page_rows 0 1 resolved_rib; page_rows 1 1 between; page_rows 2 1 (page_state 1 1 between)]
    (page_state 2 1 (page_state 1 1 between))) as W.
  { eapply (walk_more _ _ _ 0 _ 1 1 _ (page_state 0 1 resolved_rib) between);
      [apply has_paths_compute; by vm_compute|by vm_compute|done|apply update_change|].
    eapply (walk_more _ _ _ 1 _ 2 1 _ (page_state 1 1 between) (page_state 1 1 between));
      [apply has_paths_compute; by vm_compute|by vm_compute|done|done|].
    apply (walk_last _ _ _ 2 _ 1); [apply has_paths_compute; by vm_compute|by vm_compute]. }
  split; [exact W|].
  apply (walk_complete 257 1 "192.0.3.0/24" 1 resolved_rib _ (page_state 2 1 (page_state 1 1 between)));
    [apply rib_consistent, example_ribs_reachable|lia|exact W|by vm_compute|by vm_compute].
Defined.

(** ** Neighbors that go down *)

(** C10: When a neighbor goes down, RemoveUpdatesFromNeighbor returns, no destination of the
    table keeps a path of it, the paths of the others stay, the prefixes that are dropped
    had no other path, the neighbor's prefix count is 0, and the table is consistent. This
    supposes that the table is consistent before and that every destination can make its
    selection without the neighbor's paths, wherever that changes it ([can_lose]): the
    conditions of selection_installs hold for the paths that stay, so their values can be
    compared, the otherwise best of them have the one with the lowest ORIGIN first, and two
    local routes do not tie (the decision process panics on those: local_paths_panic). *)
Theorem neighbor_down env gConf peerIP conf count l :
  dest_env_ok (dest_env env) -> table_inv l ->
  (forall f k a d, family_dests f l !! k = Some a -> rib_dests l !! a = Some d -> can_lose env peerIP count (path_at l) d) ->
  exists out l', RemoveUpdatesFromNeighbor env gConf peerIP conf count l = Ok (out, l') /\ table_inv l' /\
    (forall f k a, family_dests f l !! k = Some a -> exists d d',
       rib_dests l !! a = Some d /\ rib_dests l' !! a = Some d' /\ dest_inv d' /\ lost peerIP d d' /\
       (family_dests f l' !! k = Some a \/ family_dests f l' !! k = None /\ IsEmpty d' = true)) /\
    (forall f k, family_dests f l !! k = None -> family_dests f l' !! k = None) /\
    (forall n c, conf = Some n -> rib_peers l' !! n = Some c -> ns_TotalPrefixes (nb_State c) = 0).
Proof.
  intros He I Hc. unfold RemoveUpdatesFromNeighbor.
  destruct (sweep_table_ok env gConf peerIP count He (table env l) no_out l I (table_entries env l He))
    as (out & l' & -> & I' & Hh & H1 & H2 & _).
  { intros f k a d Hin. apply (table_elem env l f k a He) in Hin. by eapply Hc. }
  res_simpl. eexists out, _. split; [done|]. set (l2 := match conf with Some _ => _ | None => _ end).
  assert (same_table l' l2) as T by (unfold l2; by destruct conf; split).
  assert (rib_dests l2 = rib_dests l') as D by (unfold l2; by destruct conf). split_and!.
  - by eapply same_table_inv.
  - intros f k a Hk. destruct (ti_dest _ I f k a Hk) as (d & _ & Hd & _). exists d.
    destruct (H2 f k a d) as (d' & E1 & E2 & E3 & _ & E4); [by apply table_elem|done|]. exists d'.
    rewrite D, (st_family _ _ f T). done.
  - intros f k Hk. rewrite (st_family _ _ f T), H1; [done|]. intros a Ha%(table_elem env l f k a He). congruence.
  - intros n c -> Hn. unfold l2 in Hn. cbn in Hn. rewrite lookup_alter_eq in Hn.
    destruct (rib_peers l' !! n); [|done]. cbn in Hn. by injection Hn as <-.
Qed.

(** One prefix, announced by one peer. *)
Definition single_rib : LocRib := update (rib_env_after 0) 0 65002 5 [example_prefix 2] [] (NewLocRib example_peers).

Definition single_new : Destination := set_idx 0 (NewDestination (example_prefix 2) 257).
Definition single_announced : Destination := announce (path_at single_rib) "10.0.0.5" 0 0 single_new.
Definition single_dest : Destination := selected_dest multipath_conf (path_at single_rib) 0 single_announced.

Lemma single_announced_inv : dest_inv single_announced.
Proof.
  destruct (AddOrUpdatePath_ok (path_at single_rib) "10.0.0.5" 0 0 single_new) as (b & d & E & I & _).
  - apply set_idx_inv, NewDestination_inv.
  - vm_compute; split; eexists; reflexivity.
  - by vm_compute.
  - intros ip id _. by apply not_stored; vm_compute.
  - unfold single_announced, announce. by rewrite E.
Qed.

(** The configuration of the only path can be made. *)
Lemma single_configurable d :
  dest_NLRI d = example_prefix 2 -> protoFamily d = 257 -> configurable (path_at single_rib) d 4 0.
Proof.
  intros Hn Hf. unfold configurable, path_config, ConstructRouteConfig. rewrite Hn, Hf. eexists. vm_compute. reflexivity.
Qed.

Lemma single_selectable d :
  dest_inv d -> dest_NLRI d = example_prefix 2 -> protoFamily d = 257 ->
  (forall ip id p, stored d ip id p -> p = 0%nat) ->
  (forall p, is_Some (dest_ecmpPaths d !! p) -> p = 0%nat) -> selectable example_dest_env (path_at single_rib) d 4 0.
Proof.
  intros I Hn Hf Hs He.
  assert (forall p, p ∈ eligible example_dest_env (path_at single_rib) d -> p = 0%nat) as Hel.
  { intros p Hp. destruct (eligible_stored example_dest_env (path_at single_rib) example_dest_env_ok d p I Hp) as (ip & id & H). by eapply Hs. }
  split; [done| | |].
  - intros ip id p ->%Hs. vm_compute. by eexists.
  - intros p Hp _. rewrite Hf. destruct Hp as [->%Hel| ->%He]; by apply single_configurable.
  - intros rs Hne Hp. split; [lia|]. left. split; [|done].
    pose proof (eligible_NoDup example_dest_env (path_at single_rib) example_dest_env_ok d I) as Hnd.
    destruct (eligible example_dest_env (path_at single_rib) d) as [|p ps] eqn:E; [done|].
    assert (p = 0%nat) as -> by (apply Hel; left). destruct ps as [|q ps]; [by vm_compute|].
    exfalso. assert (q = 0%nat) as -> by (apply Hel; right; left). apply NoDup_cons in Hnd as [Hni _]. apply Hni. left.
Qed.

Lemma single_stored d ip id p :
  forallb (fun e : string * (Z * ptr) => Nat.eqb e.2.2 0) (all_paths example_dest_env d) = true ->
  stored d ip id p -> p = 0%nat.
Proof.
  rewrite forallb_forall. intros H Hs. apply Nat.eqb_eq, (H (ip, (id, p))), list_elem_of_In.
  by apply (elem_all_paths _ example_dest_env_ok).
Qed.

Lemma single_installed d p :
  forallb (fun e : ptr * ptr => Nat.eqb e.1 0) (map_to_list (dest_ecmpPaths d)) = true ->
  is_Some (dest_ecmpPaths d !! p) -> p = 0%nat.
Proof.
  rewrite forallb_forall. intros H [r Hr]. apply Nat.eqb_eq, (H (p, r)), list_elem_of_In. by apply elem_of_map_to_list.
Qed.

Lemma single_dest_inv : dest_inv single_dest.
Proof.
  destruct (selection_ok example_dest_env multipath_conf (path_at single_rib) example_dest_env_ok single_announced 4 0)
    as (sel & d & E & S).
  - apply single_selectable; [apply single_announced_inv|by vm_compute|by vm_compute| |].
    + intros ip id p. apply single_stored. by vm_compute.
    + intros p. apply single_installed. by vm_compute.
  - by vm_compute.
  - unfold single_dest, selected_dest. rewrite E. apply S.
Qed.

Lemma single_can_lose : can_lose (rib_env_after 0) "10.0.0.5" 0 (path_at single_rib) single_dest.
Proof.
  split; [apply single_dest_inv|]. intros d' E _. exists 4.
  destruct (RemoveAllPaths_ok example_dest_env example_dest_env_ok "10.0.0.5" single_dest single_dest_inv)
    as (d1 & E1 & I1 & S1).
  assert (d1 = d') as -> by (unfold rib_env_after in E; cbn [dest_env] in E; congruence). clear E1.
  pose proof E as Hid. apply RemoveAllPaths_id, dest_id_inv in Hid as (Hn & Hf & _).
  apply single_selectable; [exact I1|by rewrite Hn; vm_compute|by rewrite Hf; vm_compute| |].
  - intros ip id p [_ H]%S1. revert H. apply single_stored. by vm_compute.
  - assert (dest_ecmpPaths d' = dest_ecmpPaths single_dest) as ->.
    { vm_compute in E. injection E as <-. by vm_compute. }
    intros p. apply single_installed. by vm_compute.
Qed.

Lemma neighbor_down_witness :
  exists out l', RemoveUpdatesFromNeighbor (rib_env_after 0) multipath_conf "10.0.0.5" (Some 0%nat) 0 single_rib = Ok (out, l') /\
    table_inv l' /\
    (forall f k a, family_dests f single_rib !! k = Some a -> exists d d',
       rib_dests single_rib !! a = Some d /\ rib_dests l' !! a = Some d' /\ dest_inv d' /\ lost "10.0.0.5" d d' /\
       (family_dests f l' !! k = Some a \/ family_dests f l' !! k = None /\ IsEmpty d' = true)) /\
    (forall f k, family_dests f single_rib !! k = None -> family_dests f l' !! k = None) /\
    (forall n c, Some 0%nat = Some n -> rib_peers l' !! n = Some c -> ns_TotalPrefixes (nb_State c) = 0).
Proof.
  apply (neighbor_down (rib_env_after 0) multipath_conf "10.0.0.5" (Some 0%nat) 0 single_rib).
  - apply example_dest_env_ok.
  - apply rib_consistent, update_reachable, rib_new.
  - intros f k a d Hk Hd.
    assert ((f, k, a) ∈ table (rib_env_after 0) single_rib) as Hin by (by apply table_elem; [apply example_dest_env_ok|]).
    assert (table (rib_env_after 0) single_rib = [(257, "192.0.2.0/24"%string, 0%nat)]) as Ht by (by vm_compute).
    rewrite Ht in Hin. apply list_elem_of_singleton in Hin as [= -> -> ->].
    assert (rib_dests single_rib !! 0%nat = Some single_dest) as Hs by (by vm_compute).
    assert (d = single_dest) as -> by congruence. apply single_can_lose.
Defined.

(** ** Limits *)

(** A new route of a peer that is at its limit is refused: its paths, the counters of
    the peers and the routes stay as they are, nothing is selected or written. Its
    destination is made all the same, and stays in the table without a path. *)
Theorem prefix_limit env gConf peerIP hop p count fam nlri out l n c :
  table_inv l -> family_dests fam l !! GetCIDR nlri = None ->
  is_Some (rib_paths l !! p) -> rib_conf l !! p = Some n -> rib_peers l !! n = Some c -> CanAcceptNewPrefix c = false ->
  exists l' a d, announce_route env gConf peerIP hop p count fam nlri out l = Ok (false, out, l') /\ table_inv l' /\
    rib_peers l' = rib_peers l /\ rib_trace l' = rib_trace l /\
    family_dests fam l' !! GetCIDR nlri = Some a /\ rib_dests l' !! a = Some d /\
    (forall ip id, getPathForIP ip id d = None) /\ IsEmpty d = true.
Proof.
  intros I Hk [o Ho] Hc Hp Hn. destruct (create_dest_Ok nlri fam l) as (a & l1 & E & C).
  destruct (cr_paths _ _ _ _ _ C) as (E1 & E2 & E3). destruct (cr_rest _ _ _ _ _ C) as (_ & E4 & _).
  set (d := set_dest_routeListIdx (len (route_slots fam l)) (NewDestination nlri fam)).
  assert (rib_dests l1 !! a = Some d) as Hd by (by rewrite (cr_dests _ _ _ _ _ C), lookup_insert_eq).
  assert (announce_route env gConf peerIP hop p count fam nlri out l = Ok (false, out, l1)) as Ha.
  { unfold announce_route, GetDest. rewrite Hk, E. res_simpl. unfold dest_at. rewrite Hd. res_simpl.
    change (getPathForIP peerIP (NLRI_GetPathId nlri) d) with (@None ptr). unfold path_at at 1.
    rewrite E1, E2, E3, Ho, Hc, Hp. cbn [path_NeighborConf with_conf]. by rewrite Hn. }
  exists l1, a, d. split; [exact Ha|]. split; [by apply (announce_route_keeps _ _ _ _ _ _ _ _ _ _ _ _ _ Ha)|].
  split_and!; try done. by rewrite (cr_family _ _ _ _ _ C), bool_decide_eq_true_2, lookup_insert_eq.
Qed.

(** A peer that may send one prefix, and has. *)
Definition limited_peer : NeighborConf :=
  set_conf_BGPId [10; 0; 0; 5]
    (NewNeighborConf (mkGlobalConfig 65001 [10; 0; 0; 1]) None
       (mkNeighborConfig
          (mkBaseConfig 65002 65001 0 "" false "" "" 0 false false 0 0 0 0 false "" false 0 1 80 false 0
             "" "") [10; 0; 0; 5] 0 "" "" false)).

Definition limited_rib : LocRib :=
  (new_path (rib_path 0 65002 5) (Some 0%nat)
     (update (rib_env_after 0) 0 65002 5 [example_prefix 2] [] (NewLocRib {[ 0%nat := limited_peer ]}))).2.

Definition limited_count : NeighborConf :=
  match rib_peers limited_rib !! 0%nat with Some c => c | None => limited_peer end.

Lemma prefix_limit_witness :
  exists l' a d, announce_route (rib_env_after 0) multipath_conf "10.0.0.5" "10.0.0.5" 2 0 257 (example_prefix 3) no_out
      limited_rib = Ok (false, no_out, l') /\ table_inv l' /\
    rib_peers l' = rib_peers limited_rib /\ rib_trace l' = rib_trace limited_rib /\
    family_dests 257 l' !! GetCIDR (example_prefix 3) = Some a /\ rib_dests l' !! a = Some d /\
    (forall ip id, getPathForIP ip id d = None) /\ IsEmpty d = true.
Proof.
  apply (prefix_limit _ _ _ _ 2%nat 0 257 (example_prefix 3) no_out limited_rib 0%nat limited_count);
    [|by vm_compute|vm_compute; by eexists|by vm_compute|by vm_compute|by vm_compute].
  apply rib_consistent. eapply rib_next; [apply update_reachable, rib_new|apply step_change, change_path].
Defined.

(** An UPDATE that announces 10.0.0.0/16, say, cannot withdraw 10.0.0.0/8: the length
    is not compared, and the withdrawal is dropped. *)
Lemma other_length_not_withdrawn env gConf peerIP add p count fam nlri m out l :
  m ∈ add -> NLRI_GetPathId m = NLRI_GetPathId nlri ->
  IP_Equal (NLRI_GetPrefix m) (NLRI_GetPrefix nlri) = true ->
  withdraw_all env gConf peerIP add p count fam [nlri] out l = Ok (out, l).
Proof.
  intros Hm Hi Hp. cbn [withdraw_all]. assert (isIpInList add nlri = true) as ->; [|done].
  apply existsb_exists. exists m. split; [by apply list_elem_of_In|]. by rewrite Hi, Z.eqb_refl, Hp.
Qed.

(** ** Queries *)

Lemma GetCIDR_slash n : no_slash (GetCIDR n) = false.
Proof. unfold GetCIDR. by rewrite !no_slash_app, andb_false_r. Qed.

(** The destinations are filed under their prefix and its length, and asked for by the
    prefix alone: whatever is in the table, the question for the route of an address
    panics, and no destination is found for the policies. *)
Theorem route_lookup_panics l ip fam cidrLen :
  table_inv l -> GetBGPv4Route (IP_String ip) l = Panic /\ GetBGPv6Route (IP_String ip) l = Panic /\
   GetDestFromIPAndLen fam (IP_String ip) cidrLen l = None.
Proof.
  intros I. assert (forall fam, family_dests fam l !! IP_String ip = None) as H.
  { intros f. destruct (family_dests f l !! IP_String ip) as [a|] eqn:E; [|done].
    apply (ti_dest _ I) in E as (d & _ & _ & E & _). pose proof (GetCIDR_slash (dest_NLRI d)) as Hs.
    by rewrite E, IP_String_no_slash in Hs. }
  unfold GetBGPv4Route, GetBGPv6Route, GetBGPRoute, GetDestFromIPAndLen. by rewrite !H.
Qed.

Lemma route_lookup_panics_witness :
  is_Some (family_dests 257 resolved_rib !! "192.0.3.0/24"%string) /\
   GetBGPv4Route (IP_String [192; 0; 3; 0]) resolved_rib = Panic /\
   GetBGPv6Route (IP_String [192; 0; 3; 0]) resolved_rib = Panic /\
   GetDestFromIPAndLen 257 (IP_String [192; 0; 3; 0]) 24 resolved_rib = None.
Proof.
  split; [vm_compute; by eexists|]. apply (route_lookup_panics resolved_rib [192; 0; 3; 0] 257 24).
  apply rib_consistent, example_ribs_reachable.
Defined.

(** A page of the routes of a family that never had one panics, unless it is empty. *)
Theorem bulk_without_routes_panics idx count fam l :
  timer l !! fam = None -> 0 < count -> bulk_routes idx count fam l = Panic.
Proof.
  intros Ht Hc. unfold bulk_routes, BulkGetBGPRoutes. rewrite (proj2 (Z.ltb_ge _ _)), Ht by lia. res_simpl.
  destruct (Z.to_nat count) eqn:E; [lia|]. done.
Qed.

(** ** Paths that wait for a next hop *)

(** The command installs a route to the network. *)
Definition installs (nw : bytes) (c : RibCmd) : bool :=
  match c with RouteMgr (CreateRoute cfg) => bool_decide (DestinationNw cfg = nw) | _ => false end.

(** The command writes a path of the network to the database. *)
Definition writes (nw : string) (c : RibCmd) : bool :=
  match c with
  | StateDB AddObject r => bool_decide (Network r = nw) && (0 <? len (BgpRib.Paths r))
  | _ => false
  end.

Lemma withdrawn_path_compute :
  existsb (installs [192; 0; 2; 0]) (drop (length (rib_trace gone_rib)) (rib_trace haunted_rib)) &&
  existsb (writes "192.0.2.0") (drop (length (rib_trace gone_rib)) (rib_trace haunted_rib)) &&
  bool_decide (family_dests 257 gone_rib !! GetCIDR (example_prefix 2) = None) &&
  bool_decide (family_dests 257 haunted_rib !! GetCIDR (example_prefix 2) = None) = true.
Proof. by vm_compute. Qed.

(** A path that once waited for its next hop stays on the list of those that wait. Its
    prefix is withdrawn and leaves the table; the next route with that next hop, of
    another peer and to another prefix, installs the withdrawn route again and writes it
    to the database, though the table does not have it. *)
Theorem withdrawn_path_returns :
  exists cmds, rib_trace haunted_rib = take (length (rib_trace gone_rib)) (rib_trace haunted_rib) ++ cmds /\
    (exists c, c ∈ cmds /\ installs [192; 0; 2; 0] c = true) /\
    (exists c, c ∈ cmds /\ writes "192.0.2.0" c = true) /\
    family_dests 257 gone_rib !! GetCIDR (example_prefix 2) = None /\
    family_dests 257 haunted_rib !! GetCIDR (example_prefix 2) = None.
Proof.
  pose proof withdrawn_path_compute as H.
  apply andb_true_iff in H as [H H4]. apply andb_true_iff in H as [H H3]. apply andb_true_iff in H as [H1 H2].
  exists (drop (length (rib_trace gone_rib)) (rib_trace haunted_rib)). rewrite take_drop.
  apply existsb_exists in H1 as (c1 & H1 & E1). apply existsb_exists in H2 as (c2 & H2 & E2).
  split; [reflexivity|]. split; [exists c1; split; [by apply list_elem_of_In|exact E1]|].
  split; [exists c2; split; [by apply list_elem_of_In|exact E2]|].
  split; [exact (bool_decide_eq_true_1 _ H3)|exact (bool_decide_eq_true_1 _ H4)].
Qed.
