(* ===== verification/BgpFsm.v ===== *)
(** * The BGP session state machine

    src/bgp/fsm/fsm.go, the state machine of one session, and
    src/bgp/fsm/fsm_manager.go, which runs one or two of them for a neighbor and
    resolves connection collisions.

    A goroutine's [select] takes one input and runs its case to the end; the model
    makes each case one atomic step and leaves the order of inputs free. What a
    case sends on a channel of the server, of another machine or of a connection,
    and what it writes to a connection, is appended to the [trace] of the world.
    FSM objects live in a heap, since the manager's map holds pointers and a
    machine may outlive its entry there. A timer is its last setting, [None] when
    stopped; firing is an input that is possible at any time, since stopping a Go
    timer does not drain its channel. *)

From S2P Require Import Prelude.
From S2P Require Import BgpOpen.
From S2P Require Import BgpNlri.
From S2P Require Import BgpAsPath.
From S2P Require Import BgpAttr.
From S2P Require Import BgpUpdate.
From S2P Require Import BgpHelpers.
From S2P Require Import BgpNormalize.
From S2P Require Import BgpNeighbor.

(** ** Data *)

Inductive BGPFSMEvent :=
| BGPEventNone
| BGPEventManualStart
| BGPEventManualStop
| BGPEventAutoStart
| BGPEventManualStartPassTcpEst
| BGPEventAutoStartPassTcpEst
| BGPEventAutoStartDampPeerOscl
| BGPEventAutoStartDampPeerOsclPassTcpEst
| BGPEventAutoStop
| BGPEventConnRetryTimerExp
| BGPEventHoldTimerExp
| BGPEventKeepAliveTimerExp
| BGPEventDelayOpenTimerExp
| BGPEventIdleHoldTimerExp
| BGPEventTcpConnValid
| BGPEventTcpCrInvalid
| BGPEventTcpCrAcked
| BGPEventTcpConnConfirmed
| BGPEventTcpConnFails
| BGPEventBGPOpen
| BGPEventBGPOpenDelayOpenTimer
| BGPEventHeaderErr
| BGPEventOpenMsgErr
| BGPEventOpenCollisionDump
| BGPEventNotifMsgVerErr
| BGPEventNotifMsg
| BGPEventKeepAliveMsg
| BGPEventUpdateMsg
| BGPEventUpdateMsgErr.

#[export] Instance BGPFSMEvent_eq_dec : EqDecision BGPFSMEvent.
Proof. solve_decision. Defined.

(** The state objects; [passive] is the field of IdleState. *)
Inductive BGPState :=
| Idle (passive : bool)
| Connect
| Active
| OpenSent
| OpenConfirm
| Established.

#[export] Instance BGPState_eq_dec : EqDecision BGPState.
Proof. solve_decision. Defined.

(** [state()], the constants of src/bgp/config/fsmState.go. *)
Definition state_of (s : BGPState) : Z :=
  match s with
  | Idle _ => 1 | Connect => 2 | Active => 3 | OpenSent => 4 | OpenConfirm => 5 | Established => 6
  end.

(** config.ConnDir; the machines are numbered with the same values. *)
Definition ConnDirOut : Z := 0.
Definition ConnDirIn : Z := 1.
Definition ConnDirInvalid : Z := 2.

(** The data that comes with an event; a TCP connection is a number. *)
Inductive EventData :=
| DataNil
| DataConn (dir conn : Z)
| DataMsg (msg : BGPMessage)
| DataErr (TypeCode SubTypeCode : Z) (Data : bytes)
| DataConnErr (id : Z).

Record PeerConn := mkPeerConn { pc_dir : Z; pc_conn : Z; pc_id : Z }.

(** [addr] is the object's place in the heap. [outTCPConn] tells whether the
    pointer is set. Times are in seconds, except the two jittered timers, which
    are set in milliseconds. *)
Record FSM := mkFSM {
  addr : nat;
  id : Z;
  State : option BGPState;
  peerType : Z;
  peerConn : option PeerConn;
  outTCPConn : bool;
  connId : Z;
  event : BGPFSMEvent;
  connectRetryCounter : Z;
  connectRetryTime : Z;
  connectRetryTimer : option Z;
  holdTime : Z;
  holdTimer : option Z;
  keepAliveTime : Z;
  keepAliveTimer : option Z;
  restartTime : Z;
  restartTimer : option Z;
  passiveTcpEst : bool;
  dampPeerOscl : bool;
  idleHoldTime : Z;
  idleHoldTimer : option Z;
  afiSafiMap : gset Z;
  close : bool;
}.

Definition FSM_eta (f : FSM) : FSM :=
  mkFSM (addr f) (id f) (State f) (peerType f) (peerConn f) (outTCPConn f) (connId f) (event f)
    (connectRetryCounter f) (connectRetryTime f) (connectRetryTimer f) (holdTime f) (holdTimer f)
    (keepAliveTime f) (keepAliveTimer f) (restartTime f) (restartTimer f) (passiveTcpEst f)
    (dampPeerOscl f) (idleHoldTime f) (idleHoldTimer f) (afiSafiMap f) (close f).

Definition set_State (v : option BGPState) (f : FSM) : FSM := ltac:(update FSM_eta f State v).
Definition set_peerType (v : Z) (f : FSM) : FSM := ltac:(update FSM_eta f peerType v).
Definition set_peerConn (v : option PeerConn) (f : FSM) : FSM := ltac:(update FSM_eta f peerConn v).
Definition set_outTCPConn (v : bool) (f : FSM) : FSM := ltac:(update FSM_eta f outTCPConn v).
Definition set_connId (v : Z) (f : FSM) : FSM := ltac:(update FSM_eta f connId v).
Definition set_event (v : BGPFSMEvent) (f : FSM) : FSM := ltac:(update FSM_eta f event v).
Definition set_connectRetryCounter (v : Z) (f : FSM) : FSM :=
  ltac:(update FSM_eta f connectRetryCounter v).
Definition set_connectRetryTimer (v : option Z) (f : FSM) : FSM :=
  ltac:(update FSM_eta f connectRetryTimer v).
Definition set_holdTime (v : Z) (f : FSM) : FSM := ltac:(update FSM_eta f holdTime v).
Definition set_holdTimer (v : option Z) (f : FSM) : FSM := ltac:(update FSM_eta f holdTimer v).
Definition set_keepAliveTime (v : Z) (f : FSM) : FSM := ltac:(update FSM_eta f keepAliveTime v).
Definition set_keepAliveTimer (v : option Z) (f : FSM) : FSM :=
  ltac:(update FSM_eta f keepAliveTimer v).
Definition set_restartTime (v : Z) (f : FSM) : FSM := ltac:(update FSM_eta f restartTime v).
Definition set_restartTimer (v : option Z) (f : FSM) : FSM :=
  ltac:(update FSM_eta f restartTimer v).
Definition set_passiveTcpEst (v : bool) (f : FSM) : FSM := ltac:(update FSM_eta f passiveTcpEst v).
Definition set_idleHoldTime (v : Z) (f : FSM) : FSM := ltac:(update FSM_eta f idleHoldTime v).
Definition set_idleHoldTimer (v : option Z) (f : FSM) : FSM :=
  ltac:(update FSM_eta f idleHoldTimer v).
Definition set_afiSafiMap (v : gset Z) (f : FSM) : FSM := ltac:(update FSM_eta f afiSafiMap v).
Definition set_close (v : bool) (f : FSM) : FSM := ltac:(update FSM_eta f close v).

(** What a step sends: to a connection, to its reader, to the goroutine that
    connects, to the manager, to the server, or to another machine. *)
Inductive Output :=
| OutWrite (conn : Z) (pkt : bytes) (ok : bool)
| OutStartReading (conn : Z)
| OutStopReading (conn : Z)
| OutCloseConn (conn : Z)
| OutConnectToPeer (retryTime : Z)
| OutStopConnCh
| OutTcpConnFailCh (id : Z)
| OutNewConnCh (id dir conn : Z)
| OutFsmConnCh (established : bool) (conn : option Z)
| OutBgpPktSrcCh (msg : BGPMessage)
| OutCloseCh (machine : nat)
| OutEventRxCh (machine : nat) (event : BGPFSMEvent) (reason : Z)
| OutPassiveTcpEstCh (machine : nat) (val : bool)
| OutInConnCh (machine : nat) (conn : Z)
| OutOutConnCh (machine : nat) (conn : Z)
| OutBfdStatusCh (machine : nat) (status : bool).

(** The manager's fields, the heap of machines, the trace so far, and the number
    of random draws and writes so far. *)
Record World := mkWorld {
  neighborConf : NeighborConf;
  fsms : gmap Z nat;
  acceptConn : bool;
  activeFSM : Z;
  objs : gmap nat FSM;
  trace : list Output;
  ticks : nat;
}.

Definition World_eta (w : World) : World :=
  mkWorld (neighborConf w) (fsms w) (acceptConn w) (activeFSM w) (objs w) (trace w) (ticks w).

Definition set_neighborConf (v : NeighborConf) (w : World) : World :=
  ltac:(update World_eta w neighborConf v).
Definition set_fsms (v : gmap Z nat) (w : World) : World := ltac:(update World_eta w fsms v).
Definition set_acceptConn (v : bool) (w : World) : World := ltac:(update World_eta w acceptConn v).
Definition set_activeFSM (v : Z) (w : World) : World := ltac:(update World_eta w activeFSM v).
Definition set_objs (v : gmap nat FSM) (w : World) : World := ltac:(update World_eta w objs v).
Definition set_trace (v : list Output) (w : World) : World := ltac:(update World_eta w trace v).
Definition set_ticks (v : nat) (w : World) : World := ltac:(update World_eta w ticks v).

(** ** The monad of a machine's goroutine

    The machine that runs, with the rest of the world. *)
Definition M (A : Type) : Type := FSM * World -> res (A * (FSM * World)).

#[export] Instance M_ret : MRet M := fun A a s => Ok (a, s).
#[export] Instance M_bind : MBind M := fun A B k m s =>
  match m s with
  | Ok (a, s') => k a s'
  | Err e => Err e
  | Panic => Panic
  | NoFuel => NoFuel
  end.

Definition self : M FSM := fun s => Ok (s.1, s).
Definition world : M World := fun s => Ok (s.2, s).
Definition modify (g : FSM -> FSM) : M unit := fun s => Ok (tt, (g s.1, s.2)).
Definition modify_world (g : World -> World) : M unit := fun s => Ok (tt, (s.1, g s.2)).
Definition skip : M unit := mret tt.
Definition panic {A} : M A := fun _ => Panic.
Definition lift {A} (r : res A) : M A := fun s =>
  match r with Ok a => Ok (a, s) | Err e => Err e | Panic => Panic | NoFuel => NoFuel end.
Definition emit (o : Output) : M unit := modify_world (fun w => set_trace (trace w ++ [o]) w).

(** What the machine may ask of its surroundings: whether the [k]-th write
    succeeds, and the [k]-th random number of math/rand. *)
Record Env := mkEnv {
  write_ok : nat -> bool;
  Int63n : nat -> Z -> Z;
  rand_Uint32 : nat -> Z;
}.

(** The documented range of the random numbers. *)
Definition env_ok (env : Env) : Prop :=
  (forall k n, 0 < n -> 0 <= Int63n env k n < n) /\ (forall k, is_u32 (rand_Uint32 env k)).

Definition tick : M nat := fun s => Ok (ticks s.2, (s.1, set_ticks (S (ticks s.2)) s.2)).

Section Machine.
Context (env : Env).

(** rand.Int63n panics on a bound that is not positive. *)
Definition draw_Int63n (n : Z) : M Z :=
  if n <=? 0 then panic else k ← tick; mret (Int63n env k n).

(** ** Timers and counters *)

Definition BGPTimersJitterDivisor : Z := 4.
Definition BGPRestartTimeDefault : Z := 1.
Definition BGPIdleHoldTimeDefault : Z := 5.

Definition StopConnectRetryTimer : M unit := modify (set_connectRetryTimer None).
Definition StartConnectRetryTimer : M unit :=
  StopConnectRetryTimer;;
  f ← self;
  let connRetryMilliSec := u32 (connectRetryTime f * 1000) in
  jitter ← draw_Int63n (connRetryMilliSec / BGPTimersJitterDivisor);
  modify (set_connectRetryTimer (Some (connRetryMilliSec - jitter))).

Definition StopRestartTimer : M unit := modify (set_restartTimer None).
Definition StartRestartTimer : M unit :=
  StopRestartTimer;;
  f ← self;
  modify (set_restartTimer (Some (restartTime f))).

Definition SetHoldTime (hold keepalive : Z) : M unit :=
  if (hold <? 0) || ((0 <? hold) && (hold <? 3)) then skip
  else modify (set_holdTime hold);; modify (set_keepAliveTime keepalive).

Definition StopHoldTimer : M unit := modify (set_holdTimer None).
Definition StartHoldTimer : M unit :=
  StopHoldTimer;;
  f ← self;
  if negb (holdTime f =? 0) then modify (set_holdTimer (Some (holdTime f))) else skip.

Definition StopKeepAliveTimer : M unit := modify (set_keepAliveTimer None).
Definition StartKeepAliveTimer : M unit :=
  StopKeepAliveTimer;;
  f ← self;
  if negb (keepAliveTime f =? 0) then
    let keepAliveMilliSec := u32 (keepAliveTime f * 1000) in
    jitter ← draw_Int63n (keepAliveMilliSec / BGPTimersJitterDivisor);
    modify (set_keepAliveTimer (Some (keepAliveMilliSec - jitter)))
  else skip.

Definition SetConnectRetryCounter (value : Z) : M unit := modify (set_connectRetryCounter value).
Definition IncrConnectRetryCounter : M unit :=
  modify (fun f => set_connectRetryCounter (connectRetryCounter f + 1) f).

Definition SetIdleHoldTime (seconds : Z) : M unit := modify (set_idleHoldTime seconds).
Definition StopIdleHoldTimer : M unit := modify (set_idleHoldTimer None).
Definition StartIdleHoldTimer : M unit :=
  StopIdleHoldTimer;;
  f ← self;
  if (0 <? idleHoldTime f) && (idleHoldTime f <=? 300)
  then modify (set_idleHoldTimer (Some (idleHoldTime f))) else skip.

(** A value that is not a key gives zero. *)
Definition IdleHoldTimeInterval (t : Z) : Z :=
  default 0 (assocZ [(0, 0); (5, 10); (10, 30); (60, 120); (120, 180); (180, 300); (300, 500);
                     (500, 0)] t).

Definition SetPassiveTcpEstablishment (flag : bool) : M unit := modify (set_passiveTcpEst flag).

(** SetHoldTime with the neighbor's configuration. *)
Definition SetConfHoldTime : M unit :=
  w ← world;
  let c := nc_base (RunningConf (neighborConf w)) in
  SetHoldTime (cfg_HoldTime c) (KeepaliveTime c).

(** ** The connection *)

(** [( *fsm.peerConn.conn).Write(packet)] *)
Definition conn_Write (pkt : bytes) : M bool :=
  f ← self;
  match peerConn f with
  | None => panic
  | Some pc => k ← tick; emit (OutWrite (pc_conn pc) pkt (write_ok env k));; mret (write_ok env k)
  end.

(** [packet, _ := msg.Encode()] *)
Definition Encode_ignoring_error (msg : BGPMessage) : M bytes :=
  match BGPMessage_Encode msg with
  | Ok pkt => mret pkt
  | Err _ => mret []
  | Panic => lift Panic
  | NoFuel => lift NoFuel
  end.

Definition NewBGPOpenMessage (myAS hold : Z) (bgpId : bytes) (optParams : list BGPOptParam) : BGPMessage :=
  mkBGPMessage (mkBGPHeader 0 BGPMsgTypeOpen) (Some (BodyOpen (NewBGPOpen myAS hold bgpId optParams))).

Definition NewBGPNotificationMessage (code subCode : Z) (data : bytes) : BGPMessage :=
  mkBGPMessage (mkBGPHeader (u16 (21 + u16 (len data))) BGPMsgTypeNotification)
    (Some (BodyNotification (mkBGPNotification code subCode data))).

(** The router id goes through its text form and comes back as 16 octets. *)
Definition open_of_conf (n : NeighborConf) (hold : Z) : BGPMessage :=
  let c := nc_base (RunningConf n) in
  NewBGPOpenMessage (LocalAS c) (u16 hold) (To16 (To4 (g_RouterId (Global n))))
    (ConstructOptParams (LocalAS c) (elements (AfiSafiMap n)) (AddPathsRx c) (AddPathsMaxTx c)).

Definition sendOpenMessage : M unit :=
  f ← self; w ← world;
  packet ← Encode_ignoring_error (open_of_conf (neighborConf w) (holdTime f));
  _ ← conn_Write packet; skip.

Definition sendKeepAliveMessage : M unit :=
  packet ← Encode_ignoring_error NewBGPKeepAliveMessage;
  _ ← conn_Write packet;
  StartKeepAliveTimer.

Definition incr_Sent_Notification : NeighborConf -> NeighborConf :=
  on_State (fun s => let m := ns_Messages s in
    set_ns_Messages (mkMessages (Sent_Update m) (u64 (Sent_Notification m + 1)) (Received_Update m)
      (Received_Notification m)) s).

Definition incr_Received_Notification : NeighborConf -> NeighborConf :=
  on_State (fun s => let m := ns_Messages s in
    set_ns_Messages (mkMessages (Sent_Update m) (Sent_Notification m) (Received_Update m)
      (u64 (Received_Notification m + 1))) s).

Definition SendNotificationMessage (code subCode : Z) (data : bytes) : M unit :=
  packet ← Encode_ignoring_error (NewBGPNotificationMessage code subCode data);
  ok ← conn_Write packet;
  if (ok : bool) then modify_world (fun w => set_neighborConf (incr_Sent_Notification (neighborConf w)) w)
  else skip.

Definition SetPeerConn (data : EventData) : M unit :=
  f ← self;
  match peerConn f with
  | Some _ => skip
  | None =>
    k ← tick;
    (if rand_Uint32 env k =? connId f then modify (set_connId (u32 (connId f + 1)))
     else k ← tick; modify (set_connId (rand_Uint32 env k)));;
    match data with
    | DataConn dir conn =>
      f ← self;
      modify (set_peerConn (Some (mkPeerConn dir conn (connId f))));;
      emit (OutStartReading conn)
    | _ => panic
    end
  end.

Definition ClearPeerConn : M unit :=
  f ← self;
  match peerConn f with
  | None => skip
  | Some pc =>
    StopKeepAliveTimer;; StopHoldTimer;;
    modify (set_connId 0);;
    emit (OutStopReading (pc_conn pc));;
    modify (set_peerConn None)
  end.

(** net.IPv4bcast as bytes.Equal sees it. *)
Definition IPv4bcast : bytes := IPv4 255 255 255 255.

Definition InitiateConnToPeer : M unit :=
  f ← self; w ← world;
  if bool_decide (nc_NeighborAddress (RunningConf (neighborConf w)) = IPv4bcast) then skip
  else if outTCPConn f then skip
  else modify (set_outTCPConn true);; emit (OutConnectToPeer (connectRetryTime f)).

Definition StopConnToPeer : M unit :=
  f ← self;
  if outTCPConn f then emit OutStopConnCh;; modify (set_outTCPConn false) else skip.

Definition HandleAnotherConnection (data : EventData) : M unit :=
  f ← self;
  match data with
  | DataConn dir conn => emit (OutNewConnCh (id f) dir conn)
  | _ => panic
  end.

(** ** Calls into the manager *)

Definition AcceptPeerConn : M unit := modify_world (set_acceptConn true).
Definition RejectPeerConn : M unit := modify_world (set_acceptConn false).

Definition fsmBroken (i : Z) : M unit :=
  w ← world;
  if activeFSM w =? i then
    modify_world (set_activeFSM ConnDirInvalid);; emit (OutFsmConnCh false None)
  else skip.

Definition fsmEstablished (i conn : Z) : M unit :=
  w ← world;
  match fsms w !! i with
  | Some _ => modify_world (set_activeFSM i);; emit (OutFsmConnCh true (Some conn))
  | None => skip
  end.

Definition fsmStateChange (i state : Z) : M unit :=
  w ← world;
  if (activeFSM w =? i) || (activeFSM w =? ConnDirInvalid)
  then modify_world (fun w => set_neighborConf (NC_FSMStateChange state (neighborConf w)) w)
  else skip.

(** [closeFSM.closeCh <- true] comes first. *)
Definition fsmClose (i : Z) : M unit :=
  w ← world;
  match fsms w !! i with
  | Some r =>
    emit (OutCloseCh r);;
    fsmBroken i;;
    modify_world (fun w => set_fsms (delete i (fsms w)) w)
  | None => skip
  end.

(** Make the heap's copy of the running machine current, before the manager looks
    at the machines of its map. *)
Definition sync : M unit := fun s => Ok (tt, (s.1, set_objs (<[addr s.1 := s.1]> (objs s.2)) s.2)).

(** The machine a pointer of the manager's map points to. *)
Definition deref (r : nat) : M FSM := w ← world; lift (of_option (objs w !! r)).

Definition has_dir (f : FSM) (connDir : Z) : bool :=
  match peerConn f with Some pc => pc_dir pc =? connDir | None => false end.

Fixpoint find_dir (connDir : Z) (l : list (Z * nat)) : M Z :=
  match l with
  | [] => mret ConnDirInvalid
  | (i, r) :: l => f ← deref r; if has_dir f connDir then mret i else find_dir connDir l
  end.

Definition getFSMIdByDir (connDir : Z) : M Z := w ← world; find_dir connDir (map_to_list (fsms w)).

(** The loop over [mgr.fsms]: entries deleted on the way are not visited. The
    result is the last [closeConnDir]. *)
Fixpoint resolve_collision (i connDir localBGPId bgpIdInt : Z) (l : list (Z * nat)) (closeConnDir : Z)
  : M Z :=
  match l with
  | [] => mret closeConnDir
  | (fsmId, r) :: l =>
    w ← world;
    match fsms w !! fsmId with
    | None => resolve_collision i connDir localBGPId bgpIdInt l closeConnDir
    | Some _ =>
      f ← deref r;
      st ← lift (of_option (State f));
      if negb (fsmId =? i) && (state_of OpenSent <=? state_of st) then
        let closeConnDir :=
          if state_of st =? state_of Established then connDir
          else if bgpIdInt <? localBGPId then ConnDirIn
          else ConnDirOut in
        closeFSMId ← getFSMIdByDir closeConnDir;
        fsmClose closeFSMId;;
        resolve_collision i connDir localBGPId bgpIdInt l closeConnDir
      else resolve_collision i connDir localBGPId bgpIdInt l closeConnDir
    end
  end.

(** The [closeFSMId] assigned in the loop is a new variable of its scope; the
    outer one keeps its first value. *)
Definition receivedBGPOpenMessage (i connDir : Z) (openMsg : BGPOpen) : M bool :=
  sync;;
  w ← world;
  let closeFSMId := ConnDirInvalid in
  localBGPId ← lift (ConvertIPBytesToUint (To4 (g_RouterId (Global (neighborConf w)))));
  bgpIdInt ← lift (ConvertIPBytesToUint (To4 (BGPId openMsg)));
  closeConnDir ← resolve_collision i connDir localBGPId bgpIdInt (map_to_list (fsms w)) ConnDirInvalid;
  (if (closeFSMId =? ConnDirInvalid) || negb (closeFSMId =? i) then
     asSize ← lift (GetASSize openMsg);
     let addPathFamily := GetAddPathFamily openMsg in
     w ← world;
     match fsms w !! i with
     | Some r =>
       f ← deref r;
       modify_world (fun w => set_neighborConf
         (SetPeerAttrs (BGPId openMsg) asSize (holdTime f) (keepAliveTime f) addPathFamily
            (neighborConf w)) w)
     | None => skip
     end
   else skip);;
  mret (negb (closeConnDir =? connDir)).

Definition ProcessOpenMessage (msg : BGPMessage) : M bool :=
  match Body msg with
  | Some (BodyOpen body) =>
    f ← self;
    (if HoldTime body <? holdTime f then SetHoldTime (HoldTime body) (HoldTime body / 3) else skip);;
    w ← world;
    modify (set_peerType (if MyAS body =? g_AS (Global (neighborConf w)) then PeerTypeInternal
                          else PeerTypeExternal));;
    modify (fun f => set_afiSafiMap
      (afiSafiMap f ∪ (GetProtocolFromOpenMsg body ∩ AfiSafiMap (neighborConf w))) f);;
    f ← self;
    pc ← lift (of_option (peerConn f));
    receivedBGPOpenMessage (id f) (pc_dir pc) body
  | _ => panic
  end.

(** The families of the MP_REACH_NLRI attributes are only looked at to log. *)
Definition ProcessUpdateMessage (msg : BGPMessage) : M unit :=
  match Body msg with
  | Some (BodyUpdate _) => emit (OutBgpPktSrcCh msg)
  | _ => panic
  end.

Definition ConnEstablished : M unit :=
  f ← self;
  pc ← lift (of_option (peerConn f));
  fsmEstablished (id f) (pc_conn pc).

Definition ConnBroken : M unit := f ← self; fsmBroken (id f).

(** ** Changing state *)

Definition ApplyAutomaticStart : M unit := StartRestartTimer.

Definition leave (s : BGPState) : M unit :=
  match s with
  | Idle _ => StopIdleHoldTimer
  | Established => SetConfHoldTime
  | _ => skip
  end.

Definition current_state : M BGPState := f ← self; lift (of_option (State f)).

Definition is_Established (s : BGPState) : bool := state_of s =? state_of Established.

(** FSM.ChangeState, given what [enter] does. *)
Definition change_state (enter : BGPState -> M unit) (newState : BGPState) : M unit :=
  f ← self;
  if close f then skip else
    oldState ← current_state;
    leave oldState;;
    modify (set_State (Some newState));;
    enter newState;;
    st ← current_state;
    (if is_Established oldState && negb (is_Established st) then ConnBroken
     else if negb (is_Established oldState) && is_Established st then ConnEstablished
     else skip);;
    f ← self;
    fsmStateChange (id f) (state_of st).

Definition enter_Idle : M unit :=
  StopKeepAliveTimer;;
  StopHoldTimer;;
  RejectPeerConn;;
  SetConfHoldTime;;
  ApplyAutomaticStart.

Definition enter_Active : M unit := AcceptPeerConn.

Definition bfd_down (n : NeighborConf) : bool :=
  ns_UseBfdState (nb_State n) && BfdEnable (nc_base (RunningConf n)) &&
  (ns_BfdNeighborState (nb_State n) =? "down")%string.

(** Entering Connect while BFD reports the neighbor down changes the state once
    more, to Active, from where no further change follows. *)
Definition enter_Connect : M unit :=
  w ← world;
  if bfd_down (neighborConf w) then change_state (fun _ => enter_Active) Active
  else AcceptPeerConn;; InitiateConnToPeer.

Definition enter (s : BGPState) : M unit :=
  match s with
  | Idle _ => enter_Idle
  | Connect => enter_Connect
  | Active => enter_Active
  | OpenSent => skip
  | OpenConfirm => skip
  | Established => SetIdleHoldTime BGPIdleHoldTimeDefault
  end.

Definition ChangeState : BGPState -> M unit := change_state enter.

Definition NewIdleState : BGPState := Idle false.

(** ** processEvent, state by state

    Events that a state's switch does not name fall through it. The type
    assertions on [data] panic on data of another type. *)

Definition Idle_processEvent (passive : bool) (event : BGPFSMEvent) (data : EventData) : M unit :=
  match event with
  | BGPEventManualStart | BGPEventAutoStart =>
    SetConnectRetryCounter 0;;
    StartConnectRetryTimer;;
    ChangeState Connect
  | BGPEventManualStartPassTcpEst | BGPEventAutoStartPassTcpEst =>
    SetConnectRetryCounter 0;;
    StartConnectRetryTimer;;
    ChangeState Active
  | BGPEventAutoStartDampPeerOscl | BGPEventAutoStartDampPeerOsclPassTcpEst =>
    f ← self;
    SetIdleHoldTime (IdleHoldTimeInterval (idleHoldTime f));;
    StartIdleHoldTimer;;
    modify (set_State (Some (Idle (bool_decide (event = BGPEventAutoStartDampPeerOsclPassTcpEst)))))
  | BGPEventIdleHoldTimerExp =>
    StartConnectRetryTimer;;
    if passive then ChangeState Active else ChangeState Connect
  | _ => skip
  end.

Definition Connect_processEvent (event : BGPFSMEvent) (data : EventData) : M unit :=
  match event with
  | BGPEventManualStop =>
    StopConnToPeer;;
    SetConnectRetryCounter 0;;
    StopConnectRetryTimer;;
    ChangeState NewIdleState
  | BGPEventConnRetryTimerExp =>
    StopConnToPeer;;
    StartConnectRetryTimer;;
    InitiateConnToPeer
  | BGPEventDelayOpenTimerExp =>
    skip
  | BGPEventTcpConnValid =>
    skip
  | BGPEventTcpCrInvalid =>
    skip
  | BGPEventTcpCrAcked | BGPEventTcpConnConfirmed =>
    StopConnectRetryTimer;;
    SetPeerConn data;;
    sendOpenMessage;;
    SetConfHoldTime;;
    StartHoldTimer;;
    ChangeState OpenSent
  | BGPEventTcpConnFails =>
    StopConnectRetryTimer;;
    StopConnToPeer;;
    ChangeState NewIdleState
  | BGPEventBGPOpenDelayOpenTimer =>
    skip
  | BGPEventHeaderErr | BGPEventOpenMsgErr =>
    StopConnectRetryTimer;;
    StopConnToPeer;;
    IncrConnectRetryCounter;;
    ChangeState NewIdleState
  | BGPEventNotifMsgVerErr =>
    StopConnectRetryTimer;;
    StopConnToPeer;;
    IncrConnectRetryCounter;;
    ChangeState NewIdleState
  | BGPEventAutoStop | BGPEventHoldTimerExp | BGPEventKeepAliveTimerExp
  | BGPEventIdleHoldTimerExp | BGPEventBGPOpen | BGPEventOpenCollisionDump
  | BGPEventNotifMsg | BGPEventKeepAliveMsg | BGPEventUpdateMsg | BGPEventUpdateMsgErr =>
    StopConnectRetryTimer;;
    StopConnToPeer;;
    IncrConnectRetryCounter;;
    ChangeState NewIdleState
  | _ => skip
  end.

Definition Active_processEvent (event : BGPFSMEvent) (data : EventData) : M unit :=
  match event with
  | BGPEventManualStop =>
    StopConnToPeer;;
    SetConnectRetryCounter 0;;
    StopConnectRetryTimer;;
    ChangeState NewIdleState
  | BGPEventConnRetryTimerExp =>
    StartConnectRetryTimer;;
    ChangeState Connect
  | BGPEventDelayOpenTimerExp =>
    skip
  | BGPEventTcpConnValid =>
    skip
  | BGPEventTcpCrInvalid =>
    skip
  | BGPEventTcpCrAcked | BGPEventTcpConnConfirmed =>
    StopConnectRetryTimer;;
    SetPeerConn data;;
    sendOpenMessage;;
    SetConfHoldTime;;
    StartHoldTimer;;
    ChangeState OpenSent
  | BGPEventTcpConnFails =>
    StartConnectRetryTimer;;
    StopConnToPeer;;
    ClearPeerConn;;
    IncrConnectRetryCounter;;
    ChangeState NewIdleState
  | BGPEventBGPOpenDelayOpenTimer =>
    skip
  | BGPEventHeaderErr | BGPEventOpenMsgErr =>
    StopConnectRetryTimer;;
    ClearPeerConn;;
    StopConnToPeer;;
    IncrConnectRetryCounter;;
    ChangeState NewIdleState
  | BGPEventNotifMsgVerErr =>
    StopConnectRetryTimer;;
    ClearPeerConn;;
    StopConnToPeer;;
    IncrConnectRetryCounter;;
    ChangeState NewIdleState
  | BGPEventAutoStop | BGPEventHoldTimerExp | BGPEventKeepAliveTimerExp
  | BGPEventIdleHoldTimerExp | BGPEventBGPOpen | BGPEventOpenCollisionDump
  | BGPEventNotifMsg | BGPEventKeepAliveMsg | BGPEventUpdateMsg | BGPEventUpdateMsgErr =>
    StopConnectRetryTimer;;
    ClearPeerConn;;
    StopConnToPeer;;
    IncrConnectRetryCounter;;
    ChangeState NewIdleState
  | _ => skip
  end.

Definition OpenSent_processEvent (event : BGPFSMEvent) (data : EventData) : M unit :=
  match event with
  | BGPEventManualStop =>
    SendNotificationMessage BGPCease 0 [];;
    StopConnectRetryTimer;;
    ClearPeerConn;;
    StopConnToPeer;;
    SetConnectRetryCounter 0;;
    ChangeState NewIdleState
  | BGPEventAutoStop =>
    SendNotificationMessage BGPCease 0 [];;
    StopConnectRetryTimer;;
    ClearPeerConn;;
    StopConnToPeer;;
    IncrConnectRetryCounter;;
    ChangeState NewIdleState
  | BGPEventHoldTimerExp =>
    SendNotificationMessage BGPHoldTimerExpired 0 [];;
    StopConnectRetryTimer;;
    ClearPeerConn;;
    StopConnToPeer;;
    IncrConnectRetryCounter;;
    ChangeState NewIdleState
  | BGPEventTcpConnValid =>
    skip
  | BGPEventTcpCrAcked | BGPEventTcpConnConfirmed =>
    HandleAnotherConnection data
  | BGPEventTcpConnFails =>
    ClearPeerConn;;
    StopConnToPeer;;
    StartConnectRetryTimer;;
    ChangeState Active
  | BGPEventBGPOpen =>
    StopConnectRetryTimer;;
    match data with
    | DataMsg bgpMsg =>
      opened ← ProcessOpenMessage bgpMsg;
      if (opened : bool) then
        sendKeepAliveMessage;;
        StartHoldTimer;;
        ChangeState OpenConfirm
      else skip
    | _ => panic
    end
  | BGPEventHeaderErr | BGPEventOpenMsgErr =>
    match data with
    | DataErr t s d =>
      SendNotificationMessage t s d;;
      StopConnectRetryTimer;;
      ClearPeerConn;;
      StopConnToPeer;;
      IncrConnectRetryCounter;;
      ChangeState NewIdleState
    | _ => panic
    end
  | BGPEventOpenCollisionDump =>
    SendNotificationMessage BGPCease 0 [];;
    StopConnectRetryTimer;;
    ClearPeerConn;;
    StopConnToPeer;;
    IncrConnectRetryCounter;;
    ChangeState NewIdleState
  | BGPEventNotifMsgVerErr =>
    StopConnectRetryTimer;;
    ClearPeerConn;;
    StopConnToPeer;;
    ChangeState NewIdleState
  | BGPEventConnRetryTimerExp | BGPEventKeepAliveTimerExp | BGPEventDelayOpenTimerExp
  | BGPEventIdleHoldTimerExp | BGPEventBGPOpenDelayOpenTimer | BGPEventNotifMsg
  | BGPEventKeepAliveMsg | BGPEventUpdateMsg | BGPEventUpdateMsgErr =>
    SendNotificationMessage BGPFSMError 0 [];;
    StopConnectRetryTimer;;
    ClearPeerConn;;
    StopConnToPeer;;
    IncrConnectRetryCounter;;
    ChangeState NewIdleState
  | _ => skip
  end.

Definition OpenConfirm_processEvent (event : BGPFSMEvent) (data : EventData) : M unit :=
  match event with
  | BGPEventManualStop =>
    SendNotificationMessage BGPCease 0 [];;
    ClearPeerConn;;
    StopConnToPeer;;
    StopConnectRetryTimer;;
    SetConnectRetryCounter 0;;
    ChangeState NewIdleState
  | BGPEventAutoStop =>
    SendNotificationMessage BGPCease 0 [];;
    StopConnectRetryTimer;;
    ClearPeerConn;;
    StopConnToPeer;;
    IncrConnectRetryCounter;;
    ChangeState NewIdleState
  | BGPEventHoldTimerExp =>
    SendNotificationMessage BGPHoldTimerExpired 0 [];;
    StopConnectRetryTimer;;
    ClearPeerConn;;
    StopConnToPeer;;
    IncrConnectRetryCounter;;
    ChangeState NewIdleState
  | BGPEventKeepAliveTimerExp =>
    sendKeepAliveMessage
  | BGPEventTcpConnValid =>
    skip
  | BGPEventTcpCrAcked | BGPEventTcpConnConfirmed =>
    HandleAnotherConnection data
  | BGPEventTcpConnFails | BGPEventNotifMsg =>
    StopConnectRetryTimer;;
    ClearPeerConn;;
    StopConnToPeer;;
    IncrConnectRetryCounter;;
    ChangeState NewIdleState
  | BGPEventBGPOpen =>
    skip
  | BGPEventHeaderErr | BGPEventOpenMsgErr =>
    match data with
    | DataErr t s d =>
      SendNotificationMessage t s d;;
      StopConnectRetryTimer;;
      ClearPeerConn;;
      StopConnToPeer;;
      IncrConnectRetryCounter;;
      ChangeState NewIdleState
    | _ => panic
    end
  | BGPEventOpenCollisionDump =>
    SendNotificationMessage BGPCease 0 [];;
    StopConnectRetryTimer;;
    ClearPeerConn;;
    StopConnToPeer;;
    IncrConnectRetryCounter;;
    ChangeState NewIdleState
  | BGPEventNotifMsgVerErr =>
    StopConnectRetryTimer;;
    ClearPeerConn;;
    StopConnToPeer;;
    ChangeState NewIdleState
  | BGPEventKeepAliveMsg =>
    StartHoldTimer;;
    ChangeState Established
  | BGPEventConnRetryTimerExp | BGPEventDelayOpenTimerExp | BGPEventIdleHoldTimerExp
  | BGPEventBGPOpenDelayOpenTimer | BGPEventUpdateMsg | BGPEventUpdateMsgErr =>
    SendNotificationMessage BGPCease 0 [];;
    StopConnectRetryTimer;;
    ClearPeerConn;;
    StopConnToPeer;;
    IncrConnectRetryCounter;;
    ChangeState NewIdleState
  | _ => skip
  end.

Definition Established_processEvent (event : BGPFSMEvent) (data : EventData) : M unit :=
  match event with
  | BGPEventManualStop =>
    SendNotificationMessage BGPCease 0 [];;
    StopConnectRetryTimer;;
    ClearPeerConn;;
    StopConnToPeer;;
    SetConnectRetryCounter 0;;
    ChangeState NewIdleState
  | BGPEventAutoStop =>
    SendNotificationMessage BGPCease 0 [];;
    StopConnectRetryTimer;;
    ClearPeerConn;;
    StopConnToPeer;;
    IncrConnectRetryCounter;;
    ChangeState NewIdleState
  | BGPEventHoldTimerExp =>
    SendNotificationMessage BGPHoldTimerExpired 0 [];;
    StopConnectRetryTimer;;
    ClearPeerConn;;
    StopConnToPeer;;
    IncrConnectRetryCounter;;
    ChangeState NewIdleState
  | BGPEventKeepAliveTimerExp =>
    sendKeepAliveMessage
  | BGPEventTcpConnValid =>
    skip
  | BGPEventTcpCrAcked | BGPEventTcpConnConfirmed =>
    HandleAnotherConnection data
  | BGPEventTcpConnFails | BGPEventNotifMsgVerErr | BGPEventNotifMsg =>
    StopConnectRetryTimer;;
    ClearPeerConn;;
    StopConnToPeer;;
    IncrConnectRetryCounter;;
    ChangeState NewIdleState
  | BGPEventBGPOpen =>
    skip
  | BGPEventOpenCollisionDump =>
    SendNotificationMessage BGPCease 0 [];;
    StopConnectRetryTimer;;
    ClearPeerConn;;
    StopConnToPeer;;
    IncrConnectRetryCounter;;
    ChangeState NewIdleState
  | BGPEventKeepAliveMsg =>
    StartHoldTimer
  | BGPEventUpdateMsg =>
    StartHoldTimer;;
    match data with
    | DataMsg bgpMsg =>
      ProcessUpdateMessage bgpMsg
    | _ => panic
    end
  | BGPEventUpdateMsgErr =>
    match data with
    | DataErr t s d =>
      SendNotificationMessage t s d;;
      StopConnectRetryTimer;;
      ClearPeerConn;;
      StopConnToPeer;;
      IncrConnectRetryCounter;;
      ChangeState NewIdleState
    | _ => panic
    end
  | BGPEventConnRetryTimerExp | BGPEventDelayOpenTimerExp | BGPEventIdleHoldTimerExp
  | BGPEventOpenMsgErr | BGPEventBGPOpenDelayOpenTimer | BGPEventHeaderErr =>
    SendNotificationMessage BGPFSMError 0 [];;
    StopConnectRetryTimer;;
    ClearPeerConn;;
    StopConnToPeer;;
    IncrConnectRetryCounter;;
    ChangeState NewIdleState
  | _ => skip
  end.

Definition processEvent (s : BGPState) (event : BGPFSMEvent) (data : EventData) : M unit :=
  match s with
  | Idle passive => Idle_processEvent passive event data
  | Connect => Connect_processEvent event data
  | Active => Active_processEvent event data
  | OpenSent => OpenSent_processEvent event data
  | OpenConfirm => OpenConfirm_processEvent event data
  | Established => Established_processEvent event data
  end.

Definition ProcessEvent (event : BGPFSMEvent) (data : EventData) : M unit :=
  modify (set_event event);;
  s ← current_state;
  processEvent s event data.

(** ** Packets *)

Definition packet_event (msg : option BGPMessage) (msgErr : option goerr)
  : res (BGPFSMEvent * EventData * bool) :=
  match msgErr with
  | Some (BGPMessageError t s d) =>
    Ok (if t =? BGPMsgHeaderError then BGPEventHeaderErr
        else if t =? BGPOpenMsgError then BGPEventOpenMsgErr
        else if t =? BGPUpdateMsgError then BGPEventUpdateMsgErr
        else BGPEventNone, DataErr t s d, false)
  | Some (ErrText _) => Panic
  | None =>
    msg ← of_option msg;
    let t := hdr_Type (Header msg) in
    if t =? BGPMsgTypeOpen then Ok (BGPEventBGPOpen, DataMsg msg, false)
    else if t =? BGPMsgTypeUpdate then Ok (BGPEventUpdateMsg, DataMsg msg, false)
    else if t =? BGPMsgTypeNotification then
      match Body msg with
      | Some (BodyNotification _) => Ok (BGPEventNotifMsg, DataMsg msg, true)
      | _ => Panic
      end
    else if t =? BGPMsgTypeKeepAlive then Ok (BGPEventKeepAliveMsg, DataMsg msg, false)
    else Ok (BGPEventNone, DataMsg msg, false)
  end.

(** The flag tells whether a NOTIFICATION is counted. *)
Definition ProcessPacket (msg : option BGPMessage) (msgErr : option goerr) : M unit :=
  r ← lift (packet_event msg msgErr);
  let '(event, data, counted) := r in
  (if (counted : bool)
   then modify_world (fun w => set_neighborConf (incr_Received_Notification (neighborConf w)) w)
   else skip);;
  ProcessEvent event data.

(** ** The cases of the select of StartFSM *)

Inductive Input :=
| InOutConn (conn : Z)
| InOutConnErr (errId : Z)
| InInConn (conn : Z)
| InClose
| InPassive (val : bool)
| InPkt (msg : option BGPMessage) (msgErr : option goerr)
| InEvent (event : BGPFSMEvent) (reason : Z)
| InBfd (status : bool)
| InConnectRetryTimer
| InHoldTimer
| InKeepAliveTimer
| InIdleHoldTimer
| InRestartTimer.

Definition BGPCmdReasonNone : Z := 0.
Definition BGPCmdReasonMaxPrefixExceeded : Z := 1.

Definition sendAutoStartEvent : M unit :=
  f ← self;
  ProcessEvent
    (if passiveTcpEst f then
       if dampPeerOscl f then BGPEventAutoStartDampPeerOsclPassTcpEst else BGPEventAutoStartPassTcpEst
     else if dampPeerOscl f then BGPEventAutoStartDampPeerOscl
     else BGPEventAutoStart) DataNil.

Definition select_case (i : Input) : M unit :=
  match i with
  | InOutConn conn =>
    f ← self;
    if negb (outTCPConn f) then emit (OutCloseConn conn)
    else
      StopConnToPeer;;
      modify (set_outTCPConn false);;
      ProcessEvent BGPEventTcpCrAcked (DataConn ConnDirOut conn)
  | InOutConnErr errId =>
    StopConnToPeer;;
    f ← self;
    if negb (errId =? 0) && negb (errId =? connId f) then skip
    else
      modify (set_outTCPConn false);;
      ProcessEvent BGPEventTcpConnFails (DataConnErr errId);;
      f ← self;
      if negb (close f) then emit (OutTcpConnFailCh (id f)) else skip
  | InInConn conn => ProcessEvent BGPEventTcpConnConfirmed (DataConn ConnDirIn conn)
  | InClose =>
    modify (set_close true);;
    ProcessEvent BGPEventManualStop DataNil
  | InPassive val => SetPassiveTcpEstablishment val
  | InPkt msg msgErr => ProcessPacket msg msgErr
  | InEvent event reason =>
    (if reason =? BGPCmdReasonMaxPrefixExceeded then
       w ← world;
       modify (set_restartTime (MaxPrefixesRestartTimer (nc_base (RunningConf (neighborConf w)))))
     else skip);;
    ProcessEvent event DataNil;;
    modify (set_restartTime BGPRestartTimeDefault);;
    ProcessEvent BGPEventAutoStart DataNil
  | InBfd status =>
    s ← current_state;
    (if negb status then ProcessEvent BGPEventAutoStop DataNil
     else if state_of s <? state_of OpenSent then ProcessEvent BGPEventAutoStop DataNil
     else skip);;
    ProcessEvent BGPEventAutoStart DataNil
  | InConnectRetryTimer => ProcessEvent BGPEventConnRetryTimerExp DataNil
  | InHoldTimer => ProcessEvent BGPEventHoldTimerExp DataNil
  | InKeepAliveTimer => ProcessEvent BGPEventKeepAliveTimerExp DataNil
  | InIdleHoldTimer => ProcessEvent BGPEventIdleHoldTimerExp DataNil
  | InRestartTimer => sendAutoStartEvent
  end.

(** What StartFSM does before its loop. *)
Definition start : M unit :=
  f ← self;
  (if bool_decide (State f = None) then modify (set_State (Some NewIdleState)) else skip);;
  s ← current_state;
  enter s;;
  ProcessEvent BGPEventAutoStart DataNil.

Definition NewFSM (a : nat) (i : Z) (n : NeighborConf) : FSM :=
  let c := nc_base (RunningConf n) in
  mkFSM a i None PeerTypeInternal None false 0 BGPEventNone 0 (ConnectRetryTime c) None
    (cfg_HoldTime c) None (KeepaliveTime c) None BGPRestartTimeDefault None false false
    BGPIdleHoldTimeDefault None ∅ false.

(** Run a goroutine's step on the machine at [a]. *)
Definition run (a : nat) (m : M unit) (w : World) : res World :=
  match objs w !! a with
  | None => Panic
  | Some f => '(_, (f', w')) ← m (f, w); Ok (set_objs (<[a := f']> (objs w')) w')
  end.

(** ** The manager *)

Definition fresh_addr (w : World) : nat := fresh (dom (objs w)).

Definition push (o : Output) (w : World) : World := set_trace (trace w ++ [o]) w.

(** Make a machine in state [s], enter it in the map, and start it: the goroutine's
    part before its loop is run at once. *)
Definition launch (i : Z) (s : BGPState) (w : World) : res (nat * World) :=
  let a := fresh_addr w in
  let f := set_State (Some s) (NewFSM a i (neighborConf w)) in
  let w := set_fsms (<[i := a]> (fsms w)) (set_objs (<[a := f]> (objs w)) w) in
  w ← run a start w;
  Ok (a, push (OutPassiveTcpEstCh a true) w).

(** FSMManager.Init before its loop. *)
Definition mgr_Init (w : World) : res World :=
  '(_, w) ← launch ConnDirOut NewIdleState w; Ok w.

Definition getNewId (i : Z) : Z := u8 (i + 1) mod 2.

(** createFSMForNewConnection and handleAnotherConnection. *)
Definition handleAnotherConnection (i dir conn : Z) (w : World) : res World :=
  match fsms w !! i with
  | Some _ => Ok w
  | None =>
    if dir =? ConnDirOut then
      '(a, w) ← launch i Connect w; Ok (push (OutOutConnCh a conn) w)
    else
      '(a, w) ← launch i Active w; Ok (push (OutInConnCh a conn) w)
  end.

(** The manager's own calls of fsmBroken and fsmClose, which involve no running
    machine. *)
Definition mgr_fsmBroken (i : Z) (w : World) : World :=
  if activeFSM w =? i then push (OutFsmConnCh false None) (set_activeFSM ConnDirInvalid w) else w.

Definition mgr_fsmClose (i : Z) (w : World) : World :=
  match fsms w !! i with
  | Some r =>
    let w := mgr_fsmBroken i (push (OutCloseCh r) w) in
    set_fsms (delete i (fsms w)) w
  | None => w
  end.

Definition mgr_fsmStateChange (i state : Z) (w : World) : World :=
  if (activeFSM w =? i) || (activeFSM w =? ConnDirInvalid)
  then set_neighborConf (NC_FSMStateChange state (neighborConf w)) w else w.

Definition fsmTcpConnFailed (i : Z) (w : World) : World :=
  if negb (Z.of_nat (size (fsms w)) =? 1) && negb (activeFSM w =? i) then mgr_fsmClose i w else w.

Definition Cleanup (w : World) : World :=
  foldl (fun w '(i, r) =>
    let w := mgr_fsmBroken i (push (OutCloseCh r) w) in
    let w := mgr_fsmStateChange i (state_of NewIdleState) w in
    set_fsms (delete i (fsms w)) w) w (map_to_list (fsms w)).

Definition StopFSM (w : World) : World :=
  foldl (fun w '(i, r) =>
    mgr_fsmBroken i (push (OutEventRxCh r BGPEventTcpConnFails BGPCmdReasonNone) w))
    w (map_to_list (fsms w)).

Definition broadcast (o : nat -> Output) (w : World) : World :=
  foldl (fun w '(_, r) => push (o r) w) w (map_to_list (fsms w)).

Definition is_command (event : BGPFSMEvent) : bool :=
  match event with
  | BGPEventManualStart | BGPEventManualStop | BGPEventAutoStop | BGPEventManualStartPassTcpEst => true
  | _ => false
  end.

Inductive MgrInput :=
| MgrAccept (conn : Z)
| MgrTcpConnFail (i : Z)
| MgrNewConn (i dir conn : Z)
| MgrStopFSM
| MgrClose
| MgrCommand (event : BGPFSMEvent) (reason : Z)
| MgrBfdStatus (status : bool).

(** A connection goes to the first machine of the map, unless one of them has an
    incoming connection already. *)
Definition mgr_Accept (conn : Z) (w : World) : World :=
  if negb (acceptConn w) then push (OutCloseConn conn) w
  else
    let machines := omap (fun '(_, r) => objs w !! r) (map_to_list (fsms w)) in
    if existsb (fun f => has_dir f ConnDirIn) machines then push (OutCloseConn conn) w
    else match map_to_list (fsms w) with
         | [] => w
         | (_, r) :: _ => push (OutInConnCh r conn) w
         end.

Definition mgr_case (i : MgrInput) (w : World) : res World :=
  match i with
  | MgrAccept conn => Ok (mgr_Accept conn w)
  | MgrTcpConnFail i => Ok (fsmTcpConnFailed i w)
  | MgrNewConn i dir conn => handleAnotherConnection (getNewId i) dir conn w
  | MgrStopFSM => Ok (StopFSM w)
  | MgrClose => Ok (Cleanup w)
  | MgrCommand event reason =>
    Ok (if is_command event then broadcast (fun r => OutEventRxCh r event reason) w else w)
  | MgrBfdStatus status => Ok (broadcast (fun r => OutBfdStatusCh r status) w)
  end.

(** ** The system *)

Inductive Action :=
| ActMachine (a : nat) (i : Input)
| ActManager (i : MgrInput)
| ActConf (n : NeighborConf).

Definition act (x : Action) (w : World) : res World :=
  match x with
  | ActMachine a i => run a (select_case i) w
  | ActManager i => mgr_case i w
  | ActConf n => Ok (set_neighborConf n w)
  end.

(** NewFSMManager. *)
Definition NewFSMManager (n : NeighborConf) : World :=
  mkWorld n ∅ false ConnDirInvalid ∅ [] 0.

End Machine.
