(* ===== verification/BgpFsmSafety.v ===== *)
(** * What the session state machine promises

    Every case of the select of src/bgp/fsm/fsm.go runs without a panic from every
    reachable state, and moves the machine as an abstract transition table says. *)

From S2P Require Import Prelude.
From S2P Require Import BgpOpen.
From S2P Require Import BgpNlri.
From S2P Require Import BgpAsPath.
From S2P Require Import BgpAttr.
From S2P Require Import BgpUpdate.
From S2P Require Import BgpHelpers.
From S2P Require Import BgpNormalize.
From S2P Require Import BgpNeighbor.
From S2P Require Import BgpFsm.

(** ** The abstract machine *)

(** Whether a state has a connection to the peer. *)
Definition needs_conn (s : BGPState) : bool :=
  match s with OpenSent | OpenConfirm | Established => true | _ => false end.

(** Where a start leads while BFD reports the neighbor down ([b]). *)
Definition start_state (b : bool) : BGPState := if b then Active else Connect.

(** The transition table. [opened] tells whether an OPEN was accepted. *)
Definition next (b opened : bool) (s : BGPState) (e : BGPFSMEvent) : BGPState :=
  match s with
  | Idle passive =>
    match e with
    | BGPEventManualStart | BGPEventAutoStart => start_state b
    | BGPEventManualStartPassTcpEst | BGPEventAutoStartPassTcpEst => Active
    | BGPEventAutoStartDampPeerOscl => Idle false
    | BGPEventAutoStartDampPeerOsclPassTcpEst => Idle true
    | BGPEventIdleHoldTimerExp => if passive then Active else start_state b
    | _ => s
    end
  | _ =>
    match e with
    | BGPEventNone | BGPEventManualStart | BGPEventAutoStart | BGPEventManualStartPassTcpEst
    | BGPEventAutoStartPassTcpEst | BGPEventAutoStartDampPeerOscl
    | BGPEventAutoStartDampPeerOsclPassTcpEst | BGPEventTcpConnValid | BGPEventTcpCrInvalid => s
    | BGPEventManualStop => Idle false
    | _ =>
      match s, e with
      | Connect, (BGPEventTcpCrAcked | BGPEventTcpConnConfirmed) => OpenSent
      | Connect, (BGPEventConnRetryTimerExp | BGPEventDelayOpenTimerExp
                  | BGPEventBGPOpenDelayOpenTimer) => Connect
      | Active, (BGPEventTcpCrAcked | BGPEventTcpConnConfirmed) => OpenSent
      | Active, BGPEventConnRetryTimerExp => start_state b
      | Active, (BGPEventDelayOpenTimerExp | BGPEventBGPOpenDelayOpenTimer) => Active
      | OpenSent, BGPEventBGPOpen => if opened then OpenConfirm else OpenSent
      | OpenSent, BGPEventTcpConnFails => Active
      | OpenConfirm, BGPEventKeepAliveMsg => Established
      | OpenConfirm, (BGPEventKeepAliveTimerExp | BGPEventBGPOpen) => OpenConfirm
      | Established, (BGPEventKeepAliveTimerExp | BGPEventKeepAliveMsg | BGPEventUpdateMsg
                      | BGPEventBGPOpen) => Established
      | (OpenSent | OpenConfirm | Established), (BGPEventTcpCrAcked | BGPEventTcpConnConfirmed) => s
      | _, _ => Idle false
      end
    end
  end.

(** ** The invariant *)

(** The configuration the machine is promised. The timer bounds keep the product
    with 1000 within a uint32. *)
Definition conf_small (n : NeighborConf) : Prop :=
  let c := nc_base (RunningConf n) in
  0 < ConnectRetryTime c <= 4294967 /\ 3 <= cfg_HoldTime c < 4294967296 /\
  0 < KeepaliveTime c <= 4294967 /\ is_u32 (LocalAS c) /\
  len (To4 (g_RouterId (Global n))) = 4 /\ is_bytes (To4 (g_RouterId (Global n))) /\
  len (elements (AfiSafiMap n)) <= 22.

Definition fsm_base (f : FSM) : Prop :=
  0 < connectRetryTime f <= 4294967 /\ (holdTime f = 0 \/ 3 <= holdTime f) /\
  0 <= holdTime f < 4294967296 /\ 0 <= keepAliveTime f <= 4294967.

Definition has_conn (f : FSM) : bool := match peerConn f with Some _ => true | None => false end.

(** A machine between two steps. Once it was told to close it takes no step, and
    its state may be left behind. *)
Definition fsm_ok (a : nat) (f : FSM) : Prop :=
  addr f = a /\ fsm_base f /\
  exists s, State f = Some s /\ (close f = false -> has_conn f = needs_conn s).

Definition mgr_ok (w : World) : Prop :=
  conf_small (neighborConf w) /\
  (forall i a, fsms w !! i = Some a -> is_Some (objs w !! a)) /\
  (forall a f, objs w !! a = Some f -> is_Some (State f)) /\
  (activeFSM w = ConnDirInvalid \/ is_Some (fsms w !! activeFSM w)).

Definition world_ok (w : World) : Prop :=
  mgr_ok w /\ forall a f, objs w !! a = Some f -> fsm_ok a f.

(** The running machine within a step: [a] is its address, [b] whether BFD is
    down, [cl] whether it is closing, [c] whether it has a connection. *)
Record during (a : nat) (b cl c : bool) (s : BGPState) (f : FSM) (w : World) : Prop := {
  during_addr : addr f = a;
  during_base : fsm_base f;
  during_State : State f = Some s;
  during_conn : has_conn f = c;
  during_close : close f = cl;
  during_bfd : bfd_down (neighborConf w) = b;
  during_mgr : mgr_ok w;
  during_self : is_Some (objs w !! a);
  during_others : forall a' f', objs w !! a' = Some f' -> a' <> a -> fsm_ok a' f';
}.

(** ** Triples *)

Definition triple {A} (P : FSM -> World -> Prop) (m : M A) (Q : A -> FSM -> World -> Prop) : Prop :=
  forall f w, P f w -> exists x f' w', m (f, w) = Ok (x, (f', w')) /\ Q x f' w'.

Lemma triple_bind {A B} P (m : M A) R (k : A -> M B) Q :
  triple P m R -> (forall x, triple (R x) (k x) Q) -> triple P (m ≫= k) Q.
Proof.
  intros Hm Hk f w H. destruct (Hm f w H) as (x & f' & w' & Em & HR).
  destruct (Hk x f' w' HR) as (y & f'' & w'' & Ek & HQ). exists y, f'', w''. split; [|done].
  unfold mbind, M_bind. by rewrite Em.
Qed.

Lemma triple_self {A} (P : FSM -> World -> Prop) (k : FSM -> M A) Q :
  (forall f w, P f w -> exists x f' w', k f (f, w) = Ok (x, (f', w')) /\ Q x f' w') ->
  triple P (self ≫= k) Q.
Proof. intros H f w HP. exact (H f w HP). Qed.

Lemma triple_world {A} (P : FSM -> World -> Prop) (k : World -> M A) Q :
  (forall f w, P f w -> exists x f' w', k w (f, w) = Ok (x, (f', w')) /\ Q x f' w') ->
  triple P (world ≫= k) Q.
Proof. intros H f w HP. exact (H f w HP). Qed.

Lemma triple_skip P : triple P skip (fun _ => P).
Proof. intros f w H. by exists tt, f, w. Qed.

Lemma triple_mono {A} P (m : M A) Q Q' :
  triple P m Q -> (forall x f w, Q x f w -> Q' x f w) -> triple P m Q'.
Proof. intros H HQ f w HP. destruct (H f w HP) as (x & f' & w' & E & HQx). eauto 10. Qed.

Lemma triple_modify P (g : FSM -> FSM) (Q : unit -> FSM -> World -> Prop) :
  (forall f w, P f w -> Q tt (g f) w) -> triple P (modify g) Q.
Proof. intros H f w HP. exists tt, (g f), w. split; [done|]. by apply H. Qed.

Lemma triple_modify_world P (g : World -> World) (Q : unit -> FSM -> World -> Prop) :
  (forall f w, P f w -> Q tt f (g w)) -> triple P (modify_world g) Q.
Proof. intros H f w HP. exists tt, f, (g w). split; [done|]. by apply H. Qed.

(** A step that keeps everything [during] speaks of. *)
Definition neutral (m : M unit) : Prop :=
  forall a b cl c s, triple (during a b cl c s) m (fun _ => during a b cl c s).

(** The same, where the machine must have a connection. *)
Definition neutral_conn (m : M unit) : Prop :=
  forall a b cl s, triple (during a b cl true s) m (fun _ => during a b cl true s).

Lemma neutral_bind m k : neutral m -> neutral k -> neutral (m;; k).
Proof. intros Hm Hk a b cl c s. eapply triple_bind; [apply Hm|]. intros ?. apply Hk. Qed.

Lemma neutral_skip : neutral skip.
Proof. intros a b cl c s. apply triple_skip. Qed.

Lemma neutral_modify g :
  (forall f, addr (g f) = addr f /\ (fsm_base f -> fsm_base (g f)) /\ State (g f) = State f /\
     peerConn (g f) = peerConn f /\ close (g f) = close f) ->
  neutral (modify g).
Proof.
  intros H a b cl c s. apply triple_modify. intros f w [].
  destruct (H f) as (H1 & H2 & H3 & H4 & H5). constructor; try congruence; auto.
  unfold has_conn in *. by rewrite H4.
Qed.

Lemma neutral_modify_world g :
  (forall w, neighborConf (g w) = neighborConf w /\ fsms (g w) = fsms w /\ objs (g w) = objs w /\
     activeFSM (g w) = activeFSM w) ->
  neutral (modify_world g).
Proof.
  intros H a b cl c s. apply triple_modify_world. intros f w [].
  destruct (H w) as (H1 & H2 & H3 & H4). constructor; rewrite ?H1, ?H3; try done.
  unfold mgr_ok. by rewrite H1, H2, H3, H4.
Qed.

Lemma neutral_neighborConf g :
  (forall n, conf_small n -> conf_small (g n)) -> (forall n, bfd_down (g n) = bfd_down n) ->
  neutral (modify_world (fun w => set_neighborConf (g (neighborConf w)) w)).
Proof.
  intros H1 H2 a b cl c s. apply triple_modify_world. intros f w []. constructor; try done.
  - cbn. by rewrite H2.
  - destruct during_mgr0 as (?&?&?&?). split_and!; try done. by apply H1.
Qed.

Create HintDb fsm.
#[export] Hint Resolve neutral_bind neutral_skip : fsm.

(** Assignments of fields the invariant does not mention. *)
Ltac neutral_field :=
  apply neutral_modify; intros []; cbn; split_and!; done.

Lemma during_world_eq a b cl c s f w w' :
  during a b cl c s f w -> neighborConf w' = neighborConf w -> fsms w' = fsms w ->
  objs w' = objs w -> activeFSM w' = activeFSM w -> during a b cl c s f w'.
Proof.
  intros [] H1 H2 H3 H4. constructor; rewrite ?H1, ?H3; try done.
  unfold mgr_ok. by rewrite H1, H2, H3, H4.
Qed.

Lemma during_fsm_eq a b cl c s f f' w :
  during a b cl c s f w -> addr f' = addr f -> fsm_base f' -> State f' = State f ->
  peerConn f' = peerConn f -> close f' = close f -> during a b cl c s f' w.
Proof.
  intros [] H1 H2 H3 H4 H5. constructor; try done; try congruence. unfold has_conn in *. by rewrite H4.
Qed.

Section Machine.
Context (env : Env).

(** ** Timers and counters *)

Lemma quarter_ms_pos t : 0 < t <= 4294967 -> 0 < u32 (t * 1000) / 4.
Proof. intros H. unfold u32. rewrite Z.mod_small by lia. apply Z.div_str_pos. lia. Qed.

(** A draw from a positive range keeps everything but the count of draws. *)
Lemma draw_Int63n_ok n f w :
  0 < n -> draw_Int63n env n (f, w) = Ok (Int63n env (ticks w) n, (f, set_ticks (S (ticks w)) w)).
Proof. intros H. unfold draw_Int63n. by rewrite (proj2 (Z.leb_gt n 0)) by lia. Qed.

Lemma StartConnectRetryTimer_neutral : neutral (StartConnectRetryTimer env).
Proof.
  intros a b cl c s f w H. pose proof (during_base _ _ _ _ _ _ _ H) as Hb. pose proof Hb as (Hc & _).
  do 3 eexists. split.
  { unfold StartConnectRetryTimer, StopConnectRetryTimer, modify, self, mbind, M_bind.
    cbn [fst snd set_connectRetryTimer connectRetryTime]. rewrite draw_Int63n_ok; [done|].
    by apply quarter_ms_pos. }
  eapply during_fsm_eq; [by eapply during_world_eq|done|exact Hb|done..].
Qed.

Lemma StartKeepAliveTimer_neutral : neutral (StartKeepAliveTimer env).
Proof.
  intros a b cl c s f w H. pose proof (during_base _ _ _ _ _ _ _ H) as Hb. pose proof Hb as (_ & _ & _ & Hk).
  unfold StartKeepAliveTimer, StopKeepAliveTimer, modify, self, mbind, M_bind.
  cbn [fst snd set_keepAliveTimer keepAliveTime].
  destruct (keepAliveTime f =? 0) eqn:E; cbn [negb]; do 3 eexists; split.
  - done.
  - eapply during_fsm_eq; [done|done|exact Hb|done..].
  - rewrite draw_Int63n_ok; [done|]. apply Z.eqb_neq in E. apply quarter_ms_pos. lia.
  - eapply during_fsm_eq; [by eapply during_world_eq|done|exact Hb|done..].
Qed.

Lemma StartRestartTimer_neutral : neutral StartRestartTimer.
Proof.
  intros a b cl c s f w H. do 3 eexists. split; [done|].
  destruct (during_base _ _ _ _ _ _ _ H). by eapply during_fsm_eq.
Qed.

Lemma StartHoldTimer_neutral : neutral StartHoldTimer.
Proof.
  intros a b cl c s f w H. pose proof (during_base _ _ _ _ _ _ _ H).
  unfold StartHoldTimer, StopHoldTimer, modify, self, mbind, M_bind.
  cbn [fst snd set_holdTimer holdTime].
  destruct (holdTime f =? 0); cbn [negb]; do 3 eexists; (split; [done|]); by eapply during_fsm_eq.
Qed.

Lemma StartIdleHoldTimer_neutral : neutral StartIdleHoldTimer.
Proof.
  intros a b cl c s f w H. pose proof (during_base _ _ _ _ _ _ _ H).
  unfold StartIdleHoldTimer, StopIdleHoldTimer, modify, self, mbind, M_bind.
  cbn [fst snd set_idleHoldTimer idleHoldTime].
  destruct (_ && _); do 3 eexists; (split; [done|]); by eapply during_fsm_eq.
Qed.

Lemma SetHoldTime_neutral h k :
  0 <= h < 4294967296 -> 0 <= k <= 4294967 -> neutral (SetHoldTime h k).
Proof.
  intros Hh Hk. unfold SetHoldTime. destruct ((h <? 0) || _) eqn:E; [apply neutral_skip|].
  apply orb_false_iff in E as [_ E].
  assert (h = 0 \/ 3 <= h) by (apply andb_false_iff in E as [E|E]; apply Z.ltb_ge in E; lia).
  intros a b cl c s f w H0. pose proof (during_base _ _ _ _ _ _ _ H0) as (?&?&?&?).
  do 3 eexists. split; [done|]. by eapply during_fsm_eq.
Qed.

Lemma SetConfHoldTime_neutral : neutral SetConfHoldTime.
Proof.
  intros a b cl c s. apply triple_world. intros f w H.
  pose proof (during_mgr _ _ _ _ _ _ _ H) as ((_ & Hh & Hk & _) & _).
  apply SetHoldTime_neutral; [lia|lia|done].
Qed.

Lemma StopConnectRetryTimer_neutral : neutral StopConnectRetryTimer.
Proof. neutral_field. Qed.
Lemma StopHoldTimer_neutral : neutral StopHoldTimer.
Proof. neutral_field. Qed.
Lemma StopKeepAliveTimer_neutral : neutral StopKeepAliveTimer.
Proof. neutral_field. Qed.
Lemma StopIdleHoldTimer_neutral : neutral StopIdleHoldTimer.
Proof. neutral_field. Qed.
Lemma SetConnectRetryCounter_neutral n : neutral (SetConnectRetryCounter n).
Proof. neutral_field. Qed.
Lemma IncrConnectRetryCounter_neutral : neutral IncrConnectRetryCounter.
Proof. neutral_field. Qed.
Lemma SetIdleHoldTime_neutral n : neutral (SetIdleHoldTime n).
Proof. neutral_field. Qed.
Lemma set_restartTime_neutral n : neutral (modify (set_restartTime n)).
Proof. neutral_field. Qed.
Lemma set_event_neutral e : neutral (modify (set_event e)).
Proof. neutral_field. Qed.
Lemma set_outTCPConn_neutral v : neutral (modify (set_outTCPConn v)).
Proof. neutral_field. Qed.
Lemma SetPassive_neutral v : neutral (SetPassiveTcpEstablishment v).
Proof. neutral_field. Qed.
Lemma emit_neutral o : neutral (emit o).
Proof. by apply neutral_modify_world. Qed.
Lemma AcceptPeerConn_neutral : neutral AcceptPeerConn.
Proof. by apply neutral_modify_world. Qed.
Lemma RejectPeerConn_neutral : neutral RejectPeerConn.
Proof. by apply neutral_modify_world. Qed.

(** ** The connection *)

Lemma StopConnToPeer_neutral : neutral StopConnToPeer.
Proof.
  intros a b cl c s. apply triple_self. intros f w H. destruct (outTCPConn f).
  - exact (neutral_bind _ _ (emit_neutral _) (set_outTCPConn_neutral _) _ _ _ _ _ _ _ H).
  - exact (triple_skip _ _ _ H).
Qed.

Lemma InitiateConnToPeer_neutral : neutral InitiateConnToPeer.
Proof.
  intros a b cl c s. apply triple_self. intros f w H. unfold world, mbind, M_bind. cbn [snd].
  destruct (bool_decide _); [exact (triple_skip _ _ _ H)|].
  destruct (outTCPConn f); [exact (triple_skip _ _ _ H)|].
  exact (neutral_bind _ _ (set_outTCPConn_neutral _) (emit_neutral _) _ _ _ _ _ _ _ H).
Qed.

Lemma conn_Write_ok pkt a b cl s :
  triple (during a b cl true s) (conn_Write env pkt) (fun _ => during a b cl true s).
Proof.
  apply triple_self. intros f w H. pose proof (during_conn _ _ _ _ _ _ _ H) as Hc.
  unfold has_conn in Hc. destruct (peerConn f) as [pc|] eqn:E; [|done].
  do 3 eexists. split; [done|]. by eapply during_world_eq.
Qed.

Lemma Encode_ignoring_error_ok msg P :
  safe (BGPMessage_Encode msg) (fun _ => True) -> triple P (Encode_ignoring_error msg) (fun _ => P).
Proof.
  intros H f w HP. unfold Encode_ignoring_error. destruct (BGPMessage_Encode msg); try done;
    by do 3 eexists.
Qed.

Lemma sendKeepAliveMessage_ok : neutral_conn (sendKeepAliveMessage env).
Proof.
  intros a b cl s. eapply triple_bind; [by apply Encode_ignoring_error_ok|]. intros pkt.
  eapply triple_bind; [apply conn_Write_ok|]. intros ?. apply StartKeepAliveTimer_neutral.
Qed.

Lemma SendNotificationMessage_ok code subCode data :
  neutral_conn (SendNotificationMessage env code subCode data).
Proof.
  intros a b cl s. eapply triple_bind.
  { apply Encode_ignoring_error_ok. unfold BGPMessage_Encode. cbn [Body NewBGPNotificationMessage Header hdr_Length].
    res_simpl. cbn [BGPBody_Encode BGPNotification_Encode]. unfold BGPNotification_Encode. res_simpl.
    destruct (_ =? 0) eqn:E.
    - unfold guard_err. destruct (_ <? _); [done|]. res_simpl. by rewrite header_encode_ok.
    - res_simpl. by rewrite header_encode_ok. }
  intros pkt. eapply triple_bind; [apply conn_Write_ok|]. intros [].
  - by apply neutral_neighborConf.
  - apply triple_skip.
Qed.

Lemma To4_To16 ip : len ip = 4 -> To4 (To16 ip) = ip.
Proof.
  intros H. destruct ip as [|a [|b [|c [|d [|]]]]]; try (unfold len in H; cbn [length] in H; lia).
  done.
Qed.

Lemma open_of_conf_encodes n hold :
  conf_small n -> safe (BGPMessage_Encode (open_of_conf n hold)) (fun _ => True).
Proof.
  intros (_ & _ & _ & Has & Hid & Hb & Hn). unfold open_of_conf, NewBGPOpenMessage, BGPMessage_Encode.
  cbn [Body Header hdr_Length hdr_Type BGPBody_Encode]. res_simpl.
  set (ps := ConstructOptParams _ _ _ _). set (ip := To4 (g_RouterId (Global n))).
  cbn [BGPBody_Encode].
  assert (BGPOpen_Encode (NewBGPOpen (LocalAS (nc_base (RunningConf n))) (u16 hold) (To16 ip) ps)
    = BGPOpen_Encode (sent_open (LocalAS (nc_base (RunningConf n))) (u16 hold) ip (elements (AfiSafiMap n))
        (AddPathsRx (nc_base (RunningConf n))) (AddPathsMaxTx (nc_base (RunningConf n))))) as ->.
  { unfold BGPOpen_Encode, sent_open, NewBGPOpen. cbn [BGPId Version MyAS HoldTime OptParamLen OptParams].
    by rewrite To4_To16, To4_4. }
  rewrite BGPOpen_Encode_ok by (apply sent_open_wf; done || zlia).
  res_simpl. cbn [Z.eqb]. unfold guard_err. destruct (_ <? _); [done|]. res_simpl.
  by rewrite header_encode_ok.
Qed.

Lemma sendOpenMessage_ok : neutral_conn (sendOpenMessage env).
Proof.
  intros a b cl s. apply triple_self. intros f w H. unfold world, mbind, M_bind. cbn [snd].
  refine (triple_bind _ _ (fun _ => during a b cl true s) _ _ _ _ f w H).
  - apply Encode_ignoring_error_ok, open_of_conf_encodes. by destruct (during_mgr _ _ _ _ _ _ _ H).
  - intros pkt. eapply triple_bind; [apply conn_Write_ok|]. intros ?. apply triple_skip.
Qed.

Lemma SetPeerConn_ok a b cl c s dir conn :
  triple (during a b cl c s) (SetPeerConn env (DataConn dir conn)) (fun _ => during a b cl true s).
Proof.
  apply triple_self. intros f w H. destruct (peerConn f) as [pc|] eqn:E.
  - refine (triple_mono _ _ _ _ (triple_skip (during a b cl c s)) _ f w H). intros _ f' w' [].
    constructor; try done. (* the connection is there already *)
    pose proof (during_conn _ _ _ _ _ _ _ H) as Hc. unfold has_conn in *. rewrite E in Hc. congruence.
  - unfold tick, modify, self, mbind, M_bind. cbn [fst snd ticks set_ticks].
    destruct (_ =? connId f); do 3 eexists; (split; [done|]); destruct H; by constructor.
Qed.

Lemma ClearPeerConn_ok a b cl c s :
  triple (during a b cl c s) ClearPeerConn (fun _ => during a b cl false s).
Proof.
  apply triple_self. intros f w H. destruct (peerConn f) as [pc|] eqn:E.
  - do 3 eexists. split; [done|]. destruct H. by constructor.
  - do 3 eexists. split; [done|]. destruct H. constructor; try done. unfold has_conn. by rewrite E.
Qed.

(** ** The manager *)

Lemma set_activeFSM_neutral i :
  (forall a b cl c s f w, during a b cl c s f w -> i w = ConnDirInvalid \/ is_Some (fsms w !! i w)) ->
  neutral (modify_world (fun w => set_activeFSM (i w) w)).
Proof.
  intros Hi a b cl c s. apply triple_modify_world. intros f w H. pose proof (Hi _ _ _ _ _ _ _ H).
  destruct H. constructor; try done. destruct during_mgr0 as (?&?&?&?). by split_and!.
Qed.

Lemma fsmBroken_neutral i : neutral (fsmBroken i).
Proof.
  intros a b cl c s. apply triple_world. intros f w H. destruct (activeFSM w =? i).
  - refine (neutral_bind _ _ (set_activeFSM_neutral (fun _ => ConnDirInvalid) _) (emit_neutral _) _ _ _ _ _ _ _ H).
    by left.
  - exact (triple_skip _ _ _ H).
Qed.

Lemma fsmEstablished_neutral i conn : neutral (fsmEstablished i conn).
Proof.
  intros a b cl c s. apply triple_world. intros f w H. destruct (fsms w !! i) as [r|] eqn:E.
  - do 3 eexists. split; [done|]. destruct H. constructor; try done.
    destruct during_mgr0 as (?&?&?&?). split_and!; try done. right. cbn. by rewrite E.
  - exact (triple_skip _ _ _ H).
Qed.

Lemma fsmStateChange_neutral i st : neutral (fsmStateChange i st).
Proof.
  intros a b cl c s. apply triple_world. intros f w H. destruct (_ || _).
  - by apply (neutral_neighborConf (NC_FSMStateChange st)).
  - exact (triple_skip _ _ _ H).
Qed.

(** After fsmBroken the machine is not the active one. *)
Lemma mgr_ok_delete i w :
  mgr_ok w -> activeFSM w <> i \/ activeFSM w = ConnDirInvalid -> mgr_ok (set_fsms (delete i (fsms w)) w).
Proof.
  intros (Hc & Hf & Ho & Ha) Hi. split_and!; try done.
  - intros j r. cbn. intros [_ Hj]%lookup_delete_Some. by apply (Hf j).
  - destruct Ha as [Ha|Ha]; [by left|]. destruct Hi as [Hi|Hi]; [right|by left]. cbn. by rewrite lookup_delete_ne.
Qed.

Lemma during_delete a b cl c s f w i :
  during a b cl c s f w -> activeFSM w <> i \/ activeFSM w = ConnDirInvalid ->
  during a b cl c s f (set_fsms (delete i (fsms w)) w).
Proof. intros [] Hi. constructor; try done. by apply mgr_ok_delete. Qed.

Lemma fsmClose_neutral i : neutral (fsmClose i).
Proof.
  intros a b cl c s. apply triple_world. intros f w H. destruct (fsms w !! i) as [r|]; [|exact (triple_skip _ _ _ H)].
  unfold emit, modify_world, fsmBroken, world, mbind, M_bind. cbn [fst snd set_trace activeFSM].
  destruct (activeFSM w =? i) eqn:E; do 3 eexists; (split; [done|]).
  - apply Z.eqb_eq in E. apply (during_delete _ _ _ _ _ _ (set_trace _ (set_activeFSM ConnDirInvalid _))); [|by right].
    destruct H. constructor; try done. destruct during_mgr0 as (?&?&?&?). split_and!; try done. by left.
  - apply Z.eqb_neq in E. apply (during_delete _ _ _ _ _ _ (set_trace _ w)); [|by left].
    by eapply during_world_eq.
Qed.

Lemma fsmClose_eq i f w : fsmClose i (f, w) = Ok (tt, (f, mgr_fsmClose i w)).
Proof.
  unfold fsmClose, mgr_fsmClose, mgr_fsmBroken, fsmBroken, world, emit, modify_world, mbind, M_bind, push.
  cbn [fst snd]. destruct (fsms w !! i); [|done]. cbn [set_trace activeFSM fst snd].
  by destruct (activeFSM w =? i).
Qed.

Lemma mgr_fsmClose_during i a b cl c s f w :
  during a b cl c s f w -> during a b cl c s f (mgr_fsmClose i w).
Proof.
  intros H. destruct (fsmClose_neutral i a b cl c s f w H) as (x & f' & w' & E & H').
  rewrite fsmClose_eq in E. by injection E as <- <- <-.
Qed.

Lemma mgr_fsmClose_objs i w : objs (mgr_fsmClose i w) = objs w.
Proof.
  unfold mgr_fsmClose, mgr_fsmBroken. destruct (fsms w !! i); [|done]. cbn. by destruct (_ =? _).
Qed.

Definition known (w : World) (l : list (Z * nat)) : Prop :=
  forall i r, (i, r) ∈ l -> is_Some (objs w !! r).

Lemma known_fsms w : mgr_ok w -> known w (map_to_list (fsms w)).
Proof. intros (_ & H & _) i r Hin%elem_of_map_to_list. by apply (H i). Qed.

Lemma known_cons w p l : known w (p :: l) -> known w l.
Proof. intros H i r Hin. apply (H i r). by right. Qed.

Lemma deref_eq r g f w : objs w !! r = Some g -> deref r (f, w) = Ok (g, (f, w)).
Proof. intros H. unfold deref, world, lift, mbind, M_bind. cbn [snd]. by rewrite H. Qed.

Lemma find_dir_ok connDir l f w :
  known w l -> exists i, find_dir connDir l (f, w) = Ok (i, (f, w)).
Proof.
  intros Hl. induction l as [|[i r] l IH]; cbn [find_dir]; [by eexists|].
  destruct (Hl i r) as [g Hg]; [by left|]. unfold mbind, M_bind. rewrite (deref_eq _ _ _ _ Hg).
  destruct (has_dir g connDir); [by eexists|]. apply IH. by eapply known_cons.
Qed.

Lemma resolve_collision_ok a b cl c s i connDir x y l cd f w :
  during a b cl c s f w -> known w l ->
  exists cd' w', resolve_collision i connDir x y l cd (f, w) = Ok (cd', (f, w')) /\
    during a b cl c s f w'.
Proof.
  revert cd w. induction l as [|[j r] l IH]; intros cd w H Hl; cbn [resolve_collision].
  { by do 2 eexists. }
  unfold world, mbind, M_bind. cbn [snd]. destruct (fsms w !! j) as [r'|].
  2:{ apply IH; [done|by eapply known_cons]. }
  destruct (Hl j r) as [g Hg]; [by left|]. rewrite (deref_eq _ _ _ _ Hg).
  destruct (during_mgr _ _ _ _ _ _ _ H) as (_ & _ & Hst & _). destruct (Hst r g Hg) as [st Est].
  rewrite Est. cbn [of_option lift].
  destruct (negb (j =? i) && _); [|apply IH; [done|by eapply known_cons]].
  unfold getFSMIdByDir, world, mbind, M_bind. cbn [snd]. cbv zeta.
  match goal with |- context [find_dir ?d] => destruct (find_dir_ok d (map_to_list (fsms w)) f w) as [k ->] end.
  { by apply known_fsms, (during_mgr _ _ _ _ _ _ _ H). }
  rewrite fsmClose_eq. apply IH; [by apply mgr_fsmClose_during|].
  intros j' r'' Hin. rewrite mgr_fsmClose_objs. apply (Hl j' r''). by right.
Qed.

Lemma sync_neutral : neutral sync.
Proof.
  intros a b cl c s f w H. do 3 eexists. split; [done|]. destruct H. constructor; try done.
  - destruct during_mgr0 as (H1 & H2 & H3 & H4). split_and!; try done; cbn [fst snd set_objs objs fsms].
    + intros i r Hr. destruct (H2 i r Hr). destruct (decide (r = addr f)) as [->|].
      * by rewrite lookup_insert_eq.
      * by rewrite lookup_insert_ne.
    + intros r g. rewrite lookup_insert_Some. intros [[_ <-]|[_ Hg]]; [by rewrite during_State0|by eapply H3].
  - cbn. rewrite during_addr0. by rewrite lookup_insert_eq.
  - cbn. intros a' f'. rewrite during_addr0, lookup_insert_Some. intros [[-> _]|[_ Hg]] Hne; [done|].
    by apply during_others0.
Qed.

(** An OPEN the reader hands over: the numbers the manager takes from it exist. *)
Definition open_ok (body : BGPOpen) : Prop :=
  is_ok (ConvertIPBytesToUint (To4 (BGPId body))) = true /\ is_ok (GetASSize body) = true /\
  is_u16 (HoldTime body).

Lemma ConvertIP_ok ip : len ip = 4 -> exists x, ConvertIPBytesToUint ip = Ok x.
Proof.
  intros H. destruct ip as [|? [|? [|? [|? [|]]]]]; try (unfold len in H; cbn [length] in H; lia).
  by eexists.
Qed.

Lemma foldl_set_add_paths conf l st :
  let st' := foldl (fun s val => set_add_paths conf val s) st l in
  ns_UseBfdState st' = ns_UseBfdState st /\ ns_BfdNeighborState st' = ns_BfdNeighborState st.
Proof.
  revert st. induction l as [|v l IH]; intros st; [done|]. cbn [foldl].
  destruct (IH (set_add_paths conf v st)) as [-> ->].
  unfold set_add_paths. by destruct (has_bits v _), (has_bits v _).
Qed.

Lemma SetPeerAttrs_conf id sz h k fam n :
  RunningConf (SetPeerAttrs id sz h k fam n) = RunningConf n /\
  Global (SetPeerAttrs id sz h k fam n) = Global n /\
  AfiSafiMap (SetPeerAttrs id sz h k fam n) = AfiSafiMap n /\
  bfd_down (SetPeerAttrs id sz h k fam n) = bfd_down n.
Proof.
  split_and!; try done.
  assert (exists st l, nb_State (SetPeerAttrs id sz h k fam n)
      = foldl (fun s val => set_add_paths (RunningConf n) val s) st l /\
    ns_UseBfdState st = ns_UseBfdState (nb_State n) /\
    ns_BfdNeighborState st = ns_BfdNeighborState (nb_State n)) as (st & l & E & E1 & E2).
  { do 2 eexists. split; [reflexivity|done]. }
  unfold bfd_down. rewrite E. change (RunningConf (SetPeerAttrs id sz h k fam n)) with (RunningConf n).
  destruct (foldl_set_add_paths (RunningConf n) l st) as [-> ->]. by rewrite E1, E2.
Qed.

Lemma receivedBGPOpenMessage_ok a b cl c s i connDir body :
  open_ok body ->
  triple (during a b cl c s) (receivedBGPOpenMessage i connDir body) (fun _ => during a b cl c s).
Proof.
  intros (Hid & Has & _). eapply triple_bind; [apply sync_neutral|]. intros [].
  apply triple_world. intros f w H. pose proof (during_mgr _ _ _ _ _ _ _ H) as Hm.
  destruct Hm as ((_ & _ & _ & _ & Hr & _) & _). destruct (ConvertIP_ok _ Hr) as [x Hx].
  destruct (ConvertIPBytesToUint (To4 (BGPId body))) as [y| | |] eqn:Hy; try done.
  unfold mbind, M_bind, lift. rewrite Hx. cbn beta iota zeta.
  destruct (resolve_collision_ok a b cl c s i connDir x y (map_to_list (fsms w)) ConnDirInvalid f w)
    as (cd & w' & -> & H'); [done|by apply known_fsms, (during_mgr _ _ _ _ _ _ _ H)|].
  change (ConnDirInvalid =? ConnDirInvalid) with true. cbn [orb].
  destruct (GetASSize body) as [sz| | |]; try done. unfold world. cbn [snd].
  destruct (fsms w' !! i) as [r|] eqn:Er.
  - destruct (during_mgr _ _ _ _ _ _ _ H') as (_ & Hf & _). destruct (Hf i r Er) as [g Hg].
    rewrite (deref_eq _ _ _ _ Hg). do 3 eexists. split; [done|].
    destruct (SetPeerAttrs_conf (BGPId body) sz (holdTime g) (keepAliveTime g) (GetAddPathFamily body)
      (neighborConf w')) as (E1 & E2 & E3 & E4).
    destruct H'. constructor; try done.
    cbn [set_neighborConf neighborConf snd]. by rewrite E4.
  - do 3 eexists. by split.
Qed.

(** ** Changing state *)

(** A machine with its state just assigned. *)
Lemma set_State_ok a b cl c s s' :
  triple (during a b cl c s) (modify (set_State (Some s'))) (fun _ => during a b cl c s').
Proof. apply triple_modify. intros f w []. by constructor. Qed.

Lemma leave_neutral s : neutral (leave s).
Proof.
  destruct s; cbn [leave];
    auto using neutral_skip, StopIdleHoldTimer_neutral, SetConfHoldTime_neutral.
Qed.

Lemma current_state_ok a b cl c s :
  triple (during a b cl c s) current_state (fun x f w => x = s /\ during a b cl c s f w).
Proof.
  intros f w H. exists s, f, w. unfold current_state, self, lift, mbind, M_bind. cbn [fst].
  by rewrite (during_State _ _ _ _ _ _ _ H).
Qed.

Lemma change_state_closing enter a b c s s' f w :
  during a b true c s f w -> change_state enter s' (f, w) = Ok (tt, (f, w)).
Proof.
  intros H. unfold change_state, self, mbind, M_bind. cbn [fst].
  by rewrite (during_close _ _ _ _ _ _ _ H).
Qed.

Lemma ConnBroken_neutral : neutral ConnBroken.
Proof. intros a b cl c s. apply triple_self. intros f w H. by apply fsmBroken_neutral. Qed.

Lemma ConnEstablished_ok : neutral_conn ConnEstablished.
Proof.
  intros a b cl s. apply triple_self. intros f w H. pose proof (during_conn _ _ _ _ _ _ _ H) as Hc.
  unfold has_conn in Hc. destruct (peerConn f) as [pc|]; [|done].
  by apply fsmEstablished_neutral.
Qed.

(** Where [enter] ends up, for a machine that is not closing. *)
Lemma change_state_ok (enter : BGPState -> M unit) a b c s s1 s2 :
  triple (during a b false c s1) (enter s1) (fun _ => during a b false c s2) ->
  (s2 = Established -> c = true) ->
  triple (during a b false c s) (change_state enter s1) (fun _ => during a b false c s2).
Proof.
  intros He Hc. apply triple_self. intros f w H. rewrite (during_close _ _ _ _ _ _ _ H). revert f w H.
  change (triple (during a b false c s)
    (oldState ← current_state; leave oldState;; modify (set_State (Some s1));; enter s1;;
     st ← current_state;
     (if is_Established oldState && negb (is_Established st) then ConnBroken
      else if negb (is_Established oldState) && is_Established st then ConnEstablished else skip);;
     f ← self; fsmStateChange (id f) (state_of st)) (fun _ => during a b false c s2)).
  eapply triple_bind; [apply current_state_ok|]. intros old.
  intros f w [-> H]. revert f w H.
  eapply triple_bind; [apply leave_neutral|]. intros ?.
  eapply triple_bind; [apply set_State_ok|]. intros ?.
  eapply triple_bind; [exact He|]. intros ?.
  eapply triple_bind; [apply current_state_ok|]. intros st.
  intros f w [-> H]. revert f w H.
  eapply (triple_bind _ _ (fun _ => during a b false c s2)).
  - destruct (is_Established s && _); [apply ConnBroken_neutral|].
    destruct (negb _ && is_Established s2) eqn:E; [|apply triple_skip].
    apply andb_true_iff in E as [_ E]. destruct s2; try done. rewrite Hc by done. apply ConnEstablished_ok.
  - intros ?. apply triple_self. intros f w H. by apply fsmStateChange_neutral.
Qed.

Lemma enter_Idle_neutral : neutral enter_Idle.
Proof.
  unfold enter_Idle, ApplyAutomaticStart.
  auto 10 using neutral_bind, StopKeepAliveTimer_neutral, StopHoldTimer_neutral,
    RejectPeerConn_neutral, SetConfHoldTime_neutral, StartRestartTimer_neutral.
Qed.

(** The state a change leads to. *)
Definition target (b : bool) (s : BGPState) : BGPState :=
  match s with Connect => start_state b | _ => s end.

Lemma enter_ok a b c s :
  triple (during a b false c s) (enter s) (fun _ => during a b false c (target b s)).
Proof.
  destruct s; cbn [enter target].
  - apply enter_Idle_neutral.
  - apply triple_world. intros f w H. rewrite (during_bfd _ _ _ _ _ _ _ H). unfold start_state.
    destruct b.
    + revert f w H. apply change_state_ok; [apply AcceptPeerConn_neutral|done].
    + revert f w H. apply neutral_bind; [apply AcceptPeerConn_neutral|apply InitiateConnToPeer_neutral].
  - apply AcceptPeerConn_neutral.
  - apply triple_skip.
  - apply triple_skip.
  - apply SetIdleHoldTime_neutral.
Qed.

(** A closing machine keeps its state. *)
Definition final (b cl : bool) (s s' : BGPState) : BGPState := if cl then s else target b s'.

Lemma ChangeState_ok a b cl c s s' :
  (s' = Established -> c = true) ->
  triple (during a b cl c s) (ChangeState s') (fun _ => during a b cl c (final b cl s s')).
Proof.
  intros Hc. destruct cl; cbn [final].
  - intros f w H. exists tt, f, w. split; [by eapply change_state_closing|done].
  - apply change_state_ok; [apply enter_ok|]. intros E. apply Hc. destruct s'; try done. by destruct b.
Qed.

(** ** Events *)

(** Forget what was read. *)
Lemma triple_read_self {A} P (k : FSM -> M A) Q :
  (forall f0, triple P (k f0) Q) -> triple P (self ≫= k) Q.
Proof. intros H f w HP. exact (H f f w HP). Qed.

Lemma triple_read_world {A} P (k : World -> M A) Q :
  (forall w0, triple P (k w0) Q) -> triple P (world ≫= k) Q.
Proof. intros H f w HP. exact (H w f w HP). Qed.

Lemma neutral_if (t : bool) m m' : neutral m -> neutral m' -> neutral (if t then m else m').
Proof. by destruct t. Qed.

Lemma ProcessOpenMessage_ok a b cl s msg body :
  Body msg = Some (BodyOpen body) -> open_ok body ->
  triple (during a b cl true s) (ProcessOpenMessage msg) (fun _ => during a b cl true s).
Proof.
  intros Hb Hok. pose proof Hok as (_ & _ & Hh). unfold ProcessOpenMessage. rewrite Hb.
  assert (neutral (SetHoldTime (HoldTime body) (HoldTime body / 3))) as Hset.
  { unfold is_u16 in Hh. assert (0 <= HoldTime body / 3 <= HoldTime body).
    { split; [apply Z.div_pos; lia|]. apply Z.div_le_upper_bound; lia. }
    apply SetHoldTime_neutral; lia. }
  apply triple_read_self. intros f0.
  eapply triple_bind; [apply neutral_if; [exact Hset|apply neutral_skip]|]. intros ?.
  apply triple_read_world. intros w0.
  eapply triple_bind.
  { apply (neutral_modify (set_peerType (if MyAS body =? g_AS (Global (neighborConf w0))
      then PeerTypeInternal else PeerTypeExternal))). by intros []. }
  intros ?. eapply triple_bind.
  { apply (neutral_modify (fun f => set_afiSafiMap
      (afiSafiMap f ∪ (GetProtocolFromOpenMsg body ∩ AfiSafiMap (neighborConf w0))) f)). by intros []. }
  intros ?. apply triple_self. intros f w H. pose proof (during_conn _ _ _ _ _ _ _ H) as Hc.
  unfold has_conn in Hc. destruct (peerConn f) as [pc|]; [|done].
  by apply receivedBGPOpenMessage_ok.
Qed.

(** The data each event comes with. *)
Definition data_ok (e : BGPFSMEvent) (data : EventData) : Prop :=
  match e with
  | BGPEventTcpCrAcked | BGPEventTcpConnConfirmed =>
    match data with DataConn _ _ => True | _ => False end
  | BGPEventBGPOpen =>
    match data with
    | DataMsg msg => match Body msg with Some (BodyOpen body) => open_ok body | _ => False end
    | _ => False
    end
  | BGPEventUpdateMsg =>
    match data with
    | DataMsg msg => match Body msg with Some (BodyUpdate _) => True | _ => False end
    | _ => False
    end
  | BGPEventHeaderErr | BGPEventOpenMsgErr | BGPEventUpdateMsgErr =>
    match data with DataErr _ _ _ => True | _ => False end
  | _ => True
  end.

(** The machine after an event in state [s]. *)
Definition moved (a : nat) (b cl : bool) (s : BGPState) (e : BGPFSMEvent) (f : FSM) (w : World) : Prop :=
  exists opened c' s', during a b cl c' s' f w /\
    (cl = false -> s' = next b opened s e /\ c' = needs_conn s') /\
    (cl = true -> e = BGPEventManualStop -> s' = s).

(** The last step of an event: a state change. *)
Lemma ChangeState_moved a b cl c s s' e :
  (s' = Established -> c = true) ->
  (cl = false -> target b s' = next b true s e /\ c = needs_conn (target b s')) ->
  triple (during a b cl c s) (ChangeState s') (fun _ => moved a b cl s e).
Proof.
  intros Hc Ht. eapply triple_mono; [by apply ChangeState_ok|].
  intros ? f w H. exists true, c, (final b cl s s'). split_and!; [done| |]; intros ->; [by apply Ht|done].
Qed.

(** An event that changes no state. *)
Lemma stay_moved a b cl c s0 e (m : M unit) :
  triple (during a b cl c s0) m (fun _ => during a b cl c s0) ->
  c = needs_conn s0 -> s0 = next b true s0 e ->
  triple (during a b cl c s0) m (fun _ => moved a b cl s0 e).
Proof.
  intros H -> Hs. eapply triple_mono; [exact H|]. intros ? f w Hd.
  exists true, (needs_conn s0), s0. by split.
Qed.

Lemma HandleAnotherConnection_ok a b cl c s dir conn :
  triple (during a b cl c s) (HandleAnotherConnection (DataConn dir conn)) (fun _ => during a b cl c s).
Proof. apply triple_read_self. intros f0. apply emit_neutral. Qed.

Ltac fsm_op :=
  lazymatch goal with
  | |- triple _ StopConnectRetryTimer _ => apply StopConnectRetryTimer_neutral
  | |- triple _ (StartConnectRetryTimer _) _ => apply StartConnectRetryTimer_neutral
  | |- triple _ StopConnToPeer _ => apply StopConnToPeer_neutral
  | |- triple _ InitiateConnToPeer _ => apply InitiateConnToPeer_neutral
  | |- triple _ (SetConnectRetryCounter _) _ => apply SetConnectRetryCounter_neutral
  | |- triple _ IncrConnectRetryCounter _ => apply IncrConnectRetryCounter_neutral
  | |- triple _ StartHoldTimer _ => apply StartHoldTimer_neutral
  | |- triple _ SetConfHoldTime _ => apply SetConfHoldTime_neutral
  | |- triple _ ClearPeerConn _ => apply ClearPeerConn_ok
  | |- triple _ (SetPeerConn _ _) _ => apply SetPeerConn_ok
  | |- triple _ (SendNotificationMessage _ _ _ _) _ => apply SendNotificationMessage_ok
  | |- triple _ (sendOpenMessage _) _ => apply sendOpenMessage_ok
  | |- triple _ (sendKeepAliveMessage _) _ => apply sendKeepAliveMessage_ok
  | |- triple _ (SetIdleHoldTime _) _ => apply SetIdleHoldTime_neutral
  | |- triple _ StartIdleHoldTimer _ => apply StartIdleHoldTimer_neutral
  | |- triple _ (HandleAnotherConnection _) _ => apply HandleAnotherConnection_ok
  | |- triple _ (emit _) _ => apply emit_neutral
  | |- triple _ skip _ => apply triple_skip
  end.

(** Run the operations of a branch up to its state change. *)
Ltac fsm_branch :=
  repeat (eapply triple_bind; [fsm_op|intros ?; cbv beta]);
  first
    [ lazymatch goal with |- triple _ (ChangeState _) _ => fail | _ => apply stay_moved; [fsm_op|done|done] end
    | apply ChangeState_moved; [done|intros _; cbn; unfold start_state; by repeat case_match] ].

Lemma set_Idle_moved a b cl p p' e :
  e <> BGPEventManualStop -> Idle p' = next b true (Idle p) e ->
  triple (during a b cl false (Idle p)) (modify (set_State (Some (Idle p'))))
    (fun _ => moved a b cl (Idle p) e).
Proof.
  intros Hne He. eapply triple_mono; [apply set_State_ok|]. intros ? f w H.
  exists true, false, (Idle p'). by split_and!.
Qed.

Lemma Idle_moved a b cl p e data :
  triple (during a b cl false (Idle p)) (Idle_processEvent env p e data) (fun _ => moved a b cl (Idle p) e).
Proof.
  destruct e; cbn [Idle_processEvent]; try fsm_branch.
  - apply triple_read_self. intros f0. do 2 (eapply triple_bind; [fsm_op|intros ?]). by apply set_Idle_moved.
  - apply triple_read_self. intros f0. do 2 (eapply triple_bind; [fsm_op|intros ?]). by apply set_Idle_moved.
  - eapply triple_bind; [fsm_op|intros ?]. destruct p; fsm_branch.
Qed.

Lemma Connect_moved a b cl e data :
  data_ok e data ->
  triple (during a b cl false Connect) (Connect_processEvent env e data) (fun _ => moved a b cl Connect e).
Proof.
  intros Hd. destruct e; cbn [Connect_processEvent]; try fsm_branch; destruct data; try done; fsm_branch.
Qed.

Lemma Active_moved a b cl e data :
  data_ok e data ->
  triple (during a b cl false Active) (Active_processEvent env e data) (fun _ => moved a b cl Active e).
Proof.
  intros Hd. destruct e; cbn [Active_processEvent]; try fsm_branch; destruct data; try done; fsm_branch.
Qed.

Lemma opened_moved a b cl body e msg m :
  Body msg = Some (BodyOpen body) -> open_ok body -> e = BGPEventBGPOpen ->
  triple (during a b cl true OpenSent) m (fun _ => moved a b cl OpenSent e) ->
  triple (during a b cl true OpenSent)
    (opened ← ProcessOpenMessage msg; if (opened : bool) then m else skip) (fun _ => moved a b cl OpenSent e).
Proof.
  intros Hb Hok -> Hm. eapply triple_bind; [by eapply ProcessOpenMessage_ok|]. intros [|]; [exact Hm|].
  eapply triple_mono; [apply triple_skip|]. intros ? f w H. by exists false, true, OpenSent.
Qed.

Lemma OpenSent_moved a b cl e data :
  data_ok e data ->
  triple (during a b cl true OpenSent) (OpenSent_processEvent env e data) (fun _ => moved a b cl OpenSent e).
Proof.
  intros Hd. destruct e; cbn [OpenSent_processEvent]; try fsm_branch; destruct data as [| |msg| |];
    try done; try fsm_branch.
  cbn in Hd. destruct (Body msg) as [[body| | |]|] eqn:Hb; try done.
  eapply triple_bind; [fsm_op|intros ?]. eapply opened_moved; [done..|]. fsm_branch.
Qed.

Lemma OpenConfirm_moved a b cl e data :
  data_ok e data ->
  triple (during a b cl true OpenConfirm) (OpenConfirm_processEvent env e data)
    (fun _ => moved a b cl OpenConfirm e).
Proof.
  intros Hd. destruct e; cbn [OpenConfirm_processEvent]; try fsm_branch; destruct data; try done; fsm_branch.
Qed.

Lemma Established_moved a b cl e data :
  data_ok e data ->
  triple (during a b cl true Established) (Established_processEvent env e data)
    (fun _ => moved a b cl Established e).
Proof.
  intros Hd. destruct e; cbn [Established_processEvent]; try fsm_branch; destruct data as [| |msg| |];
    try done; try fsm_branch.
  cbn in Hd. eapply triple_bind; [fsm_op|intros ?]. unfold ProcessUpdateMessage.
  destruct (Body msg) as [[| |body|]|]; try done. fsm_branch.
Qed.

Lemma processEvent_moved a b cl s e data :
  data_ok e data ->
  triple (during a b cl (needs_conn s) s) (processEvent env s e data) (fun _ => moved a b cl s e).
Proof.
  intros Hd. destruct s; cbn [processEvent needs_conn].
  - apply Idle_moved.
  - by apply Connect_moved.
  - by apply Active_moved.
  - by apply OpenSent_moved.
  - by apply OpenConfirm_moved.
  - by apply Established_moved.
Qed.

Lemma ProcessEvent_moved a b cl s e data :
  data_ok e data ->
  triple (during a b cl (needs_conn s) s) (ProcessEvent env e data) (fun _ => moved a b cl s e).
Proof.
  intros Hd. unfold ProcessEvent. eapply triple_bind; [apply set_event_neutral|]. intros ?.
  eapply triple_bind; [apply current_state_ok|]. intros s0. intros f w [-> H]. revert f w H.
  by apply processEvent_moved.
Qed.

(** ** What the reader hands over *)

(** The results of DecodeMessage on octets, and an error of the header. *)
Inductive received_ok : option BGPMessage -> option goerr -> Prop :=
| received_message fuel peerAS rx peer h buf msg msgErr msgOk peer' :
    is_bytes buf -> DecodeMessage fuel peerAS rx peer h buf = Ok (msg, msgErr, msgOk, peer') ->
    received_ok msg msgErr
| received_bad_header t s d : received_ok None (Some (BGPMessageError t s d)).

Lemma BGPOpen_Decode_fields fuel buf body :
  is_bytes buf -> BGPOpen_Decode fuel buf = Ok body ->
  is_ok (ConvertIPBytesToUint (To4 (BGPId body))) = true /\ is_u16 (HoldTime body).
Proof.
  intros Hb. unfold BGPOpen_Decode. destruct (index buf 0); try done. res_simpl.
  destruct (slice buf 1 3) as [s1| | |]; try done. res_simpl. destruct (Uint16 s1); try done. res_simpl.
  destruct (slice buf 3 5) as [s2| | |] eqn:E2; try done. res_simpl.
  destruct (Uint16 s2) as [h| | |] eqn:Eh; try done. res_simpl.
  destruct (slice buf 5 9) as [ip| | |] eqn:E3; try done. res_simpl.
  destruct (index buf 9); try done. res_simpl.
  destruct (decode_items _ _ _ _ _ _ _ _) as [[[ps ?] ?]| | |]; try done. res_simpl.
  destruct (guard_err _ _); try done. res_simpl. intros [= <-]. cbn [BGPId HoldTime]. split.
  - assert (len ip = 4) as Hip.
    { unfold slice in E3. destruct (_ && _) eqn:E; [|done]. injection E3 as <-.
      apply andb_true_iff in E as [_ E]. apply Z.leb_le in E. unfold len in *.
      rewrite length_take, length_drop. lia. }
    rewrite !To4_4 by (rewrite ?To4_4; done). by destruct (ConvertIP_ok ip Hip) as [x ->].
  - apply (Uint16_range s2); [|done]. unfold slice in E2. destruct (_ && _); [|done]. injection E2 as <-.
    by apply Forall_take, Forall_drop.
Qed.

(** The body a type of message decodes to. *)
Definition body_matches (t : Z) (b : option BGPBody) : Prop :=
  match b with
  | Some (BodyOpen _) => t = BGPMsgTypeOpen
  | Some BodyKeepAlive => t = BGPMsgTypeKeepAlive
  | Some (BodyUpdate _) => t = BGPMsgTypeUpdate
  | Some (BodyNotification _) => t = BGPMsgTypeNotification
  | None => t <> BGPMsgTypeOpen /\ t <> BGPMsgTypeKeepAlive /\ t <> BGPMsgTypeUpdate /\
            t <> BGPMsgTypeNotification
  end.

Lemma BGPMessage_Decode_body fuel peer h buf msg :
  BGPMessage_Decode fuel peer h buf = Ok msg ->
  Header msg = h /\ body_matches (hdr_Type h) (Body msg) /\
  (forall body, Body msg = Some (BodyOpen body) -> BGPOpen_Decode fuel buf = Ok body).
Proof.
  unfold BGPMessage_Decode.
  destruct (Z.eqb_spec (hdr_Type h) BGPMsgTypeOpen).
  { destruct (BGPOpen_Decode fuel buf); try done. intros [= <-]. split_and!; [done|done|]. by intros ? [= ->]. }
  destruct (Z.eqb_spec (hdr_Type h) BGPMsgTypeKeepAlive); [intros [= <-]; by split_and!|].
  destruct (Z.eqb_spec (hdr_Type h) BGPMsgTypeUpdate).
  { destruct (BGPUpdate_Decode _ _ _); try done. res_simpl. destruct (NormalizeASPath _); try done.
    intros [= <-]. by split_and!. }
  destruct (Z.eqb_spec (hdr_Type h) BGPMsgTypeNotification).
  { destruct (BGPNotification_Decode _); try done. intros [= <-]. by split_and!. }
  intros [= <-]. by split_and!.
Qed.

Lemma received_packet msg msgErr :
  received_ok msg msgErr ->
  exists e data counted, packet_event msg msgErr = Ok (e, data, counted) /\ data_ok e data.
Proof.
  assert (forall t s d m, exists e data counted,
    packet_event m (Some (BGPMessageError t s d)) = Ok (e, data, counted) /\ data_ok e data) as Herr.
  { intros t s d m. do 3 eexists. split; [done|]. by repeat case_match. }
  intros [fuel peerAS rx peer h buf m me ok peer' Hb Hd|]; [|apply Herr]. revert Hd.
  unfold DecodeMessage. destruct (BGPMessage_Decode fuel peer h buf) as [mm|[t s d|]| |] eqn:Em; try done.
  2:{ intros [= <- <- <- <-]. apply Herr. }
  apply BGPMessage_Decode_body in Em as (Eh & Ht & Hopen).
  destruct (Body mm) as [[body| |body|body]|] eqn:Eb; cbn in Ht.
  - destruct (GetPeerAS body); try done. res_simpl.
    destruct (negb _); [intros [= <- <- <- <-]; apply Herr|].
    destruct (GetASSize body) eqn:Es; try done. res_simpl. intros [= <- <- <- <-].
    do 3 eexists. unfold packet_event. cbn [of_option]. res_simpl. rewrite Eh, Ht. split; [done|].
    destruct (BGPOpen_Decode_fields _ _ _ Hb (Hopen _ eq_refl)). cbn. rewrite Eb. unfold open_ok. by rewrite Es.
  - intros [= <- <- <- <-]. do 3 eexists. unfold packet_event. cbn [of_option]. res_simpl. rewrite Eh, Ht. by split.
  - intros [= <- <- <- <-]. do 3 eexists. unfold packet_event. cbn [of_option]. res_simpl. rewrite Eh, Ht. split; [done|]. cbn. by rewrite Eb.
  - intros [= <- <- <- <-]. do 3 eexists. unfold packet_event. cbn [of_option]. res_simpl. rewrite Eh, Ht, Eb. by split.
  - intros [= <- <- <- <-]. destruct Ht as (H1 & H2 & H3 & H4). do 3 eexists. unfold packet_event. cbn [of_option]. res_simpl.
    rewrite Eh, !(proj2 (Z.eqb_neq _ _)) by done. by split.
Qed.

(** ** The cases of the select *)

(** A sequence of events moves the machine along the table. *)
Inductive path (b : bool) : BGPState -> list BGPFSMEvent -> BGPState -> Prop :=
| path_nil s : path b s [] s
| path_snoc s es s1 e opened : path b s es s1 -> path b s (es ++ [e]) (next b opened s1 e).

Definition on_path (a : nat) (b : bool) (s : BGPState) (es : list BGPFSMEvent) (f : FSM) (w : World) : Prop :=
  exists s', path b s es s' /\ during a b false (needs_conn s') s' f w.

Lemma neutral_on_path a b s es m :
  neutral m -> triple (on_path a b s es) m (fun _ => on_path a b s es).
Proof.
  intros Hm f w (s' & Hp & H). destruct (Hm _ _ _ _ _ f w H) as (x & f' & w' & E & H').
  exists x, f', w'. split; [done|]. by exists s'.
Qed.

Lemma ProcessEvent_on_path a b s es e data :
  data_ok e data ->
  triple (on_path a b s es) (ProcessEvent env e data) (fun _ => on_path a b s (es ++ [e])).
Proof.
  intros Hd f w (s' & Hp & H). destruct (ProcessEvent_moved a b false s' e data Hd f w H)
    as (x & f' & w' & E & opened & c & s'' & H' & Hm & _).
  destruct (Hm eq_refl) as [-> ->]. exists x, f', w'. split; [done|].
  exists (next b opened s' e). split; [by constructor|done].
Qed.

(** The events a case of the select processes, for a machine in state [s]. *)
Definition input_events (s : BGPState) (f : FSM) (i : Input) : list BGPFSMEvent :=
  match i with
  | InOutConn _ => if outTCPConn f then [BGPEventTcpCrAcked] else []
  | InOutConnErr errId =>
    if negb (errId =? 0) && negb (errId =? connId f) then [] else [BGPEventTcpConnFails]
  | InInConn _ => [BGPEventTcpConnConfirmed]
  | InClose => [BGPEventManualStop]
  | InPassive _ => []
  | InPkt msg msgErr => match packet_event msg msgErr with Ok (e, _, _) => [e] | _ => [] end
  | InEvent e _ => [e; BGPEventAutoStart]
  | InBfd status =>
    (if negb status || (state_of s <? state_of OpenSent) then [BGPEventAutoStop] else [])
    ++ [BGPEventAutoStart]
  | InConnectRetryTimer => [BGPEventConnRetryTimerExp]
  | InHoldTimer => [BGPEventHoldTimerExp]
  | InKeepAliveTimer => [BGPEventKeepAliveTimerExp]
  | InIdleHoldTimer => [BGPEventIdleHoldTimerExp]
  | InRestartTimer =>
    [if passiveTcpEst f then
       if dampPeerOscl f then BGPEventAutoStartDampPeerOsclPassTcpEst else BGPEventAutoStartPassTcpEst
     else if dampPeerOscl f then BGPEventAutoStartDampPeerOscl
     else BGPEventAutoStart]
  end.

(** The commands and StopFSM send these events. *)
Definition input_ok (i : Input) : Prop :=
  match i with
  | InPkt msg msgErr => received_ok msg msgErr
  | InEvent e _ => is_command e = true \/ e = BGPEventTcpConnFails
  | _ => True
  end.

Lemma is_command_data e : is_command e = true \/ e = BGPEventTcpConnFails -> data_ok e DataNil.
Proof. intros [H| ->]; [by destruct e|done]. Qed.

Lemma self_bind {A} (k : FSM -> M A) f w : (self ≫= k) (f, w) = k f (f, w).
Proof. done. Qed.

Lemma bind_ok {A B} (m : M A) (k : A -> M B) s x s' : m s = Ok (x, s') -> (m ≫= k) s = k x s'.
Proof. intros H. unfold mbind, M_bind. by rewrite H. Qed.

Lemma current_state_eq f w s : State f = Some s -> current_state (f, w) = Ok (s, (f, w)).
Proof. intros H. unfold current_state, self, lift, mbind, M_bind. cbn [fst]. by rewrite H. Qed.

Lemma select_on_path a b s i f w :
  input_ok i -> i <> InClose -> during a b false (needs_conn s) s f w ->
  exists f' w', select_case env i (f, w) = Ok (tt, (f', w')) /\
    on_path a b s (input_events s f i) f' w'.
Proof.
  intros Hi Hc H.
  assert (on_path a b s [] f w) as H0 by (exists s; split; [constructor|done]).
  assert (forall (m : M unit) es, triple (on_path a b s []) m (fun _ => on_path a b s es) ->
    exists f' w', m (f, w) = Ok (tt, (f', w')) /\ on_path a b s es f' w') as Hrun.
  { intros m es Hm. destruct (Hm f w H0) as (u & f' & w' & E & Hp). destruct u. eauto. }
  destruct i as [conn|errId|conn| |val|msg msgErr|e reason|status| | | | |].
  all: cbn [select_case input_events];
    try done; try (by apply Hrun, (ProcessEvent_on_path a b s [])).
  - (* an outgoing connection *) rewrite self_bind.
    destruct (outTCPConn f); cbn [negb]; apply Hrun.
    + eapply triple_bind; [apply neutral_on_path, StopConnToPeer_neutral|]. intros ?.
      eapply triple_bind; [apply neutral_on_path, set_outTCPConn_neutral|]. intros ?.
      by apply (ProcessEvent_on_path a b s []).
    + apply neutral_on_path, emit_neutral.
  - (* a connection error *)
    assert (exists f1 w1, StopConnToPeer (f, w) = Ok (tt, (f1, w1)) /\ on_path a b s [] f1 w1 /\
      connId f1 = connId f) as (f1 & w1 & E & H1 & Ec).
    { destruct (neutral_on_path a b s [] _ StopConnToPeer_neutral f w H0) as (u & f1 & w1 & E & H1). destruct u.
      exists f1, w1. split_and!; [done|done|]. revert E. unfold StopConnToPeer, self, mbind, M_bind. cbn [fst].
      destruct (outTCPConn f); by intros [= <- _]. }
    rewrite (bind_ok _ _ _ _ _ E), self_bind, Ec.
    destruct (negb (errId =? 0) && _); [by eauto|].
    assert (triple (on_path a b s [])
      (modify (set_outTCPConn false);; ProcessEvent env BGPEventTcpConnFails (DataConnErr errId);;
       f ← self; if negb (close f) then emit (OutTcpConnFailCh (id f)) else skip)
      (fun _ => on_path a b s [BGPEventTcpConnFails])) as Ht.
    { eapply triple_bind; [apply neutral_on_path, set_outTCPConn_neutral|]. intros ?.
      eapply triple_bind; [by apply (ProcessEvent_on_path a b s [])|]. intros ?.
      apply triple_read_self. intros f0. apply neutral_on_path, neutral_if; [apply emit_neutral|apply neutral_skip]. }
    destruct (Ht f1 w1 H1) as (u & f' & w' & E' & H'). destruct u. eauto.
  - apply Hrun, neutral_on_path, SetPassive_neutral.
  - (* a packet *) destruct (received_packet _ _ Hi) as (e & data & counted & E & Hd). rewrite E.
    unfold ProcessPacket. rewrite (bind_ok _ _ _ (e, data, counted) (f, w)) by (unfold lift; by rewrite E).
    apply Hrun.
    eapply triple_bind; [apply neutral_on_path, neutral_if; [by apply neutral_neighborConf|apply neutral_skip]|].
    intros ?. by apply (ProcessEvent_on_path a b s []).
  - apply Hrun. eapply triple_bind.
    { apply neutral_on_path, neutral_if; [|apply neutral_skip]. intros a' b' cl' c' s'.
      apply triple_read_world. intros w0. apply set_restartTime_neutral. }
    intros ?. eapply triple_bind; [by apply (ProcessEvent_on_path a b s []), is_command_data|]. intros ?.
    eapply triple_bind; [apply neutral_on_path, set_restartTime_neutral|]. intros ?.
    by apply (ProcessEvent_on_path a b s [e]).
  - rewrite (bind_ok _ _ _ _ _ (current_state_eq _ _ _ (during_State _ _ _ _ _ _ _ H))).
    destruct status; cbn [negb orb].
    + destruct (state_of s <? state_of OpenSent); apply Hrun.
      * eapply triple_bind; [by apply (ProcessEvent_on_path a b s [])|]. intros ?.
        by apply (ProcessEvent_on_path a b s [_]).
      * eapply triple_bind; [apply neutral_on_path, neutral_skip|]. intros ?.
        by apply (ProcessEvent_on_path a b s []).
    + apply Hrun. eapply triple_bind; [by apply (ProcessEvent_on_path a b s [])|]. intros ?.
      by apply (ProcessEvent_on_path a b s [_]).
  - unfold sendAutoStartEvent. rewrite self_bind.
    destruct (passiveTcpEst f), (dampPeerOscl f); by apply Hrun, (ProcessEvent_on_path a b s []).
Qed.

Lemma select_close a b s f w :
  during a b false (needs_conn s) s f w ->
  exists f' w' c, select_case env InClose (f, w) = Ok (tt, (f', w')) /\ during a b true c s f' w'.
Proof.
  intros H. cbn [select_case].
  assert (during a b true (needs_conn s) s (set_close true f) w) as H' by (destruct H; by constructor).
  destruct (ProcessEvent_moved a b true s BGPEventManualStop DataNil I _ _ H')
    as (u & f' & w' & E & _ & c & s' & Hd & _ & Hs). destruct u. rewrite (Hs eq_refl eq_refl) in Hd.
  exists f', w', c. split; [|done]. exact E.
Qed.

(** ** The system *)

Lemma during_of_world a f w s :
  world_ok w -> objs w !! a = Some f -> State f = Some s -> close f = false ->
  during a (bfd_down (neighborConf w)) false (needs_conn s) s f w.
Proof.
  intros [Hm Ho] Hf Hs Hcl. destruct (Ho a f Hf) as (Ha & Hb & s' & Hs' & Hc). simplify_eq.
  constructor; try done; [by apply Hc|]. intros a' f' Ha' _. by apply Ho.
Qed.

Lemma world_of_during a b cl c s f w :
  during a b cl c s f w -> (cl = false -> c = needs_conn s) ->
  world_ok (set_objs (<[a := f]> (objs w)) w).
Proof.
  intros [] Hc. split.
  - destruct during_mgr0 as (H1 & H2 & H3 & H4). split_and!; try done; cbn [set_objs objs fsms].
    + intros i r Hr. destruct (H2 i r Hr). destruct (decide (r = a)) as [->|].
      * by rewrite lookup_insert_eq.
      * by rewrite lookup_insert_ne.
    + intros r g. rewrite lookup_insert_Some. intros [[_ <-]|[_ Hg]]; [by rewrite during_State0|by eapply H3].
  - cbn. intros r g. rewrite lookup_insert_Some. intros [[<- <-]|[Hne Hg]]; [|by apply during_others0].
    split_and!; [done|done|]. exists s. split; [done|]. intros Hcl. rewrite during_conn0. apply Hc. congruence.
Qed.

Lemma run_ok a m f f' w w' :
  objs w !! a = Some f -> m (f, w) = Ok (tt, (f', w')) -> run a m w = Ok (set_objs (<[a := f']> (objs w')) w').
Proof. intros H E. unfold run. by rewrite H, E. Qed.

(** A case of the select, run from an invariant world. *)
Lemma machine_step w a f i :
  world_ok w -> objs w !! a = Some f -> close f = false -> input_ok i ->
  exists w', run a (select_case env i) w = Ok w' /\ world_ok w'.
Proof.
  intros Hw Hf Hcl Hi. destruct Hw as [Hm Ho]. pose proof (Ho a f Hf) as (_ & _ & s & Hs & _).
  pose proof (during_of_world a f w s (conj Hm Ho) Hf Hs Hcl) as Hd.
  assert (i = InClose \/ i <> InClose) as [-> | Hne] by (destruct i; (by left) || by right).
  - destruct (select_close _ _ _ _ _ Hd) as (f' & w' & c & E & H').
    eexists. split; [by eapply run_ok|]. by eapply world_of_during.
  - destruct (select_on_path _ _ _ i _ _ Hi Hne Hd) as (f' & w' & E & s' & _ & H').
    eexists. split; [by eapply run_ok|]. by eapply world_of_during.
Qed.

Lemma push_ok o w : world_ok w -> world_ok (push o w).
Proof. intros [(?&?&?&?) ?]. by split. Qed.

Lemma NewFSM_base a i n : conf_small n -> fsm_base (NewFSM a i n).
Proof. intros (?&?&?&?). unfold fsm_base, NewFSM. cbn. lia. Qed.

Lemma start_ok a b s f w :
  during a b false (needs_conn s) s f w -> needs_conn s = false ->
  exists f' w' s', start env (f, w) = Ok (tt, (f', w')) /\ during a b false (needs_conn s') s' f' w'.
Proof.
  intros H Hs. unfold start. rewrite self_bind, (during_State _ _ _ _ _ _ _ H).
  rewrite bool_decide_false by done.
  assert (needs_conn (target b s) = needs_conn s) as Ht by (destruct s, b; done).
  assert (triple (during a b false (needs_conn s) s)
    (skip;; s0 ← current_state; enter s0;; ProcessEvent env BGPEventAutoStart DataNil)
    (fun _ => on_path a b (target b s) [BGPEventAutoStart])) as Htr.
  { eapply triple_bind; [apply triple_skip|]. intros ?.
    eapply triple_bind; [apply current_state_ok|]. intros s0. intros f0 w0 [-> H0]. revert f0 w0 H0.
    eapply triple_bind; [apply enter_ok|]. intros ?. rewrite <- Ht. intros f0 w0 H0.
    apply (ProcessEvent_on_path a b (target b s) []); [done|].
    exists (target b s). split; [constructor|done]. }
  destruct (Htr f w H) as (u & f' & w' & E & s' & _ & H'). destruct u. eauto.
Qed.

Lemma launch_ok i s w :
  world_ok w -> needs_conn s = false ->
  exists a w', launch env i s w = Ok (a, w') /\ world_ok w'.
Proof.
  intros [(H1 & H2 & H3 & H4) Ho] Hs. unfold launch. cbv zeta.
  set (a := fresh_addr w). set (f := set_State (Some s) (NewFSM a i (neighborConf w))).
  set (w0 := set_fsms _ _).
  assert (Hd : during a (bfd_down (neighborConf w)) false (needs_conn s) s f w0).
  { assert (forall r, is_Some (objs w !! r) -> is_Some (<[a := f]> (objs w) !! r)) as Hin.
    { intros r Hr. destruct (decide (r = a)) as [->|].
      - by rewrite lookup_insert_eq.
      - by rewrite lookup_insert_ne. }
    constructor; try done.
    - by apply NewFSM_base.
    - split_and!; [done| | |]; cbn [w0 set_fsms set_objs fsms objs activeFSM].
      + intros j r. rewrite lookup_insert_Some. intros [[_ <-]|[_ Hr]].
        * by rewrite lookup_insert_eq.
        * by apply Hin, (H2 j).
      + intros r g. rewrite lookup_insert_Some. intros [[_ <-]|[_ Hg]]; [done|by eapply H3].
      + destruct H4 as [H4|H4]; [by left|right]. destruct (decide (activeFSM w = i)) as [->|].
        * by rewrite lookup_insert_eq.
        * by rewrite lookup_insert_ne.
    - cbn. by rewrite lookup_insert_eq.
    - cbn. intros r g. rewrite lookup_insert_Some. intros [[<- _]|[_ Hg]] Hne; [done|by apply Ho]. }
  destruct (start_ok _ _ _ _ _ Hd Hs) as (f' & w' & s' & E & H').
  rewrite (run_ok a (start env) f f' w0 w'); [|cbn; by rewrite lookup_insert_eq|done].
  do 2 eexists. split; [done|]. apply push_ok. by eapply world_of_during.
Qed.

Lemma set_conf_ok n w : conf_small n -> world_ok w -> world_ok (set_neighborConf n w).
Proof. intros Hn [(?&?&?&?) ?]. by split. Qed.

Lemma mgr_fsmBroken_ok i w : world_ok w -> world_ok (mgr_fsmBroken i w).
Proof.
  intros H. unfold mgr_fsmBroken. destruct (_ =? _); [|done]. apply push_ok.
  destruct H as [(?&?&?&?) ?]. split; [|done]. split_and!; try done. by left.
Qed.

Lemma mgr_fsmStateChange_ok i st w : world_ok w -> world_ok (mgr_fsmStateChange i st w).
Proof.
  intros H. unfold mgr_fsmStateChange. destruct (_ || _); [|done]. apply set_conf_ok; [|done].
  by destruct H as [(?&?) ?].
Qed.

Lemma mgr_fsmBroken_active i w :
  activeFSM (mgr_fsmBroken i w) <> i \/ activeFSM (mgr_fsmBroken i w) = ConnDirInvalid.
Proof.
  unfold mgr_fsmBroken. destruct (Z.eqb_spec (activeFSM w) i); [by right|by left].
Qed.

Lemma delete_ok i w :
  world_ok w -> activeFSM w <> i \/ activeFSM w = ConnDirInvalid ->
  world_ok (set_fsms (delete i (fsms w)) w).
Proof. intros [Hm Ho] Hi. split; [by apply mgr_ok_delete|done]. Qed.

Lemma mgr_fsmClose_ok i w : world_ok w -> world_ok (mgr_fsmClose i w).
Proof.
  intros H. unfold mgr_fsmClose. destruct (fsms w !! i) as [r|]; [|done].
  apply delete_ok; [by apply mgr_fsmBroken_ok, push_ok|apply mgr_fsmBroken_active].
Qed.

Lemma foldl_ok {A} (g : World -> A -> World) l w :
  (forall w x, world_ok w -> world_ok (g w x)) -> world_ok w -> world_ok (foldl g w l).
Proof. intros Hg. revert w. induction l as [|x l IH]; intros w Hw; [done|]. apply IH. by apply Hg. Qed.

Lemma mgr_step w i : world_ok w -> exists w', mgr_case env i w = Ok w' /\ world_ok w'.
Proof.
  intros H. destruct i as [conn|i|i dir conn| | |e reason|status]; cbn [mgr_case].
  - eexists. split; [done|]. unfold mgr_Accept. destruct (negb _); [by apply push_ok|].
    destruct (existsb _ _); [by apply push_ok|]. destruct (map_to_list (fsms w)) as [|[? r] ?]; [done|].
    by apply push_ok.
  - eexists. split; [done|]. unfold fsmTcpConnFailed. destruct (_ && _); [by apply mgr_fsmClose_ok|done].
  - unfold handleAnotherConnection. destruct (fsms w !! _); [by eexists|].
    destruct (dir =? ConnDirOut).
    + destruct (launch_ok (getNewId i) Connect w H eq_refl) as (a & w' & -> & H').
      eexists. split; [done|]. by apply push_ok.
    + destruct (launch_ok (getNewId i) Active w H eq_refl) as (a & w' & -> & H').
      eexists. split; [done|]. by apply push_ok.
  - eexists. split; [done|]. apply foldl_ok; [|done]. intros w' [j r] Hw. by apply mgr_fsmBroken_ok, push_ok.
  - eexists. split; [done|]. apply foldl_ok; [|done]. intros w' [j r] Hw. cbv zeta.
    apply delete_ok; [by apply mgr_fsmStateChange_ok, mgr_fsmBroken_ok, push_ok|].
    pose proof (mgr_fsmBroken_active j (push (OutCloseCh r) w')) as Ha.
    unfold mgr_fsmStateChange. by destruct (_ || _).
  - eexists. split; [done|]. destruct (is_command e); [|done]. apply foldl_ok; [|done].
    intros w' [j r] Hw. by apply push_ok.
  - eexists. split; [done|]. apply foldl_ok; [|done]. intros w' [j r] Hw. by apply push_ok.
Qed.

(** What may happen next: an input of a machine that still runs, one of the
    manager, or a change of the configuration that keeps it within its bounds. *)
Definition enabled (w : World) (x : Action) : Prop :=
  match x with
  | ActMachine a i => (exists f, objs w !! a = Some f /\ close f = false) /\ input_ok i
  | ActManager _ => True
  | ActConf n => conf_small n
  end.

Inductive reachable (n : NeighborConf) : World -> Prop :=
| reach_init w : mgr_Init env (NewFSMManager n) = Ok w -> reachable n w
| reach_act w x w' : reachable n w -> enabled w x -> act env x w = Ok w' -> reachable n w'.

Lemma act_ok w x : world_ok w -> enabled w x -> exists w', act env x w = Ok w' /\ world_ok w'.
Proof.
  intros H He. destruct x as [a i|i|n]; cbn [act enabled] in *.
  - destruct He as [(f & Hf & Hcl) Hi]. by apply (machine_step w a f).
  - by apply mgr_step.
  - eexists. split; [done|]. by apply set_conf_ok.
Qed.

Lemma new_manager_ok n : conf_small n -> world_ok (NewFSMManager n).
Proof. intros Hn. split; [|done]. split_and!; try done. by left. Qed.

Lemma init_ok n : conf_small n -> exists w, mgr_Init env (NewFSMManager n) = Ok w /\ world_ok w.
Proof.
  intros Hn. unfold mgr_Init.
  destruct (launch_ok ConnDirOut NewIdleState _ (new_manager_ok n Hn) eq_refl) as (a & w & -> & H).
  by exists w.
Qed.

Lemma reachable_ok n w : conf_small n -> reachable n w -> world_ok w.
Proof.
  intros Hn H. induction H as [w Hw|w x w' _ IH He Hx].
  - destruct (init_ok n Hn) as (w' & E & H). congruence.
  - destruct (act_ok w x IH He) as (w1 & E & H). congruence.
Qed.

End Machine.

(** ** The properties *)


Definition quiet_env : Env := mkEnv (fun _ => true) (fun _ _ => 0) (fun _ => 7).

Definition example_neighbor : NeighborConf :=
  NewNeighborConf (mkGlobalConfig 65001 [10; 0; 0; 1]) None
    (mkNeighborConfig (set_LocalAS 65001 zero_BaseConfig) [10; 0; 0; 2] 0 "" "" false).

Lemma example_neighbor_small : conf_small example_neighbor.
Proof.
  unfold conf_small. split_and!; try (vm_compute; by split); try by vm_compute.
  repeat constructor; by vm_compute.
Qed.

Definition example_world : World := match mgr_Init quiet_env (NewFSMManager example_neighbor) with
                                    | Ok w => w | _ => NewFSMManager example_neighbor end.


(** C2: the code refines the transition table [next]. A running machine of a reachable
    world whose configuration keeps the bounds of [conf_small] takes every input, its
    packets as the reader decodes them and its commands those that are sent to it. Told
    to close, it stays in the state it is in and is closing, where the table would lead
    to Idle; any other input moves it along the events the input stands for, one after
    the other, each by the table. A start leads to Active instead of Connect while BFD
    reports the neighbor down. The sending of UPDATEs (pktTxCh) is no input here. *)
Theorem machine_refines_table env n w a f s i :
  conf_small n -> reachable env n w -> objs w !! a = Some f -> State f = Some s ->
  close f = false -> input_ok i ->
  exists w' f' s', act env (ActMachine a i) w = Ok w' /\ objs w' !! a = Some f' /\ State f' = Some s' /\
    match i with
    | InClose => s' = s /\ close f' = true
    | _ => path (bfd_down (neighborConf w)) s (input_events s f i) s' /\ close f' = false
    end.
Proof.
  intros Hn Hr Hf Hs Hcl Hi.
  pose proof (during_of_world a f w s (reachable_ok env n w Hn Hr) Hf Hs Hcl) as Hd.
  assert (i = InClose \/ i <> InClose) as [->|Hne] by (destruct i; (by left) || by right).
  - destruct (select_close env _ _ _ _ _ Hd) as (f' & w' & c & E & H').
    exists (set_objs (<[a := f']> (objs w')) w'), f', s. destruct H'. split_and!; try done.
    + by apply (run_ok a _ f).
    + cbn. by rewrite lookup_insert_eq.
  - destruct (select_on_path env _ _ _ i _ _ Hi Hne Hd) as (f' & w' & E & s' & Hp & H').
    exists (set_objs (<[a := f']> (objs w')) w'), f', s'. destruct H'. split_and!; [| |done|by destruct i].
    + by apply (run_ok a _ f).
    + cbn. by rewrite lookup_insert_eq.
Qed.

Lemma machine_refines_table_witness :
  exists w' f' s', act quiet_env (ActMachine 0 (InOutConn 5)) example_world = Ok w' /\
    objs w' !! 0%nat = Some f' /\ State f' = Some s' /\ path false Connect [BGPEventTcpCrAcked] s' /\ close f' = false.
Proof.
  destruct (objs example_world !! 0%nat) as [f|] eqn:E; [|vm_compute in E; discriminate E].
  assert (State f = Some Connect /\ close f = false /\ outTCPConn f = true) as (Hs & Hc & Ho)
    by (vm_compute in E; injection E as <-; done).
  pose proof (machine_refines_table quiet_env example_neighbor example_world 0 f Connect (InOutConn 5)
    example_neighbor_small (reach_init quiet_env example_neighbor example_world ltac:(vm_compute; reflexivity))
    E Hs Hc I) as H.
  cbn [input_events] in H. rewrite Ho in H. exact H.
Defined.
