(* ===== verification/BgpFsmSession.v ===== *)
(** * The life of a session

    How the state machine of src/bgp/fsm/fsm.go opens a session, negotiates its
    hold time, resolves a connection collision and tears the session down. *)

From S2P Require Import Prelude.
From S2P Require Import BgpOpen.
From S2P Require Import BgpNlri.
From S2P Require Import BgpAsPath.
From S2P Require Import BgpAttr.
From S2P Require Import BgpUpdate.
From S2P Require Import BgpHelpers.
From S2P Require Import BgpNormalize.
From S2P Require Import BgpNeighbor.
From S2P Require Import BgpFsm.
From S2P Require Import BgpFsmSafety.

(** ** Tearing down *)

(** The NOTIFICATION an event is answered with, in a state with a connection. *)
Definition notification (s : BGPState) (e : BGPFSMEvent) (data : EventData) : option (Z * Z * bytes) :=
  match e with
  | BGPEventManualStop | BGPEventAutoStop | BGPEventOpenCollisionDump => Some (BGPCease, 0, [])
  | BGPEventHoldTimerExp => Some (BGPHoldTimerExpired, 0, [])
  | BGPEventHeaderErr | BGPEventOpenMsgErr =>
    match s, data with
    | (OpenSent | OpenConfirm), DataErr t sub d => Some (t, sub, d)
    | Established, _ => Some (BGPFSMError, 0, [])
    | _, _ => None
    end
  | BGPEventUpdateMsgErr =>
    match s, data with
    | OpenSent, _ => Some (BGPFSMError, 0, [])
    | OpenConfirm, _ => Some (BGPCease, 0, [])
    | Established, DataErr t sub d => Some (t, sub, d)
    | _, _ => None
    end
  | BGPEventConnRetryTimerExp | BGPEventDelayOpenTimerExp | BGPEventIdleHoldTimerExp
  | BGPEventBGPOpenDelayOpenTimer =>
    Some (match s with OpenConfirm => BGPCease | _ => BGPFSMError end, 0, [])
  | BGPEventUpdateMsg =>
    match s with
    | OpenSent => Some (BGPFSMError, 0, [])
    | OpenConfirm => Some (BGPCease, 0, [])
    | _ => None
    end
  | BGPEventKeepAliveTimerExp | BGPEventNotifMsg | BGPEventKeepAliveMsg =>
    match s with OpenSent => Some (BGPFSMError, 0, []) | _ => None end
  | _ => None
  end.

(** What is written before the connection is given up: the NOTIFICATION, if there is one. *)
Definition notification_bytes (code sub : Z) (d : bytes) : bytes :=
  replicate 16 255 ++ be16 (21 + len d) ++ [BGPMsgTypeNotification] ++ [code; sub] ++ d.

Definition farewell (conn : Z) (ok : bool) (reply : option (Z * Z * bytes)) : list Output :=
  match reply with Some (code, sub, d) => [OutWrite conn (notification_bytes code sub d) ok] | None => [] end.

(** The NOTIFICATION fits into a message. *)
Definition fits (reply : option (Z * Z * bytes)) : Prop :=
  match reply with Some (_, _, d) => len d <= 4075 | None => True end.

(** A machine back in Idle, with nothing of the session of [f] left and a restart due. *)
Definition released (f f' : FSM) : Prop :=
  State f' = Some (Idle false) /\ peerConn f' = None /\ outTCPConn f' = false /\
  connectRetryTimer f' = None /\ holdTimer f' = None /\ keepAliveTimer f' = None /\
  idleHoldTimer f' = idleHoldTimer f /\ restartTimer f' = Some (restartTime f').

Section Session.
Context (env : Env).

(** The operations that follow the NOTIFICATION, in the two orders the code has. *)
Definition teardown (count : M unit) : M unit :=
  StopConnectRetryTimer;; ClearPeerConn;; StopConnToPeer;; count;; ChangeState NewIdleState.
Definition teardown' (count : M unit) : M unit :=
  ClearPeerConn;; StopConnToPeer;; StopConnectRetryTimer;; count;; ChangeState NewIdleState.

Lemma SetHoldTime_eq h k f w :
  exists h' k', SetHoldTime h k (f, w) = Ok (tt, (set_keepAliveTime k' (set_holdTime h' f), w)).
Proof.
  unfold SetHoldTime. destruct (_ || _); [|by exists h, k].
  exists (holdTime f), (keepAliveTime f). by destruct f.
Qed.

Lemma SetConfHoldTime_eq f w :
  exists h k, SetConfHoldTime (f, w) = Ok (tt, (set_keepAliveTime k (set_holdTime h f), w)).
Proof. apply SetHoldTime_eq. Qed.

Lemma leave_eq s f w :
  needs_conn s = true ->
  exists h k, leave s (f, w) = Ok (tt, (set_keepAliveTime k (set_holdTime h f), w)).
Proof.
  intros Hn. assert (forall g, exists h k, g = set_keepAliveTime k (set_holdTime h g)) as Heta.
  { intros g. exists (holdTime g), (keepAliveTime g). by destruct g. }
  destruct s; try done; cbn [leave].
  - destruct (Heta f) as (h & k & E). exists h, k. by rewrite <- E.
  - destruct (Heta f) as (h & k & E). exists h, k. by rewrite <- E.
  - apply SetConfHoldTime_eq.
Qed.

Lemma enter_Idle_eq f w :
  exists f' w', enter_Idle (f, w) = Ok (tt, (f', w')) /\ trace w' = trace w /\ activeFSM w' = activeFSM w /\
    State f' = State f /\ peerConn f' = peerConn f /\ outTCPConn f' = outTCPConn f /\ id f' = id f /\
    connectRetryTimer f' = connectRetryTimer f /\ holdTimer f' = None /\ keepAliveTimer f' = None /\
    idleHoldTimer f' = idleHoldTimer f /\ restartTimer f' = Some (restartTime f').
Proof.
  unfold enter_Idle, ApplyAutomaticStart.
  destruct (SetConfHoldTime_eq (set_holdTimer None (set_keepAliveTimer None f)) (set_acceptConn false w))
    as (h & k & E).
  do 2 eexists. split.
  { do 3 (erewrite bind_ok by reflexivity). rewrite (bind_ok _ _ _ _ _ E). reflexivity. }
  by split_and!.
Qed.

Lemma fsmBroken_eq i f w :
  exists w' rest, fsmBroken i (f, w) = Ok (tt, (f, w')) /\ trace w' = trace w ++ rest /\
    (activeFSM w = i -> activeFSM w' = ConnDirInvalid /\ OutFsmConnCh false None ∈ rest).
Proof.
  unfold fsmBroken, world, mbind, M_bind. cbn [snd]. destruct (Z.eqb_spec (activeFSM w) i).
  - do 2 eexists. split; [reflexivity|]. split; [reflexivity|]. intros _. split; [done|]. by left.
  - exists w, []. split_and!; [done|by rewrite app_nil_r|done].
Qed.

Lemma fsmStateChange_eq i st f w :
  exists w', fsmStateChange i st (f, w) = Ok (tt, (f, w')) /\ trace w' = trace w /\ activeFSM w' = activeFSM w.
Proof.
  unfold fsmStateChange, world, mbind, M_bind. cbn [snd].
  destruct (_ || _); eexists; (split; [reflexivity|done]).
Qed.

Lemma ChangeState_Idle_released f w s :
  close f = false -> State f = Some s -> needs_conn s = true -> peerConn f = None ->
  outTCPConn f = false -> connectRetryTimer f = None ->
  exists f' w' rest, ChangeState NewIdleState (f, w) = Ok (tt, (f', w')) /\
    trace w' = trace w ++ rest /\ released f f' /\
    (s = Established -> activeFSM w = id f ->
       activeFSM w' = ConnDirInvalid /\ OutFsmConnCh false None ∈ rest).
Proof.
  intros Hcl Hs Hn Hp Ho Hc. unfold ChangeState, change_state. rewrite self_bind, Hcl.
  rewrite (bind_ok _ _ _ _ _ (current_state_eq f w s Hs)).
  destruct (leave_eq s f w Hn) as (h & k & E1). rewrite (bind_ok _ _ _ _ _ E1).
  erewrite bind_ok by reflexivity. cbn [fst snd].
  set (f1 := set_State (Some NewIdleState) _).
  destruct (enter_Idle_eq f1 w) as (f2 & w2 & E2 & Ht & Ha & HS & HP & HO & HI & HC & HH & HK & HD & HR).
  change (enter NewIdleState) with enter_Idle. rewrite (bind_ok _ _ _ _ _ E2).
  rewrite (bind_ok _ _ _ _ _ (current_state_eq f2 w2 NewIdleState HS)).
  change (is_Established NewIdleState) with false. cbn [negb]. rewrite andb_true_r, andb_false_r.
  assert (exists w3 rest, (if is_Established s then ConnBroken else skip) (f2, w2) = Ok (tt, (f2, w3)) /\
    trace w3 = trace w2 ++ rest /\
    (s = Established -> activeFSM w = id f -> activeFSM w3 = ConnDirInvalid /\ OutFsmConnCh false None ∈ rest))
    as (w3 & rest & E3 & Ht3 & Ha3).
  { destruct (is_Established s) eqn:Ee.
    - destruct (fsmBroken_eq (id f2) f2 w2) as (w3 & rest & E3 & Ht3 & Ha3). exists w3, rest.
      split_and!; [exact E3|done|]. intros _ Hact. apply Ha3. by rewrite Ha, HI.
    - exists w2, []. split_and!; [done|by rewrite app_nil_r|]. intros ->. done. }
  rewrite (bind_ok _ _ _ _ _ E3), self_bind.
  destruct (fsmStateChange_eq (id f2) (state_of NewIdleState) f2 w3) as (w4 & E4 & Ht4 & Ha4).
  exists f2, w4, rest. split_and!; [done|congruence| |].
  - split_and!; [by rewrite HS|by rewrite HP|by rewrite HO|by rewrite HC|done..].
  - intros Hes Hact. rewrite Ha4. by apply Ha3.
Qed.

Lemma StopConnToPeer_eq f w :
  exists rest, StopConnToPeer (f, w)
    = Ok (tt, (set_outTCPConn false f, set_trace (trace w ++ rest) w)).
Proof.
  unfold StopConnToPeer. rewrite self_bind. destruct (outTCPConn f) eqn:E.
  - exists [OutStopConnCh]. reflexivity.
  - exists []. rewrite app_nil_r. unfold skip, mret, M_ret.
    assert (set_outTCPConn false f = f) as -> by (destruct f; cbn in *; by subst).
    assert (set_trace (trace w) w = w) as -> by by destruct w. done.
Qed.

(** A counter operation touches the counter only. *)
Definition counts (m : M unit) : Prop :=
  forall f w, exists n, m (f, w) = Ok (tt, (set_connectRetryCounter n f, w)).

Lemma ClearPeerConn_eq f w pc :
  peerConn f = Some pc ->
  ClearPeerConn (f, w) = Ok (tt, (set_peerConn None (set_connId 0 (set_holdTimer None (set_keepAliveTimer None f))),
    set_trace (trace w ++ [OutStopReading (pc_conn pc)]) w)).
Proof. intros H. unfold ClearPeerConn. rewrite self_bind, H. reflexivity. Qed.

Lemma teardown_released count f w s pc :
  counts count -> close f = false -> State f = Some s -> needs_conn s = true -> peerConn f = Some pc ->
  forall m, m = teardown count \/ m = teardown' count ->
  exists f' w' rest, m (f, w) = Ok (tt, (f', w')) /\
    trace w' = trace w ++ OutStopReading (pc_conn pc) :: rest /\ released f f' /\
    (s = Established -> activeFSM w = id f ->
       activeFSM w' = ConnDirInvalid /\ OutFsmConnCh false None ∈ rest).
Proof.
  intros Hcount Hcl Hs Hn Hp m Hm.
  assert (exists f1 w1 n r1, m (f, w) = ChangeState NewIdleState (set_connectRetryCounter n f1, w1) /\
    trace w1 = trace w ++ OutStopReading (pc_conn pc) :: r1 /\ activeFSM w1 = activeFSM w /\
    close f1 = false /\ State f1 = Some s /\ peerConn f1 = None /\ outTCPConn f1 = false /\
    connectRetryTimer f1 = None /\ idleHoldTimer f1 = idleHoldTimer f /\ id f1 = id f)
    as (f1 & w1 & n & r1 & E & Ht & Ha & Hc1 & Hs1 & Hp1 & Ho1 & Hr1 & Hd1 & Hi1).
  { destruct Hm as [-> | ->].
    - unfold teardown. erewrite bind_ok by reflexivity. cbn [fst snd].
      rewrite (bind_ok _ _ _ _ _ (ClearPeerConn_eq (set_connectRetryTimer None f) w pc Hp)).
      edestruct StopConnToPeer_eq as [r1 E1]. rewrite (bind_ok _ _ _ _ _ E1).
      edestruct Hcount as [n E2]. rewrite (bind_ok _ _ _ _ _ E2).
      do 2 eexists. exists n, r1. split; [reflexivity|]. cbn. by rewrite <- app_assoc.
    - unfold teardown'. rewrite (bind_ok _ _ _ _ _ (ClearPeerConn_eq f w pc Hp)).
      edestruct StopConnToPeer_eq as [r1 E1]. rewrite (bind_ok _ _ _ _ _ E1).
      erewrite bind_ok by reflexivity. cbn [fst snd].
      edestruct Hcount as [n E2]. rewrite (bind_ok _ _ _ _ _ E2).
      do 2 eexists. exists n, r1. split; [reflexivity|]. cbn. by rewrite <- app_assoc. }
  destruct (ChangeState_Idle_released (set_connectRetryCounter n f1) w1 s) as (f' & w' & rest & E' & Ht' & Hrel & Hest);
    [done..|].
  exists f', w', (r1 ++ rest). split_and!; [by rewrite E| | |].
  - by rewrite Ht', Ht, <- app_assoc.
  - unfold released in *. cbn in Hrel. by rewrite Hd1 in Hrel.
  - intros He Hact. destruct Hest as [? ?]; [done|cbn; congruence|]. split; [done|]. set_solver.
Qed.

Lemma NewBGPNotificationMessage_bytes code sub d :
  len d <= 4075 ->
  BGPMessage_Encode (NewBGPNotificationMessage code sub d) = Ok (notification_bytes code sub d).
Proof.
  intros H. pose proof (len_nonneg d). unfold BGPMessage_Encode, NewBGPNotificationMessage.
  cbn [Body Header hdr_Length hdr_Type BGPBody_Encode]. res_simpl.
  unfold BGPNotification_Encode. cbn [ErrorCode ErrorSubcode NotifData BGPBody_Encode]. res_simpl.
  replace (u16 (21 + u16 (len d))) with (21 + len d) by zlia.
  rewrite (proj2 (Z.eqb_neq _ _)) by lia. res_simpl. rewrite header_encode_ok. res_simpl.
  reflexivity.
Qed.

Lemma SendNotificationMessage_eq code sub d f w pc :
  len d <= 4075 -> peerConn f = Some pc ->
  exists w', SendNotificationMessage env code sub d (f, w) = Ok (tt, (f, w')) /\
    trace w' = trace w ++ [OutWrite (pc_conn pc) (notification_bytes code sub d) (write_ok env (ticks w))] /\
    activeFSM w' = activeFSM w.
Proof.
  intros Hd Hp. unfold SendNotificationMessage.
  rewrite (bind_ok _ _ _ (notification_bytes code sub d) (f, w))
    by (unfold Encode_ignoring_error; by rewrite NewBGPNotificationMessage_bytes).
  assert (conn_Write env (notification_bytes code sub d) (f, w) = Ok (write_ok env (ticks w),
    (f, set_trace (trace w ++ [OutWrite (pc_conn pc) (notification_bytes code sub d) (write_ok env (ticks w))])
      (set_ticks (S (ticks w)) w)))) as Hw.
  { unfold conn_Write. by rewrite self_bind, Hp. }
  rewrite (bind_ok _ _ _ _ _ Hw). destruct (write_ok env (ticks w)); eexists; (split; [reflexivity|done]).
Qed.

Lemma send_teardown_released count f w s pc code sub d m :
  counts count -> close f = false -> State f = Some s -> needs_conn s = true -> peerConn f = Some pc ->
  len d <= 4075 -> m = teardown count \/ m = teardown' count ->
  exists f' w' rest, (SendNotificationMessage env code sub d;; m) (f, w) = Ok (tt, (f', w')) /\
    trace w' = trace w ++ OutWrite (pc_conn pc) (notification_bytes code sub d) (write_ok env (ticks w))
                 :: OutStopReading (pc_conn pc) :: rest /\
    released f f' /\
    (s = Established -> activeFSM w = id f ->
       activeFSM w' = ConnDirInvalid /\ OutFsmConnCh false None ∈ rest).
Proof.
  intros Hcount Hcl Hs Hn Hp Hd Hm.
  destruct (SendNotificationMessage_eq code sub d f w pc Hd Hp) as (w1 & E1 & Ht1 & Ha1).
  rewrite (bind_ok _ _ _ _ _ E1).
  destruct (teardown_released count f w1 s pc Hcount Hcl Hs Hn Hp m Hm) as (f' & w' & rest & E & Ht & Hr & Hest).
  exists f', w', rest. split_and!; [done| |done|].
  - by rewrite Ht, Ht1, <- app_assoc.
  - intros. by apply Hest; [|congruence].
Qed.

Lemma SetConnectRetryCounter_counts n : counts (SetConnectRetryCounter n).
Proof. intros f w. by exists n. Qed.
Lemma IncrConnectRetryCounter_counts : counts IncrConnectRetryCounter.
Proof. intros f w. by exists (connectRetryCounter f + 1). Qed.
Lemma skip_counts : counts skip.
Proof. intros f w. exists (connectRetryCounter f). by destruct f. Qed.

End Session.


Definition example_machine (s : BGPState) : FSM :=
  set_peerConn (Some (mkPeerConn ConnDirOut 5 9)) (set_State (Some s) (NewFSM 0 0 example_neighbor)).

Definition example_active : World := set_activeFSM 0 example_world.


(** ** Opening *)

(** A computation that leaves the running machine alone. *)
Definition keeps_self {A} (m : M A) : Prop :=
  forall f w x f' w', m (f, w) = Ok (x, (f', w')) -> f' = f.

Lemma keeps_bind {A B} (m : M A) (k : A -> M B) :
  keeps_self m -> (forall x, keeps_self (k x)) -> keeps_self (m ≫= k).
Proof.
  intros Hm Hk f w x f' w'. unfold mbind, M_bind. destruct (m (f, w)) as [[y [f1 w1]]| | |] eqn:E; try done.
  apply Hm in E as ->. apply Hk.
Qed.

Lemma keeps_ret {A} (a : A) : keeps_self (mret a).
Proof. intros f w x f' w' H. injection H. congruence. Qed.
Lemma keeps_world : keeps_self world.
Proof. intros f w x f' w' H. injection H. congruence. Qed.
Lemma keeps_modify_world g : keeps_self (modify_world g).
Proof. intros f w x f' w' H. injection H. congruence. Qed.
Lemma keeps_lift {A} (r : res A) : keeps_self (lift r).
Proof. intros f w x f' w'. unfold lift. destruct r; try done. intros H. injection H. congruence. Qed.
Lemma keeps_sync : keeps_self sync.
Proof. intros f w x f' w' H. injection H. congruence. Qed.
Lemma keeps_fsmClose i : keeps_self (fsmClose i).
Proof. intros f w x f' w'. rewrite fsmClose_eq. intros H. injection H. congruence. Qed.
Lemma keeps_deref r : keeps_self (deref r).
Proof. apply keeps_bind; [apply keeps_world|]. intros. apply keeps_lift. Qed.

#[export] Hint Resolve keeps_bind keeps_ret keeps_world keeps_modify_world keeps_lift keeps_sync
  keeps_fsmClose keeps_deref : fsm.

Lemma keeps_find_dir d l : keeps_self (find_dir d l).
Proof.
  induction l as [|[i r] l IH]; cbn [find_dir]; [auto with fsm|].
  apply keeps_bind; [auto with fsm|]. intros g. destruct (has_dir g d); auto with fsm.
Qed.

Lemma keeps_resolve i d x y l cd : keeps_self (resolve_collision i d x y l cd).
Proof.
  revert cd. induction l as [|[j r] l IH]; intros cd; cbn [resolve_collision]; [auto with fsm|].
  apply keeps_bind; [auto with fsm|]. intros w. destruct (fsms w !! j); [|done].
  apply keeps_bind; [auto with fsm|]. intros g. apply keeps_bind; [auto with fsm|]. intros st.
  destruct (negb (j =? i) && _); [|done]. cbv zeta.
  apply keeps_bind; [apply keeps_bind; [auto with fsm|]; intros; apply keeps_find_dir|]. auto with fsm.
Qed.

Lemma keeps_receivedBGPOpenMessage i d body : keeps_self (receivedBGPOpenMessage i d body).
Proof.
  unfold receivedBGPOpenMessage. apply keeps_bind; [auto with fsm|]. intros _.
  apply keeps_bind; [auto with fsm|]. intros w. cbv zeta.
  apply keeps_bind; [auto with fsm|]. intros x. apply keeps_bind; [auto with fsm|]. intros y.
  apply keeps_bind; [apply keeps_resolve|]. intros cd. apply keeps_bind; [|auto with fsm].
  destruct (_ || _); [|apply keeps_ret].
  apply keeps_bind; [auto with fsm|]. intros sz. apply keeps_bind; [auto with fsm|]. intros w'.
  destruct (fsms w' !! i); [|apply keeps_ret]. apply keeps_bind; [auto with fsm|]. auto with fsm.
Qed.

(** The hold time after an OPEN: the smaller one, but an offer of 1 or 2 seconds
    is passed over. *)
Definition negotiated (offered configured : Z) : Z :=
  if (offered <? configured) && negb ((0 <? offered) && (offered <? 3)) then offered else configured.

(** hold time negotiation. Whatever else an OPEN does, after it the machine's
    hold time is the smaller of its own and the peer's, and the keepalive time is
    a third of the hold time when the peer's was taken; an offer of 1 or 2 seconds
    is neither taken nor refused. *)
Theorem hold_time_negotiated msg body f w ok f' w' :
  Body msg = Some (BodyOpen body) -> is_u16 (HoldTime body) ->
  ProcessOpenMessage msg (f, w) = Ok (ok, (f', w')) ->
  holdTime f' = negotiated (HoldTime body) (holdTime f) /\
  keepAliveTime f' = (if holdTime f' =? holdTime f then keepAliveTime f else HoldTime body / 3) /\
  (State f', peerConn f', close f') = (State f, peerConn f, close f).
Proof.
  intros Hb Hh. unfold ProcessOpenMessage. rewrite Hb, self_bind.
  assert (exists f1, (if HoldTime body <? holdTime f then SetHoldTime (HoldTime body) (HoldTime body / 3) else skip)
    (f, w) = Ok (tt, (f1, w)) /\ holdTime f1 = negotiated (HoldTime body) (holdTime f) /\
    keepAliveTime f1 = (if holdTime f1 =? holdTime f then keepAliveTime f else HoldTime body / 3) /\
    (State f1, peerConn f1, close f1) = (State f, peerConn f, close f)) as (f1 & E1 & H1 & H2 & H3).
  { unfold negotiated, SetHoldTime. unfold is_u16 in Hh. rewrite (proj2 (Z.ltb_ge (HoldTime body) 0)) by lia. cbn [orb].
    destruct (Z.ltb_spec (HoldTime body) (holdTime f)); cbn [andb].
    - destruct ((0 <? HoldTime body) && (HoldTime body <? 3)); cbn [negb].
      + exists f. by rewrite Z.eqb_refl.
      + eexists. split; [reflexivity|]. cbn. by rewrite (proj2 (Z.eqb_neq _ _)) by lia.
    - exists f. by rewrite Z.eqb_refl. }
  rewrite (bind_ok _ _ _ _ _ E1). erewrite bind_ok by reflexivity. cbn [fst snd].
  do 2 (erewrite bind_ok by reflexivity; cbn [fst snd]). rewrite self_bind. cbn [peerConn set_afiSafiMap set_peerType].
  destruct (peerConn f1) as [pc|] eqn:Ep; [|done].
  erewrite bind_ok by reflexivity. intros E. apply keeps_receivedBGPOpenMessage in E as ->.
  cbn [holdTime keepAliveTime State close peerConn set_afiSafiMap set_peerType]. by rewrite Ep in *.
Qed.

Definition example_open (hold : Z) : BGPOpen := sent_open 65002 hold [10; 0; 0; 2] [] false 0.
Definition example_open_message (hold : Z) : BGPMessage :=
  mkBGPMessage (mkBGPHeader 0 BGPMsgTypeOpen) (Some (BodyOpen (example_open hold))).

Lemma hold_time_negotiated_witness :
  exists ok f' w',
    ProcessOpenMessage (example_open_message 90) (example_machine OpenSent, example_world) = Ok (ok, (f', w')) /\
    holdTime f' = negotiated 90 180 /\ keepAliveTime f' = 30.
Proof.
  destruct (ProcessOpenMessage (example_open_message 90) (example_machine OpenSent, example_world))
    as [[ok [f' w']]| | |] eqn:E; [|vm_compute in E; discriminate E..].
  exists ok, f', w'. split; [reflexivity|].
  destruct (hold_time_negotiated (example_open_message 90) (example_open 90) (example_machine OpenSent)
    example_world ok f' w' eq_refl ltac:(vm_compute; by split) E) as (H1 & H2 & _).
  split; [exact H1|]. rewrite H2, H1. reflexivity.
Defined.

(** ** Collisions *)

Lemma two_machines (i j : Z) (a b : nat) :
  i <> j -> map_to_list ({[i := a; j := b]} : gmap Z nat) = [(i, a); (j, b)] \/
            map_to_list ({[i := a; j := b]} : gmap Z nat) = [(j, b); (i, a)].
Proof.
  intros Hij. assert (map_to_list ({[i := a; j := b]} : gmap Z nat) ≡ₚ [(i, a); (j, b)]) as Hp.
  { rewrite map_to_list_insert by by rewrite lookup_singleton_ne. by rewrite map_to_list_singleton. }
  symmetry in Hp. by apply Permutation_length_2_inv in Hp.
Qed.

Section Collision.
Context (i j d e : Z) (a b : nat) (f g : FSM) (t : BGPState) (x y : Z).
Hypothesis Hij : i <> j.
Hypothesis Hde : d <> e.
Hypothesis Hf : has_dir f d = true.
Hypothesis Hg : has_dir g e = true.
Hypothesis Ht : State g = Some t.
Hypothesis Hopen : state_of OpenSent <= state_of t.
Hypothesis Hab : a <> b.

Lemma has_dir_unique h p q : has_dir h p = true -> has_dir h q = (q =? p).
Proof.
  unfold has_dir. destruct (peerConn h); [|done]. intros ->%Z.eqb_eq. apply Z.eqb_sym.
Qed.

(** The two machines as the manager sees them. *)
Record colliding (w : World) : Prop := {
  colliding_fsms : fsms w = {[i := a; j := b]};
  colliding_f : objs w !! a = Some f;
  colliding_g : objs w !! b = Some g;
}.

Lemma find_dir_two w q l h :
  colliding w -> l = [(i, a); (j, b)] \/ l = [(j, b); (i, a)] ->
  find_dir q l (h, w) = Ok (if q =? d then i else if q =? e then j else ConnDirInvalid, (h, w)).
Proof.
  intros [_ Hf' Hg'] Hl.
  assert (forall k r u, objs w !! r = Some u -> forall l', find_dir q ((k, r) :: l') (h, w)
    = (if has_dir u q then mret k else find_dir q l') (h, w)) as Hstep.
  { intros k r u Hr l'. cbn [find_dir]. by rewrite (bind_ok _ _ _ _ _ (deref_eq r u h w Hr)). }
  destruct Hl as [-> | ->]; rewrite ?(Hstep i a f), ?(Hstep j b g) by done;
    rewrite ?(has_dir_unique f d q Hf), ?(has_dir_unique g e q Hg);
    destruct (Z.eqb_spec q d), (Z.eqb_spec q e); try (subst; done);
    rewrite ?(Hstep i a f), ?(Hstep j b g) by done;
    rewrite ?(has_dir_unique f d q Hf), ?(has_dir_unique g e q Hg);
    destruct (Z.eqb_spec q d), (Z.eqb_spec q e); subst; done.
Qed.

(** The direction that loses. *)
Definition loser : Z :=
  if state_of t =? state_of Established then d else if y <? x then ConnDirIn else ConnDirOut.

Definition loser_id : Z := if loser =? d then i else if loser =? e then j else ConnDirInvalid.

(** Once the other machine is dealt with nothing is left to compare. *)
Lemma resolve_self l w cd :
  (forall p, p ∈ l -> p = (i, a)) -> objs w !! a = Some f -> is_Some (State f) ->
  resolve_collision i d x y l cd (f, w) = Ok (cd, (f, w)).
Proof.
  intros Hl Ha [s Hs]. induction l as [|[k r] l IH]; cbn [resolve_collision]; [done|].
  assert ((k, r) = (i, a)) as [= -> ->] by (apply Hl; by left).
  assert (IH' : resolve_collision i d x y l cd (f, w) = Ok (cd, (f, w))).
  { apply IH. intros p Hp. apply Hl. by right. }
  unfold world at 1. rewrite (bind_ok _ _ (f, w) w (f, w)) by done.
  destruct (fsms w !! i); [|exact IH'].
  rewrite (bind_ok _ _ _ _ _ (deref_eq a f f w Ha)).
  rewrite (bind_ok _ _ _ s (f, w)) by (unfold lift; by rewrite Hs).
  by rewrite Z.eqb_refl.
Qed.

Lemma resolve_two w :
  colliding w -> is_Some (State f) ->
  resolve_collision i d x y (map_to_list (fsms w)) ConnDirInvalid (f, w)
  = Ok (loser, (f, mgr_fsmClose loser_id w)).
Proof.
  intros Hw Hs. pose proof Hw as [Hm Ha Hb]. rewrite Hm.
  assert (forall cd l, (forall p, p ∈ l -> p = (i, a)) ->
    resolve_collision i d x y ((j, b) :: l) cd (f, w) = Ok (loser, (f, mgr_fsmClose loser_id w))) as Hj.
  { intros cd l Hl. cbn [resolve_collision]. rewrite (bind_ok _ _ (f, w) w (f, w)) by done.
    assert (fsms w !! j = Some b) as -> by (rewrite Hm; by simplify_map_eq).
    rewrite (bind_ok _ _ _ _ _ (deref_eq b g f w Hb)).
    rewrite (bind_ok _ _ _ t (f, w)) by (unfold lift; by rewrite Ht).
    rewrite (proj2 (Z.eqb_neq j i)) by done. cbn [negb andb].
    rewrite (proj2 (Z.leb_le _ _)) by done. cbv zeta. fold loser.
    rewrite (bind_ok _ _ _ loser_id (f, w)).
    2:{ unfold getFSMIdByDir. rewrite (bind_ok _ _ (f, w) w (f, w)) by done.
        apply find_dir_two; [done|]. rewrite Hm. by apply two_machines. }
    rewrite (bind_ok _ _ _ _ _ (fsmClose_eq loser_id f w)).
    apply resolve_self; [done|by rewrite mgr_fsmClose_objs|done]. }
  destruct (two_machines i j a b Hij) as [-> | ->].
  - cbn [resolve_collision]. rewrite (bind_ok _ _ (f, w) w (f, w)) by done.
    assert (fsms w !! i = Some a) as -> by (rewrite Hm; by simplify_map_eq).
    rewrite (bind_ok _ _ _ _ _ (deref_eq a f f w Ha)). destruct Hs as [s Hs].
    rewrite (bind_ok _ _ _ s (f, w)) by (unfold lift; by rewrite Hs).
    rewrite Z.eqb_refl. cbn [negb andb]. apply (Hj ConnDirInvalid []). intros p Hp. by apply elem_of_nil in Hp.
  - apply Hj. intros p Hp. by apply list_elem_of_singleton in Hp.
Qed.

End Collision.

Lemma mgr_fsmClose_eq i r w :
  fsms w !! i = Some r ->
  fsms (mgr_fsmClose i w) = delete i (fsms w) /\ OutCloseCh r ∈ trace (mgr_fsmClose i w).
Proof.
  intros H. unfold mgr_fsmClose, mgr_fsmBroken. rewrite H.
  destruct (_ =? _); cbn; (split; [done|]); set_solver.
Qed.

Lemma sync_eq f w : sync (f, w) = Ok (tt, (f, set_objs (<[addr f := f]> (objs w)) w)).
Proof. done. Qed.

(** C5: a connection collision leaves one machine. When an OPEN arrives at a machine
    while the neighbor's other machine, whose connection has the other direction,
    is in OpenSent or beyond, exactly one of them is closed and taken off the
    manager's map, and the answer tells the first machine whether it stays: an
    established machine stays; otherwise the one whose connection was opened by
    the side with the higher identifier, as ConvertIPBytesToUint numbers them. *)
Theorem collision_resolved i j d e a b f g t body x y sz w :
  i <> j -> d <> e -> d = ConnDirOut \/ d = ConnDirIn -> e = ConnDirOut \/ e = ConnDirIn ->
  has_dir f d = true -> has_dir g e = true -> State g = Some t -> state_of OpenSent <= state_of t ->
  a <> b -> addr f = a -> is_Some (State f) -> fsms w = {[i := a; j := b]} -> objs w !! b = Some g ->
  ConvertIPBytesToUint (To4 (g_RouterId (Global (neighborConf w)))) = Ok x ->
  ConvertIPBytesToUint (To4 (BGPId body)) = Ok y -> GetASSize body = Ok sz ->
  let keep := negb (is_Established t) && (if y <? x then d =? ConnDirOut else d =? ConnDirIn) in
  exists w', receivedBGPOpenMessage i d body (f, w) = Ok (keep, (f, w')) /\
    fsms w' = (if keep then {[i := a]} else {[j := b]}) /\
    OutCloseCh (if keep then b else a) ∈ trace w'.
Proof.
  intros Hij Hde Hd He Hf Hg Ht Ho Hab Ha Hs Hm Hb Hx Hy Hsz keep.
  unfold receivedBGPOpenMessage. rewrite (bind_ok _ _ _ _ _ (sync_eq f w)), Ha.
  set (w1 := set_objs _ w).
  assert (colliding i j a b f g w1) as Hw1.
  { constructor; [done|cbn; by rewrite lookup_insert_eq|cbn; by rewrite lookup_insert_ne]. }
  rewrite (bind_ok _ _ (f, w1) w1 (f, w1)) by done. cbv zeta.
  rewrite (bind_ok _ _ _ x (f, w1)) by (unfold lift; cbn [w1 set_objs neighborConf]; by rewrite Hx).
  rewrite (bind_ok _ _ _ y (f, w1)) by (unfold lift; by rewrite Hy).
  rewrite (bind_ok _ _ _ _ _ (resolve_two i j d e a b f g t x y Hij Hde Hf Hg Ht Ho w1 Hw1 Hs)).
  change (ConnDirInvalid =? ConnDirInvalid) with true. cbn [orb].
  assert (negb (loser d t x y =? d) = keep /\
    loser_id i j d e t x y = (if keep then j else i)) as [Hk Hl].
  { unfold loser_id, loser, keep, is_Established. destruct (state_of t =? state_of Established); cbn [negb andb].
    - by rewrite Z.eqb_refl.
    - destruct (y <? x), Hd, He; subst; done. }
  destruct (mgr_fsmClose_eq (loser_id i j d e t x y) (if keep then b else a) w1) as [Hf2 Ht2].
  { rewrite Hl, (colliding_fsms _ _ _ _ _ _ _ Hw1). destruct keep; by simplify_map_eq. }
  rewrite Hl, (colliding_fsms _ _ _ _ _ _ _ Hw1) in Hf2. rewrite Hl in Ht2.
  rewrite Hl. set (w2 := mgr_fsmClose _ w1) in *.
  assert (fsms w2 = if keep then {[i := a]} else {[j := b]}) as Hf2'.
  { rewrite Hf2. clear -Hij. destruct keep; [|apply delete_insert_id; by simplify_map_eq].
    rewrite delete_insert_ne by done. by rewrite delete_singleton_eq. }
  assert (objs w2 !! a = Some f) as Ha2.
  { subst w2. rewrite mgr_fsmClose_objs. by destruct Hw1. }
  exists (if keep then set_neighborConf (SetPeerAttrs (BGPId body) sz (holdTime f) (keepAliveTime f)
      (GetAddPathFamily body) (neighborConf w2)) w2 else w2).
  split; [|destruct keep; done].
  rewrite (bind_ok _ _ _ tt (f, if keep then set_neighborConf (SetPeerAttrs (BGPId body) sz (holdTime f)
      (keepAliveTime f) (GetAddPathFamily body) (neighborConf w2)) w2 else w2)); [by rewrite Hk|].
  rewrite (bind_ok _ _ _ sz (f, w2)) by (unfold lift; by rewrite Hsz).
  rewrite (bind_ok _ _ (f, w2) w2 (f, w2)) by done. rewrite Hf2'.
  destruct keep.
  - rewrite lookup_singleton_eq. by rewrite (bind_ok _ _ _ _ _ (deref_eq a f f w2 Ha2)).
  - by rewrite lookup_singleton_ne.
Qed.

Definition example_other (s : BGPState) : FSM :=
  set_peerConn (Some (mkPeerConn ConnDirIn 6 8)) (set_State (Some s) (NewFSM 1 1 example_neighbor)).

Definition example_collision : World :=
  set_fsms {[0 := 0%nat; 1 := 1%nat]} (set_objs (<[1%nat := example_other OpenSent]> (objs example_world))
    example_world).

Lemma collision_resolved_witness :
  exists w', receivedBGPOpenMessage 0 ConnDirOut (example_open 90) (example_machine OpenSent, example_collision)
      = Ok (false, (example_machine OpenSent, w')) /\
    fsms w' = {[1 := 1%nat]} /\ OutCloseCh 0 ∈ trace w'.
Proof.
  assert (ConvertIPBytesToUint (To4 (g_RouterId (Global (neighborConf example_collision)))) = Ok 167772161) as Hx
    by by vm_compute.
  exact (collision_resolved 0 1 ConnDirOut ConnDirIn 0 1 (example_machine OpenSent) (example_other OpenSent)
    OpenSent (example_open 90) 167772161 167772162 4 example_collision ltac:(done) ltac:(done)
    (or_introl eq_refl) (or_intror eq_refl) eq_refl eq_refl eq_refl ltac:(done) ltac:(done) eq_refl
    ltac:(by eexists) eq_refl ltac:(by vm_compute) Hx ltac:(by vm_compute) ltac:(by vm_compute)).
Defined.

(** ** Frames *)

(** What every step of a computation relates. *)
Definition framed (R : FSM * World -> FSM * World -> Prop) {A} (m : M A) : Prop :=
  forall s x s', m s = Ok (x, s') -> R s s'.

Section Frame.
Context (R : FSM * World -> FSM * World -> Prop) `{!PreOrder R}.

Lemma framed_bind {A B} (m : M A) (k : A -> M B) :
  framed R m -> (forall x, framed R (k x)) -> framed R (m ≫= k).
Proof.
  intros Hm Hk s x s'. unfold mbind, M_bind. destruct (m s) as [[y s1]| | |] eqn:E; try done.
  intros Ek. etransitivity; [by eapply Hm|by eapply Hk].
Qed.

Lemma framed_ret {A} (x : A) : framed R (mret x).
Proof. by intros s y s' [= _ <-]. Qed.
Lemma framed_self : framed R self.
Proof. by intros s y s' [= _ <-]. Qed.
Lemma framed_world : framed R world.
Proof. by intros s y s' [= _ <-]. Qed.
Lemma framed_panic {A} : framed R (@panic A).
Proof. by intros s y s'. Qed.
Lemma framed_lift {A} (r : res A) : framed R (lift r).
Proof. intros s y s'. unfold lift. destruct r; try done. by intros [= _ <-]. Qed.
Lemma framed_modify g : (forall f w, R (f, w) (g f, w)) -> framed R (modify g).
Proof. intros H [f w] y s' [= _ <-]. apply H. Qed.
Lemma framed_modify_world g : (forall f w, R (f, w) (f, g w)) -> framed R (modify_world g).
Proof. intros H [f w] y s' [= _ <-]. apply H. Qed.
Lemma framed_tick : (forall f w n, R (f, w) (f, set_ticks n w)) -> framed R tick.
Proof. intros H [f w] y s' [= _ <-]. apply H. Qed.
End Frame.

(** The machine's number, place and connection, and the manager's map. *)
Definition same_session (s s' : FSM * World) : Prop :=
  id s'.1 = id s.1 /\ addr s'.1 = addr s.1 /\ peerConn s'.1 = peerConn s.1 /\ close s'.1 = close s.1 /\
  fsms s'.2 = fsms s.2.

#[export] Instance same_session_preorder : PreOrder same_session.
Proof.
  split; [by intros [f w]|]. intros s1 s2 s3 (?&?&?&?&?) (?&?&?&?&?). split_and!; congruence.
Qed.

Ltac frame :=
  repeat lazymatch goal with
  | |- forall _, _ => intros ?
  | |- framed _ (mbind _ _) => apply framed_bind; [apply _| |]
  | |- framed _ (mret _) => apply framed_ret; apply _
  | |- framed _ skip => apply framed_ret; apply _
  | |- framed _ (emit _) => unfold emit
  | |- framed _ (let _ := _ in _) => cbv zeta
  | |- framed _ self => apply framed_self; apply _
  | |- framed _ world => apply framed_world; apply _
  | |- framed _ panic => apply framed_panic
  | |- framed _ (lift _) => apply framed_lift; apply _
  | |- framed _ (modify _) => apply framed_modify; intros [] ?; by split_and!
  | |- framed _ (modify_world _) => apply framed_modify_world; intros ? ?; by split_and!
  | |- framed _ tick => apply framed_tick; intros ? ? ?; by split_and!
  | |- framed _ (if ?b then _ else _) => destruct b
  | |- framed _ (match ?o with Some _ => _ | None => _ end) => destruct o
  | |- framed _ (match BGPMessage_Encode ?m with _ => _ end) => destruct (BGPMessage_Encode m)
  end.

Section Framed.
Context (env : Env).

Lemma framed_StartConnectRetryTimer : framed same_session (StartConnectRetryTimer env).
Proof. unfold StartConnectRetryTimer, StopConnectRetryTimer, draw_Int63n. frame. Qed.
Lemma framed_StartKeepAliveTimer : framed same_session (StartKeepAliveTimer env).
Proof. unfold StartKeepAliveTimer, StopKeepAliveTimer, draw_Int63n. frame. Qed.
Lemma framed_SetConfHoldTime : framed same_session SetConfHoldTime.
Proof. unfold SetConfHoldTime, SetHoldTime, skip. frame. Qed.
Lemma framed_conn_Write pkt : framed same_session (conn_Write env pkt).
Proof. unfold conn_Write, emit. frame. Qed.
Lemma framed_Encode msg : framed same_session (Encode_ignoring_error msg).
Proof. unfold Encode_ignoring_error. frame. Qed.
Lemma framed_sendOpenMessage : framed same_session (sendOpenMessage env).
Proof.
  unfold sendOpenMessage, skip.
  frame; first [apply framed_Encode|apply framed_conn_Write].
Qed.
Lemma framed_sendKeepAliveMessage : framed same_session (sendKeepAliveMessage env).
Proof.
  unfold sendKeepAliveMessage.
  frame; first [apply framed_Encode|apply framed_conn_Write|apply framed_StartKeepAliveTimer].
Qed.
Lemma framed_StartHoldTimer : framed same_session StartHoldTimer.
Proof. unfold StartHoldTimer, StopHoldTimer, skip. frame. Qed.

Lemma framed_leave s : framed same_session (leave s).
Proof. destruct s; cbn [leave]; unfold StopIdleHoldTimer, skip; frame. apply framed_SetConfHoldTime. Qed.

Lemma framed_fsmBroken i : framed same_session (fsmBroken i).
Proof. unfold fsmBroken, emit, skip. frame. Qed.
Lemma framed_fsmEstablished i c : framed same_session (fsmEstablished i c).
Proof. unfold fsmEstablished, emit, skip. frame. Qed.
Lemma framed_fsmStateChange i st : framed same_session (fsmStateChange i st).
Proof. unfold fsmStateChange, skip. frame. Qed.

Lemma framed_change_state enter s :
  framed same_session (enter s) -> framed same_session (change_state enter s).
Proof.
  intros He. unfold change_state, current_state, ConnBroken, ConnEstablished, skip.
  frame; first [apply framed_leave|exact He|apply framed_fsmBroken|apply framed_fsmEstablished
               |apply framed_fsmStateChange].
Qed.

Lemma framed_enter s : framed same_session (enter s).
Proof.
  destruct s; cbn [enter]; unfold enter_Idle, enter_Connect, enter_Active, StopKeepAliveTimer, StopHoldTimer,
    RejectPeerConn, AcceptPeerConn, ApplyAutomaticStart, StartRestartTimer, StopRestartTimer, InitiateConnToPeer,
    SetIdleHoldTime, emit, skip; frame;
    first [apply framed_SetConfHoldTime | apply framed_change_state; unfold enter_Active, AcceptPeerConn; frame].
Qed.

Lemma framed_ChangeState s : framed same_session (ChangeState s).
Proof. apply framed_change_state, framed_enter. Qed.

End Framed.

Section Opens.
Context (env : Env).

Lemma SetPeerConn_eq dir conn f w :
  peerConn f = None ->
  exists n w', SetPeerConn env (DataConn dir conn) (f, w)
    = Ok (tt, (set_peerConn (Some (mkPeerConn dir conn n)) (set_connId n f), w')) /\ fsms w' = fsms w.
Proof.
  intros H. unfold SetPeerConn. rewrite self_bind, H.
  unfold tick, modify, self, mbind, M_bind. cbn [fst snd ticks set_ticks].
  destruct (_ =? connId f); do 2 eexists; (split; [reflexivity|done]).
Qed.

(** Accepting a connection in Active. *)
Lemma Active_accepts a b f w conn :
  during a b false false Active f w ->
  exists f' w' n, ProcessEvent env BGPEventTcpConnConfirmed (DataConn ConnDirIn conn) (f, w) = Ok (tt, (f', w')) /\
    during a b false true OpenSent f' w' /\ id f' = id f /\ fsms w' = fsms w /\
    peerConn f' = Some (mkPeerConn ConnDirIn conn n).
Proof.
  intros H. destruct (ProcessEvent_moved env a b false Active BGPEventTcpConnConfirmed (DataConn ConnDirIn conn) I
    f w H) as (u & f' & w' & E & opened & c' & s' & Hd & Hm & _). destruct u.
  destruct (Hm eq_refl) as [-> ->].
  assert (peerConn f = None) as Hp.
  { pose proof (during_conn _ _ _ _ _ _ _ H) as Hc. unfold has_conn in Hc. by destruct (peerConn f). }
  destruct (SetPeerConn_eq ConnDirIn conn (set_connectRetryTimer None (set_event BGPEventTcpConnConfirmed f)) w Hp)
    as (n & w1 & E1 & Hf1).
  exists f', w', n. split; [done|]. split; [done|]. revert E. unfold ProcessEvent.
  erewrite bind_ok by reflexivity. cbn [fst snd].
  rewrite (bind_ok _ _ _ _ _ (current_state_eq (set_event BGPEventTcpConnConfirmed f) w Active
    (during_State _ _ _ _ _ _ _ H))).
  cbn [processEvent Active_processEvent]. erewrite bind_ok by reflexivity. cbn [fst snd].
  rewrite (bind_ok _ _ _ _ _ E1). intros E.
  assert (framed same_session (sendOpenMessage env;; SetConfHoldTime;; StartHoldTimer;; ChangeState OpenSent)) as Hfr.
  { frame; first [apply framed_sendOpenMessage|apply framed_SetConfHoldTime|apply framed_StartHoldTimer
                 |apply framed_ChangeState]. }
  destruct (Hfr _ _ _ E) as (Hi & _ & Hpc & _ & Hfs). cbn in Hi, Hpc, Hfs. split_and!; congruence.
Qed.

Lemma resolve_alone i a d x y f w :
  fsms w = {[i := a]} -> objs w !! a = Some f -> is_Some (State f) ->
  resolve_collision i d x y (map_to_list (fsms w)) ConnDirInvalid (f, w) = Ok (ConnDirInvalid, (f, w)).
Proof.
  intros Hm Ha Hs. rewrite Hm, map_to_list_singleton. apply (resolve_self i d a f x y); [|done|done].
  intros p Hp. by apply list_elem_of_singleton in Hp.
Qed.

(** With no other machine an OPEN is accepted. *)
Lemma open_alone i d body f w x y sz :
  fsms w = {[i := addr f]} -> is_Some (State f) -> d <> ConnDirInvalid ->
  ConvertIPBytesToUint (To4 (g_RouterId (Global (neighborConf w)))) = Ok x ->
  ConvertIPBytesToUint (To4 (BGPId body)) = Ok y -> GetASSize body = Ok sz ->
  exists w', receivedBGPOpenMessage i d body (f, w) = Ok (true, (f, w')) /\ fsms w' = fsms w.
Proof.
  intros Hm Hs Hd Hx Hy Hsz. unfold receivedBGPOpenMessage. rewrite (bind_ok _ _ _ _ _ (sync_eq f w)).
  set (w1 := set_objs _ w).
  assert (objs w1 !! addr f = Some f) as Ha by (cbn; by rewrite lookup_insert_eq).
  rewrite (bind_ok _ _ (f, w1) w1 (f, w1)) by done. cbv zeta.
  rewrite (bind_ok _ _ _ x (f, w1)) by (unfold lift; cbn [w1 set_objs neighborConf]; by rewrite Hx).
  rewrite (bind_ok _ _ _ y (f, w1)) by (unfold lift; by rewrite Hy).
  rewrite (bind_ok _ _ _ _ _ (resolve_alone i (addr f) d x y f w1 Hm Ha Hs)).
  change (ConnDirInvalid =? ConnDirInvalid) with true. cbn [orb].
  exists (set_neighborConf (SetPeerAttrs (BGPId body) sz (holdTime f) (keepAliveTime f)
      (GetAddPathFamily body) (neighborConf w1)) w1). split; [|done].
  rewrite (bind_ok _ _ _ tt (f, set_neighborConf (SetPeerAttrs (BGPId body) sz (holdTime f) (keepAliveTime f)
      (GetAddPathFamily body) (neighborConf w1)) w1)).
  - by rewrite (proj2 (Z.eqb_neq ConnDirInvalid d)) by done.
  - rewrite (bind_ok _ _ _ sz (f, w1)) by (unfold lift; by rewrite Hsz).
    rewrite (bind_ok _ _ (f, w1) w1 (f, w1)) by done.
    assert (fsms w1 !! i = Some (addr f)) as -> by (cbn; rewrite Hm; by rewrite lookup_singleton_eq).
    by rewrite (bind_ok _ _ _ _ _ (deref_eq (addr f) f f w1 Ha)).
Qed.

(** An OPEN in OpenSent. *)
Lemma OpenSent_opens a b f w pc msg body :
  during a b false true OpenSent f w -> fsms w = {[id f := a]} -> peerConn f = Some pc ->
  pc_dir pc <> ConnDirInvalid -> Body msg = Some (BodyOpen body) -> open_ok body ->
  exists f' w', ProcessEvent env BGPEventBGPOpen (DataMsg msg) (f, w) = Ok (tt, (f', w')) /\
    during a b false true OpenConfirm f' w' /\ id f' = id f /\ fsms w' = fsms w /\ peerConn f' = Some pc.
Proof.
  intros H Hm Hp Hdir Hb Hok. set (f1 := set_connectRetryTimer None (set_event BGPEventBGPOpen f)).
  assert (during a b false true OpenSent f1 w) as H1.
  { destruct (during_base _ _ _ _ _ _ _ H). by eapply during_fsm_eq. }
  destruct (ProcessOpenMessage_ok a b false OpenSent msg body Hb Hok f1 w H1) as (ok & f2 & w2 & E2 & H2).
  assert (ok = true /\ same_session (f1, w) (f2, w2)) as [-> Hss].
  { revert E2. unfold ProcessOpenMessage. rewrite Hb, self_bind.
    destruct (SetHoldTime_eq (HoldTime body) (HoldTime body / 3) f1 w) as (h & k & E3).
    assert (exists g, (if HoldTime body <? holdTime f1 then SetHoldTime (HoldTime body) (HoldTime body / 3) else skip)
      (f1, w) = Ok (tt, (g, w)) /\ same_session (f1, w) (g, w) /\ State g = State f1) as (g & E4 & Hg & Hgs).
    { destruct (HoldTime body <? holdTime f1); [|by exists f1].
      exists (set_keepAliveTime k (set_holdTime h f1)). by rewrite E3. }
    rewrite (bind_ok _ _ _ _ _ E4). do 3 (erewrite bind_ok by reflexivity; cbn [fst snd]). rewrite self_bind.
    destruct Hg as (Hgi & Hga & Hgp & Hgc & _). cbn in Hgi, Hga, Hgp, Hgc.
    cbn [peerConn set_afiSafiMap set_peerType]. rewrite Hgp, Hp. erewrite bind_ok by reflexivity.
    pose proof (during_mgr _ _ _ _ _ _ _ H) as ((_ & _ & _ & _ & Hr & _) & _).
    destruct (ConvertIP_ok _ Hr) as [x Hx]. destruct Hok as (Hy & Hsz & _).
    destruct (ConvertIPBytesToUint (To4 (BGPId body))) as [y| | |] eqn:Ey; try done.
    destruct (GetASSize body) as [sz| | |] eqn:Esz; try done.
    set (f3 := set_afiSafiMap _ _).
    destruct (open_alone (id f3) (pc_dir pc) body f3 w x y sz) as (w3 & E5 & Hw3); try done.
    - cbn. rewrite Hm, Hgi, Hga. by rewrite (during_addr _ _ _ _ _ _ _ H).
    - cbn. rewrite Hgs. cbn. rewrite (during_State _ _ _ _ _ _ _ H). by eexists.
    - rewrite E5. intros [= <- <- <-]. split; [done|]. split_and!; done. }
  assert (triple (during a b false true OpenSent)
    (sendKeepAliveMessage env;; StartHoldTimer;; ChangeState OpenConfirm) (fun _ => during a b false true OpenConfirm)) as Ht.
  { eapply triple_bind; [apply sendKeepAliveMessage_ok|]. intros ?.
    eapply triple_bind; [apply StartHoldTimer_neutral|]. intros ?. by apply ChangeState_ok. }
  destruct (Ht f2 w2 H2) as (u & f' & w' & E & H'). destruct u.
  assert (framed same_session (sendKeepAliveMessage env;; StartHoldTimer;; ChangeState OpenConfirm)) as Hfr.
  { frame; first [apply framed_sendKeepAliveMessage|apply framed_StartHoldTimer|apply framed_ChangeState]. }
  destruct (Hfr _ _ _ E) as (Hi & _ & Hpc & _ & Hfs). destruct Hss as (Hi1 & _ & Hpc1 & _ & Hfs1). cbn in *.
  exists f', w'. split; [|split_and!; [done|congruence..]].
  unfold ProcessEvent. erewrite bind_ok by reflexivity. cbn [fst snd].
  rewrite (bind_ok _ _ _ _ _ (current_state_eq (set_event BGPEventBGPOpen f) w OpenSent
    (during_State _ _ _ _ _ _ _ H))).
  cbn [processEvent OpenSent_processEvent]. erewrite bind_ok by reflexivity. cbn [fst snd].
  fold f1. by rewrite (bind_ok _ _ _ _ _ E2).
Qed.

(** A KEEPALIVE in OpenConfirm. *)
Lemma OpenConfirm_establishes a b f w pc msg :
  during a b false true OpenConfirm f w -> is_Some (fsms w !! id f) -> peerConn f = Some pc ->
  exists f' w', ProcessEvent env BGPEventKeepAliveMsg (DataMsg msg) (f, w) = Ok (tt, (f', w')) /\
    State f' = Some Established /\ activeFSM w' = id f /\ OutFsmConnCh true (Some (pc_conn pc)) ∈ trace w'.
Proof.
  intros H Hm Hp. unfold ProcessEvent. erewrite bind_ok by reflexivity. cbn [fst snd].
  rewrite (bind_ok _ _ _ _ _ (current_state_eq (set_event BGPEventKeepAliveMsg f) w OpenConfirm
    (during_State _ _ _ _ _ _ _ H))).
  cbn [processEvent OpenConfirm_processEvent].
  assert (exists t, StartHoldTimer (set_event BGPEventKeepAliveMsg f, w)
    = Ok (tt, (set_holdTimer t (set_event BGPEventKeepAliveMsg f), w))) as [t E1].
  { unfold StartHoldTimer, StopHoldTimer, modify, self, mbind, M_bind. cbn [fst snd holdTime set_holdTimer].
    destruct (negb _); eexists; reflexivity. }
  rewrite (bind_ok _ _ _ _ _ E1). set (f1 := set_holdTimer t _).
  unfold ChangeState, change_state. rewrite self_bind.
  assert (close f1 = false) as -> by by destruct H.
  rewrite (bind_ok _ _ _ _ _ (current_state_eq f1 w OpenConfirm (during_State _ _ _ _ _ _ _ H))).
  do 3 (erewrite bind_ok by reflexivity; cbn [fst snd]).
  set (f2 := set_idleHoldTime _ _).
  rewrite (bind_ok _ _ _ _ _ (current_state_eq f2 w Established eq_refl)).
  change (is_Established OpenConfirm) with false. change (is_Established Established) with true. cbn [negb andb].
  destruct Hm as [r Hr].
  assert (ConnEstablished (f2, w) = Ok (tt, (f2, push (OutFsmConnCh true (Some (pc_conn pc)))
    (set_activeFSM (id f) w)))) as E2.
  { unfold ConnEstablished. rewrite self_bind. cbn [peerConn f2 set_idleHoldTime set_State f1 set_holdTimer set_event].
    rewrite Hp. erewrite bind_ok by reflexivity. unfold fsmEstablished.
    rewrite (bind_ok _ _ (f2, w) w (f2, w)) by done.
    cbn [id set_idleHoldTime set_State f1 set_holdTimer set_event f2]. rewrite Hr. reflexivity. }
  rewrite (bind_ok _ _ _ _ _ E2), self_bind.
  destruct (fsmStateChange_eq (id f2) (state_of Established) f2
    (push (OutFsmConnCh true (Some (pc_conn pc))) (set_activeFSM (id f) w))) as (w' & E3 & Ht & Ha).
  exists f2, w'. split_and!; [exact E3|done|by rewrite Ha|]. rewrite Ht. cbn. set_solver.
Qed.

End Opens.

Lemma ProcessPacket_eq env msg e data f w :
  packet_event (Some msg) None = Ok (e, data, false) ->
  select_case env (InPkt (Some msg) None) (f, w) = ProcessEvent env e data (f, w).
Proof.
  intros H. cbn [select_case]. unfold ProcessPacket.
  rewrite (bind_ok _ _ _ (e, data, false) (f, w)) by (unfold lift; by rewrite H). reflexivity.
Qed.

Lemma received_body msg :
  received_ok (Some msg) None -> body_matches (hdr_Type (Header msg)) (Body msg).
Proof.
  inversion 1 as [fuel peerAS rx peer h buf m me ok peer' Hb Hd|]; subst. revert Hd. unfold DecodeMessage.
  destruct (BGPMessage_Decode fuel peer h buf) as [mm|[t s d|]| |] eqn:Em; try done.
  apply BGPMessage_Decode_body in Em as (Eh & Ht & _).
  destruct (Body mm) as [[o| | |]|] eqn:Eb; try (intros [= <- <- <-]; by rewrite Eh, Eb).
  destruct (GetPeerAS o); try done. res_simpl. destruct (negb _); [done|].
  destruct (GetASSize o); try done. res_simpl. intros [= <- _ _]. by rewrite Eh, Eb.
Qed.

Lemma received_open msg body :
  received_ok (Some msg) None -> Body msg = Some (BodyOpen body) ->
  packet_event (Some msg) None = Ok (BGPEventBGPOpen, DataMsg msg, false) /\ open_ok body.
Proof.
  intros H Hb. destruct (received_packet _ _ H) as (e & data & counted & E & Hd).
  pose proof (received_body _ H) as Hm. rewrite Hb in Hm. cbn in Hm.
  unfold packet_event in *. cbn [of_option] in *. revert E. res_simpl. rewrite Hm. intros [= <- <- <-].
  split; [done|]. cbn in Hd. by rewrite Hb in Hd.
Qed.

Lemma received_keepalive msg :
  received_ok (Some msg) None -> Body msg = Some BodyKeepAlive ->
  packet_event (Some msg) None = Ok (BGPEventKeepAliveMsg, DataMsg msg, false).
Proof.
  intros H Hb. pose proof (received_body _ H) as Hm. rewrite Hb in Hm. cbn in Hm.
  unfold packet_event. cbn [of_option]. res_simpl. by rewrite Hm.
Qed.

(** The running machine, written back to the heap. *)
Lemma during_stored a b cl c s f w :
  during a b cl c s f w -> during a b cl c s f (set_objs (<[a := f]> (objs w)) w).
Proof.
  intros H. destruct (sync_neutral a b cl c s f w H) as (u & f' & w' & E & H').
  rewrite sync_eq, (during_addr _ _ _ _ _ _ _ H) in E. by injection E as _ <- <-.
Qed.

(** C4: a session opens with a willing peer. A neighbor's only machine, waiting in
    Active, that is given an incoming connection, then a decoded OPEN and a decoded
    KEEPALIVE from it, ends up Established, is the machine the manager sends
    UPDATEs to, and has told the server of the connection. *)
Theorem session_opens env w a f conn msg body ka :
  world_ok w -> fsms w = {[id f := a]} -> objs w !! a = Some f -> State f = Some Active -> close f = false ->
  received_ok (Some msg) None -> Body msg = Some (BodyOpen body) ->
  received_ok (Some ka) None -> Body ka = Some BodyKeepAlive ->
  exists w1 w2 w3 f3,
    act env (ActMachine a (InInConn conn)) w = Ok w1 /\
    act env (ActMachine a (InPkt (Some msg) None)) w1 = Ok w2 /\
    act env (ActMachine a (InPkt (Some ka) None)) w2 = Ok w3 /\
    objs w3 !! a = Some f3 /\ State f3 = Some Established /\ activeFSM w3 = id f /\
    OutFsmConnCh true (Some conn) ∈ trace w3.
Proof.
  intros Hw Hm Hf Hs Hcl Hmsg Hb Hka Hbk.
  pose proof (during_of_world a f w Active Hw Hf Hs Hcl) as H0. cbn [needs_conn] in H0.
  destruct (Active_accepts env a _ f w conn H0) as (f1 & w1 & n & E1 & H1 & Hi1 & Hm1 & Hp1).
  assert (Hop : packet_event (Some msg) None = Ok (BGPEventBGPOpen, DataMsg msg, false) /\ open_ok body).
  { by apply received_open. }
  destruct Hop as [Hpe Hok].
  assert (Hd1 : during a (bfd_down (neighborConf w)) false true OpenSent f1
    (set_objs (<[a := f1]> (objs w1)) w1)) by by apply during_stored.
  destruct (OpenSent_opens env a _ f1 (set_objs (<[a := f1]> (objs w1)) w1)
    (mkPeerConn ConnDirIn conn n) msg body Hd1)
    as (f2 & w2 & E2 & H2 & Hi2 & Hm2 & Hp2); [cbn; by rewrite Hm1, Hi1|exact Hp1|done|done|done|].
  assert (Hd2 : during a (bfd_down (neighborConf w)) false true OpenConfirm f2
    (set_objs (<[a := f2]> (objs w2)) w2)) by by apply during_stored.
  destruct (OpenConfirm_establishes env a _ f2 (set_objs (<[a := f2]> (objs w2)) w2)
    (mkPeerConn ConnDirIn conn n) ka Hd2)
    as (f3 & w3 & E3 & Hs3 & Ha3 & Ht3); [|exact Hp2|].
  { cbn. rewrite Hm2. cbn. rewrite Hm1, Hm, Hi2, Hi1. rewrite lookup_singleton_eq. by eexists. }
  exists (set_objs (<[a := f1]> (objs w1)) w1), (set_objs (<[a := f2]> (objs w2)) w2),
    (set_objs (<[a := f3]> (objs w3)) w3), f3. split_and!.
  - by apply (run_ok a _ f).
  - apply (run_ok a _ f1); [cbn; by rewrite lookup_insert_eq|]. by rewrite (ProcessPacket_eq _ _ _ _ _ _ Hpe).
  - apply (run_ok a _ f2); [cbn; by rewrite lookup_insert_eq|].
    by rewrite (ProcessPacket_eq _ _ _ _ _ _ (received_keepalive _ Hka Hbk)).
  - cbn. by rewrite lookup_insert_eq.
  - done.
  - cbn. congruence.
  - exact Ht3.
Qed.

Definition example_waiting : World :=
  match launch quiet_env 0 Active (NewFSMManager example_neighbor) with
  | Ok (_, w) => w
  | _ => NewFSMManager example_neighbor
  end.

Lemma example_waiting_ok : world_ok example_waiting.
Proof.
  destruct (launch_ok quiet_env 0 Active (NewFSMManager example_neighbor)
    (new_manager_ok _ example_neighbor_small) eq_refl) as (a & w & E & H).
  unfold example_waiting. by rewrite E.
Qed.

Definition example_buf : bytes := Eval vm_compute in open_bytes (example_open 90).
Definition example_rx_open : BGPMessage :=
  mkBGPMessage (mkBGPHeader (19 + len example_buf) BGPMsgTypeOpen) (Some (BodyOpen (example_open 90))).

Lemma example_rx_open_ok : received_ok (Some example_rx_open) None.
Proof.
  apply (received_message 1 65002 false (mkPeerAttrs 2 ∅ false) (Header example_rx_open) example_buf _ _ true
    (mkPeerAttrs 4 ∅ false)); [|vm_compute; reflexivity].
  unfold example_buf. repeat constructor; by vm_compute.
Qed.

Lemma example_rx_keepalive_ok : received_ok (Some NewBGPKeepAliveMessage) None.
Proof.
  apply (received_message 1 65002 false (mkPeerAttrs 2 ∅ false) (mkBGPHeader 19 BGPMsgTypeKeepAlive) [] _ _ true
    (mkPeerAttrs 2 ∅ false)); [constructor|vm_compute; reflexivity].
Qed.

Lemma session_opens_witness :
  exists f, objs example_waiting !! 0%nat = Some f /\ exists w1 w2 w3 f3,
    act quiet_env (ActMachine 0 (InInConn 5)) example_waiting = Ok w1 /\
    act quiet_env (ActMachine 0 (InPkt (Some example_rx_open) None)) w1 = Ok w2 /\
    act quiet_env (ActMachine 0 (InPkt (Some NewBGPKeepAliveMessage) None)) w2 = Ok w3 /\
    objs w3 !! 0%nat = Some f3 /\ State f3 = Some Established /\ activeFSM w3 = id f /\
    OutFsmConnCh true (Some 5) ∈ trace w3.
Proof.
  destruct (objs example_waiting !! 0%nat) as [f|] eqn:E; [|vm_compute in E; discriminate E].
  exists f. split; [reflexivity|].
  assert (State f = Some Active /\ close f = false /\ fsms example_waiting = {[id f := 0%nat]}) as (Hs & Hc & Hm)
    by (vm_compute in E; injection E as <-; split_and!; vm_compute; reflexivity).
  exact (session_opens quiet_env example_waiting 0 f 5 example_rx_open (example_open 90) NewBGPKeepAliveMessage
    example_waiting_ok Hm E Hs Hc example_rx_open_ok eq_refl example_rx_keepalive_ok eq_refl).
Defined.
