(* ===== verification/NetParse.v ===== *)
(** * Addresses from text

    [net.ParseIP], [net.ParseCIDR] and [net.ParseMAC] of Go's library, as the daemons
    use them on configured addresses, and that an IPv4 address that was written is read
    back. *)

From stdpp Require Import pretty.
From S2P Require Import Prelude.
From S2P Require Import NetIP.

(** ** Numbers *)

(** The value of a digit; [upper] and lower case letters are digits in base 16. *)
Definition dec_digit (c : Ascii.ascii) : option Z :=
  let n := Z.of_nat (Ascii.nat_of_ascii c) in
  if (48 <=? n) && (n <=? 57) then Some (n - 48) else None.

Definition hex_value (c : Ascii.ascii) : option Z :=
  let n := Z.of_nat (Ascii.nat_of_ascii c) in
  if (48 <=? n) && (n <=? 57) then Some (n - 48)
  else if (97 <=? n) && (n <=? 102) then Some (n - 87)
  else if (65 <=? n) && (n <=? 70) then Some (n - 55)
  else None.

Definition big : Z := 16777215.

(** The number [s] begins with, in a base, and the rest of [s]; none when there is no
    digit or the number is too large. *)
Fixpoint digits (base : Z) (value : Ascii.ascii -> option Z) (s : string) (n : Z) : option (Z * string) :=
  match s with
  | String.String c s' =>
    match value c with
    | Some d => let n := n * base + d in if big <=? n then None else digits base value s' n
    | None => Some (n, s)
    end
  | EmptyString => Some (n, EmptyString)
  end.

Definition number (base : Z) (value : Ascii.ascii -> option Z) (s : string) : option (Z * string) :=
  match s with
  | String.String c _ => match value c with Some _ => digits base value s 0 | None => None end
  | EmptyString => None
  end.

Definition dtoi : string -> option (Z * string) := number 10 dec_digit.
Definition xtoi : string -> option (Z * string) := number 16 hex_value.

Definition is_char (c : Ascii.ascii) (n : nat) : bool := Ascii.eqb c (Ascii.ascii_of_nat n).

(** ** IPv4 *)

(** [k] octets with a dot before each. *)
Fixpoint dotted (k : nat) (s : string) : option (bytes * string) :=
  match k with
  | O => Some ([], s)
  | S k =>
    match s with
    | String.String c s =>
      if is_char c 46 then
        '(n, s) ← dtoi s;
        if 255 <? n then None else '(p, s) ← dotted k s; Some (n :: p, s)
      else None
    | EmptyString => None
    end
  end.

(** The result is in its 16-octet form. *)
Definition parseIPv4 (s : string) : option bytes :=
  '(n, s) ← dtoi s;
  if 255 <? n then None
  else
    '(p, s) ← dotted 3 s;
    match s with EmptyString => Some (v4InV6Prefix ++ n :: p) | _ => None end.

(** ** IPv6 *)

(** Up to [k] groups of two octets, of which those before [s] are [ip]; [ellipsis] is
    the place of two colons in a row. *)
Fixpoint groups (k : nat) (s : string) (ip : bytes) (ellipsis : option nat)
  : option (bytes * option nat * string) :=
  match k with
  | O => Some (ip, ellipsis, s)
  | S k =>
    '(n, rest) ← xtoi s;
    if 65535 <? n then None
    else match rest with
    | EmptyString => Some (ip ++ be16 n, ellipsis, EmptyString)
    | String.String c rest =>
      if is_char c 46 then
        if (bool_decide (ellipsis = None) && negb (len ip =? 12)) || (16 <? len ip + 4) then None
        else ip4 ← parseIPv4 s; Some (ip ++ drop 12 ip4, ellipsis, EmptyString)
      else if negb (is_char c 58) then None
      else match rest with
      | EmptyString => None
      | String.String c rest' =>
        let ip := ip ++ be16 n in
        if is_char c 58 then
          match ellipsis, rest' with
          | Some _, _ => None
          | None, EmptyString => Some (ip, Some (length ip), EmptyString)
          | None, _ => groups k rest' ip (Some (length ip))
          end
        else groups k rest ip ellipsis
      end
    end
  end.

Definition expand (ip : bytes) (ellipsis : option nat) : option bytes :=
  match ellipsis with
  | Some e => if len ip <? 16 then Some (take e ip ++ zeros (16 - len ip) ++ drop e ip) else None
  | None => if len ip <? 16 then None else Some ip
  end.

Definition parseIPv6 (s : string) : option bytes :=
  let '(s, ellipsis) :=
    match s with
    | String.String a (String.String b s') => if is_char a 58 && is_char b 58 then (s', Some O) else (s, None)
    | _ => (s, None)
    end in
  match ellipsis, s with
  | Some _, EmptyString => Some (zeros 16)
  | _, _ =>
    '(ip, ellipsis, rest) ← groups 8 s [] ellipsis;
    match rest with EmptyString => expand ip ellipsis | _ => None end
  end.

(** ** The functions of the package *)

Fixpoint first_separator (s : string) : option Ascii.ascii :=
  match s with
  | EmptyString => None
  | String.String c s => if is_char c 46 || is_char c 58 then Some c else first_separator s
  end.

Definition ParseIP (s : string) : option bytes :=
  match first_separator s with
  | Some c => if is_char c 46 then parseIPv4 s else parseIPv6 s
  | None => None
  end.

Fixpoint cut_slash (s : string) : option (string * string) :=
  match s with
  | EmptyString => None
  | String.String c s =>
    if is_char c 47 then Some (EmptyString, s)
    else '(a, b) ← cut_slash s; Some (String.String c a, b)
  end.

(** Only the address of the result is used. *)
Definition ParseCIDR (s : string) : option bytes :=
  '(addr, mask) ← cut_slash s;
  let '(iplen, ip) := match parseIPv4 addr with
                      | Some ip => (4, Some ip)
                      | None => (16, parseIPv6 addr)
                      end in
  ip ← ip;
  '(n, rest) ← dtoi mask;
  match rest with EmptyString => if 8 * iplen <? n then None else Some ip | _ => None end.

(** The octets of a hardware address, pairs of digits with [sep] between them. *)
Fixpoint mac_octets (sep : Ascii.ascii) (s : string) : option bytes :=
  match s with
  | String.String a (String.String b s) =>
    x ← hex_value a; y ← hex_value b;
    match s with
    | EmptyString => Some [x * 16 + y]
    | String.String c s => if Ascii.eqb c sep then l ← mac_octets sep s; Some (x * 16 + y :: l) else None
    end
  | _ => None
  end.

(** The form with colons or dashes; the one with dots is not used. *)
Definition ParseMAC (s : string) : option bytes :=
  match String.get 2 s with
  | Some sep =>
    if is_char sep 58 || is_char sep 45 then
      l ← mac_octets sep s;
      if (len l =? 6) || (len l =? 8) || (len l =? 20) then Some l else None
    else None
  | None => None
  end.

Definition mac_octet (x : Z) : string := hex_digit (x / 16) +:+ hex_digit (x mod 16).

(** [HardwareAddr.String] *)
Definition MAC_String (a : bytes) : string := String.concat ":" (map mac_octet a).

Example parse_v4 : ParseIP "192.168.0.30" = Some (IPv4 192 168 0 30).
Proof. by vm_compute. Qed.
Example parse_v4_long : ParseIP "1.2.3.4.5" = None /\ ParseIP "1.2.3" = None /\ ParseIP "1.2.3.256" = None.
Proof. by vm_compute. Qed.
Example parse_v6 : ParseIP "fe80::70:1:1:1" = Some ([254; 128] ++ zeros 6 ++ [0; 112; 0; 1; 0; 1; 0; 1]).
Proof. by vm_compute. Qed.
Example parse_v6_forms : ParseIP "::" = Some (zeros 16) /\ ParseIP "::ffff:1.2.3.4" = Some (IPv4 1 2 3 4) /\
  ParseIP "1::2::3" = None /\ ParseIP "1:2:3:4:5:6:7:8:9" = None /\ ParseIP "<nil>" = None /\ ParseIP "" = None.
Proof. by vm_compute. Qed.
Example parse_cidr : ParseCIDR "fe80::172:16:0:1/64" = ParseIP "fe80::172:16:0:1" /\
  ParseCIDR "10.0.0.1/24" = Some (IPv4 10 0 0 1) /\ ParseCIDR "10.0.0.1/33" = None /\ ParseCIDR "10.0.0.1" = None.
Proof. by vm_compute. Qed.
Example parse_mac : ParseMAC "00-00-5E-00-01-0a" = Some [0; 0; 94; 0; 1; 10] /\
  MAC_String [1; 0; 94; 0; 0; 18] = "01:00:5e:00:00:12"%string.
Proof. by vm_compute. Qed.

(** ** Addresses that are read back *)

Lemma digits_app base value s n m rest :
  digits base value s n = Some (m, EmptyString) ->
  (forall c s', rest = String.String c s' -> value c = None) ->
  digits base value (s +:+ rest) n = Some (m, rest).
Proof.
  revert n. induction s as [|c s IH]; intros n; cbn [digits].
  - intros [= ->] Hr. change (EmptyString +:+ rest) with rest. destruct rest as [|c s]; [done|]. cbn [digits].
    by rewrite (Hr c s).
  - change (String.String c s +:+ rest) with (String.String c (s +:+ rest)). cbn [digits].
    destruct (value c); [|done]. destruct (_ <=? _); [done|]. apply IH.
Qed.

Lemma number_app base value s m rest :
  number base value s = Some (m, EmptyString) ->
  (forall c s', rest = String.String c s' -> value c = None) ->
  number base value (s +:+ rest) = Some (m, rest).
Proof.
  destruct s as [|c s]; [done|]. intros H Hr.
  change (match value c with Some _ => digits base value (String.String c s +:+ rest) 0 | None => None end = Some (m, rest)).
  change (match value c with Some _ => digits base value (String.String c s) 0 | None => None end
    = Some (m, EmptyString)) in H.
  destruct (value c); [|done]. by apply digits_app.
Qed.

Lemma octet_compute :
  forallb (fun n => bool_decide (dtoi (pretty (Z.of_nat n)) = Some (Z.of_nat n, EmptyString))) (seq 0 256) = true.
Proof. by vm_compute. Qed.

Lemma dtoi_pretty x rest :
  is_u8 x -> (forall c s', rest = String.String c s' -> dec_digit c = None) ->
  dtoi (pretty x +:+ rest) = Some (x, rest).
Proof.
  intros Hx Hr. apply number_app; [|exact Hr].
  pose proof octet_compute as H. rewrite forallb_forall in H. unfold is_u8 in Hx.
  specialize (H (Z.to_nat x)). rewrite in_seq, Z2Nat.id in H by lia. apply (bool_decide_eq_true_1 _), H. lia.
Qed.

Lemma append_nil s : s +:+ EmptyString = s.
Proof.
  induction s as [|c s IH]; [done|].
  change (String.String c (s +:+ EmptyString) = String.String c s). by rewrite IH.
Qed.

(** An IPv4 address that was written is read back. *)
Lemma parseIPv4_String a b c d :
  is_u8 a -> is_u8 b -> is_u8 c -> is_u8 d -> parseIPv4 (IP_String [a; b; c; d]) = Some (IPv4 a b c d).
Proof.
  intros Ha Hb Hc Hd.
  change (IP_String [a; b; c; d]) with (pretty a +:+ String.String (Ascii.ascii_of_nat 46) (pretty b +:+
    String.String (Ascii.ascii_of_nat 46) (pretty c +:+ String.String (Ascii.ascii_of_nat 46) (pretty d)))).
  assert (forall x y, is_u8 x -> dtoi (pretty x +:+ String.String (Ascii.ascii_of_nat 46) y)
            = Some (x, String.String (Ascii.ascii_of_nat 46) y)) as Hdot.
  { intros x y Hx. apply dtoi_pretty; [exact Hx|]. by intros ? ? [= <- <-]. }
  assert (dtoi (pretty d) = Some (d, EmptyString)) as Hlast.
  { rewrite <- (append_nil (pretty d)). by apply dtoi_pretty. }
  assert (forall x, is_u8 x -> (255 <? x) = false) as Hle by (intros x [_ Hx]; apply Z.ltb_ge; lia).
  unfold parseIPv4. rewrite Hdot by done. cbn -[dtoi]. rewrite Hle by done. rewrite Hdot by done. cbn -[dtoi].
  rewrite Hle by done. rewrite Hdot by done. cbn -[dtoi]. rewrite Hle by done. rewrite Hlast. cbn. by rewrite Hle.
Qed.

Lemma first_separator_app s t : first_separator s = None -> first_separator (s +:+ t) = first_separator t.
Proof.
  induction s as [|c s IH]; [done|]. change (String.String c s +:+ t) with (String.String c (s +:+ t)).
  cbn [first_separator]. by destruct (is_char c 46 || is_char c 58).
Qed.

Lemma octet_separator x : is_u8 x -> first_separator (pretty x) = None.
Proof.
  intros Hx.
  assert (forallb (fun n => bool_decide (first_separator (pretty (Z.of_nat n)) = None)) (seq 0 256) = true) as H
    by (by vm_compute).
  rewrite forallb_forall in H. unfold is_u8 in Hx.
  specialize (H (Z.to_nat x)). rewrite in_seq, Z2Nat.id in H by lia. apply (bool_decide_eq_true_1 _), H. lia.
Qed.

Lemma ParseIP_String a b c d :
  is_u8 a -> is_u8 b -> is_u8 c -> is_u8 d -> ParseIP (IP_String [a; b; c; d]) = Some (IPv4 a b c d).
Proof.
  intros Ha Hb Hc Hd. unfold ParseIP.
  assert (first_separator (IP_String [a; b; c; d]) = Some (Ascii.ascii_of_nat 46)) as ->.
  { change (IP_String [a; b; c; d]) with (pretty a +:+ String.String (Ascii.ascii_of_nat 46) (pretty b +:+
      String.String (Ascii.ascii_of_nat 46) (pretty c +:+ String.String (Ascii.ascii_of_nat 46) (pretty d)))).
    by rewrite first_separator_app by (by apply octet_separator). }
  by apply parseIPv4_String.
Qed.

Lemma cut_slash_app s t :
  no_slash s = true -> cut_slash (s +:+ String.String (Ascii.ascii_of_nat 47) t) = Some (s, t).
Proof.
  induction s as [|c s IH]; [done|]. cbn [no_slash]. intros [Hc Hs]%andb_true_iff.
  change (String.String c s +:+ String.String (Ascii.ascii_of_nat 47) t)
    with (String.String c (s +:+ String.String (Ascii.ascii_of_nat 47) t)).
  cbn [cut_slash]. unfold is_char. apply negb_true_iff in Hc. rewrite Hc, IH by done. done.
Qed.

Lemma ParseCIDR_String a b c d n :
  is_u8 a -> is_u8 b -> is_u8 c -> is_u8 d -> 0 <= n <= 32 ->
  ParseCIDR (IP_String [a; b; c; d] +:+ "/" +:+ pretty n) = Some (IPv4 a b c d).
Proof.
  intros Ha Hb Hc Hd Hn. unfold ParseCIDR.
  change ("/" +:+ pretty n) with (String.String (Ascii.ascii_of_nat 47) (pretty n)).
  rewrite cut_slash_app by apply IP_String_no_slash. cbn -[parseIPv4 IP_String dtoi Z.mul].
  rewrite parseIPv4_String by done. cbn -[dtoi Z.mul]. rewrite <- (append_nil (pretty n)).
  rewrite dtoi_pretty by (done || unfold is_u8; lia). cbn -[Z.mul]. by rewrite (proj2 (Z.ltb_ge _ _)) by lia.
Qed.
