(* ===== verification/VrrpPacket.v ===== *)
(** * VRRP: advertisements

    The header of an advertisement, its checksums, and how it is put into and taken out
    of a frame (packet.go, encode.go and decode.go of src/vrrp/packet).

    The layers of a frame are those of the gopacket library: what it makes of a received
    frame is an argument of [Decode], and its serializer a parameter of [Encode]. *)

From stdpp Require Import pretty.
From S2P Require Import Prelude.
From S2P Require Import NetIP.
From S2P Require Import NetParse.

Definition VRRP_TTL : Z := 255.
Definition VRRP_HOP_LIMIT : Z := 255.
Definition VRRP_PKT_TYPE_ADVERTISEMENT : Z := 1.
Definition VRRP_PROTO_ID : Z := 112.
Definition VRRP_RSVD : Z := 0.
Definition VRRP_HDR_CREATE_CHECKSUM : Z := 0.
Definition VRRP_HEADER_SIZE_EXCLUDING_IPVX : Z := 8.
Definition VRRP_IPV4_VERSION : Z := 4.
Definition VRRP_IPV6_VERSION : Z := 6.
Definition VRRP_IPV4_HEADER_MIN_SIZE : Z := 20.
Definition VRRP_PROTOCOL_MAC : string := "01:00:5e:00:00:12".
Definition VRRP_V6_PROTOCOL_MAC : string := "33:33:00:00:00:12".
Definition VRRP_V4_GROUP_IP : string := "224.0.0.18".
Definition VRRP_V6_GROUP_IP : string := "ff02::12".
Definition VRRP_HEADER_MIN_SIZE : Z := 20.
Definition VRRP_CHECKSUM_ERR : string := "VRRP checksum failure".
Definition VRRP_INCORRECT_VERSION : string := "Version is not correct for received VRRP Packet".
Definition VRRP_INCORRECT_FIELDS : string :=
  "Field like type/count ip addr/Advertisement Interval are not valid".
Definition VERSION2 : Z := 2.
Definition VERSION3 : Z := 3.
Definition AF_INET : Z := 2.
Definition AF_INET6 : Z := 10.

Record Header := mkHeader {
  hdr_Version : Z;
  hdr_Type : Z;
  VirtualRtrId : Z;
  hdr_Priority : Z;
  CountIPAddr : Z;
  Rsvd : Z;
  MaxAdverInt : Z;
  CheckSum : Z;
  hdr_IpAddr : list bytes;
}.

Record PacketInfo := mkPacketInfo {
  Hdr : option Header;
  DstMac : string;
  SrcMac : string;
  pi_Version : Z;
  Vrid : Z;
  pi_Priority : Z;
  AdvertiseInt : Z;
  VirutalMac : string;
  pi_IpAddr : string;
  Vip : string;
  DstIp : string;
  IpType : Z;
}.

(** ** Layers *)

Record Ethernet := mkEthernet {
  SrcMAC : bytes;
  DstMAC : bytes;
  EthernetType : Z;
}.

Definition EthernetTypeIPv4 : Z := 2048.
Definition EthernetTypeIPv6 : Z := 34525.

Record LayerIPv4 := mkLayerIPv4 {
  ip4_Version : Z;
  IHL : Z;
  ip4_Length : Z;
  TTL : Z;
  Protocol : Z;
  ip4_SrcIP : bytes;
  ip4_DstIP : bytes;
}.

Record LayerIPv6 := mkLayerIPv6 {
  ip6_Version : Z;
  ip6_Length : Z;
  NextHeader : Z;
  HopLimit : Z;
  ip6_SrcIP : bytes;
  ip6_DstIP : bytes;
}.

Inductive IPLayer :=
| L4 (ip : LayerIPv4)
| L6 (ip : LayerIPv6).

(** A received frame as gopacket presents it: its layers, those of IP with their
    payload. *)
Record Packet := mkPacket {
  eth_layer : option Ethernet;
  ip4_layer : option (LayerIPv4 * option Slice);
  ip6_layer : option (LayerIPv6 * option Slice);
}.

(** ** Checksums *)

(** [csum += x] for a uint32. *)
Definition add32 (csum x : Z) : Z := u32 (csum + x).

Definition not16 (x : Z) : Z := 65535 - u16 x.

Fixpoint sum_words (content : bytes) (csum : Z) : res Z :=
  match content with
  | [] => Ok csum
  | a :: b :: content => sum_words content (add32 (add32 csum (a * 256)) b)
  | [_] => Panic
  end.

Definition computeChecksum (content : bytes) : res Z :=
  csum ← sum_words content 0;
  Ok (not16 (add32 (csum / 65536) csum)).

Fixpoint sum_addresses (src dst : bytes) (idxs : list Z) (csum : Z) : res Z :=
  match idxs with
  | [] => Ok csum
  | i :: idxs =>
    a ← index src i; b ← index src (i + 1); c ← index dst i; d ← index dst (i + 1);
    sum_addresses src dst idxs (add32 (add32 (add32 (add32 csum (a * 256)) b) (c * 256)) d)
  end.

Definition pseudoheaderChecksum (ip : LayerIPv6) : res Z :=
  sum_addresses (ip6_SrcIP ip) (ip6_DstIP ip) [0; 2; 4; 6; 8; 10; 12; 14] 0.

(** A last octet without a partner is the upper one of its word. *)
Fixpoint sum_words6 (content : bytes) (csum : Z) : Z :=
  match content with
  | [] => csum
  | a :: b :: content => sum_words6 content (add32 (add32 csum (a * 256)) b)
  | [a] => add32 csum (a * 256)
  end.

Fixpoint fold_carry (fuel : nat) (csum : Z) : res Z :=
  if 65535 <? csum then
    match fuel with
    | O => NoFuel
    | S fuel => fold_carry fuel (add32 (csum / 65536) (Z.land csum 65535))
    end
  else Ok csum.

Definition computeV6Checksum (ipv6Hdr : LayerIPv6) (layerContent : bytes) : res Z :=
  let length := u32 (len layerContent) in
  csum ← pseudoheaderChecksum ipv6Hdr;
  let csum := add32 csum (NextHeader ipv6Hdr) in
  let csum := add32 csum (Z.land length 65535) in
  let csum := add32 csum (length / 65536) in
  csum ← fold_carry 2 (sum_words6 layerContent csum);
  Ok (not16 (add32 csum (csum / 65536))).

(** [binary.BigEndian.PutUint16(s[6:8], v)] *)
Definition put_checksum (v : Z) (s : Slice) : res Slice :=
  buf ← PutUint16 (sl_bytes s ++ sl_spare s) 6 v;
  Ok (mkSlice (take (length (sl_bytes s)) buf) (drop (length (sl_bytes s)) buf)).

Definition validateHeader (hdr : Header) (layerContent : Slice) : res unit :=
  if negb (hdr_Version hdr =? VERSION2) && negb (hdr_Version hdr =? VERSION3)
  then Err (ErrText VRRP_INCORRECT_VERSION)
  else
    layerContent ← put_checksum 0 layerContent;
    chksum ← computeChecksum (sl_bytes layerContent);
    if negb (chksum =? CheckSum hdr) then Err (ErrText VRRP_CHECKSUM_ERR)
    else if (CountIPAddr hdr =? 0) || (MaxAdverInt hdr =? 0) || (hdr_Type hdr =? 0)
    then Err (ErrText VRRP_INCORRECT_FIELDS)
    else Ok tt.

Definition validateV6Header (hdr : Header) (ipv6Hdr : LayerIPv6) (layerContent : Slice) : res unit :=
  if negb (hdr_Version hdr =? VERSION2) && negb (hdr_Version hdr =? VERSION3)
  then Err (ErrText VRRP_INCORRECT_VERSION)
  else
    layerContent ← put_checksum 0 layerContent;
    chksum ← computeV6Checksum ipv6Hdr (sl_bytes layerContent);
    if negb (chksum =? CheckSum hdr) then Err (ErrText VRRP_CHECKSUM_ERR) else Ok tt.

(** ** Encoding *)

(** [count] addresses from the [i]th on. *)
Fixpoint addresses (ips : list bytes) (i : Z) (count : nat) : res bytes :=
  match count with
  | O => Ok []
  | S count =>
    ip ← index ips i;
    rest ← addresses ips (i + 1) count;
    Ok ((match To4 ip with [] => To16 ip | ip4 => ip4 end) ++ rest)
  end.

(** The length is a uint16. *)
Definition EncodeHeader (hdr : Header) : res (bytes * Z) :=
  let max := if hdr_Version hdr =? VERSION3 then u16 (MaxAdverInt hdr * 100) else MaxAdverInt hdr in
  let rsvdAdver := Z.lor (u16 (Z.shiftl (Rsvd hdr) 13)) max in
  addrs ← addresses (hdr_IpAddr hdr) 0 (Z.to_nat (CountIPAddr hdr));
  let bytes := [Z.lor (u8 (Z.shiftl (hdr_Version hdr) 4)) (hdr_Type hdr); VirtualRtrId hdr; hdr_Priority hdr;
                CountIPAddr hdr] ++ be16 rsvdAdver ++ be16 (CheckSum hdr) ++ addrs in
  let bytes := if (hdr_Version hdr =? VERSION2) && (len bytes <? VRRP_HEADER_MIN_SIZE)
               then bytes ++ zeros (VRRP_HEADER_MIN_SIZE - len bytes) else bytes in
  Ok (bytes, u16 (len bytes)).

(** An address with or without a length; nil when it is neither. *)
Definition parse_address (s : string) : bytes :=
  match ParseCIDR s with
  | Some ip => ip
  | None => match ParseIP s with Some ip => ip | None => [] end
  end.

Definition advertisement (pInfo : PacketInfo) : Header :=
  mkHeader (pi_Version pInfo) VRRP_PKT_TYPE_ADVERTISEMENT (Vrid pInfo) (pi_Priority pInfo) 1 VRRP_RSVD
    (AdvertiseInt pInfo) VRRP_HDR_CREATE_CHECKSUM [parse_address (Vip pInfo)].

Definition CreateHeader (pInfo : PacketInfo) : res (bytes * Z) := EncodeHeader (advertisement pInfo).

Definition mac_or_nil (s : string) : bytes := match ParseMAC s with Some a => a | None => [] end.
Definition ip_or_nil (s : string) : bytes := match ParseIP s with Some a => a | None => [] end.

Definition v4_header (sip : bytes) (hdrLen : Z) : LayerIPv4 :=
  mkLayerIPv4 VRRP_IPV4_VERSION VRRP_IPV4_HEADER_MIN_SIZE (u16 (VRRP_IPV4_HEADER_MIN_SIZE + hdrLen)) VRRP_TTL
    VRRP_PROTO_ID sip (ip_or_nil VRRP_V4_GROUP_IP).

Definition v6_header (sip payload : bytes) : LayerIPv6 :=
  mkLayerIPv6 VRRP_IPV6_VERSION (u16 (len payload)) VRRP_PROTO_ID VRRP_HOP_LIMIT sip (ip_or_nil VRRP_V6_GROUP_IP).

Section Frames.
Context {Frame : Type}.
Variable SerializeLayers : Ethernet -> IPLayer -> bytes -> Frame.

(** [None] is an empty buffer. *)
Definition Encode (pInfo : PacketInfo) : res (option Frame) :=
  '(payload, hdrLen) ← CreateHeader pInfo;
  let srcMAC := mac_or_nil (VirutalMac pInfo) in
  let sip := parse_address (pi_IpAddr pInfo) in
  if IpType pInfo =? AF_INET then
    let eth := mkEthernet srcMAC (mac_or_nil VRRP_PROTOCOL_MAC) EthernetTypeIPv4 in
    chksum ← computeChecksum payload;
    payload ← PutUint16 payload 6 chksum;
    Ok (Some (SerializeLayers eth (L4 (v4_header sip hdrLen)) payload))
  else if IpType pInfo =? AF_INET6 then
    let eth := mkEthernet srcMAC (mac_or_nil VRRP_V6_PROTOCOL_MAC) EthernetTypeIPv6 in
    let ipv6 := v6_header sip payload in
    chksum ← computeV6Checksum ipv6 payload;
    payload ← PutUint16 payload 6 chksum;
    Ok (Some (SerializeLayers eth (L6 ipv6) payload))
  else Ok None.
End Frames.

(** ** Decoding *)

Fixpoint read_addresses (data : Slice) (base width : Z) (count : nat) : res (list bytes) :=
  match count with
  | O => Ok []
  | S count =>
    ip ← sl_slice data base (base + width);
    rest ← read_addresses data (base + width) width count;
    Ok (ip :: rest)
  end.

Definition decode_addresses (version count : Z) (data : Slice) : res (list bytes) :=
  let ipvxAddrlength := Z.abs (len (sl_bytes data) - VRRP_HEADER_SIZE_EXCLUDING_IPVX) in
  if version =? VERSION2 then read_addresses data 8 4 (Z.to_nat count)
  else if version =? VERSION3 then
    if count * 16 =? ipvxAddrlength then read_addresses data 8 16 (Z.to_nat count)
    else if count * 4 =? ipvxAddrlength then read_addresses data 8 4 (Z.to_nat count)
    else Ok []
  else Ok [].

Definition DecodeHeader (data : Slice) : res Header :=
  d0 ← sl_index data 0; d1 ← sl_index data 1; d2 ← sl_index data 2; d3 ← sl_index data 3;
  d45 ← sl_slice data 4 6;
  rsvdAdver ← Uint16 d45;
  let version := Z.shiftr d0 4 in
  let max := Z.land rsvdAdver 8191 in
  let max := if version =? VERSION3 then max / 100 else max in
  d67 ← sl_slice data 6 8;
  checkSum ← Uint16 d67;
  ips ← decode_addresses version d3 data;
  Ok (mkHeader version (Z.land d0 15) d1 d2 d3 (u8 (Z.shiftr rsvdAdver 13)) max checkSum ips).

(** [None] is a packet that is dropped. The layer of a frame that is neither IPv4 nor
    IPv6 is nil, and its payload is asked for. *)
Definition Decode (pkt : Packet) : res (option PacketInfo) :=
  match eth_layer pkt with
  | None => Ok None
  | Some eth =>
    let finish (src dst : bytes) (ipPayload : option Slice) (validate : Header -> Slice -> res unit) :=
      match ipPayload with
      | None => Ok None
      | Some ipPayload =>
        hdr ← DecodeHeader ipPayload;
        match validate hdr ipPayload with
        | Ok _ => Ok (Some (mkPacketInfo (Some hdr) (MAC_String (DstMAC eth)) (MAC_String (SrcMAC eth)) 0 0 0 0 ""
                              (IP_String src) "" (IP_String dst) 0))
        | Err _ => Ok None
        | Panic => Panic
        | NoFuel => NoFuel
        end
      end in
    if EthernetType eth =? EthernetTypeIPv4 then
      match ip4_layer pkt with
      | None => Ok None
      | Some (ipHdr, payload) =>
        if negb (TTL ipHdr =? VRRP_TTL) then Ok None
        else finish (ip4_SrcIP ipHdr) (ip4_DstIP ipHdr) payload validateHeader
      end
    else if EthernetType eth =? EthernetTypeIPv6 then
      match ip6_layer pkt with
      | None => Ok None
      | Some (ipHdr, payload) =>
        finish (ip6_SrcIP ipHdr) (ip6_DstIP ipHdr) payload (fun hdr => validateV6Header hdr ipHdr)
      end
    else Panic
  end.
