(* ===== verification/VrrpPacketSpec.v ===== *)
(** * VRRP: what goes over the wire

    The checksums against their definition in RFC 1071, which advertisements survive the
    way through a frame, and which frames stop the daemon. *)

From stdpp Require Import pretty.
From S2P Require Import Prelude.
From S2P Require Import NetIP.
From S2P Require Import NetParse.
From S2P Require Import VrrpPacket.

(** ** The packets of the repository's tests *)

Definition frame_of (eth : Ethernet) (ip : IPLayer) (payload : bytes) : Ethernet * IPLayer * bytes := (eth, ip, payload).

Definition test_v2 : PacketInfo :=
  mkPacketInfo None "" "" VERSION2 1 100 1 "00:00:5e:00:01:01" "192.168.0.30" "192.168.0.1" "" AF_INET.
Definition test_v3 : PacketInfo :=
  mkPacketInfo None "" "" VERSION3 1 100 1 "00:00:5e:00:01:01" "172.18.0.2" "172.18.0.1" "" AF_INET.
Definition test_ipv6 : PacketInfo :=
  mkPacketInfo None "" "" VERSION3 1 100 1 "00:00:5e:00:02:01" "fe80::8a1d:fcff:fecf:15fc" "fe80::70:1:1:1" "" AF_INET6.

Definition payload_of (pInfo : PacketInfo) : option bytes :=
  match Encode frame_of pInfo with Ok (Some (_, _, payload)) => Some payload | _ => None end.

Example encode_v2 : payload_of test_v2 = Some
  [0x21; 0x01; 0x64; 0x01; 0x00; 0x01; 0xba; 0x52; 0xc0; 0xa8; 0x00; 0x01; 0x00; 0x00; 0x00; 0x00; 0x00; 0x00; 0x00; 0x00].
Proof. by vm_compute. Qed.
Example encode_v3 : payload_of test_v3 = Some
  [0x31; 0x01; 0x64; 0x01; 0x00; 0x64; 0xbe; 0x85; 0xac; 0x12; 0x00; 0x01].
Proof. by vm_compute. Qed.
Example encode_ipv6 : payload_of test_ipv6 = Some
  [0x31; 0x01; 0x64; 0x01; 0x00; 0x64; 0xd1; 0x9d; 0xfe; 0x80; 0x00; 0x00; 0x00; 0x00; 0x00; 0x00; 0x00; 0x70; 0x00;
   0x01; 0x00; 0x01; 0x00; 0x01].
Proof. by vm_compute. Qed.

(** ** The checksum of RFC 1071 *)

(** One's-complement addition of words of 16 bits. *)
Definition ones_add (a b : Z) : Z := (a + b) mod 65536 + (a + b) / 65536.

Fixpoint words16 (content : bytes) : list Z :=
  match content with
  | [] => []
  | [a] => [a * 256]
  | a :: b :: content => a * 256 + b :: words16 content
  end.

Definition internet_checksum (content : bytes) : Z := 65535 - foldl ones_add 0 (words16 content).

Definition sum_of (ws : list Z) : Z := foldr Z.add 0 ws.

Lemma sum_of_cons w ws : sum_of (w :: ws) = w + sum_of ws.
Proof. done. Qed.
Lemma sum_of_nil : sum_of [] = 0.
Proof. done. Qed.

(** The representative in 1 to 65535 of a sum that is not 0. *)
Definition canon (s : Z) : Z := if s =? 0 then 0 else (s - 1) mod 65535 + 1.

Lemma canon_range s : 0 <= s -> 0 <= canon s <= 65535.
Proof. intros H. unfold canon. destruct (s =? 0) eqn:E; [lia|]. pose proof (Z.mod_pos_bound (s - 1) 65535). lia. Qed.

Lemma canon_small s : 0 <= s <= 65535 -> canon s = s.
Proof. intros H. unfold canon. destruct (s =? 0) eqn:E; [lia|]. rewrite Z.mod_small by lia. lia. Qed.

Lemma canon_add s w : 0 <= s -> 0 <= w -> canon (canon s + w) = canon (s + w).
Proof.
  intros Hs Hw. unfold canon at 2. destruct (s =? 0) eqn:E; [by replace s with 0 by lia|].
  unfold canon. rewrite !(proj2 (Z.eqb_neq _ _)) by (pose proof (Z.mod_pos_bound (s - 1) 65535); lia). f_equal.
  replace ((s - 1) mod 65535 + 1 + w - 1) with ((s - 1) mod 65535 + w) by lia.
  rewrite Zplus_mod_idemp_l. f_equal. lia.
Qed.

Lemma canon_carry s : 0 <= s -> canon (s / 65536 + s mod 65536) = canon s.
Proof.
  intros Hs. pose proof (Z.div_mod s 65536 ltac:(lia)) as E. pose proof (Z.mod_pos_bound s 65536 ltac:(lia)).
  assert (0 <= s / 65536) by (apply Z.div_pos; lia).
  unfold canon. destruct (s =? 0) eqn:E0.
  - replace s with 0 by lia. done.
  - rewrite (proj2 (Z.eqb_neq _ _)) by lia. f_equal.
    replace (s - 1) with (s / 65536 + s mod 65536 - 1 + (s / 65536) * 65535) by lia. by rewrite Z.mod_add.
Qed.

Lemma ones_add_canon a b : 0 <= a <= 65535 -> 0 <= b <= 65535 -> ones_add a b = canon (a + b).
Proof.
  intros Ha Hb. rewrite <- canon_carry by lia. unfold ones_add. rewrite Z.add_comm. symmetry. apply canon_small.
  zlia.
Qed.

Lemma ones_sum_canon ws s :
  0 <= s -> Forall is_u16 ws -> foldl ones_add (canon s) ws = canon (s + sum_of ws).
Proof.
  intros Hs H. revert s Hs. induction H as [|w ws Hw _ IH]; intros s Hs; cbn [foldl]; [by rewrite sum_of_nil, Z.add_0_r|].
  unfold is_u16 in Hw. rewrite ones_add_canon by (pose proof (canon_range s); lia).
  rewrite canon_add, IH by lia. f_equal. rewrite sum_of_cons. lia.
Qed.

(** Induction by words. *)
Lemma pairs_ind {A} (P : list A -> Prop) :
  P [] -> (forall a, P [a]) -> (forall a b l, P l -> P (a :: b :: l)) -> forall l, P l.
Proof.
  intros H0 H1 H2. fix IH 1. intros l. destruct l as [|a l]; [exact H0|]. destruct l as [|b l]; [apply H1|].
  apply H2, IH.
Qed.

Lemma words16_range content : is_bytes content -> Forall is_u16 (words16 content).
Proof.
  unfold is_bytes. induction content as [|a|a b content IH] using pairs_ind; cbn [words16]; rewrite ?Forall_cons;
    unfold is_u8, is_u16 in *; cbn beta in *; [done|intros []; split; [lia|done]|].
  intros (Ha & Hb & H). split; [lia|]. by apply IH.
Qed.

Lemma sum_of_range content : is_bytes content -> 0 <= 2 * sum_of (words16 content) <= 65535 * (len content + 1).
Proof.
  unfold is_bytes. induction content as [|a|a b content IH] using pairs_ind; cbn [words16];
    rewrite ?Forall_cons, ?len_cons, ?(len_nil (A:=Z)), ?sum_of_cons, ?sum_of_nil; unfold is_u8 in *; cbn beta in *; [lia|intros [? _]; lia|].
  intros (Ha & Hb & H). specialize (IH H). lia.
Qed.

Lemma internet_checksum_canon content :
  is_bytes content -> internet_checksum content = 65535 - canon (sum_of (words16 content)).
Proof.
  intros H. unfold internet_checksum. f_equal. change 0 with (canon 0) at 1.
  by rewrite ones_sum_canon by (done || by apply words16_range).
Qed.

Lemma sum_words_sum content csum :
  is_bytes content -> len content mod 2 = 0 -> 0 <= csum -> 2 * csum + 65535 * (len content + 1) < 8589934592 ->
  sum_words content csum = Ok (csum + sum_of (words16 content)).
Proof.
  unfold is_bytes. revert csum. induction content as [|a|a b content IH] using pairs_ind; intros csum;
    rewrite ?Forall_cons, ?len_cons, ?(len_nil (A:=Z)); unfold is_u8; cbn beta; [by intros; cbn; rewrite Z.add_0_r|done|].
  intros (Ha & Hb & H) He Hs Hl. cbn [sum_words words16]. rewrite sum_of_cons. pose proof (len_nonneg content).
  unfold add32, u32. rewrite (Z.mod_small (csum + a * 256)), (Z.mod_small (csum + a * 256 + b)) by lia. rewrite IH; [f_equal; lia|done| |lia|lia].
  rewrite Z.add_assoc, Z.add_comm in He. change (1 + 1) with (1 * 2) in He. by rewrite Z.mod_add in He.
Qed.

Lemma sum_words6_sum content csum :
  is_bytes content -> 0 <= csum -> 2 * csum + 65535 * (len content + 1) < 8589934592 ->
  sum_words6 content csum = csum + sum_of (words16 content).
Proof.
  unfold is_bytes. revert csum. induction content as [|a|a b content IH] using pairs_ind; intros csum;
    rewrite ?Forall_cons, ?len_cons, ?(len_nil (A:=Z)); unfold is_u8; cbn beta; [cbn; lia| |].
  - intros [Ha _] Hs Hl. cbn [sum_words6 words16]. rewrite sum_of_cons, sum_of_nil. unfold add32, u32. rewrite Z.mod_small; lia.
  - intros (Ha & Hb & H) Hs Hl. cbn [sum_words6 words16]. rewrite sum_of_cons. pose proof (len_nonneg content).
    unfold add32, u32. rewrite (Z.mod_small (csum + a * 256)), (Z.mod_small (csum + a * 256 + b)) by lia. rewrite IH by (done || lia). lia.
Qed.

Lemma fold_carry_canon s : 0 <= s < 4294967296 -> fold_carry 2 s = Ok (canon s).
Proof.
  intros Hs. assert (forall s, Z.land s 65535 = s mod 65536) as Hland by (intros; by apply (Z.land_ones _ 16)).
  cbn [fold_carry]. destruct (65535 <? s) eqn:E1; [|by rewrite canon_small by lia].
  rewrite Hland. unfold add32, u32. rewrite (Z.mod_small (s / 65536 + s mod 65536)) by zlia. set (t := s / 65536 + s mod 65536).
  assert (0 <= t <= 131070) as Ht by (unfold t; zlia). assert (canon s = canon t) as -> by (symmetry; apply canon_carry; lia).
  clearbody t.
  destruct (65535 <? t) eqn:E2; [|by rewrite canon_small by lia]. rewrite Hland, (Z.mod_small (t / 65536 + t mod 65536)) by zlia.
  assert (t / 65536 + t mod 65536 <= 65535) as Hle by zlia. rewrite (proj2 (Z.ltb_ge _ _)) by lia.
  rewrite <- canon_carry by lia. by rewrite canon_small by zlia.
Qed.

(** ** The checksums *)

(** The pseudo header of RFC 2460 over which the checksum of an IPv6 packet is made. *)
Definition pseudo_header (ip : LayerIPv6) (length : Z) : bytes :=
  ip6_SrcIP ip ++ ip6_DstIP ip ++ be32 length ++ [0; 0; 0; NextHeader ip].

Lemma sum_of_app ws vs : sum_of (ws ++ vs) = sum_of ws + sum_of vs.
Proof. induction ws as [|w ws IH]; [done|]. cbn [app]. rewrite !sum_of_cons, IH. lia. Qed.

Lemma words16_app a b : len a mod 2 = 0 -> words16 (a ++ b) = words16 a ++ words16 b.
Proof.
  induction a as [|x|x y a IH] using pairs_ind; [done|done|]. rewrite !len_cons. intros H. cbn [app words16].
  rewrite IH; [done|]. rewrite Z.add_assoc, Z.add_comm in H. change (1 + 1) with (1 * 2) in H. by rewrite Z.mod_add in H.
Qed.

Lemma add32_add x y z : add32 (add32 x y) z = add32 x (y + z).
Proof. unfold add32, u32. rewrite Zplus_mod_idemp_l. f_equal. lia. Qed.

Lemma list16 {A} (l : list A) : len l = 16 -> exists a0 a1 a2 a3 a4 a5 a6 a7 a8 a9 aa ab ac ad ae af,
  l = [a0; a1; a2; a3; a4; a5; a6; a7; a8; a9; aa; ab; ac; ad; ae; af].
Proof.
  intros H. do 16 (destruct l as [|? l]; [done|]). destruct l; [|rewrite !len_cons in H; pose proof (len_nonneg l); lia].
  by repeat eexists.
Qed.

Lemma pseudoheaderChecksum_sum ip :
  len (ip6_SrcIP ip) = 16 -> len (ip6_DstIP ip) = 16 -> is_bytes (ip6_SrcIP ip) -> is_bytes (ip6_DstIP ip) ->
  pseudoheaderChecksum ip = Ok (sum_of (words16 (ip6_SrcIP ip)) + sum_of (words16 (ip6_DstIP ip))).
Proof.
  intros Hs Hd Bs Bd. pose proof (sum_of_range _ Bs). pose proof (sum_of_range _ Bd). rewrite Hs, Hd in *.
  unfold pseudoheaderChecksum. apply list16 in Hs as (? & ? & ? & ? & ? & ? & ? & ? & ? & ? & ? & ? & ? & ? & ? & ? & Es).
  apply list16 in Hd as (? & ? & ? & ? & ? & ? & ? & ? & ? & ? & ? & ? & ? & ? & ? & ? & Ed).
  destruct ip as [v n h hl src dst]. cbn [ip6_SrcIP ip6_DstIP] in *. subst src dst.
  etrans; [cbv -[add32 Z.mul]; reflexivity|]. rewrite !add32_add. f_equal.
  cbn [words16] in *. rewrite !sum_of_cons, !sum_of_nil in *. unfold add32, u32. rewrite Z.mod_small by lia. lia.
Qed.

(** The checksum of an IPv6 advertisement is that of RFC 1071 over the pseudo header and
    the message, for every message that fits into a packet. *)
Theorem v6_checksum_rfc ip content :
  len (ip6_SrcIP ip) = 16 -> len (ip6_DstIP ip) = 16 -> is_bytes (ip6_SrcIP ip) -> is_bytes (ip6_DstIP ip) ->
  is_u8 (NextHeader ip) -> is_bytes content -> len content < 65536 ->
  computeV6Checksum ip content = Ok (internet_checksum (pseudo_header ip (len content) ++ content)).
Proof.
  intros Hs Hd Bs Bd Bn Bc Hc. pose proof (sum_of_range _ Bs). pose proof (sum_of_range _ Bd).
  pose proof (sum_of_range _ Bc). pose proof (len_nonneg content). rewrite Hs, Hd in *. unfold is_u8 in Bn.
  unfold computeV6Checksum. rewrite pseudoheaderChecksum_sum by done. res_simpl.
  change (Z.land (u32 (len content)) 65535) with (Z.land (u32 (len content)) (Z.ones 16)). rewrite Z.land_ones by lia.
  change (2 ^ 16) with 65536. unfold u32. rewrite (Z.mod_small (len content) 4294967296) by lia.
  rewrite (Z.mod_small (len content) 65536), (Z.div_small (len content) 65536), !add32_add by lia.
  remember (sum_of (words16 (ip6_SrcIP ip)) + sum_of (words16 (ip6_DstIP ip))) as p eqn:Ep.
  assert (add32 p (NextHeader ip + (len content + 0)) = p + (NextHeader ip + (len content + 0))) as ->
    by (apply Z.mod_small; lia).
  rewrite sum_words6_sum, fold_carry_canon by (done || lia). res_simpl.
  remember (p + (NextHeader ip + (len content + 0)) + sum_of (words16 content)) as s eqn:Es.
  assert (0 <= s) as Hs0 by lia. pose proof (canon_range s Hs0).
  assert (is_bytes (pseudo_header ip (len content) ++ content)) as Hb.
  { unfold pseudo_header. rewrite !is_bytes_app. split_and!; try done; [apply is_bytes_be32|].
    repeat constructor; unfold is_u8; lia. }
  rewrite internet_checksum_canon by exact Hb.
  assert (sum_of (words16 (pseudo_header ip (len content) ++ content)) = s) as ->.
  { unfold pseudo_header. rewrite !words16_app, !sum_of_app; rewrite ?len_app, ?Hs, ?Hd, ?len_be32; try done.
    unfold be32. cbn [words16]. rewrite !sum_of_cons, !sum_of_nil. unfold u8. zlia. }
  rewrite (Z.div_small (canon s)) by lia. unfold not16, add32, u16, u32. rewrite Z.add_0_r, !Z.mod_small by zlia. done.
Qed.

(** The IPv4 checksum adds the carries once where RFC 1071 adds them until none is left:
    when the first addition carries again the result is one too large. *)
Theorem v4_checksum_rfc content :
  is_bytes content -> len content mod 2 = 0 -> len content < 65536 ->
  let s := sum_of (words16 content) in
  computeChecksum content =
    Ok (internet_checksum content + if 65535 <? s / 65536 + s mod 65536 then 1 else 0).
Proof.
  intros Hb He Hl s. pose proof (sum_of_range _ Hb) as Hs. fold s in Hs. pose proof (len_nonneg content).
  unfold computeChecksum. rewrite sum_words_sum by (done || lia). res_simpl. fold s. rewrite Z.add_0_l.
  rewrite internet_checksum_canon by done. fold s. clearbody s. f_equal. unfold not16, add32, u32, u16.
  rewrite (Z.mod_small (s / 65536 + s)) by zlia. rewrite <- canon_carry by lia.
  set (t := s / 65536 + s mod 65536). assert ((s / 65536 + s) mod 65536 = t mod 65536) as ->.
  { unfold t. by rewrite Zplus_mod_idemp_r. }
  assert (0 <= t <= 131070) as Ht by (unfold t; zlia). clearbody t. destruct (65535 <? t) eqn:E.
  - rewrite <- (canon_carry t) by lia. rewrite canon_small by zlia. zlia.
  - rewrite canon_small, Z.mod_small by lia. lia.
Qed.

Lemma v4_checksum_rfc_witness :
  computeChecksum [0x31; 0x01; 0x64; 0x01; 0x00; 0x64; 0; 0; 0xac; 0x12; 0x00; 0x01] =
    Ok (internet_checksum [0x31; 0x01; 0x64; 0x01; 0x00; 0x64; 0; 0; 0xac; 0x12; 0x00; 0x01] + 0).
Proof.
  apply (v4_checksum_rfc [0x31; 0x01; 0x64; 0x01; 0x00; 0x64; 0; 0; 0xac; 0x12; 0x00; 0x01]);
    [repeat constructor; unfold is_u8; lia|done|done].
Defined.

(** An advertisement of version 3, for 192.168.169.241 with priority 100, whose checksum
    other routers reject. *)
Example v4_checksum_differs :
  let adv := [0x31; 0x01; 0x64; 0x01; 0x00; 0x64; 0; 0; 192; 168; 169; 241] in
  computeChecksum adv = Ok (internet_checksum adv + 1).
Proof. by vm_compute. Qed.

Lemma v6_checksum_rfc_witness :
  computeV6Checksum (v6_header (parse_address "fe80::1") [0x31; 0x01; 0x64; 0x00]) [0x31; 0x01; 0x64; 0x00] =
    Ok (internet_checksum (pseudo_header (v6_header (parse_address "fe80::1") [0x31; 0x01; 0x64; 0x00]) 4
          ++ [0x31; 0x01; 0x64; 0x00])).
Proof.
  apply (v6_checksum_rfc (v6_header (parse_address "fe80::1") [0x31; 0x01; 0x64; 0x00]) [0x31; 0x01; 0x64; 0x00]);
    try (by vm_compute); try (vm_compute; repeat constructor; discriminate).
Defined.

(** ** Headers that are read back *)

(** The octets an address is sent as. *)
Definition wire_ip (ip : bytes) : bytes := match To4 ip with [] => To16 ip | ip4 => ip4 end.

Record header_ok (h : Header) : Prop := mkHeaderOk {
  ho_version : hdr_Version h = VERSION2 \/ hdr_Version h = VERSION3;
  ho_type : 0 <= hdr_Type h < 16;
  ho_rsvd : 0 <= Rsvd h < 8;
  ho_interval : 0 <= MaxAdverInt h /\ (if hdr_Version h =? VERSION3 then MaxAdverInt h * 100 else MaxAdverInt h) < 8192;
  ho_checksum : is_u16 (CheckSum h);
  ho_count : CountIPAddr h = len (hdr_IpAddr h) /\ 0 < CountIPAddr h;
  ho_addresses : Forall (fun ip => len (wire_ip ip) = 4) (hdr_IpAddr h) \/
    hdr_Version h = VERSION3 /\ Forall (fun ip => len (wire_ip ip) = 16) (hdr_IpAddr h);
}.

Lemma mjoin_cons {A} (w : list A) ws : mjoin (w :: ws) = w ++ mjoin ws.
Proof. done. Qed.

Lemma addresses_ok ips pre :
  addresses (pre ++ ips) (len pre) (length ips) = Ok (mjoin (map wire_ip ips)).
Proof.
  revert pre. induction ips as [|ip ips IH]; intros pre; [done|]. cbn [length addresses map]. rewrite mjoin_cons.
  rewrite index_app by done. res_simpl. change (ip :: ips) with ([ip] ++ ips). rewrite app_assoc.
  replace (len pre + 1) with (len (pre ++ [ip])) by (by rewrite len_app). by rewrite IH.
Qed.

Lemma read_addresses_ok ws pre post data width :
  sl_bytes data ++ sl_spare data = pre ++ mjoin ws ++ post -> 0 <= width -> Forall (fun w => len w = width) ws ->
  read_addresses data (len pre) width (length ws) = Ok ws.
Proof.
  intros Hd Hw Hl. revert pre Hd. induction Hl as [|w ws Hlen _ IH]; intros pre Hd; [done|].
  cbn [length read_addresses]. unfold sl_slice. rewrite Hd, mjoin_cons, <- app_assoc.
  rewrite (slice_app pre w) by lia. res_simpl.
  replace (len pre + width) with (len (pre ++ w)) by (rewrite len_app; lia). rewrite IH; [done|].
  rewrite Hd, mjoin_cons. by rewrite <- !app_assoc.
Qed.

Lemma len_mjoin (ws : list bytes) width : Forall (fun w => len w = width) ws -> len (mjoin ws) = width * len ws.
Proof.
  induction 1 as [|w ws Hw _ IH]; [change (len (mjoin (@nil bytes))) with 0; rewrite (len_nil (A:=bytes)); lia|]. rewrite mjoin_cons, len_app, len_cons, Hw, IH. lia.
Qed.

(** What is in the octets of a header. *)
Definition header_octets (h : Header) : bytes :=
  [Z.lor (u8 (Z.shiftl (hdr_Version h) 4)) (hdr_Type h); VirtualRtrId h; hdr_Priority h; CountIPAddr h] ++
  be16 (Z.lor (u16 (Z.shiftl (Rsvd h) 13))
          (if hdr_Version h =? VERSION3 then u16 (MaxAdverInt h * 100) else MaxAdverInt h)) ++
  be16 (CheckSum h) ++ mjoin (map wire_ip (hdr_IpAddr h)).

(** Version 2 is padded to 20 octets. *)
Definition padding (h : Header) : Z :=
  if (hdr_Version h =? VERSION2) && (len (header_octets h) <? VRRP_HEADER_MIN_SIZE)
  then VRRP_HEADER_MIN_SIZE - len (header_octets h) else 0.

Lemma EncodeHeader_ok h :
  CountIPAddr h = len (hdr_IpAddr h) ->
  EncodeHeader h = Ok (header_octets h ++ zeros (padding h), u16 (len (header_octets h ++ zeros (padding h)))).
Proof.
  intros Hc. unfold EncodeHeader. pose proof (addresses_ok (hdr_IpAddr h) []) as Ha. cbn [app] in Ha.
  rewrite (len_nil (A:=bytes)) in Ha. rewrite Hc, to_nat_len, Ha. res_simpl. rewrite <- Hc. fold (header_octets h).
  unfold padding. destruct (_ && _); [done|]. change (zeros 0) with (@nil Z). by rewrite app_nil_r.
Qed.

Lemma lor_shift a b n : 0 <= n -> 0 <= b < 2 ^ n -> Z.lor (a * 2 ^ n) b = a * 2 ^ n + b.
Proof.
  intros Hn Hb. rewrite <- Z.add_lor_land. enough (Z.land (a * 2 ^ n) b = 0) as -> by lia.
  apply Z.bits_inj'. intros k Hk. rewrite Z.land_spec, Z.bits_0. destruct (decide (k < n)).
  - by rewrite Z.mul_pow2_bits_low.
  - rewrite <- (Z.mod_small b (2 ^ n)) by done. rewrite (Z.mod_pow2_bits_high b) by lia. apply andb_false_r.
Qed.

Lemma header_fields h : header_ok h ->
  let b0 := Z.lor (u8 (Z.shiftl (hdr_Version h) 4)) (hdr_Type h) in
  let max := if hdr_Version h =? VERSION3 then u16 (MaxAdverInt h * 100) else MaxAdverInt h in
  let ra := Z.lor (u16 (Z.shiftl (Rsvd h) 13)) max in
  Z.shiftr b0 4 = hdr_Version h /\ Z.land b0 15 = hdr_Type h /\ is_u16 ra /\ u8 (Z.shiftr ra 13) = Rsvd h /\
  (if hdr_Version h =? VERSION3 then Z.land ra 8191 / 100 else Z.land ra 8191) = MaxAdverInt h.
Proof.
  intros [Hv Ht Hr [H0 Hi] _ _ _] b0 max ra.
  assert (b0 = hdr_Version h * 16 + hdr_Type h) as Eb.
  { unfold b0. rewrite Z.shiftl_mul_pow2 by lia. change (2 ^ 4) with 16.
    assert (u8 (hdr_Version h * 16) = hdr_Version h * 2 ^ 4) as -> by (destruct Hv as [-> | ->]; done).
    by rewrite lor_shift by (lia || done). }
  assert (max = (if hdr_Version h =? VERSION3 then MaxAdverInt h * 100 else MaxAdverInt h)) as Em.
  { unfold max. destruct (_ =? _); [|done]. unfold u16. apply Z.mod_small. lia. }
  assert (0 <= max < 8192) as Hm by (rewrite Em; destruct (_ =? _); lia).
  assert (ra = Rsvd h * 8192 + max) as Er.
  { unfold ra. rewrite Z.shiftl_mul_pow2 by lia. unfold u16. rewrite Z.mod_small by lia.
    change 8192 with (2 ^ 13). by rewrite lor_shift. }
  clearbody b0 ra max. subst b0 ra. rewrite !Z.shiftr_div_pow2 by lia.
  change 15 with (Z.ones 4). change 8191 with (Z.ones 13). rewrite !Z.land_ones by lia.
  change (2 ^ 4) with 16. change (2 ^ 13) with 8192.
  assert ((Rsvd h * 8192 + max) mod 8192 = max) as -> by zlia. split_and!; [zlia|zlia|unfold is_u16; lia|zlia|].
  rewrite Em. destruct (_ =? _); [|done]. by rewrite Z.div_mul.
Qed.

(** What is encoded is decoded, whatever follows it in the buffer. *)
Theorem header_roundtrip h spare : header_ok h ->
  exists octets, EncodeHeader h = Ok (octets, u16 (len octets)) /\
    DecodeHeader (mkSlice octets spare) =
      Ok (mkHeader (hdr_Version h) (hdr_Type h) (VirtualRtrId h) (hdr_Priority h) (CountIPAddr h) (Rsvd h)
            (MaxAdverInt h) (CheckSum h) (map wire_ip (hdr_IpAddr h))).
Proof.
  intros H. pose proof (header_fields h H) as (F1 & F2 & F3 & F4 & F5). destruct H as [Hv _ _ _ Hc [Hn Hpos] Ha].
  eexists. split; [by apply EncodeHeader_ok|]. set (pad := zeros (padding h)).
  assert (Hpad : hdr_Version h = VERSION3 -> pad = []) by (unfold pad, padding; by intros ->).
  clearbody pad. set (b0 := Z.lor (u8 _) _) in *. set (ra := Z.lor (u16 _) _) in *.
  set (ips := mjoin (map wire_ip (hdr_IpAddr h))). set (pre := [b0; VirtualRtrId h; hdr_Priority h; CountIPAddr h]).
  assert (header_octets h = pre ++ be16 ra ++ be16 (CheckSum h) ++ ips) as Eo by done.
  set (data := mkSlice (header_octets h ++ pad) spare).
  assert (sl_bytes data ++ sl_spare data = pre ++ be16 ra ++ be16 (CheckSum h) ++ ips ++ pad ++ spare) as Eb.
  { unfold data. cbn [sl_bytes sl_spare]. rewrite Eo. by rewrite <- !app_assoc. }
  assert (forall i x, pre !! i = Some x -> sl_index data (Z.of_nat i) = Ok x) as Hi.
  { intros i x Hx. unfold sl_index, index, data. cbn [sl_bytes]. rewrite (proj2 (Z.ltb_ge _ _)), Nat2Z.id by lia.
    rewrite Eo, <- app_assoc. by rewrite (lookup_app_l_Some _ _ _ _ Hx). }
  assert (sl_slice data 4 6 = Ok (be16 ra)) as S1 by (unfold sl_slice; rewrite Eb; by apply (slice_app pre)).
  assert (sl_slice data 6 8 = Ok (be16 (CheckSum h))) as S2.
  { unfold sl_slice. rewrite Eb, (app_assoc pre). apply slice_app; by rewrite len_app, !len_be16. }
  unfold DecodeHeader. rewrite (Hi 0%nat b0 eq_refl : sl_index data 0 = _), (Hi 1%nat _ eq_refl : sl_index data 1 = _),
    (Hi 2%nat _ eq_refl : sl_index data 2 = _), (Hi 3%nat _ eq_refl : sl_index data 3 = _). res_simpl.
  rewrite S1. res_simpl. rewrite (Uint16_be16 ra [] F3 : Uint16 (be16 ra) = _). res_simpl. rewrite S2. res_simpl.
  rewrite (Uint16_be16 (CheckSum h) [] Hc : Uint16 (be16 (CheckSum h)) = _). res_simpl.
  rewrite F1, F2, F4, F5.
  assert (decode_addresses (hdr_Version h) (CountIPAddr h) data = Ok (map wire_ip (hdr_IpAddr h))) as ->; [|done].
  assert (Z.to_nat (CountIPAddr h) = length (map wire_ip (hdr_IpAddr h))) as En
    by (rewrite Hn, to_nat_len; by rewrite length_map).
  assert (forall w, 0 <= w -> Forall (fun ip => len (wire_ip ip) = w) (hdr_IpAddr h) ->
            read_addresses data 8 w (Z.to_nat (CountIPAddr h)) = Ok (map wire_ip (hdr_IpAddr h)) /\
            len (header_octets h) = 8 + w * CountIPAddr h) as Hread.
  { intros w Hw Hall. assert (Forall (fun x => len x = w) (map wire_ip (hdr_IpAddr h))) as Hall' by (by apply Forall_fmap).
    split.
    - rewrite En. apply (read_addresses_ok _ (pre ++ be16 ra ++ be16 (CheckSum h)) (pad ++ spare)); [|done|done].
      rewrite Eb. by rewrite <- !app_assoc.
    - rewrite Eo, !len_app, !len_be16. unfold ips. rewrite (len_mjoin _ w), len_map, <- Hn by done. change (len pre) with 4. lia. }
  assert (len (sl_bytes data) = len (header_octets h) + len pad) as El by apply len_app.
  unfold decode_addresses, VRRP_HEADER_SIZE_EXCLUDING_IPVX. rewrite El.
  destruct Hv as [Hv|Hv]; rewrite Hv in *; cbn [VERSION2 VERSION3 Z.eqb Pos.eqb].
  - destruct Ha as [Ha|[? _]]; [|done]. by apply Hread.
  - rewrite Hpad by done. change (len (@nil Z)) with 0. destruct Ha as [Ha|[_ Ha]].
    + destruct (Hread 4) as [-> ->]; [lia|done|]. rewrite (proj2 (Z.eqb_neq _ _)), (proj2 (Z.eqb_eq _ _)) by lia. done.
    + destruct (Hread 16) as [-> ->]; [lia|done|]. by rewrite (proj2 (Z.eqb_eq _ _)) by lia.
Qed.

(** ** Advertisements that arrive *)

Definition with_checksum (c : Z) (h : Header) : Header :=
  mkHeader (hdr_Version h) (hdr_Type h) (VirtualRtrId h) (hdr_Priority h) (CountIPAddr h) (Rsvd h) (MaxAdverInt h) c
    (hdr_IpAddr h).

Lemma PutUint16_app pre mid post i v :
  i = len pre -> len mid = 2 -> PutUint16 (pre ++ mid ++ post) i v = Ok (pre ++ be16 v ++ post).
Proof.
  intros Hi Hm. unfold PutUint16. rewrite on_suffix_app by done. unfold put. rewrite len_app, Hm, len_be16.
  pose proof (len_nonneg post). rewrite (proj2 (Z.leb_le _ _)) by lia. res_simpl.
  rewrite copy_fits by (rewrite len_app, len_be16; lia). unfold len in Hm.
  rewrite drop_app_le, drop_ge by (change (length (be16 v)) with 2%nat; lia). done.
Qed.

(** The checksum is the fourth word of a header. *)
Lemma put_header_checksum h c post :
  PutUint16 (header_octets h ++ post) 6 c = Ok (header_octets (with_checksum c h) ++ post).
Proof.
  unfold header_octets. cbn [with_checksum hdr_Version hdr_Type VirtualRtrId hdr_Priority CountIPAddr Rsvd MaxAdverInt
    CheckSum hdr_IpAddr].
  rewrite (app_assoc _ (be16 (Z.lor _ _))), <- (app_assoc _ _ post), <- (app_assoc (be16 (CheckSum h)) _ post).
  rewrite PutUint16_app by (done || by rewrite len_app, len_be16). by rewrite <- !app_assoc.
Qed.

Lemma sum_words_even content csum : len content mod 2 = 0 -> exists s, sum_words content csum = Ok s.
Proof.
  revert csum. induction content as [|a|a b content IH] using pairs_ind; intros csum; [by eexists|done|].
  rewrite !len_cons. intros H. cbn [sum_words]. apply IH.
  rewrite Z.add_assoc, Z.add_comm in H. change (1 + 1) with (1 * 2) in H. by rewrite Z.mod_add in H.
Qed.

Lemma not16_range x : is_u16 (not16 x).
Proof. unfold not16, is_u16. zlia. Qed.

Lemma len_octets h w :
  CountIPAddr h = len (hdr_IpAddr h) -> Forall (fun ip => len (wire_ip ip) = w) (hdr_IpAddr h) ->
  len (header_octets h) = 8 + w * CountIPAddr h.
Proof.
  intros Hn Ha. unfold header_octets. rewrite !len_app, !len_be16.
  rewrite (len_mjoin _ w) by (by apply Forall_fmap). rewrite len_map, <- Hn.
  match goal with |- len ?l + _ = _ => change (len l) with 4 end. lia.
Qed.

Lemma octets_even h : header_ok h -> len (header_octets h ++ zeros (padding h)) mod 2 = 0.
Proof.
  intros [_ _ _ _ _ [Hn _] Ha].
  assert (exists k, len (header_octets h) = 2 * k) as [k Ek].
  { destruct Ha as [Ha|[_ Ha]]; rewrite (len_octets _ _ Hn Ha); [exists (4 + 2 * CountIPAddr h)|exists (4 + 8 * CountIPAddr h)];
      lia. }
  rewrite len_app. unfold padding, VRRP_HEADER_MIN_SIZE. destruct (_ && _) eqn:E.
  - apply andb_true_iff in E as [_ E]. rewrite len_zeros by lia. zlia.
  - rewrite len_zeros by lia. zlia.
Qed.

Lemma with_checksum_ok h c : header_ok h -> is_u16 c -> header_ok (with_checksum c h).
Proof. intros []. by split. Qed.

Lemma padding_checksum h c : padding (with_checksum c h) = padding h.
Proof.
  assert (len (header_octets (with_checksum c h)) = len (header_octets h)) as E.
  { unfold header_octets. by rewrite !len_app, !len_be16. }
  unfold padding. by rewrite E.
Qed.

(** A received header with its own checksum passes. *)
Lemma put_checksum_ok h c spare :
  put_checksum 0 (mkSlice (header_octets (with_checksum c h) ++ zeros (padding h)) spare) =
  Ok (mkSlice (header_octets (with_checksum 0 h) ++ zeros (padding h)) spare).
Proof.
  unfold put_checksum. cbn [sl_bytes sl_spare]. rewrite <- app_assoc, put_header_checksum. res_simpl.
  assert (length (header_octets (with_checksum c h) ++ zeros (padding h)) =
    length (header_octets (with_checksum 0 h) ++ zeros (padding h))) as El by (rewrite !length_app; done).
  rewrite El. change (with_checksum 0 (with_checksum c h)) with (with_checksum 0 h).
  rewrite app_assoc, take_app_length, drop_app_length. done.
Qed.

Lemma add32_range x y : is_u32 (add32 x y).
Proof. unfold add32, is_u32. zlia. Qed.

Lemma sum_words6_range content csum : is_u32 csum -> is_u32 (sum_words6 content csum).
Proof.
  revert csum. induction content as [|a|a b content IH] using pairs_ind; intros csum H; cbn [sum_words6];
    [done|apply add32_range|apply IH, add32_range].
Qed.

Lemma v6_checksum_ok ip content :
  len (ip6_SrcIP ip) = 16 -> len (ip6_DstIP ip) = 16 -> exists c, computeV6Checksum ip content = Ok c /\ is_u16 c.
Proof.
  intros Hs Hd. unfold computeV6Checksum.
  assert (exists p, pseudoheaderChecksum ip = Ok p) as [p ->].
  { apply list16 in Hs as (? & ? & ? & ? & ? & ? & ? & ? & ? & ? & ? & ? & ? & ? & ? & ? & Es).
    apply list16 in Hd as (? & ? & ? & ? & ? & ? & ? & ? & ? & ? & ? & ? & ? & ? & ? & ? & Ed).
    destruct ip as [v n h hl src dst]. cbn [ip6_SrcIP ip6_DstIP] in *. subst src dst.
    eexists. cbv -[add32 Z.mul]. reflexivity. }
  res_simpl. rewrite fold_carry_canon by (apply sum_words6_range, add32_range). res_simpl.
  eexists. split; [done|]. apply not16_range.
Qed.

Definition decoded (h : Header) : Header :=
  mkHeader (hdr_Version h) (hdr_Type h) (VirtualRtrId h) (hdr_Priority h) (CountIPAddr h) (Rsvd h) (MaxAdverInt h)
    (CheckSum h) (map wire_ip (hdr_IpAddr h)).

Lemma validate_ok h c spare :
  header_ok h -> MaxAdverInt h <> 0 -> hdr_Type h <> 0 ->
  computeChecksum (header_octets (with_checksum 0 h) ++ zeros (padding h)) = Ok c ->
  validateHeader (decoded (with_checksum c h)) (mkSlice (header_octets (with_checksum c h) ++ zeros (padding h)) spare)
    = Ok tt.
Proof.
  intros [Hv _ _ _ _ [_ Hpos] _] Hm Ht Hc. unfold validateHeader.
  cbn [decoded with_checksum hdr_Version hdr_Type CountIPAddr MaxAdverInt CheckSum].
  assert (negb (hdr_Version h =? VERSION2) && negb (hdr_Version h =? VERSION3) = false) as ->
    by (destruct Hv as [-> | ->]; done).
  rewrite put_checksum_ok. res_simpl. cbn [sl_bytes]. rewrite Hc. res_simpl. rewrite Z.eqb_refl. cbn [negb].
  by rewrite !(proj2 (Z.eqb_neq _ _)) by lia.
Qed.

Lemma validate6_ok h c spare ip ip' :
  header_ok h -> ip6_SrcIP ip' = ip6_SrcIP ip -> ip6_DstIP ip' = ip6_DstIP ip -> NextHeader ip' = NextHeader ip ->
  computeV6Checksum ip (header_octets (with_checksum 0 h) ++ zeros (padding h)) = Ok c ->
  validateV6Header (decoded (with_checksum c h)) ip'
    (mkSlice (header_octets (with_checksum c h) ++ zeros (padding h)) spare) = Ok tt.
Proof.
  intros [Hv _ _ _ _ _ _] Hs Hd Hn Hc. unfold validateV6Header.
  cbn [decoded with_checksum hdr_Version hdr_Type CountIPAddr MaxAdverInt CheckSum].
  assert (negb (hdr_Version h =? VERSION2) && negb (hdr_Version h =? VERSION3) = false) as ->
    by (destruct Hv as [-> | ->]; done).
  rewrite put_checksum_ok. res_simpl. cbn [sl_bytes].
  assert (computeV6Checksum ip' (header_octets (with_checksum 0 h) ++ zeros (padding h)) = Ok c) as ->.
  { rewrite <- Hc. unfold computeV6Checksum, pseudoheaderChecksum. by rewrite Hs, Hd, Hn. }
  res_simpl. by rewrite Z.eqb_refl.
Qed.

(** What gopacket makes of a frame it has serialized itself: the layers, with the
    addresses of an IPv4 header in four octets, and the payload, which padding may follow
    in the buffer. *)
Record gopacket_ok {Frame} (SerializeLayers : Ethernet -> IPLayer -> bytes -> Frame) (NewPacket : Frame -> Packet) : Prop :=
  mkGopacketOk {
  gp_v4 eth ip payload :
    len (SrcMAC eth) = 6 -> len (DstMAC eth) = 6 -> EthernetType eth = EthernetTypeIPv4 ->
    len (To4 (ip4_SrcIP ip)) = 4 -> len (To4 (ip4_DstIP ip)) = 4 -> 0 < len payload < 65516 ->
    exists ip' spare, NewPacket (SerializeLayers eth (L4 ip) payload) =
        mkPacket (Some eth) (Some (ip', Some (mkSlice payload spare))) None /\
      TTL ip' = TTL ip /\ ip4_SrcIP ip' = To4 (ip4_SrcIP ip) /\ ip4_DstIP ip' = To4 (ip4_DstIP ip);
  gp_v6 eth ip payload :
    len (SrcMAC eth) = 6 -> len (DstMAC eth) = 6 -> EthernetType eth = EthernetTypeIPv6 ->
    len (ip6_SrcIP ip) = 16 -> len (ip6_DstIP ip) = 16 -> 0 < len payload < 65516 ->
    exists ip' spare, NewPacket (SerializeLayers eth (L6 ip) payload) =
        mkPacket (Some eth) None (Some (ip', Some (mkSlice payload spare))) /\
      NextHeader ip' = NextHeader ip /\ ip6_SrcIP ip' = ip6_SrcIP ip /\ ip6_DstIP ip' = ip6_DstIP ip;
}.

(** An advertisement as a router with a valid configuration sends it. *)
Record adv_ok (p : PacketInfo) : Prop := mkAdvOk {
  ao_version : pi_Version p = VERSION2 \/ pi_Version p = VERSION3;
  ao_interval : 0 < AdvertiseInt p /\ (if pi_Version p =? VERSION3 then AdvertiseInt p * 100 else AdvertiseInt p) < 8192;
  ao_mac : len (mac_or_nil (VirutalMac p)) = 6;
  ao_family :
    IpType p = AF_INET /\ len (To4 (parse_address (Vip p))) = 4 /\ len (To4 (parse_address (pi_IpAddr p))) = 4 \/
    IpType p = AF_INET6 /\ pi_Version p = VERSION3 /\ To4 (parse_address (Vip p)) = [] /\
      len (parse_address (Vip p)) = 16 /\ len (parse_address (pi_IpAddr p)) = 16;
}.

Lemma To16_16 ip : len ip = 16 -> To16 ip = ip.
Proof.
  intros H. apply list16 in H as (? & ? & ? & ? & ? & ? & ? & ? & ? & ? & ? & ? & ? & ? & ? & ? & ->). done.
Qed.

Lemma adv_header_ok p : adv_ok p -> header_ok (advertisement p).
Proof.
  intros [Hv [H0 Hi] _ Hf]. split; cbn [advertisement hdr_Version hdr_Type Rsvd MaxAdverInt CheckSum CountIPAddr hdr_IpAddr].
  - done.
  - done.
  - done.
  - by split; [lia|].
  - done.
  - done.
  - unfold wire_ip. destruct Hf as [(_ & H4 & _)|(_ & H3 & H4 & H16 & _)].
    + left. repeat constructor. by destruct (To4 _).
    + right. split; [done|]. repeat constructor. by rewrite H4, To16_16.
Qed.

Lemma IP_String_To4 ip : len (To4 ip) = 4 -> IP_String (To4 ip) = IP_String ip.
Proof.
  intros H. unfold IP_String. rewrite (To4_4 (To4 ip)) by done. rewrite H. cbn [Z.eqb Pos.eqb].
  destruct (len ip =? 0) eqn:E; [|done]. destruct ip; [done|]. rewrite len_cons in E. pose proof (len_nonneg ip). lia.
Qed.

Lemma adv_payload p c spare : adv_ok p -> is_u16 c ->
  let payload := header_octets (with_checksum c (advertisement p)) ++ zeros (padding (advertisement p)) in
  0 < len payload < 65516 /\
  DecodeHeader (mkSlice payload spare) = Ok (decoded (with_checksum c (advertisement p))).
Proof.
  intros A Hc payload. pose proof (with_checksum_ok _ c (adv_header_ok p A) Hc) as H. split.
  - assert (exists w, (w = 4 \/ w = 16) /\ len (header_octets (with_checksum c (advertisement p))) = 8 + w * 1) as (w & Hw & El).
    { destruct H as [_ _ _ _ _ [Hn _] [Ha|[_ Ha]]].
      - exists 4. split; [by left|]. by apply (len_octets (with_checksum c (advertisement p))).
      - exists 16. split; [by right|]. by apply (len_octets (with_checksum c (advertisement p))). }
    unfold payload. rewrite <- (padding_checksum _ c), len_app. unfold padding, VRRP_HEADER_MIN_SIZE. rewrite El.
    destruct (_ && _) eqn:E; [apply andb_true_iff in E as [_ E]|]; rewrite len_zeros by lia; lia.
  - destruct (header_roundtrip _ spare H) as (octets & Eo & Ed).
    rewrite (EncodeHeader_ok _ (proj1 (ho_count _ H))) in Eo. injection Eo as <-. by rewrite padding_checksum in Ed.
Qed.

Section Arrive.
Context {Frame : Type} (SerializeLayers : Ethernet -> IPLayer -> bytes -> Frame) (NewPacket : Frame -> Packet).
Hypothesis Hgo : gopacket_ok SerializeLayers NewPacket.

(** The advertisement as the receiver sees it. *)
Definition received (p : PacketInfo) (c : Z) : PacketInfo :=
  mkPacketInfo (Some (decoded (with_checksum c (advertisement p))))
    (if IpType p =? AF_INET then VRRP_PROTOCOL_MAC else VRRP_V6_PROTOCOL_MAC) (MAC_String (mac_or_nil (VirutalMac p)))
    0 0 0 0 "" (IP_String (parse_address (pi_IpAddr p))) ""
    (if IpType p =? AF_INET then VRRP_V4_GROUP_IP else VRRP_V6_GROUP_IP) 0.

(** What is sent is what is received. *)
Lemma arrival p : adv_ok p ->
  exists f c, Encode SerializeLayers p = Ok (Some f) /\ Decode (NewPacket f) = Ok (Some (received p c)).
Proof.
  intros A. pose proof (adv_header_ok p A) as H. pose proof (fun c spare => adv_payload p c spare A) as Hp.
  destruct A as [Hv [H0 Hi] Hm Hf]. set (h := advertisement p) in *.
  unfold Encode, CreateHeader. fold h. rewrite (EncodeHeader_ok h) by done. res_simpl.
  destruct Hf as [(Ht & Hvip & Hsip)|(Ht & H3 & H4 & H16 & Hsip)]; rewrite Ht; cbn [AF_INET AF_INET6 Z.eqb Pos.eqb].
  - destruct (sum_words_even _ 0 (octets_even h H)) as [s Es].
    set (c := not16 (add32 (s / 65536) s)). assert (is_u16 c) as Hc by apply not16_range.
    assert (computeChecksum (header_octets h ++ zeros (padding h)) = Ok c) as Ec by (unfold computeChecksum; by rewrite Es).
    clearbody c. rewrite Ec. res_simpl. rewrite put_header_checksum. res_simpl. eexists _, c. split; [reflexivity|].
    destruct (gp_v4 _ _ Hgo (mkEthernet (mac_or_nil (VirutalMac p)) (mac_or_nil VRRP_PROTOCOL_MAC) EthernetTypeIPv4)
      (v4_header (parse_address (pi_IpAddr p)) (u16 (len (header_octets h ++ zeros (padding h)))))
      (header_octets (with_checksum c h) ++ zeros (padding h))) as (ip' & spare & -> & E1 & E2 & E3);
      [done|done|done|done|done|apply (Hp c [] Hc)|].
    unfold Decode. cbn [eth_layer EthernetType ip4_layer]. cbn [EthernetTypeIPv4 Z.eqb Pos.eqb].
    rewrite E1. cbn [v4_header TTL VRRP_TTL Z.eqb Pos.eqb negb]. destruct (Hp c spare Hc) as [_ ->]. res_simpl.
    rewrite validate_ok by (done || cbn; lia). rewrite E2, E3. cbn [ip4_SrcIP ip4_DstIP v4_header DstMAC SrcMAC].
    rewrite IP_String_To4 by done. unfold received. rewrite Ht. done.
  - destruct (v6_checksum_ok (v6_header (parse_address (pi_IpAddr p)) (header_octets h ++ zeros (padding h)))
      (header_octets h ++ zeros (padding h))) as (c & Ec & Hc); [done|done|].
    rewrite Ec. res_simpl. rewrite put_header_checksum. res_simpl. eexists _, c. split; [reflexivity|].
    destruct (gp_v6 _ _ Hgo (mkEthernet (mac_or_nil (VirutalMac p)) (mac_or_nil VRRP_V6_PROTOCOL_MAC) EthernetTypeIPv6)
      (v6_header (parse_address (pi_IpAddr p)) (header_octets h ++ zeros (padding h)))
      (header_octets (with_checksum c h) ++ zeros (padding h))) as (ip' & spare & -> & E1 & E2 & E3);
      [done|done|done|done|done|apply (Hp c [] Hc)|].
    unfold Decode. cbn [eth_layer EthernetType ip6_layer]. cbn [EthernetTypeIPv4 EthernetTypeIPv6 Z.eqb Pos.eqb].
    destruct (Hp c spare Hc) as [_ ->]. res_simpl.
    rewrite (validate6_ok _ _ _ _ _ H E2 E3 E1 Ec). rewrite E2, E3. unfold received. rewrite Ht. done.
Qed.

(** C29: every advertisement of a router with a valid configuration (version 2 or 3, IPv4,
    or IPv6 with version 3, addresses that parse, a MAC address of six octets, an interval
    of 1 to 8191 units on the wire, that is at most 81 seconds in version 3) is encoded
    into one frame, and a router that runs the same code accepts that frame, with the
    fields it was sent with. Other implementations are not spoken for: the checksum of
    this code differs from RFC 1071's when the sum carries twice (packet.go:98). *)
Theorem advertisement_arrives p : adv_ok p ->
  exists f c, Encode SerializeLayers p = Ok (Some f) /\ Decode (NewPacket f) = Ok (Some (received p c)).
Proof. apply arrival. Qed.
End Arrive.

(** A library that keeps the layers as they are. *)
Definition kept_layers (f : Ethernet * IPLayer * bytes) : Packet :=
  let '(eth, ip, payload) := f in
  match ip with
  | L4 ip => mkPacket (Some eth)
      (Some (mkLayerIPv4 (ip4_Version ip) 5 (ip4_Length ip) (TTL ip) (Protocol ip) (To4 (ip4_SrcIP ip)) (To4 (ip4_DstIP ip)),
             Some (mkSlice payload (zeros 6)))) None
  | L6 ip => mkPacket (Some eth) None (Some (ip, Some (mkSlice payload [])))
  end.

Lemma kept_layers_ok : gopacket_ok frame_of kept_layers.
Proof.
  split.
  - intros eth ip payload _ _ _ _ _ _. by do 2 eexists.
  - intros eth ip payload _ _ _ _ _ _. by exists ip, [].
Qed.

Lemma advertisement_arrives_witness :
  (exists f c, Encode frame_of test_v2 = Ok (Some f) /\ Decode (kept_layers f) = Ok (Some (received test_v2 c))) /\
  (exists f c, Encode frame_of test_ipv6 = Ok (Some f) /\ Decode (kept_layers f) = Ok (Some (received test_ipv6 c))).
Proof.
  split; apply (advertisement_arrives frame_of kept_layers kept_layers_ok).
  - split; [by left|done|done|left; by vm_compute].
  - split; [by right|done|done|right; by vm_compute].
Defined.

(** ** Frames that stop the daemon *)

Definition room (s : Slice) : Z := len (sl_bytes s ++ sl_spare s).

(** The addresses a header announces are in the buffer. *)
Definition addresses_in (s : Slice) (version count : Z) : bool :=
  let rest := Z.abs (len (sl_bytes s) - 8) in
  if version =? VERSION2 then 8 + 4 * count <=? room s
  else if version =? VERSION3 then
    if count * 16 =? rest then 8 + 16 * count <=? room s
    else if count * 4 =? rest then 8 + 4 * count <=? room s
    else true
  else true.

Definition known_version (v : Z) : bool := (v =? VERSION2) || (v =? VERSION3).

(** The payloads that [Decode] gets through; [over4] tells that they came over IPv4. *)
Definition decodable (over4 : bool) (s : Slice) : bool :=
  match sl_bytes s with
  | b0 :: _ :: _ :: count :: _ =>
    (8 <=? room s) && addresses_in s (Z.shiftr b0 4) count &&
    negb (over4 && known_version (Z.shiftr b0 4) && Z.odd (len (sl_bytes s)))
  | _ => false
  end.

Lemma sl_slice_if s i j : 0 <= i <= j ->
  sl_slice s i j = if j <=? room s then Ok (take (Z.to_nat (j - i)) (drop (Z.to_nat i) (sl_bytes s ++ sl_spare s))) else Panic.
Proof.
  intros H. unfold sl_slice, slice, room. rewrite (proj2 (Z.leb_le 0 i)), (proj2 (Z.leb_le i j)) by lia. done.
Qed.

Lemma read_addresses_if s base width n :
  0 <= base -> 0 <= width ->
  if (n =? 0)%nat || (base + width * Z.of_nat n <=? room s)
  then exists ws, read_addresses s base width n = Ok ws /\ length ws = n else read_addresses s base width n = Panic.
Proof.
  revert base. induction n as [|n IH]; intros base Hb Hw; [by exists []|]. cbn [Nat.eqb orb read_addresses].
  rewrite sl_slice_if by lia. specialize (IH (base + width) ltac:(lia) Hw).
  replace (base + width + width * Z.of_nat n) with (base + width * Z.of_nat (S n)) in IH by lia.
  destruct (base + width * Z.of_nat (S n) <=? room s) eqn:E.
  - rewrite (proj2 (Z.leb_le (base + width) (room s))) by (rewrite Z.leb_le in E; nia). res_simpl. rewrite orb_true_r in IH. destruct IH as (ws & -> & Hl). res_simpl.
    eexists. split; [done|]. cbn. by rewrite Hl.
  - destruct (base + width <=? room s) eqn:E2; [|done]. res_simpl. destruct n as [|n]; [|by rewrite IH].
    change (Z.of_nat 1) with 1 in E. rewrite Z.leb_nle in E. rewrite Z.leb_le in E2. lia.
Qed.

Lemma decode_addresses_if s version count : is_u8 count -> 8 <= room s ->
  if addresses_in s version count then exists ws, decode_addresses version count s = Ok ws
  else decode_addresses version count s = Panic.
Proof.
  intros [Hc _] Hr. unfold decode_addresses, addresses_in, VRRP_HEADER_SIZE_EXCLUDING_IPVX.
  assert (forall w, 0 <= w -> if 8 + w * count <=? room s then exists ws, read_addresses s 8 w (Z.to_nat count) = Ok ws
    else read_addresses s 8 w (Z.to_nat count) = Panic) as Hw.
  { intros w Hw. pose proof (read_addresses_if s 8 w (Z.to_nat count) ltac:(lia) Hw) as H. rewrite Z2Nat.id in H by lia.
    destruct (8 + w * count <=? room s) eqn:E; [rewrite orb_true_r in H; destruct H as (ws & H & _); by exists ws|].
    destruct (Z.to_nat count =? 0)%nat eqn:E0; [|done]. apply Nat.eqb_eq in E0. rewrite Z.leb_nle in E.
    replace count with 0 in E by lia. lia. }
  destruct (version =? VERSION2); [by apply Hw|]. destruct (version =? VERSION3); [|by exists []].
  destruct (count * 16 =? _); [by apply Hw|]. destruct (count * 4 =? _); [by apply Hw|by exists []].
Qed.

Lemma sl_two s i : 0 <= i ->
  if i + 2 <=? room s then exists d v, sl_slice s i (i + 2) = Ok d /\ Uint16 d = Ok v else sl_slice s i (i + 2) = Panic.
Proof.
  intros Hi. rewrite sl_slice_if by lia. destruct (i + 2 <=? room s) eqn:E; [|done]. rewrite Z.leb_le in E. unfold room in E.
  destruct (Uint16_ok (take (Z.to_nat (i + 2 - i)) (drop (Z.to_nat i) (sl_bytes s ++ sl_spare s)))) as [v Hv].
  - rewrite len_take_drop by lia. lia.
  - by eexists _, v.
Qed.

Lemma DecodeHeader_if s : is_bytes (sl_bytes s) ->
  match sl_bytes s with
  | b0 :: _ :: _ :: count :: _ =>
    if (8 <=? room s) && addresses_in s (Z.shiftr b0 4) count
    then exists h, DecodeHeader s = Ok h /\ hdr_Version h = Z.shiftr b0 4 else DecodeHeader s = Panic
  | _ => DecodeHeader s = Panic
  end.
Proof.
  intros Hb. unfold DecodeHeader, sl_index. destruct (sl_bytes s) as [|b0 [|b1 [|b2 [|b3 rest]]]] eqn:E; try done.
  change (index (b0 :: b1 :: b2 :: b3 :: rest) 0) with (Ok b0).
  change (index (b0 :: b1 :: b2 :: b3 :: rest) 1) with (Ok b1). change (index (b0 :: b1 :: b2 :: b3 :: rest) 2) with (Ok b2).
  change (index (b0 :: b1 :: b2 :: b3 :: rest) 3) with (Ok b3). res_simpl.
  pose proof (sl_two s 4 ltac:(lia)) as H4. pose proof (sl_two s 6 ltac:(lia)) as H6. change (4 + 2) with 6 in H4. change (6 + 2) with 8 in H6.
  destruct (8 <=? room s) eqn:E8; cbn [andb].
  - rewrite (proj2 (Z.leb_le 6 (room s))) in H4 by lia. destruct H4 as (d4 & ra & -> & Hra), H6 as (d6 & cs & -> & Hcs).
    res_simpl. rewrite Hra. res_simpl. rewrite Hcs. res_simpl.
    assert (is_u8 b3) as Hc by (unfold is_bytes in Hb; rewrite !Forall_cons in Hb; apply Hb).
    pose proof (decode_addresses_if s (Z.shiftr b0 4) b3 Hc ltac:(lia)) as Ha.
    destruct (addresses_in s (Z.shiftr b0 4) b3); [|by rewrite Ha]. destruct Ha as [ws ->]. res_simpl. by eexists.
  - destruct (6 <=? room s); [|by rewrite H4]. destruct H4 as (d4 & ra & -> & Hra). res_simpl. rewrite Hra. res_simpl.
    by rewrite H6.
Qed.

Lemma sum_words_odd content csum : Z.odd (len content) = true -> sum_words content csum = Panic.
Proof.
  revert csum. induction content as [|a|a b content IH] using pairs_ind; intros csum; [done|done|].
  rewrite !len_cons, Z.add_assoc, Z.odd_add. change (Z.odd (1 + 1)) with false. rewrite xorb_false_l. apply IH.
Qed.

Lemma even_mod n : Z.odd n = false -> n mod 2 = 0.
Proof. intros H. by rewrite Zmod_odd, H. Qed.

Lemma put_checksum_room v s : 8 <= room s -> exists s', put_checksum v s = Ok s' /\ len (sl_bytes s') = len (sl_bytes s).
Proof.
  intros Hr. unfold put_checksum, PutUint16, on_suffix. rewrite slice_from_range by (unfold room in Hr; lia). res_simpl.
  unfold put. rewrite len_be16, len_drop_range, (proj2 (Z.leb_le _ _)) by (unfold room in Hr; lia). res_simpl.
  eexists. split; [done|]. cbn [sl_bytes]. unfold len. rewrite length_take, length_app, length_take, copy_fits.
  - rewrite !length_app, !length_drop, !length_app. unfold room, len in Hr. rewrite length_app in Hr.
    change (length (be16 v)) with 2%nat. change (Z.to_nat 6) with 6%nat. lia.
  - rewrite len_be16, len_drop_range; unfold room in Hr; lia.
Qed.

Lemma validateHeader_if h s :
  8 <= room s ->
  if known_version (hdr_Version h) && Z.odd (len (sl_bytes s)) then validateHeader h s = Panic
  else exists r, validateHeader h s = Ok r \/ exists e, validateHeader h s = Err e.
Proof.
  intros Hr. unfold validateHeader. rewrite <- negb_orb. fold (known_version (hdr_Version h)).
  destruct (known_version (hdr_Version h)); cbn [negb andb]; [|exists tt; right; by eexists].
  destruct (put_checksum_room 0 s Hr) as (s' & -> & El). res_simpl. unfold computeChecksum.
  destruct (Z.odd (len (sl_bytes s))) eqn:Eo.
  - rewrite sum_words_odd by (by rewrite El). done.
  - destruct (sum_words_even (sl_bytes s') 0) as [x ->]; [rewrite El; by apply even_mod|]. res_simpl. exists tt.
    destruct (negb _); [right; by eexists|]. destruct (_ || _); [right; by eexists|by left].
Qed.

(** A VRRP frame over IPv4 is either dropped or decoded, or it stops the daemon: it does
    when its payload is cut short, when the addresses it announces are not in the
    buffer, or when its length is odd. *)
Theorem decode_v4_returns eth ip s :
  EthernetType eth = EthernetTypeIPv4 -> TTL ip = VRRP_TTL -> is_bytes (sl_bytes s) ->
  let pkt := mkPacket (Some eth) (Some (ip, Some s)) None in
  if decodable true s then exists o, Decode pkt = Ok o else Decode pkt = Panic.
Proof.
  intros He Ht Hb pkt. unfold Decode, pkt. cbn [eth_layer ip4_layer]. rewrite He, Ht. cbn [EthernetTypeIPv4 VRRP_TTL Z.eqb Pos.eqb negb].
  pose proof (DecodeHeader_if s Hb) as Hd. unfold decodable.
  destruct (sl_bytes s) as [|b0 [|b1 [|b2 [|b3 rest]]]] eqn:E; try (by rewrite Hd). rewrite <- E in *. cbn [andb negb orb].
  destruct (8 <=? room s) eqn:E8; cbn [andb] in *; [|by rewrite Hd].
  destruct (addresses_in s (Z.shiftr b0 4) b3); cbn [andb] in *; [|by rewrite Hd]. destruct Hd as (h & -> & Hv). res_simpl.
  rewrite Z.leb_le in E8. pose proof (validateHeader_if h s E8) as Hval. rewrite Hv in Hval.
  destruct (known_version _ && Z.odd _); cbn [negb]; [by rewrite Hval|].
  destruct Hval as [r [-> |[e ->]]]; by eexists.
Qed.

Definition odd_payload : Slice := mkSlice [0x31; 1; 100; 1; 0; 100; 0; 0; 0] [].
Definition some_eth : Ethernet := mkEthernet [0; 0; 94; 0; 1; 1] [1; 0; 94; 0; 0; 18] EthernetTypeIPv4.
Definition some_ip : LayerIPv4 := mkLayerIPv4 4 5 29 255 112 [10; 0; 0; 2] [224; 0; 0; 18].

Lemma decode_v4_returns_witness :
  decodable true odd_payload = false /\
  if decodable true odd_payload then exists o, Decode (mkPacket (Some some_eth) (Some (some_ip, Some odd_payload)) None) = Ok o
  else Decode (mkPacket (Some some_eth) (Some (some_ip, Some odd_payload)) None) = Panic.
Proof.
  split; [by vm_compute|]. apply (decode_v4_returns some_eth some_ip odd_payload); [done|done|].
  repeat constructor; unfold is_u8; lia.
Defined.

(** Over IPv6 an odd length does no harm. *)
Lemma decode_v6_returns eth ip s :
  EthernetType eth = EthernetTypeIPv6 -> len (ip6_SrcIP ip) = 16 -> len (ip6_DstIP ip) = 16 -> is_bytes (sl_bytes s) ->
  let pkt := mkPacket (Some eth) None (Some (ip, Some s)) in
  if decodable false s then exists o, Decode pkt = Ok o else Decode pkt = Panic.
Proof.
  intros He Hs6 Hd6 Hb pkt. unfold Decode, pkt. cbn [eth_layer ip6_layer]. rewrite He.
  cbn [EthernetTypeIPv4 EthernetTypeIPv6 Z.eqb Pos.eqb]. pose proof (DecodeHeader_if s Hb) as Hd. unfold decodable.
  destruct (sl_bytes s) as [|b0 [|b1 [|b2 [|b3 rest]]]] eqn:E; try (by rewrite Hd). rewrite <- E in *.
  cbn [andb negb orb]. rewrite andb_true_r.
  destruct ((8 <=? room s) && addresses_in s (Z.shiftr b0 4) b3) eqn:Eb; [|by rewrite Hd].
  destruct Hd as (h & -> & Hv). res_simpl. apply andb_true_iff in Eb as [E8 _]. rewrite Z.leb_le in E8.
  unfold validateV6Header. destruct (_ && _); [by eexists|].
  destruct (put_checksum_room 0 s E8) as (s' & -> & _). res_simpl.
  destruct (v6_checksum_ok ip (sl_bytes s') Hs6 Hd6) as (c & -> & _). res_simpl.
  destruct (negb _); by eexists.
Qed.
