(* ===== verification/VrrpFsm.v ===== *)
(** * VRRP: the state machine of a virtual router

    fsm.go, backup.go and master.go of src/vrrp/fsm. A machine is driven by its goroutine
    ([StartFsm]), which takes packets and events of its interface, and by the callbacks
    of two timers. What it writes to the network and to the channels of the server is
    appended to [out]. *)

From stdpp Require Import pretty.
From S2P Require Import Prelude.
From S2P Require Import NetIP.
From S2P Require Import NetParse.
From S2P Require Import VrrpPacket.

(** ** Data *)

Record IntfCfg := mkIntfCfg {
  IntfRef : string;
  cfg_IfIndex : Z;
  VRID : Z;
  Priority : Z;
  VirtualIPAddr : string;
  AdvertisementInterval : Z;
  PreemptMode : bool;
  AcceptMode : bool;
  AdminState : bool;
  Version : Z;
  Operation : Z;
  cfg_IpType : Z;
}.

Record BaseIpInfo := mkBaseIpInfo {
  l3_IfIndex : Z;
  l3_IntfRef : string;
  l3_IpAddr : string;
  OperState : string;
  MsgType : string;
  l3_IpType : Z;
}.

Record VirtualIpInfo := mkVirtualIpInfo {
  vip_IntfRef : string;
  vip_IpAddr : string;
  vip_MacAddr : string;
  Enable : bool;
  vip_Version : Z;
  vip_IpType : Z;
}.

Inductive VrrpState := VRRP_UNINITIALIZE_STATE | VRRP_INITIALIZE_STATE | VRRP_BACKUP_STATE | VRRP_MASTER_STATE.

#[export] Instance VrrpState_eq_dec : EqDecision VrrpState.
Proof. solve_decision. Defined.

Definition getStateName (state : VrrpState) : string :=
  match state with
  | VRRP_UNINITIALIZE_STATE => ""
  | VRRP_INITIALIZE_STATE => "Initialize"
  | VRRP_BACKUP_STATE => "Backup"
  | VRRP_MASTER_STATE => "Master"
  end.

(** The part of common.State a machine keeps; times of day are left out. *)
Record StateInfo := mkStateInfo {
  CurrentFsmState : string;
  MasterIp : string;
  AdverRx : Z;
  AdverTx : Z;
}.

(** common.State *)
Record StateReport := mkStateReport {
  rep_IntfRef : string;
  rep_Vrid : Z;
  rep_OperState : string;
  rep_info : StateInfo;
  rep_IpAddr : string;
  rep_VirtualIp : string;
  rep_VirtualRouterMACAddress : string;
  rep_AdvertisementInterval : Z;
  rep_MasterDownTimer : Z;
}.

Inductive IntfEvent :=
| STATE_CHANGE (OperState : string)
| TEAR_DOWN.

Definition STATE_UP : string := "UP".
Definition STATE_DOWN : string := "DOWN".
Definition VRRP_MASTER_PRIORITY : Z := 255.
Definition VRRP_MASTER_DOWN_PRIORITY : Z := 0.
Definition USE_CONFIG_ADVERTISEMENT : Z := -100.
Definition VERSION2_IEEE_MAC_ADDR_PREFIX : string := "00-00-5E-00-01-".
Definition VERSION3_IEEE_MAC_ADDR_PREFIX : string := "00-00-5E-00-02-".
Definition Second : Z := 1000000000.

(** A *time.Timer: nil, or the nanoseconds it was set to when it is running. *)
Abbreviation Timer := (option (option Z)).

Section Machine.
Context {Frame : Type}.
Variable SerializeLayers : Ethernet -> IPLayer -> bytes -> Frame.

Inductive Out :=
| WritePacketData (pkt : option Frame)
| vipCh (info : VirtualIpInfo)
| rxCh
| txCh
| receivePkt
| CloseHandle.

(** [pHandle] tells whether the pcap handle is there, [looping] whether the goroutine
    runs. [adver_pending] and [down_pending] count the callbacks whose timer expired and
    that have not run yet: stopping a timer does not stop them. *)
Record FSM := mkFSM {
  Config : option IntfCfg;
  pHandle : bool;
  ifIndex : Z;
  ipAddr : string;
  ipType : Z;
  VirtualMACAddress : string;
  State : VrrpState;
  previousState : VrrpState;
  MasterAdverInterval : Z;
  SkewTime : Z;
  MasterDownValue : Z;
  AdverTimer : Timer;
  MasterDownTimer : Timer;
  stateInfo : option StateInfo;
  running : bool;
  looping : bool;
  adver_pending : nat;
  down_pending : nat;
  out : list Out;
}.

Definition FSM_eta (f : FSM) : FSM :=
  mkFSM (Config f) (pHandle f) (ifIndex f) (ipAddr f) (ipType f) (VirtualMACAddress f) (State f) (previousState f)
    (MasterAdverInterval f) (SkewTime f) (MasterDownValue f) (AdverTimer f) (MasterDownTimer f) (stateInfo f)
    (running f) (looping f) (adver_pending f) (down_pending f) (out f).

Definition set_Config v f := ltac:(update FSM_eta f Config v).
Definition set_pHandle v f := ltac:(update FSM_eta f pHandle v).
Definition set_VirtualMACAddress v f := ltac:(update FSM_eta f VirtualMACAddress v).
Definition set_State v f := ltac:(update FSM_eta f State v).
Definition set_previousState v f := ltac:(update FSM_eta f previousState v).
Definition set_MasterAdverInterval v f := ltac:(update FSM_eta f MasterAdverInterval v).
Definition set_SkewTime v f := ltac:(update FSM_eta f SkewTime v).
Definition set_MasterDownValue v f := ltac:(update FSM_eta f MasterDownValue v).
Definition set_AdverTimer v f := ltac:(update FSM_eta f AdverTimer v).
Definition set_MasterDownTimer v f := ltac:(update FSM_eta f MasterDownTimer v).
Definition set_stateInfo v f := ltac:(update FSM_eta f stateInfo v).
Definition set_running v f := ltac:(update FSM_eta f running v).
Definition set_looping v f := ltac:(update FSM_eta f looping v).
Definition set_adver_pending v f := ltac:(update FSM_eta f adver_pending v).
Definition set_down_pending v f := ltac:(update FSM_eta f down_pending v).
Definition set_out v f := ltac:(update FSM_eta f out v).

Definition emit (o : Out) (f : FSM) : FSM := set_out (out f ++ [o]) f.

(** [f.Config], which is nil after [DeInitFsm]. *)
Definition config (f : FSM) : res IntfCfg := of_option (Config f).

(** What opening the pcap handle and setting its filter return. *)
Record PcapEnv := mkPcapEnv {
  OpenLive : list Out -> bool;
  SetBPFFilter : list Out -> bool;
}.
Variable env : PcapEnv.

(** ** The virtual MAC address *)

Fixpoint skip_zeros (digits : list Z) : list Z :=
  match digits with
  | d :: digits' => if d =? 0 then skip_zeros digits' else digits
  | [] => []
  end.

(** strconv.FormatInt of an int32 in base 16. *)
Definition hex_string (x : Z) : string :=
  let a := Z.abs x in
  let digits := skip_zeros (map (fun k => a / 16 ^ k mod 16) [7; 6; 5; 4; 3; 2; 1]) ++ [a mod 16] in
  (if x <? 0 then "-" else "") +:+ String.concat "" (map hex_digit digits).

Definition virtual_mac (ipType vrid : Z) : string :=
  let prefix := if ipType =? AF_INET then VERSION2_IEEE_MAC_ADDR_PREFIX
                else if ipType =? AF_INET6 then VERSION3_IEEE_MAC_ADDR_PREFIX else ""%string in
  let vridStr := hex_string vrid in
  prefix +:+ (if (String.length vridStr =? 1)%nat then "0" +:+ vridStr else vridStr).

Definition InitFsm (cfg : IntfCfg) (l3Info : BaseIpInfo) : FSM :=
  mkFSM (Some cfg) false (l3_IfIndex l3Info) (IP_String (parse_address (l3_IpAddr l3Info))) (l3_IpType l3Info)
    (virtual_mac (l3_IpType l3Info) (VRID cfg)) VRRP_INITIALIZE_STATE VRRP_UNINITIALIZE_STATE 0 0 0 None None
    (Some (mkStateInfo (getStateName VRRP_INITIALIZE_STATE) "" 0 0)) false false 0 0 [].

Definition UpdateConfig (cfg : IntfCfg) (f : FSM) : FSM := set_Config (Some cfg) f.

Definition GetStateInfo (f : FSM) : res StateReport :=
  c ← config f;
  st ← of_option (stateInfo f);
  Ok (mkStateReport (IntfRef c) (VRID c) (if running f then STATE_UP else STATE_DOWN) st (ipAddr f) (VirtualIPAddr c)
        (VirtualMACAddress f) (AdvertisementInterval c) (MasterDownValue f)).

(** ** Statistics *)

Definition on_stateInfo (g : StateInfo -> StateInfo) (f : FSM) : res FSM :=
  st ← of_option (stateInfo f); Ok (set_stateInfo (Some (g st)) f).

Definition updateRxStInfo (pktInfo : PacketInfo) (f : FSM) : res FSM :=
  f ← on_stateInfo (fun st => mkStateInfo (getStateName (State f)) (pi_IpAddr pktInfo) (u32 (AdverRx st + 1)) (AdverTx st)) f;
  Ok (emit rxCh f).

Definition updateTxStInfo (f : FSM) : res FSM :=
  f ← on_stateInfo (fun st => mkStateInfo (getStateName (State f)) (ipAddr f) (AdverRx st) (u32 (AdverTx st + 1))) f;
  Ok (emit txCh f).

Definition updateCurrentState (f : FSM) : res FSM :=
  on_stateInfo (fun st => mkStateInfo (getStateName (State f)) (MasterIp st) (AdverRx st) (AdverTx st)) f.

(** ** Packets *)

Definition initPktListener (f : FSM) : res FSM :=
  _ ← config f;
  if pHandle f then Ok f
  else
    let f := set_pHandle (OpenLive env (out f)) f in
    if pHandle f && SetBPFFilter env (out f) then Ok (emit receivePkt f) else Ok f.

Definition deInitPktListener (f : FSM) : res FSM :=
  if pHandle f then _ ← config f; Ok (set_pHandle false (emit CloseHandle f)) else Ok f.

Definition send (pktInfo : PacketInfo) (f : FSM) : res FSM :=
  pkt ← Encode SerializeLayers pktInfo;
  Ok (if pHandle f then emit (WritePacketData pkt) f else f).

Definition getPacketInfo (f : FSM) : res PacketInfo :=
  c ← config f;
  Ok (mkPacketInfo None "" "" (Version c) (u8 (VRID c)) (u8 (Priority c)) (u16 (AdvertisementInterval c))
        (VirtualMACAddress f) (ipAddr f)
        (if bool_decide (VirtualIPAddr c = ""%string) then ipAddr f else VirtualIPAddr c) "" (cfg_IpType c)).

Definition with_pi_Priority (v : Z) (p : PacketInfo) : PacketInfo :=
  mkPacketInfo (Hdr p) (DstMac p) (SrcMac p) (pi_Version p) (Vrid p) v (AdvertiseInt p) (VirutalMac p) (pi_IpAddr p)
    (Vip p) (DstIp p) (IpType p).

(** The advertisement with which a master gives up. *)
Definition send_master_down (f : FSM) : res FSM :=
  pkt ← getPacketInfo f; send (with_pi_Priority VRRP_MASTER_DOWN_PRIORITY pkt) f.

Definition updateVirtualIP (enable : bool) (f : FSM) : res FSM :=
  c ← config f;
  Ok (emit (vipCh (mkVirtualIpInfo (IntfRef c) (VirtualIPAddr c) (VirtualMACAddress f) enable (Version c) (cfg_IpType c))) f).

(** ** Timers *)

(** In int32. *)
Definition calculateDownValue (advInt : Z) (f : FSM) : res FSM :=
  c ← config f;
  let f := set_MasterAdverInterval
             (if advInt =? USE_CONFIG_ADVERTISEMENT then AdvertisementInterval c else advInt) f in
  let f := if negb (Priority c =? 0) && negb (MasterAdverInterval f =? 0)
           then set_SkewTime (Z.quot (i32 (i32 (256 - Priority c) * MasterAdverInterval f)) 256) f else f in
  Ok (set_MasterDownValue (i32 (i32 (3 * MasterAdverInterval f) + SkewTime f)) f).

Definition handleMasterDownTimer (f : FSM) : FSM :=
  set_MasterDownTimer (Some (Some (MasterDownValue f * Second))) f.

(** The first time, the interval is taken in nanoseconds. *)
Definition startMasterAdverTimer (f : FSM) : res FSM :=
  c ← config f;
  Ok (set_AdverTimer (Some (Some (match AdverTimer f with
                                  | Some _ => AdvertisementInterval c * Second
                                  | None => AdvertisementInterval c
                                  end))) f).

Definition stopMasterAdverTimer (f : FSM) : FSM := set_AdverTimer None f.
Definition stopMasterDownTimer (f : FSM) : FSM := set_MasterDownTimer None f.

(** ** Transitions *)

Definition transitionToMaster (f : FSM) : res FSM :=
  pktInfo ← getPacketInfo f;
  f ← send pktInfo f;
  f ← (if bool_decide (previousState f = State f) then updateVirtualIP true f else Ok f);
  f ← updateTxStInfo (set_State VRRP_MASTER_STATE f);
  startMasterAdverTimer f.

Definition transitionToBackup (advInt : Z) (f : FSM) : res FSM :=
  _ ← config f;
  f ← (if bool_decide (previousState f = State f) then updateVirtualIP false f else Ok f);
  f ← calculateDownValue advInt f;
  updateCurrentState (set_State VRRP_BACKUP_STATE (handleMasterDownTimer f)).

Definition initialize (f : FSM) : res FSM :=
  f ← initPktListener f;
  c ← config f;
  if Priority c =? VRRP_MASTER_PRIORITY then transitionToMaster f
  else transitionToBackup USE_CONFIG_ADVERTISEMENT f.

Definition backup (pktInfo : PacketInfo) (f : FSM) : res FSM :=
  hdr ← of_option (Hdr pktInfo);
  if bool_decide (DstMac pktInfo = VirtualMACAddress f) then Ok f
  else if bool_decide (DstIp pktInfo = ipAddr f) then Ok f
  else if hdr_Type hdr =? VRRP_PKT_TYPE_ADVERTISEMENT then
    f ← updateRxStInfo pktInfo f;
    if hdr_Priority hdr =? 0 then Ok (handleMasterDownTimer (set_MasterDownValue (SkewTime f) f))
    else
      c ← config f;
      if negb (PreemptMode c) || (Priority c <=? hdr_Priority hdr) then transitionToBackup (MaxAdverInt hdr) f
      else Ok f
  else Ok f.

(** [bytes.Compare(a, b) > 0] *)
Fixpoint bytes_gt (a b : bytes) : bool :=
  match a, b with
  | [], _ => false
  | _ :: _, [] => true
  | x :: a, y :: b => (y <? x) || ((x =? y) && bytes_gt a b)
  end.

Definition master (pktInfo : PacketInfo) (f : FSM) : res FSM :=
  hdr ← of_option (Hdr pktInfo);
  if hdr_Priority hdr =? VRRP_MASTER_DOWN_PRIORITY then
    pkt ← getPacketInfo f;
    f ← send pkt f;
    f ← updateTxStInfo f;
    startMasterAdverTimer f
  else
    c ← config f;
    if (Priority c <? hdr_Priority hdr)
       || ((hdr_Priority hdr =? Priority c) && bytes_gt (ip_or_nil (pi_IpAddr pktInfo)) (ip_or_nil (ipAddr f)))
    then
      let f := stopMasterAdverTimer f in
      f ← transitionToBackup (MaxAdverInt hdr) (set_previousState (State f) f);
      updateRxStInfo pktInfo f
    else Ok f.

(** ** What drives the machine *)

Definition handleDecodedPkt (pktInfo : PacketInfo) (f : FSM) : res FSM :=
  match State f with
  | VRRP_UNINITIALIZE_STATE => Ok f
  | VRRP_INITIALIZE_STATE => initialize f
  | VRRP_BACKUP_STATE => backup pktInfo f
  | VRRP_MASTER_STATE => master pktInfo f
  end.

(** The announced addresses from the [i]th on, against the own address. *)
Fixpoint own_address (ipAddr : string) (ips : list bytes) (i : Z) (count : nat) : res bool :=
  match count with
  | O => Ok false
  | S count =>
    ip ← index ips i;
    if bool_decide (ipAddr = IP_String ip) then Ok true else own_address ipAddr ips (i + 1) count
  end.

Definition processRcvdPkt (pkt : Packet) (f : FSM) : res FSM :=
  pktInfo ← Decode pkt;
  match pktInfo with
  | None => Ok f
  | Some pktInfo =>
    hdr ← of_option (Hdr pktInfo);
    own ← own_address (ipAddr f) (hdr_IpAddr hdr) 0 (Z.to_nat (CountIPAddr hdr));
    if (own : bool) then _ ← config f; Ok f else handleDecodedPkt pktInfo f
  end.

Definition stateDownEvent (f : FSM) : res FSM :=
  _ ← config f;
  let f := stopMasterAdverTimer (stopMasterDownTimer f) in
  f ← (match State f with
       | VRRP_MASTER_STATE => f ← send_master_down f; updateTxStInfo f
       | _ => Ok f
       end);
  f ← deInitPktListener (set_State VRRP_INITIALIZE_STATE (set_previousState (State f) f));
  f ← updateVirtualIP false f;
  updateCurrentState f.

Definition stateUpEvent (f : FSM) : res FSM := initialize f.

Definition handleIntfEvent (intfEvent : IntfEvent) (f : FSM) : res FSM :=
  match intfEvent with
  | STATE_CHANGE s =>
    if bool_decide (s = STATE_DOWN) then stateDownEvent f
    else if bool_decide (s = STATE_UP) then stateUpEvent f
    else Ok f
  | TEAR_DOWN => _ ← config f; stateDownEvent f
  end.

(** The goroutine is told to end when the machine is running. *)
Definition exitFsm (f : FSM) : res FSM :=
  _ ← config f;
  let f := stopMasterAdverTimer f in
  f ← (match State f with VRRP_MASTER_STATE => send_master_down f | _ => Ok f end);
  f ← deInitPktListener f;
  let f := stopMasterDownTimer f in
  Ok (if running f then set_looping false f else f).

Definition DeInitFsm (f : FSM) : res FSM :=
  f ← exitFsm f;
  Ok (set_Config None (set_pHandle false (set_AdverTimer None (set_MasterDownTimer None (set_stateInfo None f))))).

(** The callbacks of the timers. *)
Definition adver_callback (f : FSM) : res FSM :=
  pkt ← getPacketInfo f;
  f ← send pkt f;
  f ← updateTxStInfo f;
  c ← config f;
  _ ← of_option (AdverTimer f);
  Ok (set_AdverTimer (Some (Some (AdvertisementInterval c * Second))) f).

Definition down_callback (f : FSM) : res FSM :=
  transitionToMaster (set_previousState (State f) f).

(** ** Steps *)

Inductive Input :=
| StartFsm
| Received (pkt : Packet)
| Intf (ev : IntfEvent)
| AdverExpires
| AdverCallback
| DownExpires
| DownCallback
| Update (cfg : IntfCfg)
| DeInit.

Definition is_armed (t : Timer) : bool := match t with Some (Some _) => true | _ => false end.

Definition enabled (i : Input) (f : FSM) : bool :=
  match i with
  | StartFsm => negb (looping f)
  | Received _ | Intf _ => looping f
  | AdverExpires => is_armed (AdverTimer f)
  | AdverCallback => (0 <? adver_pending f)%nat
  | DownExpires => is_armed (MasterDownTimer f)
  | DownCallback => (0 <? down_pending f)%nat
  | Update _ | DeInit => true
  end.

Definition fsm_step (i : Input) (f : FSM) : res FSM :=
  match i with
  | StartFsm => initialize (set_looping true (set_running true f))
  | Received pkt => processRcvdPkt pkt f
  | Intf TEAR_DOWN => f ← handleIntfEvent TEAR_DOWN f; Ok (set_looping false (set_running false f))
  | Intf ev => handleIntfEvent ev f
  | AdverExpires => Ok (set_adver_pending (S (adver_pending f)) (set_AdverTimer (Some None) f))
  | AdverCallback => adver_callback (set_adver_pending (pred (adver_pending f)) f)
  | DownExpires => Ok (set_down_pending (S (down_pending f)) (set_MasterDownTimer (Some None) f))
  | DownCallback => down_callback (set_down_pending (pred (down_pending f)) f)
  | Update cfg => Ok (UpdateConfig cfg f)
  | DeInit => DeInitFsm f
  end.

(** A run; an input that cannot happen is left out. *)
Fixpoint fsm_run (inputs : list Input) (f : FSM) : res FSM :=
  match inputs with
  | [] => Ok f
  | i :: inputs => f ← (if enabled i f then fsm_step i f else Ok f); fsm_run inputs f
  end.
End Machine.

Arguments FSM : clear implicits.
Arguments Out : clear implicits.
