(* ===== verification/VrrpFsmSpec.v ===== *)
(** * VRRP: the machine and RFC 5798

    The state machine of RFC 5798, section 6.4, as a function on an abstract router, and
    that the machine of VrrpFsm follows it. *)

From stdpp Require Import pretty.
From S2P Require Import Prelude.
From S2P Require Import NetIP.
From S2P Require Import NetParse.
From S2P Require Import VrrpPacket.
From S2P Require Import VrrpPacketSpec.
From S2P Require Import VrrpFsm.

(** ** The machine of the RFC *)

(** The nanoseconds the advertisement timer and the master-down timer were set to, when
    they run, the advertisement interval of the master and the skew time, and whether the
    virtual address is up. *)
Record Router := mkRouter {
  r_state : VrrpState;
  r_adver : option Z;
  r_down : option Z;
  r_interval : Z;
  r_skew : Z;
  r_vip : bool;
}.

Inductive RfcEvent :=
| Startup
| Shutdown
| AdverFires
| DownFires
| Advert (priority interval : Z) (greater_address : bool).

Section Rfc.
Variables (priority interval : Z) (preempt : bool).

Definition skew_of (i : Z) : Z := (256 - priority) * i / 256.
Definition down_interval (i : Z) : Z := 3 * i + skew_of i.

Definition as_backup (i : Z) : Router :=
  mkRouter VRRP_BACKUP_STATE None (Some (down_interval i * Second)) i (skew_of i) false.
(** The advertisement timer is set to [first] on entry and to [interval] seconds
    afterwards; in the RFC [first] is the interval too. *)
Definition as_master (first : Z) (r : Router) : Router :=
  mkRouter VRRP_MASTER_STATE (Some first) None (r_interval r) (r_skew r) true.
Definition again (r : Router) : Router :=
  mkRouter VRRP_MASTER_STATE (Some (interval * Second)) (r_down r) (r_interval r) (r_skew r) (r_vip r).
Definition as_initial (r : Router) : Router :=
  mkRouter VRRP_INITIALIZE_STATE None None (r_interval r) (r_skew r) false.

(** A router that does not own the address. *)
Definition rfc_next (first : Z) (ev : RfcEvent) (r : Router) : Router :=
  match r_state r, ev with
  | VRRP_INITIALIZE_STATE, Startup => as_backup interval
  | VRRP_BACKUP_STATE, Shutdown => as_initial r
  | VRRP_BACKUP_STATE, DownFires => as_master first r
  | VRRP_BACKUP_STATE, Advert p i _ =>
    if p =? 0 then mkRouter VRRP_BACKUP_STATE None (Some (r_skew r * Second)) (r_interval r) (r_skew r) false
    else if negb preempt || (priority <=? p) then as_backup i else r
  | VRRP_MASTER_STATE, Shutdown => as_initial r
  | VRRP_MASTER_STATE, AdverFires => again r
  | VRRP_MASTER_STATE, Advert p i greater =>
    if p =? 0 then again r
    else if (priority <? p) || ((p =? priority) && greater) then as_backup i else r
  | VRRP_INITIALIZE_STATE, Shutdown => as_initial r
  | _, _ => r
  end.

(** The priorities of the advertisements that are sent. *)
Definition rfc_sends (ev : RfcEvent) (r : Router) : list Z :=
  match r_state r, ev with
  | VRRP_BACKUP_STATE, DownFires => [priority]
  | VRRP_MASTER_STATE, AdverFires => [priority]
  | VRRP_MASTER_STATE, Shutdown => [0]
  | VRRP_MASTER_STATE, Advert p _ _ => if p =? 0 then [priority] else []
  | _, _ => []
  end.
End Rfc.

(** ** The abstraction *)

Section Refine.
Context {Frame : Type} (SerializeLayers : Ethernet -> IPLayer -> bytes -> Frame) (NewPacket : Frame -> Packet).
Hypothesis Hgo : gopacket_ok SerializeLayers NewPacket.
Variable env : PcapEnv (Frame := Frame).
Hypothesis Hopen : forall o, OpenLive env o = true.

(** The last thing the server was told about the virtual address. *)
Definition vip_of (o : list (Out Frame)) : bool :=
  foldl (fun b x => match x with vipCh info => Enable info | _ => b end) false o.

Definition frames (o : list (Out Frame)) : list Frame :=
  omap (fun x => match x with WritePacketData p => p | _ => None end) o.

(** What a running timer was set to. *)
Definition set_to (t : Timer) : option Z := match t with Some d => d | None => None end.

Definition router (f : FSM Frame) : Router :=
  mkRouter (State f) (set_to (AdverTimer f)) (set_to (MasterDownTimer f)) (MasterAdverInterval f) (SkewTime f) (vip_of (out f)).

(** A machine with the configuration [c], whose advertisements are [p], in a state it can
    be in when no callback is late. *)
Record machine_ok (c : IntfCfg) (p : PacketInfo) (f : FSM Frame) : Prop := mkMachineOk {
  mo_config : Config f = Some c;
  mo_priority : 0 < Priority c < 255;
  mo_interval : 0 < AdvertisementInterval c < 8192;
  mo_packet : getPacketInfo f = Ok p;
  mo_adv : adv_ok p;
  mo_info : is_Some (stateInfo f);
  mo_state : State f <> VRRP_UNINITIALIZE_STATE;
  mo_adver : match AdverTimer f with
             | Some (Some _) => State f = VRRP_MASTER_STATE
             | Some None => False
             | None => State f <> VRRP_MASTER_STATE
             end;
  mo_down : match MasterDownTimer f with
            | Some (Some _) => State f = VRRP_BACKUP_STATE
            | Some None => State f = VRRP_MASTER_STATE
            | None => State f = VRRP_INITIALIZE_STATE
            end;
  mo_vip : vip_of (out f) = bool_decide (State f = VRRP_MASTER_STATE);
  mo_handle : pHandle f = negb (bool_decide (State f = VRRP_INITIALIZE_STATE));
  mo_looping : looping f = false -> State f = VRRP_INITIALIZE_STATE;
  mo_pending : adver_pending f = 0%nat /\ down_pending f = 0%nat;
}.

Lemma Encode_ok p : adv_ok p -> exists fr, Encode SerializeLayers p = Ok (Some fr).
Proof. intros A. destruct (arrival SerializeLayers NewPacket Hgo p A) as (fr & _ & E & _). by exists fr. Qed.

Lemma with_priority_ok v p : adv_ok p -> adv_ok (with_pi_Priority v p).
Proof. intros []. by split. Qed.

Lemma vip_of_app o o' : vip_of (o ++ o') = foldl (fun b x => match x with vipCh info => Enable info | _ => b end) (vip_of o) o'.
Proof. apply foldl_app. Qed.

Lemma frames_app o o' : frames (o ++ o') = frames o ++ frames o'.
Proof. apply omap_app. Qed.

(** What a step has to do. A new master arms the advertisement timer with the interval
    in nanoseconds. *)
Definition follows (c : IntfCfg) (p : PacketInfo) (f : FSM Frame) (r : res (FSM Frame)) (ev : RfcEvent) : Prop :=
  exists f' sent, r = Ok f' /\ machine_ok c p f' /\
    router f' = rfc_next (Priority c) (AdvertisementInterval c) (PreemptMode c) (AdvertisementInterval c) ev (router f) /\
    frames (out f') = frames (out f) ++ sent /\
    Forall2 (fun v fr => Encode SerializeLayers (with_pi_Priority v p) = Ok (Some fr))
      (rfc_sends (Priority c) ev (router f)) sent.

Lemma own_priority c p f : machine_ok c p f -> with_pi_Priority (Priority c) p = p.
Proof.
  intros [Hc Hp _ Hg _ _ _ _ _ _ _ _ _]. unfold getPacketInfo, config in Hg. rewrite Hc in Hg. injection Hg as <-.
  unfold with_pi_Priority. cbn. f_equal. symmetry. apply Z.mod_small. lia.
Qed.

Lemma i32_small x : -2147483648 <= x < 2147483648 -> i32 x = x.
Proof. intros H. unfold i32. rewrite Z.mod_small; lia. Qed.

(** The values of the timers do not overflow. *)
Lemma calculateDownValue_ok c i (f : FSM Frame) : Config f = Some c -> 0 < Priority c < 256 -> 0 < i < 8192 ->
  calculateDownValue i f = Ok (set_MasterDownValue (down_interval (Priority c) i)
    (set_SkewTime (skew_of (Priority c) i) (set_MasterAdverInterval i f))).
Proof.
  intros Hc Hp Hi. unfold calculateDownValue, config. rewrite Hc. res_simpl.
  rewrite (proj2 (Z.eqb_neq i _)) by (unfold USE_CONFIG_ADVERTISEMENT; lia).
  change (MasterAdverInterval (set_MasterAdverInterval i f)) with i. rewrite !(proj2 (Z.eqb_neq _ 0)) by lia.
  cbn [negb andb]. change (MasterAdverInterval (set_SkewTime ?v (set_MasterAdverInterval i f))) with i.
  change (SkewTime (set_SkewTime ?v (set_MasterAdverInterval i f))) with v.
  assert (0 <= (256 - Priority c) * i <= 256 * 8192) by nia.
  rewrite (i32_small (256 - Priority c)) by lia. rewrite (i32_small ((256 - Priority c) * i)) by lia.
  rewrite Z.quot_div_nonneg by lia. fold (skew_of (Priority c) i).
  assert (0 <= skew_of (Priority c) i <= 8192) by (unfold skew_of; split; [apply Z.div_pos|apply Z.div_le_upper_bound]; lia).
  rewrite (i32_small (3 * i)), i32_small by lia. done.
Qed.

(** What no transition changes. *)
Record same_base (f f' : FSM Frame) : Prop := mkSameBase {
  sb_config : Config f' = Config f;
  sb_address : ipAddr f' = ipAddr f;
  sb_mac : VirtualMACAddress f' = VirtualMACAddress f;
  sb_info : is_Some (stateInfo f) -> is_Some (stateInfo f');
  sb_loop : looping f' = looping f;
  sb_pending : adver_pending f' = adver_pending f /\ down_pending f' = down_pending f;
}.

#[export] Instance same_base_refl : Reflexive same_base.
Proof. by split. Qed.
#[export] Instance same_base_trans : Transitive same_base.
Proof. intros f1 f2 f3 [] []. split; try congruence; [auto|]. destruct_and!. split; congruence. Qed.

Lemma getPacketInfo_base f f' : same_base f f' -> getPacketInfo f' = getPacketInfo f.
Proof. intros [E1 E2 E3 _ _ _]. unfold getPacketInfo, config. by rewrite E1, E2, E3. Qed.

(** What the steps of a transition do. *)
Lemma send_ok p f : adv_ok p -> exists fr, Encode SerializeLayers p = Ok (Some fr) /\
  send SerializeLayers p f = Ok (if pHandle f then emit (WritePacketData (Some fr)) f else f).
Proof. intros A. destruct (Encode_ok p A) as [fr E]. exists fr. split; [done|]. unfold send. by rewrite E. Qed.

Lemma updateVirtualIP_ok c b (f : FSM Frame) : Config f = Some c -> exists v, Enable v = b /\
  updateVirtualIP b f = Ok (emit (vipCh v) f).
Proof. intros Hc. unfold updateVirtualIP, config. rewrite Hc. res_simpl. eexists. by split; [|reflexivity]. Qed.

Lemma on_stateInfo_ok g (f : FSM Frame) : is_Some (stateInfo f) -> exists st, on_stateInfo g f = Ok (set_stateInfo (Some st) f).
Proof. intros [st Hst]. unfold on_stateInfo. rewrite Hst. res_simpl. by eexists. Qed.

(** The messages about the virtual address in a transition from [f]. *)
Definition vip_note (b : bool) (f : FSM Frame) (o : list (Out Frame)) : Prop :=
  if bool_decide (previousState f = State f) then exists v, Enable v = b /\ o = [vipCh v] else o = [].

Lemma transitionToBackup_ok c i (f : FSM Frame) :
  Config f = Some c -> is_Some (stateInfo f) -> 0 < Priority c < 256 ->
  let adv := if i =? USE_CONFIG_ADVERTISEMENT then AdvertisementInterval c else i in 0 < adv < 8192 ->
  exists f' o, transitionToBackup i f = Ok f' /\ same_base f f' /\ State f' = VRRP_BACKUP_STATE /\
    AdverTimer f' = AdverTimer f /\ MasterDownTimer f' = Some (Some (down_interval (Priority c) adv * Second)) /\
    MasterAdverInterval f' = adv /\ SkewTime f' = skew_of (Priority c) adv /\ pHandle f' = pHandle f /\
    out f' = out f ++ o /\ vip_note false f o.
Proof.
  intros Hc Hi Hp adv Ha. unfold transitionToBackup, config. rewrite Hc. res_simpl.
  assert (exists f1 o, (if bool_decide (previousState f = State f) then updateVirtualIP false f else Ok f) = Ok f1 /\
    f1 = set_out (out f ++ o) f /\ vip_note false f o) as (f1 & o & -> & -> & Hn).
  { unfold vip_note. case_bool_decide.
    - destruct (updateVirtualIP_ok c false f Hc) as (v & Hv & ->). eexists _, _. split; [done|]. split; [reflexivity|]. by exists v.
    - exists f, []. split; [done|]. rewrite app_nil_r. split; [by destruct f|done]. }
  res_simpl.
  assert (calculateDownValue i (set_out (out f ++ o) f) = calculateDownValue adv (set_out (out f ++ o) f)) as ->.
  { unfold calculateDownValue, config. cbn [Config set_out]. rewrite Hc. res_simpl. unfold adv.
    destruct (i =? USE_CONFIG_ADVERTISEMENT) eqn:E; [|by rewrite E].
    destruct (AdvertisementInterval c =? USE_CONFIG_ADVERTISEMENT); done. }
  rewrite (calculateDownValue_ok c) by done. res_simpl.
  match goal with |- context [updateCurrentState ?g] => destruct (on_stateInfo_ok
    (fun st => mkStateInfo (getStateName (State g)) (MasterIp st) (AdverRx st) (AdverTx st)) g Hi) as [st Est] end.
  unfold updateCurrentState. rewrite Est. eexists _, o. split; [done|]. by repeat split.
Qed.

Lemma transitionToMaster_ok c p (f : FSM Frame) :
  Config f = Some c -> is_Some (stateInfo f) -> getPacketInfo f = Ok p -> adv_ok p ->
  exists f' o fr, transitionToMaster SerializeLayers f = Ok f' /\ same_base f f' /\ State f' = VRRP_MASTER_STATE /\
    AdverTimer f' = Some (Some (match AdverTimer f with Some _ => AdvertisementInterval c * Second | None => AdvertisementInterval c end)) /\ MasterDownTimer f' = MasterDownTimer f /\
    MasterAdverInterval f' = MasterAdverInterval f /\ SkewTime f' = SkewTime f /\ pHandle f' = pHandle f /\
    Encode SerializeLayers p = Ok (Some fr) /\
    out f' = out f ++ (if pHandle f then [WritePacketData (Some fr)] else []) ++ o ++ [txCh] /\ vip_note true f o.
Proof.
  intros Hc Hi Hg A. unfold transitionToMaster. rewrite Hg. res_simpl. destruct (send_ok p f A) as (fr & Ef & ->). res_simpl.
  set (w := if pHandle f then [WritePacketData (Some fr)] else []).
  assert ((if pHandle f then emit (WritePacketData (Some fr)) f else f) = set_out (out f ++ w) f) as ->.
  { unfold w. destruct (pHandle f) eqn:E; [done|]. rewrite app_nil_r. by destruct f. }
  cbn [previousState State set_out].
  assert (exists o, (if bool_decide (previousState f = State f) then updateVirtualIP true (set_out (out f ++ w) f)
     else Ok (set_out (out f ++ w) f)) = Ok (set_out (out f ++ w ++ o) f) /\ vip_note true f o) as (o & -> & Hn).
  { unfold vip_note. case_bool_decide.
    - destruct (updateVirtualIP_ok c true (set_out (out f ++ w) f) Hc) as (v & Hv & ->). exists [vipCh v].
      split; [|by exists v]. unfold emit. cbn [out set_out]. by rewrite app_assoc.
    - exists []. by rewrite app_nil_r. }
  res_simpl. unfold updateTxStInfo.
  match goal with |- context [on_stateInfo ?g ?h] => destruct (on_stateInfo_ok g h Hi) as [st ->] end. res_simpl.
  unfold startMasterAdverTimer, config, emit. cbn [Config set_out set_stateInfo set_State]. rewrite Hc. res_simpl.
  eexists _, o, fr. split; [done|]. split; [by split|]. cbn. rewrite <- !app_assoc. by destruct (AdverTimer f).
Qed.

(** What an event of the RFC is to the machine: the input that arrives, and for a timer
    its expiry and its callback. The listener is closed in the initial state; packets
    that carry an own address, or are addressed to the router, are dropped before. *)
Inductive stands_for (f : FSM Frame) : list Input -> RfcEvent -> Prop :=
| sf_start : looping f = false -> stands_for f [StartFsm] Startup
| sf_up : looping f = true -> State f = VRRP_INITIALIZE_STATE -> stands_for f [Intf (STATE_CHANGE STATE_UP)] Startup
| sf_down : looping f = true -> stands_for f [Intf (STATE_CHANGE STATE_DOWN)] Shutdown
| sf_tear : looping f = true -> stands_for f [Intf TEAR_DOWN] Shutdown
| sf_adver : is_armed (AdverTimer f) = true -> stands_for f [AdverExpires; AdverCallback] AdverFires
| sf_master_down : is_armed (MasterDownTimer f) = true -> stands_for f [DownExpires; DownCallback] DownFires
| sf_packet pkt info hdr :
  looping f = true -> State f <> VRRP_INITIALIZE_STATE -> Decode pkt = Ok (Some info) -> Hdr info = Some hdr ->
  own_address (ipAddr f) (hdr_IpAddr hdr) 0 (Z.to_nat (CountIPAddr hdr)) = Ok false ->
  DstMac info <> VirtualMACAddress f -> DstIp info <> ipAddr f -> hdr_Type hdr = VRRP_PKT_TYPE_ADVERTISEMENT ->
  0 < MaxAdverInt hdr < 8192 ->
  stands_for f [Received pkt]
    (Advert (hdr_Priority hdr) (MaxAdverInt hdr) (bytes_gt (ip_or_nil (pi_IpAddr info)) (ip_or_nil (ipAddr f)))).

Lemma mo_base c p f f' : machine_ok c p f -> same_base f f' ->
  Config f' = Some c /\ getPacketInfo f' = Ok p /\ is_Some (stateInfo f').
Proof. intros M B. rewrite (sb_config _ _ B), (getPacketInfo_base _ _ B). split_and!; [apply M|apply M|by apply (sb_info _ _ B), M]. Qed.

(** [follows] after a transition to Backup. *)
Lemma backup_follows c p i f g adv :
  machine_ok c p f -> looping f = true -> same_base f g -> adv = (if i =? USE_CONFIG_ADVERTISEMENT then AdvertisementInterval c else i) ->
  0 < adv < 8192 -> AdverTimer g = None -> frames (out g) = frames (out f) -> pHandle g = true ->
  vip_of (out g) = false \/ previousState g = State g ->
  exists f', transitionToBackup i g = Ok f' /\ machine_ok c p f' /\
    router f' = as_backup (Priority c) adv /\ frames (out f') = frames (out f) /\ State f' = VRRP_BACKUP_STATE.
Proof.
  intros M Hl B -> Ha Ht Hf Hh Hv. destruct (mo_base _ _ _ _ M B) as (Hc & Hg & Hi). pose proof (mo_priority _ _ _ M).
  destruct (transitionToBackup_ok c i g Hc Hi ltac:(lia) Ha) as (f' & o & E & B' & E1 & E2 & E3 & E4 & E5 & E6 & E7 & Hn).
  destruct (mo_base _ _ _ _ M (transitivity B B')) as (Hc' & Hg' & Hi').
  assert (vip_of (out f') = false) as Hvip.
  { rewrite E7, vip_of_app. unfold vip_note in Hn. case_bool_decide as Hs.
    - destruct Hn as (v & Hv' & ->). cbn. by rewrite Hv'.
    - destruct Hv as [Hv|Hv]; [by subst o|done]. }
  assert (frames o = []) as Ho by (unfold vip_note in Hn; case_bool_decide; [by destruct Hn as (v & _ & ->)|by subst o]).
  exists f'. split; [done|]. split; [|split; [|split; [by rewrite E7, frames_app, Ho, app_nil_r|done]]].
  - split; try done; try apply M; rewrite ?E1, ?E2, ?E3, ?E6; try done; try (by rewrite Ht).
    + rewrite (sb_loop _ _ (transitivity B B')). congruence.
    + destruct (sb_pending _ _ (transitivity B B')) as [-> ->]. apply M.
  - unfold router, as_backup. by rewrite E1, E2, E3, E4, E5, Hvip, Ht.
Qed.

Lemma listener_ok c p f : machine_ok c p f -> State f = VRRP_INITIALIZE_STATE ->
  exists g, initPktListener env f = Ok g /\ same_base f g /\ pHandle g = true /\ State g = State f /\
    previousState g = previousState f /\ AdverTimer g = None /\ MasterDownTimer g = None /\ frames (out g) = frames (out f) /\ vip_of (out g) = false.
Proof.
  intros M Hs. destruct (mo_base _ _ _ _ M (reflexivity f)) as (Hc & _). unfold initPktListener, config. rewrite Hc. res_simpl.
  pose proof (mo_handle _ _ _ M) as Hh. rewrite Hs in Hh. cbn in Hh. rewrite Hh, Hopen. cbn [pHandle set_pHandle andb].
  pose proof (mo_vip _ _ _ M) as Hv. pose proof (mo_adver _ _ _ M) as Ha. pose proof (mo_down _ _ _ M) as Hd. rewrite Hs in *.
  assert (AdverTimer f = None) as Ea by (by destruct (AdverTimer f) as [[?|]|]).
  assert (MasterDownTimer f = None) as Ed by (by destruct (MasterDownTimer f) as [[?|]|]).
  destruct (SetBPFFilter env _); (eexists; split; [done|]; split; [by split|]);
    split_and!; try done; cbn [out set_pHandle emit set_out]; rewrite ?frames_app, ?vip_of_app, ?app_nil_r, ?Hv; done.
Qed.

(** A machine that starts waits for a master. *)
Lemma startup_follows c p f : machine_ok c p f -> State f = VRRP_INITIALIZE_STATE -> looping f = true ->
  follows c p f (initialize SerializeLayers env f) Startup.
Proof.
  intros M Hs Hl. destruct (listener_ok c p f M Hs) as (g & E & B & H1 & H2 & H3 & H4 & H5 & H6 & H7).
  unfold initialize. rewrite E. res_simpl. destruct (mo_base _ _ _ _ M B) as (Hc & _). unfold config. rewrite Hc. res_simpl.
  pose proof (mo_priority _ _ _ M). rewrite (proj2 (Z.eqb_neq _ _)) by (unfold VRRP_MASTER_PRIORITY; lia).
  destruct (backup_follows c p USE_CONFIG_ADVERTISEMENT f g (AdvertisementInterval c) M Hl B) as (f' & E' & M' & R & F & S);
    [done|apply M|done|done|done|by left|].
  exists f', []. split; [done|]. split; [done|]. unfold rfc_next, rfc_sends. cbn [r_state router].
  rewrite Hs, app_nil_r. split; [done|]. split; [done|constructor].
Qed.

(** The interface goes down, or the machine is torn down. *)
Lemma shutdown_follows c p f : machine_ok c p f -> exists f' sent,
  stateDownEvent SerializeLayers f = Ok f' /\ State f' = VRRP_INITIALIZE_STATE /\ machine_ok c p f' /\
  router f' = as_initial (router f) /\ frames (out f') = frames (out f) ++ sent /\
  Forall2 (fun v fr => Encode SerializeLayers (with_pi_Priority v p) = Ok (Some fr)) (rfc_sends (Priority c) Shutdown (router f)) sent.
Proof.
  intros M. pose proof M as [Hc Hp Hi Hg A Hst Hs Ha Hd Hv Hh Hl Hpe].
  unfold stateDownEvent, config. rewrite Hc. res_simpl.
  set (g := stopMasterAdverTimer (stopMasterDownTimer f)).
  assert (exists g' w, (match State g with VRRP_MASTER_STATE => f ← send_master_down SerializeLayers g; updateTxStInfo f | _ => Ok g end)
      = Ok g' /\ same_base f g' /\ State g' = State f /\ AdverTimer g' = None /\ MasterDownTimer g' = None /\
      MasterAdverInterval g' = MasterAdverInterval f /\ SkewTime g' = SkewTime f /\
      pHandle g' = pHandle f /\ frames (out g') = frames (out f) ++ w /\
      Forall2 (fun v fr => Encode SerializeLayers (with_pi_Priority v p) = Ok (Some fr)) (rfc_sends (Priority c) Shutdown (router f)) w)
    as (g' & w & -> & B & E1 & E2 & E3 & E4 & E5 & E6 & E7 & Hw).
  { unfold rfc_sends. cbn [router r_state]. change (State g) with (State f). destruct (State f) eqn:Es; try done.
    - exists g, []. rewrite app_nil_r. repeat split; try done; by constructor.
    - exists g, []. rewrite app_nil_r. repeat split; try done; by constructor.
    - unfold send_master_down. change (getPacketInfo g) with (getPacketInfo f). rewrite Hg. res_simpl.
      destruct (send_ok (with_pi_Priority VRRP_MASTER_DOWN_PRIORITY p) g (with_priority_ok _ _ A)) as (fr & Ef & ->). res_simpl.
      change (pHandle g) with (pHandle f). rewrite Hh, bool_decide_eq_false_2 by done. cbn [negb].
      unfold updateTxStInfo.
      match goal with |- context [on_stateInfo ?u ?h] => destruct (on_stateInfo_ok u h Hst) as [st ->] end. res_simpl.
      eexists _, [fr]. split; [done|]. repeat split; try done.
      + cbn [out emit set_out set_stateInfo]. rewrite !frames_app, <- app_assoc. done.
      + repeat constructor. done. }
  res_simpl. unfold deInitPktListener. cbn [pHandle set_State set_previousState]. rewrite E6.
  set (h0 := set_State VRRP_INITIALIZE_STATE (set_previousState (State g') g')).
  assert (exists h o, (if pHandle f then _ ← config h0; Ok (set_pHandle false (emit CloseHandle h0)) else Ok h0) = Ok h /\
    h = set_pHandle false (set_out (out g' ++ o) h0) /\ frames o = []) as (h & o & -> & -> & Ho).
  { unfold config. change (Config h0) with (Config g'). rewrite (sb_config _ _ B), Hc. res_simpl. destruct (pHandle f) eqn:Eh.
    - eexists _, [CloseHandle]. by split_and!.
    - exists h0, []. split; [done|]. rewrite app_nil_r. split; [|done]. unfold h0. destruct g'. cbn in *. by subst. }
  res_simpl.
  destruct (updateVirtualIP_ok c false (set_pHandle false (set_out (out g' ++ o) h0))) as (v & Hvv & ->);
    [cbn; by rewrite (sb_config _ _ B)|]. res_simpl. unfold updateCurrentState.
  match goal with |- context [on_stateInfo ?u ?h] => destruct (on_stateInfo_ok u h) as [st ->] end;
    [cbn; by apply (sb_info _ _ B)|].
  match goal with |- context [Ok ?u = Ok _] => set (f' := u) end.
  assert (same_base f f') as B'.
  { etrans; [exact B|]. by split. }
  destruct (mo_base _ _ _ _ M B') as (Hc' & Hg' & Hi').
  exists f', w. split; [done|]. split; [done|]. split; [|split; [|split; [|done]]].
  - split; try done.
    + cbn. by rewrite E2.
    + cbn. by rewrite E3.
    + unfold f'. cbn [out emit set_out set_stateInfo set_pHandle]. rewrite vip_of_app. cbn. by rewrite Hvv.
    + destruct (sb_pending _ _ B') as [-> ->]. done.
  - unfold router, as_initial, f'. cbn [out emit set_out set_stateInfo set_pHandle]. rewrite vip_of_app. cbn.
    by rewrite E2, E3, E4, E5, Hvv.
  - unfold f'. cbn [out emit set_out set_stateInfo set_pHandle]. rewrite !frames_app, E7, Ho. by rewrite !app_nil_r.
Qed.

Lemma adver_state c p f : machine_ok c p f -> is_armed (AdverTimer f) = true -> State f = VRRP_MASTER_STATE.
Proof. intros M H. pose proof (mo_adver _ _ _ M) as Ha. by destruct (AdverTimer f) as [[?|]|]. Qed.

Lemma down_state c p f : machine_ok c p f -> is_armed (MasterDownTimer f) = true -> State f = VRRP_BACKUP_STATE.
Proof. intros M H. pose proof (mo_down _ _ _ M) as Ha. by destruct (MasterDownTimer f) as [[?|]|]. Qed.

Lemma handle_open c p f : machine_ok c p f -> State f <> VRRP_INITIALIZE_STATE -> pHandle f = true /\ looping f = true.
Proof.
  intros M H. rewrite (mo_handle _ _ _ M), bool_decide_eq_false_2 by done. split; [done|].
  destruct (looping f) eqn:E; [done|]. by apply (mo_looping _ _ _ M) in E.
Qed.

(** No master has been heard of. *)
Lemma down_timer_follows c p f : machine_ok c p f -> is_armed (MasterDownTimer f) = true ->
  follows c p f (fsm_run SerializeLayers env [DownExpires; DownCallback] f) DownFires.
Proof.
  intros M Ht. pose proof (down_state _ _ _ M Ht) as Hs. destruct (handle_open c p f M) as [Hh Hl]; [by rewrite Hs|].
  destruct (mo_pending _ _ _ M) as [Hpa Hpd]. cbn [fsm_run enabled fsm_step]. rewrite Ht. res_simpl.
  cbn [fsm_run enabled fsm_step down_pending set_down_pending]. rewrite Hpd. cbn [Nat.ltb Nat.leb pred]. unfold down_callback.
  set (g := set_previousState _ _). assert (same_base f g) as B by (split; try done; by rewrite Hpa).
  destruct (mo_base _ _ _ _ M B) as (Hc & Hg & Hi).
  destruct (transitionToMaster_ok c p g Hc Hi Hg (mo_adv _ _ _ M))
    as (f' & o & fr & -> & B' & E1 & E2 & E3 & E4 & E5 & E6 & Ef & E7 & Hn). res_simpl.
  change (MasterDownTimer g) with (@Some (option Z) None) in E3. change (out g) with (out f) in E7.
  change (pHandle g) with (pHandle f) in *. rewrite Hh in *.
  change (AdverTimer g) with (AdverTimer f) in E2. assert (AdverTimer f = None) as Ea.
  { pose proof (mo_adver _ _ _ M) as Ha. rewrite Hs in Ha. by destruct (AdverTimer f) as [[?|]|]. }
  rewrite Ea in E2.
  unfold vip_note in Hn. change (previousState g) with (State f) in Hn. change (State g) with (State f) in Hn.
  rewrite bool_decide_eq_true_2 in Hn by done. destruct Hn as (v & Hv & ->).
  destruct (mo_base _ _ _ _ M (transitivity B B')) as (Hc' & Hg' & Hi').
  assert (vip_of (out f') = true) as Hvip by (rewrite E7, vip_of_app; cbn; by rewrite Hv).
  exists f', [fr]. split; [done|]. split; [|split; [|split]].
  - split; try done; try apply M; rewrite ?E1, ?E3; try done.
    + by rewrite E2.
    + rewrite (sb_loop _ _ (transitivity B B')). congruence.
    + destruct (sb_pending _ _ (transitivity B B')) as [-> ->]. done.
  - unfold router, rfc_next, as_master. cbn [r_state r_interval r_skew]. rewrite Hs, E1, E2, E3, E4, E5, Hvip. done.
  - rewrite E7, !frames_app. done.
  - unfold rfc_sends. cbn [router r_state]. rewrite Hs. constructor; [|constructor]. by rewrite (own_priority c p f).
Qed.

(** What sending an advertisement in the Master state leaves. *)
Lemma advertise_ok c p f : machine_ok c p f -> State f = VRRP_MASTER_STATE ->
  exists g fr, (pkt ← getPacketInfo f; f ← send SerializeLayers pkt f; updateTxStInfo f) = Ok g /\
    Encode SerializeLayers p = Ok (Some fr) /\ same_base f g /\ State g = State f /\ AdverTimer g = AdverTimer f /\
    MasterDownTimer g = MasterDownTimer f /\ MasterAdverInterval g = MasterAdverInterval f /\ SkewTime g = SkewTime f /\
    pHandle g = pHandle f /\ frames (out g) = frames (out f) ++ [fr] /\ vip_of (out g) = vip_of (out f).
Proof.
  intros M Hs. destruct (handle_open c p f M) as [Hh _]; [by rewrite Hs|]. rewrite (mo_packet _ _ _ M). res_simpl.
  destruct (send_ok p f (mo_adv _ _ _ M)) as (fr & Ef & ->). rewrite Hh. res_simpl. unfold updateTxStInfo.
  match goal with |- context [on_stateInfo ?u ?h] => destruct (on_stateInfo_ok u h (mo_info _ _ _ M)) as [st ->] end.
  res_simpl. eexists _, fr. split; [done|]. split; [done|]. split; [by split|]. split_and!; try done.
  - cbn [out emit set_out set_stateInfo]. by rewrite !frames_app, <- app_assoc.
  - cbn [out emit set_out set_stateInfo]. by rewrite !vip_of_app.
Qed.

(** ... and setting the timer again. *)
Lemma advertised c p f g d fr : machine_ok c p f -> State f = VRRP_MASTER_STATE -> same_base f g -> State g = State f ->
  MasterDownTimer g = MasterDownTimer f -> MasterAdverInterval g = MasterAdverInterval f -> SkewTime g = SkewTime f ->
  pHandle g = pHandle f -> frames (out g) = frames (out f) ++ [fr] -> vip_of (out g) = vip_of (out f) ->
  d = AdvertisementInterval c * Second -> let f' := set_AdverTimer (Some (Some d)) g in
  machine_ok c p f' /\ router f' = again (AdvertisementInterval c) (router f) /\ frames (out f') = frames (out f) ++ [fr].
Proof.
  intros M Hs B E1 E2 E3 E4 E5 E6 E7 -> f'. destruct (mo_base _ _ _ _ M B) as (Hc & Hg & Hi). split; [|split; [|done]].
  - split; try done; try apply M; unfold f';
      cbn [State AdverTimer MasterDownTimer out pHandle looping adver_pending down_pending set_AdverTimer];
      rewrite ?E1, ?E2, ?E5, ?E7, ?Hs; try done.
    + pose proof (mo_down _ _ _ M). by rewrite Hs in *.
    + rewrite (mo_vip _ _ _ M). by rewrite Hs.
    + rewrite (mo_handle _ _ _ M). by rewrite Hs.
    + rewrite (sb_loop _ _ B). intros Hl. apply (mo_looping _ _ _ M) in Hl. congruence.
    + destruct (sb_pending _ _ B) as [-> ->]. apply M.
  - unfold router, again, f'. cbn [State AdverTimer MasterDownTimer out MasterAdverInterval SkewTime set_AdverTimer
      r_down r_interval r_skew r_vip set_to]. by rewrite E1, E2, E3, E4, E7, Hs.
Qed.

Lemma adver_timer_follows c p f : machine_ok c p f -> is_armed (AdverTimer f) = true ->
  follows c p f (fsm_run SerializeLayers env [AdverExpires; AdverCallback] f) AdverFires.
Proof.
  intros M Ht. pose proof (adver_state _ _ _ M Ht) as Hs. destruct (mo_pending _ _ _ M) as [Hpa Hpd].
  cbn [fsm_run enabled fsm_step]. rewrite Ht. res_simpl.
  cbn [fsm_run enabled fsm_step adver_pending set_adver_pending]. rewrite Hpa. cbn [Nat.ltb Nat.leb pred].
  set (f1 := set_adver_pending 0 _). assert (same_base f f1) as B1 by (split; try done; by rewrite Hpa).
  unfold adver_callback. rewrite (getPacketInfo_base _ _ B1), (mo_packet _ _ _ M). res_simpl.
  destruct (send_ok p f1 (mo_adv _ _ _ M)) as (fr & Ef & ->). res_simpl.
  change (pHandle f1) with (pHandle f). destruct (handle_open c p f M) as [Hh Hl]; [by rewrite Hs|]. rewrite Hh.
  unfold updateTxStInfo.
  match goal with |- context [on_stateInfo ?u ?h] => destruct (on_stateInfo_ok u h (mo_info _ _ _ M)) as [st ->] end.
  res_simpl. unfold config. cbn [Config emit set_out set_stateInfo f1 set_adver_pending set_AdverTimer AdverTimer].
  rewrite (mo_config _ _ _ M). res_simpl.
  match goal with |- context [set_AdverTimer (Some (Some ?d)) ?g] =>
    destruct (advertised c p f g d fr M Hs) as (M' & R' & F') end;
    [by split|done|done|done|done|done|cbn [out emit set_out set_stateInfo]; by rewrite ?frames_app, ?vip_of_app, ?app_nil_r..|].
  - eexists _, [fr]. split; [done|]. split; [exact M'|]. split; [|split; [exact F'|]].
    + rewrite R'. unfold rfc_next. cbn [r_state router]. by rewrite Hs.
    + unfold rfc_sends. cbn [r_state router]. rewrite Hs. constructor; [|constructor]. by rewrite (own_priority c p f).
Qed.

(** A packet that does not concern the machine. *)
Lemma same_follows c p f r ev : machine_ok c p f -> r = Ok f ->
  rfc_next (Priority c) (AdvertisementInterval c) (PreemptMode c) (AdvertisementInterval c) ev (router f) = router f ->
  rfc_sends (Priority c) ev (router f) = [] -> follows c p f r ev.
Proof. intros M -> Hn Hs. exists f, []. rewrite Hs, Hn, app_nil_r. by split_and!. Qed.

(** Statistics change nothing else. *)
Lemma updateRx_ok info f : is_Some (stateInfo f) -> exists g, updateRxStInfo info f = Ok g /\ same_base f g /\ State g = State f /\
  previousState g = previousState f /\ AdverTimer g = AdverTimer f /\ MasterDownTimer g = MasterDownTimer f /\
  MasterAdverInterval g = MasterAdverInterval f /\ SkewTime g = SkewTime f /\ pHandle g = pHandle f /\
  frames (out g) = frames (out f) /\ vip_of (out g) = vip_of (out f).
Proof.
  intros Hi. unfold updateRxStInfo.
  match goal with |- context [on_stateInfo ?u ?h] => destruct (on_stateInfo_ok u h Hi) as [st ->] end. res_simpl.
  eexists. split; [done|]. split; [by split|]. split_and!; try done; cbn [out emit set_out set_stateInfo];
    by rewrite ?frames_app, ?vip_of_app, ?app_nil_r.
Qed.

Lemma backup_packet c p f info hdr : machine_ok c p f -> State f = VRRP_BACKUP_STATE ->
  Hdr info = Some hdr -> DstMac info <> VirtualMACAddress f -> DstIp info <> ipAddr f ->
  hdr_Type hdr = VRRP_PKT_TYPE_ADVERTISEMENT -> 0 < MaxAdverInt hdr < 8192 -> forall greater,
  follows c p f (backup info f) (Advert (hdr_Priority hdr) (MaxAdverInt hdr) greater).
Proof.
  intros M Hs Hh Hm Hd Ht Hi greater. unfold backup. rewrite Hh. res_simpl. rewrite !bool_decide_eq_false_2, Ht by done.
  cbn [VRRP_PKT_TYPE_ADVERTISEMENT Z.eqb Pos.eqb].
  destruct (updateRx_ok info f (mo_info _ _ _ M)) as (g & -> & B & E1 & E2 & E3 & E4 & E5 & E6 & E7 & E8 & E9). res_simpl.
  destruct (mo_base _ _ _ _ M B) as (Hc & Hg & Hst). destruct (handle_open c p f M) as [Hph Hl]; [by rewrite Hs|].
  pose proof (mo_adver _ _ _ M) as Ha. rewrite Hs in Ha. assert (AdverTimer f = None) as Ea by (by destruct (AdverTimer f) as [[?|]|]).
  pose proof (mo_vip _ _ _ M) as Hv. rewrite Hs, bool_decide_eq_false_2 in Hv by done.
  unfold follows, rfc_next, rfc_sends. cbn [r_state router r_skew r_interval]. rewrite Hs.
  assert (forall h, same_base g h -> State h = State g -> AdverTimer h = AdverTimer g -> (exists d, MasterDownTimer h = Some (Some d)) ->
    pHandle h = pHandle g -> frames (out h) = frames (out g) -> vip_of (out h) = vip_of (out g) -> machine_ok c p h) as Hok.
  { intros h B' F1 F2 [d F3] F4 F5 F6. destruct (mo_base _ _ _ _ M (transitivity B B')) as (Hc' & Hg' & Hst').
    split; try done; try apply M; rewrite ?F1, ?F2, ?F3, ?F4, ?F6, ?E1, ?E3, ?Ea, ?E7, ?E9, ?Hph, ?Hs, ?Hv; try done.
    - rewrite (sb_loop _ _ (transitivity B B')). congruence.
    - destruct (sb_pending _ _ (transitivity B B')) as [-> ->]. apply M. }
  destruct (hdr_Priority hdr =? 0).
  - eexists _, []. split; [done|]. rewrite app_nil_r. split; [|split; [|split; [exact E8|constructor]]].
    + apply Hok; try done. cbn. by eexists.
    + unfold router. cbn [State AdverTimer MasterDownTimer MasterAdverInterval SkewTime out handleMasterDownTimer set_MasterDownTimer
        set_MasterDownValue MasterDownValue]. by rewrite E1, E3, E5, E6, E9, Ea, Hs, Hv.
  - unfold config. rewrite Hc. res_simpl. destruct (negb (PreemptMode c) || (Priority c <=? hdr_Priority hdr)).
    + destruct (backup_follows c p (MaxAdverInt hdr) f g (MaxAdverInt hdr) M Hl B) as (f' & E' & M' & R & F & S);
        try done; try congruence.
      * rewrite (proj2 (Z.eqb_neq _ _)) by (unfold USE_CONFIG_ADVERTISEMENT; lia). done.
      * left. congruence.
      * exists f', []. by rewrite app_nil_r.
    + exists g, []. rewrite app_nil_r. split; [done|]. split; [|split; [|by split]].
      * pose proof (mo_down _ _ _ M) as Hdn. rewrite Hs in Hdn. apply Hok; try done. rewrite E4.
        destruct (MasterDownTimer f) as [[d|]|]; try done. by exists d.
      * unfold router. by rewrite E1, E3, E4, E5, E6, E9.
Qed.

(** Statistics keep the machine well. *)
Lemma updateRx_follows c p info f : machine_ok c p f -> exists g, updateRxStInfo info f = Ok g /\ machine_ok c p g /\
  router g = router f /\ frames (out g) = frames (out f).
Proof.
  intros M. destruct (updateRx_ok info f (mo_info _ _ _ M)) as (g & E & B & E1 & E2 & E3 & E4 & E5 & E6 & E7 & E8 & E9).
  destruct (mo_base _ _ _ _ M B) as (Hc & Hg & Hi). exists g. split; [done|]. split; [|split; [|done]].
  - destruct M. split; try done; rewrite ?E1, ?E3, ?E4, ?E7, ?E9; try done.
    + by rewrite (sb_loop _ _ B).
    + by destruct (sb_pending _ _ B) as [-> ->].
  - unfold router. by rewrite E1, E3, E4, E5, E6, E9.
Qed.

Lemma master_packet c p f info hdr : machine_ok c p f -> State f = VRRP_MASTER_STATE ->
  Hdr info = Some hdr -> 0 < MaxAdverInt hdr < 8192 ->
  follows c p f (master SerializeLayers info f)
    (Advert (hdr_Priority hdr) (MaxAdverInt hdr) (bytes_gt (ip_or_nil (pi_IpAddr info)) (ip_or_nil (ipAddr f)))).
Proof.
  intros M Hs Hh Hi. destruct (handle_open c p f M) as [Hph Hl]; [by rewrite Hs|].
  unfold master. rewrite Hh. res_simpl. unfold follows, rfc_next, rfc_sends. cbn [r_state router]. rewrite Hs.
  unfold VRRP_MASTER_DOWN_PRIORITY. destruct (hdr_Priority hdr =? 0) eqn:Ez; cbn [negb andb].
  - destruct (advertise_ok c p f M Hs) as (g & fr & E & Ef & B & E1 & E2 & E3 & E4 & E5 & E6 & E7 & E8).
    rewrite (mo_packet _ _ _ M) in *. res_simpl. destruct (send SerializeLayers p f) as [f1| | |] eqn:Es; try done. res_simpl.
    rewrite E. res_simpl. destruct (mo_base _ _ _ _ M B) as (Hc & Hg & Hst).
    unfold startMasterAdverTimer, config. rewrite Hc, E2. res_simpl. pose proof (mo_adver _ _ _ M) as Ha. rewrite Hs in Ha.
    destruct (AdverTimer f) as [[u|]|]; [|done|done].
    match goal with |- context [set_AdverTimer (Some (Some ?d)) g] =>
      destruct (advertised c p f g d fr M Hs B E1 E3 E4 E5 E6 E7 E8 eq_refl) as (M' & R' & F') end.
    eexists _, [fr]. split; [done|]. split; [exact M'|]. split; [exact R'|]. split; [exact F'|].
    constructor; [|constructor]. by rewrite (own_priority c p f).
  - unfold config. rewrite (mo_config _ _ _ M). res_simpl.
    match goal with |- context [if ?b then _ else _] => destruct b end.
    + set (g := set_previousState _ _).
      destruct (backup_follows c p (MaxAdverInt hdr) f g (MaxAdverInt hdr) M Hl) as (f' & E' & M' & R & F & S);
        [by split|by rewrite (proj2 (Z.eqb_neq _ _)) by (unfold USE_CONFIG_ADVERTISEMENT; lia)|done|done|done|done|by right|].
      rewrite E'. res_simpl. destruct (updateRx_follows c p info f' M') as (f2 & -> & M2 & R2 & F2).
      exists f2, []. rewrite app_nil_r, R2, F2. by split_and!.
    + exists f, []. rewrite app_nil_r. by split_and!.
Qed.

Lemma packet_follows c p f pkt info hdr : machine_ok c p f -> State f <> VRRP_INITIALIZE_STATE ->
  Decode pkt = Ok (Some info) -> Hdr info = Some hdr ->
  own_address (ipAddr f) (hdr_IpAddr hdr) 0 (Z.to_nat (CountIPAddr hdr)) = Ok false ->
  DstMac info <> VirtualMACAddress f -> DstIp info <> ipAddr f -> hdr_Type hdr = VRRP_PKT_TYPE_ADVERTISEMENT ->
  0 < MaxAdverInt hdr < 8192 ->
  follows c p f (processRcvdPkt SerializeLayers env pkt f)
    (Advert (hdr_Priority hdr) (MaxAdverInt hdr) (bytes_gt (ip_or_nil (pi_IpAddr info)) (ip_or_nil (ipAddr f)))).
Proof.
  intros M Hs Hd Hh Ho Hm Hip Ht Hi. unfold processRcvdPkt. rewrite Hd. res_simpl. rewrite Hh. res_simpl. rewrite Ho.
  res_simpl. unfold handleDecodedPkt. destruct (State f) eqn:Es; try done.
  - by destruct (mo_state _ _ _ M).
  - by apply backup_packet.
  - by apply master_packet.
Qed.

(** The goroutine starts and ends. *)
Lemma looping_ok c p f : machine_ok c p f -> machine_ok c p (set_looping true (set_running true f)).
Proof. intros []. by split. Qed.

Lemma ended_ok c p f : machine_ok c p f -> State f = VRRP_INITIALIZE_STATE ->
  machine_ok c p (set_looping false (set_running false f)).
Proof. intros [] Hs. by split. Qed.

Lemma follows_run c p f i ev : enabled i f = true ->
  follows c p f (fsm_step SerializeLayers env i f) ev -> follows c p f (fsm_run SerializeLayers env [i] f) ev.
Proof. intros He (f' & sent & E & H). cbn [fsm_run]. rewrite He, E. res_simpl. by exists f', sent. Qed.

(** A new machine. *)
Lemma InitFsm_ok cfg l3Info p : 0 < Priority cfg < 255 -> 0 < AdvertisementInterval cfg < 8192 ->
  getPacketInfo (InitFsm (Frame := Frame) cfg l3Info) = Ok p -> adv_ok p -> machine_ok cfg p (InitFsm cfg l3Info).
Proof. intros. by split. Qed.

End Refine.
