(* ===== verification/VrrpFsmProps.v ===== *)
(** * VRRP: what the machines promise

    That a machine follows RFC 5798, that of two masters one is left, and runs on the
    boundary. *)

From stdpp Require Import pretty.
From S2P Require Import Prelude.
From S2P Require Import NetIP.
From S2P Require Import NetParse.
From S2P Require Import VrrpPacket.
From S2P Require Import VrrpPacketSpec.
From S2P Require Import VrrpFsm.
From S2P Require Import VrrpFsmSpec.

(** ** Comparing addresses *)

Lemma bytes_gt_app p a b : bytes_gt (p ++ a) (p ++ b) = bytes_gt a b.
Proof. induction p as [|x p IH]; [done|]. cbn. by rewrite Z.ltb_irrefl, Z.eqb_refl, IH. Qed.

Lemma bytes_gt_total a b : length a = length b -> a <> b -> bytes_gt b a = negb (bytes_gt a b).
Proof.
  revert b. induction a as [|x a IH]; intros [|y b]; cbn; try done. intros [= Hl] Hne.
  destruct (Z.lt_trichotomy x y) as [H|[->|H]].
  - rewrite (proj2 (Z.ltb_lt x y) H), (proj2 (Z.ltb_ge y x)), (proj2 (Z.eqb_neq x y)) by lia. done.
  - rewrite Z.ltb_irrefl, Z.eqb_refl. cbn. apply IH; [done|]. by intros ->.
  - rewrite (proj2 (Z.ltb_lt y x) H), (proj2 (Z.ltb_ge x y)), (proj2 (Z.eqb_neq y x)) by lia. done.
Qed.

Definition octets4 (a : bytes) : Prop := is_bytes a /\ length a = 4%nat.

Lemma octets4_cases a : octets4 a -> exists w x y z, a = [w; x; y; z] /\ is_u8 w /\ is_u8 x /\ is_u8 y /\ is_u8 z.
Proof.
  intros [Hb Hl]. destruct a as [|w [|x [|y [|z [|? ?]]]]]; try done. unfold is_bytes in Hb.
  rewrite !Forall_cons in Hb. destruct_and!. by exists w, x, y, z.
Qed.

Definition in6 (a : bytes) : bytes := zeros 10 ++ [255; 255] ++ a.

Lemma ParseCIDR_no_slash s : no_slash s = true -> ParseCIDR s = None.
Proof.
  unfold ParseCIDR. assert (no_slash s = true -> cut_slash s = None) as H.
  { induction s as [|c s IH]; [done|]. cbn [no_slash cut_slash]. intros [Hc%negb_true_iff Hs]%andb_true_iff.
    unfold is_char. by rewrite Hc, IH. }
  intros Hs. by rewrite H.
Qed.

Lemma address4 a : octets4 a -> ip_or_nil (IP_String a) = in6 a /\ parse_address (IP_String a) = in6 a /\
  IP_String (in6 a) = IP_String a.
Proof.
  intros H. destruct (octets4_cases a H) as (w & x & y & z & -> & Hw & Hx & Hy & Hz).
  unfold parse_address, ip_or_nil. rewrite ParseCIDR_no_slash, ParseIP_String by (done || apply IP_String_no_slash). done.
Qed.

Lemma addresses_gt a b : octets4 a -> octets4 b ->
  bytes_gt (ip_or_nil (IP_String a)) (ip_or_nil (IP_String b)) = bytes_gt a b.
Proof. intros Ha Hb. rewrite (proj1 (address4 a Ha)), (proj1 (address4 b Hb)). unfold in6. by rewrite !bytes_gt_app. Qed.

Section Refine.
Context {Frame : Type} (SerializeLayers : Ethernet -> IPLayer -> bytes -> Frame) (NewPacket : Frame -> Packet).
Hypothesis Hgo : gopacket_ok SerializeLayers NewPacket.
Variable env : PcapEnv (Frame := Frame).
Hypothesis Hopen : forall o, OpenLive env o = true.

(** C27: a machine that does not own the address (priority 1 to 254, interval below 8192,
    a packet that can be encoded, a pcap handle that opens, no timer callback late) makes,
    for every event of RFC 5798, section 6.4 - it is started, shut down, a timer expires
    and its callback runs, an advertisement of another router with an interval of 1 to
    8191 arrives - the transition of the RFC: the next state, which timers run and the
    time each was set to, the learned interval and skew, and whether the virtual address
    is up are those of the RFC's machine, the frames it sends are the advertisements the
    RFC asks for, and it is again in such a state. Two differences are written into the
    abstract machine: the skew and down times are the RFC's formulas in whole seconds,
    rounded down, not hundredths; and a new master sets the advertisement timer to the
    interval taken in nanoseconds (master.go:64), every later setting being in seconds. *)
Theorem machine_refines_rfc c p (f : FSM Frame) inputs ev : machine_ok c p f -> stands_for f inputs ev ->
  follows SerializeLayers c p f (fsm_run SerializeLayers env inputs f) ev.
Proof.
  intros M []; [| | | |by eapply adver_timer_follows|by eapply down_timer_follows|].
  - apply follows_run; [cbn; by rewrite H|]. 
    exact (startup_follows SerializeLayers env Hopen c p _ (looping_ok c p f M) (mo_looping _ _ _ M H) eq_refl).
  - apply follows_run; [done|]. by eapply startup_follows.
  - apply follows_run; [done|]. destruct (shutdown_follows _ _ Hgo c p f M) as (f' & sent & E & Hs & M' & R & F & S).
    exists f', sent. split; [done|]. split; [done|]. split; [|done]. rewrite R. unfold rfc_next. cbn [r_state router].
    pose proof (mo_state _ _ _ M). by destruct (State f).
  - apply follows_run; [done|]. destruct (shutdown_follows _ _ Hgo c p f M) as (f' & sent & E & Hs & M' & R & F & S).
    cbn [fsm_step handleIntfEvent]. unfold config. rewrite (mo_config _ _ _ M). res_simpl. rewrite E. res_simpl.
    eexists _, sent. split; [done|]. split; [by apply ended_ok|]. split; [|done].
    change (router f' = rfc_next (Priority c) (AdvertisementInterval c) (PreemptMode c) (AdvertisementInterval c) Shutdown (router f)).
    rewrite R. unfold rfc_next. cbn [r_state router]. pose proof (mo_state _ _ _ M). by destruct (State f).
  - apply follows_run; [done|]. by eapply packet_follows.
Qed.


(** ** The election *)

(** Whether the first of two routers wins. *)
Definition beats (c1 c2 : IntfCfg) (a1 a2 : bytes) : bool :=
  (Priority c2 <? Priority c1) || ((Priority c1 =? Priority c2) && bytes_gt a1 a2).

Lemma beats_total c1 c2 a1 a2 : octets4 a1 -> octets4 a2 -> a1 <> a2 -> beats c2 c1 a2 a1 = negb (beats c1 c2 a1 a2).
Proof.
  intros [_ H1] [_ H2] Hne. unfold beats. rewrite (bytes_gt_total a1 a2) by congruence.
  destruct (Z.ltb_spec (Priority c1) (Priority c2)), (Z.ltb_spec (Priority c2) (Priority c1)),
    (Z.eqb_spec (Priority c1) (Priority c2)), (Z.eqb_spec (Priority c2) (Priority c1)); done || lia.
Qed.

Lemma own_address_one s ip : own_address s [ip] 0 1 = Ok (bool_decide (s = IP_String ip)).
Proof. unfold own_address. change (index [ip] 0) with (Ok ip). res_simpl. by destruct (bool_decide _). Qed.

(** A master hears the advertisement of another. *)
Lemma master_hears c1 c2 p1 p2 (f1 f2 : FSM Frame) a1 a2 :
  machine_ok c1 p1 f1 -> machine_ok c2 p2 f2 -> State f2 = VRRP_MASTER_STATE ->
  ipAddr f1 = IP_String a1 -> ipAddr f2 = IP_String a2 -> octets4 a1 -> octets4 a2 ->
  IP_String (wire_ip (parse_address (Vip p1))) <> ipAddr f2 ->
  exists fr g, Encode SerializeLayers p1 = Ok (Some fr) /\ fsm_step SerializeLayers env (Received (NewPacket fr)) f2 = Ok g /\
    machine_ok c2 p2 g /\ State g = (if beats c1 c2 a1 a2 then VRRP_BACKUP_STATE else VRRP_MASTER_STATE).
Proof.
  intros M1 M2 Hs A1 A2 O1 O2 Hown. destruct (arrival _ _ Hgo p1 (mo_adv _ _ _ M1)) as (fr & ck & E & D).
  pose proof (own_priority _ _ _ M1) as Hp. pose proof (mo_packet _ _ _ M1) as Hg. unfold getPacketInfo, config in Hg.
  rewrite (mo_config _ _ _ M1) in Hg. pose proof (mo_priority _ _ _ M1). pose proof (mo_interval _ _ _ M1).
  destruct (master_packet _ _ Hgo c2 p2 f2 (received p1 ck) (decoded (with_checksum ck (advertisement p1))) M2 Hs eq_refl)
    as (g & sent & Eg & Mg & Rg & _ & _).
  { cbn. injection Hg as <-. cbn. unfold u16. rewrite Z.mod_small; lia. }
  exists fr, g. split; [done|]. split; [|split; [done|]].
  - cbn [fsm_step]. unfold processRcvdPkt. rewrite D. res_simpl.
    assert (own_address (ipAddr f2) (hdr_IpAddr (decoded (with_checksum ck (advertisement p1)))) 0
      (Z.to_nat (CountIPAddr (decoded (with_checksum ck (advertisement p1))))) = Ok false) as Ho.
    { etrans; [apply own_address_one|]. by rewrite bool_decide_eq_false_2 by congruence. }
    cbn [Hdr received]. res_simpl. rewrite Ho. res_simpl. unfold handleDecodedPkt. by rewrite Hs.
  - assert (State g = r_state (router g)) as -> by done. rewrite Rg. unfold rfc_next. cbn [r_state router]. rewrite Hs.
    assert (hdr_Priority (decoded (with_checksum ck (advertisement p1))) = Priority c1) as ->.
    { cbn. by rewrite <- Hp. }
    assert (pi_IpAddr (received p1 ck) = ipAddr f1) as ->.
    { cbn. injection Hg as <-. cbn. rewrite A1. by destruct (address4 a1 O1) as (_ & -> & ->). }
    rewrite A1, A2, addresses_gt by done. rewrite (proj2 (Z.eqb_neq (Priority c1) 0)) by lia. cbn [negb andb].
    unfold beats. destruct (_ || _); [done|exact Hs].
Qed.

(** C28: two IPv4 routers of which neither owns the virtual address (priority 1 to 254,
    the virtual address different from both own addresses), that are both masters, with
    different own addresses, and each of which gets the advertisement the other sends:
    exactly one of them stays master and keeps the virtual address up, the one with the
    higher priority or, when these are equal, the higher address; the other one becomes
    a backup and takes the address down. *)
Theorem one_master_left c1 c2 p1 p2 (f1 f2 : FSM Frame) a1 a2 :
  machine_ok c1 p1 f1 -> machine_ok c2 p2 f2 -> State f1 = VRRP_MASTER_STATE -> State f2 = VRRP_MASTER_STATE ->
  ipAddr f1 = IP_String a1 -> ipAddr f2 = IP_String a2 -> octets4 a1 -> octets4 a2 -> a1 <> a2 ->
  IP_String (wire_ip (parse_address (Vip p1))) <> ipAddr f2 -> IP_String (wire_ip (parse_address (Vip p2))) <> ipAddr f1 ->
  exists fr1 fr2 g1 g2, Encode SerializeLayers p1 = Ok (Some fr1) /\ Encode SerializeLayers p2 = Ok (Some fr2) /\
    fsm_step SerializeLayers env (Received (NewPacket fr2)) f1 = Ok g1 /\
    fsm_step SerializeLayers env (Received (NewPacket fr1)) f2 = Ok g2 /\
    State g1 = (if beats c1 c2 a1 a2 then VRRP_MASTER_STATE else VRRP_BACKUP_STATE) /\
    State g2 = (if beats c1 c2 a1 a2 then VRRP_BACKUP_STATE else VRRP_MASTER_STATE) /\
    vip_of (out g1) = beats c1 c2 a1 a2 /\ vip_of (out g2) = negb (beats c1 c2 a1 a2).
Proof.
  intros M1 M2 S1 S2 A1 A2 O1 O2 Hne W1 W2.
  destruct (master_hears c1 c2 p1 p2 f1 f2 a1 a2) as (fr1 & g2 & E1 & G2 & Mg2 & Sg2); try done.
  destruct (master_hears c2 c1 p2 p1 f2 f1 a2 a1) as (fr2 & g1 & E2 & G1 & Mg1 & Sg1); try done.
  exists fr1, fr2, g1, g2. rewrite (mo_vip _ _ _ Mg1), (mo_vip _ _ _ Mg2), Sg1, Sg2, (beats_total c1 c2) by done.
  by destruct (beats c1 c2 a1 a2).
Qed.
End Refine.

(** ** Runs *)

(** A handle that always opens. *)
Definition open_env {Frame} : PcapEnv (Frame := Frame) := mkPcapEnv (fun _ => true) (fun _ => true).

Definition cfg_with (prio version interval : Z) : IntfCfg :=
  mkIntfCfg "eth0" 1 7 prio "10.0.0.100" interval true false true version 0 AF_INET.
Definition l3_at (ip : string) : BaseIpInfo := mkBaseIpInfo 1 "eth0" ip STATE_UP "" AF_INET.

Definition packet_of {Frame} (f : FSM Frame) : PacketInfo :=
  match getPacketInfo f with Ok p => p | _ => mkPacketInfo None "" "" 0 0 0 0 "" "" "" "" 0 end.

Abbreviation Kept := (Ethernet * IPLayer * bytes)%type.

(** A machine at 10.0.0.[host] after [inputs]. *)
Definition machine (prio host : Z) : FSM Kept :=
  InitFsm (cfg_with prio VERSION2 1) (l3_at (IP_String [10; 0; 0; host] +:+ "/24")).

Definition run_from (inputs : list Input) (f : FSM Kept) : FSM Kept :=
  match fsm_run frame_of open_env inputs f with Ok f' => f' | _ => f end.

Definition master_at (prio host : Z) : FSM Kept := run_from [StartFsm; DownExpires; DownCallback] (machine prio host).

Lemma machine_adv_ok prio host : (prio = 100 \/ prio = 200) -> (host = 1 \/ host = 2) -> adv_ok (packet_of (machine prio host)).
Proof. intros [-> | ->] [-> | ->]; (split; [by left|done|by vm_compute|left; by vm_compute]). Qed.

Lemma machine_ok_at prio host : (prio = 100 \/ prio = 200) -> (host = 1 \/ host = 2) ->
  machine_ok (cfg_with prio VERSION2 1) (packet_of (machine prio host)) (machine prio host).
Proof. intros Hp Hh. apply InitFsm_ok; [cbn; lia|done|done|]. by apply machine_adv_ok. Qed.

Lemma master_ok_at prio host : (prio = 100 \/ prio = 200) -> (host = 1 \/ host = 2) ->
  machine_ok (cfg_with prio VERSION2 1) (packet_of (machine prio host)) (master_at prio host) /\
  State (master_at prio host) = VRRP_MASTER_STATE.
Proof.
  intros Hp Hh. pose proof (machine_adv_ok prio host Hp Hh) as A. revert A.
  destruct Hp as [-> | ->], Hh as [-> | ->]; intros A; (split; [|by vm_compute]);
    (split; [by vm_compute|cbn; lia|cbn; lia|by vm_compute|exact A|by vm_compute; eexists|by vm_compute..|]);
    by split; vm_compute.
Qed.

Lemma machine_refines_rfc_witness :
  (let f := machine 100 1 in
   follows frame_of (cfg_with 100 VERSION2 1) (packet_of f) f (fsm_run frame_of open_env [StartFsm] f) Startup) /\
  (let f := master_at 100 1 in
   follows frame_of (cfg_with 100 VERSION2 1) (packet_of (machine 100 1)) f (fsm_run frame_of open_env [Intf TEAR_DOWN] f) Shutdown).
Proof.
  split; apply (machine_refines_rfc frame_of kept_layers kept_layers_ok open_env (fun _ => eq_refl)).
  - by apply machine_ok_at; left.
  - by constructor.
  - by apply master_ok_at; left.
  - constructor. by vm_compute.
Defined.

Lemma one_master_left_witness : exists fr1 fr2 g1 g2,
  Encode frame_of (packet_of (machine 100 1)) = Ok (Some fr1) /\ Encode frame_of (packet_of (machine 100 2)) = Ok (Some fr2) /\
  fsm_step frame_of open_env (Received (kept_layers fr2)) (master_at 100 1) = Ok g1 /\
  fsm_step frame_of open_env (Received (kept_layers fr1)) (master_at 100 2) = Ok g2 /\
  State g1 = VRRP_BACKUP_STATE /\ State g2 = VRRP_MASTER_STATE /\ vip_of (out g1) = false /\ vip_of (out g2) = true.
Proof.
  apply (one_master_left frame_of kept_layers kept_layers_ok open_env (cfg_with 100 VERSION2 1) (cfg_with 100 VERSION2 1)
    _ _ _ _ [10; 0; 0; 1] [10; 0; 0; 2]).
  - by apply master_ok_at; left.
  - by apply master_ok_at; [left|right].
  - by vm_compute.
  - by vm_compute.
  - by vm_compute.
  - by vm_compute.
  - split; [repeat constructor; unfold is_u8; lia|done].
  - split; [repeat constructor; unfold is_u8; lia|done].
  - done.
  - by vm_compute.
  - by vm_compute.
Defined.

(** ** The boundary *)

(** The virtual router of a received advertisement is not looked at: the master of router
    7 gives up when router 8 of the same interface has a higher priority. *)
Definition with_Vrid (v : Z) (p : PacketInfo) : PacketInfo :=
  mkPacketInfo (Hdr p) (DstMac p) (SrcMac p) (pi_Version p) v (pi_Priority p) (AdvertiseInt p) (VirutalMac p) (pi_IpAddr p)
    (Vip p) (DstIp p) (IpType p).

Definition received_from (p : PacketInfo) (f : FSM Kept) : FSM Kept :=
  match Encode frame_of p with
  | Ok (Some fr) => run_from [Received (kept_layers fr)] f
  | _ => f
  end.

Example vrid_ignored :
  State (received_from (with_Vrid 8 (packet_of (machine 200 2))) (master_at 100 1)) = VRRP_BACKUP_STATE.
Proof. by vm_compute. Qed.

(** The first advertisement after becoming master is due in a nanosecond, not a second. *)
Example first_timer : AdverTimer (master_at 100 1) = Some (Some 1) /\
  AdverTimer (run_from [AdverExpires; AdverCallback] (master_at 100 1)) = Some (Some Second).
Proof. by vm_compute. Qed.

(** A callback that waits while the machine leaves the Master state stops the daemon. *)
Example late_callback : fsm_run frame_of open_env [AdverExpires; Intf (STATE_CHANGE STATE_DOWN); AdverCallback] (master_at 100 1) = Panic.
Proof. by vm_compute. Qed.

(** The owner of the address, of priority 255, becomes master at once and does not bring
    the virtual address up. *)
Example owner_without_address :
  let f := run_from [StartFsm] (machine 255 1) in State f = VRRP_MASTER_STATE /\ vip_of (out f) = false.
Proof. by vm_compute. Qed.

(** An interface that is reported up again while the machine is Master leaves a backup
    whose advertisement timer runs. *)
Example up_while_master :
  let f := run_from [Intf (STATE_CHANGE STATE_UP)] (master_at 100 1) in
  State f = VRRP_BACKUP_STATE /\ is_armed (AdverTimer f) = true.
Proof. by vm_compute. Qed.

(** A version 3 header with two addresses counted and one there stops a listening router. *)
Definition short_advert : Packet :=
  mkPacket (Some some_eth)
    (Some (some_ip, Some (mkSlice [0x31; 7; 100; 2; 0; 100; 0x60; 0x2e; 10; 0; 0; 100] []))) None.
Example short_advert_panics : fsm_run frame_of open_env [StartFsm; Received short_advert] (machine 100 1) = Panic.
Proof. by vm_compute. Qed.
