(* ===== verification/VrrpServer.v ===== *)
(** * VRRP: the server

    infra.go, intf.go, v4Intf.go, v6Intf.go, db.go, state.go and server.go of
    src/vrrp/server and VrrpIntfConfig of src/vrrp/api: the table of IP interfaces and
    virtual routers between the configuration and the machines of VrrpFsm. *)

From stdpp Require Import pretty.
From S2P Require Import Prelude.
From S2P Require Import NetIP.
From S2P Require Import NetParse.
From S2P Require Import VrrpPacket.
From S2P Require Import VrrpFsm.

(** ** Data *)

(** IntfRef, VRID and IpType. *)
Abbreviation KeyInfo := (string * Z * Z)%type.

Definition constructIntfKey (intfRef : string) (vrid ipType : Z) : KeyInfo := (intfRef, vrid, ipType).

Definition CREATE : Z := 1.
Definition UPDATE : Z := 2.
Definition DELETE : Z := 3.
Definition DB_UPDATE : Z := 4.
Definition IP_MSG_CREATE : string := "ip_create".
Definition IP_MSG_DELETE : string := "ip_delete".
Definition IP_MSG_STATE_CHANGE : string := "state_change".

Record GlobalConfig := mkGlobalConfig {
  gbl_Vrf : string;
  gbl_Enable : bool;
  gbl_Operation : Z;
}.

Record GlobalState := mkGlobalState {
  gs_Vrf : string;
  Status : bool;
  V4Intfs : Z;
  V6Intfs : Z;
  TotalRxFrames : Z;
  TotalTxFrames : Z;
}.

Record V4Intf := mkV4Intf {
  v4_Info : BaseIpInfo;
  v4_Vrrpkey : option KeyInfo;
}.

Record V6Intf := mkV6Intf {
  v6_Info : BaseIpInfo;
  GlobalScopeIp : string;
  v6_Vrrpkey : option KeyInfo;
}.

Inductive IPIntf :=
| IntfV4 (i : V4Intf)
| IntfV6 (i : V6Intf).

(** The calls on the switch and on the ARP and ND daemons. *)
Inductive PluginCall :=
| CreateVirtualIPv4Intf (intfRef ipAddr mac : string)
| CreateVirtualIPv6Intf (intfRef ipAddr mac : string)
| UpdateVirtualIPv4Intf (intfRef ipAddr mac : string) (enable : bool)
| UpdateVirtualIPv6Intf (intfRef ipAddr mac : string) (enable : bool)
| DeleteVirtualIPv4Intf (intfRef ipAddr mac : string)
| DeleteVirtualIPv6Intf (intfRef ipAddr mac : string)
| EnablePacketReception (mac : string)
| DisablePacketReception (mac : string)
| DeleteArpEntry (ip : string)
| DeleteNdpEntry (ip : string).

(** ** IP interfaces *)

Definition info_with (op ip : string) (i : BaseIpInfo) : BaseIpInfo :=
  mkBaseIpInfo (l3_IfIndex i) (l3_IntfRef i) ip op (MsgType i) (l3_IpType i).

Definition V4Intf_Init (obj : BaseIpInfo) : V4Intf :=
  mkV4Intf (mkBaseIpInfo (l3_IfIndex obj) (l3_IntfRef obj) (l3_IpAddr obj) (OperState obj) "" (l3_IpType obj)) None.

Definition cidr_or_nil (s : string) : bytes := match ParseCIDR s with Some ip => ip | None => [] end.

Definition updateIp (ipAddr : string) (intf : V6Intf) : V6Intf :=
  if negb (IsLinkLocalUnicast (cidr_or_nil ipAddr)) then mkV6Intf (v6_Info intf) ipAddr (v6_Vrrpkey intf)
  else mkV6Intf (info_with (OperState (v6_Info intf)) ipAddr (v6_Info intf)) (GlobalScopeIp intf) (v6_Vrrpkey intf).

Definition V6Intf_Init (obj : BaseIpInfo) : V6Intf :=
  updateIp (l3_IpAddr obj)
    (mkV6Intf (mkBaseIpInfo (l3_IfIndex obj) (l3_IntfRef obj) "" (OperState obj) "" (l3_IpType obj)) "" None).

Definition IPIntf_Update (obj : BaseIpInfo) (intf : IPIntf) : IPIntf :=
  match intf with
  | IntfV4 i => IntfV4 (mkV4Intf (info_with (OperState obj) (l3_IpAddr (v4_Info i)) (v4_Info i)) (v4_Vrrpkey i))
  | IntfV6 i => IntfV6 (mkV6Intf (info_with (OperState obj) (l3_IpAddr (v6_Info i)) (v6_Info i)) (GlobalScopeIp i) (v6_Vrrpkey i))
  end.

Definition GetObjFromDb (intf : IPIntf) (l3Info : BaseIpInfo) : BaseIpInfo :=
  match intf with
  | IntfV4 i => info_with (OperState (v4_Info i)) (l3_IpAddr (v4_Info i)) l3Info
  | IntfV6 i => info_with (OperState (v6_Info i)) (l3_IpAddr (v6_Info i)) l3Info
  end.

Definition SetVrrpIntfKey (key : option KeyInfo) (intf : IPIntf) : IPIntf :=
  match intf with
  | IntfV4 i => IntfV4 (mkV4Intf (v4_Info i) key)
  | IntfV6 i => IntfV6 (mkV6Intf (v6_Info i) (GlobalScopeIp i) key)
  end.

Definition GetVrrpIntfKey (intf : IPIntf) : option KeyInfo :=
  match intf with IntfV4 i => v4_Vrrpkey i | IntfV6 i => v6_Vrrpkey i end.

Definition GetIntfRef (intf : IPIntf) : string :=
  match intf with IntfV4 i => l3_IntfRef (v4_Info i) | IntfV6 i => l3_IntfRef (v6_Info i) end.

Section Server.
Context {Frame : Type}.
Variable SerializeLayers : Ethernet -> IPLayer -> bytes -> Frame.
Variable env : PcapEnv (Frame := Frame).
(** netUtils.IsIpv6LinkLocal *)
Variable IsIpv6LinkLocal : string -> bool.
(** The order in which the map of virtual routers is walked. *)
Variable visit : list KeyInfo -> list KeyInfo.

Record VrrpInterface := mkVrrpInterface {
  L3 : BaseIpInfo;
  intf_Config : IntfCfg;
  Fsm : FSM Frame;
}.

(** The channels between the machines and the server have no buffer: a send waits until
    it is received. [pending] holds the sends of the machines that wait for the server,
    each with the key of the machine when it is the machine's goroutine that waits, and
    with None when it is a callback of a timer. *)
Record VrrpServer := mkVrrpServer {
  Gbl : GlobalConfig;
  globalState : GlobalState;
  V4 : gmap Z V4Intf;
  V6 : gmap Z V6Intf;
  Intfs : gmap KeyInfo VrrpInterface;
  v4Intfs : list KeyInfo;
  v6Intfs : list KeyInfo;
  V4IntfRefToIfIndex : gmap string Z;
  V6IntfRefToIfIndex : gmap string Z;
  pending : list (option KeyInfo * Out Frame);
  calls : list PluginCall;
}.

Definition VrrpServer_eta (s : VrrpServer) : VrrpServer :=
  mkVrrpServer (Gbl s) (globalState s) (V4 s) (V6 s) (Intfs s) (v4Intfs s) (v6Intfs s) (V4IntfRefToIfIndex s)
    (V6IntfRefToIfIndex s) (pending s) (calls s).

Definition set_Gbl v s := ltac:(update VrrpServer_eta s Gbl v).
Definition set_globalState v s := ltac:(update VrrpServer_eta s globalState v).
Definition set_V4 v s := ltac:(update VrrpServer_eta s V4 v).
Definition set_V6 v s := ltac:(update VrrpServer_eta s V6 v).
Definition set_Intfs v s := ltac:(update VrrpServer_eta s Intfs v).
Definition set_v4Intfs v s := ltac:(update VrrpServer_eta s v4Intfs v).
Definition set_v6Intfs v s := ltac:(update VrrpServer_eta s v6Intfs v).
Definition set_V4IntfRefToIfIndex v s := ltac:(update VrrpServer_eta s V4IntfRefToIfIndex v).
Definition set_V6IntfRefToIfIndex v s := ltac:(update VrrpServer_eta s V6IntfRefToIfIndex v).
Definition set_pending v s := ltac:(update VrrpServer_eta s pending v).
Definition set_calls v s := ltac:(update VrrpServer_eta s calls v).

Definition call (c : PluginCall) (s : VrrpServer) : VrrpServer := set_calls (calls s ++ [c]) s.

Definition InitGlobalDS : VrrpServer :=
  mkVrrpServer (mkGlobalConfig "" false 0) (mkGlobalState "" false 0 0 0 0) ∅ ∅ ∅ [] [] ∅ ∅ [] [].

(** A send that no goroutine receives blocks for ever. *)
Definition blocked {A} : res A := NoFuel.

(** ** Machines *)

Definition is_message (o : Out Frame) : bool :=
  match o with vipCh _ | rxCh | txCh => true | _ => false end.

(** A step of a machine, with what it sends to the server. *)
Definition machine_step (step : FSM Frame -> res (FSM Frame)) (f : FSM Frame) : res (FSM Frame * list (Out Frame)) :=
  f' ← step f; Ok (f', filter is_message (drop (length (out f)) (out f'))).

Definition intf_key (intf : VrrpInterface) : KeyInfo :=
  let c := intf_Config intf in constructIntfKey (IntfRef c) (VRID c) (cfg_IpType c).

(** A step of a machine in its interface, by [sender]. *)
Definition on_machine (sender : option KeyInfo) (step : FSM Frame -> res (FSM Frame)) (intf : VrrpInterface)
    (s : VrrpServer) : res (VrrpInterface * VrrpServer) :=
  '(f, sent) ← machine_step step (Fsm intf);
  Ok (mkVrrpInterface (L3 intf) (intf_Config intf) f, set_pending (pending s ++ map (pair sender) sent) s).

(** The goroutine of a machine has not got past its last send: it is still running, and
    takes nothing. *)
Definition waits (intf : VrrpInterface) (s : VrrpServer) : bool :=
  existsb (fun m => bool_decide (m.1 = Some (intf_key intf))) (pending s).
Definition IsRunning (intf : VrrpInterface) (s : VrrpServer) : bool := running (Fsm intf) || waits intf s.
Definition takes (intf : VrrpInterface) (s : VrrpServer) : bool := looping (Fsm intf) && negb (waits intf s).

Definition InitVrrpIntf (cfg : IntfCfg) (l3Info : BaseIpInfo) : VrrpInterface :=
  mkVrrpInterface l3Info cfg (InitFsm cfg l3Info).

(** The goroutine has come to its select when this returns. *)
Definition StartFsm_intf (intf : VrrpInterface) (s : VrrpServer) : res (VrrpInterface * VrrpServer) :=
  on_machine (Some (intf_key intf)) (fsm_step SerializeLayers env StartFsm) intf s.

(** [intf.Fsm.IntfEventCh <- ev]. The server is the one who could receive what a waiting
    goroutine sends, so that both wait for ever. *)
Definition send_event (ev : IntfEvent) (intf : VrrpInterface) (s : VrrpServer) : res (VrrpInterface * VrrpServer) :=
  if takes intf s then on_machine (Some (intf_key intf)) (fsm_step SerializeLayers env (Intf ev)) intf s else blocked.

Definition StopFsm (intf : VrrpInterface) (s : VrrpServer) : res (VrrpInterface * VrrpServer) :=
  send_event TEAR_DOWN intf s.

Definition GetVMac (intf : VrrpInterface) : string := VirtualMACAddress (Fsm intf).

Definition UpdateOperState (state : string) (intf : VrrpInterface) : VrrpInterface :=
  mkVrrpInterface (info_with state (l3_IpAddr (L3 intf)) (L3 intf)) (intf_Config intf) (Fsm intf).

Definition UpdateIpState (intf : VrrpInterface) (s : VrrpServer) : res (VrrpInterface * VrrpServer) :=
  if AdminState (intf_Config intf) then
    if IsRunning intf s then send_event (STATE_CHANGE (OperState (L3 intf))) intf s
    else StartFsm_intf intf s
  else Ok (intf, s).

(** The result is CREATE or DELETE when the virtual interface is to be created or
    deleted, 0 otherwise. *)
Definition UpdateConfig_intf (cfg : IntfCfg) (intf : VrrpInterface) (s : VrrpServer) : res (VrrpInterface * VrrpServer * Z) :=
  let intf := mkVrrpInterface (L3 intf) (intf_Config intf) (UpdateConfig cfg (Fsm intf)) in
  '(intf, s, oper) ←
    (if negb (eqb (AdminState (intf_Config intf)) (AdminState cfg)) then
       if negb (AdminState cfg) then '(intf, s) ← StopFsm intf s; Ok (intf, s, DELETE)
       else '(intf, s) ← StartFsm_intf intf s; Ok (intf, s, CREATE)
     else Ok (intf, s, 0));
  Ok (mkVrrpInterface (L3 intf) cfg (Fsm intf), s, oper).

Definition put_intf (key : KeyInfo) (intf : VrrpInterface) (s : VrrpServer) : VrrpServer :=
  set_Intfs (<[key := intf]> (Intfs s)) s.

(** The machine is stopped for good; when it runs its goroutine has to be there to take
    the message that ends it. *)
Definition DeInitVrrpIntf (intf : VrrpInterface) (s : VrrpServer) : res VrrpServer :=
  if IsRunning intf s && negb (takes intf s) then blocked
  else '(_, s) ← on_machine None (fsm_step SerializeLayers env DeInit) intf s; Ok s.

(** ** Requests *)

Definition ValidateCreateConfig (cfg : IntfCfg) (s : VrrpServer) : bool :=
  match Intfs s !! constructIntfKey (IntfRef cfg) (VRID cfg) (cfg_IpType cfg) with
  | Some _ => false
  | None =>
    if cfg_IpType cfg =? AF_INET then bool_decide (is_Some (V4IntfRefToIfIndex s !! IntfRef cfg))
    else if cfg_IpType cfg =? AF_INET6 then bool_decide (is_Some (V6IntfRefToIfIndex s !! IntfRef cfg))
    else false
  end.

Definition ValidateUpdateConfig (cfg : IntfCfg) (s : VrrpServer) : bool :=
  match Intfs s !! constructIntfKey (IntfRef cfg) (VRID cfg) (cfg_IpType cfg) with
  | Some intf => VRID (intf_Config intf) =? VRID cfg
  | None => false
  end.

Definition ValidateDeleteConfig (cfg : IntfCfg) (s : VrrpServer) : bool :=
  bool_decide (is_Some (Intfs s !! constructIntfKey (IntfRef cfg) (VRID cfg) (cfg_IpType cfg))).

Definition ValidConfiguration (cfg : IntfCfg) (s : VrrpServer) : bool :=
  if VRID cfg =? 0 then false
  else if Operation cfg =? CREATE then ValidateCreateConfig cfg s
  else if Operation cfg =? UPDATE then ValidateUpdateConfig cfg s
  else if Operation cfg =? DELETE then ValidateDeleteConfig cfg s
  else false.

(** ** Virtual interfaces *)

Definition CreateVirtualIntf (cfg : IntfCfg) (vMac : string) (s : VrrpServer) : VrrpServer :=
  if cfg_IpType cfg =? AF_INET then call (CreateVirtualIPv4Intf (IntfRef cfg) (VirtualIPAddr cfg) vMac) s
  else if cfg_IpType cfg =? AF_INET6 then call (CreateVirtualIPv6Intf (IntfRef cfg) (VirtualIPAddr cfg) vMac) s
  else s.

Definition DeleteVirtualIntf (cfg : IntfCfg) (vMac : string) (s : VrrpServer) : VrrpServer :=
  if cfg_IpType cfg =? AF_INET then call (DeleteVirtualIPv4Intf (IntfRef cfg) (VirtualIPAddr cfg) vMac) s
  else if cfg_IpType cfg =? AF_INET6 then call (DeleteVirtualIPv6Intf (IntfRef cfg) (VirtualIPAddr cfg) vMac) s
  else s.

Definition UpdateVirtualIntf (v : VirtualIpInfo) (s : VrrpServer) : VrrpServer :=
  let ip := cidr_or_nil (vip_IpAddr v) in
  if vip_IpType v =? AF_INET then
    let s := if Enable v then call (DeleteArpEntry (IP_String (To4 ip))) s else s in
    call (UpdateVirtualIPv4Intf (vip_IntfRef v) (vip_IpAddr v) (vip_MacAddr v) (Enable v)) s
  else if vip_IpType v =? AF_INET6 then
    let s := if Enable v then call (DeleteNdpEntry (IP_String (To16 ip))) s else s in
    call (UpdateVirtualIPv6Intf (vip_IntfRef v) (vip_IpAddr v) (vip_MacAddr v) (Enable v)) s
  else s.

(** ** Lists and counters *)

Fixpoint remove_key (key : KeyInfo) (l : list KeyInfo) : list KeyInfo :=
  match l with
  | [] => []
  | k :: l => if bool_decide (k = key) then l else k :: remove_key key l
  end.

Definition updateIntfList (key : KeyInfo) (ipType : Z) (insert : bool) (s : VrrpServer) : VrrpServer :=
  if insert then
    if ipType =? AF_INET then set_v4Intfs (v4Intfs s ++ [key]) s else set_v6Intfs (v6Intfs s ++ [key]) s
  else
    if ipType =? AF_INET then set_v4Intfs (remove_key key (v4Intfs s)) s
    else set_v6Intfs (remove_key key (v6Intfs s)) s.

Definition count_intf (ipType d : Z) (s : VrrpServer) : VrrpServer :=
  let g := globalState s in
  if ipType =? AF_INET then
    set_globalState (mkGlobalState (gs_Vrf g) (Status g) (i32 (V4Intfs g + d)) (V6Intfs g) (TotalRxFrames g) (TotalTxFrames g)) s
  else if ipType =? AF_INET6 then
    set_globalState (mkGlobalState (gs_Vrf g) (Status g) (V4Intfs g) (i32 (V6Intfs g + d)) (TotalRxFrames g) (TotalTxFrames g)) s
  else s.

Definition addConfiguredIntfCount (ipType : Z) (s : VrrpServer) : VrrpServer := count_intf ipType 1 s.
Definition removeConfiguredIntfCount (ipType : Z) (s : VrrpServer) : VrrpServer := count_intf ipType (-1) s.

Definition updateRxCount (s : VrrpServer) : VrrpServer :=
  let g := globalState s in
  set_globalState (mkGlobalState (gs_Vrf g) (Status g) (V4Intfs g) (V6Intfs g) (i32 (TotalRxFrames g + 1)) (TotalTxFrames g)) s.

Definition updateTxCount (s : VrrpServer) : VrrpServer :=
  let g := globalState s in
  set_globalState (mkGlobalState (gs_Vrf g) (Status g) (V4Intfs g) (V6Intfs g) (TotalRxFrames g) (i32 (TotalTxFrames g + 1))) s.

Definition updateGlobalStatus (s : VrrpServer) : VrrpServer :=
  let g := globalState s in
  set_globalState (mkGlobalState (gbl_Vrf (Gbl s)) (gbl_Enable (Gbl s)) (V4Intfs g) (V6Intfs g) (TotalRxFrames g) (TotalTxFrames g)) s.

(** ** Configuration *)

(** The IP interface a configuration refers to, with its index. *)
Definition find_ip (cfg : IntfCfg) (s : VrrpServer) : option (Z * IPIntf) :=
  if cfg_IpType cfg =? AF_INET then
    i ← V4IntfRefToIfIndex s !! IntfRef cfg; v ← V4 s !! i; Some (i, IntfV4 v)
  else if cfg_IpType cfg =? AF_INET6 then
    i ← V6IntfRefToIfIndex s !! IntfRef cfg; v ← V6 s !! i; Some (i, IntfV6 v)
  else None.

Definition put_ip (ifIndex : Z) (ip : IPIntf) (s : VrrpServer) : VrrpServer :=
  match ip with
  | IntfV4 v => set_V4 (<[ifIndex := v]> (V4 s)) s
  | IntfV6 v => set_V6 (<[ifIndex := v]> (V6 s)) s
  end.

Definition HandlerVrrpIntfCreateConfig (cfg : IntfCfg) (s : VrrpServer) : res VrrpServer :=
  let key := constructIntfKey (IntfRef cfg) (VRID cfg) (cfg_IpType cfg) in
  match Intfs s !! key with
  | Some _ => Ok s
  | None =>
    match find_ip cfg s with
    | None => Ok s
    | Some (ifIndex, ipIntf) =>
      let l3Info := GetObjFromDb ipIntf (mkBaseIpInfo ifIndex (IntfRef cfg) "" "" "" (cfg_IpType cfg)) in
      let intf := InitVrrpIntf cfg l3Info in
      '(intf, s) ←
        (if bool_decide (OperState l3Info = STATE_UP) && gbl_Enable (Gbl s) && AdminState cfg then
           '(intf, s) ← StartFsm_intf intf s; Ok (intf, CreateVirtualIntf cfg (GetVMac intf) s)
         else Ok (intf, s));
      let s := put_intf key intf s in
      let s := put_ip ifIndex (SetVrrpIntfKey (Some key) ipIntf) s in
      Ok (updateIntfList key (cfg_IpType cfg) true s)
    end
  end.

Definition HandleVrrpIntfUpdateConfig (cfg : IntfCfg) (s : VrrpServer) : res VrrpServer :=
  let key := constructIntfKey (IntfRef cfg) (VRID cfg) (cfg_IpType cfg) in
  match Intfs s !! key with
  | None => Ok s
  | Some intf =>
    '(intf, s, oper) ← UpdateConfig_intf cfg intf s;
    let s := if (oper : Z) =? CREATE then CreateVirtualIntf cfg (GetVMac intf) s
             else if oper =? DELETE then DeleteVirtualIntf cfg (GetVMac intf) s else s in
    Ok (put_intf key intf s)
  end.

Definition HandleVrrpIntfDeleteConfig (cfg : IntfCfg) (s : VrrpServer) : res VrrpServer :=
  let key := constructIntfKey (IntfRef cfg) (VRID cfg) (cfg_IpType cfg) in
  match Intfs s !! key with
  | None => Ok s
  | Some intf =>
    let mac := GetVMac intf in
    s ← DeInitVrrpIntf intf s;
    let s := if gbl_Enable (Gbl s) then DeleteVirtualIntf cfg mac s else s in
    Ok (updateIntfList key (cfg_IpType cfg) false (set_Intfs (delete key (Intfs s)) s))
  end.

Definition HandleVrrpIntfConfig (cfg : IntfCfg) (s : VrrpServer) : res VrrpServer :=
  if Operation cfg =? CREATE then
    s ← HandlerVrrpIntfCreateConfig cfg s; Ok (addConfiguredIntfCount (cfg_IpType cfg) s)
  else if Operation cfg =? UPDATE then HandleVrrpIntfUpdateConfig cfg s
  else if Operation cfg =? DELETE then
    s ← HandleVrrpIntfDeleteConfig cfg s; Ok (removeConfiguredIntfCount (cfg_IpType cfg) s)
  else Ok s.

(** Both branches enable the address of IPv6. *)
Definition HandleProtocolMacEntry (add : bool) (s : VrrpServer) : VrrpServer :=
  if add then call (EnablePacketReception VRRP_V6_PROTOCOL_MAC) (call (EnablePacketReception VRRP_PROTOCOL_MAC) s)
  else call (EnablePacketReception VRRP_V6_PROTOCOL_MAC) (call (DisablePacketReception VRRP_PROTOCOL_MAC) s).

Definition enable_intf (enable : bool) (key : KeyInfo) (s : VrrpServer) : res VrrpServer :=
  match Intfs s !! key with
  | None => Ok s
  | Some intf =>
    '(intf, s) ←
      (if enable then
         '(intf, s) ← UpdateIpState intf s; Ok (intf, CreateVirtualIntf (intf_Config intf) (GetVMac intf) s)
       else
         '(intf, s) ← StopFsm intf s; Ok (intf, DeleteVirtualIntf (intf_Config intf) (GetVMac intf) s));
    Ok (put_intf key intf s)
  end.

Fixpoint enable_all (enable : bool) (keys : list KeyInfo) (s : VrrpServer) : res VrrpServer :=
  match keys with
  | [] => Ok s
  | key :: keys => s ← enable_intf enable key s; enable_all enable keys s
  end.

Definition HandleVrrpEnableDisable (enable : bool) (s : VrrpServer) : res VrrpServer :=
  enable_all enable (visit (map_to_list (Intfs s)).*1) s.

Definition HandleGlobalConfig (gCfg : GlobalConfig) (s : VrrpServer) : res VrrpServer :=
  let enable := gbl_Enable gCfg in
  let with_Vrf := set_Gbl (mkGlobalConfig (gbl_Vrf gCfg) enable (gbl_Operation (Gbl s))) s in
  let s := set_Gbl (mkGlobalConfig (gbl_Vrf (Gbl s)) enable (gbl_Operation (Gbl s))) s in
  s ← (if gbl_Operation gCfg =? CREATE then Ok with_Vrf
       else if gbl_Operation gCfg =? UPDATE then HandleVrrpEnableDisable enable (HandleProtocolMacEntry enable s)
       else if gbl_Operation gCfg =? DB_UPDATE then
         Ok (if enable then HandleProtocolMacEntry true with_Vrf else with_Vrf)
       else Ok s);
  Ok (updateGlobalStatus s).

(** ** IP interfaces that come, change and go *)

Definition lookup_ip (msg : BaseIpInfo) (s : VrrpServer) : option IPIntf :=
  if l3_IpType msg =? AF_INET then IntfV4 <$> V4 s !! l3_IfIndex msg
  else if l3_IpType msg =? AF_INET6 then IntfV6 <$> V6 s !! l3_IfIndex msg
  else None.

Definition HandleIpStateChange (msg : BaseIpInfo) (s : VrrpServer) : res VrrpServer :=
  match lookup_ip msg s with
  | None => Ok s
  | Some ipIntf =>
    let ipIntf := IPIntf_Update msg ipIntf in
    let s := put_ip (l3_IfIndex msg) ipIntf s in
    if negb (gbl_Enable (Gbl s)) then Ok s
    else
      match GetVrrpIntfKey ipIntf with
      | None => Ok s
      | Some key =>
        match Intfs s !! key with
        | None => Ok s
        | Some intf =>
          '(intf, s) ← UpdateIpState (UpdateOperState (OperState msg) intf) s;
          Ok (put_intf key intf s)
        end
      end
  end.

Definition ip_created (msg : BaseIpInfo) (s : VrrpServer) : VrrpServer :=
  let i := l3_IfIndex msg in
  if l3_IpType msg =? AF_INET then
    match V4 s !! i with
    | Some _ => s
    | None => set_V4IntfRefToIfIndex (<[l3_IntfRef msg := i]> (V4IntfRefToIfIndex s)) (set_V4 (<[i := V4Intf_Init msg]> (V4 s)) s)
    end
  else if l3_IpType msg =? AF_INET6 then
    match V6 s !! i with
    | Some v6 => set_V6 (<[i := updateIp (l3_IpAddr msg) v6]> (V6 s)) s
    | None => set_V6 (<[i := V6Intf_Init msg]> (V6 s)) (set_V6IntfRefToIfIndex (<[l3_IntfRef msg := i]> (V6IntfRefToIfIndex s)) s)
    end
  else s.

Definition ip_deleted (msg : BaseIpInfo) (s : VrrpServer) : VrrpServer :=
  let i := l3_IfIndex msg in
  if l3_IpType msg =? AF_INET then
    match V4 s !! i with Some _ => set_V4 (delete i (V4 s)) s | None => s end
  else if l3_IpType msg =? AF_INET6 then
    match V6 s !! i with
    | Some v6 =>
      let v6 := if negb (IsIpv6LinkLocal (l3_IpAddr msg)) then mkV6Intf (v6_Info v6) "" None
                else mkV6Intf (info_with (OperState (v6_Info v6)) "" (v6_Info v6)) (GlobalScopeIp v6) None in
      if bool_decide (GlobalScopeIp v6 = ""%string) && bool_decide (l3_IpAddr (v6_Info v6) = ""%string)
      then set_V6 (delete i (V6 s)) s else set_V6 (<[i := v6]> (V6 s)) s
    | None => s
    end
  else s.

Definition HandleIpNotification (msg : BaseIpInfo) (s : VrrpServer) : res VrrpServer :=
  if bool_decide (MsgType msg = IP_MSG_CREATE) then Ok (ip_created msg s)
  else if bool_decide (MsgType msg = IP_MSG_DELETE) then Ok (ip_deleted msg s)
  else if bool_decide (MsgType msg = IP_MSG_STATE_CHANGE) then HandleIpStateChange msg s
  else Ok s.

(** ** State for the management interface *)

Definition populateState (key : KeyInfo) (s : VrrpServer) : res (option StateReport) :=
  match Intfs s !! key with
  | None => Ok None
  | Some intf => st ← GetStateInfo (Fsm intf); Ok (Some st)
  end.

(** A state that is nil is dereferenced. *)
Fixpoint states (keys : list KeyInfo) (s : VrrpServer) : res (list StateReport) :=
  match keys with
  | [] => Ok []
  | key :: keys =>
    rv ← populateState key s; st ← of_option rv; rest ← states keys s; Ok (st :: rest)
  end.

(** The index of the next page is always 0. *)
Definition get_page (keys : list KeyInfo) (idx cnt : Z) (s : VrrpServer) : res (Z * Z * list StateReport) :=
  if len keys =? 0 then Ok (0, 0, [])
  else if (0 <? cnt) && (idx <? 0) then Panic
  else
    result ← states (take (Z.to_nat cnt) (drop (Z.to_nat idx) keys)) s;
    Ok (0, len result, result).

Definition GetV4Intfs (idx cnt : Z) (s : VrrpServer) : res (Z * Z * list StateReport) := get_page (v4Intfs s) idx cnt s.
Definition GetV6Intfs (idx cnt : Z) (s : VrrpServer) : res (Z * Z * list StateReport) := get_page (v6Intfs s) idx cnt s.

Definition GetGlobalState (vrf : string) (s : VrrpServer) : GlobalState :=
  if bool_decide (gs_Vrf (globalState s) = vrf) then globalState s else mkGlobalState "" false 0 0 0 0.

(** ** The configuration at the start *)

(** The fields of objects.VrrpV4Intf and objects.VrrpV6Intf that are read. *)
Record IntfObj := mkIntfObj {
  obj_IntfRef : string;
  obj_VRID : Z;
  obj_Priority : Z;
  obj_Address : string;
  obj_AdvertisementInterval : Z;
  obj_PreemptMode : bool;
  obj_AcceptMode : bool;
  obj_AdminState : string;
  obj_Version : string;
}.

Definition with_mask (mask address : string) : string := if no_slash address then address +:+ "/" +:+ mask else address.

Definition v4Cfg_of (o : IntfObj) : IntfCfg :=
  mkIntfCfg (obj_IntfRef o) 0 (obj_VRID o) (obj_Priority o) (with_mask "32" (obj_Address o)) (obj_AdvertisementInterval o)
    (obj_PreemptMode o) (obj_AcceptMode o) (bool_decide (obj_AdminState o = STATE_UP))
    (if bool_decide (obj_Version o = "version2"%string) then VERSION2
     else if bool_decide (obj_Version o = "version3"%string) then VERSION3 else 0) CREATE AF_INET.

Definition v6Cfg_of (o : IntfObj) : IntfCfg :=
  mkIntfCfg (obj_IntfRef o) 0 (obj_VRID o) (obj_Priority o) (with_mask "64" (obj_Address o)) (obj_AdvertisementInterval o)
    (obj_PreemptMode o) (obj_AcceptMode o) (bool_decide (obj_AdminState o = STATE_UP)) VERSION3 CREATE AF_INET6.

Fixpoint each {A} (f : A -> VrrpServer -> res VrrpServer) (l : list A) (s : VrrpServer) : res VrrpServer :=
  match l with
  | [] => Ok s
  | x :: l => s ← f x s; each f l s
  end.

Definition readVrrpGblCfg (objs : list (string * bool)) : VrrpServer -> res VrrpServer :=
  each (fun '(vrf, enable) => HandleGlobalConfig (mkGlobalConfig vrf enable DB_UPDATE)) objs.
Definition readVrrpV4IntfCfg (objs : list IntfObj) : VrrpServer -> res VrrpServer := each (fun o => HandleVrrpIntfConfig (v4Cfg_of o)) objs.
Definition readVrrpV6IntfCfg (objs : list IntfObj) : VrrpServer -> res VrrpServer := each (fun o => HandleVrrpIntfConfig (v6Cfg_of o)) objs.

Definition ReadDB (gbl : list (string * bool)) (v4 v6 : list IntfObj) (s : VrrpServer) : res VrrpServer :=
  s ← readVrrpGblCfg gbl s; s ← readVrrpV4IntfCfg v4 s; readVrrpV6IntfCfg v6 s.

(** The IP interfaces the switch has, without loopbacks; of IPv6 the link-local ones. *)
Section Start.
Variable IsLoopbackType : Z -> bool.

Definition no_type (obj : BaseIpInfo) : BaseIpInfo :=
  mkBaseIpInfo (l3_IfIndex obj) (l3_IntfRef obj) (l3_IpAddr obj) (OperState obj) "" 0.

Fixpoint getIPv4Intfs (ipv4Info : list BaseIpInfo) (s : VrrpServer) : VrrpServer :=
  match ipv4Info with
  | [] => s
  | obj :: ipv4Info =>
    let s := if IsLoopbackType (l3_IfIndex obj) then s
             else set_V4IntfRefToIfIndex (<[l3_IntfRef obj := l3_IfIndex obj]> (V4IntfRefToIfIndex s))
                    (set_V4 (<[l3_IfIndex obj := V4Intf_Init (no_type obj)]> (V4 s)) s) in
    getIPv4Intfs ipv4Info s
  end.

Fixpoint getIPv6Intfs (ipv6Info : list BaseIpInfo) (s : VrrpServer) : VrrpServer :=
  match ipv6Info with
  | [] => s
  | obj :: ipv6Info =>
    let s := if negb (IsLoopbackType (l3_IfIndex obj)) && IsIpv6LinkLocal (l3_IpAddr obj)
             then set_V6IntfRefToIfIndex (<[l3_IntfRef obj := l3_IfIndex obj]> (V6IntfRefToIfIndex s))
                    (set_V6 (<[l3_IfIndex obj := V6Intf_Init (no_type obj)]> (V6 s)) s)
             else s in
    getIPv6Intfs ipv6Info s
  end.

(** The switch or the database may answer with an error, which is an empty list. *)
Definition VrrpStartServer (ipv4Info ipv6Info : list BaseIpInfo) (gbl : list (string * bool)) (v4 v6 : list IntfObj) : res VrrpServer :=
  ReadDB gbl v4 v6 (getIPv6Intfs ipv6Info (getIPv4Intfs ipv4Info InitGlobalDS)).
End Start.

(** ** Steps *)

(** [RecvPending i]: the listener takes the [i]th message that waits. *)
Inductive SvInput :=
| RecvGblCfg (gCfg : GlobalConfig)
| RecvCfg (cfg : IntfCfg)
| RecvL3Notify (msg : BaseIpInfo)
| RecvPending (i : nat)
| MachineRuns (key : KeyInfo) (i : Input).

Definition receive (o : Out Frame) (s : VrrpServer) : VrrpServer :=
  match o with
  | vipCh info => UpdateVirtualIntf info s
  | rxCh => updateRxCount s
  | txCh => updateTxCount s
  | _ => s
  end.

(** What happens to a machine without the server: its goroutine takes a packet, or a timer
    expires and its callback runs. *)
Definition own_input (i : Input) : bool :=
  match i with
  | Received _ | AdverExpires | AdverCallback | DownExpires | DownCallback => true
  | _ => false
  end.

Definition by_goroutine (i : Input) : bool := match i with Received _ => true | _ => false end.

Definition sv_step (i : SvInput) (s : VrrpServer) : res VrrpServer :=
  match i with
  | RecvGblCfg gCfg => HandleGlobalConfig gCfg s
  | RecvCfg cfg => HandleVrrpIntfConfig cfg s
  | RecvL3Notify msg => HandleIpNotification msg s
  | RecvPending i =>
    match pending s !! i with
    | Some (_, o) => Ok (receive o (set_pending (delete i (pending s)) s))
    | None => Ok s
    end
  | MachineRuns key i =>
    match Intfs s !! key with
    | Some intf =>
      if own_input i && enabled i (Fsm intf) && negb (by_goroutine i && waits intf s) then
        '(intf, s) ← on_machine (if by_goroutine i then Some (intf_key intf) else None) (fsm_step SerializeLayers env i) intf s;
        Ok (put_intf key intf s)
      else Ok s
    | None => Ok s
    end
  end.

Fixpoint sv_run (inputs : list SvInput) (s : VrrpServer) : res VrrpServer :=
  match inputs with
  | [] => Ok s
  | i :: inputs => s ← sv_step i s; sv_run inputs s
  end.
End Server.

Arguments VrrpServer : clear implicits.
Arguments VrrpInterface : clear implicits.
