(* ===== verification/VrrpServerSpec.v ===== *)
(** * VRRP: the invariant of the server

    What a step of a machine leaves as it was, which steps cannot panic, and that every
    operation of the server keeps its tables consistent. *)

From stdpp Require Import pretty.
From S2P Require Import Prelude.
From S2P Require Import NetIP.
From S2P Require Import NetParse.
From S2P Require Import VrrpPacket.
From S2P Require Import VrrpPacketSpec.
From S2P Require Import VrrpFsm.
From S2P Require Import VrrpServer.

(** ** What the steps of a machine keep *)

Section Kept.
Context {Frame : Type} (SerializeLayers : Ethernet -> IPLayer -> bytes -> Frame).
Variable env : PcapEnv (Frame := Frame).

Record kept (f f' : FSM Frame) : Prop := mkKept {
  k_config : Config f' = Config f;
  k_info : is_Some (stateInfo f) -> is_Some (stateInfo f');
  k_running : running f' = running f;
  k_looping : looping f' = looping f;
}.

Ltac keep_done :=
  repeat match goal with H : kept _ _ |- _ => destruct H end;
  split; cbn [Config stateInfo running looping set_Config set_pHandle set_State set_previousState set_MasterAdverInterval
    set_SkewTime set_MasterDownValue set_AdverTimer set_MasterDownTimer set_stateInfo set_adver_pending set_down_pending
    set_out emit handleMasterDownTimer stopMasterAdverTimer stopMasterDownTimer] in *; solve [congruence | tauto].

#[export] Instance kept_refl : Reflexive kept.
Proof. by split. Qed.

Lemma on_stateInfo_keeps g f f' : on_stateInfo g f = Ok f' -> kept f f'.
Proof. unfold on_stateInfo. intros H. res_inv H. subst. by split. Qed.

Lemma updateRx_keeps info f f' : updateRxStInfo info f = Ok f' -> kept f f'.
Proof. unfold updateRxStInfo. intros H. res_inv H. apply on_stateInfo_keeps in E. subst. keep_done. Qed.

Lemma updateTx_keeps f f' : updateTxStInfo f = Ok f' -> kept f f'.
Proof. unfold updateTxStInfo. intros H. res_inv H. apply on_stateInfo_keeps in E. subst. keep_done. Qed.

Lemma initPktListener_keeps f f' : initPktListener env f = Ok f' -> kept f f'.
Proof.
  unfold initPktListener. intros H. res_inv H. destruct (pHandle f); [res_inv H; subst; done|].
  destruct (_ && _); res_inv H; subst; keep_done.
Qed.

Lemma deInitPktListener_keeps f f' : deInitPktListener f = Ok f' -> kept f f'.
Proof. unfold deInitPktListener. intros H. destruct (pHandle f); res_inv H; subst; keep_done. Qed.

Lemma send_keeps p f f' : send SerializeLayers p f = Ok f' -> kept f f'.
Proof. unfold send. intros H. res_inv H. subst. destruct (pHandle f); keep_done. Qed.

Lemma send_down_keeps f f' : send_master_down SerializeLayers f = Ok f' -> kept f f'.
Proof. unfold send_master_down. intros H. res_inv H. by apply send_keeps in H. Qed.

Lemma updateVirtualIP_keeps b f f' : updateVirtualIP b f = Ok f' -> kept f f'.
Proof. unfold updateVirtualIP. intros H. res_inv H. subst. keep_done. Qed.

Lemma calculateDownValue_keeps i f f' : calculateDownValue i f = Ok f' -> kept f f'.
Proof.
  unfold calculateDownValue. intros H. res_inv H. subst.
  match goal with |- context [if ?b then _ else _] => destruct b end;
    match goal with |- context [if ?b then _ else _] => destruct b end; keep_done.
Qed.

Lemma startAdver_keeps f f' : startMasterAdverTimer f = Ok f' -> kept f f'.
Proof. unfold startMasterAdverTimer. intros H. res_inv H. subst. keep_done. Qed.

Lemma vip_note_keeps (b c : bool) f f' : (if c then updateVirtualIP b f else Ok f) = Ok f' -> kept f f'.
Proof. destruct c; [apply updateVirtualIP_keeps|by intros [= ->]]. Qed.

Lemma transitionToMaster_keeps f f' : transitionToMaster SerializeLayers f = Ok f' -> kept f f'.
Proof.
  unfold transitionToMaster. intros H. res_inv H.
  apply send_keeps in E0. apply vip_note_keeps in E1. apply updateTx_keeps in E2. apply startAdver_keeps in H. keep_done.
Qed.

Lemma transitionToBackup_keeps i f f' : transitionToBackup i f = Ok f' -> kept f f'.
Proof.
  unfold transitionToBackup. intros H. res_inv H.
  apply vip_note_keeps in E0. apply calculateDownValue_keeps in E1. apply on_stateInfo_keeps in H. keep_done.
Qed.

Lemma initialize_keeps f f' : initialize SerializeLayers env f = Ok f' -> kept f f'.
Proof.
  unfold initialize. intros H. res_inv H. apply initPktListener_keeps in E.
  destruct (_ =? _); [apply transitionToMaster_keeps in H|apply transitionToBackup_keeps in H]; keep_done.
Qed.

Lemma backup_keeps info f f' : backup info f = Ok f' -> kept f f'.
Proof.
  unfold backup. intros H. res_inv H. repeat (case_bool_decide; [res_inv H; subst; done|]).
  destruct (_ =? _); [|res_inv H; subst; done]. res_inv H. apply updateRx_keeps in E0. destruct (_ =? 0).
  - res_inv H. subst. keep_done.
  - res_inv H. destruct (_ || _); [apply transitionToBackup_keeps in H|res_inv H; subst]; keep_done.
Qed.

Lemma master_keeps info f f' : master SerializeLayers info f = Ok f' -> kept f f'.
Proof.
  unfold master. intros H. res_inv H. destruct (_ =? VRRP_MASTER_DOWN_PRIORITY).
  - res_inv H. apply send_keeps in E1. apply updateTx_keeps in E2. apply startAdver_keeps in H. keep_done.
  - res_inv H. destruct (_ || _); [|res_inv H; subst; done]. res_inv H. apply transitionToBackup_keeps in E1.
    apply updateRx_keeps in H. keep_done.
Qed.

Lemma processRcvdPkt_keeps pkt f f' : processRcvdPkt SerializeLayers env pkt f = Ok f' -> kept f f'.
Proof.
  unfold processRcvdPkt. intros H. res_inv H. destruct a; [|res_inv H; by subst]. res_inv H. destruct a0; [res_inv H; by subst|].
  unfold handleDecodedPkt in H. destruct (State f);
    [res_inv H; by subst|by apply initialize_keeps in H|by apply backup_keeps in H|by apply master_keeps in H].
Qed.

Lemma stateDown_keeps f f' : stateDownEvent SerializeLayers f = Ok f' -> kept f f'.
Proof.
  unfold stateDownEvent. intros H. res_inv H.
  assert (kept f a0) as K.
  { change (State (stopMasterAdverTimer (stopMasterDownTimer f))) with (State f) in E0.
    destruct (State f); res_inv E0; subst; try keep_done. apply send_down_keeps in E3. apply updateTx_keeps in E0. keep_done. }
  apply deInitPktListener_keeps in E1. apply updateVirtualIP_keeps in E2. apply on_stateInfo_keeps in H. keep_done.
Qed.

(** A step other than the start, the end and a new configuration. *)
Lemma own_step_keeps i f f' : own_input i = true -> fsm_step SerializeLayers env i f = Ok f' -> kept f f'.
Proof.
  intros Ho. destruct i; try discriminate Ho; cbn [fsm_step]; intros H.
  - by apply processRcvdPkt_keeps in H.
  - res_inv H. subst. keep_done.
  - unfold adver_callback in H. res_inv H. apply send_keeps in E0. apply updateTx_keeps in E1. subst. keep_done.
  - res_inv H. subst. keep_done.
  - unfold down_callback in H. apply transitionToMaster_keeps in H. keep_done.
Qed.

Lemma state_change_keeps s f f' : fsm_step SerializeLayers env (Intf (STATE_CHANGE s)) f = Ok f' -> kept f f'.
Proof.
  cbn [fsm_step handleIntfEvent]. intros H. case_bool_decide; [by apply stateDown_keeps in H|].
  case_bool_decide; [by apply initialize_keeps in H|by res_inv H; subst].
Qed.
End Kept.

(** ** Ending a machine *)

Lemma To4_length ip : To4 ip = [] \/ len (To4 ip) = 4.
Proof.
  unfold To4. destruct (len ip =? 4) eqn:E4; [apply Z.eqb_eq in E4; by right|]. destruct (_ && _) eqn:E; [|by left].
  apply andb_true_iff in E as [E%Z.eqb_eq _]. right. unfold len in *. rewrite length_drop. lia.
Qed.

Lemma wire_ip_len ip : exists k, len (wire_ip ip) = 2 * k /\ 0 <= k.
Proof.
  unfold wire_ip. destruct (To4 ip) eqn:E4; [|exists 2; destruct (To4_length ip) as [H|H]; by rewrite E4 in H].
  unfold To16. assert (exists k, len (if len ip =? 16 then ip else []) = 2 * k /\ 0 <= k) as Hd.
  { destruct (len ip =? 16) eqn:E; [apply Z.eqb_eq in E; by exists 8|by exists 0]. }
  destruct ip as [|? [|? [|? [|? [|? ?]]]]]; exact Hd || by exists 8.
Qed.

Section Ending.
Context {Frame : Type} (SerializeLayers : Ethernet -> IPLayer -> bytes -> Frame).
Variable env : PcapEnv (Frame := Frame).

(** An IPv4 machine can send whatever its configuration is. *)
Lemma Encode_v4 p : IpType p = AF_INET -> exists fr, Encode SerializeLayers p = Ok (Some fr).
Proof.
  intros Ht. unfold Encode, CreateHeader. rewrite (EncodeHeader_ok (advertisement p)) by done. res_simpl. rewrite Ht.
  cbn [AF_INET Z.eqb Pos.eqb].
  assert (len (header_octets (advertisement p) ++ zeros (padding (advertisement p))) mod 2 = 0) as He.
  { destruct (wire_ip_len (parse_address (Vip p))) as (k & Hk & Hk0).
    rewrite len_app, (len_octets (advertisement p) (2 * k)); [|done|by repeat constructor]. cbn [CountIPAddr advertisement].
    unfold padding. rewrite (len_octets (advertisement p) (2 * k)) by (done || by repeat constructor).
    cbn [CountIPAddr advertisement]. unfold VRRP_HEADER_MIN_SIZE.
    destruct (_ && _) eqn:E; [apply andb_true_iff in E as [_ E%Z.ltb_lt]|]; rewrite len_zeros by lia; zlia. }
  destruct (sum_words_even _ 0 He) as [s Es]. unfold computeChecksum. rewrite Es. res_simpl.
  rewrite put_header_checksum. res_simpl. by eexists.
Qed.

(** A machine of IPv4 can be told to end in every state; it has then no timer. *)
Lemma tear_down_v4 c (f : FSM Frame) : Config f = Some c -> cfg_IpType c = AF_INET -> is_Some (stateInfo f) ->
  exists f', fsm_step SerializeLayers env (Intf TEAR_DOWN) f = Ok f' /\ Config f' = Some c /\ is_Some (stateInfo f') /\
    running f' = false /\ looping f' = false /\ State f' = VRRP_INITIALIZE_STATE /\ AdverTimer f' = None /\
    MasterDownTimer f' = None /\ VirtualMACAddress f' = VirtualMACAddress f.
Proof.
  intros Hc Ht Hi. cbn [fsm_step handleIntfEvent]. unfold config. rewrite Hc. res_simpl.
  unfold stateDownEvent, config. rewrite Hc. res_simpl. set (g := stopMasterAdverTimer (stopMasterDownTimer f)).
  assert (exists g', (match State g with
    | VRRP_MASTER_STATE => f ← send_master_down SerializeLayers g; updateTxStInfo f | _ => Ok g end) = Ok g' /\
    Config g' = Some c /\ is_Some (stateInfo g') /\ AdverTimer g' = None /\ MasterDownTimer g' = None /\
    VirtualMACAddress g' = VirtualMACAddress f) as (g' & -> & H1 & H2 & H3 & H4 & H5).
  { destruct (State g); try (by exists g). unfold send_master_down, getPacketInfo, config. cbn [Config g set_AdverTimer set_MasterDownTimer
      stopMasterAdverTimer stopMasterDownTimer]. rewrite Hc. res_simpl. unfold send.
    match goal with |- context [Encode _ ?p] => destruct (Encode_v4 p Ht) as [fr ->] end. res_simpl.
    destruct Hi as [st Hst]. unfold updateTxStInfo, on_stateInfo. destruct (pHandle _); cbn [stateInfo emit set_out g set_AdverTimer
      set_MasterDownTimer stopMasterAdverTimer stopMasterDownTimer]; rewrite Hst; res_simpl; (eexists; split; [done|]; by split_and!). }
  res_simpl. unfold deInitPktListener, config. cbn [pHandle Config set_State set_previousState]. rewrite H1. res_simpl.
  destruct H2 as [st Hst]. unfold updateVirtualIP, updateCurrentState, on_stateInfo, config.
  destruct (pHandle g'); res_simpl; cbn [Config stateInfo emit set_out set_pHandle set_State set_previousState]; rewrite H1; res_simpl;
    cbn [Config stateInfo emit set_out set_pHandle set_State set_previousState]; rewrite Hst; res_simpl; (eexists; split; [done|]; by split_and!).
Qed.
End Ending.

(** ** The tables of the server *)

Section Tables.
Context {Frame : Type} (SerializeLayers : Ethernet -> IPLayer -> bytes -> Frame).
Variable env : PcapEnv (Frame := Frame).
Variable IsIpv6LinkLocal : string -> bool.
Variable visit : list KeyInfo -> list KeyInfo.

(** A virtual router whose machine has its configuration, and runs only while it is
    administratively up, with its goroutine there to take events. *)
Record machine_wf (intf : VrrpInterface Frame) : Prop := mkMachineWf {
  mw_config : Config (Fsm intf) = Some (intf_Config intf);
  mw_info : is_Some (stateInfo (Fsm intf));
  mw_running : running (Fsm intf) = looping (Fsm intf);
  mw_admin : running (Fsm intf) = true -> AdminState (intf_Config intf) = true;
}.

Definition key_of (c : IntfCfg) : KeyInfo := constructIntfKey (IntfRef c) (VRID c) (cfg_IpType c).

Definition listed (l : list KeyInfo) (ipType : Z) (s : VrrpServer Frame) : Prop :=
  NoDup l /\ forall key, key ∈ l <-> is_Some (Intfs s !! key) /\ key.2 = ipType.

Record server_ok (s : VrrpServer Frame) : Prop := mkServerOk {
  so_intfs : map_Forall (fun key intf => key = key_of (intf_Config intf) /\ (key.2 = AF_INET \/ key.2 = AF_INET6) /\
               machine_wf intf) (Intfs s);
  so_v4 : listed (v4Intfs s) AF_INET s;
  so_v6 : listed (v6Intfs s) AF_INET6 s;
}.

Definition same_tables (s s' : VrrpServer Frame) : Prop :=
  Intfs s' = Intfs s /\ v4Intfs s' = v4Intfs s /\ v6Intfs s' = v6Intfs s.

#[export] Instance same_tables_refl : Reflexive same_tables.
Proof. intros s. by repeat split. Qed.
#[export] Instance same_tables_trans : Transitive same_tables.
Proof. intros s1 s2 s3 (?&?&?) (?&?&?). repeat split; congruence. Qed.

Lemma server_ok_tables s s' : server_ok s -> same_tables s s' -> server_ok s'.
Proof. intros [H1 H2 H3] (E1 & E2 & E3). split; unfold listed in *; by rewrite ?E1, ?E2, ?E3. Qed.

Lemma InitGlobalDS_ok : server_ok InitGlobalDS.
Proof.
  split; [apply map_Forall_empty| |]; (split; [constructor|]); intros key; cbn; rewrite lookup_empty;
    (split; [by intros ?%not_elem_of_nil|by intros [[? [=]] _]]).
Qed.

Lemma put_ok s key intf intf' : server_ok s -> Intfs s !! key = Some intf -> key = key_of (intf_Config intf') -> machine_wf intf' ->
  server_ok (put_intf key intf' s).
Proof.
  intros [H1 H2 H3] Hk Hkey Hw. split; cbn [put_intf set_Intfs Intfs v4Intfs v6Intfs].
  - apply map_Forall_insert_2; [|done]. split; [done|]. split; [|done]. by destruct (H1 _ _ Hk) as (_ & ? & _).
  - destruct H2 as [Hn Hi]. split; [done|]. intros k. rewrite Hi. cbn. destruct (decide (k = key)) as [->|];
      [rewrite lookup_insert, Hk|by rewrite lookup_insert_ne by done]. case_decide; [|done]. by split; intros [_ ?].
  - destruct H3 as [Hn Hi]. split; [done|]. intros k. rewrite Hi. cbn. destruct (decide (k = key)) as [->|];
      [rewrite lookup_insert, Hk|by rewrite lookup_insert_ne by done]. case_decide; [|done]. by split; intros [_ ?].
Qed.

(** A step of a machine changes nothing else but the messages that wait. *)
Lemma on_machine_ok who step (intf : VrrpInterface Frame) s intf' s' : on_machine who step intf s = Ok (intf', s') ->
  step (Fsm intf) = Ok (Fsm intf') /\ L3 intf' = L3 intf /\ intf_Config intf' = intf_Config intf /\
  s' = set_pending (pending s') s.
Proof.
  unfold on_machine, machine_step. destruct (step (Fsm intf)) as [f| | |] eqn:E; try done. res_simpl. by intros [= <- <-].
Qed.

Lemma pending_tables s s' : s' = set_pending (pending s') s -> same_tables s s'.
Proof. intros ->. by repeat split. Qed.

Lemma machine_wf_kept intf intf' : machine_wf intf -> kept (Fsm intf) (Fsm intf') -> intf_Config intf' = intf_Config intf ->
  machine_wf intf'.
Proof. intros [H1 H2 H3 H4] [K1 K2 K3 K4] E. split; rewrite ?K1, ?K3, ?K4, ?E; auto. Qed.

Lemma start_intf_ok intf s intf' s' : is_Some (stateInfo (Fsm intf)) -> StartFsm_intf SerializeLayers env intf s = Ok (intf', s') ->
  running (Fsm intf') = true /\ looping (Fsm intf') = true /\ Config (Fsm intf') = Config (Fsm intf) /\
  is_Some (stateInfo (Fsm intf')) /\ intf_Config intf' = intf_Config intf /\ same_tables s s'.
Proof.
  intros Hi H. unfold StartFsm_intf in H. apply on_machine_ok in H as (H & E1 & E2 & E3). cbn [fsm_step] in H.
  apply initialize_keeps in H. destruct H as [K1 K2 K3 K4]. split_and!; auto. by apply pending_tables.
Qed.

Lemma stop_intf_ok intf s intf' s' : is_Some (stateInfo (Fsm intf)) ->
  StopFsm SerializeLayers env intf s = Ok (intf', s') ->
  running (Fsm intf') = false /\ looping (Fsm intf') = false /\ Config (Fsm intf') = Config (Fsm intf) /\
  is_Some (stateInfo (Fsm intf')) /\ intf_Config intf' = intf_Config intf /\ same_tables s s'.
Proof.
  unfold StopFsm, send_event. intros Hi H. destruct (takes _ _); [|done]. apply on_machine_ok in H as (H & E1 & E2 & E3).
  cbn [fsm_step handleIntfEvent] in H. res_inv H. res_inv E. apply stateDown_keeps in E. destruct E as [K1 K2 K3 K4]. rewrite <- H.
  cbn [running looping Config stateInfo set_looping set_running]. split_and!; auto. by apply pending_tables.
Qed.

Lemma UpdateIpState_ok intf s intf' s' : machine_wf intf -> UpdateIpState SerializeLayers env intf s = Ok (intf', s') ->
  machine_wf intf' /\ intf_Config intf' = intf_Config intf /\ same_tables s s'.
Proof.
  intros W H. unfold UpdateIpState in H. destruct (AdminState _) eqn:Ea; [|by injection H as <- <-].
  destruct (IsRunning _ _) eqn:Er.
  2:{ apply start_intf_ok in H as (H1 & H2 & H3 & H4 & H5 & H6); [|apply W]. split; [|done].
      split; rewrite ?H1, ?H2, ?H3, ?H5; auto. apply W. }
  unfold send_event in H. destruct (takes _ _); [|done]. apply on_machine_ok in H as (H & E1 & E2 & E3).
  apply state_change_keeps in H. split; [by eapply machine_wf_kept|]. split; [done|by apply pending_tables].
Qed.

Lemma UpdateConfig_ok cfg intf s intf' s' oper : machine_wf intf ->
  UpdateConfig_intf SerializeLayers env cfg intf s = Ok (intf', s', oper) ->
  machine_wf intf' /\ intf_Config intf' = cfg /\ same_tables s s'.
Proof.
  intros [W1 W2 W3 W4] H. unfold UpdateConfig_intf in H.
  set (g := mkVrrpInterface (L3 intf) (intf_Config intf) (UpdateConfig cfg (Fsm intf))) in *.
  cbn [intf_Config g] in H. destruct (eqb (AdminState (intf_Config intf)) (AdminState cfg)) eqn:Ee; cbn [negb] in H.
  { injection H as <- <- <-. apply eqb_prop in Ee. split; [|done]. split; cbn [Fsm g intf_Config]; try done.
    intros Hr. rewrite <- Ee. by apply W4. }
  destruct (AdminState cfg) eqn:Ea; cbn [negb] in H.
  - destruct (StartFsm_intf _ _ _ _) as [[i2 s2]| | |] eqn:E; try done. injection H as <- <- <-.
    apply start_intf_ok in E as (H1 & H2 & H3 & H4 & H5 & H6); [|done]. split; [|done].
    split; cbn [Fsm intf_Config]; rewrite ?H1, ?H2, ?H3; auto.
  - destruct (StopFsm _ _ _ _) as [[i2 s2]| | |] eqn:E; try done. injection H as <- <- <-.
    apply stop_intf_ok in E as (H1 & H2 & H3 & H4 & H5 & H6); [|done]. split; [|done].
    split; cbn [Fsm intf_Config]; rewrite ?H1, ?H2, ?H3; auto. done.
Qed.

(** ** Every operation keeps the tables *)

Lemma call_tables c (s : VrrpServer Frame) : same_tables s (call c s).
Proof. by repeat split. Qed.

Lemma CreateVirtualIntf_tables c m (s : VrrpServer Frame) : same_tables s (CreateVirtualIntf c m s).
Proof. unfold CreateVirtualIntf. repeat case_match; apply call_tables || done. Qed.

Lemma DeleteVirtualIntf_tables c m (s : VrrpServer Frame) : same_tables s (DeleteVirtualIntf c m s).
Proof. unfold DeleteVirtualIntf. repeat case_match; apply call_tables || done. Qed.

Lemma UpdateVirtualIntf_tables v (s : VrrpServer Frame) : same_tables s (UpdateVirtualIntf v s).
Proof. unfold UpdateVirtualIntf. repeat case_match; repeat (done || (etrans; [|apply call_tables])). Qed.

Lemma put_ip_tables i ip (s : VrrpServer Frame) : same_tables s (put_ip i ip s).
Proof. by destruct ip. Qed.

Lemma count_tables ty d (s : VrrpServer Frame) : same_tables s (count_intf ty d s).
Proof. unfold count_intf. by repeat case_match. Qed.

Lemma mac_tables b (s : VrrpServer Frame) : same_tables s (HandleProtocolMacEntry b s).
Proof. by destruct b. Qed.

Lemma tables_intf (s s' : VrrpServer Frame) key : same_tables s s' -> Intfs s' !! key = Intfs s !! key.
Proof. by intros (-> & _). Qed.

Lemma machine_of s key intf : server_ok s -> Intfs s !! key = Some intf -> machine_wf intf /\ key = key_of (intf_Config intf).
Proof. intros O H. by destruct (so_intfs s O _ _ H) as (? & _ & ?). Qed.

(** An operation on one virtual router that is there. *)
Lemma update_ok s s1 key intf intf' : server_ok s -> Intfs s !! key = Some intf -> same_tables s s1 -> machine_wf intf' ->
  key_of (intf_Config intf') = key -> server_ok (put_intf key intf' s1).
Proof.
  intros O Hk T W E. eapply put_ok; [by eapply server_ok_tables| |done|done]. by rewrite (tables_intf _ _ _ T).
Qed.

Lemma update_config_ok cfg s s' : server_ok s -> HandleVrrpIntfUpdateConfig SerializeLayers env cfg s = Ok s' -> server_ok s'.
Proof.
  intros O H. unfold HandleVrrpIntfUpdateConfig in H. destruct (Intfs s !! _) as [intf|] eqn:Ek; [|by injection H as <-].
  destruct (UpdateConfig_intf _ _ _ _ _) as [[[i1 s1] oper]| | |] eqn:E; try done. injection H as <-.
  apply UpdateConfig_ok in E as (W & Ec & T); [|by eapply machine_of]. eapply update_ok; [done..| |done|by rewrite Ec].
  etrans; [done|]. repeat case_match; [apply CreateVirtualIntf_tables|apply DeleteVirtualIntf_tables|done].
Qed.

Lemma enable_intf_ok b key s s' : server_ok s -> enable_intf SerializeLayers env b key s = Ok s' -> server_ok s'.
Proof.
  intros O H. unfold enable_intf in H. destruct (Intfs s !! _) as [intf|] eqn:Ek; [|by injection H as <-].
  destruct (machine_of _ _ _ O Ek) as [W Hkey]. destruct b.
  - destruct (UpdateIpState _ _ _ _) as [[i1 s1]| | |] eqn:E; try done. injection H as <-.
    apply UpdateIpState_ok in E as (W' & Ec & T); [|done]. eapply update_ok; [done..| |done|by rewrite Ec].
    etrans; [done|]. apply CreateVirtualIntf_tables.
  - destruct (StopFsm _ _ _ _) as [[i1 s1]| | |] eqn:E; try done. injection H as <-.
    apply stop_intf_ok in E as (H1 & H2 & H3 & H4 & H5 & H6); [|apply W]. eapply update_ok; [done..| | |by rewrite H5].
    + etrans; [done|]. apply DeleteVirtualIntf_tables.
    + split; rewrite ?H1, ?H2, ?H3, ?H5; auto; [apply W|done].
Qed.

Lemma enable_all_ok b keys s s' : server_ok s -> enable_all SerializeLayers env b keys s = Ok s' -> server_ok s'.
Proof.
  revert s. induction keys as [|key keys IH]; intros s O H; [by injection H as <-|]. cbn [enable_all] in H. res_inv H.
  by eapply IH; [eapply enable_intf_ok|].
Qed.

Lemma global_config_ok g s s' : server_ok s -> HandleGlobalConfig SerializeLayers env visit g s = Ok s' -> server_ok s'.
Proof.
  intros O H. unfold HandleGlobalConfig in H. res_inv H. subst s'.
  assert (forall s1, server_ok s1 -> server_ok (updateGlobalStatus s1)) as Hst by (intros; by eapply server_ok_tables).
  apply Hst. repeat case_match; try (res_inv E; subst; by eapply server_ok_tables).
  unfold HandleVrrpEnableDisable in E. eapply enable_all_ok; [|exact E]. eapply server_ok_tables; [exact O|].
  by destruct (gbl_Enable g).
Qed.

Lemma state_change_ok msg s s' : server_ok s -> HandleIpStateChange SerializeLayers env msg s = Ok s' -> server_ok s'.
Proof.
  intros O H. unfold HandleIpStateChange in H. destruct (lookup_ip msg s) as [ip|]; [|by injection H as <-].
  pose proof (put_ip_tables (l3_IfIndex msg) (IPIntf_Update msg ip) s) as T0.
  destruct (negb _); [injection H as <-; by eapply server_ok_tables|].
  destruct (GetVrrpIntfKey _) as [key|]; [|injection H as <-; by eapply server_ok_tables].
  rewrite (tables_intf _ _ _ T0) in H. destruct (Intfs s !! key) as [intf|] eqn:Ek; [|injection H as <-; by eapply server_ok_tables].
  destruct (machine_of _ _ _ O Ek) as [W Hkey].
  destruct (UpdateIpState _ _ _ _) as [[i1 s1]| | |] eqn:E; try done. injection H as <-.
  apply UpdateIpState_ok in E as (W' & Ec & T); [|destruct W; by split].
  eapply update_ok; [done..| |done|by rewrite Ec]. by etrans.
Qed.

Lemma ip_notification_ok msg s s' : server_ok s -> HandleIpNotification SerializeLayers env IsIpv6LinkLocal msg s = Ok s' -> server_ok s'.
Proof.
  intros O H. unfold HandleIpNotification in H. repeat case_bool_decide; [| |by eapply state_change_ok|by injection H as <-];
    injection H as <-; (eapply server_ok_tables; [exact O|]); [unfold ip_created|unfold ip_deleted]; by repeat case_match.
Qed.

(** ** New and deleted virtual routers *)

Lemma remove_key_in key l k : NoDup l -> k ∈ remove_key key l <-> k ∈ l /\ k <> key.
Proof.
  induction 1 as [|x l Hx Hn IH]; cbn [remove_key]; [by rewrite elem_of_nil; split; [|intros []]|].
  case_bool_decide as E.
  - subst x. rewrite elem_of_cons. split; [intros H; split; [by right|by intros ->]|by intros [[->|H] Hk]].
  - rewrite !elem_of_cons, IH. split; [intros [->|[H Hk]]; [by split; [left|]|by split; [right|]]|].
    intros [[->|H] Hk]; [by left|by right].
Qed.

Lemma remove_key_NoDup key l : NoDup l -> NoDup (remove_key key l).
Proof.
  induction 1 as [|x l Hx Hn IH]; cbn [remove_key]; [constructor|]. case_bool_decide; [done|]. constructor; [|done].
  rewrite remove_key_in by done. by intros [? _].
Qed.

Lemma listed_insert l ty key intf (s s' : VrrpServer Frame) : listed l ty s -> Intfs s !! key = None ->
  Intfs s' = <[key := intf]> (Intfs s) -> listed (if key.2 =? ty then l ++ [key] else l) ty s'.
Proof.
  intros [Hn Hi] Hk E. split.
  - case_match; [|done]. apply NoDup_app. split; [done|]. split; [|by apply NoDup_singleton].
    intros x Hx ->%list_elem_of_singleton. apply Hi in Hx as [Hx _]. rewrite Hk in Hx. by apply is_Some_None in Hx.
  - intros k. rewrite E, lookup_insert. case_decide as Ek.
    + subst k. case_match eqn:Et; [apply Z.eqb_eq in Et|apply Z.eqb_neq in Et].
      * rewrite elem_of_app, list_elem_of_singleton. split; [by intros _; split; [eexists|]|by intros _; right].
      * rewrite Hi, Hk. split; [by intros [[? [=]] _]|by intros [_ ?]].
    + case_match; [rewrite elem_of_app, list_elem_of_singleton, Hi|by apply Hi].
      split; [by intros [?| ->]|by left].
Qed.

Lemma listed_delete l ty key (s s' : VrrpServer Frame) : listed l ty s -> Intfs s' = delete key (Intfs s) ->
  listed (if key.2 =? ty then remove_key key l else l) ty s'.
Proof.
  intros [Hn Hi] E. split; [case_match; [by apply remove_key_NoDup|done]|]. intros k. rewrite E, lookup_delete.
  case_match eqn:Et; [apply Z.eqb_eq in Et; rewrite remove_key_in by done|apply Z.eqb_neq in Et]; rewrite Hi; case_decide as Ek.
  - subst k. split; [by intros [_ ?]|by intros [[? [=]] _]].
  - split; [by intros [? _]|intros ?; by split; [|intros ->]].
  - subst k. split; [by intros [_ ?]|by intros [[? [=]] _]].
  - done.
Qed.

Lemma find_ip_type cfg (s : VrrpServer Frame) x : find_ip cfg s = Some x -> cfg_IpType cfg = AF_INET \/ cfg_IpType cfg = AF_INET6.
Proof.
  unfold find_ip. destruct (_ =? AF_INET) eqn:E; [apply Z.eqb_eq in E; by left|].
  destruct (_ =? AF_INET6) eqn:E6; [apply Z.eqb_eq in E6; by right|done].
Qed.

Lemma create_request_ok cfg s s' : server_ok s -> HandlerVrrpIntfCreateConfig SerializeLayers env cfg s = Ok s' -> server_ok s'.
Proof.
  intros O H. unfold HandlerVrrpIntfCreateConfig in H. fold (key_of cfg) in H.
  destruct (Intfs s !! key_of cfg) eqn:Ek; [by injection H as <-|].
  destruct (find_ip cfg s) as [[ifIndex ip]|] eqn:Ef; [|by injection H as <-].
  apply find_ip_type in Ef. set (i0 := InitVrrpIntf cfg _) in H.
  match type of H with (?m ≫= _) = _ => destruct m as [[i1 s1]| | |] eqn:E; try done end. injection H as <-.
  assert (machine_wf i1 /\ intf_Config i1 = cfg /\ same_tables s s1) as (W & Ec & E1 & E2 & E3).
  { destruct (_ && AdminState cfg) eqn:Ea; [|by injection E as <- <-].
    destruct (StartFsm_intf _ _ i0 s) as [[i2 s2]| | |] eqn:Es; try done. injection E as <- <-.
    apply start_intf_ok in Es as (H1 & H2 & H3 & H4 & H5 & H6); [|done]. apply andb_true_iff in Ea as [_ Ea].
    split; [|split; [done|etrans; [done|apply CreateVirtualIntf_tables]]]. split; rewrite ?H1, ?H2, ?H3, ?H5; auto. }
  clear E. set (s2 := put_ip _ _ _). assert (Intfs s2 = <[key_of cfg := i1]> (Intfs s)) as I2 by (unfold s2; destruct ip; cbn; by rewrite E1).
  assert (v4Intfs s2 = v4Intfs s) as L4 by (unfold s2; by destruct ip). assert (v6Intfs s2 = v6Intfs s) as L6 by (unfold s2; by destruct ip).
  pose proof (listed_insert _ _ _ i1 s s2 (so_v4 s O) Ek I2) as N4. pose proof (listed_insert _ _ _ i1 s s2 (so_v6 s O) Ek I2) as N6.
  assert (map_Forall (fun key intf => key = key_of (intf_Config intf) /\ (key.2 = AF_INET \/ key.2 = AF_INET6) /\ machine_wf intf)
    (Intfs s2)) as I2' by (rewrite I2; apply map_Forall_insert_2; [by split; [rewrite Ec|]|apply O]).
  cbn [key_of constructIntfKey snd] in N4, N6. unfold updateIntfList.
  destruct (cfg_IpType cfg =? AF_INET) eqn:E4; split; cbn [Intfs v4Intfs v6Intfs set_v4Intfs set_v6Intfs]; rewrite ?L4, ?L6; try done.
  - apply Z.eqb_eq in E4. by rewrite E4 in N6.
  - destruct Ef as [Ef|Ef]; [by rewrite Ef in E4|]. by rewrite Ef in N6.
Qed.

Lemma delete_request_ok cfg s s' : server_ok s -> HandleVrrpIntfDeleteConfig SerializeLayers env cfg s = Ok s' -> server_ok s'.
Proof.
  intros O H. unfold HandleVrrpIntfDeleteConfig in H. fold (key_of cfg) in H.
  destruct (Intfs s !! key_of cfg) as [intf|] eqn:Ek; [|by injection H as <-].
  destruct (DeInitVrrpIntf _ _ _ _) as [s1| | |] eqn:E; try done. injection H as <-.
  assert (same_tables s s1) as T.
  { unfold DeInitVrrpIntf in E. destruct (_ && _); [done|]. destruct (on_machine _ _ _ _) as [[i2 s2]| | |] eqn:Eo; try done.
    injection E as <-. apply on_machine_ok in Eo as (_ & _ & _ & Eo). by apply pending_tables. }
  set (s2 := if gbl_Enable (Gbl s1) then DeleteVirtualIntf cfg (GetVMac intf) s1 else s1).
  assert (same_tables s s2) as (E1 & E2 & E3) by (etrans; [exact T|]; unfold s2; case_match; [apply DeleteVirtualIntf_tables|done]).
  clearbody s2. set (s3 := set_Intfs _ s2). assert (Intfs s3 = delete (key_of cfg) (Intfs s)) as I3 by (cbn; by rewrite E1).
  pose proof (listed_delete _ _ _ s s3 (so_v4 s O) I3) as N4. pose proof (listed_delete _ _ _ s s3 (so_v6 s O) I3) as N6.
  assert (map_Forall (fun key intf => key = key_of (intf_Config intf) /\ (key.2 = AF_INET \/ key.2 = AF_INET6) /\ machine_wf intf)
    (Intfs s3)) as I3' by (rewrite I3; apply map_Forall_delete, O).
  destruct (so_intfs s O _ _ Ek) as (_ & Ht & _). cbn [key_of constructIntfKey snd] in N4, N6, Ht. unfold updateIntfList.
  destruct (cfg_IpType cfg =? AF_INET) eqn:E4; split; cbn [Intfs v4Intfs v6Intfs set_v4Intfs set_v6Intfs]; try done;
    cbn [s3 v4Intfs v6Intfs set_Intfs]; rewrite ?E2, ?E3; try done.
  - apply Z.eqb_eq in E4. by rewrite E4 in N6.
  - destruct Ht as [Ht|Ht]; [by rewrite Ht in E4|]. by rewrite Ht in N6.
Qed.

Lemma intf_config_ok cfg s s' : server_ok s -> HandleVrrpIntfConfig SerializeLayers env cfg s = Ok s' -> server_ok s'.
Proof.
  intros O H. unfold HandleVrrpIntfConfig in H. repeat case_match.
  - res_inv H. subst s'. eapply server_ok_tables; [by eapply create_request_ok|apply count_tables].
  - by eapply update_config_ok.
  - res_inv H. subst s'. eapply server_ok_tables; [by eapply delete_request_ok|apply count_tables].
  - by injection H as <-.
Qed.

Lemma sv_step_ok i s s' : server_ok s -> sv_step SerializeLayers env IsIpv6LinkLocal visit i s = Ok s' -> server_ok s'.
Proof.
  intros O H. destruct i as [g|cfg|msg|n|key i]; cbn [sv_step] in H.
  - by eapply global_config_ok.
  - by eapply intf_config_ok.
  - by eapply ip_notification_ok.
  - destruct (pending s !! n) as [[w o]|]; injection H as <-; [|done]. eapply server_ok_tables; [exact O|].
    destruct o; try done. etrans; [|apply UpdateVirtualIntf_tables]. done.
  - destruct (Intfs s !! key) as [intf|] eqn:Ek; [|by injection H as <-].
    destruct (own_input i && _ && _) eqn:Eo; [|by injection H as <-].
    apply andb_true_iff in Eo as [[Eo _]%andb_true_iff _]. destruct (on_machine _ _ _ _) as [[i1 s1]| | |] eqn:E; try done. injection H as <-.
    apply on_machine_ok in E as (E & E1 & E2 & E3). apply own_step_keeps in E; [|done].
    destruct (machine_of _ _ _ O Ek) as [W Hkey].
    eapply update_ok; [done..|by apply pending_tables|by eapply machine_wf_kept|by rewrite E2].
Qed.

Lemma sv_run_ok inputs s s' : server_ok s -> sv_run SerializeLayers env IsIpv6LinkLocal visit inputs s = Ok s' -> server_ok s'.
Proof.
  revert s. induction inputs as [|i inputs IH]; intros s O H; [by injection H as <-|]. cbn [sv_run] in H. res_inv H.
  by eapply IH; [eapply sv_step_ok|].
Qed.

Lemma each_ok {A} (f : A -> VrrpServer Frame -> res (VrrpServer Frame)) l s s' :
  (forall x s s', server_ok s -> f x s = Ok s' -> server_ok s') -> server_ok s -> each f l s = Ok s' -> server_ok s'.
Proof.
  intros Hf. revert s. induction l as [|x l IH]; intros s O H; [by injection H as <-|]. cbn [each] in H. res_inv H.
  by eapply IH; [eapply Hf|].
Qed.

Lemma getIPv4Intfs_tables lo l (s : VrrpServer Frame) : same_tables s (getIPv4Intfs lo l s).
Proof. revert s. induction l as [|x l IH]; intros s; [done|]. cbn [getIPv4Intfs]. etrans; [|apply IH]. by case_match. Qed.

Lemma getIPv6Intfs_tables lo l (s : VrrpServer Frame) : same_tables s (getIPv6Intfs IsIpv6LinkLocal lo l s).
Proof. revert s. induction l as [|x l IH]; intros s; [done|]. cbn [getIPv6Intfs]. etrans; [|apply IH]. by case_match. Qed.

Lemma start_server_ok lo i4 i6 gbl v4 v6 s :
  VrrpStartServer SerializeLayers env IsIpv6LinkLocal visit lo i4 i6 gbl v4 v6 = Ok s -> server_ok s.
Proof.
  unfold VrrpStartServer, ReadDB. intros H. res_inv H.
  assert (server_ok (getIPv6Intfs IsIpv6LinkLocal lo i6 (getIPv4Intfs lo i4 InitGlobalDS))) as O.
  { eapply server_ok_tables; [apply InitGlobalDS_ok|]. etrans; [apply getIPv4Intfs_tables|apply getIPv6Intfs_tables]. }
  eapply each_ok in E; [|intros [? ?] ? ? ? ?; by eapply global_config_ok|done].
  eapply each_ok in E0; [|intros ? ? ? ? ?; by eapply intf_config_ok|done].
  eapply each_ok in H; [done|intros ? ? ? ? ?; by eapply intf_config_ok|done].
Qed.

(** ** Reading the state *)

Definition row_key (ipType : Z) (r : StateReport) : KeyInfo := (rep_IntfRef r, rep_Vrid r, ipType).

Lemma states_ok s ty keys : server_ok s -> (forall key, key ∈ keys -> is_Some (Intfs s !! key) /\ key.2 = ty) ->
  exists rows, states keys s = Ok rows /\ map (row_key ty) rows = keys.
Proof.
  intros O. induction keys as [|key keys IH]; intros H; [by exists []|]. cbn [states].
  destruct (H key) as [[intf Ek] Ht]; [by left|]. destruct (machine_of _ _ _ O Ek) as [[W1 [st W2] W3 W4] Hkey].
  unfold populateState, GetStateInfo, config. rewrite Ek, W1, W2. res_simpl.
  destruct IH as (rows & -> & Hr); [intros k Hk; apply H; by right|]. res_simpl. eexists. split; [done|].
  cbn [map]. rewrite Hr. f_equal. subst key. unfold row_key, key_of, constructIntfKey in *. cbn in *. by rewrite Ht.
Qed.

Lemma get_page_ok s ty keys idx cnt : server_ok s -> listed keys ty s -> 0 <= idx ->
  exists rows, get_page keys idx cnt s = Ok (0, len rows, rows) /\
    map (row_key ty) rows = take (Z.to_nat cnt) (drop (Z.to_nat idx) keys).
Proof.
  intros O [_ Hl] Hi. unfold get_page. destruct (len keys =? 0) eqn:E0.
  { exists []. split; [done|]. apply Z.eqb_eq in E0. destruct keys; [by rewrite drop_nil, take_nil|].
    rewrite len_cons in E0. pose proof (len_nonneg keys). lia. }
  rewrite (proj2 (Z.ltb_ge idx 0)) by lia. rewrite andb_false_r.
  destruct (states_ok s ty (take (Z.to_nat cnt) (drop (Z.to_nat idx) keys)) O) as (rows & -> & Hr).
  { intros key Hk. apply Hl. eapply elem_of_take in Hk as (i & Hk & _). rewrite lookup_drop in Hk. by eapply list_elem_of_lookup_2. }
  res_simpl. by exists rows.
Qed.

(** ** Ending every machine *)

(** The machine's goroutine runs and is not held up by a message to the server. *)
Definition runs (s : VrrpServer Frame) (key : KeyInfo) : bool :=
  match Intfs s !! key with Some intf => takes intf s | None => false end.

Definition delete_call (s : VrrpServer Frame) (key : KeyInfo) : list PluginCall :=
  match Intfs s !! key with
  | Some intf => [DeleteVirtualIPv4Intf key.1.1 (VirtualIPAddr (intf_Config intf)) (GetVMac intf)]
  | None => []
  end.

(** A machine that is at rest, with its configuration. *)
Definition at_rest (intf intf' : VrrpInterface Frame) : Prop :=
  intf_Config intf' = intf_Config intf /\ running (Fsm intf') = false /\ looping (Fsm intf') = false /\
  State (Fsm intf') = VRRP_INITIALIZE_STATE /\ AdverTimer (Fsm intf') = None /\ MasterDownTimer (Fsm intf') = None.

Lemma disable_intf s key intf : server_ok s -> Intfs s !! key = Some intf -> key.2 = AF_INET ->
  if takes intf s then
    exists s' intf', enable_intf SerializeLayers env false key s = Ok s' /\ Intfs s' = <[key := intf']> (Intfs s) /\
      at_rest intf intf' /\ calls s' = calls s ++ delete_call s key /\ Gbl s' = Gbl s /\
      (forall other, intf_key other <> key -> takes other s' = takes other s)
  else enable_intf SerializeLayers env false key s = NoFuel.
Proof.
  intros O Ek Ht. destruct (machine_of _ _ _ O Ek) as [[W1 W2 W3 W4] Hkey]. unfold enable_intf. rewrite Ek.
  unfold StopFsm, send_event. destruct (takes intf s) eqn:Er; [|done].
  assert (cfg_IpType (intf_Config intf) = AF_INET) as Hc by (by subst key).
  unfold on_machine, machine_step.
  destruct (tear_down_v4 SerializeLayers env _ (Fsm intf) W1 Hc W2) as (f' & -> & H1 & H2 & H3 & H4 & H5 & H6 & H7 & H8).
  res_simpl. eexists _, _. split; [done|]. unfold DeleteVirtualIntf. cbn [intf_Config]. rewrite Hc.
  cbn [AF_INET Z.eqb Pos.eqb]. split; [done|]. split; [by split_and!|]. unfold delete_call. rewrite Ek.
  cbn [calls put_intf set_Intfs call set_calls set_pending GetVMac Fsm]. subst key. unfold GetVMac. cbn [Fsm]. rewrite H8.
  split; [done|]. split; [done|]. intros other Ho. unfold takes. f_equal. f_equal. unfold waits.
  cbn [pending put_intf set_Intfs call set_calls set_pending]. rewrite existsb_app.
  match goal with |- _ || ?b = _ => enough (b = false) as -> by apply orb_false_r end.
  apply not_true_is_false. intros (m & Hm & H)%existsb_exists. apply in_map_iff in Hm as (o & <- & _).
  apply bool_decide_eq_true in H. destruct Ho. cbn in H. unfold intf_key, key_of in *. congruence.
Qed.

Lemma disable_all keys s : server_ok s -> NoDup keys -> (forall key, key ∈ keys -> is_Some (Intfs s !! key) /\ key.2 = AF_INET) ->
  if forallb (runs s) keys then
    exists s', enable_all SerializeLayers env false keys s = Ok s' /\
      (forall key intf, key ∈ keys -> Intfs s !! key = Some intf -> exists intf', Intfs s' !! key = Some intf' /\ at_rest intf intf') /\
      (forall key, key ∉ keys -> Intfs s' !! key = Intfs s !! key) /\
      calls s' = calls s ++ mjoin (map (delete_call s) keys) /\ Gbl s' = Gbl s
  else enable_all SerializeLayers env false keys s = NoFuel.
Proof.
  intros O Hn. revert s O. induction Hn as [|key keys Hk Hn IH]; intros s O Hs; cbn [forallb enable_all map].
  { exists s. split_and!; try done; [by intros ? ? ?%not_elem_of_nil|]. change (mjoin (@nil (list PluginCall))) with (@nil PluginCall).
    by rewrite app_nil_r. }
  destruct (Hs key) as [[intf Ek] Ht]; [by left|]. pose proof (disable_intf s key intf O Ek Ht) as Hd.
  unfold runs at 1. rewrite Ek. destruct (takes intf s) eqn:Er; cbn [andb]; [|by rewrite Hd].
  destruct Hd as (s1 & i1 & E1 & I1 & R1 & C1 & G1 & T1). rewrite E1. res_simpl.
  pose proof (enable_intf_ok false key s s1 O E1) as O1.
  assert (forall k, k ∈ keys -> Intfs s1 !! k = Intfs s !! k) as Hsame.
  { intros k Hkk. rewrite I1, lookup_insert_ne; [done|]. by intros ->. }
  specialize (IH s1 O1). assert (forallb (runs s1) keys = forallb (runs s) keys) as Er1.
  { assert (forall k, k ∈ keys -> runs s1 k = runs s k) as Hr.
    { intros k Hkk. unfold runs. rewrite (Hsame k) by done. destruct (Intfs s !! k) as [ik|] eqn:Eik; [|done]. apply T1.
      destruct (machine_of _ _ _ O Eik) as [_ Hik]. change (intf_key ik) with (key_of (intf_Config ik)).
      rewrite <- Hik. by intros ->. }
    clear -Hr. induction keys as [|k keys IH]; [done|]. cbn [forallb]. rewrite IH by (intros; apply Hr; by right).
    by rewrite (Hr k) by by left. }
  assert (map (delete_call s1) keys = map (delete_call s) keys) as Ed.
  { apply map_ext_in. intros k Hkk%list_elem_of_In. unfold delete_call. by rewrite Hsame. }
  rewrite Er1, Ed in IH. destruct (forallb (runs s) keys).
  - destruct IH as (s' & E' & A' & B' & C' & G'); [intros k Hkk; rewrite Hsame by done; apply Hs; by right|].
    exists s'. split; [done|]. split; [|split; [|split; [|congruence]]].
    + intros k i [->|Hkk]%elem_of_cons Hi; [|apply A'; [done|by rewrite Hsame]].
      rewrite B' by done. rewrite I1, lookup_insert. case_decide; [|done]. exists i1. rewrite Ek in Hi. by injection Hi as <-.
    + intros k [Hk1 Hk2]%not_elem_of_cons. rewrite B' by done. by rewrite I1, lookup_insert_ne.
    + rewrite C', C1, <- app_assoc. done.
  - apply IH. intros k Hkk. rewrite Hsame by done. apply Hs. by right.
Qed.
End Tables.
