(* ===== verification/VrrpServerProps.v ===== *)
(** * VRRP: what the server promises

    That the tables of the server stay consistent, what disabling VRRP does, and runs on
    the boundary. *)

From stdpp Require Import pretty.
From S2P Require Import Prelude.
From S2P Require Import NetIP.
From S2P Require Import NetParse.
From S2P Require Import VrrpPacket.
From S2P Require Import VrrpPacketSpec.
From S2P Require Import VrrpFsm.
From S2P Require Import VrrpServer.
From S2P Require Import VrrpServerSpec.

Section Server.
Context {Frame : Type} (SerializeLayers : Ethernet -> IPLayer -> bytes -> Frame).
Variable env : PcapEnv (Frame := Frame).
Variable IsIpv6LinkLocal : string -> bool.
Variable visit : list KeyInfo -> list KeyInfo.
Hypothesis visit_all : forall keys, visit keys ≡ₚ keys.


(** C31: when VRRP is disabled and there are IPv4 routers only, and the goroutine of every
    machine runs and is not held up by a message that the server has not received (the
    channels have no buffer), then the server tells every machine to end and deletes
    every virtual interface; every machine is then at rest, without a timer. If the
    goroutine of one machine does not run, because its interface or its configuration was
    down when it should have been started, or if it waits for the server to take its last
    message, the server waits for it for ever. *)
Theorem disable_stops s gCfg :
  server_ok s -> gbl_Operation gCfg = UPDATE -> gbl_Enable gCfg = false ->
  (forall key, is_Some (Intfs s !! key) -> key.2 = AF_INET) ->
  let keys := visit (map_to_list (Intfs s)).*1 in
  if forallb (runs s) keys then
    exists s', HandleGlobalConfig SerializeLayers env visit gCfg s = Ok s' /\ gbl_Enable (Gbl s') = false /\
      dom (Intfs s') = dom (Intfs s) /\
      (forall key intf, Intfs s !! key = Some intf -> exists intf', Intfs s' !! key = Some intf' /\ at_rest intf intf') /\
      calls s' = calls (HandleProtocolMacEntry false s) ++ mjoin (map (delete_call s) keys)
  else HandleGlobalConfig SerializeLayers env visit gCfg s = NoFuel.
Proof.
  intros O Hop He Hty keys. unfold HandleGlobalConfig. rewrite Hop, He. cbn [UPDATE CREATE Z.eqb Pos.eqb].
  set (s1 := HandleProtocolMacEntry false _). assert (same_tables s s1) as T by done.
  assert (forall key, key ∈ keys <-> is_Some (Intfs s !! key)) as Hin.
  { intros key. unfold keys. rewrite visit_all, list_elem_of_fmap. split.
    - intros ([k i] & -> & Hk%elem_of_map_to_list). by exists i.
    - intros [i Hk]. exists (key, i). split; [done|]. by apply elem_of_map_to_list. }
  pose proof (disable_all SerializeLayers env keys s1) as Hd.
  assert (HandleVrrpEnableDisable SerializeLayers env visit false s1 = enable_all SerializeLayers env false keys s1) as -> by done.
  destruct (forallb (runs s) keys) eqn:Er; change (runs s1) with (runs s) in Hd; rewrite Er in Hd.
  - destruct Hd as (s' & -> & A & B & C & G); [by eapply server_ok_tables|unfold keys; rewrite visit_all; apply NoDup_fst_map_to_list|
      intros key Hk; apply Hin in Hk; by split; [|apply Hty]|]. res_simpl.
    exists (updateGlobalStatus s'). split; [done|]. split; [by cbn; rewrite G|]. cbn [updateGlobalStatus set_globalState Intfs calls].
    split; [|split; [|done]].
    + apply set_eq. intros key. rewrite !elem_of_dom. destruct (Intfs s !! key) as [intf|] eqn:Ek.
      * destruct (A key intf) as (intf' & -> & _); [by apply Hin|done|]. by split.
      * rewrite B; [by change (Intfs s1) with (Intfs s); rewrite Ek|]. rewrite Hin, Ek. by intros ?%is_Some_None.
    + intros key intf Hk. apply A; [by apply Hin|done].
  - rewrite Hd; [done|by eapply server_ok_tables|unfold keys; rewrite visit_all; apply NoDup_fst_map_to_list|].
    intros key Hk; apply Hin in Hk; by split; [|apply Hty].
Qed.
End Server.

(** ** Runs *)

Abbreviation Kept := (Ethernet * IPLayer * bytes)%type.

Definition up_env : PcapEnv (Frame := Kept) := mkPcapEnv (fun _ => true) (fun _ => true).

Definition eth0_msg (kind oper : string) : BaseIpInfo := mkBaseIpInfo 1 "eth0" "10.0.0.1/24" oper kind AF_INET.

Definition router_obj (vrid : Z) (admin : string) : IntfObj :=
  mkIntfObj "eth0" vrid 100 "10.0.0.100" 1 true false admin "version2".

Definition request (op vrid : Z) (admin : string) : IntfCfg :=
  let c := v4Cfg_of (router_obj vrid admin) in
  mkIntfCfg (IntfRef c) (cfg_IfIndex c) (VRID c) (Priority c) (VirtualIPAddr c) (AdvertisementInterval c) (PreemptMode c)
    (AcceptMode c) (AdminState c) (Version c) op (cfg_IpType c).

(** A server whose interface eth0 is [oper], VRRP [enabled] or not, with [routers] in its
    database. *)
Definition started (oper : string) (enabled : bool) (routers : list IntfObj) : res (VrrpServer Kept) :=
  VrrpStartServer frame_of up_env (fun _ => false) id (fun _ => false) [eth0_msg "" oper] [] [("default"%string, enabled)] routers [].

Definition sv (inputs : list SvInput) (s : res (VrrpServer Kept)) : res (VrrpServer Kept) :=
  s ← s; sv_run frame_of up_env (fun _ => false) id inputs s.

Definition state_of (vrid : Z) (s : res (VrrpServer Kept)) : option VrrpState :=
  match s with Ok s => (fun i => State (Fsm i)) <$> Intfs s !! constructIntfKey "eth0" vrid AF_INET | _ => None end.

Definition disable : SvInput := RecvGblCfg (mkGlobalConfig "default" false UPDATE).

Definition value {A} (d : A) (r : res A) : A := match r with Ok a => a | _ => d end.
Definition started_two : VrrpServer Kept :=
  value InitGlobalDS (started STATE_UP true [router_obj 1 STATE_UP; router_obj 2 STATE_UP]).
Definition some_inputs : list SvInput :=
  [MachineRuns (constructIntfKey "eth0" 1 AF_INET) DownExpires; MachineRuns (constructIntfKey "eth0" 1 AF_INET) DownCallback;
   RecvPending 0; RecvL3Notify (eth0_msg IP_MSG_STATE_CHANGE STATE_DOWN); RecvPending 1; RecvCfg (request DELETE 2 STATE_UP)].
Definition after_some : VrrpServer Kept := value InitGlobalDS (sv some_inputs (Ok started_two)).


Lemma started_two_ok : server_ok started_two.
Proof.
  apply (start_server_ok frame_of up_env (fun _ => false) id (fun _ => false) [eth0_msg "" STATE_UP] []
    [("default"%string, true)] [router_obj 1 STATE_UP; router_obj 2 STATE_UP] []). by vm_compute.
Qed.

Lemma started_two_v4 key : is_Some (Intfs started_two !! key) -> key.2 = AF_INET.
Proof.
  intros [i Hk]. destruct (so_intfs _ started_two_ok _ _ Hk) as (_ & [?|H6] & _); [done|].
  assert (key ∈ v6Intfs started_two) as H by (apply (so_v6 _ started_two_ok); by split; [eexists|]).
  by apply not_elem_of_nil in H.
Qed.

Lemma disable_stops_witness :
  exists s', HandleGlobalConfig frame_of up_env id (mkGlobalConfig "default" false UPDATE) started_two = Ok s' /\
    gbl_Enable (Gbl s') = false /\ dom (Intfs s') = dom (Intfs started_two) /\
    (forall key intf, Intfs started_two !! key = Some intf -> exists intf', Intfs s' !! key = Some intf' /\ at_rest intf intf') /\
    calls s' = calls (HandleProtocolMacEntry false started_two) ++
      mjoin (map (delete_call started_two) (id (map_to_list (Intfs started_two)).*1)).
Proof.
  exact (disable_stops frame_of up_env id (fun _ => reflexivity _) started_two (mkGlobalConfig "default" false UPDATE)
    started_two_ok eq_refl eq_refl started_two_v4).
Defined.

(** A router that is administratively down keeps the server from being disabled: it waits
    for the machine's goroutine, which was never started, and handles nothing else. *)
Example disable_blocks : sv [disable] (started STATE_UP true [router_obj 1 STATE_DOWN]) = NoFuel.
Proof. by vm_compute. Qed.

(** A machine whose interface went down sends the server a message; when the server takes
    the request to delete the router before that message, each waits for the other. *)
Example waiting_machine_blocks :
  let down := RecvL3Notify (eth0_msg IP_MSG_STATE_CHANGE STATE_DOWN) in
  let run inputs := sv inputs (started STATE_UP true [router_obj 1 STATE_UP]) in
  run [down; RecvCfg (request DELETE 1 STATE_UP)] = NoFuel /\ run [down; disable] = NoFuel /\
  state_of 1 (run [down; RecvPending 0; disable]) = Some VRRP_INITIALIZE_STATE.
Proof. by vm_compute. Qed.

(** The same for a router that is shut down while its interface is. *)
Example shutdown_blocks :
  sv [RecvCfg (request UPDATE 1 STATE_DOWN)] (started STATE_DOWN true [router_obj 1 STATE_UP]) = NoFuel.
Proof. by vm_compute. Qed.

(** Of two routers of an interface only the last one learns that it went down. *)
Example second_router_unnoticed :
  let s := sv [RecvL3Notify (eth0_msg IP_MSG_STATE_CHANGE STATE_DOWN)]
             (started STATE_UP true [router_obj 1 STATE_UP; router_obj 2 STATE_UP]) in
  state_of 1 s = Some VRRP_BACKUP_STATE /\ state_of 2 s = Some VRRP_INITIALIZE_STATE.
Proof. by vm_compute. Qed.

(** No router learns it when the address of the interface was taken away and came back. *)
Example readded_address_unnoticed :
  state_of 1 (sv [RecvL3Notify (eth0_msg IP_MSG_DELETE STATE_UP); RecvL3Notify (eth0_msg IP_MSG_CREATE STATE_UP);
                  RecvL3Notify (eth0_msg IP_MSG_STATE_CHANGE STATE_DOWN)] (started STATE_UP true [router_obj 1 STATE_UP]))
  = Some VRRP_BACKUP_STATE.
Proof. by vm_compute. Qed.

(** A router that is set administratively up runs although VRRP is disabled. *)
Example runs_while_disabled :
  state_of 1 (sv [RecvCfg (request UPDATE 1 STATE_UP)] (started STATE_UP false [router_obj 1 STATE_DOWN])) = Some VRRP_BACKUP_STATE.
Proof. by vm_compute. Qed.

(** A router that cannot be created is counted. *)
Example refused_router_counted :
  let s := value InitGlobalDS (sv [RecvL3Notify (eth0_msg IP_MSG_DELETE STATE_UP); RecvCfg (request CREATE 1 STATE_UP)]
             (started STATE_UP true [])) in
  ValidConfiguration (request CREATE 1 STATE_UP)
    (value InitGlobalDS (sv [RecvL3Notify (eth0_msg IP_MSG_DELETE STATE_UP)] (started STATE_UP true []))) = true /\
  v4Intfs s = [] /\ V4Intfs (globalState s) = 1.
Proof. by vm_compute. Qed.

(** Disabling VRRP asks for the frames of IPv6 that it should no longer receive. *)
Example disable_enables_v6 :
  calls (value InitGlobalDS (sv [disable] (started STATE_UP true []))) =
    [EnablePacketReception VRRP_PROTOCOL_MAC; EnablePacketReception VRRP_V6_PROTOCOL_MAC;
     DisablePacketReception VRRP_PROTOCOL_MAC; EnablePacketReception VRRP_V6_PROTOCOL_MAC].
Proof. by vm_compute. Qed.
