(* ===== verification/Digest.v ===== *)
(** * MD5 and SHA-1

    crypto/md5 and crypto/sha1 of the Go standard library (RFC 1321, FIPS 180), which the
    authentication of BFD packets uses. Words are integers below 2^32. *)

From S2P Require Import Prelude.

Definition not32 (x : Z) : Z := 4294967295 - x.
Definition rotl (n x : Z) : Z := u32 (Z.lor (Z.shiftl x n) (Z.shiftr x (32 - n))).

Definition le32 (x : Z) : bytes := [x mod 256; x / 256 mod 256; x / 65536 mod 256; x / 16777216 mod 256].
Definition from_le (l : bytes) : Z := foldr (fun b acc => b + 256 * acc) 0 l.
Definition from_be (l : bytes) : Z := foldl (fun acc b => 256 * acc + b) 0 l.

(** Pieces of [n] elements, as many as there are rounds of [fuel]. *)
Fixpoint pieces {A} (fuel n : nat) (l : list A) : list (list A) :=
  match fuel with
  | O => []
  | S fuel => match l with [] => [] | _ => take n l :: pieces fuel n (drop n l) end
  end.

(** The message with a one bit and zeros, up to the eight octets of the length. *)
Definition padded (msg : bytes) : bytes := msg ++ [128] ++ zeros ((55 - len msg) mod 64).

Definition blocks (l : bytes) : list bytes := pieces (length l) 64 l.

(** ** MD5 *)

Definition md5_K : list Z :=
  [3614090360; 3905402710; 606105819; 3250441966; 4118548399; 1200080426; 2821735955;
   4249261313; 1770035416; 2336552879; 4294925233; 2304563134; 1804603682; 4254626195;
   2792965006; 1236535329; 4129170786; 3225465664; 643717713; 3921069994; 3593408605; 38016083;
   3634488961; 3889429448; 568446438; 3275163606; 4107603335; 1163531501; 2850285829;
   4243563512; 1735328473; 2368359562; 4294588738; 2272392833; 1839030562; 4259657740;
   2763975236; 1272893353; 4139469664; 3200236656; 681279174; 3936430074; 3572445317; 76029189;
   3654602809; 3873151461; 530742520; 3299628645; 4096336452; 1126891415; 2878612391;
   4237533241; 1700485571; 2399980690; 4293915773; 2240044497; 1873313359; 4264355552;
   2734768916; 1309151649; 4149444226; 3174756917; 718787259; 3951481745].

Definition md5_shift (i : Z) : Z :=
  nth (Z.to_nat (i / 16 * 4 + i mod 4)) [7; 12; 17; 22; 5; 9; 14; 20; 4; 11; 16; 23; 6; 10; 15; 21] 0.

(** The four words of the state are rotated in every round. *)
Definition md5_round (M : list Z) (st : Z * Z * Z * Z) (iK : Z * Z) : Z * Z * Z * Z :=
  let '(a, b, c, d) := st in
  let '(i, K) := iK in
  let '(f, g) :=
    if i <? 16 then (Z.lor (Z.land b c) (Z.land (not32 b) d), i)
    else if i <? 32 then (Z.lor (Z.land d b) (Z.land (not32 d) c), (5 * i + 1) mod 16)
    else if i <? 48 then (Z.lxor b (Z.lxor c d), (3 * i + 5) mod 16)
    else (Z.lxor c (Z.lor b (not32 d)), (7 * i) mod 16) in
  (d, u32 (b + rotl (md5_shift i) (u32 (a + f + K + nth (Z.to_nat g) M 0))), b, c).

Definition md5_block (st : Z * Z * Z * Z) (block : bytes) : Z * Z * Z * Z :=
  let M := map from_le (pieces 16 4 block) in
  let '(a0, b0, c0, d0) := st in
  let '(a, b, c, d) := foldl (md5_round M) st (zip (map Z.of_nat (seq 0 64)) md5_K) in
  (u32 (a0 + a), u32 (b0 + b), u32 (c0 + c), u32 (d0 + d)).

Definition md5_Sum (msg : bytes) : bytes :=
  let bits := 8 * len msg in
  let '(a, b, c, d) := foldl md5_block (1732584193, 4023233417, 2562383102, 271733878)
    (blocks (padded msg ++ le32 (u32 bits) ++ le32 (u32 (bits / 4294967296)))) in
  le32 a ++ le32 b ++ le32 c ++ le32 d.

(** ** SHA-1 *)

(** The last sixteen words of the schedule give the next one. *)
Fixpoint sha1_schedule (n : nat) (W : list Z) : list Z :=
  match n with
  | O => []
  | S n =>
    let next := rotl 1 (Z.lxor (Z.lxor (nth 13 W 0) (nth 8 W 0)) (Z.lxor (nth 2 W 0) (nth 0 W 0))) in
    nth 0 W 0 :: sha1_schedule n (drop 1 W ++ [next])
  end.

Definition sha1_round (st : Z * Z * Z * Z * Z) (iW : Z * Z) : Z * Z * Z * Z * Z :=
  let '(a, b, c, d, e) := st in
  let '(i, W) := iW in
  let '(f, K) :=
    if i <? 20 then (Z.lor (Z.land b c) (Z.land (not32 b) d), 1518500249)
    else if i <? 40 then (Z.lxor b (Z.lxor c d), 1859775393)
    else if i <? 60 then (Z.lor (Z.land b c) (Z.lor (Z.land b d) (Z.land c d)), 2400959708)
    else (Z.lxor b (Z.lxor c d), 3395469782) in
  (u32 (rotl 5 a + f + e + K + W), a, rotl 30 b, c, d).

Definition sha1_block (st : Z * Z * Z * Z * Z) (block : bytes) : Z * Z * Z * Z * Z :=
  let W := sha1_schedule 80 (map from_be (pieces 16 4 block)) in
  let '(a0, b0, c0, d0, e0) := st in
  let '(a, b, c, d, e) := foldl sha1_round st (zip (map Z.of_nat (seq 0 80)) W) in
  (u32 (a0 + a), u32 (b0 + b), u32 (c0 + c), u32 (d0 + d), u32 (e0 + e)).

Definition sha1_Sum (msg : bytes) : bytes :=
  let bits := 8 * len msg in
  let '(a, b, c, d, e) := foldl sha1_block (1732584193, 4023233417, 2562383102, 271733878, 3285377520)
    (blocks (padded msg ++ be32 (u32 (bits / 4294967296)) ++ be32 (u32 bits))) in
  be32 a ++ be32 b ++ be32 c ++ be32 d ++ be32 e.

(** The test vectors of RFC 1321 and FIPS 180. *)
Definition ascii_bytes (s : string) : bytes := map (fun c => Z.of_nat (Ascii.nat_of_ascii c)) (String.list_ascii_of_string s).

Example md5_empty : md5_Sum [] = [0xd4; 0x1d; 0x8c; 0xd9; 0x8f; 0x00; 0xb2; 0x04; 0xe9; 0x80; 0x09; 0x98; 0xec; 0xf8; 0x42; 0x7e].
Proof. by vm_compute. Qed.
Example md5_abc : md5_Sum (ascii_bytes "abc") =
  [0x90; 0x01; 0x50; 0x98; 0x3c; 0xd2; 0x4f; 0xb0; 0xd6; 0x96; 0x3f; 0x7d; 0x28; 0xe1; 0x7f; 0x72].
Proof. by vm_compute. Qed.
Example md5_80 : md5_Sum (ascii_bytes "12345678901234567890123456789012345678901234567890123456789012345678901234567890") =
  [0x57; 0xed; 0xf4; 0xa2; 0x2b; 0xe3; 0xc9; 0x55; 0xac; 0x49; 0xda; 0x2e; 0x21; 0x07; 0xb6; 0x7a].
Proof. by vm_compute. Qed.
Example sha1_abc : sha1_Sum (ascii_bytes "abc") =
  [0xa9; 0x99; 0x3e; 0x36; 0x47; 0x06; 0x81; 0x6a; 0xba; 0x3e; 0x25; 0x71; 0x78; 0x50; 0xc2; 0x6c; 0x9c; 0xd0; 0xd8; 0x9d].
Proof. by vm_compute. Qed.
Example sha1_56 : sha1_Sum (ascii_bytes "abcdbcdecdefdefgefghfghighijhijkijkljklmklmnlmnomnopnopq") =
  [0x84; 0x98; 0x3e; 0x44; 0x1c; 0x3b; 0xd2; 0x6e; 0xba; 0xae; 0x4a; 0xa1; 0xf9; 0x51; 0x29; 0xe5; 0xe5; 0x46; 0x70; 0xf1].
Proof. by vm_compute. Qed.

Lemma len_le32 x : len (le32 x) = 4.
Proof. done. Qed.

Lemma len_md5 msg : len (md5_Sum msg) = 16.
Proof. unfold md5_Sum. destruct (foldl _ _ _) as [[[a b] c] d]. done. Qed.

Lemma len_sha1 msg : len (sha1_Sum msg) = 20.
Proof. unfold sha1_Sum. destruct (foldl _ _ _) as [[[[a b] c] d] e]. done. Qed.
