(* ===== verification/BfdPacket.v ===== *)
(** * BFD: control packets

    bfdControl.go and bfdAuth.go of src/bfd/server (RFC 5880, section 4). *)

From S2P Require Import Prelude.
From S2P Require Import Digest.

(** ** Data *)

(** BfdSessionState *)
Definition STATE_ADMIN_DOWN : Z := 0.
Definition STATE_DOWN : Z := 1.
Definition STATE_INIT : Z := 2.
Definition STATE_UP : Z := 3.

(** BfdDiagnostic *)
Definition DIAG_NONE : Z := 0.
Definition DIAG_TIME_EXPIRED : Z := 1.
Definition DIAG_NEIGHBOR_SIGNAL_DOWN : Z := 3.
Definition DIAG_ADMIN_DOWN : Z := 7.

(** AuthenticationType *)
Definition BFD_AUTH_TYPE_SIMPLE : Z := 1.
Definition BFD_AUTH_TYPE_KEYED_MD5 : Z := 2.
Definition BFD_AUTH_TYPE_METICULOUS_MD5 : Z := 3.
Definition BFD_AUTH_TYPE_KEYED_SHA1 : Z := 4.
Definition BFD_AUTH_TYPE_METICULOUS_SHA1 : Z := 5.

Definition DEFAULT_BFD_VERSION : Z := 1.
Definition DEFAULT_DETECT_MULTI : Z := 3.
Definition DEFAULT_DESIRED_MIN_TX_INTERVAL : Z := 250000.
Definition DEFAULT_REQUIRED_MIN_RX_INTERVAL : Z := 250000.
Definition DEFAULT_REQUIRED_MIN_ECHO_RX_INTERVAL : Z := 0.
Definition DEFAULT_CONTROL_PACKET_LEN : Z := 24.
Definition STARTUP_TX_INTERVAL : Z := 2000000.
Definition STARTUP_RX_INTERVAL : Z := 2000000.
Definition TX_JITTER : Z := 10.

Definition BFD_MP : Z := 0x01.
Definition BFD_DEMAND : Z := 0x02.
Definition BFD_AUTH_PRESENT : Z := 0x04.
Definition BFD_CP_INDEPENDENT : Z := 0x08.
Definition BFD_FINAL : Z := 0x10.
Definition BFD_POLL : Z := 0x20.

Record BfdAuthHeader := mkAuthHeader {
  ah_Type : Z;
  AuthKeyID : Z;
  SequenceNumber : Z;
  AuthData : bytes;
}.

(** A time.Duration is its nanoseconds; these three hold microseconds. *)
Record BfdControlPacket := mkControlPacket {
  Version : Z;
  Diagnostic : Z;
  pkt_State : Z;
  Poll : bool;
  Final : bool;
  ControlPlaneIndependent : bool;
  AuthPresent : bool;
  Demand : bool;
  Multipoint : bool;
  DetectMult : Z;
  MyDiscriminator : Z;
  YourDiscriminator : Z;
  DesiredMinTxInterval : Z;
  RequiredMinRxInterval : Z;
  RequiredMinEchoRxInterval : Z;
  AuthHeader : option BfdAuthHeader;
}.

Definition is_md5 (t : Z) : bool := (t =? BFD_AUTH_TYPE_KEYED_MD5) || (t =? BFD_AUTH_TYPE_METICULOUS_MD5).
Definition is_sha1 (t : Z) : bool := (t =? BFD_AUTH_TYPE_KEYED_SHA1) || (t =? BFD_AUTH_TYPE_METICULOUS_SHA1).

Definition ConvertBfdAuthTypeStrToVal (authType : string) : Z :=
  if bool_decide (authType = "simple"%string) then BFD_AUTH_TYPE_SIMPLE
  else if bool_decide (authType = "keyedmd5"%string) then BFD_AUTH_TYPE_KEYED_MD5
  else if bool_decide (authType = "metmd5"%string) then BFD_AUTH_TYPE_METICULOUS_MD5
  else if bool_decide (authType = "keyedsha1"%string) then BFD_AUTH_TYPE_KEYED_SHA1
  else if bool_decide (authType = "metsha1"%string) then BFD_AUTH_TYPE_METICULOUS_SHA1
  else 0.

Definition ConvertBfdAuthTypeValToStr (authType : Z) : string :=
  if authType =? BFD_AUTH_TYPE_SIMPLE then "simple"
  else if authType =? BFD_AUTH_TYPE_KEYED_MD5 then "keyedmd5"
  else if authType =? BFD_AUTH_TYPE_METICULOUS_MD5 then "metmd5"
  else if authType =? BFD_AUTH_TYPE_KEYED_SHA1 then "keyedsha1"
  else if authType =? BFD_AUTH_TYPE_METICULOUS_SHA1 then "metsha1"
  else "".

(** ** Encoding *)

Definition getBfdAuthenticationLength (h : BfdAuthHeader) : Z :=
  if ah_Type h =? BFD_AUTH_TYPE_SIMPLE then u8 (len (AuthData h) + 3)
  else if is_md5 (ah_Type h) then 24
  else if is_sha1 (ah_Type h) then 28
  else 0.

(** Not used by [CreateBfdControlPacket]. *)
Definition createBfdAuthHeader (h : BfdAuthHeader) : bytes :=
  let simple := ah_Type h =? BFD_AUTH_TYPE_SIMPLE in
  let length := if simple then u8 (len (AuthData h) + 3) else u8 (len (AuthData h) + 8) in
  [ah_Type h; length; AuthKeyID h] ++ (if simple then [] else [0] ++ be32 (SequenceNumber h)) ++ AuthData h.

Definition flag (b : bool) (f : Z) (flags : Z) : Z := if b then Z.lor flags f else flags.

(** The authentication header that is sent. *)
Definition sent_auth (p : BfdControlPacket) : option BfdAuthHeader := if AuthPresent p then AuthHeader p else None.

Definition packet_flags (p : BfdControlPacket) : Z :=
  flag (Multipoint p) BFD_MP (flag (Demand p) BFD_DEMAND
    (flag (match sent_auth p with Some _ => true | None => false end) BFD_AUTH_PRESENT
      (flag (ControlPlaneIndependent p) BFD_CP_INDEPENDENT (flag (Final p) BFD_FINAL (flag (Poll p) BFD_POLL 0))))).

(** The header behind the packet [buf]: a digest is taken of the packet, with the key in
    the place of the digest. *)
Definition auth_section (buf : bytes) (authLength : Z) (h : BfdAuthHeader) : bytes :=
  let buf := buf ++ [ah_Type h; authLength; AuthKeyID h] ++
             (if ah_Type h =? BFD_AUTH_TYPE_SIMPLE then [] else [0] ++ be32 (SequenceNumber h)) in
  buf ++ (if ah_Type h =? BFD_AUTH_TYPE_SIMPLE then AuthData h
          else if is_md5 (ah_Type h) then md5_Sum (buf ++ AuthData h)
          else if is_sha1 (ah_Type h) then sha1_Sum (buf ++ AuthData h)
          else []).

Definition CreateBfdControlPacket (p : BfdControlPacket) : bytes :=
  let authLength := match sent_auth p with Some h => getBfdAuthenticationLength h | None => 0 end in
  let length := u8 (DEFAULT_CONTROL_PACKET_LEN + authLength) in
  let buf :=
    [Z.lor (u8 (Z.shiftl (Version p) 5)) (Z.land (u8 (Diagnostic p)) 0x1f);
     Z.lor (u8 (Z.shiftl (u8 (pkt_State p)) 6)) (packet_flags p); DetectMult p; length] ++
    be32 (MyDiscriminator p) ++ be32 (YourDiscriminator p) ++ be32 (u32 (DesiredMinTxInterval p)) ++
    be32 (u32 (RequiredMinRxInterval p)) ++ be32 (u32 (RequiredMinEchoRxInterval p)) in
  match sent_auth p with
  | Some h => if 0 <? authLength then auth_section buf authLength h else buf
  | None => buf
  end.

(** ** Decoding *)

Definition short_packet : goerr := ErrText "Header flag set, but packet too short!".

Definition decodeBfdAuthHeader (data : Slice) : res BfdAuthHeader :=
  t ← sl_index data 0;
  length ← sl_index data 1;
  if 0 <? length then
    key ← sl_index data 2;
    if t =? BFD_AUTH_TYPE_SIMPLE then
      rest ← slice_from (sl_bytes data) 3; Ok (mkAuthHeader t key 0 rest)
    else if is_md5 t || is_sha1 t then
      d ← sl_slice data 4 8; seqNum ← Uint32 d;
      rest ← slice_from (sl_bytes data) 8;
      if negb (len rest =? (if is_md5 t then 16 else 20))
      then Err (ErrText (if is_md5 t then "Invalid MD5 Auth Key/Digest length!" else "Invalid SHA1 Auth Key/Hash length!"))
      else Ok (mkAuthHeader t key seqNum rest)
    else Err (ErrText "Unsupported Authentication type!")
  else Ok (mkAuthHeader t 0 0 []).

Definition bit_set (x f : Z) : bool := negb (Z.land x f =? 0).

Definition DecodeBfdControlPacket (data : Slice) : res BfdControlPacket :=
  d0 ← sl_index data 0; d1 ← sl_index data 1; d2 ← sl_index data 2; d3 ← sl_index data 3;
  if negb (u8 (len (sl_bytes data)) =? d3) then Err (ErrText "Packet length mis-match!")
  else
    b ← sl_slice data 4 8; my ← Uint32 b;
    b ← sl_slice data 8 12; your ← Uint32 b;
    b ← sl_slice data 12 16; tx ← Uint32 b;
    b ← sl_slice data 16 20; rx ← Uint32 b;
    b ← sl_slice data 20 24; echo ← Uint32 b;
    auth ← (if bit_set d1 BFD_AUTH_PRESENT then
              if 24 <? len (sl_bytes data) then
                rest ← slice_from (sl_bytes data) 24;
                h ← decodeBfdAuthHeader (mkSlice rest (sl_spare data)); Ok (Some h)
              else Err short_packet
            else Ok None);
    Ok (mkControlPacket (Z.shiftr (Z.land d0 0xE0) 5) (Z.land d0 0x1F) (Z.shiftr (Z.land d1 0xD0) 6)
          (bit_set d1 BFD_POLL) (bit_set d1 BFD_FINAL) (bit_set d1 BFD_CP_INDEPENDENT) (bit_set d1 BFD_AUTH_PRESENT)
          (bit_set d1 BFD_DEMAND) (bit_set d1 BFD_MP) d2 my your tx rx echo auth).

Definition NewBfdControlPacketDefault : BfdControlPacket :=
  mkControlPacket DEFAULT_BFD_VERSION DIAG_NONE STATE_DOWN false false false false false false DEFAULT_DETECT_MULTI 0 0
    DEFAULT_DESIRED_MIN_TX_INTERVAL DEFAULT_REQUIRED_MIN_RX_INTERVAL DEFAULT_REQUIRED_MIN_ECHO_RX_INTERVAL None.

Example default_packet : CreateBfdControlPacket NewBfdControlPacketDefault =
  [0x20; 0x40; 3; 24; 0; 0; 0; 0; 0; 0; 0; 0; 0; 3; 0xd0; 0x90; 0; 3; 0xd0; 0x90; 0; 0; 0; 0].
Proof. by vm_compute. Qed.
Example default_decoded :
  DecodeBfdControlPacket (mkSlice (CreateBfdControlPacket NewBfdControlPacketDefault) []) = Ok NewBfdControlPacketDefault.
Proof. by vm_compute. Qed.
