(* ===== verification/BfdPacketSpec.v ===== *)
(** * BFD: what goes over the wire

    Packets survive encoding and decoding, and the exact frames that stop the decoder. *)

From S2P Require Import Prelude.
From S2P Require Import Digest.
From S2P Require Import BfdPacket.

(** ** Packets that fit their fields *)

Definition auth_ok (h : BfdAuthHeader) : Prop :=
  1 <= ah_Type h <= 5 /\ is_u8 (AuthKeyID h) /\ is_u32 (SequenceNumber h) /\
  (ah_Type h = BFD_AUTH_TYPE_SIMPLE -> is_bytes (AuthData h) /\ len (AuthData h) <= 228).

Definition packet_ok (p : BfdControlPacket) : Prop :=
  0 <= Version p < 8 /\ 0 <= Diagnostic p < 32 /\ 0 <= pkt_State p < 4 /\ is_u8 (DetectMult p) /\
  is_u32 (MyDiscriminator p) /\ is_u32 (YourDiscriminator p) /\
  match sent_auth p with Some h => auth_ok h | None => True end.

Definition auth_prefix (h : BfdAuthHeader) : bytes :=
  [ah_Type h; getBfdAuthenticationLength h; AuthKeyID h] ++
  (if ah_Type h =? BFD_AUTH_TYPE_SIMPLE then [] else [0] ++ be32 (SequenceNumber h)).

(** The 24 octets of the mandatory section, in a packet of [length] octets. *)
Definition mandatory (p : BfdControlPacket) (length : Z) : bytes :=
  [Z.lor (u8 (Z.shiftl (Version p) 5)) (Z.land (u8 (Diagnostic p)) 0x1f);
   Z.lor (u8 (Z.shiftl (u8 (pkt_State p)) 6)) (packet_flags p); DetectMult p; length] ++
  be32 (MyDiscriminator p) ++ be32 (YourDiscriminator p) ++ be32 (u32 (DesiredMinTxInterval p)) ++
  be32 (u32 (RequiredMinRxInterval p)) ++ be32 (u32 (RequiredMinEchoRxInterval p)).

(** What a receiver sees of an authentication header: the digest of the packet up to it
    and of the key. *)
Definition received_auth (packet : bytes) (h : BfdAuthHeader) : BfdAuthHeader :=
  let simple := ah_Type h =? BFD_AUTH_TYPE_SIMPLE in
  mkAuthHeader (ah_Type h) (AuthKeyID h) (if simple then 0 else SequenceNumber h)
    (if simple then AuthData h
     else if is_md5 (ah_Type h) then md5_Sum (packet ++ AuthData h) else sha1_Sum (packet ++ AuthData h)).

Definition received (p : BfdControlPacket) : BfdControlPacket :=
  mkControlPacket (Version p) (Diagnostic p) (pkt_State p) (Poll p) (Final p) (ControlPlaneIndependent p)
    (match sent_auth p with Some _ => true | None => false end) (Demand p) (Multipoint p) (DetectMult p)
    (MyDiscriminator p) (YourDiscriminator p) (u32 (DesiredMinTxInterval p)) (u32 (RequiredMinRxInterval p))
    (u32 (RequiredMinEchoRxInterval p))
    (match sent_auth p with
     | Some h => Some (received_auth (mandatory p (24 + getBfdAuthenticationLength h) ++ auth_prefix h) h)
     | None => None
     end).

(** ** Flags *)

Lemma packet_flags_bits p :
  0 <= packet_flags p < 64 /\
  (forall x, 0 <= x < 4 -> let d := Z.lor (u8 (Z.shiftl (u8 x) 6)) (packet_flags p) in
   Z.shiftr (Z.land d 0xD0) 6 = x /\ bit_set d BFD_POLL = Poll p /\ bit_set d BFD_FINAL = Final p /\
   bit_set d BFD_CP_INDEPENDENT = ControlPlaneIndependent p /\
   bit_set d BFD_AUTH_PRESENT = (match sent_auth p with Some _ => true | None => false end) /\
   bit_set d BFD_DEMAND = Demand p /\ bit_set d BFD_MP = Multipoint p).
Proof.
  unfold packet_flags.
  destruct (Multipoint p), (Demand p), (match sent_auth p with Some _ => true | None => false end),
    (ControlPlaneIndependent p), (Final p), (Poll p); (split; [by vm_compute|]); intros x Hx;
    (assert (x = 0 \/ x = 1 \/ x = 2 \/ x = 3) as [->|[->|[->| ->]]] by lia); vm_compute; tauto.
Qed.

Lemma version_diagnostic v d :
  0 <= v < 8 -> 0 <= d < 32 ->
  let x := Z.lor (u8 (Z.shiftl v 5)) (Z.land (u8 d) 0x1f) in
  Z.shiftr (Z.land x 0xE0) 5 = v /\ Z.land x 0x1F = d.
Proof.
  intros Hv Hd.
  assert (forallb (fun v => forallb (fun d =>
            let x := Z.lor (u8 (Z.shiftl v 5)) (Z.land (u8 d) 0x1f) in
            (Z.shiftr (Z.land x 0xE0) 5 =? v) && (Z.land x 0x1F =? d))
          (map Z.of_nat (seq 0 32))) (map Z.of_nat (seq 0 8)) = true) as H by by vm_compute.
  assert (Hn : forall k n, 0 <= k < Z.of_nat n -> In k (map Z.of_nat (seq 0 n))).
  { intros k n Hk. rewrite in_map_iff. exists (Z.to_nat k). rewrite in_seq. lia. }
  rewrite forallb_forall in H. specialize (H v (Hn v 8%nat ltac:(lia))). cbv beta in H.
  rewrite forallb_forall in H. specialize (H d (Hn d 32%nat ltac:(lia))). cbv beta zeta in H.
  apply andb_prop in H as [H1 H2]. split; by apply Z.eqb_eq.
Qed.

Lemma auth_length h : auth_ok h -> 0 < getBfdAuthenticationLength h <= 231.
Proof.
  intros (Ht & _ & _ & Hs). unfold getBfdAuthenticationLength, is_md5, is_sha1, BFD_AUTH_TYPE_SIMPLE,
    BFD_AUTH_TYPE_KEYED_MD5, BFD_AUTH_TYPE_METICULOUS_MD5, BFD_AUTH_TYPE_KEYED_SHA1, BFD_AUTH_TYPE_METICULOUS_SHA1 in *.
  destruct (ah_Type h =? 1) eqn:E1.
  - destruct Hs as [_ Hs]; [lia|]. pose proof (len_nonneg (AuthData h)). unfold u8. rewrite Z.mod_small; lia.
  - assert (ah_Type h = 2 \/ ah_Type h = 3 \/ ah_Type h = 4 \/ ah_Type h = 5) as [->|[->|[->| ->]]] by lia; by vm_compute.
Qed.

(** ** Decoding what was encoded *)

Lemma len_mandatory p length : len (mandatory p length) = 24.
Proof. done. Qed.

Lemma len_auth_prefix h : len (auth_prefix h) = (if ah_Type h =? BFD_AUTH_TYPE_SIMPLE then 3 else 8).
Proof. unfold auth_prefix. by destruct (_ =? _). Qed.

Lemma create_as_sections p :
  (forall h, sent_auth p = Some h -> auth_ok h) ->
  CreateBfdControlPacket p =
  match sent_auth p with
  | Some h =>
    mandatory p (24 + getBfdAuthenticationLength h) ++ auth_prefix h ++
    AuthData (received_auth (mandatory p (24 + getBfdAuthenticationLength h) ++ auth_prefix h) h)
  | None => mandatory p 24
  end.
Proof.
  intros Hok. unfold CreateBfdControlPacket. fold DEFAULT_CONTROL_PACKET_LEN.
  destruct (sent_auth p) as [h|] eqn:E; [|done]. specialize (Hok h eq_refl). pose proof (auth_length h Hok) as Hl.
  rewrite (proj2 (Z.ltb_lt 0 _)) by lia. unfold DEFAULT_CONTROL_PACKET_LEN.
  replace (u8 (24 + getBfdAuthenticationLength h)) with (24 + getBfdAuthenticationLength h) by zlia.
  fold (mandatory p (24 + getBfdAuthenticationLength h)). unfold auth_section. fold (auth_prefix h).
  rewrite <- app_assoc. do 2 f_equal. unfold received_auth. cbn [AuthData]. rewrite <- app_assoc.
  destruct Hok as (Ht & _). unfold is_sha1, is_md5, BFD_AUTH_TYPE_SIMPLE in *. destruct (ah_Type h =? 1) eqn:E1; [done|].
  assert (ah_Type h = 2 \/ ah_Type h = 3 \/ ah_Type h = 4 \/ ah_Type h = 5) as [->|[->|[->| ->]]] by lia; done.
Qed.

(** The part of decoding after the mandatory section. *)
Definition decode_auth (present : bool) (rest spare : bytes) : res (option BfdAuthHeader) :=
  if present then
    if 0 <? len rest then h ← decodeBfdAuthHeader (mkSlice rest spare); Ok (Some h) else Err short_packet
  else Ok None.

Lemma decode_mandatory p length rest spare :
  packet_ok p -> u8 (24 + len rest) = length ->
  DecodeBfdControlPacket (mkSlice (mandatory p length ++ rest) spare) =
  auth ← decode_auth (match sent_auth p with Some _ => true | None => false end) rest spare;
  Ok (mkControlPacket (Version p) (Diagnostic p) (pkt_State p) (Poll p) (Final p) (ControlPlaneIndependent p)
    (match sent_auth p with Some _ => true | None => false end) (Demand p) (Multipoint p) (DetectMult p)
    (MyDiscriminator p) (YourDiscriminator p) (u32 (DesiredMinTxInterval p)) (u32 (RequiredMinRxInterval p))
    (u32 (RequiredMinEchoRxInterval p)) auth).
Proof.
  intros (Hv & Hd & Hs & Hdm & Hmy & Hyour & _) Hlen.
  unfold DecodeBfdControlPacket, sl_index, sl_slice. cbn [sl_bytes sl_spare].
  set (a := Z.lor (u8 (Z.shiftl (Version p) 5)) (Z.land (u8 (Diagnostic p)) 0x1f)).
  set (b := Z.lor (u8 (Z.shiftl (u8 (pkt_State p)) 6)) (packet_flags p)).
  pose proof (version_diagnostic _ _ Hv Hd) as [Hv' Hd']. fold a in Hv', Hd'.
  pose proof (packet_flags_bits p) as [_ Hf]. specialize (Hf _ Hs). fold b in Hf. cbv zeta in Hf.
  destruct Hf as (F1 & F2 & F3 & F4 & F5 & F6 & F7).
  assert (Hl : len (mandatory p length ++ rest) = 24 + len rest) by (by rewrite len_app, len_mandatory).
  assert (Hr : slice_from (mandatory p length ++ rest) 24 = Ok rest) by (apply slice_from_app; done).
  rewrite Hl, Hr, Hlen. replace (24 <? 24 + len rest) with (0 <? len rest) by lia.
  assert (Hi : forall k x, (mandatory p length) !! k = Some x -> index (mandatory p length ++ rest) (Z.of_nat k) = Ok x).
  { intros k x Hk. unfold index. rewrite (proj2 (Z.ltb_ge _ _)) by lia. rewrite Nat2Z.id.
    by rewrite (lookup_app_l_Some _ _ _ _ Hk). }
  pose proof (Hi 0%nat a eq_refl) as I0. pose proof (Hi 1%nat b eq_refl) as I1.
  pose proof (Hi 2%nat (DetectMult p) eq_refl) as I2. pose proof (Hi 3%nat length eq_refl) as I3.
  change (Z.of_nat 0) with 0 in I0. change (Z.of_nat 1) with 1 in I1. change (Z.of_nat 2) with 2 in I2.
  change (Z.of_nat 3) with 3 in I3. rewrite I0, I1, I2, I3. res_simpl. rewrite Z.eqb_refl. cbn [negb].
  assert (Hw : forall i j pre w post, mandatory p length = pre ++ be32 w ++ post -> i = len pre -> j = i + 4 ->
            slice ((mandatory p length ++ rest) ++ spare) i j = Ok (be32 w)).
  { intros i j pre w post -> -> ->. rewrite <- !app_assoc. by apply slice_app. }
  assert (Hu : forall w, is_u32 w -> Uint32 (be32 w) = Ok w).
  { intros w Hw'. rewrite <- (app_nil_r (be32 w)). by apply Uint32_be32. }
  assert (Hm : forall x, is_u32 (u32 x)) by (intros x; apply Z.mod_pos_bound; lia).
  set (four := [a; b; DetectMult p; length]).
  rewrite (Hw 4 8 four (MyDiscriminator p) (be32 (YourDiscriminator p) ++ be32 (u32 (DesiredMinTxInterval p)) ++
    be32 (u32 (RequiredMinRxInterval p)) ++ be32 (u32 (RequiredMinEchoRxInterval p)))) by done.
  rewrite (Hw 8 12 (four ++ be32 (MyDiscriminator p)) (YourDiscriminator p) (be32 (u32 (DesiredMinTxInterval p)) ++
    be32 (u32 (RequiredMinRxInterval p)) ++ be32 (u32 (RequiredMinEchoRxInterval p)))) by done.
  rewrite (Hw 12 16 (four ++ be32 (MyDiscriminator p) ++ be32 (YourDiscriminator p)) (u32 (DesiredMinTxInterval p))
    (be32 (u32 (RequiredMinRxInterval p)) ++ be32 (u32 (RequiredMinEchoRxInterval p)))) by done.
  rewrite (Hw 16 20 (four ++ be32 (MyDiscriminator p) ++ be32 (YourDiscriminator p) ++ be32 (u32 (DesiredMinTxInterval p)))
    (u32 (RequiredMinRxInterval p)) (be32 (u32 (RequiredMinEchoRxInterval p)))) by done.
  rewrite (Hw 20 24 (four ++ be32 (MyDiscriminator p) ++ be32 (YourDiscriminator p) ++ be32 (u32 (DesiredMinTxInterval p)) ++
    be32 (u32 (RequiredMinRxInterval p))) (u32 (RequiredMinEchoRxInterval p)) []) by done.
  res_simpl. rewrite !Hu by done. unfold decode_auth. rewrite Hv', Hd', F1, F2, F3, F4, F5, F6, F7. done.
Qed.

Lemma decode_auth_section h packet spare :
  auth_ok h ->
  decode_auth true (auth_prefix h ++ AuthData (received_auth packet h)) spare = Ok (Some (received_auth packet h)).
Proof.
  intros Hok. pose proof (auth_length h Hok) as Hl. destruct Hok as (Ht & Hk & Hsq & _).
  unfold decode_auth. rewrite len_app, len_auth_prefix. pose proof (len_nonneg (AuthData (received_auth packet h))).
  rewrite (proj2 (Z.ltb_lt 0 _)) by (destruct (_ =? _); lia).
  unfold decodeBfdAuthHeader, sl_index, sl_slice, received_auth, auth_prefix. cbn [sl_bytes sl_spare AuthData].
  set (L := getBfdAuthenticationLength h) in *. set (d := if ah_Type h =? BFD_AUTH_TYPE_SIMPLE then AuthData h else _).
  assert (Hi : forall rest, index (([ah_Type h; L; AuthKeyID h] ++ rest) ++ d) 0 = Ok (ah_Type h) /\
    index (([ah_Type h; L; AuthKeyID h] ++ rest) ++ d) 1 = Ok L /\ index (([ah_Type h; L; AuthKeyID h] ++ rest) ++ d) 2 = Ok (AuthKeyID h)) by done.
  destruct (Hi (if ah_Type h =? BFD_AUTH_TYPE_SIMPLE then [] else [0] ++ be32 (SequenceNumber h))) as (-> & -> & ->).
  res_simpl. rewrite (proj2 (Z.ltb_lt 0 L)) by lia. destruct (ah_Type h =? BFD_AUTH_TYPE_SIMPLE) eqn:E.
  - by rewrite slice_from_app.
  - assert (Hmd : is_md5 (ah_Type h) || is_sha1 (ah_Type h) = true).
    { unfold BFD_AUTH_TYPE_SIMPLE in E.
      assert (ah_Type h = 2 \/ ah_Type h = 3 \/ ah_Type h = 4 \/ ah_Type h = 5) as [->|[->|[->| ->]]] by lia; done. }
    rewrite Hmd.
    assert (Hs : slice ((([ah_Type h; L; AuthKeyID h] ++ [0] ++ be32 (SequenceNumber h)) ++ d) ++ spare) 4 8 =
                 Ok (be32 (SequenceNumber h))).
    { rewrite <- !app_assoc, (app_assoc [ah_Type h; L; AuthKeyID h] [0]). by apply slice_app. }
    rewrite Hs. res_simpl. rewrite <- (app_nil_r (be32 (SequenceNumber h))) at 1. rewrite Uint32_be32 by done.
    rewrite slice_from_app by done. res_simpl. subst d. destruct (is_md5 (ah_Type h)).
    + by rewrite len_md5.
    + by rewrite len_sha1.
Qed.

(** what a receiver decodes of an encoded packet. *)
Theorem bfd_packet_roundtrip p spare :
  packet_ok p -> DecodeBfdControlPacket (mkSlice (CreateBfdControlPacket p) spare) = Ok (received p).
Proof.
  intros H. rewrite create_as_sections by (intros h E; destruct H as (_ & _ & _ & _ & _ & _ & H); by rewrite E in H).
  unfold received. destruct (sent_auth p) as [h|] eqn:E.
  - assert (Hok : auth_ok h) by (destruct H as (_ & _ & _ & _ & _ & _ & H); by rewrite E in H).
    rewrite decode_mandatory; [|done|].
    + rewrite E, decode_auth_section by done. done.
    + rewrite len_app, len_auth_prefix. pose proof (auth_length h Hok) as Hl. revert Hl.
      unfold received_auth, getBfdAuthenticationLength. cbn [AuthData]. destruct Hok as (Ht & _ & _ & Hs).
      unfold BFD_AUTH_TYPE_SIMPLE in *. destruct (ah_Type h =? 1) eqn:E1.
      * destruct Hs as [_ Hs]; [lia|]. pose proof (len_nonneg (AuthData h)). zlia.
      * assert (ah_Type h = 2 \/ ah_Type h = 3 \/ ah_Type h = 4 \/ ah_Type h = 5) as [->|[->|[->| ->]]] by lia;
          intros _; match goal with |- context [is_md5 ?t] => let v := eval vm_compute in (is_md5 t) in change (is_md5 t) with v end;
          cbv iota; rewrite ?len_md5, ?len_sha1; done.
  - rewrite <- (app_nil_r (mandatory p 24)). rewrite decode_mandatory by done. rewrite E. done.
Qed.

(** ** The frames that stop the decoder *)

(** An authentication section that is cut short. *)
Definition short_auth (rest : bytes) : bool :=
  match rest with
  | [] => false
  | [_] => true
  | t :: length :: key => (0 <? length) && ((len key =? 0) || ((len key <? 6) && (is_md5 t || is_sha1 t)))
  end.

Definition crashing_frame (data : bytes) : bool :=
  match data !! 1%nat, data !! 3%nat with
  | Some d1, Some d3 => (u8 (len data) =? d3) && bit_set d1 BFD_AUTH_PRESENT && short_auth (drop 24 data)
  | _, _ => false
  end.

Lemma word_at s i j : 0 <= i -> j = i + 4 -> j <= len s -> exists w v, slice s i j = Ok w /\ Uint32 w = Ok v.
Proof.
  intros Hi -> Hj. rewrite slice_range by lia. eexists. destruct (Uint32_safe (take (Z.to_nat (i + 4 - i)) (drop (Z.to_nat i) s))) as [v Hv].
  - rewrite len_take_drop; lia.
  - exists v. done.
Qed.

Lemma auth_crash rest spare :
  rest <> [] -> 8 <= len rest + len spare ->
  if short_auth rest then decodeBfdAuthHeader (mkSlice rest spare) = Panic
  else is_ok (decodeBfdAuthHeader (mkSlice rest spare)) = true \/ exists e, decodeBfdAuthHeader (mkSlice rest spare) = Err e.
Proof.
  intros Hne Hlen. destruct rest as [|t [|L [|k rest]]]; [done|done| |]; unfold decodeBfdAuthHeader, sl_index, sl_slice;
    cbn [sl_bytes sl_spare short_auth].
  - change (index [t; L] 0) with (Ok t). change (index [t; L] 1) with (Ok L). res_simpl.
    destruct (0 <? L); cbn [andb orb]; [done|by left].
  - change (index (t :: L :: k :: rest) 0) with (Ok t). change (index (t :: L :: k :: rest) 1) with (Ok L).
    change (index (t :: L :: k :: rest) 2) with (Ok k). res_simpl. destruct (0 <? L); cbn [andb]; [|by left].
    rewrite !len_cons in *. pose proof (len_nonneg rest). pose proof (len_nonneg spare).
    replace (1 + len rest =? 0) with false by lia. cbn [orb].
    destruct (t =? BFD_AUTH_TYPE_SIMPLE) eqn:E1.
    + assert (is_md5 t || is_sha1 t = false) as -> by (unfold is_md5, is_sha1, BFD_AUTH_TYPE_SIMPLE in *; by rewrite (proj1 (Z.eqb_eq _ _) E1)).
      rewrite andb_false_r. left. by rewrite (slice_from_app [t; L; k] rest).
    + destruct (is_md5 t || is_sha1 t); [|rewrite andb_false_r; eauto]. rewrite andb_true_r.
      destruct (word_at ((t :: L :: k :: rest) ++ spare) 4 8) as (w & v & -> & Hv); [lia|done| |].
      { rewrite len_app, !len_cons. lia. }
      res_simpl. rewrite Hv. unfold slice_from. rewrite !len_cons. change (0 <=? 8) with true. cbn [andb].
      destruct (1 + len rest <? 6) eqn:E2.
      * by rewrite (proj2 (Z.leb_gt 8 _)) by lia.
      * rewrite (proj2 (Z.leb_le 8 _)) by lia. res_simpl. destruct (negb _); eauto.
Qed.

(** with the guard on the length and the buffer of the server, the decoder stops the
    daemon exactly on the frames whose authentication section is cut short. *)
Theorem bfd_decode_panics data spare :
  24 <= len data -> len data + len spare = 1024 ->
  DecodeBfdControlPacket (mkSlice data spare) <> NoFuel /\
  (DecodeBfdControlPacket (mkSlice data spare) = Panic <-> crashing_frame data = true).
Proof.
  intros Hl Hc. assert (Hd : exists d0 d1 d2 d3 rest, data = d0 :: d1 :: d2 :: d3 :: rest).
  { destruct data as [|d0 [|d1 [|d2 [|d3 rest]]]]; rewrite ?len_cons, ?(len_nil (A:=Z)) in Hl; try lia. eauto 6. }
  destruct Hd as (d0 & d1 & d2 & d3 & rest0 & E). unfold crashing_frame.
  assert (data !! 1%nat = Some d1) as -> by (by subst). assert (data !! 3%nat = Some d3) as -> by (by subst).
  unfold DecodeBfdControlPacket, sl_index, sl_slice. cbn [sl_bytes sl_spare].
  assert (index data 0 = Ok d0) as -> by (by subst). assert (index data 1 = Ok d1) as -> by (by subst).
  assert (index data 2 = Ok d2) as -> by (by subst). assert (index data 3 = Ok d3) as -> by (by subst).
  res_simpl. destruct (u8 (len data) =? d3); cbn [negb andb]; [|done].
  destruct (word_at (data ++ spare) 4 8) as (w1 & v1 & -> & H1); [lia|done|rewrite len_app; lia|].
  destruct (word_at (data ++ spare) 8 12) as (w2 & v2 & -> & H2); [lia|done|rewrite len_app; lia|].
  destruct (word_at (data ++ spare) 12 16) as (w3 & v3 & -> & H3); [lia|done|rewrite len_app; lia|].
  destruct (word_at (data ++ spare) 16 20) as (w4 & v4 & -> & H4); [lia|done|rewrite len_app; lia|].
  destruct (word_at (data ++ spare) 20 24) as (w5 & v5 & -> & H5); [lia|done|rewrite len_app; lia|].
  res_simpl. rewrite H1, H2, H3, H4, H5. destruct (bit_set d1 BFD_AUTH_PRESENT); cbn [andb]; [|done].
  rewrite slice_from_range by lia. change (Z.to_nat 24) with 24%nat.
  pose proof (len_drop_range data 24) as Hd. change (Z.to_nat 24) with 24%nat in Hd. specialize (Hd ltac:(lia)).
  destruct (24 <? len data) eqn:E24.
  - res_simpl. pose proof (auth_crash (drop 24 data) spare) as Ha. destruct (short_auth (drop 24 data)).
    + rewrite Ha; [done| |lia]. intros En. rewrite En, (len_nil (A:=Z)) in Hd. lia.
    + destruct Ha as [Ha|[e Ha]]; [|lia| |].
      * intros En. rewrite En, (len_nil (A:=Z)) in Hd. lia.
      * by destruct (decodeBfdAuthHeader _).
      * by rewrite Ha.
  - destruct (drop 24 data) eqn:Ed; [done|]. pose proof (len_nonneg l). rewrite len_cons in Hd. lia.
Qed.

(** A packet of 25 octets. *)
Definition short_frame : bytes := [0x20; 0x44; 3; 25] ++ zeros 21.

Lemma bfd_decode_panics_witness :
  DecodeBfdControlPacket (mkSlice short_frame (zeros 999)) = Panic /\
  (DecodeBfdControlPacket (mkSlice short_frame (zeros 999)) <> NoFuel /\
   (DecodeBfdControlPacket (mkSlice short_frame (zeros 999)) = Panic <-> crashing_frame short_frame = true)).
Proof. split; [by vm_compute|]. apply (bfd_decode_panics short_frame (zeros 999)); by vm_compute. Defined.

Definition password_packet : BfdControlPacket :=
  mkControlPacket 1 3 STATE_UP true false false true false false 3 7 9 250000 250000 0
    (Some (mkAuthHeader BFD_AUTH_TYPE_KEYED_MD5 5 77 [115; 101; 99])).

Lemma bfd_packet_roundtrip_witness :
  packet_ok password_packet /\
  DecodeBfdControlPacket (mkSlice (CreateBfdControlPacket password_packet) []) = Ok (received password_packet).
Proof.
  assert (H : packet_ok password_packet).
  { unfold packet_ok, auth_ok, is_u8, is_u32, BFD_AUTH_TYPE_SIMPLE. cbn. repeat split; by vm_compute. }
  split; [exact H|]. by apply bfd_packet_roundtrip.
Defined.

(** ** Packets are octets *)

Lemma is_bytes_digest h packet : is_bytes (AuthData h) -> is_bytes (AuthData (received_auth packet h)).
Proof.
  intros H. unfold received_auth. cbn [AuthData]. destruct (_ =? _); [done|]. unfold md5_Sum, sha1_Sum.
  destruct (is_md5 _).
  - destruct (foldl _ _ _) as [[[a b] c] d]. unfold le32, is_bytes. rewrite !Forall_app. repeat split; repeat constructor; zlia.
  - destruct (foldl _ _ _) as [[[[a b] c] d] e]. rewrite !is_bytes_app. repeat split; apply is_bytes_be32.
Qed.

Lemma is_bytes_mandatory p length : packet_ok p -> is_u8 length -> is_bytes (mandatory p length).
Proof.
  intros (Hv & Hd & Hs & Hm & _) Hl. unfold mandatory. rewrite !is_bytes_app. pose proof (packet_flags_bits p) as [Hf _].
  assert (Hor : forall x y, is_u8 x -> is_u8 y -> is_u8 (Z.lor x y)).
  { unfold is_u8. intros x y Hx Hy. split; [apply Z.lor_nonneg; lia|]. destruct (decide (Z.lor x y = 0)) as [->|Hne]; [lia|].
    assert (0 <= Z.lor x y) by (apply Z.lor_nonneg; lia).
    apply Z.log2_lt_pow2 with (b := 8); [lia|]. rewrite Z.log2_lor by lia.
    destruct (decide (x = 0)) as [->|Hx0], (decide (y = 0)) as [->|Hy0]; cbn [Z.log2]; try lia;
      apply Z.max_lub_lt; try (cbn; lia); apply Z.log2_lt_pow2; lia. }
  split.
  - unfold is_bytes. rewrite !Forall_cons. split_and!; try done; [|apply Hor; [apply is_u8_u8|unfold is_u8; lia]].
    apply Hor; [apply is_u8_u8|apply is_u8_land, is_u8_u8].
  - repeat split; apply is_bytes_be32.
Qed.

(** what is sent is a string of octets whose fourth octet is its length, at most 255. *)
Theorem bfd_packet_typed p :
  packet_ok p -> (forall h, sent_auth p = Some h -> is_bytes (AuthData h)) ->
  is_bytes (CreateBfdControlPacket p) /\ CreateBfdControlPacket p !! 3%nat = Some (len (CreateBfdControlPacket p)) /\
  24 <= len (CreateBfdControlPacket p) <= 255.
Proof.
  intros H Hk. pose proof H as (_ & _ & _ & _ & _ & _ & Ha).
  rewrite create_as_sections by (intros h E; by rewrite E in Ha).
  destruct (sent_auth p) as [h|] eqn:E.
  2: { split; [by apply is_bytes_mandatory|]. by rewrite len_mandatory. }
  pose proof (auth_length h Ha) as Hl. set (r := received_auth _ h).
  assert (Hlen : len (auth_prefix h ++ AuthData r) = getBfdAuthenticationLength h).
  { rewrite len_app, len_auth_prefix. revert Hl. unfold r, received_auth, getBfdAuthenticationLength. cbn [AuthData].
    destruct Ha as (Ht & _ & _ & Hs). unfold BFD_AUTH_TYPE_SIMPLE in *. destruct (ah_Type h =? 1) eqn:E1.
    - destruct Hs as [_ Hs]; [lia|]. pose proof (len_nonneg (AuthData h)). zlia.
    - assert (ah_Type h = 2 \/ ah_Type h = 3 \/ ah_Type h = 4 \/ ah_Type h = 5) as [->|[->|[->| ->]]] by lia;
        intros _; match goal with |- context [is_md5 ?t] => let v := eval vm_compute in (is_md5 t) in change (is_md5 t) with v end;
        cbv iota; rewrite ?len_md5, ?len_sha1; done. }
  rewrite len_app, len_mandatory, Hlen. split; [|split; [done|lia]].
  rewrite !is_bytes_app. split; [apply is_bytes_mandatory; [done|unfold is_u8; lia]|].
  split; [|by apply is_bytes_digest, Hk]. unfold auth_prefix. rewrite is_bytes_app. destruct Ha as (Ht & Hkey & _).
  split; [repeat constructor; unfold is_u8; try lia; apply Hkey|]. destruct (_ =? _); [constructor|].
  rewrite is_bytes_app. split; [by repeat constructor|apply is_bytes_be32].
Qed.

Lemma bfd_packet_typed_witness :
  packet_ok password_packet /\
  is_bytes (CreateBfdControlPacket password_packet) /\
  CreateBfdControlPacket password_packet !! 3%nat = Some (len (CreateBfdControlPacket password_packet)) /\
  24 <= len (CreateBfdControlPacket password_packet) <= 255.
Proof.
  assert (H : packet_ok password_packet).
  { unfold packet_ok, auth_ok, is_u8, is_u32, BFD_AUTH_TYPE_SIMPLE. cbn. repeat split; by vm_compute. }
  split; [exact H|]. apply bfd_packet_typed; [exact H|]. intros h [= <-]. repeat constructor; by vm_compute.
Defined.
