(* ===== verification/Float32.v ===== *)
(** * float32

    The arithmetic of Go's float32, without subnormal numbers and overflow: a number
    [(m, e)] is [m * 2 ^ e], and a result is rounded to 24 bits, ties to even. *)

From S2P Require Import Prelude.

Definition f32 : Type := Z * Z.

Definition f32_mantissa (num den e : Z) : Z :=
  let num := if e <? 0 then Z.shiftl num (- e) else num in
  let den := if 0 <? e then Z.shiftl den e else den in
  let q := num / den in
  let twice := 2 * (num mod den) in
  if (den <? twice) || ((twice =? den) && Z.odd q) then q + 1 else q.

Definition f32_of_quotient (num den : Z) : f32 :=
  if num =? 0 then (0, 0)
  else
    let a := Z.abs num in
    let e := Z.log2 a - Z.log2 den - 23 in
    let e := if (if e <? 0 then Z.shiftl a (- e) else a) <? Z.shiftl (if 0 <? e then Z.shiftl den e else den) 23
             then e - 1 else e in
    (Z.sgn num * f32_mantissa a den e, e).

Definition f32_num (x : f32) : Z := if 0 <? snd x then Z.shiftl (fst x) (snd x) else fst x.
Definition f32_den (x : f32) : Z := if snd x <? 0 then Z.shiftl 1 (- snd x) else 1.

Definition f32_of_int (n : Z) : f32 := f32_of_quotient n 1.
Definition f32_div (x y : f32) : f32 := f32_of_quotient (f32_num x * f32_den y) (f32_den x * f32_num y).
Definition f32_sub (x y : f32) : f32 :=
  f32_of_quotient (f32_num x * f32_den y - f32_num y * f32_den x) (f32_den x * f32_den y).
Definition f32_mul (x y : f32) : f32 := f32_of_quotient (f32_num x * f32_num y) (f32_den x * f32_den y).
Definition int32_of_f32 (x : f32) : Z := Z.quot (f32_num x) (f32_den x).

(** ** The error of rounding *)

Lemma f32_mantissa_bound (A D : Z) :
  0 < D -> let m := if (D <? 2 * (A mod D)) || ((2 * (A mod D) =? D) && Z.odd (A / D)) then A / D + 1 else A / D in
  2 * Z.abs (m * D - A) <= D.
Proof.
  intros HD. pose proof (Z.div_mod A D ltac:(lia)) as E. pose proof (Z.mod_pos_bound A D HD) as Hm.
  assert (A / D * D - A = - (A mod D)) as E1 by lia.
  assert ((A / D + 1) * D - A = D - A mod D) as E2 by lia.
  destruct (D <? 2 * (A mod D)) eqn:E3; cbn [orb]; [rewrite E2; lia|].
  destruct (2 * (A mod D) =? D) eqn:E4; cbn [andb]; [|rewrite E1; lia].
  destruct (Z.odd (A / D)); [rewrite E2|rewrite E1]; lia.
Qed.

(** Scaled by [2 ^ e]. *)
Definition up (x e : Z) : Z := if 0 <? e then Z.shiftl x e else x.

Lemma up_mul x e : up x e = x * 2 ^ Z.max 0 e.
Proof. unfold up. destruct (0 <? e) eqn:E; [rewrite Z.shiftl_mul_pow2 by lia|rewrite Z.max_l, Z.mul_1_r by lia; done]. by rewrite Z.max_r by lia. Qed.

Lemma f32_scaled_bound a den e :
  0 < den -> 2 ^ 23 * up den e <= up a (- e) ->
  let m := f32_mantissa a den e in
  Z.abs (f32_num (m, e) * den - a * f32_den (m, e)) * 2 ^ 24 <= a * f32_den (m, e) /\ 0 < f32_den (m, e).
Proof.
  intros Hden Hn m.
  assert (Hd1 : f32_num (m, e) * den = m * up den e) by (unfold f32_num; cbn [fst snd]; fold (up m e); rewrite !up_mul; ring).
  assert (Hd2 : f32_den (m, e) = up 1 (- e)).
  { unfold f32_den, up. cbn [fst snd]. replace (e <? 0) with (0 <? - e) by (destruct (e <? 0) eqn:?; lia). done. }
  assert (Hd3 : a * f32_den (m, e) = up a (- e)) by (rewrite Hd2, !up_mul; ring).
  assert (HD : 0 < up den e) by (rewrite up_mul; apply Z.mul_pos_pos; [done|apply Z.pow_pos_nonneg; lia]).
  rewrite Hd3, Hd1. split; [|rewrite Hd2, up_mul; apply Z.mul_pos_pos; [done|apply Z.pow_pos_nonneg; lia]].
  pose proof (f32_mantissa_bound (up a (- e)) (up den e) HD) as Hb. cbv zeta in Hb.
  assert (Em : m = if (up den e <? 2 * (up a (- e) mod up den e)) || ((2 * (up a (- e) mod up den e) =? up den e) && Z.odd (up a (- e) / up den e))
                   then up a (- e) / up den e + 1 else up a (- e) / up den e).
  { unfold m, f32_mantissa. fold (up den e). replace (e <? 0) with (0 <? - e) by (destruct (e <? 0) eqn:?; lia). done. }
  rewrite <- Em in Hb. lia.
Qed.

(** The relative error of a quotient. *)
Lemma f32_quotient_bound num den :
  0 < num -> 0 < den ->
  let x := f32_of_quotient num den in
  Z.abs (f32_num x * den - num * f32_den x) * 2 ^ 24 <= num * f32_den x /\ 0 < f32_den x.
Proof.
  intros Hn Hd x. unfold x, f32_of_quotient. rewrite (proj2 (Z.eqb_neq num 0)) by lia.
  rewrite (Z.abs_eq num), Z.sgn_pos, Z.mul_1_l by lia. set (e := Z.log2 num - Z.log2 den - 23).
  replace (if e <? 0 then Z.shiftl num (- e) else num) with (up num (- e))
    by (unfold up; replace (e <? 0) with (0 <? - e) by (destruct (e <? 0) eqn:?; lia); done).
  fold (up den e). rewrite Z.shiftl_mul_pow2 by lia.
  destruct (up num (- e) <? up den e * 2 ^ 23) eqn:E; [|apply f32_scaled_bound; lia].
  apply f32_scaled_bound; [done|].
  assert (Hlog : up den e * 2 ^ 22 < up num (- e)).
  { pose proof (Z.log2_spec num Hn) as [H1 _]. pose proof (Z.log2_spec den Hd) as [_ H2].
    pose proof (Z.log2_nonneg num). pose proof (Z.log2_nonneg den). rewrite !up_mul.
    assert (He : 2 ^ Z.succ (Z.log2 den) * 2 ^ Z.max 0 e * 2 ^ 22 = 2 ^ Z.log2 num * 2 ^ Z.max 0 (- e)).
    { rewrite <- !Z.pow_add_r by lia. f_equal. lia. }
    assert (0 < 2 ^ Z.max 0 e) by (apply Z.pow_pos_nonneg; lia). assert (0 < 2 ^ Z.max 0 (- e)) by (apply Z.pow_pos_nonneg; lia).
    nia. }
  assert (Hs : up num (- (e - 1)) * up den e = 2 * (up num (- e) * up den (e - 1))).
  { rewrite !up_mul. enough (2 ^ Z.max 0 (- (e - 1)) * 2 ^ Z.max 0 e = 2 * (2 ^ Z.max 0 (- e) * 2 ^ Z.max 0 (e - 1))) by nia.
    change 2 with (2 ^ 1) at 3. rewrite <- !Z.pow_add_r by lia. f_equal. lia. }
  assert (0 < up den e) by (rewrite up_mul; apply Z.mul_pos_pos; [done|apply Z.pow_pos_nonneg; lia]).
  assert (0 < up den (e - 1)) by (rewrite up_mul; apply Z.mul_pos_pos; [done|apply Z.pow_pos_nonneg; lia]).
  nia.
Qed.
