(* ===== verification/BfdSession.v ===== *)
(** * BFD: sessions

    bfdSession.go of src/bfd/server. A session is driven by its goroutine, which processes
    the packets of its queue, by the callbacks of its two timers, and by the server. A
    callback or a packet is processed in one step; what goes to the network and to the
    applications is appended to [out]. *)

From S2P Require Import Prelude.
From S2P Require Import Digest.
From S2P Require Import BfdPacket.
From S2P Require Import Float32.

(** ** Data *)

Inductive BfdSessionEvent := REMOTE_DOWN | REMOTE_INIT | REMOTE_UP | TIMEOUT | ADMIN_DOWN | ADMIN_UP | REMOTE_ADMIN_DOWN.

#[export] Instance BfdSessionEvent_eq_dec : EqDecision BfdSessionEvent.
Proof. solve_decision. Defined.

(** bfddCommonDefs.BfdSessionOwner *)
Definition MAX_APPS : Z := 5.

Definition PACKET_QUEUE_SIZE : Z := 128.

(** A *time.Timer: nil, not running, or set to expire after some milliseconds. *)
Inductive Timer := NilTimer | Stopped | Armed (ms : Z).

#[export] Instance Timer_eq_dec : EqDecision Timer.
Proof. solve_decision. Defined.

Inductive Out :=
| Wrote (packet : bytes)
| Notify (DestIp : string) (State : bool).

(** The fields of SessionState come first, without the MAC addresses, the time of the last
    change and the fields nothing writes. *)
Record BfdSession := mkBfdSession {
  IpAddr : string;
  LocalAddr : string;
  SessionId : Z;
  ParamName : string;
  Interface : string;
  InterfaceSpecific : bool;
  PerLinkSession : bool;
  RegisteredProtocols : list bool;
  SessionState : Z;
  RemoteSessionState : Z;
  LocalDiscriminator : Z;
  RemoteDiscriminator : Z;
  LocalDiagType : Z;
  st_DesiredMinTxInterval : Z;
  st_RequiredMinRxInterval : Z;
  RemoteMinRxInterval : Z;
  DetectionMultiplier : Z;
  RemoteDetectionMultiplier : Z;
  DemandMode : bool;
  RemoteDemandMode : bool;
  ReceivedAuthSeq : Z;
  NumTxPackets : Z;
  NumRxPackets : Z;
  ToDownCount : Z;
  ToUpCount : Z;
  rxInterval : Z;
  sessionTimer : Timer;
  txInterval : Z;
  txTimer : Timer;
  txJitter : Z;
  bfdPacket : BfdControlPacket;
  bfdPacketBuf : bytes;
  ReceivedPacketCh : list BfdControlPacket;
  pollSequence : bool;
  pollSequenceFinal : bool;
  pollChanged : bool;
  authEnabled : bool;
  authType : Z;
  authSeqNum : Z;
  authKeyId : Z;
  authData : bytes;
  useDedicatedMac : bool;
  paramChanged : bool;
  remoteParamChanged : bool;
  stateChanged : bool;
  isClientActive : bool;
  movedToDownState : bool;
  notifiedState : bool;
  out : list Out;
}.

Definition BfdSession_eta (s : BfdSession) : BfdSession :=
  mkBfdSession (IpAddr s) (LocalAddr s) (SessionId s) (ParamName s) (Interface s) (InterfaceSpecific s)
    (PerLinkSession s) (RegisteredProtocols s) (SessionState s) (RemoteSessionState s) (LocalDiscriminator s)
    (RemoteDiscriminator s) (LocalDiagType s) (st_DesiredMinTxInterval s) (st_RequiredMinRxInterval s)
    (RemoteMinRxInterval s) (DetectionMultiplier s) (RemoteDetectionMultiplier s) (DemandMode s)
    (RemoteDemandMode s) (ReceivedAuthSeq s) (NumTxPackets s) (NumRxPackets s) (ToDownCount s) (ToUpCount s)
    (rxInterval s) (sessionTimer s) (txInterval s) (txTimer s) (txJitter s) (bfdPacket s) (bfdPacketBuf s)
    (ReceivedPacketCh s) (pollSequence s) (pollSequenceFinal s) (pollChanged s) (authEnabled s) (authType s)
    (authSeqNum s) (authKeyId s) (authData s) (useDedicatedMac s) (paramChanged s) (remoteParamChanged s)
    (stateChanged s) (isClientActive s) (movedToDownState s) (notifiedState s) (out s).

Definition set_InterfaceSpecific v s := ltac:(update BfdSession_eta s InterfaceSpecific v).
Definition set_RegisteredProtocols v s := ltac:(update BfdSession_eta s RegisteredProtocols v).
Definition set_SessionState v s := ltac:(update BfdSession_eta s SessionState v).
Definition set_RemoteSessionState v s := ltac:(update BfdSession_eta s RemoteSessionState v).
Definition set_RemoteDiscriminator v s := ltac:(update BfdSession_eta s RemoteDiscriminator v).
Definition set_LocalDiagType v s := ltac:(update BfdSession_eta s LocalDiagType v).
Definition set_st_DesiredMinTxInterval v s := ltac:(update BfdSession_eta s st_DesiredMinTxInterval v).
Definition set_st_RequiredMinRxInterval v s := ltac:(update BfdSession_eta s st_RequiredMinRxInterval v).
Definition set_RemoteMinRxInterval v s := ltac:(update BfdSession_eta s RemoteMinRxInterval v).
Definition set_DetectionMultiplier v s := ltac:(update BfdSession_eta s DetectionMultiplier v).
Definition set_RemoteDetectionMultiplier v s := ltac:(update BfdSession_eta s RemoteDetectionMultiplier v).
Definition set_DemandMode v s := ltac:(update BfdSession_eta s DemandMode v).
Definition set_RemoteDemandMode v s := ltac:(update BfdSession_eta s RemoteDemandMode v).
Definition set_NumTxPackets v s := ltac:(update BfdSession_eta s NumTxPackets v).
Definition set_NumRxPackets v s := ltac:(update BfdSession_eta s NumRxPackets v).
Definition set_ToDownCount v s := ltac:(update BfdSession_eta s ToDownCount v).
Definition set_ToUpCount v s := ltac:(update BfdSession_eta s ToUpCount v).
Definition set_rxInterval v s := ltac:(update BfdSession_eta s rxInterval v).
Definition set_sessionTimer v s := ltac:(update BfdSession_eta s sessionTimer v).
Definition set_txInterval v s := ltac:(update BfdSession_eta s txInterval v).
Definition set_txTimer v s := ltac:(update BfdSession_eta s txTimer v).
Definition set_bfdPacket v s := ltac:(update BfdSession_eta s bfdPacket v).
Definition set_bfdPacketBuf v s := ltac:(update BfdSession_eta s bfdPacketBuf v).
Definition set_ReceivedPacketCh v s := ltac:(update BfdSession_eta s ReceivedPacketCh v).
Definition set_pollSequence v s := ltac:(update BfdSession_eta s pollSequence v).
Definition set_pollSequenceFinal v s := ltac:(update BfdSession_eta s pollSequenceFinal v).
Definition set_pollChanged v s := ltac:(update BfdSession_eta s pollChanged v).
Definition set_authEnabled v s := ltac:(update BfdSession_eta s authEnabled v).
Definition set_authType v s := ltac:(update BfdSession_eta s authType v).
Definition set_authSeqNum v s := ltac:(update BfdSession_eta s authSeqNum v).
Definition set_authKeyId v s := ltac:(update BfdSession_eta s authKeyId v).
Definition set_authData v s := ltac:(update BfdSession_eta s authData v).
Definition set_useDedicatedMac v s := ltac:(update BfdSession_eta s useDedicatedMac v).
Definition set_paramChanged v s := ltac:(update BfdSession_eta s paramChanged v).
Definition set_remoteParamChanged v s := ltac:(update BfdSession_eta s remoteParamChanged v).
Definition set_stateChanged v s := ltac:(update BfdSession_eta s stateChanged v).
Definition set_isClientActive v s := ltac:(update BfdSession_eta s isClientActive v).
Definition set_movedToDownState v s := ltac:(update BfdSession_eta s movedToDownState v).
Definition set_notifiedState v s := ltac:(update BfdSession_eta s notifiedState v).
Definition set_out v s := ltac:(update BfdSession_eta s out v).

Definition emit (o : Out) (s : BfdSession) : BfdSession := set_out (out s ++ [o]) s.

(** ** Timers *)

(** [Reset] and [Stop] of a timer that was never made panic. *)
Definition made (t : Timer) : bool := match t with NilTimer => false | _ => true end.

Definition reset_sessionTimer (ms : Z) (s : BfdSession) : res BfdSession :=
  _ ← must (made (sessionTimer s)); Ok (set_sessionTimer (Armed ms) s).
Definition stop_sessionTimer (s : BfdSession) : res BfdSession :=
  _ ← must (made (sessionTimer s)); Ok (set_sessionTimer Stopped s).
Definition reset_txTimer (ms : Z) (s : BfdSession) : res BfdSession :=
  _ ← must (made (txTimer s)); Ok (set_txTimer (Armed ms) s).
Definition stop_txTimer (s : BfdSession) : res BfdSession :=
  _ ← must (made (txTimer s)); Ok (set_txTimer Stopped s).

(** In int32: microseconds times a multiplier, in milliseconds. *)
Definition interval_ms (us mult : Z) : Z := Z.quot (i32 (us * mult)) 1000.

(** Of the transmission interval. *)
Definition jittered (txInterval txJitter : Z) : Z :=
  int32_of_f32 (f32_mul (f32_of_int txInterval)
    (f32_sub (f32_of_int 1) (f32_div (f32_of_int txJitter) (f32_of_int 100)))).

Definition ApplyTxJitter (s : BfdSession) : Z := jittered (txInterval s) (txJitter s).

Example jitter_250_3 : jittered 250 3 = 242. Proof. by vm_compute. Qed.
Example jitter_2000_0 : jittered 2000 0 = 2000. Proof. by vm_compute. Qed.
Example jitter_100_9 : jittered 100 9 = 91. Proof. by vm_compute. Qed.

(** ** Notifications *)

Definition GetBfdSessionNotification (s : BfdSession) : bool :=
  (SessionState s =? STATE_UP) || (SessionState s =? STATE_ADMIN_DOWN) || (RemoteSessionState s =? STATE_ADMIN_DOWN).

Definition SendBfdNotification (s : BfdSession) : BfdSession :=
  let bfdState := GetBfdSessionNotification s in
  if bool_decide (bfdState = notifiedState s) then s
  else emit (Notify (IpAddr s) bfdState) (set_notifiedState bfdState s).

(** ** States *)

Definition IsSessionActive (s : BfdSession) : bool := isClientActive s.

Definition ResetLocalSessionParams (s : BfdSession) : BfdSession :=
  set_ToDownCount 0 (set_ToUpCount 0 (set_NumTxPackets 0 (set_NumRxPackets 0 (set_SessionState STATE_DOWN s)))).

Definition ResetRemoteSessionParams (s : BfdSession) : BfdSession :=
  set_remoteParamChanged true (set_RemoteSessionState STATE_DOWN (set_RemoteDiscriminator 0 s)).

(** The intervals of a session that is starting. *)
Definition startup_tx (s : BfdSession) : BfdSession := set_txInterval (STARTUP_TX_INTERVAL / 1000) s.
Definition startup_rx (s : BfdSession) : BfdSession :=
  set_rxInterval (interval_ms STARTUP_RX_INTERVAL (DetectionMultiplier s)) s.

Definition LocalAdminDown (s : BfdSession) : res BfdSession :=
  let s := set_stateChanged true (set_LocalDiagType DIAG_ADMIN_DOWN (set_SessionState STATE_ADMIN_DOWN s)) in
  s ← reset_txTimer 0 (startup_tx (SendBfdNotification s));
  stop_sessionTimer (startup_rx s).

Definition RemoteAdminDown (s : BfdSession) : res BfdSession :=
  let s := set_LocalDiagType DIAG_NEIGHBOR_SIGNAL_DOWN (set_RemoteSessionState STATE_ADMIN_DOWN s) in
  s ← reset_txTimer 0 (startup_tx (SendBfdNotification s));
  stop_sessionTimer (startup_rx s).

Definition MoveToDownState (s : BfdSession) : res BfdSession :=
  let s := set_ToDownCount (u32 (ToDownCount s + 1)) (set_SessionState STATE_DOWN s) in
  let s := set_stateChanged true (set_useDedicatedMac true (set_movedToDownState true s)) in
  let s := if (authType s =? BFD_AUTH_TYPE_KEYED_MD5) || (authType s =? BFD_AUTH_TYPE_KEYED_SHA1)
           then set_authSeqNum (u32 (authSeqNum s + 1)) s else s in
  let s := startup_tx (SendBfdNotification s) in
  s ← reset_txTimer (txInterval s) s;
  let s := startup_rx s in
  reset_sessionTimer (rxInterval s) s.

Definition MoveToInitState (s : BfdSession) : BfdSession :=
  set_movedToDownState false (set_useDedicatedMac true (set_stateChanged true (set_SessionState STATE_INIT s))).

Definition MoveToUpState (s : BfdSession) : BfdSession :=
  let s := set_ToUpCount (u32 (ToUpCount s + 1)) (set_SessionState STATE_UP s) in
  SendBfdNotification (set_LocalDiagType DIAG_NONE (set_movedToDownState false (set_stateChanged true s))).

Definition EventHandler (event : BfdSessionEvent) (s : BfdSession) : res BfdSession :=
  if negb (IsSessionActive s) then Ok s
  else if SessionState s =? STATE_DOWN then
    match event with
    | REMOTE_DOWN => Ok (MoveToInitState s)
    | REMOTE_INIT => Ok (MoveToUpState s)
    | ADMIN_UP => MoveToDownState s
    | ADMIN_DOWN => LocalAdminDown s
    | REMOTE_ADMIN_DOWN => RemoteAdminDown s
    | TIMEOUT | REMOTE_UP => Ok s
    end
  else if SessionState s =? STATE_INIT then
    match event with
    | REMOTE_INIT | REMOTE_UP => Ok (MoveToUpState s)
    | TIMEOUT => MoveToDownState s
    | ADMIN_DOWN => LocalAdminDown s
    | REMOTE_ADMIN_DOWN => RemoteAdminDown s
    | REMOTE_DOWN | ADMIN_UP => Ok s
    end
  else if SessionState s =? STATE_UP then
    match event with
    | REMOTE_DOWN | TIMEOUT => MoveToDownState s
    | ADMIN_DOWN => LocalAdminDown s
    | REMOTE_ADMIN_DOWN => RemoteAdminDown s
    | REMOTE_INIT | REMOTE_UP | ADMIN_UP => Ok s
    end
  else Ok s.

(** ** Received packets *)

Definition CanProcessBfdControlPacket (p : BfdControlPacket) : bool :=
  (Version p =? DEFAULT_BFD_VERSION) && negb (DetectMult p =? 0) && negb (Multipoint p) && negb (MyDiscriminator p =? 0).

(** What [binary.Write] appends for a BfdControlPacket: the struct has fields of no fixed
    size, so that binary.Write returns an error, which is ignored, and appends nothing. *)
Definition binary_Write_packet (p : BfdControlPacket) : bytes := [].

Definition AuthenticateReceivedControlPacket (p : BfdControlPacket) (s : BfdSession) : res bool :=
  if negb (AuthPresent p) then Ok true
  else
    h ← of_option (AuthHeader p);
    if negb (ah_Type h =? authType s) then Ok false
    else if ah_Type h =? BFD_AUTH_TYPE_SIMPLE then
      Ok ((AuthKeyID h =? authKeyId s) && bool_decide (AuthData h = authData s))
    else if (ReceivedAuthSeq s <=? SequenceNumber h) && (AuthKeyID h =? authKeyId s) then
      let binBuf := binary_Write_packet p in
      Ok (if is_md5 (ah_Type h) then bool_decide (AuthData h = md5_Sum binBuf)
          else if is_sha1 (ah_Type h) then bool_decide (AuthData h = sha1_Sum binBuf) else false)
    else Ok false.

Definition CheckAnyRemoteParamChanged (p : BfdControlPacket) (s : BfdSession) : BfdSession :=
  let s := if negb (RemoteSessionState s =? pkt_State p) || negb (RemoteDiscriminator s =? MyDiscriminator p)
              || negb (RemoteMinRxInterval s =? i32 (RequiredMinRxInterval p))
           then set_remoteParamChanged true s else s in
  set_RemoteDetectionMultiplier (DetectMult p) (set_RemoteMinRxInterval (i32 (RequiredMinRxInterval p))
    (set_RemoteDiscriminator (MyDiscriminator p) (set_RemoteSessionState (pkt_State p) s))).

Definition RemoteChangedDemandMode (p : BfdControlPacket) (s : BfdSession) : res BfdSession :=
  let wasDemandMode := RemoteDemandMode s in
  let s := set_RemoteDemandMode (Demand p) s in
  if RemoteDemandMode s then stop_txTimer s
  else if wasDemandMode then reset_txTimer (ApplyTxJitter s) s else Ok s.

Definition InitiatePollSequence (s : BfdSession) : BfdSession :=
  if pollSequence s then s else set_pollChanged true (set_pollSequence true s).

Definition ProcessPollSequence (p : BfdControlPacket) (s : BfdSession) : BfdSession :=
  if SessionState s =? STATE_ADMIN_DOWN then s
  else
    let s := if Poll p then set_pollChanged true (set_pollSequenceFinal true s) else s in
    if Final p then set_pollChanged true (set_pollSequence false s) else s.

(** The event of the remote state, which has two bits. *)
Definition remote_event (st : Z) : option BfdSessionEvent :=
  if st =? STATE_DOWN then Some REMOTE_DOWN else if st =? STATE_INIT then Some REMOTE_INIT
  else if st =? STATE_UP then Some REMOTE_UP else if st =? STATE_ADMIN_DOWN then Some REMOTE_ADMIN_DOWN else None.

Definition detection_interval (p : BfdControlPacket) (s : BfdSession) : Z :=
  if (SessionState s =? STATE_UP) && (RemoteSessionState s =? STATE_UP)
  then interval_ms (i32 (DesiredMinTxInterval p)) (DetectMult p)
  else interval_ms STARTUP_RX_INTERVAL (DetectMult p).

Definition ProcessBfdPacket (p : BfdControlPacket) (s : BfdSession) : res BfdSession :=
  authenticated ← AuthenticateReceivedControlPacket p s;
  if negb authenticated then Ok s
  else if negb (CanProcessBfdControlPacket p) then Ok s
  else
    let s := CheckAnyRemoteParamChanged p (set_rxInterval (detection_interval p s) s) in
    s ← RemoteChangedDemandMode p s;
    let s := ProcessPollSequence p s in
    s ← (if (rxInterval s =? 0) || (SessionState s =? STATE_ADMIN_DOWN) || (RemoteSessionState s =? STATE_ADMIN_DOWN)
         then stop_sessionTimer s else Ok s);
    let s := if (RemoteSessionState s =? STATE_DOWN) && negb (SessionState s =? STATE_DOWN)
             then set_LocalDiagType DIAG_NEIGHBOR_SIGNAL_DOWN s else s in
    s ← (if (RemoteSessionState s =? STATE_UP) && (SessionState s =? STATE_UP)
            && negb (txInterval s =? Z.quot (st_DesiredMinTxInterval s) 1000)
         then reset_txTimer 0 (set_txInterval (Z.quot (st_DesiredMinTxInterval s) 1000) s) else Ok s);
    match remote_event (RemoteSessionState s) with Some event => EventHandler event s | None => Ok s end.

(** ** Sent packets *)

Definition BfdControlPacket_eta (p : BfdControlPacket) : BfdControlPacket :=
  mkControlPacket (Version p) (Diagnostic p) (pkt_State p) (Poll p) (Final p) (ControlPlaneIndependent p) (AuthPresent p)
    (Demand p) (Multipoint p) (DetectMult p) (MyDiscriminator p) (YourDiscriminator p) (DesiredMinTxInterval p)
    (RequiredMinRxInterval p) (RequiredMinEchoRxInterval p) (AuthHeader p).

Definition with_state (s : BfdSession) (p : BfdControlPacket) : BfdControlPacket :=
  mkControlPacket (Version p) (LocalDiagType s) (SessionState s) (Poll p) (Final p) (ControlPlaneIndependent p) (AuthPresent p)
    (Demand p) (Multipoint p) (u8 (DetectionMultiplier s)) (LocalDiscriminator s) (RemoteDiscriminator s) (DesiredMinTxInterval p)
    (RequiredMinRxInterval p) (RequiredMinEchoRxInterval p) (AuthHeader p).
Definition with_intervals (tx rx : Z) (p : BfdControlPacket) : BfdControlPacket :=
  ltac:(let p' := constr:(ltac:(update BfdControlPacket_eta p DesiredMinTxInterval tx)) in
        update BfdControlPacket_eta p' RequiredMinRxInterval rx).
Definition with_Demand (v : bool) (p : BfdControlPacket) : BfdControlPacket := ltac:(update BfdControlPacket_eta p Demand v).
Definition with_Poll (v : bool) (p : BfdControlPacket) : BfdControlPacket := ltac:(update BfdControlPacket_eta p Poll v).
Definition with_Final (v : bool) (p : BfdControlPacket) : BfdControlPacket := ltac:(update BfdControlPacket_eta p Final v).
Definition with_Auth (present : bool) (h : option BfdAuthHeader) (p : BfdControlPacket) : BfdControlPacket :=
  mkControlPacket (Version p) (Diagnostic p) (pkt_State p) (Poll p) (Final p) (ControlPlaneIndependent p) present
    (Demand p) (Multipoint p) (DetectMult p) (MyDiscriminator p) (YourDiscriminator p) (DesiredMinTxInterval p)
    (RequiredMinRxInterval p) (RequiredMinEchoRxInterval p) h.
Definition on_packet (g : BfdControlPacket -> BfdControlPacket) (s : BfdSession) : BfdSession := set_bfdPacket (g (bfdPacket s)) s.

(** The intervals and the demand bit, which follow the state. *)
Definition update_intervals (s : BfdSession) : res BfdSession :=
  if (SessionState s =? STATE_UP) && (RemoteSessionState s =? STATE_UP) then
    let s := if (DesiredMinTxInterval (bfdPacket s) =? STARTUP_TX_INTERVAL)
                || (RequiredMinRxInterval (bfdPacket s) =? STARTUP_RX_INTERVAL)
             then InitiatePollSequence (on_packet (with_intervals (st_DesiredMinTxInterval s) (st_RequiredMinRxInterval s)) s)
             else s in
    let wasDemand := Demand (bfdPacket s) in
    let s := on_packet (with_Demand (DemandMode s)) s in
    let isDemand := Demand (bfdPacket s) in
    s ← (if negb wasDemand && isDemand then stop_sessionTimer s else Ok s);
    if wasDemand && negb isDemand then reset_sessionTimer (rxInterval s) s else Ok s
  else Ok (on_packet (with_intervals STARTUP_TX_INTERVAL STARTUP_RX_INTERVAL) s).

(** [AuthHeader] is dereferenced. *)
Definition update_auth (s : BfdSession) : res BfdSession :=
  if authEnabled s then
    h ← of_option (AuthHeader (bfdPacket s));
    let seq := if authType s =? BFD_AUTH_TYPE_SIMPLE then SequenceNumber h else authSeqNum s in
    let s := if (authType s =? BFD_AUTH_TYPE_METICULOUS_MD5) || (authType s =? BFD_AUTH_TYPE_METICULOUS_SHA1)
             then set_authSeqNum (u32 (authSeqNum s + 1)) s else s in
    Ok (on_packet (with_Auth true (Some (mkAuthHeader (authType s) (u8 (authKeyId s)) seq (authData s)))) s)
  else Ok (on_packet (fun p => with_Auth false (AuthHeader p) p) s).

Definition UpdateBfdSessionControlPacket (s : BfdSession) : res BfdSession :=
  let s := on_packet (with_state s) s in
  s ← update_intervals s;
  let s := set_pollSequence false (on_packet (with_Poll (pollSequence s)) s) in
  let s := set_pollSequenceFinal false (on_packet (with_Final (pollSequenceFinal s)) s) in
  s ← update_auth s;
  Ok (set_remoteParamChanged false (set_stateChanged false (set_paramChanged false (set_pollChanged false s)))).

Definition NeedBfdPacketUpdate (s : BfdSession) : bool :=
  paramChanged s || remoteParamChanged s || pollChanged s || stateChanged s.

Definition make_packet (s : BfdSession) : res BfdSession :=
  s ← UpdateBfdSessionControlPacket s; Ok (set_bfdPacketBuf (CreateBfdControlPacket (bfdPacket s)) s).

(** The callback of [txTimer]; [ok] tells whether the connection takes the packet. *)
Definition SendPeriodicControlPackets (ok : bool) (s : BfdSession) : res BfdSession :=
  let packetUpdated := NeedBfdPacketUpdate s in
  s ← (if packetUpdated then make_packet s else Ok s);
  let s := if ok then set_NumTxPackets (u32 (NumTxPackets s + 1)) (emit (Wrote (bfdPacketBuf s)) s) else s in
  s ← (if packetUpdated then make_packet s else Ok s);
  let s := if (SessionState s =? STATE_UP) || (RemoteSessionState s =? STATE_UP)
           then set_txInterval (Z.quot (st_DesiredMinTxInterval s) 1000) s else s in
  reset_txTimer (ApplyTxJitter s) s.

(** The callback of [sessionTimer]. *)
Definition HandleSessionTimeout (s : BfdSession) : res BfdSession :=
  let s := if movedToDownState s then set_movedToDownState false (ResetRemoteSessionParams s) else s in
  s ← EventHandler TIMEOUT (set_LocalDiagType DIAG_TIME_EXPIRED s);
  reset_sessionTimer (rxInterval s) s.

(** ** The server's calls *)

Definition CheckIfAnyProtocolRegistered (s : BfdSession) : bool := existsb id (drop 1 (RegisteredProtocols s)).

Definition StopBfdSession (s : BfdSession) : res BfdSession :=
  s ← EventHandler ADMIN_DOWN s; Ok (set_LocalDiagType DIAG_ADMIN_DOWN s).

Definition StartBfdSession (s : BfdSession) : res BfdSession :=
  s ← reset_sessionTimer (rxInterval s) s;
  s ← reset_txTimer (ApplyTxJitter s) s;
  EventHandler ADMIN_UP (set_SessionState STATE_DOWN s).

(** The part of DispatchReceivedBfdPacket that concerns the session, which waits when the
    queue is full. *)
Definition receive_packet (p : BfdControlPacket) (s : BfdSession) : res BfdSession :=
  if IsSessionActive s && negb (rxInterval s =? 0) && made (sessionTimer s) then
    if len (ReceivedPacketCh s) <? PACKET_QUEUE_SIZE
    then Ok (set_ReceivedPacketCh (ReceivedPacketCh s ++ [p]) (set_sessionTimer (Armed (rxInterval s)) s))
    else NoFuel
  else Ok s.

(** A turn of the loop. *)
Definition StartSessionServer (s : BfdSession) : res BfdSession :=
  match ReceivedPacketCh s with
  | bfdPacket :: queue => ProcessBfdPacket bfdPacket (set_NumRxPackets (u32 (NumRxPackets s + 1)) (set_ReceivedPacketCh queue s))
  | [] => Ok s
  end.

(** Up to its loop; [connected] tells whether the addresses resolve and the socket opens. *)
Definition StartSessionClient (connected : bool) (s : BfdSession) : BfdSession :=
  if connected then
    set_isClientActive true (set_sessionTimer (Armed (rxInterval s)) (set_txTimer (Armed (txInterval s)) s))
  else s.

(** When the loop of the client is left, both timers are stopped. *)
Definition client_stops (s : BfdSession) : BfdSession := set_sessionTimer Stopped (set_txTimer Stopped s).

(** The part of ResetBfdSession that concerns the session. *)
Definition reset_session (connected : bool) (s : BfdSession) : BfdSession :=
  let s := if IsSessionActive s then client_stops s else s in
  StartSessionClient connected (set_isClientActive false (ResetLocalSessionParams s)).

(** ** Creation and parameters *)

Record SessionParamState := mkSessionParamState {
  Name : string;
  NumSessions : Z;
  LocalMultiplier : Z;
  prm_DesiredMinTxInterval : Z;
  prm_RequiredMinRxInterval : Z;
  prm_RequiredMinEchoRxInterval : Z;
  DemandEnabled : bool;
  AuthenticationEnabled : bool;
  AuthenticationType : Z;
  AuthenticationKeyId : Z;
  AuthenticationData : bytes;
}.

(** The fields NewNormalBfdSession gives a session whose parameters [param] are found
    under [paramName]; the jitter is drawn from 0 to 9. *)
Definition new_session (sessionId jitter : Z) (interface localIp destIp paramName : string) (perLink : bool)
    (protocols : list bool) (param : SessionParamState) : BfdSession :=
  mkBfdSession destIp localIp sessionId paramName interface false perLink protocols STATE_DOWN STATE_DOWN (u32 sessionId) 0 DIAG_NONE
    (prm_DesiredMinTxInterval param) (prm_RequiredMinRxInterval param) 0 (LocalMultiplier param) 0 (DemandEnabled param)
    false 0 0 0 0 0 (interval_ms STARTUP_RX_INTERVAL (LocalMultiplier param)) NilTimer (STARTUP_TX_INTERVAL / 1000) NilTimer jitter
    NewBfdControlPacketDefault [] [] false false false (AuthenticationEnabled param) (u8 (AuthenticationType param)) 1
    (u32 (AuthenticationKeyId param)) (AuthenticationData param) perLink true false false false false false [].

(** What UpdateBfdSessionsUsingParam does to a session of the parameters, or of parameters
    that are gone. *)
Definition apply_param (param : option SessionParamState) (s : BfdSession) : BfdSession :=
  let s :=
    match param with
    | Some param =>
      let s := set_st_RequiredMinRxInterval (prm_RequiredMinRxInterval param)
                 (set_st_DesiredMinTxInterval (prm_DesiredMinTxInterval param) s) in
      let s := set_DemandMode (DemandEnabled param) (set_DetectionMultiplier (LocalMultiplier param) s) in
      let s := set_authType (u8 (AuthenticationType param)) (set_authEnabled (AuthenticationEnabled param) s) in
      set_authData (AuthenticationData param) (set_authKeyId (u32 (AuthenticationKeyId param)) s)
    | None =>
      let s := set_st_RequiredMinRxInterval DEFAULT_REQUIRED_MIN_RX_INTERVAL
                 (set_st_DesiredMinTxInterval DEFAULT_DESIRED_MIN_TX_INTERVAL s) in
      set_authEnabled false (set_DemandMode false (set_DetectionMultiplier DEFAULT_DETECT_MULTI s))
    end in
  InitiatePollSequence (set_paramChanged true s).

(** Reduces the fields of an updated session. *)
Ltac session_cbn :=
  cbn [IpAddr LocalAddr SessionId ParamName Interface InterfaceSpecific PerLinkSession RegisteredProtocols 
    SessionState RemoteSessionState LocalDiscriminator RemoteDiscriminator LocalDiagType st_DesiredMinTxInterval 
    st_RequiredMinRxInterval RemoteMinRxInterval DetectionMultiplier RemoteDetectionMultiplier DemandMode 
    RemoteDemandMode ReceivedAuthSeq NumTxPackets NumRxPackets ToDownCount ToUpCount rxInterval sessionTimer 
    txInterval txTimer txJitter bfdPacket bfdPacketBuf ReceivedPacketCh pollSequence pollSequenceFinal 
    pollChanged authEnabled authType authSeqNum authKeyId authData useDedicatedMac paramChanged 
    remoteParamChanged stateChanged isClientActive movedToDownState notifiedState out set_InterfaceSpecific 
    set_RegisteredProtocols set_SessionState set_RemoteSessionState set_RemoteDiscriminator set_LocalDiagType 
    set_st_DesiredMinTxInterval set_st_RequiredMinRxInterval set_RemoteMinRxInterval set_DetectionMultiplier 
    set_RemoteDetectionMultiplier set_DemandMode set_RemoteDemandMode set_NumTxPackets set_NumRxPackets 
    set_ToDownCount set_ToUpCount set_rxInterval set_sessionTimer set_txInterval set_txTimer set_bfdPacket 
    set_bfdPacketBuf set_ReceivedPacketCh set_pollSequence set_pollSequenceFinal set_pollChanged set_authEnabled 
    set_authType set_authSeqNum set_authKeyId set_authData set_useDedicatedMac set_paramChanged 
    set_remoteParamChanged set_stateChanged set_isClientActive set_movedToDownState set_notifiedState set_out] in *.
