(* ===== verification/BfdSessionSpec.v ===== *)
(** * BFD: what a session guarantees

    Every call of a session whose timers were made returns; the states follow RFC 5880. *)

From S2P Require Import Prelude.
From S2P Require Import Digest.
From S2P Require Import BfdPacket.
From S2P Require Import BfdPacketSpec.
From S2P Require Import BfdSession.

(** ** Live sessions *)

Definition live (s : BfdSession) : Prop := made (sessionTimer s) = true /\ made (txTimer s) = true.

(** The fields that the calls below leave alone, and timers that stay made. *)
Definition stays (s s' : BfdSession) : Prop :=
  live s' /\ isClientActive s' = isClientActive s /\ ReceivedPacketCh s' = ReceivedPacketCh s /\
  authEnabled s' = authEnabled s /\ AuthHeader (bfdPacket s') = AuthHeader (bfdPacket s) /\
  DetectionMultiplier s' = DetectionMultiplier s /\ LocalDiscriminator s' = LocalDiscriminator s /\
  st_DesiredMinTxInterval s' = st_DesiredMinTxInterval s /\ st_RequiredMinRxInterval s' = st_RequiredMinRxInterval s /\
  DemandMode s' = DemandMode s /\ txJitter s' = txJitter s /\ IpAddr s' = IpAddr s /\ SessionId s' = SessionId s /\
  authType s' = authType s /\ authKeyId s' = authKeyId s /\ authData s' = authData s /\
  ReceivedAuthSeq s' = ReceivedAuthSeq s.

Lemma stays_refl s : live s -> stays s s.
Proof. by unfold stays. Qed.

Lemma stays_trans s1 s2 s3 : stays s1 s2 -> stays s2 s3 -> stays s1 s3.
Proof. unfold stays. intuition congruence. Qed.

(** [s'] is [s] with fields set that do not matter. *)
Ltac stays_done := unfold stays, live in *; session_cbn; intuition (done || congruence).

(** A call of a live session returns a session with [P]. *)
Definition returns (r : res BfdSession) (s : BfdSession) (P : BfdSession -> Prop) : Prop :=
  exists s', r = Ok s' /\ stays s s' /\ P s'.

Lemma returns_bind r k s (P Q : BfdSession -> Prop) :
  returns r s P -> (forall s', stays s s' -> P s' -> returns (k s') s' Q) -> returns (r ≫= k) s Q.
Proof.
  intros (s1 & -> & Hs & HP) Hk. destruct (Hk s1 Hs HP) as (s2 & E & Hs2 & HQ). exists s2. cbn. eauto using stays_trans.
Qed.

Lemma returns_mono r s (P Q : BfdSession -> Prop) : returns r s P -> (forall s', P s' -> Q s') -> returns r s Q.
Proof. intros (s' & E & Hs & HP) H. exists s'. auto. Qed.

Lemma returns_from r s0 s (P : BfdSession -> Prop) : stays s0 s -> returns r s P -> returns r s0 P.
Proof. intros H (s' & E & Hs & HP). exists s'. eauto using stays_trans. Qed.

Lemma returns_ok s s' (P : BfdSession -> Prop) : stays s s' -> P s' -> returns (Ok s') s P.
Proof. intros. exists s'. auto. Qed.

Lemma made_reset_session ms s : live s -> reset_sessionTimer ms s = Ok (set_sessionTimer (Armed ms) s).
Proof. intros [H _]. unfold reset_sessionTimer. by rewrite H. Qed.
Lemma made_stop_session s : live s -> stop_sessionTimer s = Ok (set_sessionTimer Stopped s).
Proof. intros [H _]. unfold stop_sessionTimer. by rewrite H. Qed.
Lemma made_reset_tx ms s : live s -> reset_txTimer ms s = Ok (set_txTimer (Armed ms) s).
Proof. intros [_ H]. unfold reset_txTimer. by rewrite H. Qed.
Lemma made_stop_tx s : live s -> stop_txTimer s = Ok (set_txTimer Stopped s).
Proof. intros [_ H]. unfold stop_txTimer. by rewrite H. Qed.

(** ** The states *)

(** The transitions of the code; remote AdminDown leaves the local state alone. *)
Definition event_next (st : Z) (event : BfdSessionEvent) : Z :=
  match event with
  | REMOTE_DOWN => if st =? STATE_DOWN then STATE_INIT else if st =? STATE_UP then STATE_DOWN else st
  | REMOTE_INIT => if (st =? STATE_DOWN) || (st =? STATE_INIT) then STATE_UP else st
  | REMOTE_UP => if st =? STATE_INIT then STATE_UP else st
  | TIMEOUT => if (st =? STATE_INIT) || (st =? STATE_UP) then STATE_DOWN else st
  | ADMIN_DOWN => STATE_ADMIN_DOWN
  | ADMIN_UP | REMOTE_ADMIN_DOWN => st
  end.

Definition is_state (st : Z) : Prop := st = STATE_ADMIN_DOWN \/ st = STATE_DOWN \/ st = STATE_INIT \/ st = STATE_UP.

(** Applications know of a session that is up. *)
Definition notified (s : BfdSession) : Prop := SessionState s = STATE_UP -> notifiedState s = true.

Definition multiplier_ok (s : BfdSession) : Prop := 1 <= DetectionMultiplier s <= 255.

(** What an event changes, besides timers, counters and intervals. *)
Record event_effect (s : BfdSession) (event : BfdSessionEvent) (s' : BfdSession) : Prop := {
  ev_state : SessionState s' = event_next (SessionState s) event;
  ev_remote : RemoteSessionState s' =
    (if bool_decide (event = REMOTE_ADMIN_DOWN) then STATE_ADMIN_DOWN else RemoteSessionState s);
  ev_discriminator : RemoteDiscriminator s' = RemoteDiscriminator s;
  ev_packet : bfdPacket s' = bfdPacket s;
  ev_buf : bfdPacketBuf s' = bfdPacketBuf s;
  ev_update : NeedBfdPacketUpdate s = true -> NeedBfdPacketUpdate s' = true;
  ev_changed : SessionState s' <> SessionState s -> NeedBfdPacketUpdate s' = true;
  ev_notified : notified s -> notified s';
  ev_poll : pollSequence s' = pollSequence s;
  ev_final : pollSequenceFinal s' = pollSequenceFinal s;
  ev_diag : 0 <= LocalDiagType s < 32 -> 0 <= LocalDiagType s' < 32;
  ev_rx : multiplier_ok s -> rxInterval s <> 0 -> rxInterval s' <> 0;
}.

Lemma startup_interval s : multiplier_ok s -> interval_ms STARTUP_RX_INTERVAL (DetectionMultiplier s) <> 0.
Proof.
  unfold multiplier_ok, interval_ms, STARTUP_RX_INTERVAL, i32. intros H.
  rewrite Z.mod_small by lia. replace (2000000 * DetectionMultiplier s + 2147483648 - 2147483648) with (DetectionMultiplier s * 2000 * 1000) by lia.
  rewrite Z.quot_mul; lia.
Qed.

Ltac event_done H :=
  unfold returns; eexists; split; [reflexivity|]; split; [stays_done|];
  constructor; unfold notified, NeedBfdPacketUpdate, GetBfdSessionNotification, multiplier_ok in *; session_cbn;
  rewrite ?bool_decide_false, ?H, ?orb_true_r by done; try done; try (by intros; lia); try (by intros; apply startup_interval).

Ltac live_done := unfold live in *; session_cbn; intuition (done || congruence).

Lemma send_notification s : exists o, SendBfdNotification s = set_out o (set_notifiedState (GetBfdSessionNotification s) s).
Proof.
  unfold SendBfdNotification. case_bool_decide as E.
  - exists (out s). rewrite E. by destruct s.
  - by eexists.
Qed.

Ltac notify :=
  match goal with |- context [SendBfdNotification ?s] => let o := fresh "o" in let E := fresh "E" in
    destruct (send_notification s) as [o E]; rewrite E; clear E end.

Lemma local_admin_down s : live s -> isClientActive s = true -> returns (LocalAdminDown s) s (event_effect s ADMIN_DOWN).
Proof.
  intros H Ha. unfold LocalAdminDown, startup_tx, startup_rx. notify.
  rewrite made_reset_tx by live_done. res_simpl. rewrite made_stop_session by live_done. event_done Ha.
Qed.

Lemma remote_admin_down s : live s -> isClientActive s = true -> returns (RemoteAdminDown s) s (event_effect s REMOTE_ADMIN_DOWN).
Proof.
  intros H Ha. unfold RemoteAdminDown, startup_tx, startup_rx. notify.
  rewrite made_reset_tx by live_done. res_simpl. rewrite made_stop_session by live_done. event_done Ha.
Qed.

Lemma move_to_down s event :
  live s -> isClientActive s = true -> event <> REMOTE_ADMIN_DOWN -> event_next (SessionState s) event = STATE_DOWN ->
  returns (MoveToDownState s) s (event_effect s event).
Proof.
  intros H Ha Hne Hev. unfold MoveToDownState.
  match goal with |- context [if _ then set_authSeqNum ?v ?s1 else ?s1] =>
    assert (exists n, (if (authType s1 =? BFD_AUTH_TYPE_KEYED_MD5) || (authType s1 =? BFD_AUTH_TYPE_KEYED_SHA1)
                       then set_authSeqNum v s1 else s1) = set_authSeqNum n s1) as [n En] end.
  { destruct (_ || _); [by eexists|]. exists (authSeqNum s). by destruct s. }
  cbv zeta in *. rewrite En. unfold startup_tx, startup_rx. notify.
  rewrite made_reset_tx by live_done. res_simpl. rewrite made_reset_session by live_done. clear En. event_done Hev.
Qed.

Lemma move_to_init s : live s -> SessionState s = STATE_DOWN -> returns (Ok (MoveToInitState s)) s (event_effect s REMOTE_DOWN).
Proof. intros H Hd. unfold MoveToInitState. event_done Hd. Qed.

Lemma move_to_up s event :
  live s -> event <> REMOTE_ADMIN_DOWN -> event_next (SessionState s) event = STATE_UP ->
  returns (Ok (MoveToUpState s)) s (event_effect s event).
Proof. intros H Hne Hev. unfold MoveToUpState. notify. event_done Hev. Qed.

Lemma event_ignored s event :
  live s -> event <> REMOTE_ADMIN_DOWN -> event_next (SessionState s) event = SessionState s ->
  returns (Ok s) s (event_effect s event).
Proof. intros H Hne Hev. event_done Hev. Qed.

#[local] Opaque LocalAdminDown RemoteAdminDown MoveToDownState MoveToInitState MoveToUpState.

(** Every event of an active session that is not administratively down. *)
Lemma event_handler s event :
  live s -> isClientActive s = true -> is_state (SessionState s) -> SessionState s <> STATE_ADMIN_DOWN ->
  returns (EventHandler event s) s (event_effect s event).
Proof.
  intros H Ha [Hs|Hs] Hn; [done|]. unfold EventHandler, IsSessionActive. rewrite Ha. cbn [negb].
  destruct Hs as [Hs|[Hs|Hs]]; rewrite Hs; cbn; destruct event;
    first [by apply local_admin_down | by apply remote_admin_down | by apply move_to_init
          | by apply event_ignored; rewrite ?Hs | by apply move_to_up; rewrite ?Hs
          | by apply move_to_down; rewrite ?Hs].
Qed.

(** ** Receiving a packet *)

(** A session [s1] on the way from [s] to its event. *)
Record packet_seen (p : BfdControlPacket) (s s1 : BfdSession) : Prop := {
  seen_state : SessionState s1 = SessionState s;
  seen_remote : RemoteSessionState s1 = pkt_State p;
  seen_discriminator : RemoteDiscriminator s1 = MyDiscriminator p;
  seen_packet : bfdPacket s1 = bfdPacket s;
  seen_buf : bfdPacketBuf s1 = bfdPacketBuf s;
  seen_update : NeedBfdPacketUpdate s = true -> NeedBfdPacketUpdate s1 = true;
  seen_notified : notifiedState s1 = notifiedState s;
  seen_diag : 0 <= LocalDiagType s < 32 -> 0 <= LocalDiagType s1 < 32;
  seen_rx : rxInterval s1 = detection_interval p s;
}.

Ltac seen_done :=
  constructor; unfold NeedBfdPacketUpdate in *; session_cbn; rewrite ?orb_true_r; try done; try (by intros; lia).

Lemma seen_remote_params p s :
  live s -> returns (Ok (CheckAnyRemoteParamChanged p (set_rxInterval (detection_interval p s) s))) s (packet_seen p s).
Proof.
  intros H. unfold CheckAnyRemoteParamChanged. destruct (_ || _); (apply returns_ok; [stays_done|]); seen_done.
Qed.

Ltac seen_next H := intros; apply returns_ok; [stays_done|]; destruct H; seen_done; unfold NeedBfdPacketUpdate in *; intuition congruence.

Lemma seen_demand p s s1 :
  packet_seen p s s1 -> live s1 -> returns (RemoteChangedDemandMode p s1) s1 (packet_seen p s).
Proof.
  intros H Hl. unfold RemoteChangedDemandMode. session_cbn. destruct (Demand p).
  - rewrite made_stop_tx by live_done. seen_next H.
  - destruct (RemoteDemandMode s1); [rewrite made_reset_tx by live_done|]; seen_next H.
Qed.

Lemma seen_poll p s s1 :
  packet_seen p s s1 -> live s1 -> returns (Ok (ProcessPollSequence p s1)) s1 (packet_seen p s).
Proof.
  intros H Hl. unfold ProcessPollSequence. destruct (_ =? _); [by apply returns_ok; [apply stays_refl|]|].
  destruct (Poll p), (Final p); seen_next H.
Qed.

Lemma seen_stop p s s1 (b : bool) :
  packet_seen p s s1 -> live s1 -> returns (if b then stop_sessionTimer s1 else Ok s1) s1 (packet_seen p s).
Proof.
  intros H Hl. destruct b; [rewrite made_stop_session by live_done; seen_next H|by apply returns_ok; [apply stays_refl|]].
Qed.

Lemma seen_signal p s s1 (b : bool) :
  packet_seen p s s1 -> live s1 ->
  returns (Ok (if b then set_LocalDiagType DIAG_NEIGHBOR_SIGNAL_DOWN s1 else s1)) s1 (packet_seen p s).
Proof. intros H Hl. destruct b; [seen_next H|by apply returns_ok; [apply stays_refl|]]. Qed.

Lemma seen_tx p s s1 (b : bool) tx :
  packet_seen p s s1 -> live s1 ->
  returns (if b then reset_txTimer 0 (set_txInterval tx s1) else Ok s1) s1 (packet_seen p s).
Proof.
  intros H Hl. destruct b; [rewrite made_reset_tx by live_done; seen_next H|by apply returns_ok; [apply stays_refl|]].
Qed.

(** What the received state [st] makes of the session. *)
Definition packet_next (active : bool) (st remote : Z) : Z :=
  match remote_event remote with
  | Some event => if active && negb (st =? STATE_ADMIN_DOWN) then event_next st event else st
  | None => st
  end.

Record packet_effect (p : BfdControlPacket) (s s' : BfdSession) : Prop := {
  pe_state : SessionState s' = packet_next (isClientActive s) (SessionState s) (pkt_State p);
  pe_remote : RemoteSessionState s' = pkt_State p;
  pe_discriminator : RemoteDiscriminator s' = MyDiscriminator p;
  pe_packet : bfdPacket s' = bfdPacket s;
  pe_buf : bfdPacketBuf s' = bfdPacketBuf s;
  pe_update : NeedBfdPacketUpdate s = true -> NeedBfdPacketUpdate s' = true;
  pe_changed : SessionState s' <> SessionState s -> NeedBfdPacketUpdate s' = true;
  pe_notified : notified s -> notified s';
  pe_diag : 0 <= LocalDiagType s < 32 -> 0 <= LocalDiagType s' < 32;
  pe_rx : multiplier_ok s -> detection_interval p s <> 0 -> rxInterval s' <> 0;
}.

Definition accepted (p : BfdControlPacket) (s : BfdSession) : Prop :=
  AuthenticateReceivedControlPacket p s = Ok true /\ CanProcessBfdControlPacket p = true.

Lemma remote_event_admin st event :
  is_state st -> remote_event st = Some event -> (if bool_decide (event = REMOTE_ADMIN_DOWN) then STATE_ADMIN_DOWN else st) = st.
Proof. intros [->|[->|[->| ->]]] [= <-]; done. Qed.

Lemma seen_event p s s1 :
  live s -> is_state (SessionState s) -> is_state (pkt_State p) -> stays s s1 -> packet_seen p s s1 ->
  returns (match remote_event (pkt_State p) with Some event => EventHandler event s1 | None => Ok s1 end) s1 (packet_effect p s).
Proof.
  intros Hl Hs Hp S P. assert (Hact : isClientActive s1 = isClientActive s) by apply S.
  assert (Hm : DetectionMultiplier s1 = DetectionMultiplier s) by (unfold stays in S; tauto).
  assert (Hl1 : live s1) by apply S.
  destruct P as [Est Erem Edis Epk Ebuf Eup Eno Edi Erx].
  assert (Hsame : packet_next (isClientActive s) (SessionState s) (pkt_State p) = SessionState s ->
    returns (Ok s1) s1 (packet_effect p s)).
  { intros Hn. apply returns_ok; [by apply stays_refl|].
    constructor; try done; try congruence; unfold notified; rewrite ?Est, ?Eno, ?Erx; done. }
  destruct (remote_event (pkt_State p)) as [event|] eqn:Eev; [|apply Hsame; unfold packet_next; by rewrite Eev].
  destruct (isClientActive s) eqn:Ha.
  2: { unfold EventHandler, IsSessionActive. rewrite Hact. apply Hsame. unfold packet_next. by rewrite Eev, ?Ha. }
  destruct (decide (SessionState s = STATE_ADMIN_DOWN)) as [Had|Had].
  { unfold EventHandler, IsSessionActive. rewrite Hact, Est, Had. apply Hsame. unfold packet_next. by rewrite Eev, Had. }
  eapply returns_mono; [apply (event_handler s1 event); rewrite ?Est; done|]. intros s2 []. constructor.
  - unfold packet_next. rewrite Ha, Eev, ev_state0, Est, (proj2 (Z.eqb_neq _ _) Had). done.
  - rewrite ev_remote0, Erem. by apply remote_event_admin.
  - congruence.
  - congruence.
  - congruence.
  - auto.
  - rewrite <- Est. auto.
  - intros Hn. apply ev_notified0. unfold notified in *. by rewrite Est, Eno.
  - auto.
  - intros Hmul Hd. apply ev_rx0; [unfold multiplier_ok in *; by rewrite Hm|by rewrite Erx].
Qed.

Lemma process_packet p s :
  live s -> is_state (SessionState s) -> is_state (pkt_State p) -> accepted p s ->
  returns (ProcessBfdPacket p s) s (packet_effect p s).
Proof.
  intros Hl Hs Hp [Hau Hcan]. unfold ProcessBfdPacket. rewrite Hau, Hcan. res_simpl. cbn [negb].
  destruct (seen_remote_params p s Hl) as (s1 & [= E1] & S1 & P1). rewrite E1. clear E1.
  apply (returns_from _ s s1 _ S1). eapply returns_bind; [apply seen_demand; [exact P1|apply S1]|]. intros s2 S2 P2. cbv zeta.
  destruct (seen_poll p s s2 P2 ltac:(apply S2)) as (s3 & [= E3] & S3 & P3). rewrite E3. clear E3.
  apply (returns_from _ s2 s3 _ S3). eapply returns_bind; [apply seen_stop; [exact P3|apply S3]|]. intros s4 S4 P4. cbv zeta.
  edestruct (seen_signal p s s4) as (s5 & E5 & S5 & P5); [exact P4|apply S4|]. injection E5 as E5. rewrite E5. clear E5.
  apply (returns_from _ s4 s5 _ S5). eapply returns_bind; [apply seen_tx; [exact P5|apply S5]|]. intros s6 S6 P6. cbv beta.
  rewrite (seen_remote _ _ _ P6). apply seen_event; try done. eauto 10 using stays_trans.
Qed.

(** ** Sending *)

(** The packet shows the session. *)
Record packet_shows (s : BfdSession) : Prop := {
  cur_state : pkt_State (bfdPacket s) = SessionState s;
  cur_mult : DetectMult (bfdPacket s) = u8 (DetectionMultiplier s);
  cur_my : MyDiscriminator (bfdPacket s) = LocalDiscriminator s;
  cur_your : is_u32 (YourDiscriminator (bfdPacket s));
  cur_diag : 0 <= Diagnostic (bfdPacket s) < 32;
}.

(** So does its encoding. *)
Definition packet_current (s : BfdSession) : Prop :=
  packet_shows s /\ AuthPresent (bfdPacket s) = false /\ bfdPacketBuf s = CreateBfdControlPacket (bfdPacket s).

(** The fields of the packet that never change. *)
Definition packet_base (s : BfdSession) : Prop :=
  Version (bfdPacket s) = DEFAULT_BFD_VERSION /\ Multipoint (bfdPacket s) = false.

Definition interval_ok (us : Z) : Prop := 1000 <= us /\ us * 255 < 2147483648.

Definition intervals_ok (s : BfdSession) : Prop :=
  interval_ok (st_DesiredMinTxInterval s) /\ interval_ok (DesiredMinTxInterval (bfdPacket s)).

Record core_effect (s s' : BfdSession) : Prop := {
  se_state : SessionState s' = SessionState s;
  se_remote : RemoteSessionState s' = RemoteSessionState s;
  se_discriminator : RemoteDiscriminator s' = RemoteDiscriminator s;
  se_notified : notifiedState s' = notifiedState s;
  se_diag : LocalDiagType s' = LocalDiagType s;
  se_rx : rxInterval s' = rxInterval s;
  se_base : packet_base s -> packet_base s';
  se_intervals : intervals_ok s -> intervals_ok s';
  se_shows : packet_shows s -> packet_shows s';
}.

Definition send_effect (s s' : BfdSession) : Prop := core_effect s s' /\ out s' = out s.

Lemma send_effect_refl s : send_effect s s.
Proof. done. Qed.

Lemma core_effect_trans s1 s2 s3 : core_effect s1 s2 -> core_effect s2 s3 -> core_effect s1 s3.
Proof. intros [] []. constructor; try congruence; auto. Qed.

Lemma send_effect_trans s1 s2 s3 : send_effect s1 s2 -> send_effect s2 s3 -> send_effect s1 s3.
Proof. intros [H1 E1] [H2 E2]. split; [by eapply core_effect_trans|congruence]. Qed.

Lemma startup_interval_ok : interval_ok STARTUP_TX_INTERVAL.
Proof. by split. Qed.

Ltac packet_cbn :=
  unfold on_packet, with_state, with_intervals, with_Demand, with_Poll, with_Final, with_Auth in *; session_cbn;
  cbn [Version Diagnostic pkt_State Poll Final ControlPlaneIndependent AuthPresent Demand Multipoint DetectMult MyDiscriminator
    YourDiscriminator DesiredMinTxInterval RequiredMinRxInterval RequiredMinEchoRxInterval AuthHeader] in *.

Ltac shows_done := let H := fresh in intros H; destruct H; constructor; packet_cbn; (done || congruence).

Ltac core_done :=
  constructor; [..|shows_done]; unfold packet_base, intervals_ok; packet_cbn; first [done | intuition (eauto using startup_interval_ok)].

Ltac send_done := split; [core_done|by packet_cbn].

Ltac send_ok := apply returns_ok; [packet_cbn; stays_done|send_done].

Lemma send_demand (was now : bool) s :
  live s ->
  returns (s ← (if negb was && now then stop_sessionTimer s else Ok s);
           if was && negb now then reset_sessionTimer (rxInterval s) s else Ok s) s (send_effect s).
Proof.
  intros H. destruct was, now; cbn [negb andb]; res_simpl; try (by apply returns_ok; [apply stays_refl|apply send_effect_refl]).
  - rewrite made_reset_session by done. send_ok.
  - rewrite made_stop_session by done. send_ok.
Qed.

Lemma send_intervals s : live s -> returns (update_intervals s) s (send_effect s).
Proof.
  intros H. unfold update_intervals. destruct (_ && _); [|send_ok].
  match goal with |- context [if ?b then InitiatePollSequence ?s1 else _] => set (s2 := if b then InitiatePollSequence s1 else _) end.
  assert (H2 : returns (Ok s2) s (send_effect s)).
  { unfold s2, InitiatePollSequence. destruct (_ || _); [|by apply returns_ok; [apply stays_refl|apply send_effect_refl]].
    destruct (pollSequence _); send_ok. }
  destruct H2 as (s2' & [= <-] & S2 & E2). apply (returns_from _ s s2 _ S2). clearbody s2. cbv zeta.
  set (s3 := on_packet (with_Demand (DemandMode s2)) s2).
  assert (H3 : returns (Ok s3) s2 (send_effect s2)) by (apply proj1 in S2; send_ok).
  destruct H3 as (s3' & [= <-] & S3 & E3). apply (returns_from _ s2 s3 _ S3).
  eapply returns_mono; [apply send_demand, S3|]. eauto using send_effect_trans.
Qed.

Definition fields_ok (s : BfdSession) : Prop := is_u32 (RemoteDiscriminator s) /\ 0 <= LocalDiagType s < 32.

Lemma send_update s :
  live s -> authEnabled s = false -> fields_ok s ->
  returns (UpdateBfdSessionControlPacket s) s (fun s' =>
    send_effect s s' /\ packet_shows s' /\ AuthPresent (bfdPacket s') = false /\ NeedBfdPacketUpdate s' = false).
Proof.
  intros H Hau [Hd Hl]. unfold UpdateBfdSessionControlPacket. cbv zeta.
  set (s1 := on_packet (with_state s) s).
  assert (H1 : returns (Ok s1) s (fun s' => send_effect s s' /\ packet_shows s')).
  { apply returns_ok; [unfold s1; packet_cbn; stays_done|]. split; [send_done|]. constructor; unfold s1; packet_cbn; done. }
  destruct H1 as (s1' & [= <-] & S1 & E1 & W1). apply (returns_from _ s s1 _ S1).
  eapply returns_bind; [apply send_intervals, S1|]. intros s2 S2 E2.
  assert (Hau2 : authEnabled s2 = false) by (unfold stays in S1, S2; intuition congruence).
  assert (H2 : live s2) by apply S2. pose proof (send_effect_trans _ _ _ E1 E2) as E. apply (se_shows _ _ (proj1 E2)) in W1.
  clear S1 S2 E1 E2. clearbody s1. unfold update_auth. packet_cbn. rewrite Hau2. res_simpl.
  apply returns_ok; [packet_cbn; stays_done|].
  split; [apply (send_effect_trans _ _ _ E); send_done|]. split; [|done]. destruct W1. constructor; packet_cbn; done.
Qed.

Lemma send_packet s :
  live s -> authEnabled s = false -> fields_ok s ->
  returns (make_packet s) s (fun s' => send_effect s s' /\ packet_current s' /\ NeedBfdPacketUpdate s' = false).
Proof.
  intros H Hau Hf. unfold make_packet. eapply returns_bind; [by apply send_update|].
  intros s1 S1 (E1 & W1 & A1 & N1). assert (H1 : live s1) by apply S1.
  apply returns_ok; [stays_done|]. split; [apply (send_effect_trans _ _ _ E1); send_done|]. split; [|done].
  split; [|done]. destruct W1. constructor; packet_cbn; done.
Qed.

(** A session that can send. *)
Definition sender_ok (s : BfdSession) : Prop :=
  live s /\ authEnabled s = false /\ fields_ok s /\ (NeedBfdPacketUpdate s = false -> packet_current s).

Lemma fields_ok_effect s s' : core_effect s s' -> fields_ok s -> fields_ok s'.
Proof. intros [] []. split; congruence. Qed.

(** The first half of the callback. *)
Lemma send_refresh s :
  sender_ok s ->
  returns (if NeedBfdPacketUpdate s then make_packet s else Ok s) s (fun s' => send_effect s s' /\ packet_current s').
Proof.
  intros (H & Hau & Hf & Hc). destruct (NeedBfdPacketUpdate s).
  - eapply returns_mono; [by apply send_packet|]. by intros s' (E & W & _).
  - apply returns_ok; [by apply stays_refl|]. split; [apply send_effect_refl|auto].
Qed.

(** The packet that [s] writes, as [sent] has it, on the way to [s']. *)
Definition sent_effect (ok : bool) (s sent s' : BfdSession) : Prop :=
  core_effect s sent /\ stays s sent /\ packet_current sent /\ core_effect s s' /\ packet_current s' /\
  out s' = out s ++ (if ok then [Wrote (bfdPacketBuf sent)] else []).

Lemma send_periodic ok s :
  sender_ok s -> returns (SendPeriodicControlPackets ok s) s (fun s' => exists sent, sent_effect ok s sent s').
Proof.
  intros Hs. pose proof Hs as (H & Hau & Hf & Hc). unfold SendPeriodicControlPackets.
  eapply returns_bind; [by apply send_refresh|]. intros s1 S1 ([E1 O1] & C1). cbv zeta.
  assert (Hau1 : authEnabled s1 = false) by (unfold stays in S1; intuition congruence).
  assert (Hf1 : fields_ok s1) by eauto using fields_ok_effect.
  assert (H1 : live s1) by apply S1.
  set (s2 := if ok then set_NumTxPackets (u32 (NumTxPackets s1 + 1)) (emit (Wrote (bfdPacketBuf s1)) s1) else s1).
  assert (S2 : stays s1 s2) by (unfold s2, emit; destruct ok; [stays_done|by apply stays_refl]).
  assert (E2 : core_effect s1 s2) by (unfold s2, emit; destruct ok; [core_done|done]).
  assert (O2 : out s2 = out s1 ++ (if ok then [Wrote (bfdPacketBuf s1)] else [])) by (unfold s2, emit; destruct ok; [done|by rewrite app_nil_r]).
  assert (C2 : packet_current s2).
  { unfold s2, emit. destruct ok; [|done]. destruct C1 as ([] & ? & ?). split; [constructor|]; session_cbn; done. }
  apply (returns_from _ s1 s2 _ S2). clearbody s2.
  eapply (returns_bind _ _ _ (fun s3 => send_effect s2 s3 /\ packet_current s3)).
  { destruct (NeedBfdPacketUpdate s).
    - eapply returns_mono; [apply send_packet; [apply S2|unfold stays in S2; intuition congruence|by eapply fields_ok_effect]|].
      by intros s' (E & W & _).
    - apply returns_ok; [apply stays_refl, S2|]. split; [apply send_effect_refl|done]. }
  intros s3 S3 ([E3 O3] & C3). cbv zeta.
  match goal with |- context [if ?b then set_txInterval ?v s3 else s3] => set (s4 := if b then set_txInterval v s3 else s3) end.
  assert (H4 : stays s3 s4 /\ send_effect s3 s4 /\ packet_current s4).
  { unfold s4. destruct (_ || _); [|by split; [apply stays_refl, S3|split; [apply send_effect_refl|]]].
    assert (H3 : live s3) by apply S3. split; [stays_done|]. split; [send_done|].
    destruct C3 as ([] & ? & ?). split; [constructor|]; session_cbn; done. }
  destruct H4 as (S4 & [E4 O4] & C4). apply (returns_from _ s3 s4 _ S4). clearbody s4. assert (H4 : live s4) by apply S4.
  rewrite made_reset_tx by done. apply returns_ok; [stays_done|]. exists s1.
  split; [done|]. split; [done|]. split; [done|]. split.
  { do 4 (eapply core_effect_trans; [eassumption|]). core_done. }
  split; [destruct C4 as ([] & ? & ?); split; [constructor|]; session_cbn; done|].
  session_cbn. by rewrite O4, O3, O2, O1.
Qed.
