(* ===== verification/BfdSessionProps.v ===== *)
(** * BFD: properties of sessions *)

From S2P Require Import Prelude.
From S2P Require Import Digest.
From S2P Require Import BfdPacket.
From S2P Require Import BfdPacketSpec.
From S2P Require Import BfdSession.
From S2P Require Import BfdSessionSpec.
From S2P Require Import Float32.

(** ** Two sessions come up *)

(** A session that is configured without authentication and whose client runs. *)
Record good (s : BfdSession) : Prop := {
  good_sender : sender_ok s;
  good_active : isClientActive s = true;
  good_queue : ReceivedPacketCh s = [];
  good_state : is_state (SessionState s) /\ SessionState s <> STATE_ADMIN_DOWN;
  good_mult : multiplier_ok s;
  good_id : is_u32 (LocalDiscriminator s) /\ LocalDiscriminator s <> 0;
  good_rx : rxInterval s <> 0;
  good_base : packet_base s;
  good_intervals : intervals_ok s;
  good_notified : notified s;
}.

(** The packet that a session sent last. *)
Definition last_packet (s : BfdSession) : res bytes :=
  match last (out s) with Some (Wrote buf) => Ok buf | _ => Panic end.

(** The timer of [a] expires and [b] takes the packet from the wire. *)
Definition exchange (a b : BfdSession) : res (BfdSession * BfdSession) :=
  a ← SendPeriodicControlPackets true a;
  buf ← last_packet a;
  p ← DecodeBfdControlPacket (mkSlice buf []);
  b ← receive_packet p b;
  b ← StartSessionServer b;
  Ok (a, b).

Fixpoint rounds (n : nat) (a b : BfdSession) : res (BfdSession * BfdSession) :=
  match n with
  | O => Ok (a, b)
  | S n => ab ← exchange a b; ba ← exchange (snd ab) (fst ab); rounds n (snd ba) (fst ba)
  end.

Lemma current_packet_ok s :
  packet_current s -> is_u32 (LocalDiscriminator s) -> is_state (SessionState s) -> packet_base s ->
  packet_ok (bfdPacket s) /\ sent_auth (bfdPacket s) = None.
Proof.
  intros ([Cs Cm Cmy Cyour Cdiag] & Ha & _) Hid Hst [Hv _]. assert (Hau : sent_auth (bfdPacket s) = None) by (unfold sent_auth; by rewrite Ha).
  split; [|done]. unfold packet_ok. rewrite Hau, Hv, Cs, Cm, Cmy. split; [done|]. split; [done|].
  split; [unfold is_state, STATE_ADMIN_DOWN, STATE_DOWN, STATE_INIT, STATE_UP in Hst; lia|].
  split; [apply is_u8_u8|]. done.
Qed.

Lemma interval_ok_ms us mult : interval_ok us -> 1 <= mult <= 255 -> interval_ms (i32 (u32 us)) mult <> 0.
Proof.
  intros [H1 H2] Hm. unfold interval_ms, i32, u32. rewrite (Z.mod_small us) by lia.
  rewrite (Z.mod_small (us + _)) by lia. replace (us + 2147483648 - 2147483648) with us by lia.
  assert (us * mult <= us * 255) by nia. assert (1000 <= us * mult) by nia.
  rewrite Z.mod_small by lia. replace (us * mult + 2147483648 - 2147483648) with (us * mult) by lia.
  rewrite Z.quot_div_nonneg by lia. enough (1 <= us * mult / 1000) by lia. apply Z.div_le_lower_bound; lia.
Qed.

(** What [b] gets. *)
Lemma received_current sent b :
  packet_current sent -> is_u32 (LocalDiscriminator sent) -> LocalDiscriminator sent <> 0 -> is_state (SessionState sent) ->
  packet_base sent -> intervals_ok sent -> multiplier_ok sent -> multiplier_ok b ->
  let p := received (bfdPacket sent) in
  DecodeBfdControlPacket (mkSlice (bfdPacketBuf sent) []) = Ok p /\ accepted p b /\ pkt_State p = SessionState sent /\
  is_u32 (MyDiscriminator p) /\ detection_interval p b <> 0.
Proof.
  intros C Hid Hid0 Hst Hb [_ Hi] Hm Hmb p. destruct (current_packet_ok sent C Hid Hst Hb) as [Hok Hau].
  pose proof C as ([Cs Cm Cmy Cyour Cdiag] & Ha & Hbuf). destruct Hb as [Hv Hmp]. unfold multiplier_ok in *.
  assert (Hmu : u8 (DetectionMultiplier sent) = DetectionMultiplier sent) by (unfold u8; rewrite Z.mod_small; lia).
  split; [by rewrite Hbuf, bfd_packet_roundtrip|]. split; [|split; [done|split; [by cbn; rewrite Cmy|]]].
  - split; [unfold AuthenticateReceivedControlPacket; cbn; by rewrite Hau|]. unfold CanProcessBfdControlPacket, p. cbn.
    rewrite Hv, Hmp, Cm, Cmy, Hmu. rewrite (proj2 (Z.eqb_neq _ 0)) by lia. by rewrite (proj2 (Z.eqb_neq _ 0)).
  - unfold detection_interval, p. cbn. rewrite Cm, Hmu. destruct (_ && _); [by apply interval_ok_ms|].
    apply (startup_interval sent). done.
Qed.

Lemma receive_good p b :
  good b -> accepted p b -> is_state (pkt_State p) -> is_u32 (MyDiscriminator p) -> detection_interval p b <> 0 ->
  exists b1, receive_packet p b = Ok b1 /\ exists b', StartSessionServer b1 = Ok b' /\ packet_effect p b b' /\ stays b b'.
Proof.
  intros [[Hl Hs] Ha Hq [Hst Hn] Hm Hid Hrx _ _ _] Hacc Hp _ _.
  unfold receive_packet, IsSessionActive. rewrite Ha, (proj2 (Z.eqb_neq _ 0)), (proj1 Hl), Hq by done.
  rewrite (len_nil (A:=BfdControlPacket)). cbn [andb negb]. eexists. split; [reflexivity|].
  unfold StartSessionServer. session_cbn. cbn [app].
  match goal with |- context [ProcessBfdPacket p ?s] => set (b2 := s) end.
  assert (S2 : live b2) by (unfold b2; live_done).
  destruct (process_packet p b2) as (b' & Eb & S & E); [done..| |].
  { destruct Hacc. split; [|done]. unfold AuthenticateReceivedControlPacket, b2 in *. by session_cbn. }
  exists b'. split; [done|]. split.
  - destruct E. unfold b2, detection_interval, notified, multiplier_ok, NeedBfdPacketUpdate in *. session_cbn. constructor; assumption.
  - unfold stays, b2 in *. session_cbn. intuition congruence.
Qed.

Lemma good_received p b b' :
  good b -> packet_effect p b b' -> stays b b' -> is_state (pkt_State p) -> pkt_State p <> STATE_ADMIN_DOWN ->
  is_u32 (MyDiscriminator p) -> detection_interval p b <> 0 -> good b'.
Proof.
  intros [(Hl & Hau & [Hf Hd] & Hc) Ha Hq [Hst Hn] Hm Hid Hrx Hb Hi Hno] [Pst Prem Pdis Ppk Pbuf Pup Pch Pno Pdi Prx] S Hp Hpn Hmy Hdet.
  pose proof S as (Sl & Sact & Sq & Sau & Sah & Sm & Sld & Stx & Srx & _).
  assert (Hst' : is_state (SessionState b') /\ SessionState b' <> STATE_ADMIN_DOWN).
  { rewrite Pst, Ha. unfold packet_next.
    destruct Hp as [?|[Hp|[Hp|Hp]]]; [done|..]; rewrite Hp; destruct Hst as [?|[E|[E|E]]]; try done; rewrite E; cbn;
      unfold is_state, STATE_ADMIN_DOWN, STATE_DOWN, STATE_INIT, STATE_UP; (split; [lia|done]). }
  constructor; try done.
  - split; [done|]. split; [congruence|]. split; [split; [congruence|auto]|]. intros Hneed.
    destruct (decide (SessionState b' = SessionState b)) as [Es|Es]; [|specialize (Pch Es); congruence].
    destruct (NeedBfdPacketUpdate b) eqn:Eb; [specialize (Pup eq_refl); congruence|].
    destruct (Hc eq_refl) as ([] & ? & ?). split; [constructor|]; rewrite ?Ppk, ?Pbuf; try done; congruence.
  - congruence.
  - congruence.
  - unfold multiplier_ok in *. by rewrite Sm.
  - by rewrite Sld.
  - auto.
  - unfold packet_base in *. by rewrite Ppk.
  - unfold intervals_ok in *. by rewrite Ppk, Stx.
  - auto.
Qed.

Lemma good_sent a a' sent : good a -> stays a a' -> sent_effect true a sent a' -> good a'.
Proof.
  intros [(Hl & Hau & Hf & Hc) Ha Hq [Hst Hn] Hm Hid Hrx Hb Hi Hno] S (_ & _ & _ & E & C & _).
  pose proof S as (Sl & Sact & Sq & Sau & Sah & Sm & Sld & Stx & Srx & _). pose proof E as [Est Erem Edis Eno Edi Erx Eba Ein Esh].
  constructor; try congruence; auto.
  { split; [done|]. split; [congruence|]. split; [by eapply fields_ok_effect|auto]. }
  all: unfold multiplier_ok, notified in *; rewrite ?Sm, ?Sld, ?Est, ?Eno; done.
Qed.

(** One packet on its way. *)
Lemma exchange_good a b :
  good a -> good b ->
  exists a' b', exchange a b = Ok (a', b') /\ good a' /\ good b' /\ SessionState a' = SessionState a /\
    SessionState b' = packet_next true (SessionState b) (SessionState a).
Proof.
  intros Ga Gb. destruct (send_periodic true a (good_sender a Ga)) as (a' & Ea & Sa & sent & Esent).
  pose proof Ga as [Hs Ha Hq [Hst Hn] Hm Hid Hrx Hb Hi Hno]. pose proof Esent as (Ec & Ss & Cs & E' & _ & Eo). pose proof Ec as [Est Erem Edis Eno Edi Erx Eba Ein Esh].
  assert (Hsid : LocalDiscriminator sent = LocalDiscriminator a) by (unfold stays in Ss; tauto).
  assert (Hsm : DetectionMultiplier sent = DetectionMultiplier a) by (unfold stays in Ss; tauto).
  destruct (received_current sent b) as (Hdec & Hacc & Hpst & Hmy & Hdet).
  { done. } { rewrite Hsid. apply Hid. } { rewrite Hsid. apply Hid. } { by rewrite Est. } { auto. } { auto. }
  { unfold multiplier_ok in *. by rewrite Hsm. } { apply Gb. }
  destruct (receive_good _ b Gb Hacc) as (b1 & E1 & b' & E2 & P & Sb); [by rewrite Hpst, Est|done|done|].
  exists a', b'. unfold exchange, last_packet. rewrite Ea. res_simpl. rewrite Eo, last_snoc. res_simpl. rewrite Hdec. res_simpl.
  rewrite E1. res_simpl. rewrite E2. res_simpl. split; [done|]. split; [exact (good_sent a a' sent Ga Sa Esent)|].
  split; [apply (good_received _ b b' Gb P Sb); rewrite ?Hpst, ?Est; done|]. split; [apply E'|].
  by rewrite (pe_state _ _ _ P), (good_active b Gb), Hpst, Est.
Qed.

(** C24: two sessions without authentication whose clients run come up ([good]): each is in any
    state but AdminDown, has an identifier, a multiplier from 1 to 255, intervals from one
    millisecond up that fit an int32 with the multiplier, a detection time that is not cut to 0,
    no packet waiting in its queue, and either has sent what it has to say or knows that it has
    something new to tell. After three packets in each direction, none of them lost, both are up,
    and the applications know. The cases left out fail: bfd_auth_panics with authentication,
    bfd_reset_never_recovers after a reset, which leaves an outdated packet, and
    bfd_short_interval_freezes with shorter intervals. *)
Theorem bfd_sessions_come_up a b :
  good a -> good b ->
  exists a' b', rounds 3 a b = Ok (a', b') /\ SessionState a' = STATE_UP /\ SessionState b' = STATE_UP /\
    notifiedState a' = true /\ notifiedState b' = true.
Proof.
  intros Ga Gb. cbn [rounds].
  destruct (exchange_good a b Ga Gb) as (a1 & b1 & -> & Ga1 & Gb1 & Ea1 & Eb1). res_simpl. cbn [fst snd].
  destruct (exchange_good b1 a1 Gb1 Ga1) as (b2 & a2 & -> & Gb2 & Ga2 & Eb2 & Ea2). res_simpl. cbn [fst snd].
  destruct (exchange_good a2 b2 Ga2 Gb2) as (a3 & b3 & -> & Ga3 & Gb3 & Ea3 & Eb3). res_simpl. cbn [fst snd].
  destruct (exchange_good b3 a3 Gb3 Ga3) as (b4 & a4 & -> & Gb4 & Ga4 & Eb4 & Ea4). res_simpl. cbn [fst snd].
  destruct (exchange_good a4 b4 Ga4 Gb4) as (a5 & b5 & -> & Ga5 & Gb5 & Ea5 & Eb5). res_simpl. cbn [fst snd].
  destruct (exchange_good b5 a5 Gb5 Ga5) as (b6 & a6 & -> & Gb6 & Ga6 & Eb6 & Ea6). res_simpl. cbn [fst snd].
  exists a6, b6. split; [done|].
  assert (Hup : SessionState a6 = STATE_UP /\ SessionState b6 = STATE_UP).
  { destruct (good_state a Ga) as [[?|Ha] ?]; [done|]. destruct (good_state b Gb) as [[?|Hb] ?]; [done|].
    revert Eb1 Ea2 Eb3 Ea4 Eb5 Ea6. rewrite Ea1, Eb2, Ea3, Eb4, Ea5, Eb6.
    destruct Ha as [->|[->| ->]], Hb as [->|[->| ->]]; intros ->; cbn; intros ->; cbn; intros ->; cbn; intros ->; cbn;
      intros ->; cbn; intros ->; done. }
  destruct Hup as [Hua Hub]. split; [done|]. split; [done|]. split; [by apply (good_notified a6)|by apply (good_notified b6)].
Qed.

Definition param_ok (param : SessionParamState) : Prop :=
  1 <= LocalMultiplier param <= 255 /\ interval_ok (prm_DesiredMinTxInterval param) /\ AuthenticationEnabled param = false.

(** New sessions are good once their client runs. *)
Lemma good_new sessionId jitter interface localIp destIp paramName perLink protocols param :
  0 < sessionId < 1024 -> param_ok param ->
  good (StartSessionClient true (new_session sessionId jitter interface localIp destIp paramName perLink protocols param)).
Proof.
  intros Hid (Hm & Hi & Ha). unfold StartSessionClient, new_session. session_cbn.
  constructor; unfold sender_ok, live, fields_ok, multiplier_ok, packet_base, intervals_ok, notified, NeedBfdPacketUpdate, is_state, u32, is_u32;
    session_cbn; try done.
  - split; [right; left; reflexivity|discriminate].
  - split; [apply Z.mod_pos_bound; lia|]. rewrite Z.mod_small; lia.
  - exact (startup_interval (set_DetectionMultiplier (LocalMultiplier param)
             (new_session sessionId jitter interface localIp destIp paramName perLink protocols param)) Hm).
Qed.

Definition default_param : SessionParamState := mkSessionParamState "default" 0 3 250000 250000 0 false false 0 0 [].
Definition session_a : BfdSession := StartSessionClient true (new_session 5 3 "eth0" "10.0.0.1" "10.0.0.2" "default" false [false; false; false; true; false] default_param).
Definition session_b : BfdSession := StartSessionClient true (new_session 9 0 "eth0" "10.0.0.2" "10.0.0.1" "default" false [false; false; true; false; false] default_param).

Lemma bfd_sessions_come_up_witness :
  (good session_a /\ good session_b) /\
  exists a' b', rounds 3 session_a session_b = Ok (a', b') /\ SessionState a' = STATE_UP /\ SessionState b' = STATE_UP /\
    notifiedState a' = true /\ notifiedState b' = true.
Proof.
  assert (Hp : param_ok default_param) by (repeat split; by vm_compute).
  assert (Ha : good session_a) by (by apply good_new).
  assert (Hb : good session_b) by (by apply good_new).
  split; [done|]. by apply bfd_sessions_come_up.
Defined.

(** ** The state machine of RFC 5880, section 6.8.6 *)

Definition rfc_receive (st remote : Z) : Z :=
  if remote =? STATE_ADMIN_DOWN then STATE_DOWN
  else if st =? STATE_DOWN then
    if remote =? STATE_DOWN then STATE_INIT else if remote =? STATE_INIT then STATE_UP else st
  else if st =? STATE_INIT then
    if (remote =? STATE_INIT) || (remote =? STATE_UP) then STATE_UP else st
  else if remote =? STATE_DOWN then STATE_DOWN else st.

Lemma packet_next_rfc st remote :
  is_state st -> is_state remote -> st <> STATE_ADMIN_DOWN ->
  packet_next true st remote = if remote =? STATE_ADMIN_DOWN then st else rfc_receive st remote.
Proof. intros [?|[->|[->| ->]]] [->|[->|[->| ->]]] Hn; done. Qed.

(** The packets that section 6.8.6 does not discard at once. *)
Definition well_formed (p : BfdControlPacket) : Prop :=
  Version p = 1 /\ DetectMult p <> 0 /\ Multipoint p = false /\ MyDiscriminator p <> 0.

(** Section 6.7: type, key and password or digest are the session's. A packet without an
    authentication section passes whatever the session asks for, and digests are those of no
    octets. *)
Definition verified (p : BfdControlPacket) (s : BfdSession) : Prop :=
  AuthPresent p = false \/
  exists h, AuthHeader p = Some h /\ ah_Type h = authType s /\ AuthKeyID h = authKeyId s /\
    (ah_Type h = 1 /\ AuthData h = authData s \/
     ReceivedAuthSeq s <= SequenceNumber h /\
       ((ah_Type h = 2 \/ ah_Type h = 3) /\ AuthData h = md5_Sum [] \/ (ah_Type h = 4 \/ ah_Type h = 5) /\ AuthData h = sha1_Sum [])).

Lemma can_process_iff p : CanProcessBfdControlPacket p = true <-> well_formed p.
Proof.
  unfold CanProcessBfdControlPacket, well_formed, DEFAULT_BFD_VERSION. destruct (Multipoint p);
    rewrite !andb_true_iff, !negb_true_iff, Z.eqb_eq, !Z.eqb_neq; naive_solver.
Qed.

Lemma authenticates_iff p s :
  (AuthPresent p = true -> AuthHeader p <> None) ->
  exists b, AuthenticateReceivedControlPacket p s = Ok b /\ (b = true <-> verified p s).
Proof.
  intros H. unfold AuthenticateReceivedControlPacket, verified. destruct (AuthPresent p) eqn:Ep; cbn [negb].
  2: { exists true. split; [done|]. split; [by left|done]. }
  destruct (AuthHeader p) as [h|] eqn:Eh; [|by destruct (H eq_refl)]. cbn [of_option]. res_simpl.
  unfold is_md5, is_sha1, BFD_AUTH_TYPE_SIMPLE, BFD_AUTH_TYPE_KEYED_MD5, BFD_AUTH_TYPE_METICULOUS_MD5, BFD_AUTH_TYPE_KEYED_SHA1,
    BFD_AUTH_TYPE_METICULOUS_SHA1, binary_Write_packet.
  generalize (md5_Sum []) (sha1_Sum []). intros md5 sha1.
  destruct (Z.eqb_spec (ah_Type h) (authType s)) as [Et|Et]; cbn [negb].
  2: { exists false. split; [done|]. split; [done|]. by intros [|(? & [= <-] & ? & _)]. }
  destruct (Z.eqb_spec (ah_Type h) 1) as [E1|E1].
  { eexists. split; [done|]. rewrite andb_true_iff, Z.eqb_eq, bool_decide_eq_true. split.
    - intros [? ?]. right. exists h. split_and!; try done. by left.
    - intros [|(? & [= <-] & _ & ? & [[_ ?]|[_ [[? _]|[? _]]]])]; [done|done|lia..]. }
  destruct (Z.leb_spec (ReceivedAuthSeq s) (SequenceNumber h)) as [Hs|Hs], (Z.eqb_spec (AuthKeyID h) (authKeyId s)) as [Hk|Hk]; cbn [andb].
  2-4: exists false; split; [done|]; split; [done|]; intros [|(? & [= <-] & _ & ? & [[? _]|[? _]])]; done || lia.
  eexists. split; [done|]. destruct ((ah_Type h =? 2) || (ah_Type h =? 3)) eqn:E2.
  { rewrite bool_decide_eq_true. split.
    - intros ?. right. exists h. split_and!; try done. right. split; [done|]. left. split; [lia|done].
    - intros [|(? & [= <-] & _ & _ & [[? _]|[_ [[_ ?]|[? _]]]])]; done || lia. }
  destruct ((ah_Type h =? 4) || (ah_Type h =? 5)) eqn:E4.
  { rewrite bool_decide_eq_true. split.
    - intros ?. right. exists h. split_and!; try done. right. split; [done|]. right. split; [lia|done].
    - intros [|(? & [= <-] & _ & _ & [[? _]|[_ [[? _]|[_ ?]]]])]; done || lia. }
  split; [done|]. intros [|(? & [= <-] & _ & _ & [[? _]|[_ [[? _]|[? _]]]])]; done || lia.
Qed.


Definition init_packet : BfdControlPacket := mkControlPacket 1 0 STATE_INIT false false false false false false 3 9 5 2000000 2000000 0 None.


(** ** Safety *)

(** What can happen to a session. *)
Inductive Input :=
| Dispatch (p : BfdControlPacket)
| Serve
| TxTimer (ok : bool)
| SessionTimer
| Client (connected : bool)
| AdminUp
| AdminDown
| ResetSession (connected : bool)
| Params (param : option SessionParamState).

Definition session_step (i : Input) (s : BfdSession) : res BfdSession :=
  match i with
  | Dispatch p => receive_packet p s
  | Serve => StartSessionServer s
  | TxTimer ok => if made (txTimer s) then SendPeriodicControlPackets ok s else Ok s
  | SessionTimer => if made (sessionTimer s) then HandleSessionTimeout s else Ok s
  | Client connected => if isClientActive s then Ok s else Ok (StartSessionClient connected s)
  | AdminUp => StartBfdSession s
  | AdminDown => StopBfdSession s
  | ResetSession connected => Ok (reset_session connected s)
  | Params param => Ok (apply_param param s)
  end.

(** A packet as the decoder makes it. *)
Definition decoded (p : BfdControlPacket) : Prop :=
  is_state (pkt_State p) /\ is_u32 (MyDiscriminator p) /\ (AuthPresent p = true -> AuthHeader p <> None).

(** Parameters without authentication; a session is not started before its client. *)
Definition input_ok (i : Input) (s : BfdSession) : Prop :=
  match i with
  | Dispatch p => decoded p
  | AdminUp => made (txTimer s) = true
  | Params (Some param) => AuthenticationEnabled param = false
  | _ => True
  end.

Inductive reachable : BfdSession -> Prop :=
| reach_new sessionId jitter interface localIp destIp paramName perLink protocols param :
  AuthenticationEnabled param = false ->
  reachable (new_session sessionId jitter interface localIp destIp paramName perLink protocols param)
| reach_step s i s' : reachable s -> input_ok i s -> session_step i s = Ok s' -> reachable s'.

Record session_inv (s : BfdSession) : Prop := {
  inv_auth : authEnabled s = false;
  inv_state : is_state (SessionState s);
  inv_timers : made (sessionTimer s) = made (txTimer s);
  inv_active : isClientActive s = true -> live s;
  inv_queue : ReceivedPacketCh s <> [] -> live s;
  inv_packets : Forall decoded (ReceivedPacketCh s);
  inv_fields : fields_ok s;
}.

(** [r] returns, and keeps the invariant. *)
Definition step_ok (r : res BfdSession) : Prop :=
  match r with Ok s' => session_inv s' | _ => False end.

Lemma event_next_state st event : is_state st -> is_state (event_next st event).
Proof. unfold is_state, event_next. intros H. destruct event; repeat case_match; tauto. Qed.

Lemma inv_stays s s' :
  session_inv s -> stays s s' -> is_state (SessionState s') -> fields_ok s' -> session_inv s'.
Proof.
  intros [] S Hs Hf. unfold stays in S. constructor; try done.
  - intuition congruence.
  - destruct S as [[-> ->] _]. done.
  - tauto.
  - tauto.
  - by destruct S as (_ & _ & -> & _).
Qed.

Lemma inv_handler event s :
  session_inv s -> exists s', EventHandler event s = Ok s' /\ session_inv s' /\ (live s -> live s').
Proof.
  intros H. pose proof H as [Hau Hst Hti Hac Hq Hp [Hd Hl]].
  destruct (isClientActive s) eqn:Ha; [|exists s; unfold EventHandler, IsSessionActive; by rewrite Ha].
  destruct (decide (SessionState s = STATE_ADMIN_DOWN)) as [E|E].
  { exists s. unfold EventHandler, IsSessionActive. by rewrite Ha, E. }
  destruct (event_handler s event) as (s' & -> & S & P); [auto..|]. exists s'. split; [done|]. split; [|by intros _; apply S].
  apply (inv_stays s s' H S).
  - rewrite (ev_state _ _ _ P). by apply event_next_state.
  - split; [by rewrite (ev_discriminator _ _ _ P)|by apply (ev_diag _ _ _ P)].
Qed.

Lemma send_returns ok s :
  live s -> authEnabled s = false -> fields_ok s -> returns (SendPeriodicControlPackets ok s) s (core_effect s).
Proof.
  intros H Hau Hf. unfold SendPeriodicControlPackets. cbv zeta.
  assert (Hb : forall (b : bool) s, live s -> authEnabled s = false -> fields_ok s ->
            returns (if b then make_packet s else Ok s) s (core_effect s)).
  { intros b t Ht Hta Htf. destruct b; [|by apply returns_ok; [apply stays_refl|]].
    eapply returns_mono; [by apply send_packet|]. by intros t' ([E _] & _). }
  eapply returns_bind; [by apply Hb|]. intros s1 S1 E1. cbv zeta.
  match goal with |- context [if ok then ?x else s1] => set (s2 := if ok then x else s1) end.
  assert (H2 : stays s1 s2 /\ core_effect s1 s2).
  { assert (H1 : live s1) by apply S1. unfold s2, emit. destruct ok; [split; [stays_done|core_done]|split; [by apply stays_refl|done]]. }
  destruct H2 as [S2 E2]. apply (returns_from _ s1 s2 _ S2). clearbody s2.
  eapply returns_bind; [apply Hb; [apply S2|unfold stays in S1, S2; intuition congruence|eauto using fields_ok_effect]|].
  intros s3 S3 E3. cbv zeta.
  match goal with |- context [if ?b then ?x else s3] => set (s4 := if b then x else s3) end.
  assert (H4 : stays s3 s4 /\ core_effect s3 s4).
  { assert (H3 : live s3) by apply S3. unfold s4. destruct (_ || _); [split; [stays_done|core_done]|split; [by apply stays_refl|done]]. }
  destruct H4 as [S4 E4]. apply (returns_from _ s3 s4 _ S4). clearbody s4. assert (H4 : live s4) by apply S4.
  rewrite made_reset_tx by done. apply returns_ok; [stays_done|]. do 4 (eapply core_effect_trans; [eassumption|]). core_done.
Qed.

(** Fields that the invariant does not mention. *)
Lemma inv_set s s' :
  session_inv s -> authEnabled s' = authEnabled s -> SessionState s' = SessionState s -> fields_ok s' ->
  isClientActive s' = isClientActive s -> ReceivedPacketCh s' = ReceivedPacketCh s ->
  sessionTimer s' = sessionTimer s -> txTimer s' = txTimer s -> session_inv s'.
Proof. intros [] H1 H2 H3 H4 H5 H6 H7. unfold live in *. constructor; unfold live; rewrite ?H1, ?H2, ?H4, ?H5, ?H6, ?H7; done. Qed.

Lemma inv_dispatch p s :
  session_inv s -> decoded p ->
  step_ok (receive_packet p s) \/ (PACKET_QUEUE_SIZE <= len (ReceivedPacketCh s) /\ receive_packet p s = NoFuel).
Proof.
  intros H Hp. unfold receive_packet. destruct (_ && _) eqn:E; [|by left]. apply andb_prop in E as [E Hm]. apply andb_prop in E as [Ha _].
  destruct (_ <? _) eqn:El; [left|right; split; [lia|done]]. destruct H as [Hau Hst Hti Hac Hq Hps Hf].
  assert (Hl : live s) by (by apply Hac). constructor; unfold fields_ok, live in *; session_cbn; try done.
  - by rewrite <- Hti.
  - by rewrite <- Hti.
  - rewrite <- Hti. done.
  - apply Forall_app. split; [done|by constructor].
Qed.

Lemma inv_serve s : session_inv s -> step_ok (StartSessionServer s).
Proof.
  intros H. unfold StartSessionServer. destruct (ReceivedPacketCh s) as [|p queue] eqn:Eq; [done|].
  pose proof H as [Hau Hst Hti Hac Hq Hps Hf]. rewrite Eq in Hq, Hps. apply Forall_cons in Hps as [(Hpst & Hmy & Hah) Hqs].
  assert (Hl : live s) by (by apply Hq).
  set (s1 := set_NumRxPackets _ _).
  assert (H1 : session_inv s1) by (unfold s1; constructor; unfold fields_ok, live in *; session_cbn; done).
  assert (Hl1 : live s1) by (unfold s1; live_done). clearbody s1.
  assert (exists b, AuthenticateReceivedControlPacket p s1 = Ok b) as [b Eb].
  { unfold AuthenticateReceivedControlPacket. destruct (AuthPresent p); cbn [negb]; [|eauto].
    destruct (AuthHeader p) as [h|]; [|by specialize (Hah eq_refl)]. cbn. repeat case_match; eauto. }
  destruct b; [|unfold ProcessBfdPacket; by rewrite Eb].
  destruct (CanProcessBfdControlPacket p) eqn:Ec; [|unfold ProcessBfdPacket; by rewrite Eb, Ec].
  destruct (process_packet p s1) as (s2 & -> & S2 & P2); [done|apply H1|done|done|].
  apply (inv_stays s1 s2 H1 S2).
  - rewrite (pe_state _ _ _ P2). unfold packet_next. destruct (remote_event _); [|apply H1].
    destruct (_ && _); [apply event_next_state|]; apply H1.
  - split; [by rewrite (pe_discriminator _ _ _ P2)|]. apply (pe_diag _ _ _ P2). apply H1.
Qed.

Lemma inv_tx ok s : session_inv s -> made (txTimer s) = true -> step_ok (SendPeriodicControlPackets ok s).
Proof.
  intros H Hm. pose proof H as [Hau Hst Hti Hac Hq Hps Hf].
  destruct (send_returns ok s) as (s' & -> & S & E); [split; congruence|done|done|].
  apply (inv_stays s s' H S); [by rewrite (se_state _ _ E)|by eapply fields_ok_effect].
Qed.

Lemma inv_timeout s : session_inv s -> made (sessionTimer s) = true -> step_ok (HandleSessionTimeout s).
Proof.
  intros H Hm. unfold HandleSessionTimeout.
  match goal with |- context [EventHandler TIMEOUT ?x] => set (s1 := x) end.
  assert (H1 : session_inv s1 /\ made (sessionTimer s1) = true).
  { destruct H as [Hau Hst Hti Hac Hq Hps [Hd Hl]]. unfold s1, ResetRemoteSessionParams. destruct (movedToDownState s);
      (split; [constructor|]; unfold fields_ok, live in *; session_cbn; done). }
  destruct H1 as [H1 Hm1]. clearbody s1.
  assert (Hl : live s1) by (split; [done|by rewrite <- (inv_timers s1 H1)]).
  destruct (inv_handler TIMEOUT s1 H1) as (s2 & -> & H2 & Hl2). specialize (Hl2 Hl). res_simpl.
  rewrite made_reset_session by done. destruct H2 as [Hau Hst Hti Hac Hq Hps Hf], Hl2 as [Hl2 Hl2'].
  constructor; unfold fields_ok, live in *; session_cbn; done.
Qed.

Lemma inv_start s : session_inv s -> made (txTimer s) = true -> step_ok (StartBfdSession s).
Proof.
  intros H Hm. assert (Hl : live s) by (split; [by rewrite (inv_timers s H)|done]).
  unfold StartBfdSession. rewrite made_reset_session by done. res_simpl. rewrite made_reset_tx by live_done. res_simpl.
  match goal with |- context [EventHandler ADMIN_UP ?x] => set (s1 := x) end.
  assert (H1 : session_inv s1).
  { destruct H as [Hau Hst Hti Hac Hq Hps Hf]. unfold s1. constructor; unfold fields_ok, live in *; session_cbn; try done. by right; left. }
  by destruct (inv_handler ADMIN_UP s1 H1) as (s2 & -> & H2 & _).
Qed.

Lemma inv_stop s : session_inv s -> step_ok (StopBfdSession s).
Proof.
  intros H. unfold StopBfdSession. destruct (inv_handler ADMIN_DOWN s H) as (s2 & -> & H2 & _). res_simpl.
  apply (inv_set s2); try done. destruct H2 as [_ _ _ _ _ _ [Hd _]]. split; [done|]. by vm_compute.
Qed.

Lemma inv_client connected s : session_inv s -> session_inv (StartSessionClient connected s).
Proof.
  intros [Hau Hst Hti Hac Hq Hps Hf]. unfold StartSessionClient. destruct connected; [|done].
  constructor; unfold fields_ok, live in *; session_cbn; done.
Qed.

Lemma inv_reset connected s : session_inv s -> session_inv (reset_session connected s).
Proof.
  intros [Hau Hst Hti Hac Hq Hps Hf]. apply inv_client. unfold client_stops, ResetLocalSessionParams.
  destruct (IsSessionActive s); constructor; unfold fields_ok, live in *; session_cbn; try done; by right; left.
Qed.

Lemma inv_params param s :
  session_inv s -> input_ok (Params param) s -> session_inv (apply_param param s).
Proof.
  intros H Hp. unfold apply_param.
  match goal with |- context [set_paramChanged true ?x] => set (s1 := x) end.
  assert (H1 : session_inv s1).
  { destruct H as [Hau Hst Hti Hac Hq Hps Hf]. unfold s1. destruct param as [param|]; cbn [input_ok] in Hp;
      constructor; unfold fields_ok, live in *; session_cbn; done. }
  clearbody s1. unfold InitiatePollSequence. destruct H1 as [Hau Hst Hti Hac Hq Hps Hf].
  destruct (pollSequence _); constructor; unfold fields_ok, live in *; session_cbn; done.
Qed.

Lemma inv_step i s :
  session_inv s -> input_ok i s ->
  step_ok (session_step i s) \/
  (exists p, i = Dispatch p /\ PACKET_QUEUE_SIZE <= len (ReceivedPacketCh s) /\ session_step i s = NoFuel).
Proof.
  intros H Hi. destruct i as [p| |ok| |connected| | |connected|param]; cbn [session_step].
  - destruct (inv_dispatch p s H Hi); eauto.
  - left. by apply inv_serve.
  - left. destruct (made (txTimer s)) eqn:E; [by apply inv_tx|done].
  - left. destruct (made (sessionTimer s)) eqn:E; [by apply inv_timeout|done].
  - left. destruct (isClientActive s); [done|by apply inv_client].
  - left. by apply inv_start.
  - left. by apply inv_stop.
  - left. by apply inv_reset.
  - left. by apply inv_params.
Qed.

Lemma reachable_inv s : reachable s -> session_inv s.
Proof.
  induction 1 as [sessionId jitter interface localIp destIp paramName perLink protocols param Ha|s i s' _ IH Hi E].
  - unfold new_session. constructor; unfold live, fields_ok; session_cbn; try done. by right; left.
  - destruct (inv_step i s IH Hi) as [H|(p & _ & _ & H)]; [by rewrite E in H|congruence].
Qed.

(** C36: a session that is created without authentication is not stopped by any sequence of packets
    as the decoder makes them, timers, starts of its client, resets, parameter changes without
    authentication and administrative changes, provided that none takes it up before its client
    has made its timers ([input_ok]: that resets a timer that is nil and panics,
    bfdSession.go:424). Every such call returns, or waits for room in the queue of packets. *)
Theorem bfd_session_safe s i :
  reachable s -> input_ok i s ->
  (exists s', session_step i s = Ok s') \/
  (exists p, i = Dispatch p /\ PACKET_QUEUE_SIZE <= len (ReceivedPacketCh s) /\ session_step i s = NoFuel).
Proof.
  intros Hr Hi. destruct (inv_step i s (reachable_inv s Hr) Hi) as [H|H]; [left|by right].
  destruct (session_step i s) as [s'|e| |]; [eauto|done..].
Qed.

Lemma bfd_session_safe_witness :
  (reachable session_a /\ input_ok (TxTimer true) session_a) /\
  ((exists s', session_step (TxTimer true) session_a = Ok s') \/
   (exists p, TxTimer true = Dispatch p /\ PACKET_QUEUE_SIZE <= len (ReceivedPacketCh session_a) /\
     session_step (TxTimer true) session_a = NoFuel)).
Proof.
  assert (H : reachable session_a).
  { apply (reach_step (new_session 5 3 "eth0" "10.0.0.1" "10.0.0.2" "default" false [false; false; false; true; false] default_param) (Client true)).
    - by apply reach_new.
    - done.
    - reflexivity. }
  split; [done|]. by apply bfd_session_safe.
Defined.

(** ** Authentication *)

Definition panics {A} (r : res A) : Prop := r = Panic.

Lemma panics_bind {A B} (m : res A) (k : A -> res B) : panics m -> panics (m ≫= k).
Proof. by intros ->. Qed.

Lemma panics_after {A B} (m : res A) (k : A -> res B) a : m = Ok a -> panics (k a) -> panics (m ≫= k).
Proof. by intros ->. Qed.

Lemma update_auth_panics s : authEnabled s = true -> AuthHeader (bfdPacket s) = None -> panics (update_auth s).
Proof. intros Ha Hh. unfold update_auth. by rewrite Ha, Hh. Qed.

Lemma update_panics s :
  live s -> authEnabled s = true -> AuthHeader (bfdPacket s) = None -> panics (UpdateBfdSessionControlPacket s).
Proof.
  intros H Ha Hh. unfold UpdateBfdSessionControlPacket. cbv zeta.
  set (s1 := on_packet (with_state s) s).
  assert (S1 : stays s s1) by (unfold s1; packet_cbn; stays_done).
  destruct (send_intervals s1) as (s2 & E2 & S2 & _); [apply S1|].
  assert (Ha2 : authEnabled s2 = true) by (unfold stays in S1, S2; intuition congruence).
  assert (Hh2 : AuthHeader (bfdPacket s2) = None) by (unfold stays in S1, S2; intuition congruence).
  apply (panics_after _ _ s2 E2). clear S1 S2 E2. clearbody s1. apply panics_bind, update_auth_panics.
  - packet_cbn. exact Ha2.
  - packet_cbn. exact Hh2.
Qed.

(** a session whose parameters ask for authentication stops the daemon when it sends
    its first packet. *)
Theorem bfd_auth_panics sessionId jitter interface localIp destIp paramName perLink protocols param ok :
  AuthenticationEnabled param = true ->
  SendPeriodicControlPackets ok
    (StartSessionClient true (new_session sessionId jitter interface localIp destIp paramName perLink protocols param)) = Panic.
Proof.
  intros Ha. set (s := StartSessionClient true _).
  assert (H : live s /\ authEnabled s = true /\ AuthHeader (bfdPacket s) = None /\ NeedBfdPacketUpdate s = true) by done.
  clearbody s. destruct H as (Hl & Hau & Hh & Hn). unfold SendPeriodicControlPackets, make_packet. rewrite Hn.
  by apply panics_bind, panics_bind, update_panics.
Qed.

Lemma bfd_auth_panics_witness :
  let param := mkSessionParamState "secure" 0 3 250000 250000 0 false true BFD_AUTH_TYPE_KEYED_MD5 1 [115] in
  AuthenticationEnabled param = true /\
  SendPeriodicControlPackets true (StartSessionClient true (new_session 5 3 "eth0" "10.0.0.1" "10.0.0.2" "secure" false [] param)) = Panic.
Proof. split; [reflexivity|]. by apply bfd_auth_panics. Defined.

Definition empty_digest (type : Z) : bytes := if is_md5 type then md5_Sum [] else sha1_Sum [].

(** whatever its key is, a session takes packets without an authentication section, and
    packets that carry its key number and the digest of nothing. *)
Theorem bfd_auth_forged p s :
  AuthPresent p = false \/
  (is_md5 (authType s) || is_sha1 (authType s) = true /\
   AuthHeader p = Some (mkAuthHeader (authType s) (authKeyId s) (ReceivedAuthSeq s) (empty_digest (authType s)))) ->
  AuthenticateReceivedControlPacket p s = Ok true.
Proof.
  intros [H|[Ht H]]; unfold AuthenticateReceivedControlPacket; [by rewrite H|]. destruct (AuthPresent p); [|done]. cbn [negb].
  rewrite H. cbn [of_option mbind res_bind ah_Type AuthKeyID SequenceNumber AuthData]. rewrite Z.eqb_refl. cbn [negb].
  assert (Hs : (authType s =? BFD_AUTH_TYPE_SIMPLE) = false).
  { destruct (authType s =? BFD_AUTH_TYPE_SIMPLE) eqn:E; [|done]. apply Z.eqb_eq in E. by rewrite E in Ht. }
  rewrite Hs, Z.leb_refl, Z.eqb_refl. cbn [andb]. unfold empty_digest, binary_Write_packet.
  destruct (is_md5 (authType s)); [by rewrite bool_decide_eq_true_2|]. cbn [orb] in Ht. rewrite Ht. by rewrite bool_decide_eq_true_2.
Qed.

Definition forged_packet : BfdControlPacket :=
  mkControlPacket 1 0 STATE_DOWN false false false true false false 3 9 0 2000000 2000000 0
    (Some (mkAuthHeader BFD_AUTH_TYPE_METICULOUS_SHA1 7 0 (sha1_Sum []))).

Definition secure_session : BfdSession :=
  new_session 5 3 "eth0" "10.0.0.1" "10.0.0.2" "secure" false []
    (mkSessionParamState "secure" 0 3 250000 250000 0 false true BFD_AUTH_TYPE_METICULOUS_SHA1 7 [115; 101; 99; 114; 101; 116]).

Lemma bfd_auth_forged_witness :
  (is_md5 (authType secure_session) || is_sha1 (authType secure_session) = true /\
   AuthHeader forged_packet = Some (mkAuthHeader (authType secure_session) (authKeyId secure_session) (ReceivedAuthSeq secure_session)
     (empty_digest (authType secure_session)))) /\
  AuthenticateReceivedControlPacket forged_packet secure_session = Ok true.
Proof.
  assert (H : is_md5 (authType secure_session) || is_sha1 (authType secure_session) = true /\
    AuthHeader forged_packet = Some (mkAuthHeader (authType secure_session) (authKeyId secure_session) (ReceivedAuthSeq secure_session)
     (empty_digest (authType secure_session)))) by (split; by vm_compute).
  split; [exact H|]. apply bfd_auth_forged. by right.
Defined.

(** ** Detection *)

Lemma notify_down s :
  SessionState s = STATE_DOWN -> RemoteSessionState s <> STATE_ADMIN_DOWN ->
  SendBfdNotification s =
    set_out (out s ++ (if notifiedState s then [Notify (IpAddr s) false] else [])) (set_notifiedState false s).
Proof.
  intros Hs Hr. unfold SendBfdNotification, GetBfdSessionNotification. rewrite Hs, (proj2 (Z.eqb_neq _ _) Hr).
  change ((STATE_DOWN =? STATE_UP) || (STATE_DOWN =? STATE_ADMIN_DOWN) || false) with false.
  case_bool_decide as E; destruct (notifiedState s) eqn:En; try done. rewrite app_nil_r, <- En. by destruct s.
Qed.

Lemma move_down_exact s :
  live s -> RemoteSessionState s <> STATE_ADMIN_DOWN ->
  exists s', MoveToDownState s = Ok s' /\ live s' /\ SessionState s' = STATE_DOWN /\ LocalDiagType s' = LocalDiagType s /\
    notifiedState s' = false /\ out s' = out s ++ (if notifiedState s then [Notify (IpAddr s) false] else []) /\
    rxInterval s' = interval_ms STARTUP_RX_INTERVAL (DetectionMultiplier s) /\ txTimer s' = Armed (STARTUP_TX_INTERVAL / 1000).
Proof.
  intros Hl Hr. unfold MoveToDownState.
  match goal with |- context [if _ then set_authSeqNum ?v ?s1 else ?s1] =>
    assert (exists n, (if (authType s1 =? BFD_AUTH_TYPE_KEYED_MD5) || (authType s1 =? BFD_AUTH_TYPE_KEYED_SHA1)
                       then set_authSeqNum v s1 else s1) = set_authSeqNum n s1) as [n En] end.
  { destruct (_ || _); [by eexists|]. exists (authSeqNum s). by destruct s. }
  cbv zeta in *. rewrite En. clear En. unfold startup_tx, startup_rx. rewrite notify_down by (session_cbn; done).
  rewrite made_reset_tx by live_done. res_simpl. rewrite made_reset_session by live_done.
  eexists. split; [reflexivity|]. unfold live in *. session_cbn. done.
Qed.

(** a session that is coming up or up and whose detection time passes is down, with the
    diagnostic of RFC 5880 and the timers of a session that starts; applications are told. *)
Theorem bfd_timeout_detected s :
  live s -> isClientActive s = true -> SessionState s = STATE_INIT \/ SessionState s = STATE_UP ->
  movedToDownState s = false -> RemoteSessionState s <> STATE_ADMIN_DOWN ->
  exists s', HandleSessionTimeout s = Ok s' /\ SessionState s' = STATE_DOWN /\ LocalDiagType s' = DIAG_TIME_EXPIRED /\
    notifiedState s' = false /\
    out s' = out s ++ (if notifiedState s then [Notify (IpAddr s) false] else []) /\
    sessionTimer s' = Armed (interval_ms STARTUP_RX_INTERVAL (DetectionMultiplier s)) /\
    txTimer s' = Armed (STARTUP_TX_INTERVAL / 1000).
Proof.
  intros Hl Ha Hst Hm Hr. unfold HandleSessionTimeout. rewrite Hm. cbv zeta.
  set (s1 := set_LocalDiagType DIAG_TIME_EXPIRED s).
  destruct (move_down_exact s1) as (s2 & E2 & Hl2 & Hs2 & Hd2 & Hn2 & Ho2 & Hr2 & Ht2); [done|done|].
  assert (Eh : EventHandler TIMEOUT s1 = MoveToDownState s1).
  { unfold EventHandler, IsSessionActive. change (isClientActive s1) with (isClientActive s).
    change (SessionState s1) with (SessionState s). rewrite Ha. by destruct Hst as [-> | ->]. }
  rewrite Eh, E2. res_simpl. rewrite made_reset_session by done. eexists. split; [reflexivity|]. session_cbn. by rewrite Hr2.
Qed.

Definition up_session : BfdSession := set_notifiedState true (set_RemoteSessionState STATE_UP (set_SessionState STATE_UP session_a)).

Lemma bfd_timeout_detected_witness :
  (live up_session /\ isClientActive up_session = true /\ movedToDownState up_session = false) /\
  exists s', HandleSessionTimeout up_session = Ok s' /\ SessionState s' = STATE_DOWN /\ LocalDiagType s' = DIAG_TIME_EXPIRED /\
    notifiedState s' = false /\
    out s' = out up_session ++ (if notifiedState up_session then [Notify (IpAddr up_session) false] else []) /\
    sessionTimer s' = Armed (interval_ms STARTUP_RX_INTERVAL (DetectionMultiplier up_session)) /\
    txTimer s' = Armed (STARTUP_TX_INTERVAL / 1000).
Proof. split; [done|]. apply bfd_timeout_detected; [done|done|by right|done|done]. Defined.

(** a packet of a neighbour that is up, with a detection time below a millisecond, ends
    the detection: the session stays up, its timer is stopped, and later packets are
    dropped before they are looked at. *)
Theorem bfd_short_interval_freezes p s :
  live s -> isClientActive s = true -> SessionState s = STATE_UP -> RemoteSessionState s = STATE_UP ->
  accepted p s -> pkt_State p = STATE_UP -> interval_ms (i32 (DesiredMinTxInterval p)) (DetectMult p) = 0 ->
  exists s', ProcessBfdPacket p s = Ok s' /\ SessionState s' = STATE_UP /\ rxInterval s' = 0 /\ sessionTimer s' = Stopped /\
    forall q, receive_packet q s' = Ok s'.
Proof.
  intros Hl Ha Hs Hr [Hau Hcan] Hp Hz. unfold ProcessBfdPacket. rewrite Hau, Hcan. res_simpl. cbn [negb].
  destruct (seen_remote_params p s Hl) as (s1 & [= E1] & S1 & P1). rewrite E1. clear E1.
  destruct (seen_demand p s s1 P1 (proj1 S1)) as (s2 & -> & S2 & P2). res_simpl.
  destruct (seen_poll p s s2 P2 (proj1 S2)) as (s3 & [= E3] & S3 & P3). rewrite E3. clear E3.
  assert (Ha3 : isClientActive s3 = true) by (unfold stays in S1, S2, S3; intuition congruence).
  assert (Hl3 : live s3) by apply S3. destruct P3 as [Est Erem _ _ _ _ _ _ Erx]. clear S1 S2 S3 P1 P2 s1 s2.
  unfold detection_interval in Erx. rewrite Hs, Hr, Hz in Erx. cbn in Erx. rewrite Erx. cbn [Z.eqb orb].
  rewrite made_stop_session by done. res_simpl. session_cbn. rewrite Erem, Hp. cbn [andb].
  change (STATE_UP =? STATE_DOWN) with false. rewrite Est, Hs. change (STATE_UP =? STATE_UP) with true. cbn [andb].
  set (s4 := set_sessionTimer Stopped s3).
  replace ((RemoteSessionState s4 =? STATE_UP) && (SessionState s4 =? STATE_UP)) with true
    by (change (RemoteSessionState s4) with (RemoteSessionState s3); change (SessionState s4) with (SessionState s3); by rewrite Erem, Est, Hp, Hs).
  match goal with |- context [if ?b then reset_txTimer 0 ?x else Ok s4] =>
    assert (H5 : exists s5, (if b then reset_txTimer 0 x else Ok s4) = Ok s5 /\ SessionState s5 = STATE_UP /\
      rxInterval s5 = 0 /\ sessionTimer s5 = Stopped /\ isClientActive s5 = true /\ RemoteSessionState s5 = STATE_UP) end.
  { destruct (negb _); [rewrite made_reset_tx by (unfold s4; live_done)|]; eexists; (split; [reflexivity|]); unfold s4; session_cbn;
      rewrite Est, Erem, Hs, Hp; done. }
  destruct H5 as (s5 & -> & H5 & H5' & H5'' & H5a & H5r). res_simpl. exists s5.
  split; [unfold EventHandler, IsSessionActive; rewrite H5r; cbn; rewrite H5a, H5; done|]. split; [done|]. split; [done|]. split; [done|].
  intros q. unfold receive_packet. rewrite H5'. by rewrite andb_false_r.
Qed.

Definition hasty_packet : BfdControlPacket := mkControlPacket 1 0 STATE_UP false false false false false false 3 9 5 300 250000 0 None.

Lemma bfd_short_interval_freezes_witness :
  accepted hasty_packet up_session /\
  exists s', ProcessBfdPacket hasty_packet up_session = Ok s' /\ SessionState s' = STATE_UP /\ rxInterval s' = 0 /\
    sessionTimer s' = Stopped /\ forall q, receive_packet q s' = Ok s'.
Proof. split; [done|]. by apply (bfd_short_interval_freezes hasty_packet up_session). Defined.

(** ** The jitter *)

Definition one_minus_jitter (j : Z) : f32 := f32_sub (f32_of_int 1) (f32_div (f32_of_int j) (f32_of_int 100)).

(** Checked for the ten values of the jitter. *)
Lemma one_minus_jitter_bounds j :
  0 <= j < 10 ->
  let y := one_minus_jitter j in
  0 < f32_num y <= f32_den y /\ (100 - j) * (2 ^ 24 - 2) * f32_den y <= 100 * 2 ^ 24 * f32_num y /\
  100 * 2 ^ 24 * f32_num y <= (100 - j) * (2 ^ 24 + 2) * f32_den y.
Proof.
  intros Hj. assert (H : forallb (fun j => let y := one_minus_jitter j in
    (0 <? f32_num y) && (f32_num y <=? f32_den y) && ((100 - j) * (2 ^ 24 - 2) * f32_den y <=? 100 * 2 ^ 24 * f32_num y) &&
    (100 * 2 ^ 24 * f32_num y <=? (100 - j) * (2 ^ 24 + 2) * f32_den y))
    [0; 1; 2; 3; 4; 5; 6; 7; 8; 9] = true) by by vm_compute.
  rewrite forallb_forall in H. specialize (H j). cbv zeta in H.
  assert (Hin : In j [0; 1; 2; 3; 4; 5; 6; 7; 8; 9]).
  { assert (j = 0 \/ j = 1 \/ j = 2 \/ j = 3 \/ j = 4 \/ j = 5 \/ j = 6 \/ j = 7 \/ j = 8 \/ j = 9) by lia. cbn [In]. intuition. }
  specialize (H Hin). apply andb_prop in H as [H H4]. apply andb_prop in H as [H H3]. apply andb_prop in H as [H1 H2].
  apply Z.ltb_lt in H1. apply Z.leb_le in H2, H3, H4. cbv zeta. lia.
Qed.

(** [x], [y] and their product [z], each with its error. *)
Lemma jitter_arith tx j nx dx ny dy nz dz :
  0 < tx <= 2147483 -> 0 <= j < 10 -> Z.abs (nx - tx * dx) * 2 ^ 24 <= tx * dx -> 0 < dx -> 0 < nx ->
  0 < ny <= dy -> 0 < dy -> (100 - j) * (2 ^ 24 - 2) * dy <= 100 * 2 ^ 24 * ny ->
  Z.abs (nz * (dx * dy) - nx * ny * dz) * 2 ^ 24 <= nx * ny * dz -> 0 < dz ->
  Z.quot nz dz <= tx /\ (100 - j) * tx - 200 <= 100 * Z.quot nz dz.
Proof.
  change (2 ^ 24) with 16777216. set (K := 16777216). intros Htx Hj Hx Hdx Hnx Hny Hdy Hy Hz Hdz.
  assert (HK : K = 16777216) by done. clearbody K.
  assert (X1 : nx * K <= tx * dx * (K + 1)) by lia. assert (X2 : tx * dx * (K - 1) <= nx * K) by lia.
  assert (Z1 : nz * (dx * dy) * K <= nx * ny * dz * (K + 1)) by lia.
  assert (Z2 : nx * ny * dz * (K - 1) <= nz * (dx * dy) * K) by lia.
  assert (Hdd : 0 < dx * dy) by nia.
  assert (U : nz * (K * K) <= tx * dz * ((K + 1) * (K + 1))).
  { apply (Z.mul_le_mono_pos_l _ _ (dx * dy) Hdd).
    assert (nz * (dx * dy) * K * K <= nx * ny * dz * (K + 1) * K) by nia.
    assert (nx * K * (ny * dz * (K + 1)) <= tx * dx * (K + 1) * (ny * dz * (K + 1))) by (apply Z.mul_le_mono_nonneg_r; nia).
    assert (tx * dx * (K + 1) * (dz * (K + 1)) * ny <= tx * dx * (K + 1) * (dz * (K + 1)) * dy) by (apply Z.mul_le_mono_nonneg_l; nia).
    lia. }
  assert (L : (100 - j) * tx * dz * ((K - 1) * (K - 1) * (K - 2)) <= 100 * nz * (K * K * K)).
  { apply (Z.mul_le_mono_pos_l _ _ (dx * dy) Hdd).
    assert (H1 : tx * dx * (K - 1) * (ny * dz * (K - 1)) <= nx * K * (ny * dz * (K - 1))) by (apply Z.mul_le_mono_nonneg_r; nia).
    assert (H2 : nx * ny * dz * (K - 1) * K <= nz * (dx * dy) * K * K) by nia.
    assert (H3 : tx * dx * (K - 1) * (dz * (K - 1)) * ((100 - j) * (K - 2) * dy) <= tx * dx * (K - 1) * (dz * (K - 1)) * (100 * K * ny))
      by (apply Z.mul_le_mono_nonneg_l; nia).
    nia. }
  assert (Hnz : 0 <= nz) by nia.
  rewrite Z.quot_div_nonneg by lia. pose proof (Z.div_mod nz dz ltac:(lia)) as E. pose proof (Z.mod_pos_bound nz dz Hdz).
  set (q := nz / dz) in *. clearbody q. subst K. split.
  - enough (nz < (tx + 1) * dz) by nia. nia.
  - enough ((100 - j) * tx * dz - 100 * dz <= 100 * nz) by nia. nia.
Qed.

(** The other side of it. *)
Lemma jitter_arith_above tx j nx dx ny dy nz dz :
  0 < tx <= 2147483 -> 0 <= j < 10 -> Z.abs (nx - tx * dx) * 2 ^ 24 <= tx * dx -> 0 < dx -> 0 < nx ->
  0 < ny -> 0 < dy -> 100 * 2 ^ 24 * ny <= (100 - j) * (2 ^ 24 + 2) * dy ->
  Z.abs (nz * (dx * dy) - nx * ny * dz) * 2 ^ 24 <= nx * ny * dz -> 0 < dz ->
  100 * Z.quot nz dz <= (100 - j) * tx + 100.
Proof.
  change (2 ^ 24) with 16777216. set (K := 16777216). intros Htx Hj Hx Hdx Hnx Hny Hdy Hy Hz Hdz.
  assert (HK : K = 16777216) by done. clearbody K.
  assert (X1 : nx * K <= tx * dx * (K + 1)) by lia.
  assert (Z1 : nz * (dx * dy) * K <= nx * ny * dz * (K + 1)) by lia.
  assert (Z2 : nx * ny * dz * (K - 1) <= nz * (dx * dy) * K) by lia.
  assert (Hdd : 0 < dx * dy) by nia.
  assert (U : 100 * nz * (K * K * K) <= (100 - j) * tx * dz * ((K + 1) * (K + 1) * (K + 2))).
  { apply (Z.mul_le_mono_pos_l _ _ (dx * dy) Hdd).
    assert (H1 : nx * K * (100 * K * ny * dz * (K + 1)) <= tx * dx * (K + 1) * (100 * K * ny * dz * (K + 1))) by (apply Z.mul_le_mono_nonneg_r; nia).
    assert (H2 : nz * (dx * dy) * K * (100 * K * K) <= nx * ny * dz * (K + 1) * (100 * K * K)) by (apply Z.mul_le_mono_nonneg_r; nia).
    assert (H3 : tx * dx * (K + 1) * (dz * (K + 1)) * (100 * K * ny) <= tx * dx * (K + 1) * (dz * (K + 1)) * ((100 - j) * (K + 2) * dy))
      by (apply Z.mul_le_mono_nonneg_l; nia).
    lia. }
  assert (Hnz : 0 <= nz) by nia.
  rewrite Z.quot_div_nonneg by lia. pose proof (Z.div_mod nz dz ltac:(lia)) as E. pose proof (Z.mod_pos_bound nz dz Hdz).
  set (q := nz / dz) in *. clearbody q.
  assert (Hq : 100 * q * (K * K * K) <= (100 - j) * tx * ((K + 1) * (K + 1) * (K + 2))).
  { apply (Z.mul_le_mono_pos_l _ _ dz Hdz). assert (dz * q * (100 * (K * K * K)) <= nz * (100 * (K * K * K))) by (apply Z.mul_le_mono_nonneg_r; nia).
    lia. }
  assert (Ht : (100 - j) * tx <= 214748300) by nia. assert (H0 : 0 <= (100 - j) * tx) by nia.
  set (t := (100 - j) * tx) in *. clearbody t. subst K. lia.
Qed.

(** C37: the interval between packets is the configured one less the jitter of j percent, up to
    two milliseconds below and one above by the rounding of float32, and never more than the
    configured one, for every jitter from 0 to 9 and every interval that an int32 of
    microseconds can hold. *)
Theorem bfd_jitter_bounds tx j :
  0 <= tx <= 2147483 -> 0 <= j < 10 ->
  jittered tx j <= tx /\ (100 - j) * tx - 200 <= 100 * jittered tx j <= (100 - j) * tx + 100.
Proof.
  intros Htx Hj. destruct (decide (tx = 0)) as [->|Hne].
  { assert (jittered 0 j = 0) as -> by done. lia. }
  unfold jittered. fold (one_minus_jitter j). destruct (one_minus_jitter_bounds j Hj) as (Hy & Hy' & Hy'').
  set (y := one_minus_jitter j) in *. clearbody y.
  destruct (f32_quotient_bound tx 1) as [Hx Hdx]; [lia|lia|]. fold (f32_of_int tx) in Hx, Hdx.
  set (x := f32_of_int tx) in *. clearbody x. rewrite Z.mul_1_r in Hx.
  set (nx := f32_num x) in *. set (dx := f32_den x) in *. set (ny := f32_num y) in *. set (dy := f32_den y) in *.
  assert (Hnx : 0 < nx) by nia. assert (Hdy : 0 < dy) by lia.
  destruct (f32_quotient_bound (nx * ny) (dx * dy)) as [Hz Hdz]; [nia|nia|].
  unfold f32_mul. fold nx ny dx dy. set (z := f32_of_quotient (nx * ny) (dx * dy)) in *. clearbody z.
  unfold int32_of_f32. set (nz := f32_num z) in *. set (dz := f32_den z) in *. clearbody nx dx ny dy nz dz.
  destruct (jitter_arith tx j nx dx ny dy nz dz ltac:(lia) Hj Hx Hdx Hnx Hy Hdy Hy' Hz Hdz) as [H1 H2].
  pose proof (jitter_arith_above tx j nx dx ny dy nz dz ltac:(lia) Hj Hx Hdx Hnx ltac:(lia) Hdy Hy'' Hz Hdz). done.
Qed.

Lemma bfd_jitter_bounds_witness :
  (0 <= 250 <= 2147483 /\ 0 <= 3 < 10) /\ (jittered 250 3 <= 250 /\ (100 - 3) * 250 - 200 <= 100 * jittered 250 3 <= (100 - 3) * 250 + 100).
Proof. split; [lia|]. apply bfd_jitter_bounds; lia. Defined.

(** ** Resetting a session *)

(** [s] is down, has nothing new to tell, and still has the packet of [s0]. *)
Definition stuck (s0 s : BfdSession) : Prop :=
  live s /\ isClientActive s = true /\ SessionState s = STATE_DOWN /\ RemoteSessionState s = STATE_UP /\
  NeedBfdPacketUpdate s = false /\ bfdPacketBuf s = bfdPacketBuf s0 /\ RemoteDiscriminator s = RemoteDiscriminator s0 /\
  RemoteMinRxInterval s = RemoteMinRxInterval s0 /\
  exists sent, out s = out s0 ++ sent /\ Forall (eq (Wrote (bfdPacketBuf s0))) sent.

(** A packet of the neighbour of [s0], in which nothing changed. *)
Definition unchanged (s0 : BfdSession) (p : BfdControlPacket) : Prop :=
  pkt_State p = STATE_UP /\ MyDiscriminator p = RemoteDiscriminator s0 /\
  i32 (RequiredMinRxInterval p) = RemoteMinRxInterval s0 /\ Poll p = false /\ Final p = false.

Inductive quiet_step (s0 : BfdSession) : BfdSession -> BfdSession -> Prop :=
| quiet_send ok s s' : SendPeriodicControlPackets ok s = Ok s' -> quiet_step s0 s s'
| quiet_receive p s s' :
  accepted p s -> unchanged s0 p -> ProcessBfdPacket p s = Ok s' -> quiet_step s0 s s'.

(** [stuck] when fields it does not mention are set. *)
Ltac stuck_done := unfold stuck, live, NeedBfdPacketUpdate in *; session_cbn; intuition eauto.

Lemma stuck_send s0 ok s s' : stuck s0 s -> SendPeriodicControlPackets ok s = Ok s' -> stuck s0 s'.
Proof.
  intros H. pose proof H as (Hl & Ha & Hs & Hr & Hn & Hb & _ & _ & sent & Ho & Hsent).
  unfold SendPeriodicControlPackets. rewrite Hn. res_simpl.
  match goal with |- context [if ok then ?x else s] => set (s1 := if ok then x else s) end.
  assert (H1 : stuck s0 s1).
  { unfold s1, emit. destruct ok; [|done]. unfold stuck, live, NeedBfdPacketUpdate in *. session_cbn.
    intuition. exists (sent ++ [Wrote (bfdPacketBuf s)]). split; [by rewrite Ho, app_assoc|].
    apply Forall_app. split; [done|]. rewrite Hb. by constructor. }
  clearbody s1. clear s H Hl Ha Hs Hr Hn Hb sent Ho Hsent.
  match goal with |- context [if ?b then ?x else s1] => set (s2 := if b then x else s1) end.
  assert (H2 : stuck s0 s2) by (unfold s2; destruct (_ || _); [stuck_done|done]). clearbody s2.
  rewrite made_reset_tx by apply H2. intros [= <-]. stuck_done.
Qed.

Lemma stuck_receive s0 p s s' :
  stuck s0 s -> accepted p s -> unchanged s0 p -> ProcessBfdPacket p s = Ok s' -> stuck s0 s'.
Proof.
  intros H [Hau Hcan] (Up & Ud & Ur & Upo & Ufi). unfold ProcessBfdPacket. rewrite Hau, Hcan. res_simpl. cbn [negb].
  set (s1 := CheckAnyRemoteParamChanged p _).
  assert (H1 : stuck s0 s1).
  { unfold s1, CheckAnyRemoteParamChanged. session_cbn. pose proof H as (_ & _ & _ & Hr & _ & _ & Hd & Hm & _).
    rewrite Hr, Hd, Hm, Up, Ud, Ur, !Z.eqb_refl. cbn [negb orb]. stuck_done. }
  clearbody s1. clear H Hau Hcan.
  assert (H2 : forall s2, RemoteChangedDemandMode p s1 = Ok s2 -> stuck s0 s2).
  { intros s2. unfold RemoteChangedDemandMode. session_cbn. pose proof H1 as (Hl & _).
    destruct (Demand p); [rewrite made_stop_tx by live_done; intros [= <-]; stuck_done|].
    destruct (RemoteDemandMode s1); [rewrite made_reset_tx by live_done|]; intros [= <-]; stuck_done. }
  destruct (RemoteChangedDemandMode p s1) as [s2|e| |]; [|done..]. specialize (H2 s2 eq_refl). res_simpl.
  assert (ProcessPollSequence p s2 = s2) as -> by (unfold ProcessPollSequence; rewrite Upo, Ufi; by destruct (_ =? _)).
  match goal with |- context [if ?b then stop_sessionTimer s2 else _] =>
    assert (H3 : forall s3, (if b then stop_sessionTimer s2 else Ok s2) = Ok s3 -> stuck s0 s3) by
      (intros s3; destruct b; [rewrite made_stop_session by apply H2|]; intros [= <-]; [stuck_done|done]);
    destruct (if b then stop_sessionTimer s2 else Ok s2) as [s3|e| |]; [|done..] end.
  specialize (H3 s3 eq_refl). res_simpl. pose proof H3 as (_ & _ & Hs & Hr & _). rewrite Hr, Hs. cbn.
  rewrite Hr, Hs. cbn. rewrite ?Hr. cbn. unfold EventHandler. destruct (negb _); [intros Hok; by injection Hok as <-|]. rewrite Hs. cbn. intros Hok. by injection Hok as <-.
Qed.

(** a reset of a session that is up never ends while the neighbour is up: the session
    is down and keeps sending the packet from before the reset, which says that it is up,
    so that the neighbour stays up, and a session that is down ignores a neighbour that is up. *)
Theorem bfd_reset_never_recovers s0 s :
  live s0 -> isClientActive s0 = true -> RemoteSessionState s0 = STATE_UP -> NeedBfdPacketUpdate s0 = false ->
  rtc (quiet_step s0) (reset_session true s0) s ->
  SessionState s = STATE_DOWN /\ exists sent, out s = out s0 ++ sent /\ Forall (eq (Wrote (bfdPacketBuf s0))) sent.
Proof.
  intros Hl Ha Hr Hn Hsteps.
  assert (H0 : stuck s0 (reset_session true s0)).
  { unfold reset_session, IsSessionActive. rewrite Ha. unfold StartSessionClient, client_stops, ResetLocalSessionParams, stuck, live, NeedBfdPacketUpdate in *.
    session_cbn. intuition. exists []. by rewrite app_nil_r. }
  assert (H : stuck s0 s).
  { revert H0. induction Hsteps as [s|s s' s'' Hstep _ IH]; [done|]. intros H0. apply IH.
    destruct Hstep; [by eapply stuck_send|by eapply stuck_receive]. }
  destruct H as (_ & _ & Hs & _ & _ & _ & _ & _ & Hsent). done.
Qed.

Definition settled_session : BfdSession :=
  match SendPeriodicControlPackets true up_session with Ok s => s | _ => session_a end.
Definition reset_once : BfdSession :=
  match SendPeriodicControlPackets true (reset_session true settled_session) with Ok s => s | _ => session_a end.

Lemma bfd_reset_never_recovers_witness :
  (live settled_session /\ isClientActive settled_session = true /\ RemoteSessionState settled_session = STATE_UP /\
   NeedBfdPacketUpdate settled_session = false /\ rtc (quiet_step settled_session) (reset_session true settled_session) reset_once) /\
  (SessionState reset_once = STATE_DOWN /\
   exists sent, out reset_once = out settled_session ++ sent /\ Forall (eq (Wrote (bfdPacketBuf settled_session))) sent).
Proof.
  assert (H : live settled_session) by (split; vm_compute; reflexivity).
  assert (Ha : isClientActive settled_session = true) by (vm_compute; reflexivity).
  assert (Hr : RemoteSessionState settled_session = STATE_UP) by (vm_compute; reflexivity).
  assert (Hn : NeedBfdPacketUpdate settled_session = false) by (vm_compute; reflexivity).
  assert (Hs : rtc (quiet_step settled_session) (reset_session true settled_session) reset_once).
  { apply rtc_once, (quiet_send _ true). vm_compute. reflexivity. }
  split; [exact (conj H (conj Ha (conj Hr (conj Hn Hs))))|]. exact (bfd_reset_never_recovers _ _ H Ha Hr Hn Hs).
Defined.

(** The packet it keeps sending. *)
Example reset_sends_up :
  (pkt_State <$> DecodeBfdControlPacket (mkSlice (bfdPacketBuf reset_once) [])) = Ok STATE_UP.
Proof. vm_compute. reflexivity. Qed.
