(* ===== verification/BfdServer.v ===== *)
(** * BFD: the server

    bfdSessionServer.go, bfdSessionParam.go, bfdGlobalConf.go, bfdInfra.go and
    bfdSessionGetBulk.go of src/bfd/server: the tables of sessions and of their parameters.
    The client of the routing daemon, the plugin of the switch and the sockets are
    parameters; a map is walked in the order [visit] gives its keys. *)

From S2P Require Import Prelude.
From S2P Require Import NetParse.
From S2P Require Import BfdPacket.
From S2P Require Import BfdSession.

(** ** Data *)

Definition MAX_NUM_SESSIONS : Z := 1024.

(** bfddCommonDefs.BfdSessionOperation *)
Definition CREATE : Z := 1.
Definition DELETE : Z := 2.
Definition ADMINUP : Z := 3.
Definition ADMINDOWN : Z := 4.

Definition ConvertBfdSessionOwnerStrToVal (owner : string) : Z :=
  if bool_decide (owner = "discover"%string) then 1
  else if bool_decide (owner = "user"%string) then 2
  else if bool_decide (owner = "bgp"%string) then 3
  else if bool_decide (owner = "ospf"%string) then 4
  else 0.

Record BfdSessionMgmt := mkBfdSessionMgmt {
  m_DestIp : string;
  m_ParamName : string;
  m_Interface : string;
  m_Protocol : Z;
  m_PerLink : bool;
  ForceDel : bool;
}.

Record SessionConfig := mkSessionConfig {
  c_DestIp : string;
  c_ParamName : string;
  c_Interface : string;
  c_PerLink : bool;
  c_Protocol : Z;
  c_Operation : Z;
}.

Record SessionParamConfig := mkSessionParamConfig {
  p_Name : string;
  p_LocalMultiplier : Z;
  p_DesiredMinTxInterval : Z;
  p_RequiredMinRxInterval : Z;
  p_RequiredMinEchoRxInterval : Z;
  p_DemandEnabled : bool;
  p_AuthenticationEnabled : bool;
  p_AuthenticationType : Z;
  p_AuthenticationKeyId : Z;
  p_AuthenticationData : bytes;
}.

Record PortProperty := mkPortProperty {
  port_Name : string;
  VlanName : string;
  VlanId : Z;
}.

Record VlanProperty := mkVlanProperty {
  vlan_Name : string;
  UntagPorts : list Z;
}.

(** The messages of the switch: VlanNotifyMsg and LagNotifyMsg, whose type is creation,
    deletion or another. *)
Inductive NotifyType := NOTIFY_CREATE | NOTIFY_DELETE | NOTIFY_OTHER.

Inductive NotifyMsg :=
| VlanNotifyMsg (MsgType : NotifyType) (VlanId : Z) (VlanName : string) (UntagPorts : list Z)
| LagNotifyMsg (MsgType : NotifyType) (IfIndex : Z) (IfIndexList : list Z)
| OtherMsg.

(** What GetIntfTypeFromIfIndex tells of an interface. *)
Inductive IfType := IfTypeVlan | IfTypePort | IfTypeLag | IfTypeOther.

#[export] Instance IfType_eq_dec : EqDecision IfType.
Proof. solve_decision. Defined.

(** A pointer to a session is the number of the session. [serving] are the sessions whose
    goroutine runs and takes the stop signal; [CreatedSessionCh] and
    [FailedSessionClientCh] are the channels of that name; [random] are the numbers the
    random sources give. *)
Record BFDServer := mkBFDServer {
  Vrf : string;
  Enabled : bool;
  NumSessions_ : Z;
  Sessions : gmap Z BfdSession;
  SessionsIdSlice : list Z;
  SessionsByIp : gmap string Z;
  InactiveSessionsIdSlice : list Z;
  NumSessionParams : Z;
  SessionParams : gmap string SessionParamState;
  tobeCreatedSessions : gmap string BfdSessionMgmt;
  CreatedSessionCh : list Z;
  FailedSessionClientCh : list Z;
  portPropertyMap : gmap Z PortProperty;
  vlanPropertyMap : gmap Z VlanProperty;
  lagPropertyMap : gmap Z (list Z);
  serving : gset Z;
  random : list Z;
}.

Definition BFDServer_eta (v : BFDServer) : BFDServer :=
  mkBFDServer (Vrf v) (Enabled v) (NumSessions_ v) (Sessions v) (SessionsIdSlice v) (SessionsByIp v)
    (InactiveSessionsIdSlice v) (NumSessionParams v) (SessionParams v) (tobeCreatedSessions v) (CreatedSessionCh v)
    (FailedSessionClientCh v) (portPropertyMap v) (vlanPropertyMap v) (lagPropertyMap v) (serving v) (random v).

Definition set_Vrf x v := ltac:(update BFDServer_eta v Vrf x).
Definition set_Enabled x v := ltac:(update BFDServer_eta v Enabled x).
Definition set_NumSessions x v := ltac:(update BFDServer_eta v NumSessions_ x).
Definition set_Sessions x v := ltac:(update BFDServer_eta v Sessions x).
Definition set_SessionsIdSlice x v := ltac:(update BFDServer_eta v SessionsIdSlice x).
Definition set_SessionsByIp x v := ltac:(update BFDServer_eta v SessionsByIp x).
Definition set_InactiveSessionsIdSlice x v := ltac:(update BFDServer_eta v InactiveSessionsIdSlice x).
Definition set_NumSessionParams x v := ltac:(update BFDServer_eta v NumSessionParams x).
Definition set_SessionParams x v := ltac:(update BFDServer_eta v SessionParams x).
Definition set_tobeCreatedSessions x v := ltac:(update BFDServer_eta v tobeCreatedSessions x).
Definition set_CreatedSessionCh x v := ltac:(update BFDServer_eta v CreatedSessionCh x).
Definition set_FailedSessionClientCh x v := ltac:(update BFDServer_eta v FailedSessionClientCh x).
Definition set_portPropertyMap x v := ltac:(update BFDServer_eta v portPropertyMap x).
Definition set_vlanPropertyMap x v := ltac:(update BFDServer_eta v vlanPropertyMap x).
Definition set_lagPropertyMap x v := ltac:(update BFDServer_eta v lagPropertyMap x).
Definition set_serving x v := ltac:(update BFDServer_eta v serving x).
Definition set_random x v := ltac:(update BFDServer_eta v random x).

Definition NewBFDServer (random : list Z) : BFDServer :=
  mkBFDServer "" false 0 ∅ [] ∅ [] 0 ∅ ∅ [] [] ∅ ∅ ∅ ∅ random.

(** The session a pointer stands for; nil panics. *)
Definition session_at (v : BFDServer) (id : Z) : res BfdSession := of_option (Sessions v !! id).

(** A call on one session. *)
Definition on_session (id : Z) (f : BfdSession -> res BfdSession) (v : BFDServer) : res BFDServer :=
  s ← session_at v id; s ← f s; Ok (set_Sessions (<[id := s]> (Sessions v)) v).

Section Server.
(** The order in which a map with these keys is walked. *)
Variable visit : list Z -> list Z.
Variable visit_names : list string -> list string.
(** AsicdPlugin.GetIntfTypeFromIfIndex *)
Variable GetIntfTypeFromIfIndex : Z -> IfType.
(** GetRouteReachabilityInfo: the interface and the local address towards a destination
    that is reachable. *)
Variable GetRouteReachabilityInfo : string -> option (Z * string).
(** Whether the addresses of a session resolve and its socket opens. *)
Variable dial : BfdSession -> bool.

Definition session_ids (v : BFDServer) : list Z := visit (map_to_list (Sessions v)).*1.

Fixpoint on_sessions (ids : list Z) (f : BfdSession -> res BfdSession) (v : BFDServer) : res BFDServer :=
  match ids with
  | id :: ids => v ← on_session id f v; on_sessions ids f v
  | [] => Ok v
  end.

(** ** Interfaces *)

Definition updateVlanPropertyMap (msgType : NotifyType) (vlanId : Z) (name : string) (ports : list Z) (v : BFDServer) : BFDServer :=
  match msgType with
  | NOTIFY_CREATE => set_vlanPropertyMap (<[vlanId := mkVlanProperty name ports]> (vlanPropertyMap v)) v
  | NOTIFY_DELETE => set_vlanPropertyMap (delete vlanId (vlanPropertyMap v)) v
  | NOTIFY_OTHER => v
  end.

Definition port_with_vlan (vlanId : Z) (name : string) (m : gmap Z PortProperty) (port : Z) : gmap Z PortProperty :=
  <[port := mkPortProperty (match m !! port with Some ent => port_Name ent | None => "" end) name vlanId]> m.

Definition updatePortPropertyMap (msgType : NotifyType) (vlanId : Z) (name : string) (ports : list Z) (v : BFDServer) : BFDServer :=
  set_portPropertyMap
    (match msgType with
     | NOTIFY_CREATE => foldl (port_with_vlan vlanId name) (portPropertyMap v) ports
     | _ => foldl (port_with_vlan 0 "") (portPropertyMap v) ports
     end) v.

Definition updateLagPropertyMap (msgType : NotifyType) (ifIndex : Z) (links : list Z) (v : BFDServer) : BFDServer :=
  match msgType, lagPropertyMap v !! ifIndex with
  | NOTIFY_CREATE, None => set_lagPropertyMap (<[ifIndex := links]> (lagPropertyMap v)) v
  | NOTIFY_DELETE, Some _ => set_lagPropertyMap (delete ifIndex (lagPropertyMap v)) v
  | _, _ => v
  end.

Definition processAsicdNotification (msg : NotifyMsg) (v : BFDServer) : BFDServer :=
  match msg with
  | VlanNotifyMsg msgType vlanId name ports =>
    updateVlanPropertyMap msgType vlanId name ports (updatePortPropertyMap msgType vlanId name ports v)
  | LagNotifyMsg msgType ifIndex links => updateLagPropertyMap msgType ifIndex links v
  | OtherMsg => v
  end.

(** [None] is the error; an interface that the maps do not have has no name. *)
Definition getLinuxIntfName (v : BFDServer) (ifIndex : Z) : option string :=
  match GetIntfTypeFromIfIndex ifIndex with
  | IfTypeVlan => Some (match vlanPropertyMap v !! ifIndex with Some p => vlan_Name p | None => "" end)
  | IfTypePort => Some (match portPropertyMap v !! ifIndex with Some p => port_Name p | None => "" end)
  | _ => None
  end.

(** ** Parameters *)

Definition UpdateBfdSessionsUsingParam (paramName : string) (v : BFDServer) : BFDServer :=
  let param := SessionParams v !! paramName in
  set_Sessions ((fun s => if bool_decide (ParamName s = paramName) then apply_param param s else s) <$> Sessions v) v.

Definition initBfdGlobalConfDefault (v : BFDServer) : BFDServer := set_Enabled true v.

Definition default_session_param : SessionParamState :=
  mkSessionParamState "default" 0 DEFAULT_DETECT_MULTI DEFAULT_DESIRED_MIN_TX_INTERVAL DEFAULT_REQUIRED_MIN_RX_INTERVAL
    DEFAULT_REQUIRED_MIN_ECHO_RX_INTERVAL false false 0 0 [].

Definition createDefaultSessionParam (v : BFDServer) : BFDServer :=
  match SessionParams v !! "default"%string with
  | Some _ => v
  | None =>
    let v := set_SessionParams (<["default"%string := default_session_param]> (SessionParams v)) v in
    UpdateBfdSessionsUsingParam "default" (set_NumSessionParams (u32 (NumSessionParams v + 1)) v)
  end.

(** The intervals are configured in milliseconds. *)
Definition configured_param (c : SessionParamConfig) (numSessions : Z) : SessionParamState :=
  mkSessionParamState (p_Name c) numSessions (p_LocalMultiplier c) (i32 (p_DesiredMinTxInterval c * 1000))
    (i32 (p_RequiredMinRxInterval c * 1000)) (i32 (p_RequiredMinEchoRxInterval c * 1000)) (p_DemandEnabled c)
    (p_AuthenticationEnabled c) (p_AuthenticationType c) (p_AuthenticationKeyId c) (p_AuthenticationData c).

Definition processSessionParamConfig (c : SessionParamConfig) (v : BFDServer) : BFDServer :=
  let old := SessionParams v !! p_Name c in
  let param := configured_param c (match old with Some p => NumSessions p | None => 0 end) in
  let v := set_SessionParams (<[p_Name c := param]> (SessionParams v)) v in
  let v := match old with Some _ => v | None => set_NumSessionParams (u32 (NumSessionParams v + 1)) v end in
  UpdateBfdSessionsUsingParam (p_Name c) v.

Definition processSessionParamDelete (paramName : string) (v : BFDServer) : BFDServer :=
  match SessionParams v !! paramName with
  | Some _ =>
    let v := set_SessionParams (delete paramName (SessionParams v)) v in
    UpdateBfdSessionsUsingParam paramName (set_NumSessionParams (u32 (NumSessionParams v - 1)) v)
  | None => v
  end.

(** The state before the first request. *)
Definition InitServer (random : list Z) : BFDServer := createDefaultSessionParam (initBfdGlobalConfDefault (NewBFDServer random)).

(** ** Identifiers *)

(** Numbers are drawn until one is free: the loop ends with the random numbers. *)
Fixpoint draw_id (numbers : list Z) (used : Z -> bool) : option (Z * list Z) :=
  match numbers with
  | [] => None
  | n :: numbers =>
    let id := n mod MAX_NUM_SESSIONS in
    if used id || (id =? 0) then draw_id numbers used else Some (id, numbers)
  end.

Definition id_used (v : BFDServer) (id : Z) : bool := match Sessions v !! id with Some _ => true | None => false end.

(** 0 stands for no identifier. *)
Definition GetNewSessionId (v : BFDServer) : res (Z * BFDServer) :=
  if NumSessions_ v <? MAX_NUM_SESSIONS then
    match draw_id (random v) (id_used v) with
    | Some (id, numbers) => Ok (id, set_random numbers v)
    | None => NoFuel
    end
  else Ok (0, v).

Definition GetTxJitter (v : BFDServer) : res (Z * BFDServer) :=
  match random v with n :: numbers => Ok (n mod TX_JITTER, set_random numbers v) | [] => NoFuel end.

(** ** Creation *)

(** The parameters of a new session, in which the session is counted. *)
Definition take_param (paramName : string) (v : BFDServer) : res (string * SessionParamState * BFDServer) :=
  let name := match SessionParams v !! paramName with Some _ => paramName | None => "default"%string end in
  param ← of_option (SessionParams v !! name);
  let param := mkSessionParamState (Name param) (i32 (NumSessions param + 1)) (LocalMultiplier param)
    (prm_DesiredMinTxInterval param) (prm_RequiredMinRxInterval param) (prm_RequiredMinEchoRxInterval param)
    (DemandEnabled param) (AuthenticationEnabled param) (AuthenticationType param) (AuthenticationKeyId param)
    (AuthenticationData param) in
  Ok (name, param, set_SessionParams (<[name := param]> (SessionParams v)) v).

(** The session is announced on a channel with room for 1024. *)
Definition announce (id : Z) (v : BFDServer) : res BFDServer :=
  if len (CreatedSessionCh v) <? MAX_NUM_SESSIONS then Ok (set_CreatedSessionCh (CreatedSessionCh v ++ [id]) v) else NoFuel.

(** Nothing is returned when there is no identifier. *)
Definition NewNormalBfdSession (interface localIp destIp paramName : string) (perLink : bool) (protocol : Z)
    (v : BFDServer) : res (option Z * BFDServer) :=
  '(id, v) ← GetNewSessionId v;
  if id =? 0 then Ok (None, v)
  else
    protocols ← set_index (replicate 5 false) protocol true;
    '(jitter, v) ← GetTxJitter v;
    '(name, param, v) ← take_param paramName v;
    let s := new_session id jitter interface localIp destIp name perLink protocols param in
    let v := set_SessionsByIp (<[destIp := id]> (SessionsByIp v)) (set_Sessions (<[id := s]> (Sessions v)) v) in
    let v := set_SessionsIdSlice (SessionsIdSlice v ++ [id]) (set_NumSessions (u32 (NumSessions_ v + 1)) v) in
    v ← announce id v; Ok (Some id, v).

(** One session for every link. *)
Fixpoint new_links (links : list Z) (interface localIp destIp paramName : string) (protocol : Z) (v : BFDServer) : res BFDServer :=
  match links with
  | [] => Ok v
  | _ :: links =>
    '(_, v) ← NewNormalBfdSession interface localIp destIp paramName true protocol v;
    new_links links interface localIp destIp paramName protocol v
  end.

Definition NewPerLinkBfdSessions (ifIndex : Z) (localIp destIp paramName : string) (protocol : Z) (v : BFDServer) : res BFDServer :=
  match lagPropertyMap v !! ifIndex with
  | Some links =>
    new_links links (match getLinuxIntfName v ifIndex with Some name => name | None => "" end) localIp destIp paramName protocol v
  | None => Ok v
  end.

(** [None]: there is no session to the caller's knowledge. *)
Definition NewBfdSession (destIp paramName interface : string) (protocol : Z) (perLink : bool) (v : BFDServer)
    : res (option Z * BFDServer) :=
  let interfaceSpecific := negb (bool_decide (interface = "None"%string)) && negb (bool_decide (interface = ""%string)) in
  match GetRouteReachabilityInfo destIp with
  | None => Ok (None, v)
  | Some (ifIndex, localIp) =>
    let wrong := match getLinuxIntfName v ifIndex with
                 | Some name => interfaceSpecific && negb (bool_decide (name = interface))
                 | None => false
                 end in
    if wrong then Ok (None, v)
    else if bool_decide (GetIntfTypeFromIfIndex ifIndex = IfTypeLag) && perLink then
      v ← NewPerLinkBfdSessions ifIndex localIp destIp paramName protocol v; Ok (None, v)
    else
      '(id, v) ← NewNormalBfdSession interface localIp destIp paramName false protocol v;
      id ← of_option id;
      v ← on_session id (fun s => Ok (set_InterfaceSpecific interfaceSpecific s)) v;
      Ok (Some id, v)
  end.

(** ** Requests *)

(** The first session in the walk. *)
Definition find_session (test : BfdSession -> bool) (v : BFDServer) : option Z :=
  head (filter (fun id => (match Sessions v !! id with Some s => test s | None => false end) = true) (session_ids v)).

Definition FindBfdSession (destIp : string) (v : BFDServer) : option Z :=
  find_session (fun s => bool_decide (IpAddr s = destIp)) v.

Definition FindBfdSessionContainingAddr (destIp : string) (v : BFDServer) : option Z :=
  find_session (fun s => String.prefix destIp (IpAddr s)) v.

(** The address of the session: that of a link-local IPv6 neighbour has a zone. *)
Definition session_ip (destIp interface : string) : string :=
  let ip := match ParseIP destIp with Some ip => ip | None => [] end in
  if negb (bool_decide (interface = ""%string)) && (len (To4 ip) =? 0) && IsLinkLocalUnicast ip
  then destIp +:+ "%" +:+ interface else destIp.

(** The error is told by the flag. *)
Definition CreateBfdSession (m : BfdSessionMgmt) (v : BFDServer) : res (bool * BFDServer) :=
  let sessionIp := session_ip (m_DestIp m) (m_Interface m) in
  match FindBfdSession sessionIp v with
  | None =>
    '(created, v) ← NewBfdSession sessionIp (m_ParamName m) (m_Interface m) (m_Protocol m) (m_PerLink m) v;
    match created with
    | Some _ => Ok (true, v)
    | None =>
      Ok (false, match tobeCreatedSessions v !! sessionIp with
                 | Some _ => v
                 | None => set_tobeCreatedSessions (<[sessionIp := m]> (tobeCreatedSessions v)) v
                 end)
    end
  | Some id =>
    v ← on_session id (fun s => protocols ← set_index (RegisteredProtocols s) (m_Protocol m) true;
                                Ok (set_RegisteredProtocols protocols s)) v;
    Ok (true, v)
  end.

(** Sending to the goroutine of a session that has not been started, or that serves one
    link, waits for ever. *)
Definition stop_server (id : Z) (v : BFDServer) : res BFDServer :=
  if bool_decide (id ∈ serving v) then Ok (set_serving (serving v ∖ {[id]}) v) else NoFuel.

Definition drop_param (paramName : string) (v : BFDServer) : res BFDServer :=
  param ← of_option (SessionParams v !! paramName);
  let param := mkSessionParamState (Name param) (i32 (NumSessions param - 1)) (LocalMultiplier param)
    (prm_DesiredMinTxInterval param) (prm_RequiredMinRxInterval param) (prm_RequiredMinEchoRxInterval param)
    (DemandEnabled param) (AuthenticationEnabled param) (AuthenticationType param) (AuthenticationKeyId param)
    (AuthenticationData param) in
  Ok (set_SessionParams (<[paramName := param]> (SessionParams v)) v).

(** Without the first occurrence; an identifier that is not in the slice panics. *)
Definition remove_id (id : Z) (ids : list Z) : res (list Z) :=
  match list_find (eq id) ids with
  | Some (i, _) => Ok (take i ids ++ drop (S i) ids)
  | None => Panic
  end.

Definition SessionDeleteHandler (id : Z) (protocol : Z) (forceDel : bool) (v : BFDServer) : res BFDServer :=
  v ← on_session id (fun s => protocols ← set_index (RegisteredProtocols s) protocol false;
                              Ok (set_RegisteredProtocols protocols s)) v;
  s ← session_at v id;
  if forceDel || negb (CheckIfAnyProtocolRegistered s) then
    v ← stop_server id v;
    v ← drop_param (ParamName s) v;
    let v := set_NumSessions (u32 (NumSessions_ v - 1)) v in
    let v := set_SessionsByIp (delete (IpAddr s) (SessionsByIp v)) (set_Sessions (delete id (Sessions v)) v) in
    ids ← remove_id id (SessionsIdSlice v);
    Ok (set_SessionsIdSlice ids v)
  else Ok v.

(** Those of the sessions in the walk that are still there and have the address. *)
Fixpoint delete_links (ids : list Z) (destIp : string) (protocol : Z) (forceDel : bool) (v : BFDServer) : res BFDServer :=
  match ids with
  | [] => Ok v
  | id :: ids =>
    v ← (match Sessions v !! id with
         | Some s => if bool_decide (IpAddr s = destIp) then SessionDeleteHandler id protocol forceDel v else Ok v
         | None => Ok v
         end);
    delete_links ids destIp protocol forceDel v
  end.

Definition DeletePerLinkSessions (destIp : string) (protocol : Z) (forceDel : bool) (v : BFDServer) : res BFDServer :=
  delete_links (session_ids v) destIp protocol forceDel v.

Definition DeleteBfdSession (m : BfdSessionMgmt) (v : BFDServer) : res BFDServer :=
  let sessionIp := session_ip (m_DestIp m) (m_Interface m) in
  match FindBfdSession sessionIp v with
  | Some id =>
    s ← session_at v id;
    if PerLinkSession s then DeletePerLinkSessions sessionIp (m_Protocol m) (ForceDel m) v
    else SessionDeleteHandler id (m_Protocol m) (ForceDel m) v
  | None => Ok v
  end.

(** ** Administration *)

(** The goroutine of a client that could not open its socket tells so on a channel:
    [FailedSessionClientCh] holds what is in the channel, up to MAX_NUM_SESSIONS, and behind
    that, in their order, what goroutines wait to send; these hold up nobody else. *)
Definition tell_failed (id : Z) (v : BFDServer) : BFDServer :=
  set_FailedSessionClientCh (FailedSessionClientCh v ++ [id]) v.

(** ResetBfdSession; the goroutines start again. *)
Definition ResetBfdSession (id : Z) (v : BFDServer) : res BFDServer :=
  s ← session_at v id;
  v ← stop_server id v;
  v ← on_session id (fun s => Ok (reset_session (dial s) s)) v;
  let v := set_serving ({[id]} ∪ serving v) v in
  if dial s then Ok v else Ok (tell_failed id v).

(** Of the sessions to an address: all of them, or the first one. *)
Definition sessions_to (destIp : string) (v : BFDServer) : res (list Z) :=
  match FindBfdSession destIp v with
  | Some id =>
    s ← session_at v id;
    Ok (if PerLinkSession s
        then filter (fun id => (match Sessions v !! id with Some s => bool_decide (IpAddr s = destIp) | None => false end) = true)
               (session_ids v)
        else [id])
  | None => Ok []
  end.

Definition AdminUpBfdSession (m : BfdSessionMgmt) (v : BFDServer) : res BFDServer :=
  ids ← sessions_to (m_DestIp m) v; on_sessions ids StartBfdSession v.

Definition AdminDownBfdSession (m : BfdSessionMgmt) (v : BFDServer) : res BFDServer :=
  ids ← sessions_to (m_DestIp m) v; on_sessions ids StopBfdSession v.

Definition SendAdminUpToAllNeighbors (v : BFDServer) : res BFDServer := on_sessions (session_ids v) StartBfdSession v.
Definition SendAdminDownToAllNeighbors (v : BFDServer) : res BFDServer := on_sessions (session_ids v) StopBfdSession v.

Definition processSessionConfig (c : SessionConfig) (v : BFDServer) : res BFDServer :=
  let m := mkBfdSessionMgmt (c_DestIp c) (c_ParamName c) (c_Interface c) (c_Protocol c) (c_PerLink c) false in
  if c_Operation c =? CREATE then '(_, v) ← CreateBfdSession m v; Ok v
  else if c_Operation c =? DELETE then DeleteBfdSession m v
  else if c_Operation c =? ADMINUP then AdminUpBfdSession m v
  else if c_Operation c =? ADMINDOWN then AdminDownBfdSession m v
  else Ok v.

Definition processGlobalConfig (vrf : string) (enable : bool) (v : BFDServer) : res BFDServer :=
  let wasEnabled := Enabled v in
  let v := set_Enabled enable (set_Vrf vrf v) in
  if negb wasEnabled && enable then on_sessions (SessionsIdSlice v) StartBfdSession v
  else if wasEnabled && negb enable then on_sessions (SessionsIdSlice v) StopBfdSession v
  else Ok v.

(** The keys [names] of the sessions that wait, which are deleted by their destination. *)
Fixpoint create_waiting (names : list string) (v : BFDServer) : res BFDServer :=
  match names with
  | [] => Ok v
  | name :: names =>
    v ← (match tobeCreatedSessions v !! name with
         | Some m =>
           created ← CreateBfdSession m v;
           let '(ok, v) := (created : bool * BFDServer) in
           Ok (if ok then set_tobeCreatedSessions (delete (m_DestIp m) (tobeCreatedSessions v)) v else v)
         | None => Ok v
         end);
    create_waiting names v
  end.

Definition HandleNextHopChange (reachable : bool) (v : BFDServer) : res BFDServer :=
  if reachable then create_waiting (visit_names (map_to_list (tobeCreatedSessions v)).*1) v else Ok v.

(** ** Goroutines *)

(** A session's client is started, in a goroutine of its own. *)
Definition start_client (id : Z) (v : BFDServer) : res BFDServer :=
  s ← session_at v id;
  if PerLinkSession s then Ok v
  else if dial s then on_session id (fun s => Ok (StartSessionClient true s)) v
  else Ok (tell_failed id v).

(** A turn of StartBfdSessionRxTx with a created session; the goroutines of a session per
    link are not modelled. *)
Definition serve_created (v : BFDServer) : res BFDServer :=
  match CreatedSessionCh v with
  | [] => Ok v
  | id :: ids =>
    let v := set_CreatedSessionCh ids v in
    match Sessions v !! id with
    | Some s =>
      v ← on_session id (fun s => Ok (set_isClientActive false (set_ReceivedPacketCh [] s))) v;
      start_client id (if PerLinkSession s then v else set_serving ({[id]} ∪ serving v) v)
    | None => Ok v
    end
  end.

(** A turn with a client that failed. *)
Definition serve_failed (v : BFDServer) : BFDServer :=
  match FailedSessionClientCh v with
  | [] => v
  | id :: ids =>
    let v := set_FailedSessionClientCh ids v in
    match Sessions v !! id with
    | Some _ => set_InactiveSessionsIdSlice (InactiveSessionsIdSlice v ++ [id]) v
    | None => v
    end
  end.

(** The loop of StartSessionRetryHandler at one tick: an identifier that is taken out makes
    the loop pass over the next one. *)
Fixpoint retry (fuel : nat) (i : nat) (v : BFDServer) : res BFDServer :=
  match fuel with
  | O => NoFuel
  | S fuel =>
    match InactiveSessionsIdSlice v !! i with
    | None => Ok v
    | Some id =>
      match Sessions v !! id with
      | Some s =>
        v ← (if isClientActive s then Ok v else start_client id v);
        retry fuel (S i) (set_InactiveSessionsIdSlice (take i (InactiveSessionsIdSlice v) ++ drop (S i) (InactiveSessionsIdSlice v)) v)
      | None => retry fuel (S i) v
      end
    end
  end.

Definition StartSessionRetryHandler (v : BFDServer) : res BFDServer := retry (S (length (InactiveSessionsIdSlice v))) 0 v.

(** By the discriminator, or else by the address. *)
Definition find_receiver (ipAddr : string) (p : BfdControlPacket) (v : BFDServer) : option Z :=
  let id := i32 (YourDiscriminator p) in
  match Sessions v !! id with Some _ => Some id | None => SessionsByIp v !! ipAddr end.

Definition DispatchReceivedBfdPacket (ipAddr : string) (p : BfdControlPacket) (v : BFDServer) : res BFDServer :=
  match find_receiver ipAddr p v with Some id => on_session id (receive_packet p) v | None => Ok v end.

(** A datagram of at most 1024 octets in the buffer of StartBfdSesionServer, of which
    [spare] are the octets behind it; packets that are not decoded are dropped. *)
Definition StartBfdSesionServer (ipAddr : string) (data spare : bytes) (v : BFDServer) : res BFDServer :=
  if DEFAULT_CONTROL_PACKET_LEN <=? len data then
    match DecodeBfdControlPacket (mkSlice data spare) with
    | Ok p => DispatchReceivedBfdPacket ipAddr p v
    | Err _ => Ok v
    | Panic => Panic
    | NoFuel => NoFuel
    end
  else Ok v.

(** ** State *)

(** The indices of the slice that are filled in, and the sessions found there; the address
    is told without its zone. *)
Definition GetBulkBfdSessionStates (idx cnt : Z) (v : BFDServer) : res (Z * Z * list (option BfdSession)) :=
  let length := len (SessionsIdSlice v) in
  let count := if length <=? idx + cnt then length - idx else 0 in
  let nextIdx := if length <=? idx + cnt then 0 else idx + 1 in
  _ ← must (0 <=? count);
  sessions ← read_all (fun i => id ← index (SessionsIdSlice v) i; s ← session_at v id; Ok (Some s)) (Z.to_nat (count - idx)) idx;
  Ok (nextIdx, count, replicate (Z.to_nat (Z.min idx count)) None ++ sessions).

Definition GetBfdSessionState (ipAddr : string) (v : BFDServer) : option BfdSession :=
  id ← FindBfdSessionContainingAddr ipAddr v; Sessions v !! id.

(** The parameters, in a slice of [cnt]. *)
Definition GetBulkBfdSessionParamStates (cnt : Z) (v : BFDServer) : res (list SessionParamState) :=
  let params := (map_to_list (SessionParams v)).*2 in
  if len params <=? cnt then Ok params else Panic.
End Server.
