(* ===== verification/BfdServerSpec.v ===== *)
(** * BFD: the tables of the server

    The tables of sessions agree after every request, packet and timer. *)

From S2P Require Import Prelude.
From S2P Require Import NetParse.
From S2P Require Import BfdPacket.
From S2P Require Import BfdSession.
From S2P Require Import BfdSessionSpec.
From S2P Require Import BfdSessionProps.
From S2P Require Import BfdServer.

(** ** What a session keeps *)

Definition identity (s : BfdSession) : Z * string * string * bool * list bool :=
  (SessionId s, IpAddr s, ParamName s, PerLinkSession s, RegisteredProtocols s).

(** [f] returns a session with the identity of the one it is given. *)
Definition keeps (f : BfdSession -> res BfdSession) : Prop := forall s s', f s = Ok s' -> identity s' = identity s.

Definition kept (s s' : BfdSession) : Prop := identity s' = identity s.

Lemma kept_reset_session ms s s' : reset_sessionTimer ms s = Ok s' -> kept s s'.
Proof. unfold reset_sessionTimer. destruct (made _); [intros [= <-]; done|done]. Qed.
Lemma kept_stop_session s s' : stop_sessionTimer s = Ok s' -> kept s s'.
Proof. unfold stop_sessionTimer. destruct (made _); [intros [= <-]; done|done]. Qed.
Lemma kept_reset_tx ms s s' : reset_txTimer ms s = Ok s' -> kept s s'.
Proof. unfold reset_txTimer. destruct (made _); [intros [= <-]; done|done]. Qed.
Lemma kept_stop_tx s s' : stop_txTimer s = Ok s' -> kept s s'.
Proof. unfold stop_txTimer. destruct (made _); [intros [= <-]; done|done]. Qed.

Lemma kept_notify s0 s : kept s0 s -> kept s0 (SendBfdNotification s).
Proof. unfold kept, SendBfdNotification. by case_bool_decide. Qed.

Lemma kept_starting s0 s : kept s0 s -> kept s0 (startup_tx (SendBfdNotification s)).
Proof. apply kept_notify. Qed.

Create HintDb kept.
Create HintDb calls.
#[export] Hint Resolve kept_notify kept_starting : kept.
#[export] Hint Extern 0 (kept _ _) => done : kept.
#[export] Hint Resolve kept_reset_session kept_stop_session kept_reset_tx kept_stop_tx : calls.

Lemma kept_refl s : kept s s.
Proof. done. Qed.
Lemma kept_trans s1 s2 s3 : kept s1 s2 -> kept s2 s3 -> kept s1 s3.
Proof. unfold kept. congruence. Qed.

(** [kept s0 x], with the facts about the sessions before [x]. *)
Ltac keep_fact :=
  unfold InitiatePollSequence, with_Demand;
  repeat match goal with |- context [if ?c then _ else _] => destruct c end;
  first [ done | solve [eauto 2 with kept]
        | match goal with K : kept ?s0 ?s1 |- kept ?s0 _ => apply (kept_trans s0 s1 _ K); solve [eauto 2 using kept_refl with kept] end ].

Lemma bind_inv {A B} (m : res A) (k : A -> res B) b : m ≫= k = Ok b -> exists a, m = Ok a /\ k a = Ok b.
Proof. destruct m; [eauto|done..]. Qed.

(** Takes the calls of [H : call = Ok s'] apart; [K : kept s0 s] tells of the sessions so far. *)
Ltac keep_steps s0 H :=
  lazymatch type of H with
  | NoFuel = Ok _ => discriminate H
  | Panic = Ok _ => discriminate H
  | Ok ?x = Ok _ =>
    let Kx := fresh "K" in assert (Kx : kept s0 x) by keep_fact; injection H as H; rewrite <- H; exact Kx
  | (if ?b then _ else _) = Ok _ => let E := fresh "E" in destruct b eqn:E; keep_steps s0 H
  | (match ?x with _ => _ end) = Ok _ => let E := fresh "E" in destruct x eqn:E; try discriminate H; keep_steps s0 H
  | ?m ≫= ?k = ?r =>
    let E := fresh "E" in let s1 := fresh "s" in
    destruct m as [s1| | |] eqn:E; [|discriminate H..]; change (k s1 = r) in H; cbv beta zeta in H;
    lazymatch type of s1 with
    | BfdSession => assert (kept s0 s1) by (keep_steps s0 E)
    | _ => idtac
    end; keep_steps s0 H
  | _ = Ok _ =>
    match goal with |- kept s0 ?s' =>
      let K := fresh "K" in assert (K : kept _ s') by (eauto 2 with calls nocore);
      match type of K with kept ?x s' => apply (kept_trans s0 x s'); [keep_fact|exact K] end
    end
  end.

Ltac keep := let H := fresh "H" in intros H; cbv zeta in H; match goal with |- kept ?s0 _ => pose proof (kept_refl s0); keep_steps s0 H end.

Lemma kept_local_down s s' : LocalAdminDown s = Ok s' -> kept s s'.
Proof. unfold LocalAdminDown. keep. Qed.
Lemma kept_remote_down s s' : RemoteAdminDown s = Ok s' -> kept s s'.
Proof. unfold RemoteAdminDown. keep. Qed.
Lemma kept_move_down s s' : MoveToDownState s = Ok s' -> kept s s'.
Proof. unfold MoveToDownState. keep. Qed.
Lemma kept_move_init s0 s : kept s0 s -> kept s0 (MoveToInitState s).
Proof. done. Qed.
Lemma kept_move_up s0 s : kept s0 s -> kept s0 (MoveToUpState s).
Proof. unfold MoveToUpState. cbv zeta. eauto with kept. Qed.
#[export] Hint Resolve kept_local_down kept_remote_down kept_move_down : calls.
#[export] Hint Resolve kept_move_init kept_move_up : kept.

Lemma kept_handler event s s' : EventHandler event s = Ok s' -> kept s s'.
Proof. unfold EventHandler. destruct event; keep. Qed.
#[export] Hint Resolve kept_handler : calls.

Lemma kept_demand p s s' : RemoteChangedDemandMode p s = Ok s' -> kept s s'.
Proof. unfold RemoteChangedDemandMode. keep. Qed.
Lemma kept_poll p s0 s : kept s0 s -> kept s0 (ProcessPollSequence p s).
Proof. unfold ProcessPollSequence. by destruct (_ =? _), (Poll p), (Final p). Qed.
Lemma kept_changed p s0 s : kept s0 s -> kept s0 (CheckAnyRemoteParamChanged p s).
Proof. unfold CheckAnyRemoteParamChanged. by destruct (_ || _). Qed.
Lemma kept_initiate s0 s : kept s0 s -> kept s0 (InitiatePollSequence s).
Proof. unfold InitiatePollSequence. by destruct (pollSequence s). Qed.
#[export] Hint Resolve kept_demand : calls.
#[export] Hint Resolve kept_poll kept_changed kept_initiate : kept.

Lemma kept_process p s s' : ProcessBfdPacket p s = Ok s' -> kept s s'.
Proof. unfold ProcessBfdPacket. keep. Qed.
#[export] Hint Resolve kept_process : calls.

Lemma kept_serve s s' : StartSessionServer s = Ok s' -> kept s s'.
Proof. unfold StartSessionServer. keep. Qed.

Lemma kept_receive p s s' : receive_packet p s = Ok s' -> kept s s'.
Proof. unfold receive_packet. keep. Qed.

Lemma kept_timeout s s' : HandleSessionTimeout s = Ok s' -> kept s s'.
Proof. unfold HandleSessionTimeout. keep. Qed.

Lemma kept_stop s s' : StopBfdSession s = Ok s' -> kept s s'.
Proof. unfold StopBfdSession. keep. Qed.

Lemma kept_start s s' : StartBfdSession s = Ok s' -> kept s s'.
Proof. unfold StartBfdSession. keep. Qed.

Lemma kept_demand_timer (was now : bool) s s' :
  (s ← (if negb was && now then stop_sessionTimer s else Ok s);
   if was && negb now then reset_sessionTimer (rxInterval s) s else Ok s) = Ok s' -> kept s s'.
Proof. destruct was, now; cbn [negb andb]; keep. Qed.

Lemma kept_intervals s s' : update_intervals s = Ok s' -> kept s s'.
Proof.
  unfold update_intervals. destruct (_ && _); [|by intros [= <-]].
  match goal with |- context [if ?b then InitiatePollSequence ?s1 else _] => set (s2 := if b then InitiatePollSequence s1 else _) end.
  assert (K2 : kept s s2) by (unfold s2; destruct (_ || _); [by apply kept_initiate|done]). clearbody s2. cbv zeta.
  set (s3 := on_packet (with_Demand (DemandMode s2)) s2). assert (K3 : kept s2 s3) by done. clearbody s3.
  intros H%kept_demand_timer. eauto using kept_trans.
Qed.

Lemma kept_auth s s' : update_auth s = Ok s' -> kept s s'.
Proof.
  unfold update_auth. destruct (authEnabled s); [|by intros [= <-]]. destruct (AuthHeader _); [|done]. cbv zeta. res_simpl.
  match goal with |- context [if ?b then set_authSeqNum ?n s else s] => set (s1 := if b then set_authSeqNum n s else s) end.
  assert (K : kept s s1) by (unfold s1; by destruct (_ || _)). clearbody s1. by intros [= <-].
Qed.

Lemma kept_update s s' : UpdateBfdSessionControlPacket s = Ok s' -> kept s s'.
Proof.
  unfold UpdateBfdSessionControlPacket. cbv zeta. set (s1 := on_packet (with_state s) s).
  assert (K1 : kept s s1) by done. clearbody s1. intros (s2 & E2%kept_intervals & H)%bind_inv.
  apply (kept_trans s s1); [done|]. apply (kept_trans s1 s2); [done|]. clear K1 E2 s s1.
  match type of H with update_auth ?x ≫= _ = _ => assert (K3 : kept s2 x) by done; apply (kept_trans s2 x); [done|]; clear K3; set (s3 := x) in * end.
  clearbody s3. apply bind_inv in H as (s4 & E4%kept_auth & H). apply (kept_trans s3 s4); [done|]. by injection H as <-.
Qed.
#[export] Hint Resolve kept_update : calls.

Lemma kept_make s s' : make_packet s = Ok s' -> kept s s'.
Proof. unfold make_packet. keep. Qed.
#[export] Hint Resolve kept_make : calls.

Lemma kept_send ok s s' : SendPeriodicControlPackets ok s = Ok s' -> kept s s'.
Proof.
  unfold SendPeriodicControlPackets. cbv zeta.
  assert (Hb : forall (b : bool) t t', (if b then make_packet t else Ok t) = Ok t' -> kept t t').
  { intros [] t t'; [apply kept_make|by intros [= <-]]. }
  destruct (if NeedBfdPacketUpdate s then make_packet s else Ok s) as [s1| | |] eqn:E1; [|done..]. apply Hb in E1. res_simpl.
  match goal with |- context [if ok then ?x else s1] => set (s2 := if ok then x else s1) end.
  assert (K2 : kept s1 s2) by (unfold s2, emit; by destruct ok). clearbody s2.
  destruct (if NeedBfdPacketUpdate s then make_packet s2 else Ok s2) as [s3| | |] eqn:E3; [|done..]. apply Hb in E3. res_simpl.
  match goal with |- context [if ?b then ?x else s3] => set (s4 := if b then x else s3) end.
  assert (K4 : kept s3 s4) by (unfold s4; by destruct (_ || _)). clearbody s4.
  intros H%kept_reset_tx. eauto 6 using kept_trans.
Qed.

Lemma kept_apply param s : kept s (apply_param param s).
Proof. unfold apply_param, InitiatePollSequence. destruct param; cbv zeta; by destruct (pollSequence _). Qed.

Lemma kept_client connected s : kept s (StartSessionClient connected s).
Proof. by destruct connected. Qed.

Lemma kept_reset connected s : kept s (reset_session connected s).
Proof. unfold reset_session. destruct (IsSessionActive s), connected; done. Qed.

Lemma kept_step i s s' : session_step i s = Ok s' -> kept s s'.
Proof.
  destruct i as [p| |ok| |connected| | |connected|param]; cbn [session_step]; intros H;
    eauto using kept_receive, kept_serve, kept_start, kept_stop.
  - destruct (made _); [by eapply kept_send|by injection H as <-].
  - destruct (made _); [by apply kept_timeout|by injection H as <-].
  - destruct (isClientActive s); injection H as <-; [done|apply kept_client].
  - injection H as <-. apply kept_reset.
  - injection H as <-. apply kept_apply.
Qed.
