(* ===== verification/BfdServerProps.v ===== *)
(** * BFD: properties of the server *)

From S2P Require Import Prelude.
From S2P Require Import NetParse.
From S2P Require Import BfdPacket.
From S2P Require Import BfdPacketSpec.
From S2P Require Import BfdSession.
From S2P Require Import BfdSessionSpec.
From S2P Require Import BfdSessionProps.
From S2P Require Import BfdServer.
From S2P Require Import BfdServerSpec.

(** ** The invariant *)

Record server_ok (v : BFDServer) : Prop := {
  ok_id : forall id s, Sessions v !! id = Some s ->
    SessionId s = id /\ 0 < id < MAX_NUM_SESSIONS /\ len (RegisteredProtocols s) = MAX_APPS;
  ok_slice : NoDup (SessionsIdSlice v) /\ forall id, id ∈ SessionsIdSlice v <-> is_Some (Sessions v !! id);
  ok_num : NumSessions_ v = len (SessionsIdSlice v);
  ok_ip : forall ip id, SessionsByIp v !! ip = Some id -> exists s, Sessions v !! id = Some s /\ IpAddr s = ip;
}.

(** What the tables tell of a session. *)
Definition same (s s' : BfdSession) : Prop :=
  SessionId s' = SessionId s /\ IpAddr s' = IpAddr s /\ len (RegisteredProtocols s') = len (RegisteredProtocols s).

Lemma kept_same s s' : kept s s' -> same s s'.
Proof. unfold kept, identity. intros [= H1 H2 H3 H4 H5]. unfold same. by rewrite H1, H2, H5. Qed.

(** The fields the invariant speaks of. *)
Lemma server_ok_set v v' :
  server_ok v -> Sessions v' = Sessions v -> SessionsIdSlice v' = SessionsIdSlice v -> NumSessions_ v' = NumSessions_ v ->
  SessionsByIp v' = SessionsByIp v -> server_ok v'.
Proof. intros [] E1 E2 E3 E4. constructor; rewrite ?E1, ?E2, ?E3, ?E4; done. Qed.

Lemma server_ok_sessions v m :
  server_ok v ->
  (forall id, is_Some (m !! id) <-> is_Some (Sessions v !! id)) ->
  (forall id s s', Sessions v !! id = Some s -> m !! id = Some s' -> same s s') ->
  server_ok (set_Sessions m v).
Proof.
  intros [Hid [Hnd Hsl] Hnum Hip] Hdom Hsame. constructor; cbn [Sessions SessionsIdSlice NumSessions_ SessionsByIp set_Sessions].
  - intros id s' Hs'. destruct (proj1 (Hdom id) (ex_intro _ _ Hs')) as [s Hs]. destruct (Hsame _ _ _ Hs Hs') as (-> & _ & ->).
    by apply Hid.
  - split; [done|]. intros id. by rewrite Hsl, Hdom.
  - done.
  - intros ip id Hi. destruct (Hip _ _ Hi) as (s & Hs & Ha). destruct (proj2 (Hdom id) (ex_intro _ _ Hs)) as [s' Hs'].
    exists s'. split; [done|]. destruct (Hsame _ _ _ Hs Hs') as (_ & -> & _). done.
Qed.

Lemma ok_replace id s s' v :
  server_ok v -> Sessions v !! id = Some s -> same s s' -> server_ok (set_Sessions (<[id := s']> (Sessions v)) v).
Proof.
  intros Hok Es Ef. apply server_ok_sessions; [done|..].
  - intros i. destruct (decide (i = id)) as [->|Hne]; [rewrite lookup_insert, decide_True by done; by rewrite Es|by rewrite lookup_insert_ne].
  - intros i t t' Ht. destruct (decide (i = id)) as [->|Hne].
    + rewrite lookup_insert, decide_True by done. intros [= <-]. congruence.
    + rewrite lookup_insert_ne by done. intros Ht'. replace t' with t by congruence. done.
Qed.

Lemma ok_on_session id f v v' :
  (forall s s', f s = Ok s' -> same s s') -> server_ok v -> on_session id f v = Ok v' -> server_ok v'.
Proof.
  intros Hf Hok. unfold on_session, session_at. destruct (Sessions v !! id) as [s|] eqn:Es; [|done]. cbn [of_option mbind res_bind].
  destruct (f s) as [s'| | |] eqn:Ef; [|done..]. intros [= <-]. apply Hf in Ef. by eapply ok_replace.
Qed.

Lemma ok_on_sessions ids f v v' :
  (forall s s', f s = Ok s' -> same s s') -> server_ok v -> on_sessions ids f v = Ok v' -> server_ok v'.
Proof.
  intros Hf. revert v. induction ids as [|id ids IH]; intros v Hok; cbn [on_sessions]; [by intros [= <-]|].
  destruct (on_session id f v) as [v1| | |] eqn:E; [|done..]. cbn [mbind res_bind]. apply IH. by eapply ok_on_session.
Qed.

Lemma ok_update_param name v : server_ok v -> server_ok (UpdateBfdSessionsUsingParam name v).
Proof.
  intros Hok. apply server_ok_sessions; [done|..].
  - intros id. rewrite lookup_fmap. apply fmap_is_Some.
  - intros id s s' Hs. rewrite lookup_fmap, Hs. intros [= <-]. case_bool_decide; [apply kept_same, kept_apply|done].
Qed.

(** ** Identifiers *)

Lemma draw_id_free numbers used id rest :
  draw_id numbers used = Some (id, rest) -> used id = false /\ 0 < id < MAX_NUM_SESSIONS.
Proof.
  induction numbers as [|n numbers IH]; cbn [draw_id]; [done|]. destruct (_ || _) eqn:E; [done|]. intros [= <- _].
  apply orb_false_elim in E as [E1 E2]. split; [done|]. pose proof (Z.mod_pos_bound n MAX_NUM_SESSIONS eq_refl). lia.
Qed.

Lemma ids_bound l : NoDup l -> (forall id : Z, id ∈ l -> 0 < id < MAX_NUM_SESSIONS) -> len l <= 1023.
Proof.
  intros Hnd Hr. assert (H : l ⊆+ map Z.of_nat (seq 1 1023)).
  { apply NoDup_submseteq; [done|]. intros id Hid. specialize (Hr id Hid). unfold MAX_NUM_SESSIONS in Hr.
    apply list_elem_of_In, in_map_iff. exists (Z.to_nat id). rewrite in_seq. lia. }
  apply submseteq_length in H. rewrite length_map, length_seq in H. unfold len. lia.
Qed.

Lemma num_bound v : server_ok v -> 0 <= NumSessions_ v <= 1023.
Proof.
  intros [Hid [Hnd Hsl] Hnum _]. rewrite Hnum. split; [apply len_nonneg|]. apply ids_bound; [done|].
  intros id Hin. apply Hsl in Hin as [s Hs]. by apply Hid in Hs as (_ & Hr & _).
Qed.

Lemma remove_id_spec id ids ids' :
  NoDup ids -> remove_id id ids = Ok ids' -> id ∈ ids /\ NoDup ids' /\ (forall i, i ∈ ids' <-> i ∈ ids /\ i <> id) /\ len ids = 1 + len ids'.
Proof.
  intros Hnd. unfold remove_id. destruct (list_find (eq id) ids) as [[i x]|] eqn:E; [|done]. intros [= <-].
  apply list_find_Some in E as (Hi & <- & _). rewrite <- (take_drop_middle ids i id Hi) in Hnd.
  assert (Hp : ids ≡ₚ id :: take i ids ++ drop (S i) ids).
  { rewrite <- (take_drop_middle ids i id Hi) at 1. symmetry. apply Permutation_middle. }
  apply NoDup_app in Hnd as (Hn1 & Hn2 & Hn3). apply NoDup_cons in Hn3 as [Hn3 Hn4].
  assert (Hn : id ∉ take i ids ++ drop (S i) ids).
  { rewrite elem_of_app. intros [H|H]; [|done]. apply (Hn2 id H). by left. }
  split; [by apply list_elem_of_lookup_2 in Hi|]. split.
  - apply NoDup_app. split; [done|]. split; [|done]. intros x Hx Hx'. apply (Hn2 x Hx). by right.
  - split.
    + intros j. assert (Hj : j ∈ ids <-> j = id \/ j ∈ take i ids ++ drop (S i) ids) by (rewrite <- elem_of_cons; by apply elem_of_Permutation_proper).
      rewrite Hj. split; [intros Hj'; split; [by right|intros ->; done]|intros [[->|Hj'] Hne]; done].
    + unfold len. rewrite (Permutation_length Hp). cbn [length]. lia.
Qed.

Lemma len_set_index {A} (l l' : list A) i x : set_index l i x = Ok l' -> len l' = len l.
Proof. unfold set_index. destruct (_ && _); [|done]. intros [= <-]. by rewrite len_insert. Qed.

(** ** Creation *)

(** A session that is added. *)
Lemma ok_add v id s ip ids num byip :
  server_ok v -> Sessions v !! id = None -> 0 < id < MAX_NUM_SESSIONS ->
  SessionId s = id -> IpAddr s = ip -> len (RegisteredProtocols s) = MAX_APPS ->
  ids = SessionsIdSlice v ++ [id] -> num = u32 (NumSessions_ v + 1) -> byip = <[ip := id]> (SessionsByIp v) ->
  forall v', Sessions v' = <[id := s]> (Sessions v) -> SessionsIdSlice v' = ids -> NumSessions_ v' = num -> SessionsByIp v' = byip ->
  server_ok v'.
Proof.
  intros Hok Hnew Hid Hs Hip Hp -> -> -> v' E1 E2 E3 E4. pose proof (num_bound v Hok) as Hb. destruct Hok as [Hids [Hnd Hsl] Hnum Hips].
  constructor; rewrite ?E1, ?E2, ?E3, ?E4.
  - intros i t. destruct (decide (i = id)) as [->|Hne]; [rewrite lookup_insert, decide_True by done; by intros [= <-]|].
    rewrite lookup_insert_ne by done. apply Hids.
  - split.
    + apply NoDup_app. split; [done|]. split; [|apply NoDup_singleton]. intros i Hi ->%list_elem_of_singleton.
      apply Hsl in Hi. rewrite Hnew in Hi. by destruct Hi.
    + intros i. rewrite elem_of_app, list_elem_of_singleton, Hsl. destruct (decide (i = id)) as [->|Hne].
      * rewrite lookup_insert, decide_True by done. split; [eauto|by right].
      * rewrite lookup_insert_ne by done. tauto.
  - rewrite len_app, Hnum. change (len [id]) with 1. unfold u32. rewrite Z.mod_small; lia.
  - intros j i. destruct (decide (j = ip)) as [->|Hne].
    + rewrite lookup_insert, decide_True by done. intros [= <-]. exists s. by rewrite lookup_insert, decide_True.
    + rewrite lookup_insert_ne by done. intros Hj. destruct (Hips _ _ Hj) as (t & Ht & Ha). exists t.
      rewrite lookup_insert_ne; [done|]. intros ->. congruence.
Qed.

Lemma take_param_frame paramName v name param v' :
  take_param paramName v = Ok (name, param, v') -> exists m, v' = set_SessionParams m v.
Proof.
  unfold take_param. match goal with |- context [SessionParams v !! ?n] => destruct (SessionParams v !! n) end;
    (destruct (of_option _); [|done..]); res_simpl; intros [= _ _ <-]; eauto.
Qed.

Lemma jitter_frame v j v' : GetTxJitter v = Ok (j, v') -> exists numbers, v' = set_random numbers v.
Proof. unfold GetTxJitter. destruct (random v); [done|]. intros [= _ <-]. eauto. Qed.

Lemma announce_frame id v v' :
  announce id v = Ok v' -> v' = set_CreatedSessionCh (CreatedSessionCh v ++ [id]) v /\ len (CreatedSessionCh v) < MAX_NUM_SESSIONS.
Proof. unfold announce. destruct (_ <? _) eqn:E; [|done]. intros [= <-]. split; [done|lia]. Qed.

Lemma new_id v id v' :
  GetNewSessionId v = Ok (id, v') ->
  0 <= id < MAX_NUM_SESSIONS /\
  ((id = 0 /\ v' = v /\ MAX_NUM_SESSIONS <= NumSessions_ v) \/
   (id <> 0 /\ Sessions v !! id = None /\ exists rest, v' = set_random rest v)).
Proof.
  unfold GetNewSessionId. destruct (NumSessions_ v <? MAX_NUM_SESSIONS) eqn:E.
  - destruct (draw_id (random v) (id_used v)) as [[n rest]|] eqn:Ed; [|done]. intros [= <- <-].
    apply draw_id_free in Ed as [Hu Hr]. unfold id_used in Hu. split; [lia|]. right. split; [lia|].
    split; [by destruct (Sessions v !! n)|eauto].
  - intros [= <- <-]. split; [by vm_compute|]. left. split; [done|]. split; [done|lia].
Qed.

(** What NewNormalBfdSession makes. *)
Lemma new_normal interface localIp destIp paramName perLink protocol v r v' :
  NewNormalBfdSession interface localIp destIp paramName perLink protocol v = Ok (r, v') ->
  match r with
  | None => v' = v /\ MAX_NUM_SESSIONS <= NumSessions_ v
  | Some id => exists jitter name protocols param,
      set_index (replicate 5 false) protocol true = Ok protocols /\ Sessions v !! id = None /\ 0 < id < MAX_NUM_SESSIONS /\
      Sessions v' = <[id := new_session id jitter interface localIp destIp name perLink protocols param]> (Sessions v) /\
      SessionsIdSlice v' = SessionsIdSlice v ++ [id] /\ NumSessions_ v' = u32 (NumSessions_ v + 1) /\
      SessionsByIp v' = <[destIp := id]> (SessionsByIp v) /\ CreatedSessionCh v' = CreatedSessionCh v ++ [id]
  end.
Proof.
  unfold NewNormalBfdSession. intros H. apply bind_inv in H as ([id v1] & E1 & H). cbv beta iota in H.
  apply new_id in E1 as [Hr E1]. destruct (id =? 0) eqn:E0.
  { injection H as <- <-. destruct E1 as [(_ & E1 & Hn)|[E1 _]]; [by split|lia]. }
  destruct E1 as [(E1 & _)|(Hid & Hfree & rest & ->)]; [lia|].
  apply bind_inv in H as (protocols & Ep & H). cbv beta in H.
  apply bind_inv in H as ([jitter v2] & Ej & H). cbv beta iota in H. apply jitter_frame in Ej as [numbers ->].
  apply bind_inv in H as ([[name param] v3] & Et & H). cbv beta iota in H. apply take_param_frame in Et as [m ->].
  cbv zeta in H. apply bind_inv in H as (v4 & Ea & H). apply announce_frame in Ea as [-> _]. injection H as <- <-.
  exists jitter, name, protocols, param. split; [done|]. split; [done|]. split; [lia|]. split; [reflexivity|]. done.
Qed.

Lemma ok_new_normal interface localIp destIp paramName perLink protocol v r v' :
  server_ok v -> NewNormalBfdSession interface localIp destIp paramName perLink protocol v = Ok (r, v') -> server_ok v'.
Proof.
  intros Hok H%new_normal. destruct r as [id|]; [|by destruct H as [-> _]].
  destruct H as (jitter & name & protocols & param & Hp & Hn & Hr & E1 & E2 & E3 & E4 & _).
  apply len_set_index in Hp. eapply (ok_add v id _ destIp); [exact Hok|exact Hn|exact Hr|..|exact E1|exact E2|exact E3|exact E4]; try reflexivity.
  exact Hp.
Qed.

(** ** Deletion *)

Lemma stop_server_frame id v v' : stop_server id v = Ok v' -> exists x, v' = set_serving x v.
Proof. unfold stop_server. case_bool_decide; [intros [= <-]; eauto|done]. Qed.

Lemma drop_param_frame name v v' : drop_param name v = Ok v' -> exists m, v' = set_SessionParams m v.
Proof. unfold drop_param. destruct (SessionParams v !! name); [cbn; intros [= <-]; eauto|done]. Qed.

(** A session that is taken out. *)
Lemma ok_remove v id s ids num :
  server_ok v -> Sessions v !! id = Some s -> remove_id id (SessionsIdSlice v) = Ok ids -> num = u32 (NumSessions_ v - 1) ->
  forall v', Sessions v' = delete id (Sessions v) -> SessionsIdSlice v' = ids -> NumSessions_ v' = num ->
  SessionsByIp v' = delete (IpAddr s) (SessionsByIp v) -> server_ok v'.
Proof.
  intros Hok Hs Hrem -> v' E1 E2 E3 E4. pose proof (num_bound v Hok) as Hb. destruct Hok as [Hids [Hnd Hsl] Hnum Hips].
  apply remove_id_spec in Hrem as (Hin & Hnd' & Hmem & Hlen); [|done]. rewrite <- E2 in Hnd', Hmem, Hlen.
  constructor; rewrite ?E1, ?E3, ?E4.
  - intros i t [_ Ht]%lookup_delete_Some. by apply Hids.
  - split; [done|]. intros i. rewrite Hmem, Hsl. destruct (decide (i = id)) as [->|Hne].
    + rewrite lookup_delete, decide_True by done. split; [tauto|by intros []].
    + rewrite lookup_delete_ne by done. tauto.
  - rewrite Hnum, Hlen. pose proof (len_nonneg (SessionsIdSlice v')). unfold u32. rewrite Z.mod_small; lia.
  - intros j i [Hne Hj]%lookup_delete_Some. destruct (Hips _ _ Hj) as (t & Ht & Ha). exists t. split; [|done].
    rewrite lookup_delete_ne; [done|]. intros ->. congruence.
Qed.

Lemma delete_handler id protocol forceDel v v' :
  SessionDeleteHandler id protocol forceDel v = Ok v' ->
  exists s protocols, Sessions v !! id = Some s /\ set_index (RegisteredProtocols s) protocol false = Ok protocols /\
    let v1 := set_Sessions (<[id := set_RegisteredProtocols protocols s]> (Sessions v)) v in
    if (forceDel || negb (existsb Datatypes.id (drop 1 protocols))) then
      exists ids, remove_id id (SessionsIdSlice v) = Ok ids /\
        Sessions v' = delete id (Sessions v1) /\ SessionsIdSlice v' = ids /\ NumSessions_ v' = u32 (NumSessions_ v - 1) /\
        SessionsByIp v' = delete (IpAddr s) (SessionsByIp v)
    else v' = v1.
Proof.
  unfold SessionDeleteHandler. intros (v1 & E1 & H)%bind_inv. unfold on_session, session_at in E1.
  apply bind_inv in E1 as (s & Es & E1). destruct (Sessions v !! id) as [s0|] eqn:Es0; [|done]. injection Es as ->.
  apply bind_inv in E1 as (s1 & Es1 & E1). apply bind_inv in Es1 as (protocols & Ep & Es1). injection Es1 as <-. injection E1 as <-.
  exists s, protocols. split; [done|]. split; [done|]. cbv zeta. unfold session_at in H.
  apply bind_inv in H as (s2 & E2 & H). cbn [Sessions set_Sessions] in E2. rewrite lookup_insert, decide_True in E2 by done. injection E2 as <-.
  cbv beta in H. unfold CheckIfAnyProtocolRegistered in H. cbn [RegisteredProtocols set_RegisteredProtocols] in H.
  destruct (forceDel || _); [|by injection H as <-].
  apply bind_inv in H as (v2 & [x ->]%stop_server_frame & H). apply bind_inv in H as (v3 & [m ->]%drop_param_frame & H).
  cbv zeta in H. apply bind_inv in H as (ids & Er & H). injection H as <-. exists ids. split; [done|]. done.
Qed.

Lemma ok_delete_handler id protocol forceDel v v' :
  server_ok v -> SessionDeleteHandler id protocol forceDel v = Ok v' -> server_ok v'.
Proof.
  intros Hok (s & protocols & Hs & Hp & H)%delete_handler. cbv zeta in H. apply len_set_index in Hp.
  set (v1 := set_Sessions _ v) in *.
  assert (H1 : server_ok v1) by (eapply ok_replace; [exact Hok|exact Hs|by split]).
  destruct (_ || _); [|by rewrite H]. destruct H as (ids & Hr & E1 & E2 & E3 & E4).
  eapply (ok_remove v1 id _ ids _ H1); [unfold v1; cbn [Sessions set_Sessions]; by rewrite lookup_insert, decide_True|exact Hr|reflexivity|..]; done.
Qed.

Section Server.
Context (visit : list Z -> list Z) (visit_names : list string -> list string).
Context (GetIntfTypeFromIfIndex : Z -> IfType) (GetRouteReachabilityInfo : string -> option (Z * string)).
Context (dial : BfdSession -> bool).

Lemma ok_new_links links interface localIp destIp paramName protocol v v' :
  server_ok v -> new_links links interface localIp destIp paramName protocol v = Ok v' -> server_ok v'.
Proof.
  revert v. induction links as [|l links IH]; intros v Hok; cbn [new_links]; [by intros [= <-]|].
  intros ([r v1] & E1 & H)%bind_inv. cbv beta iota in H. apply (IH v1); [|done]. by eapply ok_new_normal.
Qed.

Lemma ok_new_session destIp paramName interface protocol perLink v r v' :
  server_ok v ->
  NewBfdSession GetIntfTypeFromIfIndex GetRouteReachabilityInfo destIp paramName interface protocol perLink v = Ok (r, v') ->
  server_ok v'.
Proof.
  intros Hok. unfold NewBfdSession. destruct (GetRouteReachabilityInfo destIp) as [[ifIndex localIp]|]; [|by intros [= _ <-]].
  cbv zeta. match goal with |- context [if ?w then _ else _] => destruct w end; [by intros [= _ <-]|].
  destruct (_ && perLink).
  - intros (v1 & E1 & H)%bind_inv. injection H as _ <-. revert E1. unfold NewPerLinkBfdSessions.
    destruct (lagPropertyMap v !! ifIndex); [|by intros [= <-]]. by apply ok_new_links.
  - intros ([id v1] & E1 & H)%bind_inv. cbv beta iota in H. apply ok_new_normal in E1; [|done].
    apply bind_inv in H as (id' & E2 & H). apply bind_inv in H as (v2 & E3 & H). injection H as _ <-.
    eapply ok_on_session; [|exact E1|exact E3]. by intros s s' [= <-].
Qed.

Lemma ok_create m v r v' :
  server_ok v -> CreateBfdSession visit GetIntfTypeFromIfIndex GetRouteReachabilityInfo m v = Ok (r, v') -> server_ok v'.
Proof.
  intros Hok. unfold CreateBfdSession. cbv zeta. destruct (FindBfdSession visit _ v) as [id|].
  - intros (v1 & E1 & H)%bind_inv. injection H as _ <-. eapply ok_on_session; [|exact Hok|exact E1].
    intros s s' (ps & Ep & Es)%bind_inv. injection Es as <-. apply len_set_index in Ep. split; [done|]. by split.
  - intros ([created v1] & E1 & H)%bind_inv. cbv beta iota in H. apply ok_new_session in E1; [|done].
    destruct created; injection H as _ <-; [done|]. destruct (tobeCreatedSessions v1 !! _); [done|]. by apply (server_ok_set v1).
Qed.

Lemma ok_delete_links ids destIp protocol forceDel v v' :
  server_ok v -> delete_links ids destIp protocol forceDel v = Ok v' -> server_ok v'.
Proof.
  revert v. induction ids as [|id ids IH]; intros v Hok; cbn [delete_links]; [by intros [= <-]|].
  intros (v1 & E1 & H)%bind_inv. apply (IH v1); [|done]. destruct (Sessions v !! id); [|by injection E1 as <-].
  case_bool_decide; [by eapply ok_delete_handler|by injection E1 as <-].
Qed.

Lemma ok_delete m v v' : server_ok v -> DeleteBfdSession visit m v = Ok v' -> server_ok v'.
Proof.
  intros Hok. unfold DeleteBfdSession. cbv zeta. destruct (FindBfdSession visit _ v) as [id|]; [|by intros [= <-]].
  intros (s & E1 & H)%bind_inv. destruct (PerLinkSession s); [by eapply ok_delete_links|by eapply ok_delete_handler].
Qed.

(** ** The other requests *)

Lemma ok_reset id v v' : server_ok v -> ResetBfdSession dial id v = Ok v' -> server_ok v'.
Proof.
  intros Hok (s & E1 & H)%bind_inv. apply bind_inv in H as (v1 & [x ->]%stop_server_frame & H).
  apply bind_inv in H as (v2 & E2 & H). apply ok_on_session in E2; [| |by apply (server_ok_set v)].
  2: { intros t t' [= <-]. apply kept_same, kept_reset. }
  cbv zeta in H. destruct (dial s); [injection H as <-; by apply (server_ok_set v2)|].
  injection H as <-. by apply (server_ok_set v2).
Qed.

Lemma ok_admin m f v v' :
  (forall s s', f s = Ok s' -> same s s') -> server_ok v ->
  (ids ← sessions_to visit (m_DestIp m) v; on_sessions ids f v) = Ok v' -> server_ok v'.
Proof. intros Hf Hok (ids & E1 & H)%bind_inv. by eapply ok_on_sessions. Qed.

Lemma same_start s s' : StartBfdSession s = Ok s' -> same s s'.
Proof. intros H. by apply kept_same, kept_start. Qed.
Lemma same_stop s s' : StopBfdSession s = Ok s' -> same s s'.
Proof. intros H. by apply kept_same, kept_stop. Qed.

Lemma ok_config c v v' :
  server_ok v -> processSessionConfig visit GetIntfTypeFromIfIndex GetRouteReachabilityInfo c v = Ok v' -> server_ok v'.
Proof.
  intros Hok. unfold processSessionConfig. cbv zeta. destruct (_ =? CREATE).
  { intros ([r v1] & E1 & H)%bind_inv. injection H as <-. by eapply ok_create. }
  destruct (_ =? DELETE); [by apply ok_delete|].
  destruct (_ =? ADMINUP); [apply ok_admin; [apply same_start|done]|]. destruct (_ =? ADMINDOWN); [apply ok_admin; [apply same_stop|done]|by intros [= <-]].
Qed.

Lemma ok_global vrf enable v v' : server_ok v -> processGlobalConfig vrf enable v = Ok v' -> server_ok v'.
Proof.
  intros Hok. unfold processGlobalConfig. cbv zeta. set (v1 := set_Enabled enable (set_Vrf vrf v)).
  assert (H1 : server_ok v1) by (by apply (server_ok_set v)). clearbody v1.
  destruct (_ && enable); [apply ok_on_sessions; [apply same_start|done]|].
  destruct (_ && negb enable); [apply ok_on_sessions; [apply same_stop|done]|by intros [= <-]].
Qed.

Lemma ok_waiting names v v' :
  server_ok v -> create_waiting visit GetIntfTypeFromIfIndex GetRouteReachabilityInfo names v = Ok v' -> server_ok v'.
Proof.
  revert v. induction names as [|name names IH]; intros v Hok; cbn [create_waiting]; [by intros [= <-]|].
  intros (v1 & E1 & H)%bind_inv. apply (IH v1); [|done]. destruct (tobeCreatedSessions v !! name); [|by injection E1 as <-].
  apply bind_inv in E1 as ([ok v2] & E2 & E1). apply ok_create in E2; [|done]. injection E1 as <-. destruct ok; [by apply (server_ok_set v2)|done].
Qed.

Lemma ok_next_hop reachable v v' :
  server_ok v -> HandleNextHopChange visit visit_names GetIntfTypeFromIfIndex GetRouteReachabilityInfo reachable v = Ok v' -> server_ok v'.
Proof. intros Hok. unfold HandleNextHopChange. destruct reachable; [by apply ok_waiting|by intros [= <-]]. Qed.

Lemma ok_start_client id v v' : server_ok v -> start_client dial id v = Ok v' -> server_ok v'.
Proof.
  intros Hok (s & E1 & H)%bind_inv. destruct (PerLinkSession s); [by injection H as <-|]. destruct (dial s).
  - eapply ok_on_session; [|exact Hok|exact H]. intros t t' [= <-]. by apply kept_same.
  - injection H as <-. by apply (server_ok_set v).
Qed.

Lemma ok_created v v' : server_ok v -> serve_created dial v = Ok v' -> server_ok v'.
Proof.
  intros Hok. unfold serve_created. destruct (CreatedSessionCh v) as [|id ids]; [by intros [= <-]|]. cbv zeta.
  assert (H1 : server_ok (set_CreatedSessionCh ids v)) by (by apply (server_ok_set v)).
  destruct (Sessions _ !! id) as [s|]; [|by intros [= <-]]. intros (v1 & E1 & H)%bind_inv.
  apply ok_on_session in E1; [|by intros t t' [= <-]|done]. eapply ok_start_client; [|exact H].
  destruct (PerLinkSession s); [done|by apply (server_ok_set v1)].
Qed.

Lemma ok_failed v : server_ok v -> server_ok (serve_failed v).
Proof.
  intros Hok. unfold serve_failed. destruct (FailedSessionClientCh v) as [|id ids]; [done|]. cbv zeta.
  destruct (Sessions _ !! id); by apply (server_ok_set v).
Qed.

Lemma ok_retry fuel i v v' : server_ok v -> retry dial fuel i v = Ok v' -> server_ok v'.
Proof.
  revert i v. induction fuel as [|fuel IH]; intros i v Hok; cbn [retry]; [done|].
  destruct (InactiveSessionsIdSlice v !! i) as [id|]; [|by intros [= <-]]. destruct (Sessions v !! id) as [s|]; [|by apply IH].
  intros (v1 & E1 & H)%bind_inv. eapply IH; [|exact H].
  assert (server_ok v1) by (destruct (isClientActive s); [by injection E1 as <-|by eapply ok_start_client]).
  by apply (server_ok_set v1).
Qed.

Lemma ok_dispatch ipAddr p v v' : server_ok v -> DispatchReceivedBfdPacket ipAddr p v = Ok v' -> server_ok v'.
Proof.
  intros Hok. unfold DispatchReceivedBfdPacket. destruct (find_receiver ipAddr p v); [|by intros [= <-]].
  apply ok_on_session; [|done]. intros s s' E. by eapply kept_same, kept_receive.
Qed.

(** What the server takes from its channels, its timers and the network. *)
Inductive Request :=
| GlobalConfigCh (vrf : string) (enable : bool)
| AsicdNotification (msg : NotifyMsg)
| RouteReachability (reachable : bool)
| SessionConfigCh (c : SessionConfig)
| SessionParamConfigCh (c : SessionParamConfig)
| SessionParamDeleteCh (name : string)
| ResetSessionCh (id : Z)
| CreatedSession
| FailedSession
| RetryTimer
| Datagram (ipAddr : string) (data spare : bytes)
| InSession (id : Z) (i : Input).

Definition handle (r : Request) (v : BFDServer) : res BFDServer :=
  match r with
  | GlobalConfigCh vrf enable => processGlobalConfig vrf enable v
  | AsicdNotification msg => Ok (processAsicdNotification msg v)
  | RouteReachability reachable =>
    HandleNextHopChange visit visit_names GetIntfTypeFromIfIndex GetRouteReachabilityInfo reachable v
  | SessionConfigCh c => processSessionConfig visit GetIntfTypeFromIfIndex GetRouteReachabilityInfo c v
  | SessionParamConfigCh c => Ok (processSessionParamConfig c v)
  | SessionParamDeleteCh name => Ok (processSessionParamDelete name v)
  | ResetSessionCh id => ResetBfdSession dial id v
  | CreatedSession => serve_created dial v
  | FailedSession => Ok (serve_failed v)
  | RetryTimer => StartSessionRetryHandler dial v
  | Datagram ipAddr data spare => StartBfdSesionServer ipAddr data spare v
  | InSession id i => on_session id (session_step i) v
  end.

Fixpoint handle_all (rs : list Request) (v : BFDServer) : res BFDServer :=
  match rs with r :: rs => v ← handle r v; handle_all rs v | [] => Ok v end.

Lemma ok_handle r v v' : server_ok v -> handle r v = Ok v' -> server_ok v'.
Proof.
  intros Hok. destruct r; cbn [handle].
  - by apply ok_global.
  - intros [= <-]. unfold processAsicdNotification. destruct msg as [[]| |]; try done; try by apply (server_ok_set v).
    unfold updateLagPropertyMap. repeat case_match; try done; by apply (server_ok_set v).
  - by apply ok_next_hop.
  - by apply ok_config.
  - intros [= <-]. apply ok_update_param. cbv zeta. destruct (SessionParams v !! _); by apply (server_ok_set v).
  - intros [= <-]. unfold processSessionParamDelete. destruct (SessionParams v !! name); [|done]. apply ok_update_param.
    by apply (server_ok_set v).
  - by apply ok_reset.
  - by apply ok_created.
  - intros [= <-]. by apply ok_failed.
  - by apply ok_retry.
  - unfold StartBfdSesionServer. destruct (_ <=? _); [|by intros [= <-]].
    destruct (DecodeBfdControlPacket _); [by apply ok_dispatch|by intros [= <-]|done|done].
  - apply ok_on_session; [|done]. intros s s' E. by eapply kept_same, kept_step.
Qed.

Lemma server_ok_new random : server_ok (NewBFDServer random).
Proof. constructor; cbn; try done. split; [apply NoDup_nil_2|]. intros id. rewrite lookup_empty. split; [by intros ?%not_elem_of_nil|by intros []]. Qed.

Lemma server_ok_init random : server_ok (InitServer random).
Proof.
  unfold InitServer, createDefaultSessionParam. apply ok_update_param.
  apply (server_ok_set (NewBFDServer random)); [apply server_ok_new|done..].
Qed.

Lemma ok_handle_all rs v v' : server_ok v -> handle_all rs v = Ok v' -> server_ok v'.
Proof.
  revert v. induction rs as [|r rs IH]; intros v H0; cbn [handle_all]; [by intros [= <-]|].
  intros (v1 & E1 & H)%bind_inv. apply (IH v1); [by eapply ok_handle|done].
Qed.

(** C26: the tables agree after every sequence of requests, packets and timers that the
    daemon survives: sessions are found under their identifier, which lies between 1 and
    1023, the slice of identifiers has each once, the count is its length, and an address
    leads to a session to this address. *)
Theorem bfd_server_consistent rs random v : handle_all rs (InitServer random) = Ok v -> server_ok v.
Proof. apply ok_handle_all, server_ok_init. Qed.

End Server.

(** a packet reaches the session of its discriminator, or else a session to the
    address it comes from, and no other session changes. *)
Theorem bfd_dispatch_target ipAddr p v v' :
  server_ok v -> DispatchReceivedBfdPacket ipAddr p v = Ok v' ->
  (find_receiver ipAddr p v = None /\ v' = v) \/
  exists id s s', find_receiver ipAddr p v = Some id /\ Sessions v !! id = Some s /\
    (SessionId s = i32 (YourDiscriminator p) \/ (Sessions v !! i32 (YourDiscriminator p) = None /\ IpAddr s = ipAddr)) /\
    receive_packet p s = Ok s' /\ Sessions v' = <[id := s']> (Sessions v).
Proof.
  intros Hok. unfold DispatchReceivedBfdPacket. destruct (find_receiver ipAddr p v) as [id|] eqn:Ef; [|intros [= <-]; by left].
  intros (s & Es & H)%bind_inv. right. apply bind_inv in H as (s' & Er & H). injection H as <-.
  unfold session_at in Es. destruct (Sessions v !! id) as [s0|] eqn:E0; [|done]. injection Es as ->.
  exists id, s, s'. split; [done|]. split; [done|]. split; [|done].
  unfold find_receiver in Ef. destruct (Sessions v !! i32 (YourDiscriminator p)) as [t|] eqn:Et.
  - left. injection Ef as <-. by apply (ok_id v Hok) in E0 as [-> _].
  - right. split; [done|]. destruct (ok_ip v Hok _ _ Ef) as (t & Ht & <-). congruence.
Qed.

(** with 1023 sessions there is no free identifier, but the limit is not reached, so
    that the search for one never ends, whatever numbers are drawn. *)
Theorem bfd_ids_exhausted v numbers :
  server_ok v -> NumSessions_ v = 1023 -> GetNewSessionId (set_random numbers v) = NoFuel.
Proof.
  intros Hok Hn. pose proof Hok as [Hid [Hnd Hsl] Hnum _]. unfold GetNewSessionId. cbn [NumSessions_ set_random random]. rewrite Hn.
  change (1023 <? MAX_NUM_SESSIONS) with true. cbv iota.
  assert (Hall : forall id, 0 < id < MAX_NUM_SESSIONS -> id_used v id = true).
  { intros id Hr. assert (Hin : id ∈ SessionsIdSlice v).
    { destruct (decide (id ∈ SessionsIdSlice v)) as [|Hni]; [done|].
      assert (Hb : len (id :: SessionsIdSlice v) <= 1023); [|rewrite len_cons in Hb; lia].
      apply ids_bound; [by apply NoDup_cons|]. intros i [->|[s Hs]%Hsl]%elem_of_cons; [done|]. by apply Hid in Hs as (_ & ? & _). }
    apply Hsl in Hin as [s Hs]. unfold id_used. by rewrite Hs. }
  change (id_used (set_random numbers v)) with (id_used v).
  assert (Hd : draw_id numbers (id_used v) = None); [|by rewrite Hd].
  induction numbers as [|n numbers IH]; cbn [draw_id]; [done|]. pose proof (Z.mod_pos_bound n MAX_NUM_SESSIONS eq_refl) as Hm.
  destruct (decide (n mod MAX_NUM_SESSIONS = 0)) as [->|Hz]; [by rewrite orb_true_r|]. rewrite Hall by lia. done.
Qed.

(** a session is deleted with its last owner, from all tables, and no other session
    changes; while it has an owner it stays. *)
Theorem bfd_session_deleted id s protocol forceDel v :
  server_ok v -> Sessions v !! id = Some s -> 0 <= protocol < MAX_APPS -> id ∈ serving v ->
  is_Some (SessionParams v !! ParamName s) ->
  exists v', SessionDeleteHandler id protocol forceDel v = Ok v' /\
    if (forceDel || negb (existsb Datatypes.id (drop 1 (<[Z.to_nat protocol := false]> (RegisteredProtocols s))))) then
      Sessions v' = delete id (Sessions v) /\ (id ∉ SessionsIdSlice v') /\ SessionsByIp v' !! IpAddr s = None /\
      NumSessions_ v' = NumSessions_ v - 1
    else
      Sessions v' = <[id := set_RegisteredProtocols (<[Z.to_nat protocol := false]> (RegisteredProtocols s)) s]> (Sessions v).
Proof.
  intros Hok Hs Hp Hserv [param Hparam]. pose proof (ok_id v Hok id s Hs) as (_ & _ & Hlen).
  assert (Hset : set_index (RegisteredProtocols s) protocol false = Ok (<[Z.to_nat protocol := false]> (RegisteredProtocols s))).
  { unfold set_index. rewrite Hlen. by replace ((0 <=? protocol) && (protocol <? MAX_APPS)) with true by lia. }
  assert (Hdel : exists v', SessionDeleteHandler id protocol forceDel v = Ok v').
  { unfold SessionDeleteHandler, on_session, session_at. rewrite Hs. cbn [of_option mbind res_bind]. rewrite Hset.
    cbn [mbind res_bind Sessions set_Sessions]. rewrite lookup_insert, decide_True by done. cbn [of_option mbind res_bind].
    destruct (_ || _); [|eauto]. unfold stop_server. cbn [serving set_Sessions]. rewrite bool_decide_eq_true_2 by done.
    cbn [mbind res_bind]. unfold drop_param. cbn [SessionParams set_serving set_Sessions ParamName set_RegisteredProtocols]. rewrite Hparam.
    cbn [of_option mbind res_bind]. cbn [SessionsIdSlice set_SessionsByIp set_Sessions set_NumSessions set_SessionParams set_serving].
    unfold remove_id. destruct (list_find (eq id) (SessionsIdSlice v)) as [[i x]|] eqn:Ef; [cbn; eauto|].
    apply list_find_None in Ef. rewrite Forall_forall in Ef. exfalso. apply (Ef id); [|done]. apply (ok_slice v Hok). eauto. }
  destruct Hdel as [v' Hdel]. exists v'. split; [done|]. pose proof (num_bound v Hok) as Hb.
  destruct (delete_handler _ _ _ _ _ Hdel) as (s' & protocols & Hs' & Hp' & H). cbv zeta in H. rewrite Hs in Hs'. injection Hs' as <-.
  rewrite Hset in Hp'. injection Hp' as <-. destruct (_ || _); [|by rewrite H].
  destruct H as (ids & Hr & E1 & E2 & E3 & E4). apply remove_id_spec in Hr as (Hin & _ & Hmem & Hl); [|apply Hok].
  rewrite E1, E2, E3, E4. cbn [Sessions set_Sessions]. rewrite delete_insert_eq. split; [done|]. split; [rewrite Hmem; tauto|].
  split; [by rewrite lookup_delete, decide_True by done|]. rewrite (ok_num v Hok), Hl in *. pose proof (len_nonneg ids).
  unfold u32. rewrite Z.mod_small; lia.
Qed.

(** once the parameters of a session are deleted, deleting the session stops the
    daemon. *)
Theorem bfd_param_delete_panics name id s protocol v :
  server_ok v -> Sessions v !! id = Some s -> ParamName s = name -> 0 <= protocol < MAX_APPS -> id ∈ serving v ->
  is_Some (SessionParams v !! name) ->
  SessionDeleteHandler id protocol true (processSessionParamDelete name v) = Panic.
Proof.
  intros Hok Hs Hn Hp Hserv [param Ep]. unfold processSessionParamDelete. rewrite Ep.
  set (v1 := UpdateBfdSessionsUsingParam name _).
  assert (H1 : server_ok v1) by (apply ok_update_param; by apply (server_ok_set v)).
  assert (Hs1 : exists s1, Sessions v1 !! id = Some s1 /\ kept s s1).
  { unfold v1, UpdateBfdSessionsUsingParam. cbn [Sessions set_Sessions set_NumSessionParams set_SessionParams].
    rewrite lookup_fmap, Hs. cbn. eexists. split; [done|]. case_bool_decide; [apply kept_apply|done]. }
  destruct Hs1 as (s1 & Hs1 & Hk). pose proof (ok_id v1 H1 id s1 Hs1) as (_ & _ & Hlen).
  assert (Hn1 : ParamName s1 = name) by (unfold kept, identity in Hk; congruence).
  assert (Hpn : SessionParams v1 !! name = None) by (unfold v1, UpdateBfdSessionsUsingParam;
    cbn [SessionParams set_Sessions set_NumSessionParams set_SessionParams]; by rewrite lookup_delete, decide_True).
  assert (Hsv : id ∈ serving v1) by done. clearbody v1.
  unfold SessionDeleteHandler, on_session, session_at. rewrite Hs1. cbn [of_option mbind res_bind]. unfold set_index. rewrite Hlen.
  replace ((0 <=? protocol) && (protocol <? MAX_APPS)) with true by lia.
  cbn [mbind res_bind Sessions set_Sessions]. rewrite lookup_insert, decide_True by done. cbn [of_option mbind res_bind orb].
  unfold stop_server. cbn [serving set_Sessions]. rewrite bool_decide_eq_true_2 by done. cbn [mbind res_bind].
  unfold drop_param. cbn [SessionParams set_serving set_Sessions ParamName set_RegisteredProtocols]. rewrite Hn1, Hpn. done.
Qed.

Lemma on_session_some id g v s :
  Sessions v !! id = Some s -> on_session id (fun s => Ok (g s)) v = Ok (set_Sessions (<[id := g s]> (Sessions v)) v).
Proof. intros Hs. unfold on_session, session_at. by rewrite Hs. Qed.

(** ** A session is created *)

Lemma take_param_returns paramName v :
  is_Some (SessionParams v !! "default"%string) -> exists name param m,
    take_param paramName v = Ok (name, param, set_SessionParams m v).
Proof.
  intros [d Hd]. unfold take_param. destruct (SessionParams v !! paramName) as [p|] eqn:Ep; cbv zeta iota.
  - rewrite Ep. cbn. eauto.
  - rewrite Hd. cbn. eauto.
Qed.

Lemma ex_bind {A B C} (m : res A) (k : A -> res B) (f : C -> B) a :
  m = Ok a -> (exists c, k a = Ok (f c)) -> exists c, m ≫= k = Ok (f c).
Proof. by intros ->. Qed.

Lemma new_normal_returns interface localIp destIp paramName protocol v id n rest :
  NumSessions_ v < MAX_NUM_SESSIONS -> draw_id (random v) (id_used v) = Some (id, n :: rest) ->
  0 <= protocol < MAX_APPS -> is_Some (SessionParams v !! "default"%string) -> len (CreatedSessionCh v) < MAX_NUM_SESSIONS ->
  exists v', NewNormalBfdSession interface localIp destIp paramName false protocol v = Ok (Some id, v').
Proof.
  intros Hn Hd Hp Hdef Hc. pose proof (draw_id_free _ _ _ _ Hd) as [_ Hr]. unfold NewNormalBfdSession.
  apply (ex_bind _ _ (fun v' => (Some id, v')) (id, set_random (n :: rest) v)).
  { unfold GetNewSessionId. rewrite (proj2 (Z.ltb_lt _ _)) by done. by rewrite Hd. }
  cbv beta iota. rewrite (proj2 (Z.eqb_neq id 0)) by lia.
  apply (ex_bind _ _ (fun v' => (Some id, v')) (<[Z.to_nat protocol := true]> (replicate 5 false))).
  { unfold set_index. change (len (replicate 5 false)) with MAX_APPS. by replace ((0 <=? protocol) && (protocol <? MAX_APPS)) with true by lia. }
  apply (ex_bind _ _ (fun v' => (Some id, v')) (n mod TX_JITTER, set_random rest (set_random (n :: rest) v))); [done|]. cbv beta iota.
  destruct (take_param_returns paramName (set_random rest (set_random (n :: rest) v))) as (name & param & m & E); [done|].
  apply (ex_bind _ _ (fun v' => (Some id, v')) _ E). cbv beta iota zeta. clear E.
  match goal with |- context [announce id ?x] => set (v1 := x) end.
  apply (ex_bind _ _ (fun v' => (Some id, v')) (set_CreatedSessionCh (CreatedSessionCh v1 ++ [id]) v1)); [|eauto].
  unfold announce. change (CreatedSessionCh v1) with (CreatedSessionCh v). by rewrite (proj2 (Z.ltb_lt _ _)).
Qed.

(** a request for a destination without a session, which is reachable through an
    interface the request allows, makes a session: it is down, it belongs to the protocol
    of the request, it is in all tables, it is announced to be started, and no other session
    changes. *)
Theorem bfd_session_created visit ifType reach m v ifIndex localIp id n rest :
  let ip := session_ip (m_DestIp m) (m_Interface m) in
  FindBfdSession visit ip v = None -> reach ip = Some (ifIndex, localIp) ->
  ifType ifIndex <> IfTypeLag -> getLinuxIntfName ifType v ifIndex = Some (m_Interface m) ->
  NumSessions_ v < MAX_NUM_SESSIONS -> draw_id (random v) (id_used v) = Some (id, n :: rest) ->
  0 <= m_Protocol m < MAX_APPS -> is_Some (SessionParams v !! "default"%string) -> len (CreatedSessionCh v) < MAX_NUM_SESSIONS ->
  exists v' s, CreateBfdSession visit ifType reach m v = Ok (true, v') /\ Sessions v !! id = None /\
    Sessions v' = <[id := s]> (Sessions v) /\ SessionsByIp v' = <[ip := id]> (SessionsByIp v) /\
    SessionsIdSlice v' = SessionsIdSlice v ++ [id] /\ CreatedSessionCh v' = CreatedSessionCh v ++ [id] /\
    SessionId s = id /\ IpAddr s = ip /\ LocalAddr s = localIp /\ SessionState s = STATE_DOWN /\
    RegisteredProtocols s = <[Z.to_nat (m_Protocol m) := true]> (replicate 5 false).
Proof.
  intros ip Hf Hr Hlag Hname Hn Hd Hp Hdef Hc. unfold CreateBfdSession. fold ip. rewrite Hf. cbv zeta.
  unfold NewBfdSession. rewrite Hr, Hname. cbv zeta.
  rewrite (bool_decide_eq_true_2 (m_Interface m = m_Interface m)) by done. cbn [negb]. rewrite andb_false_r.
  rewrite (bool_decide_eq_false_2 (ifType ifIndex = IfTypeLag)) by done. cbn [andb].
  destruct (new_normal_returns (m_Interface m) localIp ip (m_ParamName m) (m_Protocol m) v id n rest) as [v1 E1]; [done..|].
  rewrite E1. cbn [mbind res_bind of_option].
  apply new_normal in E1 as (jitter & name & protocols & param & Hps & Hnew & _ & E2 & E3 & _ & E4 & E5).
  rewrite (on_session_some _ _ _ (new_session id jitter (m_Interface m) localIp ip name false protocols param))
    by (by rewrite E2, lookup_insert, decide_True).
  cbn [mbind res_bind]. eexists _, _. split; [reflexivity|]. split; [done|].
  cbn [Sessions SessionsByIp SessionsIdSlice CreatedSessionCh set_Sessions]. rewrite E2, E3, E4, E5.
  split; [apply insert_insert_eq|]. repeat (split; [done|]). unfold set_index in Hps.
  change (len (replicate 5 false)) with MAX_APPS in Hps. replace ((0 <=? m_Protocol m) && (m_Protocol m <? MAX_APPS)) with true in Hps by lia.
  by injection Hps as <-.
Qed.

(** ** The retry of clients *)

(** The identifiers that one tick takes out of a list, and those it leaves: behind one that is
    taken out the next is passed over, and one without a session stays. *)
Fixpoint after_tick (known : Z -> bool) (ids : list Z) : list Z * list Z :=
  match ids with
  | [] => ([], [])
  | id :: ids =>
    if known id then
      match ids with
      | [] => ([id], [])
      | next :: ids => (id :: (after_tick known ids).1, next :: (after_tick known ids).2)
      end
    else ((after_tick known ids).1, id :: (after_tick known ids).2)
  end.

Definition known (v : BFDServer) (id : Z) : bool := bool_decide (is_Some (Sessions v !! id)).

(** A session whose client is started. *)
Definition restarted (dial : BfdSession -> bool) (s : BfdSession) : BfdSession :=
  if isClientActive s || PerLinkSession s || negb (dial s) then s else StartSessionClient true s.

Definition fails (dial : BfdSession -> bool) (v : BFDServer) (id : Z) : bool :=
  match Sessions v !! id with Some s => negb (isClientActive s) && negb (PerLinkSession s) && negb (dial s) | None => false end.

Lemma restarted_twice dial s : restarted dial (restarted dial s) = restarted dial s.
Proof.
  unfold restarted. destruct (isClientActive s || PerLinkSession s || negb (dial s)) eqn:E; [by rewrite E|].
  unfold StartSessionClient. by session_cbn.
Qed.

(** What has been made of [v] once the sessions of [tried] were tried, with [slice] left. *)
Record ticked (dial : BfdSession -> bool) (v : BFDServer) (tried slice : list Z) (v' : BFDServer) : Prop := mkTicked {
  tk_slice : InactiveSessionsIdSlice v' = slice;
  tk_failed : FailedSessionClientCh v' = FailedSessionClientCh v ++ List.filter (fails dial v) tried;
  tk_sessions id : Sessions v' !! id = if bool_decide (id ∈ tried) then restarted dial <$> Sessions v !! id else Sessions v !! id;
}.

Lemma try_client dial id s v :
  Sessions v !! id = Some s ->
  exists v', (if isClientActive s then Ok v else start_client dial id v) = Ok v' /\ ticked dial v [id] (InactiveSessionsIdSlice v) v'.
Proof.
  intros Hs. unfold start_client, session_at. rewrite Hs. cbn [of_option mbind res_bind].
  assert (Hsame : restarted dial s = s -> forall j, Sessions v !! j = if bool_decide (j ∈ [id]) then restarted dial <$> Sessions v !! j else Sessions v !! j).
  { intros E j. case_bool_decide as Hj; [|done]. apply list_elem_of_singleton in Hj as ->. rewrite Hs. cbn. by rewrite E. }
  unfold restarted in Hsame. assert (Hf : List.filter (fails dial v) [id] =
    if negb (isClientActive s) && negb (PerLinkSession s) && negb (dial s) then [id] else []) by (cbn; unfold fails; by rewrite Hs).
  destruct (isClientActive s) eqn:Ea; [exists v; split; [done|]; split; [done|by rewrite Hf, app_nil_r|by apply Hsame]|].
  destruct (PerLinkSession s) eqn:Ep; [exists v; split; [done|]; split; [done|by rewrite Hf, app_nil_r|by apply Hsame]|].
  destruct (dial s) eqn:Ed.
  - rewrite (on_session_some _ _ _ s) by done. eexists. split; [reflexivity|]. split; [done|by rewrite Hf, app_nil_r|].
    intros j. cbn [Sessions set_Sessions]. case_bool_decide as Hj.
    + apply list_elem_of_singleton in Hj as ->. rewrite lookup_insert_eq, Hs. cbn. unfold restarted. by rewrite Ea, Ep, Ed.
    + rewrite lookup_insert_ne; [done|]. intros ->. apply Hj. by left.
  - eexists. split; [reflexivity|]. split; [done|by rewrite Hf|]. by apply Hsame.
Qed.

Lemma ticked_known dial v tried slice v' id : ticked dial v tried slice v' -> known v' id = known v id.
Proof.
  intros [_ _ H]. unfold known. apply bool_decide_ext. rewrite H. case_bool_decide; [|done]. by rewrite fmap_is_Some.
Qed.

Lemma ticked_fails dial v tried slice v' id : ticked dial v tried slice v' -> fails dial v' id = fails dial v id.
Proof.
  intros [_ _ H]. unfold fails. rewrite H. case_bool_decide; [|done]. destruct (Sessions v !! id) as [s|]; [|done]. cbn. unfold restarted.
  destruct (isClientActive s) eqn:Ea, (PerLinkSession s) eqn:Ep, (dial s) eqn:Ed; cbn [orb negb andb]; rewrite ?Ea, ?Ep, ?Ed; try done.
Qed.

Lemma ticked_trans dial v tried slice v' tried' slice' v'' :
  ticked dial v tried slice v' -> ticked dial v' tried' slice' v'' -> ticked dial v (tried ++ tried') slice' v''.
Proof.
  intros H H'. pose proof H as [_ H2 H3]. pose proof H' as [H4 H5 H6]. split; [done| |].
  - rewrite H5, H2, List.filter_app, <- app_assoc. do 2 f_equal. apply List.filter_ext. intros id. by apply (ticked_fails dial v tried slice).
  - intros id. rewrite H6, H3. rewrite (bool_decide_ext (id ∈ tried ++ tried') (id ∈ tried \/ id ∈ tried')) by apply elem_of_app.
    rewrite bool_decide_or. destruct (Sessions v !! id) as [s|]; [|by repeat case_bool_decide].
    repeat case_bool_decide; cbn; by rewrite ?restarted_twice.
Qed.

Lemma after_tick_ext known1 known2 ids : (forall id, known1 id = known2 id) -> after_tick known1 ids = after_tick known2 ids.
Proof.
  intros H. assert (Hn : forall n ids, (length ids <= n)%nat -> after_tick known1 ids = after_tick known2 ids); [|by apply (Hn (length ids))].
  induction n as [|n IH]; intros [|id l] Hl; cbn [length] in Hl; try done; [lia|]. cbn [after_tick]. rewrite <- H.
  destruct (known1 id); [|by rewrite IH by lia]. destruct l as [|next l]; [done|]. cbn [length] in Hl. by rewrite IH by lia.
Qed.

Lemma retry_ok dial fuel pre ids v :
  InactiveSessionsIdSlice v = pre ++ ids -> (length ids < fuel)%nat ->
  exists v', retry dial fuel (length pre) v = Ok v' /\ ticked dial v (after_tick (known v) ids).1 (pre ++ (after_tick (known v) ids).2) v'.
Proof.
  revert pre ids v. induction fuel as [|fuel IH]; intros pre ids v Hv Hf; [lia|]. cbn [retry]. rewrite Hv.
  destruct ids as [|id ids].
  { rewrite app_nil_r, lookup_ge_None_2 by lia. exists v. split; [done|]. cbn. rewrite app_nil_r in *. split; [done|by rewrite app_nil_r|done]. }
  rewrite list_lookup_middle by done. cbn [length] in Hf. cbn [after_tick]. destruct (Sessions v !! id) as [s|] eqn:Es.
  - replace (known v id) with true by (symmetry; apply bool_decide_eq_true; by rewrite Es).
    destruct (try_client dial id s v Es) as (v1 & -> & T). cbn [mbind res_bind].
    pose proof (tk_slice _ _ _ _ _ T) as Hs1. rewrite Hs1, Hv, take_app_length.
    replace (drop (S (length pre)) (pre ++ id :: ids)) with ids.
    2: { rewrite (cons_middle id pre ids), (assoc_L (++)). replace (S (length pre)) with (length (pre ++ [id])) by (rewrite length_app; cbn; lia).
         by rewrite drop_app_length. }
    set (v2 := set_InactiveSessionsIdSlice (pre ++ ids) v1).
    assert (T2 : ticked dial v [id] (pre ++ ids) v2) by (split; [done|apply T|apply T]).
    destruct ids as [|next ids].
    + destruct fuel as [|fuel]; [cbn in Hf; lia|]. exists v2. split; [|exact T2]. cbn [retry].
      unfold v2. cbn [InactiveSessionsIdSlice set_InactiveSessionsIdSlice]. by rewrite app_nil_r, lookup_ge_None_2 by lia.
    + replace (S (length pre)) with (length (pre ++ [next])) by (rewrite length_app; cbn; lia).
      destruct (IH (pre ++ [next]) ids v2) as (v' & E & T'); [by rewrite <- (assoc_L (++))|cbn [length] in Hf; lia|].
      exists v'. split; [exact E|]. rewrite (after_tick_ext _ (known v)) in T' by (intros; by eapply ticked_known).
      rewrite <- (assoc_L (++)) in T'. exact (ticked_trans _ _ _ _ _ _ _ _ T2 T').
  - replace (known v id) with false by (symmetry; apply bool_decide_eq_false; rewrite Es; by intros []).
    replace (S (length pre)) with (length (pre ++ [id])) by (rewrite length_app; cbn; lia).
    destruct (IH (pre ++ [id]) ids v) as (v' & E & T'); [by rewrite <- (assoc_L (++))|lia|]. exists v'. split; [exact E|].
    rewrite <- (assoc_L (++)) in T'. exact T'.
Qed.

(** C38: a tick of the retry handler ends, whatever the list of inactive sessions is and however
    full the channel of failures. It takes every second of the identifiers that have a session
    out of the list, starts its client if that does not run, and tells those whose socket could
    not be opened, in their order; the identifier behind one that is taken out is passed over
    until the next tick, one without a session stays for ever, and nothing else changes in the
    list, among the sessions or the failures. Sessions per link are taken out, but their clients
    are not modelled; sockets are opened, and failures told, while the tick runs. *)
Theorem bfd_retry_terminates dial v :
  exists v', StartSessionRetryHandler dial v = Ok v' /\
    let '(tried, kept) := after_tick (known v) (InactiveSessionsIdSlice v) in
    InactiveSessionsIdSlice v' = kept /\
    FailedSessionClientCh v' = FailedSessionClientCh v ++ List.filter (fails dial v) tried /\
    forall id, Sessions v' !! id = if bool_decide (id ∈ tried) then restarted dial <$> Sessions v !! id else Sessions v !! id.
Proof.
  destruct (retry_ok dial (S (length (InactiveSessionsIdSlice v))) [] (InactiveSessionsIdSlice v) v eq_refl) as (v' & E & [H1 H2 H3]); [lia|].
  exists v'. split; [exact E|]. destruct (after_tick _ _). by split_and!.
Qed.

(** ** Concrete servers *)

Definition handle_demo : list Request -> BFDServer -> res BFDServer :=
  handle_all id id (fun _ => IfTypePort) (fun _ => Some (1, "10.0.0.1"%string)) (fun _ => true).

Definition demo_requests : list Request :=
  [SessionConfigCh (mkSessionConfig "10.0.0.2" "fast" "" false 3 CREATE);
   CreatedSession;
   InSession 5 (TxTimer true);
   Datagram "10.0.0.2" (CreateBfdControlPacket init_packet) [];
   InSession 5 Serve].

Definition demo_server : BFDServer :=
  match handle_demo demo_requests (InitServer [1029; 3; 7; 8]) with Ok v => v | _ => NewBFDServer [] end.

Lemma bfd_server_consistent_witness :
  handle_all id id (fun _ => IfTypePort) (fun _ => Some (1, "10.0.0.1"%string)) (fun _ => true) demo_requests
    (InitServer [1029; 3; 7; 8]) = Ok demo_server /\
  server_ok demo_server.
Proof.
  assert (H : handle_all id id (fun _ => IfTypePort) (fun _ => Some (1, "10.0.0.1"%string)) (fun _ => true) demo_requests
    (InitServer [1029; 3; 7; 8]) = Ok demo_server) by (vm_compute; reflexivity).
  split; [exact H|]. exact (bfd_server_consistent _ _ _ _ _ _ _ _ H).
Defined.

(** The session is up after the packet. *)
Example demo_up : (SessionState <$> Sessions demo_server !! 5) = Some STATE_UP.
Proof. vm_compute. reflexivity. Qed.

Lemma demo_ok : server_ok demo_server.
Proof.
  assert (H : handle_demo demo_requests (InitServer [1029; 3; 7; 8]) = Ok demo_server) by (vm_compute; reflexivity).
  exact (ok_handle_all _ _ _ _ _ _ _ _ (server_ok_init _) H).
Qed.

Definition dispatched : BFDServer :=
  match DispatchReceivedBfdPacket "10.0.0.9" init_packet demo_server with Ok v => v | _ => demo_server end.

Lemma bfd_dispatch_target_witness :
  (server_ok demo_server /\ DispatchReceivedBfdPacket "10.0.0.9" init_packet demo_server = Ok dispatched) /\
  ((find_receiver "10.0.0.9" init_packet demo_server = None /\ dispatched = demo_server) \/
   exists id s s', find_receiver "10.0.0.9" init_packet demo_server = Some id /\ Sessions demo_server !! id = Some s /\
    (SessionId s = i32 (YourDiscriminator init_packet) \/
     (Sessions demo_server !! i32 (YourDiscriminator init_packet) = None /\ IpAddr s = "10.0.0.9"%string)) /\
    receive_packet init_packet s = Ok s' /\ Sessions dispatched = <[id := s']> (Sessions demo_server)).
Proof.
  assert (H : DispatchReceivedBfdPacket "10.0.0.9" init_packet demo_server = Ok dispatched) by (vm_compute; reflexivity).
  split; [split; [exact demo_ok|exact H]|]. exact (bfd_dispatch_target _ _ _ _ demo_ok H).
Defined.

(** Sessions 1 to 1023. *)
Definition all_ids : list Z := map Z.of_nat (seq 1 1023).
Definition full_server : BFDServer :=
  set_NumSessions 1023 (set_SessionsIdSlice all_ids
    (set_Sessions (list_to_map ((fun id => (id, new_session id 0 "" "10.0.0.1" "10.0.0.2" "default" true [false; true; false; false; false] default_param)) <$> all_ids))
      (NewBFDServer []))).

Lemma all_ids_spec id : id ∈ all_ids <-> 0 < id < MAX_NUM_SESSIONS.
Proof.
  unfold all_ids, MAX_NUM_SESSIONS. rewrite list_elem_of_In, in_map_iff. split.
  - intros (n & <- & Hn). rewrite in_seq in Hn. lia.
  - intros H. exists (Z.to_nat id). rewrite in_seq. lia.
Qed.

Lemma fst_pairs {A B} (g : A -> B) l : ((fun x => (x, g x)) <$> l).*1 = l.
Proof. induction l as [|x l IH]; [done|]. cbn. by f_equal. Qed.

Lemma full_ok : server_ok full_server.
Proof.
  assert (Hnd : NoDup all_ids) by (apply NoDup_fmap; [intros x y; lia|apply NoDup_ListNoDup, seq_NoDup]).
  assert (Hl : forall id s, Sessions full_server !! id = Some s <->
    id ∈ all_ids /\ s = new_session id 0 "" "10.0.0.1" "10.0.0.2" "default" true [false; true; false; false; false] default_param).
  { intros id s. cbn [Sessions set_Sessions set_SessionsIdSlice set_NumSessions full_server]. rewrite <- elem_of_list_to_map.
    - rewrite list_elem_of_fmap. split; [by intros (i & [= -> ->] & Hi)|intros [Hi ->]; eauto].
    - by rewrite fst_pairs. }
  constructor.
  - intros id s [Hi ->]%Hl. apply all_ids_spec in Hi. done.
  - split; [done|]. intros id. split; [intros Hi; eexists; by apply Hl|intros [s [Hi _]%Hl]; done].
  - by vm_compute.
  - intros ip id. cbn [SessionsByIp set_Sessions set_SessionsIdSlice set_NumSessions NewBFDServer full_server]. by rewrite lookup_empty.
Qed.

Lemma bfd_ids_exhausted_witness :
  (server_ok full_server /\ NumSessions_ full_server = 1023) /\ GetNewSessionId (set_random [5; 700; 1] full_server) = NoFuel.
Proof. split; [split; [exact full_ok|reflexivity]|]. apply bfd_ids_exhausted; [exact full_ok|reflexivity]. Defined.

Lemma three_ok : 0 <= 3 < MAX_APPS.
Proof. by vm_compute. Qed.

Definition demo_session : BfdSession := match Sessions demo_server !! 5 with Some s => s | None => session_a end.

Lemma bfd_session_deleted_witness :
  (server_ok demo_server /\ Sessions demo_server !! 5 = Some demo_session /\ 5 ∈ serving demo_server) /\
  exists v', SessionDeleteHandler 5 3 false demo_server = Ok v' /\
    Sessions v' = delete 5 (Sessions demo_server) /\ (5 ∉ SessionsIdSlice v') /\ SessionsByIp v' !! IpAddr demo_session = None /\
    NumSessions_ v' = NumSessions_ demo_server - 1.
Proof.
  assert (H : Sessions demo_server !! 5 = Some demo_session) by (vm_compute; reflexivity).
  assert (Hs : 5 ∈ serving demo_server) by (apply (bool_decide_unpack _); vm_compute; exact I).
  assert (Hp : is_Some (SessionParams demo_server !! ParamName demo_session)) by (vm_compute; eauto).
  split; [exact (conj demo_ok (conj H Hs))|].
  pose proof (bfd_session_deleted 5 demo_session 3 false demo_server demo_ok H three_ok Hs Hp) as Hd.
  assert (Hb : (false || negb (existsb Datatypes.id (drop 1 (<[Z.to_nat 3 := false]> (RegisteredProtocols demo_session))))) = true)
    by (vm_compute; reflexivity).
  rewrite Hb in Hd. exact Hd.
Defined.

Lemma bfd_param_delete_panics_witness :
  (server_ok demo_server /\ Sessions demo_server !! 5 = Some demo_session /\ 5 ∈ serving demo_server) /\
  SessionDeleteHandler 5 3 true (processSessionParamDelete "default" demo_server) = Panic.
Proof.
  assert (H : Sessions demo_server !! 5 = Some demo_session) by (vm_compute; reflexivity).
  assert (Hs : 5 ∈ serving demo_server) by (apply (bool_decide_unpack _); vm_compute; exact I).
  assert (Hn : ParamName demo_session = "default"%string) by (vm_compute; reflexivity).
  assert (Hp : is_Some (SessionParams demo_server !! "default"%string)) by (vm_compute; eauto).
  split; [exact (conj demo_ok (conj H Hs))|].
  exact (bfd_param_delete_panics "default" 5 demo_session 3 demo_server demo_ok H Hn three_ok Hs Hp).
Defined.

(** A server with three sessions whose clients do not run; the socket of one cannot be opened. *)
Definition idle_session (id : Z) : BfdSession :=
  new_session id 0 "" "10.0.0.1" "10.0.0.2" "default" false [false; true; false; false; false] default_param.
Definition idle_server : BFDServer :=
  set_InactiveSessionsIdSlice [4; 9; 5; 6; 7] (set_Sessions {[4 := idle_session 4; 5 := idle_session 5; 6 := idle_session 6]} (NewBFDServer [])).

Lemma bfd_retry_terminates_witness :
  exists v', StartSessionRetryHandler (fun s => SessionId s =? 4) idle_server = Ok v' /\
    InactiveSessionsIdSlice v' = [9; 6; 7] /\ FailedSessionClientCh v' = [5] /\
    Sessions v' !! 4 = Some (StartSessionClient true (idle_session 4)).
Proof.
  destruct (bfd_retry_terminates (fun s => SessionId s =? 4) idle_server) as (v' & E & H). exists v'. split; [exact E|].
  assert (Ha : after_tick (known idle_server) (InactiveSessionsIdSlice idle_server) = ([4; 5], [9; 6; 7])) by (vm_compute; reflexivity).
  rewrite Ha in H. destruct H as (H1 & H2 & H3). split; [exact H1|]. split; [rewrite H2; vm_compute; reflexivity|].
  rewrite H3. vm_compute. reflexivity.
Defined.

Definition bgp_request : BfdSessionMgmt := mkBfdSessionMgmt "10.0.0.2" "fast" "" 3 false false.

Lemma bfd_session_created_witness :
  FindBfdSession id (session_ip (m_DestIp bgp_request) (m_Interface bgp_request)) (InitServer [1029; 3; 7; 8]) = None /\
  exists v' s, CreateBfdSession id (fun _ => IfTypePort) (fun _ => Some (1, "10.0.0.1"%string)) bgp_request (InitServer [1029; 3; 7; 8]) = Ok (true, v') /\
    Sessions (InitServer [1029; 3; 7; 8]) !! 5 = None /\
    Sessions v' = <[5 := s]> (Sessions (InitServer [1029; 3; 7; 8])) /\ SessionsByIp v' = <["10.0.0.2"%string := 5]> (SessionsByIp (InitServer [1029; 3; 7; 8])) /\
    SessionsIdSlice v' = SessionsIdSlice (InitServer [1029; 3; 7; 8]) ++ [5] /\ CreatedSessionCh v' = CreatedSessionCh (InitServer [1029; 3; 7; 8]) ++ [5] /\
    SessionId s = 5 /\ IpAddr s = "10.0.0.2"%string /\ LocalAddr s = "10.0.0.1"%string /\ SessionState s = STATE_DOWN /\
    RegisteredProtocols s = [false; false; false; true; false].
Proof.
  split; [vm_compute; reflexivity|].
  apply (bfd_session_created id (fun _ => IfTypePort) (fun _ => Some (1, "10.0.0.1"%string)) bgp_request (InitServer [1029; 3; 7; 8])
    1 "10.0.0.1" 5 3 [7; 8]); try (vm_compute; (reflexivity || discriminate)).
  - by vm_compute.
  - vm_compute. eauto.
Defined.
