(* ===== verification/OspfUtil.v ===== *)
(** * OSPF: conversions and checksums

    serverUtil.go of src/ospf/server. *)

From stdpp Require Import pretty.
From S2P Require Import Prelude.
From S2P Require Import NetParse.

(** ** Identifiers from text *)

(** [k + 1] octets with dots between them; nil is the empty slice. *)
Definition octets (k : nat) (s : string) : bytes :=
  match
    '(n, s) ← dtoi s;
    if 255 <? n then None
    else '(p, s) ← dotted k s; match s with EmptyString => Some (n :: p) | _ => None end
  with
  | Some p => p
  | None => []
  end.

Definition parseIPFmt (s : string) : bytes := octets 3 s.
Definition convertAuthKey (s : string) : bytes := octets 7 s.

(** strconv.ParseUint(s, 10, 32) *)
Fixpoint decimal (s : string) (n : Z) : option Z :=
  match s with
  | String.String c s =>
    d ← dec_digit c; let n := n * 10 + d in if n <? 4294967296 then decimal s n else None
  | EmptyString => Some n
  end.

Definition ParseUint (s : string) : option Z := match s with EmptyString => None | _ => decimal s 0 end.

(** The octet of the lowest weight comes first. *)
Definition parseIntFmt (s : string) : bytes :=
  match ParseUint s with
  | Some i =>
    [u8 (Z.land i 0xFF); u8 (Z.shiftr (Z.land i 0xFF00) 8); u8 (Z.shiftr (Z.land i 0xFF0000) 16);
     u8 (Z.shiftr (Z.land i 0xFF000000) 24)]
  | None => []
  end.

Fixpoint has_dot (s : string) : bool :=
  match s with String.String c s => is_char c 46 || has_dot s | EmptyString => false end.

Definition convertAreaOrRouterId (s : string) : bytes := if has_dot s then parseIPFmt s else parseIntFmt s.

Definition convertIPv4ToUint32 (ip : bytes) : res Z :=
  a ← index ip 0; b ← index ip 1; c ← index ip 2; d ← index ip 3;
  Ok (((a * 256 + b) * 256 + c) * 256 + d).

Definition convertAreaOrRouterIdUint32 (s : string) : res Z := convertIPv4ToUint32 (convertAreaOrRouterId s).

Definition dotted_string (octets : bytes) : string := String.concat "." (map pretty octets).

Definition convertUint32ToIPv4 (val : Z) : string :=
  dotted_string [Z.land (Z.shiftr val 24) 0xFF; Z.land (Z.shiftr val 16) 0xFF; Z.land (Z.shiftr val 8) 0xFF; Z.land val 0xFF].

Definition convertIPInByteToString (ip : bytes) : res string := val ← convertIPv4ToUint32 ip; Ok (convertUint32ToIPv4 val).

(** The last octet is read in any case. *)
Definition convertByteToOctetString (data : bytes) : res string :=
  _ ← index data (len data - 1); Ok (String.concat ":" (map pretty data)).

(** ** Addresses *)

Definition bytesEqual (x y : bytes) : bool := bool_decide (x = y).

(** ** The checksum of the packet header *)

(** The octets are taken in pairs, and the carry is added once. *)
Fixpoint sum_pairs (pkt : bytes) (csum : Z) : res Z :=
  match pkt with
  | a :: b :: pkt => sum_pairs pkt (u32 (u32 (csum + Z.shiftl a 8) + b))
  | [_] => Panic
  | [] => Ok csum
  end.

Definition computeCheckSum (pkt : bytes) : res Z :=
  csum ← sum_pairs pkt 0; Ok (65535 - u16 (u32 (Z.shiftr csum 16 + csum))).

(** ** The checksum of an LSA *)

Definition MODX : Z := 4102.
Definition FLETCHER_CHECKSUM_VALIDATE : Z := 65535.

(** A turn of the inner loop. *)
Definition fletcher_octet (c : Z * Z) (d : Z) : Z * Z := (c.1 + d, c.2 + (c.1 + d)).

(** The octets are taken in chunks of [MODX], behind each of which the sums are reduced. *)
Fixpoint fletcher_sums (fuel : nat) (data : bytes) (c : Z * Z) : option (Z * Z) :=
  match data, fuel with
  | [], _ => Some c
  | _, O => None
  | _, S fuel =>
    let pLen := Z.to_nat (Z.min (len data) MODX) in
    let c := foldl fletcher_octet c (take pLen data) in
    fletcher_sums fuel (drop pLen data) (Z.rem c.1 255, Z.rem c.2 255)
  end.

(** The checksum, and the octets, of which those at [offset] are reset. *)
Definition computeFletcherChecksum (data : bytes) (offset : Z) : res (Z * bytes) :=
  data ← (if offset =? FLETCHER_CHECKSUM_VALIDATE then Ok data else PutUint16 data offset 0);
  match fletcher_sums (length data) data (0, 0) with
  | None => NoFuel
  | Some (c0, c1) =>
    let x := Z.rem ((len data - offset - 1) * c0 - c1) 255 in
    let x := if x <=? 0 then x + 255 else x in
    let y := 510 - c0 - x in
    let y := if 255 <? y then y - 255 else y in
    let checksum := if offset =? FLETCHER_CHECKSUM_VALIDATE then Z.shiftl c1 8 + c0
                    else Z.lor (Z.shiftl x 8) (Z.land y 0xff) in
    Ok (u16 checksum, data)
  end.

Example area_dotted : convertAreaOrRouterIdUint32 "0.0.0.1" = Ok 1. Proof. by vm_compute. Qed.
Example area_number : convertAreaOrRouterIdUint32 "1" = Ok 16777216. Proof. by vm_compute. Qed.
Example area_text : convertUint32ToIPv4 16777217 = "1.0.0.1"%string. Proof. by vm_compute. Qed.
Example fletcher_sample : computeFletcherChecksum [2; 1; 1; 1; 1; 1; 2; 2; 2; 2; 0x80; 0; 0; 1; 7; 7; 0; 24] 14 =
  Ok (0x1542, [2; 1; 1; 1; 1; 1; 2; 2; 2; 2; 0x80; 0; 0; 1; 0; 0; 0; 24]).
Proof. by vm_compute. Qed.

Lemma len_single {A} (x : A) : len [x] = 1.
Proof. done. Qed.
