(* ===== verification/OspfLsa.v ===== *)
(** * OSPF: link state advertisements

    The data and the codec of ospfLsa.go, src/ospf/server. *)

From stdpp Require Import countable.
From S2P Require Import Prelude.
From S2P Require Import OspfUtil.

(** ** Data *)

Definition RouterLSA : Z := 1.
Definition NetworkLSA : Z := 2.
Definition Summary3LSA : Z := 3.
Definition Summary4LSA : Z := 4.
Definition ASExternalLSA : Z := 5.

Definition OSPF_LSA_HEADER_SIZE : Z := 20.

Record LsaKey := mkLsaKey {
  LSType : Z;
  LSId : Z;
  AdvRouter : Z;
}.

#[export] Instance LsaKey_eq_dec : EqDecision LsaKey.
Proof. solve_decision. Defined.

#[export] Instance LsaKey_countable : Countable LsaKey.
Proof.
  refine (inj_countable' (fun k => (LSType k, LSId k, AdvRouter k)) (fun '(t, i, a) => mkLsaKey t i a) _). by intros [].
Defined.

Record TOSDetail := mkTOSDetail { TOS : Z; TOSMetric : Z }.

Record LinkDetail := mkLinkDetail {
  LinkId : Z;
  LinkData : Z;
  LinkType : Z;
  NumOfTOS : Z;
  LinkMetric : Z;
  TOSDetails : list TOSDetail;
}.

(** LSSequenceNum is an int of 64 bits. *)
Record LsaMetadata := mkLsaMetadata {
  LSAge : Z;
  Options : Z;
  LSSequenceNum : Z;
  LSChecksum : Z;
  LSLen : Z;
}.

Record LsaHeader := mkLsaHeader {
  hdr_LSAge : Z;
  hdr_Options : Z;
  hdr_LSType : Z;
  hdr_LinkId : Z;
  Adv_router : Z;
  hdr_LSSequenceNum : Z;
  hdr_LSChecksum : Z;
  hdr_length : Z;
}.

Record RouterLsa := mkRouterLsa {
  r_LsaMd : LsaMetadata;
  BitV : bool;
  BitE : bool;
  BitB : bool;
  NumOfLinks : Z;
  LinkDetails : list LinkDetail;
}.

Record NetworkLsa := mkNetworkLsa {
  n_LsaMd : LsaMetadata;
  n_Netmask : Z;
  AttachedRtr : list Z;
}.

Record SummaryTOSDetail := mkSummaryTOSDetail { s_TOS : Z; s_TOSMetric : Z }.

Record SummaryLsa := mkSummaryLsa {
  s_LsaMd : LsaMetadata;
  s_Netmask : Z;
  s_Metric : Z;
  SummaryTOSDetails : list SummaryTOSDetail;
}.

Record ASExtTOSDetail := mkASExtTOSDetail {
  x_TOSBitE : bool;
  x_TOS : Z;
  x_TOSMetric : Z;
  TOSFwdAddr : Z;
  TOSExtRouteTag : Z;
}.

Record ASExternalLsa := mkASExternalLsa {
  x_LsaMd : LsaMetadata;
  x_Netmask : Z;
  x_BitE : bool;
  x_Metric : Z;
  FwdAddr : Z;
  ExtRouteTag : Z;
  ASExtTOSDetails : list ASExtTOSDetail;
}.

(** The zero values the decoders start with. *)
Definition zero_md : LsaMetadata := mkLsaMetadata 0 0 0 0 0.
Definition NewRouterLsa : RouterLsa := mkRouterLsa zero_md false false false 0 [].
Definition NewNetworkLsa : NetworkLsa := mkNetworkLsa zero_md 0 [].
Definition NewSummaryLsa : SummaryLsa := mkSummaryLsa zero_md 0 0 [].
Definition NewASExternalLsa : ASExternalLsa := mkASExternalLsa zero_md 0 false 0 0 0 [].

Definition InitialSequenceNumber : Z := 0x80000001.
Definition LSA_MAX_AGE : Z := 0x7fff.
Definition LSA_MAX_AGE_DIFF : Z := 0x7fff.

(** ** The header *)

(** The checksum is left to be filled in. *)
Definition encodeLsaHeader (lsaMd : LsaMetadata) (lsakey : LsaKey) : bytes :=
  be16 (LSAge lsaMd) ++ [Options lsaMd; LSType lsakey] ++ be32 (LSId lsakey) ++ be32 (AdvRouter lsakey) ++
  be32 (u32 (LSSequenceNum lsaMd)) ++ [0; 0] ++ be16 (LSLen lsaMd).

Definition uint16_at (data : bytes) (i : Z) : res Z := s ← slice data i (i + 2); Uint16 s.
Definition uint32_at (data : bytes) (i : Z) : res Z := s ← slice data i (i + 4); Uint32 s.

Definition decodeLsaHeader (data : bytes) : res LsaHeader :=
  age ← uint16_at data 0; opts ← index data 2; typ ← index data 3;
  lsid ← uint32_at data 4; adv ← uint32_at data 8; seqNum ← uint32_at data 12;
  csum ← uint16_at data 16; length ← uint16_at data 18;
  Ok (mkLsaHeader age opts typ lsid adv seqNum csum length).

(** What every decoder reads first. *)
Definition decode_metadata (data : bytes) : res (LsaMetadata * LsaKey) :=
  age ← uint16_at data 0; opts ← index data 2; typ ← index data 3;
  lsid ← uint32_at data 4; adv ← uint32_at data 8; seqNum ← uint32_at data 12;
  csum ← uint16_at data 16; length ← uint16_at data 18;
  Ok (mkLsaMetadata age opts seqNum csum length, mkLsaKey typ lsid adv).

(** [make([]byte, n)] of a length that can be negative, and [make([]T, n)]. *)
Definition make_bytes (n : Z) : res bytes := if n <? 0 then Panic else Ok (zeros n).

(** ** Router LSAs *)

(** [TOS] is the place of the octet, not the octet. *)
Fixpoint decode_tos (n : nat) (data : bytes) (start : Z) : res (list TOSDetail * Z) :=
  match n with
  | O => Ok ([], start)
  | S n =>
    metric ← uint16_at data (start + 2);
    '(tos, stop) ← decode_tos n data (start + 4);
    Ok (mkTOSDetail (u8 start) metric :: tos, stop)
  end.

Fixpoint decode_links (n : nat) (data : bytes) (start : Z) : res (list LinkDetail) :=
  match n with
  | O => Ok []
  | S n =>
    linkId ← uint32_at data start; linkData ← uint32_at data (start + 4);
    typ ← index data (start + 8); tosCount ← index data (start + 9); metric ← uint16_at data (start + 10);
    '(tos, stop) ← decode_tos (Z.to_nat tosCount) data (start + 12);
    links ← decode_links n data stop;
    Ok (mkLinkDetail linkId linkData typ tosCount metric tos :: links)
  end.

Definition decodeRouterLsa (data : bytes) : res (RouterLsa * LsaKey) :=
  '(md, key) ← decode_metadata data;
  bits ← index data 20;
  numOfLinks ← uint16_at data 22;
  links ← decode_links (Z.to_nat numOfLinks) data 24;
  Ok (mkRouterLsa md (has_bits bits 0x04) (has_bits bits 0x02) (has_bits bits 0x01) numOfLinks links, key).

(** [tosDetails[i]] at [start] for [n] turns. *)
Fixpoint encode_tos (n : nat) (i start : Z) (tosDetails : list TOSDetail) (lData : bytes) : res bytes :=
  match n with
  | O => Ok lData
  | S n =>
    t ← index tosDetails i;
    lData ← set_index lData start (TOS t);
    lData ← PutUint16 lData (start + 2) (TOSMetric t);
    encode_tos n (i + 1) (start + 4) tosDetails lData
  end.

Definition encodeLinkData (lDetail : LinkDetail) (length : Z) : res bytes :=
  lData ← make_bytes length;
  lData ← PutUint32 lData 0 (LinkId lDetail);
  lData ← PutUint32 lData 4 (LinkData lDetail);
  lData ← set_index lData 8 (LinkType lDetail);
  lData ← set_index lData 9 (NumOfTOS lDetail);
  lData ← PutUint16 lData 10 (LinkMetric lDetail);
  encode_tos (Z.to_nat (NumOfTOS lDetail)) 0 12 (TOSDetails lDetail) lData.

(** [copy(s[i:j], src)] *)
Definition copy_range (s : bytes) (i j : Z) (src : bytes) : res bytes :=
  _ ← slice s i j; copy_at s i (take (Z.to_nat (j - i)) src).

(** The size of a link is a uint8. *)
Definition link_size (l : LinkDetail) : Z := u8 (12 + u8 (4 * NumOfTOS l)).

Fixpoint encode_links (n : nat) (i start : Z) (links : list LinkDetail) (rtrLsa : bytes) : res bytes :=
  match n with
  | O => Ok rtrLsa
  | S n =>
    l ← index links i;
    let size := link_size l in
    linkData ← encodeLinkData l size;
    rtrLsa ← copy_range rtrLsa start (start + size) linkData;
    encode_links n (i + 1) (start + size) links rtrLsa
  end.

Definition encodeRouterLsa (lsa : RouterLsa) (lsakey : LsaKey) : res bytes :=
  rtrLsa ← make_bytes (LSLen (r_LsaMd lsa));
  rtrLsa ← copy_range rtrLsa 0 20 (encodeLsaHeader (r_LsaMd lsa) lsakey);
  let val := Z.lor (Z.lor (if BitV lsa then 4 else 0) (if BitE lsa then 2 else 0)) (if BitB lsa then 1 else 0) in
  rtrLsa ← set_index rtrLsa 20 val;
  rtrLsa ← PutUint16 rtrLsa 22 (NumOfLinks lsa);
  encode_links (Z.to_nat (NumOfLinks lsa)) 0 24 (LinkDetails lsa) rtrLsa.

(** ** Network LSAs *)

Definition numOfAttachedRtr (md : LsaMetadata) : Z := Z.quot (LSLen md - OSPF_LSA_HEADER_SIZE - 4) 4.

Fixpoint encode_attached (n : nat) (i start : Z) (routers : list Z) (nLsa : bytes) : res bytes :=
  match n with
  | O => Ok nLsa
  | S n =>
    r ← index routers i; nLsa ← PutUint32 nLsa start r; encode_attached n (i + 1) (start + 4) routers nLsa
  end.

(** The empty result stands for nil. *)
Definition encodeNetworkLsa (lsa : NetworkLsa) (lsakey : LsaKey) : res bytes :=
  if LSLen (n_LsaMd lsa) =? 0 then Ok []
  else
    nLsa ← make_bytes (LSLen (n_LsaMd lsa));
    nLsa ← copy_range nLsa 0 20 (encodeLsaHeader (n_LsaMd lsa) lsakey);
    nLsa ← PutUint32 nLsa 20 (n_Netmask lsa);
    encode_attached (Z.to_nat (numOfAttachedRtr (n_LsaMd lsa))) 0 24 (AttachedRtr lsa) nLsa.

Definition decodeNetworkLsa (data : bytes) : res (NetworkLsa * LsaKey) :=
  '(md, key) ← decode_metadata data;
  netmask ← uint32_at data 20;
  _ ← must (0 <=? numOfAttachedRtr md);
  routers ← read_all (fun i => uint32_at data (24 + 4 * i)) (Z.to_nat (numOfAttachedRtr md)) 0;
  Ok (mkNetworkLsa md netmask routers, key).

(** ** Summary LSAs *)

Definition summary_tos_count (md : LsaMetadata) : Z := Z.quot (LSLen md - OSPF_LSA_HEADER_SIZE - 8) 8.

Fixpoint encode_summary_tos (n : nat) (i start : Z) (tos : list SummaryTOSDetail) (sLsa : bytes) : res bytes :=
  match n with
  | O => Ok sLsa
  | S n =>
    t ← index tos i; sLsa ← PutUint32 sLsa start (Z.lor (u32 (Z.shiftl (s_TOS t) 24)) (s_TOSMetric t));
    encode_summary_tos n (i + 1) (start + 4) tos sLsa
  end.

Definition encodeSummaryLsa (lsa : SummaryLsa) (lsakey : LsaKey) : res bytes :=
  sLsa ← make_bytes (LSLen (s_LsaMd lsa));
  sLsa ← copy_range sLsa 0 20 (encodeLsaHeader (s_LsaMd lsa) lsakey);
  sLsa ← PutUint32 sLsa 20 (s_Netmask lsa);
  sLsa ← PutUint32 sLsa 24 (s_Metric lsa);
  encode_summary_tos (Z.to_nat (summary_tos_count (s_LsaMd lsa))) 0 28 (SummaryTOSDetails lsa) sLsa.

(** The masks are put on with an or. *)
Definition decode_summary_tos (temp : Z) : SummaryTOSDetail :=
  mkSummaryTOSDetail (u8 (Z.shiftr (Z.lor 0xff000000 temp) 24)) (Z.lor 0x00ffffff temp).

Definition decodeSummaryLsa (data : bytes) : res (SummaryLsa * LsaKey) :=
  '(md, key) ← decode_metadata data;
  netmask ← uint32_at data 20;
  temp ← uint32_at data 24;
  tos ← read_all (fun i => temp ← uint32_at data (28 + 4 * i); Ok (decode_summary_tos temp)) (Z.to_nat (summary_tos_count md)) 0;
  Ok (mkSummaryLsa md netmask (Z.land 0x00ffffff temp) tos, key).

(** ** AS-external LSAs *)

Definition external_tos_count (md : LsaMetadata) : Z := Z.quot (LSLen md - OSPF_LSA_HEADER_SIZE - 16) 8.

Definition external_bit (b : bool) : Z := if b then 0x80000000 else 0.

Fixpoint encode_external_tos (n : nat) (i start : Z) (tos : list ASExtTOSDetail) (eLsa : bytes) : res bytes :=
  match n with
  | O => Ok eLsa
  | S n =>
    t ← index tos i;
    eLsa ← PutUint32 eLsa start (Z.lor (Z.lor (external_bit (x_TOSBitE t)) (u32 (Z.shiftl (x_TOS t) 24))) (x_TOSMetric t));
    eLsa ← PutUint32 eLsa (start + 4) (TOSFwdAddr t);
    eLsa ← PutUint32 eLsa (start + 8) (TOSExtRouteTag t);
    encode_external_tos n (i + 1) (start + 12) tos eLsa
  end.

Definition encodeASExternalLsa (lsa : ASExternalLsa) (lsakey : LsaKey) : res bytes :=
  eLsa ← make_bytes (LSLen (x_LsaMd lsa));
  eLsa ← copy_range eLsa 0 20 (encodeLsaHeader (x_LsaMd lsa) lsakey);
  eLsa ← PutUint32 eLsa 20 (x_Netmask lsa);
  eLsa ← PutUint32 eLsa 24 (Z.lor (external_bit (x_BitE lsa)) (x_Metric lsa));
  eLsa ← PutUint32 eLsa 28 (FwdAddr lsa);
  eLsa ← PutUint32 eLsa 32 (ExtRouteTag lsa);
  encode_external_tos (Z.to_nat (external_tos_count (x_LsaMd lsa))) 0 36 (ASExtTOSDetails lsa) eLsa.

Definition decode_external_tos (data : bytes) (start : Z) : res ASExtTOSDetail :=
  temp ← uint32_at data start; fwd ← uint32_at data (start + 4); tag ← uint32_at data (start + 8);
  Ok (mkASExtTOSDetail (has_bits temp 0x80000000) (u8 (Z.shiftr (Z.land temp 0x7f000000) 24)) (Z.lor 0x00ffffff temp) fwd tag).

Definition decodeASExternalLsa (data : bytes) : res (ASExternalLsa * LsaKey) :=
  '(md, key) ← decode_metadata data;
  netmask ← uint32_at data 20;
  bits ← index data 24;
  temp ← uint32_at data 24;
  fwd ← uint32_at data 28;
  tag ← uint32_at data 32;
  _ ← must (0 <=? external_tos_count md);
  tos ← read_all (fun i => decode_external_tos data (36 + 12 * i)) (Z.to_nat (external_tos_count md)) 0;
  Ok (mkASExternalLsa md netmask (negb (bits =? 0)) (Z.land 0x00ffffff temp) fwd tag tos, key).

(** ** All types *)

Inductive Lsa :=
| LRouter (lsa : RouterLsa)
| LNetwork (lsa : NetworkLsa)
| LSummary (lsa : SummaryLsa)
| LASExternal (lsa : ASExternalLsa).

Definition encodeLsa (l : Lsa) (key : LsaKey) : res bytes :=
  match l with
  | LRouter lsa => encodeRouterLsa lsa key
  | LNetwork lsa => encodeNetworkLsa lsa key
  | LSummary lsa => encodeSummaryLsa lsa key
  | LASExternal lsa => encodeASExternalLsa lsa key
  end.

(** By the type in the header; none for a type the daemon does not know. *)
Definition decodeLsa (data : bytes) : res (option (Lsa * LsaKey)) :=
  typ ← index data 3;
  if typ =? RouterLSA then '(lsa, key) ← decodeRouterLsa data; Ok (Some (LRouter lsa, key))
  else if typ =? NetworkLSA then '(lsa, key) ← decodeNetworkLsa data; Ok (Some (LNetwork lsa, key))
  else if (typ =? Summary3LSA) || (typ =? Summary4LSA) then '(lsa, key) ← decodeSummaryLsa data; Ok (Some (LSummary lsa, key))
  else if typ =? ASExternalLSA then '(lsa, key) ← decodeASExternalLsa data; Ok (Some (LASExternal lsa, key))
  else Ok None.

(** The checksum is taken of the octets behind the age and put into the header. *)
Definition checksummed (lsa_pkt : bytes) : res bytes :=
  sub ← slice_from lsa_pkt 2;
  '(checkSum, sub) ← computeFletcherChecksum sub 14;
  PutUint16 (take 2 lsa_pkt ++ sub) 16 checkSum.

Definition validateChecksum (data : bytes) : res bool :=
  sub ← slice_from data 2; '(csum, _) ← computeFletcherChecksum sub FLETCHER_CHECKSUM_VALIDATE; Ok (csum =? 0).
