(* ===== verification/OspfLsaSpec.v ===== *)
(** * OSPF: what goes over the wire

    The checksum of RFC 905 that LSAs carry, and which LSAs survive the way through an
    update packet. *)

From S2P Require Import Prelude.
From S2P Require Import OspfUtil.
From S2P Require Import OspfLsa.

(** ** The two sums *)

Fixpoint plain_sum (l : bytes) : Z := match l with [] => 0 | x :: l => x + plain_sum l end.
Fixpoint weighted_sum (l : bytes) : Z := match l with [] => 0 | x :: l => (1 + len l) * x + weighted_sum l end.

Lemma plain_sum_app l k : plain_sum (l ++ k) = plain_sum l + plain_sum k.
Proof. induction l as [|x l IH]; cbn; lia. Qed.

Lemma weighted_sum_app l k : weighted_sum (l ++ k) = weighted_sum l + len k * plain_sum l + weighted_sum k.
Proof. induction l as [|x l IH]; cbn; [lia|]. rewrite IH, len_app. lia. Qed.

Lemma plain_sum_zeros n : plain_sum (zeros n) = 0.
Proof. unfold zeros. induction (Z.to_nat n) as [|m IH]; cbn; lia. Qed.

Lemma weighted_sum_zeros n : weighted_sum (zeros n) = 0.
Proof. unfold zeros. induction (Z.to_nat n) as [|m IH]; cbn; lia. Qed.

Lemma sums_nonneg l : is_bytes l -> 0 <= plain_sum l /\ 0 <= weighted_sum l.
Proof.
  induction 1 as [|x l Hx _ [IH1 IH2]]; cbn; [lia|]. unfold is_u8 in Hx. pose proof (len_nonneg l).
  split; [lia|]. assert (0 <= (1 + len l) * x) by (apply Z.mul_nonneg_nonneg; lia). lia.
Qed.

Lemma fletcher_fold l c :
  foldl fletcher_octet c l = (c.1 + plain_sum l, c.2 + len l * c.1 + weighted_sum l).
Proof.
  revert c. induction l as [|x l IH]; intros [a b]; cbn [foldl plain_sum weighted_sum fst snd].
  - rewrite (len_nil (A:=Z)). f_equal; lia.
  - rewrite IH. unfold fletcher_octet. cbn [fst snd]. rewrite len_cons. f_equal; lia.
Qed.

(** The reduction behind every chunk does not change the sums modulo 255. *)
Lemma fletcher_sums_mod fuel data c :
  (length data <= fuel)%nat -> is_bytes data -> 0 <= c.1 < 255 -> 0 <= c.2 < 255 ->
  fletcher_sums fuel data c =
  Some ((c.1 + plain_sum data) mod 255, (c.2 + len data * c.1 + weighted_sum data) mod 255).
Proof.
  revert data c. induction fuel as [|fuel IH]; intros data [a b] Hf Hd Ha Hb; cbn [fst snd] in *.
  { destruct data; [|cbn in Hf; lia]. cbn. rewrite (len_nil (A:=Z)), !Z.mod_small by lia. do 2 f_equal; lia. }
  destruct data as [|x data]; [cbn; rewrite (len_nil (A:=Z)), !Z.mod_small by lia; do 2 f_equal; lia|].
  cbn [fletcher_sums]. set (d := x :: data) in *. set (n := Z.to_nat (Z.min (len d) MODX)).
  assert (0 < n)%nat as Hn by (unfold n, MODX, d; rewrite len_cons; pose proof (len_nonneg data); lia).
  assert (Hp0 : plain_sum d = plain_sum (take n d) + plain_sum (drop n d)) by (by rewrite <- plain_sum_app, take_drop).
  assert (Hw0 : weighted_sum d = weighted_sum (take n d) + len (drop n d) * plain_sum (take n d) + weighted_sum (drop n d))
    by (by rewrite <- weighted_sum_app, take_drop).
  assert (Hl0 : len d = len (take n d) + len (drop n d)) by (by rewrite <- len_app, take_drop).
  pose proof (sums_nonneg _ (is_bytes_take d n Hd)) as [Hp Hw]. pose proof (len_nonneg (take n d)).
  rewrite fletcher_fold. cbn [fst snd].
  assert (0 <= len (take n d) * a) by (apply Z.mul_nonneg_nonneg; lia).
  rewrite IH; cbn [fst snd].
  - rewrite Hp0, Hw0, Hl0, !Z.rem_mod_nonneg by lia. set (k := drop n d). set (e := take n d). f_equal. f_equal.
    + rewrite Zplus_mod_idemp_l. f_equal. lia.
    + rewrite <- Z.add_assoc, Zplus_mod_idemp_l, Z.add_comm, <- Z.add_assoc, <- Zplus_mod_idemp_l, Zmult_mod_idemp_r, Zplus_mod_idemp_l.
      f_equal. lia.
  - rewrite length_drop. lia.
  - by apply is_bytes_drop.
  - rewrite Z.rem_mod_nonneg by lia. apply Z.mod_pos_bound. lia.
  - rewrite Z.rem_mod_nonneg by lia. apply Z.mod_pos_bound. lia.
Qed.

Lemma validate_sums data :
  is_bytes data ->
  computeFletcherChecksum data FLETCHER_CHECKSUM_VALIDATE =
  Ok (u16 (Z.shiftl (weighted_sum data mod 255) 8 + plain_sum data mod 255), data).
Proof.
  intros H. unfold computeFletcherChecksum. rewrite Z.eqb_refl. res_simpl.
  rewrite fletcher_sums_mod by (try done; cbn; lia). cbn [fst snd]. rewrite !Z.add_0_l, Z.mul_0_r. done.
Qed.

(** The check succeeds exactly when both sums vanish. *)
Lemma validate_iff data :
  is_bytes data ->
  exists csum, computeFletcherChecksum data FLETCHER_CHECKSUM_VALIDATE = Ok (csum, data) /\
  (csum = 0 <-> plain_sum data mod 255 = 0 /\ weighted_sum data mod 255 = 0).
Proof.
  intros H. eexists. split; [by apply validate_sums|]. rewrite Z.shiftl_mul_pow2 by lia. change (2 ^ 8) with 256.
  pose proof (Z.mod_pos_bound (plain_sum data) 255 ltac:(lia)). pose proof (Z.mod_pos_bound (weighted_sum data) 255 ltac:(lia)).
  unfold u16. rewrite Z.mod_small by lia. lia.
Qed.

(** The two octets the checksum consists of. *)
Definition check_octets (n k c0 c1 : Z) : Z * Z :=
  let x := Z.rem ((n - k - 1) * c0 - c1) 255 in
  let x := if x <=? 0 then x + 255 else x in
  let y := 510 - c0 - x in
  (x, if 255 <? y then y - 255 else y).

Lemma check_octets_spec n k c0 c1 :
  0 <= c0 < 255 ->
  let '(x, y) := check_octets n k c0 c1 in
  1 <= x <= 255 /\ 1 <= y <= 255 /\ (c0 + x + y) mod 255 = 0 /\ (c1 + (n - k) * x + (n - k - 1) * y) mod 255 = 0.
Proof.
  intros Hc0. unfold check_octets. set (m := (n - k - 1) * c0 - c1).
  pose proof (Z.quot_rem m 255 ltac:(lia)) as Hm. pose proof (Z.rem_bound_abs m 255 ltac:(lia)) as Hr.
  set (r := Z.rem m 255) in *. set (q := m ÷ 255) in *. clearbody r q.
  set (x := if r <=? 0 then r + 255 else r).
  assert (Hx : 1 <= x <= 255 /\ exists q', m = 255 * q' + x).
  { subst x. destruct (r <=? 0) eqn:E; (split; [lia|]); [exists (q - 1)|exists q]; lia. }
  clearbody x. destruct Hx as [Hx [q' Hq]]. split; [done|]. set (y := 510 - c0 - x).
  assert (Hy : exists e, (if 255 <? y then y - 255 else y) = 255 * e - c0 - x).
  { destruct (255 <? y) eqn:E; [exists 1|exists 2]; lia. }
  split; [subst y; destruct (255 <? _) eqn:E; lia|]. destruct Hy as [e ->].
  split.
  - replace (c0 + x + (255 * e - c0 - x)) with (e * 255) by lia. apply Z.mod_mul. lia.
  - replace (c1 + (n - k) * x + (n - k - 1) * (255 * e - c0 - x)) with ((e * (n - k - 1) - q') * 255); [apply Z.mod_mul; lia|].
    subst m. nia.
Qed.

Lemma PutUint16_in pre b post i v :
  i = len pre -> len b = 2 -> PutUint16 (pre ++ b ++ post) i v = Ok (pre ++ be16 v ++ post).
Proof.
  intros Hi Hb. unfold PutUint16. rewrite on_suffix_app by done. unfold put. rewrite len_be16, len_app, Hb.
  pose proof (len_nonneg post). rewrite (proj2 (Z.leb_le _ _)) by lia. res_simpl. rewrite copy_fits by (rewrite len_be16, len_app; lia).
  do 2 f_equal. rewrite drop_app_le by (unfold len in Hb; cbn; lia). f_equal. rewrite drop_ge by (unfold len in Hb; cbn; lia). done.
Qed.

Lemma generate_sums pre b post :
  len b = 2 -> is_bytes pre -> is_bytes post -> len pre <> FLETCHER_CHECKSUM_VALIDATE ->
  exists x y, computeFletcherChecksum (pre ++ b ++ post) (len pre) = Ok (x * 256 + y, pre ++ [0; 0] ++ post) /\
  1 <= x <= 255 /\ 1 <= y <= 255 /\ plain_sum (pre ++ [x; y] ++ post) mod 255 = 0 /\
  weighted_sum (pre ++ [x; y] ++ post) mod 255 = 0.
Proof.
  intros Hb Hpre Hpost Hk. unfold computeFletcherChecksum. rewrite (proj2 (Z.eqb_neq _ _)) by done.
  rewrite PutUint16_in by done. res_simpl. change (be16 0) with [0; 0]. set (data := pre ++ [0; 0] ++ post).
  assert (Hd : is_bytes data) by (unfold data; rewrite !is_bytes_app; repeat split; [done| |done]; repeat constructor; unfold is_u8; lia).
  rewrite fletcher_sums_mod by (try done; cbn; lia). cbn [fst snd]. rewrite !Z.add_0_l, Z.mul_0_r, Z.add_0_l.
  pose proof (Z.mod_pos_bound (plain_sum data) 255 ltac:(lia)) as H0.
  pose proof (check_octets_spec (len data) (len pre) _ (weighted_sum data mod 255) H0) as Hc.
  unfold check_octets in Hc. cbv zeta in Hc. cbv zeta.
  set (x := if _ <=? 0 then _ else _) in *. set (y := if 255 <? _ then _ else _) in *. clearbody x y.
  destruct Hc as (Hx & Hy & Hs & Hw). exists x, y. split; [|split; [done|split; [done|]]].
  - do 2 f_equal. rewrite Z.shiftl_mul_pow2 by lia. change (2 ^ 8) with 256.
    change 255 with (Z.ones 8). rewrite Z.land_ones, Z.mod_small by lia.
    assert (Z.lor (x * 256) y = x * 256 + y) as ->; [|unfold u16; rewrite Z.mod_small; lia].
    rewrite <- Z.add_lor_land. replace (Z.land (x * 256) y) with 0; [lia|]. symmetry. apply Z.bits_inj'. intros j Hj.
    rewrite Z.land_spec, Z.bits_0. change 256 with (2 ^ 8). destruct (decide (j < 8)) as [Hlt|Hge].
    + rewrite Z.mul_pow2_bits_low by lia. done.
    + rewrite (Z.bits_above_log2 y j); [apply andb_false_r|lia|]. apply Z.log2_lt_pow2; [lia|].
      apply Z.lt_le_trans with (2 ^ 8); [lia|]. apply Z.pow_le_mono_r; lia.
  - unfold data in Hs, Hw. rewrite !plain_sum_app, !weighted_sum_app, ?len_app in *. cbn [plain_sum weighted_sum] in *.
    rewrite !len_cons, (len_nil (A:=Z)) in *. split.
    + etransitivity; [|exact Hs]. match goal with |- _ = (?a mod 255 + ?b + ?c) mod 255 => replace (a mod 255 + b + c) with (a mod 255 + (b + c)) by lia end.
      rewrite Zplus_mod_idemp_l. f_equal. lia.
    + etransitivity; [|exact Hw]. match goal with |- _ = (?a mod 255 + ?b + ?c) mod 255 => replace (a mod 255 + b + c) with (a mod 255 + (b + c)) by lia end.
      rewrite Zplus_mod_idemp_l. f_equal. nia.
Qed.

(** ** Reading a field *)

(** [enc] stands at place [i] of [data]. *)
Definition field (data : bytes) (i : Z) (enc : bytes) : Prop := exists pre post, data = pre ++ enc ++ post /\ i = len pre.

Lemma field_here enc post i : i = 0 -> field (enc ++ post) i enc.
Proof. intros ->. by exists [], post. Qed.

Lemma field_last enc i : i = 0 -> field enc i enc.
Proof. intros ->. exists [], []. by rewrite app_nil_r. Qed.

Lemma field_skip a post i n enc : len a = n -> field post (i - n) enc -> field (a ++ post) i enc.
Proof.
  intros <- (pre & post' & -> & Hi). exists (a ++ pre), post'. rewrite <- app_assoc. split; [done|]. rewrite len_app. lia.
Qed.

Lemma field_app data k i enc : field data i enc -> field (data ++ k) i enc.
Proof. intros (pre & post & -> & ->). exists pre, (post ++ k). by rewrite <- !app_assoc. Qed.

Lemma field_index data i x : field data i [x] -> index data i = Ok x.
Proof. intros (pre & post & -> & ->). by apply index_app. Qed.

Lemma field_uint16 data i v : field data i (be16 v) -> is_u16 v -> uint16_at data i = Ok v.
Proof.
  intros (pre & post & -> & ->) Hv. unfold uint16_at. rewrite slice_app by (rewrite ?len_be16; done). res_simpl.
  rewrite <- (app_nil_r (be16 v)). by apply Uint16_be16.
Qed.

Lemma field_uint32 data i v : field data i (be32 v) -> is_u32 v -> uint32_at data i = Ok v.
Proof.
  intros (pre & post & -> & ->) Hv. unfold uint32_at. rewrite slice_app by (rewrite ?len_be32; done). res_simpl.
  rewrite <- (app_nil_r (be32 v)). by apply Uint32_be32.
Qed.

(** ** The header *)

Definition md_ok (md : LsaMetadata) : Prop :=
  is_u16 (LSAge md) /\ is_u8 (Options md) /\ is_u32 (LSSequenceNum md) /\ is_u16 (LSLen md).
Definition key_ok (key : LsaKey) : Prop := is_u8 (LSType key) /\ is_u32 (LSId key) /\ is_u32 (AdvRouter key).

Definition with_csum (csum : Z) (md : LsaMetadata) : LsaMetadata :=
  mkLsaMetadata (LSAge md) (Options md) (LSSequenceNum md) csum (LSLen md).

(** The header after its first two octets and before the checksum, and the whole. *)
Definition header_middle (md : LsaMetadata) (key : LsaKey) : bytes :=
  [Options md] ++ [LSType key] ++ be32 (LSId key) ++ be32 (AdvRouter key) ++ be32 (LSSequenceNum md).
Definition header_wire (md : LsaMetadata) (key : LsaKey) (csum : Z) : bytes :=
  be16 (LSAge md) ++ header_middle md key ++ be16 csum ++ be16 (LSLen md).

Lemma len_header md key csum : len (header_wire md key csum) = 20.
Proof. done. Qed.

(** Finds the place of a field in a concatenation. *)
Ltac find_field :=
  rewrite <- ?app_assoc;
  repeat first
    [ apply field_here; lia
    | apply field_last; lia
    | eapply field_skip; [first [apply len_be16|apply len_be32|apply len_single|apply len_header]|] ].

(** Reads the next field of a decoder. *)
Ltac read :=
  let H := fresh in
  lazymatch goal with
  | |- mbind _ (uint16_at ?d ?i) = _ => eassert (field d i (be16 _)) as H by find_field; rewrite (field_uint16 _ _ _ H) by done
  | |- mbind _ (uint32_at ?d ?i) = _ => eassert (field d i (be32 _)) as H by find_field; rewrite (field_uint32 _ _ _ H) by done
  | |- mbind _ (index ?d ?i) = _ => eassert (field d i [_]) as H by find_field; rewrite (field_index _ _ _ H)
  end; clear H; res_simpl.

Lemma encode_header md key : md_ok md -> encodeLsaHeader md key = header_wire md key 0.
Proof. intros (_ & _ & Hs & _). unfold encodeLsaHeader, u32. rewrite Z.mod_small by apply Hs. done. Qed.

Lemma decode_header md key csum rest :
  md_ok md -> key_ok key -> is_u16 csum -> decode_metadata (header_wire md key csum ++ rest) = Ok (with_csum csum md, key).
Proof.
  intros (? & ? & ? & ?) (? & ? & ?) ?. unfold decode_metadata, header_wire, header_middle. rewrite <- !app_assoc.
  repeat read. by destruct key.
Qed.

Lemma copy_range_zeros pre src n i j :
  i = len pre -> j = i + len src -> len src <= n ->
  copy_range (pre ++ zeros n) i j src = Ok ((pre ++ src) ++ zeros (n - len src)).
Proof.
  intros -> -> Hn. unfold copy_range. pose proof (len_nonneg pre). pose proof (len_nonneg src).
  rewrite slice_range by (rewrite ?len_app, ?len_zeros by lia; lia). res_simpl.
  rewrite take_ge by (unfold len; lia). by rewrite copy_at_zeros.
Qed.

(** Every encoder begins with the header. *)
Lemma copy_header md key : md_ok md -> 20 <= LSLen md ->
  (s ← make_bytes (LSLen md); copy_range s 0 20 (encodeLsaHeader md key)) =
  Ok (header_wire md key 0 ++ zeros (LSLen md - 20)).
Proof.
  intros Hmd Hl. unfold make_bytes. rewrite (proj2 (Z.ltb_ge _ _)) by lia. res_simpl. rewrite encode_header by done.
  by apply (copy_range_zeros [] (header_wire md key 0) (LSLen md) 0 20).
Qed.

(** ** Links *)

(** The daemon makes links without metrics for types of service. *)
Definition link_ok (l : LinkDetail) : Prop :=
  is_u32 (LinkId l) /\ is_u32 (LinkData l) /\ is_u8 (LinkType l) /\ NumOfTOS l = 0 /\ is_u16 (LinkMetric l) /\ TOSDetails l = [].

Definition link_wire (l : LinkDetail) : bytes :=
  be32 (LinkId l) ++ be32 (LinkData l) ++ [LinkType l] ++ [NumOfTOS l] ++ be16 (LinkMetric l).

Lemma encode_link l : link_ok l -> encodeLinkData l 12 = Ok (link_wire l).
Proof.
  intros (_ & _ & _ & Ht & _ & _). unfold encodeLinkData, make_bytes. cbn [Z.ltb Z.compare]. res_simpl.
  change (zeros 12) with ([] ++ zeros 12). rewrite PutUint32_zeros by done. res_simpl. rewrite PutUint32_zeros by done. res_simpl.
  rewrite set_index_zeros by done. res_simpl. rewrite set_index_zeros by done. res_simpl.
  rewrite PutUint16_zeros by done. res_simpl. rewrite Ht. cbn [Z.to_nat encode_tos]. unfold link_wire. rewrite Ht.
  change (zeros (12 - 4 - 4 - 1 - 1 - 2)) with (@nil Z). by rewrite app_nil_r, <- !app_assoc.
Qed.

Lemma len_link l : len (link_wire l) = 12.
Proof. done. Qed.

Definition links_wire (ls : list LinkDetail) : bytes := concat (map link_wire ls).

Lemma len_links ls : len (links_wire ls) = 12 * len ls.
Proof. induction ls as [|l ls IH]; [done|]. unfold links_wire in *. cbn [map concat]. rewrite len_app, IH, len_cons, len_link. lia. Qed.

Lemma encode_links_wire ls before pre n :
  Forall link_ok ls -> 12 * len ls <= n ->
  encode_links (length ls) (len before) (len pre) (before ++ ls) (pre ++ zeros n) =
  Ok ((pre ++ links_wire ls) ++ zeros (n - 12 * len ls)).
Proof.
  intros H. revert before pre n. induction H as [|l ls Hl _ IH]; intros before pre n Hn.
  - cbn [length encode_links]. unfold links_wire. cbn [map concat]. rewrite (len_nil (A:=LinkDetail)), app_nil_r.
    by replace (n - 12 * 0) with n by lia.
  - rewrite len_cons in Hn. pose proof (len_nonneg ls). cbn [length encode_links]. rewrite index_app by done. res_simpl.
    assert (link_size l = 12) as -> by (unfold link_size; by destruct Hl as (_ & _ & _ & -> & _)). rewrite encode_link by done. res_simpl.
    rewrite copy_range_zeros by (rewrite ?len_link; lia). res_simpl.
    specialize (IH (before ++ [l]) (pre ++ link_wire l) (n - len (link_wire l))). rewrite <- app_assoc in IH.
    cbn [app] in IH.
    rewrite !len_app, len_single, len_link in IH. rewrite len_link. rewrite IH by lia.
    unfold links_wire. cbn [map concat]. rewrite <- !app_assoc, len_cons.
    by replace (n - 12 - 12 * len ls) with (n - 12 * (1 + len ls)) by lia.
Qed.

Lemma decode_links_wire ls pre post :
  Forall link_ok ls -> decode_links (length ls) (pre ++ links_wire ls ++ post) (len pre) = Ok ls.
Proof.
  intros H. revert pre. induction H as [|l ls Hl _ IH]; intros pre; [done|].
  cbn [length decode_links]. unfold links_wire. cbn [map concat].
  specialize (IH (pre ++ link_wire l)). rewrite len_app, len_link, <- app_assoc in IH.
  replace ((link_wire l ++ concat (map link_wire ls)) ++ post) with (link_wire l ++ links_wire ls ++ post) by (by rewrite <- app_assoc).
  destruct Hl as (? & ? & ? & Ht & ? & Htos).
  assert (Hf : forall i enc, field (link_wire l) i enc -> field (pre ++ link_wire l ++ links_wire ls ++ post) (len pre + i) enc).
  { intros i enc Hi. eapply field_skip; [done|]. replace (len pre + i - len pre) with i by lia. by apply field_app. }
  set (D := pre ++ link_wire l ++ links_wire ls ++ post) in *.
  assert (E0 : uint32_at D (len pre) = Ok (LinkId l)).
  { replace (len pre) with (len pre + 0) by lia. apply field_uint32; [apply Hf; unfold link_wire; find_field|done]. }
  rewrite E0. res_simpl.
  rewrite (field_uint32 D (len pre + 4) (LinkData l)); [|apply Hf; unfold link_wire; find_field|done]. res_simpl.
  rewrite (field_index D (len pre + 8) (LinkType l)); [|apply Hf; unfold link_wire; find_field]. res_simpl.
  rewrite (field_index D (len pre + 9) (NumOfTOS l)); [|apply Hf; unfold link_wire; find_field]. res_simpl.
  rewrite (field_uint16 D (len pre + 10) (LinkMetric l)); [|apply Hf; unfold link_wire; find_field|done]. res_simpl.
  rewrite Ht. change (Z.to_nat 0) with O. cbn [decode_tos]. res_simpl. rewrite IH. res_simpl. destruct l; cbn in *; by subst.
Qed.

(** ** Advertisements the daemon originates *)

Definition lsa_md (l : Lsa) : LsaMetadata :=
  match l with LRouter a => r_LsaMd a | LNetwork a => n_LsaMd a | LSummary a => s_LsaMd a | LASExternal a => x_LsaMd a end.

Definition set_lsa_md (md : LsaMetadata) (l : Lsa) : Lsa :=
  match l with
  | LRouter a => LRouter (mkRouterLsa md (BitV a) (BitE a) (BitB a) (NumOfLinks a) (LinkDetails a))
  | LNetwork a => LNetwork (mkNetworkLsa md (n_Netmask a) (AttachedRtr a))
  | LSummary a => LSummary (mkSummaryLsa md (s_Netmask a) (s_Metric a) (SummaryTOSDetails a))
  | LASExternal a => LASExternal (mkASExternalLsa md (x_Netmask a) (x_BitE a) (x_Metric a) (FwdAddr a) (ExtRouteTag a) (ASExtTOSDetails a))
  end.

(** The fields fit, the type in the key is that of the LSA, and the length is that of its
    fields, of which none is for a type of service. *)
Definition lsa_ok (l : Lsa) (key : LsaKey) : Prop :=
  md_ok (lsa_md l) /\ key_ok key /\
  match l with
  | LRouter a =>
    LSType key = RouterLSA /\ Forall link_ok (LinkDetails a) /\ NumOfLinks a = len (LinkDetails a) /\
    LSLen (r_LsaMd a) = 24 + 12 * len (LinkDetails a)
  | LNetwork a =>
    LSType key = NetworkLSA /\ is_u32 (n_Netmask a) /\ Forall is_u32 (AttachedRtr a) /\
    LSLen (n_LsaMd a) = 24 + 4 * len (AttachedRtr a)
  | LSummary a =>
    (LSType key = Summary3LSA \/ LSType key = Summary4LSA) /\ is_u32 (s_Netmask a) /\ 0 <= s_Metric a < 2 ^ 24 /\
    SummaryTOSDetails a = [] /\ LSLen (s_LsaMd a) = 28
  | LASExternal a =>
    LSType key = ASExternalLSA /\ is_u32 (x_Netmask a) /\ 0 <= x_Metric a < 2 ^ 24 /\ is_u32 (FwdAddr a) /\
    is_u32 (ExtRouteTag a) /\ ASExtTOSDetails a = [] /\ LSLen (x_LsaMd a) = 36
  end.

Definition router_bits (a : RouterLsa) : Z := Z.lor (Z.lor (if BitV a then 4 else 0) (if BitE a then 2 else 0)) (if BitB a then 1 else 0).
Definition external_metric (a : ASExternalLsa) : Z := Z.lor (external_bit (x_BitE a)) (x_Metric a).

(** What stands behind the header. *)
Definition lsa_body (l : Lsa) : bytes :=
  match l with
  | LRouter a => [router_bits a] ++ [0] ++ be16 (NumOfLinks a) ++ links_wire (LinkDetails a)
  | LNetwork a => be32 (n_Netmask a) ++ words be32 (AttachedRtr a)
  | LSummary a => be32 (s_Netmask a) ++ be32 (s_Metric a)
  | LASExternal a => be32 (x_Netmask a) ++ be32 (external_metric a) ++ be32 (FwdAddr a) ++ be32 (ExtRouteTag a)
  end.

Lemma encode_attached_wire rs before pre n :
  4 * len rs <= n ->
  encode_attached (length rs) (len before) (len pre) (before ++ rs) (pre ++ zeros n) =
  Ok ((pre ++ words be32 rs) ++ zeros (n - 4 * len rs)).
Proof.
  revert before pre n. induction rs as [|r rs IH]; intros before pre n Hn.
  - cbn [length encode_attached]. unfold words. cbn [map concat]. rewrite (len_nil (A:=Z)), app_nil_r.
    by replace (n - 4 * 0) with n by lia.
  - rewrite len_cons in Hn. pose proof (len_nonneg rs). cbn [length encode_attached]. rewrite index_app by done. res_simpl.
    rewrite PutUint32_zeros by (done || lia). res_simpl.
    specialize (IH (before ++ [r]) (pre ++ be32 r) (n - 4)). rewrite <- app_assoc in IH. cbn [app] in IH.
    rewrite !len_app, len_single, len_be32 in IH. rewrite IH by lia.
    unfold words. cbn [map concat]. rewrite <- !app_assoc, len_cons.
    by replace (n - 4 - 4 * len rs) with (n - 4 * (1 + len rs)) by lia.
Qed.

(** Runs an encoder up to behind the header. *)
Ltac encode_start key Hmd :=
  let Hh := fresh in
  pose proof (copy_header _ key Hmd ltac:(lia)) as Hh; res_simpl; destruct (make_bytes _); try done; res_simpl; rewrite Hh; clear Hh;
  res_simpl.

Lemma encode_router a key :
  md_ok (r_LsaMd a) -> Forall link_ok (LinkDetails a) -> NumOfLinks a = len (LinkDetails a) ->
  LSLen (r_LsaMd a) = 24 + 12 * len (LinkDetails a) ->
  encodeRouterLsa a key = Ok (header_wire (r_LsaMd a) key 0 ++ lsa_body (LRouter a)).
Proof.
  intros Hmd Hl Hn Hlen. pose proof (len_nonneg (LinkDetails a)). unfold encodeRouterLsa. encode_start key Hmd.
  rewrite set_index_zeros by (done || lia). res_simpl. rewrite (zeros_S (_ - 1)), (cons_middle 0), app_assoc by lia.
  rewrite PutUint16_zeros by (done || lia). res_simpl. rewrite Hn. unfold len at 1. rewrite Nat2Z.id.
  match goal with |- encode_links _ _ _ _ (?p ++ zeros ?n) = _ => pose proof (encode_links_wire (LinkDetails a) [] p n Hl) as E end.
  change (len (@nil LinkDetail)) with 0 in E. cbn [app] in E.
  rewrite !len_app, !len_single, len_be16, len_header in E. change (20 + 1 + 1 + 2) with 24 in E. rewrite E by lia.
  rewrite Hlen. match goal with |- context [zeros ?z] => replace z with 0 by lia end. cbn [lsa_body].
  by rewrite zeros_0, app_nil_r, <- Hn, <- !app_assoc.
Qed.

Lemma encode_network a key :
  md_ok (n_LsaMd a) -> LSLen (n_LsaMd a) = 24 + 4 * len (AttachedRtr a) ->
  encodeNetworkLsa a key = Ok (header_wire (n_LsaMd a) key 0 ++ lsa_body (LNetwork a)).
Proof.
  intros Hmd Hlen. pose proof (len_nonneg (AttachedRtr a)). unfold encodeNetworkLsa.
  rewrite (proj2 (Z.eqb_neq _ _)) by lia. encode_start key Hmd. rewrite PutUint32_zeros by (done || lia). res_simpl.
  assert (Z.to_nat (numOfAttachedRtr (n_LsaMd a)) = length (AttachedRtr a)) as ->.
  { unfold numOfAttachedRtr, OSPF_LSA_HEADER_SIZE. rewrite Hlen. replace (_ - 20 - 4) with (len (AttachedRtr a) * 4) by lia.
    rewrite Z.quot_mul by lia. unfold len. lia. }
  match goal with |- encode_attached _ _ _ _ (?p ++ zeros ?n) = _ => pose proof (encode_attached_wire (AttachedRtr a) [] p n) as E end.
  change (len (@nil Z)) with 0 in E. cbn [app] in E. rewrite !len_app, len_be32, len_header in E. change (20 + 4) with 24 in E. rewrite E by lia.
  rewrite Hlen. match goal with |- context [zeros ?z] => replace z with 0 by lia end. cbn [lsa_body].
  by rewrite zeros_0, app_nil_r, <- !app_assoc.
Qed.

Lemma encode_summary a key :
  md_ok (s_LsaMd a) -> LSLen (s_LsaMd a) = 28 ->
  encodeSummaryLsa a key = Ok (header_wire (s_LsaMd a) key 0 ++ lsa_body (LSummary a)).
Proof.
  intros Hmd Hlen. unfold encodeSummaryLsa. encode_start key Hmd. rewrite !Hlen.
  repeat (rewrite PutUint32_zeros by done; res_simpl).
  unfold summary_tos_count. rewrite Hlen. change (Z.to_nat _) with O. cbn [encode_summary_tos].
  change (zeros _) with (@nil Z). cbn [lsa_body]. by rewrite app_nil_r, <- !app_assoc.
Qed.

Lemma encode_external a key :
  md_ok (x_LsaMd a) -> LSLen (x_LsaMd a) = 36 ->
  encodeASExternalLsa a key = Ok (header_wire (x_LsaMd a) key 0 ++ lsa_body (LASExternal a)).
Proof.
  intros Hmd Hlen. unfold encodeASExternalLsa. encode_start key Hmd. rewrite !Hlen.
  repeat (rewrite PutUint32_zeros by done; res_simpl).
  unfold external_tos_count. rewrite Hlen. change (Z.to_nat _) with O. cbn [encode_external_tos].
  change (zeros _) with (@nil Z). cbn [lsa_body]. by rewrite app_nil_r, <- !app_assoc.
Qed.

Lemma encode_lsa l key : lsa_ok l key -> encodeLsa l key = Ok (header_wire (lsa_md l) key 0 ++ lsa_body l).
Proof.
  intros (Hmd & _ & H). destruct l as [a|a|a|a]; cbn [encodeLsa lsa_md] in *; decompose [and] H;
    [by apply encode_router|by apply encode_network|by apply encode_summary|by apply encode_external].
Qed.

(** The bits of the options octet, and the E bit of an external metric. *)
Lemma router_bits_spec a :
  is_u8 (router_bits a) /\ has_bits (router_bits a) 4 = BitV a /\ has_bits (router_bits a) 2 = BitE a /\
  has_bits (router_bits a) 1 = BitB a.
Proof. unfold router_bits, is_u8. destruct (BitV a), (BitE a), (BitB a); cbn; repeat split; lia || done. Qed.

Lemma external_metric_spec b m :
  0 <= m < 2 ^ 24 ->
  is_u32 (Z.lor (external_bit b) m) /\ Z.land 0x00ffffff (Z.lor (external_bit b) m) = m /\
  u8 (Z.lor (external_bit b) m / 16777216) = (if b then 128 else 0).
Proof.
  intros Hm. assert (Hl : Z.lor (external_bit b) m = external_bit b + m).
  { rewrite <- Z.add_lor_land. replace (Z.land (external_bit b) m) with 0; [lia|]. symmetry. destruct b; [|done]. cbn [external_bit].
    apply Z.bits_inj'. intros j Hj. rewrite Z.land_spec, Z.bits_0. change 0x80000000 with (2 ^ 31).
    destruct (decide (j < 24)) as [Hlt|Hge].
    - rewrite Z.pow2_bits_false by lia. done.
    - destruct (decide (m = 0)) as [->|Hm0]; [by rewrite Z.bits_0, andb_false_r|].
      rewrite (Z.bits_above_log2 m j); [apply andb_false_r|lia|]. apply Z.log2_lt_pow2; [lia|].
      apply Z.lt_le_trans with (2 ^ 24); [lia|]. apply Z.pow_le_mono_r; lia. }
  rewrite Hl. change 0x00ffffff with (Z.ones 24). rewrite Z.land_comm, Z.land_ones by lia.
  change (2 ^ 24) with 16777216 in *. unfold is_u32, u8. destruct b; cbn [external_bit].
  - replace (2147483648 + m) with (m + 128 * 16777216) by lia. rewrite Z.mod_add, Z.mod_small, Z.div_add, (Z.div_small m) by lia.
    repeat split; lia || done.
  - rewrite Z.add_0_l, Z.mod_small, Z.div_small by lia. repeat split; lia || done.
Qed.

(** ** Reading an advertisement *)

Lemma header_type md key csum rest : index (header_wire md key csum ++ rest) 3 = Ok (LSType key).
Proof. unfold header_wire, header_middle. apply field_index. find_field. Qed.

Lemma decode_router a key csum rest :
  lsa_ok (LRouter a) key -> is_u16 csum ->
  decodeRouterLsa (header_wire (r_LsaMd a) key csum ++ lsa_body (LRouter a) ++ rest) =
  Ok (mkRouterLsa (with_csum csum (r_LsaMd a)) (BitV a) (BitE a) (BitB a) (NumOfLinks a) (LinkDetails a), key).
Proof.
  intros (Hmd & Hkey & _ & Hl & Hn & Hlen) Hc. unfold decodeRouterLsa. rewrite decode_header by done. res_simpl.
  cbn [lsa_body]. rewrite <- !app_assoc. pose proof (router_bits_spec a) as (_ & Hv & He & Hb). read.
  assert (is_u16 (NumOfLinks a)).
  { pose proof (len_nonneg (LinkDetails a)). destruct Hmd as (_ & _ & _ & Hm). cbn [lsa_md] in Hm. unfold is_u16 in *. lia. }
  read. rewrite Hn, to_nat_len.
  pose proof (decode_links_wire (LinkDetails a) (header_wire (r_LsaMd a) key csum ++ [router_bits a] ++ [0] ++ be16 (len (LinkDetails a))) rest Hl) as E.
  rewrite <- !app_assoc in E. change (len (header_wire _ _ _ ++ _)) with 24 in E. rewrite E. res_simpl. rewrite Hv, He, Hb. done.
Qed.

Lemma decode_network a key csum rest :
  lsa_ok (LNetwork a) key -> is_u16 csum ->
  decodeNetworkLsa (header_wire (n_LsaMd a) key csum ++ lsa_body (LNetwork a) ++ rest) =
  Ok (mkNetworkLsa (with_csum csum (n_LsaMd a)) (n_Netmask a) (AttachedRtr a), key).
Proof.
  intros (Hmd & Hkey & _ & Hm & Hr & Hlen) Hc. unfold decodeNetworkLsa. rewrite decode_header by done. res_simpl.
  cbn [lsa_body]. rewrite <- !app_assoc. read. pose proof (len_nonneg (AttachedRtr a)).
  assert (E : numOfAttachedRtr (with_csum csum (n_LsaMd a)) = len (AttachedRtr a)).
  { unfold numOfAttachedRtr, OSPF_LSA_HEADER_SIZE. cbn [LSLen with_csum]. rewrite Hlen.
    replace (_ - 20 - 4) with (len (AttachedRtr a) * 4) by lia. by rewrite Z.quot_mul by lia. }
  rewrite E, (proj2 (Z.leb_le _ _)) by done. res_simpl. rewrite to_nat_len.
  set (D := header_wire _ _ _ ++ _). assert (read_all (fun i => uint32_at D (24 + 4 * i)) (length (AttachedRtr a)) 0 = Ok (AttachedRtr a)) as Hread.
  { apply (read_all_words _ be32 4 (fun i => 24 + 4 * i) is_u32 (24 + 4 * len (AttachedRtr a)) D
             (header_wire (n_LsaMd a) key csum ++ be32 (n_Netmask a)) (AttachedRtr a) rest 0); try done.
    - intros j v pre post Hv Hd Hj _. rewrite Hj. apply field_uint32; [|done]. by exists pre, post. }
  by rewrite Hread.
Qed.

Lemma decode_summary a key csum rest :
  lsa_ok (LSummary a) key -> is_u16 csum ->
  decodeSummaryLsa (header_wire (s_LsaMd a) key csum ++ lsa_body (LSummary a) ++ rest) =
  Ok (mkSummaryLsa (with_csum csum (s_LsaMd a)) (s_Netmask a) (s_Metric a) (SummaryTOSDetails a), key).
Proof.
  intros (Hmd & Hkey & _ & Hm & Hr & Htos & Hlen) Hc. unfold decodeSummaryLsa. rewrite decode_header by done. res_simpl.
  cbn [lsa_body]. rewrite <- !app_assoc. read. assert (is_u32 (s_Metric a)) by (unfold is_u32; lia). read.
  unfold summary_tos_count. cbn [LSLen with_csum]. rewrite Hlen. change (Z.to_nat _) with O. cbn [read_all]. res_simpl.
  rewrite Htos. change 0x00ffffff with (Z.ones 24). by rewrite Z.land_comm, Z.land_ones, Z.mod_small by lia.
Qed.

Lemma decode_external a key csum rest :
  lsa_ok (LASExternal a) key -> is_u16 csum ->
  decodeASExternalLsa (header_wire (x_LsaMd a) key csum ++ lsa_body (LASExternal a) ++ rest) =
  Ok (mkASExternalLsa (with_csum csum (x_LsaMd a)) (x_Netmask a) (x_BitE a) (x_Metric a) (FwdAddr a) (ExtRouteTag a) (ASExtTOSDetails a), key).
Proof.
  intros (Hmd & Hkey & _ & Hm & Hr & ? & ? & Htos & Hlen) Hc. unfold decodeASExternalLsa. rewrite decode_header by done. res_simpl.
  cbn [lsa_body]. rewrite <- !app_assoc. pose proof (external_metric_spec (x_BitE a) _ Hr) as (Hu & Hmet & Htop).
  fold (external_metric a) in *. read.
  set (D := header_wire _ _ _ ++ _).
  assert (index D 24 = Ok (if x_BitE a then 128 else 0)) as ->.
  { rewrite <- Htop. apply field_index. eapply field_skip; [apply len_header|]. eapply field_skip; [apply len_be32|].
    by exists [], (drop 1 (be32 (external_metric a)) ++ be32 (FwdAddr a) ++ be32 (ExtRouteTag a) ++ rest). }
  res_simpl. subst D. read. read. read.
  unfold external_tos_count. cbn [LSLen with_csum]. rewrite Hlen. change (Z.to_nat _) with O. cbn [read_all]. cbn [Z.leb].
  rewrite Hmet, Htos. by destruct (x_BitE a).
Qed.

Lemma decode_lsa l key csum rest :
  lsa_ok l key -> is_u16 csum ->
  decodeLsa (header_wire (lsa_md l) key csum ++ lsa_body l ++ rest) = Ok (Some (set_lsa_md (with_csum csum (lsa_md l)) l, key)).
Proof.
  intros H Hc. unfold decodeLsa. rewrite header_type. res_simpl. pose proof H as (_ & _ & Ht).
  destruct l as [a|a|a|a]; cbn [lsa_md set_lsa_md] in *; unfold RouterLSA, NetworkLSA, Summary3LSA, Summary4LSA, ASExternalLSA in *.
  - destruct Ht as [-> _]. cbn [Z.eqb Pos.eqb]. rewrite decode_router by done. done.
  - destruct Ht as [-> _]. cbn [Z.eqb Pos.eqb]. rewrite decode_network by done. done.
  - destruct Ht as [[-> | ->] _]; cbn [Z.eqb Pos.eqb orb]; rewrite decode_summary by done; done.
  - destruct Ht as [-> _]. cbn [Z.eqb Pos.eqb orb]. rewrite decode_external by done. done.
Qed.

(** ** The way through an update packet *)

Lemma is_bytes_single x : is_u8 x -> is_bytes [x].
Proof. intros H. by apply Forall_singleton. Qed.

Lemma is_bytes_concat ls : Forall is_bytes ls -> is_bytes (concat ls).
Proof. induction 1 as [|l ls Hl _ IH]; [constructor|]. cbn. by apply is_bytes_app. Qed.

Lemma is_bytes_middle md key : md_ok md -> key_ok key -> is_bytes (header_middle md key).
Proof.
  intros (_ & Ho & _) (Ht & _). unfold header_middle. rewrite !is_bytes_app.
  repeat split; auto using is_bytes_single, is_bytes_be32.
Qed.

Lemma is_bytes_link l : link_ok l -> is_bytes (link_wire l).
Proof.
  intros (_ & _ & Ht & Hn & _). unfold link_wire. rewrite Hn, !is_bytes_app.
  repeat split; auto using is_bytes_single, is_bytes_be32, is_bytes_be16. by apply is_bytes_single.
Qed.

Lemma is_bytes_body l key : lsa_ok l key -> is_bytes (lsa_body l).
Proof.
  intros (_ & _ & H). destruct l as [a|a|a|a]; cbn [lsa_body]; rewrite !is_bytes_app.
  - destruct H as (_ & Hl & _). pose proof (router_bits_spec a) as (Hb & _).
    repeat split; auto using is_bytes_single, is_bytes_be16; [by apply is_bytes_single|].
    apply is_bytes_concat, Forall_map. eapply Forall_impl; [exact Hl|]. exact is_bytes_link.
  - split; [apply is_bytes_be32|]. apply is_bytes_concat, Forall_map, Forall_true. auto using is_bytes_be32.
  - repeat split; apply is_bytes_be32.
  - repeat split; apply is_bytes_be32.
Qed.

Lemma len_body l key : lsa_ok l key -> len (header_wire (lsa_md l) key 0 ++ lsa_body l) = LSLen (lsa_md l).
Proof.
  intros (_ & _ & H). rewrite len_app, len_header. destruct l as [a|a|a|a]; cbn [lsa_body lsa_md] in *; rewrite ?len_app.
  - destruct H as (_ & _ & _ & ->). rewrite !len_single, len_be16, len_links. lia.
  - destruct H as (_ & _ & _ & ->). rewrite len_be32, (len_words be32 4) by done. lia.
  - by destruct H as (_ & _ & _ & _ & ->).
  - by destruct H as (_ & _ & _ & _ & _ & _ & ->).
Qed.

Lemma be16_octets x y : 1 <= x <= 255 -> 1 <= y <= 255 -> be16 (x * 256 + y) = [x; y].
Proof. intros Hx Hy. unfold be16. f_equal; [|f_equal]; zlia. Qed.

Lemma len_middle md key : len (header_middle md key) = 14.
Proof. done. Qed.

Lemma validate_zeros data n :
  is_bytes data -> plain_sum data mod 255 = 0 -> weighted_sum data mod 255 = 0 ->
  (c ← computeFletcherChecksum (data ++ zeros n) FLETCHER_CHECKSUM_VALIDATE; Ok (c.1 =? 0)) = Ok true.
Proof.
  intros Hd Hp Hw. destruct (validate_iff (data ++ zeros n)) as (c & -> & Hc).
  { apply is_bytes_app; split; [done|apply is_bytes_zeros]. }
  res_simpl. cbn [fst]. f_equal. apply Z.eqb_eq, Hc.
  rewrite plain_sum_app, weighted_sum_app, plain_sum_zeros, weighted_sum_zeros, !Z.add_0_r. split; [done|].
  by rewrite Z.add_mod, Hw, Z.mul_mod, Hp, Z.mul_0_r by done.
Qed.

Section Checksummed.
Context (age mid post : bytes) (Hage : len age = 2) (Hmid : len mid = 14) (Hm : is_bytes mid) (Hp : is_bytes post).

Lemma checksummed_parts :
  exists csum, checksummed (age ++ mid ++ be16 0 ++ post) = Ok (age ++ mid ++ be16 csum ++ post) /\ is_u16 csum /\
  forall n, validateChecksum (age ++ mid ++ be16 csum ++ post ++ zeros n) = Ok true.
Proof.
  destruct (generate_sums mid (be16 0) post (len_be16 0) Hm Hp) as (x & y & E & Hx & Hy & Hps & Hws); [by rewrite Hmid|].
  exists (x * 256 + y). split; [|split].
  - unfold checksummed. rewrite (slice_from_app age) by done. res_simpl. rewrite Hmid in E. rewrite E. res_simpl.
    rewrite take_app_length' by (unfold len in Hage; lia).
    rewrite app_assoc, (PutUint16_in (age ++ mid)) by (rewrite ?len_app; done || lia). by rewrite <- app_assoc.
  - unfold is_u16. lia.
  - intros n. rewrite be16_octets by done. unfold validateChecksum. rewrite (slice_from_app age) by done. res_simpl.
    assert (Hd : is_bytes (mid ++ [x; y] ++ post)).
    { rewrite !is_bytes_app. repeat split; [done| |done]. apply Forall_cons. split; [|apply Forall_singleton]; unfold is_u8; lia. }
    pose proof (validate_zeros _ n Hd Hps Hws) as V. rewrite <- !app_assoc in V. revert V. generalize (zeros n). intros z V.
    revert V. destruct (computeFletcherChecksum _ FLETCHER_CHECKSUM_VALIDATE) as [[c d]| | |]; done.
Qed.
End Checksummed.

Lemma checksummed_wire md key body :
  md_ok md -> key_ok key -> is_bytes body ->
  exists csum, checksummed (header_wire md key 0 ++ body) = Ok (header_wire md key csum ++ body) /\ is_u16 csum /\
  forall n, validateChecksum (header_wire md key csum ++ body ++ zeros n) = Ok true.
Proof.
  intros Hmd Hkey Hb. unfold header_wire.
  destruct (checksummed_parts (be16 (LSAge md)) (header_middle md key) (be16 (LSLen md) ++ body)) as (csum & E & Hc & V).
  - apply len_be16.
  - apply len_middle.
  - by apply is_bytes_middle.
  - apply is_bytes_app. auto using is_bytes_be16.
  - exists csum. split; [|split; [exact Hc|]].
    + rewrite <- !app_assoc. exact E.
    + intros n. specialize (V n). rewrite <- !app_assoc in *. exact V.
Qed.

(** an LSA from the database of one router that goes through an update packet is accepted
    by the other: the checksum is valid, also with the zeros the receiver adds behind it,
    and the LSA is read as it was, with the checksum. *)
Theorem ospf_lsa_arrives l key n :
  lsa_ok l key ->
  exists pkt csum, (s ← encodeLsa l key; checksummed s) = Ok pkt /\ len pkt = LSLen (lsa_md l) /\
  validateChecksum (pkt ++ zeros n) = Ok true /\
  decodeLsa (pkt ++ zeros n) = Ok (Some (set_lsa_md (with_csum csum (lsa_md l)) l, key)).
Proof.
  intros H. pose proof H as (Hmd & Hkey & _). rewrite encode_lsa by done. res_simpl.
  destruct (checksummed_wire (lsa_md l) key _ Hmd Hkey (is_bytes_body l key H)) as (csum & E & Hc & Hv).
  exists (header_wire (lsa_md l) key csum ++ lsa_body l), csum. split; [done|].
  split; [by rewrite <- (len_body l key H), !len_app|]. rewrite <- app_assoc. split; [apply Hv|by apply decode_lsa].
Qed.

Definition sample_link : LinkDetail := mkLinkDetail 0x0a000000 0xffffff00 3 0 10 [].
Definition sample_lsa : Lsa :=
  LRouter (mkRouterLsa (mkLsaMetadata 0 2 0x80000001 0 36) false false true 1 [sample_link]).
Definition sample_key : LsaKey := mkLsaKey RouterLSA 0x01010101 0x01010101.

Lemma sample_ok : lsa_ok sample_lsa sample_key.
Proof.
  unfold lsa_ok, md_ok, key_ok. cbn. repeat split; unfold RouterLSA, is_u8, is_u16, is_u32; cbn; try lia.
  apply Forall_singleton. repeat split; unfold RouterLSA, is_u8, is_u16, is_u32; cbn; lia.
Qed.

Lemma ospf_lsa_arrives_witness :
  lsa_ok sample_lsa sample_key /\
  exists pkt csum, (s ← encodeLsa sample_lsa sample_key; checksummed s) = Ok pkt /\ len pkt = LSLen (lsa_md sample_lsa) /\
  validateChecksum (pkt ++ zeros 3) = Ok true /\
  decodeLsa (pkt ++ zeros 3) = Ok (Some (set_lsa_md (with_csum csum (lsa_md sample_lsa)) sample_lsa, sample_key)).
Proof. split; [exact sample_ok|]. apply ospf_lsa_arrives, sample_ok. Defined.
