(* ===== verification/OspfServer.v ===== *)
(** * OSPF: the state of the server

    The tables of server.go, ospfLsa.go, ospfSPF.go, ospfRoutingTbl.go, ospfIntfConf.go,
    ospfNeighborStruct.go and ospfAreaConf.go, src/ospf/server. *)

From stdpp Require Import countable.
From S2P Require Import Prelude.
From S2P Require Import OspfUtil.
From S2P Require Import OspfLsa.

(** ** The link state database *)

(** The five maps are made together, by initLSDatabase; in the zero value they are nil. *)
Record LSDatabase := mkLSDatabase {
  made : bool;
  RouterLsaMap : gmap LsaKey RouterLsa;
  NetworkLsaMap : gmap LsaKey NetworkLsa;
  Summary3LsaMap : gmap LsaKey SummaryLsa;
  Summary4LsaMap : gmap LsaKey SummaryLsa;
  ASExternalLsaMap : gmap LsaKey ASExternalLsa;
}.

Definition LSDatabase_eta (v : LSDatabase) : LSDatabase :=
  mkLSDatabase (made v) (RouterLsaMap v) (NetworkLsaMap v) (Summary3LsaMap v) (Summary4LsaMap v) (ASExternalLsaMap v).

Definition set_RouterLsaMap x v := ltac:(update LSDatabase_eta v RouterLsaMap x).
Definition set_NetworkLsaMap x v := ltac:(update LSDatabase_eta v NetworkLsaMap x).
Definition set_Summary3LsaMap x v := ltac:(update LSDatabase_eta v Summary3LsaMap x).
Definition set_Summary4LsaMap x v := ltac:(update LSDatabase_eta v Summary4LsaMap x).
Definition set_ASExternalLsaMap x v := ltac:(update LSDatabase_eta v ASExternalLsaMap x).

Definition nil_LSDatabase : LSDatabase := mkLSDatabase false ∅ ∅ ∅ ∅ ∅.

(** None is the nil map. *)
Definition SelfOrigLsa : Type := option (gmap LsaKey bool).

Record LsdbSliceEnt := mkLsdbSliceEnt {
  e_AreaId : Z;
  e_LSType : Z;
  e_LSId : Z;
  e_AdvRtr : Z;
}.

#[export] Instance LsdbSliceEnt_eq_dec : EqDecision LsdbSliceEnt.
Proof. solve_decision. Defined.

(** ** Areas and interfaces *)

Record IntfConfKey := mkIntfConfKey { IPAddr : string; IntfIdx : Z }.

#[export] Instance IntfConfKey_eq_dec : EqDecision IntfConfKey.
Proof. solve_decision. Defined.

#[export] Instance IntfConfKey_countable : Countable IntfConfKey.
Proof. refine (inj_countable' (fun k => (IPAddr k, IntfIdx k)) (fun '(a, i) => mkIntfConfKey a i) _). by intros []. Defined.

(** The fields of AreaConf that the calculation of routes reads. *)
Record AreaConf := mkAreaConf {
  ImportAsExtern : Z;
  StubDefaultCost : Z;
  TransitCapability : bool;
  IntfListMap : gmap IntfConfKey bool;
}.

(** The key of a neighbor. *)
Record NeighborConfKey := mkNeighborConfKey { nk_IPAddr : string; nk_IntfIdx : Z }.

#[export] Instance NeighborConfKey_eq_dec : EqDecision NeighborConfKey.
Proof. solve_decision. Defined.

#[export] Instance NeighborConfKey_countable : Countable NeighborConfKey.
Proof.
  refine (inj_countable' (fun k => (nk_IPAddr k, nk_IntfIdx k)) (fun '(a, i) => mkNeighborConfKey a i) _). by intros [].
Defined.

(** What the last Hello of a neighbor said. *)
Record NeighborData := mkNeighborData {
  TwoWayStatus : bool;
  RtrPrio : Z;
  DRtr : bytes;
  BDRtr : bytes;
  NbrIP : Z;
  FullState : bool;
}.

(** An interface. Of the channels and timers only the wait timer is kept: nil, or whether it
    runs. The fields that are only configured and shown are left out. *)
Record IntfConf := mkIntfConf {
  IfAreaId : bytes;
  IfType : Z;
  IfRtrPriority : Z;
  IfHelloInterval : Z;
  IfRtrDeadInterval : Z;
  IfAuthKey : bytes;
  IfAuthType : Z;
  NeighborMap : gmap NeighborConfKey NeighborData;
  WaitTimer : option bool;
  IfDRIp : bytes;
  IfBDRIp : bytes;
  IfFSMState : Z;
  IfEvents : Z;
  IfDRtrId : Z;
  IfBDRtrId : Z;
  IfIpAddr : bytes;
  IfNetmask : bytes;
  IfCost : Z;
}.

Definition IntfConf_eta (v : IntfConf) : IntfConf :=
  mkIntfConf (IfAreaId v) (IfType v) (IfRtrPriority v) (IfHelloInterval v) (IfRtrDeadInterval v) (IfAuthKey v) (IfAuthType v)
    (NeighborMap v) (WaitTimer v) (IfDRIp v) (IfBDRIp v) (IfFSMState v) (IfEvents v) (IfDRtrId v) (IfBDRtrId v)
    (IfIpAddr v) (IfNetmask v) (IfCost v).

Definition set_NeighborMap x v := ltac:(update IntfConf_eta v NeighborMap x).
Definition set_WaitTimer x v := ltac:(update IntfConf_eta v WaitTimer x).
Definition set_IfDRIp x v := ltac:(update IntfConf_eta v IfDRIp x).
Definition set_IfBDRIp x v := ltac:(update IntfConf_eta v IfBDRIp x).
Definition set_IfFSMState x v := ltac:(update IntfConf_eta v IfFSMState x).
Definition set_IfEvents x v := ltac:(update IntfConf_eta v IfEvents x).
Definition set_IfDRtrId x v := ltac:(update IntfConf_eta v IfDRtrId x).
Definition set_IfBDRtrId x v := ltac:(update IntfConf_eta v IfBDRtrId x).

(** The fields of an adjacency that the interfaces and the database read. *)
Record OspfNeighborEntry := mkOspfNeighborEntry {
  OspfNbrRtrId : Z;
  OspfNbrState : Z;
  intfConfKey : IntfConfKey;
}.

(** What is sent to other goroutines and to the network: changes of interfaces and of
    designated routers to the database, what a Hello says to the neighbor machines, interfaces
    that go down, LSAs to be flooded, and packets, without their IP header. *)
Inductive OspfMsg :=
| IntfStateChange (areaId : Z) (intfKey : IntfConfKey) (intfState : Z)
| NetworkDRChange (areaId : Z) (intfKey : IntfConfKey) (oldstate newstate : Z)
| NeighborHello (intfKey : IntfConfKey) (routerId rtrPrio : Z) (neighborIP : bytes) (nbrDeadTimer : Z) (twoWay : bool)
| NeighborIntf (intfKey : IntfConfKey)
| LsaUpdSend (intfKey : IntfConfKey) (areaId : Z) (lsaKey : LsaKey) (lsOp : Z)
| SendPkt (intfKey : IntfConfKey) (pkt : bytes).

(** ** The shortest path tree *)

Record VertexKey := mkVertexKey { Type_ : Z; ID : Z; AdvRtr : Z }.

#[export] Instance VertexKey_eq_dec : EqDecision VertexKey.
Proof. solve_decision. Defined.

#[export] Instance VertexKey_countable : Countable VertexKey.
Proof.
  refine (inj_countable' (fun k => (Type_ k, ID k, AdvRtr k)) (fun '(t, i, a) => mkVertexKey t i a) _). by intros [].
Defined.

Abbreviation Path := (list VertexKey).

Record TreeVertex := mkTreeVertex {
  Paths : list Path;
  Distance : Z;
  NumOfPaths : Z;
}.

Record StubVertex := mkStubVertex {
  sv_NbrVertexKey : VertexKey;
  sv_NbrVertexCost : Z;
  sv_LinkData : Z;
  sv_LsaKey : LsaKey;
  sv_AreaId : Z;
  sv_LinkStateId : Z;
}.

(** Vertex without NetMask, which is never set. *)
Record Vertex := mkVertex {
  NbrVertexKey : list VertexKey;
  NbrVertexCost : list Z;
  v_LinkData : gmap VertexKey Z;
  v_LsaKey : LsaKey;
  v_AreaId : Z;
  Visited : bool;
  v_LinkStateId : Z;
}.

Definition RouterVertex : Z := 0.
Definition SNetworkVertex : Z := 1.
Definition TNetworkVertex : Z := 2.

(** ** Routing tables *)

Definition Network : Z := 0.
Definition InternalRouter : Z := 1.
Definition ASBdrRouter : Z := 2.
Definition AreaBdrRouter : Z := 3.
Definition ASAreaBdrRouter : Z := 4.

Definition IntraArea : Z := 4.
Definition InterArea : Z := 3.
Definition Type1Ext : Z := 2.
Definition Type2Ext : Z := 1.

Record NextHop := mkNextHop {
  IfIPAddr : Z;
  IfIdx : Z;
  NextHopIP : Z;
  nh_AdvRtr : Z;
}.

#[export] Instance NextHop_eq_dec : EqDecision NextHop.
Proof. solve_decision. Defined.

#[export] Instance NextHop_countable : Countable NextHop.
Proof.
  refine (inj_countable' (fun k => (IfIPAddr k, IfIdx k, NextHopIP k, nh_AdvRtr k)) (fun '(a, i, n, r) => mkNextHop a i n r) _).
  by intros [].
Defined.

Record RoutingTblEntryKey := mkRoutingTblEntryKey {
  DestId : Z;
  AddrMask : Z;
  DestType : Z;
}.

#[export] Instance RoutingTblEntryKey_eq_dec : EqDecision RoutingTblEntryKey.
Proof. solve_decision. Defined.

#[export] Instance RoutingTblEntryKey_countable : Countable RoutingTblEntryKey.
Proof.
  refine (inj_countable' (fun k => (DestId k, AddrMask k, DestType k)) (fun '(d, m, t) => mkRoutingTblEntryKey d m t) _).
  by intros [].
Defined.

(** The next hops of an entry are keys of a map that are all true. *)
Record RoutingTblEntry := mkRoutingTblEntry {
  OptCapabilities : Z;
  PathType : Z;
  Cost : Z;
  Type2Cost : Z;
  LSOrigin : LsaKey;
  re_NumOfPaths : Z;
  NextHops : gset NextHop;
}.

Record GlobalRoutingTblEntry := mkGlobalRoutingTblEntry {
  g_AreaId : Z;
  RoutingTblEnt : RoutingTblEntry;
}.

(** A call of ribd. *)
Inductive RibCall :=
| CreateIPv4Route (DestinationNw NetworkMask : string) (Cost : Z) (NextHopIp NextHopIntRef : string)
| DeleteIPv4Route (DestinationNw NetworkMask : string) (NextHopIp : string).

(** ** The server

    The key of a table of areas is the number of the area, as LsdbKey and AreaIdKey are;
    that of [AreaConfMap] is its text. [ipPropertyMap] holds the number and the type of an
    interface. [ClientHdl] is set when ribd is connected; [DbLsdbOp], [DbRouteOp] and [rib]
    are what the database and ribd have been sent, [sent] everything else. *)
Record OSPFServer := mkOSPFServer {
  RouterId : bytes;
  AreaBdrRtrStatus : bool;
  AreaConfMap : gmap string AreaConf;
  AreaLsdb : gmap Z LSDatabase;
  AreaSelfOrigLsa : gmap Z SelfOrigLsa;
  LsdbSlice : list LsdbSliceEnt;
  DbLsdbOp : list (LsdbSliceEnt * bool);
  AreaGraph : gmap VertexKey Vertex;
  AreaStubs : gmap VertexKey StubVertex;
  SPFTree : gmap VertexKey TreeVertex;
  TempAreaRoutingTbl : gmap Z (gmap RoutingTblEntryKey RoutingTblEntry);
  GlobalRoutingTbl : gmap RoutingTblEntryKey GlobalRoutingTblEntry;
  OldGlobalRoutingTbl : gmap RoutingTblEntryKey GlobalRoutingTblEntry;
  TempGlobalRoutingTbl : gmap RoutingTblEntryKey GlobalRoutingTblEntry;
  SummaryLsDb : gmap Z (gmap LsaKey SummaryLsa);
  ipPropertyMap : gmap Z (Z * Z);
  ClientHdl : bool;
  DbRouteOp : list (RoutingTblEntryKey * bool);
  rib : list RibCall;
  IntfConfMap : gmap IntfConfKey IntfConf;
  NeighborConfigMap : gmap NeighborConfKey OspfNeighborEntry;
  ospfIntfToNbrMap : gmap IntfConfKey (list NeighborConfKey);
  ospfNeighborIPToMAC : gmap NeighborConfKey bytes;
  maxAgeLsaMap : gmap LsaKey bytes;
  sent : list OspfMsg;
}.

Definition OSPFServer_eta (v : OSPFServer) : OSPFServer :=
  mkOSPFServer (RouterId v) (AreaBdrRtrStatus v) (AreaConfMap v) (AreaLsdb v) (AreaSelfOrigLsa v) (LsdbSlice v)
    (DbLsdbOp v) (AreaGraph v) (AreaStubs v) (SPFTree v) (TempAreaRoutingTbl v) (GlobalRoutingTbl v)
    (OldGlobalRoutingTbl v) (TempGlobalRoutingTbl v) (SummaryLsDb v) (ipPropertyMap v)
    (ClientHdl v) (DbRouteOp v) (rib v) (IntfConfMap v) (NeighborConfigMap v) (ospfIntfToNbrMap v) (ospfNeighborIPToMAC v)
    (maxAgeLsaMap v) (sent v).

Definition set_AreaConfMap x v := ltac:(update OSPFServer_eta v AreaConfMap x).
Definition set_AreaLsdb x v := ltac:(update OSPFServer_eta v AreaLsdb x).
Definition set_AreaSelfOrigLsa x v := ltac:(update OSPFServer_eta v AreaSelfOrigLsa x).
Definition set_LsdbSlice x v := ltac:(update OSPFServer_eta v LsdbSlice x).
Definition set_DbLsdbOp x v := ltac:(update OSPFServer_eta v DbLsdbOp x).
Definition set_AreaGraph x v := ltac:(update OSPFServer_eta v AreaGraph x).
Definition set_AreaStubs x v := ltac:(update OSPFServer_eta v AreaStubs x).
Definition set_SPFTree x v := ltac:(update OSPFServer_eta v SPFTree x).
Definition set_TempAreaRoutingTbl x v := ltac:(update OSPFServer_eta v TempAreaRoutingTbl x).
Definition set_GlobalRoutingTbl x v := ltac:(update OSPFServer_eta v GlobalRoutingTbl x).
Definition set_OldGlobalRoutingTbl x v := ltac:(update OSPFServer_eta v OldGlobalRoutingTbl x).
Definition set_TempGlobalRoutingTbl x v := ltac:(update OSPFServer_eta v TempGlobalRoutingTbl x).
Definition set_SummaryLsDb x v := ltac:(update OSPFServer_eta v SummaryLsDb x).
Definition set_DbRouteOp x v := ltac:(update OSPFServer_eta v DbRouteOp x).
Definition set_rib x v := ltac:(update OSPFServer_eta v rib x).
Definition set_IntfConfMap x v := ltac:(update OSPFServer_eta v IntfConfMap x).
Definition set_ospfIntfToNbrMap x v := ltac:(update OSPFServer_eta v ospfIntfToNbrMap x).
Definition set_ospfNeighborIPToMAC x v := ltac:(update OSPFServer_eta v ospfNeighborIPToMAC x).
Definition set_maxAgeLsaMap x v := ltac:(update OSPFServer_eta v maxAgeLsaMap x).
Definition set_sent x v := ltac:(update OSPFServer_eta v sent x).

Definition NewOSPFServer (RouterId : bytes) : OSPFServer :=
  mkOSPFServer RouterId false ∅ ∅ ∅ [] [] ∅ ∅ ∅ ∅ ∅ ∅ ∅ ∅ ∅ false [] [] ∅ ∅ ∅ ∅ ∅ [].
