(* ===== verification/OspfSpf.v ===== *)
(** * OSPF: the calculation of the shortest path tree

    ospfSPF.go of src/ospf/server: the graph of an area made from its link state
    database, and the tree over it. *)

From S2P Require Import Prelude.
From S2P Require Import OspfUtil.
From S2P Require Import OspfLsa.
From S2P Require Import OspfServer.

(** ** Candidates *)

Record VertexData := mkVertexData { vKey : VertexKey; distance : Z }.

(** v[i] is before v[j] when it is nearer, and a network before a router that is as near. *)
Definition Less (a b : VertexData) : bool :=
  if (distance a =? distance b) then
    if Type_ (vKey a) =? Type_ (vKey b) then false
    else if (Type_ (vKey a) =? RouterVertex) && (Type_ (vKey b) =? TNetworkVertex) then false
    else if (Type_ (vKey a) =? TNetworkVertex) && (Type_ (vKey b) =? RouterVertex) then true
    else distance a <? distance b
  else distance a <? distance b.

(** The package variable, which nothing changes: failures below the first vertex are ignored. *)
Definition check : bool := true.

Definition P2PLink : Z := 1.
Definition TransitLink : Z := 2.
Definition StubLink : Z := 3.

Section Spf.
(** The order in which the keys of a map are visited, and sort.Sort over [Less]. *)
Context (range : forall A : Type, list A -> list A) (sort : list VertexData -> list VertexData).

(** ** The graph *)

Definition findSelfOrigRouterLsaKey (ent : gmap LsaKey bool) : option LsaKey :=
  List.find (fun key => LSType key =? RouterLSA) (range _ (map fst (map_to_list ent))).

(** The first link of the router into the network decides. *)
Fixpoint first_link_in (network netmask : Z) (links : list LinkDetail) (n : nat) {struct n} : res bool :=
  match n with
  | O => Ok false
  | S n =>
    match links with
    | [] => Panic
    | l :: links =>
      if (Z.land (LinkId l) netmask =? network) && (LinkType l =? StubLink) then Ok false
      else if (Z.land (LinkId l) netmask =? network) && (LinkType l =? TransitLink) then Ok true
      else first_link_in network netmask links n
    end
  end.

Definition router_key (rtrId : Z) : LsaKey := mkLsaKey RouterLSA rtrId rtrId.

Definition checkRouterLsaConsistency (areaId rtrId network netmask : Z) (s : OSPFServer) : res bool :=
  match AreaLsdb s !! areaId with
  | None => Ok false
  | Some db =>
    match RouterLsaMap db !! router_key rtrId with
    | None => Ok false
    | Some lsaEnt => first_link_in network netmask (LinkDetails lsaEnt) (Z.to_nat (NumOfLinks lsaEnt))
    end
  end.

(** Without a database the zero key is returned, and no error. *)
Definition findNetworkLsa (areaId lsid : Z) (s : OSPFServer) : option LsaKey :=
  match AreaLsdb s !! areaId with
  | None => Some (mkLsaKey 0 0 0)
  | Some db =>
    List.find (fun key => (LSId key =? lsid) && (LSType key =? NetworkLSA)) (range _ (map fst (map_to_list (NetworkLsaMap db))))
  end.

Definition findRouterLsa (areaId lsid : Z) (s : OSPFServer) : bool :=
  match AreaLsdb s !! areaId with
  | None => true
  | Some db => bool_decide (is_Some (RouterLsaMap db !! router_key lsid))
  end.

Definition new_vertex : Vertex := mkVertex [] [] ∅ (mkLsaKey 0 0 0) 0 false 0.

(** A neighbour is appended to both slices. *)
Definition add_neighbor (k : VertexKey) (cost data : Z) (ent : Vertex) : Vertex :=
  mkVertex (NbrVertexKey ent ++ [k]) (NbrVertexCost ent ++ [cost]) (<[k := data]> (v_LinkData ent)) (v_LsaKey ent)
    (v_AreaId ent) (Visited ent) (v_LinkStateId ent).

(** The last fields, before the vertex is entered. *)
Definition finish_vertex (areaId : Z) (lsaKey : LsaKey) (ent : Vertex) : Vertex :=
  mkVertex (NbrVertexKey ent) (NbrVertexCost ent) (v_LinkData ent) lsaKey areaId false (LSId lsaKey).

(** The routers of a network that are consistent with it. *)
Fixpoint attached_routers (areaId network netmask : Z) (rtrs : list Z) (ent : Vertex) (s : OSPFServer) : res Vertex :=
  match rtrs with
  | [] => Ok ent
  | rtr :: rtrs =>
    ok ← checkRouterLsaConsistency areaId rtr network netmask s;
    attached_routers areaId network netmask rtrs
      (if ok : bool then add_neighbor (mkVertexKey RouterVertex rtr rtr) 0 netmask ent else ent) s
  end.

(** A turn of the loop over the links of a router: the vertex and the stubs change, or the
    function returns an error. *)
Definition router_link (areaId : Z) (lsaKey : LsaKey) (l : LinkDetail) (ent : Vertex) (s : OSPFServer)
  : Vertex * OSPFServer * option goerr :=
  if LinkType l =? TransitLink then
    match findNetworkLsa areaId (LinkId l) s with
    | None => (ent, s, if check then None else Some (ErrText "Network LSA not found"))
    | Some nLsaKey =>
      (add_neighbor (mkVertexKey TNetworkVertex (LinkId l) (AdvRouter nLsaKey)) (LinkMetric l) (LinkData l) ent, s, None)
    end
  else if LinkType l =? StubLink then
    let k := mkVertexKey SNetworkVertex (LinkId l) (AdvRouter lsaKey) in
    let sentry := mkStubVertex (mkVertexKey RouterVertex (LSId lsaKey) (AdvRouter lsaKey)) (LinkMetric l) (LinkData l)
                    lsaKey areaId (LSId lsaKey) in
    (ent, set_AreaStubs (<[k := sentry]> (AreaStubs s)) s, None)
  else if LinkType l =? P2PLink then
    if findRouterLsa areaId (LinkId l) s then
      (add_neighbor (mkVertexKey RouterVertex (LinkId l) (LinkId l)) (LinkMetric l) (LinkData l) ent, s, None)
    else (ent, s, Some (ErrText "Router LSA not found"))
  else (ent, s, None).

Fixpoint router_links (areaId : Z) (lsaKey : LsaKey) (links : list LinkDetail) (n : nat) (ent : Vertex) (s : OSPFServer) {struct n}
  : res (Vertex * OSPFServer * option goerr) :=
  match n with
  | O => Ok (ent, s, None)
  | S n =>
    match links with
    | [] => Panic
    | l :: links =>
      match router_link areaId lsaKey l ent s with
      | (ent, s, None) => router_links areaId lsaKey links n ent s
      | r => Ok r
      end
    end
  end.

Definition set_transit (areaId : Z) (s : OSPFServer) : OSPFServer :=
  let area := convertUint32ToIPv4 areaId in
  match AreaConfMap s !! area with
  | Some aEnt =>
    if TransitCapability aEnt then s
    else set_AreaConfMap (<[area := mkAreaConf (ImportAsExtern aEnt) (StubDefaultCost aEnt) true (IntfListMap aEnt)]> (AreaConfMap s)) s
  | None => s
  end.

(** The loop over the neighbours; [visit] is its turn, which goes on at a [continue]. *)
Fixpoint visit_all (visit : VertexKey -> OSPFServer -> res (OSPFServer * option goerr)) (keys : list VertexKey) (s : OSPFServer)
  : res (OSPFServer * option goerr) :=
  match keys with
  | [] => Ok (s, None)
  | k :: keys =>
    r ← visit k s;
    match r with
    | (s, None) => visit_all visit keys s
    | (s, Some e) => Ok (s, Some e)
    end
  end.

(** [if err != nil { if check == true { continue }; return err }] *)
Definition continue_on (r : OSPFServer * option goerr) : OSPFServer * option goerr := (r.1, if check then None else r.2).

Definition visited (k : VertexKey) (s : OSPFServer) : bool := bool_decide (is_Some (AreaGraph s !! k)).

(** [fuel] bounds the depth of the calls. *)
Fixpoint UpdateAreaGraphNetworkLsa (fuel : nat) (lsaEnt : NetworkLsa) (lsaKey : LsaKey) (areaId : Z) (s : OSPFServer)
  {struct fuel} : res (OSPFServer * option goerr) :=
  match fuel with
  | O => NoFuel
  | S fuel =>
    let vertexKey := mkVertexKey TNetworkVertex (LSId lsaKey) (AdvRouter lsaKey) in
    if visited vertexKey s then Ok (s, None)
    else
      let netmask := n_Netmask lsaEnt in
      ent ← attached_routers areaId (Z.land (LSId lsaKey) netmask) netmask (AttachedRtr lsaEnt) new_vertex s;
      match NbrVertexKey ent with
      | [] => Ok (s, None)
      | _ =>
        let s := set_AreaGraph (<[vertexKey := finish_vertex areaId lsaKey ent]> (AreaGraph s)) s in
        match AreaLsdb s !! areaId with
        | None => Ok (s, Some (ErrText "No LS Database found for areaId:"))
        | Some db =>
          visit_all
            (fun k s =>
               if visited k s then Ok (s, None)
               else
                 let lsaKey := mkLsaKey RouterLSA (ID k) (AdvRtr k) in
                 match RouterLsaMap db !! lsaKey with
                 | None => Ok (continue_on (s, Some (ErrText "Router LSA not found")))
                 | Some lsaEnt => continue_on <$> UpdateAreaGraphRouterLsa fuel lsaEnt lsaKey areaId s
                 end) (NbrVertexKey ent) s
        end
      end
  end
with UpdateAreaGraphRouterLsa (fuel : nat) (lsaEnt : RouterLsa) (lsaKey : LsaKey) (areaId : Z) (s : OSPFServer)
  {struct fuel} : res (OSPFServer * option goerr) :=
  match fuel with
  | O => NoFuel
  | S fuel =>
    let vertexKey := mkVertexKey RouterVertex (LSId lsaKey) (AdvRouter lsaKey) in
    if visited vertexKey s then Ok (s, None)
    else
      let s := if BitV lsaEnt then set_transit areaId s else s in
      '(ent, s, err) ← router_links areaId lsaKey (LinkDetails lsaEnt) (Z.to_nat (NumOfLinks lsaEnt)) new_vertex s;
      match err with
      | Some e => Ok (s, Some e)
      | None =>
        let entered := set_AreaGraph (<[vertexKey := finish_vertex areaId lsaKey ent]> (AreaGraph s)) s in
        match NbrVertexKey ent with
        | [] =>
          self ← convertIPv4ToUint32 (RouterId s);
          Ok (if AdvRouter lsaKey =? self then (entered, None) else (s, Some (ErrText "None of the Network LSA are found")))
        | _ =>
          match AreaLsdb entered !! areaId with
          | None => Ok (entered, Some (ErrText "No LS Database found for areaId:"))
          | Some db =>
            visit_all
              (fun k s =>
                 if visited k s then Ok (s, None)
                 else if Type_ k =? TNetworkVertex then
                   let lsaKey := mkLsaKey NetworkLSA (ID k) (AdvRtr k) in
                   match NetworkLsaMap db !! lsaKey with
                   | None => Ok (continue_on (s, Some (ErrText "Network LSA not found")))
                   | Some lsaEnt => continue_on <$> UpdateAreaGraphNetworkLsa fuel lsaEnt lsaKey areaId s
                   end
                 else if Type_ k =? RouterVertex then
                   let lsaKey := mkLsaKey RouterLSA (ID k) (AdvRtr k) in
                   match RouterLsaMap db !! lsaKey with
                   | None => Ok (continue_on (s, Some (ErrText "Router LSA not found")))
                   | Some lsaEnt => continue_on <$> UpdateAreaGraphRouterLsa fuel lsaEnt lsaKey areaId s
                   end
                 else Ok (s, None)) (NbrVertexKey ent) entered
          end
        end
      end
  end.

(** The depth is at most the number of vertices of the database. *)
Definition graph_fuel (db : LSDatabase) : nat := S (S (size (RouterLsaMap db) + size (NetworkLsaMap db))).

(** The vertex of the router, and the error; that of the graph is cleared by [check]. *)
Definition CreateAreaGraph (areaId : Z) (s : OSPFServer) : res (OSPFServer * (VertexKey * option goerr)) :=
  let none := mkVertexKey 0 0 0 in
  match AreaLsdb s !! areaId with
  | None => Ok (s, (none, Some (ErrText "No LS Database found for areaId:")))
  | Some db =>
    match AreaSelfOrigLsa s !! areaId with
    | None => Ok (s, (none, Some (ErrText "No Self Originated LSAs found for areaId:")))
    | Some ent =>
      match findSelfOrigRouterLsaKey (default ∅ ent) with
      | None => Ok (s, (none, Some (ErrText "No Self Originated Router LSA Key found for areaId:")))
      | Some key =>
        match RouterLsaMap db !! key with
        | None => Ok (s, (none, Some (ErrText "No Self Originated Router LSA found for areaId:")))
        | Some lsaEnt =>
          '(s, err) ← UpdateAreaGraphRouterLsa (graph_fuel db) lsaEnt key areaId s;
          Ok (s, (mkVertexKey RouterVertex (LSId key) (AdvRouter key), if check then None else err))
        end
      end
    end
  end.

(** ** The tree *)

Definition LSInfinity16 : Z := 0xff00.

Definition root_vertex : TreeVertex := mkTreeVertex [[]] 0 1.
Definition far_vertex : TreeVertex := mkTreeVertex [[]] LSInfinity16 1.

(** The first [n] of the paths, each copied with [f] applied. *)
Fixpoint copy_paths (f : Path -> Path) (n : nat) (paths : list Path) : res (list Path) :=
  match n with
  | O => Ok []
  | S n =>
    match paths with
    | [] => Panic
    | p :: paths => ps ← copy_paths f n paths; Ok (f p :: ps)
    end
  end.

(** The two branches of a neighbour at the end of an edge of cost [cost]: a nearer path, or one
    that is as near. [self] is set for an edge from a vertex to itself: the two entries then
    share the slice of their paths, whose elements the code sets to nil. *)
Definition relax (k : VertexKey) (self : bool) (cost : Z) (tEntry tEnt : TreeVertex) : res TreeVertex :=
  let d := u16 (Distance tEntry + cost) in
  if d <? Distance tEnt then
    _ ← must (NumOfPaths tEnt <=? len (Paths tEnt));
    let parents := if self then map (fun _ => []) (Paths tEntry) else Paths tEntry in
    paths ← copy_paths (fun p => p ++ [k]) (Z.to_nat (NumOfPaths tEntry)) parents;
    Ok (mkTreeVertex paths d (NumOfPaths tEntry))
  else if Distance tEnt =? d then
    old ← copy_paths (fun p => p) (Z.to_nat (NumOfPaths tEnt)) (Paths tEnt);
    let parents := if self then map (fun _ => []) (Paths tEntry) else Paths tEntry in
    new ← copy_paths (fun p => p ++ [k]) (Z.to_nat (NumOfPaths tEntry)) parents;
    Ok (mkTreeVertex (old ++ new) (Distance tEnt) (NumOfPaths tEntry + NumOfPaths tEnt))
  else Ok tEnt.

(** The loop over the neighbours of [k], from index [i]; [verArr] are the vertices that are new
    to the tree. *)
Fixpoint expand (k : VertexKey) (costs : list Z) (nbrs : list VertexKey) (i : Z) (verArr : list VertexData) (s : OSPFServer)
  : res (OSPFServer * list VertexData * option goerr) :=
  match nbrs with
  | [] => Ok (s, verArr, None)
  | verKey :: nbrs =>
    cost ← index costs i;
    if negb (visited verKey s) then
      Ok (s, verArr, Some (ErrText "Something is wrong in SPF Calculation: Entry should exist in Area Graph"))
    else
      match SPFTree s !! k with
      | None => Ok (s, verArr, Some (ErrText "Something is wrong is SPF Calculation"))
      | Some tEntry =>
        tEnt ← relax k (bool_decide (verKey = k)) cost tEntry (default far_vertex (SPFTree s !! verKey));
        let verArr :=
          match SPFTree s !! verKey with Some _ => verArr | None => verArr ++ [mkVertexData verKey (Distance tEnt)] end in
        expand k costs nbrs (i + 1) verArr (set_SPFTree (<[verKey := tEnt]> (SPFTree s)) s)
      end
  end.

Definition mark_visited (ent : Vertex) : Vertex :=
  mkVertex (NbrVertexKey ent) (NbrVertexCost ent) (v_LinkData ent) (v_LsaKey ent) (v_AreaId ent) true (v_LinkStateId ent).

(** [queue] is treeVSlice[j:]; what is before it is not read again. *)
Fixpoint dijkstra (fuel : nat) (queue : list VertexData) (s : OSPFServer) : res (OSPFServer * option goerr) :=
  match queue, fuel with
  | [], _ => Ok (s, None)
  | _, O => NoFuel
  | v :: queue, S fuel =>
    match AreaGraph s !! vKey v with
    | None => Ok (s, Some (ErrText "No entry found for:"))
    | Some ent =>
      '(s, verArr, err) ← expand (vKey v) (NbrVertexCost ent) (NbrVertexKey ent) 0 [] s;
      match err with
      | Some e => Ok (s, Some e)
      | None =>
        let queue := queue ++ verArr in
        let queue := match queue with [] => [] | _ => sort queue end in
        dijkstra fuel queue (set_AreaGraph (<[vKey v := mark_visited ent]> (AreaGraph s)) s)
      end
    end
  end.

Definition ExecuteDijkstra (root : VertexKey) (s : OSPFServer) : res (OSPFServer * option goerr) :=
  let s := match SPFTree s !! root with
           | Some _ => s
           | None => set_SPFTree (<[root := root_vertex]> (SPFTree s)) s
           end in
  dijkstra (S (size (AreaGraph s))) [mkVertexData root 0] s.

Definition initialiseSPFStructs (s : OSPFServer) : OSPFServer := set_SPFTree ∅ (set_AreaStubs ∅ (set_AreaGraph ∅ s)).
End Spf.
