(* ===== verification/OspfSpfSpec.v ===== *)
(** * OSPF: what the calculation of the tree does

    The run of the loop as a pure function on the tree, walks of a graph, and the
    invariant of the loop. *)

From Stdlib Require Import Sorting.Sorted.
From S2P Require Import Prelude.
From S2P Require Import OspfUtil.
From S2P Require Import OspfLsa.
From S2P Require Import OspfServer.
From S2P Require Import OspfSpf.

(** ** Graphs and walks *)

(** What the calculation reads of a vertex. *)
Abbreviation graph := (gmap VertexKey (list VertexKey * list Z)).

Definition shape (g : gmap VertexKey Vertex) : graph := (fun e => (NbrVertexKey e, NbrVertexCost e)) <$> g.

Definition edge (g : graph) (u v : VertexKey) (w : Z) : Prop :=
  exists ks cs i, g !! u = Some (ks, cs) /\ ks !! i = Some v /\ cs !! i = Some w.

(** The vertices of a walk before its end, and its cost. *)
Inductive walk (g : graph) (root : VertexKey) : Path -> VertexKey -> Z -> Prop :=
| walk_nil : walk g root [] root 0
| walk_snoc p u v c w : walk g root p u c -> edge g u v w -> walk g root (p ++ [u]) v (c + w).

Definition reachable (g : graph) (root v : VertexKey) : Prop := exists p c, walk g root p v c.

(** Every neighbour is a vertex with one cost in [0, C], and not the vertex itself; a walk over
    all vertices stays below infinity. *)
Definition graph_ok (C : Z) (g : graph) : Prop :=
  (forall u ks cs, g !! u = Some (ks, cs) -> length ks = length cs) /\
  (forall u v w, edge g u v w -> v <> u /\ is_Some (g !! v) /\ 0 <= w <= C) /\
  0 <= C /\ C * Z.of_nat (size g) < LSInfinity16.

Lemma shape_mark g k ent :
  g !! k = Some ent -> shape (<[k := mark_visited ent]> g) = shape g.
Proof. intros H. unfold shape. rewrite fmap_insert. apply insert_id. by rewrite lookup_fmap, H. Qed.

Lemma visited_shape k s : visited k s = true <-> is_Some (shape (AreaGraph s) !! k).
Proof. unfold visited, shape. by rewrite bool_decide_eq_true, lookup_fmap, fmap_is_Some. Qed.

(** ** Relaxing *)

(** The entry of the end of an edge of cost [w] from [k], whose entry is [tk]. *)
Definition nearer (k : VertexKey) (tk : TreeVertex) (w : Z) (t : TreeVertex) : TreeVertex :=
  let d := u16 (Distance tk + w) in
  let via := map (fun p => p ++ [k]) (Paths tk) in
  if d <? Distance t then mkTreeVertex via d (NumOfPaths tk)
  else if Distance t =? d then mkTreeVertex (Paths t ++ via) d (NumOfPaths tk + NumOfPaths t)
  else t.

Definition counted (t : TreeVertex) : Prop := NumOfPaths t = len (Paths t).

Lemma copy_paths_all f paths : copy_paths f (length paths) paths = Ok (map f paths).
Proof. induction paths as [|p paths IH]; [done|]. cbn [length copy_paths]. by rewrite IH. Qed.

Lemma copy_paths_len f paths n : n = len paths -> copy_paths f (Z.to_nat n) paths = Ok (map f paths).
Proof. intros ->. rewrite to_nat_len. apply copy_paths_all. Qed.

Lemma relax_nearer k w tk t : counted tk -> counted t -> relax k false w tk t = Ok (nearer k tk w t).
Proof.
  intros Hk Ht. unfold relax, nearer. destruct (_ <? _).
  - rewrite Ht, Z.leb_refl. res_simpl. by rewrite copy_paths_len.
  - destruct (Z.eqb_spec (Distance t) (u16 (Distance tk + w))) as [<-|]; [|done].
    rewrite copy_paths_len by done. res_simpl. rewrite copy_paths_len by done. res_simpl. by rewrite map_id.
Qed.

Lemma nearer_counted k tk w t : counted tk -> counted t -> counted (nearer k tk w t).
Proof.
  unfold counted, nearer. intros Hk Ht. destruct (_ <? _); [cbn; by rewrite len_map|].
  destruct (_ =? _); [|done]. cbn. rewrite len_app, len_map. lia.
Qed.

(** ** The run of [expand] *)

Abbreviation tree := (gmap VertexKey TreeVertex).

(** An edge from [k] changes the tree, and adds its end to the vertices found. *)
Definition relax_edge (k : VertexKey) (tk : TreeVertex) (x : tree * list VertexData) (e : VertexKey * Z) : tree * list VertexData :=
  let t := nearer k tk e.2 (default far_vertex (x.1 !! e.1)) in
  (<[e.1 := t]> x.1, match x.1 !! e.1 with Some _ => x.2 | None => x.2 ++ [mkVertexData e.1 (Distance t)] end).

Definition tree_counted (T : tree) : Prop := forall v t, T !! v = Some t -> counted t.

Lemma tree_counted_insert T v t : tree_counted T -> counted t -> tree_counted (<[v := t]> T).
Proof. intros H Ht u t' Hu. apply lookup_insert_Some in Hu as [[_ <-]|[_ Hu]]; eauto. Qed.

Lemma counted_default T v : tree_counted T -> counted (default far_vertex (T !! v)).
Proof. intros H. destruct (T !! v) as [t|] eqn:E; [by eapply H|done]. Qed.

Lemma expand_run k tk costs ks cs i verArr s :
  length ks = length cs -> (forall j c, cs !! j = Some c -> index costs (i + Z.of_nat j) = Ok c) ->
  (forall v, v ∈ ks -> v <> k /\ visited v s = true) ->
  SPFTree s !! k = Some tk -> tree_counted (SPFTree s) ->
  let r := foldl (relax_edge k tk) (SPFTree s, verArr) (zip ks cs) in
  expand k costs ks i verArr s = Ok (set_SPFTree r.1 s, r.2, None).
Proof.
  revert cs i verArr s. induction ks as [|v ks IH]; intros [|c cs] i verArr s Hl Hc Hv Hk HT; try done.
  { cbn. by destruct s. }
  cbn [expand zip zip_with foldl]. replace (index costs i) with (Ok c).
  2: { symmetry. rewrite <- (Hc O c eq_refl). f_equal. lia. }
  res_simpl. destruct (Hv v) as [Hne Hvis]; [left|]. rewrite Hvis. cbn [negb]. rewrite Hk.
  rewrite bool_decide_eq_false_2 by done.
  rewrite relax_nearer by (eauto using counted_default). res_simpl.
  rewrite IH with (cs := cs).
  - unfold relax_edge at 3 6. cbn [fst snd SPFTree set_SPFTree]. done.
  - by injection Hl.
  - intros j x Hj. rewrite <- (Hc (S j) x Hj). f_equal. lia.
  - intros u Hu. apply Hv. by right.
  - cbn. by rewrite lookup_insert_ne.
  - cbn. apply tree_counted_insert; [done|]. apply nearer_counted; eauto using counted_default.
Qed.

(** ** The edges of a vertex, one at a time *)

Definition edges_of (g : graph) (k : VertexKey) : list (VertexKey * Z) :=
  match g !! k with Some (ks, cs) => zip ks cs | None => [] end.

Lemma edges_of_edge g k v w : (v, w) ∈ edges_of g k <-> edge g k v w.
Proof.
  unfold edges_of, edge. split.
  - destruct (g !! k) as [[ks cs]|] eqn:E; [|by intros ?%elem_of_nil].
    intros (i & Hi)%list_elem_of_lookup. apply lookup_zip_Some in Hi. by exists ks, cs, i.
  - intros (ks & cs & i & -> & H1 & H2). apply list_elem_of_lookup. exists i. by apply lookup_zip_Some.
Qed.

Section Relax.
Context (g : graph) (root : VertexKey) (C : Z) (Hg : graph_ok C g).

(** The entry of a vertex whose distance is at most [B]. *)
Record entry_ok (B : Z) (v : VertexKey) (t : TreeVertex) : Prop := {
  eo_counted : counted t;
  eo_some : Paths t <> [];
  eo_walk : forall p, p ∈ Paths t -> walk g root p v (Distance t);
  eo_bound : 0 <= Distance t <= B;
}.

Lemma entry_mono B B' v t : B <= B' -> entry_ok B v t -> entry_ok B' v t.
Proof. intros H []. split; try done. lia. Qed.

Lemma nearer_ok B k v w tk t :
  edge g k v w -> entry_ok B k tk -> B + C < LSInfinity16 -> (t = far_vertex \/ entry_ok (B + C) v t) ->
  entry_ok (B + C) v (nearer k tk w t).
Proof.
  intros He Hk HB Ht. destruct Hg as (_ & Hedge & HC & _). destruct (Hedge k v w He) as (_ & _ & Hw).
  destruct Hk as [Kc Ks Kw Kb]. unfold LSInfinity16 in HB.
  assert (Hd : u16 (Distance tk + w) = Distance tk + w) by (unfold u16; apply Z.mod_small; lia).
  assert (Hvia : forall p, p ∈ map (fun p => p ++ [k]) (Paths tk) -> walk g root p v (Distance tk + w)).
  { intros p (q & -> & Hq)%list_elem_of_fmap. apply walk_snoc; [by apply Kw|done]. }
  assert (Hne : map (fun p => p ++ [k]) (Paths tk) <> []) by (by destruct (Paths tk)).
  unfold nearer. rewrite Hd. destruct (Z.ltb_spec (Distance tk + w) (Distance t)) as [Hlt|Hge].
  { split; cbn; [by unfold counted; cbn; rewrite len_map|done|done|lia]. }
  destruct Ht as [->|Ht]. { cbn in Hge. unfold LSInfinity16 in Hge. lia. }
  destruct (Z.eqb_spec (Distance t) (Distance tk + w)) as [Heq|]; [|done]. destruct Ht as [Tc Ts Tw Tb].
  split; cbn; [|by destruct (Paths t)| |lia].
  - unfold counted in *. cbn. rewrite len_app, len_map. lia.
  - intros p [Hp|Hp]%elem_of_app; [|by apply Hvia]. rewrite <- Heq. by apply Tw.
Qed.

(** The vertices whose edges have been relaxed, and those found and not yet taken. *)
Record tree_inv (done : list VertexKey) (queue : list VertexKey) (B : Z) (T : tree) : Prop := {
  ti_dom : forall v, is_Some (T !! v) <-> v ∈ done ++ queue;
  ti_nodup : NoDup (done ++ queue);
  ti_graph : forall v, v ∈ done ++ queue -> is_Some (g !! v);
  ti_entry : forall v t, T !! v = Some t -> entry_ok B v t;
}.

Lemma tree_inv_counted done queue B T : tree_inv done queue B T -> tree_counted T.
Proof. intros I v t H. by apply (eo_counted _ _ _ (ti_entry _ _ _ _ I v t H)). Qed.

(** The edges of [k], which is among the vertices taken. *)
Section Edges.
Context (D Q : list VertexKey) (k : VertexKey) (tk : TreeVertex) (B : Z) (Hk : entry_ok B k tk) (HB : B + C < LSInfinity16).

Lemma relax_edge_inv es T new T' new' :
  (forall v w, (v, w) ∈ es -> edge g k v w) ->
  T !! k = Some tk -> tree_inv D (Q ++ map vKey new) (B + C) T ->
  foldl (relax_edge k tk) (T, new) es = (T', new') ->
  T' !! k = Some tk /\ tree_inv D (Q ++ map vKey new') (B + C) T' /\
  (forall v, is_Some (T !! v) -> is_Some (T' !! v)) /\ (forall v w, (v, w) ∈ es -> is_Some (T' !! v)).
Proof.
  revert T new. induction es as [|[v w] es IH]; intros T new Hes HT I E.
  { injection E as <- <-. split_and!; try done. by intros v w ?%elem_of_nil. }
  cbn [foldl] in E. pose proof (Hes v w ltac:(left)) as Hvw. destruct Hg as (_ & Hedge & _). destruct (Hedge k v w Hvw) as (Hne & Hv & _).
  assert (Ht : default far_vertex (T !! v) = far_vertex \/ entry_ok (B + C) v (default far_vertex (T !! v))).
  { destruct (T !! v) as [t|] eqn:Ev; [right; by eapply ti_entry|by left]. }
  pose proof (nearer_ok B k v w tk _ Hvw Hk HB Ht) as Hok.
  unfold relax_edge at 2 in E. cbn [fst snd] in E.
  set (t := nearer k tk w (default far_vertex (T !! v))) in *. clearbody t.
  apply IH in E as (E1 & E2 & E3 & E4).
  - split_and!; try done.
    + intros u Hu. apply E3. destruct (decide (u = v)) as [->|]; [by rewrite lookup_insert_eq|by rewrite lookup_insert_ne].
    + intros u x [[= -> ->]|Hu]%elem_of_cons; [|by eapply E4]. apply E3. by rewrite lookup_insert_eq.
  - intros u x Hu. apply Hes. by right.
  - by rewrite lookup_insert_ne.
  - destruct I as [Idom Inodup Igraph Ientry].
    assert (Hent : forall u t', <[v:=t]> T !! u = Some t' -> entry_ok (B + C) u t').
    { intros u t' Hu. apply lookup_insert_Some in Hu as [[<- <-]|[_ Hu]]; [done|by apply Ientry]. }
    destruct (T !! v) as [t0|] eqn:Ev.
    + split; try done. intros u. rewrite <- Idom. destruct (decide (u = v)) as [->|]; [|by rewrite lookup_insert_ne].
      rewrite lookup_insert_eq, Ev. by split; eexists.
    + assert (Hnew : v ∉ D ++ Q ++ map vKey new) by (rewrite <- Idom, Ev; by intros [? ?]).
      rewrite map_app, (app_assoc Q). cbn [map vKey]. split; try done.
      * intros u. rewrite app_assoc, elem_of_app, <- Idom, list_elem_of_singleton.
        destruct (decide (u = v)) as [->|]; [rewrite lookup_insert_eq; split; [by right|by eexists]|].
        rewrite lookup_insert_ne by done. split; [by left|]. by intros [?|?].
      * rewrite app_assoc. apply NoDup_app. split; [done|]. split; [|apply NoDup_singleton].
        intros u Hu ->%list_elem_of_singleton. done.
      * intros u. rewrite app_assoc, elem_of_app, list_elem_of_singleton. intros [Hu| ->]; [by apply Igraph|done].
Qed.
End Edges.
End Relax.

(** ** The loop *)

(** The hypotheses on sort.Sort: a permutation, and, as [Less] orders networks and routers,
    no entry is less than one before it. *)
Definition typed (v : VertexData) : Prop := Type_ (vKey v) = RouterVertex \/ Type_ (vKey v) = TNetworkVertex.

Record sorts (sort : list VertexData -> list VertexData) : Prop := {
  sort_perm l : Permutation (sort l) l;
  sort_sorted l : Forall typed l -> StronglySorted (fun a b => Less b a = false) (sort l);
}.

Section Loop.
Context (sort : list VertexData -> list VertexData) (Hsort : sorts sort).
Context (g : graph) (root : VertexKey) (C : Z) (Hg : graph_ok C g).

Definition sort_queue (q : list VertexData) : list VertexData := match q with [] => [] | _ => sort q end.

Lemma sort_queue_perm q : Permutation (sort_queue q) q.
Proof. destruct q as [|v q]; [done|]. apply (sort_perm sort Hsort). Qed.

Lemma index_nth {A} (l : list A) j x : l !! j = Some x -> index l (0 + Z.of_nat j) = Ok x.
Proof. intros H. unfold index. rewrite (proj2 (Z.ltb_ge _ _)) by lia. rewrite Z.add_0_l, Nat2Z.id. by rewrite H. Qed.

(** A turn of the loop that takes [v] changes the tree as [relax_edge] over its edges does. *)
Lemma dijkstra_turn fuel v queue s tk :
  shape (AreaGraph s) = g -> is_Some (g !! vKey v) -> SPFTree s !! vKey v = Some tk -> tree_counted (SPFTree s) ->
  let r := foldl (relax_edge (vKey v) tk) (SPFTree s, []) (edges_of g (vKey v)) in
  exists ent, AreaGraph s !! vKey v = Some ent /\
  dijkstra sort (S fuel) (v :: queue) s =
    dijkstra sort fuel (sort_queue (queue ++ r.2))
      (set_AreaGraph (<[vKey v := mark_visited ent]> (AreaGraph s)) (set_SPFTree r.1 s)).
Proof.
  intros Hs [[ks cs] Hv] Hk HT. cbn zeta. pose proof Hv as Hlook. rewrite <- Hs in Hlook. unfold shape in Hlook.
  rewrite lookup_fmap in Hlook. destruct (AreaGraph s !! vKey v) as [ent|] eqn:E; [|done]. injection Hlook as <- <-.
  exists ent. split; [done|]. cbn [dijkstra]. rewrite E. destruct Hg as (Hlen & Hedge & _).
  pose proof (Hlen _ _ _ Hv) as Hl. unfold edges_of. rewrite Hv.
  rewrite (expand_run (vKey v) tk _ _ (NbrVertexCost ent)); [by res_simpl|done| | |done|done].
  - intros j c Hj. by apply index_nth.
  - intros u (i & Hi)%list_elem_of_lookup.
    destruct (lookup_lt_is_Some_2 (NbrVertexCost ent) i) as [w Hw]. { rewrite <- Hl. by eapply lookup_lt_Some. }
    destruct (Hedge (vKey v) u w) as (Hne & Hvis & _); [by exists (NbrVertexKey ent), (NbrVertexCost ent), i|].
    split; [done|]. apply visited_shape. by rewrite Hs.
Qed.

Lemma tree_inv_perm D q q' B T : Permutation q q' -> tree_inv g root D q B T -> tree_inv g root D q' B T.
Proof.
  intros H [I1 I2 I3 I4]. split; try done.
  - intros v. rewrite <- H. apply I1.
  - by rewrite <- H.
  - intros v. rewrite <- H. apply I3.
Qed.

(** The invariant between turns, with [D] the vertices taken. *)
Record loop_inv (D : list VertexKey) (queue : list VertexData) (s : OSPFServer) : Prop := {
  li_shape : shape (AreaGraph s) = g;
  li_tree : tree_inv g root D (map vKey queue) (C * len D) (SPFTree s);
  li_edges : forall u v w, u ∈ D -> edge g u v w -> is_Some (SPFTree s !! v);
}.

Lemma loop_inv_size D queue s : loop_inv D queue s -> (length D + length queue <= size g)%nat.
Proof.
  intros [_ [I1 I2 I3 _] _]. rewrite <- (length_map vKey queue), <- length_app, <- size_dom.
  rewrite <- (size_list_to_set (C:=gset VertexKey)) by done. apply subseteq_size. intros v.
  rewrite elem_of_list_to_set. intros Hv. by apply elem_of_dom, I3.
Qed.

(** Taking [v] of the queue: the tree before its edges are relaxed, and after. *)
Lemma loop_step D v queue s tk T' new :
  loop_inv D (v :: queue) s -> SPFTree s !! vKey v = Some tk ->
  foldl (relax_edge (vKey v) tk) (SPFTree s, []) (edges_of g (vKey v)) = (T', new) ->
  tree_inv g root (D ++ [vKey v]) (map vKey (queue ++ new)) (C * len (D ++ [vKey v])) T' /\ T' !! vKey v = Some tk /\
  (forall u, is_Some (SPFTree s !! u) -> is_Some (T' !! u)) /\ (forall u w, edge g (vKey v) u w -> is_Some (T' !! u)).
Proof.
  intros I Hk E. pose proof (loop_inv_size _ _ _ I) as Hsize. destruct I as [Is It Ie]. cbn [length map] in *.
  pose proof Hg as (_ & _ & HC & Hmax). rewrite len_app, len_single, Z.mul_add_distr_l, Z.mul_1_r.
  assert (HB : C * len D + C < LSInfinity16). { unfold len. nia. }
  pose proof (ti_entry _ _ _ _ _ _ It _ _ Hk) as Hok.
  eapply (relax_edge_inv g root C Hg (D ++ [vKey v]) (map vKey queue)) in E as (E1 & E2 & E3 & E4); [|exact Hok|exact HB| | |].
  - rewrite map_app. split_and!; try done. intros u w Hu. eapply E4. by apply edges_of_edge.
  - intros u w. apply edges_of_edge.
  - done.
  - destruct It as [I1 I2 I3 I4]. cbn [map]. rewrite app_nil_r.
    split; rewrite <- ?app_assoc; try done. intros u t Hu. eapply entry_mono; [|by apply I4]. lia.
Qed.

Lemma dijkstra_inv fuel D queue s :
  loop_inv D queue s -> (size g < length D + fuel)%nat ->
  exists s' D', dijkstra sort fuel queue s = Ok (s', None) /\ loop_inv D' [] s' /\ (forall u, u ∈ D ++ map vKey queue -> u ∈ D').
Proof.
  revert D queue s. induction fuel as [|fuel IH]; intros D queue s I Hf.
  { pose proof (loop_inv_size _ _ _ I). lia. }
  destruct queue as [|v queue].
  { exists s, D. split_and!; try done. intros u. by rewrite app_nil_r. }
  pose proof I as [Is It Ie]. destruct (ti_dom _ _ _ _ _ _ It (vKey v)) as [_ Hin].
  destruct Hin as [tk Hk]; [rewrite elem_of_app; right; left|].
  destruct (dijkstra_turn fuel v queue s tk) as (ent & Hent & ->); [done| |done|by eapply tree_inv_counted|].
  { apply (ti_graph _ _ _ _ _ _ It). rewrite elem_of_app. right. left. }
  destruct (foldl _ _ _) as [T' new] eqn:E. cbn [fst snd].
  destruct (loop_step D v queue s tk T' new I Hk E) as (E1 & E2 & E3 & E4).
  destruct (IH (D ++ [vKey v]) (sort_queue (queue ++ new))
             (set_AreaGraph (<[vKey v := mark_visited ent]> (AreaGraph s)) (set_SPFTree T' s))) as (s' & D' & R1 & R2 & R3).
  - split.
    + cbn. by rewrite shape_mark.
    + cbn. eapply tree_inv_perm; [|exact E1]. symmetry. apply Permutation_map, sort_queue_perm.
    + cbn. intros u x w [Hu| ->%list_elem_of_singleton]%elem_of_app Hx; [eapply E3, Ie; eauto|by eapply E4].
  - rewrite length_app. cbn. lia.
  - exists s', D'. split_and!; try done. intros u Hu. apply R3. rewrite !elem_of_app in *. cbn in Hu.
    destruct Hu as [Hu|[-> |Hu]%elem_of_cons]; [by left; left|left; right; by left|]. right.
    apply list_elem_of_fmap in Hu as (x & -> & Hx). apply list_elem_of_fmap. exists x. split; [done|].
    rewrite sort_queue_perm, elem_of_app. by left.
Qed.
End Loop.

(** ** Equal metrics

    The place of a vertex in the order of [Less], and the distance it offers its neighbours
    when every router has the metric [c]. *)
Definition rank (v : VertexKey) (d : Z) : Z := 2 * d + (if Type_ v =? RouterVertex then 1 else 0).
Definition offer (c : Z) (v : VertexKey) (d : Z) : Z := d + (if Type_ v =? RouterVertex then c else 0).

Record equal_metrics (c : Z) (g : graph) : Prop := {
  em_pos : 0 < c;
  em_type : forall v, is_Some (g !! v) -> Type_ v = RouterVertex \/ Type_ v = TNetworkVertex;
  em_router : forall u v w, edge g u v w -> Type_ u = RouterVertex -> w = c;
  em_network : forall u v w, edge g u v w -> Type_ u = TNetworkVertex -> w = 0 /\ Type_ v = RouterVertex;
}.

Lemma less_rank a b : typed a -> typed b -> Less b a = false -> rank (vKey a) (distance a) <= rank (vKey b) (distance b).
Proof.
  unfold typed, Less, rank, RouterVertex, TNetworkVertex. intros [Ha|Ha] [Hb|Hb]; rewrite Ha, Hb; cbn;
    destruct (Z.eqb_spec (distance b) (distance a)), (Z.ltb_spec (distance b) (distance a)); intros E; try done; lia.
Qed.

Lemma offer_mono c u d v d' : 0 < c -> (c | d) -> (c | d') -> rank u d <= rank v d' -> offer c u d <= offer c v d'.
Proof.
  unfold rank, offer. intros Hc [a ->] [b ->] H.
  assert (a < b \/ a = b \/ b < a) as [|[->|]] by lia; destruct (_ =? _), (_ =? _); nia.
Qed.

Lemma edge_offer c g u v w d : equal_metrics c g -> edge g u v w -> is_Some (g !! u) ->
  d + w = offer c u d /\ rank u d < rank v (offer c u d).
Proof.
  intros H He Hu. unfold offer, rank. destruct (em_type _ _ H u Hu) as [Ht|Ht]; rewrite Ht; cbn.
  - pose proof (em_pos _ _ H). pose proof (em_router _ _ H _ _ _ He Ht). destruct (_ =? _); lia.
  - destruct (em_network _ _ H _ _ _ He Ht) as [-> ->]. cbn. lia.
Qed.

Section Offers.
Context (k : VertexKey) (tk : TreeVertex) (o : Z) (Ho : 0 <= o < LSInfinity16).

(** How relaxing edges that all offer [o] changes a tree whose distances are at most [o]. *)
Record offered (es : list (VertexKey * Z)) (T T' : tree) (new new' : list VertexData) : Prop := {
  of_old : forall u t, T !! u = Some t ->
    exists t', T' !! u = Some t' /\ Distance t' = Distance t /\ Paths t ⊆ Paths t' /\ (Distance t < o -> t' = t);
  of_new : forall u t', T !! u = None -> T' !! u = Some t' -> Distance t' = o;
  of_edge : forall u w, (u, w) ∈ es -> exists t', T' !! u = Some t' /\ Distance t' <= o /\
    (Distance t' = o -> forall p, p ∈ Paths tk -> p ++ [k] ∈ Paths t');
  of_queue : forall x, x ∈ new' ->
    x ∈ new \/ (distance x = o /\ (exists t', T' !! vKey x = Some t' /\ Distance t' = o) /\ exists w, (vKey x, w) ∈ es);
}.

Lemma nearer_offered w t :
  Distance tk + w = o -> (t = far_vertex \/ Distance t <= o) ->
  let t' := nearer k tk w t in
  Distance t' = Z.min (Distance t) o /\ (t <> far_vertex -> Paths t ⊆ Paths t') /\ (Distance t < o -> t' = t) /\
  (Distance t' = o -> forall p, p ∈ Paths tk -> p ++ [k] ∈ Paths t').
Proof.
  intros Hw Ht t'. subst t'. unfold nearer. rewrite Hw. unfold LSInfinity16 in *.
  replace (u16 o) with o by (symmetry; apply Z.mod_small; lia).
  assert (Hvia : forall p, p ∈ Paths tk -> p ++ [k] ∈ map (fun p => p ++ [k]) (Paths tk)).
  { intros p Hp. apply list_elem_of_fmap. by exists p. }
  destruct (Z.ltb_spec o (Distance t)) as [Hlt|Hge]; cbn.
  - destruct Ht as [->|]; [|lia]. cbn in *. split_and!; [lia|done|lia|by intros _].
  - destruct (Z.eqb_spec (Distance t) o) as [E|]; cbn; split_and!; try lia; try done.
    + intros _ p Hp. apply elem_of_app. by left.
    + intros _ p Hp. apply elem_of_app. right. by apply Hvia.
Qed.

Lemma relax_offered es T new :
  (forall u w, (u, w) ∈ es -> Distance tk + w = o) -> (forall u t, T !! u = Some t -> Distance t <= o) ->
  offered es T (foldl (relax_edge k tk) (T, new) es).1 new (foldl (relax_edge k tk) (T, new) es).2.
Proof.
  revert T new. induction es as [|[v w] es IH]; intros T new Hes HT.
  { cbn. split; try done.
    - intros u t Hu. exists t. split_and!; [done|done|done|done].
    - intros u t' H1 H2. congruence.
    - by intros u w ?%elem_of_nil.
    - intros x Hx. by left. }
  cbn [foldl]. assert (Hnear : default far_vertex (T !! v) = far_vertex \/ Distance (default far_vertex (T !! v)) <= o).
  { destruct (T !! v) as [t|] eqn:Ev; [right; by eapply HT|by left]. }
  destruct (nearer_offered w _ (Hes v w ltac:(left)) Hnear) as (N1 & N2 & N3 & N4).
  unfold relax_edge at 2 4. cbn [fst snd]. set (t1 := nearer k tk w (default far_vertex (T !! v))) in *. clearbody t1.
  assert (Hd1 : Distance t1 <= o) by lia.
  destruct (IH (<[v := t1]> T) (match T !! v with Some _ => new | None => new ++ [mkVertexData v (Distance t1)] end)) as [I1 I2 I3 I4].
  { intros u x Hu. eapply Hes. by right. }
  { intros u t Hu. apply lookup_insert_Some in Hu as [[_ <-]|[_ Hu]]; eauto. }
  destruct (I1 v t1) as (t2 & E2 & D2 & P2 & F2); [by rewrite lookup_insert_eq|].
  destruct (foldl _ _ _) as [T' new'] eqn:E. cbn [fst snd] in *. split.
  - intros u t Hu. destruct (decide (u = v)) as [->|Hne].
    + rewrite Hu in *. cbn [default from_option id] in *. specialize (HT v t Hu). exists t2. split_and!; [done|lia| |].
      * etransitivity; [|exact P2]. apply N2. intros ->. cbn in HT. unfold LSInfinity16 in *. lia.
      * intros Hlt. specialize (N3 Hlt). subst t1. by apply F2.
    + apply I1. by rewrite lookup_insert_ne.
  - intros u t' Hu Ht'. destruct (decide (u = v)) as [->|Hne].
    + rewrite Hu in *. cbn [default from_option id] in *. rewrite E2 in Ht'. injection Ht' as <-. cbn in N1. unfold LSInfinity16 in *. lia.
    + apply (I2 u); [by rewrite lookup_insert_ne|done].
  - intros u x [[= -> ->]|Hu]%elem_of_cons; [|by apply (I3 u x)].
    exists t2. split_and!; [done|lia|]. intros Hd p Hp. apply P2, N4; [lia|done].
  - intros x Hx. destruct (I4 x Hx) as [Hx'|(H1 & H2 & z & H3)]; [|right; split_and!; [done|done|exists z; by right]].
    destruct (T !! v) as [t|] eqn:Ev; [by left|]. apply elem_of_app in Hx' as [| ->%list_elem_of_singleton]; [by left|].
    right. cbn in *. unfold LSInfinity16 in *. split_and!; [lia| |exists w; left]. exists t2. split; [done|lia].
Qed.
End Offers.

Section Optimal.
Context (sort : list VertexData -> list VertexData) (Hsort : sorts sort).
Context (g : graph) (root : VertexKey) (C : Z) (Hg : graph_ok C g).
Context (c : Z) (Hm : equal_metrics c g).

Definition rank_of (x : VertexData) : Z := rank (vKey x) (distance x).

(** The invariant between turns, beside [loop_inv]: the queue is in order and no vertex taken
    is behind it, every distance is one that a vertex taken offers, and the vertices taken have
    offered theirs. *)
Record opt_inv (D : list VertexKey) (queue : list VertexData) (T : tree) : Prop := {
  oi_dist : forall x, x ∈ queue -> exists t, T !! vKey x = Some t /\ Distance t = distance x;
  oi_sorted : StronglySorted (fun a b => rank_of a <= rank_of b) queue;
  oi_taken : forall u t x, u ∈ D -> T !! u = Some t -> x ∈ queue -> rank u (Distance t) <= rank_of x;
  oi_mult : forall u t, T !! u = Some t -> (c | Distance t);
  oi_source : forall v t, T !! v = Some t ->
    Distance t = 0 \/ exists u tu, u ∈ D /\ T !! u = Some tu /\ Distance t = offer c u (Distance tu);
  oi_edge : forall u v w tu, u ∈ D -> edge g u v w -> T !! u = Some tu ->
    exists tv, T !! v = Some tv /\ Distance tv <= Distance tu + w /\
      (Distance tv = Distance tu + w -> forall p, p ∈ Paths tu -> p ++ [u] ∈ Paths tv);
  oi_root : exists t, T !! root = Some t /\ Distance t = 0 /\ [] ∈ Paths t;
}.

Lemma typed_in_graph x : is_Some (g !! vKey x) -> typed x.
Proof. intros H. exact (em_type _ _ Hm _ H). Qed.

Lemma sort_ranked q :
  (forall x, x ∈ q -> is_Some (g !! vKey x)) -> StronglySorted (fun a b => rank_of a <= rank_of b) (sort_queue sort q).
Proof.
  intros H. destruct q as [|x q]; [constructor|]. cbn [sort_queue].
  assert (Ht : Forall typed (x :: q)) by (apply Forall_forall; intros y Hy; by apply typed_in_graph, H).
  assert (Ht' : Forall typed (sort (x :: q))) by (by rewrite (sort_perm sort Hsort)).
  pose proof (sort_sorted sort Hsort _ Ht) as S. revert S Ht'. generalize (sort (x :: q)). induction 1 as [|a l _ IH Ha]; [constructor|].
  intros [Hta Htl]%Forall_cons. constructor; [by apply IH|].
  rewrite Forall_forall in Htl, Ha. apply Forall_forall. intros b Hb. apply less_rank; [done|by apply Htl|by apply Ha].
Qed.

(** What holds when [x] is taken and [k] is its vertex. *)
Section Turn.
Context (D : list VertexKey) (x : VertexData) (queue : list VertexData) (T : tree) (tk : TreeVertex) (B : Z).
Context (I : opt_inv D (x :: queue) T) (It : tree_inv g root D (map vKey (x :: queue)) B T) (Hk : T !! vKey x = Some tk).
Context (HB : B + C < LSInfinity16).
Let k := vKey x.
Let o := offer c k (Distance tk).

Lemma turn_graph u : u ∈ D ++ vKey x :: map vKey queue -> is_Some (g !! u).
Proof. intros Hu. by apply (ti_graph _ _ _ _ _ _ It). Qed.

Lemma turn_key : is_Some (g !! k).
Proof. apply turn_graph. rewrite elem_of_app. right. left. Qed.

Lemma turn_distance : Distance tk = distance x.
Proof. destruct (oi_dist _ _ _ I x) as (t & Ht & Hd); [left|]. rewrite Ht in Hk. by injection Hk as ->. Qed.

Lemma turn_rank_done u t : u ∈ D -> T !! u = Some t -> rank u (Distance t) <= rank k (Distance tk).
Proof. intros Hu Ht. rewrite turn_distance. apply (oi_taken _ _ _ I u t x); [done|done|left]. Qed.

Lemma turn_rank_queue y : y ∈ queue -> rank k (Distance tk) <= rank_of y.
Proof.
  intros Hy. rewrite turn_distance. pose proof (oi_sorted _ _ _ I) as S. apply StronglySorted_inv in S as [_ S].
  rewrite Forall_forall in S. by apply S.
Qed.

Lemma turn_offer v w : edge g k v w -> Distance tk + w = o /\ rank k (Distance tk) < rank v o.
Proof. intros He. by apply (edge_offer c g k v w _ Hm He), turn_key. Qed.

Lemma rank_distance u v d d' : rank u d <= rank v d' -> d <= d'.
Proof. unfold rank. destruct (_ =? _), (_ =? _); lia. Qed.

Lemma offer_ge u d : d <= offer c u d.
Proof. unfold offer. pose proof (em_pos _ _ Hm). destruct (_ =? _); lia. Qed.

Lemma turn_bound u t : T !! u = Some t -> Distance t <= o.
Proof.
  intros Hu. pose proof (oi_mult _ _ _ I _ _ Hk) as Mk. pose proof (eo_bound _ _ _ _ _ (ti_entry _ _ _ _ _ _ It _ _ Hk)) as Bk.
  destruct (oi_source _ _ _ I u t Hu) as [-> |(v & tv & Hv & Htv & ->)].
  - pose proof (offer_ge k (Distance tk)). unfold o. lia.
  - apply offer_mono; [apply (em_pos _ _ Hm)|by eapply oi_mult|done|by apply turn_rank_done].
Qed.

Lemma turn_offer_small v w : edge g k v w -> 0 <= o < LSInfinity16.
Proof.
  intros He. destruct (turn_offer v w He) as [<- _]. destruct Hg as (_ & Hedge & _). destruct (Hedge _ _ _ He) as (_ & _ & Hw).
  pose proof (eo_bound _ _ _ _ _ (ti_entry _ _ _ _ _ _ It _ _ Hk)). unfold LSInfinity16 in *. lia.
Qed.

(** The tree after the edges of [k]. *)
Lemma turn_offered : exists T' new,
  foldl (relax_edge k tk) (T, []) (edges_of g k) = (T', new) /\ offered k tk o (edges_of g k) T T' [] new.
Proof.
  destruct (foldl _ _ _) as [T' new] eqn:E. exists T', new. split; [done|].
  destruct (edges_of g k) as [|[v w] es] eqn:Ees.
  - injection E as <- <-. split; try done.
    + intros u t Hu. exists t. split_and!; done.
    + congruence.
    + by intros u w ?%elem_of_nil.
    + by intros y ?%elem_of_nil.
  - assert (R : offered k tk o ((v, w) :: es) T (foldl (relax_edge k tk) (T, []) ((v, w) :: es)).1 []
                  (foldl (relax_edge k tk) (T, []) ((v, w) :: es)).2).
    { apply relax_offered; [eapply turn_offer_small, edges_of_edge; rewrite Ees; left| |exact turn_bound].
      intros u z Hu. apply (turn_offer u z), edges_of_edge. by rewrite Ees. }
    by rewrite E in R.
Qed.

(** A vertex taken earlier has nothing to gain from [k]. *)
Lemma turn_frozen T' new u t v w :
  offered k tk o (edges_of g k) T T' [] new -> edge g k v w -> u = v -> u ∈ D ++ [k] -> T !! u = Some t -> T' !! u = Some t.
Proof.
  intros R He -> Hu Ht. destruct (of_old _ _ _ _ _ _ _ _ R v t Ht) as (t' & Ht' & _ & _ & F). rewrite Ht'. f_equal. apply F.
  destruct (turn_offer v w He) as [_ Hr]. apply elem_of_app in Hu as [Hu| ->%list_elem_of_singleton].
  - pose proof (turn_rank_done v t Hu Ht). unfold rank in *. lia.
  - destruct Hg as (_ & Hedge & _). by destruct (Hedge _ _ _ He).
Qed.

(** Nothing else changes it either. *)
Lemma untouched es u T0 new0 :
  (forall w, (u, w) ∉ es) -> (foldl (relax_edge k tk) (T0, new0) es).1 !! u = T0 !! u.
Proof.
  revert T0 new0. induction es as [|[v w] es IH]; intros T0 new0 H; [done|]. cbn [foldl]. unfold relax_edge at 2. cbn [fst snd].
  rewrite IH by (intros z Hz; apply (H z); by right). apply lookup_insert_ne. intros ->. apply (H w). left.
Qed.

Lemma turn_done T' new u t :
  foldl (relax_edge k tk) (T, []) (edges_of g k) = (T', new) -> offered k tk o (edges_of g k) T T' [] new ->
  u ∈ D ++ [k] -> T !! u = Some t -> T' !! u = Some t.
Proof.
  intros E R Hu Ht. destruct (decide (Exists (fun e => e.1 = u) (edges_of g k))) as [He|He].
  - apply Exists_exists in He as ([v w] & Hv & <-). eapply turn_frozen; eauto. by apply edges_of_edge.
  - rewrite <- Ht. replace T' with (foldl (relax_edge k tk) (T, []) (edges_of g k)).1 by (by rewrite E). apply untouched.
    intros w Hw. apply He, Exists_exists. by exists (u, w).
Qed.

Lemma turn_opt T' new B' :
  foldl (relax_edge k tk) (T, []) (edges_of g k) = (T', new) -> offered k tk o (edges_of g k) T T' [] new ->
  tree_inv g root (D ++ [k]) (map vKey (queue ++ new)) B' T' ->
  opt_inv (D ++ [k]) (sort_queue sort (queue ++ new)) T'.
Proof.
  intros E R It'. assert (Hk' : T !! k = Some tk) by exact Hk. pose proof (turn_done T' new) as Hdone. specialize (fun u t => Hdone u t E R).
  assert (Hq : forall y, y ∈ sort_queue sort (queue ++ new) <-> y ∈ queue \/ y ∈ new).
  { intros y. by rewrite (sort_queue_perm sort Hsort), elem_of_app. }
  assert (Hmem : forall u, u ∈ D ++ [k] -> exists t, T !! u = Some t /\ T' !! u = Some t).
  { intros u Hu. destruct (proj2 (ti_dom _ _ _ _ _ _ It u)) as [t Ht]; [|exists t; split; [done|by apply Hdone]].
    rewrite elem_of_app in *. destruct Hu as [Hu| ->%list_elem_of_singleton]; [by left|right; left]. }
  split.
  - intros y [Hy|Hy]%Hq.
    + destruct (oi_dist _ _ _ I y) as (t & Ht & Hd); [by right|].
      destruct (of_old _ _ _ _ _ _ _ _ R _ t Ht) as (t' & Ht' & Hd' & _). exists t'. split; [done|lia].
    + destruct (of_queue _ _ _ _ _ _ _ _ R y Hy) as [[]%elem_of_nil|(Hd & (t' & Ht' & Hd') & w & Hw)]. exists t'. split; [done|lia].
  - apply sort_ranked. intros y Hy. apply (ti_graph _ _ _ _ _ _ It'). rewrite elem_of_app. right.
    apply list_elem_of_fmap. by exists y.
  - intros u t y Hu Ht [Hy|Hy]%Hq; destruct (Hmem u Hu) as (t0 & Ht0 & Ht0'); rewrite Ht0' in Ht; injection Ht as ->.
    + apply elem_of_app in Hu as [Hu| ->%list_elem_of_singleton].
      * etransitivity; [by apply turn_rank_done|by apply turn_rank_queue].
      * rewrite Hk' in Ht0. injection Ht0 as <-. by apply turn_rank_queue.
    + destruct (of_queue _ _ _ _ _ _ _ _ R y Hy) as [[]%elem_of_nil|(Hd & (t' & Ht' & Hd') & w & Hw)].
      assert (Hu' : rank u (Distance t) <= rank k (Distance tk)).
      { apply elem_of_app in Hu as [Hu| ->%list_elem_of_singleton]; [by apply turn_rank_done|]. rewrite Hk' in Ht0. by injection Ht0 as <-. }
      unfold rank_of. rewrite Hd. apply edges_of_edge in Hw. destruct (turn_offer _ w Hw) as [_ Hr]. lia.
  - intros u t Hu. destruct (T !! u) as [t0|] eqn:Eu.
    + destruct (of_old _ _ _ _ _ _ _ _ R u t0 Eu) as (t' & Ht' & Hd & _). rewrite Ht' in Hu. injection Hu as ->.
      rewrite Hd. by apply (oi_mult _ _ _ I u).
    + rewrite (of_new _ _ _ _ _ _ _ _ R u t Eu Hu). unfold o, offer. apply Z.divide_add_r; [by apply (oi_mult _ _ _ I k)|].
      destruct (_ =? _); [done|apply Z.divide_0_r].
  - intros u t Hu. destruct (T !! u) as [t0|] eqn:Eu.
    + destruct (of_old _ _ _ _ _ _ _ _ R u t0 Eu) as (t' & Ht' & Hd & _). rewrite Ht' in Hu. injection Hu as ->. rewrite Hd.
      destruct (oi_source _ _ _ I u t0 Eu) as [|(v & tv & Hv & Htv & Hs)]; [by left|]. right. exists v, tv.
      split_and!; [apply elem_of_app; by left| |done]. apply Hdone; [apply elem_of_app; by left|done].
    + right. exists k, tk. rewrite (of_new _ _ _ _ _ _ _ _ R u t Eu Hu). split_and!; [apply elem_of_app; right; left| |done].
      apply Hdone; [apply elem_of_app; right; left|done].
  - intros u v w tu Hu He Htu. destruct (Hmem u Hu) as (t0 & Ht0 & Ht0'). rewrite Ht0' in Htu. injection Htu as ->.
    apply elem_of_app in Hu as [Hu| ->%list_elem_of_singleton].
    + destruct (oi_edge _ _ _ I u v w tu Hu He Ht0) as (tv & Htv & Hle & Hp).
      destruct (of_old _ _ _ _ _ _ _ _ R v tv Htv) as (t' & Ht' & Hd & Hsub & _). exists t'. rewrite Hd. split_and!; try done.
      intros Heq p Hin. by apply Hsub, Hp.
    + rewrite Hk' in Ht0. injection Ht0 as <-. destruct (turn_offer v w He) as [-> _].
      apply (of_edge _ _ _ _ _ _ _ _ R v w). by apply edges_of_edge.
  - destruct (oi_root _ _ _ I) as (t & Ht & Hd & Hp). destruct (of_old _ _ _ _ _ _ _ _ R root t Ht) as (t' & Ht' & Hd' & Hsub & _).
    exists t'. split_and!; [done|lia|by apply Hsub].
Qed.
End Turn.
Lemma dijkstra_opt fuel D queue s :
  loop_inv g root C D queue s -> opt_inv D queue (SPFTree s) -> (size g < length D + fuel)%nat ->
  exists s' D', dijkstra sort fuel queue s = Ok (s', None) /\ loop_inv g root C D' [] s' /\ opt_inv D' [] (SPFTree s').
Proof.
  revert D queue s. induction fuel as [|fuel IH]; intros D queue s I O Hf.
  { pose proof (loop_inv_size g root C _ _ _ I). lia. }
  destruct queue as [|v queue]; [by exists s, D|].
  pose proof I as [Is It Ie]. destruct (ti_dom _ _ _ _ _ _ It (vKey v)) as [_ Hin].
  destruct Hin as [tk Hk]; [rewrite elem_of_app; right; left|].
  destruct (dijkstra_turn sort g C Hg fuel v queue s tk) as (ent & Hent & ->); [done| |done|by eapply tree_inv_counted|].
  { apply (ti_graph _ _ _ _ _ _ It). rewrite elem_of_app. right. left. }
  assert (HB : C * len D + C < LSInfinity16).
  { pose proof (loop_inv_size g root C _ _ _ I) as Hsize. cbn [length] in Hsize. destruct Hg as (_ & _ & HC & Hmax). unfold len. nia. }
  destruct (turn_offered D v queue (SPFTree s) tk _ O It Hk HB) as (T' & new & E & R).
  destruct (loop_step g root C Hg D v queue s tk T' new I Hk E) as (E1 & E2 & E3 & E4).
  pose proof (turn_opt D v queue (SPFTree s) tk _ O It Hk T' new _ E R E1) as O'.
  rewrite E. cbn [fst snd].
  apply (IH (D ++ [vKey v])); [|exact O'|rewrite length_app; cbn; lia]. split.
  - cbn. by rewrite shape_mark.
  - cbn. eapply tree_inv_perm; [|exact E1]. symmetry. apply Permutation_map, sort_queue_perm, Hsort.
  - cbn. intros u x w [Hu| ->%list_elem_of_singleton]%elem_of_app Hx; [eapply E3, Ie; eauto|by eapply E4].
Qed.

(** A tree whose vertices have all made their offers holds the least distances and every
    path of that cost. *)
Lemma opt_shortest D s v t :
  loop_inv g root C D [] s -> opt_inv D [] (SPFTree s) -> SPFTree s !! v = Some t ->
  forall p x, walk g root p v x -> Distance t <= x /\ (Distance t = x -> p ∈ Paths t).
Proof.
  intros [Is It Ie] O Ht p x Hw. revert t Ht.
  assert (Hall : forall u t, SPFTree s !! u = Some t -> u ∈ D).
  { intros u t Hu. rewrite <- (app_nil_r D). apply (ti_dom _ _ _ _ _ _ It). by exists t. }
  induction Hw as [|p u v y w Hw IH He]; intros t Ht.
  - destruct (oi_root _ _ _ O) as (t0 & Ht0 & Hd & Hp). rewrite Ht in Ht0. injection Ht0 as ->. split; [lia|done].
  - destruct (SPFTree s !! u) as [tu|] eqn:Hu.
    + destruct (IH tu eq_refl) as [Hle Hp]. destruct (oi_edge _ _ _ O u v w tu (Hall u tu Hu) He Hu) as (tv & Htv & Hd & Hin).
      rewrite Ht in Htv. injection Htv as ->. split; [lia|]. intros Heq. apply Hin; [lia|]. apply Hp. lia.
    + exfalso. clear IH Ht t. assert (Hr : forall q z d, walk g root q z d -> is_Some (SPFTree s !! z)).
      { intros q z d. induction 1 as [|q a b d e Hq [ta Ha] Hab]; [destruct (oi_root _ _ _ O) as (t0 & Ht0 & _); by exists t0|].
        eapply Ie; [by eapply Hall|done]. }
      apply Hr in Hw. rewrite Hu in Hw. by destruct Hw.
Qed.
End Optimal.
