(* ===== verification/OspfSpfProps.v ===== *)
(** * OSPF: properties of the shortest path tree *)

From Stdlib Require Import Sorting.Sorted.
From S2P Require Import Prelude.
From S2P Require Import OspfUtil.
From S2P Require Import OspfLsa.
From S2P Require Import OspfServer.
From S2P Require Import OspfSpf.
From S2P Require Import OspfSpfSpec.

(** ** The first turn *)

Section Start.
Context (g : graph) (root : VertexKey) (C : Z) (Hg : graph_ok C g) (s : OSPFServer).
Context (Hs : shape (AreaGraph s) = g) (Hroot : is_Some (g !! root)) (Ht : SPFTree s = ∅).

Definition start : OSPFServer := set_SPFTree (<[root := root_vertex]> (SPFTree s)) s.

Lemma execute_start sort :
  ExecuteDijkstra sort root s = dijkstra sort (S (size g)) [mkVertexData root 0] start.
Proof. unfold ExecuteDijkstra. rewrite Ht, lookup_empty, <- Hs, <- Ht. unfold shape. by rewrite map_size_fmap. Qed.

Lemma start_tree v t : SPFTree start !! v = Some t -> v = root /\ t = root_vertex.
Proof. cbn. rewrite Ht. intros [[<- <-]|[_ []%lookup_empty_Some]]%lookup_insert_Some. done. Qed.

Lemma start_root : SPFTree start !! root = Some root_vertex.
Proof. cbn. apply lookup_insert_eq. Qed.

Lemma start_loop : loop_inv g root C [] [mkVertexData root 0] start.
Proof.
  split; [done| |by intros u v w ?%elem_of_nil]. cbn [map vKey app]. split; cbn [app].
  - intros v. rewrite list_elem_of_singleton. split; [by intros [t [-> _]%start_tree]|]. intros ->. rewrite start_root. by eexists.
  - apply NoDup_singleton.
  - by intros v ->%list_elem_of_singleton.
  - intros v t [-> ->]%start_tree. split; [done|done| |unfold len; cbn; lia]. intros p ->%list_elem_of_singleton. constructor.
Qed.

Lemma start_opt c : opt_inv g root c [] [mkVertexData root 0] (SPFTree start).
Proof.
  split.
  - intros x ->%list_elem_of_singleton. exists root_vertex. split; [apply start_root|done].
  - repeat constructor.
  - by intros u t x ?%elem_of_nil.
  - intros u t [_ ->]%start_tree. apply Z.divide_0_r.
  - intros v t [_ ->]%start_tree. by left.
  - by intros u v w tu ?%elem_of_nil.
  - exists root_vertex. rewrite start_root. split_and!; [done|done|left].
Qed.

Lemma walk_found D s' p v x :
  loop_inv g root C D [] s' -> root ∈ D -> walk g root p v x -> is_Some (SPFTree s' !! v).
Proof.
  intros [_ It Ie] Hr. induction 1 as [|p u v y w _ IH He]; [by apply (ti_dom _ _ _ _ _ _ It), elem_of_app; left|].
  eapply Ie; [|exact He]. apply (ti_dom _ _ _ _ _ _ It) in IH. by rewrite app_nil_r in IH.
Qed.
End Start.

(** C13: on an area graph in which every neighbour of a vertex is itself a vertex and not the vertex
    it is a neighbour of, every vertex has one cost for each neighbour, from 0 to C, and C times
    the number of vertices is below LSInfinity ([graph_ok]), the calculation from a vertex of the
    graph ends without an error, finds just the vertices that can be reached, and every path it
    records for one is a path of the graph from the root whose cost is the recorded distance.
    A link to a vertex that is missing is excluded: it ends the calculation with an error
    (spf_dangling_link_stops_area). The sort is any that sorts by distance. *)
Theorem spf_tree_correct sort C root s :
  sorts sort -> graph_ok C (shape (AreaGraph s)) -> is_Some (AreaGraph s !! root) -> SPFTree s = ∅ ->
  let g := shape (AreaGraph s) in
  exists s', ExecuteDijkstra sort root s = Ok (s', None) /\ shape (AreaGraph s') = g /\
  (forall v, is_Some (SPFTree s' !! v) <-> reachable g root v) /\
  (forall v t, SPFTree s' !! v = Some t ->
     NumOfPaths t = len (Paths t) /\ Paths t <> [] /\ forall p, p ∈ Paths t -> walk g root p v (Distance t)).
Proof.
  intros Hsort Hg Hroot Ht g. assert (Hr : is_Some (g !! root)) by (by apply visited_shape, bool_decide_eq_true).
  destruct (dijkstra_inv sort Hsort g root C Hg (S (size g)) [] [mkVertexData root 0] (start root s)) as (s' & D & E & I & Hin).
  { by apply start_loop. } { cbn. lia. }
  exists s'. rewrite (execute_start g) by done. split_and!; [done|by destruct I| |].
  - intros v. split.
    + intros [t Hv]. destruct I as [_ It _]. destruct (ti_entry _ _ _ _ _ _ It v t Hv) as [_ Hne Hw _].
      destruct (Paths t) as [|p ps]; [done|]. exists p, (Distance t). apply Hw. left.
    + intros (p & x & Hw). eapply walk_found; [exact I| |exact Hw]. apply Hin. left.
  - intros v t Hv. destruct I as [_ It _]. destruct (ti_entry _ _ _ _ _ _ It v t Hv). done.
Qed.

(** When all routers use one metric, the recorded distances are the least, and the recorded
    paths are just the shortest ones. *)
Theorem spf_equal_metrics_optimal sort c root s :
  sorts sort -> graph_ok c (shape (AreaGraph s)) -> equal_metrics c (shape (AreaGraph s)) ->
  is_Some (AreaGraph s !! root) -> SPFTree s = ∅ ->
  let g := shape (AreaGraph s) in
  exists s', ExecuteDijkstra sort root s = Ok (s', None) /\
  (forall v, is_Some (SPFTree s' !! v) <-> reachable g root v) /\
  (forall v t, SPFTree s' !! v = Some t ->
     (forall p x, walk g root p v x -> Distance t <= x) /\ forall p, p ∈ Paths t <-> walk g root p v (Distance t)).
Proof.
  intros Hsort Hg Hm Hroot Ht g. assert (Hr : is_Some (g !! root)) by (by apply visited_shape, bool_decide_eq_true).
  destruct (dijkstra_opt sort Hsort g root c Hg c Hm (S (size g)) [] [mkVertexData root 0] (start root s)) as (s' & D & E & I & O).
  { by apply start_loop. } { by apply start_opt. } { cbn. lia. }
  exists s'. rewrite (execute_start g) by done.
  assert (Hall : forall v t, SPFTree s' !! v = Some t -> forall p x, walk g root p v x -> Distance t <= x /\ (Distance t = x -> p ∈ Paths t)).
  { intros v t Hv. by apply (opt_shortest g root c c D s'). }
  assert (HrD : root ∈ D).
  { destruct (oi_root _ _ _ _ _ _ O) as (t & Hrt & _). rewrite <- (app_nil_r D). apply (ti_dom _ _ _ _ _ _ (li_tree _ _ _ _ _ _ I)). by exists t. }
  split_and!; [done| |].
  - intros v. split.
    + intros [t Hv]. destruct I as [_ It _]. destruct (ti_entry _ _ _ _ _ _ It v t Hv) as [_ Hne Hw _].
      destruct (Paths t) as [|p ps]; [done|]. exists p, (Distance t). apply Hw. left.
    + intros (p & x & Hw). eapply walk_found; [exact I|exact HrD|exact Hw].
  - intros v t Hv. split; [intros p x Hw; by eapply Hall|]. intros p. split.
    + apply (eo_walk _ _ _ _ _ (ti_entry _ _ _ _ _ _ (li_tree _ _ _ _ _ _ I) v t Hv)).
    + intros Hw. by eapply Hall.
Qed.

(** ** Deciding the hypotheses *)

Definition edge_okb (C : Z) (g : graph) (u : VertexKey) (e : VertexKey * Z) : bool :=
  negb (bool_decide (e.1 = u)) && bool_decide (is_Some (g !! e.1)) && (0 <=? e.2) && (e.2 <=? C).

Definition graph_okb (C : Z) (g : graph) : bool :=
  forallb (fun x => (length x.2.1 =? length x.2.2)%nat && forallb (edge_okb C g x.1) (zip x.2.1 x.2.2)) (map_to_list g) &&
  (0 <=? C) && (C * Z.of_nat (size g) <? LSInfinity16).

Definition edge_equalb (c : Z) (u : VertexKey) (e : VertexKey * Z) : bool :=
  if Type_ u =? RouterVertex then e.2 =? c else (e.2 =? 0) && (Type_ e.1 =? RouterVertex).

Definition equal_metricsb (c : Z) (g : graph) : bool :=
  forallb (fun x => ((Type_ x.1 =? RouterVertex) || (Type_ x.1 =? TNetworkVertex)) &&
                    forallb (edge_equalb c x.1) (zip x.2.1 x.2.2)) (map_to_list g) && (0 <? c).

Lemma forallb_map {A} (f : VertexKey * A -> bool) (m : gmap VertexKey A) :
  forallb f (map_to_list m) = true -> forall k x, m !! k = Some x -> f (k, x) = true.
Proof. intros H k x Hk. rewrite forallb_forall in H. apply H, list_elem_of_In, elem_of_map_to_list, Hk. Qed.

Lemma forallb_edge f (g : graph) ks cs u v w :
  g !! u = Some (ks, cs) -> forallb f (zip ks cs) = true -> edge g u v w -> f (v, w) = true.
Proof.
  intros Hu H He. rewrite forallb_forall in H. apply H, list_elem_of_In. apply edges_of_edge in He. unfold edges_of in He.
  by rewrite Hu in He.
Qed.

Lemma graph_okb_ok C g : graph_okb C g = true -> graph_ok C g.
Proof.
  unfold graph_okb. intros [[H H1]%andb_true_iff H2]%andb_true_iff.
  assert (Hg : forall u ks cs, g !! u = Some (ks, cs) -> length ks = length cs /\ forallb (edge_okb C g u) (zip ks cs) = true).
  { intros u ks cs Hu. apply (forallb_map _ _ H) in Hu. cbn in Hu. apply andb_true_iff in Hu as [E Hu]. by apply Nat.eqb_eq in E. }
  split_and!; [intros u ks cs Hu; by eapply Hg| |lia|lia].
  intros u v w He. pose proof He as (ks & cs & i & Hu & _). destruct (Hg _ _ _ Hu) as [_ F].
  apply (forallb_edge _ _ _ _ _ _ _ Hu F) in He. unfold edge_okb in He. cbn in He.
  rewrite !andb_true_iff, negb_true_iff, bool_decide_eq_false, bool_decide_eq_true in He. destruct He as [[[He1 He2] He3] He4].
  split_and!; [done|done|lia|lia].
Qed.

Lemma equal_metricsb_ok c g : equal_metricsb c g = true -> equal_metrics c g.
Proof.
  unfold equal_metricsb. intros [H H1]%andb_true_iff.
  assert (Hg : forall u ks cs, g !! u = Some (ks, cs) ->
            (Type_ u = RouterVertex \/ Type_ u = TNetworkVertex) /\ forallb (edge_equalb c u) (zip ks cs) = true).
  { intros u ks cs Hu. apply (forallb_map _ _ H) in Hu. cbn in Hu. apply andb_true_iff in Hu as [E Hu].
    apply orb_true_iff in E. rewrite !Z.eqb_eq in E. done. }
  assert (He : forall u v w, edge g u v w -> edge_equalb c u (v, w) = true).
  { intros u v w He. pose proof He as (ks & cs & i & Hu & _). destruct (Hg _ _ _ Hu) as [_ F]. by eapply forallb_edge. }
  split; [lia| | |].
  - intros v [[ks cs] Hv]. by eapply Hg.
  - intros u v w E Ht. apply He in E. unfold edge_equalb in E. rewrite Ht in E. cbn in E. lia.
  - intros u v w E Ht. apply He in E. unfold edge_equalb in E. rewrite Ht in E. cbn in E. lia.
Qed.

(** A sort of the kind the loop needs. *)
Fixpoint insert_data (x : VertexData) (l : list VertexData) : list VertexData :=
  match l with
  | [] => [x]
  | y :: l' => if Less y x then y :: insert_data x l' else x :: l
  end.
Definition insertion_sort (l : list VertexData) : list VertexData := foldr insert_data [] l.

Lemma insert_perm x l : Permutation (insert_data x l) (x :: l).
Proof. induction l as [|y l IH]; [done|]. cbn. destruct (Less y x); [|done]. rewrite IH. constructor. Qed.

Lemma insertion_perm l : Permutation (insertion_sort l) l.
Proof. induction l as [|x l IH]; [done|]. cbn. by rewrite insert_perm, IH. Qed.

Lemma less_false a b : typed a -> typed b -> Less b a = false <-> rank (vKey a) (distance a) <= rank (vKey b) (distance b).
Proof.
  intros Ha Hb. split; [by apply less_rank|]. unfold typed, Less, rank, RouterVertex, TNetworkVertex in *.
  destruct Ha as [Ha|Ha], Hb as [Hb|Hb]; rewrite Ha, Hb; cbn;
    destruct (Z.eqb_spec (distance b) (distance a)), (Z.ltb_spec (distance b) (distance a)); intros E; try done; lia.
Qed.

Lemma insertion_sorts : sorts insertion_sort.
Proof.
  split; [exact insertion_perm|]. intros l. induction 1 as [|x l Hx Hl IH]; [constructor|].
  change (insertion_sort (x :: l)) with (insert_data x (insertion_sort l)).
  assert (Hs : Forall typed (insertion_sort l)) by (by rewrite insertion_perm). revert IH Hs. generalize (insertion_sort l).
  clear l Hl. induction 1 as [|y l S IH Hy]; intros Ht; cbn.
  { repeat constructor. }
  apply Forall_cons in Ht as [Hty Htl]. destruct (Less y x) eqn:E.
  - constructor; [by apply IH|]. rewrite insert_perm. constructor; [|done]. apply less_false; [done..|].
    destruct (Z.le_gt_cases (rank (vKey y) (distance y)) (rank (vKey x) (distance x))) as [|Hlt]; [done|].
    assert (Less y x = false) by (apply less_false; [done..|lia]). congruence.
  - constructor; [by constructor|]. apply less_false in E; [|done..]. constructor; [by apply less_false|].
    rewrite Forall_forall in Hy, Htl |- *. intros z Hz. specialize (Hy z Hz). specialize (Htl z Hz).
    apply less_false in Hy; [|done..]. apply less_false; [done..|]. lia.
Qed.

(** ** Sample areas *)

Definition R (n : Z) : VertexKey := mkVertexKey RouterVertex n n.
Definition N (n : Z) : VertexKey := mkVertexKey TNetworkVertex n 0.

Definition sample_vertex (es : list (VertexKey * Z)) : Vertex :=
  mkVertex (map fst es) (map snd es) ∅ (mkLsaKey 0 0 0) 0 false 0.

Definition sample_server (l : list (VertexKey * list (VertexKey * Z))) : OSPFServer :=
  set_AreaGraph (list_to_map (map (fun x => (x.1, sample_vertex x.2)) l)) (NewOSPFServer [1; 1; 1; 1]).

(** Three routers on two networks, and a link between the first and the last. *)
Definition square : OSPFServer :=
  sample_server
    [(R 1, [(N 1, 10); (R 3, 10)]); (R 2, [(N 1, 10); (N 2, 10)]); (R 3, [(N 2, 10); (R 1, 10)]);
     (N 1, [(R 1, 0); (R 2, 0)]); (N 2, [(R 2, 0); (R 3, 0)])].

Definition distances (l : list VertexKey) (r : res (OSPFServer * option goerr)) : res (list (option Z)) :=
  '(s, _) ← r; Ok (map (fun v => Distance <$> SPFTree s !! v) l).

Example square_distances :
  distances [R 1; N 1; R 2; R 3; N 2] (ExecuteDijkstra insertion_sort (R 1) square) = Ok [Some 0; Some 10; Some 10; Some 10; Some 20].
Proof. by vm_compute. Qed.

Lemma spf_tree_correct_witness :
  sorts insertion_sort /\ graph_ok 10 (shape (AreaGraph square)) /\
  exists s', ExecuteDijkstra insertion_sort (R 1) square = Ok (s', None) /\
  shape (AreaGraph s') = shape (AreaGraph square) /\
  (forall v, is_Some (SPFTree s' !! v) <-> reachable (shape (AreaGraph square)) (R 1) v) /\
  (forall v t, SPFTree s' !! v = Some t ->
     NumOfPaths t = len (Paths t) /\ Paths t <> [] /\ forall p, p ∈ Paths t -> walk (shape (AreaGraph square)) (R 1) p v (Distance t)).
Proof.
  assert (Hg : graph_ok 10 (shape (AreaGraph square))) by (apply graph_okb_ok; by vm_compute).
  split; [exact insertion_sorts|]. split; [exact Hg|].
  apply (spf_tree_correct insertion_sort 10 (R 1) square); [exact insertion_sorts|exact Hg|by eexists|done].
Defined.

Lemma spf_equal_metrics_optimal_witness :
  equal_metrics 10 (shape (AreaGraph square)) /\
  exists s', ExecuteDijkstra insertion_sort (R 1) square = Ok (s', None) /\
  (forall v, is_Some (SPFTree s' !! v) <-> reachable (shape (AreaGraph square)) (R 1) v) /\
  (forall v t, SPFTree s' !! v = Some t ->
     (forall p x, walk (shape (AreaGraph square)) (R 1) p v x -> Distance t <= x) /\
     forall p, p ∈ Paths t <-> walk (shape (AreaGraph square)) (R 1) p v (Distance t)).
Proof.
  assert (Hm : equal_metrics 10 (shape (AreaGraph square))) by (apply equal_metricsb_ok; by vm_compute).
  split; [exact Hm|].
  apply (spf_equal_metrics_optimal insertion_sort 10 (R 1) square);
    [exact insertion_sorts|apply graph_okb_ok; by vm_compute|exact Hm|by eexists|done].
Defined.

(** ** Where the tree is wrong *)

(** The router 1 reaches the network 3 by itself at 5, and by 2, 3, 1 and 2 at 3. The network 1
    enters the queue at 10 and stays there when its distance falls to 2. *)
Definition stale : OSPFServer :=
  sample_server
    [(R 1, [(N 1, 10); (N 2, 1); (N 3, 5)]); (R 2, [(N 1, 1); (N 3, 1)]); (R 3, [(N 2, 1); (N 1, 1)]); (R 4, [(N 3, 1)]);
     (N 1, [(R 1, 0); (R 2, 0); (R 3, 0)]); (N 2, [(R 1, 0); (R 3, 0)]); (N 3, [(R 1, 0); (R 2, 0); (R 4, 0)])].

Definition has_edge (g : graph) (u v : VertexKey) (w : Z) : bool :=
  existsb (fun e => bool_decide (e.1 = v) && (e.2 =? w)) (edges_of g u).

Lemma has_edge_ok g u v w : has_edge g u v w = true -> edge g u v w.
Proof.
  unfold has_edge. intros ([a b] & Hin & E)%existsb_exists. cbn in E. apply andb_true_iff in E as [Ea Eb].
  apply bool_decide_eq_true in Ea. apply Z.eqb_eq in Eb. subst. by apply edges_of_edge, list_elem_of_In.
Qed.

(** The cost of the walk over the vertices [p] with the costs [ws], which ends at [v]. *)
Fixpoint walk_over (g : graph) (u : VertexKey) (p : list (VertexKey * Z)) : bool :=
  match p with [] => true | (v, w) :: p => has_edge g u v w && walk_over g v p end.

Lemma walk_over_ok g root es : forall u q x,
  walk g root q u x -> walk_over g u es = true ->
  walk g root (q ++ take (length es) (u :: map fst es)) (List.last (map fst es) u) (x + foldr Z.add 0 (map snd es)).
Proof.
  induction es as [|[v w] es IH]; intros u q x Hq H.
  - cbn. by rewrite app_nil_r, Z.add_0_r.
  - cbn in H. apply andb_true_iff in H as [He H]. apply has_edge_ok in He.
    pose proof (IH v (q ++ [u]) (x + w) (walk_snoc _ _ _ _ _ _ _ Hq He) H) as W.
    rewrite <- app_assoc in W. cbn [map fst snd foldr length take app] in *. rewrite Z.add_assoc.
    replace (List.last (v :: map fst es) u) with (List.last (map fst es) v); [exact W|].
    destruct (map fst es) as [|z l]; [done|]. cbn [List.last]. generalize z. clear. induction l; intros z; [done|]. cbn. apply IHl.
Qed.

(** a vertex keeps its place in the queue when a shorter path to it is found, so with
    different metrics a recorded distance can be more than that of another path. *)
Theorem spf_stale_distance :
  graph_ok 10 (shape (AreaGraph stale)) /\
  distances [N 1; N 3; R 4] (ExecuteDijkstra insertion_sort (R 1) stale) = Ok [Some 2; Some 5; Some 5] /\
  walk (shape (AreaGraph stale)) (R 1) [R 1; N 2; R 3; N 1; R 2] (N 3) 3 /\
  walk (shape (AreaGraph stale)) (R 1) [R 1; N 2; R 3; N 1; R 2; N 3] (R 4) 3.
Proof.
  split; [apply graph_okb_ok; by vm_compute|]. split; [by vm_compute|].
  pose proof (fun es => walk_over_ok (shape (AreaGraph stale)) (R 1) es (R 1) [] 0 (walk_nil _ _)) as W. split.
  - apply (W [(N 2, 1); (R 3, 0); (N 1, 1); (R 2, 0); (N 3, 1)]). by vm_compute.
  - apply (W [(N 2, 1); (R 3, 0); (N 1, 1); (R 2, 0); (N 3, 1); (R 4, 0)]). by vm_compute.
Qed.

(** The router 3 offers its link with the largest metric, to be avoided; from the router 2 there
    is also a path over the network 1. *)
Definition stub_router (near : Z) : OSPFServer :=
  sample_server
    [(R 1, [(R 2, near); (R 3, near)]); (R 2, [(R 1, near); (N 1, 10)]); (R 3, [(R 1, near); (R 4, 65535)]);
     (R 4, [(N 1, 10); (R 3, 65535)]); (N 1, [(R 2, 0); (R 4, 0)])].

(** distances are added modulo 65536. A vertex over a link of the largest metric comes nearer
    than over the path that avoids it, and the vertex before it is then found again behind it,
    by a path that passes it twice; and where the sum is infinity or more the entry keeps an
    empty path. *)
Theorem spf_max_metric_wraps :
  let tree_of s := r ← ExecuteDijkstra insertion_sort (R 1) s; Ok (SPFTree r.1) in
  let entry s v := T ← tree_of s; t ← of_option (T !! v); Ok (Distance t, Paths t) in
  entry (stub_router 5) (R 4) = Ok (4, [[R 1; R 3]]) /\
  entry (stub_router 5) (R 3) = Ok (3, [[R 1; R 3; R 4]]) /\
  walk (shape (AreaGraph (stub_router 5))) (R 1) [R 1; R 2; N 1] (R 4) 15 /\
  entry (sample_server [(R 1, [(R 2, 65535)]); (R 2, [(R 1, 65535)])]) (R 2) = Ok (LSInfinity16, [[]]).
Proof.
  cbn zeta. split_and!; try by vm_compute.
  apply (walk_over_ok (shape (AreaGraph (stub_router 5))) (R 1) [(R 2, 5); (N 1, 10); (R 4, 0)] (R 1) [] 0 (walk_nil _ _)).
  by vm_compute.
Qed.
