(* ===== verification/OspfGraphSpec.v ===== *)
(** * OSPF: what the graph of an area is

    The edges a link state database describes, and the run of the functions that make the
    graph when no vertex that is reached is broken. *)

From S2P Require Import Prelude.
From S2P Require Import OspfUtil.
From S2P Require Import OspfLsa.
From S2P Require Import OspfServer.
From S2P Require Import OspfSpf.
From S2P Require Import OspfSpfSpec.

Section Graph.
Context (range : forall A : Type, list A -> list A) (areaId : Z) (db : LSDatabase).

(** ** The edges of the database *)

Definition find_network (id : Z) : option LsaKey :=
  List.find (fun key => (LSId key =? id) && (LSType key =? NetworkLSA)) (range _ (map fst (map_to_list (NetworkLsaMap db)))).

(** None is a link that breaks the vertex; a link that is not an edge is left out. *)
Definition link_edge (l : LinkDetail) : option (list (VertexKey * Z)) :=
  if LinkType l =? TransitLink then
    Some match find_network (LinkId l) with
         | Some nk => [(mkVertexKey TNetworkVertex (LinkId l) (AdvRouter nk), LinkMetric l)]
         | None => []
         end
  else if LinkType l =? StubLink then Some []
  else if LinkType l =? P2PLink then
    if bool_decide (is_Some (RouterLsaMap db !! router_key (LinkId l))) then
      Some [(mkVertexKey RouterVertex (LinkId l) (LinkId l), LinkMetric l)]
    else None
  else Some [].

Fixpoint links_edges (links : list LinkDetail) (n : nat) {struct n} : option (list (VertexKey * Z)) :=
  match n, links with
  | O, _ => Some []
  | S n, l :: links => es ← link_edge l; es' ← links_edges links n; Some (es ++ es')
  | S _, [] => None
  end.

(** Whether a router has a link into a network that is transit: the first of its links into the
    network that is a transit or a stub link decides. None is a router with fewer links than it
    says, and none of them into the network. *)
Definition into (network netmask : Z) (l : LinkDetail) : bool :=
  (Z.land (LinkId l) netmask =? network) && ((LinkType l =? StubLink) || (LinkType l =? TransitLink)).

Definition consistent (network netmask rtr : Z) : option bool :=
  match RouterLsaMap db !! router_key rtr with
  | None => Some false
  | Some l =>
    let n := Z.to_nat (NumOfLinks l) in
    match List.find (into network netmask) (take n (LinkDetails l)) with
    | Some d => Some (LinkType d =? TransitLink)
    | None => if (n <=? length (LinkDetails l))%nat then Some false else None
    end
  end.

Fixpoint attached_edges (network netmask : Z) (rtrs : list Z) : option (list (VertexKey * Z)) :=
  match rtrs with
  | [] => Some []
  | rtr :: rtrs =>
    match consistent network netmask rtr, attached_edges network netmask rtrs with
    | Some true, Some es => Some ((mkVertexKey RouterVertex rtr rtr, 0) :: es)
    | Some false, Some es => Some es
    | _, _ => None
    end
  end.

(** The edges of a vertex of the database. *)
Definition lsa_edges (k : VertexKey) : option (list (VertexKey * Z)) :=
  if Type_ k =? TNetworkVertex then
    l ← NetworkLsaMap db !! mkLsaKey NetworkLSA (ID k) (AdvRtr k);
    attached_edges (Z.land (ID k) (n_Netmask l)) (n_Netmask l) (AttachedRtr l)
  else if Type_ k =? RouterVertex then
    l ← RouterLsaMap db !! mkLsaKey RouterLSA (ID k) (AdvRtr k);
    links_edges (LinkDetails l) (Z.to_nat (NumOfLinks l))
  else None.

(** ** The functions over the links *)

(** The database stays, and there is no tree yet. *)
Definition same_db (s : OSPFServer) : Prop := AreaLsdb s !! areaId = Some db /\ SPFTree s = ∅.

Lemma router_link_edge lsaKey l es ent s :
  same_db s -> link_edge l = Some es ->
  exists ent' s', router_link range areaId lsaKey l ent s = (ent', s', None) /\
  NbrVertexKey ent' = NbrVertexKey ent ++ map fst es /\ NbrVertexCost ent' = NbrVertexCost ent ++ map snd es /\
  same_db s' /\ AreaGraph s' = AreaGraph s.
Proof.
  unfold same_db, link_edge, router_link, find_network, findNetworkLsa, findRouterLsa. intros [Hs Hn]. rewrite Hs.
  destruct (LinkType l =? TransitLink).
  { destruct (List.find _ _) as [nk|]; intros [= <-]; do 2 eexists; (split; [done|]); cbn; rewrite ?app_nil_r; done. }
  destruct (LinkType l =? StubLink). { intros [= <-]. do 2 eexists. split; [done|]. cbn. by rewrite !app_nil_r. }
  destruct (LinkType l =? P2PLink).
  { destruct (bool_decide _); intros [= <-]. do 2 eexists. by split. }
  intros [= <-]. do 2 eexists. split; [done|]. cbn. by rewrite !app_nil_r.
Qed.

Lemma router_links_edges lsaKey links n es ent s :
  same_db s -> links_edges links n = Some es ->
  exists ent' s', router_links range areaId lsaKey links n ent s = Ok (ent', s', None) /\
  NbrVertexKey ent' = NbrVertexKey ent ++ map fst es /\ NbrVertexCost ent' = NbrVertexCost ent ++ map snd es /\
  same_db s' /\ AreaGraph s' = AreaGraph s.
Proof.
  revert links es ent s. induction n as [|n IH]; intros links es ent s Hs.
  { cbn. intros [= <-]. exists ent, s. cbn. by rewrite !app_nil_r. }
  destruct links as [|l links]; [done|]. cbn [links_edges router_links]. intros (es1 & E1 & (es2 & E2 & [= <-])%bind_Some)%bind_Some.
  destruct (router_link_edge lsaKey l es1 ent s Hs E1) as (ent1 & s1 & -> & K1 & C1 & S1 & G1).
  destruct (IH links es2 ent1 s1 S1 E2) as (ent2 & s2 & -> & K2 & C2 & S2 & G2).
  exists ent2, s2. rewrite K2, C2, K1, C1, G2, G1, !map_app, !app_assoc. done.
Qed.

Lemma first_link_spec network netmask links : forall n,
  (exists d, List.find (into network netmask) (take n links) = Some d /\ first_link_in network netmask links n = Ok (LinkType d =? TransitLink)) \/
  List.find (into network netmask) (take n links) = None /\ ((n <= length links)%nat -> first_link_in network netmask links n = Ok false).
Proof.
  induction links as [|l links IH]; intros [|n]; cbn; try (right; split; [done|done || lia]).
  unfold into. destruct (Z.land (LinkId l) netmask =? network); cbn [andb].
  - destruct (Z.eqb_spec (LinkType l) StubLink) as [E|E]; cbn [orb]; [left; exists l; by rewrite E|].
    destruct (LinkType l =? TransitLink) eqn:E'; [left; exists l; by rewrite E'|].
    destruct (IH n) as [H|[H1 H2]]; [by left|right; split; [done|]]. intros Hn. apply H2. lia.
  - destruct (IH n) as [H|[H1 H2]]; [by left|right; split; [done|]]. intros Hn. apply H2. lia.
Qed.

Lemma consistency_spec s rtr network netmask b :
  same_db s -> consistent network netmask rtr = Some b -> checkRouterLsaConsistency areaId rtr network netmask s = Ok b.
Proof.
  unfold checkRouterLsaConsistency, consistent. intros [-> _]. destruct (RouterLsaMap db !! router_key rtr) as [l|]; [|by intros [= <-]].
  cbn zeta. destruct (first_link_spec network netmask (LinkDetails l) (Z.to_nat (NumOfLinks l))) as [(d & -> & ->)|[-> H]]; [by intros [= <-]|].
  destruct (Nat.leb_spec (Z.to_nat (NumOfLinks l)) (length (LinkDetails l))) as [E|E]; [|done]. intros [= <-]. by apply H.
Qed.

Lemma attached_routers_edges network netmask rtrs es ent s :
  same_db s -> attached_edges network netmask rtrs = Some es ->
  exists ent', attached_routers areaId network netmask rtrs ent s = Ok ent' /\
  NbrVertexKey ent' = NbrVertexKey ent ++ map fst es /\ NbrVertexCost ent' = NbrVertexCost ent ++ map snd es.
Proof.
  intros Hs. revert es ent. induction rtrs as [|rtr rtrs IH]; intros es ent; cbn [attached_edges attached_routers].
  { intros [= <-]. exists ent. cbn. by rewrite !app_nil_r. }
  destruct (consistent network netmask rtr) as [[]|] eqn:Ec; try done; rewrite (consistency_spec s rtr network netmask _ Hs Ec);
    destruct (attached_edges network netmask rtrs) as [es'|] eqn:E; intros [= <-]; res_simpl.
  - destruct (IH es' (add_neighbor (mkVertexKey RouterVertex rtr rtr) 0 netmask ent) eq_refl) as (ent' & -> & K & Cc).
    exists ent'. rewrite K, Cc. cbn. by rewrite <- !app_assoc.
  - by apply IH.
Qed.

Lemma attached_type network netmask rtrs es k w :
  attached_edges network netmask rtrs = Some es -> (k, w) ∈ es -> Type_ k = RouterVertex.
Proof.
  revert es. induction rtrs as [|rtr rtrs IH]; intros es; cbn; [intros [= <-] []%elem_of_nil|].
  destruct (consistent _ _ _) as [[]|], (attached_edges network netmask rtrs) as [es'|]; try done; intros [= <-] Hin; [|by eapply IH].
  apply elem_of_cons in Hin as [[= -> _]|Hin]; [done|by eapply IH].
Qed.

(** ** The recursion *)

(** The call for a vertex, whichever type it has. *)
Definition update_vertex (fuel : nat) (k : VertexKey) (s : OSPFServer) : res (OSPFServer * option goerr) :=
  if Type_ k =? TNetworkVertex then
    let lsaKey := mkLsaKey NetworkLSA (ID k) (AdvRtr k) in
    match NetworkLsaMap db !! lsaKey with
    | None => Ok (s, Some (ErrText "Network LSA not found"))
    | Some lsaEnt => UpdateAreaGraphNetworkLsa range fuel lsaEnt lsaKey areaId s
    end
  else if Type_ k =? RouterVertex then
    let lsaKey := mkLsaKey RouterLSA (ID k) (AdvRtr k) in
    match RouterLsaMap db !! lsaKey with
    | None => Ok (s, Some (ErrText "Router LSA not found"))
    | Some lsaEnt => UpdateAreaGraphRouterLsa range fuel lsaEnt lsaKey areaId s
    end
  else Ok (s, None).

Definition visit_vertex (fuel : nat) (k : VertexKey) (s : OSPFServer) : res (OSPFServer * option goerr) :=
  if visited k s then Ok (s, None) else continue_on <$> update_vertex fuel k s.

Lemma visit_all_ext f f' keys s :
  (forall k s, k ∈ keys -> f k s = f' k s) -> visit_all f keys s = visit_all f' keys s.
Proof.
  revert s. induction keys as [|k keys IH]; intros s H; [done|]. cbn. rewrite H by left.
  destruct (f' k s) as [[s' [e|]]| | |]; try done. res_simpl. apply IH. intros j t Hj. apply H. by right.
Qed.

(** The vertex and its edges as entered. *)
Definition is_vertex (k : VertexKey) (es : list (VertexKey * Z)) (ent : Vertex) : Prop :=
  NbrVertexKey ent = map fst es /\ NbrVertexCost ent = map snd es /\
  v_LsaKey ent = mkLsaKey (if Type_ k =? TNetworkVertex then NetworkLSA else RouterLSA) (ID k) (AdvRtr k).

(** A call enters the vertex, and goes on to its neighbours. *)
Lemma update_vertex_run fuel k es s :
  same_db s -> lsa_edges k = Some es -> es <> [] -> visited k s = false ->
  exists s1 ent, is_vertex k es ent /\ same_db s1 /\ AreaGraph s1 = <[k := ent]> (AreaGraph s) /\
  update_vertex (S fuel) k s = visit_all (visit_vertex fuel) (map fst es) s1.
Proof.
  intros Hs He Hne Hv. unfold lsa_edges in He. unfold update_vertex.
  assert (Hkey : forall t, t = Type_ k -> mkVertexKey t (ID k) (AdvRtr k) = k) by (intros t ->; by destruct k).
  destruct (Z.eqb_spec (Type_ k) TNetworkVertex) as [Ht|Ht].
  - apply bind_Some in He as (l & Hl & He). cbn zeta. rewrite Hl. cbn [UpdateAreaGraphNetworkLsa LSId AdvRouter].
    rewrite Hkey, Hv by done.
    destruct (attached_routers_edges _ _ _ _ new_vertex s Hs He) as (ent & -> & K & Cc). res_simpl. cbn in K, Cc.
    destruct es as [|e es]; [done|]. rewrite K. cbn [map].
    set (s1 := set_AreaGraph _ s). assert (Hs1 : same_db s1) by done. rewrite (proj1 Hs1).
    exists s1, (finish_vertex areaId (mkLsaKey NetworkLSA (ID k) (AdvRtr k)) ent). split_and!; try done.
    + unfold is_vertex. rewrite Ht. done.
    + apply visit_all_ext. intros j t Hj. unfold visit_vertex, update_vertex. destruct (visited j t); [done|].
      assert (Type_ j = RouterVertex) as ->.
      { change (fst e :: map fst es) with (map fst (e :: es)) in Hj. apply list_elem_of_fmap in Hj as ([? w] & -> & Hj). by eapply attached_type. }
      cbn. by case_match.
  - destruct (Z.eqb_spec (Type_ k) RouterVertex) as [Hr|]; [|done].
    apply bind_Some in He as (l & Hl & He). cbn zeta. rewrite Hl. cbn [UpdateAreaGraphRouterLsa LSId AdvRouter].
    rewrite Hkey, Hv by done. set (s0 := if BitV l then _ else s).
    assert (Hs0 : same_db s0 /\ AreaGraph s0 = AreaGraph s).
    { unfold s0, set_transit. destruct (BitV l); [|done]. destruct (AreaConfMap s !! _) as [a|]; [|done]. by destruct (TransitCapability a). }
    clearbody s0. destruct Hs0 as [Hs0 Hg0].
    destruct (router_links_edges (mkLsaKey RouterLSA (ID k) (AdvRtr k)) _ _ _ new_vertex s0 Hs0 He) as (ent & s2 & -> & K & Cc & Hs2 & Hg2).
    res_simpl. cbn in K, Cc. destruct es as [|e es]; [done|]. rewrite K. cbn [map].
    set (s1 := set_AreaGraph _ s2). assert (Hs1 : same_db s1) by done. rewrite (proj1 Hs1).
    exists s1, (finish_vertex areaId (mkLsaKey RouterLSA (ID k) (AdvRtr k)) ent). split_and!; try done.
    + unfold is_vertex. rewrite (proj2 (Z.eqb_neq _ _) Ht). done.
    + unfold s1. cbn. by rewrite Hg2, Hg0.
    + apply visit_all_ext. intros j t _. unfold visit_vertex, update_vertex. cbn zeta. destruct (visited j t); [done|].
      destruct (Type_ j =? TNetworkVertex); [by case_match|].
      destruct (Type_ j =? RouterVertex); [by case_match|done].
Qed.

(** ** A closed set of vertices *)

(** Vertices none of which is broken, with their neighbours. *)
Definition closed (P : VertexKey -> Prop) : Prop :=
  forall k, P k -> exists es, lsa_edges k = Some es /\ es <> [] /\ forall v w, (v, w) ∈ es -> P v.

Definition db_list : list VertexKey :=
  map (fun k => mkVertexKey RouterVertex (LSId k) (AdvRouter k)) (map fst (map_to_list (RouterLsaMap db))) ++
  map (fun k => mkVertexKey TNetworkVertex (LSId k) (AdvRouter k)) (map fst (map_to_list (NetworkLsaMap db))).

Definition db_vertices : gset VertexKey := list_to_set db_list.

Lemma size_list_le (l : list VertexKey) : (size (list_to_set l : gset VertexKey) <= length l)%nat.
Proof.
  induction l as [|x l IH]; [done|]. cbn [list_to_set length]. rewrite size_union_alt, size_singleton.
  assert (size ((list_to_set l : gset VertexKey) ∖ {[x]}) <= size (list_to_set l : gset VertexKey))%nat by (apply subseteq_size; set_solver).
  lia.
Qed.

Lemma db_vertices_size : (size db_vertices <= size (RouterLsaMap db) + size (NetworkLsaMap db))%nat.
Proof.
  etransitivity; [apply size_list_le|]. unfold db_list. rewrite length_app, !length_map, !length_map_to_list. lia.
Qed.

Lemma key_in_map {A} (m : gmap LsaKey A) k x : m !! k = Some x -> k ∈ map fst (map_to_list m).
Proof. intros H. apply list_elem_of_fmap. exists (k, x). split; [done|]. by apply elem_of_map_to_list. Qed.

Lemma edges_in_db k es : lsa_edges k = Some es -> k ∈ db_vertices.
Proof.
  unfold lsa_edges, db_vertices, db_list. rewrite elem_of_list_to_set, elem_of_app. destruct (Z.eqb_spec (Type_ k) TNetworkVertex) as [Ht|_].
  - intros (l & Hl & _)%bind_Some. right. apply list_elem_of_fmap. eexists. split; [|by eapply key_in_map]. cbn. rewrite <- Ht. by destruct k.
  - destruct (Z.eqb_spec (Type_ k) RouterVertex) as [Ht|]; [|done]. intros (l & Hl & _)%bind_Some. left.
    apply list_elem_of_fmap. eexists. split; [|by eapply key_in_map]. cbn. rewrite <- Ht. by destruct k.
Qed.

Definition left_over (s : OSPFServer) : nat := size (db_vertices ∖ dom (AreaGraph s)).

Section Closed.
Context (P : VertexKey -> Prop) (HP : closed P).

(** What a call leaves: nothing is taken away, and what is new is a vertex of the set, with its
    neighbours in the graph. *)
Record grown (s s' : OSPFServer) : Prop := {
  gr_db : same_db s';
  gr_sub : AreaGraph s ⊆ AreaGraph s';
  gr_new : forall u ent, AreaGraph s' !! u = Some ent -> AreaGraph s !! u = Some ent \/
    (P u /\ exists es, lsa_edges u = Some es /\ is_vertex u es ent /\ forall v w, (v, w) ∈ es -> is_Some (AreaGraph s' !! v));
}.

Lemma grown_refl s : same_db s -> grown s s.
Proof. intros H. split; [done|done|]. intros u ent Hu. by left. Qed.

Lemma sub_visited s s' k : AreaGraph s ⊆ AreaGraph s' -> is_Some (AreaGraph s !! k) -> is_Some (AreaGraph s' !! k).
Proof. intros H [e He]. exists e. by eapply lookup_weaken. Qed.

Lemma grown_trans s1 s2 s3 : grown s1 s2 -> grown s2 s3 -> grown s1 s3.
Proof.
  intros [D1 S1 N1] [D2 S2 N2]. split; [done|by etransitivity|]. intros u ent Hu.
  destruct (N2 u ent Hu) as [Hu'|]; [|by right]. destruct (N1 u ent Hu') as [|(HPu & es & He & Hv & Hc)]; [by left|].
  right. split; [done|]. exists es. split_and!; [done|done|]. intros v w Hvw. eapply sub_visited; [exact S2|by eapply Hc].
Qed.

Lemma left_over_grown s s' : AreaGraph s ⊆ AreaGraph s' -> (left_over s' <= left_over s)%nat.
Proof. intros H. unfold left_over. apply subseteq_size. apply subseteq_dom in H. set_solver. Qed.

Lemma visited_true k s : visited k s = true <-> is_Some (AreaGraph s !! k).
Proof. apply bool_decide_eq_true. Qed.

Lemma visit_all_grown f n keys s :
  (forall k s, k ∈ keys -> same_db s -> (left_over s < n)%nat ->
     exists s', f k s = Ok (s', None) /\ grown s s' /\ is_Some (AreaGraph s' !! k)) ->
  same_db s -> (left_over s < n)%nat ->
  exists s', visit_all f keys s = Ok (s', None) /\ grown s s' /\ forall k, k ∈ keys -> is_Some (AreaGraph s' !! k).
Proof.
  revert s. induction keys as [|k keys IH]; intros s Hf Hs Hn.
  { exists s. split_and!; [done|by apply grown_refl|by intros k ?%elem_of_nil]. }
  destruct (Hf k s ltac:(left) Hs Hn) as (s1 & E1 & G1 & V1). cbn. rewrite E1. res_simpl.
  pose proof (left_over_grown s s1 (gr_sub _ _ G1)).
  destruct (IH s1) as (s2 & E2 & G2 & V2); [|by apply G1|lia|].
  { intros j t Hj. apply Hf. by right. }
  exists s2. split_and!; [done|by eapply grown_trans|]. intros j [-> |Hj]%elem_of_cons; [|by apply V2].
  eapply sub_visited; [apply G2|done].
Qed.

Lemma visit_vertex_grown fuel k s :
  P k -> same_db s -> (left_over s < fuel)%nat ->
  exists s', visit_vertex fuel k s = Ok (s', None) /\ grown s s' /\ is_Some (AreaGraph s' !! k).
Proof.
  revert k s. induction fuel as [|fuel IH]; intros k s Hk Hs Hf; [lia|]. unfold visit_vertex.
  destruct (visited k s) eqn:Ev. { exists s. split_and!; [done|by apply grown_refl|by apply visited_true]. }
  destruct (HP k Hk) as (es & He & Hne & Hes).
  destruct (update_vertex_run fuel k es s Hs He Hne Ev) as (s1 & ent & Hent & Hs1 & Hg1 & ->).
  assert (Hnone : AreaGraph s !! k = None).
  { destruct (AreaGraph s !! k) eqn:E; [|done]. apply bool_decide_eq_false in Ev. exfalso. apply Ev. rewrite E. by eexists. }
  assert (Hlt : (left_over s1 < left_over s)%nat).
  { unfold left_over. rewrite Hg1, dom_insert. apply subset_size. apply edges_in_db in He. apply not_elem_of_dom in Hnone. set_solver. }
  assert (Hsub : AreaGraph s ⊆ AreaGraph s1) by (rewrite Hg1; by apply insert_subseteq).
  destruct (visit_all_grown (visit_vertex fuel) fuel (map fst es) s1) as (s2 & -> & G2 & V2); [|done|lia|].
  { intros j t Hj. apply IH. apply list_elem_of_fmap in Hj as ([v w] & -> & Hj). by eapply Hes. }
  exists s2. cbn. split; [done|].
  assert (Hk2 : AreaGraph s2 !! k = Some ent) by (eapply lookup_weaken; [|apply G2]; rewrite Hg1; apply lookup_insert_eq).
  split; [|by exists ent]. split; [apply G2|etransitivity; [exact Hsub|apply G2]|].
  intros u e Hu. destruct (gr_new _ _ G2 u e Hu) as [Hu1|]; [|by right]. rewrite Hg1 in Hu1.
  apply lookup_insert_Some in Hu1 as [[<- <-]|[_ Hu1]]; [|by left]. right. split; [done|]. exists es. split_and!; [done|done|].
  intros v w Hvw. apply V2, list_elem_of_fmap. by exists (v, w).
Qed.
End Closed.
End Graph.
