(* ===== verification/OspfAreaProps.v ===== *)
(** * OSPF: properties of the calculation for an area

    From the link state database to the shortest path tree. *)

From S2P Require Import Prelude.
From S2P Require Import OspfUtil.
From S2P Require Import OspfLsa.
From S2P Require Import OspfServer.
From S2P Require Import OspfSpf.
From S2P Require Import OspfSpfSpec.
From S2P Require Import OspfSpfProps.
From S2P Require Import OspfGraphSpec.

(** ** The graph the database describes *)

Section Reference.
Context (range : forall A : Type, list A -> list A) (db : LSDatabase).

Definition db_entry (k : VertexKey) : option (VertexKey * (list VertexKey * list Z)) :=
  es ← lsa_edges range db k; Some (k, (map fst es, map snd es)).

Definition db_graph : graph := list_to_map (omap db_entry (elements (db_vertices db))).

Lemma db_graph_lookup k : db_graph !! k = es ← lsa_edges range db k; Some (map fst es, map snd es).
Proof.
  unfold db_graph. set (l := omap db_entry (elements (db_vertices db))).
  assert (Hl : forall k x, (k, x) ∈ l <-> (es ← lsa_edges range db k; Some (map fst es, map snd es)) = Some x).
  { intros j x. unfold l. rewrite list_elem_of_omap. unfold db_entry. split.
    - intros (j' & _ & (es & He & [= -> <-])%bind_Some). by rewrite He.
    - intros (es & He & [= <-])%bind_Some. exists j. rewrite He. split; [|done]. by apply elem_of_elements, (edges_in_db range db j es). }
  assert (Hnd : NoDup l.*1).
  { apply NoDup_fmap_fst.
    - intros j x y Hx Hy. apply Hl in Hx, Hy. congruence.
    - unfold l. pose proof (NoDup_elements (db_vertices db)) as N. revert N. generalize (elements (db_vertices db)). clear.
      induction 1 as [|k l Hk N IH]; [constructor|]. cbn. destruct (db_entry k) as [e|] eqn:E; [|done]. constructor; [|done].
      rewrite list_elem_of_omap. intros (j & Hj & Ej). unfold db_entry in E, Ej.
      apply bind_Some in E as (es & _ & [= <-]), Ej as (es' & _ & [= <- _ _]). done. }
  destruct (list_to_map l !! k) as [x|] eqn:E.
  - apply elem_of_list_to_map in E; [|done]. symmetry. by apply Hl.
  - destruct (es ← lsa_edges range db k; Some (map fst es, map snd es)) as [x|] eqn:E'; [|done].
    apply Hl, elem_of_list_to_map in E'; [|done]. congruence.
Qed.

Lemma zip_fst_snd {A B} (es : list (A * B)) : zip (map fst es) (map snd es) = es.
Proof. induction es as [|[a b] es IH]; [done|]. cbn. f_equal. exact IH. Qed.

Lemma db_graph_edge u v w : edge db_graph u v w <-> exists es, lsa_edges range db u = Some es /\ (v, w) ∈ es.
Proof.
  rewrite <- edges_of_edge. unfold edges_of. rewrite db_graph_lookup. split.
  - destruct (lsa_edges range db u) as [es|] eqn:E; cbn; [|by intros ?%elem_of_nil]. rewrite zip_fst_snd. by exists es.
  - intros (es & -> & H). cbn. by rewrite zip_fst_snd.
Qed.
End Reference.

Lemma edge_sub (g g' : graph) u v w : g ⊆ g' -> edge g u v w -> edge g' u v w.
Proof. intros H (ks & cs & i & Hu & H1 & H2). exists ks, cs, i. split; [by eapply lookup_weaken|done]. Qed.

Lemma walk_sub (g g' : graph) root p v x : g ⊆ g' -> walk g root p v x -> walk g' root p v x.
Proof. intros H. induction 1 as [|p u v c w _ IH He]; [constructor|]. by eapply walk_snoc, edge_sub. Qed.

Lemma walk_within (g g' : graph) root p v x :
  g ⊆ g' -> is_Some (g !! root) -> (forall u v w, edge g u v w -> is_Some (g !! v)) ->
  walk g' root p v x -> walk g root p v x /\ is_Some (g !! v).
Proof.
  intros H Hr Hc. induction 1 as [|p u v c w _ [IH [e Hu]] (ks & cs & i & Hu' & H1 & H2)]; [by split; [constructor|]|].
  assert (He : edge g u v w).
  { exists ks, cs, i. split; [|done]. rewrite Hu. pose proof (lookup_weaken _ _ _ _ Hu H). congruence. }
  split; [by eapply walk_snoc|by eapply Hc].
Qed.

(** ** A sound area *)

Section Area.
Context (range : forall A : Type, list A -> list A) (db : LSDatabase).

(** No vertex of [P] is broken or linked to itself, its neighbours are in [P], and its routers
    use the metric [c]. *)
Record area_ok (c : Z) (P : VertexKey -> Prop) : Prop := {
  ao_closed : closed range db P;
  ao_self : forall u v w, P u -> edge (db_graph range db) u v w -> v <> u;
  ao_metric : forall u v w, P u -> Type_ u = RouterVertex -> edge (db_graph range db) u v w -> w = c;
  ao_pos : 0 < c;
  ao_small : c * Z.of_nat (size (db_vertices db)) < LSInfinity16;
}.

Lemma network_edges u v w :
  edge (db_graph range db) u v w -> Type_ u = TNetworkVertex -> w = 0 /\ Type_ v = RouterVertex.
Proof.
  intros (es & He & Hin)%db_graph_edge Ht. unfold lsa_edges in He. rewrite Ht in He. cbn in He.
  apply bind_Some in He as (l & _ & He). revert es He Hin. generalize (AttachedRtr l). intros rtrs.
  induction rtrs as [|r rtrs IH]; intros es; cbn; [by intros [= <-] ?%elem_of_nil|].
  destruct (consistent db _ _ r) as [[]|], (attached_edges db _ _ rtrs) as [es'|]; try done; intros [= <-] Hin; [|by eapply IH].
  apply elem_of_cons in Hin as [[= -> ->]|Hin]; [done|by eapply IH].
Qed.

Lemma edges_typed k es : lsa_edges range db k = Some es -> Type_ k = RouterVertex \/ Type_ k = TNetworkVertex.
Proof.
  unfold lsa_edges. destruct (Z.eqb_spec (Type_ k) TNetworkVertex) as [|_]; [by right|].
  destruct (Z.eqb_spec (Type_ k) RouterVertex) as [|_]; [by left|done].
Qed.

(** The graph made from a sound area is a part of that of the database, with all neighbours. *)
Lemma sound_graph areaId c P root s s' :
  area_ok c P -> AreaGraph s = ∅ -> grown range areaId db P s s' -> is_Some (AreaGraph s' !! root) ->
  let g := shape (AreaGraph s') in
  g ⊆ db_graph range db /\ is_Some (g !! root) /\ graph_ok c g /\ equal_metrics c g.
Proof.
  intros A H0 G Hr g.
  assert (Hg : forall u x, g !! u = Some x -> P u /\ exists es, lsa_edges range db u = Some es /\ x = (map fst es, map snd es) /\
            forall v w, (v, w) ∈ es -> is_Some (g !! v)).
  { intros u x Hu. unfold g, shape in Hu. rewrite lookup_fmap in Hu. apply fmap_Some in Hu as (ent & Hu & ->).
    destruct (gr_new _ _ _ _ _ _ G u ent Hu) as [Hn|(HPu & es & He & (K & Cc & _) & Hc)]; [by rewrite H0, lookup_empty in Hn|].
    split; [done|]. exists es. rewrite K, Cc. split_and!; [done|done|]. intros v w Hvw. unfold g, shape. rewrite lookup_fmap, fmap_is_Some.
    by eapply Hc. }
  assert (Hsub : g ⊆ db_graph range db).
  { apply map_subseteq_spec. intros u x Hu. destruct (Hg u x Hu) as (_ & es & He & -> & _). by rewrite db_graph_lookup, He. }
  assert (HP : forall u v w, edge g u v w -> P u). { intros u v w (ks & cs & i & Hu & _). by eapply Hg. }
  assert (Hin : forall u v w, edge g u v w -> is_Some (g !! v)).
  { intros u v w He. pose proof He as (ks & cs & i & Hu & _). destruct (Hg _ _ Hu) as (_ & es & Hes & [= -> ->] & Hc).
    apply (Hc v w). apply edges_of_edge in He. unfold edges_of in He. by rewrite Hu, zip_fst_snd in He. }
  assert (Ht : forall u, is_Some (g !! u) -> Type_ u = RouterVertex \/ Type_ u = TNetworkVertex).
  { intros u [x Hu]. destruct (Hg u x Hu) as (_ & es & He & _). by eapply edges_typed. }
  assert (Hsize : (size g <= size (db_vertices db))%nat).
  { rewrite <- size_dom. apply subseteq_size. intros u [x Hu]%elem_of_dom. destruct (Hg u x Hu) as (_ & es & He & _). by eapply edges_in_db. }
  pose proof (ao_pos _ _ A). pose proof (ao_small _ _ A).
  split_and!; [done|unfold g, shape; by rewrite lookup_fmap, fmap_is_Some| |].
  - split_and!; [|intros u v w He; split_and!|lia|nia].
    + intros u ks cs Hu. destruct (Hg _ _ Hu) as (_ & es & _ & [= -> ->] & _). by rewrite !length_map.
    + eapply (ao_self _ _ A); [by eapply HP|by eapply edge_sub].
    + by eapply Hin.
    + pose proof He as (ks & cs & i & Hu & _). destruct (Ht u) as [Hu'|Hu']; [by eexists| |].
      * rewrite (ao_metric _ _ A u v w); [lia|by eapply HP|done|by eapply edge_sub].
      * destruct (network_edges u v w) as [-> _]; [by eapply edge_sub|done|lia].
    + pose proof He as (ks & cs & i & Hu & _). destruct (Ht u) as [Hu'|Hu']; [by eexists| |].
      * rewrite (ao_metric _ _ A u v w); [lia|by eapply HP|done|by eapply edge_sub].
      * destruct (network_edges u v w) as [-> _]; [by eapply edge_sub|done|lia].
  - split; [done|done| |].
    + intros u v w He Hu. eapply (ao_metric _ _ A); [by eapply HP|done|by eapply edge_sub].
    + intros u v w He Hu. eapply network_edges; [by eapply edge_sub|done].
Qed.

Lemma self_key ent key :
  (forall A (l : list A), Permutation (range A l) l) ->
  (forall k, is_Some (ent !! k) -> LSType k = RouterLSA <-> k = key) -> is_Some (ent !! key) ->
  findSelfOrigRouterLsaKey range ent = Some key.
Proof.
  intros Hr Hu [b Hk]. unfold findSelfOrigRouterLsaKey.
  assert (Hin : forall k, k ∈ range _ (map fst (map_to_list ent)) <-> is_Some (ent !! k)).
  { intros k. rewrite Hr, list_elem_of_fmap. split.
    - intros ([j x] & -> & Hx). apply elem_of_map_to_list in Hx. by exists x.
    - intros [x Hx]. exists (k, x). split; [done|]. by apply elem_of_map_to_list. }
  destruct (List.find _ _) as [k|] eqn:E.
  - apply find_some in E as [Hk' Ht]. f_equal. apply (Hu k); [by apply Hin, list_elem_of_In|]. by apply Z.eqb_eq.
  - exfalso. pose proof (List.find_none _ _ E key) as N. cbn in N.
    assert (LSType key = RouterLSA) as Ht by (by apply (Hu key); [exists b|]). rewrite Ht in N.
    discriminate N. apply list_elem_of_In, Hin. by exists b.
Qed.

(** The vertex of this router. *)
Definition own_vertex (key : LsaKey) : VertexKey := mkVertexKey RouterVertex (LSId key) (AdvRouter key).

(** One router LSA among those the router has originated. *)
Definition own_key (s : OSPFServer) (areaId : Z) (key : LsaKey) : Prop :=
  exists ent, AreaSelfOrigLsa s !! areaId = Some (Some ent) /\ is_Some (ent !! key) /\
  forall k, is_Some (ent !! k) -> LSType k = RouterLSA <-> k = key.

Lemma create_area_graph areaId P s key :
  (forall A (l : list A), Permutation (range A l) l) -> closed range db P -> P (own_vertex key) ->
  same_db areaId db s -> own_key s areaId key -> AreaGraph s = ∅ ->
  exists s', CreateAreaGraph range areaId s = Ok (s', (own_vertex key, None)) /\ grown range areaId db P s s' /\
  is_Some (AreaGraph s' !! own_vertex key).
Proof.
  intros Hr HP Hk Hs (ent & Hent & Hin & Hu) H0. unfold CreateAreaGraph. rewrite (proj1 Hs), Hent. cbn [default from_option id].
  rewrite (self_key ent key) by done. assert (Ht : LSType key = RouterLSA) by (by apply (Hu key)).
  destruct (HP _ Hk) as (es & He & Hne & Hes).
  assert (Hl : exists l, RouterLsaMap db !! key = Some l).
  { unfold lsa_edges, own_vertex in He. cbn in He. apply bind_Some in He as (l & Hl & _). exists l. rewrite <- Hl. f_equal.
    rewrite <- Ht. by destruct key. }
  destruct Hl as [l Hl]. rewrite Hl.
  destruct (visit_vertex_grown range areaId db P HP (graph_fuel db) (own_vertex key) s Hk Hs) as (s' & E & G & V).
  { unfold left_over, graph_fuel. pose proof (db_vertices_size db).
    assert (size (db_vertices db ∖ dom (AreaGraph s)) <= size (db_vertices db))%nat by (apply subseteq_size; set_solver). lia. }
  unfold visit_vertex, visited in E. rewrite H0, lookup_empty, bool_decide_eq_false_2 in E by (by intros [? ?]).
  assert (Hupd : update_vertex range areaId db (graph_fuel db) (own_vertex key) s =
                 UpdateAreaGraphRouterLsa range (graph_fuel db) l key areaId s).
  { unfold update_vertex, own_vertex. cbn. rewrite <- Ht. replace (mkLsaKey (LSType key) (LSId key) (AdvRouter key)) with key by (by destruct key).
    by rewrite Hl. }
  rewrite Hupd in E. destruct (UpdateAreaGraphRouterLsa _ _ _ _ _ _) as [[s1 err]| | |]; try done. injection E as <-.
  exists s1. res_simpl. done.
Qed.

End Area.


(** ** A sample area *)

Definition in_order : forall A : Type, list A -> list A := fun A l => l.

Definition area_okb (range : forall A : Type, list A -> list A) (db : LSDatabase) (c : Z) (l : list VertexKey) : bool :=
  forallb (fun k =>
    match lsa_edges range db k with
    | Some (e :: es) =>
      forallb (fun e => bool_decide (e.1 ∈ l) && negb (bool_decide (e.1 = k)) && (negb (Type_ k =? RouterVertex) || (e.2 =? c)))
        (e :: es)
    | _ => false
    end) l && (0 <? c) && (c * Z.of_nat (size (db_vertices db)) <? LSInfinity16).

Lemma area_okb_ok range db c l : area_okb range db c l = true -> area_ok range db c (fun k => k ∈ l).
Proof.
  unfold area_okb. intros [[H H1]%andb_true_iff H2]%andb_true_iff.
  assert (Hl : forall k, k ∈ l -> exists es, lsa_edges range db k = Some es /\ es <> [] /\
            forall v w, (v, w) ∈ es -> v ∈ l /\ v <> k /\ (Type_ k = RouterVertex -> w = c)).
  { intros k Hk. rewrite forallb_forall in H. specialize (H k (proj1 (list_elem_of_In _ _) Hk)).
    destruct (lsa_edges range db k) as [[|e es]|]; try done. exists (e :: es). split_and!; [done|done|]. intros v w Hvw.
    rewrite forallb_forall in H. specialize (H (v, w) (proj1 (list_elem_of_In _ _) Hvw)). cbn in H.
    rewrite !andb_true_iff, negb_true_iff, bool_decide_eq_false, bool_decide_eq_true, orb_true_iff, negb_true_iff in H.
    destruct H as [[Ha Hb] Hc]. split_and!; [done|done|]. intros Ht. rewrite Ht in Hc. destruct Hc as [Hc|Hc]; [done|lia]. }
  split; [| | |lia|lia].
  - intros k Hk. destruct (Hl k Hk) as (es & He & Hne & Hes). exists es. split_and!; [done|done|]. intros v w Hvw. by apply (Hes v w).
  - intros u v w Hu (es & He & Hin)%db_graph_edge. destruct (Hl u Hu) as (es' & He' & _ & Hes). rewrite He in He'. injection He' as <-.
    by apply (Hes v w).
  - intros u v w Hu Ht (es & He & Hin)%db_graph_edge. destruct (Hl u Hu) as (es' & He' & _ & Hes). rewrite He in He'. injection He' as <-.
    by apply (Hes v w).
Qed.

Definition sample_router (id : Z) (links : list LinkDetail) : LsaKey * RouterLsa :=
  (router_key id, mkRouterLsa (mkLsaMetadata 0 2 InitialSequenceNumber 0 (24 + 12 * len links)) false false false (len links) links).
Definition sample_network (id dr : Z) (rtrs : list Z) : LsaKey * NetworkLsa :=
  (mkLsaKey NetworkLSA id dr,
   mkNetworkLsa (mkLsaMetadata 0 2 InitialSequenceNumber 0 (24 + 4 * len rtrs)) 0xffffff00 rtrs).
Definition sample_db (routers : list (LsaKey * RouterLsa)) (networks : list (LsaKey * NetworkLsa)) : LSDatabase :=
  mkLSDatabase true (list_to_map routers) (list_to_map networks) ∅ ∅ ∅.
Definition transit (net data : Z) : LinkDetail := mkLinkDetail net data TransitLink 0 10 [].
Definition p2p (rtr data : Z) : LinkDetail := mkLinkDetail rtr data P2PLink 0 10 [].
Definition stub (net : Z) : LinkDetail := mkLinkDetail net 0xffffff00 StubLink 0 10 [].

Definition n1 : Z := 0x0a000101.
Definition n2 : Z := 0x0a000202.

(** The routers 1 and 2 on a network, 2 and 3 on another, a link between 1 and 3 and a stub at 3.
    The router 2 has the further links given. *)
Definition three_routers (links : list LinkDetail) : LSDatabase :=
  sample_db
    [sample_router 1 [transit n1 0x0a000101; p2p 3 0x0a000301]; sample_router 2 ([transit n1 0x0a000102; transit n2 0x0a000202] ++ links);
     sample_router 3 [transit n2 0x0a000203; p2p 1 0x0a000303; stub 0x0a000400]]
    [sample_network n1 1 [1; 2]; sample_network n2 2 [2; 3]].

Definition area_server (db : LSDatabase) : OSPFServer :=
  set_AreaSelfOrigLsa {[0 := Some {[router_key 1 := true]}]} (set_AreaLsdb {[0 := db]} (NewOSPFServer [0; 0; 0; 1])).

Definition three_vertices : list VertexKey :=
  [R 1; R 2; R 3; mkVertexKey TNetworkVertex n1 1; mkVertexKey TNetworkVertex n2 2].

Lemma three_own db : own_key (area_server db) 0 (router_key 1).
Proof.
  exists {[router_key 1 := true]}. split_and!; [done|by eexists|]. intros k [b Hk].
  apply lookup_singleton_Some in Hk as [<- _]. done.
Qed.


(** one link that cannot be resolved stops the whole area: with a link of the router 2 to a
    router whose LSA is not there, the calculation of router 1 ends with an error, so that no
    route of the area is installed, its own network included. *)
Theorem spf_dangling_link_stops_area :
  let run links :=
    '(s, (root, err)) ← CreateAreaGraph in_order 0 (initialiseSPFStructs (area_server (three_routers links)));
    '(s, err') ← ExecuteDijkstra insertion_sort root s; Ok (err, err') in
  run [] = Ok (None, None) /\
  run [p2p 9 0x0a000502] = Ok (None, Some (ErrText "Something is wrong in SPF Calculation: Entry should exist in Area Graph")).
Proof. split; by vm_compute. Qed.
