(* ===== verification/OspfRoute.v ===== *)
(** * OSPF: routes

    ospfRoutingTbl.go, ospfMultiArea.go and ospfASExternal.go of src/ospf/server, and the
    end of ospfSPF.go: the tables made from the tree, their installation in ribd, and a turn
    of the calculation. *)

From stdpp Require Import pretty.
From S2P Require Import Prelude.
From S2P Require Import OspfUtil.
From S2P Require Import OspfLsa.
From S2P Require Import OspfServer.
From S2P Require Import OspfSpf.

Section Route.
(** The order of a map; GetIfIndexFromIntfIdAndIntfType of asicd. *)
Context (range : forall A : Type, list A -> list A) (GetIfIndexFromIntfIdAndIntfType : Z -> Z -> Z).

(** ** Next hops *)

Definition findP2PNextHopIP (vFirst vSecond : VertexKey) (areaId : Z) (s : OSPFServer) : option (Z * Z) :=
  db ← AreaLsdb s !! areaId;
  firstLsa ← RouterLsaMap db !! mkLsaKey RouterLSA (ID vFirst) (AdvRtr vFirst);
  secondLsa ← RouterLsaMap db !! mkLsaKey RouterLSA (ID vSecond) (AdvRtr vSecond);
  firstLink ← List.find (fun l => LinkId l =? AdvRtr vSecond) (LinkDetails firstLsa);
  secondLink ← List.find (fun l => (LinkId l =? AdvRtr vFirst) && (LinkType l =? P2PLink)) (LinkDetails secondLsa);
  Some (LinkData firstLink, LinkData secondLink).

Definition next_hop (a : Z * Z) : NextHop := mkNextHop a.1 0 a.2 0.

(** [graph[v].LinkData[k]], which is zero when there is none. *)
Definition link_data (ent : Vertex) (k : VertexKey) : Z := default 0 (v_LinkData ent !! k).

(** The addresses from the third vertex of a path on: the interface of the first to the second,
    and that of the third. *)
Definition third_next_hop (vFirst vSecond vThird : VertexKey) (s : OSPFServer) : option NextHop :=
  gFirst ← AreaGraph s !! vFirst;
  gThird ← AreaGraph s !! vThird;
  Some (next_hop (link_data gFirst vSecond, link_data gThird vSecond)).

Definition both_routers (a b : VertexKey) : bool := (Type_ a =? RouterVertex) && (Type_ b =? RouterVertex).

(** A turn of the loop over the paths of a router. *)
Definition router_next_hop (areaId : Z) (vKey root : VertexKey) (s : OSPFServer) (path : Path) : res (option NextHop) :=
  vFirst ← index path 0;
  if bool_decide (vFirst = root) then
    vSecond ← (if len path =? 1 then Ok vKey else index path 1);
    if both_routers vFirst vSecond then Ok (next_hop <$> findP2PNextHopIP vFirst vSecond areaId s)
    else
      vThird ← (if len path =? 2 then Ok vKey else index path 2);
      Ok (third_next_hop vFirst vSecond vThird s)
  else Ok None.

(** The same for a network. *)
Definition network_next_hop (areaId : Z) (root : VertexKey) (s : OSPFServer) (path : Path) : res (option NextHop) :=
  vFirst ← index path 0;
  if bool_decide (vFirst = root) then
    if len path <? 2 then Ok None
    else
      vSecond ← index path 1;
      if both_routers vFirst vSecond then Ok (next_hop <$> findP2PNextHopIP vFirst vSecond areaId s)
      else if len path <? 3 then Ok None
      else vThird ← index path 2; Ok (third_next_hop vFirst vSecond vThird s)
  else Ok None.

(** The loop over the first [n] paths. *)
Fixpoint next_hops (hop : Path -> res (option NextHop)) (n : nat) (paths : list Path) (hops : gset NextHop) {struct n}
  : res (gset NextHop) :=
  match n with
  | O => Ok hops
  | S n =>
    match paths with
    | [] => Panic
    | p :: paths =>
      h ← hop p;
      next_hops hop n paths (match h with Some h => {[h]} ∪ hops | None => hops end)
    end
  end.

(** ** Routes within the area *)

Definition area_table (areaId : Z) (s : OSPFServer) : gmap RoutingTblEntryKey RoutingTblEntry :=
  default ∅ (TempAreaRoutingTbl s !! areaId).

(** The map of an area that has not been made is nil. *)
Definition enter_route (areaId : Z) (rKey : RoutingTblEntryKey) (rEnt : RoutingTblEntry) (s : OSPFServer) : res OSPFServer :=
  match TempAreaRoutingTbl s !! areaId with
  | None => Panic
  | Some tbl => Ok (set_TempAreaRoutingTbl (<[areaId := <[rKey := rEnt]> tbl]> (TempAreaRoutingTbl s)) s)
  end.

Definition router_dest_type (l : RouterLsa) : Z :=
  if BitB l && BitE l then ASAreaBdrRouter
  else if BitB l then AreaBdrRouter
  else if BitE l then ASBdrRouter
  else InternalRouter.

(** The LSA a router of the graph was made from. *)
Definition router_lsa_of (areaId : Z) (k : VertexKey) (s : OSPFServer) : option (Vertex * RouterLsa) :=
  gEnt ← AreaGraph s !! k; db ← AreaLsdb s !! areaId; l ← RouterLsaMap db !! v_LsaKey gEnt; Some (gEnt, l).

Definition UpdateRoutingTblForRouter (areaId : Z) (vKey : VertexKey) (tVertex : TreeVertex) (root : VertexKey) (s : OSPFServer)
  : res OSPFServer :=
  match router_lsa_of areaId vKey s with
  | None => Ok s
  | Some (gEnt, lsaEnt) =>
    let rKey := mkRoutingTblEntryKey (ID vKey) 0 (router_dest_type lsaEnt) in
    match area_table areaId s !! rKey with
    | Some _ => Ok s
    | None =>
      hops ← (if bool_decide (root = vKey) then Ok ∅
              else next_hops (router_next_hop areaId vKey root s) (Z.to_nat (NumOfPaths tVertex)) (Paths tVertex) ∅);
      enter_route areaId rKey (mkRoutingTblEntry 0 IntraArea (Distance tVertex) 0 (v_LsaKey gEnt) (NumOfPaths tVertex) hops) s
    end
  end.

Definition UpdateRoutingTblForTNetwork (areaId : Z) (vKey : VertexKey) (tVertex : TreeVertex) (root : VertexKey) (s : OSPFServer)
  : res OSPFServer :=
  match AreaGraph s !! vKey with
  | None => Ok s
  | Some gEnt =>
    match NbrVertexKey gEnt with
    | [] => Ok s
    | nbr :: _ =>
      let addrMask := link_data gEnt nbr in
      let rKey := mkRoutingTblEntryKey (Z.land (ID vKey) addrMask) addrMask Network in
      match area_table areaId s !! rKey with
      | Some _ => Ok s
      | None =>
        hops ← next_hops (network_next_hop areaId root s) (Z.to_nat (NumOfPaths tVertex)) (Paths tVertex) ∅;
        enter_route areaId rKey (mkRoutingTblEntry 0 IntraArea (Distance tVertex) 0 (v_LsaKey gEnt) (NumOfPaths tVertex) hops) s
      end
    end
  end.

(** A stub takes the next hops of its router. *)
Definition UpdateRoutingTblWithStub (areaId : Z) (vKey : VertexKey) (tVertex : TreeVertex) (parentKey : VertexKey) (s : OSPFServer)
  : res OSPFServer :=
  match router_lsa_of areaId parentKey s with
  | None => Ok s
  | Some (_, lsaEnt) =>
    match area_table areaId s !! mkRoutingTblEntryKey (ID parentKey) 0 (router_dest_type lsaEnt), AreaStubs s !! vKey with
    | Some pREnt, Some sEnt =>
      let rKey := mkRoutingTblEntryKey (ID vKey) (sv_LinkData sEnt) Network in
      match area_table areaId s !! rKey with
      | Some _ => Ok s
      | None =>
        enter_route areaId rKey
          (mkRoutingTblEntry (OptCapabilities pREnt) IntraArea (Distance tVertex) 0 (sv_LsaKey sEnt) (NumOfPaths tVertex) (NextHops pREnt)) s
      end
    | _, _ => Ok s
    end
  end.

(** A loop over the pairs of a map, in their order. *)
Fixpoint each {A} (f : A -> OSPFServer -> res OSPFServer) (l : list A) (s : OSPFServer) : res OSPFServer :=
  match l with
  | [] => Ok s
  | x :: l => s ← f x s; each f l s
  end.

Definition UpdateRoutingTbl (root : VertexKey) (areaId : Z) (s : OSPFServer) : res OSPFServer :=
  each (fun e s =>
    if Type_ e.1 =? RouterVertex then UpdateRoutingTblForRouter areaId e.1 e.2 root s
    else if Type_ e.1 =? TNetworkVertex then UpdateRoutingTblForTNetwork areaId e.1 e.2 root s
    else Ok s) (range _ (map_to_list (SPFTree s))) s.

Definition HandleStubs (areaId : Z) (s : OSPFServer) : res OSPFServer :=
  each (fun e s =>
    let vertexKey := sv_NbrVertexKey e.2 in
    match SPFTree s !! vertexKey with
    | None => Ok s
    | Some parent =>
      paths ← copy_paths (fun p => p ++ [vertexKey]) (Z.to_nat (NumOfPaths parent)) (Paths parent);
      let ent := mkTreeVertex paths (u16 (Distance parent + sv_NbrVertexCost e.2)) (NumOfPaths parent) in
      UpdateRoutingTblWithStub areaId e.1 ent vertexKey s
    end) (range _ (map_to_list (AreaStubs s))) s.

(** ** Routes from summary LSAs and AS-external LSAs *)

Definition LSInfinity : Z := 0x00ffffff.
Definition MaxAge : Z := 3600.

Definition set_nh_AdvRtr (r : Z) (h : NextHop) : NextHop := mkNextHop (IfIPAddr h) (IfIdx h) (NextHopIP h) r.

(** The entry of a border router: of the first type, or of the second. *)
Definition border_entry (areaId dest t1 t2 : Z) (s : OSPFServer) : option RoutingTblEntry :=
  match area_table areaId s !! mkRoutingTblEntryKey dest 0 t1 with
  | Some e => Some e
  | None => area_table areaId s !! mkRoutingTblEntryKey dest 0 t2
  end.

(** The hops that are not yet there are added, and counted. *)
Definition add_hops (r : Z) (hops old : gset NextHop) : gset NextHop * Z :=
  foldl (fun c h => if bool_decide (h ∈ c.1) then c else ({[set_nh_AdvRtr r h]} ∪ c.1, c.2 + 1)) (old, 0)
    (range _ (elements hops)).

(** A summary LSA that leads to [rKey] by the border router [border], whose hops are marked
    with [mark]. *)
Definition summary_route (areaId mark : Z) (rKey : RoutingTblEntryKey) (metric : Z) (border : RoutingTblEntry) (s : OSPFServer)
  : res OSPFServer :=
  let cost := u16 (Cost border + u16 metric) in
  let fresh := set_map (set_nh_AdvRtr mark) (NextHops border) in
  match area_table areaId s !! rKey with
  | Some rEnt =>
    if PathType rEnt =? IntraArea then Ok s
    else if Cost rEnt <? cost then Ok s
    else if cost <? Cost rEnt then
      enter_route areaId rKey (mkRoutingTblEntry 0 (PathType rEnt) cost (Type2Cost rEnt) (LSOrigin rEnt) (re_NumOfPaths border) fresh) s
    else
      let '(hops, cnt) := add_hops mark (NextHops border) (NextHops rEnt) in
      enter_route areaId rKey (mkRoutingTblEntry (OptCapabilities rEnt) (PathType rEnt) (Cost rEnt) (Type2Cost rEnt) (LSOrigin rEnt)
                                 (re_NumOfPaths border + cnt) hops) s
  | None => enter_route areaId rKey (mkRoutingTblEntry 0 InterArea cost 0 (mkLsaKey 0 0 0) (re_NumOfPaths border) fresh) s
  end.

(** What every LSA of the three kinds is first checked for. *)
Definition ignored (metric : Z) (md : LsaMetadata) (key : LsaKey) (s : OSPFServer) : res bool :=
  if (metric =? LSInfinity) || (LSAge md =? MaxAge) then Ok true
  else rtrId ← convertIPv4ToUint32 (RouterId s); Ok (AdvRouter key =? rtrId).

Definition summary_lsa (areaId : Z) (mark : Z) (rKey : RoutingTblEntryKey) (lsaKey : LsaKey) (lsaEnt : SummaryLsa) (s : OSPFServer)
  : res OSPFServer :=
  skip ← ignored (s_Metric lsaEnt) (s_LsaMd lsaEnt) lsaKey s;
  if skip : bool then Ok s
  else
    match border_entry areaId (AdvRouter lsaKey) AreaBdrRouter ASAreaBdrRouter s with
    | None => Ok s
    | Some border => if re_NumOfPaths border =? 0 then Ok s else summary_route areaId mark rKey (s_Metric lsaEnt) border s
    end.

Definition CalcInterAreaRoutes (areaId : Z) (s : OSPFServer) : res OSPFServer :=
  match AreaLsdb s !! areaId with
  | None => Ok s
  | Some db =>
    each (fun e => summary_lsa areaId (AdvRouter e.1)
      (mkRoutingTblEntryKey (Z.land (LSId e.1) (s_Netmask e.2)) (s_Netmask e.2) Network) e.1 e.2) (range _ (map_to_list (Summary3LsaMap db))) s
  end.

Definition CalcASBorderRoutes (areaId : Z) (s : OSPFServer) : res OSPFServer :=
  match AreaLsdb s !! areaId with
  | None => Ok s
  | Some db =>
    each (fun e => summary_lsa areaId 0 (mkRoutingTblEntryKey (LSId e.1) 0 ASBdrRouter) e.1 e.2) (range _ (map_to_list (Summary4LsaMap db))) s
  end.

Definition external_route (areaId : Z) (lsaKey : LsaKey) (lsaEnt : ASExternalLsa) (border : RoutingTblEntry) (s : OSPFServer)
  : res OSPFServer :=
  let cost := u16 (Cost border + u16 (x_Metric lsaEnt)) in
  let rKey := mkRoutingTblEntryKey (Z.land (LSId lsaKey) (x_Netmask lsaEnt)) (x_Netmask lsaEnt) Network in
  let fresh := set_map (set_nh_AdvRtr (AdvRouter lsaKey)) (NextHops border) in
  let pathType := if x_BitE lsaEnt then Type2Ext else Type1Ext in
  match area_table areaId s !! rKey with
  | Some rEnt =>
    if (PathType rEnt =? IntraArea) || (PathType rEnt =? InterArea) then Ok s
    else if (PathType rEnt =? Type1Ext) && x_BitE lsaEnt then Ok s
    else if (Cost rEnt <? cost) && (PathType rEnt =? pathType) then Ok s
    else if ((cost <? Cost rEnt) && (PathType rEnt =? pathType)) || ((Cost rEnt <? cost) && (PathType rEnt =? Type2Ext)) then
      enter_route areaId rKey (mkRoutingTblEntry 0 pathType cost (u16 (x_Metric lsaEnt)) (LSOrigin rEnt) (re_NumOfPaths border) fresh) s
    else
      let '(hops, cnt) := add_hops (AdvRouter lsaKey) (NextHops border) (NextHops rEnt) in
      enter_route areaId rKey (mkRoutingTblEntry (OptCapabilities rEnt) (PathType rEnt) (Cost rEnt) (Type2Cost rEnt) (LSOrigin rEnt)
                                 (re_NumOfPaths border + cnt) hops) s
  | None =>
    enter_route areaId rKey (mkRoutingTblEntry 0 pathType cost (u16 (x_Metric lsaEnt)) (mkLsaKey 0 0 0) (re_NumOfPaths border) fresh) s
  end.

Definition HandleASExternalLsa (areaId : Z) (s : OSPFServer) : res OSPFServer :=
  match AreaLsdb s !! areaId with
  | None => Ok s
  | Some db =>
    each (fun e s =>
      let lsaKey := e.1 in let lsaEnt := e.2 in
      skip ← ignored (x_Metric lsaEnt) (x_LsaMd lsaEnt) lsaKey s;
      if skip : bool then Ok s
      else
        let dest := if FwdAddr lsaEnt =? 0 then AdvRouter lsaKey else FwdAddr lsaEnt in
        match border_entry areaId dest ASBdrRouter ASAreaBdrRouter s with
        | None => Ok s
        | Some border => if re_NumOfPaths border =? 0 then Ok s else external_route areaId lsaKey lsaEnt border s
        end) (range _ (map_to_list (ASExternalLsaMap db))) s
  end.

Definition HandleSummaryLsa (areaId : Z) (s : OSPFServer) : res OSPFServer :=
  s ← CalcInterAreaRoutes areaId s; s ← CalcASBorderRoutes areaId s; HandleASExternalLsa areaId s.

(** ** Installation *)

(** Nothing to compare counts as the same. *)
Definition CompareRoutes (rKey : RoutingTblEntryKey) (s : OSPFServer) : bool :=
  match OldGlobalRoutingTbl s !! rKey, TempGlobalRoutingTbl s !! rKey with
  | Some oldEnt, Some newEnt =>
    let old := RoutingTblEnt oldEnt in let new := RoutingTblEnt newEnt in
    (Cost old =? Cost new) && (size (NextHops old) =? size (NextHops new))%nat &&
    forallb (fun h => bool_decide (h ∈ NextHops new)) (range _ (elements (NextHops old)))
  | _, _ => true
  end.

Definition call_ribd (c : RibCall) (s : OSPFServer) : OSPFServer := set_rib (rib s ++ [c]) s.
Definition tell_db (rKey : RoutingTblEntryKey) (op : bool) (s : OSPFServer) : OSPFServer :=
  set_DbRouteOp (DbRouteOp s ++ [(rKey, op)]) s.

Definition delete_call (rKey : RoutingTblEntryKey) (h : NextHop) : RibCall :=
  DeleteIPv4Route (convertUint32ToIPv4 (DestId rKey)) (convertUint32ToIPv4 (AddrMask rKey)) (convertUint32ToIPv4 (NextHopIP h)).

(** One call for each next hop; without ribd nothing is deleted. *)
Definition DeleteRoute (rKey : RoutingTblEntryKey) (s : OSPFServer) : OSPFServer :=
  match OldGlobalRoutingTbl s !! rKey with
  | None => s
  | Some oldEnt =>
    if ClientHdl s then
      foldl (fun s h => tell_db rKey false (call_ribd (delete_call rKey h) s)) s (range _ (elements (NextHops (RoutingTblEnt oldEnt))))
    else s
  end.

Definition create_call (rKey : RoutingTblEntryKey) (cost : Z) (h : NextHop) (ipProp : Z * Z) : RibCall :=
  CreateIPv4Route (convertUint32ToIPv4 (DestId rKey)) (convertUint32ToIPv4 (AddrMask rKey)) cost
    (convertUint32ToIPv4 (NextHopIP h)) (pretty (GetIfIndexFromIntfIdAndIntfType ipProp.1 ipProp.2)).

(** A next hop whose interface is not known is left out. *)
Definition InstallRoute (rKey : RoutingTblEntryKey) (s : OSPFServer) : res OSPFServer :=
  match TempGlobalRoutingTbl s !! rKey with
  | None => Ok s
  | Some newEnt =>
    each (fun h s =>
      match ipPropertyMap s !! IfIPAddr h with
      | None => Ok s
      | Some ipProp =>
        _ ← must (ClientHdl s);
        Ok (tell_db rKey true (call_ribd (create_call rKey (Cost (RoutingTblEnt newEnt)) h ipProp) s))
      end) (range _ (elements (NextHops (RoutingTblEnt newEnt)))) s
  end.

Definition UpdateRoute (rKey : RoutingTblEntryKey) (s : OSPFServer) : res OSPFServer := InstallRoute rKey (DeleteRoute rKey s).

(** The first area that has a route keeps it. *)
Definition consolidate_area (areaId : Z) (s : OSPFServer) : OSPFServer :=
  foldl (fun s e =>
    match TempGlobalRoutingTbl s !! e.1 with
    | Some _ => s
    | None => set_TempGlobalRoutingTbl (<[e.1 := mkGlobalRoutingTblEntry areaId e.2]> (TempGlobalRoutingTbl s)) s
    end) s (range _ (map_to_list (area_table areaId s))).

Definition ConsolidatingRoutingTbl (s : OSPFServer) : res OSPFServer :=
  each (fun key s => areaId ← convertAreaOrRouterIdUint32 key; Ok (consolidate_area areaId s))
    (range _ (map fst (map_to_list (AreaConfMap s)))) s.

(** The keys of networks that have next hops. *)
Definition network_keys (tbl : gmap RoutingTblEntryKey GlobalRoutingTblEntry) : gmap RoutingTblEntryKey bool :=
  (fun _ => false) <$>
  filter (fun e => DestType e.1 = Network /\ (0 < size (NextHops (RoutingTblEnt e.2)))%nat) tbl.

(** The loop over the new keys, which changes routes and marks the keys that are also old ones
    in both maps. *)
Fixpoint compare_routes (keys : list RoutingTblEntryKey) (old new : gmap RoutingTblEntryKey bool) (s : OSPFServer)
  : res (gmap RoutingTblEntryKey bool * gmap RoutingTblEntryKey bool * OSPFServer) :=
  match keys with
  | [] => Ok (old, new, s)
  | k :: keys =>
    match old !! k with
    | None => compare_routes keys old new s
    | Some _ =>
      s ← (if CompareRoutes k s then Ok s else UpdateRoute k s);
      compare_routes keys (<[k := true]> old) (<[k := true]> new) s
    end
  end.

Definition unmarked (m : gmap RoutingTblEntryKey bool) : list RoutingTblEntryKey :=
  map fst (List.filter (fun e => negb e.2) (range _ (map_to_list m))).

Definition install_changes (s : OSPFServer) : res OSPFServer :=
  let old := network_keys (OldGlobalRoutingTbl s) in
  let new := network_keys (TempGlobalRoutingTbl s) in
  '(old, new, s) ← compare_routes (range _ (map fst (map_to_list new))) old new s;
  each InstallRoute (unmarked new) (foldl (fun s k => DeleteRoute k s) s (unmarked old)).

Definition InstallRoutingTbl (s : OSPFServer) : res OSPFServer := s ← ConsolidatingRoutingTbl s; install_changes s.

(** ** A turn of the calculation *)

Context (sort : list VertexData -> list VertexData).

(** One area; an error leaves what has been done. *)
Definition calculate_area (e : string * AreaConf) (s : OSPFServer) : res OSPFServer :=
  if bool_decide (IntfListMap e.2 = ∅) then Ok s
  else
    areaId ← convertAreaOrRouterIdUint32 e.1;
    let s := initialiseSPFStructs s in
    let s := set_TempAreaRoutingTbl (<[areaId := ∅]> (TempAreaRoutingTbl s)) s in
    '(s, (vKey, err)) ← CreateAreaGraph range areaId s;
    match err with
    | Some _ => Ok s
    | None =>
      '(s, err) ← ExecuteDijkstra sort vKey s;
      match err with
      | Some _ => Ok s
      | None =>
        s ← UpdateRoutingTbl vKey areaId s;
        s ← HandleStubs areaId s;
        s ← HandleSummaryLsa areaId s;
        Ok (initialiseSPFStructs s)
      end
    end.

(** What a message on StartCalcSPFCh does, up to the summaries. *)
Definition calculate (s : OSPFServer) : res OSPFServer :=
  let s := set_TempAreaRoutingTbl ∅ (set_OldGlobalRoutingTbl (GlobalRoutingTbl s) s) in
  s ← each calculate_area (range _ (map_to_list (AreaConfMap s))) s;
  s ← InstallRoutingTbl (set_TempGlobalRoutingTbl ∅ s);
  Ok (set_TempGlobalRoutingTbl ∅ (set_OldGlobalRoutingTbl ∅ (set_TempAreaRoutingTbl ∅
        (set_GlobalRoutingTbl (TempGlobalRoutingTbl s) s)))).

(** ** Summaries for the other areas *)

Definition ImportNoExternal : Z := 2.

Definition isStubArea (area : string) (s : OSPFServer) : bool :=
  match AreaConfMap s !! area with Some conf => ImportAsExtern conf =? ImportNoExternal | None => false end.

(** The LSA of [key] with the metric, one number up from the one that is there. *)
Definition summary_of (key : LsaKey) (options netmask metric areaId : Z) (s : OSPFServer) : SummaryLsa :=
  let old := tbl ← SummaryLsDb s !! areaId; tbl !! key in
  let lsa := default NewSummaryLsa old in
  mkSummaryLsa
    (mkLsaMetadata 0 options (match old with Some l => LSSequenceNum (s_LsaMd l) + 1 | None => InitialSequenceNumber end)
       (LSChecksum (s_LsaMd lsa)) (OSPF_LSA_HEADER_SIZE + 8))
    netmask metric (SummaryTOSDetails lsa).

Definition GenerateDefaultSummary3LSA (areaId : Z) (s : OSPFServer) : res (LsaKey * SummaryLsa) :=
  rtr ← convertIPv4ToUint32 (RouterId s);
  let metric := match AreaConfMap s !! convertUint32ToIPv4 areaId with Some conf => StubDefaultCost conf | None => 20 end in
  let key := mkLsaKey Summary3LSA 0 rtr in Ok (key, summary_of key 0 0 (u32 metric) areaId s).

Definition GenerateType3SummaryLSA (rKey : RoutingTblEntryKey) (rEnt : GlobalRoutingTblEntry) (areaId : Z) (s : OSPFServer)
  : res (LsaKey * SummaryLsa) :=
  rtr ← convertIPv4ToUint32 (RouterId s);
  let key := mkLsaKey Summary3LSA (DestId rKey) rtr in Ok (key, summary_of key 2 (AddrMask rKey) (Cost (RoutingTblEnt rEnt)) areaId s).

Definition GenerateType4SummaryLSA (rKey : RoutingTblEntryKey) (rEnt : GlobalRoutingTblEntry) (areaId : Z) (s : OSPFServer)
  : res (LsaKey * SummaryLsa) :=
  rtr ← convertIPv4ToUint32 (RouterId s);
  let key := mkLsaKey Summary4LSA (DestId rKey) rtr in Ok (key, summary_of key 2 (AddrMask rKey) (Cost (RoutingTblEnt rEnt)) areaId s).

(** A turn of the loop over the routes. *)
Definition summarize (areaId : Z) (isStub : bool) (s : OSPFServer) (sEnt : gmap LsaKey SummaryLsa)
  (e : RoutingTblEntryKey * GlobalRoutingTblEntry) : res (gmap LsaKey SummaryLsa) :=
  let rKey := e.1 in
  let rEnt := RoutingTblEnt e.2 in
  if (DestType rKey =? AreaBdrRouter) || (PathType rEnt =? Type1Ext) || (PathType rEnt =? Type2Ext) ||
     (g_AreaId e.2 =? areaId) || (DestType rKey =? InternalRouter) || (LSInfinity <=? Cost rEnt)
  then Ok sEnt
  else
    sEnt ← (if ((DestType rKey =? ASAreaBdrRouter) || (DestType rKey =? ASBdrRouter)) && negb isStub then
              '(k, l) ← GenerateType4SummaryLSA rKey e.2 areaId s; Ok (<[k := l]> sEnt)
            else Ok sEnt);
    if (DestType rKey =? Network) && ((PathType rEnt =? InterArea) || (PathType rEnt =? IntraArea)) then
      '(k, l) ← GenerateType3SummaryLSA rKey e.2 areaId s; Ok (<[k := l]> sEnt)
    else Ok sEnt.

Fixpoint summarize_all (areaId : Z) (isStub : bool) (s : OSPFServer) (routes : list (RoutingTblEntryKey * GlobalRoutingTblEntry))
  (sEnt : gmap LsaKey SummaryLsa) : res (gmap LsaKey SummaryLsa) :=
  match routes with
  | [] => Ok sEnt
  | e :: routes => sEnt ← summarize areaId isStub s sEnt e; summarize_all areaId isStub s routes sEnt
  end.

Definition GenerateSummaryLsa (s : OSPFServer) : res OSPFServer :=
  each (fun e s =>
    if bool_decide (IntfListMap e.2 = ∅) then Ok s
    else
      areaId ← convertAreaOrRouterIdUint32 e.1;
      let isStub := isStubArea e.1 s in
      sEnt ← summarize_all areaId isStub s (range _ (map_to_list (GlobalRoutingTbl s))) ∅;
      let s := set_SummaryLsDb (<[areaId := sEnt]> (SummaryLsDb s)) s in
      if isStub then
        '(k, l) ← GenerateDefaultSummary3LSA areaId s;
        Ok (set_SummaryLsDb (<[areaId := <[k := l]> sEnt]> (SummaryLsDb s)) s)
      else Ok s) (range _ (map_to_list (AreaConfMap s))) (set_SummaryLsDb ∅ s).

Definition spfCalculation (s : OSPFServer) : res OSPFServer :=
  s ← calculate s;
  if AreaBdrRtrStatus s then GenerateSummaryLsa s else Ok s.
End Route.
