(* ===== verification/OspfRouteSpec.v ===== *)
(** * OSPF: what the installation of routes does

    The routes ribd holds after a sequence of calls, and how the calls of each operation
    change them. *)

From S2P Require Import Prelude.
From S2P Require Import NetIP.
From S2P Require Import NetParse.
From S2P Require Import OspfUtil.
From S2P Require Import OspfLsa.
From S2P Require Import OspfServer.
From S2P Require Import OspfSpf.
From S2P Require Import OspfRoute.

(** ** The text of an address *)

Lemma octet_bits v i : is_u8 (Z.land (Z.shiftr v i) 0xFF).
Proof. unfold is_u8. change 0xFF with (Z.ones 8). rewrite Z.land_ones by lia. apply Z.mod_pos_bound. lia. Qed.

Lemma octet_bits_0 v : is_u8 (Z.land v 0xFF).
Proof. rewrite <- (Z.shiftr_0_r v). apply octet_bits. Qed.

Lemma octets_inj v w :
  is_u32 v -> is_u32 w -> Z.land (Z.shiftr v 24) 0xFF = Z.land (Z.shiftr w 24) 0xFF ->
  Z.land (Z.shiftr v 16) 0xFF = Z.land (Z.shiftr w 16) 0xFF -> Z.land (Z.shiftr v 8) 0xFF = Z.land (Z.shiftr w 8) 0xFF ->
  Z.land v 0xFF = Z.land w 0xFF -> v = w.
Proof.
  unfold is_u32. change 0xFF with (Z.ones 8). rewrite !Z.land_ones, !Z.shiftr_div_pow2 by lia.
  change (2 ^ 24) with 16777216. change (2 ^ 16) with 65536. change (2 ^ 8) with 256. intros. zlia.
Qed.

Lemma address_text_inj v w : is_u32 v -> is_u32 w -> convertUint32ToIPv4 v = convertUint32ToIPv4 w -> v = w.
Proof.
  intros Hv Hw E. unfold convertUint32ToIPv4 in E.
  change (dotted_string [?a; ?b; ?c; ?d]) with (IP_String [a; b; c; d]) in E.
  apply (f_equal parseIPv4) in E. rewrite !parseIPv4_String in E by auto using octet_bits, octet_bits_0.
  injection E as E1 E2 E3 E4. by apply octets_inj.
Qed.

#[local] Arguments convertUint32ToIPv4 : simpl never.

(** ** What ribd holds *)

(** The routes with their costs, by destination, mask and next hop. *)
Abbreviation rib_table := (gmap (string * string * string) Z).

Definition apply_call (t : rib_table) (c : RibCall) : rib_table :=
  match c with
  | CreateIPv4Route d m cost h _ => <[(d, m, h) := cost]> t
  | DeleteIPv4Route d m h => delete (d, m, h) t
  end.

Definition replay (calls : list RibCall) : rib_table := foldl apply_call ∅ calls.

Definition held (s : OSPFServer) (k : RoutingTblEntryKey) (h : string) : option Z :=
  replay (rib s) !! (convertUint32ToIPv4 (DestId k), convertUint32ToIPv4 (AddrMask k), h).

Definition is_network (k : RoutingTblEntryKey) : Prop := DestType k = Network /\ is_u32 (DestId k) /\ is_u32 (AddrMask k).

(** What a table wants ribd to hold. *)
Definition wanted (tbl : gmap RoutingTblEntryKey GlobalRoutingTblEntry) (k : RoutingTblEntryKey) (h : string) (cost : Z) : Prop :=
  exists ent nh, tbl !! k = Some ent /\ nh ∈ NextHops (RoutingTblEnt ent) /\ h = convertUint32ToIPv4 (NextHopIP nh) /\
  cost = Cost (RoutingTblEnt ent).

Definition shows (s : OSPFServer) (tbl : gmap RoutingTblEntryKey GlobalRoutingTblEntry) (k : RoutingTblEntryKey) : Prop :=
  forall h cost, held s k h = Some cost <-> wanted tbl k h cost.

Lemma network_text k k' :
  is_network k -> is_network k' -> convertUint32ToIPv4 (DestId k) = convertUint32ToIPv4 (DestId k') ->
  convertUint32ToIPv4 (AddrMask k) = convertUint32ToIPv4 (AddrMask k') -> k = k'.
Proof.
  intros (T1 & D1 & M1) (T2 & D2 & M2) Hd Hm. apply address_text_inj in Hd, Hm; try done.
  destruct k, k'. cbn in *. congruence.
Qed.

(** The routes of one destination, as a function of the next hop. *)
Definition same_routes (s s' : OSPFServer) (k : RoutingTblEntryKey) : Prop := forall h, held s' k h = held s k h.

(** What the installation reads and does not change. *)
Record same_tables (s s' : OSPFServer) : Prop := {
  st_old : OldGlobalRoutingTbl s' = OldGlobalRoutingTbl s;
  st_new : TempGlobalRoutingTbl s' = TempGlobalRoutingTbl s;
  st_hdl : ClientHdl s' = ClientHdl s;
  st_ips : ipPropertyMap s' = ipPropertyMap s;
}.

Lemma same_tables_refl s : same_tables s s.
Proof. done. Qed.

Lemma same_tables_trans s1 s2 s3 : same_tables s1 s2 -> same_tables s2 s3 -> same_tables s1 s3.
Proof. intros [] []. split; congruence. Qed.

Lemma shows_tables s s' k tbl : same_routes s s' k -> shows s tbl k -> shows s' tbl k.
Proof. intros H S h c. rewrite H. apply S. Qed.

Section Calls.
Context (range : forall A : Type, list A -> list A) (ifIndex : Z -> Z -> Z).
Context (Hrange : forall A (l : list A), Permutation (range A l) l).

Lemma in_range (X : gset NextHop) h : h ∈ range _ (elements X) <-> h ∈ X.
Proof. rewrite Hrange. apply elem_of_elements. Qed.

Lemma replay_call s c rKey op h k :
  held (tell_db rKey op (call_ribd c s)) k h = apply_call (replay (rib s)) c !! (convertUint32ToIPv4 (DestId k), convertUint32ToIPv4 (AddrMask k), h).
Proof. unfold held, replay. cbn. by rewrite foldl_app. Qed.

(** Deletion: all hops of the old entry go, and nothing else. *)
Lemma delete_hops rKey hops s :
  is_network rKey ->
  let s' := foldl (fun s h => tell_db rKey false (call_ribd (delete_call rKey h) s)) s hops in
  same_tables s s' /\ (forall k, is_network k -> k <> rKey -> same_routes s s' k) /\
  forall h, held s' rKey h = (if bool_decide (Exists (fun nh => h = convertUint32ToIPv4 (NextHopIP nh)) hops) then None else held s rKey h).
Proof.
  intros Hk. revert s. induction hops as [|nh hops IH]; intros s; cbn [foldl].
  { split_and!; [done|done|]. intros h. rewrite bool_decide_eq_false_2; [done|]. by intros ?%Exists_nil. }
  destruct (IH (tell_db rKey false (call_ribd (delete_call rKey nh) s))) as (T & O & R). split_and!.
  - eapply same_tables_trans; [|exact T]. done.
  - intros k Hn Hne h. rewrite O by done. rewrite replay_call. cbn. rewrite lookup_delete_ne; [done|].
    intros [= E1 E2 _]. by apply Hne, network_text.
  - intros h. rewrite R, replay_call. cbn. destruct (decide (h = convertUint32ToIPv4 (NextHopIP nh))) as [->|Hne].
    + rewrite (bool_decide_eq_true_2 (Exists _ (nh :: hops))) by (by constructor). by destruct (bool_decide _); rewrite ?lookup_delete_eq.
    + rewrite lookup_delete_ne by (intros [= X]; by apply Hne). erewrite bool_decide_ext; [done|]. rewrite Exists_cons. tauto.
Qed.

Lemma DeleteRoute_spec k s :
  is_network k -> ClientHdl s = true -> shows s (OldGlobalRoutingTbl s) k ->
  same_tables s (DeleteRoute range k s) /\ (forall j, is_network j -> j <> k -> same_routes s (DeleteRoute range k s) j) /\
  forall h, held (DeleteRoute range k s) k h = None.
Proof.
  intros Hk Hc Hs. unfold DeleteRoute. destruct (OldGlobalRoutingTbl s !! k) as [ent|] eqn:E.
  - rewrite Hc. destruct (delete_hops k (range _ (elements (NextHops (RoutingTblEnt ent)))) s Hk) as (T & O & R).
    split_and!; [done|done|]. intros h. rewrite R. case_bool_decide as Hx; [done|].
    destruct (held s k h) as [c|] eqn:Eh; [|done]. apply Hs in Eh as (ent' & nh & E' & Hin & Ht & _). rewrite E in E'. injection E' as <-.
    exfalso. apply Hx, Exists_exists. exists nh. by rewrite in_range.
  - split_and!; [done|done|]. intros h. destruct (held s k h) as [c|] eqn:Eh; [|done].
    apply Hs in Eh as (ent' & nh & E' & _). congruence.
Qed.

(** Installation over no routes: just the hops of the new entry. *)
Lemma install_hops rKey cost hops s :
  is_network rKey -> ClientHdl s = true -> (forall h, h ∈ hops -> is_Some (ipPropertyMap s !! IfIPAddr h)) ->
  exists s',
    each (fun h s =>
      match ipPropertyMap s !! IfIPAddr h with
      | None => Ok s
      | Some ipProp => _ ← must (ClientHdl s); Ok (tell_db rKey true (call_ribd (create_call ifIndex rKey cost h ipProp) s))
      end) hops s = Ok s' /\
  same_tables s s' /\ (forall k, is_network k -> k <> rKey -> same_routes s s' k) /\
  forall h, held s' rKey h = (if bool_decide (Exists (fun nh => h = convertUint32ToIPv4 (NextHopIP nh)) hops) then Some cost else held s rKey h).
Proof.
  intros Hk. revert s. induction hops as [|nh hops IH]; intros s Hc Hip; cbn [each].
  { exists s. split_and!; [done|done|done|]. intros h. rewrite bool_decide_eq_false_2; [done|]. by intros ?%Exists_nil. }
  destruct (Hip nh) as [ipProp Hp]; [left|]. rewrite Hp, Hc. res_simpl.
  destruct (IH (tell_db rKey true (call_ribd (create_call ifIndex rKey cost nh ipProp) s))) as (s' & -> & T & O & R); [done| |].
  { intros h Hh. apply Hip. by right. }
  exists s'. split_and!; [done| | |].
  - eapply same_tables_trans; [|exact T]. done.
  - intros k Hn Hne h. rewrite O by done. rewrite replay_call. cbn. rewrite lookup_insert_ne; [done|].
    intros [= E1 E2 _]. by apply Hne, network_text.
  - intros h. rewrite R, replay_call. cbn. destruct (decide (h = convertUint32ToIPv4 (NextHopIP nh))) as [->|Hne].
    + rewrite (bool_decide_eq_true_2 (Exists _ (nh :: hops))) by (by constructor). by destruct (bool_decide _); rewrite ?lookup_insert_eq.
    + rewrite lookup_insert_ne by (intros [= X]; by apply Hne). erewrite bool_decide_ext; [done|]. rewrite Exists_cons. tauto.
Qed.

(** The interfaces of all next hops of a table are known. *)
Definition interfaces_known (tbl : gmap RoutingTblEntryKey GlobalRoutingTblEntry) (s : OSPFServer) : Prop :=
  forall k ent h, tbl !! k = Some ent -> h ∈ NextHops (RoutingTblEnt ent) -> is_Some (ipPropertyMap s !! IfIPAddr h).

Lemma InstallRoute_spec k s :
  is_network k -> ClientHdl s = true -> interfaces_known (TempGlobalRoutingTbl s) s -> (forall h, held s k h = None) ->
  exists s', InstallRoute range ifIndex k s = Ok s' /\ same_tables s s' /\
  (forall j, is_network j -> j <> k -> same_routes s s' j) /\ shows s' (TempGlobalRoutingTbl s) k.
Proof.
  intros Hk Hc Hip H0. unfold InstallRoute. destruct (TempGlobalRoutingTbl s !! k) as [ent|] eqn:E.
  - destruct (install_hops k (Cost (RoutingTblEnt ent)) (range _ (elements (NextHops (RoutingTblEnt ent)))) s Hk Hc) as (s' & -> & T & O & R).
    { intros h Hh. eapply Hip; [exact E|]. by apply in_range. }
    exists s'. split_and!; [done|done|done|]. intros h c. rewrite R, H0. unfold wanted. case_bool_decide as Hx.
    + apply Exists_exists in Hx as (nh & Hin & ->). rewrite in_range in Hin. split.
      * intros [= <-]. by exists ent, nh.
      * intros (ent' & nh' & E' & _ & _ & ->). rewrite E in E'. by injection E' as <-.
    + split; [done|]. intros (ent' & nh' & E' & Hin & Ht & _). rewrite E in E'. injection E' as <-. exfalso.
      apply Hx, Exists_exists. exists nh'. by rewrite in_range.
  - exists s. split_and!; [done|done|done|]. intros h c. rewrite H0. split; [done|]. intros (ent' & nh & E' & _). congruence.
Qed.

(** ** The three loops *)

Lemma network_keys_lookup tbl k b :
  network_keys tbl !! k = Some b <->
  b = false /\ exists ent, tbl !! k = Some ent /\ DestType k = Network /\ (0 < size (NextHops (RoutingTblEnt ent)))%nat.
Proof.
  unfold network_keys. rewrite lookup_fmap, fmap_Some. split.
  - intros (ent & H & ->). apply map_lookup_filter_Some in H as (H1 & H2 & H3). split; [done|]. by exists ent.
  - intros (-> & ent & H1 & H2 & H3). exists ent. split; [|done]. by apply map_lookup_filter_Some.
Qed.

Lemma unmarked_spec (m : gmap RoutingTblEntryKey bool) k : k ∈ unmarked range m <-> m !! k = Some false.
Proof.
  unfold unmarked. rewrite list_elem_of_fmap. split.
  - intros ([k' b] & -> & H). apply list_elem_of_In, filter_In in H as [H E]. apply list_elem_of_In in H.
    rewrite Hrange, elem_of_map_to_list in H. cbn in *. by destruct b.
  - intros H. exists (k, false). split; [done|]. apply list_elem_of_In, filter_In. split; [|done].
    apply list_elem_of_In. by rewrite Hrange, elem_of_map_to_list.
Qed.

Lemma NoDup_filter_fst {B} (f : RoutingTblEntryKey * B -> bool) l : NoDup (map fst l) -> NoDup (map fst (List.filter f l)).
Proof.
  induction l as [|[k b] l IH]; [done|]. cbn. intros [Hk N]%NoDup_cons. destruct (f (k, b)); [|by apply IH].
  cbn. apply NoDup_cons. split; [|by apply IH]. intros ([? ?] & -> & H)%list_elem_of_fmap. apply list_elem_of_In, filter_In in H as [H _].
  apply Hk, list_elem_of_fmap. eexists. split; [|apply list_elem_of_In; exact H]. done.
Qed.

Lemma NoDup_unmarked m : NoDup (unmarked range m).
Proof. apply NoDup_filter_fst. rewrite Hrange. apply NoDup_fst_map_to_list. Qed.

Lemma CompareRoutes_shows k s ent :
  CompareRoutes range k s = true -> is_Some (OldGlobalRoutingTbl s !! k) -> TempGlobalRoutingTbl s !! k = Some ent ->
  shows s (OldGlobalRoutingTbl s) k -> shows s (TempGlobalRoutingTbl s) k.
Proof.
  unfold CompareRoutes. intros H [old Ho] Hn S. rewrite Ho, Hn in H. rewrite !andb_true_iff, Z.eqb_eq, Nat.eqb_eq in H.
  destruct H as [[Hc Hs] Hf].
  assert (Heq : NextHops (RoutingTblEnt old) = NextHops (RoutingTblEnt ent)).
  { apply set_eq. assert (Hsub : NextHops (RoutingTblEnt old) ⊆ NextHops (RoutingTblEnt ent)).
    { intros h Hh. rewrite forallb_forall in Hf. apply (bool_decide_eq_true_1 _), Hf, list_elem_of_In, in_range, Hh. }
    intros h. split; [apply Hsub|]. intros Hh. apply dec_stable. intros Hno.
    assert (size (NextHops (RoutingTblEnt old)) < size (NextHops (RoutingTblEnt ent)))%nat; [|lia]. apply subset_size. set_solver. }
  intros h c. etransitivity; [apply S|]. unfold wanted. split; intros (e & nh & He & Hin & -> & ->).
  - rewrite Ho in He. injection He as <-. exists ent, nh. by rewrite <- Heq, <- Hc.
  - rewrite Hn in He. injection He as <-. exists old, nh. by rewrite Heq, Hc.
Qed.

(** The hypotheses of the installation. *)
Record ready (s : OSPFServer) : Prop := {
  rd_hdl : ClientHdl s = true;
  rd_ips : interfaces_known (TempGlobalRoutingTbl s) s;
  rd_old : forall k, DestType k = Network -> is_Some (OldGlobalRoutingTbl s !! k) -> is_network k;
  rd_new : forall k, DestType k = Network -> is_Some (TempGlobalRoutingTbl s !! k) -> is_network k;
}.

Lemma ready_same s s' : same_tables s s' -> ready s -> ready s'.
Proof.
  intros [E1 E2 E3 E4] [R1 R2 R3 R4]. unfold interfaces_known in *.
  split; unfold interfaces_known; rewrite ?E1, ?E2, ?E3, ?E4; done.
Qed.

Lemma UpdateRoute_spec k s :
  is_network k -> ready s -> shows s (OldGlobalRoutingTbl s) k ->
  exists s', UpdateRoute range ifIndex k s = Ok s' /\ same_tables s s' /\
  (forall j, is_network j -> j <> k -> same_routes s s' j) /\ shows s' (TempGlobalRoutingTbl s) k.
Proof.
  intros Hk R S. unfold UpdateRoute. destruct (DeleteRoute_spec k s Hk (rd_hdl _ R) S) as (T & O & N).
  pose proof (ready_same _ _ T R) as R'. destruct (InstallRoute_spec k _ Hk (rd_hdl _ R') (rd_ips _ R') N) as (s' & E & T' & O' & S').
  exists s'. split_and!; [done|by eapply same_tables_trans| |].
  - intros j Hj Hne h. by rewrite O', O.
  - by rewrite <- (st_new _ _ T).
Qed.

Lemma compare_routes_spec keys old new s :
  NoDup keys -> ready s ->
  (forall k, k ∈ keys -> is_network k /\ is_Some (TempGlobalRoutingTbl s !! k) /\ shows s (OldGlobalRoutingTbl s) k /\
     (is_Some (old !! k) -> is_Some (OldGlobalRoutingTbl s !! k))) ->
  exists old' new' s', compare_routes range ifIndex keys old new s = Ok (old', new', s') /\ same_tables s s' /\
  (forall k, is_network k -> k ∉ keys \/ old !! k = None -> same_routes s s' k) /\
  (forall k, k ∈ keys -> is_Some (old !! k) -> shows s' (TempGlobalRoutingTbl s) k) /\
  (forall k, k ∈ keys -> is_Some (old !! k) -> old' !! k = Some true /\ new' !! k = Some true) /\
  (forall k, k ∉ keys \/ old !! k = None -> old' !! k = old !! k /\ new' !! k = new !! k).
Proof.
  revert old new s. induction keys as [|k keys IH]; intros old new s Hnd R Hk.
  { exists old, new, s. split_and!; try done; intros k ?%elem_of_nil; done. }
  apply NoDup_cons in Hnd as [Hnot Hnd]. destruct (Hk k ltac:(left)) as (Hnet & [ent He] & Hs & Hold). cbn [compare_routes].
  assert (Hrest : forall j, j ∈ keys -> j <> k) by (intros j Hj ->; done).
  destruct (old !! k) as [b|] eqn:Eo.
  - destruct (Hold ltac:(by eexists)) as [oent Hoe].
    assert (X : exists s1, (if CompareRoutes range k s then Ok s else UpdateRoute range ifIndex k s) = Ok s1 /\ same_tables s s1 /\
      (forall j, is_network j -> j <> k -> same_routes s s1 j) /\ shows s1 (TempGlobalRoutingTbl s) k).
    { destruct (CompareRoutes range k s) eqn:Ec; [|by apply UpdateRoute_spec]. exists s. split_and!; [done|done|done|].
      eapply CompareRoutes_shows; [done|by eexists|done|done]. }
    destruct X as (s1 & -> & T1 & O1 & S1). res_simpl.
    destruct (IH (<[k := true]> old) (<[k := true]> new) s1) as (old' & new' & s' & -> & T & O & S & M & U); [done|by eapply ready_same| |].
    { intros j Hj. pose proof (Hrest j Hj) as Hne. destruct (Hk j) as (Jn & Jt & Js & Jo); [by right|].
      rewrite (st_new _ _ T1), (st_old _ _ T1). split_and!; [done|done| |by rewrite lookup_insert_ne].
      eapply shows_tables; [by apply O1|done]. }
    exists old', new', s'. rewrite (st_new _ _ T1) in S. split_and!; [done|by eapply same_tables_trans| | | |].
    + intros j Hj Hc h. assert (j <> k) as Hne by (intros ->; destruct Hc as [Hc|Hc]; [apply Hc; left|congruence]).
      rewrite O, O1; [done|done|done|done|]. rewrite lookup_insert_ne by done. destruct Hc as [Hc|]; [left|by right]. intros ?. apply Hc. by right.
    + intros j [-> |Hj]%elem_of_cons Hsome.
      * eapply shows_tables; [|exact S1]. apply O; [done|by left].
      * apply S; [done|]. rewrite lookup_insert_ne by (intros <-; by eapply Hrest). done.
    + intros j [-> |Hj]%elem_of_cons Hsome.
      * destruct (U k) as [-> ->]; [by left|]. by rewrite !lookup_insert_eq.
      * apply M; [done|]. rewrite lookup_insert_ne by (intros <-; by eapply Hrest). done.
    + intros j Hc. assert (j <> k) as Hne by (intros ->; destruct Hc as [Hc|Hc]; [apply Hc; left|congruence]).
      destruct (U j) as [-> ->]; [|by rewrite !lookup_insert_ne].
      rewrite lookup_insert_ne by done. destruct Hc as [Hc|]; [left|by right]. intros ?. apply Hc. by right.
  - destruct (IH old new s) as (old' & new' & s' & -> & T & O & S & M & U); [done|done| |].
    { intros j Hj. apply Hk. by right. }
    exists old', new', s'. split_and!; [done|done| | | |].
    + intros j Hj Hc. apply O; [done|]. destruct (decide (j = k)) as [->|Hne]; [by left|]. destruct Hc as [Hc|]; [left|by right].
      intros ?. apply Hc. by right.
    + intros j [-> |Hj]%elem_of_cons Hsome; [rewrite Eo in Hsome; by destruct Hsome|by apply S].
    + intros j [-> |Hj]%elem_of_cons Hsome; [rewrite Eo in Hsome; by destruct Hsome|by apply M].
    + intros j Hc. apply U. destruct (decide (j = k)) as [->|Hne]; [by left|]. destruct Hc as [Hc|]; [left|by right].
      intros ?. apply Hc. by right.
Qed.

Lemma delete_all_spec keys s :
  NoDup keys -> ready s -> (forall k, k ∈ keys -> is_network k /\ shows s (OldGlobalRoutingTbl s) k) ->
  let s' := foldl (fun s k => DeleteRoute range k s) s keys in
  same_tables s s' /\ (forall k, is_network k -> k ∉ keys -> same_routes s s' k) /\ forall k h, k ∈ keys -> held s' k h = None.
Proof.
  revert s. induction keys as [|k keys IH]; intros s Hnd R Hk; cbn [foldl].
  { split_and!; [done|done|]. by intros k h ?%elem_of_nil. }
  apply NoDup_cons in Hnd as [Hnot Hnd]. destruct (Hk k ltac:(left)) as [Hn Hs].
  destruct (DeleteRoute_spec k s Hn (rd_hdl _ R) Hs) as (T1 & O1 & N1).
  destruct (IH (DeleteRoute range k s)) as (T & O & N); [done|by eapply ready_same| |].
  { intros j Hj. destruct (Hk j) as [Jn Js]; [by right|]. split; [done|]. rewrite (st_old _ _ T1).
    eapply shows_tables; [|exact Js]. apply O1; [done|]. by intros ->. }
  split_and!; [by eapply same_tables_trans| |].
  - intros j Hj Hni h. rewrite O, O1; [done|done| |done|]; intros X; [subst; apply Hni; left|apply Hni; by right].
  - intros j h [-> |Hj]%elem_of_cons; [|by apply N]. by rewrite O.
Qed.

Lemma install_all_spec keys s :
  NoDup keys -> ready s -> (forall k, k ∈ keys -> is_network k /\ forall h, held s k h = None) ->
  exists s', each (InstallRoute range ifIndex) keys s = Ok s' /\ same_tables s s' /\
  (forall k, is_network k -> k ∉ keys -> same_routes s s' k) /\ (forall k, k ∈ keys -> shows s' (TempGlobalRoutingTbl s) k).
Proof.
  revert s. induction keys as [|k keys IH]; intros s Hnd R Hk; cbn [each].
  { exists s. split_and!; [done|done|done|]. by intros k ?%elem_of_nil. }
  apply NoDup_cons in Hnd as [Hnot Hnd]. destruct (Hk k ltac:(left)) as [Hn Hs].
  destruct (InstallRoute_spec k s Hn (rd_hdl _ R) (rd_ips _ R) Hs) as (s1 & -> & T1 & O1 & S1). res_simpl.
  destruct (IH s1) as (s' & -> & T & O & S); [done|by eapply ready_same| |].
  { intros j Hj. destruct (Hk j) as [Jn Js]; [by right|]. split; [done|]. intros h. rewrite O1; [done|done|]. by intros ->. }
  exists s'. split_and!; [done|by eapply same_tables_trans| |].
  - intros j Hj Hni h. rewrite O, O1; [done|done| |done|]; intros X; [subst; apply Hni; left|apply Hni; by right].
  - intros j [-> |Hj]%elem_of_cons; [|rewrite <- (st_new _ _ T1); by apply S]. eapply shows_tables; [|exact S1]. by apply O.
Qed.
End Calls.
