(* ===== verification/OspfRouteProps.v ===== *)
(** * OSPF: properties of the routes *)

From S2P Require Import Prelude.
From S2P Require Import OspfUtil.
From S2P Require Import OspfLsa.
From S2P Require Import OspfServer.
From S2P Require Import OspfSpf.
From S2P Require Import OspfSpfSpec.
From S2P Require Import OspfSpfProps.
From S2P Require Import OspfGraphSpec.
From S2P Require Import OspfAreaProps.
From S2P Require Import OspfRoute.
From S2P Require Import OspfRouteSpec.

(** ** The installation *)

Section Install.
Context (range : forall A : Type, list A -> list A) (ifIndex : Z -> Z -> Z).
Context (Hrange : forall A (l : list A), Permutation (range A l) l).

Lemma install_changes_spec s :
  ready s -> (forall k, is_network k -> shows s (OldGlobalRoutingTbl s) k) ->
  exists s', install_changes range ifIndex s = Ok s' /\ same_tables s s' /\
  (forall k, is_network k -> shows s' (TempGlobalRoutingTbl s) k).
Proof.
  intros R S. unfold install_changes. set (old := network_keys (OldGlobalRoutingTbl s)). set (new := network_keys (TempGlobalRoutingTbl s)).
  set (keys := range _ (map fst (map_to_list new))).
  assert (Hkeys : forall k, k ∈ keys <-> is_Some (new !! k)).
  { intros k. unfold keys. rewrite Hrange, list_elem_of_fmap. split.
    - intros ([j b] & -> & H). exists b. by apply elem_of_map_to_list in H.
    - intros [b H]. exists (k, b). split; [done|]. by apply elem_of_map_to_list. }
  assert (Hold : forall k b, old !! k = Some b -> b = false /\ is_network k /\ is_Some (OldGlobalRoutingTbl s !! k)).
  { intros k b (-> & ent & He & Hn & _)%network_keys_lookup. split_and!; [done|apply (rd_old _ R); [done|by exists ent]|by exists ent]. }
  assert (Hnew : forall k b, new !! k = Some b -> b = false /\ is_network k /\ is_Some (TempGlobalRoutingTbl s !! k)).
  { intros k b (-> & ent & He & Hn & _)%network_keys_lookup. split_and!; [done|apply (rd_new _ R); [done|by exists ent]|by exists ent]. }
  assert (Hnone : forall tbl k h c, is_network k -> network_keys tbl !! k = None -> ~ wanted tbl k h c).
  { intros tbl k h c (Hn & _) H (ent & nh & He & Hin & _). destruct (decide (0 < size (NextHops (RoutingTblEnt ent))))%nat as [Hs|Hs].
    - assert (network_keys tbl !! k = Some false) by (apply network_keys_lookup; split; [done|by exists ent]). congruence.
    - assert (size (NextHops (RoutingTblEnt ent)) = 0)%nat as Hz%size_empty_inv by lia. set_solver. }
  destruct (compare_routes_spec range ifIndex Hrange keys old new s) as (old' & new' & s1 & -> & T1 & O1 & S1 & M1 & U1).
  { unfold keys. rewrite Hrange. apply NoDup_fst_map_to_list. } { done. }
  { intros k [b Hb]%Hkeys. destruct (Hnew k b Hb) as (_ & Hn & Hs). split_and!; [done|done|by apply S|]. intros [b' Hb']. by eapply Hold. }
  res_simpl. pose proof (ready_same _ _ T1 R) as R1.
  assert (Hrest : forall k, k ∉ keys \/ old !! k = None \/ is_Some (old !! k) /\ k ∈ keys).
  { intros k. destruct (decide (k ∈ keys)); [|by left]. right. destruct (old !! k); [right; split; [by eexists|done]|by left]. }
  destruct (delete_all_spec range Hrange (unmarked range old') s1) as (T2 & O2 & N2).
  { by apply NoDup_unmarked. } { done. }
  { intros k Hk%unmarked_spec; [|done]. destruct (Hrest k) as [Hr|[Hr|[Hr1 Hr2]]].
    - destruct (U1 k (or_introl Hr)) as [E _]. rewrite E in Hk. destruct (Hold k _ Hk) as (_ & Hn & _). split; [done|].
      rewrite (st_old _ _ T1). eapply shows_tables; [|by apply S]. apply O1; [done|by left].
    - destruct (U1 k (or_intror Hr)) as [E _]. congruence.
    - destruct (M1 k Hr2 Hr1) as [E _]. congruence. }
  set (s2 := foldl _ s1 _) in *. pose proof (ready_same _ _ T2 R1) as R2.
  assert (Hgone : forall k h, is_network k -> new !! k = None -> held s2 k h = None).
  { intros k h Hn Hk. assert (k ∉ keys) as Hnk by (intros [b Hb]%Hkeys; congruence). destruct (U1 k (or_introl Hnk)) as [E _].
    destruct (old !! k) as [b|] eqn:Eo.
    - apply N2, unmarked_spec; [done|]. destruct (Hold k b Eo) as [-> _]. done.
    - rewrite O2, O1; [|done|by left|done|rewrite unmarked_spec by done; congruence].
      destruct (held s k h) as [c|] eqn:Eh; [|done]. apply S in Eh; [|done]. exfalso. by eapply Hnone. }
  assert (Hfresh : forall k h, is_network k -> old !! k = None -> held s2 k h = None).
  { intros k h Hn Hk. destruct (U1 k (or_intror Hk)) as [E _].
    rewrite O2, O1; [|done|by right|done|rewrite unmarked_spec by done; congruence].
    destruct (held s k h) as [c|] eqn:Eh; [|done]. apply S in Eh; [|done]. exfalso. by eapply Hnone. }
  destruct (install_all_spec range ifIndex Hrange (unmarked range new') s2) as (s3 & E3 & T3 & O3 & S3).
  { by apply NoDup_unmarked. } { done. }
  { intros k Hk%unmarked_spec; [|done]. destruct (Hrest k) as [Hr|[Hr|[Hr1 Hr2]]].
    - destruct (U1 k (or_introl Hr)) as [_ E]. rewrite E in Hk. exfalso. apply Hr, Hkeys. by eexists.
    - destruct (U1 k (or_intror Hr)) as [_ E]. rewrite E in Hk. destruct (Hnew k _ Hk) as (_ & Hn & _). split; [done|].
      intros h. by apply Hfresh.
    - destruct (M1 k Hr2 Hr1) as [_ E]. congruence. }
  exists s3. split; [exact E3|]. split; [by repeat (eapply same_tables_trans; [eassumption|])|].
  intros k Hn. rewrite <- (st_new _ _ T1), <- (st_new _ _ T2). destruct (new !! k) as [b|] eqn:En.
  - assert (k ∈ keys) as Hin by (apply Hkeys; by eexists). destruct (old !! k) as [b'|] eqn:Eo.
    + destruct (M1 k Hin ltac:(by eexists)) as [Eo' En']. rewrite (st_new _ _ T2), (st_new _ _ T1).
      eapply shows_tables; [|by apply S1; [|eexists]]. intros h.
      rewrite O3, O2; [done|done| |done|]; rewrite unmarked_spec by done; congruence.
    + apply S3, unmarked_spec; [done|]. destruct (U1 k (or_intror Eo)) as [_ ->]. destruct (Hnew k b En) as [-> _]. done.
  - assert (k ∉ keys) as Hnk by (intros [b Hb]%Hkeys; congruence). destruct (U1 k (or_introl Hnk)) as [_ E].
    intros h c. rewrite O3; [|done|rewrite unmarked_spec by done; congruence]. rewrite Hgone by done.
    rewrite (st_new _ _ T2), (st_new _ _ T1). split; [done|]. intros W. exfalso. by eapply Hnone.
Qed.
End Install.

(** ** What the calculation before it leaves alone *)

Section Frame.
Context (range : forall A : Type, list A -> list A) (ifIndex : Z -> Z -> Z) (sort : list VertexData -> list VertexData).

Definition kept (s : OSPFServer) :=
  (rib s, OldGlobalRoutingTbl s, ClientHdl s, ipPropertyMap s, TempGlobalRoutingTbl s, AreaLsdb s, AreaSelfOrigLsa s).

Lemma kept_eq s s' : kept s' = kept s ->
  rib s' = rib s /\ OldGlobalRoutingTbl s' = OldGlobalRoutingTbl s /\ ClientHdl s' = ClientHdl s /\ ipPropertyMap s' = ipPropertyMap s.
Proof. by intros [= -> -> -> -> _ _ _]. Qed.

Lemma router_links_kept areaId key links n ent s r :
  router_links range areaId key links n ent s = Ok r -> kept r.1.2 = kept s.
Proof.
  revert links ent s. induction n as [|n IH]; intros [|l links] ent s; cbn [router_links]; try by intros [= <-].
  destruct (router_link range areaId key l ent s) as [[ent1 s1] err] eqn:E.
  assert (Hk : kept s1 = kept s).
  { revert E. unfold router_link. repeat case_match; by intros [= <- <- <-]. }
  destruct err; [by intros [= <-]|]. intros H. rewrite <- Hk. by eapply IH.
Qed.

Lemma visit_all_kept visit keys s r :
  (forall k s r, visit k s = Ok r -> kept r.1 = kept s) -> visit_all visit keys s = Ok r -> kept r.1 = kept s.
Proof.
  intros Hv. revert s. induction keys as [|k keys IH]; intros s; cbn [visit_all]; [by intros [= <-]|].
  destruct (visit k s) as [[s1 err]| | |] eqn:E; try done. res_simpl. apply Hv in E. cbn in E.
  destruct err; [by intros [= <-]|]. intros H. rewrite <- E. by apply IH.
Qed.

Lemma continue_kept (m : res (OSPFServer * option goerr)) s r :
  (forall r, m = Ok r -> kept r.1 = kept s) -> continue_on <$> m = Ok r -> kept r.1 = kept s.
Proof. intros H. destruct m as [x| | |]; try done. intros [= <-]. exact (H x eq_refl). Qed.

Lemma transit_kept areaId s : kept (set_transit areaId s) = kept s.
Proof. unfold set_transit. by repeat case_match. Qed.

Lemma update_graph_kept fuel : (forall l key areaId s r, UpdateAreaGraphNetworkLsa range fuel l key areaId s = Ok r -> kept r.1 = kept s) /\
  (forall l key areaId s r, UpdateAreaGraphRouterLsa range fuel l key areaId s = Ok r -> kept r.1 = kept s).
Proof.
  induction fuel as [|fuel [IHn IHr]]; [done|]. split; intros l key areaId s r; cbn -[convertIPv4ToUint32].
  - destruct (visited _ s); [by intros [= <-]|]. destruct (attached_routers _ _ _ _ _ _) as [ent| | |]; try done. res_simpl.
    destruct (NbrVertexKey ent) as [|k ks]; [by intros [= <-]|]. destruct (AreaLsdb s !! areaId) as [db|]; [|by intros [= <-]].
    intros H. apply (visit_all_kept _ (k :: ks)) in H; [exact H|]. intros j t x. destruct (visited j t); [by intros [= <-]|].
    destruct (RouterLsaMap db !! _); [|by intros [= <-]]. apply continue_kept. intros y Hy. by eapply IHr.
  - destruct (visited _ s); [by intros [= <-]|]. set (s0 := if BitV l then set_transit areaId s else s).
    assert (H0 : kept s0 = kept s) by (unfold s0; destruct (BitV l); [apply transit_kept|done]). clearbody s0.
    destruct (router_links _ _ _ _ _ _ _) as [[[ent s1] err]| | |] eqn:E; try done. apply router_links_kept in E. cbn in E.
    res_simpl. rewrite <- H0, <- E. destruct err; [by intros [= <-]|]. destruct (NbrVertexKey ent) as [|k ks].
    { destruct (convertIPv4ToUint32 (RouterId s1)); try done. res_simpl. destruct (_ =? _); by intros [= <-]. }
    destruct (AreaLsdb s1 !! areaId) as [db|]; [|by intros [= <-]].
    intros H. apply (visit_all_kept _ (k :: ks)) in H; [exact H|]. intros j t x. destruct (visited j t); [by intros [= <-]|].
    destruct (_ =? _); [destruct (NetworkLsaMap db !! _); [|by intros [= <-]]; apply continue_kept; intros y Hy; by eapply IHn|].
    destruct (_ =? _); [|by intros [= <-]]. destruct (RouterLsaMap db !! _); [|by intros [= <-]]. apply continue_kept. intros y Hy. by eapply IHr.
Qed.

Lemma create_graph_kept areaId s r : CreateAreaGraph range areaId s = Ok r -> kept r.1 = kept s.
Proof.
  unfold CreateAreaGraph. repeat (case_match; [|by intros [= <-]]).
  destruct (UpdateAreaGraphRouterLsa _ _ _ _ _ _) as [[s1 err]| | |] eqn:E; try done. res_simpl. apply update_graph_kept in E.
  by intros [= <-].
Qed.

Lemma expand_kept k costs nbrs i verArr s r : expand k costs nbrs i verArr s = Ok r -> kept r.1.1 = kept s.
Proof.
  revert i verArr s. induction nbrs as [|v nbrs IH]; intros i verArr s; cbn [expand]; [by intros [= <-]|].
  destruct (index costs i); try done. res_simpl. destruct (negb _); [by intros [= <-]|].
  destruct (SPFTree s !! k); [|by intros [= <-]]. destruct (relax _ _ _ _ _); try done. res_simpl. intros H. apply IH in H. exact H.
Qed.

Lemma dijkstra_kept fuel queue s r : dijkstra sort fuel queue s = Ok r -> kept r.1 = kept s.
Proof.
  revert queue s. induction fuel as [|fuel IH]; intros [|v queue] s; cbn [dijkstra]; try done; try by intros [= <-].
  destruct (AreaGraph s !! vKey v) as [ent|]; [|by intros [= <-]].
  destruct (expand _ _ _ _ _ _) as [[[s1 new] err]| | |] eqn:E; try done. apply expand_kept in E. res_simpl.
  destruct err; [by intros [= <-]|]. intros H. apply IH in H. by rewrite H.
Qed.

Lemma execute_kept root s r : ExecuteDijkstra sort root s = Ok r -> kept r.1 = kept s.
Proof. unfold ExecuteDijkstra. intros ->%dijkstra_kept. by case_match. Qed.

(** Loops over routes that only enter them in the table of the area. *)
Lemma each_kept {A} (f : A -> OSPFServer -> res OSPFServer) l s s' :
  (forall x s s', f x s = Ok s' -> kept s' = kept s) -> each f l s = Ok s' -> kept s' = kept s.
Proof.
  intros Hf. revert s. induction l as [|x l IH]; intros s; cbn [each]; [by intros [= <-]|].
  destruct (f x s) as [s1| | |] eqn:E; try done. res_simpl. apply Hf in E. rewrite <- E. apply IH.
Qed.

Lemma enter_kept areaId k e s s' : enter_route areaId k e s = Ok s' -> kept s' = kept s.
Proof. unfold enter_route. case_match; [|done]. by intros [= <-]. Qed.

Ltac enters := repeat (case_match || (match goal with |- context [?m ≫= _] => destruct m; try done; res_simpl end));
  try done; first [apply enter_kept | by intros [= <-]].

Lemma update_table_kept root areaId s s' : UpdateRoutingTbl range root areaId s = Ok s' -> kept s' = kept s.
Proof.
  apply each_kept. intros [k t] s1 s2. cbn. destruct (_ =? _); [unfold UpdateRoutingTblForRouter; enters|].
  destruct (_ =? _); [unfold UpdateRoutingTblForTNetwork; enters|by intros [= <-]].
Qed.

Lemma stubs_kept areaId s s' : HandleStubs range areaId s = Ok s' -> kept s' = kept s.
Proof. apply each_kept. intros [k t] s1 s2. unfold UpdateRoutingTblWithStub. cbn. enters. Qed.

Lemma summary_kept areaId s s' : HandleSummaryLsa range areaId s = Ok s' -> kept s' = kept s.
Proof.
  unfold HandleSummaryLsa. destruct (CalcInterAreaRoutes _ _ _) as [s1| | |] eqn:E1; try done. res_simpl.
  destruct (CalcASBorderRoutes _ _ _) as [s2| | |] eqn:E2; try done. res_simpl. intros E3.
  assert (H1 : kept s1 = kept s).
  { revert E1. unfold CalcInterAreaRoutes. case_match; [|by intros [= <-]]. apply each_kept. intros [lk lsa] t t'.
    unfold summary_lsa, summary_route. cbn. enters. }
  assert (H2 : kept s2 = kept s1).
  { revert E2. unfold CalcASBorderRoutes. case_match; [|by intros [= <-]]. apply each_kept. intros [lk lsa] t t'.
    unfold summary_lsa, summary_route. cbn. enters. }
  rewrite <- H1, <- H2. revert E3. unfold HandleASExternalLsa. case_match; [|by intros [= <-]]. apply each_kept. intros [lk lsa] t t'.
  unfold external_route. cbn. enters.
Qed.

Lemma calculate_area_kept e s s' : calculate_area range sort e s = Ok s' -> kept s' = kept s.
Proof.
  unfold calculate_area. case_bool_decide; [by intros [= <-]|]. destruct (convertAreaOrRouterIdUint32 _) as [areaId| | |]; try done. res_simpl.
  destruct (CreateAreaGraph _ _ _) as [[s1 [v err]]| | |] eqn:E1; try done. apply create_graph_kept in E1. res_simpl. cbn in E1.
  destruct err; [intros [= <-]; by rewrite E1|]. destruct (ExecuteDijkstra _ _ _) as [[s2 err]| | |] eqn:E2; try done.
  apply execute_kept in E2. res_simpl. cbn in E2. destruct err; [intros [= <-]; by rewrite E2, E1|].
  destruct (UpdateRoutingTbl _ _ _ _) as [s3| | |] eqn:E3; try done. apply update_table_kept in E3. res_simpl.
  destruct (HandleStubs _ _ _) as [s4| | |] eqn:E4; try done. apply stubs_kept in E4. res_simpl.
  destruct (HandleSummaryLsa _ _ _) as [s5| | |] eqn:E5; try done. apply summary_kept in E5. res_simpl. intros [= <-].
  change (kept (initialiseSPFStructs s5)) with (kept s5). by rewrite E5, E4, E3, E2, E1.
Qed.
End Frame.

Section Invariant.
Context (range : forall A : Type, list A -> list A) (ifIndex : Z -> Z -> Z) (sort : list VertexData -> list VertexData).
Context (Hrange : forall A (l : list A), Permutation (range A l) l).

Definition kept_but_new (s : OSPFServer) :=
  (rib s, OldGlobalRoutingTbl s, ClientHdl s, ipPropertyMap s, AreaLsdb s, AreaSelfOrigLsa s).

Lemma consolidate_kept areaId s : kept_but_new (consolidate_area range areaId s) = kept_but_new s.
Proof.
  unfold consolidate_area. generalize (range _ (map_to_list (area_table areaId s))). intros l. revert s.
  induction l as [|e l IH]; intros s; [done|]. cbn. rewrite IH. by case_match.
Qed.

Lemma consolidating_kept s s' : ConsolidatingRoutingTbl range s = Ok s' -> kept_but_new s' = kept_but_new s.
Proof.
  unfold ConsolidatingRoutingTbl. generalize (range _ (map fst (map_to_list (AreaConfMap s)))). intros l. revert s.
  induction l as [|k l IH]; intros s; cbn [each]; [by intros [= <-]|].
  destruct (convertAreaOrRouterIdUint32 k) as [areaId| | |]; try done. res_simpl. intros H%IH. by rewrite H, consolidate_kept.
Qed.

(** ribd holds just the next hops of the networks of the table of routes, with their costs. *)
Definition rib_follows (s : OSPFServer) : Prop := forall k, is_network k -> shows s (GlobalRoutingTbl s) k.

Definition networks_typed (tbl : gmap RoutingTblEntryKey GlobalRoutingTblEntry) : Prop :=
  forall k, DestType k = Network -> is_Some (tbl !! k) -> is_network k.

(** What the calls of ribd leave alone. *)
Definition untouched (s : OSPFServer) := (TempGlobalRoutingTbl s, AreaLsdb s, AreaSelfOrigLsa s).

Lemma delete_new k s : untouched (DeleteRoute range k s) = untouched s.
Proof.
  unfold DeleteRoute. case_match; [|done]. case_match; [|done]. generalize (range _ (elements (NextHops (RoutingTblEnt g)))).
  intros l. generalize s. induction l as [|h l IH]; intros t; [done|]. cbn. by rewrite IH.
Qed.

Lemma install_new k s s' : InstallRoute range ifIndex k s = Ok s' -> untouched s' = untouched s.
Proof.
  unfold InstallRoute. case_match; [|by intros [= <-]]. generalize (range _ (elements (NextHops (RoutingTblEnt g)))).
  intros l. generalize s. induction l as [|h l IH]; intros t; cbn [each]; [by intros [= <-]|].
  destruct (ipPropertyMap t !! IfIPAddr h); res_simpl; [|apply IH]. destruct (must (ClientHdl t)); try done. res_simpl. intros X%IH. exact X.
Qed.

Lemma install_changes_new s s' : install_changes range ifIndex s = Ok s' -> untouched s' = untouched s.
Proof.
  unfold install_changes. generalize (range _ (map fst (map_to_list (network_keys (TempGlobalRoutingTbl s))))). intros keys.
  generalize (network_keys (OldGlobalRoutingTbl s)), (network_keys (TempGlobalRoutingTbl s)). revert s.
  induction keys as [|k keys IH]; intros s old new; cbn [compare_routes]; res_simpl.
  - intros H. transitivity (untouched (foldl (fun s k => DeleteRoute range k s) s (unmarked range old))).
    + revert H. generalize (foldl (fun s k => DeleteRoute range k s) s (unmarked range old)), (unmarked range new). intros t l. revert t.
      induction l as [|k l IH]; intros t; cbn [each]; [by intros [= <-]|].
      destruct (InstallRoute range ifIndex k t) as [t'| | |] eqn:E; try done. res_simpl. apply install_new in E. rewrite <- E. apply IH.
    + clear H. generalize (unmarked range old). intros l. revert s. induction l as [|k l IH]; intros s; [done|]. cbn. by rewrite IH, delete_new.
  - destruct (old !! k) as [b|]; [|apply IH]. destruct (CompareRoutes range k s); res_simpl; [apply IH|].
    destruct (UpdateRoute range ifIndex k s) as [s1| | |] eqn:E; try done. res_simpl.
    assert (untouched s1 = untouched s) as <- by (unfold UpdateRoute in E; apply install_new in E; by rewrite E, delete_new).
    apply IH.
Qed.

Lemma calculate_follows s s' :
  calculate range ifIndex sort s = Ok s' -> ClientHdl s = true -> rib_follows s ->
  networks_typed (GlobalRoutingTbl s) -> networks_typed (GlobalRoutingTbl s') -> interfaces_known (GlobalRoutingTbl s') s ->
  rib_follows s'.
Proof.
  unfold calculate. intros E Hc F Ho Hn Hi. revert E.
  set (s0 := set_TempAreaRoutingTbl ∅ (set_OldGlobalRoutingTbl (GlobalRoutingTbl s) s)).
  destruct (each _ _ s0) as [s1| | |] eqn:E1; try done. res_simpl.
  apply (each_kept _ _ _ _ (calculate_area_kept range sort)) in E1.
  destruct (InstallRoutingTbl _ _ _) as [s3| | |] eqn:E3; try done. res_simpl. intros [= <-]. cbn in Hn, Hi. unfold InstallRoutingTbl in E3.
  destruct (ConsolidatingRoutingTbl range (set_TempGlobalRoutingTbl ∅ s1)) as [s2| | |] eqn:E2; try done. res_simpl.
  apply consolidating_kept in E2. injection E1 as R1 O1 C1 I1 _ _ _. injection E2 as R2 O2 C2 I2 _ _. cbn in *.
  rewrite R1 in R2. rewrite O1 in O2. rewrite C1 in C2. rewrite I1 in I2.
  assert (Hheld : forall k h, held s2 k h = held s k h) by (intros k h; unfold held; by rewrite R2).
  pose proof (install_changes_new _ _ E3) as [= X _ _]. rewrite X in Hn, Hi.
  assert (Hready : ready s2).
  { split; [by rewrite C2|intros k ent h Hk Hh; rewrite I2; by eapply Hi|by rewrite O2|done]. }
  destruct (install_changes_spec range ifIndex Hrange s2 Hready) as (s4 & E4 & T & S).
  { intros k Hk h c. rewrite O2, Hheld. by apply F. }
  rewrite E3 in E4. injection E4 as <-. intros k Hk h c. cbn. rewrite X. by apply S.
Qed.

Lemma summaries_databases s s' :
  GenerateSummaryLsa range s = Ok s' -> AreaLsdb s' = AreaLsdb s /\ AreaSelfOrigLsa s' = AreaSelfOrigLsa s.
Proof.
  unfold GenerateSummaryLsa. change (AreaLsdb s) with (AreaLsdb (set_SummaryLsDb ∅ s)).
  change (AreaSelfOrigLsa s) with (AreaSelfOrigLsa (set_SummaryLsDb ∅ s)). generalize (set_SummaryLsDb ∅ s). generalize (range _ (map_to_list (AreaConfMap s))).
  intros l. induction l as [|e l IH]; intros t; cbn [each]; [by intros [= <-]|].
  destruct (bool_decide _); res_simpl; [apply IH|]. destruct (convertAreaOrRouterIdUint32 e.1); try done. res_simpl.
  destruct (summarize_all _ _ _ _ _); try done. res_simpl. destruct (isStubArea e.1 t); res_simpl; [|intros H; apply (IH _ H)].
  destruct (GenerateDefaultSummary3LSA _ _) as [[k d]| | |]; try done. res_simpl. intros H. apply (IH _ H).
Qed.

(** The calculation reads the link state databases only. *)
Lemma calculate_databases s s' :
  calculate range ifIndex sort s = Ok s' -> AreaLsdb s' = AreaLsdb s /\ AreaSelfOrigLsa s' = AreaSelfOrigLsa s.
Proof.
  unfold calculate. destruct (each _ _ _) as [s1| | |] eqn:E1; try done. res_simpl.
  apply (each_kept _ _ _ _ (calculate_area_kept range sort)) in E1. unfold InstallRoutingTbl.
  destruct (ConsolidatingRoutingTbl _ _) as [s2| | |] eqn:E2; try done. res_simpl. apply consolidating_kept in E2.
  destruct (install_changes _ _ _) as [s3| | |] eqn:E3; try done. res_simpl. apply install_changes_new in E3. intros [= <-].
  injection E1 as _ _ _ _ _ L1 S1. injection E2 as _ _ _ _ L2 S2. injection E3 as _ L3 S3. cbn in *. split; congruence.
Qed.

Lemma spf_databases s s' :
  spfCalculation range ifIndex sort s = Ok s' -> AreaLsdb s' = AreaLsdb s /\ AreaSelfOrigLsa s' = AreaSelfOrigLsa s.
Proof.
  unfold spfCalculation. destruct (calculate _ _ _ _) as [s1| | |] eqn:E1; try done. res_simpl.
  apply calculate_databases in E1 as [<- <-]. destruct (AreaBdrRtrStatus s1); [|by intros [= <-]]. apply summaries_databases.
Qed.
End Invariant.

(** ** A sample run *)

Definition sample_conf : AreaConf := mkAreaConf 1 0 false {[mkIntfConfKey "10.0.1.1" 1 := true]}.

(** The router 1 with its two interfaces and the link state database [db] for the area 0. *)
Definition routed_server (db : LSDatabase) : OSPFServer :=
  let s := area_server db in
  mkOSPFServer (RouterId s) false {["0.0.0.0"%string := sample_conf]} (AreaLsdb s) (AreaSelfOrigLsa s) [] [] ∅ ∅ ∅ ∅ ∅ ∅ ∅ ∅
    {[0x0a000101 := (1, 0); 0x0a000301 := (2, 0)]} true [] [] ∅ ∅ ∅ ∅ ∅ [].

Definition sample_index (id typ : Z) : Z := id.

(** C14: installing a new table of routes ends when ribd is connected and the interface of every next
    hop of the new table is known ([ready]; without a connection the first new route panics,
    ospfRoutingTbl.go:725, and next hops of unknown interfaces are skipped), and network keys
    hold 32-bit addresses and masks. If ribd held just the routes to the networks of the old
    table, it then holds just those of the new one, with their next hops and costs, whatever the
    order of the maps. ribd is taken to carry out every call. *)
Theorem ospf_install_routes range ifIndex s :
  (forall A (l : list A), Permutation (range A l) l) -> ready s ->
  (forall k, is_network k -> shows s (OldGlobalRoutingTbl s) k) ->
  exists s', install_changes range ifIndex s = Ok s' /\
  (forall k, is_network k -> shows s' (TempGlobalRoutingTbl s) k) /\ TempGlobalRoutingTbl s' = TempGlobalRoutingTbl s.
Proof.
  intros Hr R S. destruct (install_changes_spec range ifIndex Hr s R S) as (s' & E & T & N). exists s'. split_and!; [done|done|apply T].
Qed.

(** C15: ribd follows the table of routes: a calculation that returns, also one that fails in some
    areas, leaves in ribd just the next hops and costs of the networks in the new table when it
    held those of the old one before. This supposes that ribd is connected and carries out
    every call, that the network keys of both tables hold 32-bit addresses and masks
    ([networks_typed]), and that the interface of every next hop of the new table is known
    ([interfaces_known]; InstallRoute skips the others). *)
Theorem ospf_rib_follows_table range ifIndex sort s s' :
  (forall A (l : list A), Permutation (range A l) l) ->
  calculate range ifIndex sort s = Ok s' -> ClientHdl s = true -> rib_follows s ->
  networks_typed (GlobalRoutingTbl s) -> networks_typed (GlobalRoutingTbl s') -> interfaces_known (GlobalRoutingTbl s') s ->
  rib_follows s'.
Proof. intros Hr. by apply calculate_follows. Qed.

(** Deciding the hypotheses on tables. *)
Definition route_okb (s : OSPFServer) (e : RoutingTblEntryKey * GlobalRoutingTblEntry) : bool :=
  (0 <=? DestId e.1) && (DestId e.1 <? 4294967296) && (0 <=? AddrMask e.1) && (AddrMask e.1 <? 4294967296) &&
  forallb (fun h => bool_decide (is_Some (ipPropertyMap s !! IfIPAddr h))) (elements (NextHops (RoutingTblEnt e.2))).

Lemma routes_ok s tbl :
  forallb (route_okb s) (map_to_list tbl) = true -> networks_typed tbl /\ interfaces_known tbl s.
Proof.
  intros H. rewrite forallb_forall in H.
  assert (Hk : forall k ent, tbl !! k = Some ent -> route_okb s (k, ent) = true).
  { intros k ent Hk. apply H, list_elem_of_In. by apply elem_of_map_to_list. }
  unfold route_okb in Hk. split.
  - intros k Hn [ent He]. specialize (Hk k ent He). cbn in Hk. rewrite !andb_true_iff in Hk. unfold is_network, is_u32. split_and!; [done|lia..].
  - intros k ent h He Hh. specialize (Hk k ent He). cbn in Hk. rewrite !andb_true_iff, forallb_forall in Hk. destruct Hk as [_ Hk].
    apply (bool_decide_eq_true_1 _), Hk, list_elem_of_In. by apply elem_of_elements.
Qed.

Definition sample_tables : OSPFServer :=
  let s := routed_server (three_routers []) in
  match calculate in_order sample_index insertion_sort s with
  | Ok s' => set_TempGlobalRoutingTbl (GlobalRoutingTbl s') s
  | _ => s
  end.

Lemma ospf_install_routes_witness :
  ready sample_tables /\ (forall k, is_network k -> shows sample_tables (OldGlobalRoutingTbl sample_tables) k) /\
  exists s', install_changes in_order sample_index sample_tables = Ok s' /\
  (forall k, is_network k -> shows s' (TempGlobalRoutingTbl sample_tables) k) /\
  TempGlobalRoutingTbl s' = TempGlobalRoutingTbl sample_tables.
Proof.
  assert (R : ready sample_tables).
  { destruct (routes_ok sample_tables (TempGlobalRoutingTbl sample_tables)) as [Ht Hi]; [by vm_compute|].
    assert (E : OldGlobalRoutingTbl sample_tables = ∅) by (by vm_compute).
    split; [by vm_compute|exact Hi| |exact Ht]. intros k _. rewrite E, lookup_empty. by intros [? ?]. }
  assert (S : forall k, is_network k -> shows sample_tables (OldGlobalRoutingTbl sample_tables) k).
  { assert (E : OldGlobalRoutingTbl sample_tables = ∅) by (by vm_compute). assert (E' : rib sample_tables = []) by (by vm_compute).
    intros k _ h c. unfold held, wanted. rewrite E, E'. cbn. rewrite lookup_empty. split; [done|]. intros (ent & nh & He & _).
    by rewrite lookup_empty in He. }
  split; [exact R|]. split; [exact S|]. apply (ospf_install_routes in_order sample_index sample_tables); [done|exact R|exact S].
Defined.

Lemma ospf_rib_follows_table_witness :
  match calculate in_order sample_index insertion_sort (routed_server (three_routers [])) with
  | Ok s' => rib_follows s' /\ rib s' =
      [CreateIPv4Route "10.0.2.0" "255.255.255.0" 20 "10.0.3.3" "2"; CreateIPv4Route "10.0.2.0" "255.255.255.0" 20 "10.0.1.2" "1";
       CreateIPv4Route "10.0.4.0" "255.255.255.0" 20 "10.0.3.3" "2"]
  | _ => False
  end.
Proof.
  assert (H : match calculate in_order sample_index insertion_sort (routed_server (three_routers [])) with
              | Ok s' => forallb (route_okb (routed_server (three_routers []))) (map_to_list (GlobalRoutingTbl s')) = true /\ rib s' =
                  [CreateIPv4Route "10.0.2.0" "255.255.255.0" 20 "10.0.3.3" "2"; CreateIPv4Route "10.0.2.0" "255.255.255.0" 20 "10.0.1.2" "1";
                   CreateIPv4Route "10.0.4.0" "255.255.255.0" 20 "10.0.3.3" "2"]
              | _ => False
              end) by (vm_compute; done).
  destruct (calculate in_order sample_index insertion_sort (routed_server (three_routers []))) as [s'| | |] eqn:E; [|destruct H..].
  destruct H as [H Hrib]. apply routes_ok in H as [Ht Hi]. split; [|exact Hrib].
  apply (ospf_rib_follows_table in_order sample_index insertion_sort (routed_server (three_routers [])) s');
    [done|exact E|done| |by intros k _ [? ?]|exact Ht|exact Hi].
  intros k _ h c. unfold held, wanted. cbn. rewrite lookup_empty. split; [done|]. by intros (ent & nh & He & _).
Defined.

(** A router stops when its own link to a neighbour has the largest metric: the neighbour
    is then at infinity, its entry has an empty path, and the first vertex of it is read. *)
Example ospf_max_metric_panics :
  let link m other := mkLinkDetail other 0x0a000301 P2PLink 0 m [] in
  let db m := sample_db [sample_router 1 [link m 2]; sample_router 2 [link 10 1; stub 0x0a000400]] [] in
  (s ← calculate in_order sample_index insertion_sort (routed_server (db 65279)); Ok (length (rib s))) = Ok 1%nat /\
  calculate in_order sample_index insertion_sort (routed_server (db 65280)) = Panic /\
  calculate in_order sample_index insertion_sort (routed_server (db 65535)) = Panic.
Proof. split_and!; by vm_compute. Qed.
