(* ===== verification/OspfIntf.v ===== *)
(** * OSPF: interfaces

    Hello packets (ospfHeader.go, ospfHello.go and the header checks of ospfRxPkt.go), the
    interface machine and the election of the designated router (ospfIntfFSM.go), and the start
    and stop of an interface (ospfIntfConf.go), src/ospf/server. *)

From S2P Require Import Prelude.
From S2P Require Import NetIP.
From S2P Require Import OspfUtil.
From S2P Require Import OspfLsa.
From S2P Require Import OspfServer.
From S2P Require Import OspfRoute.

(** ** Constants *)

Definition Broadcast : Z := 1.
Definition Nbma : Z := 2.
Definition NumberedP2P : Z := 3.
Definition UnnumberedP2P : Z := 4.
Definition PointToMultipoint : Z := 5.

Definition Down : Z := 1.
Definition Waiting : Z := 3.
Definition P2P : Z := 4.
Definition OtherDesignatedRouter : Z := 5.
Definition DesignatedRouter : Z := 6.
Definition BackupDesignatedRouter : Z := 7.

Definition Intf_Down : Z := 0.

Definition OSPF_HELLO_MIN_SIZE : Z := 20.
Definition OSPF_HEADER_SIZE : Z := 24.
Definition OSPF_VERSION_2 : Z := 2.
Definition HelloType : Z := 1.
Definition EOption : Z := 2.

Definition no_router : bytes := [0; 0; 0; 0].

(** ** The header *)

(** Without the key of the authentication, which is not read. *)
Record OSPFHeader := mkOSPFHeader {
  ver : Z;
  pktType : Z;
  pktlen : Z;
  h_routerId : bytes;
  h_areaId : bytes;
  chksum : Z;
  authType : Z;
}.

Definition encodeOspfHdr (ospfHdr : OSPFHeader) : res bytes :=
  pkt ← set_index (zeros OSPF_HEADER_SIZE) 0 (ver ospfHdr);
  pkt ← set_index pkt 1 (pktType ospfHdr);
  pkt ← PutUint16 pkt 2 (pktlen ospfHdr);
  pkt ← copy_range pkt 4 8 (h_routerId ospfHdr);
  pkt ← copy_range pkt 8 12 (h_areaId ospfHdr);
  PutUint16 pkt 14 (authType ospfHdr).

Definition decodeOspfHdr (ospfPkt : bytes) : res OSPFHeader :=
  v ← index ospfPkt 0; t ← index ospfPkt 1; l ← uint16_at ospfPkt 2;
  rtr ← slice ospfPkt 4 8; area ← slice ospfPkt 8 12;
  csum ← uint16_at ospfPkt 12; auth ← uint16_at ospfPkt 14; _ ← slice ospfPkt 16 24;
  Ok (mkOSPFHeader v t l rtr area csum auth).

Record OspfHdrMetadata := mkOspfHdrMetadata {
  md_pktType : Z;
  md_pktlen : Z;
  backbone : bool;
  md_routerId : bytes;
  md_areaId : Z;
}.

(** net.IP.Mask: nil when the lengths do not fit. *)
Definition Mask (ip mask : bytes) : bytes :=
  let mask := if (len mask =? 16) && (len ip =? 4) && bool_decide (take 12 mask = replicate 12 255) then drop 12 mask else mask in
  let ip := if (len mask =? 4) && (len ip =? 16) && bool_decide (take 12 ip = v4InV6Prefix) then drop 12 ip else ip in
  if len ip =? len mask then zip_with Z.land ip mask else [].

(** The two results are nil, or of the length of the mask. *)
Definition isInSubnet (ifIpAddr srcIp netMask : bytes) : bool := bool_decide (Mask ifIpAddr netMask = Mask srcIp netMask).

(** The test of the type of the interface holds for every type. The octets that are reset for
    the checksum are not read afterwards. *)
Definition processOspfHeader (ospfPkt : bytes) (key : IntfConfKey) (s : OSPFServer) : res (OspfHdrMetadata + goerr) :=
  if len ospfPkt <? OSPF_HEADER_SIZE then Ok (inr (ErrText "Invalid length of Ospf Header"))
  else
    match IntfConfMap s !! key with
    | None => Ok (inr (ErrText "Dropped because of interface no more valid"))
    | Some ent =>
      hdr ← decodeOspfHdr ospfPkt;
      if negb (ver hdr =? OSPF_VERSION_2) then Ok (inr (ErrText "Dropped because of Ospf Version not matching"))
      else if (negb (IfType ent =? NumberedP2P) || negb (IfType ent =? UnnumberedP2P)) &&
              negb (bytesEqual (IfAreaId ent) (h_areaId hdr)) && negb (isInSubnet (IfAreaId ent) (h_areaId hdr) (IfNetmask ent))
      then Ok (inr (ErrText "Dropped because of Src IP is not in subnet or Area ID not matching"))
      else if negb (IfAuthType ent =? authType hdr) then Ok (inr (ErrText "Dropped because of Router Id not matching"))
      else
        pkt ← PutUint16 ospfPkt 12 0;
        pkt ← copy_range pkt 16 OSPF_HEADER_SIZE (zeros 8);
        csum ← computeCheckSum pkt;
        if negb (csum =? chksum hdr) then Ok (inr (ErrText "Dropped because of invalid checksum"))
        else
          areaId ← Uint32 (h_areaId hdr);
          Ok (inl (mkOspfHdrMetadata (pktType hdr) (pktlen hdr) (bytesEqual (h_areaId hdr) no_router) (h_routerId hdr) areaId))
    end.

(** ** Hello packets *)

(** The list of neighbors is read from the packet. *)
Record OSPFHelloData := mkOSPFHelloData {
  hello_netmask : bytes;
  helloInterval : Z;
  hello_options : Z;
  hello_rtrPrio : Z;
  rtrDeadInterval : Z;
  designatedRtr : bytes;
  backupDesignatedRtr : bytes;
}.

Definition encodeOspfHelloData (helloData : OSPFHelloData) : res bytes :=
  pkt ← copy_range (zeros OSPF_HELLO_MIN_SIZE) 0 4 (hello_netmask helloData);
  pkt ← PutUint16 pkt 4 (helloInterval helloData);
  pkt ← set_index pkt 6 (hello_options helloData);
  pkt ← set_index pkt 7 (hello_rtrPrio helloData);
  pkt ← PutUint32 pkt 8 (rtrDeadInterval helloData);
  pkt ← copy_range pkt 12 16 (designatedRtr helloData);
  copy_range pkt 16 20 (backupDesignatedRtr helloData).

Definition decodeOspfHelloData (data : bytes) : res OSPFHelloData :=
  mask ← slice data 0 4; hello ← uint16_at data 4; opts ← index data 6; prio ← index data 7;
  dead ← uint32_at data 8; dr ← slice data 12 16; bdr ← slice data 16 20;
  Ok (mkOSPFHelloData mask hello opts prio dead dr bdr).

Section Intf.
(** The order of a map. *)
Context (range : forall A : Type, list A -> list A).

(** The entry of a missing interface or neighbor. *)
Definition zero_IntfConf : IntfConf := mkIntfConf [] 0 0 0 0 [] 0 ∅ None [] [] 0 0 0 0 [] [] 0.
Definition zero_OspfNeighborEntry : OspfNeighborEntry := mkOspfNeighborEntry 0 0 (mkIntfConfKey "" 0).

Definition intf_of (key : IntfConfKey) (s : OSPFServer) : IntfConf := default zero_IntfConf (IntfConfMap s !! key).
Definition put_intf (key : IntfConfKey) (ent : IntfConf) (s : OSPFServer) : OSPFServer :=
  set_IntfConfMap (<[key := ent]> (IntfConfMap s)) s.
Definition nbr_router (s : OSPFServer) (key : NeighborConfKey) : Z :=
  OspfNbrRtrId (default zero_OspfNeighborEntry (NeighborConfigMap s !! key)).
Definition send (m : OspfMsg) (s : OSPFServer) : OSPFServer := set_sent (sent s ++ [m]) s.

(** The packet as the IP layer gets it; none without an area. *)
Definition BuildHelloPkt (ent : IntfConf) (s : OSPFServer) : res (option bytes) :=
  match IfAreaId ent with
  | [] => Ok None
  | _ =>
    areaId ← convertIPInByteToString (IfAreaId ent);
    let option := if isStubArea areaId s then 0 else 2 in
    let helloData := mkOSPFHelloData (IfNetmask ent) (IfHelloInterval ent) option (IfRtrPriority ent) (IfRtrDeadInterval ent)
                       (IfDRIp ent) (IfBDRIp ent) in
    let neighbor := concat (map (fun k => be32 (nbr_router s k)) (range _ (map fst (map_to_list (NeighborMap ent))))) in
    let ospfPktlen := OSPF_HEADER_SIZE + OSPF_HELLO_MIN_SIZE + len neighbor in
    hdr ← encodeOspfHdr (mkOSPFHeader OSPF_VERSION_2 HelloType (u16 ospfPktlen) (RouterId s) (IfAreaId ent) 0 (IfAuthType ent));
    hello ← encodeOspfHelloData helloData;
    let ospf := hdr ++ hello ++ neighbor in
    csum ← computeCheckSum ospf;
    ospf ← PutUint16 ospf 12 csum;
    ospf ← copy_range ospf 16 24 (IfAuthKey ent);
    Ok (Some ospf)
  end.

Definition StartSendHelloPkt (key : IntfConfKey) (s : OSPFServer) : res OSPFServer :=
  pkt ← BuildHelloPkt (intf_of key s) s; Ok (send (SendPkt key (default [] pkt)) s).

(** NeighCreateMsg and NeighChangeMsg. *)
Record NeighMsg := mkNeighMsg {
  msg_RouterId : Z;
  msg_NbrIP : Z;
  msg_TwoWayStatus : bool;
  msg_RtrPrio : Z;
  msg_DRtr : bytes;
  msg_BDRtr : bytes;
}.

(** What the goroutine of an interface takes from its channels and timers. *)
Inductive IntfEvent :=
| HelloTick
| WaitTimerExpired
| BackupSeen
| NeighCreate (m : NeighMsg)
| NeighChange (m : NeighMsg)
| NbrStateChange (nbrKey : NeighborConfKey)
| NbrFullState (FullState : bool) (nbrKey : NeighborConfKey).

Definition nbr_key (ip : bytes) (key : IntfConfKey) : NeighborConfKey := mkNeighborConfKey (IP_String ip) (IntfIdx key).

(** net.IPv4 of the first four octets. *)
Definition ip_of (b : bytes) : res bytes :=
  a0 ← index b 0; a1 ← index b 1; a2 ← index b 2; a3 ← index b 3; Ok (IPv4 a0 a1 a2 a3).

Definition CreateAndSendHelloRecvdMsg (routerId : Z) (srcIP : bytes) (ospfHdrMd : OspfHdrMetadata) (nbrDeadInterval ifType : Z)
  (TwoWayStatus : bool) (rtrPrio : Z) (key : IntfConfKey) (s : OSPFServer) : res OSPFServer :=
  ip ← ip_of (if (ifType =? Broadcast) || (ifType =? Nbma) || (ifType =? PointToMultipoint) || (ifType =? NumberedP2P)
              then srcIP else md_routerId ospfHdrMd);
  Ok (send (NeighborHello key routerId rtrPrio ip nbrDeadInterval TwoWayStatus) s).

(** The wait timer is stopped, and the event sent if it was running. *)
Definition backup_seen (key : IntfConfKey) (s : OSPFServer) : res (OSPFServer * list IntfEvent) :=
  let ent := intf_of key s in
  match WaitTimer ent with
  | None => Panic
  | Some true => Ok (put_intf key (set_WaitTimer (Some false) ent) s, [BackupSeen])
  | Some false => Ok (s, [])
  end.

(** What a Hello makes the goroutine of the interface do: the neighbor is created or has
    changed, and a designated router may have been seen. *)
Definition neighbor_event (TwoWay : bool) (hello : OSPFHelloData) (routerId ip : Z) (old : option NeighborData) : list IntfEvent :=
  let m := mkNeighMsg routerId ip TwoWay (hello_rtrPrio hello) (designatedRtr hello) (backupDesignatedRtr hello) in
  match old with
  | None => [NeighCreate m]
  | Some e =>
    if negb (Bool.eqb (TwoWayStatus e) TwoWay) || negb (bytesEqual (DRtr e) (designatedRtr hello)) ||
       negb (bytesEqual (BDRtr e) (backupDesignatedRtr hello)) || negb (RtrPrio e =? hello_rtrPrio hello)
    then [NeighChange m] else []
  end.

Definition processOspfHelloNeighbor (TwoWay : bool) (hello : OSPFHelloData) (srcIP : bytes) (md : OspfHdrMetadata)
  (key : IntfConfKey) (s : OSPFServer) : res (OSPFServer * list IntfEvent) :=
  routerId ← convertIPv4ToUint32 (md_routerId md);
  ip ← convertIPv4ToUint32 srcIP;
  ipaddr ← ip_of srcIP;
  let ent := intf_of key s in
  let events := neighbor_event TwoWay hello routerId ip (NeighborMap ent !! nbr_key ipaddr key) in
  s ← CreateAndSendHelloRecvdMsg routerId srcIP md (IfRtrDeadInterval ent * 1000000000) (IfType ent) TwoWay (hello_rtrPrio hello) key s;
  if TwoWay && (IfFSMState ent =? Waiting) then
    if bytesEqual srcIP (designatedRtr hello) then
      if bytesEqual (backupDesignatedRtr hello) no_router then Ok (s, events)
      else '(s, seen) ← backup_seen key s; Ok (s, events ++ seen)
    else if bytesEqual srcIP (backupDesignatedRtr hello) then '(s, seen) ← backup_seen key s; Ok (s, events ++ seen)
    else Ok (s, events)
  else Ok (s, events).

(** The loop over the list of neighbors: the index of its start is a uint16. *)
Fixpoint lists_router (rounds : nat) (k : Z) (rtr : bytes) (data : Slice) : res bool :=
  match rounds with
  | O => Ok false
  | S rounds =>
    nbr ← sl_slice data (u16 (OSPF_HELLO_MIN_SIZE + k)) (OSPF_HELLO_MIN_SIZE + 4 + k);
    if bytesEqual nbr rtr then Ok true else lists_router rounds (k + 4) rtr data
  end.

(** The length of the list is computed from the length in the header, in uint16. *)
Definition nbrlen (md : OspfHdrMetadata) : Z := u16 (md_pktlen md - (OSPF_HELLO_MIN_SIZE + OSPF_HEADER_SIZE)).

Definition processRxHelloPkt (data : Slice) (md : OspfHdrMetadata) (srcIP srcMAC : bytes) (key : IntfConfKey) (s : OSPFServer)
  : res (OSPFServer * list IntfEvent * option goerr) :=
  let ent := intf_of key s in
  if len (sl_bytes data) <? OSPF_HELLO_MIN_SIZE then Ok (s, [], Some (ErrText "Invalid Hello Pkt data length"))
  else
    hello ← decodeOspfHelloData (sl_bytes data);
    if (negb (IfType ent =? NumberedP2P) || negb (IfType ent =? UnnumberedP2P)) && negb (bytesEqual (IfNetmask ent) (hello_netmask hello))
    then Ok (s, [], Some (ErrText "Netmask mismatch"))
    else if negb (IfHelloInterval ent =? helloInterval hello) then Ok (s, [], Some (ErrText "Hello Interval mismatch"))
    else if negb (IfRtrDeadInterval ent =? rtrDeadInterval hello) then Ok (s, [], Some (ErrText "Router Dead Interval mismatch"))
    else if backbone md && (Z.land (hello_options hello) EOption =? 0)
    then Ok (s, [], Some (ErrText "External Routing Capability mismatch"))
    else
      twoWay ← lists_router (Z.to_nat ((nbrlen md + 3) / 4)) 0 (RouterId s) data;
      ip ← ip_of srcIP;
      let s := set_ospfNeighborIPToMAC (<[nbr_key ip key := srcMAC]> (ospfNeighborIPToMAC s)) s in
      '(s, events) ← processOspfHelloNeighbor twoWay hello srcIP md key s;
      Ok (s, events, None).

(** A Hello that comes out of the IP layer. *)
Definition receive_hello (pkt : Slice) (srcIP srcMAC : bytes) (key : IntfConfKey) (s : OSPFServer)
  : res (OSPFServer * list IntfEvent * option goerr) :=
  r ← processOspfHeader (sl_bytes pkt) key s;
  match r with
  | inr e => Ok (s, [], Some e)
  | inl md =>
    data ← slice_from (sl_bytes pkt) OSPF_HEADER_SIZE;
    processRxHelloPkt (mkSlice data (sl_spare pkt)) md srcIP srcMAC key s
  end.

(** ** The election *)

(** The best so far: its priority, router identifier and address. *)
Record Candidate (A : Type) := mkCandidate { c_prio : Z; c_id : Z; c_addr : A }.
#[global] Arguments mkCandidate {A}.
#[global] Arguments c_prio {A}.
#[global] Arguments c_id {A}.
#[global] Arguments c_addr {A}.

(** A higher priority, or the same and a higher identifier. *)
Definition beats {A} (prio id : Z) (c : Candidate A) : bool := (c_prio c <? prio) || ((prio =? c_prio c) && (c_id c <? id)).

Definition challenge {A} (prio id : Z) (addr : A) (c : Candidate A) : Candidate A :=
  if beats prio id c then mkCandidate prio id addr else c.

(** Only neighbors with two-way communication, a priority and an address take part. *)
Definition eligible (e : NeighborData) : bool := TwoWayStatus e && (0 <? RtrPrio e) && negb (NbrIP e =? 0).

(** A turn of the loop of ElectBDR: the elected router, and the one with the highest priority. *)
Definition bdr_turn (s : OSPFServer) (c : Candidate bytes * Candidate Z) (e : NeighborConfKey * NeighborData)
  : res (Candidate bytes * Candidate Z) :=
  let nbrEntry := e.2 in
  let id := nbr_router s e.1 in
  if eligible nbrEntry then
    tempDR ← Uint32 (DRtr nbrEntry);
    if tempDR =? NbrIP nbrEntry then Ok c
    else
      tempBDR ← Uint32 (BDRtr nbrEntry);
      Ok (if tempBDR =? NbrIP nbrEntry then challenge (RtrPrio nbrEntry) id (BDRtr nbrEntry) c.1 else c.1,
          challenge (RtrPrio nbrEntry) id (NbrIP nbrEntry) c.2)
  else Ok c.

Fixpoint turns {A B} (turn : A -> B -> res A) (l : list B) (c : A) : res A :=
  match l with
  | [] => Ok c
  | x :: l => c ← turn c x; turns turn l c
  end.

(** The router itself. *)
Definition bdr_self (ent : IntfConf) (s : OSPFServer) (c : Candidate bytes * Candidate Z) : res (Candidate bytes * Candidate Z) :=
  let own := To4 (IfIpAddr ent) in
  let prio := IfRtrPriority ent in
  if negb (prio =? 0) && negb (bytesEqual own no_router) && negb (bytesEqual own (IfDRIp ent)) then
    rtrId ← Uint32 (RouterId s);
    let elected := if bytesEqual own (IfBDRIp ent) then challenge prio rtrId own c.1 else c.1 in
    if beats prio rtrId c.2 then ip ← Uint32 own; Ok (elected, mkCandidate prio rtrId ip) else Ok (elected, c.2)
  else Ok c.

Definition ElectBDR (key : IntfConfKey) (s : OSPFServer) : res (bytes * Z) :=
  let ent := intf_of key s in
  c ← turns (bdr_turn s) (range _ (map_to_list (NeighborMap ent))) (mkCandidate 0 0 no_router, mkCandidate 0 0 0);
  '(elected, highest) ← bdr_self ent s c;
  if bytesEqual (c_addr elected) no_router then
    addr ← PutUint32 (c_addr elected) 0 (c_addr highest); Ok (addr, c_id highest)
  else Ok (c_addr elected, c_id elected).

Definition dr_turn (s : OSPFServer) (c : Candidate bytes) (e : NeighborConfKey * NeighborData) : res (Candidate bytes) :=
  let nbrEntry := e.2 in
  if eligible nbrEntry then
    tempDR ← Uint32 (DRtr nbrEntry);
    Ok (if tempDR =? NbrIP nbrEntry then challenge (RtrPrio nbrEntry) (nbr_router s e.1) (DRtr nbrEntry) c else c)
  else Ok c.

Definition dr_self (ent : IntfConf) (s : OSPFServer) (c : Candidate bytes) : res (Candidate bytes) :=
  let own := To4 (IfIpAddr ent) in
  if (0 <? IfRtrPriority ent) && negb (bytesEqual own no_router) && bytesEqual own (IfDRIp ent) then
    rtrId ← Uint32 (RouterId s); Ok (challenge (IfRtrPriority ent) rtrId own c)
  else Ok c.

Definition ElectDR (key : IntfConfKey) (electedBDR : bytes) (electedBDRtrId : Z) (s : OSPFServer) : res (bytes * Z) :=
  let ent := intf_of key s in
  c ← turns (dr_turn s) (range _ (map_to_list (NeighborMap ent))) (mkCandidate 0 0 no_router);
  elected ← dr_self ent s c;
  if bytesEqual (c_addr elected) no_router then Ok (electedBDR, electedBDRtrId) else Ok (c_addr elected, c_id elected).

(** Both elections; the results are entered and the state read off them. *)
Definition elect_both (key : IntfConfKey) (s : OSPFServer) : res (OSPFServer * Z) :=
  '(bdr, bdrId) ← ElectBDR key s;
  '(dr, drId) ← ElectDR key bdr bdrId s;
  let ent := set_IfDRtrId drId (set_IfDRIp dr (set_IfBDRtrId bdrId (set_IfBDRIp bdr (intf_of key s)))) in
  let own := To4 (IfIpAddr ent) in
  Ok (put_intf key ent s,
      if bytesEqual (IfDRIp ent) own then DesignatedRouter
      else if bytesEqual (IfBDRIp ent) own then BackupDesignatedRouter
      else OtherDesignatedRouter).

Definition createAndSendEventsIntfFSM (key : IntfConfKey) (oldState newState : Z) (s : OSPFServer) : res OSPFServer :=
  let ent := intf_of key s in
  let ent := set_IfEvents (i32 (IfEvents ent + 1)) (set_IfFSMState newState ent) in
  areaId ← convertIPv4ToUint32 (IfAreaId ent);
  Ok (send (NetworkDRChange areaId key oldState newState) (put_intf key ent s)).

(** The elections are repeated when the router has become, or is no longer, one of the two. *)
Definition ElectBDRAndDR (key : IntfConfKey) (s : OSPFServer) : res OSPFServer :=
  let oldState := IfFSMState (intf_of key s) in
  '(s, newState) ← elect_both key s;
  '(s, newState) ←
    (if negb (newState =? oldState) && negb ((newState =? OtherDesignatedRouter) && (oldState <? OtherDesignatedRouter))
     then elect_both key s else Ok (s, newState));
  createAndSendEventsIntfFSM key oldState newState s.

(** ** The interface machine *)

Definition neighbor_of (m : NeighMsg) (full : bool) : NeighborData :=
  mkNeighborData (msg_TwoWayStatus m) (msg_RtrPrio m) (msg_DRtr m) (msg_BDRtr m) (msg_NbrIP m) full.

Definition msg_key (m : NeighMsg) (key : IntfConfKey) : NeighborConfKey :=
  mkNeighborConfKey (convertUint32ToIPv4 (msg_NbrIP m)) (IntfIdx key).

Definition put_neighbor (key : IntfConfKey) (k : NeighborConfKey) (e : NeighborData) (s : OSPFServer) : OSPFServer :=
  let ent := intf_of key s in put_intf key (set_NeighborMap (<[k := e]> (NeighborMap ent)) ent) s.

(** Whether a Hello changes the outcome of the election (RFC 2328, 9.2, NeighborChange). *)
Definition election_changes (old : NeighborData) (m : NeighMsg) : res bool :=
  oldDRtr ← Uint32 (DRtr old); oldBDRtr ← Uint32 (BDRtr old);
  newDRtr ← Uint32 (msg_DRtr m); newBDRtr ← Uint32 (msg_BDRtr m);
  let ip := msg_NbrIP m in
  Ok (TwoWayStatus old && negb (Bool.eqb (oldDRtr =? ip) (newDRtr =? ip)) ||
      TwoWayStatus old && negb (Bool.eqb (oldBDRtr =? ip) (newBDRtr =? ip)) ||
      negb (Bool.eqb (TwoWayStatus old) (msg_TwoWayStatus m)) ||
      TwoWayStatus old && negb (RtrPrio old =? msg_RtrPrio m)).

Definition processNbrDownEvent (nbrKey : NeighborConfKey) (key : IntfConfKey) (p2p : bool) (s : OSPFServer) : res OSPFServer :=
  let ent := intf_of key s in
  match NeighborMap ent !! nbrKey with
  | None => Ok s
  | Some _ =>
    let s := put_intf key (set_NeighborMap (delete nbrKey (NeighborMap ent)) ent) s in
    if negb p2p && (Waiting <? IfFSMState ent) then ElectBDRAndDR key s else Ok s
  end.

Definition processNbrFullStateMsg (full : bool) (nbrKey : NeighborConfKey) (key : IntfConfKey) (s : OSPFServer) : OSPFServer :=
  let ent := intf_of key s in
  match NeighborMap ent !! nbrKey with
  | None => s
  | Some e =>
    if negb (Bool.eqb full (FullState e)) && (IfFSMState ent =? DesignatedRouter) then
      put_neighbor key nbrKey (mkNeighborData (TwoWayStatus e) (RtrPrio e) (DRtr e) (BDRtr e) (NbrIP e) full) s
    else s
  end.

(** A turn of StartOspfBroadcastIntfFSM. The channels of a missing interface are nil, so that
    it takes nothing. *)
Definition broadcast_step (key : IntfConfKey) (ev : IntfEvent) (s : OSPFServer) : res OSPFServer :=
  match IntfConfMap s !! key with
  | None => Ok s
  | Some ent =>
    match ev with
    | HelloTick => StartSendHelloPkt key s
    | WaitTimerExpired => ElectBDRAndDR key (put_intf key (set_WaitTimer (Some false) ent) s)
    | BackupSeen => ElectBDRAndDR key s
    | NeighCreate m =>
      match NeighborMap ent !! msg_key m key with
      | Some _ => Ok s
      | None =>
        let s := put_neighbor key (msg_key m key) (neighbor_of m false) s in
        if msg_TwoWayStatus m && (Waiting <? IfFSMState ent) then ElectBDRAndDR key s else Ok s
      end
    | NeighChange m =>
      match NeighborMap ent !! msg_key m key with
      | None => Ok s
      | Some old =>
        changed ← election_changes old m;
        let s := put_neighbor key (msg_key m key) (neighbor_of m (FullState old)) s in
        if (Waiting <? IfFSMState ent) && changed then ElectBDRAndDR key s else Ok s
      end
    | NbrStateChange k => processNbrDownEvent k key false s
    | NbrFullState full k => Ok (processNbrFullStateMsg full k key s)
    end
  end.

(** A turn of StartOspfP2PIntfFSM, which does not take the other events. *)
Definition p2p_step (key : IntfConfKey) (ev : IntfEvent) (s : OSPFServer) : res OSPFServer :=
  match IntfConfMap s !! key with
  | None => Ok s
  | Some ent =>
    match ev with
    | HelloTick => StartSendHelloPkt key s
    | NeighCreate m =>
      if negb (bytesEqual (msg_DRtr m) no_router) || negb (bytesEqual (msg_BDRtr m) no_router) then Ok s
      else
        match NeighborMap ent !! msg_key m key with
        | Some _ => Ok s
        | None =>
          Ok (put_neighbor key (msg_key m key)
                (mkNeighborData (msg_TwoWayStatus m) (msg_RtrPrio m) [] [] (msg_NbrIP m) false) s)
        end
    | NeighChange m =>
      if negb (bytesEqual (msg_DRtr m) no_router) || negb (bytesEqual (msg_BDRtr m) no_router) then Ok s
      else
        match NeighborMap ent !! msg_key m key with
        | None => Ok s
        | Some old => Ok (put_neighbor key (msg_key m key) (neighbor_of m (FullState old)) s)
        end
    | NbrStateChange k => processNbrDownEvent k key true s
    | _ => Ok s
    end
  end.

(** The start of the goroutine; the state in the message is the zero value. *)
Definition StartOspfIntfFSM (key : IntfConfKey) (s : OSPFServer) : res OSPFServer :=
  match IntfConfMap s !! key with
  | None => Ok s
  | Some ent =>
    areaId ← convertIPv4ToUint32 (IfAreaId ent);
    let s := send (IntfStateChange areaId key Intf_Down) s in
    if (IfType ent =? NumberedP2P) || (IfType ent =? UnnumberedP2P) || (IfType ent =? Broadcast)
    then StartSendHelloPkt key s else Ok s
  end.

(** A ticker without an interval panics. The addresses of the two routers stay as they were. *)
Definition StartSendRecvPkts (key : IntfConfKey) (s : OSPFServer) : res OSPFServer :=
  let ent := intf_of key s in
  _ ← must (0 <? IfHelloInterval ent);
  let ent := if IfType ent =? Broadcast then set_WaitTimer (Some true) ent else ent in
  let ent := set_IfEvents (i32 (IfEvents ent + 1)) (set_NeighborMap ∅ ent) in
  let ent :=
    if IfType ent =? Broadcast then set_IfFSMState Waiting ent
    else if (IfType ent =? NumberedP2P) || (IfType ent =? UnnumberedP2P) then set_IfFSMState P2P ent
    else ent in
  StartOspfIntfFSM key (put_intf key ent s).

(** After both goroutines have ended. *)
Definition StopSendRecvPkts (key : IntfConfKey) (s : OSPFServer) : OSPFServer :=
  let ent := intf_of key s in
  put_intf key (set_IfFSMState Down (set_IfEvents (i32 (IfEvents ent + 1)) (set_NeighborMap ∅ ent))) s.
End Intf.
