(* ===== verification/OspfIntfSpec.v ===== *)
(** * OSPF: the election as RFC 2328 describes it

    Section 9.4 of RFC 2328 as functions on the routers that take part, and that ElectBDR,
    ElectDR and ElectBDRAndDR compute it. *)

From S2P Require Import Prelude.
From S2P Require Import OspfUtil.
From S2P Require Import OspfLsa.
From S2P Require Import OspfServer.
From S2P Require Import OspfIntf.

(** ** The reference *)

(** A router that takes part, and whether it lists itself as one of the two. *)
Record Router := mkRouter { r_prio : Z; r_id : Z; r_addr : Z; r_dr : bool; r_bdr : bool }.

#[export] Instance Router_eq_dec : EqDecision Router.
Proof. solve_decision. Defined.

Definition higher (a b : Router) : bool := (r_prio b <? r_prio a) || ((r_prio a =? r_prio b) && (r_id b <? r_id a)).

(** The highest priority, and then the highest identifier. *)
Definition top (l : list Router) : option Router :=
  foldl (fun o r => match o with Some t => if higher r t then Some r else o | None => Some r end) None l.

(** Step 2: of the routers that do not list themselves as designated router, those that list
    themselves as backup go first. *)
Definition rfc_bdr (l : list Router) : option Router :=
  let l := List.filter (fun r => negb (r_dr r)) l in
  match top (List.filter r_bdr l) with Some r => Some r | None => top l end.

(** Step 3. *)
Definition rfc_dr (l : list Router) : option Router :=
  match top (List.filter r_dr l) with Some r => Some r | None => rfc_bdr l end.

Definition addr_of (o : option Router) : Z := match o with Some r => r_addr r | None => 0 end.
Definition id_of (o : option Router) : Z := match o with Some r => r_id r | None => 0 end.

(** The router that calculates; it takes part with a priority and an address. *)
Record Member := mkMember { m_prio : Z; m_id : Z; m_addr : Z }.

Definition as_router (m : Member) (declared : Z * Z) : Router :=
  mkRouter (m_prio m) (m_id m) (m_addr m) (m_addr m =? declared.1) (m_addr m =? declared.2).

Definition takes_part (m : Member) : bool := (0 <? m_prio m) && negb (m_addr m =? 0).

Definition view (others : list Router) (m : Member) (declared : Z * Z) : list Router :=
  others ++ (if takes_part m then [as_router m declared] else []).

Definition role (m : Member) (dr bdr : option Router) : Z :=
  if addr_of dr =? m_addr m then DesignatedRouter
  else if addr_of bdr =? m_addr m then BackupDesignatedRouter
  else OtherDesignatedRouter.

(** Whether a router has become, or is no longer, designated router or backup (step 4). *)
Definition repeats (old new : Z) : bool :=
  negb (new =? old) && negb ((new =? OtherDesignatedRouter) && (old <? OtherDesignatedRouter)).

Definition rfc_once (others : list Router) (m : Member) (declared : Z * Z) : option Router * option Router :=
  let l := view others m declared in (rfc_dr l, rfc_bdr l).

Definition rfc_election (others : list Router) (m : Member) (declared : Z * Z) (old : Z) : option Router * option Router :=
  let '(dr, bdr) := rfc_once others m declared in
  if repeats old (role m dr bdr) then rfc_once others m (addr_of dr, addr_of bdr) else (dr, bdr).

(** ** The highest router *)

Definition ranks_differ (l : list Router) : Prop := NoDup (map r_id l).

Lemma higher_irrefl a : higher a a = false.
Proof. unfold higher. rewrite !Z.ltb_irrefl, andb_false_r. done. Qed.

Lemma higher_trans a b c : higher a b = true -> higher b c = true -> higher a c = true.
Proof. unfold higher. rewrite !orb_true_iff, !andb_true_iff. lia. Qed.

Lemma higher_total a b : r_id a <> r_id b -> higher a b = true \/ higher b a = true.
Proof. unfold higher. rewrite !orb_true_iff, !andb_true_iff. lia. Qed.

Lemma higher_asym a b : higher a b = true -> higher b a = false.
Proof. unfold higher. rewrite orb_true_iff, orb_false_iff, andb_true_iff, andb_false_iff. lia. Qed.

Lemma top_snoc l r : top (l ++ [r]) = match top l with Some t => if higher r t then Some r else Some t | None => Some r end.
Proof. unfold top. rewrite foldl_app. cbn. by destruct (foldl _ None l). Qed.

Lemma top_none l : top l = None <-> l = [].
Proof.
  destruct l as [|x l] using rev_ind; [done|]. rewrite top_snoc. split; [|by intros [_ ?]%app_nil].
  destruct (top l); [case_match|]; done.
Qed.

Lemma top_max l t : ranks_differ l -> top l = Some t -> t ∈ l /\ forall r, r ∈ l -> r <> t -> higher t r = true.
Proof.
  revert t. induction l as [|x l IH] using rev_ind; intros t H Ht; [done|].
  unfold ranks_differ in H. rewrite map_app in H. apply NoDup_app in H as (H & Hx & _). rewrite top_snoc in Ht.
  assert (Hid : forall r, r ∈ l -> r_id r <> r_id x).
  { intros r Hr E. apply (Hx (r_id r)); [by apply list_elem_of_fmap_2|]. rewrite E. by left. }
  destruct (top l) as [u|] eqn:E.
  - destruct (IH u H eq_refl) as [Hu Hm]. destruct (higher x u) eqn:Ex; injection Ht as <-.
    + split; [apply elem_of_app; right; by left|]. intros r [Hr| ->%list_elem_of_singleton]%elem_of_app Hne; [|done].
      destruct (decide (r = u)) as [->|Hru]; [done|]. eapply higher_trans; [exact Ex|by apply Hm].
    + split; [apply elem_of_app; by left|]. intros r [Hr| ->%list_elem_of_singleton]%elem_of_app Hne; [by apply Hm|].
      destruct (higher_total u x) as [?|?]; [by apply Hid|done|congruence].
  - apply top_none in E as ->. injection Ht as <-. split; [by left|]. by intros r ->%list_elem_of_singleton.
Qed.

Lemma top_is l t : ranks_differ l -> t ∈ l -> (forall r, r ∈ l -> r <> t -> higher t r = true) -> top l = Some t.
Proof.
  intros H Ht Hm. destruct (top l) as [u|] eqn:E; [|by apply top_none in E as ->; apply not_elem_of_nil in Ht].
  destruct (top_max l u H E) as [Hu Hmu]. destruct (decide (u = t)) as [->|Hne]; [done|].
  pose proof (Hmu t Ht (not_eq_sym Hne)) as A. pose proof (Hm u Hu Hne) as B. apply higher_asym in A. congruence.
Qed.

Lemma ranks_perm l l' : l ≡ₚ l' -> ranks_differ l -> ranks_differ l'.
Proof. unfold ranks_differ. by intros <-. Qed.

Lemma top_perm l l' : l ≡ₚ l' -> ranks_differ l -> top l = top l'.
Proof.
  intros P H. destruct (top l') as [t|] eqn:E.
  - destruct (top_max l' t) as [Ht Hm]; [by eapply ranks_perm|done|]. apply top_is; [done|by rewrite P|].
    intros r Hr. rewrite P in Hr. by apply Hm.
  - apply top_none in E as ->. apply top_none. by apply Permutation_nil_r in P.
Qed.

Lemma ranks_filter f l : ranks_differ l -> ranks_differ (List.filter f l).
Proof.
  unfold ranks_differ. induction l as [|x l IH]; [done|]. cbn. rewrite NoDup_cons. intros [Hx H]. destruct (f x); [|by apply IH].
  cbn. rewrite NoDup_cons. split; [|by apply IH]. intros Hi. apply Hx. apply list_elem_of_fmap in Hi as (y & -> & Hy).
  apply list_elem_of_fmap_2. apply list_elem_of_In, filter_In in Hy as [Hy _]. by apply list_elem_of_In.
Qed.

Lemma filter_perm {A} (f : A -> bool) l l' : l ≡ₚ l' -> List.filter f l ≡ₚ List.filter f l'.
Proof.
  induction 1; cbn; [done|by case_match; rewrite ?IHPermutation|repeat case_match; by try constructor|by etrans].
Qed.

Lemma rfc_bdr_perm l l' : l ≡ₚ l' -> ranks_differ l -> rfc_bdr l = rfc_bdr l'.
Proof.
  intros P H. unfold rfc_bdr. set (n := fun r => negb (r_dr r)).
  rewrite (top_perm _ _ (filter_perm r_bdr _ _ (filter_perm n _ _ P))) by by apply ranks_filter, ranks_filter.
  by rewrite (top_perm _ _ (filter_perm n _ _ P)) by by apply ranks_filter.
Qed.

Lemma rfc_dr_perm l l' : l ≡ₚ l' -> ranks_differ l -> rfc_dr l = rfc_dr l'.
Proof.
  intros P H. unfold rfc_dr. rewrite (top_perm _ _ (filter_perm r_dr _ _ P)) by by apply ranks_filter.
  by rewrite (rfc_bdr_perm _ _ P).
Qed.

(** ** What an interface has heard *)

(** The router of an entry, with the two octet strings read as addresses. *)
Definition router_of (s : OSPFServer) (e : NeighborConfKey * NeighborData) : Router :=
  let declares a := match Uint32 a with Ok v => v =? NbrIP e.2 | _ => false end in
  mkRouter (RtrPrio e.2) (nbr_router s e.1) (NbrIP e.2) (declares (DRtr e.2)) (declares (BDRtr e.2)).

(** RFC 2328, 9.4: the routers that can be elected are the neighbors with which there is
    two-way communication and which have a priority; here they also need an address. *)
Definition electable (e : NeighborData) : bool := bool_decide (TwoWayStatus e = true /\ 0 < RtrPrio e /\ NbrIP e <> 0).

Definition others (ent : IntfConf) (s : OSPFServer) : list Router :=
  map (router_of s) (List.filter (fun e => electable e.2) (map_to_list (NeighborMap ent))).

Lemma eligible_electable e : eligible e = electable e.
Proof.
  unfold eligible, electable. symmetry. destruct (TwoWayStatus e), (Z.ltb_spec 0 (RtrPrio e)), (Z.eqb_spec (NbrIP e) 0);
    cbn; (apply bool_decide_eq_true; tauto) || (apply bool_decide_eq_false; naive_solver lia).
Qed.

Lemma eligible_filter (l : list (NeighborConfKey * NeighborData)) :
  List.filter (fun e => eligible e.2) l = List.filter (fun e => electable e.2) l.
Proof. apply List.filter_ext. intros e. apply eligible_electable. Qed.

Definition neighbor_ok (e : NeighborData) : Prop :=
  is_u32 (NbrIP e) /\ exists d b, DRtr e = be32 d /\ BDRtr e = be32 b /\ is_u32 d /\ is_u32 b.

(** The interface of [m], which lists the routers [declared]. *)
Record intf_ok (m : Member) (declared : Z * Z) (ent : IntfConf) (s : OSPFServer) : Prop := {
  io_id : RouterId s = be32 (m_id m);
  io_addr : To4 (IfIpAddr ent) = be32 (m_addr m);
  io_prio : IfRtrPriority ent = m_prio m;
  io_dr : IfDRIp ent = be32 declared.1;
  io_bdr : IfBDRIp ent = be32 declared.2;
  io_range : 0 <= m_prio m /\ is_u32 (m_id m) /\ is_u32 (m_addr m) /\ is_u32 declared.1 /\ is_u32 declared.2;
  io_nbrs : forall k e, NeighborMap ent !! k = Some e -> neighbor_ok e;
}.

Lemma be32_inj a b : is_u32 a -> is_u32 b -> be32 a = be32 b -> a = b.
Proof.
  intros Ha Hb E. pose proof (Uint32_be32 a [] Ha) as A. rewrite E, Uint32_be32 in A by done. by injection A.
Qed.

Lemma bytesEqual_be32 a b : is_u32 a -> is_u32 b -> bytesEqual (be32 a) (be32 b) = (a =? b).
Proof.
  intros Ha Hb. unfold bytesEqual. destruct (Z.eqb_spec a b) as [->|Hne]; [by apply bool_decide_eq_true|].
  apply bool_decide_eq_false. intros E. by apply be32_inj in E.
Qed.

Lemma no_router_be32 : no_router = be32 0.
Proof. done. Qed.

(** ** The accumulators of the loops *)

(** The candidate a list leaves, starting from none. *)
Definition cand {A} (addr : Router -> A) (none : A) (o : option Router) : Candidate A :=
  match o with Some r => mkCandidate (r_prio r) (r_id r) (addr r) | None => mkCandidate 0 0 none end.

Lemma challenge_top {A} (addr : Router -> A) none l r :
  0 < r_prio r -> challenge (r_prio r) (r_id r) (addr r) (cand addr none (top l)) = cand addr none (top (l ++ [r])).
Proof.
  intros Hp. rewrite top_snoc. unfold challenge, beats. destruct (top l) as [t|]; cbn [cand c_prio c_id].
  - fold (higher r t). by destruct (higher r t).
  - by replace (0 <? r_prio r) with true by lia.
Qed.

Lemma filter_snoc {A} (f : A -> bool) l x : List.filter f (l ++ [x]) = List.filter f l ++ (if f x then [x] else []).
Proof. rewrite List.filter_app. cbn. by destruct (f x). Qed.

(** The routers that are not designated routers by their own word, and of these the backups. *)
Definition not_dr (l : list Router) : list Router := List.filter (fun r => negb (r_dr r)) l.

Definition bdr_acc (l : list Router) : Candidate bytes * Candidate Z :=
  (cand (fun r => be32 (r_addr r)) no_router (top (List.filter r_bdr (not_dr l))), cand r_addr 0 (top (not_dr l))).

Definition dr_acc (l : list Router) : Candidate bytes := cand (fun r => be32 (r_addr r)) no_router (top (List.filter r_dr l)).

Lemma bdr_acc_snoc l r :
  0 < r_prio r ->
  bdr_acc (l ++ [r]) =
  if r_dr r then bdr_acc l
  else (if r_bdr r then challenge (r_prio r) (r_id r) (be32 (r_addr r)) (bdr_acc l).1 else (bdr_acc l).1,
        challenge (r_prio r) (r_id r) (r_addr r) (bdr_acc l).2).
Proof.
  intros Hp. unfold bdr_acc, not_dr. rewrite filter_snoc. destruct (r_dr r); cbn [negb]; [by rewrite app_nil_r|].
  rewrite filter_snoc. cbn [fst snd]. rewrite (challenge_top r_addr) by done. destruct (r_bdr r); [|by rewrite app_nil_r].
  by rewrite (challenge_top (fun r => be32 (r_addr r))).
Qed.

Lemma dr_acc_snoc l r :
  0 < r_prio r -> dr_acc (l ++ [r]) = if r_dr r then challenge (r_prio r) (r_id r) (be32 (r_addr r)) (dr_acc l) else dr_acc l.
Proof.
  intros Hp. unfold dr_acc. rewrite filter_snoc. destruct (r_dr r); [|by rewrite app_nil_r].
  by rewrite (challenge_top (fun r => be32 (r_addr r))).
Qed.

Lemma router_of_ok s e :
  neighbor_ok e.2 ->
  exists d b, Uint32 (DRtr e.2) = Ok d /\ Uint32 (BDRtr e.2) = Ok b /\ r_dr (router_of s e) = (d =? NbrIP e.2) /\
  r_bdr (router_of s e) = (b =? NbrIP e.2) /\ ((d =? NbrIP e.2) = true -> DRtr e.2 = be32 (NbrIP e.2)) /\
  ((b =? NbrIP e.2) = true -> BDRtr e.2 = be32 (NbrIP e.2)).
Proof.
  intros (Hip & d & b & Ed & Eb & Hd & Hb). exists d, b. unfold router_of. cbn [r_dr r_bdr].
  assert (U : forall v, is_u32 v -> Uint32 (be32 v) = Ok v).
  { intros v Hv. rewrite <- (app_nil_r (be32 v)). by apply Uint32_be32. }
  rewrite Ed, Eb, !U by done. split_and!; try done; by intros ->%Z.eqb_eq.
Qed.

(** The neighbors in some order. *)
Definition routers (s : OSPFServer) (l : list (NeighborConfKey * NeighborData)) : list Router :=
  map (router_of s) (List.filter (fun e => eligible e.2) l).

Lemma routers_snoc s l e : routers s (l ++ [e]) = routers s l ++ (if eligible e.2 then [router_of s e] else []).
Proof. unfold routers. rewrite filter_snoc, map_app. cbn beta. by destruct (eligible e.2). Qed.

Lemma turns_snoc {A B} (turn : A -> B -> res A) l x c : turns turn (l ++ [x]) c = (c ← turns turn l c; turn c x).
Proof.
  revert c. induction l as [|y l IH]; intros c; cbn [turns app].
  - res_simpl. by destruct (turn c x).
  - destruct (turn c y); res_simpl; [by apply IH|done..].
Qed.

Lemma bdr_turns s l :
  (forall e, e ∈ l -> neighbor_ok e.2) -> turns (bdr_turn s) l (bdr_acc []) = Ok (bdr_acc (routers s l)).
Proof.
  induction l as [|e l IH] using rev_ind; intros H; [done|]. rewrite turns_snoc, IH by (intros x Hx; apply H, elem_of_app; by left).
  res_simpl. rewrite routers_snoc. unfold bdr_turn. destruct (eligible e.2) eqn:E; [|by rewrite app_nil_r].
  destruct (router_of_ok s e) as (d & b & Ud & Ub & Rd & Rb & _ & Eb); [apply H, elem_of_app; right; by left|].
  rewrite bdr_acc_snoc by (unfold eligible in E; cbn; lia). rewrite Ud, Rd, Rb. res_simpl. destruct (d =? NbrIP e.2); [done|].
  rewrite Ub. res_simpl. f_equal. f_equal. destruct (b =? NbrIP e.2) eqn:Hb; [|done]. by rewrite Eb.
Qed.

Lemma dr_turns s l :
  (forall e, e ∈ l -> neighbor_ok e.2) -> turns (dr_turn s) l (dr_acc []) = Ok (dr_acc (routers s l)).
Proof.
  induction l as [|e l IH] using rev_ind; intros H; [done|]. rewrite turns_snoc, IH by (intros x Hx; apply H, elem_of_app; by left).
  res_simpl. rewrite routers_snoc. unfold dr_turn. destruct (eligible e.2) eqn:E; [|by rewrite app_nil_r].
  destruct (router_of_ok s e) as (d & b & Ud & Ub & Rd & Rb & Ed & _); [apply H, elem_of_app; right; by left|].
  rewrite dr_acc_snoc by (unfold eligible in E; cbn; lia). rewrite Ud, Rd. res_simpl. destruct (d =? NbrIP e.2) eqn:Hd; [|done]. by rewrite Ed.
Qed.

(** ** The two elections *)

Definition self (m : Member) (declared : Z * Z) : list Router := if takes_part m then [as_router m declared] else [].

Section Elect.
Context (range : forall A : Type, list A -> list A) (Hrange : forall A (l : list A), Permutation (range A l) l).
Context (key : IntfConfKey) (s : OSPFServer) (m : Member) (declared : Z * Z).
Context (Hok : intf_ok m declared (intf_of key s) s).

Let ent := intf_of key s.
Let heard := routers s (range _ (map_to_list (NeighborMap ent))).

Lemma own_dr : bytesEqual (To4 (IfIpAddr ent)) (IfDRIp ent) = (m_addr m =? declared.1).
Proof. destruct Hok as [Hid Ha Hp Hd Hb (? & ? & ? & ? & ?) _]. unfold ent. rewrite Ha, Hd. by apply bytesEqual_be32. Qed.

Lemma own_bdr : bytesEqual (To4 (IfIpAddr ent)) (IfBDRIp ent) = (m_addr m =? declared.2).
Proof. destruct Hok as [Hid Ha Hp Hd Hb (? & ? & ? & ? & ?) _]. unfold ent. rewrite Ha, Hb. by apply bytesEqual_be32. Qed.

Lemma own_zero : bytesEqual (To4 (IfIpAddr ent)) no_router = (m_addr m =? 0).
Proof. destruct Hok as [Hid Ha Hp Hd Hb (? & ? & ? & ? & ?) _]. unfold ent. rewrite Ha, no_router_be32. by apply bytesEqual_be32. Qed.

Lemma own_id : Uint32 (RouterId s) = Ok (m_id m).
Proof. destruct Hok as [Hid Ha Hp Hd Hb (? & ? & ? & ? & ?) _]. rewrite Hid, <- (app_nil_r (be32 _)). by apply Uint32_be32. Qed.

Lemma own_ip : Uint32 (To4 (IfIpAddr ent)) = Ok (m_addr m).
Proof. destruct Hok as [Hid Ha Hp Hd Hb (? & ? & ? & ? & ?) _]. unfold ent. rewrite Ha, <- (app_nil_r (be32 _)). by apply Uint32_be32. Qed.

Lemma own_prio : IfRtrPriority ent = m_prio m /\ 0 <= m_prio m.
Proof. by destruct Hok as [_ _ ? _ _ [? _] _]. Qed.

Lemma takes_part_prio : takes_part m = negb (m_prio m =? 0) && negb (m_addr m =? 0).
Proof. unfold takes_part. destruct own_prio. f_equal. lia. Qed.

Lemma bdr_self_ok l : bdr_self ent s (bdr_acc l) = Ok (bdr_acc (l ++ self m declared)).
Proof.
  destruct own_prio as [Hp Hpos]. unfold bdr_self, self. rewrite own_zero, own_dr, own_bdr, own_ip, own_id, Hp, takes_part_prio.
  destruct (m_prio m =? 0) eqn:E0; cbn [negb andb]; [by rewrite app_nil_r|].
  destruct (m_addr m =? 0); cbn [negb andb]; [by rewrite app_nil_r|].
  rewrite bdr_acc_snoc by (cbn; lia). cbn [as_router r_dr r_bdr r_prio r_id r_addr].
  destruct (m_addr m =? declared.1); cbn [negb]; [done|]. res_simpl. unfold ent. rewrite (io_addr _ _ _ _ Hok).
  unfold challenge at 4. by destruct (beats (m_prio m) (m_id m) (bdr_acc l).2).
Qed.

Lemma dr_self_ok l : dr_self ent s (dr_acc l) = Ok (dr_acc (l ++ self m declared)).
Proof.
  destruct own_prio as [Hp Hpos]. unfold dr_self, self. rewrite own_zero, own_dr, own_id, Hp. unfold takes_part.
  destruct (0 <? m_prio m) eqn:E0; cbn [negb andb]; [|by rewrite app_nil_r].
  destruct (m_addr m =? 0); cbn [negb andb]; [by rewrite app_nil_r|].
  rewrite dr_acc_snoc by (cbn; lia). cbn [as_router r_dr r_prio r_id r_addr].
  destruct (m_addr m =? declared.1); [|done]. res_simpl. unfold ent. by rewrite (io_addr _ _ _ _ Hok).
Qed.

Lemma heard_ok e : e ∈ range _ (map_to_list (NeighborMap ent)) -> neighbor_ok e.2.
Proof.
  intros He. rewrite Hrange in He. destruct e as [k e]. apply elem_of_map_to_list in He. by apply (io_nbrs _ _ _ _ Hok) in He.
Qed.

Lemma view_addr r : r ∈ heard ++ self m declared -> r_addr r <> 0 /\ is_u32 (r_addr r).
Proof.
  intros [H|H]%elem_of_app.
  - apply list_elem_of_fmap in H as (e & -> & He). apply list_elem_of_In, filter_In in He as [He El].
    apply list_elem_of_In, heard_ok in He as [Hu _]. cbn. unfold eligible in El. rewrite !andb_true_iff, negb_true_iff in El. split; [lia|done].
  - unfold self in H. destruct (takes_part m) eqn:E; [|by apply not_elem_of_nil in H]. apply list_elem_of_singleton in H as ->. cbn.
    unfold takes_part in E. rewrite andb_true_iff, negb_true_iff in E. destruct Hok as [_ _ _ _ _ (_ & _ & ? & _) _]. split; [lia|done].
Qed.

Lemma top_addr l r : l ⊆ heard ++ self m declared -> top l = Some r -> r_addr r <> 0 /\ is_u32 (r_addr r).
Proof.
  intros Hl Ht. apply view_addr, Hl. revert r Ht. clear. induction l as [|x l IH] using rev_ind; intros r; [done|].
  rewrite top_snoc, elem_of_app, list_elem_of_singleton. destruct (top l) as [t|]; [|intros [= ->]; by right].
  destruct (higher x t); intros [= ->]; [by right|left; by apply IH].
Qed.

Lemma filter_sub (f : Router -> bool) l : List.filter f l ⊆ l.
Proof. intros r Hr. apply list_elem_of_In, filter_In in Hr as [Hr _]. by apply list_elem_of_In. Qed.

Lemma bdr_addr_u32 l : l ⊆ heard ++ self m declared -> is_u32 (addr_of (rfc_bdr l)).
Proof.
  intros Hl. unfold rfc_bdr. destruct (top (List.filter r_bdr _)) as [r|] eqn:E.
  - apply top_addr in E; [apply E|]. by do 2 (etrans; [apply filter_sub|]).
  - destruct (top (List.filter _ l)) as [r|] eqn:E'; [|done]. apply top_addr in E'; [apply E'|]. by etrans; [apply filter_sub|].
Qed.

Lemma elect_bdr_heard :
  ElectBDR range key s = Ok (be32 (addr_of (rfc_bdr (heard ++ self m declared))), id_of (rfc_bdr (heard ++ self m declared))).
Proof.
  unfold ElectBDR. fold ent. change (mkCandidate 0 0 no_router, mkCandidate 0 0 0) with (bdr_acc []).
  rewrite bdr_turns by apply heard_ok. res_simpl. fold heard. rewrite bdr_self_ok. res_simpl. unfold rfc_bdr.
  pose proof (bdr_addr_u32 (heard ++ self m declared)) as Hu. unfold rfc_bdr in Hu. fold (not_dr (heard ++ self m declared)) in *. cbn [bdr_acc].
  destruct (top (List.filter r_bdr (not_dr (heard ++ self m declared)))) as [r|] eqn:E; cbn [cand c_addr c_id addr_of id_of].
  - apply top_addr in E as [Hn Hr]; [|by do 2 (etrans; [apply filter_sub|])]. rewrite no_router_be32, bytesEqual_be32 by done.
    by apply Z.eqb_neq in Hn as ->.
  - destruct (top (not_dr (heard ++ self m declared))) as [r|]; cbn [cand c_addr c_id addr_of id_of] in *; [|done].
    by rewrite no_router_be32.
Qed.

Lemma elect_dr_heard :
  let b := rfc_bdr (heard ++ self m declared) in let d := rfc_dr (heard ++ self m declared) in
  ElectDR range key (be32 (addr_of b)) (id_of b) s = Ok (be32 (addr_of d), id_of d).
Proof.
  intros b d. unfold ElectDR. fold ent. change (mkCandidate 0 0 no_router) with (dr_acc []).
  rewrite dr_turns by apply heard_ok. res_simpl. fold heard. rewrite dr_self_ok. res_simpl. unfold d, rfc_dr, dr_acc. fold b.
  destruct (top (List.filter r_dr (heard ++ self m declared))) as [r|] eqn:E; cbn [cand c_addr c_id addr_of id_of]; [|done].
  apply top_addr in E as [Hn Hr]; [|by apply filter_sub]. rewrite no_router_be32, bytesEqual_be32 by done. by apply Z.eqb_neq in Hn as ->.
Qed.

Lemma heard_perm : heard ≡ₚ others ent s.
Proof.
  unfold heard, others, routers. rewrite <- eligible_filter. apply Permutation_map, filter_perm, Hrange.
Qed.

Lemma elections :
  ranks_differ (view (others ent s) m declared) ->
  exists dr bdr, rfc_once (others ent s) m declared = (dr, bdr) /\ is_u32 (addr_of dr) /\ is_u32 (addr_of bdr) /\
  ElectBDR range key s = Ok (be32 (addr_of bdr), id_of bdr) /\
  ElectDR range key (be32 (addr_of bdr)) (id_of bdr) s = Ok (be32 (addr_of dr), id_of dr).
Proof.
  intros H. assert (P : heard ++ self m declared ≡ₚ view (others ent s) m declared) by (unfold view, self; by rewrite heard_perm).
  assert (H' : ranks_differ (heard ++ self m declared)) by by eapply ranks_perm.
  eexists _, _. split; [done|]. rewrite <- (rfc_dr_perm _ _ P H'), <- (rfc_bdr_perm _ _ P H').
  split; [|split; [by apply bdr_addr_u32|split; [apply elect_bdr_heard|apply elect_dr_heard]]].
  unfold rfc_dr. destruct (top (List.filter r_dr _)) as [r|] eqn:E; [|by apply bdr_addr_u32].
  apply top_addr in E as [_ Hr]; [done|]. by apply filter_sub.
Qed.
End Elect.

Lemma intf_of_put key ent s : intf_of key (put_intf key ent s) = ent.
Proof. unfold intf_of, put_intf. cbn. by rewrite lookup_insert_eq. Qed.

(** What the elections leave: an interface that differs in the two routers only. *)
Definition elected (ent ent' : IntfConf) (dr bdr : option Router) : Prop :=
  ent' = set_IfDRtrId (id_of dr) (set_IfDRIp (be32 (addr_of dr)) (set_IfBDRtrId (id_of bdr) (set_IfBDRIp (be32 (addr_of bdr)) ent))).

Lemma others_elected ent ent' dr bdr key s : elected ent ent' dr bdr -> others ent' (put_intf key ent' s) = others ent s.
Proof. by intros ->. Qed.

Lemma elected_ok m declared ent ent' dr bdr key s :
  intf_ok m declared ent s -> elected ent ent' dr bdr -> is_u32 (addr_of dr) -> is_u32 (addr_of bdr) ->
  intf_ok m (addr_of dr, addr_of bdr) ent' (put_intf key ent' s).
Proof. intros [Hid Ha Hp _ _ (? & ? & ? & _) Hn] -> Hd Hb. by split. Qed.

Lemma elected_again ent ent1 ent2 dr1 bdr1 dr bdr : elected ent ent1 dr1 bdr1 -> elected ent1 ent2 dr bdr -> elected ent ent2 dr bdr.
Proof. by intros -> ->. Qed.

Lemma ranks_view l m declared declared' :
  ranks_differ (as_router m declared :: l) -> ranks_differ (view l m declared').
Proof.
  unfold ranks_differ, view. cbn. rewrite NoDup_cons. intros [Hm Hl]. rewrite map_app. apply NoDup_app. split; [done|].
  destruct (takes_part m); cbn; [|split; [by intros ? _ ?%not_elem_of_nil|constructor]].
  split; [|apply NoDup_singleton]. intros x Hx ->%list_elem_of_singleton. done.
Qed.

Section Both.
Context (range : forall A : Type, list A -> list A) (Hrange : forall A (l : list A), Permutation (range A l) l).
Context (key : IntfConfKey) (m : Member).

Lemma elect_both_ok s declared :
  let ent := intf_of key s in
  intf_ok m declared ent s -> ranks_differ (view (others ent s) m declared) ->
  exists dr bdr ent', rfc_once (others ent s) m declared = (dr, bdr) /\ is_u32 (addr_of dr) /\ is_u32 (addr_of bdr) /\
  elect_both range key s = Ok (put_intf key ent' s, role m dr bdr) /\ elected ent ent' dr bdr.
Proof.
  intros ent Hok Hr. destruct (elections range Hrange key s m declared Hok Hr) as (dr & bdr & E & Hd & Hb & E1 & E2).
  exists dr, bdr. eexists. split_and!; [exact E|done|done| |reflexivity]. unfold elect_both. rewrite E1. res_simpl. rewrite E2. res_simpl.
  fold ent. f_equal. f_equal. cbn. destruct Hok as [_ Ha _ _ _ (_ & _ & Hm & _) _]. fold ent in Ha. rewrite Ha, !bytesEqual_be32 by done. done.
Qed.

Lemma election_ok s ent declared area :
  IntfConfMap s !! key = Some ent -> intf_ok m declared ent s -> convertIPv4ToUint32 (IfAreaId ent) = Ok area ->
  ranks_differ (as_router m declared :: others ent s) ->
  exists dr bdr ent1 ent' s', rfc_election (others ent s) m declared (IfFSMState ent) = (dr, bdr) /\
  ElectBDRAndDR range key s = Ok s' /\ elected ent ent1 dr bdr /\
  ent' = set_IfEvents (i32 (IfEvents ent + 1)) (set_IfFSMState (role m dr bdr) ent1) /\
  IntfConfMap s' = <[key := ent']> (IntfConfMap s) /\ sent s' = sent s ++ [NetworkDRChange area key (IfFSMState ent) (role m dr bdr)] /\
  RouterId s' = RouterId s /\ NeighborConfigMap s' = NeighborConfigMap s /\ AreaConfMap s' = AreaConfMap s /\ is_u32 (addr_of dr) /\ is_u32 (addr_of bdr).
Proof.
  intros Hent Hok Harea Hr. assert (E0 : intf_of key s = ent) by (unfold intf_of; by rewrite Hent).
  destruct (elect_both_ok s declared) as (dr1 & bdr1 & ent1 & F1 & U1 & V1 & E1 & L1); [by rewrite E0|rewrite E0; by eapply ranks_view|].
  rewrite E0 in *. unfold rfc_election, ElectBDRAndDR. rewrite E0, F1, E1. res_simpl. fold (repeats (IfFSMState ent) (role m dr1 bdr1)).
  set (goal := fun dr bdr (ent1 : IntfConf) s1 => elected ent ent1 dr bdr -> IntfConfMap s1 = <[key := ent1]> (IntfConfMap s) ->
    sent s1 = sent s -> RouterId s1 = RouterId s -> NeighborConfigMap s1 = NeighborConfigMap s -> AreaConfMap s1 = AreaConfMap s -> is_u32 (addr_of dr) -> is_u32 (addr_of bdr) ->
    exists ent' s', createAndSendEventsIntfFSM key (IfFSMState ent) (role m dr bdr) s1 = Ok s' /\ elected ent ent1 dr bdr /\
    ent' = set_IfEvents (i32 (IfEvents ent + 1)) (set_IfFSMState (role m dr bdr) ent1) /\
    IntfConfMap s' = <[key := ent']> (IntfConfMap s) /\ sent s' = sent s ++ [NetworkDRChange area key (IfFSMState ent) (role m dr bdr)] /\
    RouterId s' = RouterId s /\ NeighborConfigMap s' = NeighborConfigMap s /\ AreaConfMap s' = AreaConfMap s /\ is_u32 (addr_of dr) /\ is_u32 (addr_of bdr)).
  assert (G : forall dr bdr ent1 s1, goal dr bdr ent1 s1).
  { intros dr bdr ent2 s1 L Hi Hs HR HN HA Hd Hb. eexists _, _. split; [|split; [exact L|split; [reflexivity|]]].
    - unfold createAndSendEventsIntfFSM. replace (intf_of key s1) with ent2 by (unfold intf_of; by rewrite Hi, lookup_insert_eq).
      rewrite L. cbn -[convertIPv4ToUint32]. rewrite Harea. res_simpl. reflexivity.
    - rewrite L. cbn. rewrite Hi, Hs, insert_insert_eq. by split_and!. }
  destruct (repeats (IfFSMState ent) (role m dr1 bdr1)) eqn:R.
  - pose proof (others_elected ent ent1 dr1 bdr1 key s L1) as Ho.
    destruct (elect_both_ok (put_intf key ent1 s) (addr_of dr1, addr_of bdr1)) as (dr & bdr & ent2 & F2 & U2 & V2 & E2 & L2);
      rewrite ?intf_of_put, ?Ho in *; [by eapply elected_ok|by eapply ranks_view|].
    rewrite E2. res_simpl. destruct (G dr bdr ent2 (put_intf key ent2 (put_intf key ent1 s))) as (ent' & s' & H); try done.
    { by eapply elected_again. } { cbn. by rewrite insert_insert_eq. }
    exists dr, bdr, ent2, ent', s'. by split.
  - res_simpl. destruct (G dr1 bdr1 ent1 (put_intf key ent1 s)) as (ent' & s' & H); try done.
    exists dr1, bdr1, ent1, ent', s'. by split.
Qed.
End Both.
