(* ===== verification/OspfHello.v ===== *)
(** * OSPF: Hello packets over the wire

    What BuildHelloPkt makes of an interface, and what the other end of the link makes of the
    packet. *)

From S2P Require Import Prelude.
From S2P Require Import NetIP.
From S2P Require Import OspfUtil.
From S2P Require Import OspfLsa.
From S2P Require Import OspfLsaSpec.
From S2P Require Import OspfServer.
From S2P Require Import OspfRoute.
From S2P Require Import OspfRouteSpec.
From S2P Require Import OspfIntf.

(** ** The octets *)

Definition hello_header (l : Z) (rtr area : bytes) (c t : Z) (key : bytes) : bytes :=
  [2; 1] ++ be16 l ++ rtr ++ area ++ be16 c ++ be16 t ++ key.

Definition hello_body (h : OSPFHelloData) : bytes :=
  hello_netmask h ++ be16 (helloInterval h) ++ [hello_options h; hello_rtrPrio h] ++ be32 (rtrDeadInterval h) ++
  designatedRtr h ++ backupDesignatedRtr h.

Record hello_ok (h : OSPFHelloData) : Prop := {
  ho_mask : len (hello_netmask h) = 4;
  ho_dr : len (designatedRtr h) = 4;
  ho_bdr : len (backupDesignatedRtr h) = 4;
  ho_interval : is_u16 (helloInterval h);
  ho_dead : is_u32 (rtrDeadInterval h);
}.

Ltac four l := destruct l as [|?[|?[|?[|?[|??]]]]]; try discriminate.
Ltac eight l := destruct l as [|?[|?[|?[|?[|?[|?[|?[|?[|??]]]]]]]]]; try discriminate.

Lemma len_four {A} (l : list A) : len l = 4 -> length l = 4%nat.
Proof. unfold len. lia. Qed.

Lemma len_eight {A} (l : list A) : len l = 8 -> length l = 8%nat.
Proof. unfold len. lia. Qed.

Lemma slice_pre {A} (p t : list A) i j : 0 <= i <= j -> j <= len p -> slice (p ++ t) i j = slice p i j.
Proof.
  intros H1 H2. pose proof (len_nonneg t). rewrite !slice_range by (len_simpl; lia). f_equal.
  rewrite drop_app_le by (unfold len in *; lia). rewrite take_app_le; [done|]. rewrite length_drop. unfold len in *. lia.
Qed.

Lemma index_pre {A} (p t : list A) i : 0 <= i < len p -> index (p ++ t) i = index p i.
Proof. intros H. unfold index. destruct (i <? 0); [done|]. rewrite lookup_app_l; [done|]. unfold len in H. lia. Qed.

Lemma copy_range_in pre old post src i j :
  i = len pre -> j = i + len old -> len src = len old -> copy_range (pre ++ old ++ post) i j src = Ok (pre ++ src ++ post).
Proof.
  intros Hi Hj Hs. unfold copy_range. rewrite slice_app by lia. res_simpl. unfold copy_at. rewrite on_suffix_app by done.
  replace (Z.to_nat (j - i)) with (length old) by (unfold len in *; lia). rewrite take_ge by (unfold len in *; lia).
  pose proof (len_nonneg post). res_simpl. rewrite copy_fits by (rewrite len_app; lia). do 3 f_equal.
  rewrite drop_app_le by (unfold len in *; lia). rewrite drop_ge by (unfold len in *; lia). done.
Qed.

Section Codec.
Context (l : Z) (rtr area : bytes) (c t : Z) (key : bytes) (h : OSPFHelloData).
Context (Hrtr : len rtr = 4) (Harea : len area = 4) (Hkey : len key = 8) (Hh : hello_ok h).
Context (Hl : is_u16 l) (Ht : is_u16 t) (Hc : is_u16 c).

Lemma hello_header_len : len (hello_header l rtr area c t key) = 24.
Proof. unfold hello_header. len_simpl. rewrite Hrtr, Harea, Hkey. done. Qed.

Lemma hello_body_len : len (hello_body h) = 20.
Proof. destruct Hh as [H1 H2 H3 _ _]. unfold hello_body. len_simpl. rewrite H1, H2, H3. done. Qed.

Lemma encodeOspfHdr_ok : encodeOspfHdr (mkOSPFHeader 2 1 l rtr area c t) = Ok (hello_header l rtr area 0 t (zeros 8)).
Proof. apply len_four in Hrtr, Harea. four rtr. four area. reflexivity. Qed.

Lemma encodeOspfHelloData_ok : encodeOspfHelloData h = Ok (hello_body h).
Proof.
  destruct Hh as [H1 H2 H3 _ _], h as [mask hi op prio dead dr bdr]. cbn in *. apply len_four in H1, H2, H3.
  four mask. four dr. four bdr. reflexivity.
Qed.

Lemma Uint16_word v : is_u16 v -> Uint16 (be16 v) = Ok v.
Proof. intros Hv. rewrite <- (app_nil_r (be16 v)). by apply Uint16_be16. Qed.

Lemma Uint32_word v : is_u32 v -> Uint32 (be32 v) = Ok v.
Proof. intros Hv. rewrite <- (app_nil_r (be32 v)). by apply Uint32_be32. Qed.

Lemma decodeOspfHdr_ok rest : decodeOspfHdr (hello_header l rtr area c t key ++ rest) = Ok (mkOSPFHeader 2 1 l rtr area c t).
Proof.
  pose proof hello_header_len as Hlen. unfold decodeOspfHdr, uint16_at. rewrite !slice_pre, !index_pre by lia.
  transitivity (l ← Uint16 (be16 l); c ← Uint16 (be16 c); t ← Uint16 (be16 t); Ok (mkOSPFHeader 2 1 l rtr area c t)).
  - apply len_four in Hrtr, Harea. apply len_eight in Hkey. four rtr. four area. eight key. reflexivity.
  - by rewrite !Uint16_word by done.
Qed.

Lemma decodeOspfHelloData_ok rest : decodeOspfHelloData (hello_body h ++ rest) = Ok h.
Proof.
  pose proof hello_body_len as Hlen. unfold decodeOspfHelloData, uint16_at, uint32_at. rewrite !slice_pre, !index_pre by lia.
  transitivity (v ← Uint16 (be16 (helloInterval h)); w ← Uint32 (be32 (rtrDeadInterval h));
    Ok (mkOSPFHelloData (hello_netmask h) v (hello_options h) (hello_rtrPrio h) w (designatedRtr h) (backupDesignatedRtr h))).
  - destruct Hh as [H1 H2 H3 _ _], h as [mask hi op prio dead dr bdr]. cbn in H1, H2, H3. apply len_four in H1, H2, H3.
    four mask. four dr. four bdr. reflexivity.
  - destruct Hh as [_ _ _ H4 H5]. rewrite Uint16_word, Uint32_word by done. by destruct h.
Qed.

Lemma put_checksum v rest :
  PutUint16 (hello_header l rtr area c t key ++ rest) 12 v = Ok (hello_header l rtr area v t key ++ rest).
Proof.
  apply len_four in Hrtr, Harea. four rtr. four area.
  exact (PutUint16_in [2; 1; u8 (l / 256); u8 l; z; z0; z1; z2; z3; z4; z5; z6] (be16 c) (be16 t ++ key ++ rest) 12 v eq_refl eq_refl).
Qed.

Lemma put_key key' rest :
  len key' = 8 -> copy_range (hello_header l rtr area c t key ++ rest) 16 24 key' = Ok (hello_header l rtr area c t key' ++ rest).
Proof.
  intros H. unfold hello_header. rewrite <- !app_assoc. rewrite !(app_assoc _ _ (_ ++ _ ++ rest)). rewrite !app_assoc.
  rewrite <- !(app_assoc _ _ rest). apply copy_range_in; len_simpl; rewrite ?Hrtr, ?Harea, ?Hkey, ?H; done.
Qed.
End Codec.

(** ** The checksum *)

Lemma sum_pairs_even l : forall c, Nat.even (length l) = true -> exists v, sum_pairs l c = Ok v.
Proof.
  induction l as [l IH] using (induction_ltof1 _ (@length Z)). intros c H. destruct l as [|x [|y l]]; [by eexists|done|].
  cbn [sum_pairs]. apply IH; [unfold ltof; cbn; lia|done].
Qed.

Lemma computeCheckSum_even l : Nat.even (length l) = true -> exists c, computeCheckSum l = Ok c /\ is_u16 c.
Proof.
  intros H. destruct (sum_pairs_even l 0 H) as [v E]. unfold computeCheckSum. rewrite E. res_simpl. eexists. split; [done|].
  pose proof (Z.mod_pos_bound (u32 (Z.shiftr v 16 + v)) 65536). unfold is_u16, u16. lia.
Qed.

(** ** The list of neighbors *)

Definition listed (rtr : bytes) (ids : list Z) : bool := existsb (fun i => bytesEqual (be32 i) rtr) ids.

Lemma lists_router_ok pre spare rtr after : forall before,
  len pre = OSPF_HELLO_MIN_SIZE -> 24 + 4 * len (before ++ after) < 65536 ->
  lists_router (length after) (4 * len before) rtr (mkSlice (pre ++ words be32 (before ++ after)) spare) = Ok (listed rtr after).
Proof.
  unfold OSPF_HELLO_MIN_SIZE. induction after as [|i after IH]; intros before Hp Hb; [done|]. cbn [lists_router length]. unfold sl_slice. cbn [sl_bytes sl_spare].
  assert (Hw : forall l, len (words be32 l) = 4 * len l) by (intros l; by apply len_words).
  pose proof (len_nonneg before). pose proof (len_nonneg after). rewrite len_app, len_cons in Hb.
  assert (E : (pre ++ words be32 (before ++ i :: after)) ++ spare = (pre ++ words be32 before) ++ be32 i ++ words be32 after ++ spare).
  { unfold words. rewrite map_app, concat_app. cbn [map concat]. by rewrite <- !app_assoc. }
  rewrite E, slice_app; [|unfold u16, OSPF_HELLO_MIN_SIZE; rewrite Z.mod_small by lia|unfold OSPF_HELLO_MIN_SIZE]; rewrite ?len_app, ?Hp, ?Hw, ?len_be32; [|lia..].
  res_simpl. cbn [listed existsb]. destruct (bytesEqual (be32 i) rtr); [done|]. cbn [orb].
  specialize (IH (before ++ [i])). rewrite <- app_assoc in IH. cbn [app] in IH. rewrite !len_app, len_single in IH.
  replace (4 * len before + 4) with (4 * (len before + 1)) by lia. apply IH; [done|]. rewrite len_cons. lia.
Qed.

(** ** Addresses *)

Lemma octet_land v k : 0 <= k -> u8 (v / 2 ^ k) = Z.land (Z.shiftr v k) 0xFF.
Proof. intros H. change 0xFF with (Z.ones 8). rewrite Z.land_ones, Z.shiftr_div_pow2 by lia. done. Qed.

Definition ip16 (v : Z) : bytes := v4InV6Prefix ++ be32 v.

Lemma ip_of_be32 v : ip_of (be32 v) = Ok (ip16 v).
Proof. done. Qed.

Lemma address_text v : IP_String (ip16 v) = convertUint32ToIPv4 v.
Proof.
  unfold convertUint32ToIPv4. rewrite <- !octet_land by lia. replace (Z.land v 0xFF) with (u8 v); [done|].
  change 0xFF with (Z.ones 8). by rewrite Z.land_ones by lia.
Qed.

Lemma nbr_key_be32 v key : nbr_key (ip16 v) key = mkNeighborConfKey (convertUint32ToIPv4 v) (IntfIdx key).
Proof. unfold nbr_key. by rewrite address_text. Qed.

Lemma convertIPv4_be32 v : is_u32 v -> convertIPv4ToUint32 (be32 v) = Ok v.
Proof. apply Uint32_word. Qed.

(** ** The packet *)

Section Packet.
Context (range : forall A : Type, list A -> list A) (Hrange : forall A (l : list A), Permutation (range A l) l).

Definition stub_options (ent : IntfConf) (s : OSPFServer) : Z :=
  match convertIPInByteToString (IfAreaId ent) with Ok area => if isStubArea area s then 0 else 2 | _ => 2 end.

(** What an interface says of itself. *)
Definition hello_of (ent : IntfConf) (s : OSPFServer) : OSPFHelloData :=
  mkOSPFHelloData (IfNetmask ent) (IfHelloInterval ent) (stub_options ent s) (IfRtrPriority ent) (IfRtrDeadInterval ent)
    (IfDRIp ent) (IfBDRIp ent).

Definition nbr_ids (ent : IntfConf) (s : OSPFServer) : list Z :=
  map (nbr_router s) (range _ (map fst (map_to_list (NeighborMap ent)))).

(** An interface that is set up to send, to at most so many neighbors as a packet has room for. *)
Record sends (ent : IntfConf) (s : OSPFServer) : Prop := {
  sd_rtr : len (RouterId s) = 4;
  sd_area : len (IfAreaId ent) = 4;
  sd_auth : is_u16 (IfAuthType ent);
  sd_key : len (IfAuthKey ent) = 8;
  sd_hello : hello_ok (hello_of ent s);
  sd_room : 44 + 4 * Z.of_nat (size (NeighborMap ent)) < 65536;
}.

Lemma len_nbr_ids ent s : len (nbr_ids ent s) = Z.of_nat (size (NeighborMap ent)).
Proof. unfold nbr_ids, len. rewrite length_map, (Permutation_length (Hrange _ _)), length_map. by rewrite length_map_to_list. Qed.

Definition ids_bytes (ent : IntfConf) (s : OSPFServer) : bytes := words be32 (nbr_ids ent s).

Lemma len_ids_bytes ent s : len (ids_bytes ent s) = 4 * Z.of_nat (size (NeighborMap ent)).
Proof. unfold ids_bytes. rewrite (len_words _ 4) by done. by rewrite len_nbr_ids. Qed.

(** The header with the sum [c] and the key [key] over the rest. *)
Definition hello_pkt (ent : IntfConf) (s : OSPFServer) (c : Z) (key : bytes) : bytes :=
  hello_header (44 + len (ids_bytes ent s)) (RouterId s) (IfAreaId ent) c (IfAuthType ent) key ++ hello_body (hello_of ent s) ++
  ids_bytes ent s.

Lemma hello_pkt_even ent s c key : sends ent s -> len key = 8 -> Nat.even (length (hello_pkt ent s c key)) = true.
Proof.
  intros [H1 H2 _ _ H3 _] Hk. pose proof (len_ids_bytes ent s) as Hw.
  assert (E : len (hello_pkt ent s c key) = 44 + 4 * Z.of_nat (size (NeighborMap ent))).
  { unfold hello_pkt. rewrite !len_app, hello_header_len, hello_body_len by done. lia. }
  unfold len in E. replace (length _) with (2 * (22 + 2 * size (NeighborMap ent)))%nat by lia. apply Nat.even_spec. by eexists.
Qed.

Lemma BuildHelloPkt_ok ent s :
  sends ent s ->
  exists c, is_u16 c /\ computeCheckSum (hello_pkt ent s 0 (zeros 8)) = Ok c /\
  BuildHelloPkt range ent s = Ok (Some (hello_pkt ent s c (IfAuthKey ent))).
Proof.
  intros Hs. destruct (computeCheckSum_even _ (hello_pkt_even ent s 0 (zeros 8) Hs eq_refl)) as (c & Ec & Hc).
  exists c. split; [done|split; [done|]]. destruct Hs as [H1 H2 Hat Hk Hh Hroom]. pose proof (len_ids_bytes ent s) as Hw.
  assert (Ea : exists area, convertIPInByteToString (IfAreaId ent) = Ok area /\ (if isStubArea area s then 0 else 2) = stub_options ent s).
  { unfold stub_options. apply len_four in H2. four (IfAreaId ent). by eexists. }
  destruct Ea as (area & Ea & Eo). unfold BuildHelloPkt. destruct (IfAreaId ent) as [|a0 ar] eqn:Ear; [discriminate|]. rewrite <- Ear in *. clear Ear a0 ar.
  rewrite Ea. res_simpl. rewrite Eo. fold (hello_of ent s).
  assert (En : concat (map (fun k => be32 (nbr_router s k)) (range _ (map fst (map_to_list (NeighborMap ent))))) = ids_bytes ent s).
  { unfold ids_bytes, nbr_ids, words. by rewrite map_map. }
  rewrite En. change (OSPF_HEADER_SIZE + OSPF_HELLO_MIN_SIZE) with 44. unfold u16 at 1. rewrite Z.mod_small by lia.
  unfold OSPF_VERSION_2, HelloType. rewrite encodeOspfHdr_ok by done. res_simpl. rewrite encodeOspfHelloData_ok by done. res_simpl.
  fold (hello_pkt ent s 0 (zeros 8)). rewrite Ec. res_simpl. unfold hello_pkt at 1. rewrite put_checksum by done. res_simpl.
  by rewrite put_key by done.
Qed.

(** An interface at the other end of the link, with the same settings. *)
Record receives (ent ent' : IntfConf) (s : OSPFServer) : Prop := {
  rc_area : IfAreaId ent' = IfAreaId ent;
  rc_auth : IfAuthType ent' = IfAuthType ent;
  rc_mask : IfNetmask ent' = IfNetmask ent;
  rc_hello : IfHelloInterval ent' = IfHelloInterval ent;
  rc_dead : IfRtrDeadInterval ent' = IfRtrDeadInterval ent;
  rc_options : IfAreaId ent = no_router -> stub_options ent s = 2;
}.

Definition hello_md (ent : IntfConf) (s : OSPFServer) (area : Z) : OspfHdrMetadata :=
  mkOspfHdrMetadata HelloType (44 + len (ids_bytes ent s)) (bytesEqual (IfAreaId ent) no_router) (RouterId s) area.

Lemma receive_hello_ok ent s pkt spare srcIP srcMAC key ent' s' ip :
  sends ent s -> BuildHelloPkt range ent s = Ok (Some pkt) -> IntfConfMap s' !! key = Some ent' -> receives ent ent' s ->
  ip_of srcIP = Ok ip ->
  exists area, Uint32 (IfAreaId ent) = Ok area /\
  receive_hello (mkSlice pkt spare) srcIP srcMAC key s' =
  ('(s', events) ← processOspfHelloNeighbor (listed (RouterId s') (nbr_ids ent s)) (hello_of ent s) srcIP (hello_md ent s area) key
                    (set_ospfNeighborIPToMAC (<[nbr_key ip key := srcMAC]> (ospfNeighborIPToMAC s')) s');
   Ok (s', events, None)).
Proof.
  intros Hs E He [R1 R2 R3 R4 R5 R6] Hip. destruct (BuildHelloPkt_ok ent s Hs) as (c & Hc & Ec & E'). rewrite E' in E. injection E as <-.
  destruct Hs as [H1 H2 Hat Hk Hh Hroom]. pose proof (len_ids_bytes ent s) as Hw.
  assert (Ea : exists area, Uint32 (IfAreaId ent) = Ok area) by (apply len_four in H2; four (IfAreaId ent); by eexists).
  destruct Ea as [area Ea]. exists area. split; [done|].
  assert (Hl : is_u16 (44 + len (ids_bytes ent s))) by (rewrite Hw; unfold is_u16; lia).
  assert (Hdr : processOspfHeader (hello_pkt ent s c (IfAuthKey ent)) key s' = Ok (inl (hello_md ent s area))).
  { unfold processOspfHeader. assert (Hlen : (len (hello_pkt ent s c (IfAuthKey ent)) <? OSPF_HEADER_SIZE) = false).
    { unfold hello_pkt. rewrite !len_app, hello_header_len, hello_body_len by done. unfold OSPF_HEADER_SIZE. lia. }
    rewrite Hlen, He. unfold hello_pkt. rewrite decodeOspfHdr_ok by done. res_simpl. cbn [ver h_areaId authType chksum].
    rewrite R1, R2, !Z.eqb_refl. assert (Er : bytesEqual (IfAreaId ent) (IfAreaId ent) = true) by by apply bool_decide_eq_true.
    rewrite Er, andb_false_r. cbn [negb andb]. rewrite put_checksum by done. res_simpl. rewrite put_key by done. res_simpl.
    fold (hello_pkt ent s 0 (zeros 8)). rewrite Ec. res_simpl. rewrite Z.eqb_refl. cbn [negb]. by rewrite Ea. }
  unfold receive_hello. cbn [sl_bytes sl_spare]. rewrite Hdr. res_simpl. unfold hello_pkt. rewrite slice_from_app by by rewrite hello_header_len.
  res_simpl. unfold processRxHelloPkt. cbn [sl_bytes]. pose proof (len_nonneg (ids_bytes ent s)).
  rewrite (proj2 (Z.ltb_ge _ _)) by (rewrite len_app, hello_body_len by done; unfold OSPF_HELLO_MIN_SIZE; lia).
  rewrite decodeOspfHelloData_ok by done. res_simpl. unfold intf_of at 1 2 3 4 5. rewrite He. cbn [default id hello_netmask helloInterval rtrDeadInterval hello_of].
  assert (Em : bytesEqual (IfNetmask ent') (IfNetmask ent) = true) by by apply bool_decide_eq_true.
  rewrite Em, R4, R5, !Z.eqb_refl, andb_false_r. cbn [negb hello_options hello_of backbone hello_md].
  assert (Eb : bytesEqual (IfAreaId ent) no_router && (Z.land (stub_options ent s) EOption =? 0) = false).
  { unfold bytesEqual. case_bool_decide as E; [|done]. by rewrite R6. }
  rewrite Eb. assert (En : lists_router (Z.to_nat ((nbrlen (hello_md ent s area) + 3) `div` 4)) 0 (RouterId s')
    (mkSlice (hello_body (hello_of ent s) ++ ids_bytes ent s) spare) = Ok (listed (RouterId s') (nbr_ids ent s))).
  { pose proof (len_nbr_ids ent s) as Hn. replace (Z.to_nat _) with (length (nbr_ids ent s)).
    - apply (lists_router_ok _ _ _ _ []); [by apply hello_body_len|]. cbn [app]. lia.
    - unfold nbrlen, u16. cbn [md_pktlen hello_md]. unfold OSPF_HELLO_MIN_SIZE, OSPF_HEADER_SIZE. rewrite Hw, Z.mod_small by lia.
      unfold len in Hn. zlia. }
  rewrite En. res_simpl. rewrite Hip. res_simpl. done.
Qed.

(** The events the packet makes, and the wait timer it may stop. *)
Definition heard_event (ent : IntfConf) (s : OSPFServer) (src : Z) (key : IntfConfKey) (s' : OSPFServer) : list IntfEvent :=
  neighbor_event (listed (RouterId s') (nbr_ids ent s)) (hello_of ent s)
    (match Uint32 (RouterId s) with Ok v => v | _ => 0 end) src
    (NeighborMap (intf_of key s') !! mkNeighborConfKey (convertUint32ToIPv4 src) (IntfIdx key)).

(** Whether the packet shows a router that waits who the designated router is. *)
Definition shows_router (ent : IntfConf) (s : OSPFServer) (src : Z) (key : IntfConfKey) (s' : OSPFServer) : bool :=
  listed (RouterId s') (nbr_ids ent s) && (IfFSMState (intf_of key s') =? Waiting) &&
  (if bytesEqual (be32 src) (IfDRIp ent) then negb (bytesEqual (IfBDRIp ent) no_router) else bytesEqual (be32 src) (IfBDRIp ent)).

(** The state in which the neighbor machine has been told of the packet, and the address of
    its sender entered. *)
Definition told (key : IntfConfKey) (mac : bytes) (src : Z) (m : OspfMsg) (s : OSPFServer) : OSPFServer :=
  send m (set_ospfNeighborIPToMAC (<[mkNeighborConfKey (convertUint32ToIPv4 src) (IntfIdx key) := mac]> (ospfNeighborIPToMAC s)) s).

Lemma backup_seen_ok key s ent t :
  IntfConfMap s !! key = Some ent -> WaitTimer ent = Some t ->
  backup_seen key s = Ok (if t then put_intf key (set_WaitTimer (Some false) ent) s else s, if t then [BackupSeen] else []).
Proof. intros He Ht. unfold backup_seen. replace (intf_of key s) with ent by (unfold intf_of; by rewrite He). rewrite Ht. by destruct t. Qed.

(** What the neighbor machine is told: who the neighbor is, its priority, how long it may be
    silent and whether it has heard of this router. On networks and numbered links it goes by
    the address of the packet, on others by its identifier. *)
Definition by_address (ent : IntfConf) : bool :=
  (IfType ent =? Broadcast) || (IfType ent =? Nbma) || (IfType ent =? PointToMultipoint) || (IfType ent =? NumberedP2P).

Lemma hello_heard ent s pkt spare mac key ent' s' src t :
  sends ent s -> BuildHelloPkt range ent s = Ok (Some pkt) -> IntfConfMap s' !! key = Some ent' -> receives ent ent' s ->
  WaitTimer ent' = Some t -> is_u32 src ->
  exists m, (exists id who, Uint32 (RouterId s) = Ok id /\ ip_of (if by_address ent' then be32 src else RouterId s) = Ok who /\
    m = NeighborHello key id (IfRtrPriority ent) who (IfRtrDeadInterval ent' * 1000000000) (listed (RouterId s') (nbr_ids ent s))) /\
  let s1 := told key mac src m s' in
  let seen := shows_router ent s src key s' in
  receive_hello (mkSlice pkt spare) (be32 src) mac key s' =
  Ok (if seen && t then put_intf key (set_WaitTimer (Some false) ent') s1 else s1,
      heard_event ent s src key s' ++ (if seen && t then [BackupSeen] else []), None).
Proof.
  intros Hs Hp He Hr Ht Hsrc. destruct (receive_hello_ok ent s pkt spare (be32 src) mac key ent' s' _ Hs Hp He Hr (ip_of_be32 src)) as (area & Ea & ->).
  rewrite nbr_key_be32. assert (Hrtr : exists id ip, Uint32 (RouterId s) = Ok id /\ convertIPv4ToUint32 (RouterId s) = Ok id /\ ip_of (RouterId s) = Ok ip).
  { destruct Hs as [H _ _ _ _ _]. apply len_four in H. four (RouterId s). by eexists _, _. }
  destruct Hrtr as (id & ip & Hid & Hid' & Hip). unfold processOspfHelloNeighbor. cbn [md_routerId hello_md]. rewrite Hid'. res_simpl.
  rewrite convertIPv4_be32 by done. res_simpl. rewrite ip_of_be32. res_simpl. rewrite nbr_key_be32.
  set (s0 := set_ospfNeighborIPToMAC _ s'). assert (Hi : intf_of key s0 = intf_of key s') by done. rewrite Hi.
  assert (Hi' : intf_of key s' = ent') by (unfold intf_of; by rewrite He).
  assert (Hc : forall d tw p, exists who, ip_of (if by_address ent' then be32 src else RouterId s) = Ok who /\
    CreateAndSendHelloRecvdMsg id (be32 src) (hello_md ent s area) d (IfType (intf_of key s')) tw p key s0 = Ok (send (NeighborHello key id p who d tw) s0)).
  { rewrite Hi'. intros d tw p. unfold CreateAndSendHelloRecvdMsg, by_address. cbn [md_routerId hello_md].
    destruct (_ || _); [rewrite ip_of_be32|rewrite Hip]; res_simpl; by eexists. }
  edestruct Hc as (who & Hwho & ->). set (m := NeighborHello _ _ _ who _ _).
  exists m. split; [exists id, who; unfold m; rewrite Hi'; by split_and!|]. res_simpl. change (send m s0) with (told key mac src m s'). set (s1 := told key mac src m s').
  assert (Hb : backup_seen key s1 = Ok (if t then put_intf key (set_WaitTimer (Some false) ent') s1 else s1, if t then [BackupSeen] else []))
    by by apply backup_seen_ok.
  assert (Hev : heard_event ent s src key s' = neighbor_event (listed (RouterId s') (nbr_ids ent s)) (hello_of ent s) id src
    (NeighborMap (intf_of key s') !! mkNeighborConfKey (convertUint32ToIPv4 src) (IntfIdx key))) by (unfold heard_event; by rewrite Hid).
  rewrite <- Hev. unfold shows_router. cbn [designatedRtr backupDesignatedRtr hello_of].
  destruct (listed _ _ && _); cbn [andb]; [|by rewrite app_nil_r].
  destruct (bytesEqual (be32 src) (IfDRIp ent)); [destruct (bytesEqual (IfBDRIp ent) no_router)|destruct (bytesEqual (be32 src) (IfBDRIp ent))];
    cbn [andb negb]; rewrite ?app_nil_r; try done; rewrite Hb; res_simpl; by destruct t.
Qed.
End Packet.
