(* ===== verification/OspfElection.v ===== *)
(** * OSPF: elections on one network

    Several routers on one network elect again and again, each with what it has heard of the
    others; what the elections come to. *)

From S2P Require Import Prelude.
From S2P Require Import OspfUtil.
From S2P Require Import OspfLsa.
From S2P Require Import OspfServer.
From S2P Require Import OspfRouteSpec.
From S2P Require Import OspfIntf.
From S2P Require Import OspfIntfSpec.

#[export] Instance Member_eq_dec : EqDecision Member.
Proof. solve_decision. Defined.

(** ** Rounds of the reference *)

Definition above (a b : Member) : Prop := m_prio b < m_prio a \/ m_prio a = m_prio b /\ m_id b < m_id a.

(** [x] comes first among [ps]. *)
Definition first_of (ps : list Member) (x : Member) : Prop := x ∈ ps /\ forall p, p ∈ ps -> p <> x -> above x p.

Definition without (x : Member) (ps : list Member) : list Member := List.filter (fun p => negb (bool_decide (p = x))) ps.

Lemma elem_of_without x p ps : p ∈ without x ps <-> p ∈ ps /\ p <> x.
Proof. unfold without. rewrite !list_elem_of_In, filter_In, negb_true_iff, bool_decide_eq_false. done. Qed.

(** The routers of the network: distinct, with addresses. *)
Record network_ok (ms : list Member) : Prop := {
  nw_ids : NoDup (map m_id ms);
  nw_addrs : NoDup (map m_addr ms);
  nw_range : forall m, m ∈ ms -> m_addr m <> 0 /\ is_u32 (m_addr m) /\ is_u32 (m_id m) /\ 0 <= m_prio m;
}.

Definition playing (ms : list Member) : list Member := List.filter takes_part ms.

Lemma elem_of_playing m ms : m ∈ playing ms <-> m ∈ ms /\ takes_part m = true.
Proof. unfold playing. by rewrite !list_elem_of_In, filter_In. Qed.

Lemma NoDup_map_inj {A B} (f : A -> B) l x y : NoDup (map f l) -> x ∈ l -> y ∈ l -> f x = f y -> x = y.
Proof.
  induction l as [|z l IH]; cbn; [by intros _ ?%not_elem_of_nil|]. rewrite NoDup_cons, !elem_of_cons. intros [Hz H].
  intros [->|Hx] [->|Hy] E; [done|exfalso..|by apply IH]; apply Hz; [rewrite E|rewrite <- E]; by apply list_elem_of_fmap_2.
Qed.

Lemma NoDup_map_filter {A B} (f : A -> B) g l : NoDup (map f l) -> NoDup (map f (List.filter g l)).
Proof.
  induction l as [|x l IH]; [done|]. cbn. rewrite NoDup_cons. intros [Hx H]. destruct (g x); [|by apply IH].
  cbn. rewrite NoDup_cons. split; [|by apply IH]. intros (y & E & Hy)%list_elem_of_fmap. apply Hx. rewrite E.
  apply list_elem_of_fmap_2. apply list_elem_of_In, filter_In in Hy as [Hy _]. by apply list_elem_of_In.
Qed.

Section Rounds.
Context (ms : list Member) (Hms : network_ok ms).

Lemma addr_inj a b : a ∈ ms -> b ∈ ms -> m_addr a = m_addr b -> a = b.
Proof. by apply NoDup_map_inj, Hms. Qed.

Lemma same_addr a b : a ∈ ms -> b ∈ ms -> (m_addr a =? m_addr b) = bool_decide (a = b).
Proof.
  intros Ha Hb. destruct (Z.eqb_spec (m_addr a) (m_addr b)) as [E|E]; [by rewrite bool_decide_eq_true_2 by by apply addr_inj|].
  rewrite bool_decide_eq_false_2; [done|]. by intros ->.
Qed.

(** The view of a router when each router [m] declares [decl m]. *)
Definition seen (decl : Member -> Z * Z) : list Router := map (fun m => as_router m (decl m)) (playing ms).

Lemma seen_ranks decl : ranks_differ (seen decl).
Proof.
  unfold ranks_differ, seen. rewrite map_map. cbn. apply (NoDup_map_filter m_id). apply Hms.
Qed.

Lemma elem_of_seen decl r : r ∈ seen decl <-> exists m, r = as_router m (decl m) /\ m ∈ playing ms.
Proof. unfold seen. by rewrite list_elem_of_fmap. Qed.

(** The first of the routers that satisfy [f]. *)
Lemma top_seen decl (f : Router -> bool) ps x :
  (forall m, m ∈ playing ms -> f (as_router m (decl m)) = true <-> m ∈ ps) -> x ∈ playing ms -> first_of ps x ->
  top (List.filter f (seen decl)) = Some (as_router x (decl x)).
Proof.
  intros Hf Hx [Hp Hm]. apply top_is; [apply ranks_filter, seen_ranks| |].
  - apply list_elem_of_In, filter_In. rewrite <- list_elem_of_In, elem_of_seen. split; [by exists x|]. by apply Hf.
  - intros r Hr Hne. apply list_elem_of_In, filter_In in Hr as [Hr Hfr]. apply list_elem_of_In, elem_of_seen in Hr as (m & -> & Hpm).
    apply Hf in Hfr; [|done]. assert (Hmx : m <> x) by by intros ->. specialize (Hm m Hfr Hmx).
    unfold above in Hm. unfold higher. cbn. rewrite orb_true_iff, andb_true_iff. lia.
Qed.

Lemma top_seen_none decl (f : Router -> bool) :
  (forall m, m ∈ playing ms -> f (as_router m (decl m)) = false) -> top (List.filter f (seen decl)) = None.
Proof.
  intros Hf. apply top_none. destruct (List.filter f (seen decl)) as [|r l] eqn:E; [done|].
  assert (H : r ∈ List.filter f (seen decl)) by (rewrite E; by left). apply list_elem_of_In, filter_In in H as [H Hr].
  apply list_elem_of_In, elem_of_seen in H as (m & -> & Hm). by rewrite Hf in Hr.
Qed.

Lemma filter_filter {A} (f g : A -> bool) l : List.filter f (List.filter g l) = List.filter (fun x => g x && f x) l.
Proof. induction l as [|x l IH]; [done|]. cbn. destruct (g x); cbn; [by destruct (f x); rewrite IH|done]. Qed.

(** Nobody lists itself. *)
Lemma once_none decl x :
  (forall m, m ∈ playing ms -> (m_addr m =? (decl m).1) = false /\ (m_addr m =? (decl m).2) = false) ->
  first_of (playing ms) x ->
  rfc_dr (seen decl) = Some (as_router x (decl x)) /\ rfc_bdr (seen decl) = Some (as_router x (decl x)).
Proof.
  intros Hd Hx. assert (Hp : x ∈ playing ms) by apply Hx.
  assert (Hb : rfc_bdr (seen decl) = Some (as_router x (decl x))).
  { unfold rfc_bdr. rewrite filter_filter, top_seen_none.
    - apply (top_seen decl _ (playing ms)); [|done..]. intros m Hm. cbn. destruct (Hd m Hm) as [-> _]. done.
    - intros m Hm. cbn. destruct (Hd m Hm) as [_ ->]. by rewrite andb_false_r. }
  split; [|done]. unfold rfc_dr. rewrite top_seen_none; [done|]. intros m Hm. cbn. by destruct (Hd m Hm) as [-> _].
Qed.

(** Nobody lists itself as designated router, and only [y] as backup. *)
Lemma once_backup decl y :
  y ∈ playing ms ->
  (forall m, m ∈ playing ms -> (m_addr m =? (decl m).1) = false /\ (m_addr m =? (decl m).2) = bool_decide (m = y)) ->
  rfc_dr (seen decl) = Some (as_router y (decl y)) /\ rfc_bdr (seen decl) = Some (as_router y (decl y)).
Proof.
  intros Hy Hd. assert (Hb : rfc_bdr (seen decl) = Some (as_router y (decl y))).
  { unfold rfc_bdr. rewrite filter_filter, (top_seen decl _ [y] y); [done| |done|].
    - intros m Hm. cbn. destruct (Hd m Hm) as [-> ->]. cbn [negb andb]. by rewrite list_elem_of_singleton, bool_decide_eq_true.
    - split; [by left|]. by intros p ->%list_elem_of_singleton. }
  split; [|done]. unfold rfc_dr. rewrite top_seen_none; [done|]. intros m Hm. cbn. by destruct (Hd m Hm) as [-> _].
Qed.

(** Only [x] lists itself as designated router, and of the others [y] as backup, or none does
    and [y] comes first. *)
Lemma once_one decl x y :
  x ∈ playing ms -> y ∈ playing ms -> y <> x ->
  (forall m, m ∈ playing ms -> (m_addr m =? (decl m).1) = bool_decide (m = x)) ->
  (forall m, m ∈ playing ms -> m <> x -> (m_addr m =? (decl m).2) = bool_decide (m = y)) \/
  (forall m, m ∈ playing ms -> m <> x -> (m_addr m =? (decl m).2) = false) /\ first_of (without x (playing ms)) y ->
  rfc_dr (seen decl) = Some (as_router x (decl x)) /\ rfc_bdr (seen decl) = Some (as_router y (decl y)).
Proof.
  intros Hx Hy Hne Hd Hb. assert (Hone : forall z, first_of [z] z).
  { intros z. split; [by left|]. by intros p ->%list_elem_of_singleton. }
  split.
  - unfold rfc_dr. rewrite (top_seen decl r_dr [x] x); [done| |done|apply Hone]. intros m Hm. cbn.
    by rewrite Hd, bool_decide_eq_true, list_elem_of_singleton.
  - unfold rfc_bdr. rewrite filter_filter. destruct Hb as [Hb|[Hb Hf]].
    + rewrite (top_seen decl _ [y] y); [done| |done|apply Hone]. intros m Hm. cbn. rewrite Hd, andb_true_iff, negb_true_iff, list_elem_of_singleton by done.
      rewrite bool_decide_eq_false. split; [intros [Hmx E]; by rewrite Hb, bool_decide_eq_true in E|]. intros ->. split; [done|].
      by rewrite Hb, bool_decide_eq_true.
    + rewrite top_seen_none.
      * apply (top_seen decl _ (without x (playing ms))); [|done..]. intros m Hm. cbn. rewrite Hd, negb_true_iff, bool_decide_eq_false, elem_of_without by done.
        tauto.
      * intros m Hm. cbn. rewrite Hd by done. destruct (decide (m = x)) as [->|Hmx]; [by rewrite bool_decide_eq_true_2|].
        rewrite Hb by done. apply andb_false_r.
Qed.

(** What [me] has heard of the others, which declare [decl]. *)
Definition heard_all (decl : Member -> Z * Z) (me : Member) (l : list Router) : Prop :=
  l ≡ₚ map (fun m => as_router m (decl m)) (without me (playing ms)).

Definition but (me : Member) (d : Z * Z) (decl : Member -> Z * Z) (m : Member) : Z * Z := if bool_decide (m = me) then d else decl m.

Lemma but_same me d decl : but me d decl me = d.
Proof. unfold but. by rewrite bool_decide_eq_true_2. Qed.

Lemma but_other me d decl m : m <> me -> but me d decl m = decl m.
Proof. intros H. unfold but. by rewrite bool_decide_eq_false_2. Qed.

Lemma ms_NoDup : NoDup ms.
Proof. apply (NoDup_fmap_1 m_id), Hms. Qed.

Lemma playing_ms m : m ∈ playing ms -> m ∈ ms.
Proof. by intros [H _]%elem_of_playing. Qed.

Lemma view_perm decl me l d : me ∈ ms -> heard_all decl me l -> view l me d ≡ₚ seen (but me d decl).
Proof.
  intros Hme Hl. unfold view, seen. rewrite Hl.
  assert (E : map (fun m => as_router m (decl m)) (without me (playing ms)) = map (fun m => as_router m (but me d decl m)) (without me (playing ms))).
  { apply map_ext_in. intros m Hm. rewrite but_other; [done|]. apply list_elem_of_In, elem_of_without in Hm. apply Hm. }
  rewrite E. transitivity (map (fun m => as_router m (but me d decl m)) (without me (playing ms) ++ (if takes_part me then [me] else []))).
  { rewrite map_app. destruct (takes_part me); [|done]. cbn. by rewrite but_same. }
  apply Permutation_map. apply NoDup_Permutation.
  - apply NoDup_app. split; [apply NoDup_ListNoDup, List.NoDup_filter, List.NoDup_filter, NoDup_ListNoDup, ms_NoDup|]. split.
    + intros x Hx Hi. apply elem_of_without in Hx as [_ Hx]. destruct (takes_part me); [by apply list_elem_of_singleton in Hi|by apply not_elem_of_nil in Hi].
    + destruct (takes_part me); [apply NoDup_singleton|constructor].
  - apply NoDup_ListNoDup, List.NoDup_filter, NoDup_ListNoDup, ms_NoDup.
  - intros x. rewrite elem_of_app, elem_of_without. destruct (takes_part me) eqn:E'; [rewrite list_elem_of_singleton|rewrite elem_of_nil].
    + destruct (decide (x = me)) as [->|Hne]; [|tauto]. rewrite elem_of_playing. tauto.
    + rewrite !elem_of_playing. split; [tauto|]. intros H. left. split; [done|]. intros ->. destruct H as [_ H]. congruence.
Qed.

Lemma once_seen decl me l d :
  me ∈ ms -> heard_all decl me l ->
  rfc_once l me d = (rfc_dr (seen (but me d decl)), rfc_bdr (seen (but me d decl))).
Proof.
  intros Hme Hl. unfold rfc_once. pose proof (view_perm decl me l d Hme Hl) as P. assert (H : ranks_differ (view l me d)).
  { eapply ranks_perm; [symmetry; exact P|apply seen_ranks]. }
  by rewrite (rfc_dr_perm _ _ P H), (rfc_bdr_perm _ _ P H).
Qed.

Context (x y : Member) (Hx : x ∈ playing ms) (Hy : y ∈ playing ms) (Hyx : y <> x).

Lemma playing_addr m : m ∈ playing ms -> m_addr m <> 0.
Proof. intros H. by apply (nw_range _ Hms), playing_ms. Qed.

(** The state in the end. *)
Definition final_role (m : Member) : Z :=
  if bool_decide (m = x) then DesignatedRouter else if bool_decide (m = y) then BackupDesignatedRouter else OtherDesignatedRouter.

Lemma role_of me dr bdr : me ∈ ms -> addr_of dr = m_addr x -> addr_of bdr = m_addr y -> role me dr bdr = final_role me.
Proof.
  intros Hme Hd Hb. unfold role, final_role. rewrite Hd, Hb, !same_addr by (done || by apply playing_ms).
  rewrite (bool_decide_ext (x = me) (me = x)), (bool_decide_ext (y = me) (me = y)) by (split; by intros ->). done.
Qed.

(** From then on, whatever the states are: one router lists itself as designated router, and
    another as its backup, or none does and that one comes first. *)
Definition led (decl : Member -> Z * Z) : Prop :=
  (forall m, m ∈ playing ms -> (m_addr m =? (decl m).1) = bool_decide (m = x)) /\
  ((forall m, m ∈ playing ms -> m <> x -> (m_addr m =? (decl m).2) = bool_decide (m = y)) \/
   (forall m, m ∈ playing ms -> m <> x -> (m_addr m =? (decl m).2) = false) /\ first_of (without x (playing ms)) y).

Lemma led_but decl me : led decl -> me ∈ ms -> led (but me (m_addr x, m_addr y) decl).
Proof.
  intros [Hd Hb] Hme. split.
  - intros m Hm. unfold but. case_bool_decide as E; [subst; cbn; apply same_addr; [done|by apply playing_ms..]|by apply Hd].
  - assert (own : forall m, m ∈ playing ms -> m = me -> (m_addr m =? m_addr y) = bool_decide (m = y)).
    { intros m Hm _. by apply same_addr; apply playing_ms. }
    assert (spread : forall b : Member -> bool, (forall m, m ∈ playing ms -> m <> x -> m <> me -> (m_addr m =? (decl m).2) = b m) ->
      (forall m, m ∈ playing ms -> m = me -> m <> x -> bool_decide (m = y) = b m) ->
      forall m, m ∈ playing ms -> m <> x -> (m_addr m =? (but me (m_addr x, m_addr y) decl m).2) = b m).
    { intros b H1 H2 m Hm Hmx. unfold but. case_bool_decide as E; [cbn; by rewrite own, H2|by apply H1]. }
    destruct Hb as [Hb|[Hb Hf]]; [left; apply spread; [intros; by apply Hb|done]|]. destruct (decide (me = y)) as [->|Hne].
    + left. apply spread; [|done]. intros m Hm Hmx Hmy. rewrite Hb by done. by rewrite bool_decide_eq_false_2.
    + right. split; [|done]. apply spread; [intros; by apply Hb|]. intros m _ -> _. by rewrite bool_decide_eq_false_2.
Qed.

Lemma led_once decl : led decl -> rfc_dr (seen decl) = Some (as_router x (decl x)) /\ rfc_bdr (seen decl) = Some (as_router y (decl y)).
Proof. intros [Hd Hb]. by apply once_one. Qed.

Lemma led_ext decl decl' : (forall m, decl m = decl' m) -> led decl -> led decl'.
Proof. intros E [Hd Hb]. split; [|destruct Hb as [Hb|[Hb ?]]; [left|right; split; [|done]]]; intros m; rewrite <- E; [apply Hd|apply Hb..]. Qed.

Lemma round_led decl me l old :
  led decl -> me ∈ ms -> heard_all decl me l ->
  let '(dr, bdr) := rfc_election l me (decl me) old in
  (addr_of dr, addr_of bdr) = (m_addr x, m_addr y) /\ role me dr bdr = final_role me.
Proof.
  intros L Hme Hl. unfold rfc_election. rewrite (once_seen _ _ _ _ Hme Hl).
  destruct (led_once (but me (decl me) decl)) as [-> ->].
  { eapply led_ext; [|exact L]. intros m. unfold but. by case_bool_decide as E; [rewrite E|]. }
  destruct (repeats _ _); [|split; [done|by apply role_of]]. cbn [addr_of as_router r_addr]. rewrite (once_seen _ _ _ _ Hme Hl).
  destruct (led_once (but me (m_addr x, m_addr y) decl)) as [-> ->]; [by apply led_but|]. split; [done|by apply role_of].
Qed.

(** ** What is declared while the routers come to agree *)

Definition agreed : Z * Z := (m_addr x, m_addr y).

(** Nothing yet; both; the first alone, as the others see it before it has named its backup;
    or the second alone, as the others see it before they have heard of the first. *)
Definition allowed (m : Member) (h : Z * Z) : Prop :=
  h = (0, 0) \/ h = agreed \/ m <> x /\ h = (m_addr x, m_addr x) \/ m <> x /\ m <> y /\ h = (m_addr y, m_addr y).

Lemma agreed_set : agreed <> (0, 0).
Proof. intros [= E _]. by apply (playing_addr x). Qed.

Lemma addr_neq a b : a ∈ ms -> b ∈ ms -> a <> b -> (m_addr a =? m_addr b) = false.
Proof. intros Ha Hb Hab. by rewrite same_addr, bool_decide_eq_false_2. Qed.

Lemma addr_y_x : m_addr y <> m_addr x.
Proof. apply Z.eqb_neq, addr_neq; [by apply playing_ms..|done]. Qed.

Lemma allowed_flags m h :
  m ∈ playing ms -> allowed m h ->
  (m_addr m =? h.1) = bool_decide (m = x /\ h = agreed) /\ (m_addr m =? h.2) = bool_decide (m = y /\ h = agreed).
Proof.
  intros Hm Ha. pose proof (playing_addr m Hm) as H0. pose proof (playing_ms _ Hm) as Hm'. pose proof agreed_set as H1.
  pose proof addr_y_x as H2. assert (H3 : forall p, (p, p) <> agreed) by (unfold agreed; intros p; congruence).
  assert (own : forall z, z ∈ playing ms -> (m_addr m =? m_addr z) = bool_decide (m = z)) by (intros z Hz; by apply same_addr, playing_ms).
  destruct Ha as [->|[->|[[Hx' ->]|(Hx' & Hy' & ->)]]]; cbn [fst snd].
  - rewrite !bool_decide_eq_false_2 by (intros [_ E]; by apply (not_eq_sym H1)). lia.
  - change agreed.1 with (m_addr x). change agreed.2 with (m_addr y). rewrite !own by done. split; apply bool_decide_ext; tauto.
  - rewrite !own, !(bool_decide_eq_false_2 (_ /\ _)) by (done || by intros [_ E%H3]). by rewrite bool_decide_eq_false_2.
  - rewrite !own, !(bool_decide_eq_false_2 (_ /\ _)) by (done || by intros [_ E%H3]). by rewrite bool_decide_eq_false_2.
Qed.

Section Votes.
Context (Fx : first_of (playing ms) x) (Fy : first_of (without x (playing ms)) y).

Lemma votes_led v : (forall m, m ∈ playing ms -> allowed m (v m)) -> v x = agreed -> led v.
Proof.
  intros Ha E. split.
  - intros m Hm. destruct (allowed_flags m (v m)) as [-> _]; [by auto..|]. apply bool_decide_ext. split; [tauto|by intros ->].
  - destruct (decide (v y = agreed)) as [Ey|Ey]; [left|right; split; [|done]]; intros m Hm _;
      (destruct (allowed_flags m (v m)) as [_ ->]; [by auto..|]).
    + apply bool_decide_ext. split; [tauto|by intros ->].
    + apply bool_decide_eq_false. by intros [-> ?].
Qed.

Lemma votes_apart v :
  (forall m, m ∈ playing ms -> allowed m (v m)) -> v x <> agreed ->
  let z := if bool_decide (v y = agreed) then y else x in
  rfc_dr (seen v) = Some (as_router z (v z)) /\ rfc_bdr (seen v) = Some (as_router z (v z)).
Proof.
  intros Ha E. case_bool_decide as Ey; cbn zeta.
  - apply once_backup; [done|]. intros m Hm. destruct (allowed_flags m (v m)) as [-> ->]; [by auto..|]. split.
    + apply bool_decide_eq_false. by intros [-> ?].
    + apply bool_decide_ext. split; [tauto|by intros ->].
  - apply once_none; [|done]. intros m Hm. destruct (allowed_flags m (v m)) as [-> ->]; [by auto..|].
    split; apply bool_decide_eq_false; by intros [-> ?].
Qed.

Context (b : Member) (Hb : b ∈ ms) (l : list Router) (h : Member -> Z * Z) (Hl : heard_all h b l).
Context (Hh : forall a, a ∈ playing ms -> a <> b -> allowed a (h a)).

Lemma but_allowed d m : allowed b d -> m ∈ playing ms -> allowed m (but b d h m).
Proof. intros Hd Hm. unfold but. case_bool_decide; [by subst|by apply Hh]. Qed.

(** A router that has heard of the first, and the first itself, agree with it. *)
Lemma election_led d old :
  allowed b d -> b = x /\ (d = agreed \/ d = (0, 0) /\ old = Waiting /\ h y <> agreed) \/ b <> x /\ h x = agreed ->
  let '(dr, bdr) := rfc_election l b d old in (addr_of dr, addr_of bdr) = agreed /\ role b dr bdr = final_role b.
Proof.
  intros Hd Hc. assert (Hl' : heard_all (but b d h) b l).
  { unfold heard_all in *. rewrite Hl. apply reflexive_eq, map_ext_in. intros m Hm. rewrite but_other; [done|].
    apply list_elem_of_In, elem_of_without in Hm. apply Hm. }
  assert (Hbut : forall d m, allowed b d -> m ∈ playing ms -> allowed m (but b d h m)) by exact but_allowed.
  assert (Hother : forall m, m ∈ playing ms -> m <> b -> allowed m (h m)) by exact Hh.
  destruct Hc as [[-> [E|(E & -> & Ey)]]|[Hne E]].
  - pose proof (round_led (but x d h) x l old) as R. rewrite but_same in R. apply R; [|done..]. apply votes_led; [|by rewrite but_same].
    intros m Hm. by apply Hbut.
  - unfold rfc_election. rewrite (once_seen _ _ _ _ Hb Hl). destruct (votes_apart (but x d h)) as [-> ->];
      [intros m Hm; by apply Hbut|rewrite but_same, E; apply not_eq_sym, agreed_set|].
    rewrite but_other, bool_decide_eq_false_2 by done. rewrite but_same.
    assert (R : repeats Waiting (role x (Some (as_router x d)) (Some (as_router x d))) = true) by (unfold role; cbn; by rewrite Z.eqb_refl).
    rewrite R. cbn [addr_of as_router r_addr]. rewrite (once_seen _ _ _ _ Hb Hl).
    destruct (led_once (but x (m_addr x, m_addr x) h)) as [-> ->]; [|split; [done|by apply role_of]]. split.
    + intros m Hm. unfold but. case_bool_decide as Em; [subst; cbn; by rewrite Z.eqb_refl|].
      destruct (allowed_flags m (h m)) as [-> _]; [by auto..|]. apply bool_decide_eq_false. by intros [-> _].
    + right. split; [|done]. intros m Hm Hmx. rewrite but_other by done. destruct (allowed_flags m (h m)) as [_ ->]; [by auto..|].
      apply bool_decide_eq_false. by intros [-> ?].
  - pose proof (round_led (but b d h) b l old) as R. rewrite but_same in R. apply R; [|done..]. apply votes_led; [|by rewrite but_other by auto].
    intros m Hm. by apply Hbut.
Qed.

(** Before that it may take the second for the first, but never itself. *)
Lemma election_apart d old :
  allowed b d -> b <> x -> h x <> agreed -> (b = y -> d <> agreed) ->
  let '(dr, bdr) := rfc_election l b d old in
  exists p, (addr_of dr, addr_of bdr) = (m_addr p, m_addr p) /\ (p = x \/ p = y /\ b <> y) /\ role b dr bdr = OtherDesignatedRouter.
Proof.
  intros Hd Hne Ex Ey. set (p := if bool_decide (but b d h y = agreed) then y else x).
  assert (Hp : (p = x \/ p = y /\ b <> y) /\ p ∈ ms /\ p <> b).
  { unfold p. case_bool_decide as E; [|split; [by left|split; [by apply playing_ms|done]]].
    assert (b <> y). { intros ->. rewrite but_same in E. by apply Ey. }
    split; [by right|split; [by apply playing_ms|done]]. }
  destruct Hp as (Hp & Hpm & Hpb).
  assert (votes : forall d', allowed b d' -> (b = y -> d' <> agreed) -> exists r, rfc_once l b d' = (Some r, Some r) /\ r_addr r = m_addr p).
  { intros d' Hd' Hy'. rewrite (once_seen _ _ _ _ Hb Hl). destruct (votes_apart (but b d' h)) as [-> ->];
      [intros m Hm; by apply but_allowed|by rewrite but_other by auto|]. eexists. split; [done|]. cbn. f_equal. unfold p.
    destruct (decide (b = y)) as [E|E]; [|by rewrite !but_other by auto].
    rewrite E, !but_same, !bool_decide_eq_false_2 by auto. done. }
  assert (others : forall r, r_addr r = m_addr p -> role b (Some r) (Some r) = OtherDesignatedRouter).
  { intros r E. unfold role. cbn. rewrite E. by rewrite addr_neq. }
  unfold rfc_election. destruct (votes d) as (r & -> & E); [done..|]. destruct (repeats _ _).
  - cbn [addr_of]. destruct (votes (r_addr r, r_addr r)) as (r' & -> & E').
    + rewrite E. unfold allowed. destruct Hp as [->|[-> ?]]; tauto.
    + rewrite E. intros _ [= E1 E2]. by apply addr_y_x; congruence.
    + exists p. cbn. rewrite E'. by auto.
  - exists p. cbn. rewrite E. by auto.
Qed.
End Votes.
End Rounds.
