(* ===== verification/OspfLan.v ===== *)
(** * OSPF: the routers of a network

    Routers on one network send each other their Hello packets and elect, in any order; the
    packets are those of BuildHelloPkt and go through the receiver and the interface machine. *)

From S2P Require Import Prelude.
From S2P Require Import OspfUtil.
From S2P Require Import OspfLsa.
From S2P Require Import OspfServer.
From S2P Require Import OspfRoute.
From S2P Require Import OspfRouteSpec.
From S2P Require Import OspfIntf.
From S2P Require Import OspfIntfSpec.
From S2P Require Import OspfHello.
From S2P Require Import OspfElection.

#[local] Arguments convertUint32ToIPv4 : simpl never.
#[local] Arguments be32 : simpl never.

(** What all interfaces on the network are set to. *)
Record Settings := mkSettings { g_area : bytes; g_mask : bytes; g_hello : Z; g_dead : Z; g_auth : Z }.

Record settings_ok (g : Settings) : Prop := {
  so_area : len (g_area g) = 4;
  so_mask : len (g_mask g) = 4;
  so_hello : is_u16 (g_hello g);
  so_dead : is_u32 (g_dead g);
  so_auth : is_u16 (g_auth g);
}.

Record equipped (g : Settings) (ent : IntfConf) (s : OSPFServer) : Prop := {
  eq_area : IfAreaId ent = g_area g;
  eq_mask : IfNetmask ent = g_mask g;
  eq_hello : IfHelloInterval ent = g_hello g;
  eq_dead : IfRtrDeadInterval ent = g_dead g;
  eq_auth : IfAuthType ent = g_auth g;
  eq_key : len (IfAuthKey ent) = 8;
  eq_stub : g_area g = no_router -> stub_options ent s = 2;
}.

Section Lan.
Context (range : forall A : Type, list A -> list A) (ms : list Member) (port : Member -> IntfConfKey) (g : Settings).

(** ** The network *)

Abbreviation Lan := (Member -> OSPFServer).

Definition put_station (b : Member) (s : OSPFServer) (lan : Lan) : Lan := fun m => if bool_decide (m = b) then s else lan m.

Inductive Move :=
| Expire (b : Member)
| Hello (a b : Member).

(** The wait timer runs out, if it runs; or [a] sends its Hello and [b] takes it, with all that
    comes of it. *)
Definition step (mv : Move) (lan : Lan) : res Lan :=
  match mv with
  | Expire b =>
    match WaitTimer (intf_of (port b) (lan b)) with
    | Some true => s ← broadcast_step range (port b) WaitTimerExpired (lan b); Ok (put_station b s lan)
    | _ => Ok lan
    end
  | Hello a b =>
    let ent := intf_of (port a) (lan a) in
    pkt ← BuildHelloPkt range ent (lan a);
    match pkt with
    | None => Ok lan
    | Some pkt =>
      '(s, events, _) ← receive_hello (mkSlice pkt []) (To4 (IfIpAddr ent)) [] (port b) (lan b);
      s ← turns (fun s ev => broadcast_step range (port b) ev s) events s;
      Ok (put_station b s lan)
    end
  end.

Definition run (l : list Move) (lan : Lan) : res Lan := turns (fun lan mv => step mv lan) l lan.

(** ** A router on it *)

Definition nbr_of (a b : Member) : NeighborConfKey := mkNeighborConfKey (convertUint32ToIPv4 (m_addr a)) (IntfIdx (port b)).

Definition heard_as (a : Member) (h : Z * Z) : NeighborData := mkNeighborData true (m_prio a) (be32 h.1) (be32 h.2) (m_addr a) false.

(** What [b] holds when each of the others has declared [h]. *)
Definition heard_map (b : Member) (h : Member -> Z * Z) : gmap NeighborConfKey NeighborData :=
  list_to_map (map (fun a => (nbr_of a b, heard_as a (h a))) (without b ms)).

(** [b] declares [d], is in state [st], has heard [h], and its wait timer runs or not. *)
Record station (b : Member) (d : Z * Z) (st : Z) (h : Member -> Z * Z) (t : bool) (ent : IntfConf) (s : OSPFServer) : Prop := {
  sn_ent : IntfConfMap s !! port b = Some ent;
  sn_ok : intf_ok b d ent s;
  sn_state : IfFSMState ent = st;
  sn_timer : WaitTimer ent = Some t;
  sn_heard : NeighborMap ent = heard_map b h;
  sn_ids : forall a, a ∈ ms -> a <> b -> nbr_router s (nbr_of a b) = m_id a;
  sn_range : forall a, a ∈ ms -> a <> b -> is_u32 (h a).1 /\ is_u32 (h a).2;
  sn_set : equipped g ent s;
}.

Context (Hrange : forall A (l : list A), Permutation (range A l) l) (Hms : network_ok ms) (Hg : settings_ok g).
Context (Hroom : 44 + 4 * len ms < 65536).

Lemma nbr_of_inj a a' b : a ∈ ms -> a' ∈ ms -> nbr_of a b = nbr_of a' b -> a = a'.
Proof.
  intros Ha Ha' [= E]. apply (addr_inj ms Hms); [done..|]. apply address_text_inj in E; [done|..]; by apply (nw_range _ Hms).
Qed.

Lemma heard_keys b h : NoDup (map fst (map (fun a => (nbr_of a b, heard_as a (h a))) (without b ms))).
Proof.
  rewrite map_map. cbn. apply NoDup_fmap_2_strong.
  - intros x y Hx Hy. apply elem_of_without in Hx as [Hx _], Hy as [Hy _]. by apply nbr_of_inj.
  - apply NoDup_ListNoDup, List.NoDup_filter, NoDup_ListNoDup, (ms_NoDup ms Hms).
Qed.

Lemma heard_lookup b h k e :
  heard_map b h !! k = Some e <-> exists a, a ∈ ms /\ a <> b /\ k = nbr_of a b /\ e = heard_as a (h a).
Proof.
  unfold heard_map. rewrite <- elem_of_list_to_map by apply heard_keys. rewrite list_elem_of_fmap. split.
  - intros (a & [= -> ->] & [Ha Hne]%elem_of_without). by exists a.
  - intros (a & Ha & Hne & -> & ->). exists a. split; [done|]. by apply elem_of_without.
Qed.

Lemma heard_at a b h : a ∈ ms -> a <> b -> heard_map b h !! nbr_of a b = Some (heard_as a (h a)).
Proof. intros Ha Hne. apply heard_lookup. by exists a. Qed.

Lemma heard_put a b v h : a ∈ ms -> a <> b -> <[nbr_of a b := heard_as a v]> (heard_map b h) = heard_map b (but a v h).
Proof.
  intros Ha Hne. apply map_eq. intros k. apply option_eq. intros e. rewrite lookup_insert_Some, !heard_lookup. split.
  - intros [[<- <-]|(Hk & c & Hc & Hcb & -> & ->)].
    + exists a. by rewrite but_same.
    + exists c. rewrite but_other; [done|]. intros ->. by apply Hk.
  - intros (c & Hc & Hcb & -> & ->). destruct (decide (c = a)) as [->|Hca]; [left; by rewrite but_same|right].
    split; [intros E; apply nbr_of_inj in E; [by apply Hca|done..]|]. exists c. by rewrite but_other.
Qed.

Lemma heard_size b h : len (without b ms) = Z.of_nat (size (heard_map b h)).
Proof.
  unfold len. f_equal. rewrite <- length_map_to_list. unfold heard_map. rewrite (Permutation_length (map_to_list_to_map _ (heard_keys b h))).
  by rewrite length_map.
Qed.

Lemma without_le b : len (without b ms) <= len ms.
Proof. unfold without, len. pose proof (List.filter_length_le (fun p => negb (bool_decide (p = b))) ms). lia. Qed.

Lemma router_of_heard s a b h :
  nbr_router s (nbr_of a b) = m_id a -> is_u32 (h a).1 /\ is_u32 (h a).2 ->
  router_of s (nbr_of a b, heard_as a (h a)) = as_router a (h a).
Proof.
  intros Hid [H1 H2]. unfold router_of, as_router. cbn [fst snd heard_as RtrPrio NbrIP DRtr BDRtr]. rewrite Hid.
  assert (E : forall v, is_u32 v -> Uint32 (be32 v) = Ok v) by exact Uint32_word. rewrite !E by done.
  by rewrite (Z.eqb_sym (h a).1), (Z.eqb_sym (h a).2).
Qed.

(** Those who do not take part are not read by the elections. *)
Lemma heard_others b d st h t ent s : station b d st h t ent s -> heard_all ms h b (others ent s).
Proof.
  intros [Hent Hok _ _ Hh Hids Hr _]. unfold heard_all, others. rewrite <- eligible_filter, Hh. unfold heard_map.
  rewrite (filter_perm _ _ _ (map_to_list_to_map _ (heard_keys b h))). apply reflexive_eq.
  assert (Hl : forall l, (forall a, a ∈ l -> a ∈ ms) ->
    map (router_of s) (List.filter (fun e => eligible e.2) (map (fun a => (nbr_of a b, heard_as a (h a))) (without b l))) =
    map (fun m => as_router m (h m)) (without b (playing l))); [|by apply Hl].
  induction l as [|a l IH]; intros Hl; [done|]. assert (Ha : a ∈ ms) by (apply Hl; by left).
  specialize (IH (fun x Hx => Hl x (list_elem_of_further _ _ _ Hx))). unfold without, playing in *. cbn [List.filter].
  destruct (bool_decide (a = b)) eqn:Eb; cbn [negb map List.filter].
  - rewrite IH. destruct (takes_part a); cbn [List.filter]; by rewrite ?Eb.
  - replace (eligible _) with (takes_part a) by by unfold eligible, takes_part. apply bool_decide_eq_false in Eb as Hne.
    destruct (takes_part a); cbn [List.filter map]; rewrite ?Eb; cbn [negb map]; rewrite IH, ?router_of_heard; auto.
Qed.

(** ** A step at one router *)

Lemma equipped_same ent ent' s s' :
  equipped g ent s -> IfAreaId ent' = IfAreaId ent -> IfNetmask ent' = IfNetmask ent -> IfHelloInterval ent' = IfHelloInterval ent ->
  IfRtrDeadInterval ent' = IfRtrDeadInterval ent -> IfAuthType ent' = IfAuthType ent -> IfAuthKey ent' = IfAuthKey ent ->
  AreaConfMap s' = AreaConfMap s -> equipped g ent' s'.
Proof.
  intros [H1 H2 H3 H4 H5 H6 H7] E1 E2 E3 E4 E5 E6 E7. split; try congruence. unfold stub_options, isStubArea in *. by rewrite E1, E7.
Qed.

Lemma heard_ranks b d h l : b ∈ ms -> heard_all ms h b l -> ranks_differ (as_router b d :: l).
Proof.
  intros Hb Hl. unfold ranks_differ. cbn [map]. apply NoDup_cons. rewrite (Permutation_map r_id Hl), map_map. cbn [r_id as_router]. split.
  - intros (a & E & Ha)%list_elem_of_fmap. apply elem_of_without in Ha as [Ha Hne].
    apply Hne. symmetry. apply (NoDup_map_inj m_id ms); [apply (nw_ids _ Hms)|done|by apply playing_ms in Ha|done].
  - apply (NoDup_map_filter m_id), (NoDup_map_filter m_id), (nw_ids _ Hms).
Qed.

(** An election, from the point of view of the reference. *)
Lemma station_elect b d st h t ent s :
  b ∈ ms -> station b d st h t ent s ->
  exists l dr bdr ent' s', heard_all ms h b l /\ rfc_election l b d st = (dr, bdr) /\
  ElectBDRAndDR range (port b) s = Ok s' /\ station b (addr_of dr, addr_of bdr) (role b dr bdr) h t ent' s'.
Proof.
  intros Hb S. pose proof (heard_others _ _ _ _ _ _ _ S) as Hl. destruct S as [Hent Hok Hst Ht Hh Hids Hr Hset].
  assert (Ha : exists area, convertIPv4ToUint32 (IfAreaId ent) = Ok area).
  { pose proof (so_area _ Hg) as H. rewrite (eq_area _ _ _ Hset). apply len_four in H. four (g_area g). by eexists. }
  destruct Ha as [area Ha].
  assert (Hd : ranks_differ (as_router b d :: others ent s)) by by apply heard_ranks with h.
  destruct (rfc_election (others ent s) b d st) as [dr bdr] eqn:E. rewrite <- Hst in E.
  destruct (election_ok range Hrange (port b) b s ent d area) as (dr' & bdr' & ent1 & ent' & s' & E' & Hs' & L & Hent' & Hi & _ & HR & HN & HA & Ud & Ub); [done..|].
  rewrite E in E'. injection E' as <- <-. exists (others ent s), dr, bdr, ent', s'. split; [done|split; [by rewrite <- Hst|split; [done|]]].
  unfold elected in L. subst ent1 ent'. destruct Hok as [O1 O2 O3 O4 O5 (R1 & R2 & R3 & R4 & R5) O7]. split; try done.
  - by rewrite Hi, lookup_insert_eq.
  - split; try done. by rewrite HR.
  - intros a Ha' Hne. unfold nbr_router. rewrite HN. by apply Hids.
  - by apply (equipped_same _ _ _ _ Hset).
Qed.

(** A Hello of a neighbor that is known, with other routers in it. *)
Lemma station_change a b d st h t ent s v rid :
  a ∈ ms -> b ∈ ms -> a <> b -> station b d st h t ent s -> is_u32 v.1 -> is_u32 v.2 ->
  let m := mkNeighMsg rid (m_addr a) true (m_prio a) (be32 v.1) (be32 v.2) in
  let s1 := put_neighbor (port b) (nbr_of a b) (heard_as a v) s in
  station b d st (but a v h) t (set_NeighborMap (heard_map b (but a v h)) ent) s1 /\
  exists changed, ((m_addr a =? (h a).1) <> (m_addr a =? v.1) -> changed = true) /\
  broadcast_step range (port b) (NeighChange m) s = (if (Waiting <? st) && changed then ElectBDRAndDR range (port b) s1 else Ok s1).
Proof.
  intros Ha Hb Hne [Hent Hok Hst Ht Hh Hids Hr Hset] Hv1 Hv2 m s1. split.
  - assert (E : s1 = put_intf (port b) (set_NeighborMap (heard_map b (but a v h)) ent) s).
    { unfold s1, put_neighbor, intf_of. rewrite Hent. cbn [default id]. by rewrite Hh, heard_put. }
    rewrite E. destruct Hok as [O1 O2 O3 O4 O5 O6 O7]. split; try done.
    + cbn. by rewrite lookup_insert_eq.
    + split; try done. cbn. intros k e Hk. rewrite <- heard_put, <- Hh in Hk by done. apply lookup_insert_Some in Hk as [[<- <-]|[_ Hk]].
      * split; [by apply (nw_range _ Hms)|]. by exists v.1, v.2.
      * by apply O7 in Hk.
    + intros c Hc Hcb. unfold but. case_bool_decide; [done|by apply Hr].
    + by apply (equipped_same _ _ _ _ Hset).
  - destruct (Hr a Ha Hne) as [Hu1 Hu2]. unfold broadcast_step. rewrite Hent, Hst. unfold msg_key. cbn [msg_NbrIP m].
    fold (nbr_of a b). rewrite Hh, heard_at by done. unfold election_changes. cbn [heard_as DRtr BDRtr m msg_DRtr msg_BDRtr].
    assert (E : forall v, is_u32 v -> Uint32 (be32 v) = Ok v) by exact Uint32_word. rewrite !E by done. res_simpl.
    eexists. split; [|reflexivity]. cbn. rewrite (Z.eqb_sym v.1), (Z.eqb_sym (h a).1). intros Hd.
    destruct (m_addr a =? (h a).1), (m_addr a =? v.1); done.
Qed.
Lemma station_ext b d st h h' t ent s :
  (forall c, c ∈ ms -> c <> b -> h c = h' c) -> station b d st h t ent s -> station b d st h' t ent s.
Proof.
  intros E [Hent Hok Hst Ht Hh Hids Hr Hset]. split; try done.
  - rewrite Hh. apply map_eq. intros k. apply option_eq. intros e. rewrite !heard_lookup.
    split; intros (c & Hc & Hcb & -> & ->); exists c; by rewrite E.
  - intros c Hc Hcb. rewrite <- E by done. by apply Hr.
Qed.

Lemma station_sends b d st h t ent s : station b d st h t ent s -> sends ent s.
Proof.
  intros [Hent Hok Hst Ht Hh Hids Hr [E1 E2 E3 E4 E5 E6 E7]]. destruct Hg as [G1 G2 G3 G4 G5].
  split; rewrite ?E1, ?E5; try done.
  - by rewrite (io_id _ _ _ _ Hok).
  - split; cbn; rewrite ?E2, ?E3, ?E4, ?(io_dr _ _ _ _ Hok), ?(io_bdr _ _ _ _ Hok); done.
  - rewrite Hh, <- heard_size. pose proof (without_le b). lia.
Qed.

Lemma station_receives a b d st h t ent s d' st' h' t' ent' s' :
  station a d st h t ent s -> station b d' st' h' t' ent' s' -> receives ent ent' s.
Proof.
  intros [_ _ _ _ _ _ _ [E1 E2 E3 E4 E5 E6 E7]] [_ _ _ _ _ _ _ [F1 F2 F3 F4 F5 F6 F7]]. split; try congruence. rewrite E1. done.
Qed.

Lemma station_listed a b d st h t ent s d' st' h' t' ent' s' :
  a ∈ ms -> b ∈ ms -> a <> b -> station a d st h t ent s -> station b d' st' h' t' ent' s' ->
  listed (RouterId s') (nbr_ids range ent s) = true.
Proof.
  intros Ha Hb Hne [_ _ _ _ Hh Hids _ _] [_ Hok _ _ _ _ _ _]. unfold listed. apply existsb_exists. exists (m_id b).
  split; [|rewrite (io_id _ _ _ _ Hok); by apply bool_decide_eq_true].
  unfold nbr_ids. rewrite <- (Hids b) by auto. apply in_map. apply list_elem_of_In. rewrite (Hrange _ _), Hh.
  apply list_elem_of_fmap. exists (nbr_of b a, heard_as b (h b)). split; [done|]. apply elem_of_map_to_list, heard_at; auto.
Qed.

Lemma intf_of_station b d st h t ent s : station b d st h t ent s -> intf_of (port b) s = ent.
Proof. intros S. unfold intf_of. by rewrite (sn_ent _ _ _ _ _ _ _ S). Qed.

(** The Hello of a known neighbor is reported when it says something new. *)
Lemma heard_event_known a b d st h t ent s d' st' h' t' ent' s' :
  a ∈ ms -> b ∈ ms -> a <> b -> station a d st h t ent s -> station b d' st' h' t' ent' s' ->
  heard_event range ent s (m_addr a) (port b) s' =
  if bytesEqual (be32 (h' a).1) (be32 d.1) && bytesEqual (be32 (h' a).2) (be32 d.2) then []
  else [NeighChange (mkNeighMsg (m_id a) (m_addr a) true (m_prio a) (be32 d.1) (be32 d.2))].
Proof.
  intros Ha Hb Hne Sa Sb. unfold heard_event. rewrite (station_listed a b _ _ _ _ _ _ _ _ _ _ _ _ Ha Hb Hne Sa Sb).
  rewrite (intf_of_station _ _ _ _ _ _ _ Sb), (sn_heard _ _ _ _ _ _ _ Sb). fold (nbr_of a b). rewrite heard_at by done.
  destruct (sn_ok _ _ _ _ _ _ _ Sa) as [O1 O2 O3 O4 O5 (R1 & R2 & R3 & R4 & R5) O7].
  assert (E : forall v, is_u32 v -> Uint32 (be32 v) = Ok v) by exact Uint32_word.
  unfold neighbor_event. cbn [heard_as TwoWayStatus DRtr BDRtr RtrPrio hello_of designatedRtr backupDesignatedRtr hello_rtrPrio].
  rewrite O1, E, O3, O4, O5, Z.eqb_refl by done. cbn [Bool.eqb negb orb]. rewrite orb_false_r.
  by destruct (bytesEqual _ _), (bytesEqual _ _).
Qed.

Definition settled_by (h : Member -> Z * Z) (b : Member) (d : Z * Z) (st : Z) (d' : Z * Z) (st' : Z) : Prop :=
  exists l, heard_all ms h b l /\ let '(dr, bdr) := rfc_election l b d st in d' = (addr_of dr, addr_of bdr) /\ st' = role b dr bdr.

Lemma elect_settled b d st h t ent s :
  b ∈ ms -> station b d st h t ent s ->
  exists d' st' ent' s', settled_by h b d st d' st' /\ ElectBDRAndDR range (port b) s = Ok s' /\ station b d' st' h t ent' s'.
Proof.
  intros Hb S. destruct (station_elect b d st h t ent s Hb S) as (l & dr & bdr & ent' & s' & Hl & E & E' & S').
  exists (addr_of dr, addr_of bdr), (role b dr bdr), ent', s'. split; [exists l; split; [done|]; by rewrite E|done].
Qed.

Lemma change_events a b d st h t ent s v :
  a ∈ ms -> b ∈ ms -> a <> b -> station b d st h t ent s -> is_u32 v.1 -> is_u32 v.2 ->
  let evs := if bytesEqual (be32 (h a).1) (be32 v.1) && bytesEqual (be32 (h a).2) (be32 v.2) then []
             else [NeighChange (mkNeighMsg (m_id a) (m_addr a) true (m_prio a) (be32 v.1) (be32 v.2))] in
  exists d' st' ent' s', turns (fun s ev => broadcast_step range (port b) ev s) evs s = Ok s' /\
  station b d' st' (but a v h) t ent' s' /\
  (settled_by (but a v h) b d st d' st' /\ Waiting < st \/
   d' = d /\ st' = st /\ (Waiting < st -> (m_addr a =? (h a).1) = (m_addr a =? v.1))).
Proof.
  intros Ha Hb Hne S Hv1 Hv2 evs. destruct (sn_range _ _ _ _ _ _ _ S a Ha Hne) as [U1 U2].
  subst evs. rewrite !bytesEqual_be32 by done. destruct (((h a).1 =? v.1) && ((h a).2 =? v.2)) eqn:E0.
  - apply andb_true_iff in E0 as [E1%Z.eqb_eq E2%Z.eqb_eq]. exists d, st, ent, s. split; [done|]. split.
    + apply (station_ext _ _ _ h); [|done]. intros c Hc _. unfold but. case_bool_decide as E; [subst c|done].
      destruct (h a), v. cbn in *. congruence.
    + right. by rewrite E1.
  - destruct (station_change a b d st h t ent s v (m_id a) Ha Hb Hne S Hv1 Hv2) as (S' & changed & Hc & E). cbn [turns]. rewrite E. clear E.
    destruct (Waiting <? st) eqn:Ew; [destruct changed|]; cbn [andb].
    + destruct (elect_settled b _ _ _ _ _ _ Hb S') as (d' & st' & ent' & s' & Hs & E & S2). rewrite E. res_simpl.
      exists d', st', ent', s'. split; [done|split; [done|left; split; [done|lia]]].
    + res_simpl. eexists d, st, _, _. split; [done|split; [exact S'|right]]. split; [done|split; [done|]]. intros _.
      destruct (Bool.bool_dec (m_addr a =? (h a).1) (m_addr a =? v.1)) as [E|E]; [done|by apply Hc in E].
    + res_simpl. eexists d, st, _, _. split; [done|split; [exact S'|right]]. split; [done|split; [done|lia]].
Qed.

(** What a Hello of [a] leaves: the router has elected, or it has not, and then it waits or has
    heard nothing that would make it. *)
Lemma hello_step a b d st h t ent d' st' h' ent' lan :
  a ∈ ms -> b ∈ ms -> a <> b -> station a d st h t ent (lan a) ->
  let waits := st' =? Waiting in
  station b d' st' h' waits ent' (lan b) -> (waits = false -> Waiting < st') ->
  exists d2 st2 t2 ent2 s2, step (Hello a b) lan = Ok (put_station b s2 lan) /\ station b d2 st2 (but a d h') t2 ent2 s2 /\
  (settled_by (but a d h') b d' st' d2 st2 /\ t2 = false \/
   d2 = d' /\ st2 = st' /\ t2 = waits /\ (Waiting < st' -> (m_addr a =? (h' a).1) = (m_addr a =? d.1))).
Proof.
  intros Ha Hb Hne Sa waits Sb Hw. pose proof (station_sends _ _ _ _ _ _ _ Sa) as Hsend.
  destruct (BuildHelloPkt_ok range Hrange ent (lan a) Hsend) as (c & _ & _ & Ep). set (pkt := hello_pkt _ _ _ _ _) in Ep.
  destruct (sn_ok _ _ _ _ _ _ _ Sa) as [O1 O2 O3 O4 O5 (R1 & R2 & R3 & R4 & R5) O7].
  destruct (hello_heard range Hrange ent (lan a) pkt [] [] (port b) ent' (lan b) (m_addr a) waits Hsend Ep) as (msg & _ & Er);
    [apply Sb|by eapply station_receives|apply Sb|done|]. cbv zeta in Er.
  unfold step. rewrite (intf_of_station _ _ _ _ _ _ _ Sa), Ep. res_simpl. rewrite O2, Er. res_simpl. clear Er.
  rewrite (heard_event_known a b _ _ _ _ _ _ _ _ _ _ _ _ Ha Hb Hne Sa Sb).
  set (s1 := told (port b) [] (m_addr a) msg (lan b)). assert (S1 : station b d' st' h' waits ent' s1).
  { destruct Sb as [Hent Hok Hst Ht Hh Hids Hr Hset]. destruct Hok as [? ? ? ? ? ? ?]. split; try done. by apply (equipped_same _ _ _ _ Hset). }
  set (seen := shows_router range ent (lan a) (m_addr a) (port b) (lan b) && waits).
  assert (S2 : exists ent2, station b d' st' h' (if seen then false else waits) ent2
    (if seen then put_intf (port b) (set_WaitTimer (Some false) ent') s1 else s1)).
  { destruct seen; [|by exists ent']. exists (set_WaitTimer (Some false) ent'). destruct S1 as [Hent Hok Hst Ht Hh Hids Hr Hset].
    destruct Hok as [? ? ? ? ? ? ?]. split; try done; [cbn; by rewrite lookup_insert_eq|by apply (equipped_same _ _ _ _ Hset)]. }
  destruct S2 as [ent2 S2]. set (s2 := if seen then _ else s1) in *.
  destruct (change_events a b d' st' h' _ ent2 s2 d Ha Hb Hne S2 R4 R5) as (d2 & st2 & ent3 & s3 & E3 & S3 & Hc). set (evs := if _ && _ then [] else _) in *.
  destruct seen eqn:Eseen.
  - assert (Ew : waits = true) by (unfold seen in Eseen; by apply andb_true_iff in Eseen as [_ ?]). assert (Est : st' = Waiting) by (unfold waits in Ew; lia).
    destruct Hc as [[_ Hc]|(-> & -> & _)]; [lia|]. rewrite turns_snoc, E3. res_simpl.
    destruct (elect_settled b _ _ _ _ _ _ Hb S3) as (d4 & st4 & ent4 & s4 & Hs & E & S4).
    assert (Eb : broadcast_step range (port b) BackupSeen s3 = Ok s4).
    { unfold broadcast_step. by rewrite (sn_ent _ _ _ _ _ _ _ S3). }
    rewrite Eb. res_simpl. exists d4, st4, false, ent4, s4. split; [done|split; [done|left; done]].
  - rewrite app_nil_r, E3. res_simpl. exists d2, st2, waits, ent3, s3. split; [done|split; [done|]].
    destruct Hc as [[Hs Hlt]|Hc]; [left|right; tauto]. split; [done|]. unfold waits. lia.
Qed.

Lemma expire_step b d st h t ent lan :
  b ∈ ms -> station b d st h t ent (lan b) ->
  if t then exists d' st' ent' s', step (Expire b) lan = Ok (put_station b s' lan) /\ settled_by h b d st d' st' /\ station b d' st' h false ent' s'
  else step (Expire b) lan = Ok lan.
Proof.
  intros Hb S. unfold step. rewrite (intf_of_station _ _ _ _ _ _ _ S), (sn_timer _ _ _ _ _ _ _ S). destruct t; [|done].
  unfold broadcast_step. rewrite (sn_ent _ _ _ _ _ _ _ S).
  assert (S1 : station b d st h false (set_WaitTimer (Some false) ent) (put_intf (port b) (set_WaitTimer (Some false) ent) (lan b))).
  { destruct S as [Hent Hok Hst Ht Hh Hids Hr Hset]. destruct Hok as [? ? ? ? ? ? ?].
    split; try done; [cbn; by rewrite lookup_insert_eq|by apply (equipped_same _ _ _ _ Hset)]. }
  destruct (elect_settled b _ _ _ _ _ _ Hb S1) as (d' & st' & ent' & s' & Hs & E & S'). rewrite E. res_simpl.
  by exists d', st', ent', s'.
Qed.
(** ** Agreement *)

Context (x y : Member) (Hx : x ∈ playing ms) (Hy : y ∈ playing ms) (Hyx : y <> x).
Context (Fx : first_of (playing ms) x) (Fy : first_of (without x (playing ms)) y).

(** A router waits; or agrees, which all but the first do after they have heard of it; or has
    elected without having heard of it. *)
Definition place (b : Member) (d : Z * Z) (st : Z) (h : Member -> Z * Z) : Prop :=
  st = Waiting /\ d = (0, 0) \/
  d = agreed x y /\ st = final_role x y b /\ (b = x \/ h x = agreed x y) \/
  b <> x /\ h x <> agreed x y /\ st = OtherDesignatedRouter /\
  exists p, (p = x \/ p = y /\ b <> y) /\ d = (m_addr p, m_addr p).

Lemma final_role_high b : Waiting < final_role x y b.
Proof. unfold final_role. by repeat case_bool_decide. Qed.

Lemma place_allowed b d st h : place b d st h -> allowed x y b d.
Proof. unfold allowed. intros [[_ ->]|[(-> & _)|(Hb & _ & _ & p & [->|[-> Hp]] & ->)]]; tauto. Qed.

Lemma twice_agreed p : (m_addr p, m_addr p) <> agreed x y.
Proof. intros [= E1 E2]. apply (addr_y_x ms Hms x y); [done..|congruence]. Qed.

Lemma place_elect b d st h h' d' st' :
  b ∈ ms -> place b d st h -> (forall a, a ∈ playing ms -> a <> b -> allowed x y a (h' a)) ->
  (b <> x -> h x = agreed x y -> h' x = agreed x y) -> (b = x -> d <> agreed x y -> h' y <> agreed x y) ->
  settled_by h' b d st d' st' ->
  place b d' st' h' /\ Waiting < st' /\ (d = agreed x y -> d' = agreed x y).
Proof.
  intros Hb P Ha Hmono Hfirst (l & Hl & E). pose proof (place_allowed _ _ _ _ P) as Hd.
  assert (C : (b = x \/ h' x = agreed x y) \/ b <> x /\ h' x <> agreed x y).
  { destruct (decide (b = x)), (decide (h' x = agreed x y)); tauto. }
  destruct C as [C|[Hbx Hhx]].
  - pose proof (election_led ms Hms x y Hx Hy Hyx Fx Fy b Hb l h' Hl Ha d st Hd) as L.
    destruct (rfc_election l b d st) as [dr bdr]. destruct E as [-> ->]. destruct L as [-> ->].
    { destruct (decide (b = x)) as [Eb|Eb]; [left|right; tauto]. split; [done|].
      destruct P as [[-> Ed]|[(Ed & _)|(Hn & _)]]; [|by left|done]. right. split; [done|split; [done|]]. apply Hfirst; [done|].
      rewrite Ed. apply not_eq_sym, (agreed_set ms Hms x y Hx). }
    split; [right; left; tauto|]. split; [apply final_role_high|done].
  - assert (Hdy : d <> agreed x y). { intros Ed. destruct P as [[_ E0]|[(_ & _ & [?|?])|(_ & _ & _ & p & _ & Ep)]]; [|by auto..|].
      - rewrite E0 in Ed. by apply (agreed_set ms Hms x y Hx).
      - rewrite Ep in Ed. by apply twice_agreed in Ed. }
    pose proof (election_apart ms Hms x y Hx Hy Hyx Fx b Hb l h' Hl Ha d st Hd Hbx Hhx ltac:(done)) as L.
    destruct (rfc_election l b d st) as [dr bdr]. destruct E as [-> ->]. destruct L as (p & -> & Hp & ->).
    split; [right; right|split; [done|done]]. split; [done|split; [done|split; [done|]]]. by exists p.
Qed.

Record Cfg := mkCfg { cf_decl : Member -> Z * Z; cf_st : Member -> Z; cf_heard : Member -> Member -> Z * Z }.

Definition heard_ok (c : Cfg) (a : Member) (h : Z * Z) : Prop :=
  allowed x y a h /\ (h = agreed x y -> a = x \/ a = y -> cf_decl c a = agreed x y).

(** The state of the network behind the routers' own. *)
Record agreeing (c : Cfg) (lan : Lan) : Prop := {
  ag_station : forall b, b ∈ ms -> exists ent, station b (cf_decl c b) (cf_st c b) (cf_heard c b) (cf_st c b =? Waiting) ent (lan b);
  ag_place : forall b, b ∈ ms -> place b (cf_decl c b) (cf_st c b) (cf_heard c b);
  ag_heard : forall a b, a ∈ ms -> b ∈ ms -> a <> b -> heard_ok c a (cf_heard c b a);
}.

Definition upd {A} (b : Member) (v : A) (f : Member -> A) (m : Member) : A := if bool_decide (m = b) then v else f m.

Definition cfg_put (b : Member) (d : Z * Z) (st : Z) (h : Member -> Z * Z) (c : Cfg) : Cfg :=
  mkCfg (upd b d (cf_decl c)) (upd b st (cf_st c)) (upd b h (cf_heard c)).

Lemma agreeing_put c lan b d st h ent s :
  agreeing c lan -> b ∈ ms -> station b d st h (st =? Waiting) ent s -> place b d st h ->
  (forall a, a ∈ ms -> a <> b -> heard_ok c a (h a)) -> (cf_decl c b = agreed x y -> d = agreed x y) ->
  agreeing (cfg_put b d st h c) (put_station b s lan).
Proof.
  intros [A1 A2 A3] Hb S P Hh Hd.
  assert (Hok : forall a v, heard_ok c a v -> heard_ok (cfg_put b d st h c) a v).
  { intros a v [H1 H2]. split; [done|]. intros Hv Ha. cbn. unfold upd. case_bool_decide as E; [subst a; auto|auto]. }
  split.
  - intros m Hm. cbn. unfold upd, put_station. case_bool_decide as E; [subst m; by exists ent|by apply A1].
  - intros m Hm. cbn. unfold upd. case_bool_decide as E; [by subst m|by apply A2].
  - intros a m Ha Hm Hne. apply Hok. cbn. unfold upd. case_bool_decide as E; [subst m; by apply Hh|by apply A3].
Qed.

(** Who has agreed does so for a reason. *)
Lemma second_after_first c lan : agreeing c lan -> cf_decl c y = agreed x y -> cf_decl c x = agreed x y.
Proof.
  intros [A1 A2 A3] Ed. pose proof (playing_ms _ _ Hx) as Hx'. pose proof (playing_ms _ _ Hy) as Hy'.
  apply (A3 x y); [done..|by auto| |by left]. destruct (A2 y Hy') as [[_ E]|[(_ & _ & [E|E])|(_ & _ & _ & p & _ & Ep)]]; [|done..|].
  - rewrite E in Ed. by apply eq_sym, (agreed_set ms Hms x y Hx) in Ed.
  - rewrite Ep in Ed. by apply twice_agreed in Ed.
Qed.

Definition on_lan (mv : Move) : Prop := match mv with Expire b => b ∈ ms | Hello a b => a ∈ ms /\ b ∈ ms /\ a <> b end.

(** What is never lost. *)
Definition grows (c c' : Cfg) : Prop :=
  forall b, b ∈ ms -> (Waiting < cf_st c b -> Waiting < cf_st c' b) /\
  (b <> x -> cf_heard c b x = agreed x y -> cf_heard c' b x = agreed x y).

Definition done_by (mv : Move) (c c' : Cfg) : Prop :=
  match mv with Expire b => Waiting < cf_st c' b | Hello a b => cf_heard c' b a = cf_decl c a end.

Lemma place_state b d st h : place b d st h -> (st =? Waiting) = false -> Waiting < st.
Proof. intros [[-> _]|[(_ & -> & _)|(_ & _ & -> & _)]] H; [done|apply final_role_high|done]. Qed.

(** Without an election, unless the first has been heard of. *)
Lemma place_stay a b d st h v :
  a ∈ ms -> place b d st h -> (b <> x -> allowed x y x (h x)) -> allowed x y a v ->
  (Waiting < st -> (m_addr a =? (h a).1) = (m_addr a =? v.1)) -> place b d st (but a v h).
Proof.
  intros Ha P Hh Hv Hf. destruct (decide (b = x)) as [Hb|Hb].
  { destruct P as [P|[(E1 & E2 & _)|(Hn & _)]]; [by left|right; left; tauto|done]. }
  destruct P as [P|P]; [by left|]. assert (Hst : Waiting < st).
  { destruct P as [(_ & -> & _)|(_ & _ & -> & _)]; [apply final_role_high|done]. }
  specialize (Hf Hst). specialize (Hh Hb). assert (E : but a v h x = agreed x y <-> h x = agreed x y).
  { unfold but. case_bool_decide as E; [subst a|done].
    destruct (allowed_flags ms Hms x y Hx Hy Hyx x v Hx Hv) as [F1 _]. destruct (allowed_flags ms Hms x y Hx Hy Hyx x (h x) Hx Hh) as [F2 _].
    rewrite F1, F2 in Hf.
    pose proof (bool_decide_eq_true (x = x /\ h x = agreed x y)) as B1. pose proof (bool_decide_eq_true (x = x /\ v = agreed x y)) as B2.
    rewrite Hf in B1. tauto. }
  right. unfold place. rewrite E. exact P.
Qed.

Lemma upd_same {A} b (v : A) f : upd b v f b = v.
Proof. unfold upd. by rewrite bool_decide_eq_true_2. Qed.

Lemma upd_other {A} b (v : A) f m : m <> b -> upd b v f m = f m.
Proof. intros H. unfold upd. by rewrite bool_decide_eq_false_2. Qed.

Lemma grows_put c b d st h :
  (Waiting < cf_st c b -> Waiting < st) -> (b <> x -> cf_heard c b x = agreed x y -> h x = agreed x y) -> grows c (cfg_put b d st h c).
Proof. intros H1 H2 m Hm. cbn. unfold upd. case_bool_decide as E; [by subst m|done]. Qed.

Lemma first_waits c lan b :
  agreeing c lan -> b = x -> cf_decl c b <> agreed x y -> forall v, heard_ok c y v -> v <> agreed x y.
Proof.
  intros A -> Hd v [_ Hv] E. apply Hd, (second_after_first c lan A). by apply Hv; [|right].
Qed.

Lemma agreeing_step c lan mv :
  agreeing c lan -> on_lan mv -> exists c' lan', step mv lan = Ok lan' /\ agreeing c' lan' /\ grows c c' /\ done_by mv c c'.
Proof.
  intros A Hmv. pose proof A as [A1 A2 A3]. assert (Hxm := playing_ms _ _ Hx). assert (Hym := playing_ms _ _ Hy). destruct mv as [b|a b]; cbn in Hmv.
  - destruct (A1 b Hmv) as [ent S]. pose proof (expire_step _ _ _ _ _ _ _ Hmv S) as E. pose proof (A2 b Hmv) as P.
    destruct (cf_st c b =? Waiting) eqn:Ew.
    + destruct E as (d' & st' & ent' & s' & E & Hs & S').
      destruct (place_elect b _ _ _ (cf_heard c b) d' st' Hmv P) as (P' & Hst' & Hd'); [|done| |done|].
      { intros a Ha Hne. apply A3; [by apply playing_ms in Ha|done..]. }
      { intros Eb Hd. apply (first_waits c lan b A Eb Hd). apply A3; [done..|by subst b]. }
      exists (cfg_put b d' st' (cf_heard c b) c), (put_station b s' lan). split; [done|]. split; [|split].
      * apply (agreeing_put c lan b d' st' _ ent' s' A Hmv); [|done|intros; by apply A3|done]. by replace (st' =? Waiting) with false by lia.
      * by apply grows_put.
      * cbn. by rewrite upd_same.
    + exists c, lan. split; [done|split; [done|split; [done|]]]. cbn. by eapply place_state.
  - destruct Hmv as (Ha & Hb & Hne). destruct (A1 a Ha) as [ent Sa]. destruct (A1 b Hb) as [ent' Sb]. pose proof (A2 b Hb) as P.
    destruct (hello_step a b _ _ _ _ _ _ _ _ _ lan Ha Hb Hne Sa Sb (place_state _ _ _ _ P)) as (d2 & st2 & t2 & ent2 & s2 & E & S2 & Hc).
    pose proof (place_allowed _ _ _ _ (A2 a Ha)) as Hda.
    assert (Hh : forall m, m ∈ ms -> m <> b -> heard_ok c m (but a (cf_decl c a) (cf_heard c b) m)).
    { intros m Hm Hmb. unfold but. case_bool_decide as Em; [subst m; by split|by apply A3]. }
    assert (Hmono : b <> x -> cf_heard c b x = agreed x y -> but a (cf_decl c a) (cf_heard c b) x = agreed x y).
    { intros Hbx Hv. unfold but. case_bool_decide as Em; [subst a|done]. apply (A3 x b); auto. }
    assert (H2 : place b d2 st2 (but a (cf_decl c a) (cf_heard c b)) /\ t2 = (st2 =? Waiting) /\ (Waiting < cf_st c b -> Waiting < st2) /\
      (cf_decl c b = agreed x y -> d2 = agreed x y)).
    { destruct Hc as [[Hs ->]|(-> & -> & -> & Hf)].
      - destruct (place_elect b _ _ _ (but a (cf_decl c a) (cf_heard c b)) d2 st2 Hb P) as (P' & Hst' & Hd'); [|done| |done|].
        + intros m Hm Hmb. apply Hh; [by apply playing_ms in Hm|done].
        + intros Eb Hd. apply (first_waits c lan b A Eb Hd). apply Hh; [done..|by subst b].
        + split; [done|split; [lia|done]].
      - split; [|done]. apply place_stay; try done. intros Hbx. apply A3; auto. }
    destruct H2 as (P2 & -> & Hst2 & Hd2). exists (cfg_put b d2 st2 (but a (cf_decl c a) (cf_heard c b)) c), (put_station b s2 lan).
    split; [done|]. split; [by eapply agreeing_put|split; [by apply grows_put|]]. cbn. by rewrite upd_same, but_same.
Qed.

(** ** Sequences of steps *)

Lemma run_app l1 l2 lan : run (l1 ++ l2) lan = (lan' ← run l1 lan; run l2 lan').
Proof. revert lan. induction l1 as [|mv l1 IH]; intros lan; [done|]. unfold run in *. cbn. destruct (step mv lan); res_simpl; [apply IH|done..]. Qed.

Lemma grows_trans c1 c2 c3 : grows c1 c2 -> grows c2 c3 -> grows c1 c3.
Proof. intros H1 H2 b Hb. destruct (H1 b Hb), (H2 b Hb). auto. Qed.

Lemma grows_refl c : grows c c.
Proof. by intros b Hb. Qed.

(** The state behind a sequence of steps; what each of them does is not lost. *)
Lemma agreeing_run l : forall c lan,
  agreeing c lan -> Forall on_lan l ->
  exists c' lan', run l lan = Ok lan' /\ agreeing c' lan' /\ grows c c' /\
  forall mv, mv ∈ l -> exists c1 c2 lan1, agreeing c1 lan1 /\ grows c c1 /\ done_by mv c1 c2 /\ grows c2 c'.
Proof.
  induction l as [|mv l IH]; intros c lan A Hl.
  { exists c, lan. split_and!; [done..|]. by intros mv ?%not_elem_of_nil. }
  apply Forall_cons in Hl as [Hmv Hl]. destruct (agreeing_step c lan mv A Hmv) as (c1 & lan1 & E1 & A1 & G1 & D1).
  destruct (IH c1 lan1 A1 Hl) as (c2 & lan2 & E2 & A2 & G2 & D2). exists c2, lan2. split_and!; [|done|by eapply grows_trans|].
  - unfold run in *. cbn. by rewrite E1.
  - intros mv' [->|Hin]%elem_of_cons; [by exists c, c1, lan|]. destruct (D2 mv' Hin) as (c3 & c4 & lan3 & A3 & G3 & D3 & G4).
    exists c3, c4, lan3. split_and!; try done. by eapply grows_trans.
Qed.

(** ** From the start *)

Definition waiting (b : Member) (s : OSPFServer) : Prop := exists ent, station b (0, 0) Waiting (fun _ => (0, 0)) true ent s.

Definition start : Cfg := mkCfg (fun _ => (0, 0)) (fun _ => Waiting) (fun _ _ => (0, 0)).

Lemma agreeing_start lan : (forall b, b ∈ ms -> waiting b (lan b)) -> agreeing start lan.
Proof.
  intros H. split; cbn.
  - intros b Hb. by apply H.
  - intros b Hb. by left.
  - intros a b Ha Hb Hne. split; [by left|]. intros E. by apply eq_sym, (agreed_set ms Hms x y Hx) in E.
Qed.

(** What is read off an interface. *)
Lemma agreeing_reads c lan b :
  agreeing c lan -> b ∈ ms ->
  let ent := intf_of (port b) (lan b) in
  IfFSMState ent = cf_st c b /\ IfDRIp ent = be32 (cf_decl c b).1 /\ IfBDRIp ent = be32 (cf_decl c b).2 /\
  place b (cf_decl c b) (cf_st c b) (cf_heard c b).
Proof.
  intros [A1 A2 A3] Hb. destruct (A1 b Hb) as [ent S]. cbv zeta. rewrite (intf_of_station _ _ _ _ _ _ _ S).
  destruct (sn_ok _ _ _ _ _ _ _ S) as [? ? ? ? ? ? ?]. split_and!; [apply S|done..|by apply A2].
Qed.

Lemma place_agreed b d st h : place b d st h -> Waiting < st -> b = x \/ h x = agreed x y -> d = agreed x y /\ st = final_role x y b.
Proof. intros [[-> _]|[(-> & -> & _)|(Hb & Hh & _)]]; [done|done|]. intros _ [?|?]; [by subst b|done]. Qed.

Lemma place_role b d st h :
  b ∈ ms -> place b d st h -> (st = DesignatedRouter -> b = x) /\ (st = BackupDesignatedRouter -> b = y).
Proof.
  intros Hb [[-> _]|[(_ & -> & _)|(_ & _ & -> & _)]]; [done| |done]. unfold final_role. by repeat case_bool_decide.
Qed.

Lemma run_agrees l1 l2 lan :
  (forall b, b ∈ ms -> waiting b (lan b)) -> Forall on_lan (l1 ++ l2) -> (forall b, b ∈ ms -> Expire b ∈ l1 ++ l2) -> Expire x ∈ l1 ->
  (forall b, b ∈ ms -> b <> x -> Hello x b ∈ l2) ->
  exists lan', run (l1 ++ l2) lan = Ok lan' /\ forall b, b ∈ ms ->
  let ent := intf_of (port b) (lan' b) in
  IfDRIp ent = be32 (m_addr x) /\ IfBDRIp ent = be32 (m_addr y) /\ IfFSMState ent = final_role x y b.
Proof.
  intros Hw [Hl1 Hl2]%Forall_app Hall Hex Hhello. pose proof (playing_ms _ _ Hx) as Hxm.
  destruct (agreeing_run l1 start lan (agreeing_start lan Hw) Hl1) as (c1 & lan1 & E1 & A1 & G1 & D1).
  destruct (agreeing_run l2 c1 lan1 A1 Hl2) as (c2 & lan2 & E2 & A2 & G2 & D2).
  exists lan2. split; [rewrite run_app, E1; by res_simpl|]. intros b Hb. cbv zeta.
  destruct (agreeing_reads c2 lan2 b A2 Hb) as (-> & -> & -> & P).
  assert (Hst : Waiting < cf_st c2 b).
  { destruct (proj1 (elem_of_app _ _ _) (Hall b Hb)) as [Hin|Hin]; [destruct (D1 _ Hin) as (c3 & c4 & lan3 & _ & _ & D & G)|destruct (D2 _ Hin) as (c3 & c4 & lan3 & _ & _ & D & G)];
      cbn in D; apply (G b Hb) in D; [by apply (G2 b Hb)|done]. }
  assert (Hd1 : forall c lan0, agreeing c lan0 -> grows c1 c -> cf_decl c x = agreed x y).
  { intros c lan0 A G. destruct (D1 _ Hex) as (c3 & c4 & lan3 & _ & _ & D & G'). cbn in D.
    apply (place_agreed x _ _ _ (ag_place _ _ A x Hxm)); [|by left]. by apply (G x Hxm), (G' x Hxm). }
  destruct (place_agreed b _ _ _ P Hst) as [-> ->]; [|done]. destruct (decide (b = x)) as [Hbx|Hbx]; [by left|right].
  destruct (D2 _ (Hhello b Hb Hbx)) as (c3 & c4 & lan3 & A3 & G3 & D & G4). cbn in D. apply (G4 b Hb); [done|]. rewrite D. by eapply Hd1.
Qed.

Lemma run_one_dr l lan :
  (forall b, b ∈ ms -> waiting b (lan b)) -> Forall on_lan l ->
  exists lan', run l lan = Ok lan' /\ forall b, b ∈ ms ->
  (IfFSMState (intf_of (port b) (lan' b)) = DesignatedRouter -> b = x) /\
  (IfFSMState (intf_of (port b) (lan' b)) = BackupDesignatedRouter -> b = y).
Proof.
  intros Hw Hl. destruct (agreeing_run l start lan (agreeing_start lan Hw) Hl) as (c & lan' & E & A & _). exists lan'. split; [done|].
  intros b Hb. destruct (agreeing_reads c lan' b A Hb) as (-> & _ & _ & P). by eapply place_role.
Qed.
End Lan.

(** The routers [ms] on a network, all of which have heard of each other and wait, with [x] and
    [y] the first two of those that take part. *)
Record lan_ready (ms : list Member) (port : Member -> IntfConfKey) (g : Settings) (x y : Member) (lan : Member -> OSPFServer) : Prop := {
  lr_ms : network_ok ms;
  lr_settings : settings_ok g;
  lr_room : 44 + 4 * len ms < 65536;
  lr_first : first_of (playing ms) x;
  lr_second : first_of (without x (playing ms)) y;
  lr_waiting : forall b, b ∈ ms -> waiting ms port g b (lan b);
}.

Lemma second_plays ms x y : first_of (without x (playing ms)) y -> y ∈ playing ms /\ y <> x.
Proof. intros [H _]. by apply elem_of_without. Qed.

Lemma heard_nothing_ok ms port b k e :
  network_ok ms -> heard_map ms port b (fun _ => (0, 0)) !! k = Some e -> neighbor_ok e.
Proof.
  intros Hms (a & Ha & _ & _ & ->)%heard_lookup; [|done]. split; [by apply (nw_range _ Hms)|]. by exists 0, 0.
Qed.
