(* ===== verification/OspfIntfProps.v ===== *)
(** * OSPF: what the interfaces guarantee

    Hello packets, the election of the designated router, and its outcome on a network. *)

From S2P Require Import Prelude.
From S2P Require Import OspfUtil.
From S2P Require Import OspfLsa.
From S2P Require Import OspfServer.
From S2P Require Import OspfRoute.
From S2P Require Import OspfIntf.
From S2P Require Import OspfIntfSpec.
From S2P Require Import OspfHello.
From S2P Require Import OspfElection.
From S2P Require Import OspfLan.

#[local] Arguments convertUint32ToIPv4 : simpl never.

(** ** The election *)

(** C18: ElectBDRAndDR computes the election of RFC 2328, 9.4, over the neighbors in any order of
    the map. The reference elects among the neighbors with two-way communication, a priority and
    an address, and the router itself when it has a priority and an address ([rfc_election],
    which repeats the election as step 4 asks). The two routers and their identifiers are
    entered, the state of the interface is the router's own part in it, and the database is
    told; the neighbors stay. All router identifiers differ, the declared routers of each
    neighbor are four octets, and the area and addresses of the interface can be read. *)
Theorem ospf_election_rfc (range : forall A : Type, list A -> list A) (key : IntfConfKey) (m : Member) (declared : Z * Z) (s : OSPFServer)
  (ent : IntfConf) (area : Z) :
  (forall A (l : list A), Permutation (range A l) l) ->
  IntfConfMap s !! key = Some ent -> intf_ok m declared ent s -> convertIPv4ToUint32 (IfAreaId ent) = Ok area ->
  ranks_differ (as_router m declared :: others ent s) ->
  let '(dr, bdr) := rfc_election (others ent s) m declared (IfFSMState ent) in
  exists s', ElectBDRAndDR range key s = Ok s' /\ let ent' := intf_of key s' in
  IfDRIp ent' = be32 (addr_of dr) /\ IfDRtrId ent' = id_of dr /\ IfBDRIp ent' = be32 (addr_of bdr) /\ IfBDRtrId ent' = id_of bdr /\
  IfFSMState ent' = role m dr bdr /\ NeighborMap ent' = NeighborMap ent /\
  sent s' = sent s ++ [NetworkDRChange area key (IfFSMState ent) (role m dr bdr)].
Proof.
  intros Hrange Hent Hok Ha Hd.
  destruct (election_ok range Hrange key m s ent declared area Hent Hok Ha Hd) as (dr & bdr & ent1 & ent' & s' & -> & E & L & Hent' & Hi & Hs & _).
  exists s'. split; [done|]. cbv zeta. replace (intf_of key s') with ent' by (unfold intf_of; by rewrite Hi, lookup_insert_eq).
  unfold elected in L. subst ent1 ent'. by split_and!.
Qed.

(** ** A network with three routers *)

#[export] Instance NeighborData_eq_dec : EqDecision NeighborData.
Proof. solve_decision. Defined.

Definition in_order (A : Type) (l : list A) : list A := l.

Lemma in_order_perm A (l : list A) : Permutation (in_order A l) l.
Proof. done. Qed.

Definition first_router : Member := mkMember 5 0x01010101 0x0A000001.
Definition second_router : Member := mkMember 1 0x09090909 0x0A000002.
Definition third_router : Member := mkMember 1 0x02020202 0x0A000003.
Definition three_routers : list Member := [third_router; first_router; second_router].

Definition port_of (m : Member) : IntfConfKey := mkIntfConfKey (convertUint32ToIPv4 (m_addr m)) 0.
Definition sample_settings : Settings := mkSettings [0; 0; 0; 0] [255; 255; 255; 0] 10 40 0.

Definition sample_intf (m : Member) : IntfConf :=
  mkIntfConf [0; 0; 0; 0] Broadcast (m_prio m) 10 40 (zeros 8) 0 ∅ None no_router no_router Down 0 0 0 (be32 (m_addr m)) [255; 255; 255; 0] 10.

Definition sample_key (a b : Member) : NeighborConfKey := mkNeighborConfKey (convertUint32ToIPv4 (m_addr a)) (IntfIdx (port_of b)).

(** Before the interface starts; the neighbor machines have their entries. *)
Definition sample_base (b : Member) : OSPFServer :=
  let s := set_IntfConfMap {[ port_of b := sample_intf b ]} (NewOSPFServer (be32 (m_id b))) in
  mkOSPFServer (RouterId s) (AreaBdrRtrStatus s) (AreaConfMap s) (AreaLsdb s) (AreaSelfOrigLsa s) (LsdbSlice s)
    (DbLsdbOp s) (AreaGraph s) (AreaStubs s) (SPFTree s) (TempAreaRoutingTbl s) (GlobalRoutingTbl s)
    (OldGlobalRoutingTbl s) (TempGlobalRoutingTbl s) (SummaryLsDb s) (ipPropertyMap s)
    (ClientHdl s) (DbRouteOp s) (rib s) (IntfConfMap s)
    (list_to_map (map (fun a => (sample_key a b, mkOspfNeighborEntry (m_id a) 4 (port_of b))) (without b three_routers)))
    (ospfIntfToNbrMap s) (ospfNeighborIPToMAC s) (maxAgeLsaMap s) (sent s).

(** The interface has started, and its neighbors have been heard. *)
Definition sample_server (b : Member) : OSPFServer :=
  match
    s ← StartSendRecvPkts in_order (port_of b) (sample_base b);
    turns (fun s a => broadcast_step in_order (port_of b) (NeighCreate (mkNeighMsg (m_id a) (m_addr a) true (m_prio a) no_router no_router)) s)
      (without b three_routers) s
  with
  | Ok s => s
  | _ => sample_base b
  end.

Lemma sample_network : network_ok three_routers.
Proof.
  split.
  - apply (bool_decide_eq_true_1 (NoDup _)). by vm_compute.
  - apply (bool_decide_eq_true_1 (NoDup _)). by vm_compute.
  - intros m Hm. unfold three_routers in Hm. rewrite !elem_of_cons, elem_of_nil in Hm. destruct Hm as [->|[->|[->|[]]]]; done.
Qed.

Ltac each_router := unfold three_routers in *; rewrite ?elem_of_cons, ?elem_of_nil in *; destruct_or!; subst.

Lemma sample_heard b : b ∈ three_routers -> NeighborMap (intf_of (port_of b) (sample_server b)) = heard_map three_routers port_of b (fun _ => (0, 0)).
Proof. intros Hb. apply (bool_decide_eq_true_1 (_ = _)). each_router; [by vm_compute..|done]. Qed.

Lemma sample_lookup b : b ∈ three_routers -> IntfConfMap (sample_server b) !! port_of b = Some (intf_of (port_of b) (sample_server b)).
Proof.
  intros Hb. assert (H : match IntfConfMap (sample_server b) !! port_of b with Some _ => true | None => false end = true).
  { each_router; [by vm_compute..|done]. }
  unfold intf_of. by destruct (IntfConfMap (sample_server b) !! port_of b).
Qed.

Lemma sample_intf_ok b : b ∈ three_routers -> intf_ok b (0, 0) (intf_of (port_of b) (sample_server b)) (sample_server b).
Proof.
  intros Hb. pose proof (sample_heard b Hb) as Hn. split.
  6: clear Hn; each_router; done.
  6: intros k e He; rewrite Hn in He; by apply (heard_nothing_ok three_routers port_of b k e sample_network).
  all: clear Hn; each_router; [by vm_compute..|done].
Qed.

Lemma sample_equipped b : b ∈ three_routers -> equipped sample_settings (intf_of (port_of b) (sample_server b)) (sample_server b).
Proof. intros Hb. split; [..|intros _]; each_router; by vm_compute || done. Qed.

Lemma sample_waiting b : b ∈ three_routers -> waiting three_routers port_of sample_settings b (sample_server b).
Proof.
  intros Hb. exists (intf_of (port_of b) (sample_server b)).
  split; [by apply sample_lookup|by apply sample_intf_ok|each_router; [by vm_compute..|done]|each_router; [by vm_compute..|done]|by apply sample_heard| |done|by apply sample_equipped].
  intros a Ha Hne. each_router; done || by vm_compute.
Qed.

Lemma sample_others : others (intf_of (port_of third_router) (sample_server third_router)) (sample_server third_router) =
  [as_router first_router (0, 0); as_router second_router (0, 0)].
Proof. by vm_compute. Qed.

Lemma sample_area : convertIPv4ToUint32 (IfAreaId (intf_of (port_of third_router) (sample_server third_router))) = Ok 0.
Proof. by vm_compute. Qed.

Lemma ospf_election_rfc_witness :
  ranks_differ [as_router third_router (0, 0); as_router first_router (0, 0); as_router second_router (0, 0)] /\
  exists s', ElectBDRAndDR in_order (port_of third_router) (sample_server third_router) = Ok s' /\
  IfDRIp (intf_of (port_of third_router) s') = [10; 0; 0; 1].
Proof.
  assert (H3 : third_router ∈ three_routers) by (by left).
  assert (Hr : ranks_differ [as_router third_router (0, 0); as_router first_router (0, 0); as_router second_router (0, 0)]).
  { unfold ranks_differ. apply (bool_decide_eq_true_1 (NoDup _)). by vm_compute. }
  split; [done|]. pose proof (ospf_election_rfc in_order (port_of third_router) third_router (0, 0) (sample_server third_router) _ 0 in_order_perm
    (sample_lookup _ H3) (sample_intf_ok _ H3) sample_area) as T.
  rewrite sample_others in T. specialize (T Hr). destruct (rfc_election _ _ _ _) as [dr bdr] eqn:E. destruct T as (s' & E' & Hd & _).
  exists s'. split; [exact E'|]. rewrite Hd. replace dr with (rfc_election [as_router first_router (0, 0); as_router second_router (0, 0)] third_router (0, 0)
    (IfFSMState (intf_of (port_of third_router) (sample_server third_router)))).1 by by rewrite E. by vm_compute.
Defined.

Lemma sample_ready : lan_ready three_routers port_of sample_settings first_router second_router sample_server.
Proof.
  split; [apply sample_network|done|done| | |apply sample_waiting].
  - split; [by right; left|]. intros p Hp Hne. apply elem_of_playing in Hp as [Hp _]. each_router; try done; unfold above; cbn; lia.
  - split; [apply elem_of_without; split; [by right; right; left|done]|]. intros p [Hp Hn]%elem_of_without Hne. apply elem_of_playing in Hp as [Hp _].
    each_router; try done; unfold above; cbn; lia.
Qed.

#[export] Instance Move_eq_dec : EqDecision Move.
Proof. solve_decision. Defined.

#[export] Instance on_lan_dec ms mv : Decision (on_lan ms mv).
Proof. destruct mv; cbn; apply _. Defined.

(** ** The outcome on a network *)

(** C16: the routers of a network agree, when all have heard each other's Hellos, two-way, before
    the wait timer of any has run out and before any has declared a designated router
    ([lan_ready]: they also share area, mask, intervals and authentication, and differ in
    address and identifier). The wait timer of each runs out some time, and that of the first
    router (by priority, then identifier), after which each of the others hears a Hello of it.
    Whatever else of Hellos between them and wait timers comes, in whatever order, every router
    in the end has the first one as designated router and the second as its backup, and is in
    the state that goes with it. Dead timers and interfaces that go down are not among the
    moves, and a router that joins later or is heard one-way is not covered. *)
Theorem ospf_lan_agrees (range : forall A : Type, list A -> list A) (ms : list Member) (port : Member -> IntfConfKey) (g : Settings)
  (x y : Member) (lan : Member -> OSPFServer) (l1 l2 : list Move) :
  (forall A (l : list A), Permutation (range A l) l) -> lan_ready ms port g x y lan ->
  Forall (on_lan ms) (l1 ++ l2) -> (forall b, b ∈ ms -> Expire b ∈ l1 ++ l2) -> Expire x ∈ l1 ->
  (forall b, b ∈ ms -> b <> x -> Hello x b ∈ l2) ->
  exists lan', run range port (l1 ++ l2) lan = Ok lan' /\ forall b, b ∈ ms ->
  let ent := intf_of (port b) (lan' b) in
  IfDRIp ent = be32 (m_addr x) /\ IfBDRIp ent = be32 (m_addr y) /\ IfFSMState ent = final_role x y b.
Proof.
  intros Hr [H1 H2 H3 H4 H5 H6]. destruct (second_plays ms x y H5) as [Hy Hyx]. destruct H4 as [Hx H4].
  by apply (run_agrees range ms port g Hr H1 H2 H3 x y).
Qed.

(** The first router is the last to be heard of. *)
Definition sample_before : list Move :=
  [Expire third_router; Hello third_router second_router; Expire second_router; Hello second_router third_router; Expire first_router].
Definition sample_after : list Move :=
  [Hello third_router first_router; Hello first_router third_router; Hello third_router second_router; Hello first_router second_router].

Lemma ospf_lan_agrees_witness :
  exists lan', run in_order port_of (sample_before ++ sample_after) sample_server = Ok lan' /\
  map (fun b => let ent := intf_of (port_of b) (lan' b) in (IfDRIp ent, IfBDRIp ent, IfFSMState ent)) three_routers =
  [([10; 0; 0; 1], [10; 0; 0; 2], OtherDesignatedRouter); ([10; 0; 0; 1], [10; 0; 0; 2], DesignatedRouter);
   ([10; 0; 0; 1], [10; 0; 0; 2], BackupDesignatedRouter)].
Proof.
  destruct (ospf_lan_agrees in_order three_routers port_of sample_settings first_router second_router sample_server sample_before sample_after
    in_order_perm sample_ready) as (lan' & E & H).
  - apply (bool_decide_eq_true_1 (Forall _ _)). by vm_compute.
  - intros b Hb. apply (bool_decide_eq_true_1 (_ ∈ _)). each_router; [by vm_compute..|done].
  - by apply (bool_decide_eq_true_1 (_ ∈ _)).
  - intros b Hb Hne. apply (bool_decide_eq_true_1 (_ ∈ _)). each_router; done || by vm_compute.
  - exists lan'. split; [exact E|]. assert (Hall : forall b, b ∈ three_routers -> (let ent := intf_of (port_of b) (lan' b) in (IfDRIp ent, IfBDRIp ent, IfFSMState ent)) =
      ([10; 0; 0; 1], [10; 0; 0; 2], final_role first_router second_router b)).
    { intros b Hb. destruct (H b Hb) as (E1 & E2 & E3). cbv zeta. by rewrite E1, E2, E3. }
    cbn [map three_routers]. rewrite !Hall by (unfold three_routers; rewrite !elem_of_cons; tauto). done.
Defined.

(** C17: from the same start, where all routers have heard each other two-way before the wait timer
    of any has run out and before any has declared a designated router ([lan_ready]), no two of
    them ever take themselves for the designated router, nor for its backup, whichever Hellos go
    between them and whichever wait timers run out, in whatever order: only the first router by
    priority and identifier ever is the designated router, only the second its backup. Dead
    timers, interfaces that go down and routers that have not heard each other are left out. *)
Theorem ospf_one_designated_router (range : forall A : Type, list A -> list A) (ms : list Member) (port : Member -> IntfConfKey) (g : Settings)
  (x y : Member) (lan : Member -> OSPFServer) (l : list Move) :
  (forall A (l : list A), Permutation (range A l) l) -> lan_ready ms port g x y lan -> Forall (on_lan ms) l ->
  exists lan', run range port l lan = Ok lan' /\ forall b, b ∈ ms ->
  (IfFSMState (intf_of (port b) (lan' b)) = DesignatedRouter -> b = x) /\
  (IfFSMState (intf_of (port b) (lan' b)) = BackupDesignatedRouter -> b = y).
Proof.
  intros Hr [H1 H2 H3 H4 H5 H6]. destruct (second_plays ms x y H5) as [Hy Hyx]. destruct H4 as [Hx H4].
  by apply (run_one_dr range ms port g Hr H1 H2 H3 x y).
Qed.

Lemma ospf_one_designated_router_witness :
  exists lan', run in_order port_of sample_before sample_server = Ok lan' /\
  IfFSMState (intf_of (port_of third_router) (lan' third_router)) <> DesignatedRouter.
Proof.
  destruct (ospf_one_designated_router in_order three_routers port_of sample_settings first_router second_router sample_server sample_before
    in_order_perm sample_ready) as (lan' & E & H).
  - apply (bool_decide_eq_true_1 (Forall _ _)). by vm_compute.
  - exists lan'. split; [exact E|]. intros Hd. by apply (proj1 (H third_router ltac:(by left))) in Hd.
Defined.

(** ** Hello packets *)

Lemma listed_iff (range : forall A : Type, list A -> list A) ent s rtr :
  (forall A (l : list A), Permutation (range A l) l) ->
  listed rtr (nbr_ids range ent s) = true <-> exists k e, NeighborMap ent !! k = Some e /\ be32 (nbr_router s k) = rtr.
Proof.
  intros Hr. unfold listed, nbr_ids. rewrite existsb_exists. setoid_rewrite in_map_iff. split.
  - intros (i & (k & <- & Hk) & E%bool_decide_eq_true). apply list_elem_of_In in Hk. rewrite (Hr _ _) in Hk.
    apply list_elem_of_fmap in Hk as ([k' e] & -> & Hk). apply elem_of_map_to_list in Hk. by exists k', e.
  - intros (k & e & Hk & E). exists (nbr_router s k). split; [|by apply bool_decide_eq_true]. exists k. split; [done|].
    apply list_elem_of_In. rewrite (Hr _ _). apply list_elem_of_fmap. exists (k, e). split; [done|]. by apply elem_of_map_to_list.
Qed.

(** What the goroutine of an interface is to be told of a neighbor that says [says], of which
    [known] is held. *)
Definition news (known : option NeighborData) (says : NeighMsg) : list IntfEvent :=
  match known with
  | None => [NeighCreate says]
  | Some e =>
    if decide (TwoWayStatus e = msg_TwoWayStatus says /\ RtrPrio e = msg_RtrPrio says /\ DRtr e = msg_DRtr says /\ BDRtr e = msg_BDRtr says)
    then [] else [NeighChange says]
  end.

Lemma neighbor_event_news two h id src known :
  neighbor_event two h id src known = news known (mkNeighMsg id src two (hello_rtrPrio h) (designatedRtr h) (backupDesignatedRtr h)).
Proof.
  unfold neighbor_event, news. destruct known as [e|]; [|done]. cbn [msg_TwoWayStatus msg_RtrPrio msg_DRtr msg_BDRtr].
  unfold bytesEqual. destruct (Bool.eqb (TwoWayStatus e) two) eqn:E1; cbn [negb orb].
  2:{ apply eqb_false_iff in E1. by rewrite decide_False by tauto. }
  apply eqb_prop in E1. case_bool_decide; cbn [negb orb]; [|by rewrite decide_False by tauto].
  case_bool_decide; cbn [negb orb]; [|by rewrite decide_False by tauto].
  destruct (Z.eqb_spec (RtrPrio e) (hello_rtrPrio h)); cbn [negb]; [by rewrite decide_True|by rewrite decide_False by tauto].
Qed.

(** C33: a Hello arrives: the packet that BuildHelloPkt makes of an interface that is set up
    ([sends]: identifier and area of four octets, a key of eight, no more neighbors than fit a
    packet) passes every check at the other end of a link with the same mask, intervals, area and
    authentication ([receives]) and a wait timer that was made. The goroutine of the interface
    there is told what the sender says of itself - identifier, address, priority, designated
    router and backup, and two-way exactly if it lists the receiver: as a new neighbor when it
    holds none at that address, as a change when any of that differs from what it holds, else
    not at all. If the sender says two-way and is the backup, or the designated router beside a
    backup, a receiver in state Waiting whose wait timer runs stops it and is told that the
    backup was seen. The neighbor machine gets the Hello with the dead interval, and the
    sender's hardware address is entered. *)
Theorem ospf_hello_arrives (range : forall A : Type, list A -> list A) (ent : IntfConf) (s : OSPFServer) :
  (forall A (l : list A), Permutation (range A l) l) -> sends ent s ->
  exists pkt id, BuildHelloPkt range ent s = Ok (Some pkt) /\ Uint32 (RouterId s) = Ok id /\
  forall spare mac key ent' s' src t,
  IntfConfMap s' !! key = Some ent' -> receives ent ent' s -> WaitTimer ent' = Some t -> is_u32 src ->
  let nbr := mkNeighborConfKey (convertUint32ToIPv4 src) (IntfIdx key) in
  exists s'' two_way who,
  (two_way = true <-> exists k e, NeighborMap ent !! k = Some e /\ be32 (nbr_router s k) = RouterId s') /\
  let seen := two_way && (IfFSMState ent' =? Waiting) && t &&
    (if bytesEqual (be32 src) (IfDRIp ent) then negb (bytesEqual (IfBDRIp ent) no_router) else bytesEqual (be32 src) (IfBDRIp ent)) in
  receive_hello (mkSlice pkt spare) (be32 src) mac key s' =
  Ok (s'', news (NeighborMap ent' !! nbr) (mkNeighMsg id src two_way (IfRtrPriority ent) (IfDRIp ent) (IfBDRIp ent)) ++
      (if seen then [BackupSeen] else []), None) /\
  IntfConfMap s'' = (if seen then <[key := set_WaitTimer (Some false) ent']> (IntfConfMap s') else IntfConfMap s') /\
  ip_of (if by_address ent' then be32 src else RouterId s) = Ok who /\
  sent s'' = sent s' ++ [NeighborHello key id (IfRtrPriority ent) who (IfRtrDeadInterval ent' * 1000000000) two_way] /\
  ospfNeighborIPToMAC s'' = <[nbr := mac]> (ospfNeighborIPToMAC s').
Proof.
  intros Hr Hs. destruct (BuildHelloPkt_ok range Hr ent s Hs) as (c & _ & _ & E).
  assert (Hid : exists id, Uint32 (RouterId s) = Ok id) by (pose proof (sd_rtr _ _ Hs) as H; apply len_four in H; four (RouterId s); by eexists).
  destruct Hid as [id Hid]. eexists _, id. split; [exact E|split; [done|]]. intros spare mac key ent' s' src t He Hrc Ht Hsrc nbr.
  destruct (hello_heard range Hr ent s _ spare mac key ent' s' src t Hs E He Hrc Ht Hsrc) as (m & (id' & who & Hid' & Hwho & ->) & Er).
  cbv zeta in Er. rewrite Hid in Hid'. injection Hid' as <-.
  unfold shows_router, heard_event in Er. replace (intf_of key s') with ent' in Er by (unfold intf_of; by rewrite He). rewrite Hid in Er.
  eexists _, (listed (RouterId s') (nbr_ids range ent s)), who. split; [by apply listed_iff|]. cbv zeta.
  rewrite <- (andb_assoc (_ && _) t), (andb_comm t), andb_assoc. rewrite neighbor_event_news in Er. split; [exact Er|].
  by destruct (_ && t).
Qed.

(** The third router, which has not heard of anyone. *)
Definition newcomer : OSPFServer :=
  put_intf (port_of third_router) (set_NeighborMap ∅ (intf_of (port_of third_router) (sample_server third_router))) (sample_server third_router).

Lemma ospf_hello_arrives_witness :
  let ent := intf_of (port_of first_router) (sample_server first_router) in
  let m := mkNeighMsg 0x01010101 0x0A000001 true 5 no_router no_router in
  exists pkt s'', BuildHelloPkt in_order ent (sample_server first_router) = Ok (Some pkt) /\
  receive_hello (mkSlice pkt []) [10; 0; 0; 1] [] (port_of third_router) newcomer = Ok (s'', [NeighCreate m], None).
Proof.
  intros ent m. assert (Hs : sends ent (sample_server first_router)).
  { split; [by vm_compute..|split; by vm_compute|by vm_compute]. }
  destruct (ospf_hello_arrives in_order ent (sample_server first_router) in_order_perm Hs) as (pkt & id & E & Hid & H).
  assert (Hrc : receives ent (intf_of (port_of third_router) newcomer) (sample_server first_router)) by (split; by vm_compute).
  destruct (H [] [] (port_of third_router) (intf_of (port_of third_router) newcomer) newcomer 0x0A000001 true) as (s'' & two & who & Htwo & Er & _).
  - unfold newcomer. rewrite intf_of_put. apply lookup_insert_eq.
  - exact Hrc.
  - clear; by vm_compute.
  - clear; done.
  - exists pkt, s''. split; [exact E|]. change [10; 0; 0; 1] with (be32 0x0A000001). rewrite Er. assert (Eid : Uint32 (RouterId (sample_server first_router)) = Ok 0x01010101) by by vm_compute.
    rewrite Hid in Eid. injection Eid as ->. assert (Et : two = true).
    { apply Htwo. exists (nbr_of port_of third_router first_router), (heard_as third_router (0, 0)). split; [|by vm_compute].
      unfold ent. rewrite sample_heard by (by right; left). by vm_compute. }
    rewrite Et. unfold ent. by vm_compute.
Defined.

(** C39: the length in the header is not compared with that of the packet: a Hello that lists
    nobody, with any other length in its header than its own, is read past its end. *)
Theorem ospf_hello_length_panics (h : OSPFHelloData) (md : OspfHdrMetadata) (srcIP srcMAC : bytes) (key : IntfConfKey) (s : OSPFServer) :
  let ent := intf_of key s in
  hello_ok h -> IfNetmask ent = hello_netmask h -> IfHelloInterval ent = helloInterval h -> IfRtrDeadInterval ent = rtrDeadInterval h ->
  backbone md = false \/ has_bits (hello_options h) EOption = true -> is_u16 (md_pktlen md) -> md_pktlen md <> 44 ->
  processRxHelloPkt (mkSlice (hello_body h) []) md srcIP srcMAC key s = Panic.
Proof.
  intros ent Hh H1 H2 H3 H4 H5 H6. unfold processRxHelloPkt. cbn [sl_bytes]. fold ent. rewrite hello_body_len by done. cbn [Z.ltb].
  rewrite <- (app_nil_r (hello_body h)) at 1. rewrite decodeOspfHelloData_ok by done. res_simpl. rewrite H1, H2, H3, !Z.eqb_refl.
  assert (Em : bytesEqual (hello_netmask h) (hello_netmask h) = true) by by apply bool_decide_eq_true.
  rewrite Em, andb_false_r. cbn [negb].
  replace (backbone md && (Z.land (hello_options h) EOption =? 0)) with false.
  - assert (Hn : exists n, Z.to_nat ((nbrlen md + 3) / 4) = S n).
    { exists (Z.to_nat ((nbrlen md + 3) / 4 - 1)). unfold nbrlen, OSPF_HELLO_MIN_SIZE, OSPF_HEADER_SIZE, u16, is_u16 in *. zlia. }
    destruct Hn as [n ->]. cbn [lists_router]. unfold sl_slice. cbn [sl_bytes sl_spare]. rewrite app_nil_r.
    unfold slice. rewrite hello_body_len by done. done.
  - destruct H4 as [->|H4]; [done|]. unfold has_bits in H4. apply negb_true_iff in H4 as ->. by rewrite andb_false_r.
Qed.

Lemma ospf_hello_length_panics_witness :
  processRxHelloPkt (mkSlice (hello_body (hello_of (sample_intf first_router) (sample_base first_router))) [])
    (mkOspfHdrMetadata HelloType 48 true [1; 1; 1; 1] 0) [10; 0; 0; 1] [] (port_of third_router) newcomer = Panic.
Proof. apply ospf_hello_length_panics; [split|..|right|split|]; by vm_compute. Defined.

(** ** Examples *)

(** An area outside the mask of the interface is the same area. *)
Example area_under_mask :
  let ent := sample_intf third_router in isInSubnet (IfAreaId ent) [0; 0; 0; 1] (IfNetmask ent) = true /\ IfAreaId ent <> [0; 0; 0; 1].
Proof. by vm_compute. Qed.

(** A ticker without an interval. *)
Example no_interval :
  StartSendRecvPkts in_order (port_of third_router)
    (put_intf (port_of third_router) (mkIntfConf [0; 0; 0; 0] Broadcast 1 0 40 (zeros 8) 0 ∅ None no_router no_router Down 0 0 0 [10; 0; 0; 3] [255; 255; 255; 0] 10)
      (NewOSPFServer [2; 2; 2; 2])) = Panic.
Proof. by vm_compute. Qed.

(** An interface that is stopped and started still has the designated router of before. *)
Example router_kept :
  match
    lan' ← run in_order port_of (sample_before ++ sample_after) sample_server;
    StartSendRecvPkts in_order (port_of third_router) (StopSendRecvPkts (port_of third_router) (lan' third_router))
  with
  | Ok s' => let ent := intf_of (port_of third_router) s' in Some (IfFSMState ent, IfDRIp ent)
  | _ => None
  end = Some (Waiting, [10; 0; 0; 1]).
Proof. by vm_compute. Qed.
