(* ===== verification/OspfLsdb.v ===== *)
(** * OSPF: the link state database

    Origination, installation, deletion and aging of LSAs, and the goroutine of the database:
    ospfLsdb.go, ospfLsdbTimer.go and the end of ospfLsa.go, src/ospf/server. The texts for the
    log of events are left out. *)

From S2P Require Import Prelude.
From S2P Require Import NetIP.
From S2P Require Import OspfUtil.
From S2P Require Import OspfLsa.
From S2P Require Import OspfServer.
From S2P Require Import OspfSpf.
From S2P Require Import OspfRoute.
From S2P Require Import OspfIntf.

Definition LsdbAdd : Z := 0.
Definition LsdbDel : Z := 1.
Definition LsdbUpdate : Z := 2.

Definition LSAFLOOD : Z := 0.
Definition LSASUMMARYFLOOD : Z := 4.
Definition LSAEXTFLOOD : Z := 5.
Definition LSAROUTERFLOOD : Z := 6.
Definition LSAAGE : Z := 3.

(** A route of another protocol. *)
Record RouteMdata := mkRouteMdata { ipaddr : Z; mask : Z; metric : Z; isDel : bool }.

(** ** Tables *)

Definition db_of (areaId : Z) (s : OSPFServer) : LSDatabase := default nil_LSDatabase (AreaLsdb s !! areaId).
Definition put_db (areaId : Z) (db : LSDatabase) (s : OSPFServer) : OSPFServer := set_AreaLsdb (<[areaId := db]> (AreaLsdb s)) s.
Definition self_of (areaId : Z) (s : OSPFServer) : SelfOrigLsa := default None (AreaSelfOrigLsa s !! areaId).
Definition put_self (areaId : Z) (m : SelfOrigLsa) (s : OSPFServer) : OSPFServer :=
  set_AreaSelfOrigLsa (<[areaId := m]> (AreaSelfOrigLsa s)) s.

(** Whether a key is there at all, and whether it is true. *)
Definition self_known (areaId : Z) (key : LsaKey) (s : OSPFServer) : bool := bool_decide (is_Some (default ∅ (self_of areaId s) !! key)).
Definition self_valid (areaId : Z) (key : LsaKey) (s : OSPFServer) : bool := default false (default ∅ (self_of areaId s) !! key).

(** An assignment into a nil map panics, a deletion does not. *)
Definition mark_self (areaId : Z) (key : LsaKey) (v : bool) (s : OSPFServer) : res OSPFServer :=
  m ← of_option (self_of areaId s); Ok (put_self areaId (Some (<[key := v]> m)) s).

Definition unmark_self (areaId : Z) (key : LsaKey) (s : OSPFServer) : OSPFServer :=
  put_self areaId (delete key <$> self_of areaId s) s.

Definition slice_ent (areaId : Z) (key : LsaKey) : LsdbSliceEnt := mkLsdbSliceEnt areaId (LSType key) (LSId key) (AdvRouter key).

Definition enter_slice (areaId : Z) (key : LsaKey) (s : OSPFServer) : OSPFServer :=
  set_LsdbSlice (LsdbSlice s ++ [slice_ent areaId key]) s.

Definition tell_database (areaId : Z) (key : LsaKey) (op : bool) (s : OSPFServer) : OSPFServer :=
  set_DbLsdbOp (DbLsdbOp s ++ [(slice_ent areaId key, op)]) s.

Definition zero_intf : IntfConfKey := mkIntfConfKey "" 0.
Definition zero_key : LsaKey := mkLsaKey 0 0 0.

(** The other fields of the message are zero. *)
Definition sendLsdbToNeighborEvent (intfKey : IntfConfKey) (areaId : Z) (lsaKey : LsaKey) (op : Z) (s : OSPFServer) : OSPFServer :=
  send (LsaUpdSend intfKey areaId lsaKey op) s.

(** [computeFletcherChecksum(LsaEnc[2:], 14)] *)
Definition lsa_checksum (enc : bytes) : res Z :=
  sub ← slice_from enc 2; '(csum, _) ← computeFletcherChecksum sub 14; Ok csum.

(** [computeFletcherChecksum(data[2:], FLETCHER_CHECKSUM_VALIDATE)] *)
Definition received_checksum (data : bytes) : res Z :=
  sub ← slice_from data 2; '(csum, _) ← computeFletcherChecksum sub FLETCHER_CHECKSUM_VALIDATE; Ok csum.

Definition set_age (age : Z) (md : LsaMetadata) : LsaMetadata :=
  mkLsaMetadata age (Options md) (LSSequenceNum md) (LSChecksum md) (LSLen md).
Definition set_checksum (csum : Z) (md : LsaMetadata) : LsaMetadata :=
  mkLsaMetadata (LSAge md) (Options md) (LSSequenceNum md) csum (LSLen md).

Definition with_r_md (f : LsaMetadata -> LsaMetadata) (l : RouterLsa) : RouterLsa :=
  mkRouterLsa (f (r_LsaMd l)) (BitV l) (BitE l) (BitB l) (NumOfLinks l) (LinkDetails l).
Definition with_n_md (f : LsaMetadata -> LsaMetadata) (l : NetworkLsa) : NetworkLsa :=
  mkNetworkLsa (f (n_LsaMd l)) (n_Netmask l) (AttachedRtr l).
Definition with_s_md (f : LsaMetadata -> LsaMetadata) (l : SummaryLsa) : SummaryLsa :=
  mkSummaryLsa (f (s_LsaMd l)) (s_Netmask l) (s_Metric l) (SummaryTOSDetails l).
Definition with_x_md (f : LsaMetadata -> LsaMetadata) (l : ASExternalLsa) : ASExternalLsa :=
  mkASExternalLsa (f (x_LsaMd l)) (x_Netmask l) (x_BitE l) (x_Metric l) (FwdAddr l) (ExtRouteTag l) (ASExtTOSDetails l).

(** ** The databases of the areas *)

Definition initLSDatabase (areaId : Z) (s : OSPFServer) : OSPFServer :=
  let s := match AreaLsdb s !! areaId with Some _ => s | None => put_db areaId (mkLSDatabase true ∅ ∅ ∅ ∅ ∅) s end in
  match AreaSelfOrigLsa s !! areaId with Some _ => s | None => put_self areaId (Some ∅) s end.

Section Lsdb.
(** The order of a map; commonDefs.IfTypeLoopback. *)
Context (range : forall A : Type, list A -> list A) (IfTypeLoopback : Z).

Definition StartLSDatabase (s : OSPFServer) : res OSPFServer :=
  s ← each (fun e s => areaId ← convertAreaOrRouterIdUint32 e.1; Ok (initLSDatabase areaId s)) (range _ (map_to_list (AreaConfMap s))) s;
  Ok (set_maxAgeLsaMap ∅ s).

(** lsdbStateRefFunc, which a timer calls. *)
Definition keys_of {A} (m : gmap LsaKey A) : list LsaKey := range _ (map fst (map_to_list m)).

Definition db_keys (db : LSDatabase) : list LsaKey :=
  keys_of (RouterLsaMap db) ++ keys_of (NetworkLsaMap db) ++ keys_of (Summary3LsaMap db) ++ keys_of (Summary4LsaMap db) ++
  keys_of (ASExternalLsaMap db).

Definition lsdbStateRefresh (s : OSPFServer) : OSPFServer :=
  set_LsdbSlice (concat (map (fun e => map (slice_ent e.1) (db_keys e.2)) (range _ (map_to_list (AreaLsdb s))))) s.

(** ** Summary LSAs *)

Definition summary_in (key : LsaKey) (db : LSDatabase) : SummaryLsa :=
  default NewSummaryLsa
    (if LSType key =? Summary3LSA then Summary3LsaMap db !! key
     else if LSType key =? Summary4LSA then Summary4LsaMap db !! key else None).

Definition put_summary (key : LsaKey) (lsa : SummaryLsa) (db : LSDatabase) : res LSDatabase :=
  if LSType key =? Summary3LSA then _ ← must (made db); Ok (set_Summary3LsaMap (<[key := lsa]> (Summary3LsaMap db)) db)
  else if LSType key =? Summary4LSA then _ ← must (made db); Ok (set_Summary4LsaMap (<[key := lsa]> (Summary4LsaMap db)) db)
  else Ok db.

Definition compareSummaryLsa (areaId : Z) (lsaKey : LsaKey) (lsaEnt : SummaryLsa) (s : OSPFServer) : bool :=
  let sLsa := summary_in lsaKey (db_of areaId s) in
  (s_Netmask sLsa =? s_Netmask lsaEnt) && (s_Metric sLsa =? s_Metric lsaEnt).

(** The LSA of the database with the new values and the number [seq]. *)
Definition write_summary (areaId : Z) (lsaKey : LsaKey) (lsaEnt : SummaryLsa) (seq : Z -> Z) (s : OSPFServer) : res OSPFServer :=
  let sLsa := summary_in lsaKey (db_of areaId s) in
  let sLsa := mkSummaryLsa (mkLsaMetadata 0 (Options (s_LsaMd lsaEnt)) (seq (LSSequenceNum (s_LsaMd sLsa))) 0 (LSLen (s_LsaMd lsaEnt)))
                (s_Netmask lsaEnt) (s_Metric lsaEnt) (SummaryTOSDetails sLsa) in
  enc ← encodeSummaryLsa sLsa lsaKey;
  csum ← lsa_checksum enc;
  db ← put_summary lsaKey (with_s_md (set_checksum csum) sLsa) (db_of areaId s);
  Ok (put_db areaId db s).

Definition updateSummaryLsa (areaId : Z) (lsaKey : LsaKey) (lsaEnt : SummaryLsa) (s : OSPFServer) : res OSPFServer :=
  write_summary areaId lsaKey lsaEnt (fun n => n + 1) s.

Definition insertSummaryLsa (areaId : Z) (lsaKey : LsaKey) (lsaEnt : SummaryLsa) (s : OSPFServer) : res OSPFServer :=
  s ← write_summary areaId lsaKey lsaEnt (fun _ => InitialSequenceNumber) s;
  s ← mark_self areaId lsaKey true s;
  Ok (tell_database areaId lsaKey true (enter_slice areaId lsaKey s)).

Definition flushSummaryLsa (areaId : Z) (lsaKey : LsaKey) (s : OSPFServer) : OSPFServer :=
  let db := db_of areaId s in
  put_db areaId
    (if LSType lsaKey =? Summary3LSA then set_Summary3LsaMap (delete lsaKey (Summary3LsaMap db)) db
     else if LSType lsaKey =? Summary4LSA then set_Summary4LsaMap (delete lsaKey (Summary4LsaMap db)) db else db)
    (unmark_self areaId lsaKey s).

Definition is_summary (key : LsaKey) : bool := (LSType key =? Summary3LSA) || (LSType key =? Summary4LSA).

(** A turn of the loop over the summaries of an area, and the loop over those that are gone. *)
Definition install_summary (areaId : Z) (e : LsaKey * SummaryLsa) (s : OSPFServer) : res OSPFServer :=
  if self_valid areaId e.1 s then
    if compareSummaryLsa areaId e.1 e.2 s then Ok s
    else s ← updateSummaryLsa areaId e.1 e.2 s; Ok (sendLsdbToNeighborEvent zero_intf areaId e.1 LSASUMMARYFLOOD s)
  else s ← insertSummaryLsa areaId e.1 e.2 s; Ok (sendLsdbToNeighborEvent zero_intf areaId e.1 LSASUMMARYFLOOD s).

Definition install_area (e : Z * gmap LsaKey SummaryLsa) (s : OSPFServer) : res OSPFServer :=
  let areaId := e.1 in
  let old := List.filter is_summary (keys_of (default ∅ (self_of areaId s))) in
  let gone := List.filter (fun k => negb (bool_decide (is_Some (e.2 !! k)) && self_valid areaId k s)) old in
  s ← each (install_summary areaId) (range _ (map_to_list e.2)) s;
  Ok (foldl (fun s k => flushSummaryLsa areaId k s) s gone).

Definition installSummaryLsa (s : OSPFServer) : res OSPFServer :=
  s ← each install_area (range _ (map_to_list (SummaryLsDb s))) s; Ok (set_SummaryLsDb ∅ s).

(** ** The LSAs of this router *)

(** The address of an interface, by its text. *)
Definition intf_address (ent : IntfConf) : res Z := convertAreaOrRouterIdUint32 (IP_String (IfIpAddr ent)).

Definition flushNetworkLSA (areaId : Z) (key : IntfConfKey) (s : OSPFServer) : res OSPFServer :=
  let ent := intf_of key s in
  AreaId ← convertIPv4ToUint32 (IfAreaId ent);
  if negb (areaId =? AreaId) || (IfFSMState ent <=? Waiting) then Ok s
  else
    lsid ← intf_address ent;
    rtr ← convertIPv4ToUint32 (RouterId s);
    let lsaKey := mkLsaKey NetworkLSA lsid rtr in
    let db := db_of areaId s in
    match NetworkLsaMap db !! lsaKey with
    | None => Ok s
    | Some lsa =>
      lsa_pkt ← encodeNetworkLsa (with_n_md (set_age MaxAge) lsa) lsaKey;
      let s := set_maxAgeLsaMap (<[lsaKey := lsa_pkt]> (maxAgeLsaMap s)) s in
      Ok (put_db areaId (set_NetworkLsaMap (delete lsaKey (NetworkLsaMap db)) db) (unmark_self areaId lsaKey s))
    end.

(** The routers of the adjacencies of an interface, each once. *)
Fixpoint distinct (ids : list Z) (attachedRtr : list Z) : list Z :=
  match ids with
  | [] => attachedRtr
  | i :: ids => distinct ids (if bool_decide (i ∈ attachedRtr) then attachedRtr else attachedRtr ++ [i])
  end.

Definition attached (key : IntfConfKey) (s : OSPFServer) : list Z :=
  distinct (map (nbr_router s) (default [] (ospfIntfToNbrMap s !! key))) [].

(** A new instance of an LSA that is there, or the first. *)
Definition next_number (old : option LsaMetadata) : Z :=
  match old with Some md => LSSequenceNum md + 1 | None => InitialSequenceNumber end.

Definition entered (areaId : Z) (lsaKey : LsaKey) (exist : bool) (s : OSPFServer) : OSPFServer :=
  if exist then s else tell_database areaId lsaKey true (enter_slice areaId lsaKey s).

Definition generateNetworkLSA (areaId : Z) (key : IntfConfKey) (s : OSPFServer) : res OSPFServer :=
  let ent := intf_of key s in
  AreaId ← convertIPv4ToUint32 (IfAreaId ent);
  if negb (areaId =? AreaId) || (IfFSMState ent <=? Waiting) then Ok s
  else
    netmask ← convertIPv4ToUint32 (IfNetmask ent);
    self ← convertIPv4ToUint32 (RouterId s);
    let attachedRtr := attached key s ++ [self] in
    if len attachedRtr <=? 1 then Ok s
    else
      lsid ← intf_address ent;
      let lsaKey := mkLsaKey NetworkLSA lsid self in
      let db := db_of areaId s in
      let old := NetworkLsaMap db !! lsaKey in
      let entry := mkNetworkLsa (mkLsaMetadata 0 2 (next_number (n_LsaMd <$> old)) 0 (u16 (OSPF_LSA_HEADER_SIZE + 4 + 4 * len attachedRtr)))
                     netmask attachedRtr in
      enc ← encodeNetworkLsa entry lsaKey;
      csum ← lsa_checksum enc;
      _ ← must (made db);
      let s := put_db areaId (set_NetworkLsaMap (<[lsaKey := with_n_md (set_checksum csum) entry]> (NetworkLsaMap db)) db) s in
      s ← mark_self areaId lsaKey true s;
      Ok (entered areaId lsaKey (bool_decide (is_Some old)) s).

Definition constructStubLinkP2P (ent : IntfConf) : res LinkDetail :=
  addr ← intf_address ent;
  netmask ← convertIPv4ToUint32 (IfNetmask ent);
  Ok (mkLinkDetail (Z.land addr netmask) netmask StubLink 0 (u16 (IfCost ent)) []).

(** The identifier of the first neighbor of a point-to-point link. *)
Definition first_neighbor (key : IntfConfKey) (s : OSPFServer) : Z :=
  match ospfIntfToNbrMap s !! key with Some (nbr :: _) => nbr_router s nbr | _ => 0 end.

Definition p2p_links (key : IntfConfKey) (ent : IntfConf) (data : res Z) (s : OSPFServer) : res (list LinkDetail) :=
  stub_link ← constructStubLinkP2P ent;
  if bool_decide (NeighborMap ent = ∅) then Ok [stub_link]
  else linkData ← data; Ok [stub_link; mkLinkDetail (first_neighbor key s) linkData P2PLink 0 (u16 (IfCost ent)) []].

(** The links of an interface of the area. *)
Definition intf_links (key : IntfConfKey) (ent : IntfConf) (s : OSPFServer) : res (list LinkDetail) :=
  if IfType ent =? Broadcast then
    if bool_decide (NeighborMap ent = ∅) then link ← constructStubLinkP2P ent; Ok [link]
    else
      linkId ← convertIPv4ToUint32 (IfDRIp ent);
      linkData ← intf_address ent;
      Ok [mkLinkDetail linkId linkData TransitLink 0 (u16 (IfCost ent)) []]
  else if IfType ent =? NumberedP2P then p2p_links key ent (intf_address ent) s
  else if IfType ent =? UnnumberedP2P then p2p_links key ent (Ok (u32 (IntfIdx key))) s
  else Ok [mkLinkDetail 0 0 0 0 0 []].

(** A turn of the loop over the interfaces. *)
Definition links_of (areaId : Z) (e : IntfConfKey * IntfConf) (s : OSPFServer) : res (list LinkDetail) :=
  ipKey ← convertAreaOrRouterIdUint32 (IPAddr e.1);
  AreaId ← convertIPv4ToUint32 (IfAreaId e.2);
  if negb (areaId =? AreaId) then Ok []
  else if (IfFSMState e.2 <=? Waiting) && negb ((default (0, 0) (ipPropertyMap s !! ipKey)).2 =? IfTypeLoopback) then Ok []
  else intf_links e.1 e.2 s.

Fixpoint all_links (areaId : Z) (l : list (IntfConfKey * IntfConf)) (s : OSPFServer) : res (list LinkDetail) :=
  match l with
  | [] => Ok []
  | e :: l => links ← links_of areaId e s; rest ← all_links areaId l s; Ok (links ++ rest)
  end.

Definition own_router_key (rtr : Z) : LsaKey := mkLsaKey RouterLSA rtr rtr.

Definition generateRouterLSA (areaId : Z) (s : OSPFServer) : res OSPFServer :=
  linkDetails ← all_links areaId (range _ (map_to_list (IntfConfMap s))) s;
  rtr ← convertIPv4ToUint32 (RouterId s);
  let lsaKey := own_router_key rtr in
  match AreaLsdb s !! areaId with
  | None => Ok s
  | Some db =>
    match linkDetails with
    | [] => Ok (put_db areaId (set_RouterLsaMap (delete lsaKey (RouterLsaMap db)) db) (unmark_self areaId lsaKey s))
    | _ =>
      let old := RouterLsaMap db !! lsaKey in
      let ent := mkRouterLsa (mkLsaMetadata 0 2 (next_number (r_LsaMd <$> old)) 0 (u16 (OSPF_LSA_HEADER_SIZE + 4 + 12 * len linkDetails)))
                   (match old with Some l => BitV l | None => false end) false (AreaBdrRtrStatus s) (u16 (len linkDetails)) linkDetails in
      enc ← encodeRouterLsa ent lsaKey;
      csum ← lsa_checksum enc;
      _ ← must (made db);
      let s := put_db areaId (set_RouterLsaMap (<[lsaKey := with_r_md (set_checksum csum) ent]> (RouterLsaMap db)) db) s in
      s ← mark_self areaId lsaKey true s;
      Ok (entered areaId lsaKey (bool_decide (is_Some old)) s)
    end
  end.

(** A route of another protocol in the database of one area. The age is reset behind the
    checksum. *)
Definition external_in_area (route : RouteMdata) (lsaKey : LsaKey) (areaId : Z) (s : OSPFServer) : res OSPFServer :=
  let db := db_of areaId s in
  let old := ASExternalLsaMap db !! lsaKey in
  let md := match old with
            | None => mkLsaMetadata 0 0x20 InitialSequenceNumber 0 (u16 (OSPF_LSA_HEADER_SIZE + 16))
            | Some l =>
              if isDel route then mkLsaMetadata LSA_MAX_AGE 0x20 (LSSequenceNum (x_LsaMd l)) 0 (u16 (OSPF_LSA_HEADER_SIZE + 16))
              else mkLsaMetadata (LSAge (x_LsaMd l)) 0x20 (LSSequenceNum (x_LsaMd l) + 1) 0 (u16 (OSPF_LSA_HEADER_SIZE + 16))
            end in
  let ent := mkASExternalLsa md (mask route) true (metric route) 0 0 (match old with Some l => ASExtTOSDetails l | None => [] end) in
  enc ← encodeASExternalLsa ent lsaKey;
  csum ← lsa_checksum enc;
  _ ← must (made db);
  let ent := with_x_md (fun md => set_age 0 (set_checksum csum md)) ent in
  let s := put_db areaId (set_ASExternalLsaMap (<[lsaKey := ent]> (ASExternalLsaMap db)) db) s in
  s ← mark_self areaId lsaKey (negb (isDel route)) s;
  Ok (entered areaId lsaKey (bool_decide (is_Some old)) s).

Definition generateASExternalLsa (route : RouteMdata) (s : OSPFServer) : res (OSPFServer * LsaKey) :=
  rtr ← convertIPv4ToUint32 (RouterId s);
  let lsaKey := mkLsaKey ASExternalLSA (Z.land (ipaddr route) (mask route)) rtr in
  s ← each (external_in_area route lsaKey) (range _ (map fst (map_to_list (AreaLsdb s)))) s;
  Ok (s, lsaKey).

Definition updateAsExternalLSA (areaId : Z) (lsaKey : LsaKey) (s : OSPFServer) : res OSPFServer :=
  match AreaLsdb s !! areaId with
  | None => Ok s
  | Some db =>
    match ASExternalLsaMap db !! lsaKey with
    | None => Ok s
    | Some ent =>
      enc ← encodeASExternalLsa ent lsaKey;
      csum ← lsa_checksum enc;
      let ent := with_x_md (fun md => set_age 0 (set_checksum csum md)) ent in
      Ok (entered areaId lsaKey false (put_db areaId (set_ASExternalLsaMap (<[lsaKey := ent]> (ASExternalLsaMap db)) db) s))
    end
  end.

Definition processExtRouteUpd (route : RouteMdata) (s : OSPFServer) : res OSPFServer :=
  '(s, lsaKey) ← generateASExternalLsa route s;
  Ok (if isDel route then s else sendLsdbToNeighborEvent zero_intf 0 lsaKey LSAEXTFLOOD s).

(** ** LSAs of other routers

    The result says whether the LSA has been taken. *)

(** An instance that is there is replaced by a newer one only. *)
Definition newer (old : option LsaMetadata) (md : LsaMetadata) : bool :=
  match old with Some o => LSSequenceNum o <? LSSequenceNum md | None => true end.

Definition processRecvdRouterLsa (data : bytes) (areaId : Z) (s : OSPFServer) : res (OSPFServer * bool) :=
  '(routerLsa, lsakey) ← decodeRouterLsa data;
  csum ← received_checksum data;
  if negb (csum =? 0) then Ok (s, false)
  else
    let db := db_of areaId s in
    _ ← must (made db);
    let exist := self_known areaId lsakey s in
    let s := put_db areaId (set_RouterLsaMap (<[lsakey := routerLsa]> (RouterLsaMap db)) db) s in
    Ok (entered areaId lsakey exist s, true).

(** The database is not told. *)
Definition processRecvdNetworkLsa (data : bytes) (areaId : Z) (s : OSPFServer) : res (OSPFServer * bool) :=
  '(networkLsa, lsakey) ← decodeNetworkLsa data;
  if self_known areaId lsakey s then Ok (s, false)
  else
    csum ← received_checksum data;
    if negb (csum =? 0) then Ok (s, false)
    else
      let db := db_of areaId s in
      let old := NetworkLsaMap db !! lsakey in
      if negb (newer (n_LsaMd <$> old) (n_LsaMd networkLsa)) then Ok (s, false)
      else
        _ ← must (made db);
        let s := put_db areaId (set_NetworkLsaMap (<[lsakey := networkLsa]> (NetworkLsaMap db)) db) s in
        Ok (match old with Some _ => s | None => enter_slice areaId lsakey s end, true).

(** The variable tested at the end is that of the own LSAs, which is false there. *)
Definition processRecvdSummaryLsa (data : bytes) (areaId lsaType : Z) (s : OSPFServer) : res (OSPFServer * bool) :=
  '(summaryLsa, lsakey) ← decodeSummaryLsa data;
  if self_known areaId lsakey s then Ok (s, false)
  else
    csum ← received_checksum data;
    if negb (csum =? 0) then Ok (s, false)
    else
      let db := db_of areaId s in
      if lsaType =? Summary3LSA then
        if negb (newer (s_LsaMd <$> Summary3LsaMap db !! lsakey) (s_LsaMd summaryLsa)) then Ok (s, false)
        else
          _ ← must (made db);
          Ok (entered areaId lsakey false (put_db areaId (set_Summary3LsaMap (<[lsakey := summaryLsa]> (Summary3LsaMap db)) db) s), true)
      else if lsaType =? Summary4LSA then
        if negb (newer (s_LsaMd <$> Summary4LsaMap db !! lsakey) (s_LsaMd summaryLsa)) then Ok (s, false)
        else
          _ ← must (made db);
          Ok (entered areaId lsakey false (put_db areaId (set_Summary4LsaMap (<[lsakey := summaryLsa]> (Summary4LsaMap db)) db) s), true)
      else Ok (s, false).

Definition processRecvdASExternalLsa (data : bytes) (areaId : Z) (s : OSPFServer) : res (OSPFServer * bool) :=
  '(asExtLsa, lsakey) ← decodeASExternalLsa data;
  if self_known areaId lsakey s then Ok (s, false)
  else
    csum ← received_checksum data;
    if negb (csum =? 0) then Ok (s, false)
    else
      let db := db_of areaId s in
      let old := ASExternalLsaMap db !! lsakey in
      if negb (newer (x_LsaMd <$> old) (x_LsaMd asExtLsa)) then Ok (s, false)
      else
        _ ← must (made db);
        let s := put_db areaId (set_ASExternalLsaMap (<[lsakey := asExtLsa]> (ASExternalLsaMap db)) db) s in
        Ok (entered areaId lsakey (bool_decide (is_Some old)) s, true).

Definition processRecvdLsa (data : bytes) (areaId : Z) (s : OSPFServer) : res (OSPFServer * bool) :=
  typ ← index data 3;
  if typ =? RouterLSA then processRecvdRouterLsa data areaId s
  else if typ =? NetworkLSA then processRecvdNetworkLsa data areaId s
  else if typ =? Summary3LSA then processRecvdSummaryLsa data areaId typ s
  else if typ =? Summary4LSA then processRecvdSummaryLsa data areaId typ s
  else if typ =? ASExternalLSA then processRecvdASExternalLsa data areaId s
  else Ok (s, false).

Definition processDeleteRouterLsa (data : bytes) (areaId : Z) (s : OSPFServer) : res OSPFServer :=
  '(_, lsakey) ← decodeRouterLsa data;
  let db := db_of areaId s in Ok (put_db areaId (set_RouterLsaMap (delete lsakey (RouterLsaMap db)) db) s).

Definition processDeleteNetworkLsa (data : bytes) (areaId : Z) (s : OSPFServer) : res OSPFServer :=
  '(_, lsakey) ← decodeNetworkLsa data;
  let db := db_of areaId s in Ok (put_db areaId (set_NetworkLsaMap (delete lsakey (NetworkLsaMap db)) db) s).

Definition processDeleteSummaryLsa (data : bytes) (areaId lsaType : Z) (s : OSPFServer) : res OSPFServer :=
  '(_, lsakey) ← decodeSummaryLsa data;
  let db := db_of areaId s in
  let db := if lsaType =? Summary3LSA then set_Summary3LsaMap (delete lsakey (Summary3LsaMap db)) db
            else if lsaType =? Summary4LSA then set_Summary4LsaMap (delete lsakey (Summary4LsaMap db)) db else db in
  Ok (tell_database areaId lsakey false (put_db areaId db s)).

Definition processDeleteASExternalLsa (data : bytes) (areaId : Z) (s : OSPFServer) : res OSPFServer :=
  '(_, lsakey) ← decodeASExternalLsa data;
  let db := db_of areaId s in
  Ok (tell_database areaId lsakey false (put_db areaId (set_ASExternalLsaMap (delete lsakey (ASExternalLsaMap db)) db) s)).

Definition processDeleteLsa (data : bytes) (areaId : Z) (s : OSPFServer) : res OSPFServer :=
  typ ← index data 3;
  if typ =? RouterLSA then processDeleteRouterLsa data areaId s
  else if typ =? NetworkLSA then processDeleteNetworkLsa data areaId s
  else if typ =? Summary3LSA then processDeleteSummaryLsa data areaId typ s
  else if typ =? Summary4LSA then processDeleteSummaryLsa data areaId typ s
  else if typ =? ASExternalLSA then processDeleteASExternalLsa data areaId s
  else Ok s.

(** ** Aging *)

(** The LSAs of one map: those that are left, those that are to be flooded, and whether there
    are any of these. The age is a uint16. *)
Definition age_lsa {L} (age_of : L -> Z) (older : L -> L) (encode : L -> LsaKey -> res bytes)
  (c : gmap LsaKey L * gmap LsaKey bytes * bool) (e : LsaKey * L) : res (gmap LsaKey L * gmap LsaKey bytes * bool) :=
  let '(m, dead, flood) := c in
  if age_of e.2 =? MaxAge then lsa_pkt ← encode e.2 e.1; Ok (delete e.1 m, <[e.1 := lsa_pkt]> dead, true)
  else Ok (<[e.1 := older e.2]> m, dead, flood).

Definition age_map {L} (age_of : L -> Z) (older : L -> L) (encode : L -> LsaKey -> res bytes) (m : gmap LsaKey L)
  (dead : gmap LsaKey bytes) (flood : bool) : res (gmap LsaKey L * gmap LsaKey bytes * bool) :=
  turns (age_lsa age_of older encode) (range _ (map_to_list m)) (m, dead, flood).

Definition one_older (md : LsaMetadata) : LsaMetadata := set_age (u16 (LSAge md + 1)) md.

Definition processMaxAgeLSA (areaId : Z) (s : OSPFServer) : res OSPFServer :=
  let db := db_of areaId s in
  '(router, dead, flood) ← age_map (fun l => LSAge (r_LsaMd l)) (with_r_md one_older) encodeRouterLsa (RouterLsaMap db) (maxAgeLsaMap s) false;
  '(network, dead, flood) ← age_map (fun l => LSAge (n_LsaMd l)) (with_n_md one_older) encodeNetworkLsa (NetworkLsaMap db) dead flood;
  '(external, dead, flood) ← age_map (fun l => LSAge (x_LsaMd l)) (with_x_md one_older) encodeASExternalLsa (ASExternalLsaMap db) dead flood;
  '(summary3, dead, flood) ← age_map (fun l => LSAge (s_LsaMd l)) (with_s_md one_older) encodeSummaryLsa (Summary3LsaMap db) dead flood;
  '(summary4, dead, flood) ← age_map (fun l => LSAge (s_LsaMd l)) (with_s_md one_older) encodeSummaryLsa (Summary4LsaMap db) dead flood;
  let s := set_maxAgeLsaMap dead (put_db areaId (mkLSDatabase (made db) router network summary3 summary4 external) s) in
  Ok (if flood : bool then send (LsaUpdSend zero_intf 0 zero_key LSAAGE) s else s).

Definition processLSDatabaseTicker (s : OSPFServer) : res OSPFServer :=
  each processMaxAgeLSA (range _ (map fst (map_to_list (AreaLsdb s)))) s.

Inductive MaxAgeMsg := AddMaxAgeLsa (lsaKey : LsaKey) (pkt : bytes) | DelMaxAgeLsa (lsaKey : LsaKey).

Definition processMaxAgeLsaMsg (m : MaxAgeMsg) (s : OSPFServer) : OSPFServer :=
  set_maxAgeLsaMap (match m with AddMaxAgeLsa k pkt => <[k := pkt]> (maxAgeLsaMap s) | DelMaxAgeLsa k => delete k (maxAgeLsaMap s) end) s.

(** ** Refresh *)

Definition regenerateLsa (areaId : Z) (lsaKey : LsaKey) (s : OSPFServer) : res OSPFServer :=
  if LSType lsaKey =? RouterLSA then generateRouterLSA areaId s
  else if LSType lsaKey =? NetworkLSA then
    _ ← Uint32 (RouterId s);
    let intfKey := mkIntfConfKey (convertUint32ToIPv4 (LSId lsaKey)) 0 in
    match IntfConfMap s !! intfKey with Some _ => generateNetworkLSA areaId intfKey s | None => Ok s end
  else if LSType lsaKey =? ASExternalLSA then updateAsExternalLSA areaId lsaKey s
  else Ok s.

Definition refresh_lsa (first : bool) (areaId : Z) (e : LsaKey * bool) (s : OSPFServer) : res OSPFServer :=
  if e.2 then
    s ← regenerateLsa areaId e.1 s;
    Ok (if first && (LSType e.1 =? ASExternalLSA) then sendLsdbToNeighborEvent zero_intf 0 e.1 LSAEXTFLOOD s else s)
  else Ok s.

(** The areas; the external LSAs of the first are flooded. *)
Fixpoint refresh_areas (first : bool) (l : list (Z * SelfOrigLsa)) (s : OSPFServer) : res OSPFServer :=
  match l with
  | [] => Ok s
  | e :: l => s ← each (refresh_lsa first e.1) (range _ (map_to_list (default ∅ e.2))) s; refresh_areas false l s
  end.

Definition lsdbSelfLsaRefresh (s : OSPFServer) : res OSPFServer :=
  s ← refresh_areas true (range _ (map_to_list (AreaSelfOrigLsa s))) s;
  s ← GenerateSummaryLsa range s;
  each (fun e s => areaid ← convertIPv4ToUint32 (IfAreaId e.2); Ok (sendLsdbToNeighborEvent e.1 areaid zero_key LSAFLOOD s))
    (range _ (map_to_list (IntfConfMap s))) s.

(** ** The goroutine of the database *)

Definition processInterfaceChangeMsg (areaId : Z) (intfKey : IntfConfKey) (intfState : Z) (s : OSPFServer) : res OSPFServer :=
  let s := if intfState =? Intf_Down then send (NeighborIntf intfKey) s else s in
  rtr ← convertIPv4ToUint32 (RouterId s);
  Ok (sendLsdbToNeighborEvent intfKey areaId (own_router_key rtr) LSAROUTERFLOOD s).

Definition processNeighborFullEvent (areaId : Z) (intf : IntfConfKey) (s : OSPFServer) : res OSPFServer :=
  rtr_id ← Uint32 (RouterId s);
  let intConf := intf_of intf s in
  s ← (if (IfDRtrId intConf =? rtr_id) && (IfType intConf =? Broadcast) then generateNetworkLSA areaId intf s else Ok s);
  s ← generateRouterLSA areaId s;
  Ok (sendLsdbToNeighborEvent intf areaId zero_key LSAFLOOD s).

Definition processDrBdrChangeMsg (areaId : Z) (intfKey : IntfConfKey) (s : OSPFServer) : res OSPFServer :=
  let intf := intf_of intfKey s in
  s ← (if bool_decide (NeighborMap intf = ∅) then Ok s
       else
         rtr_id ← Uint32 (RouterId s);
         if IfDRtrId intf =? rtr_id then generateNetworkLSA areaId intfKey s else Ok s);
  s ← generateRouterLSA areaId s;
  Ok (sendLsdbToNeighborEvent intfKey areaId zero_key LSAFLOOD s).

Inductive LsdbInput :=
| LsdbUpdateMsg (MsgType AreaId : Z) (Data : bytes)
| IntfStateChangeMsg (areaId : Z) (intfKey : IntfConfKey) (intfState : Z)
| DrChangeMsg (areaId : Z) (intfKey : IntfConfKey)
| NbrMdataMsg (areaId : Z) (intf : IntfConfKey)
| ExternalRouteNotif (route : RouteMdata)
| MaxAgeLsaMsg (m : MaxAgeMsg)
| LsdbTick
| LsdbRefreshTick.

(** The parameters of the calculation. *)
Context (GetIfIndexFromIntfIdAndIntfType : Z -> Z -> Z) (sort : list VertexData -> list VertexData).

(** The goroutine waits for the calculation. *)
Definition recalculate (s : OSPFServer) : res OSPFServer := spfCalculation range GetIfIndexFromIntfIdAndIntfType sort s.

Definition install_summaries (s : OSPFServer) : res OSPFServer := if AreaBdrRtrStatus s then installSummaryLsa s else Ok s.

(** A turn of processLSDatabaseUpdates. *)
Definition lsdb_step (i : LsdbInput) (s : OSPFServer) : res OSPFServer :=
  match i with
  | LsdbUpdateMsg MsgType AreaId Data =>
    if (MsgType =? LsdbAdd) || (MsgType =? LsdbUpdate) then
      '(s, _) ← processRecvdLsa Data AreaId s; s ← recalculate s; install_summaries s
    else if MsgType =? LsdbDel then s ← processDeleteLsa Data AreaId s; s ← recalculate s; install_summaries s
    else Ok s
  | IntfStateChangeMsg areaId intfKey intfState =>
    s ← generateRouterLSA areaId s;
    s ← recalculate s;
    s ← processInterfaceChangeMsg areaId intfKey intfState s;
    install_summaries s
  | DrChangeMsg areaId intfKey => s ← processDrBdrChangeMsg areaId intfKey s; s ← recalculate s; install_summaries s
  | NbrMdataMsg areaId intf => s ← processNeighborFullEvent areaId intf s; s ← recalculate s; install_summaries s
  | ExternalRouteNotif route => processExtRouteUpd route s
  | MaxAgeLsaMsg m => Ok (processMaxAgeLsaMsg m s)
  | LsdbTick => processLSDatabaseTicker s
  | LsdbRefreshTick => lsdbSelfLsaRefresh s
  end.
End Lsdb.
