(* ===== verification/OspfLsdbSpec.v ===== *)
(** * OSPF: the databases as the rest of the daemon sees them

    What every input leaves alone, the databases as one map from keys to LSAs, and how LSAs
    are received, aged and made. *)

From S2P Require Import Prelude.
From S2P Require Import NetIP.
From S2P Require Import OspfUtil.
From S2P Require Import OspfLsa.
From S2P Require Import OspfLsaSpec.
From S2P Require Import OspfServer.
From S2P Require Import OspfSpf.
From S2P Require Import OspfRoute.
From S2P Require Import OspfRouteProps.
From S2P Require Import OspfIntf.
From S2P Require Import OspfLsdb.

#[local] Arguments convertUint32ToIPv4 : simpl never.

(** ** Outcomes *)

(** What holds of the value if there is one. *)
Definition ends {A} (m : res A) (Q : A -> Prop) : Prop := match m with Ok a => Q a | _ => True end.

Lemma ends_bind {A B} (m : res A) (k : A -> res B) (P : A -> Prop) (Q : B -> Prop) :
  ends m P -> (forall a, P a -> ends (k a) Q) -> ends (m ≫= k) Q.
Proof. destruct m; cbn; auto. Qed.

Lemma ends_step {A B} (m : res A) (k : A -> res B) (Q : B -> Prop) : (forall a, m = Ok a -> ends (k a) Q) -> ends (m ≫= k) Q.
Proof. destruct m; cbn; auto. Qed.

Lemma ends_must {B} b (k : unit -> res B) (Q : B -> Prop) : (b = true -> ends (k tt) Q) -> ends (must b ≫= k) Q.
Proof. destruct b; cbn; auto. Qed.

Lemma ends_ok {A} (m : res A) (Q : A -> Prop) a : ends m Q -> m = Ok a -> Q a.
Proof. by intros H ->. Qed.

Lemma ends_all {A} (m : res A) (Q : A -> Prop) : (forall a, m = Ok a -> Q a) -> ends m Q.
Proof. destruct m; cbn; auto. Qed.

(** ** The types in the databases *)

(** The keys of a map are of its type, a router LSA has as many links as it says, and a
    database that has not been made is the zero value. *)
Record db_typed (db : LSDatabase) : Prop := {
  dt_router : forall k l, RouterLsaMap db !! k = Some l -> LSType k = RouterLSA /\ NumOfLinks l <= len (LinkDetails l);
  dt_network : forall k, is_Some (NetworkLsaMap db !! k) -> LSType k = NetworkLSA;
  dt_summary3 : forall k, is_Some (Summary3LsaMap db !! k) -> LSType k = Summary3LSA;
  dt_summary4 : forall k, is_Some (Summary4LsaMap db !! k) -> LSType k = Summary4LSA;
  dt_external : forall k, is_Some (ASExternalLsaMap db !! k) -> LSType k = ASExternalLSA;
  dt_nil : made db = false -> db = nil_LSDatabase;
}.

Definition lsdb_typed (s : OSPFServer) : Prop := forall areaId db, AreaLsdb s !! areaId = Some db -> db_typed db.

(** Both tables of an area are there. *)
Definition area_made (areaId : Z) (s : OSPFServer) : Prop := made (db_of areaId s) = true /\ is_Some (self_of areaId s).

Definition keeps (s s' : OSPFServer) : Prop :=
  (lsdb_typed s -> lsdb_typed s') /\ forall areaId, area_made areaId s -> area_made areaId s'.

Lemma nil_typed : db_typed nil_LSDatabase.
Proof. split; cbn; first [done | intros k l Hx; by rewrite lookup_empty in Hx | intros k [l Hx]; by rewrite lookup_empty in Hx]. Qed.

Lemma empty_typed : db_typed (mkLSDatabase true ∅ ∅ ∅ ∅ ∅).
Proof. split; cbn; first [done | intros k l Hx; by rewrite lookup_empty in Hx | intros k [l Hx]; by rewrite lookup_empty in Hx]. Qed.

Lemma db_of_typed areaId s : lsdb_typed s -> db_typed (db_of areaId s).
Proof. unfold db_of. intros H. destruct (AreaLsdb s !! areaId) as [db|] eqn:E; cbn; [by eapply H|apply nil_typed]. Qed.

Lemma keeps_refl s : keeps s s.
Proof. by split. Qed.

Lemma keeps_trans s1 s2 s3 : keeps s1 s2 -> keeps s2 s3 -> keeps s1 s3.
Proof. intros [T1 M1] [T2 M2]. split; auto. Qed.

Lemma keeps_same s s1 s2 : AreaLsdb s2 = AreaLsdb s1 -> AreaSelfOrigLsa s2 = AreaSelfOrigLsa s1 -> keeps s s1 -> keeps s s2.
Proof.
  intros E1 E2 [T M]. split; [intros Ht a db; rewrite E1; by apply T|].
  intros a Ha. specialize (M a Ha). unfold area_made, db_of, self_of in *. by rewrite E1, E2.
Qed.

Lemma db_of_put areaId db s : db_of areaId (put_db areaId db s) = db.
Proof. unfold db_of, put_db. cbn. by rewrite lookup_insert_eq. Qed.

Lemma db_of_put_ne a areaId db s : a <> areaId -> db_of a (put_db areaId db s) = db_of a s.
Proof. intros H. unfold db_of, put_db. cbn. by rewrite lookup_insert_ne. Qed.

Lemma keeps_put areaId db s s1 :
  keeps s s1 -> (db_typed (db_of areaId s1) -> db_typed db) -> (made (db_of areaId s1) = true -> made db = true) ->
  keeps s (put_db areaId db s1).
Proof.
  intros K Ht Hm. eapply keeps_trans; [exact K|]. split.
  - intros T a d. unfold put_db. cbn. destruct (decide (a = areaId)) as [->|Hne].
    + rewrite lookup_insert_eq. intros [= <-]. by apply Ht, db_of_typed.
    + rewrite lookup_insert_ne by done. apply T.
  - intros a [H1 H2]. split; [|done]. destruct (decide (a = areaId)) as [->|Hne].
    + rewrite db_of_put. auto.
    + by rewrite db_of_put_ne.
Qed.

Lemma self_of_put areaId m s : self_of areaId (put_self areaId m s) = m.
Proof. unfold self_of, put_self. cbn. by rewrite lookup_insert_eq. Qed.

Lemma self_of_put_ne a areaId m s : a <> areaId -> self_of a (put_self areaId m s) = self_of a s.
Proof. intros H. unfold self_of, put_self. cbn. by rewrite lookup_insert_ne. Qed.

Lemma keeps_self areaId m s s1 : keeps s s1 -> (is_Some (self_of areaId s1) -> is_Some m) -> keeps s (put_self areaId m s1).
Proof.
  intros K Hm. eapply keeps_trans; [exact K|]. split; [done|]. intros a [H1 H2]. split; [done|].
  destruct (decide (a = areaId)) as [->|Hne]; [rewrite self_of_put; auto|by rewrite self_of_put_ne].
Qed.

Lemma keeps_mark s areaId key v s1 : keeps s s1 -> ends (mark_self areaId key v s1) (keeps s).
Proof. intros K. unfold mark_self. destruct (self_of areaId s1); cbn; [|done]. by apply keeps_self. Qed.

Lemma keeps_unmark s areaId key s1 : keeps s s1 -> keeps s (unmark_self areaId key s1).
Proof. intros K. apply keeps_self; [done|]. intros [m ->]. by eexists. Qed.

Lemma keeps_entered s areaId key exist s1 : keeps s s1 -> keeps s (entered areaId key exist s1).
Proof. unfold entered. destruct exist; [done|]. by apply keeps_same. Qed.

Lemma keeps_each {A} (f : A -> OSPFServer -> res OSPFServer) l s s1 :
  (forall x s1, keeps s s1 -> ends (f x s1) (keeps s)) -> keeps s s1 -> ends (each f l s1) (keeps s).
Proof.
  intros Hf. revert s1. induction l as [|x l IH]; intros s1 K; [done|]. cbn [each].
  eapply ends_bind; [by apply Hf|]. auto.
Qed.

(** What is entered or deleted in one map. *)
Ltac typed_db :=
  let H := fresh "H" in
  intros H; split; cbn;
  [ intros k l
  | intros k | intros k | intros k | intros k
  | let Hm := fresh in intros Hm; first [congruence | rewrite (dt_nil _ H Hm); cbn; by rewrite ?delete_empty] ];
  first
    [ by apply (dt_router _ H) | by apply (dt_network _ H) | by apply (dt_summary3 _ H) | by apply (dt_summary4 _ H)
    | by apply (dt_external _ H)
    | rewrite lookup_insert_Some; intros [[<- <-]|[_ ?]]; [done|by apply (dt_router _ H)]
    | rewrite lookup_insert_is_Some'; intros [<-|?];
      [done|first [by apply (dt_network _ H) | by apply (dt_summary3 _ H) | by apply (dt_summary4 _ H) | by apply (dt_external _ H)]]
    | rewrite lookup_delete_Some; intros [_ ?]; by apply (dt_router _ H)
    | rewrite lookup_delete_is_Some; intros [_ ?];
      first [by apply (dt_network _ H) | by apply (dt_summary3 _ H) | by apply (dt_summary4 _ H) | by apply (dt_external _ H)] ].

Lemma typed_router key lsa db : made db = true -> LSType key = RouterLSA -> NumOfLinks lsa <= len (LinkDetails lsa) ->
  db_typed db -> db_typed (set_RouterLsaMap (<[key := lsa]> (RouterLsaMap db)) db).
Proof. intros Hm Hk Hl. typed_db. Qed.
Lemma typed_network key lsa db : made db = true -> LSType key = NetworkLSA ->
  db_typed db -> db_typed (set_NetworkLsaMap (<[key := lsa]> (NetworkLsaMap db)) db).
Proof. intros Hm Hk. typed_db. Qed.
Lemma typed_summary3 key lsa db : made db = true -> LSType key = Summary3LSA ->
  db_typed db -> db_typed (set_Summary3LsaMap (<[key := lsa]> (Summary3LsaMap db)) db).
Proof. intros Hm Hk. typed_db. Qed.
Lemma typed_summary4 key lsa db : made db = true -> LSType key = Summary4LSA ->
  db_typed db -> db_typed (set_Summary4LsaMap (<[key := lsa]> (Summary4LsaMap db)) db).
Proof. intros Hm Hk. typed_db. Qed.
Lemma typed_external key lsa db : made db = true -> LSType key = ASExternalLSA ->
  db_typed db -> db_typed (set_ASExternalLsaMap (<[key := lsa]> (ASExternalLsaMap db)) db).
Proof. intros Hm Hk. typed_db. Qed.
Lemma typed_delete_router key db : db_typed db -> db_typed (set_RouterLsaMap (delete key (RouterLsaMap db)) db).
Proof. typed_db. Qed.
Lemma typed_delete_network key db : db_typed db -> db_typed (set_NetworkLsaMap (delete key (NetworkLsaMap db)) db).
Proof. typed_db. Qed.
Lemma typed_delete_summary3 key db : db_typed db -> db_typed (set_Summary3LsaMap (delete key (Summary3LsaMap db)) db).
Proof. typed_db. Qed.
Lemma typed_delete_summary4 key db : db_typed db -> db_typed (set_Summary4LsaMap (delete key (Summary4LsaMap db)) db).
Proof. typed_db. Qed.
Lemma typed_delete_external key db : db_typed db -> db_typed (set_ASExternalLsaMap (delete key (ASExternalLsaMap db)) db).
Proof. typed_db. Qed.

Create HintDb lsdb.
#[export] Hint Resolve typed_router typed_network typed_summary3 typed_summary4 typed_external typed_delete_router
  typed_delete_network typed_delete_summary3 typed_delete_summary4 typed_delete_external : lsdb.
#[export] Hint Resolve keeps_refl keeps_put keeps_unmark keeps_entered keeps_mark : lsdb.

(** ** What is read from a packet *)

Lemma metadata_type data md key : decode_metadata data = Ok (md, key) -> index data 3 = Ok (LSType key).
Proof. unfold decode_metadata. intros H. res_inv H. by simplify_eq. Qed.

Lemma links_count n data i links : decode_links n data i = Ok links -> length links = n.
Proof.
  revert i links. induction n as [|n IH]; intros i links; cbn [decode_links]; [by intros [= <-]|].
  intros H. res_inv H. repeat match goal with x : (_ * _)%type |- _ => destruct x end. res_inv H. subst links. cbn. f_equal. by eapply IH.
Qed.

Lemma router_decoded data l key : decodeRouterLsa data = Ok (l, key) ->
  index data 3 = Ok (LSType key) /\ NumOfLinks l <= len (LinkDetails l).
Proof.
  unfold decodeRouterLsa. destruct (decode_metadata data) as [[md k]| | |] eqn:E; try done. res_simpl. intros H. res_inv H.
  simplify_eq. split; [by eapply metadata_type|]. cbn. apply links_count in E2. unfold len. lia.
Qed.

Lemma network_decoded data l key : decodeNetworkLsa data = Ok (l, key) -> index data 3 = Ok (LSType key).
Proof.
  unfold decodeNetworkLsa. destruct (decode_metadata data) as [[md k]| | |] eqn:E; try done. res_simpl. intros H. res_inv H.
  simplify_eq. by eapply metadata_type.
Qed.

Lemma summary_decoded data l key : decodeSummaryLsa data = Ok (l, key) -> index data 3 = Ok (LSType key).
Proof.
  unfold decodeSummaryLsa. destruct (decode_metadata data) as [[md k]| | |] eqn:E; try done. res_simpl. intros H. res_inv H.
  simplify_eq. by eapply metadata_type.
Qed.

Lemma external_decoded data l key : decodeASExternalLsa data = Ok (l, key) -> index data 3 = Ok (LSType key).
Proof.
  unfold decodeASExternalLsa. destruct (decode_metadata data) as [[md k]| | |] eqn:E; try done. res_simpl. intros H. res_inv H.
  simplify_eq. by eapply metadata_type.
Qed.

(** ** One map a second later *)

Section Aging.
Context (range : forall A : Type, list A -> list A) (Hrange : forall A (l : list A), Permutation (range A l) l).
Context {L : Type} (age_of : L -> Z) (older : L -> L) (encode : L -> LsaKey -> res bytes).

Definition expires (l : L) : bool := age_of l =? MaxAge.
Definition second_later (l : L) : option L := if expires l then None else Some (older l).

(** What the map and the LSAs to be flooded have at [k] behind a tick; the LSA there was [o]. *)
Definition ticked (k : LsaKey) (o : option L) (m : gmap LsaKey L) (dead dead' : gmap LsaKey bytes) : Prop :=
  match o with
  | Some l => m !! k = second_later l /\
              if expires l then exists pkt, encode l k = Ok pkt /\ dead' !! k = Some pkt else dead' !! k = dead !! k
  | None => m !! k = None /\ dead' !! k = dead !! k
  end.

Lemma age_turn m dead flood k v :
  age_lsa age_of older encode (m, dead, flood) (k, v) =
  if expires v then lsa_pkt ← encode v k; Ok (delete k m, <[k := lsa_pkt]> dead, true) else Ok (<[k := older v]> m, dead, flood).
Proof. done. Qed.

Lemma age_turns l m dead flood m' dead' flood' :
  NoDup (map fst l) -> turns (age_lsa age_of older encode) l (m, dead, flood) = Ok (m', dead', flood') ->
  (forall k, k ∉ map fst l -> m' !! k = m !! k /\ dead' !! k = dead !! k) /\
  (forall k v, (k, v) ∈ l -> ticked k (Some v) m' dead dead') /\ flood' = flood || existsb (fun e => expires e.2) l.
Proof.
  revert m dead flood. induction l as [|[k v] l IH]; intros m dead flood; cbn [turns map].
  { intros _ [= <- <- <-]. split; [done|]. split; [|by rewrite orb_false_r]. intros k v H. by apply not_elem_of_nil in H. }
  intros [Hk Hn]%NoDup_cons. rewrite age_turn. cbn [existsb].
  assert (Hs : forall m1 d1 f1, turns (age_lsa age_of older encode) l (m1, d1, f1) = Ok (m', dead', flood') ->
    m1 !! k = second_later v -> (if expires v then exists pkt, encode v k = Ok pkt /\ d1 !! k = Some pkt else d1 = dead) ->
    (forall j, j <> k -> m1 !! j = m !! j /\ d1 !! j = dead !! j) -> f1 = flood || expires v ->
    (forall j, j ∉ k :: map fst l -> m' !! j = m !! j /\ dead' !! j = dead !! j) /\
    (forall j w, (j, w) ∈ (k, v) :: l -> ticked j (Some w) m' dead dead') /\ flood' = flood || (expires v || existsb (fun e => expires e.2) l)).
  { intros m1 d1 f1 (O & I & F)%IH Hm Hd Ho ->; [|done]. destruct (O k Hk) as [Ok1 Ok2]. split; [|split; [|by rewrite F, orb_assoc]].
    - intros j [Hj1 Hj2]%not_elem_of_cons. destruct (O j Hj2) as [-> ->]. by apply Ho.
    - intros j w [[= -> ->]|Hin]%elem_of_cons.
      + cbn. rewrite Ok1, Ok2. split; [done|]. destruct (expires v); [done|by rewrite Hd].
      + assert (j <> k) as Hne by (intros ->; apply Hk, list_elem_of_fmap; by exists (k, w)).
        specialize (I j w Hin). cbn in *. destruct I as [I1 I2]. split; [done|]. destruct (expires w); [done|]. rewrite I2. by apply Ho. }
  unfold second_later in Hs. destruct (expires v) eqn:E; cbn [snd]; rewrite ?E.
  - destruct (encode v k) as [pkt| | |] eqn:Ee; try done. res_simpl. intros H. apply Hs in H; [done|by rewrite lookup_delete_eq|exists pkt; by rewrite lookup_insert_eq| |by rewrite orb_true_r].
    intros j Hj. by rewrite lookup_delete_ne, lookup_insert_ne.
  - res_simpl. intros H. apply Hs in H; [done|by rewrite lookup_insert_eq|done| |by rewrite orb_false_r].
    intros j Hj. by rewrite lookup_insert_ne.
Qed.

Lemma age_map_ticked m dead flood m' dead' flood' :
  age_map range age_of older encode m dead flood = Ok (m', dead', flood') ->
  (forall k, ticked k (m !! k) m' dead dead') /\ (flood' = true <-> flood = true \/ exists k l, m !! k = Some l /\ expires l = true).
Proof.
  unfold age_map. intros (O & I & F)%age_turns.
  2: { rewrite Hrange. apply NoDup_fst_map_to_list. }
  assert (Hin : forall k v, (k, v) ∈ range _ (map_to_list m) <-> m !! k = Some v) by (intros k v; rewrite Hrange; apply elem_of_map_to_list).
  split.
  - intros k. destruct (m !! k) as [v|] eqn:E; [by apply I, Hin|]. cbn. rewrite <- E. apply O. intros ([j v] & -> & H)%list_elem_of_fmap.
    apply Hin in H. cbn in E. congruence.
  - rewrite F, orb_true_iff, existsb_exists. split; (intros [?|H]; [by left|right]).
    + destruct H as ([k v] & H%list_elem_of_In & Ex). exists k, v. split; [by apply Hin|done].
    + destruct H as (k & v & H & Ex). exists (k, v). split; [by apply list_elem_of_In, Hin|done].
Qed.

Lemma age_map_runs m dead flood :
  (forall k l, m !! k = Some l -> expires l = true -> exists pkt, encode l k = Ok pkt) ->
  exists r, age_map range age_of older encode m dead flood = Ok r.
Proof.
  unfold age_map. intros H. assert (Hl : forall k v, (k, v) ∈ range _ (map_to_list m) -> m !! k = Some v).
  { intros k v. rewrite Hrange. apply elem_of_map_to_list. }
  generalize (m, dead, flood). revert Hl. generalize (range _ (map_to_list m)). intros l. induction l as [|[k v] l IH]; intros Hl [[m1 d1] f1]; cbn [turns]; [by eexists|].
  assert (Hv : m !! k = Some v) by (apply Hl; left). assert (Hl' : forall k v, (k, v) ∈ l -> m !! k = Some v) by (intros; apply Hl; by right).
  rewrite age_turn. destruct (expires v) eqn:E; [destruct (H k v Hv E) as [pkt ->]|]; res_simpl; by apply IH.
Qed.
End Aging.

(** ** No input breaks the types *)

(** The next step of a computation that keeps the types, in goals [ends _ (keeps _)]. *)
Ltac keep :=
  repeat match goal with
  | |- _ => progress cbv beta zeta
  | |- ends (Ok _) _ => cbn [ends]
  | |- ends (if ?b then _ else _) _ => destruct b eqn:?
  | |- ends (match ?x with _ => _ end) _ => first [is_var x; destruct x | destruct x eqn:?]
  | |- ends ((_ ≫= _) ≫= _) _ => eapply ends_bind; [|intros ? ?]
  | _ : keeps ?s _ |- ends (mark_self _ _ _ _ ≫= _) _ => apply (ends_bind _ _ (keeps s)); [apply keeps_mark|intros ? ?]
  | |- ends (must ?b ≫= _) _ => let E := fresh "E" in apply ends_must; intros E
  | |- ends (_ ≫= _) _ => let E := fresh "E" in apply ends_step; intros ? E
  end.

Section Kept.
Context (range : forall A : Type, list A -> list A) (IfTypeLoopback : Z).

Lemma router_received data areaId s s1 : index data 3 = Ok RouterLSA -> keeps s s1 ->
  ends (processRecvdRouterLsa data areaId s1) (fun r => keeps s r.1).
Proof.
  intros Ht K. unfold processRecvdRouterLsa. keep; cbn [fst]; try done. apply router_decoded in E as [Hk Hl]. rewrite Ht in Hk.
  injection Hk as Hk. apply keeps_entered, keeps_put; auto with lsdb.
Qed.

Lemma network_received data areaId s s1 : index data 3 = Ok NetworkLSA -> keeps s s1 ->
  ends (processRecvdNetworkLsa data areaId s1) (fun r => keeps s r.1).
Proof.
  intros Ht K. unfold processRecvdNetworkLsa. keep; cbn [fst]; try done. apply network_decoded in E. rewrite Ht in E. injection E as E.
  match goal with |- keeps _ (match _ with Some _ => ?t | None => _ end) => assert (K' : keeps s t) by (apply keeps_put; auto with lsdb) end.
  case_match; [done|]. by eapply keeps_same.
Qed.

Lemma summary_received data areaId typ s s1 : index data 3 = Ok typ -> keeps s s1 ->
  ends (processRecvdSummaryLsa data areaId typ s1) (fun r => keeps s r.1).
Proof.
  intros Ht K. unfold processRecvdSummaryLsa. keep; cbn [fst]; try done; apply summary_decoded in E; rewrite Ht in E; injection E as E;
    match goal with H : (typ =? _) = true |- _ => apply Z.eqb_eq in H; rewrite E in H end; apply keeps_entered, keeps_put; auto with lsdb.
Qed.

Lemma external_received data areaId s s1 : index data 3 = Ok ASExternalLSA -> keeps s s1 ->
  ends (processRecvdASExternalLsa data areaId s1) (fun r => keeps s r.1).
Proof.
  intros Ht K. unfold processRecvdASExternalLsa. keep; cbn [fst]; try done; apply external_decoded in E; rewrite Ht in E;
    injection E as E; apply keeps_entered, keeps_put; auto with lsdb.
Qed.

Lemma lsa_received data areaId s s1 : keeps s s1 -> ends (processRecvdLsa data areaId s1) (fun r => keeps s r.1).
Proof.
  intros K. unfold processRecvdLsa. keep; try done;
    repeat match goal with H : (_ =? _) = true |- _ => apply Z.eqb_eq in H; subst end;
    first [by apply router_received | by apply network_received | by apply summary_received | by apply external_received].
Qed.

Lemma lsa_deleted data areaId s s1 : keeps s s1 -> ends (processDeleteLsa data areaId s1) (keeps s).
Proof.
  intros K. unfold processDeleteLsa, processDeleteRouterLsa, processDeleteNetworkLsa, processDeleteSummaryLsa, processDeleteASExternalLsa.
  keep; try done; apply keeps_put; auto with lsdb.
Qed.

Lemma known_db areaId db s : AreaLsdb s !! areaId = Some db -> db_of areaId s = db.
Proof. unfold db_of. by intros ->. Qed.

Lemma router_generated areaId s s1 : keeps s s1 -> ends (generateRouterLSA range IfTypeLoopback areaId s1) (keeps s).
Proof.
  intros K. unfold generateRouterLSA. keep; try done.
  - apply known_db in Heqo. apply keeps_put; [by apply keeps_unmark|change (db_of areaId (unmark_self _ _ s1)) with (db_of areaId s1)..]; rewrite Heqo; auto with lsdb.
  - apply known_db in Heqo. apply keeps_put; rewrite ?Heqo; try done. intros H. apply typed_router; try done. cbn. pose proof (len_nonneg (l0 :: l1)). zlia.
  - by apply keeps_entered.
Qed.

Lemma network_generated areaId key s s1 : keeps s s1 -> ends (generateNetworkLSA areaId key s1) (keeps s).
Proof.
  intros K. unfold generateNetworkLSA. keep; try done; [apply keeps_put; auto with lsdb|by apply keeps_entered].
Qed.

Lemma external_generated route key areaId s s1 : LSType key = ASExternalLSA -> keeps s s1 ->
  ends (external_in_area route key areaId s1) (keeps s).
Proof.
  intros Hk K. unfold external_in_area. cbv zeta. keep; try done; [apply keeps_put; auto with lsdb|by apply keeps_entered].
Qed.

Lemma external_updated areaId key s s1 : LSType key = ASExternalLSA -> keeps s s1 -> ends (updateAsExternalLSA areaId key s1) (keeps s).
Proof.
  intros Hk K. unfold updateAsExternalLSA. keep; try done. apply known_db in Heqo. apply keeps_entered, keeps_put; rewrite ?Heqo; try done.
  intros H. apply typed_external; try done. destruct (made l) eqn:E2; [done|]. rewrite (dt_nil _ H E2) in Heqo0. done.
Qed.

Lemma route_redistributed route s s1 : keeps s s1 -> ends (processExtRouteUpd range route s1) (keeps s).
Proof.
  intros K. unfold processExtRouteUpd, generateASExternalLsa.
  eapply (ends_bind _ _ (fun r => keeps s r.1)).
  - apply ends_step. intros rtr _. cbv zeta. eapply ends_bind; [|intros s2 H; exact H].
    apply keeps_each; [|done]. intros a s2 K2. by apply external_generated.
  - intros [s2 key] H. cbn [fst] in H. destruct (isDel route); [done|]. by eapply keeps_same.
Qed.

Lemma summary_put key lsa db : ends (put_summary key lsa db) (fun db' => made db' = made db /\ (db_typed db -> db_typed db')).
Proof.
  unfold put_summary. keep; cbn; try done; repeat match goal with H : (_ =? _) = true |- _ => apply Z.eqb_eq in H end;
    split; auto with lsdb.
Qed.

Lemma summary_written areaId key lsa seq s s1 : keeps s s1 -> ends (write_summary areaId key lsa seq s1) (keeps s).
Proof.
  intros K. unfold write_summary. cbv zeta. apply ends_step. intros enc _. apply ends_step. intros csum _.
  eapply ends_bind; [apply summary_put|]. intros db [Hm Ht]. apply keeps_put; [done|done|by rewrite Hm].
Qed.

Lemma summary_flushed areaId key s s1 : keeps s s1 -> keeps s (flushSummaryLsa areaId key s1).
Proof.
  intros K. unfold flushSummaryLsa. apply keeps_put; [by apply keeps_unmark|change (db_of areaId (unmark_self _ _ s1)) with (db_of areaId s1)..];
    destruct (LSType key =? Summary3LSA); [auto with lsdb| |done|]; destruct (LSType key =? Summary4LSA); auto with lsdb.
Qed.

Lemma summaries_installed s s1 : keeps s s1 -> ends (installSummaryLsa range s1) (keeps s).
Proof.
  intros K. unfold installSummaryLsa. apply (ends_bind _ _ (keeps s)); [|intros s2 K2; by eapply keeps_same]. apply keeps_each; [|done].
  clear s1 K. intros e s1 K. unfold install_area. cbv zeta. apply (ends_bind _ _ (keeps s)).
  - apply keeps_each; [|exact K]. clear s1 K. intros [key lsa] s1 K. unfold install_summary, insertSummaryLsa, updateSummaryLsa. cbn [fst snd].
    destruct (self_valid _ _ _); [destruct (compareSummaryLsa _ _ _ _); [done|]|].
    + apply (ends_bind _ _ (keeps s)); [by apply summary_written|]. intros s2 K2. by eapply keeps_same.
    + apply (ends_bind _ _ (keeps s)); [|intros s2 K2; by eapply keeps_same]. apply (ends_bind _ _ (keeps s)); [by apply summary_written|]. intros s2 K2.
      apply (ends_bind _ _ (keeps s)); [by apply keeps_mark|]. intros s3 K3. by eapply keeps_same.
  - intros s2 K2. cbn [ends]. generalize (List.filter (fun k => negb (bool_decide (is_Some (e.2 !! k)) && self_valid e.1 k s1))
      (List.filter is_summary (keys_of range (default ∅ (self_of e.1 s1))))). intros l. revert s2 K2.
    induction l as [|k l IH]; intros s2 K2; [done|]. cbn. by apply IH, summary_flushed.
Qed.
End Kept.

Section Steps.
Context (range : forall A : Type, list A -> list A) (Hrange : forall A (l : list A), Permutation (range A l) l).
Context (IfTypeLoopback : Z) (ifIndex : Z -> Z -> Z) (sort : list VertexData -> list VertexData).

(** An LSA that is left was there a second before. *)
Lemma ticked_before {L} (age_of : L -> Z) older encode k (m m' : gmap LsaKey L) dead dead' l :
  ticked age_of older encode k (m !! k) m' dead dead' -> m' !! k = Some l -> exists l0, m !! k = Some l0 /\ l = older l0.
Proof.
  destruct (m !! k) as [l0|]; cbn; [|intros [-> _]; done]. intros [-> _]. unfold second_later. destruct (expires age_of l0); [done|].
  intros [= <-]. by exists l0.
Qed.

Lemma area_aged areaId s s1 : keeps s s1 -> ends (processMaxAgeLSA range areaId s1) (keeps s).
Proof.
  intros K. unfold processMaxAgeLSA. cbv zeta. set (db := db_of areaId s1).
  destruct (age_map _ _ _ _ (RouterLsaMap db) _ _) as [[[m1 d1] f1]| | |] eqn:E1; try done. res_simpl.
  destruct (age_map _ _ _ _ (NetworkLsaMap db) _ _) as [[[m2 d2] f2]| | |] eqn:E2; try done. res_simpl.
  destruct (age_map _ _ _ _ (ASExternalLsaMap db) _ _) as [[[m3 d3] f3]| | |] eqn:E3; try done. res_simpl.
  destruct (age_map _ _ _ _ (Summary3LsaMap db) _ _) as [[[m4 d4] f4]| | |] eqn:E4; try done. res_simpl.
  destruct (age_map _ _ _ _ (Summary4LsaMap db) _ _) as [[[m5 d5] f5]| | |] eqn:E5; try done. res_simpl. cbn [ends].
  apply (age_map_ticked range Hrange) in E1 as [T1 _], E2 as [T2 _], E3 as [T3 _], E4 as [T4 _], E5 as [T5 _].
  match goal with |- keeps s (if _ then ?a else ?b) => assert (K2 : keeps s b); [|by destruct f5; [eapply keeps_same|]] end.
  eapply keeps_same; [reflexivity..|]. apply keeps_put; [exact K| |done]. fold db. intros T. split; cbn.
  - intros k l Hl. destruct (ticked_before _ _ _ k _ _ _ _ l (T1 k) Hl) as (l0 & H0 & ->). exact (dt_router _ T k l0 H0).
  - intros k [l Hl]. destruct (ticked_before _ _ _ k _ _ _ _ l (T2 k) Hl) as (l0 & H0 & _). apply (dt_network _ T). by eexists.
  - intros k [l Hl]. destruct (ticked_before _ _ _ k _ _ _ _ l (T4 k) Hl) as (l0 & H0 & _). apply (dt_summary3 _ T). by eexists.
  - intros k [l Hl]. destruct (ticked_before _ _ _ k _ _ _ _ l (T5 k) Hl) as (l0 & H0 & _). apply (dt_summary4 _ T). by eexists.
  - intros k [l Hl]. destruct (ticked_before _ _ _ k _ _ _ _ l (T3 k) Hl) as (l0 & H0 & _). apply (dt_external _ T). by eexists.
  - intros Hm. pose proof (dt_nil _ T Hm) as E. rewrite E in *. cbn in *. unfold nil_LSDatabase. f_equal; apply map_eq; intros k.
    + specialize (T1 k). rewrite lookup_empty in *. apply T1.
    + specialize (T2 k). rewrite lookup_empty in *. apply T2.
    + specialize (T4 k). rewrite lookup_empty in *. apply T4.
    + specialize (T5 k). rewrite lookup_empty in *. apply T5.
    + specialize (T3 k). rewrite lookup_empty in *. apply T3.
Qed.

Lemma all_aged s s1 : keeps s s1 -> ends (processLSDatabaseTicker range s1) (keeps s).
Proof. intros K. apply keeps_each; [|done]. intros a s2. apply area_aged. Qed.

Lemma regenerated areaId key s s1 : keeps s s1 -> ends (regenerateLsa range IfTypeLoopback areaId key s1) (keeps s).
Proof.
  intros K. unfold regenerateLsa. destruct (_ =? _); [by apply router_generated|].
  destruct (_ =? _); [apply ends_step; intros rtr _; cbv zeta; case_match; [by apply network_generated|done]|].
  destruct (LSType key =? ASExternalLSA) eqn:E; [|done]. apply external_updated; [by apply Z.eqb_eq|done].
Qed.

Lemma all_refreshed s s1 : keeps s s1 -> ends (lsdbSelfLsaRefresh range IfTypeLoopback s1) (keeps s).
Proof.
  intros K. unfold lsdbSelfLsaRefresh. apply (ends_bind _ _ (keeps s)).
  - generalize (range _ (map_to_list (AreaSelfOrigLsa s1))), true. intros l. revert s1 K.
    induction l as [|e l IH]; intros s1 K b; cbn [refresh_areas]; [done|]. apply (ends_bind _ _ (keeps s)); [|auto].
    apply keeps_each; [|done]. intros [key v] s2 K2. unfold refresh_lsa. cbn [fst snd]. destruct v; [|done].
    apply (ends_bind _ _ (keeps s)); [by apply regenerated|]. intros s3 K3. cbn [ends]. destruct (_ && _); [by eapply keeps_same|done].
  - intros s2 K2. apply (ends_bind _ _ (keeps s)).
    + apply ends_all. intros s3 [H1 H2]%summaries_databases. by eapply keeps_same.
    + intros s3 K3. apply keeps_each; [|done]. intros e s4 K4. apply ends_step. intros a _. by eapply keeps_same.
Qed.

Lemma recalculated s s1 : keeps s s1 -> ends (recalculate range ifIndex sort s1) (keeps s).
Proof. intros K. apply ends_all. intros s2 [H1 H2]%spf_databases. by eapply keeps_same. Qed.

Lemma summaries_step s s1 : keeps s s1 -> ends (install_summaries range s1) (keeps s).
Proof. intros K. unfold install_summaries. destruct (AreaBdrRtrStatus s1); [by apply summaries_installed|done]. Qed.

Lemma recalculated_all (m : res OSPFServer) s :
  ends m (keeps s) -> ends (s ← m; s ← recalculate range ifIndex sort s; install_summaries range s) (keeps s).
Proof.
  intros H. apply (ends_bind _ _ (keeps s)); [done|]. intros s2 K2. apply (ends_bind _ _ (keeps s)); [by apply recalculated|].
  intros s3 K3. by apply summaries_step.
Qed.

Lemma neighbor_full areaId intf s s1 : keeps s s1 -> ends (processNeighborFullEvent range IfTypeLoopback areaId intf s1) (keeps s).
Proof.
  intros K. unfold processNeighborFullEvent. apply ends_step. intros rtr _. cbv zeta. apply (ends_bind _ _ (keeps s)).
  - destruct (_ && _); [by apply network_generated|done].
  - intros s2 K2. apply (ends_bind _ _ (keeps s)); [by apply router_generated|]. intros s3 K3. by eapply keeps_same.
Qed.

Lemma dr_changed areaId intf s s1 : keeps s s1 -> ends (processDrBdrChangeMsg range IfTypeLoopback areaId intf s1) (keeps s).
Proof.
  intros K. unfold processDrBdrChangeMsg. cbv zeta. apply (ends_bind _ _ (keeps s)).
  - destruct (bool_decide _); [done|]. apply ends_step. intros rtr _. destruct (_ =? _); [by apply network_generated|done].
  - intros s2 K2. apply (ends_bind _ _ (keeps s)); [by apply router_generated|]. intros s3 K3. by eapply keeps_same.
Qed.

Lemma lsdb_step_keeps i s : ends (lsdb_step range IfTypeLoopback ifIndex sort i s) (keeps s).
Proof.
  pose proof (keeps_refl s) as K. destruct i; cbn [lsdb_step].
  - destruct (_ || _); [|destruct (_ =? _); [apply recalculated_all; by apply lsa_deleted|done]].
    pose proof (lsa_received Data AreaId s s K) as H. destruct (processRecvdLsa _ _ _) as [[s1 b]| | |]; try done. res_simpl.
    by apply (recalculated_all (Ok s1)).
  - apply (ends_bind _ _ (keeps s)); [by apply router_generated|]. intros s1 K1. apply (ends_bind _ _ (keeps s)); [by apply recalculated|].
    intros s2 K2. apply (ends_bind _ _ (keeps s)); [|intros; by apply summaries_step]. unfold processInterfaceChangeMsg. cbv zeta.
    apply ends_step. intros rtr _. destruct (_ =? _); by eapply keeps_same.
  - by apply recalculated_all, dr_changed.
  - by apply recalculated_all, neighbor_full.
  - by apply route_redistributed.
  - by eapply keeps_same.
  - by apply all_aged.
  - by apply all_refreshed.
Qed.
End Steps.

(** ** A database as one map *)

Definition lsa_in (key : LsaKey) (db : LSDatabase) : option Lsa :=
  if LSType key =? RouterLSA then LRouter <$> RouterLsaMap db !! key
  else if LSType key =? NetworkLSA then LNetwork <$> NetworkLsaMap db !! key
  else if LSType key =? Summary3LSA then LSummary <$> Summary3LsaMap db !! key
  else if LSType key =? Summary4LSA then LSummary <$> Summary4LsaMap db !! key
  else if LSType key =? ASExternalLSA then LASExternal <$> ASExternalLsaMap db !! key
  else None.

Definition stored (areaId : Z) (key : LsaKey) (s : OSPFServer) : option Lsa := lsa_in key (db_of areaId s).

Definition seq_of (l : Lsa) : Z := LSSequenceNum (lsa_md l).

(** A router LSA always; another that is not one of the router itself and newer than what is
    there. *)
Definition accepts (areaId : Z) (key : LsaKey) (l : Lsa) (s : OSPFServer) : bool :=
  (LSType key =? RouterLSA) ||
  negb (self_known areaId key s) && match stored areaId key s with Some old => seq_of old <? seq_of l | None => true end.

(** [s'] has [l] in one place and is as [s] otherwise. *)
Definition stores (areaId : Z) (key : LsaKey) (l : Lsa) (s s' : OSPFServer) : Prop :=
  (forall a k, stored a k s' = if bool_decide ((a, k) = (areaId, key)) then Some l else stored a k s) /\
  AreaSelfOrigLsa s' = AreaSelfOrigLsa s /\ forall a, made (db_of a s') = made (db_of a s).

Lemma stores_put areaId key l db s s' :
  AreaLsdb s' = AreaLsdb (put_db areaId db s) -> AreaSelfOrigLsa s' = AreaSelfOrigLsa s -> made db = made (db_of areaId s) ->
  (forall k, lsa_in k db = if bool_decide (k = key) then Some l else lsa_in k (db_of areaId s)) -> stores areaId key l s s'.
Proof.
  intros E1 E2 Hm Hl. assert (Hd : forall a, db_of a s' = db_of a (put_db areaId db s)) by (intros a; unfold db_of; by rewrite E1).
  split; [|split; [done|]].
  - intros a k. unfold stored. rewrite Hd. destruct (decide (a = areaId)) as [->|Hne].
    + rewrite db_of_put, Hl. do 2 case_bool_decide; congruence.
    + rewrite db_of_put_ne by done. rewrite bool_decide_eq_false_2 by congruence. done.
  - intros a. rewrite Hd. destruct (decide (a = areaId)) as [->|Hne]; [by rewrite db_of_put|by rewrite db_of_put_ne].
Qed.

Ltac type_of_key H := rewrite ?H; unfold RouterLSA, NetworkLSA, Summary3LSA, Summary4LSA, ASExternalLSA; cbn [Z.eqb Pos.eqb].

(** Looking a key up behind an insertion into the map of its type. *)
Ltac look key Ht :=
  let k := fresh "k" in let H := fresh in
  intros k; unfold lsa_in; cbn; case_bool_decide as H;
  [subst k; type_of_key Ht; by rewrite lookup_insert_eq
  |repeat (match goal with |- (if ?b then _ else _) = _ => destruct b end; [by rewrite ?lookup_insert_ne by congruence|]); done].

Lemma in_router key l db k : LSType key = RouterLSA ->
  lsa_in k (set_RouterLsaMap (<[key := l]> (RouterLsaMap db)) db) = if bool_decide (k = key) then Some (LRouter l) else lsa_in k db.
Proof. intros Ht. revert k. look key Ht. Qed.
Lemma in_network key l db k : LSType key = NetworkLSA ->
  lsa_in k (set_NetworkLsaMap (<[key := l]> (NetworkLsaMap db)) db) = if bool_decide (k = key) then Some (LNetwork l) else lsa_in k db.
Proof. intros Ht. revert k. look key Ht. Qed.
Lemma in_summary3 key l db k : LSType key = Summary3LSA ->
  lsa_in k (set_Summary3LsaMap (<[key := l]> (Summary3LsaMap db)) db) = if bool_decide (k = key) then Some (LSummary l) else lsa_in k db.
Proof. intros Ht. revert k. look key Ht. Qed.
Lemma in_summary4 key l db k : LSType key = Summary4LSA ->
  lsa_in k (set_Summary4LsaMap (<[key := l]> (Summary4LsaMap db)) db) = if bool_decide (k = key) then Some (LSummary l) else lsa_in k db.
Proof. intros Ht. revert k. look key Ht. Qed.
Lemma in_external key l db k : LSType key = ASExternalLSA ->
  lsa_in k (set_ASExternalLsaMap (<[key := l]> (ASExternalLsaMap db)) db) = if bool_decide (k = key) then Some (LASExternal l) else lsa_in k db.
Proof. intros Ht. revert k. look key Ht. Qed.

Lemma key_type_in key l : lsa_ok l key -> forall db, lsa_in key db =
  match l with
  | LRouter _ => LRouter <$> RouterLsaMap db !! key
  | LNetwork _ => LNetwork <$> NetworkLsaMap db !! key
  | LSummary _ => if LSType key =? Summary3LSA then LSummary <$> Summary3LsaMap db !! key else LSummary <$> Summary4LsaMap db !! key
  | LASExternal _ => LASExternal <$> ASExternalLsaMap db !! key
  end.
Proof. intros (_ & _ & H) db. unfold lsa_in. destruct l; destruct H as [H _]; [..|destruct H as [H|H]|]; by type_of_key H. Qed.

Lemma stores_entered areaId key l a k b s s' : stores areaId key l s s' -> stores areaId key l s (entered a k b s').
Proof. unfold entered. by destruct b. Qed.

(** What a taken instance does, and what one that is not taken does. *)
Definition received (areaId : Z) (key : LsaKey) (l : Lsa) (s : OSPFServer) (r : OSPFServer * bool) : Prop :=
  r.2 = accepts areaId key l s /\ if accepts areaId key l s then stores areaId key l s r.1 else r.1 = s.

Lemma receive_router data areaId l key s :
  decodeRouterLsa data = Ok (l, key) -> LSType key = RouterLSA -> received_checksum data = Ok 0 -> made (db_of areaId s) = true ->
  exists r, processRecvdRouterLsa data areaId s = Ok r /\ received areaId key (LRouter l) s r.
Proof.
  intros Hd Ht Hc Hm. unfold processRecvdRouterLsa. rewrite Hd. res_simpl. rewrite Hc. res_simpl. cbn [Z.eqb negb]. rewrite Hm. res_simpl.
  eexists. split; [done|]. unfold received, accepts. rewrite Ht. cbn [fst snd Z.eqb Pos.eqb orb RouterLSA]. split; [done|].
  apply stores_entered. eapply stores_put; [reflexivity|done|done|]. intros k. by apply in_router.
Qed.

(** The rest of the others is the same but for the map. *)
Lemma accepts_other areaId key l s o :
  (LSType key =? RouterLSA) = false -> stored areaId key s = o ->
  accepts areaId key l s = negb (self_known areaId key s) && newer (lsa_md <$> o) (lsa_md l).
Proof. unfold accepts. intros -> ->. cbn [orb]. f_equal. by destruct o. Qed.

Ltac refuse Ha := eexists; split; [reflexivity|]; unfold received; rewrite Ha; done.

Lemma receive_network data areaId l key s :
  decodeNetworkLsa data = Ok (l, key) -> LSType key = NetworkLSA -> received_checksum data = Ok 0 -> made (db_of areaId s) = true ->
  exists r, processRecvdNetworkLsa data areaId s = Ok r /\ received areaId key (LNetwork l) s r.
Proof.
  intros Hd Ht Hc Hm. unfold processRecvdNetworkLsa. rewrite Hd. res_simpl.
  assert (Ha : accepts areaId key (LNetwork l) s =
    negb (self_known areaId key s) && newer (n_LsaMd <$> NetworkLsaMap (db_of areaId s) !! key) (n_LsaMd l)).
  { erewrite accepts_other; [|by rewrite Ht|reflexivity]. unfold stored, lsa_in. type_of_key Ht. by rewrite <- option_fmap_compose. }
  destruct (self_known areaId key s); cbn [negb andb] in *; [refuse Ha|]. rewrite Hc. res_simpl. cbn [Z.eqb negb].
  destruct (newer _ _); cbn [negb]; [|refuse Ha]. rewrite Hm. res_simpl. eexists. split; [reflexivity|]. unfold received. rewrite Ha.
  split; [done|]. cbn [fst].
  case_match; (eapply stores_put; [reflexivity|done|done|]); intros k; by apply in_network.
Qed.

Lemma receive_external data areaId l key s :
  decodeASExternalLsa data = Ok (l, key) -> LSType key = ASExternalLSA -> received_checksum data = Ok 0 -> made (db_of areaId s) = true ->
  exists r, processRecvdASExternalLsa data areaId s = Ok r /\ received areaId key (LASExternal l) s r.
Proof.
  intros Hd Ht Hc Hm. unfold processRecvdASExternalLsa. rewrite Hd. res_simpl.
  assert (Ha : accepts areaId key (LASExternal l) s =
    negb (self_known areaId key s) && newer (x_LsaMd <$> ASExternalLsaMap (db_of areaId s) !! key) (x_LsaMd l)).
  { erewrite accepts_other; [|by rewrite Ht|reflexivity]. unfold stored, lsa_in. type_of_key Ht. by rewrite <- option_fmap_compose. }
  destruct (self_known areaId key s); cbn [negb andb] in *; [refuse Ha|]. rewrite Hc. res_simpl. cbn [Z.eqb negb].
  destruct (newer _ _); cbn [negb]; [|refuse Ha]. rewrite Hm. res_simpl. eexists. split; [reflexivity|]. unfold received. rewrite Ha.
  split; [done|]. cbn [fst]. apply stores_entered. eapply stores_put; [reflexivity|done|done|]. intros k. by apply in_external.
Qed.

Lemma receive_summary data areaId l key s :
  decodeSummaryLsa data = Ok (l, key) -> LSType key = Summary3LSA \/ LSType key = Summary4LSA -> received_checksum data = Ok 0 ->
  made (db_of areaId s) = true ->
  exists r, processRecvdSummaryLsa data areaId (LSType key) s = Ok r /\ received areaId key (LSummary l) s r.
Proof.
  intros Hd Ht Hc Hm. unfold processRecvdSummaryLsa. rewrite Hd. res_simpl.
  assert (Ha : accepts areaId key (LSummary l) s =
    negb (self_known areaId key s) &&
    newer (s_LsaMd <$> (if LSType key =? Summary3LSA then Summary3LsaMap (db_of areaId s) !! key else Summary4LsaMap (db_of areaId s) !! key)) (s_LsaMd l)).
  { erewrite accepts_other; [|by destruct Ht as [-> | ->]|reflexivity]. unfold stored, lsa_in.
    destruct Ht as [Ht|Ht]; type_of_key Ht; by rewrite <- option_fmap_compose. }
  destruct (self_known areaId key s); cbn [negb andb] in *; [refuse Ha|]. rewrite Hc. res_simpl. cbn [Z.eqb negb].
  destruct Ht as [Ht|Ht]; rewrite Ht in *; cbn [Z.eqb Pos.eqb Summary3LSA Summary4LSA] in *.
  - destruct (newer _ _); cbn [negb]; [|refuse Ha]. rewrite Hm. res_simpl. eexists. split; [reflexivity|]. unfold received. rewrite Ha.
    split; [done|]. apply stores_entered. eapply stores_put; [reflexivity|done|done|]. intros k. by apply in_summary3.
  - destruct (newer _ _); cbn [negb]; [|refuse Ha]. rewrite Hm. res_simpl. eexists. split; [reflexivity|]. unfold received. rewrite Ha.
    split; [done|]. apply stores_entered. eapply stores_put; [reflexivity|done|done|]. intros k. by apply in_summary4.
Qed.

Lemma receive_lsa data areaId l key s :
  decodeLsa data = Ok (Some (l, key)) -> received_checksum data = Ok 0 -> made (db_of areaId s) = true ->
  exists r, processRecvdLsa data areaId s = Ok r /\ received areaId key l s r.
Proof.
  unfold decodeLsa, processRecvdLsa. destruct (index data 3) as [typ| | |] eqn:Ei; try done. res_simpl. intros Hd Hc Hm.
  destruct (typ =? RouterLSA) eqn:E1.
  { destruct (decodeRouterLsa data) as [[a k]| | |] eqn:E; try done. res_simpl. injection Hd as <- <-. pose proof (router_decoded _ _ _ E) as [Hk _].
    rewrite Ei in Hk. injection Hk as Hk. apply receive_router; try done. rewrite <- Hk. by apply Z.eqb_eq. }
  destruct (typ =? NetworkLSA) eqn:E2.
  { destruct (decodeNetworkLsa data) as [[a k]| | |] eqn:E; try done. res_simpl. injection Hd as <- <-. pose proof (network_decoded _ _ _ E) as Hk.
    rewrite Ei in Hk. injection Hk as Hk. apply receive_network; try done. rewrite <- Hk. by apply Z.eqb_eq. }
  destruct ((typ =? Summary3LSA) || (typ =? Summary4LSA)) eqn:E3.
  { destruct (decodeSummaryLsa data) as [[a k]| | |] eqn:E; try done. res_simpl. injection Hd as <- <-. pose proof (summary_decoded _ _ _ E) as Hk.
    rewrite Ei in Hk. injection Hk as Hk. pose proof (receive_summary data areaId a k s E) as R. rewrite <- Hk in R.
    apply orb_true_iff in E3. assert (H : typ = Summary3LSA \/ typ = Summary4LSA) by (destruct E3 as [H|H]; apply Z.eqb_eq in H; auto).
    destruct (typ =? Summary3LSA); [by apply R|]. destruct (typ =? Summary4LSA); [by apply R|]. by destruct E3. }
  apply orb_false_iff in E3 as [-> ->]. destruct (typ =? ASExternalLSA) eqn:E4; [|done].
  destruct (decodeASExternalLsa data) as [[a k]| | |] eqn:E; try done. res_simpl. injection Hd as <- <-. pose proof (external_decoded _ _ _ E) as Hk.
  rewrite Ei in Hk. injection Hk as Hk. apply receive_external; try done. rewrite <- Hk. by apply Z.eqb_eq.
Qed.

(** ** From the database of a router to that of its neighbor *)

(** The octets of an LSA in an update packet, and what is read from them. *)
Definition lsa_wire (l : Lsa) (key : LsaKey) : res bytes := s ← encodeLsa l key; checksummed s.

Definition same_but_checksum (l l' : Lsa) : Prop := exists csum, l' = set_lsa_md (with_csum csum (lsa_md l)) l.

Lemma validate_received data : validateChecksum data = Ok true -> received_checksum data = Ok 0.
Proof.
  unfold validateChecksum, received_checksum. destruct (slice_from data 2); try done. res_simpl.
  destruct (computeFletcherChecksum _ _) as [[c d]| | |]; try done. res_simpl. intros [= H%Z.eqb_eq]. by rewrite H.
Qed.

Lemma lsa_sent l key : lsa_ok l key -> exists pkt l', lsa_wire l key = Ok pkt /\ same_but_checksum l l' /\
  forall n, decodeLsa (pkt ++ zeros n) = Ok (Some (l', key)) /\ received_checksum (pkt ++ zeros n) = Ok 0.
Proof.
  intros H. pose proof H as (Hmd & Hkey & _). unfold lsa_wire. rewrite encode_lsa by done. res_simpl.
  destruct (checksummed_wire (lsa_md l) key _ Hmd Hkey (is_bytes_body l key H)) as (csum & E & Hc & Hv).
  exists (header_wire (lsa_md l) key csum ++ lsa_body l), (set_lsa_md (with_csum csum (lsa_md l)) l). split; [exact E|]. split; [by exists csum|].
  intros n. rewrite <- app_assoc. split; [by apply decode_lsa|]. apply validate_received, Hv.
Qed.

Lemma same_seq l l' : same_but_checksum l l' -> seq_of l' = seq_of l.
Proof. intros [c ->]. by destruct l. Qed.

Lemma same_accepts areaId key l l' s : same_but_checksum l l' -> accepts areaId key l' s = accepts areaId key l s.
Proof. intros H. unfold accepts. by rewrite (same_seq l l' H). Qed.

(** What the neighbor reads. *)
Definition arrival (m : Lsa * LsaKey) : Lsa :=
  match lsa_wire m.1 m.2 with
  | Ok pkt => match decodeLsa pkt with Ok (Some (l, _)) => l | _ => m.1 end
  | _ => m.1
  end.

Lemma arrives l key : lsa_ok l key -> exists pkt, lsa_wire l key = Ok pkt /\ same_but_checksum l (arrival (l, key)) /\
  forall n, decodeLsa (pkt ++ zeros n) = Ok (Some (arrival (l, key), key)) /\ received_checksum (pkt ++ zeros n) = Ok 0.
Proof.
  intros (pkt & l' & Hw & Hs & Hd)%lsa_sent. exists pkt. assert (arrival (l, key) = l') as ->; [|done].
  unfold arrival. cbn [fst snd]. rewrite Hw. destruct (Hd 0) as [H _]. rewrite zeros_0, app_nil_r in H. by rewrite H.
Qed.

(** Receiving the LSAs of a list, one update packet each. *)
Definition receive_all (areaId : Z) (msgs : list (Lsa * LsaKey)) (s : OSPFServer) : res OSPFServer :=
  each (fun m s => pkt ← lsa_wire m.1 m.2; '(s, _) ← processRecvdLsa pkt areaId s; Ok s) msgs s.

Lemma receive_one areaId l key n s : lsa_ok l key -> made (db_of areaId s) = true ->
  exists pkt s', lsa_wire l key = Ok pkt /\ processRecvdLsa (pkt ++ zeros n) areaId s = Ok (s', accepts areaId key l s) /\
  if accepts areaId key l s then stores areaId key (arrival (l, key)) s s' else s' = s.
Proof.
  intros Hok Hm. destruct (arrives l key Hok) as (pkt & Hw & Hs & Hd). destruct (Hd n) as [H1 H2].
  destruct (receive_lsa _ areaId _ key s H1 H2 Hm) as ([s' b] & E & Hr). unfold received in Hr. cbn [fst snd] in Hr.
  rewrite (same_accepts _ _ _ _ _ Hs) in Hr. destruct Hr as [-> Hr]. by exists pkt, s'.
Qed.

(** ** The newest instance *)

Definition pick (o : option Lsa) (c : Lsa) : option Lsa :=
  match o with Some l => if seq_of l <? seq_of c then Some c else o | None => Some c end.

Definition newest (o : option Lsa) (cs : list Lsa) : option Lsa := foldl pick o cs.

Lemma newest_spec cs : forall o,
  match newest o cs with
  | Some l => (o = Some l \/ l ∈ cs /\ forall l0, o = Some l0 -> seq_of l0 < seq_of l) /\
              (forall l0, o = Some l0 -> seq_of l0 <= seq_of l) /\ forall c, c ∈ cs -> seq_of c <= seq_of l
  | None => o = None /\ cs = []
  end.
Proof.
  induction cs as [|c cs IH]; intros o; unfold newest; cbn [foldl].
  - destruct o as [l|]; [|done]. split; [by left|]. split; [intros l0 [= <-]; lia|]. intros c H. by apply not_elem_of_nil in H.
  - specialize (IH (pick o c)). unfold newest in IH. destruct (foldl pick (pick o c) cs) as [l|].
    + destruct IH as (H1 & H2 & H3). unfold pick in *. split; [|split].
      * destruct o as [l0|]; [destruct (Z.ltb_spec (seq_of l0) (seq_of c)) as [Hlt|Hge]|].
        -- right. destruct H1 as [[= ->]|[Hin Hl]]; (split; [|intros l1 [= <-]]).
           { by left. } { done. } { by right. } specialize (Hl c eq_refl). lia.
        -- destruct H1 as [?|[Hin Hl]]; [by left|right]. split; [by right|done].
        -- right. destruct H1 as [[= ->]|[Hin _]]; (split; [|done]); [by left|by right].
      * intros l0 ->. destruct (Z.ltb_spec (seq_of l0) (seq_of c)) as [Hlt|Hge]; [specialize (H2 c eq_refl); lia|by apply H2].
      * intros d [->|Hd]%elem_of_cons; [|by apply H3]. destruct o as [l0|]; [|by apply H2].
        destruct (Z.ltb_spec (seq_of l0) (seq_of c)) as [Hlt|Hge]; [by apply H2|specialize (H2 l0 eq_refl); lia].
    + destruct IH as [H _]. unfold pick in H. destruct o as [l0|]; [by destruct (_ <? _)|done].
Qed.

(** When a number stands for one instance, the order does not matter. *)
Lemma newest_agree o cs cs' :
  (forall c, c ∈ cs <-> c ∈ cs') -> (forall c d, c ∈ cs -> d ∈ cs -> seq_of c = seq_of d -> c = d) -> newest o cs = newest o cs'.
Proof.
  intros Hs Hu. pose proof (newest_spec cs o) as H. pose proof (newest_spec cs' o) as H'.
  destruct (newest o cs) as [l|], (newest o cs') as [l'|]; try done.
  - destruct H as (H1 & H2 & H3), H' as (H1' & H2' & H3'). f_equal. destruct H1 as [->|[Hl Hlt]], H1' as [E|[Hl' Hlt']].
    + congruence.
    + specialize (Hlt' l eq_refl). apply Hs, H3 in Hl'. lia.
    + subst o. specialize (Hlt l' eq_refl). apply Hs, H3' in Hl. lia.
    + apply Hu; [done|by apply Hs|]. pose proof (H3 l' (proj2 (Hs l') Hl')). pose proof (H3' l (proj1 (Hs l) Hl)). lia.
  - destruct H' as [-> ->]. destruct H as ([?|[Hin _]] & _); [done|]. apply Hs in Hin. by apply not_elem_of_nil in Hin.
  - destruct H as [-> ->]. destruct H' as ([?|[Hin _]] & _); [done|]. apply Hs in Hin. by apply not_elem_of_nil in Hin.
Qed.

(** ** What is left of a list *)

Definition of_key (key : LsaKey) (msgs : list (Lsa * LsaKey)) : list Lsa :=
  map arrival (List.filter (fun m => bool_decide (m.2 = key)) msgs).

Lemma in_of_key c key msgs : c ∈ of_key key msgs <-> exists l, c = arrival (l, key) /\ (l, key) ∈ msgs.
Proof.
  unfold of_key. rewrite list_elem_of_fmap. split.
  - intros ([l k] & -> & [Hl%list_elem_of_In Hk%bool_decide_eq_true]%list_elem_of_In%filter_In). cbn in Hk. subst k. by exists l.
  - intros (l & -> & Hl). exists (l, key). split; [done|]. apply list_elem_of_In, filter_In. split; [by apply list_elem_of_In|by apply bool_decide_eq_true].
Qed.

Lemma receive_all_newest areaId msgs s :
  made (db_of areaId s) = true ->
  (forall l key, (l, key) ∈ msgs -> lsa_ok l key /\ LSType key <> RouterLSA /\ self_known areaId key s = false) ->
  exists s', receive_all areaId msgs s = Ok s' /\
  (forall key, stored areaId key s' = newest (stored areaId key s) (of_key key msgs)) /\
  (forall a key, a <> areaId -> stored a key s' = stored a key s).
Proof.
  revert s. induction msgs as [|[l key] msgs IH]; intros s Hm Hok; [by exists s|].
  destruct (Hok l key ltac:(left)) as (Hl & Ht & Hk). destruct (receive_one areaId l key 0 s Hl Hm) as (pkt & s1 & Hw & Hp & Hr).
  rewrite zeros_0, app_nil_r in Hp. unfold receive_all. cbn [each fst snd]. rewrite Hw. res_simpl. rewrite Hp. res_simpl.
  destruct (arrives l key Hl) as (_ & _ & Hs & _).
  assert (H1 : (forall k, stored areaId k s1 = newest (stored areaId k s) (of_key k [(l, key)])) /\
    (forall a k, a <> areaId -> stored a k s1 = stored a k s) /\ AreaSelfOrigLsa s1 = AreaSelfOrigLsa s /\ made (db_of areaId s1) = true).
  { unfold accepts in Hr. rewrite (proj2 (Z.eqb_neq _ _) Ht), Hk in Hr. cbn [orb negb andb] in Hr.
    assert (Hn : forall k, newest (stored areaId k s) (of_key k [(l, key)]) =
      if bool_decide (key = k) then pick (stored areaId k s) (arrival (l, key)) else stored areaId k s).
    { intros k. unfold of_key. cbn. by case_bool_decide. }
    destruct (match stored areaId key s with Some old => _ | None => true end) eqn:E.
    - destruct Hr as (Hr & Hse & Hma). split_and!; [|intros a k Ha; rewrite Hr, bool_decide_eq_false_2; [done|congruence]|done|by rewrite Hma].
      intros k. rewrite Hn, Hr. case_bool_decide as H2; case_bool_decide as H3; try congruence. subst k. unfold pick.
      destruct (stored areaId key s); [|done]. by rewrite (same_seq _ _ Hs), E.
    - subst s1. split_and!; try done. intros k. rewrite Hn. case_bool_decide as H2; [|done]. subst k. unfold pick.
      destruct (stored areaId key s); [|done]. by rewrite (same_seq _ _ Hs), E. }
  destruct H1 as (H1 & Ho & Hse & Hma). destruct (IH s1 Hma) as (s' & E & Hn & Ho').
  { intros l' key' Hin. destruct (Hok l' key' ltac:(by right)) as (? & ? & Hk'). split_and!; [done..|]. unfold self_known, self_of in *. by rewrite Hse. }
  exists s'. split; [exact E|]. split; [|intros a k Ha; rewrite Ho', Ho by done; done].
  intros k. rewrite Hn, H1. unfold newest. rewrite <- foldl_app. f_equal. unfold of_key. rewrite <- map_app, <- List.filter_app. done.
Qed.

(** ** Lifetime *)

Definition expired (l : Lsa) : bool := LSAge (lsa_md l) =? MaxAge.
Definition older_lsa (l : Lsa) : Lsa := set_lsa_md (one_older (lsa_md l)) l.
Definition tick_lsa (l : Lsa) : option Lsa := if expired l then None else Some (older_lsa l).

(** Every LSA can be sent, as those are that the daemon makes or receives from its like. *)
Definition area_sound (areaId : Z) (s : OSPFServer) : Prop := forall key l, stored areaId key s = Some l -> lsa_ok l key.

Record lsdb_sound (s : OSPFServer) : Prop := {
  so_typed : lsdb_typed s;
  so_lsas : forall areaId, area_sound areaId s;
}.

Lemma older_ok l key : lsa_ok l key -> lsa_ok (older_lsa l) key.
Proof.
  intros ((Ha & Ho & Hs & Hl) & Hk & H). assert (is_u16 (u16 (LSAge (lsa_md l) + 1))) by zlia.
  destruct l; cbn in *; (split; [|split; done]); unfold md_ok; cbn; done.
Qed.

(** The maps of the other types have nothing at a key. *)
Lemma typed_none {A} (m : gmap LsaKey A) (T : Z) k : (forall k, is_Some (m !! k) -> LSType k = T) -> LSType k <> T -> m !! k = None.
Proof. intros H Hk. apply eq_None_not_Some. intros Hs. by apply Hk, H. Qed.

Lemma typed_others k db : db_typed db ->
  (LSType k <> RouterLSA -> RouterLsaMap db !! k = None) /\ (LSType k <> NetworkLSA -> NetworkLsaMap db !! k = None) /\
  (LSType k <> Summary3LSA -> Summary3LsaMap db !! k = None) /\ (LSType k <> Summary4LSA -> Summary4LsaMap db !! k = None) /\
  (LSType k <> ASExternalLSA -> ASExternalLsaMap db !! k = None).
Proof.
  intros T. split_and!; intros H; (eapply typed_none; [|exact H]); [|apply T..]. intros j [l Hl]. by apply (dt_router _ T) in Hl as [? _].
Qed.

Lemma ticked_dead {L} (age_of : L -> Z) older encode k o m dead dead' dead1 dead1' :
  ticked age_of older encode k o m dead dead' -> dead1 !! k = dead !! k -> dead1' !! k = dead' !! k ->
  ticked age_of older encode k o m dead1 dead1'.
Proof. unfold ticked. intros H -> ->. exact H. Qed.

Lemma ticked_none {L} (age_of : L -> Z) older encode k o m dead dead' :
  ticked age_of older encode k o m dead dead' -> o = None -> dead' !! k = dead !! k.
Proof. intros H ->. apply H. Qed.

(** What a tick does to one key, the maps of the old and of the new database being [db] and [db']. *)
Definition key_ticked (db db' : LSDatabase) (dead dead' : gmap LsaKey bytes) (k : LsaKey) : Prop :=
  lsa_in k db' = lsa_in k db ≫= tick_lsa /\
  match lsa_in k db with
  | Some l => if expired l then exists pkt, encodeLsa l k = Ok pkt /\ dead' !! k = Some pkt else dead' !! k = dead !! k
  | None => dead' !! k = dead !! k
  end.

Lemma ticked_key {L} (wrap : L -> Lsa) (age_of : L -> Z) (older : L -> L) encode k o m dead dead' :
  (forall l, age_of l = LSAge (lsa_md (wrap l))) -> (forall l, wrap (older l) = older_lsa (wrap l)) -> (forall l, encode l k = encodeLsa (wrap l) k) ->
  ticked age_of older encode k o m dead dead' ->
  (wrap <$> m !! k) = (wrap <$> o) ≫= tick_lsa /\
  match wrap <$> o with
  | Some l => if expired l then exists pkt, encodeLsa l k = Ok pkt /\ dead' !! k = Some pkt else dead' !! k = dead !! k
  | None => dead' !! k = dead !! k
  end.
Proof.
  intros Ha Ho He. destruct o as [l|]; cbn; [|intros [-> ->]; done]. unfold second_later, tick_lsa. unfold expires, expired. rewrite Ha, He. intros [-> H].
  split; [|exact H]. destruct (_ =? _); cbn; [done|by rewrite Ho].
Qed.

Lemma in_type k db : lsa_in k db =
  (if decide (LSType k = RouterLSA) then LRouter <$> RouterLsaMap db !! k
   else if decide (LSType k = NetworkLSA) then LNetwork <$> NetworkLsaMap db !! k
   else if decide (LSType k = Summary3LSA) then LSummary <$> Summary3LsaMap db !! k
   else if decide (LSType k = Summary4LSA) then LSummary <$> Summary4LsaMap db !! k
   else if decide (LSType k = ASExternalLSA) then LASExternal <$> ASExternalLsaMap db !! k else None).
Proof. unfold lsa_in. repeat (case_decide as H; [rewrite H; done|apply Z.eqb_neq in H; rewrite H; clear H]). done. Qed.

Section Ticks.
Context (range : forall A : Type, list A -> list A) (Hrange : forall A (l : list A), Permutation (range A l) l).

Ltac aged m m' d' f' T' F' :=
  match goal with |- context [age_map range ?ao ?o ?e m ?d ?f] =>
    let r := fresh "r" in let E := fresh "E" in
    destruct (age_map_runs range Hrange ao o e m d f) as [r E];
    [|rewrite E; destruct r as [[m' d'] f']; res_simpl; apply (age_map_ticked range Hrange) in E as [T' F']]
  end.

Lemma area_tick areaId s : lsdb_typed s -> area_sound areaId s ->
  exists s' db', processMaxAgeLSA range areaId s = Ok s' /\ AreaLsdb s' = <[areaId := db']> (AreaLsdb s) /\
  (forall k, key_ticked (db_of areaId s) db' (maxAgeLsaMap s) (maxAgeLsaMap s') k) /\
  ((exists k l, stored areaId k s = Some l /\ expired l = true) -> LsaUpdSend zero_intf 0 zero_key LSAAGE ∈ sent s') /\
  (forall m, m ∈ sent s -> m ∈ sent s').
Proof.
  intros T%(db_of_typed areaId) S. unfold area_sound, stored in *. unfold processMaxAgeLSA. cbv zeta. set (db := db_of areaId s) in *. clearbody db.
  assert (Henc : forall k l, lsa_in k db = Some l -> exists pkt, encodeLsa l k = Ok pkt).
  { intros k l H%S. rewrite encode_lsa by done. by eexists. }
  aged (RouterLsaMap db) m1 d1 f1 T1 F1.
  { intros k l Hl _. apply (Henc k (LRouter l)). rewrite in_type, decide_True by (by apply (dt_router _ T k l)). by rewrite Hl. }
  aged (NetworkLsaMap db) m2 d2 f2 T2 F2.
  { intros k l Hl _. apply (Henc k (LNetwork l)). assert (Ht : LSType k = NetworkLSA) by (apply (dt_network _ T); by eexists).
    rewrite in_type, Ht. cbn. by rewrite Hl. }
  aged (ASExternalLsaMap db) m3 d3 f3 T3 F3.
  { intros k l Hl _. apply (Henc k (LASExternal l)). assert (Ht : LSType k = ASExternalLSA) by (apply (dt_external _ T); by eexists).
    rewrite in_type, Ht. cbn. by rewrite Hl. }
  aged (Summary3LsaMap db) m4 d4 f4 T4 F4.
  { intros k l Hl _. apply (Henc k (LSummary l)). assert (Ht : LSType k = Summary3LSA) by (apply (dt_summary3 _ T); by eexists).
    rewrite in_type, Ht. cbn. by rewrite Hl. }
  aged (Summary4LsaMap db) m5 d5 f5 T5 F5.
  { intros k l Hl _. apply (Henc k (LSummary l)). assert (Ht : LSType k = Summary4LSA) by (apply (dt_summary4 _ T); by eexists).
    rewrite in_type, Ht. cbn. by rewrite Hl. }
  set (s0 := set_maxAgeLsaMap d5 (put_db areaId (mkLSDatabase (made db) m1 m2 m4 m5 m3) s)).
  exists (if f5 then send (LsaUpdSend zero_intf 0 zero_key LSAAGE) s0 else s0), (mkLSDatabase (made db) m1 m2 m4 m5 m3).
  split; [done|]. split; [by destruct f5|]. assert (Hs : sent s0 = sent s) by done.
  assert (Hd : maxAgeLsaMap (if f5 then send (LsaUpdSend zero_intf 0 zero_key LSAAGE) s0 else s0) = d5) by (by destruct f5). rewrite Hd. split_and!.
  - intros k. destruct (typed_others k db T) as (O1 & O2 & O3 & O4 & O5). specialize (T1 k). specialize (T2 k). specialize (T3 k).
    specialize (T4 k). specialize (T5 k). unfold key_ticked. rewrite !in_type. cbn [RouterLsaMap NetworkLsaMap Summary3LsaMap Summary4LsaMap ASExternalLsaMap].
    pose proof (fun H => ticked_none _ _ _ _ _ _ _ _ T1 (O1 H)) as Q1. pose proof (fun H => ticked_none _ _ _ _ _ _ _ _ T2 (O2 H)) as Q2.
    pose proof (fun H => ticked_none _ _ _ _ _ _ _ _ T3 (O5 H)) as Q3. pose proof (fun H => ticked_none _ _ _ _ _ _ _ _ T4 (O3 H)) as Q4.
    pose proof (fun H => ticked_none _ _ _ _ _ _ _ _ T5 (O4 H)) as Q5. clear O1 O2 O3 O4 O5.
    repeat case_decide;
      [ eapply (ticked_key LRouter), ticked_dead; [| | |exact T1| |]
      | eapply (ticked_key LNetwork), ticked_dead; [| | |exact T2| |]
      | eapply (ticked_key LSummary), ticked_dead; [| | |exact T4| |]
      | eapply (ticked_key LSummary), ticked_dead; [| | |exact T5| |]
      | eapply (ticked_key LASExternal), ticked_dead; [| | |exact T3| |]
      | cbn; split; [done|] ];
      try done; repeat match goal with H : _ <> _ -> ?x = _ |- context [?x] =>
        rewrite H by first [done | match goal with Ht : LSType k = _ |- _ => by rewrite Ht end] end; done.
  - intros (k & l & Hl & He). assert (f5 = true) as ->.
    { apply F5. rewrite F4, F3, F2, F1. rewrite in_type in Hl. unfold expired in He.
      repeat case_decide; try done; apply fmap_Some in Hl as (x & Hx & ->);
        [do 4 left; right|do 3 left; right|left; right|right|do 2 left; right]; by exists k, x. }
    cbn. apply elem_of_app. right. left.
  - intros m Hm. destruct f5; cbn; [apply elem_of_app; by left|done].
Qed.

(** The LSA at [k] in the area has expired and is there to be flooded. *)
Definition flushed (s s' : OSPFServer) (k : LsaKey) (areaId : Z) : Prop :=
  exists l pkt, stored areaId k s = Some l /\ expired l = true /\ encodeLsa l k = Ok pkt /\ maxAgeLsaMap s' !! k = Some pkt.

Definition any_expired (areas : list Z) (s : OSPFServer) : Prop :=
  exists a k l, a ∈ areas /\ stored a k s = Some l /\ expired l = true.

Lemma areas_tick areas : NoDup areas -> forall s, lsdb_typed s -> (forall a, a ∈ areas -> area_sound a s) ->
  exists s', each (processMaxAgeLSA range) areas s = Ok s' /\ lsdb_typed s' /\
  (forall a k, stored a k s' = if bool_decide (a ∈ areas) then stored a k s ≫= tick_lsa else stored a k s) /\
  (forall k, (exists a, a ∈ areas /\ flushed s s' k a) \/
     maxAgeLsaMap s' !! k = maxAgeLsaMap s !! k /\ forall a l, a ∈ areas -> stored a k s = Some l -> expired l = false) /\
  (any_expired areas s -> LsaUpdSend zero_intf 0 zero_key LSAAGE ∈ sent s') /\ (forall m, m ∈ sent s -> m ∈ sent s').
Proof.
  induction 1 as [|a areas Ha Hn IH]; intros s T S; cbn [each].
  { exists s. split_and!; try done; [intros k; right; split; [done|intros a l H; by apply not_elem_of_nil in H]|].
    intros (a & k & l & H & _). by apply not_elem_of_nil in H. }
  destruct (area_tick a s T (S a ltac:(left))) as (s1 & db & E1 & L1 & K1 & F1 & M1). rewrite E1. res_simpl.
  assert (T1 : lsdb_typed s1) by (eapply (ends_ok _ _ s1 (area_aged range Hrange a s s (keeps_refl s)) E1); exact T).
  assert (St : forall b k, stored b k s1 = if bool_decide (b = a) then stored b k s ≫= tick_lsa else stored b k s).
  { intros b k. unfold stored, db_of. rewrite L1. case_bool_decide as Hb; [subst b; rewrite lookup_insert_eq; apply K1|by rewrite lookup_insert_ne]. }
  assert (Sb : forall b k, b ∈ areas -> stored b k s1 = stored b k s).
  { intros b k Hb. rewrite St, bool_decide_eq_false_2; [done|]. by intros ->. }
  destruct (IH s1 T1) as (s2 & E2 & T2 & St2 & D2 & F2 & M2).
  { intros b Hb k l. rewrite Sb by done. by apply S; right. }
  exists s2. split_and!; try done; [| | |by auto].
  - intros b k. rewrite St2, St. destruct (decide (b = a)) as [->|Hne].
    + rewrite (bool_decide_eq_false_2 (a ∈ areas)), !bool_decide_eq_true_2; [done|by left|done|done].
    + rewrite (bool_decide_eq_false_2 (b = a)) by done. repeat case_bool_decide; set_solver.
  - intros k. destruct (D2 k) as [(b & Hb & l & pkt & Hl & He)|[D2k N2]].
    { left. exists b. split; [by right|]. exists l, pkt. by rewrite <- Sb. }
    destruct (K1 k) as [_ K]. unfold stored in *. destruct (lsa_in k (db_of a s)) as [l|] eqn:El; [destruct (expired l) eqn:Ex|].
    + destruct K as (pkt & He & Hd). left. exists a. split; [left|]. exists l, pkt. by rewrite D2k.
    + right. split; [by rewrite D2k|]. intros b l' [->|Hb]%elem_of_cons Hl'; [congruence|]. apply (N2 b); [done|]. by rewrite Sb.
    + right. split; [by rewrite D2k|]. intros b l' [->|Hb]%elem_of_cons Hl'; [congruence|]. apply (N2 b); [done|]. by rewrite Sb.
  - intros (b & k & l & [->|Hb]%elem_of_cons & Hl & He); [apply M2, F1; by exists k, l|]. apply F2. exists b, k, l. by rewrite Sb.
Qed.

Lemma tick_sound l l' key : lsa_ok l key -> tick_lsa l = Some l' -> lsa_ok l' key.
Proof. unfold tick_lsa. intros H. destruct (expired l); [done|]. intros [= <-]. by apply older_ok. Qed.

Lemma no_area a k s : AreaLsdb s !! a = None -> stored a k s = None.
Proof. unfold stored, db_of. intros ->. cbn. rewrite in_type. by repeat case_decide. Qed.

Lemma ticker_spec s : lsdb_sound s -> exists s', processLSDatabaseTicker range s = Ok s' /\ lsdb_sound s' /\
  (forall a k, stored a k s' = stored a k s ≫= tick_lsa) /\
  (forall a k l, stored a k s = Some l -> expired l = true ->
     (exists b, flushed s s' k b) /\ LsaUpdSend zero_intf 0 zero_key LSAAGE ∈ sent s').
Proof.
  intros [T S]. set (areas := range _ (map fst (map_to_list (AreaLsdb s)))).
  assert (Hn : NoDup areas) by (unfold areas; rewrite Hrange; apply NoDup_fst_map_to_list).
  assert (Hin : forall a k l, stored a k s = Some l -> a ∈ areas).
  { intros a k l H. unfold areas. rewrite Hrange. destruct (AreaLsdb s !! a) as [db|] eqn:E.
    - apply list_elem_of_fmap. exists (a, db). split; [done|]. by apply elem_of_map_to_list.
    - by rewrite no_area in H. }
  destruct (areas_tick areas Hn s T (fun a _ => S a)) as (s' & E & T' & St & D & F & _).
  assert (Hst : forall a k, stored a k s' = stored a k s ≫= tick_lsa).
  { intros a k. rewrite St. case_bool_decide as Hb; [done|]. destruct (stored a k s) as [l|] eqn:El; [|done]. by apply Hin in El. }
  exists s'. split; [exact E|]. split; [|split; [exact Hst|]].
  - split; [done|]. intros a k l. rewrite Hst. destruct (stored a k s) as [l0|] eqn:El; [|done]. cbn. apply tick_sound. by apply (S a).
  - intros a k l Hl He. pose proof (Hin a k l Hl) as Ha. split; [|apply F; by exists a, k, l].
    destruct (D k) as [(b & _ & Hb)|[_ Hb]]; [by exists b|]. rewrite (Hb a l Ha Hl) in He. done.
Qed.

(** Some seconds. *)
Fixpoint ticks (n : nat) (s : OSPFServer) : res OSPFServer :=
  match n with O => Ok s | S n => s ← processLSDatabaseTicker range s; ticks n s end.

Definition at_age (age : Z) (l : Lsa) : Lsa := set_lsa_md (set_age age (lsa_md l)) l.

Lemma at_age_older age l : is_u16 (age + 1) -> older_lsa (at_age age l) = at_age (age + 1) l.
Proof.
  intros H. unfold older_lsa, at_age, one_older. assert (E : lsa_md (set_lsa_md (set_age age (lsa_md l)) l) = set_age age (lsa_md l)) by (by destruct l).
  rewrite E. cbn [LSAge set_age]. unfold u16. rewrite Z.mod_small by exact H. by destruct l.
Qed.

Lemma age_at age l : LSAge (lsa_md (at_age age l)) = age.
Proof. by destruct l. Qed.

Lemma at_own_age l : at_age (LSAge (lsa_md l)) l = l.
Proof. unfold at_age, set_age. by destruct l as [[[]]|[[]]|[[]]|[[]]]. Qed.

Lemma ticks_age n areaId key l age : forall s, lsdb_sound s -> stored areaId key s = Some (at_age age l) -> 0 <= age ->
  age + Z.of_nat n <= MaxAge ->
  exists s', ticks n s = Ok s' /\ lsdb_sound s' /\ stored areaId key s' = Some (at_age (age + Z.of_nat n) l).
Proof.
  revert age. induction n as [|n IH]; intros age s So Hs H0 Hn.
  { exists s. rewrite Z.add_0_r. done. }
  destruct (ticker_spec s So) as (s1 & E & So1 & St & _). cbn [ticks]. rewrite E. res_simpl.
  destruct (IH (age + 1) s1 So1) as (s' & E' & So' & H'); try (unfold MaxAge in *; lia).
  - rewrite St, Hs. cbn. unfold tick_lsa, expired. rewrite age_at, (proj2 (Z.eqb_neq _ _)) by lia. f_equal. apply at_age_older.
    unfold MaxAge in *. zlia.
  - exists s'. split_and!; [done|done|]. rewrite H'. do 2 f_equal. lia.
Qed.
End Ticks.

(** ** The LSA of the router itself *)

Section Origin.
Context (range : forall A : Type, list A -> list A) (Hrange : forall A (l : list A), Permutation (range A l) l) (IfTypeLoopback : Z).

(** The addresses of an interface can be read. *)
Record intf_ready (key : IntfConfKey) (ent : IntfConf) : Prop := {
  ir_key : is_ok (convertAreaOrRouterIdUint32 (IPAddr key)) = true;
  ir_area : is_bytes (IfAreaId ent) /\ 4 <= len (IfAreaId ent);
  ir_mask : is_bytes (IfNetmask ent) /\ 4 <= len (IfNetmask ent);
  ir_dr : is_bytes (IfDRIp ent) /\ 4 <= len (IfDRIp ent);
  ir_addr : exists v, intf_address ent = Ok v /\ is_u32 v;
}.

Definition intfs_ready (s : OSPFServer) : Prop :=
  (forall key ent, IntfConfMap s !! key = Some ent -> intf_ready key ent) /\ forall nbr, is_u32 (nbr_router s nbr).

Lemma convert_ok ip : is_bytes ip /\ 4 <= len ip -> exists v, convertIPv4ToUint32 ip = Ok v /\ is_u32 v.
Proof.
  intros [Hb Hl]. unfold convertIPv4ToUint32.
  destruct (index_bytes ip 0 Hb ltac:(lia)) as (a & -> & Ha). destruct (index_bytes ip 1 Hb ltac:(lia)) as (b & -> & H1).
  destruct (index_bytes ip 2 Hb ltac:(lia)) as (c & -> & Hc). destruct (index_bytes ip 3 Hb ltac:(lia)) as (d & -> & Hd).
  res_simpl. eexists. split; [done|]. zlia.
Qed.

Lemma stub_link_ok key ent : intf_ready key ent -> exists l, constructStubLinkP2P ent = Ok l /\ link_ok l.
Proof.
  intros R. unfold constructStubLinkP2P. destruct (ir_addr _ _ R) as (v & -> & Hv). destruct (convert_ok _ (ir_mask _ _ R)) as (m & -> & Hm).
  res_simpl. eexists. split; [done|]. pose proof (land_range 32 v m ltac:(lia) Hv). unfold link_ok. cbn. split_and!; try done; zlia.
Qed.

Lemma intf_links_ok key ent s : intf_ready key ent -> (forall nbr, is_u32 (nbr_router s nbr)) ->
  exists ls, intf_links key ent s = Ok ls /\ Forall link_ok ls /\ len ls <= 2.
Proof.
  intros R Hn. destruct (stub_link_ok key ent R) as (stub & Es & Hs). destruct (ir_addr _ _ R) as (v & Ev & Hv).
  assert (Hp : forall r d, r = Ok d -> is_u32 d -> exists ls, p2p_links key ent r s = Ok ls /\ Forall link_ok ls /\ len ls <= 2).
  { intros r d -> Hd. unfold p2p_links. rewrite Es. res_simpl. destruct (bool_decide _); eexists; (split; [done|]);
      (split; [|done]); repeat apply Forall_cons_2; try done. unfold link_ok, first_neighbor. cbn. split_and!; try done; try zlia.
    repeat case_match; [zlia|apply Hn|zlia]. }
  unfold intf_links. destruct (_ =? _).
  { destruct (bool_decide _); [rewrite Es; res_simpl; eexists; split; [done|]; split; [by apply Forall_singleton|done]|].
    destruct (convert_ok _ (ir_dr _ _ R)) as (d & -> & Hd). rewrite Ev. res_simpl. eexists. split; [done|]. split; [|done].
    apply Forall_singleton. unfold link_ok. cbn. split_and!; try done; zlia. }
  destruct (_ =? _); [by apply (Hp _ v)|]. destruct (_ =? _); [apply (Hp _ (u32 (IntfIdx key))); [done|zlia]|].
  eexists. split; [done|]. split; [|done]. apply Forall_singleton. unfold link_ok. cbn. split_and!; try done; zlia.
Qed.

Lemma all_links_ok areaId s l : (forall nbr, is_u32 (nbr_router s nbr)) -> (forall e, e ∈ l -> intf_ready e.1 e.2) ->
  exists ls, all_links IfTypeLoopback areaId l s = Ok ls /\ Forall link_ok ls /\ len ls <= 2 * len l.
Proof.
  intros Hn. induction l as [|[key ent] l IH]; intros R; cbn [all_links]; [by exists []|].
  destruct IH as (ls & El & Hl & Hc); [intros; apply R; by right|]. pose proof (R (key, ent) ltac:(left)) as Re. cbn in Re.
  destruct (intf_links_ok key ent s Re Hn) as (ls0 & E0 & H0 & Hc0).
  assert (H : exists ls1, links_of IfTypeLoopback areaId (key, ent) s = Ok ls1 /\ Forall link_ok ls1 /\ len ls1 <= 2).
  { unfold links_of. cbn [fst snd]. pose proof (ir_key _ _ Re) as Hk. destruct (convertAreaOrRouterIdUint32 _); try done.
    destruct (convert_ok _ (ir_area _ _ Re)) as (area & -> & _). res_simpl. destruct (negb _); [by exists []|]. destruct (_ && _); [by exists []|]. by exists ls0. }
  destruct H as (ls1 & E1 & H1 & Hc1). rewrite E1. res_simpl. rewrite El. res_simpl. exists (ls1 ++ ls). split; [done|].
  split; [by apply Forall_app|]. rewrite len_app, len_cons. lia.
Qed.

(** The links of an interface, as RFC 2328, 12.4.1, lists them: for a network without neighbors a
    stub link, for one with neighbors a link to the network of its designated router, for a
    point-to-point link a stub link and a link to the neighbor once there is one. For other
    types the daemon puts in an empty link. *)
Definition stub_to (v m cost : Z) : LinkDetail := mkLinkDetail (Z.land v m) m StubLink 0 cost [].

Definition first_on (key : IntfConfKey) (s : OSPFServer) (nbr : Z) : Prop :=
  match ospfIntfToNbrMap s !! key with Some (n :: _) => nbr = nbr_router s n | _ => nbr = 0 end.

Record reads (ent : IntfConf) (v m : Z) : Prop := mkReads {
  rd_addr : convertAreaOrRouterIdUint32 (IP_String (IfIpAddr ent)) = Ok v;
  rd_mask : convertIPv4ToUint32 (IfNetmask ent) = Ok m;
}.

Inductive links_for (s : OSPFServer) (key : IntfConfKey) (ent : IntfConf) : list LinkDetail -> Prop :=
| lf_stub v m :
    IfType ent = Broadcast -> NeighborMap ent = ∅ -> reads ent v m -> links_for s key ent [stub_to v m (u16 (IfCost ent))]
| lf_transit v m dr :
    IfType ent = Broadcast -> NeighborMap ent <> ∅ -> reads ent v m -> convertIPv4ToUint32 (IfDRIp ent) = Ok dr ->
    links_for s key ent [mkLinkDetail dr v TransitLink 0 (u16 (IfCost ent)) []]
| lf_alone v m :
    IfType ent = NumberedP2P \/ IfType ent = UnnumberedP2P -> NeighborMap ent = ∅ -> reads ent v m ->
    links_for s key ent [stub_to v m (u16 (IfCost ent))]
| lf_numbered v m nbr :
    IfType ent = NumberedP2P -> NeighborMap ent <> ∅ -> reads ent v m -> first_on key s nbr ->
    links_for s key ent [stub_to v m (u16 (IfCost ent)); mkLinkDetail nbr v P2PLink 0 (u16 (IfCost ent)) []]
| lf_unnumbered v m nbr :
    IfType ent = UnnumberedP2P -> NeighborMap ent <> ∅ -> reads ent v m -> first_on key s nbr ->
    links_for s key ent [stub_to v m (u16 (IfCost ent)); mkLinkDetail nbr (u32 (IntfIdx key)) P2PLink 0 (u16 (IfCost ent)) []]
| lf_other :
    IfType ent <> Broadcast -> IfType ent <> NumberedP2P -> IfType ent <> UnnumberedP2P ->
    links_for s key ent [mkLinkDetail 0 0 0 0 0 []].

Definition is_loopback (key : IntfConfKey) (s : OSPFServer) : Prop :=
  exists ip, convertAreaOrRouterIdUint32 (IPAddr key) = Ok ip /\ (default (0, 0) (ipPropertyMap s !! ip)).2 = IfTypeLoopback.

(** What an interface adds to the router LSA of an area: its links, when it is of the area and
    either is up or is a loopback. *)
Inductive announces (areaId : Z) (s : OSPFServer) (e : IntfConfKey * IntfConf) : list LinkDetail -> Prop :=
| an_elsewhere a : convertIPv4ToUint32 (IfAreaId e.2) = Ok a -> a <> areaId -> announces areaId s e []
| an_waits : convertIPv4ToUint32 (IfAreaId e.2) = Ok areaId -> IfFSMState e.2 <= Waiting -> ~ is_loopback e.1 s -> announces areaId s e []
| an_links ls :
    convertIPv4ToUint32 (IfAreaId e.2) = Ok areaId -> Waiting < IfFSMState e.2 \/ is_loopback e.1 s ->
    links_for s e.1 e.2 ls -> announces areaId s e ls.

Lemma p2p_links_for key ent s data d :
  intf_ready key ent -> data = Ok d -> exists v m nbr, reads ent v m /\ first_on key s nbr /\
  p2p_links key ent data s = Ok (if bool_decide (NeighborMap ent = ∅) then [stub_to v m (u16 (IfCost ent))]
    else [stub_to v m (u16 (IfCost ent)); mkLinkDetail nbr d P2PLink 0 (u16 (IfCost ent)) []]).
Proof.
  intros R ->. destruct (ir_addr _ _ R) as (v & Ev & _). destruct (convert_ok _ (ir_mask _ _ R)) as (m & Em & _).
  exists v, m, (first_neighbor key s). split; [by split|]. split; [unfold first_on, first_neighbor; by repeat case_match|].
  unfold p2p_links, constructStubLinkP2P. rewrite Ev. res_simpl. rewrite Em. res_simpl. by case_bool_decide.
Qed.

Lemma intf_links_for key ent s : intf_ready key ent -> exists ls, intf_links key ent s = Ok ls /\ links_for s key ent ls.
Proof.
  intros R. destruct (ir_addr _ _ R) as (v & Ev & _). destruct (convert_ok _ (ir_mask _ _ R)) as (m & Em & _).
  destruct (convert_ok _ (ir_dr _ _ R)) as (dr & Ed & _). assert (Hrd : reads ent v m) by by split.
  unfold intf_links. destruct (Z.eqb_spec (IfType ent) Broadcast) as [Hb|Hb].
  { case_bool_decide as Hn.
    - unfold constructStubLinkP2P. rewrite Ev. res_simpl. rewrite Em. res_simpl. eexists. split; [done|]. by constructor.
    - rewrite Ed. res_simpl. rewrite Ev. res_simpl. eexists. split; [done|]. by econstructor. }
  destruct (Z.eqb_spec (IfType ent) NumberedP2P) as [H1|H1].
  { destruct (p2p_links_for key ent s (intf_address ent) v R Ev) as (v' & m' & nbr & Hr' & Hf & ->).
    assert (v' = v) as -> by (destruct Hr'; unfold intf_address in Ev; congruence).
    eexists. split; [done|]. case_bool_decide as Hn; [by apply lf_alone; [left|..]|by eapply lf_numbered]. }
  destruct (Z.eqb_spec (IfType ent) UnnumberedP2P) as [H2|H2].
  { destruct (p2p_links_for key ent s (Ok (u32 (IntfIdx key))) _ R eq_refl) as (v' & m' & nbr & Hr' & Hf & ->).
    eexists. split; [done|]. case_bool_decide as Hn; [by apply lf_alone; [right|..]|by eapply lf_unnumbered]. }
  eexists. split; [done|]. by constructor.
Qed.

Lemma links_announced areaId e s : intf_ready e.1 e.2 -> exists ls, links_of IfTypeLoopback areaId e s = Ok ls /\ announces areaId s e ls.
Proof.
  intros R. destruct (intf_links_for e.1 e.2 s R) as (ls & El & Hl). destruct (convert_ok _ (ir_area _ _ R)) as (a & Ea & _).
  pose proof (ir_key _ _ R) as Hk. destruct (convertAreaOrRouterIdUint32 (IPAddr e.1)) as [ip| | |] eqn:Ek; try done. clear Hk.
  unfold links_of. rewrite Ek. res_simpl. rewrite Ea. res_simpl. destruct (Z.eqb_spec areaId a) as [<-|Hne]; cbn [negb].
  2: { exists []. split; [done|]. by apply (an_elsewhere _ _ _ a). }
  assert (Hloop : is_loopback e.1 s <-> (default (0, 0) (ipPropertyMap s !! ip)).2 = IfTypeLoopback).
  { unfold is_loopback. rewrite Ek. split; [by intros (? & [= <-] & ?)|by exists ip]. }
  destruct (Z.eqb_spec (default (0, 0) (ipPropertyMap s !! ip)).2 IfTypeLoopback) as [Hp|Hp]; cbn [negb]; rewrite ?andb_false_r, ?andb_true_r.
  { exists ls. split; [done|]. apply an_links; [done|by right; apply Hloop|done]. }
  destruct (Z.leb_spec (IfFSMState e.2) Waiting).
  - exists []. split; [done|]. apply an_waits; [done|done|by rewrite Hloop].
  - exists ls. split; [done|]. apply an_links; [done|by left|done].
Qed.

Lemma all_announced areaId s l : (forall e, e ∈ l -> intf_ready e.1 e.2) ->
  exists lss, all_links IfTypeLoopback areaId l s = Ok (mjoin lss) /\ Forall2 (announces areaId s) l lss.
Proof.
  induction l as [|e l IH]; intros R; cbn [all_links]; [by exists []; split; [|constructor]|].
  destruct (links_announced areaId e s) as (ls & El & Hl); [apply R; by left|]. destruct IH as (lss & E & H); [intros; apply R; by right|].
  exists (ls :: lss). rewrite El. res_simpl. rewrite E. res_simpl. split; [done|by constructor].
Qed.

Lemma checksum_made l key : lsa_ok l key -> exists enc csum, encodeLsa l key = Ok enc /\ lsa_checksum enc = Ok csum.
Proof.
  intros (pkt & l' & Hw & _)%lsa_sent. unfold lsa_wire in Hw. destruct (encodeLsa l key) as [enc| | |]; try done. res_simpl. exists enc.
  unfold checksummed in Hw. unfold lsa_checksum. destruct (slice_from enc 2); try done. res_simpl.
  destruct (computeFletcherChecksum _ _) as [[c d]| | |]; try done. res_simpl. by exists c.
Qed.

(** The LSA the router makes of its links. *)
Definition own_lsa (old : option RouterLsa) (borderRtr : bool) (links : list LinkDetail) : RouterLsa :=
  mkRouterLsa (mkLsaMetadata 0 2 (match old with Some l => LSSequenceNum (r_LsaMd l) + 1 | None => InitialSequenceNumber end) 0 (24 + 12 * len links))
    (match old with Some l => BitV l | None => false end) false borderRtr (len links) links.

Lemma own_lsa_ok old b links rtr :
  is_u32 rtr -> Forall link_ok links -> 24 + 12 * len links < 65536 -> is_u32 (next_number (r_LsaMd <$> old)) ->
  lsa_ok (LRouter (own_lsa old b links)) (own_router_key rtr).
Proof.
  intros Hr Hl Hn Hs. pose proof (len_nonneg links). unfold lsa_ok, md_ok, key_ok, own_lsa, own_router_key. cbn.
  unfold next_number in Hs. split_and!; try done; unfold RouterLSA; try zlia; by destruct old.
Qed.

Lemma same_ok l l' key : same_but_checksum l l' -> lsa_ok l key -> lsa_ok l' key.
Proof. intros [c ->] ((Ha & Ho & Hs & Hl) & Hk & H). destruct l; cbn in *; (split; [|split; done]); unfold md_ok; cbn; done. Qed.

Lemma stored_mark a k areaId key v s s' : mark_self areaId key v s = Ok s' -> stored a k s' = stored a k s.
Proof. unfold mark_self. destruct (self_of areaId s); [|done]. by intros [= <-]. Qed.

(** What the daemon has to know before it can make its router LSA. *)
Record origin_ready (areaId : Z) (rtr : Z) (s : OSPFServer) : Prop := {
  or_made : area_made areaId s;
  or_rtr : convertIPv4ToUint32 (RouterId s) = Ok rtr /\ is_u32 rtr;
  or_intfs : intfs_ready s;
  or_few : Z.of_nat (size (IntfConfMap s)) <= 2700;
  or_seq : is_u32 (next_number (r_LsaMd <$> RouterLsaMap (db_of areaId s) !! own_router_key rtr));
}.

Lemma links_ready areaId rtr s : origin_ready areaId rtr s ->
  exists lss, let links := mjoin lss in
  Forall2 (announces areaId s) (range _ (map_to_list (IntfConfMap s))) lss /\
  all_links IfTypeLoopback areaId (range _ (map_to_list (IntfConfMap s))) s = Ok links /\ Forall link_ok links /\
  24 + 12 * len links < 65536.
Proof.
  intros R. destruct (or_intfs _ _ _ R) as [Hi Hn].
  assert (Hr : forall e, e ∈ range _ (map_to_list (IntfConfMap s)) -> intf_ready e.1 e.2).
  { intros [key ent] H. rewrite Hrange in H. apply elem_of_map_to_list in H. by apply Hi. }
  destruct (all_announced areaId s _ Hr) as (lss & Ea & Ha).
  destruct (all_links_ok areaId s (range _ (map_to_list (IntfConfMap s))) Hn) as (ls & E & Hl & Hc).
  - done.
  - exists lss. rewrite Ea in E. injection E as <-. cbv zeta. split_and!; [done|done|done|]. pose proof (or_few _ _ _ R). assert (len (range _ (map_to_list (IntfConfMap s))) = Z.of_nat (size (IntfConfMap s))) as E1.
    { unfold len. by rewrite Hrange, length_map_to_list. } lia.
Qed.

Lemma generate_router areaId rtr s links :
  origin_ready areaId rtr s -> all_links IfTypeLoopback areaId (range _ (map_to_list (IntfConfMap s))) s = Ok links ->
  Forall link_ok links -> 24 + 12 * len links < 65536 ->
  exists s', generateRouterLSA range IfTypeLoopback areaId s = Ok s' /\
  let own := own_lsa (RouterLsaMap (db_of areaId s) !! own_router_key rtr) (AreaBdrRtrStatus s) links in
  match links with
  | [] => stored areaId (own_router_key rtr) s' = None /\ self_known areaId (own_router_key rtr) s' = false
  | _ => (exists l, stored areaId (own_router_key rtr) s' = Some l /\ same_but_checksum (LRouter own) l) /\
         self_valid areaId (own_router_key rtr) s' = true
  end /\ forall a k, (a, k) <> (areaId, own_router_key rtr) -> stored a k s' = stored a k s.
Proof.
  intros R El Hl Hn. destruct (or_rtr _ _ _ R) as [Er Hr]. destruct (or_made _ _ _ R) as [Hm [m Hself]]. unfold generateRouterLSA.
  rewrite El. res_simpl. rewrite Er. res_simpl. destruct (AreaLsdb s !! areaId) as [db|] eqn:Edb.
  2: { unfold db_of in Hm. by rewrite Edb in Hm. }
  pose proof (known_db _ _ _ Edb) as Hdb. rewrite Hdb in *. set (key := own_router_key rtr) in *. assert (Ht : LSType key = RouterLSA) by done.
  pose proof (own_lsa_ok _ (AreaBdrRtrStatus s) links rtr Hr Hl Hn (or_seq _ _ _ R)) as Hok. rewrite Hdb in Hok. fold key in Hok.
  destruct links as [|x links].
  - eexists. split; [done|]. cbn zeta. split; [split|].
    + unfold stored. rewrite db_of_put. unfold lsa_in. rewrite Ht. cbn. by rewrite lookup_delete_eq.
    + unfold self_known. change (self_of areaId (put_db _ _ ?t)) with (self_of areaId t). unfold unmark_self. rewrite self_of_put, Hself. cbn.
      by rewrite lookup_delete_eq, bool_decide_eq_false_2 by (by intros []).
    + intros a k Hne. unfold stored. destruct (decide (a = areaId)) as [->|Ha]; [|by rewrite db_of_put_ne].
      rewrite db_of_put, Hdb. unfold lsa_in. cbn. rewrite lookup_delete_ne by congruence. done.
  - set (links' := x :: links) in *. set (old := RouterLsaMap db !! key) in *. cbv zeta.
    assert (Eown : mkRouterLsa (mkLsaMetadata 0 2 (next_number (r_LsaMd <$> old)) 0 (u16 (OSPF_LSA_HEADER_SIZE + 4 + 12 * len links')))
      (match old with Some l => BitV l | None => false end) false (AreaBdrRtrStatus s) (u16 (len links')) links' = own_lsa old (AreaBdrRtrStatus s) links').
    { unfold own_lsa, OSPF_LSA_HEADER_SIZE. pose proof (len_nonneg links'). unfold u16. rewrite !Z.mod_small by lia. unfold next_number. by destruct old. }
    rewrite Eown. destruct (checksum_made _ _ Hok) as (enc & csum & Ee & Ec). cbn [encodeLsa] in Ee. rewrite Ee. res_simpl. rewrite Ec, Hm. res_simpl.
    set (l := with_r_md (set_checksum csum) (own_lsa old (AreaBdrRtrStatus s) links')).
    set (s1 := put_db areaId (set_RouterLsaMap (<[key:=l]> (RouterLsaMap db)) db) s).
    assert (Hs1 : self_of areaId s1 = Some m) by done. unfold mark_self. rewrite Hs1. res_simpl. eexists. split; [done|].
    assert (Hst : forall a k, stored a k s1 = if bool_decide ((a, k) = (areaId, key)) then Some (LRouter l) else stored a k s).
    { assert (Hx : stores areaId key (LRouter l) s s1); [|apply Hx]. eapply stores_put; [reflexivity|done|by rewrite Hdb|]. rewrite Hdb. intros k. by apply in_router. }
    assert (Hsame : forall a k b t, stored a k (entered areaId key b t) = stored a k t) by (intros; unfold entered; by destruct b).
    split; [split|].
    + exists (LRouter l). rewrite Hsame. change (stored areaId key (put_self _ _ ?t)) with (stored areaId key t).
      rewrite Hst, bool_decide_eq_true_2 by done. split; [done|]. by exists csum.
    + unfold self_valid. assert (self_of areaId (entered areaId key (bool_decide (is_Some old)) (put_self areaId (Some (<[key:=true]> m)) s1)) = Some (<[key:=true]> m)) as ->.
      { unfold entered. destruct (bool_decide _); apply (self_of_put areaId (Some (<[key:=true]> m)) s1). }
      cbn. by rewrite lookup_insert_eq.
    + intros a k Hne. rewrite Hsame. change (stored a k (put_self _ _ ?t)) with (stored a k t). by rewrite Hst, bool_decide_eq_false_2.
Qed.
End Origin.
