(* ===== verification/OspfLsdbProps.v ===== *)
(** * OSPF: what the link state database guarantees

    The types in the database, the receipt of LSAs and the outcome of flooding, the lifetime
    of an LSA, and the way of the router's own LSA to its neighbors. *)

From S2P Require Import Prelude.
From S2P Require Import OspfUtil.
From S2P Require Import OspfLsa.
From S2P Require Import OspfLsaSpec.
From S2P Require Import OspfServer.
From S2P Require Import OspfSpf.
From S2P Require Import OspfRoute.
From S2P Require Import OspfIntf.
From S2P Require Import OspfLsdb.
From S2P Require Import OspfLsdbSpec.

#[local] Arguments convertUint32ToIPv4 : simpl never.

(** ** The start *)

Lemma init_keeps areaId s : keeps s (initLSDatabase areaId s).
Proof.
  unfold initLSDatabase. assert (K : keeps s (match AreaLsdb s !! areaId with Some _ => s | None => put_db areaId (mkLSDatabase true ∅ ∅ ∅ ∅ ∅) s end)).
  { destruct (AreaLsdb s !! areaId); [apply keeps_refl|]. apply keeps_put; [apply keeps_refl|intros _; apply empty_typed|done]. }
  revert K. generalize (match AreaLsdb s !! areaId with Some _ => s | None => put_db areaId (mkLSDatabase true ∅ ∅ ∅ ∅ ∅) s end). intros s1 K.
  destruct (AreaSelfOrigLsa s1 !! areaId); [done|]. apply keeps_self; [done|by eexists].
Qed.

(** No nil table in the tables of the areas. *)
Definition tables_made (s : OSPFServer) : Prop :=
  (forall a db, AreaLsdb s !! a = Some db -> made db = true) /\ forall a m, AreaSelfOrigLsa s !! a = Some m -> is_Some m.

Lemma init_made areaId s : tables_made s -> tables_made (initLSDatabase areaId s) /\ area_made areaId (initLSDatabase areaId s).
Proof.
  intros [H1 H2]. unfold initLSDatabase. set (s1 := match AreaLsdb s !! areaId with Some _ => s | None => _ end).
  assert (Hs1 : tables_made s1 /\ made (db_of areaId s1) = true).
  { unfold s1. destruct (AreaLsdb s !! areaId) as [db|] eqn:E.
    - split; [done|]. rewrite (known_db _ _ _ E). by eapply H1.
    - split; [split; [|done]|by rewrite db_of_put]. intros a db. unfold put_db. cbn. intros [[<- <-]|[_ H]]%lookup_insert_Some; [done|by eapply H1]. }
  clearbody s1. destruct Hs1 as [[L1 S1] M1]. destruct (AreaSelfOrigLsa s1 !! areaId) as [m|] eqn:E.
  - split; [done|]. split; [done|]. unfold self_of, SelfOrigLsa in *. rewrite E. cbn. by eapply S1.
  - split; [split; [done|]|split; [done|rewrite self_of_put; by eexists]]. intros a m. unfold put_self. cbn.
    intros [[<- <-]|[_ H]]%lookup_insert_Some; [by eexists|by eapply S1].
Qed.

Section Start.
Context (range : forall A : Type, list A -> list A) (Hrange : forall A (l : list A), Permutation (range A l) l).

Lemma start_made (l : list (string * AreaConf)) s s' :
  each (fun e s => areaId ← convertAreaOrRouterIdUint32 e.1; Ok (initLSDatabase areaId s)) l s = Ok s' -> tables_made s -> lsdb_typed s ->
  tables_made s' /\ keeps s s' /\ forall e areaId, e ∈ l -> convertAreaOrRouterIdUint32 e.1 = Ok areaId -> area_made areaId s'.
Proof.
  revert s. induction l as [|e l IH]; intros s; cbn [each].
  { intros [= <-] M _. split_and!; [done|apply keeps_refl|]. intros e a H. by apply not_elem_of_nil in H. }
  destruct (convertAreaOrRouterIdUint32 e.1) as [areaId| | |] eqn:E; try done. res_simpl. intros H M T.
  destruct (init_made areaId s M) as [M1 A1]. pose proof (init_keeps areaId s) as K1. destruct (IH _ H M1) as (M2 & K2 & A2); [by apply K1|].
  split_and!; [done|by eapply keeps_trans|]. intros e' a [->|Hin]%elem_of_cons Ha; [|by eapply A2]. rewrite E in Ha. injection Ha as <-. by apply K2.
Qed.

Lemma run_keeps IfTypeLoopback ifIndex sort inputs s s' :
  each (lsdb_step range IfTypeLoopback ifIndex sort) inputs s = Ok s' -> keeps s s'.
Proof.
  revert s. induction inputs as [|i inputs IH]; intros s; cbn [each]; [intros [= <-]; apply keeps_refl|].
  pose proof (lsdb_step_keeps range Hrange IfTypeLoopback ifIndex sort i s) as K. destruct (lsdb_step _ _ _ _ i s) as [s1| | |]; try done.
  res_simpl. intros H%IH. by eapply keeps_trans.
Qed.
End Start.

(** C23: whatever the database goroutine is told after its start, every map holds LSAs of its
    type only, under keys of that type, a router LSA has as many links as it says, and the
    tables of every configured area are there. *)
Theorem ospf_lsdb_typed range IfTypeLoopback ifIndex sort inputs s0 s1 s2 :
  (forall A (l : list A), Permutation (range A l) l) -> AreaLsdb s0 = ∅ -> AreaSelfOrigLsa s0 = ∅ ->
  StartLSDatabase range s0 = Ok s1 -> each (lsdb_step range IfTypeLoopback ifIndex sort) inputs s1 = Ok s2 ->
  lsdb_typed s2 /\ forall area areaId, is_Some (AreaConfMap s0 !! area) -> convertAreaOrRouterIdUint32 area = Ok areaId -> area_made areaId s2.
Proof.
  intros Hr H1 H2 Hs Hi. unfold StartLSDatabase in Hs. destruct (each _ _ s0) as [s| | |] eqn:E; try done. res_simpl. injection Hs as <-.
  assert (M : tables_made s0) by (split; intros a x; rewrite ?H1, ?H2; intros H; by rewrite lookup_empty in H).
  assert (T : lsdb_typed s0) by (intros a x H; rewrite H1 in H; by rewrite lookup_empty in H).
  destruct (start_made _ _ _ E M T) as (_ & K & A). apply (run_keeps range Hr) in Hi. split; [by apply Hi, K|].
  intros area areaId [c Hc] Ha. apply Hi. refine (A (area, c) areaId _ Ha). rewrite Hr. by apply elem_of_map_to_list.
Qed.


(** C19: flooding of network, summary and external LSAs converges: two routers that start with the same
    database in the area and receive the same LSAs, in any order and however often each, end with
    the same database, in which no LSA is older than one that was received. The LSAs have fields
    that fit, the right length and no TOS entries ([lsa_ok]), a sequence number stands for one
    instance, and neither router has originated any of the LSAs itself: a self-originated one is
    refused by the router it is of and taken by the other, so that the databases can differ.
    Router LSAs are left out, since they are always taken and the last one received stays. *)
Theorem ospf_flooding_converges areaId msgs1 msgs2 s1 s2 :
  made (db_of areaId s1) = true -> made (db_of areaId s2) = true ->
  (forall key, stored areaId key s1 = stored areaId key s2) ->
  (forall m, m ∈ msgs1 <-> m ∈ msgs2) ->
  (forall l key, (l, key) ∈ msgs1 -> lsa_ok l key /\ LSType key <> RouterLSA) ->
  (forall l key, (l, key) ∈ msgs1 -> self_known areaId key s1 = false /\ self_known areaId key s2 = false) ->
  (forall l l' key, (l, key) ∈ msgs1 -> (l', key) ∈ msgs1 -> seq_of l = seq_of l' -> l = l') ->
  exists s1' s2', receive_all areaId msgs1 s1 = Ok s1' /\ receive_all areaId msgs2 s2 = Ok s2' /\
  (forall key, stored areaId key s1' = stored areaId key s2') /\
  (forall l key, (l, key) ∈ msgs1 -> exists l', stored areaId key s1' = Some l' /\ seq_of l <= seq_of l').
Proof.
  intros M1 M2 Hst Hm Hok Hk Hu.
  assert (Hall : forall l key, (l, key) ∈ msgs1 -> lsa_ok l key /\ LSType key <> RouterLSA /\ self_known areaId key s1 = false /\ self_known areaId key s2 = false).
  { intros l key H. destruct (Hok l key H), (Hk l key H). done. }
  destruct (receive_all_newest areaId msgs1 s1 M1) as (s1' & E1 & N1 & _); [intros l key H; split_and!; by apply (Hall l)|].
  destruct (receive_all_newest areaId msgs2 s2 M2) as (s2' & E2 & N2 & _); [intros l key H%Hm; split_and!; by apply (Hall l)|].
  assert (Hseq : forall l key, (l, key) ∈ msgs1 -> seq_of (arrival (l, key)) = seq_of l).
  { intros l key H. destruct (arrives l key) as (_ & _ & S & _); [by apply Hall|]. by apply same_seq. }
  exists s1', s2'. split_and!; [done|done| |].
  - intros key. rewrite N1, N2, Hst. apply newest_agree.
    + intros c. rewrite !in_of_key. by setoid_rewrite Hm.
    + intros c d (l & -> & Hl)%in_of_key (l' & -> & Hl')%in_of_key. rewrite !Hseq by done. intros Hs. by rewrite (Hu l l' key Hl Hl' Hs).
  - intros l key Hl. rewrite N1. assert (Hin : arrival (l, key) ∈ of_key key msgs1) by (apply in_of_key; by exists l).
    pose proof (newest_spec (of_key key msgs1) (stored areaId key s1)) as H. destruct (newest _ _) as [l'|].
    + exists l'. split; [done|]. rewrite <- (Hseq l key Hl). by apply H.
    + destruct H as [_ H]. rewrite H in Hin. by apply not_elem_of_nil in Hin.
Qed.

(** C20: in a database in which every LSA is well formed ([lsdb_sound]: it has the type of its map,
    fields that fit, no TOS entries and the length of its contents, so that it can be encoded when
    it expires; a shorter length can make the encoding at MaxAge panic), an LSA of
    age [a] that nothing replaces is there, [n] seconds older, behind [n] ticks up to MaxAge, and
    behind the tick after that it is gone, its last instance is there to be flooded, and the
    flooding has been asked for. None of these ticks fails. *)
Theorem ospf_lsa_lifetime range areaId key l s :
  (forall A (l : list A), Permutation (range A l) l) -> lsdb_sound s -> stored areaId key s = Some l -> LSAge (lsa_md l) <= MaxAge ->
  let left := Z.to_nat (MaxAge - LSAge (lsa_md l)) in
  (forall n, (n <= left)%nat ->
     exists s', ticks range n s = Ok s' /\ stored areaId key s' = Some (at_age (LSAge (lsa_md l) + Z.of_nat n) l)) /\
  exists before s' b old pkt, ticks range left s = Ok before /\ processLSDatabaseTicker range before = Ok s' /\
    stored areaId key s' = None /\ stored b key before = Some old /\ LSAge (lsa_md old) = MaxAge /\ encodeLsa old key = Ok pkt /\
    maxAgeLsaMap s' !! key = Some pkt /\ LsaUpdSend zero_intf 0 zero_key LSAAGE ∈ sent s'.
Proof.
  intros Hr So Hl Ha left. assert (H0 : 0 <= LSAge (lsa_md l)) by (by destruct (so_lsas _ So areaId key l Hl) as ((Hu & _) & _); zlia).
  assert (Hs : stored areaId key s = Some (at_age (LSAge (lsa_md l)) l)) by (by rewrite at_own_age).
  split.
  - intros n Hn. destruct (ticks_age range Hr n areaId key l _ s So Hs H0) as (s' & E & _ & St); [lia|]. by exists s'.
  - destruct (ticks_age range Hr left areaId key l _ s So Hs H0) as (before & E & Sb & St); [lia|].
    replace (LSAge (lsa_md l) + Z.of_nat left) with MaxAge in St by lia.
    destruct (ticker_spec range Hr before Sb) as (s' & E' & _ & St' & D). destruct (D areaId key _ St) as [(b & old & pkt & Ho & He & Hp & Hd) Hm].
    { unfold expired. by rewrite age_at. }
    exists before, s', b, old, pkt. split_and!; try done; [rewrite St', St; cbn; unfold tick_lsa, expired; by rewrite age_at|by apply Z.eqb_eq].
Qed.


(** ** Samples *)

Definition as_listed (A : Type) (l : list A) : list A := l.

Lemma as_listed_perm A (l : list A) : Permutation (as_listed A l) l.
Proof. done. Qed.

Definition backbone_router (rtr : Z) : OSPFServer :=
  set_AreaConfMap {["0.0.0.0"%string := mkAreaConf 1 0 false ∅]} (NewOSPFServer (be32 rtr)).

(** The same behind the start, with a database. *)
Definition running_router (rtr : Z) (db : LSDatabase) : OSPFServer :=
  set_AreaSelfOrigLsa {[0 := Some ∅]} (set_AreaLsdb {[0 := db]} (backbone_router rtr)).

Definition empty_db : LSDatabase := mkLSDatabase true ∅ ∅ ∅ ∅ ∅.

Definition sample_packet : bytes := match lsa_wire sample_lsa sample_key with Ok pkt => pkt | _ => [] end.

Definition sample_inputs : list LsdbInput :=
  [LsdbUpdateMsg LsdbAdd 0 sample_packet; ExternalRouteNotif (mkRouteMdata 0x0a000000 0xff000000 20 false); LsdbTick].

Lemma both_ok {A B} (m : res A) (k : A -> res B) : is_ok (m ≫= k) = true -> exists a b, m = Ok a /\ k a = Ok b.
Proof. destruct m as [a| | |]; try done. cbn. destruct (k a) as [b| | |] eqn:E; try done. intros _. by exists a, b. Qed.

Lemma sample_runs :
  is_ok (s ← StartLSDatabase as_listed (backbone_router 2); each (lsdb_step as_listed 5 (fun i _ => i) (fun q => q)) sample_inputs s) = true.
Proof. by vm_compute. Qed.

Lemma ospf_lsdb_typed_witness :
  exists s1 s2, StartLSDatabase as_listed (backbone_router 2) = Ok s1 /\
  each (lsdb_step as_listed 5 (fun i _ => i) (fun q => q)) sample_inputs s1 = Ok s2 /\
  lsdb_typed s2 /\ forall area areaId, is_Some (AreaConfMap (backbone_router 2) !! area) -> convertAreaOrRouterIdUint32 area = Ok areaId -> area_made areaId s2.
Proof.
  destruct (both_ok _ _ sample_runs) as (s1 & s2 & E1 & E2). exists s1, s2. split; [exact E1|]. split; [exact E2|].
  exact (ospf_lsdb_typed as_listed 5 _ _ sample_inputs (backbone_router 2) s1 s2 as_listed_perm eq_refl eq_refl E1 E2).
Defined.

(** Two instances of a network LSA. *)
Definition sample_network (seq : Z) (rtrs : list Z) : Lsa :=
  LNetwork (mkNetworkLsa (mkLsaMetadata 1 2 seq 0 (24 + 4 * len rtrs)) 0xffffff00 rtrs).
Definition network_key : LsaKey := mkLsaKey NetworkLSA 0x0a000001 3.
Definition older_instance : Lsa := sample_network 0x80000001 [3; 4].
Definition newer_instance : Lsa := sample_network 0x80000002 [3; 4; 5].

Lemma older_instance_ok : lsa_ok older_instance network_key.
Proof. unfold lsa_ok, md_ok, key_ok. cbn. split_and!; try done; unfold NetworkLSA; try zlia. repeat constructor; zlia. Qed.

Lemma newer_instance_ok : lsa_ok newer_instance network_key.
Proof. unfold lsa_ok, md_ok, key_ok. cbn. split_and!; try done; unfold NetworkLSA; try zlia. repeat constructor; zlia. Qed.


Definition both : list (Lsa * LsaKey) := [(older_instance, network_key); (newer_instance, network_key)].
Definition both_back : list (Lsa * LsaKey) := [(newer_instance, network_key); (older_instance, network_key); (newer_instance, network_key)].

Lemma both_cases l key : (l, key) ∈ both -> key = network_key /\ (l = older_instance \/ l = newer_instance).
Proof. unfold both. rewrite !elem_of_cons. intros [[= -> ->]|[[= -> ->]|H]]; [by split; [|left]|by split; [|right]|by apply not_elem_of_nil in H]. Qed.

Lemma ospf_flooding_converges_witness :
  exists s1' s2', receive_all 0 both (running_router 1 empty_db) = Ok s1' /\ receive_all 0 both_back (running_router 2 empty_db) = Ok s2' /\
  (forall key, stored 0 key s1' = stored 0 key s2') /\
  (forall l key, (l, key) ∈ both -> exists l', stored 0 key s1' = Some l' /\ seq_of l <= seq_of l').
Proof.
  apply (ospf_flooding_converges 0 both both_back (running_router 1 empty_db) (running_router 2 empty_db)).
  - reflexivity.
  - reflexivity.
  - intros key. reflexivity.
  - intros m. unfold both, both_back. rewrite !elem_of_cons. tauto.
  - intros l key [-> [-> | ->]]%both_cases; (split; [|discriminate]); [exact older_instance_ok|exact newer_instance_ok].
  - intros l key [-> _]%both_cases. split; reflexivity.
  - intros l l' key [-> [-> | ->]]%both_cases [_ [-> | ->]]%both_cases; (reflexivity || (intros H; discriminate H)).
Defined.

(** A router with one LSA in its database, half an hour old. *)
Definition aging_db : LSDatabase := mkLSDatabase true ∅ {[network_key := mkNetworkLsa (mkLsaMetadata 1800 2 0x80000001 0 32) 0xffffff00 [3; 4]]} ∅ ∅ ∅.
Definition aging_lsa : Lsa := LNetwork (mkNetworkLsa (mkLsaMetadata 1800 2 0x80000001 0 32) 0xffffff00 [3; 4]).

Lemma aging_lsa_ok : lsa_ok aging_lsa network_key.
Proof. unfold lsa_ok, md_ok, key_ok. cbn. split_and!; try done; unfold NetworkLSA; try zlia. repeat constructor; zlia. Qed.

Lemma aging_typed : db_typed aging_db.
Proof.
  split; cbn; first [done | intros k l Hx; by rewrite lookup_empty in Hx | intros k [l Hx]; by rewrite lookup_empty in Hx | idtac].
  intros k [l Hl]. by apply lookup_singleton_Some in Hl as [<- _].
Qed.

Lemma aging_sound : lsdb_sound (running_router 2 aging_db).
Proof.
  split.
  - intros a db H. cbn in H. apply lookup_singleton_Some in H as [_ <-]. exact aging_typed.
  - intros a k l H. unfold stored in H. assert (Ha : db_of a (running_router 2 aging_db) = aging_db \/ db_of a (running_router 2 aging_db) = nil_LSDatabase).
    { unfold db_of. cbn. destruct (decide (a = 0)) as [->|Hne]; [left|right]; [by rewrite lookup_singleton_eq|by rewrite lookup_singleton_ne]. }
    destruct Ha as [Ha|Ha]; rewrite Ha, in_type in H; cbn in H; rewrite !lookup_empty in H; repeat case_decide; try done.
    apply fmap_Some in H as (x & [<- <-]%lookup_singleton_Some & ->). exact aging_lsa_ok.
Qed.

Lemma ospf_lsa_lifetime_witness :
  stored 0 network_key (running_router 2 aging_db) = Some aging_lsa /\
  (exists s', ticks as_listed 100 (running_router 2 aging_db) = Ok s' /\ stored 0 network_key s' = Some (at_age 1900 aging_lsa)) /\
  exists before s', ticks as_listed 1800 (running_router 2 aging_db) = Ok before /\ processLSDatabaseTicker as_listed before = Ok s' /\
    stored 0 network_key s' = None /\ LsaUpdSend zero_intf 0 zero_key LSAAGE ∈ sent s'.
Proof.
  assert (Hs : stored 0 network_key (running_router 2 aging_db) = Some aging_lsa) by (unfold stored, db_of; by vm_compute).
  split; [exact Hs|].
  destruct (ospf_lsa_lifetime as_listed 0 network_key aging_lsa (running_router 2 aging_db) as_listed_perm aging_sound Hs ltac:(vm_compute; discriminate))
    as [H1 (before & s' & b & old & pkt & H2 & H3 & H4 & _ & _ & _ & _ & H5)].
  split.
  - apply (H1 100%nat). vm_compute. lia.
  - exists before, s'. split; [exact H2|]. split; [exact H3|]. split; [exact H4|exact H5].
Defined.

(** A router with one interface, and its neighbor. *)
Definition lan_intf : IntfConf :=
  mkIntfConf (be32 0) 1 1 10 40 [] 0 ∅ None (be32 0) (be32 0) 5 0 0 0 [10; 0; 0; 1] [255; 255; 255; 0] 10.
Definition lan_key : IntfConfKey := mkIntfConfKey "10.0.0.1" 0.
Definition lan_router : OSPFServer := set_IntfConfMap {[lan_key := lan_intf]} (running_router 2 empty_db).

Lemma lan_ready : origin_ready 0 2 lan_router.
Proof.
  split.
  - split; [reflexivity|by eexists].
  - split; [reflexivity|zlia].
  - split; [|intros nbr; unfold nbr_router; cbn; rewrite lookup_empty; cbn; zlia].
    intros key ent H. cbn in H. apply lookup_singleton_Some in H as [<- <-].
    split; [by vm_compute|ground..|exists 0x0a000001; split; [by vm_compute|zlia]].
  - vm_compute. discriminate.
  - split; vm_compute; [discriminate|reflexivity].
Qed.

Lemma lan_links_some lss :
  Forall2 (announces 5 0 lan_router) (as_listed _ (map_to_list (IntfConfMap lan_router))) lss -> mjoin lss <> [].
Proof.
  assert (as_listed _ (map_to_list (IntfConfMap lan_router)) = [(lan_key, lan_intf)]) as -> by (by vm_compute).
  intros H. inversion H as [|? ls ? rest Hl Hr]; subst. inversion Hr; subst. cbn.
  inversion Hl as [a Ha Hne|Ha Hst|? Ha Hst Hls]; subst.
  - vm_compute in Ha. congruence.
  - exfalso. vm_compute in Hst. by apply Hst.
  - by inversion Hls.
Qed.

